(* ===== verification/_CoqProject ===== *)
-Q . S2P
Prelude.v
HullDobell.v
Libc.v
Rng.v
Cstr.v
RngTest.v
Log.v
ProcManip.v
PrepSystem.v
BenchCommands.v
CosTools.v
Perfexpl.v
Llc.v
PtrChase.v
LockNet.v
LockClient.v
Realtime.v
SqTraverse.v
PerfPoll.v
SqMain.v
Packet.v
FwdEngines.v
Checksum.v
FlowGen.v
TxOnly.v
IcmpEcho.v
PortConf.v
PortState.v
FwdConfig.v
RegOps.v
QueueMap.v
CoreConf.v
FwdSettings.v
SetCmds.v
FwdRun.v
FwdSession.v
CsumOnly.v
Engines.v
Params.v
LaunchArgs.v
PortCmds.v
RssCmds.v
StartUp.v
McastPool.v
FdirFlex.v
OffloadCmds.v
CmdSession.v
FilterCmds.v
FlowCtrl.v
BondCmds.v
VfCmds.v
HashCmds.v
Ieee1588.v
AnonPool.v
RxOnly.v
Bypass.v
ShowStats.v
