(* ===== verification/Prelude.v ===== *)
(** * CATBench: a verification library

    CATBench measures what Intel's Cache Allocation Technology does to the
    tail latency of programs that share a last-level cache.  This library
    models its C programs and proves them correct.  The sources are under
    src/; all file names below are relative to it.

    ** The program and its parts

    - The measurement drivers catbench.c, slowbro.c, locksmith.c and dist_a.c
      read their options (bench_commands.c), move every other process away
      from the cores they measure on (proc_manip.c, prep_system.c), program
      the cache classes, start the test programs and wait for them; parent
      and children meet at a signal.  log.c filters what they print,
      perfexpl.c samples the cache misses of a child.
    - The test programs are in clients/: square_evictions.c walks a working
      set in an order from the generator of rng.c; lockserver-ng.c chases
      pointers through an array for every request it gets over Ethernet
      (dpdk_wrapper.c), lockclient.c times these requests; llc.c reads the
      geometry of the cache.
    - test-pmd/ is a packet forwarder on DPDK: testpmd.c brings ports up and
      down and starts and stops forwarding on the cores; config.c configures
      cores, ports, streams, queues, VLANs and registers; cmdline.c is the
      command line; each remaining file is an engine that forwards, answers
      or generates packets.

    ** Files of the library

    Prelude.v (this file) has the machine integers, the results of code that
    can fail, C arrays, and the lemmas and tactics shared by all files.

    The benchmarks:
    - HullDobell.v is the number theory of linear congruential generators;
      Rng.v models clients/rng.c and proves that a seeded generator visits
      every index once, and when seeding goes wrong; RngTest.v models its
      test, clients/rng_test.c, whose verdict is exactly that property.
    - Libc.v and Cstr.v are the random numbers, number scanning and option
      parsing of the C library that the programs use.
    - Log.v, ProcManip.v, PrepSystem.v, BenchCommands.v, CosTools.v and
      Perfexpl.v model the file of the same name (CosTools.v the four
      drivers): what a driver leaves behind on every path, that parent and
      children cannot lose their signals in the order the code blocks them,
      and can in the other order; what perfexpl.c leaves behind when a call
      fails.
    - Llc.v models clients/llc.c; PtrChase.v the pointer chase of
      clients/lockserver-ng.c, a single cycle through the array; LockNet.v
      the trials of lockclient.c and the loop of lockserver-ng.c,
      LockClient.v the client's options and requests and the two programs
      together, request by request ([exchange]); Realtime.v their clock; SqTraverse.v and SqMain.v
      clients/square_evictions.c: every pass touches each line of the working
      set once and logs are never overrun; PerfPoll.v its counters
      (clients/perf_poll.c).

    The packet forwarder:
    - Packet.v has packets, mbufs and the device interface [Ethdev] (a class:
      receive and transmit bursts); FwdEngines.v, FlowGen.v, TxOnly.v,
      IcmpEcho.v and CsumOnly.v model the engines against it, over the
      Internet checksum of Checksum.v, and Engines.v plugs the generating
      ones into the forwarding loop: no mbuf is lost or freed twice, every
      call that sends gets exactly what is left to send ([handed]), the
      counters say what happened, and the packets sent are right.
    - PortConf.v, PortState.v: configuration and life cycle of the ports
      (testpmd.c), every call to a device allowed by DPDK's protocol: an
      automaton [device] over the calls that asks for a configuration before
      the queues and for all queues before the start.
    - FwdConfig.v: the streams of the cores (config.c) are disjoint and
      complete; FwdRun.v: forwarding on the cores step by step, from
      start_packet_forwarding to the statistics of stop_packet_forwarding;
      FwdSession.v: both refine an abstract state machine whose steps are
      labelled with what was asked and what the devices answered, and which
      these labels determine.
    - CoreConf.v, FwdSettings.v, QueueMap.v, RegOps.v: the commands of
      config.c that choose cores, ports, packets, VLAN tags, statistics
      counters and registers; SetCmds.v the callbacks of cmdline.c above
      them.
    - Params.v, LaunchArgs.v: parameters.c, the texts of the options and
      [launch_args_parse] over all of them; StartUp.v: from the parsed
      options to the started ports ([init_config], [init_port_config],
      memory pools, memory sockets).
    - PortCmds.v, OffloadCmds.v: the callbacks that change the configuration
      of the ports and what the devices are told when they are restarted;
      RssCmds.v, FdirFlex.v, FilterCmds.v, HashCmds.v, FlowCtrl.v,
      McastPool.v, VfCmds.v: receive side scaling, the flow director and
      the other filters, hash inputs, flow control, multicast addresses,
      virtual functions, rates, mirrors and tunnels; BondCmds.v: bonded
      devices.  CmdSession.v composes the callbacks: sessions of commands
      with forwarding in between.
    - RxOnly.v, Ieee1588.v: the engines that show what they receive and that
      timestamp; AnonPool.v: the memory pools of mempool_anon.c; Bypass.v and
      ShowStats.v: cards with a bypass, and the display of statistics,
      counters of queues and descriptors.

    ** How the code is modelled

    A C integer is a [Z] in the range of its type; conversions wrap around
    ([u8] ... [u64], [s32]).  Code that can be undefined or abort returns an
    [outcome]: [Done], [Undefined] for an access out of bounds or an operation
    the C standard does not define, [Aborted] for a failed assertion.  State is
    passed explicitly as records with the fields of the structs.  Concurrent
    parts are step relations or functions of a schedule: the signal handshake
    (BenchCommands.v) and the cores (FwdRun.v), and the theorems hold for every
    interleaving.  DPDK, libpqos, the kernel, the clock and the C library's
    random numbers are parameters: classes ([Ethdev], [Sched], [Pqos],
    [Libc], [FlowCtrlDev], [HashDev], [BypassDev], [DpdkText]), a record of
    answers ([dpdk]), or arguments; what a proof needs of them is a named
    hypothesis, and the witnesses instantiate them.
    What only prints is left out, or is a list of lines where a theorem is
    about it.

    ** Theorems

    The properties carry claim numbers C1, C2, ... in the order of their
    importance; each is preceded by its statement in words, and a lemma
    [<name>_witness] applies it to a concrete input.  By kind:
    - safety and invariants: ports_follow_protocol, forwarding_freezes_ports,
      cores_never_share, packet_fwd_accounts, prep_system_success,
      handshake_safe, lcores_stay_usable, commands_safe, startup_pools,
      anon_pool_maps;
    - refinement of an abstract specification: session_refines (forwarding),
      startup_tells_devices and port_ops_refine (what the devices were told),
      qmaps_refine_map and mcast_refines (arrays as maps and sets),
      hash_session_shown;
    - functional correctness: rng_lcfc_full_cycle, square_evictions_visits,
      client_gets_answers, session_totals, cores_share_streams, setup_rngs_fit,
      config_reaches_devices, launch_args_in_order, csum_checksums_valid,
      icmp_reply_ok, flow_gen_burst, ieee1588_answers, simple_config_routes;
    - termination and liveness: handshake_live, stop_terminates,
      ptrchase_setup_hamiltonian, rng_lcfc_init_full_cycle;
    - types, bounds, equivalence and round trips: launch_args_typed,
      bufappend_logs_all, copy_split_copies, reg_field_roundtrip,
      flex_filter_asks;
    - errors the code does not recover from: start_without_pool_sticks,
      bonded_slot_sticks.
    Further theorems of the files, without a number, show what follows from
    these and where the code departs from its comments.

    ** Fuel

    Loops that count are structural.  The others take fuel and say when it is
    enough: the walk of [rng_lcfc_init] and the pointer chase (as many steps
    as the theorem's bound), the retries of macfwd-retry.c and icmpecho.c (the
    code's own bound on retries), [simple_loop] of FwdConfig.v (one step per
    port), [flush_queue] of FwdRun.v (the bursts the device still has; with
    a device that always has packets the code does not end either), the
    searches over the ports (one step per port), the lists of tuples in
    the texts of Params.v (the length of the text), the wait for
    links (90 passes) and for a timestamp (1000 microseconds), which are the
    code's own bounds.

    ** Not modelled

    - The tables of tokens in test-pmd/cmdline.c, half of the file, are
      data of DPDK's command line library, which also parses the input; of
      the callbacks, those that only pass their arguments to one function,
      and the ones that print help.
    - The functions of test-pmd/config.c and testpmd.c that only print the
      configuration of ports, streams, bonding, DCB and the flow director.
    - The median in lockclient.c and lockserver-ng.c (not compiled in).
    - setpgrp.c, onmycommand.c, movnt.h and syscallers.h: wrappers of single
      system calls and instructions.
    - Scripts, patches and plots: no part of the C programs. *)

From Stdlib Require Export ZArith Lia Bool List.
From stdpp Require Export base tactics numbers list.
From Stdlib Require Export Znumtheory.

#[global] Open Scope Z_scope.

(** ** Machine integers

    A C integer is a [Z]; [uN x] is the conversion to the unsigned type of
    width N (wrap-around), [sN x] the conversion to the signed type, which is
    two's complement on every platform the program targets. *)

Definition u8 (x : Z) : Z := x mod 2 ^ 8.
Definition u16 (x : Z) : Z := x mod 2 ^ 16.
Definition u32 (x : Z) : Z := x mod 2 ^ 32.
Definition u64 (x : Z) : Z := x mod 2 ^ 64.

Definition sgn (w x : Z) : Z :=
  if x mod 2 ^ w <? 2 ^ (w - 1) then x mod 2 ^ w else x mod 2 ^ w - 2 ^ w.
Definition s8 (x : Z) : Z := sgn 8 x.
Definition s16 (x : Z) : Z := sgn 16 x.
Definition s32 (x : Z) : Z := sgn 32 x.
Definition s64 (x : Z) : Z := sgn 64 x.

(** The value range of [int]: signed overflow is undefined behaviour. *)
Definition in_s32 (x : Z) : bool := (- 2 ^ 31 <=? x) && (x <? 2 ^ 31).

Create HintDb cint.
Create Rewrite HintDb cint.

Lemma u8_range x : 0 <= u8 x < 2 ^ 8.
Proof. apply Z.mod_pos_bound. lia. Qed.
Lemma u16_range x : 0 <= u16 x < 2 ^ 16.
Proof. apply Z.mod_pos_bound. lia. Qed.
Lemma u32_range x : 0 <= u32 x < 2 ^ 32.
Proof. apply Z.mod_pos_bound. lia. Qed.
Lemma u64_range x : 0 <= u64 x < 2 ^ 64.
Proof. apply Z.mod_pos_bound. lia. Qed.
#[export] Hint Resolve u8_range u16_range u32_range u64_range : cint.

Lemma u8_small x : 0 <= x < 2 ^ 8 -> u8 x = x.
Proof. apply Z.mod_small. Qed.
Lemma u16_small x : 0 <= x < 2 ^ 16 -> u16 x = x.
Proof. apply Z.mod_small. Qed.
Lemma u32_small x : 0 <= x < 2 ^ 32 -> u32 x = x.
Proof. apply Z.mod_small. Qed.
Lemma u64_small x : 0 <= x < 2 ^ 64 -> u64 x = x.
Proof. apply Z.mod_small. Qed.
#[export] Hint Rewrite u8_small u16_small u32_small u64_small using lia : cint.

Lemma s32_small x : - 2 ^ 31 <= x < 2 ^ 31 -> s32 x = x.
Proof.
  intros H. unfold s32, sgn.
  destruct (decide (0 <= x)).
  - rewrite Z.mod_small by lia. destruct (Z.ltb_spec x (2 ^ (32 - 1))); lia.
  - replace (x mod 2 ^ 32) with (x + 2 ^ 32).
    + destruct (Z.ltb_spec (x + 2 ^ 32) (2 ^ (32 - 1))); lia.
    + symmetry. rewrite <- (Z_mod_plus_full x 1). apply Z.mod_small. lia.
Qed.
#[export] Hint Rewrite s32_small using lia : cint.

(** ** Outcomes

    What a call of the program does: it returns, an [assert] or [rte_exit]
    ends the process, or the C standard gives it no meaning (an access out
    of bounds, a division by zero, a signed overflow). *)

Inductive outcome (A : Type) : Type :=
| Done (a : A)
| Aborted
| Undefined.
Arguments Done {A} _.
Arguments Aborted {A}.
Arguments Undefined {A}.

#[export] Instance outcome_ret : MRet outcome := @Done.
#[export] Instance outcome_bind : MBind outcome := fun A B f m =>
  match m with
  | Done a => f a
  | Aborted => Aborted
  | Undefined => Undefined
  end.
#[export] Instance outcome_fmap : FMap outcome := fun A B f m =>
  match m with
  | Done a => Done (f a)
  | Aborted => Aborted
  | Undefined => Undefined
  end.

(** [assert(b)] in C. *)
Definition c_assert (b : bool) : outcome unit := if b then Done tt else Aborted.
(** What the C standard requires of an operation's arguments. *)
Definition c_defined (b : bool) : outcome unit := if b then Done tt else Undefined.

Definition of_opt {A} (o : option A) : outcome A :=
  match o with Some a => Done a | None => Undefined end.

Lemma outcome_bind_Done {A B} (f : A -> outcome B) (m : outcome A) b :
  m ≫= f = Done b <-> exists a, m = Done a /\ f a = Done b.
Proof. destruct m; cbn; naive_solver. Qed.

Ltac inv_outcome :=
  repeat match goal with
  | H : mbind _ _ = Done _ |- _ =>
      apply outcome_bind_Done in H; destruct H as [? [? H]]
  | H : c_assert ?b = Done _ |- _ =>
      let E := fresh "Hassert" in
      destruct b eqn:E; cbn in H; [ | discriminate H]; clear H
  | H : c_defined ?b = Done _ |- _ =>
      let E := fresh "Hdef" in
      destruct b eqn:E; cbn in H; [ | discriminate H]; clear H
  | H : of_opt ?o = Done _ |- _ =>
      let E := fresh "Hopt" in
      destruct o eqn:E; cbn in H; [ | discriminate H]
  | H : Done _ = Done _ |- _ => injection H as H
  | H : mret _ = Done _ |- _ => injection H as H
  end.

(** ** Arrays

    A C array is a list; an access out of its bounds is [None]. *)

Definition zget {A} (l : list A) (i : Z) : option A :=
  if 0 <=? i then l !! Z.to_nat i else None.

Definition zset {A} (l : list A) (i : Z) (x : A) : option (list A) :=
  if (0 <=? i) && (i <? Z.of_nat (length l)) then Some (<[Z.to_nat i := x]> l) else None.

Lemma zget_Some {A} (l : list A) i x :
  zget l i = Some x <-> 0 <= i /\ l !! Z.to_nat i = Some x.
Proof. unfold zget. destruct (Z.leb_spec 0 i); naive_solver lia. Qed.

Lemma zget_is_Some {A} (l : list A) i :
  0 <= i < Z.of_nat (length l) -> is_Some (zget l i).
Proof.
  intros H. unfold zget. destruct (Z.leb_spec 0 i); [ | lia].
  apply lookup_lt_is_Some. lia.
Qed.

Lemma zset_Some {A} (l l' : list A) i x :
  zset l i x = Some l' <->
  0 <= i < Z.of_nat (length l) /\ l' = <[Z.to_nat i := x]> l.
Proof.
  unfold zset.
  destruct (Z.leb_spec 0 i), (Z.ltb_spec i (Z.of_nat (length l))); cbn; naive_solver lia.
Qed.

Lemma zset_insert {A} (l : list A) i x :
  0 <= i < Z.of_nat (length l) -> zset l i x = Some (<[Z.to_nat i := x]> l).
Proof. intros Hi. by apply zset_Some. Qed.

Lemma zset_length {A} (l l' : list A) i x :
  zset l i x = Some l' -> length l' = length l.
Proof. intros [_ ->]%zset_Some. apply length_insert. Qed.

(** Case analysis on the boolean comparisons of a hypothesis or the goal. *)
Ltac bool_cases :=
  repeat match goal with
  | H : context [Z.ltb ?a ?b] |- _ => destruct (Z.ltb_spec a b)
  | H : context [Z.leb ?a ?b] |- _ => destruct (Z.leb_spec a b)
  | H : context [Z.eqb ?a ?b] |- _ => destruct (Z.eqb_spec a b)
  | |- context [Z.ltb ?a ?b] => destruct (Z.ltb_spec a b)
  | |- context [Z.leb ?a ?b] => destruct (Z.leb_spec a b)
  | |- context [Z.eqb ?a ?b] => destruct (Z.eqb_spec a b)
  end.

Lemma if_same {A} (b : bool) (x : A) : (if b then x else x) = x.
Proof. by destruct b. Qed.
