(* ===== verification/HullDobell.v ===== *)
(** * Number theory of linear congruential generators

    The Hull-Dobell theorem: the orbit of [x -> (a*x + c) mod m] has length
    [m] when [c] is coprime to [m], every prime factor of [m] divides [a - 1]
    and [4] divides [a - 1] if it divides [m].  Nothing here models code;
    Rng.v applies it to clients/rng.c. *)

From S2P Require Import Prelude.

Lemma prime_gt_1 p : prime p -> 1 < p.
Proof. by intros []. Qed.

Lemma prime_not_div_1 p : prime p -> ~ (p | 1).
Proof. intros Hp Hd. pose proof (prime_gt_1 p Hp). apply Z.divide_pos_le in Hd; lia. Qed.

(** ** Geometric sums *)

Fixpoint gsum (a : Z) (n : nat) : Z :=
  match n with O => 0 | S n => 1 + a * gsum a n end.

Lemma gsum_add a n m : gsum a (n + m) = gsum a n + a ^ Z.of_nat n * gsum a m.
Proof.
  induction n as [|n IH]; [cbn; lia|].
  rewrite Nat2Z.inj_succ, Z.pow_succ_r by lia. cbn. rewrite IH. lia.
Qed.

Lemma gsum_mul a n m : gsum a (n * m) = gsum a n * gsum (a ^ Z.of_nat n) m.
Proof.
  induction m as [|m IH]; [rewrite Nat.mul_0_r; cbn; lia|].
  rewrite Nat.mul_succ_r, Nat.add_comm, gsum_add, IH. cbn. lia.
Qed.

Lemma gsum_pow a n : (a - 1) * gsum a n = a ^ Z.of_nat n - 1.
Proof.
  induction n as [|n IH]; [cbn; lia|].
  rewrite Nat2Z.inj_succ, Z.pow_succ_r by lia. cbn [gsum]. nia.
Qed.

Lemma gsum_mod p a n : (p | a - 1) -> (p | gsum a n - Z.of_nat n).
Proof.
  intros Ha. induction n as [|n IH]; [exists 0; cbn; lia|].
  replace (gsum a (S n) - Z.of_nat (S n))
    with ((a - 1) * gsum a n + (gsum a n - Z.of_nat n)) by (cbn [gsum]; lia).
  apply Z.divide_add_r; [apply Z.divide_mul_l|]; done.
Qed.

(** Second-order expansion of the sum, doubled to avoid the division. *)
Lemma gsum_taylor b n : exists k,
  2 * gsum (1 + b) n = 2 * Z.of_nat n + b * (Z.of_nat n * (Z.of_nat n - 1)) + b * b * k.
Proof.
  induction n as [|n [k IH]]; [exists 0; cbn; lia|].
  exists (Z.of_nat n * (Z.of_nat n - 1) + (1 + b) * k).
  cbn [gsum]. nia.
Qed.

(** [a] is congruent to 1 modulo [p], and modulo 4 when [p] is 2. *)
Definition unit_like (p a : Z) : Prop := (p | a - 1) /\ (p = 2 -> (4 | a - 1)).

Lemma unit_like_pow p a n : unit_like p a -> unit_like p (a ^ Z.of_nat n).
Proof.
  intros [H1 H2]. split; [|intros ->; specialize (H2 eq_refl)];
    rewrite <- gsum_pow; by apply Z.divide_mul_l.
Qed.

Lemma gsum_prime p a :
  prime p -> unit_like p a -> exists t, gsum a (Z.to_nat p) = p * (1 + p * t).
Proof.
  intros Hp [[b Hb] H2]. pose proof (prime_gt_1 p Hp).
  destruct (decide (p = 2)) as [->|Hne].
  - destruct (H2 eq_refl) as [c Hc]. exists c. change (Z.to_nat 2) with 2%nat. cbn [gsum]. lia.
  - destruct (gsum_taylor (b * p) (Z.to_nat p)) as [k Hk].
    replace (1 + b * p) with a in Hk by lia. rewrite Z2Nat.id in Hk by lia.
    assert (Hd : (p * p | gsum a (Z.to_nat p) - p)).
    { apply (Gauss _ 2).
      - exists (b * (p - 1) + b * b * k). nia.
      - apply rel_prime_sym, rel_prime_mult; apply rel_prime_sym;
          apply prime_rel_prime; try done; intros Hd;
          apply Z.divide_pos_le in Hd; lia. }
    destruct Hd as [t Ht]. exists t. nia.
Qed.

Lemma rel_prime_pow p k x : 0 <= k -> rel_prime p x -> rel_prime (p ^ k) x.
Proof.
  intros Hk Hx. revert k Hk. apply natlike_ind.
  - rewrite Z.pow_0_r. apply rel_prime_1.
  - intros k Hk IH. rewrite Z.pow_succ_r by done.
    apply rel_prime_sym, rel_prime_mult; by apply rel_prime_sym.
Qed.

(** Lifting the exponent: a prime power divides the geometric sum only if it
    divides the number of terms. *)
Lemma gsum_lift p k a n :
  prime p -> unit_like p a ->
  (p ^ Z.of_nat k | gsum a n) -> (p ^ Z.of_nat k | Z.of_nat n).
Proof.
  intros Hp. revert a n. pose proof (prime_gt_1 p Hp).
  induction k as [|k IH]; intros a n Ha Hd; [apply Z.divide_1_l|].
  rewrite Nat2Z.inj_succ, Z.pow_succ_r in * by lia.
  assert (Hpn : (p | Z.of_nat n)).
  { destruct Hd as [q Hq]. destruct (gsum_mod p a n (proj1 Ha)) as [r Hr].
    exists (q * p ^ Z.of_nat k - r). lia. }
  destruct Hpn as [m Hm].
  assert (n = (Z.to_nat p * Z.to_nat m)%nat) as -> by nia.
  destruct (gsum_prime p a Hp Ha) as [t Ht].
  rewrite gsum_mul, Ht, <- Z.mul_assoc in Hd.
  apply Z.mul_divide_cancel_l in Hd; [|lia].
  apply Gauss in Hd.
  - apply IH in Hd; [|by apply unit_like_pow].
    rewrite Nat2Z.inj_mul, Z2Nat.id by lia.
    by apply Z.mul_divide_mono_l.
  - apply rel_prime_pow; [lia|]. apply prime_rel_prime; [done|].
    intros Hx. apply (prime_not_div_1 p Hp).
    replace 1 with ((1 + p * t) - p * t) by lia.
    apply Z.divide_sub_r; [done|apply Z.divide_factor_l].
Qed.

(** ** From prime powers to all divisors *)

Lemma prime_divisor n : 1 < n -> exists p, prime p /\ (p | n).
Proof.
  intros Hn. assert (0 <= n) as Hn0 by lia. revert Hn.
  pattern n. apply Z_lt_induction; [|done]. clear n Hn0. intros n IH Hn.
  destruct (prime_dec n) as [Hp|Hp]; [exists n; split; [done|apply Z.divide_refl]|].
  destruct (not_prime_divide n Hn Hp) as (q & Hq & Hqn).
  destruct (IH q) as (p & Hp' & Hpq); [lia..|].
  exists p. split; [done|]. by transitivity q.
Qed.

(** A divisor [m] splits as a maximal power of [p] and a coprime cofactor. *)
Lemma prime_power_split p m : prime p -> 0 < m ->
  exists k r, 0 < r /\ m = p ^ Z.of_nat k * r /\ ~ (p | r).
Proof.
  intros Hp Hm. pose proof (prime_gt_1 p Hp). assert (0 <= m) as Hm0 by lia. revert Hm.
  pattern m. apply Z_lt_induction; [|done]. clear m Hm0. intros m IH Hm.
  destruct (Zdivide_dec p m) as [[q Hq]|Hn].
  - destruct (IH q) as (k & r & Hr & Hqr & Hnr); [nia..|].
    exists (S k), r. rewrite Nat2Z.inj_succ, Z.pow_succ_r by lia.
    split; [done|]. split; [|done]. rewrite Hq, Hqr. lia.
  - exists O, m. split; [done|]. split; [cbn; lia|done].
Qed.

Lemma divide_by_prime_powers m n :
  0 < m ->
  (forall p k, prime p -> (p ^ Z.of_nat k | m) -> (p ^ Z.of_nat k | n)) ->
  (m | n).
Proof.
  intros Hm. assert (0 <= m) as Hm0 by lia. revert Hm.
  pattern m. apply Z_lt_induction; [|done]. clear m Hm0. intros m IH Hm H.
  destruct (decide (m = 1)) as [->|Hne]; [apply Z.divide_1_l|].
  destruct (prime_divisor m) as (p & Hp & Hpm); [lia|].
  destruct (prime_power_split p m Hp Hm) as (k & r & Hr & -> & Hnr).
  pose proof (prime_gt_1 p Hp).
  assert (Hk : (0 < k)%nat).
  { destruct k; [|lia]. destruct Hnr. cbn in Hpm. by rewrite Z.mul_1_l in Hpm. }
  assert (1 < p ^ Z.of_nat k) by (apply Z.pow_gt_1; lia).
  assert (Hrn : (r | n)).
  { apply IH; [nia|done|]. intros p' k' Hp' Hd. apply H; [done|]. by apply Z.divide_mul_r. }
  assert (Hpn : (p ^ Z.of_nat k | n)) by (apply H; [done|apply Z.divide_factor_l]).
  destruct Hrn as [q ->]. apply Z.mul_divide_mono_r.
  rewrite Z.mul_comm in Hpn. apply (Gauss _ r); [done|].
  apply rel_prime_pow; [lia|]. by apply prime_rel_prime.
Qed.

(** ** The generator *)

(** The parameters of a full-cycle generator: every prime factor of [m]
    divides [a - 1] but not [c], and 4 divides [a - 1] if [m] is even. *)
Record hull_dobell (m a c : Z) : Prop := {
  hd_mod : 0 < m;
  hd_unit : forall p, prime p -> (p | m) -> unit_like p a;
  hd_incr : forall p, prime p -> (p | m) -> ~ (p | c);
}.

Definition lcg_iter (a c x : Z) (n : nat) : Z := a ^ Z.of_nat n * x + c * gsum a n.

Lemma rel_prime_by_primes m x :
  0 < m -> (forall p, prime p -> (p | m) -> ~ (p | x)) -> rel_prime m x.
Proof.
  intros Hm H. apply Zgcd_1_rel_prime.
  pose proof (Z.gcd_nonneg m x). pose proof (Z.gcd_divide_l m x) as Hl.
  destruct (decide (Z.gcd m x = 1)) as [|Hne]; [done|exfalso].
  destruct (prime_divisor (Z.gcd m x)) as (p & Hp & Hd).
  - assert (Z.gcd m x <> 0); [|lia]. rewrite Z.gcd_eq_0. lia.
  - apply (H p Hp); [by transitivity (Z.gcd m x)|].
    transitivity (Z.gcd m x); [done|apply Z.gcd_divide_r].
Qed.

Lemma unit_like_not_div p a : prime p -> unit_like p a -> ~ (p | a).
Proof.
  intros Hp [H _] Hd. apply (prime_not_div_1 p Hp).
  replace 1 with (a - (a - 1)) by lia. by apply Z.divide_sub_r.
Qed.

(** Two points of an orbit coincide only a multiple of [m] steps apart. *)
Lemma lcg_distinct m a c x i n :
  hull_dobell m a c ->
  (m | lcg_iter a c x (i + n) - lcg_iter a c x i) -> (m | Z.of_nat n).
Proof.
  intros [Hm Hu Hc] Hd.
  replace (lcg_iter a c x (i + n) - lcg_iter a c x i)
    with (a ^ Z.of_nat i * ((a - 1) * x + c) * gsum a n) in Hd.
  2:{ unfold lcg_iter. rewrite gsum_add, Nat2Z.inj_add, Z.pow_add_r by lia.
      pose proof (gsum_pow a n). nia. }
  apply divide_by_prime_powers; [done|]. intros p k Hp Hk.
  destruct k as [|k]; [apply Z.divide_1_l|].
  assert (Hpm : (p | m)).
  { etransitivity; [|exact Hk]. rewrite Nat2Z.inj_succ, Z.pow_succ_r by lia.
    apply Z.divide_factor_l. }
  apply (gsum_lift p (S k) a n); [done|by apply Hu|].
  assert (Hdk := Z.divide_trans _ _ _ Hk Hd). apply Gauss in Hdk; [done|].
  apply rel_prime_pow; [lia|]. apply rel_prime_mult.
  - apply rel_prime_sym, rel_prime_pow; [lia|]. apply rel_prime_sym, prime_rel_prime; [done|].
    by apply unit_like_not_div, Hu.
  - apply prime_rel_prime; [done|]. intros Hx. apply (Hc p Hp Hpm).
    replace c with (((a - 1) * x + c) - (a - 1) * x) by lia.
    apply Z.divide_sub_r; [done|]. apply Z.divide_mul_l. by apply Hu.
Qed.

(** The orbit of a generator, as the list of its next [n] values. *)
Fixpoint lcg_orbit (m a c x : Z) (n : nat) : list Z :=
  match n with
  | O => []
  | S n => let y := (a * x + c) mod m in y :: lcg_orbit m a c y n
  end.

Lemma lcg_orbit_length m a c x n : length (lcg_orbit m a c x n) = n.
Proof. revert x. induction n; intros; cbn; auto. Qed.

Lemma lcg_iter_succ a c x n :
  lcg_iter a c (a * x + c) n = lcg_iter a c x (S n).
Proof.
  unfold lcg_iter. rewrite Nat2Z.inj_succ, Z.pow_succ_r by lia. cbn.
  pose proof (gsum_pow a n). nia.
Qed.

Lemma lcg_iter_mod m a c x y n :
  m <> 0 -> x mod m = y mod m -> lcg_iter a c x n mod m = lcg_iter a c y n mod m.
Proof.
  intros Hm H. unfold lcg_iter.
  rewrite <- Zplus_mod_idemp_l, <- Zmult_mod_idemp_r, H.
  by rewrite Zmult_mod_idemp_r, Zplus_mod_idemp_l.
Qed.

Lemma lcg_orbit_lookup m a c x n i :
  0 < m -> (i < n)%nat -> lcg_orbit m a c x n !! i = Some (lcg_iter a c x (S i) mod m).
Proof.
  intros Hm. revert x i. induction n as [|n IH]; intros x i Hi; [lia|].
  destruct i as [|i]; cbn.
  - unfold lcg_iter. cbn. do 2 f_equal. nia.
  - rewrite IH by lia. f_equal. rewrite <- (lcg_iter_succ a c x (S i)).
    apply lcg_iter_mod; [lia|]. apply Zmod_mod.
Qed.

Definition zrange (m : Z) : list Z := Z.of_nat <$> seq 0 (Z.to_nat m).

Lemma elem_of_zrange m x : x ∈ zrange m <-> 0 <= x < m.
Proof.
  unfold zrange. rewrite list_elem_of_fmap. split.
  - intros (i & -> & Hi%elem_of_seq). lia.
  - intros H. exists (Z.to_nat x). rewrite elem_of_seq. lia.
Qed.

Lemma zrange_length m : length (zrange m) = Z.to_nat m.
Proof. unfold zrange. by rewrite length_fmap, length_seq. Qed.

Lemma NoDup_zrange m : NoDup (zrange m).
Proof. apply NoDup_fmap_2; [intros ???; lia|apply NoDup_seq]. Qed.

(** The orbit has no repetition within [m] steps. *)
Lemma lcg_orbit_NoDup m a c x n :
  hull_dobell m a c -> (n <= Z.to_nat m)%nat -> NoDup (lcg_orbit m a c x n).
Proof.
  intros H Hn. pose proof (hd_mod _ _ _ H) as Hm.
  apply NoDup_alt. intros i j y Hi Hj.
  pose proof (lookup_lt_Some _ _ _ Hi) as Hli. pose proof (lookup_lt_Some _ _ _ Hj) as Hlj.
  rewrite lcg_orbit_length in *. rewrite lcg_orbit_lookup in Hi, Hj by done.
  assert (Hgen : forall i d, (i + d < n)%nat ->
    lcg_iter a c x (S i) mod m = lcg_iter a c x (S (i + d)) mod m -> d = O).
  { intros i' d Hd Heq. assert (Hdiv : (m | Z.of_nat d)).
    { apply (lcg_distinct m a c x (S i') d H). apply Z.mod_divide; [lia|].
      rewrite Zminus_mod, Nat.add_succ_l, Heq, Z.sub_diag. apply Z.mod_0_l. lia. }
    destruct (decide (d = O)) as [|Hne]; [done|].
    apply Z.divide_pos_le in Hdiv; lia. }
  simplify_eq. destruct (decide (i <= j)%nat).
  - assert (j - i = 0)%nat; [|lia]. apply (Hgen i); [lia|].
    replace (i + (j - i))%nat with j by lia. congruence.
  - assert (i - j = 0)%nat; [|lia]. apply (Hgen j); [lia|].
    replace (j + (i - j))%nat with i by lia. congruence.
Qed.

(** The Hull-Dobell theorem: [m] consecutive values are a permutation of
    the residues modulo [m]. *)
Lemma hull_dobell_full m a c x :
  hull_dobell m a c -> lcg_orbit m a c x (Z.to_nat m) ≡ₚ zrange m.
Proof.
  intros H. pose proof (hd_mod _ _ _ H) as Hm.
  apply NoDup_Permutation_bis.
  - apply NoDup_ListNoDup, lcg_orbit_NoDup; done.
  - by rewrite lcg_orbit_length, zrange_length.
  - intros y Hy%list_elem_of_In. apply list_elem_of_In, elem_of_zrange.
    apply list_elem_of_lookup in Hy as [i Hi].
    pose proof (lookup_lt_Some _ _ _ Hi) as Hl. rewrite lcg_orbit_length in Hl.
    rewrite lcg_orbit_lookup in Hi by done. simplify_eq. by apply Z.mod_pos_bound.
Qed.
