(* ===== verification/Libc.v ===== *)
(** * The C library's random numbers

    [rand()] is implementation-defined: a state, a seeding function and a
    step whose results lie in [0, RAND_MAX].  RAND_MAX is 2^31 - 1 on the
    glibc systems the program targets.  Components that draw random numbers
    take an instance of this interface. *)

From S2P Require Import Prelude.

Class Libc := {
  rand_state : Type;
  srand : Z -> rand_state;
  rand : rand_state -> Z * rand_state;
  rand_range : forall s, 0 <= fst (rand s) < 2 ^ 31;
}.

(** The [n]-th value that [rand()] returns from state [s]. *)
Fixpoint rand_nth `{Libc} (s : rand_state) (n : nat) : Z :=
  match n with
  | O => fst (rand s)
  | S n => rand_nth (snd (rand s)) n
  end.

(** A concrete library, the sample generator of the C standard (7.22.2.2)
    widened to 31 bits, on which witnesses are evaluated. *)
Definition sample_next (s : Z) : Z := u32 (s * 1103515245 + 12345).

Lemma sample_range s : 0 <= fst (sample_next s / 2, sample_next s) < 2 ^ 31.
Proof.
  pose proof (u32_range (s * 1103515245 + 12345)). cbn [fst]. unfold sample_next.
  split; [apply Z.div_pos; lia|apply Z.div_lt_upper_bound; lia].
Qed.

Definition sample_libc : Libc := {|
  rand_state := Z;
  srand := u32;
  rand s := (sample_next s / 2, sample_next s);
  rand_range := sample_range;
|}.
