(* ===== verification/Rng.v ===== *)
(** * clients/rng.c: the full-cycle linear congruential generator *)

From S2P Require Import Prelude HullDobell Libc.

(** ** Definitions *)

(** [struct rng_state]; every field is an [unsigned]. *)
Record rng_state : Type := RngState {
  last : Z;
  coeff : Z;
  incr : Z;
  mod_ : Z;
}.

(** [coprime(a, bnfacts, bpfacts)]: the [int] factors are converted to
    [unsigned] for the remainder, and a zero factor is a division by zero. *)
Fixpoint coprime (a : Z) (bpfacts : list Z) : outcome bool :=
  match bpfacts with
  | [] => Done true
  | p :: rest =>
      if u32 p =? 0 then Undefined
      else if a mod u32 p =? 0 then Done false
      else coprime a rest
  end.

(** The function-local [static bool seeded]: the code never assigns it. *)
Definition seeded : bool := false.

(** [res->coeff]: 4, times every factor, plus 1, in [unsigned] arithmetic. *)
Definition init_coeff (pfactors : list Z) : Z :=
  u32 (foldl (fun c p => u32 (c * u32 p)) 4 pfactors + 1).

(** [rng_lcfc(ctxt)]: the value returned and the updated context. *)
Definition rng_lcfc (ctxt : rng_state) : Z * rng_state :=
  let next := u32 (u32 (coeff ctxt * last ctxt) + incr ctxt) mod mod_ ctxt in
  (next, RngState next (coeff ctxt) (incr ctxt) (mod_ ctxt)).

(** The results of [n] calls. *)
Fixpoint rng_lcfc_n (ctxt : rng_state) (n : nat) : list Z * rng_state :=
  match n with
  | O => ([], ctxt)
  | S n =>
      let '(x, ctxt) := rng_lcfc ctxt in
      let '(xs, ctxt) := rng_lcfc_n ctxt n in (x :: xs, ctxt)
  end.

Section Init.
Context `{Libc}.

(** [rng_lcfc_init_incr]: [now] is what [time(NULL)] returns and [malloc_ok]
    whether the allocation succeeds; [None] is the NULL result. *)
Definition rng_lcfc_init_incr (now : Z) (malloc_ok : bool)
    (period : Z) (pfactors : list Z) (incr : Z) (rs : rand_state)
    : outcome (option rng_state * rand_state) :=
  _ ← c_assert (5 <=? period);
  _ ← c_assert (negb (Z.of_nat (length pfactors) =? 0));
  cp ← coprime incr pfactors;
  if negb cp then Done (None, rs)
  else
    let rs := if negb seeded then srand (u32 now) else rs in
    if negb malloc_ok then Done (None, rs)
    else
      let '(r, rs) := rand rs in
      Done (Some (RngState (u32 r) (init_coeff pfactors) incr period), rs).

(** The condition of the inner do-while loop of [rng_lcfc_init]. *)
Definition bad_incr (period incr : Z) : bool :=
  (incr =? 0) || (incr mod period =? 1) || (incr mod period =? u32 (period - 1)).

(** The two nested do-while loops; [fuel] bounds the calls of [rand()], and
    [None] means that they did not suffice. *)
Fixpoint draw_incr (fuel : nat) (period : Z) (pfactors : list Z) (rs : rand_state)
    : option (outcome (Z * rand_state)) :=
  match fuel with
  | O => None
  | S fuel =>
      if period =? 0 then Some Undefined
      else
        let '(r, rs) := rand rs in
        let incr := u32 r mod period in
        if bad_incr period incr then draw_incr fuel period pfactors rs
        else
          match coprime incr pfactors with
          | Done true => Some (Done (incr, rs))
          | Done false => draw_incr fuel period pfactors rs
          | Aborted => Some Aborted
          | Undefined => Some Undefined
          end
  end.

Definition rng_lcfc_init (fuel : nat) (now : Z) (malloc_ok : bool)
    (period : Z) (pfactors : list Z) (rs : rand_state)
    : option (outcome (option rng_state * rand_state)) :=
  match draw_incr fuel period pfactors rs with
  | None => None
  | Some o =>
      Some ('(incr, rs) ← o; rng_lcfc_init_incr now malloc_ok period pfactors incr rs)
  end.
End Init.

(** ** Lemmas *)

Definition zprod (l : list Z) : Z := foldr Z.mul 1 l.

(** What rng.h asks of the factor list: it holds every prime factor of the
    period (and only primes, as [int]s). *)
Definition factor_list (period : Z) (pfactors : list Z) : Prop :=
  (forall p, p ∈ pfactors -> prime p /\ p < 2 ^ 31) /\
  (forall p, prime p -> (p | period) -> p ∈ pfactors).

(** No 32-bit wrap-around disturbs the recurrence: either none happens below
    the period, or the period divides 2^32. *)
Definition wrap_free (period : Z) (pfactors : list Z) (incr : Z) : Prop :=
  4 * zprod pfactors + 1 < 2 ^ 32 /\
  ((4 * zprod pfactors + 1) * (period - 1) + incr < 2 ^ 32 \/ (period | 2 ^ 32)).

Lemma zprod_pos l : (forall p, p ∈ l -> prime p) -> 1 <= zprod l.
Proof.
  induction l as [|p l IH]; intros Hl; cbn; [lia|].
  pose proof (prime_gt_1 p (Hl p ltac:(left))).
  assert (1 <= zprod l); [|unfold zprod in *; nia].
  apply IH. intros q Hq. apply Hl. by right.
Qed.

Lemma zprod_divide p l : p ∈ l -> (p | zprod l).
Proof.
  induction 1; cbn; [apply Z.divide_factor_l|by apply Z.divide_mul_r].
Qed.

Lemma foldl_coeff l c :
  (forall p, p ∈ l -> prime p /\ p < 2 ^ 31) -> 0 < c -> c * zprod l < 2 ^ 32 ->
  foldl (fun c p => u32 (c * u32 p)) c l = c * zprod l.
Proof.
  revert c. induction l as [|p l IH]; intros c Hl Hc Hb; cbn in *; [lia|].
  destruct (Hl p ltac:(left)) as [Hp Hp31]. pose proof (prime_gt_1 p Hp).
  assert (1 <= foldr Z.mul 1 l).
  { apply zprod_pos. intros q Hq. apply Hl. by right. }
  assert (0 < c * p) by nia. assert (c * p <= c * (p * foldr Z.mul 1 l)) by nia.
  rewrite (u32_small p), u32_small by lia.
  rewrite IH; [unfold zprod; lia| |lia|unfold zprod; lia].
  intros q Hq. apply Hl. by right.
Qed.

Lemma init_coeff_eq l :
  (forall p, p ∈ l -> prime p /\ p < 2 ^ 31) -> 4 * zprod l + 1 < 2 ^ 32 ->
  init_coeff l = 4 * zprod l + 1.
Proof.
  intros Hl Hb. unfold init_coeff. assert (1 <= zprod l) by (apply zprod_pos; naive_solver).
  rewrite foldl_coeff by (done || lia). apply u32_small. lia.
Qed.

Lemma coprime_true a l :
  (forall p, p ∈ l -> prime p /\ p < 2 ^ 31) ->
  coprime a l = Done true -> forall p, p ∈ l -> ~ (p | a).
Proof.
  induction l as [|q l IH]; intros Hl Hc p Hp Hd; [by apply elem_of_nil in Hp|].
  destruct (Hl q ltac:(left)) as [Hq Hq31]. pose proof (prime_gt_1 q Hq).
  cbn in Hc. rewrite (u32_small q) in Hc by lia.
  destruct (Z.eqb_spec q 0); [done|]. destruct (Z.eqb_spec (a mod q) 0); [done|].
  apply elem_of_cons in Hp as [->|Hp].
  - apply Z.mod_divide in Hd; lia.
  - by apply (IH (fun p Hp => Hl p (list_elem_of_further p q l Hp)) Hc p Hp).
Qed.

(** Every NULL-free result of [rng_lcfc_init_incr] carries its arguments. *)
Lemma init_incr_inv `{Libc} now ok period pf inc rs g rs' :
  rng_lcfc_init_incr now ok period pf inc rs = Done (Some g, rs') ->
  5 <= period /\ coprime inc pf = Done true /\
  coeff g = init_coeff pf /\ incr g = inc /\ mod_ g = period /\
  last g = u32 (fst (rand (srand (u32 now)))).
Proof.
  unfold rng_lcfc_init_incr. intros Hi.
  destruct (Z.leb_spec 5 period); cbn in Hi; [|done].
  destruct (Z.of_nat (length pf) =? 0); cbn in Hi; [done|].
  destruct (coprime inc pf) as [[]| |]; cbn in Hi; try done.
  destruct ok; cbn in Hi; [|done].
  destruct (rand (srand (u32 now))) as [r rs''] eqn:E. cbn in Hi. by simplify_eq.
Qed.

(** The parameters of an initialised generator satisfy Hull and Dobell's
    conditions. *)
Lemma init_incr_hull_dobell `{Libc} now ok period pf inc rs g rs' :
  factor_list period pf -> 4 * zprod pf + 1 < 2 ^ 32 ->
  rng_lcfc_init_incr now ok period pf inc rs = Done (Some g, rs') ->
  hull_dobell (mod_ g) (coeff g) (incr g).
Proof.
  intros [Hl Hall] Hb (Hp & Hc & -> & -> & -> & _)%init_incr_inv.
  rewrite init_coeff_eq by done. split; [lia| |].
  - intros p Hpr Hd. assert (Hdp : (p | zprod pf)) by (apply zprod_divide, Hall; done).
    unfold unit_like. replace (4 * zprod pf + 1 - 1) with (4 * zprod pf) by lia.
    split; [by apply Z.divide_mul_r|]. intros _. apply Z.divide_factor_l.
  - intros p Hpr Hd. by apply (coprime_true inc pf), Hall.
Qed.

(** One step of the code is one step of the recurrence, without wrap-around. *)
Lemma wrap_free_step a c m x :
  0 < m -> 0 <= a -> 0 <= c -> 0 <= x < m ->
  a * (m - 1) + c < 2 ^ 32 \/ (m | 2 ^ 32) ->
  u32 (u32 (a * x) + c) mod m = (a * x + c) mod m.
Proof.
  intros Hm Ha Hc Hx [Hb|Hd].
  - assert (a * x <= a * (m - 1)) by nia. assert (0 <= a * x) by nia.
    by rewrite (u32_small (a * x)), u32_small by lia.
  - unfold u32. rewrite Zplus_mod_idemp_l. symmetry. by apply Zmod_div_mod; [lia|lia|].
Qed.

Lemma rng_lcfc_n_orbit g n :
  0 < mod_ g -> 0 <= coeff g -> 0 <= incr g -> 0 <= last g < mod_ g ->
  coeff g * (mod_ g - 1) + incr g < 2 ^ 32 \/ (mod_ g | 2 ^ 32) ->
  (rng_lcfc_n g n).1 = lcg_orbit (mod_ g) (coeff g) (incr g) (last g) n.
Proof.
  intros Hm Ha Hc. revert g Hm Ha Hc.
  induction n as [|n IH]; intros g Hm Ha Hc Hx Hw; [done|].
  cbn [rng_lcfc_n lcg_orbit rng_lcfc].
  rewrite wrap_free_step by done.
  set (y := (coeff g * last g + incr g) mod mod_ g).
  assert (0 <= y < mod_ g) by (by apply Z.mod_pos_bound).
  specialize (IH (RngState y (coeff g) (incr g) (mod_ g))). cbn in IH.
  destruct (rng_lcfc_n _ n) as [xs g']. cbn in *. by rewrite IH.
Qed.

(** Every residue has a predecessor under a full-cycle recurrence. *)
Lemma hull_dobell_pred m a c y :
  hull_dobell m a c -> 0 <= y < m -> exists x, 0 <= x < m /\ (a * x + c) mod m = y.
Proof.
  intros H Hy. pose proof (hd_mod _ _ _ H) as Hm.
  assert (Hin : y ∈ lcg_orbit m a c y (Z.to_nat m)).
  { rewrite (hull_dobell_full m a c y H). by apply elem_of_zrange. }
  revert Hin. generalize (Z.to_nat m) as n. generalize y at 2 as z. intros z n.
  assert (Hz : 0 <= z mod m < m) by (by apply Z.mod_pos_bound). revert z Hz.
  induction n as [|n IH]; intros z Hz Hin; [by apply elem_of_nil in Hin|].
  cbn in Hin. apply elem_of_cons in Hin as [->|Hin].
  - exists (z mod m). split; [done|].
    by rewrite <- Zplus_mod_idemp_l, Zmult_mod_idemp_r, Zplus_mod_idemp_l.
  - eapply IH; [|done]. by apply Z.mod_pos_bound.
Qed.

(** A generator behind its first call: the previous output is below the
    modulus and the recurrence does not wrap. *)
Record full_cycle (g : rng_state) : Prop := {
  fc_hd : hull_dobell (mod_ g) (coeff g) (incr g);
  fc_coeff : 0 <= coeff g;
  fc_incr : 0 <= incr g;
  fc_wrap : coeff g * (mod_ g - 1) + incr g < 2 ^ 32 \/ (mod_ g | 2 ^ 32);
}.

Lemma full_cycle_step g : full_cycle g -> full_cycle (rng_lcfc g).2.
Proof. by intros [H1 H2 H3 H4]; split. Qed.

Lemma rng_lcfc_range g : 0 < mod_ g -> 0 <= (rng_lcfc g).1 < mod_ g.
Proof. intros. by apply Z.mod_pos_bound. Qed.

(** From any state, even right after initialisation when [last] is an
    arbitrary [rand()], the next calls walk an orbit of the recurrence. *)
Lemma full_cycle_orbit g n :
  full_cycle g -> exists x,
  (rng_lcfc_n g n).1 = lcg_orbit (mod_ g) (coeff g) (incr g) x n.
Proof.
  intros Hf. pose proof (hd_mod _ _ _ (fc_hd g Hf)) as Hm.
  pose proof (rng_lcfc_range g Hm) as Hr.
  destruct n as [|n]; [by exists 0|].
  destruct (hull_dobell_pred _ _ _ _ (fc_hd g Hf) Hr) as (x & Hx & Hy).
  exists x. cbn [lcg_orbit]. rewrite Hy.
  cbn [rng_lcfc_n]. destruct (rng_lcfc g) as [y g'] eqn:E.
  pose proof (full_cycle_step g Hf) as Hf'. rewrite E in *. cbn in *.
  injection E as Ey Eg. subst g'.
  pose proof (rng_lcfc_n_orbit (RngState y (coeff g) (incr g) (mod_ g)) n) as Ho.
  rewrite Ey in *. cbn in Ho.
  destruct (rng_lcfc_n _ n) as [xs g'']. cbn in *. f_equal. apply Ho; auto.
  - apply Hf.
  - apply Hf.
  - apply (fc_wrap g Hf).
Qed.

Lemma full_cycle_permutation g :
  full_cycle g -> (rng_lcfc_n g (Z.to_nat (mod_ g))).1 ≡ₚ zrange (mod_ g).
Proof.
  intros Hf. destruct (full_cycle_orbit g (Z.to_nat (mod_ g)) Hf) as [x ->].
  apply hull_dobell_full, Hf.
Qed.

Lemma init_full_cycle `{Libc} now ok period pf inc rs g rs' :
  factor_list period pf -> wrap_free period pf inc -> 0 <= inc ->
  rng_lcfc_init_incr now ok period pf inc rs = Done (Some g, rs') -> full_cycle g.
Proof.
  intros Hf [Hb Hw] Hinc Hi.
  pose proof (init_incr_hull_dobell _ _ _ _ _ _ _ _ Hf Hb Hi) as Hd.
  apply init_incr_inv in Hi as (Hp & Hc & Ec & Ei & Em & _).
  assert (1 <= zprod pf) by (apply zprod_pos; naive_solver (apply Hf; done)).
  rewrite init_coeff_eq in Ec by (done || apply Hf).
  split; [done| | |]; rewrite ?Ec, ?Ei, ?Em; lia || done.
Qed.

(** ** Success of the initialisation *)

Lemma coprime_complete a l :
  (forall p, p ∈ l -> prime p /\ p < 2 ^ 31) ->
  (forall p, p ∈ l -> ~ (p | a)) -> coprime a l = Done true.
Proof.
  induction l as [|q l IH]; intros Hl Hn; cbn; [done|].
  destruct (Hl q ltac:(left)) as [Hq Hq31]. pose proof (prime_gt_1 q Hq).
  rewrite (u32_small q) by lia.
  destruct (Z.eqb_spec q 0); [lia|]. destruct (Z.eqb_spec (a mod q) 0) as [Hz|].
  - apply Z.mod_divide in Hz; [|lia]. by destruct (Hn q ltac:(left)).
  - apply IH; intros p Hp; [apply Hl|apply Hn]; by right.
Qed.

Lemma coprime_defined a l :
  (forall p, p ∈ l -> prime p /\ p < 2 ^ 31) -> exists b, coprime a l = Done b.
Proof.
  induction l as [|q l IH]; intros Hl; cbn; [by exists true|].
  destruct (Hl q ltac:(left)) as [Hq Hq31]. pose proof (prime_gt_1 q Hq).
  rewrite (u32_small q) by lia.
  destruct (Z.eqb_spec q 0); [lia|]. destruct (a mod q =? 0); [by exists false|].
  apply IH. intros p Hp. apply Hl. by right.
Qed.

Lemma init_incr_success `{Libc} now period pf inc rs :
  5 <= period -> pf <> [] -> coprime inc pf = Done true ->
  exists g rs', rng_lcfc_init_incr now true period pf inc rs = Done (Some g, rs')
    /\ mod_ g = period.
Proof.
  intros Hp Hne Hc. unfold rng_lcfc_init_incr.
  destruct (Z.leb_spec 5 period); [|lia]. destruct pf as [|q pf]; [done|].
  cbn [length]. destruct (Z.eqb_spec (Z.of_nat (S (length pf))) 0); [lia|]. cbn [negb c_assert].
  cbn [mbind outcome_bind]. rewrite Hc. cbn.
  destruct (rand _) as [r rs']. cbn. eauto.
Qed.

(** The loops of [rng_lcfc_init] stop at the first draw that passes both
    tests; the draw is the increment. *)
Definition good_draw (period : Z) (pf : list Z) (r : Z) : bool :=
  let inc := u32 r mod period in
  negb (bad_incr period inc) &&
  match coprime inc pf with Done b => b | _ => false end.

Lemma draw_incr_good `{Libc} n period pf rs :
  5 <= period -> (forall p, p ∈ pf -> prime p /\ p < 2 ^ 31) ->
  good_draw period pf (rand_nth rs n) = true ->
  exists inc rs', draw_incr (S n) period pf rs = Some (Done (inc, rs')) /\
    0 <= inc < period /\ coprime inc pf = Done true.
Proof.
  intros Hp Hl. revert rs. induction n as [|n IH]; intros rs Hg.
  - cbn in Hg |- *. destruct (Z.eqb_spec period 0); [lia|].
    destruct (rand rs) as [r rs']. cbn in Hg |- *. unfold good_draw in Hg.
    destruct (bad_incr _ _); cbn in Hg; [done|].
    destruct (coprime _ _) as [[]| |] eqn:E; try done.
    eexists _, _. split; [done|]. split; [apply Z.mod_pos_bound; lia|done].
  - cbn [rand_nth] in Hg. specialize (IH _ Hg).
    assert (Hpos : 0 < period) by lia.
    remember (S n) as k. cbn. destruct (Z.eqb_spec period 0); [lia|].
    destruct (rand rs) as [r rs']. cbn in IH.
    destruct (bad_incr _ _); [done|].
    destruct (coprime_defined (u32 r mod period) pf Hl) as [[] E]; rewrite E; [|done].
    eexists _, _. split; [done|]. split; [by apply Z.mod_pos_bound|done].
Qed.

Lemma rng_lcfc_n_app g n k :
  (rng_lcfc_n g (n + k)).1 = (rng_lcfc_n g n).1 ++ (rng_lcfc_n (rng_lcfc_n g n).2 k).1.
Proof.
  revert g. induction n as [|n IH]; intros g; [done|].
  cbn [Nat.add rng_lcfc_n]. destruct (rng_lcfc g) as [x g'].
  specialize (IH g'). destruct (rng_lcfc_n g' (n + k)), (rng_lcfc_n g' n).
  cbn in *. by rewrite IH.
Qed.

(** ** Properties *)

(** C1: the full cycle of the generator.  When [pfactors] lists the prime
    factors of [period], none of them divides the increment and the
    recurrence is not disturbed by the 32-bit wrap-around,
    [rng_lcfc_init_incr] succeeds and the first [period] results of
    [rng_lcfc] are the numbers below [period], each exactly once. *)
Theorem rng_lcfc_full_cycle `{Libc} now period pf inc rs
    (Hp : 5 <= period) (Hne : pf <> []) (Hf : factor_list period pf)
    (Hc : forall p, p ∈ pf -> ~ (p | inc)) (Hi : 0 <= inc < 2 ^ 32)
    (Hw : wrap_free period pf inc) :
  exists g rs', rng_lcfc_init_incr now true period pf inc rs = Done (Some g, rs') /\
    (rng_lcfc_n g (Z.to_nat period)).1 ≡ₚ zrange period.
Proof.
  pose proof (coprime_complete inc pf (proj1 Hf) Hc) as Hcp.
  destruct (init_incr_success now period pf inc rs Hp Hne Hcp) as (g & rs' & Hg & <-).
  exists g, rs'. split; [done|]. apply full_cycle_permutation.
  by eapply (init_full_cycle _ _ _ _ _ _ _ _ Hf Hw (proj1 Hi)).
Qed.


Lemma small_mod_6 x : 0 <= x mod 6 < 6.
Proof. apply Z.mod_pos_bound. lia. Qed.

(** Rng.h admits every period from 5 on, but for the period 6 no
    increment passes the tests of [rng_lcfc_init] and its loop never ends. *)
Theorem rng_lcfc_init_6_diverges `{Libc} fuel now malloc_ok rs :
  rng_lcfc_init fuel now malloc_ok 6 [2; 3] rs = None.
Proof.
  assert (Hd : draw_incr fuel 6 [2; 3] rs = None).
  { revert rs. induction fuel as [|fuel IH]; intros rs; cbn; [done|].
    destruct (rand rs) as [r rs']. pose proof (small_mod_6 (u32 r)) as Hx.
    generalize dependent (u32 r mod 6). intros x Hx.
    assert (x = 0 \/ x = 1 \/ x = 2 \/ x = 3 \/ x = 4 \/ x = 5) as Hc by lia.
    destruct Hc as [->|[->|[->|[->|[->| ->]]]]]; cbn; apply IH. }
  unfold rng_lcfc_init. by rewrite Hd.
Qed.

(** The generator is seeded anew by every initialisation ([seeded] is
    never set), so two generators made within one second start from the same
    [last], whatever was drawn in between. *)
Theorem rng_reseeded_every_time `{Libc} now p1 pf1 inc1 rs1 g1 rs1' p2 pf2 inc2 rs2 g2 rs2'
    (H1 : rng_lcfc_init_incr now true p1 pf1 inc1 rs1 = Done (Some g1, rs1'))
    (H2 : rng_lcfc_init_incr now true p2 pf2 inc2 rs2 = Done (Some g2, rs2')) :
  last g1 = last g2 /\ rs1' = rs2'.
Proof.
  revert H1 H2. unfold rng_lcfc_init_incr.
  destruct (5 <=? p1), (5 <=? p2); cbn; try done.
  destruct (Z.of_nat (length pf1) =? 0), (Z.of_nat (length pf2) =? 0); cbn; try done.
  destruct (coprime inc1 pf1) as [[]| |], (coprime inc2 pf2) as [[]| |]; cbn; try done.
  destruct (rand (srand (u32 now))) as [r rs]. cbn. naive_solver.
Qed.

(** The wrap-around at 32 bits breaks the full cycle that rng.c
    announces: for the period 510510 with its prime factors and the increment
    29, one output occurs twice within one period. *)
Theorem rng_wrap_breaks_full_cycle :
  match @rng_lcfc_init_incr sample_libc 0 true 510510 [2; 3; 5; 7; 11; 13; 17] 29 0 with
  | Done (Some g, _) => ~ NoDup (rng_lcfc_n g (Z.to_nat 510510)).1
  | _ => False
  end.
Proof.
  set (o := rng_lcfc_init_incr _ _ _ _ _ _). vm_compute in o. subst o. cbv beta iota.
  set (g := RngState _ _ _ _).
  replace (Z.to_nat 510510) with (1000 + Z.to_nat 509510)%nat by lia.
  rewrite rng_lcfc_n_app. cbn [fst]. intros (Hn & _)%NoDup_app.
  assert (Hl : (rng_lcfc_n g 1000).1 !! 50%nat = (rng_lcfc_n g 1000).1 !! 866%nat)
    by (vm_compute; reflexivity).
  pose proof (proj1 (NoDup_alt _) Hn 50%nat 866%nat 479165) as Hij.
  rewrite <- Hl in Hij. enough (50%nat = 866%nat) by lia.
  apply Hij; vm_compute; reflexivity.
Qed.

(** ** Witnesses *)

Lemma factor_list_2 : factor_list 8 [2].
Proof.
  split.
  - intros p ->%list_elem_of_singleton. split; [apply prime_2|lia].
  - intros p Hp Hd. apply list_elem_of_singleton.
    change 8 with (2 * (2 * 2)) in Hd. pose proof (prime_mult p Hp) as Hm.
    apply prime_div_prime; [done|apply prime_2|].
    apply Hm in Hd as [Hd|[Hd|Hd]%Hm]; exact Hd.
Qed.

Lemma wrap_free_2 inc : 0 <= inc < 8 -> wrap_free 8 [2] inc.
Proof. intros. split; cbn; [lia|left; lia]. Qed.

Lemma rng_lcfc_full_cycle_witness :
  exists g rs', @rng_lcfc_init_incr sample_libc 7 true 8 [2] 3 0 = Done (Some g, rs') /\
    (rng_lcfc_n g 8).1 ≡ₚ zrange 8.
Proof.
  apply (@rng_lcfc_full_cycle sample_libc 7 8 [2] 3 0).
  - lia.
  - discriminate.
  - exact factor_list_2.
  - intros p ->%list_elem_of_singleton [z Hz]. lia.
  - lia.
  - apply wrap_free_2. lia.
Defined.


Lemma rng_reseeded_every_time_witness :
  match @rng_lcfc_init_incr sample_libc 7 true 8 [2] 3 0,
        @rng_lcfc_init_incr sample_libc 7 true 9 [3] 4 5 with
  | Done (Some g1, _), Done (Some g2, _) => last g1 = last g2
  | _, _ => False
  end.
Proof.
  destruct (@rng_lcfc_init_incr sample_libc 7 true 8 [2] 3 0) as [[[g1|] r1]| |] eqn:E1;
    [|vm_compute in E1; discriminate E1..].
  destruct (@rng_lcfc_init_incr sample_libc 7 true 9 [3] 4 5) as [[[g2|] r2]| |] eqn:E2;
    [|vm_compute in E2; discriminate E2..].
  exact (proj1 (@rng_reseeded_every_time sample_libc _ _ _ _ _ _ _ _ _ _ _ _ _ E1 E2)).
Defined.
