(* ===== verification/Cstr.v ===== *)
(** * Strings of the C library: number scanning and option parsing

    The parts of string.h, stdlib.h and unistd.h that the programs use:
    [strtol] in base 10, [atoi], [sscanf] with one integer conversion and the
    sequence of results of [getopt].  A C string is a [string] without its
    terminating zero. *)

From S2P Require Import Prelude.
From stdpp Require Export strings.
From Stdlib Require Import Ascii.

#[global] Open Scope Z_scope.

Definition ascii_code (c : ascii) : Z := Z.of_nat (nat_of_ascii c).

(** [isspace] and the decimal digits. *)
Definition is_space (c : ascii) : bool :=
  (ascii_code c =? 32) || ((9 <=? ascii_code c) && (ascii_code c <=? 13)).
Definition is_digit (c : ascii) : bool := (48 <=? ascii_code c) && (ascii_code c <=? 57).

Fixpoint skip_spaces (s : string) : string :=
  match s with
  | EmptyString => s
  | String c r => if is_space c then skip_spaces r else s
  end.

(** The digits at the start of [s], their value on top of [acc], whether
    there was one, and the rest. *)
Fixpoint scan_digits (acc : Z) (seen : bool) (s : string) : Z * bool * string :=
  match s with
  | EmptyString => (acc, seen, s)
  | String c r =>
      if is_digit c then scan_digits (10 * acc + (ascii_code c - 48)) true r
      else (acc, seen, s)
  end.

(** A decimal integer with optional white space and sign in front; [None]
    when no digit was found (no conversion). *)
Definition scan_int (s : string) : option (Z * string) :=
  let s := skip_spaces s in
  let '(neg, s) :=
    match s with
    | String c r =>
        if ascii_code c =? 45 then (true, r) else if ascii_code c =? 43 then (false, r) else (false, s)
    | EmptyString => (false, s)
    end in
  let '(v, seen, rest) := scan_digits 0 false s in
  if seen then Some (if (neg : bool) then - v else v, rest) else None.

Definition LONG_MAX : Z := 2 ^ 63 - 1.
Definition LONG_MIN : Z := - 2 ^ 63.

(** [strtol(s, &end, 10)]: the value, whether [end != s], whether [errno] is
    ERANGE, and the text at [end]. *)
Definition strtol10 (s : string) : Z * bool * bool * string :=
  match scan_int s with
  | None => (0, false, false, s)
  | Some (v, rest) =>
      if v <? LONG_MIN then (LONG_MIN, true, true, rest)
      else if LONG_MAX <? v then (LONG_MAX, true, true, rest)
      else (v, true, false, rest)
  end.

(** [atoi], [sscanf(s, "%d", &v)] and [sscanf(s, "%u", &v)], as glibc
    computes them with [strtol] and [strtoul]. *)
Definition atoi (s : string) : Z := s32 (strtol10 s).1.1.1.

Definition sscanf_d (s : string) : option Z :=
  match scan_int s with
  | None => None
  | Some _ => Some (s32 (strtol10 s).1.1.1)
  end.

Definition sscanf_u (s : string) : option Z :=
  match scan_int s with
  | None => None
  | Some (v, _) => Some (u32 (if 2 ^ 64 <=? Z.abs v then 2 ^ 64 - 1 else v))
  end.

(** ** Numbers in other bases *)

(** The value of a digit in a base of at most 16. *)
Definition digit_value (base : Z) (c : ascii) : option Z :=
  let x := ascii_code c in
  let v := if is_digit c then x - 48
           else if (97 <=? x) && (x <=? 102) then x - 87
           else if (65 <=? x) && (x <=? 70) then x - 55 else 16 in
  if v <? base then Some v else None.

Fixpoint scan_base (base acc : Z) (seen : bool) (s : string) : Z * bool * string :=
  match s with
  | EmptyString => (acc, seen, s)
  | String c r =>
      match digit_value base c with
      | Some d => scan_base base (base * acc + d) true r
      | None => (acc, seen, s)
      end
  end.

Definition is_hex (c : ascii) : bool := if digit_value 16 c is Some _ then true else false.

(** The base a number is written in, and its digits: base 0 means that the
    prefix tells, and the prefix of base 16 may also be there when that is
    the base asked for. *)
Definition strip_prefix (base : Z) (s : string) : Z * string :=
  match s with
  | String z (String x (String h r)) =>
      if ((base =? 0) || (base =? 16)) && (ascii_code z =? 48)
         && ((ascii_code x =? 120) || (ascii_code x =? 88)) && is_hex h
      then (16, String h r)
      else if base =? 0 then ((if ascii_code z =? 48 then 8 else 10), s) else (base, s)
  | String z _ => if base =? 0 then ((if ascii_code z =? 48 then 8 else 10), s) else (base, s)
  | EmptyString => (if base =? 0 then 10 else base, s)
  end.

Definition ULONG_MAX : Z := 2 ^ 64 - 1.

(** [strtoul(s, &end, base)], with the results of [strtol10]. *)
Definition strtoul (base : Z) (s : string) : Z * bool * bool * string :=
  let s1 := skip_spaces s in
  let '(neg, s2) :=
    match s1 with
    | String c r =>
        if ascii_code c =? 45 then (true, r) else if ascii_code c =? 43 then (false, r) else (false, s1)
    | EmptyString => (false, s1)
    end in
  let '(b, s3) := strip_prefix base s2 in
  let '(v, seen, rest) := scan_base b 0 false s3 in
  if negb seen then (0, false, false, s)
  else if ULONG_MAX <? v then (ULONG_MAX, true, true, rest)
  else ((if (neg : bool) then u64 (- v) else v), true, false, rest).

(** [strchr]: the text before the first [c], and the text from there on. *)
Fixpoint strchr (c : ascii) (s : string) : option (string * string) :=
  match s with
  | EmptyString => None
  | String d r =>
      if Ascii.eqb d c then Some (EmptyString, s)
      else match strchr c r with Some (a, b) => Some (String d a, b) | None => None end
  end.

(** [fgets] with room for [n] characters besides the zero: the line, with
    its line feed if it fits, and the rest of the file. *)
Fixpoint fgets_chars (n : nat) (s : string) : string * string :=
  match n, s with
  | O, _ | _, EmptyString => (EmptyString, s)
  | S n, String c r =>
      if ascii_code c =? 10 then (String c EmptyString, r)
      else let '(l, rest) := fgets_chars n r in (String c l, rest)
  end.

Definition fgets (size : nat) (s : string) : option (string * string) :=
  match s with EmptyString => None | _ => Some (fgets_chars (size - 1) s) end.

(** ** getopt

    [getopt_all optstring argv] lists the results of the calls of [getopt]
    up to the one that returns -1: the option character and [optarg].  Words
    that are no options are skipped, as GNU [getopt] permutes them; an
    unknown option and a missing argument give ['?']. *)

(** Whether an option takes an argument; an optional one must follow in the
    same word. *)
Inductive opt_arg : Type := NoArg | Required | Optional.

(** How [c] is declared in [optstring], if it is. *)
Fixpoint opt_lookup (optstring : string) (c : ascii) : option opt_arg :=
  match optstring with
  | EmptyString => None
  | String o rest =>
      if (ascii_code c =? ascii_code o) && negb (ascii_code c =? 58) then
        Some (match rest with
              | String k (String k' _) =>
                  if ascii_code k =? 58 then if ascii_code k' =? 58 then Optional else Required
                  else NoArg
              | String k EmptyString => if ascii_code k =? 58 then Required else NoArg
              | EmptyString => NoArg
              end)
      else opt_lookup rest c
  end.

Definition opt_result : Type := ascii * option string.

(** One word's options [w] (behind the dash), with the words after it:
    results, whether the next word was consumed as an argument. *)
Fixpoint getopt_word (optstring : string) (w : string) (next : option string)
    : list opt_result * bool :=
  match w with
  | EmptyString => ([], false)
  | String c rest =>
      match opt_lookup optstring c with
      | None => let '(l, u) := getopt_word optstring rest next in (("?"%char, None) :: l, u)
      | Some NoArg => let '(l, u) := getopt_word optstring rest next in ((c, None) :: l, u)
      | Some Optional =>
          match rest with
          | String _ _ => ([(c, Some rest)], false)
          | EmptyString => ([(c, None)], false)
          end
      | Some Required =>
          match rest, next with
          | String _ _, _ => ([(c, Some rest)], false)
          | EmptyString, Some n => ([(c, Some n)], true)
          | EmptyString, None => ([("?"%char, None)], false)
          end
      end
  end.

(** The words of [argv] behind the program's name. *)
Fixpoint getopt_words (optstring : string) (skip : bool) (ws : list string)
    : list opt_result :=
  match ws with
  | [] => []
  | w :: ws' =>
      if skip then getopt_words optstring false ws'
      else
        match w with
        | String d (String c r) =>
            if ascii_code d =? 45 then
              if (ascii_code c =? 45) && (String.length r =? 0)%nat then []
              else
                let '(l, used) := getopt_word optstring (String c r) (head ws') in
                l ++ getopt_words optstring used ws'
            else getopt_words optstring false ws'
        | _ => getopt_words optstring false ws'
        end
  end.

Definition getopt_all (optstring : string) (argv : list string) : list opt_result :=
  getopt_words optstring false (tail argv).

(** ** getopt_long

    A long option has a name and perhaps an argument, behind "=" or in the
    next word.  A prefix of a name stands for the first option it begins;
    that is what the GNU function does when the options differ in nothing but
    the argument, and it is ambiguous only if one of the others differs in
    having an argument. *)

Definition long_opt : Type := string * bool.

Inductive optl_result : Type := ShortOpt (c : ascii) (arg : option string) | LongOpt (idx : nat) (arg : option string).

Fixpoint is_prefix (p s : string) : bool :=
  match p, s with
  | EmptyString, _ => true
  | String a p, String b s => Ascii.eqb a b && is_prefix p s
  | String _ _, EmptyString => false
  end.

(** The first option the name begins, and whether another one with other
    arguments follows. *)
Fixpoint prefix_match (idx : nat) (found : option (nat * bool)) (name : string) (opts : list long_opt)
    : option (nat * bool) :=
  match opts with
  | [] => found
  | (n, a) :: opts =>
      if is_prefix name n then
        match found with
        | None => prefix_match (S idx) (Some (idx, a)) name opts
        | Some (_, a') => if Bool.eqb a a' then prefix_match (S idx) found name opts else None
        end
      else prefix_match (S idx) found name opts
  end.

Definition find_long (name : string) (opts : list long_opt) : option (nat * bool) :=
  match list_find (fun o => o.1 = name) opts with
  | Some (i, o) => Some (i, o.2)
  | None => prefix_match 0 None name opts
  end.

(** A word behind its two dashes, with the next word: the result, and
    whether the next word was consumed. *)
Definition getopt_long_word (opts : list long_opt) (w : string) (next : option string) : optl_result * bool :=
  let '(name, arg) :=
    match strchr "=" w with
    | Some (n, String _ a) => (n, Some a)
    | _ => (w, None)
    end in
  let bad := ShortOpt "?" None in
  match find_long name opts with
  | None => (bad, false)
  | Some (i, false) => match arg with Some _ => (bad, false) | None => (LongOpt i None, false) end
  | Some (i, true) =>
      match arg, next with
      | Some a, _ => (LongOpt i (Some a), false)
      | None, Some n => (LongOpt i (Some n), true)
      | None, None => (bad, false)
      end
  end.

Fixpoint getopt_long_words (optstring : string) (opts : list long_opt) (skip : bool) (ws : list string)
    : list optl_result :=
  match ws with
  | [] => []
  | w :: ws' =>
      if skip then getopt_long_words optstring opts false ws'
      else
        match w with
        | String d (String c r) =>
            if ascii_code d =? 45 then
              if ascii_code c =? 45 then
                match r with
                | EmptyString => []
                | String _ _ =>
                    let '(x, used) := getopt_long_word opts r (head ws') in
                    x :: getopt_long_words optstring opts used ws'
                end
              else
                let '(l, used) := getopt_word optstring (String c r) (head ws') in
                ((fun x : opt_result => ShortOpt x.1 x.2) <$> l) ++ getopt_long_words optstring opts used ws'
            else getopt_long_words optstring opts false ws'
        | _ => getopt_long_words optstring opts false ws'
        end
  end.

Definition getopt_long_all (optstring : string) (opts : list long_opt) (argv : list string) : list optl_result :=
  getopt_long_words optstring opts false (tail argv).

(** ** Facts *)

Lemma string_length_app (s t : string) : String.length (s +:+ t) = (String.length s + String.length t)%nat.
Proof. induction s as [|c s IH]; [done|]. apply (f_equal S IH). Qed.

Lemma scan_digits_bounds acc seen s v b r :
  0 <= acc -> scan_digits acc seen s = (v, b, r) -> 0 <= v.
Proof.
  revert acc seen. induction s as [|c s IH]; intros acc seen Ha E; cbn in E.
  - by simplify_eq.
  - destruct (is_digit c) eqn:Ed; [|by simplify_eq].
    apply IH in E; [done|]. unfold is_digit in Ed. bool_cases; cbn in Ed; try done. lia.
Qed.

Lemma sgn_range w x : 0 < w -> - 2 ^ (w - 1) <= sgn w x < 2 ^ (w - 1).
Proof.
  intros Hw. unfold sgn.
  assert (2 ^ w = 2 * 2 ^ (w - 1)) as E.
  { rewrite <- Z.pow_succ_r by lia. f_equal. lia. }
  pose proof (Z.mod_pos_bound x (2 ^ w) ltac:(lia)).
  destruct (Z.ltb_spec (x mod 2 ^ w) (2 ^ (w - 1))); lia.
Qed.

Lemma s32_range x : - 2 ^ 31 <= s32 x < 2 ^ 31.
Proof. apply (sgn_range 32). lia. Qed.

Lemma sscanf_d_range s v : sscanf_d s = Some v -> - 2 ^ 31 <= v < 2 ^ 31.
Proof. unfold sscanf_d. destruct (scan_int s); [|done]. intros [= <-]. apply s32_range. Qed.

Lemma atoi_range s : - 2 ^ 31 <= atoi s < 2 ^ 31.
Proof. apply s32_range. Qed.

Example getopt_all_ex :
  getopt_all "n:c:e:r::" ["prog"; "-n1"; "-r"; "x"; "-e"; "25"; "-c"]%string =
  [("n"%char, Some "1"%string); ("r"%char, None); ("e"%char, Some "25"%string); ("?"%char, None)].
Proof. reflexivity. Qed.

Lemma digit_value_nonneg base c d : digit_value base c = Some d -> 0 <= d < base.
Proof.
  unfold digit_value, is_digit. intros E. destruct (_ <? base) eqn:Eb; [|done]. injection E as <-.
  apply Z.ltb_lt in Eb. split; [|exact Eb]. clear Eb. bool_cases; cbn; lia.
Qed.

Lemma scan_base_nonneg base acc seen s v b r :
  0 <= base -> 0 <= acc -> scan_base base acc seen s = (v, b, r) -> 0 <= v.
Proof.
  intros Hb. revert acc seen. induction s as [|c s IH]; intros acc seen Ha E; cbn [scan_base] in E.
  - by simplify_eq.
  - destruct (digit_value base c) as [d|] eqn:Ed; [|by simplify_eq].
    apply digit_value_nonneg in Ed. apply IH in E; [done|]. nia.
Qed.

Lemma strip_prefix_nonneg base s : 0 <= base -> 0 <= (strip_prefix base s).1.
Proof.
  intros Hb. unfold strip_prefix. destruct s as [|z [|x [|h r]]]; cbn;
    repeat match goal with |- context [if ?b then _ else _] => destruct b end; cbn; lia.
Qed.

Lemma strtoul_range base s : 0 <= base -> 0 <= (strtoul base s).1.1.1 <= ULONG_MAX.
Proof.
  intros Hb. unfold strtoul. destruct (match skip_spaces s with EmptyString => _ | _ => _ end) as [neg s2].
  pose proof (strip_prefix_nonneg base s2 Hb). destruct (strip_prefix base s2) as [b s3].
  destruct (scan_base b 0 false s3) as [[v seen] rest] eqn:E. apply scan_base_nonneg in E; [|done|lia].
  unfold ULONG_MAX. destruct seen; cbn [negb fst]; [|lia]. destruct (Z.ltb_spec (2 ^ 64 - 1) v); cbn [fst]; [lia|].
  destruct neg; cbn [fst]; [|lia]. pose proof (u64_range (- v)). lia.
Qed.

Example strtoul_ex :
  (strtoul 0 "0x1fz", strtoul 0 " 017", strtoul 16 "ff", strtoul 0 "0xg", strtoul 10 "-1", strtoul 10 "x") =
  ((31, true, false, "z"), (15, true, false, ""), (255, true, false, ""), (0, true, false, "xg"),
   (2 ^ 64 - 1, true, false, ""), (0, false, false, "x"))%string.
Proof. reflexivity. Qed.

Example getopt_long_ex :
  getopt_long_all "iah" [("ports", true); ("portmask", true); ("numa", false)]%string
    ["prog"; "--port=3"; "x"; "--numa"; "-i"; "--portmask"; "ff"; "--numa=1"]%string =
  [LongOpt 0 (Some "3"); LongOpt 2 None; ShortOpt "i" None; LongOpt 1 (Some "ff"); ShortOpt "?" None]%string.
Proof. reflexivity. Qed.
