(* ===== verification/RngTest.v ===== *)
(** * clients/rng_test.c: the test of the generator

    The program draws one period of numbers and marks those it has seen.
    Proved: its verdict is exactly the full cycle that Rng.v proves of the
    generator, so it passes for every list of prime factors that meets the
    conditions there. *)

From stdpp Require Import strings.
From S2P Require Import Prelude HullDobell Libc Cstr Rng.

(** ** Definitions *)

(** The loop over [iter], [n] rounds of it left, with the array [seen]: the
    exit code. *)
Fixpoint test_loop (period : Z) (n : nat) (lcfc : rng_state) (seen : list bool) : outcome Z :=
  match n with
  | O => Done 0
  | S n =>
      let '(rn, lcfc) := rng_lcfc lcfc in
      if period <=? rn then Done 1
      else
        s ← of_opt (zget seen rn);
        if (s : bool) then Done 1
        else seen ← of_opt (zset seen rn true); test_loop period n lcfc seen
  end.

(** The part of [main] after the generator has been made. *)
Definition test_generator (calloc_ok : bool) (period : Z) (g : option rng_state) : outcome Z :=
  match g with
  | None => Done 1
  | Some lcfc =>
      if calloc_ok then test_loop period (Z.to_nat period) lcfc (replicate (Z.to_nat period) false)
      else Done 1
  end.

(** [main]: [now], [malloc_ok] and [fuel] are those of [rng_lcfc_init]. *)
Definition rng_test_main `{Libc} (fuel : nat) (now : Z) (malloc_ok calloc_ok : bool) (argv : list string)
    (rs : rand_state) : option (outcome Z) :=
  let argc := Z.of_nat (length argv) in
  if argc <? 4 then Some (Done 1)
  else
    let period := u32 (atoi (nth 1 argv EmptyString)) in
    let nfactors := u64 (atoi (nth 2 argv EmptyString)) in
    if negb (nfactors =? u32 (u32 argc - 3)) then Some (Done 1)
    else
      let pfactors := atoi <$> take (Z.to_nat nfactors) (drop 3 argv) in
      o ← rng_lcfc_init fuel now malloc_ok period pfactors rs;
      Some (r ← o; test_generator calloc_ok period r.1).

(** ** Lemmas *)

(** What the loop is to find in the next [n] numbers. *)
Definition fresh (period : Z) (seen : list bool) (xs : list Z) : Prop :=
  NoDup xs /\ forall x, x ∈ xs -> x < period /\ zget seen x = Some false.

#[export] Instance fresh_dec period seen xs : Decision (fresh period seen xs).
Proof.
  unfold fresh. apply and_dec; [apply _|].
  destruct (decide (Forall (fun x => x < period /\ zget seen x = Some false) xs)) as [Hf|Hf].
  - left. by apply Forall_forall.
  - right. intros Ha. by apply Hf, Forall_forall.
Defined.

Lemma zset_get {A} (l l' : list A) i j v : zset l i v = Some l' -> zget l' j = if decide (i = j) then Some v else zget l j.
Proof.
  intros [Hi ->]%zset_Some. unfold zget. destruct (Z.leb_spec 0 j); case_decide; subst; try done; try lia.
  - apply list_lookup_insert_eq. lia.
  - apply list_lookup_insert_ne. lia.
Qed.

Lemma fresh_cons period seen seen' x xs :
  x < period -> zget seen x = Some false -> zset seen x true = Some seen' ->
  fresh period seen (x :: xs) <-> fresh period seen' xs.
Proof.
  intros Hx Hs Hs'. unfold fresh. rewrite NoDup_cons. split.
  - intros [[Hn Hd] Ha]. split; [done|]. intros y Hy. rewrite (zset_get _ _ _ _ _ Hs'), decide_False by (by intros ->).
    apply Ha. by right.
  - intros [Hd Ha]. repeat split; [|done|..].
    + intros Hin. specialize (Ha x Hin) as [_ Hz]. by rewrite (zset_get _ _ _ _ _ Hs'), decide_True in Hz.
    + apply elem_of_cons in H as [->|Hy]; [done|]. by apply Ha.
    + apply elem_of_cons in H as [->|Hy]; [done|]. specialize (Ha x0 Hy) as [_ Hz].
      rewrite (zset_get _ _ _ _ _ Hs') in Hz. by case_decide.
Qed.

(** The verdict of the loop, from any point of the period on. *)
Lemma test_loop_fresh period n g seen :
  0 < mod_ g -> length seen = Z.to_nat period ->
  test_loop period n g seen = Done (if decide (fresh period seen (rng_lcfc_n g n).1) then 0 else 1).
Proof.
  revert g seen. induction n as [|n IH]; intros g seen Hm Hl; cbn [test_loop rng_lcfc_n fst].
  { rewrite decide_True; [done|]. split; [constructor|]. by intros x Hx%elem_of_nil. }
  pose proof (rng_lcfc_range g Hm) as Hr. assert (Hm' : mod_ (rng_lcfc g).2 = mod_ g) by done.
  destruct (rng_lcfc g) as [x g'] eqn:E. destruct (rng_lcfc_n g' n) as [xs g''] eqn:Exs. cbn [fst snd] in *.
  destruct (Z.leb_spec period x).
  { rewrite decide_False; [done|]. intros [_ Ha]. destruct (Ha x ltac:(left)). lia. }
  destruct (zget_is_Some seen x) as [[] Hs]; [lia|..]; rewrite Hs; cbn [of_opt mbind outcome_bind].
  { rewrite decide_False; [done|]. intros [_ Ha]. destruct (Ha x ltac:(left)). congruence. }
  destruct (zset seen x true) as [seen'|] eqn:Es; [|rewrite zset_insert in Es by lia; done].
  cbn [of_opt mbind outcome_bind]. rewrite IH; [|by rewrite Hm'|].
  - rewrite Exs. cbn [fst]. f_equal. apply decide_ext. symmetry. by apply fresh_cons.
  - apply zset_Some in Es as [_ ->]. by rewrite length_insert.
Qed.

Lemma rng_lcfc_n_length g n : length (rng_lcfc_n g n).1 = n.
Proof.
  revert g. induction n as [|n IH]; intros g; cbn [rng_lcfc_n]; [done|].
  destruct (rng_lcfc g) as [x g']. specialize (IH g'). destruct (rng_lcfc_n g' n). cbn in *. by rewrite IH.
Qed.

Lemma rng_lcfc_n_range g n x : 0 < mod_ g -> x ∈ (rng_lcfc_n g n).1 -> 0 <= x < mod_ g.
Proof.
  revert g. induction n as [|n IH]; intros g Hm; cbn [rng_lcfc_n]; [by intros ?%elem_of_nil|].
  pose proof (rng_lcfc_range g Hm) as Hr. assert (Hm' : mod_ (rng_lcfc g).2 = mod_ g) by done.
  destruct (rng_lcfc g) as [y g']. specialize (IH g'). destruct (rng_lcfc_n g' n). cbn [fst snd] in *.
  rewrite Hm' in IH. intros [->|Hx]%elem_of_cons; [done|]. by apply IH.
Qed.

(** A period of fresh numbers is all the numbers below the period. *)
Lemma fresh_full period xs :
  0 < period -> length xs = Z.to_nat period -> (forall x, x ∈ xs -> 0 <= x < period) ->
  fresh period (replicate (Z.to_nat period) false) xs <-> xs ≡ₚ zrange period.
Proof.
  intros Hp Hl Hr. split.
  - intros [Hd _]. apply submseteq_length_Permutation; [|by rewrite zrange_length, Hl].
    apply NoDup_submseteq; [done|]. intros x Hx. by apply elem_of_zrange, Hr.
  - intros He. split; [rewrite He; apply NoDup_zrange|]. intros x Hx. specialize (Hr x Hx). split; [lia|].
    apply zget_Some. split; [lia|]. apply lookup_replicate_2. lia.
Qed.

(** The condition of [rng_lcfc_init]'s success. *)
Lemma init_loop_full_cycle `{Libc} now period pf rs n :
  5 <= period -> pf <> [] -> factor_list period pf -> good_draw period pf (rand_nth rs n) = true ->
  (forall inc, 0 <= inc < period -> wrap_free period pf inc) ->
  exists g rs', rng_lcfc_init (S n) now true period pf rs = Some (Done (Some g, rs')) /\
    mod_ g = period /\ full_cycle g.
Proof.
  intros Hp Hne Hf Hg Hw.
  destruct (draw_incr_good n period pf rs Hp (proj1 Hf) Hg) as (inc & rs1 & Hd & Hi & Hc).
  destruct (init_incr_success now period pf inc rs1 Hp Hne Hc) as (g & rs' & Hgi & Hm).
  exists g, rs'. unfold rng_lcfc_init. rewrite Hd. split; [by cbn; rewrite Hgi|]. split; [done|].
  by eapply (init_full_cycle _ _ _ _ _ _ _ _ Hf (Hw _ Hi) (proj1 Hi)).
Qed.

(** ** Properties *)

(** The test passes exactly for the generators that have a full cycle: the
    exit code is 0 if the next [period] numbers are all the numbers below
    [period], each once, and 1 otherwise; no index is out of bounds. *)
Theorem test_verdict g (Hm : 0 < mod_ g) :
  let ok := (rng_lcfc_n g (Z.to_nat (mod_ g))).1 ≡ₚ zrange (mod_ g) in
  (ok /\ test_generator true (mod_ g) (Some g) = Done 0) \/
  (~ ok /\ test_generator true (mod_ g) (Some g) = Done 1).
Proof.
  cbn [test_generator]. rewrite test_loop_fresh by (done || by rewrite length_replicate).
  pose proof (fresh_full (mod_ g) (rng_lcfc_n g (Z.to_nat (mod_ g))).1 Hm (rng_lcfc_n_length _ _)
    (fun x => rng_lcfc_n_range g _ x Hm)) as Hiff.
  case_decide; [left|right]; (split; [|done]); tauto.
Qed.

(** Run on the texts of a period and its prime factors the program exits with
    0, as soon as a draw of [rand()] is a good increment. *)
Theorem rng_test_passes `{Libc} now prog speriod scount sfactors rs n
    (Hc : atoi scount = Z.of_nat (length sfactors)) (Hlen : Z.of_nat (length sfactors) < 2 ^ 31 - 3)
    (Hp : 5 <= atoi speriod) (Hne : sfactors <> []) (Hf : factor_list (atoi speriod) (atoi <$> sfactors))
    (Hg : good_draw (atoi speriod) (atoi <$> sfactors) (rand_nth rs n) = true)
    (Hw : forall inc, 0 <= inc < atoi speriod -> wrap_free (atoi speriod) (atoi <$> sfactors) inc) :
  rng_test_main (S n) now true true (prog :: speriod :: scount :: sfactors) rs = Some (Done 0).
Proof.
  unfold rng_test_main. cbn [length nth]. pose proof (atoi_range speriod) as Hb.
  rewrite Hc, u64_small, (u32_small (atoi speriod)), (u32_small (Z.of_nat (S _))) by lia.
  assert (0 < Z.of_nat (length sfactors)) by (destruct sfactors; [done|cbn; lia]).
  rewrite u32_small by lia.
  destruct (Z.ltb_spec (Z.of_nat (S (S (S (length sfactors))))) 4); [lia|].
  destruct (Z.eqb_spec (Z.of_nat (length sfactors)) (Z.of_nat (S (S (S (length sfactors)))) - 3)); [|lia].
  cbn [negb drop]. rewrite Nat2Z.id, take_ge by done.
  assert (Hne' : atoi <$> sfactors <> []) by (by destruct sfactors).
  change (drop 0 sfactors) with sfactors.
  destruct (init_loop_full_cycle now _ _ rs n Hp Hne' Hf Hg Hw) as (g & rs' & -> & Hm & Hfc).
  cbn [mbind option_bind outcome_bind fst test_generator]. f_equal. rewrite <- Hm in *.
  rewrite test_loop_fresh by (lia || by rewrite length_replicate). rewrite decide_True; [done|].
  apply fresh_full; [lia|apply rng_lcfc_n_length|intros x; apply rng_lcfc_n_range; lia|].
  by apply full_cycle_permutation.
Qed.

(** ** Witnesses *)

Definition sample_rng : rng_state := RngState 3 9 5 8.

Lemma test_verdict_witness : test_generator true 8 (Some sample_rng) = Done 0.
Proof.
  destruct (test_verdict sample_rng ltac:(reflexivity)) as [[_ He]|[_ He]]; [done|].
  exfalso. vm_compute in He. discriminate He.
Defined.

Lemma rng_test_passes_witness :
  @rng_test_main sample_libc 2 7 true true ["rng_test"; "8"; "1"; "2"]%string 8 = Some (Done 0).
Proof.
  apply (@rng_test_passes sample_libc 7 "rng_test" "8" "1" ["2"] 8 1%nat)%string.
  - vm_compute. reflexivity.
  - vm_compute. reflexivity.
  - vm_compute. discriminate.
  - discriminate.
  - exact factor_list_2.
  - vm_compute. reflexivity.
  - apply wrap_free_2.
Defined.
