(* ===== verification/Log.v ===== *)
(** * log.c: the log with its verbosity threshold

    [vfprintf] on a working stream appends the formatted text and returns its
    length. *)

From S2P Require Import Prelude Cstr.

(** ** Definitions *)

(** [log_verbosity_t], with the values of the enumeration. *)
Inductive log_verbosity_t : Type :=
| LOG_FATAL | LOG_ERROR | LOG_WARNING | LOG_INFO | LOG_VERBOSE.

Definition verbosity_value (v : log_verbosity_t) : Z :=
  match v with
  | LOG_FATAL => 0 | LOG_ERROR => 1 | LOG_WARNING => 2 | LOG_INFO => 3 | LOG_VERBOSE => 4
  end.

Definition VERBOSITY_DESCRS (v : log_verbosity_t) : string :=
  match v with
  | LOG_FATAL => "FATAL: " | LOG_ERROR => "ERROR: " | LOG_WARNING => "WARNING: "
  | LOG_INFO => "INFO: " | LOG_VERBOSE => "VERBOSE: "
  end.

(** The statics [max_handled] and [write_dest] (NULL is [None]; streams are
    numbers, 2 is stderr), and what has been written: stream and text. *)
Record log_state : Type := LogState {
  max_handled : log_verbosity_t;
  write_dest : option Z;
  written : list (Z * string);
}.

Definition stderr : Z := 2.
Definition log_init : log_state := LogState LOG_ERROR None [].

Definition init_write_dest (s : log_state) : log_state :=
  match write_dest s with
  | None => LogState (max_handled s) (Some stderr) (written s)
  | Some _ => s
  end.

Definition log_get_verbosity (s : log_state) : log_verbosity_t := max_handled s.
Definition log_set_verbosity (max : log_verbosity_t) (s : log_state) : log_state :=
  LogState max (write_dest s) (written s).
Definition log_get_dest (s : log_state) : option Z * log_state :=
  let s := init_write_dest s in (write_dest s, s).
Definition log_set_dest (stream : option Z) (s : log_state) : log_state :=
  LogState (max_handled s) stream (written s).

(** [log_msg(verb, ...)] of the formatted [text]: the value returned. *)
Definition log_msg (verb : log_verbosity_t) (text : string) (s : log_state) : Z * log_state :=
  let s := init_write_dest s in
  if verbosity_value (max_handled s) <? verbosity_value verb then (0, s)
  else
    match write_dest s with
    | Some d =>
        (Z.of_nat (String.length text),
         LogState (max_handled s) (Some d) (written s ++ [(d, VERBOSITY_DESCRS verb); (d, text)]))
    | None => (0, s)
    end.

(** ** Properties *)

(** Messages in the order they are logged. *)
Definition log_all (msgs : list (log_verbosity_t * string)) (s : log_state) : log_state :=
  foldl (fun s m => (log_msg m.1 m.2 s).2) s msgs.

(** The log shows exactly the messages at most as verbose as the
    threshold, in order, each behind its label, on stderr unless another
    stream was set. *)
Theorem log_filters msgs s :
  written (log_all msgs s) =
  written s ++
    (m ← List.filter (fun m => verbosity_value m.1 <=? verbosity_value (max_handled s)) msgs;
     let d := default stderr (write_dest s) in [(d, VERBOSITY_DESCRS m.1); (d, m.2)]).
Proof.
  unfold log_all. revert s. induction msgs as [|[v t] msgs IH]; intros s; cbn [foldl List.filter].
  - cbn. by rewrite app_nil_r.
  - rewrite IH. destruct s as [mx d w]. unfold log_msg, init_write_dest. cbn [fst snd max_handled].
    destruct d as [d|]; cbn [max_handled write_dest written default];
      (destruct (Z.ltb_spec (verbosity_value mx) (verbosity_value v)),
        (Z.leb_spec (verbosity_value v) (verbosity_value mx)); try lia;
      cbn [snd max_handled write_dest written default]; [done|]);
      cbn [mbind list_bind]; by rewrite <- app_assoc.
Qed.
