(* ===== verification/ProcManip.v ===== *)
(** * proc_manip.c: moving every process of the system to a set of cores

    The kernel's scheduler interface and the output of [ps] are parameters
    (class [Sched]).  Log messages are not part of the model. *)

From S2P Require Import Prelude Cstr.

Definition EPERM : Z := 1.
Definition ESRCH : Z := 3.
Definition EFAULT : Z := 14.
Definition EINVAL : Z := 22.

(** A [cpu_set_t] is its bit mask of 1024 bits. *)
Definition CPU_SETSIZE : Z := 1024.
Definition CPU_ZERO : Z := 0.
Definition CPU_SET (cpu : Z) (m : Z) : Z :=
  if u64 cpu <? CPU_SETSIZE then Z.setbit m (u64 cpu) else m.
Definition CPU_ISSET (cpu : Z) (m : Z) : bool := Z.testbit m cpu.
Definition CPU_EQUAL (m1 m2 : Z) : bool := m1 =? m2.

(** The operating system: [ps_pids] is what one run of [ps -eo pid=] prints,
    a line each (without the newline), and [errno] after the last
    [getline]; [sched_setaffinity] gives its [errno]. *)
Class Sched := {
  sched : Type;
  ps_pids : sched -> list string * Z * sched;
  sched_getaffinity : sched -> Z -> option Z;
  sched_setaffinity : sched -> Z -> Z -> Z * sched;
}.

(** ** Definitions *)

Definition PROC_MANIP_ERR_PARSE_PID : Z := 1.
Definition PROC_MANIP_ERR_READ_MASK : Z := 2.
Definition PROC_MANIP_ERR_INSF_PRIV : Z := 4.
Definition PROC_MANIP_ERR_UNK_FAULT : Z := 8.

(** [trunc_newline]: the line up to its newline, and whether there was one. *)
Fixpoint trunc_newline (s : string) : string * bool :=
  match s with
  | EmptyString => (EmptyString, false)
  | String c r =>
      if ascii_code c =? 10 then (EmptyString, true)
      else let '(r', b) := trunc_newline r in (String c r', b)
  end.

(** The [strtol] of a line: [None] when the line is [stationary] or [errno]
    is set; otherwise the [pid_t]. *)
Definition parse_pid (line : string) : option Z :=
  let '(v, moved, erange, _) := strtol10 line in
  if negb moved then None else if (erange : bool) then None else Some (s32 v).

Section Rebalance.
Context `{Sched}.
(** [cores], and the contents of the uninitialised [curr_cores] on the pass
    of the loop with [n] lines to come. *)
Variables (cores : Z) (junk : nat -> Z).

(** The locals [err] and [updated] and the kernel. *)
Record reb : Type := Reb { err : Z; updated : Z; kernel : sched }.

(** How one pass of the loop ends: [continue] (or its end), or
    [goto cleanup]. *)
Inductive pass : Type := Continue (s : reb) | Cleanup (s : reb).

(** One pass of the loop of [proc_manip_rebalance_system]. *)
Definition rebalance_line (n : nat) (line : string) (s : reb) : outcome pass :=
  if (String.length line =? 0)%nat then Done (Continue s)
  else
    match parse_pid line with
    | None =>
        Done (Continue (Reb (Z.lor (err s) PROC_MANIP_ERR_PARSE_PID) (updated s) (kernel s)))
    | Some id =>
        let '(e, curr_cores) :=
          match sched_getaffinity (kernel s) id with
          | Some m => (err s, m)
          | None => (Z.lor (err s) PROC_MANIP_ERR_READ_MASK, junk n)
          end in
        if CPU_EQUAL cores curr_cores then Done (Continue (Reb e (updated s) (kernel s)))
        else
          let '(errno, k) := sched_setaffinity (kernel s) id cores in
          if errno =? EFAULT then Aborted
          else if errno =? EINVAL then Done (Continue (Reb e (updated s) k))
          else if errno =? EPERM then
            Done (Cleanup (Reb (Z.lor e PROC_MANIP_ERR_INSF_PRIV) (updated s) k))
          else if errno =? ESRCH then Done (Continue (Reb e (updated s) k))
          else Done (Continue (Reb e (updated s + 1) k))
    end.

(** The loop over the lines; [errno] is that of the [getline] that ends it,
    on which [assert(!errno)] stands. *)
Fixpoint rebalance_lines (lines : list string) (errno : Z) (s : reb) : outcome reb :=
  match lines with
  | [] => _ ← c_assert (errno =? 0); Done s
  | line :: rest =>
      p ← rebalance_line (length rest) line s;
      match p with
      | Continue s => rebalance_lines rest errno s
      | Cleanup s => Done s
      end
  end.

(** [proc_manip_rebalance_system(&err, cores)]: the count returned, [err] and
    the kernel afterwards. *)
Definition proc_manip_rebalance_system (k : sched) : outcome (Z * Z * sched) :=
  let '(lines, errno, k) := ps_pids k in
  s ← rebalance_lines lines errno (Reb 0 0 k);
  Done (updated s, err s, kernel s).
End Rebalance.

(** ** Lemmas *)

(** The kernel leaves the affinity alone when it refuses to change it. *)
Class SchedLaws `{Sched} : Prop := {
  setaffinity_refused : forall k id m e k',
    sched_setaffinity k id m = (e, k') -> e <> 0 -> k' = k;
}.

(** Nothing is left to move for a line: its process has the mask, or the
    kernel would refuse the move because it cannot be moved or is gone. *)
Definition settled `{Sched} (cores : Z) (k : sched) (line : string) : Prop :=
  line = EmptyString \/
  exists id, parse_pid line = Some id /\
    (sched_getaffinity k id = Some cores \/
     (sched_setaffinity k id cores).1 = EINVAL \/ (sched_setaffinity k id cores).1 = ESRCH).

Lemma lor_eq_0 a b : Z.lor a b = 0 -> a = 0 /\ b = 0.
Proof. apply Z.lor_eq_0_iff. Qed.

(** A pass never lowers [updated] and never clears a flag of [err]. *)
Lemma rebalance_line_mono `{Sched} cores junk n line s p :
  rebalance_line cores junk n line s = Done p ->
  let s' := match p with Continue s => s | Cleanup s => s end in
  updated s <= updated s' <= updated s + 1 /\ (err s' = 0 -> err s = 0).
Proof.
  unfold rebalance_line. intros E.
  destruct (String.length line =? 0)%nat; [simplify_eq; cbn; lia|].
  destruct (parse_pid line) as [id|]; [|simplify_eq; cbn; split; [lia|apply lor_eq_0]].
  destruct (sched_getaffinity (kernel s) id) as [m|];
    (destruct (CPU_EQUAL _ _); [simplify_eq; cbn; split; [lia|rewrite ?Z.lor_eq_0_iff; tauto]|]);
    destruct (sched_setaffinity _ _ _) as [errno k];
    destruct (errno =? EFAULT), (errno =? EINVAL), (errno =? EPERM), (errno =? ESRCH);
    simplify_eq; cbn; (split; [lia|]); rewrite ?Z.lor_eq_0_iff; tauto.
Qed.

Lemma rebalance_lines_mono `{Sched} cores junk lines errno s s' :
  rebalance_lines cores junk lines errno s = Done s' ->
  updated s <= updated s' <= updated s + Z.of_nat (length lines) /\ (err s' = 0 -> err s = 0).
Proof.
  revert s. induction lines as [|line lines IH]; intros s E; cbn in E.
  - destruct (errno =? 0); cbn in E; simplify_eq. cbn. lia.
  - destruct (rebalance_line _ _ _ _ _) as [p| |] eqn:Ep; cbn in E; try done.
    apply rebalance_line_mono in Ep as [Hu He]. cbn [length].
    destruct p as [s1|s1]; cbn in *.
    + apply IH in E as [Hu' He']. split; [lia|auto].
    + simplify_eq. split; [lia|auto].
Qed.

(** A pass that moved nothing and raised no flag met a settled line. *)
Lemma rebalance_line_settled `{SchedLaws} cores junk n line s p :
  rebalance_line cores junk n line s = Done p ->
  let s' := match p with Continue s => s | Cleanup s => s end in
  err s' = 0 -> updated s' = updated s ->
  settled cores (kernel s) line /\ kernel s' = kernel s /\ p = Continue s'.
Proof.
  unfold rebalance_line, settled. intros E.
  destruct (Nat.eqb_spec (String.length line) 0) as [Hz|].
  { simplify_eq. cbn. destruct line; [|done]. auto. }
  destruct (parse_pid line) as [id|]; [|simplify_eq; cbn; by intros [_ ?]%lor_eq_0].
  destruct (sched_getaffinity (kernel s) id) as [m|] eqn:Eg.
  - unfold CPU_EQUAL in E. destruct (Z.eqb_spec cores m) as [->|Hm].
    { simplify_eq. cbn. eauto 8. }
    destruct (sched_setaffinity (kernel s) id cores) as [e k] eqn:Es.
    pose proof (setaffinity_refused _ _ _ _ _ Es) as Hr.
    destruct (Z.eqb_spec e EFAULT); [done|].
    destruct (Z.eqb_spec e EINVAL) as [->|].
    { simplify_eq. cbn. rewrite Hr by done. intros. split_and!; [|done..].
      right. exists id. rewrite Es. auto. }
    destruct (Z.eqb_spec e EPERM); [simplify_eq; cbn; by intros [_ ?]%lor_eq_0|].
    destruct (Z.eqb_spec e ESRCH) as [->|]; simplify_eq; cbn; [|lia].
    rewrite Hr by done. intros. split_and!; [|done..].
    right. exists id. rewrite Es. auto.
  - assert (forall x, ~ Z.lor (Z.lor (err s) PROC_MANIP_ERR_READ_MASK) x = 0) as Hnz.
    { intros x [[_ ?]%lor_eq_0 _]%lor_eq_0. done. }
    pose proof (Hnz 0) as Hnz0. rewrite Z.lor_0_r in Hnz0.
    destruct (CPU_EQUAL _ _); [by simplify_eq|].
    destruct (sched_setaffinity _ _ _) as [e k].
    destruct (e =? EFAULT), (e =? EINVAL), (e =? EPERM), (e =? ESRCH); simplify_eq; cbn;
      intros Hc; (apply Hnz0 in Hc || apply Hnz in Hc); done.
Qed.

Lemma rebalance_lines_settled `{SchedLaws} cores junk lines errno s s' :
  rebalance_lines cores junk lines errno s = Done s' ->
  err s' = 0 -> updated s' = updated s ->
  Forall (settled cores (kernel s)) lines /\ kernel s' = kernel s.
Proof.
  revert s. induction lines as [|line lines IH]; intros s E He Hu; cbn in E.
  - destruct (errno =? 0); cbn in E; by simplify_eq.
  - destruct (rebalance_line _ _ _ _ _) as [p| |] eqn:Ep; cbn in E; try done.
    pose proof (rebalance_line_mono _ _ _ _ _ _ Ep) as [Hm1 Hm2].
    pose proof (rebalance_line_settled _ _ _ _ _ _ Ep) as Hs.
    destruct p as [s1|s1]; cbn in *.
    + pose proof (rebalance_lines_mono _ _ _ _ _ _ E) as [Hm3 Hm4].
      destruct Hs as (Hl & Hk & _); [by auto|lia|].
      destruct (IH _ E) as [Hf Hk']; [done|lia|].
      rewrite Hk in *. split; [by constructor|congruence].
    + simplify_eq. by destruct Hs as (_ & _ & [=]).
Qed.

(** When the system is settled, the function reports so: nothing moved. *)
Lemma rebalance_settled `{SchedLaws} cores junk k lines errno k' n e k'' :
  ps_pids k = (lines, errno, k') ->
  proc_manip_rebalance_system cores junk k = Done (n, e, k'') -> n = 0 -> e = 0 ->
  Forall (settled cores k') lines /\ k'' = k'.
Proof.
  unfold proc_manip_rebalance_system. intros -> E -> ->.
  destruct (rebalance_lines _ _ _ _ _) as [s| |] eqn:El; cbn in E; try done.
  injection E as Eu Ee Ek. destruct (rebalance_lines_settled _ _ _ _ _ _ El Ee Eu) as [Hf Hk].
  cbn in *. by split; [|congruence].
Qed.
