(* ===== verification/PrepSystem.v ===== *)
(** * prep_system.c: preparing and restoring the machine around a benchmark

    libpqos is a parameter (class [Pqos]); the output of the git commands and
    the log are not part of the model. *)

From S2P Require Import Prelude Cstr ProcManip.

(** [struct pqos_l3ca]: a class of service and its way mask. *)
Record pqos_l3ca : Type := L3ca { class_id : Z; ways_mask : Z }.

(** libpqos: [pqos_num_cores] is [traits->num_cores] after [pqos_cap_get], or
    [None] when that leaves [traits] NULL. *)
Class Pqos := {
  pqos : Type;
  pqos_init : pqos -> Z * pqos;
  pqos_num_cores : pqos -> option Z;
  pqos_fini : pqos -> pqos;
  pqos_l3ca_set : pqos -> Z -> list pqos_l3ca -> Z * pqos;
  pqos_l3ca_assoc_set : pqos -> Z -> Z -> Z * pqos;
  pqos_l3ca_assoc_get : pqos -> Z -> Z * Z;
}.
Definition PQOS_RETVAL_OK : Z := 0.

(** ** Definitions *)

(** The loop [while (cpu < 0) cpu += traits->num_cores]; it is free of side
    effects, so that running out of [fuel] is undefined behaviour.  It is
    never entered for [num_cores <= 2^31] ([pick_core_small]). *)
Fixpoint pick_loop (fuel : nat) (num_cores cpu : Z) : outcome Z :=
  if 0 <=? cpu then Done cpu
  else
    match fuel with
    | O => Undefined
    | S fuel => pick_loop fuel num_cores (s32 (u32 (u32 cpu + num_cores)))
    end.

(** [pick_core]: [procs_go_where] is converted to [unsigned] for the
    remainder by the [unsigned num_cores]. *)
Definition pick_core (num_cores procs_go_where : Z) : outcome Z :=
  _ ← c_defined (negb (num_cores =? 0));
  pick_loop 8 num_cores (s32 (u32 procs_go_where mod num_cores)).

Definition REARRANGE_RETRIES : nat := 3.

(** The loop [for(cpu = 0; cpu < num_cores; ++cpu) CPU_SET(cpu, &mask)]. *)
Definition all_cores (num_cores : Z) : Z :=
  foldl (fun m cpu => CPU_SET (Z.of_nat cpu) m) CPU_ZERO (seq 0 (Z.to_nat num_cores)).

Section Rearrange.
Context `{Sched} `{Pqos}.
(** The uninitialised memory of [proc_manip_rebalance_system] on each attempt. *)
Variable junk : Z -> nat -> Z.

(** The attempts from number [attempts] on, [left] of them admitted; the final
    [attempts], the last [failed] and the kernel. *)
Fixpoint rearrange_loop (tries : nat) (attempts failed mask : Z) (k : sched)
    : outcome (Z * Z * sched) :=
  match tries with
  | O => Done (attempts, failed, k)
  | S tries =>
      '(n, e, k) ← proc_manip_rebalance_system mask (junk attempts) k;
      if n =? 0 then Done (attempts, e, k)
      else rearrange_loop tries (attempts + 1) e mask k
  end.

Definition rearrange_mask (multicore : bool) (procs_go_where num_cores : Z) : outcome Z :=
  if multicore then Done (all_cores num_cores)
  else cpu ← pick_core num_cores procs_go_where; Done (CPU_SET cpu CPU_ZERO).

(** [rearrange_processes]: [traits] is NULL for [None], which the code
    dereferences. *)
Definition rearrange_processes (multicore : bool) (procs_go_where : Z) (traits : option Z)
    (k : sched) : outcome (bool * sched) :=
  num_cores ← of_opt traits;
  mask ← rearrange_mask multicore procs_go_where num_cores;
  '(attempts, failed, k) ← rearrange_loop REARRANGE_RETRIES 1 0 mask k;
  if Z.of_nat REARRANGE_RETRIES <? attempts then Done (false, k)
  else if negb (failed =? 0) then Done (false, k)
  else Done (true, k).

Definition prep_system (multicore : bool) (procs_go_where : Z) (q : pqos) (k : sched)
    : outcome (Z * pqos * sched) :=
  let '(pqos_res, q) := pqos_init q in
  let ret := if negb (pqos_res =? PQOS_RETVAL_OK) then -1 else 0 in
  '(ok, k) ← rearrange_processes multicore procs_go_where (pqos_num_cores q) k;
  Done (if negb ok then -1 else ret, q, k).

Definition cleanup_system (unpin_procs : bool) (q : pqos) (k : sched)
    : outcome (Z * pqos * sched) :=
  '(ret, k) ←
    (if negb unpin_procs then
       '(ok, k) ← rearrange_processes true 0 (pqos_num_cores q) k;
       Done (if negb ok then -1 else 0, k)
     else Done (0, k));
  Done (ret, pqos_fini q, k).
End Rearrange.

(** ** Lemmas *)

Lemma pick_core_small num_cores n :
  0 < num_cores <= 2 ^ 31 -> pick_core num_cores n = Done (u32 n mod num_cores).
Proof.
  intros Hc. unfold pick_core. destruct (Z.eqb_spec num_cores 0); [lia|]. cbn [c_defined negb].
  pose proof (Z.mod_pos_bound (u32 n) num_cores ltac:(lia)).
  cbn [mbind outcome_bind]. rewrite s32_small by lia.
  cbn [pick_loop]. destruct (Z.leb_spec 0 (u32 n mod num_cores)); [done|lia].
Qed.

Lemma CPU_SET_testbit cpu m i :
  0 <= cpu < 2 ^ 64 -> 0 <= i ->
  Z.testbit (CPU_SET cpu m) i = ((cpu <? CPU_SETSIZE) && (i =? cpu)) || Z.testbit m i.
Proof.
  intros Hc Hi. unfold CPU_SET. rewrite u64_small by done.
  destruct (Z.ltb_spec cpu CPU_SETSIZE); cbn [andb orb]; [|done].
  rewrite Z.setbit_eqb by lia. by rewrite Z.eqb_sym.
Qed.

Lemma all_cores_testbit num_cores i :
  0 <= num_cores < 2 ^ 32 -> 0 <= i ->
  Z.testbit (all_cores num_cores) i = (i <? num_cores) && (i <? CPU_SETSIZE).
Proof.
  intros Hn Hi. unfold all_cores.
  assert (Hg : forall n, Z.of_nat n < 2 ^ 32 ->
    Z.testbit (foldl (fun m cpu => CPU_SET (Z.of_nat cpu) m) CPU_ZERO (seq 0 n)) i =
    (i <? Z.of_nat n) && (i <? CPU_SETSIZE)).
  { induction n as [|n IH]; intros Hb.
    - destruct (Z.ltb_spec i (Z.of_nat 0)); [lia|apply Z.bits_0].
    - rewrite seq_S, foldl_app. cbn [foldl]. rewrite CPU_SET_testbit, IH by lia.
      cbn [Nat.add]. rewrite Nat2Z.inj_succ. bool_cases; cbn; lia. }
  rewrite Hg by lia. by rewrite Z2Nat.id by lia.
Qed.

Lemma rearrange_loop_true `{SchedLaws} junk tries attempts failed mask k a k' :
  rearrange_loop junk tries attempts failed mask k = Done (a, 0, k') ->
  a < attempts + Z.of_nat tries ->
  exists k0 k1 lines errno, ps_pids k0 = (lines, errno, k1) /\ k' = k1 /\
    Forall (settled mask k1) lines.
Proof.
  revert attempts failed k. induction tries as [|tries IH]; intros attempts failed k E Ha; cbn in E.
  - simplify_eq. lia.
  - destruct (proc_manip_rebalance_system _ _ _) as [[[n e] k2]| |] eqn:Ep; cbn in E; try done.
    destruct (Z.eqb_spec n 0) as [->|].
    + simplify_eq. destruct (ps_pids k) as [[lines errno] k1] eqn:El.
      destruct (rebalance_settled _ _ _ _ _ _ _ _ _ El Ep) as [Hf ->]; [done..|].
      exists k. eauto 8.
    + apply IH in E; [done|lia].
Qed.

(** The number of runs of [ps] is at most the number of admitted attempts. *)
Lemma rearrange_loop_attempts `{Sched} junk tries attempts failed mask k a f k' :
  rearrange_loop junk tries attempts failed mask k = Done (a, f, k') ->
  attempts <= a <= attempts + Z.of_nat tries.
Proof.
  revert attempts failed k. induction tries as [|tries IH]; intros attempts failed k E; cbn in E.
  - simplify_eq. lia.
  - destruct (proc_manip_rebalance_system _ _ _) as [[[n e] k2]| |]; cbn in E; try done.
    destruct (n =? 0); [simplify_eq; lia|]. apply IH in E. lia.
Qed.

Lemma rearrange_processes_true `{SchedLaws} junk multicore p traits k k' :
  rearrange_processes junk multicore p traits k = Done (true, k') ->
  exists c mask k0 k1 lines errno, traits = Some c /\ rearrange_mask multicore p c = Done mask /\
    ps_pids k0 = (lines, errno, k1) /\ k' = k1 /\ Forall (settled mask k1) lines.
Proof.
  unfold rearrange_processes. intros E. destruct traits as [c|]; cbn -[rearrange_loop] in E; [|done].
  destruct (rearrange_mask _ _ _) as [mask| |] eqn:Em; cbn -[rearrange_loop] in E; try done.
  destruct (rearrange_loop _ _ _ _ _ _) as [[[a f] k1]| |] eqn:El; cbn in E; try done.
  change (Z.of_nat REARRANGE_RETRIES) with 3 in E. destruct (Z.ltb_spec 3 a); [done|]. destruct (Z.eqb_spec f 0) as [->|]; [|done].
  cbn in E. simplify_eq.
  apply rearrange_loop_true in El as (k0 & k1' & lines & errno & Hp & -> & Hf); [|change (Z.of_nat REARRANGE_RETRIES) with 3; lia].
  exists c, mask, k0, k1', lines, errno. auto.
Qed.

(** ** Properties *)

(** C26: a preparation of the machine that reports success has initialised
    libpqos and, on its last look at the process list, found every process
    settled: it runs on the chosen mask, or the kernel does not let it be
    moved, or it is gone. *)
Theorem prep_system_success `{SchedLaws} `{Pqos} junk multicore p q k q' k'
    (Hs : prep_system junk multicore p q k = Done (0, q', k')) :
  (pqos_init q).1 = PQOS_RETVAL_OK /\
  exists c mask k0 lines errno, pqos_num_cores q' = Some c /\
    rearrange_mask multicore p c = Done mask /\
    ps_pids k0 = (lines, errno, k') /\ Forall (settled mask k') lines.
Proof.
  unfold prep_system in Hs. destruct (pqos_init q) as [r q1]. cbn.
  destruct (rearrange_processes _ _ _ _ _) as [[ok k1]| |] eqn:Er; cbn in Hs; try done.
  destruct ok; cbn in Hs; [|done].
  destruct (Z.eqb_spec r PQOS_RETVAL_OK); cbn in Hs; simplify_eq. split; [done|].
  apply rearrange_processes_true in Er as (c & mask & k0 & k1 & lines & errno & ? & ? & ? & -> & ?).
  eauto 10.
Qed.

(** [pick_core] takes a negative core number for its remainder modulo the
    number of cores only on machines whose core count divides 2^32: the
    signed number is converted to [unsigned] first. *)
Theorem pick_core_negative num_cores n
    (Hc : 0 < num_cores <= 2 ^ 31) (Hn : - 2 ^ 31 <= n < 0) :
  pick_core num_cores n = Done (n mod num_cores) <-> (num_cores | 2 ^ 32).
Proof.
  rewrite pick_core_small by done.
  assert (u32 n = n + 2 ^ 32) as ->.
  { unfold u32. rewrite <- (Z_mod_plus_full n 1). apply Z.mod_small. lia. }
  split.
  - intros [= E]. exists ((n + 2 ^ 32) / num_cores - n / num_cores).
    pose proof (Z.div_mod (n + 2 ^ 32) num_cores ltac:(lia)).
    pose proof (Z.div_mod n num_cores ltac:(lia)). lia.
  - intros [q ->]. f_equal. apply Z_mod_plus_full.
Qed.

(** ** Witnesses *)

(** A machine with two processes, pids 1 and 42, the first of which the
    kernel refuses to move. *)
Definition sample_sched : Sched := {|
  sched := Z * Z;
  ps_pids k := (["    1"; "   42"]%string, 0, k);
  sched_getaffinity k id := if id =? 1 then Some k.1 else if id =? 42 then Some k.2 else None;
  sched_setaffinity k id m :=
    if id =? 42 then (0, (k.1, m)) else if id =? 1 then (EINVAL, k) else (ESRCH, k);
|}.

Lemma sample_sched_laws : @SchedLaws sample_sched.
Proof.
  split. intros k id m e k'. cbn. destruct (id =? 42), (id =? 1); naive_solver.
Qed.

(** A libpqos on eight cores that records its last call. *)
Definition sample_pqos : Pqos := {|
  pqos := Z;
  pqos_init q := (0, q);
  pqos_num_cores q := Some 8;
  pqos_fini q := q;
  pqos_l3ca_set q _ _ := (0, q);
  pqos_l3ca_assoc_set q _ cos := (0, cos);
  pqos_l3ca_assoc_get q _ := (0, q);
|}.

Lemma prep_system_success_witness :
  (@pqos_init sample_pqos 0).1 = 0 /\
  exists c mask k0 lines errno, Some 8 = Some c /\
    rearrange_mask false (-1) c = Done mask /\
    @ps_pids sample_sched k0 = (lines, errno, (255, 128)) /\
    Forall (@settled sample_sched mask (255, 128)) lines.
Proof.
  apply (@prep_system_success sample_sched sample_sched_laws sample_pqos
    (fun _ _ => 0) false (-1) 0 (255, 255) 0 (255, 128)).
  vm_compute. reflexivity.
Defined.

Lemma pick_core_negative_witness :
  pick_core 12 (-1) = Done (-1 mod 12) <-> (12 | 2 ^ 32).
Proof. apply (pick_core_negative 12 (-1)); lia. Defined.
