(* ===== verification/BenchCommands.v ===== *)
(** * bench_commands.c: the common options and the start of the test programs

    [parse_common_args], the parent's side of [run_benchmarks] and
    [wait_benchmarks] are functions of the results of the system calls; the
    handshake between the parent and its children over SIGUSR1 is a step
    relation over both. *)

From S2P Require Import Prelude Cstr.
From stdpp Require Import relations.

#[local] Open Scope Z_scope.

(** ** Definitions *)

(** [args_t] *)
Record args_t : Type := Args { unpin_procs : Z; procs_go_where : Z; quit : Z }.

(** The options of [parse_common_args] in the order [getopt] gives them:
    [args], [has_p], and whether [-h] returned from the function. *)
Fixpoint parse_opts (opts : list opt_result) (args : args_t) (has_p : Z)
    : args_t * Z * bool :=
  match opts with
  | [] => (args, has_p, false)
  | (c, optarg) :: rest =>
      if ascii_code c =? 117 (* u *) then
        parse_opts rest (Args 1 (procs_go_where args) (quit args)) has_p
      else if ascii_code c =? 112 (* p *) then
        parse_opts rest
          (Args (unpin_procs args) (atoi (default EmptyString optarg)) (quit args)) 1
      else if ascii_code c =? 113 (* q *) then
        parse_opts rest (Args (unpin_procs args) (procs_go_where args) 1) has_p
      else if ascii_code c =? 104 (* h *) then (args, has_p, true)
      else parse_opts rest args has_p
  end.

(** [parse_common_args(argc, argv, args)]: the return value, [args] and
    whether the message about [-p] with [-u] was logged; [args] is whatever
    the caller's structure held before. *)
Definition parse_common_args (argv : list string) (args : args_t) : Z * args_t * bool :=
  let '(args, has_p, help) := parse_opts (getopt_all "hqup:" argv) args 0 in
  if (help : bool) then (0, args, false)
  else (0, args, negb (has_p =? 0) && negb (unpin_procs args =? 0)).

(** The globals [childpids] (NULL is [None]; a [pid] not yet written is
    [None]) and [num_childpids]. *)
Record bench_globals : Type := Globals {
  childpids : option (list (option Z));
  num_childpids : Z;
}.

(** The pid left in the first element by [memset(childpids, 1, sizeof *childpids)]. *)
Definition memset_pid : Z := 16843009.

(** The parent's turn through the fork loop: [forks] are the results of
    [fork()], -1 for an error.  The result says whether the loop ended
    without one. *)
Fixpoint fork_loop (prog : nat) (forks : list Z) (pids : list (option Z))
    : bool * list (option Z) :=
  match forks with
  | [] => (true, pids)
  | pid :: rest =>
      if pid =? -1 then (false, pids) else fork_loop (S prog) rest (<[prog := Some pid]> pids)
  end.

(** The second loop: [kill_ok] tells of each [kill] whether it returned 0. *)
Fixpoint kill_loop (pids : list (option Z)) (kill_ok : list bool) : outcome bool :=
  match pids, kill_ok with
  | pid :: pids, ok :: kill_ok =>
      _ ← of_opt pid; if (ok : bool) then kill_loop pids kill_ok else Done false
  | _, _ => Done true
  end.

(** [run_benchmarks] in the parent; with no program, [memset] writes behind
    the empty allocation. *)
Definition run_benchmarks (malloc_ok : bool) (forks : list Z) (kill_ok : list bool)
    (g : bench_globals) : outcome (bool * bench_globals) :=
  if negb malloc_ok then Done (true, Globals None (num_childpids g))
  else
    let n := length forks in
    _ ← c_defined (negb (n =? 0)%nat);
    let pids := Some memset_pid :: replicate (n - 1) None in
    let '(ok, pids) := fork_loop 0 forks pids in
    let g := Globals (Some pids) (Z.of_nat n) in
    if negb ok then Done (false, g)
    else ret ← kill_loop pids kill_ok; Done (ret, g).

(** The loop of [wait_benchmarks]; [waitpid] is the system call's result. *)
Fixpoint wait_loop (waitpid : Z -> Z) (pids : list (option Z)) (ret : Z) : outcome Z :=
  match pids with
  | [] => Done ret
  | pid :: rest =>
      p ← of_opt pid; wait_loop waitpid rest (if waitpid p <? 0 then -1 else ret)
  end.

Definition wait_benchmarks (waitpid : Z -> Z) (g : bench_globals)
    : outcome (Z * bench_globals) :=
  match childpids g with
  | None => Done (0, g)
  | Some pids =>
      ret ← wait_loop waitpid (take (Z.to_nat (num_childpids g)) pids) 0;
      Done (ret, Globals None (num_childpids g))
  end.

(** The child's preparation (case 0 of the switch, up to [CPU_FREE]): whether
    it reaches the [kill] of its parent.  [setaffinity_ok cpu] is the success
    of [sched_setaffinity] for the mask of that one CPU. *)
Definition child_setup (alloc_ok : bool) (num_cpus alloc_size target_cpu : Z)
    (setaffinity_ok : Z -> bool) : bool :=
  if negb alloc_ok then false
  else if alloc_size <=? 0 then false
  else if num_cpus <=? target_cpu then false
  else setaffinity_ok target_cpu.

(** *** The handshake

    SIGUSR1 is blocked in the parent before each [fork] and in the child by
    inheritance, so a signal sent is pending until [sigwait] takes it; a
    second one while the first is pending is lost. *)

Inductive child : Type :=
| NotForked
| Setup              (* before kill(getppid(), SIG_CHILD_PROC_UP) *)
| Up (pending : bool) (* in await_signal(SIG_EXEC_TEST_PROG) *)
| Exec               (* execv succeeded *)
| Failed             (* left the switch for cleanup *).

Inductive parent : Type :=
| Forking (prog : nat)   (* at the head of the fork loop *)
| Awaiting (prog : nat)  (* in await_signal(SIG_CHILD_PROC_UP) *)
| Killing (prog : nat)   (* at the head of the kill loop *)
| Finished (ret : bool).

Record handshake : Type := Handshake {
  pc : parent;
  usr1 : bool;                 (* SIGUSR1 pending in the parent *)
  kids : nat -> child;
  recorded : nat -> option nat (* childpids[prog].pid, as the child's number *)
}.

Definition upd {A} (f : nat -> A) (i : nat) (x : A) : nat -> A :=
  fun j => if decide (j = i) then x else f j.

(** [n] is [num_test_progs]; [setup_ok i] is the result of [child_setup] for
    program [i]. *)
Inductive hs_step (n : nat) (setup_ok : nat -> bool) : handshake -> handshake -> Prop :=
| hs_fork i u k r : (i < n)%nat ->
    hs_step n setup_ok (Handshake (Forking i) u k r)
      (Handshake (Awaiting i) u (upd k i Setup) r)
| hs_fork_error i u k r : (i < n)%nat ->
    hs_step n setup_ok (Handshake (Forking i) u k r) (Handshake (Finished false) u k r)
| hs_child_up p u k r i : k i = Setup -> setup_ok i = true ->
    hs_step n setup_ok (Handshake p u k r) (Handshake p true (upd k i (Up false)) r)
| hs_child_fails p u k r i : k i = Setup -> setup_ok i = false ->
    hs_step n setup_ok (Handshake p u k r) (Handshake p u (upd k i Failed) r)
| hs_wake i k r :
    hs_step n setup_ok (Handshake (Awaiting i) true k r)
      (Handshake (Forking (S i)) false k (upd r i (Some i)))
| hs_all_up u k r :
    hs_step n setup_ok (Handshake (Forking n) u k r) (Handshake (Killing 0) u k r)
| hs_kill i u k r c b : (i < n)%nat -> r i = Some c -> k c = Up b ->
    hs_step n setup_ok (Handshake (Killing i) u k r)
      (Handshake (Killing (S i)) u (upd k c (Up true)) r)
| hs_kill_error i u k r : (i < n)%nat ->
    hs_step n setup_ok (Handshake (Killing i) u k r) (Handshake (Finished false) u k r)
| hs_all_killed u k r :
    hs_step n setup_ok (Handshake (Killing n) u k r) (Handshake (Finished true) u k r)
| hs_exec p u k r i : k i = Up true ->
    hs_step n setup_ok (Handshake p u k r) (Handshake p u (upd k i Exec) r)
| hs_exec_fails p u k r i : k i = Up true ->
    hs_step n setup_ok (Handshake p u k r) (Handshake p u (upd k i Failed) r).

Definition hs_init : handshake :=
  Handshake (Forking 0) false (fun _ => NotForked) (fun _ => None).

(** ** Lemmas *)

Lemma upd_eq {A} (f : nat -> A) i x : upd f i x i = x.
Proof. unfold upd. by rewrite decide_True. Qed.
Lemma upd_ne {A} (f : nat -> A) i j x : j <> i -> upd f i x j = f j.
Proof. intros. unfold upd. by rewrite decide_False. Qed.

Section Handshake.
Variables (n : nat) (setup_ok : nat -> bool).

(** What is known of the children in each of the parent's positions. *)
Definition waiting (k : nat -> child) (r : nat -> option nat) (j : nat) : Prop :=
  k j = Up false /\ r j = Some j /\ setup_ok j = true.
Definition released (k : nat -> child) (j : nat) : Prop :=
  (k j = Up true \/ k j = Exec \/ k j = Failed) /\ setup_ok j = true.

Definition forking_inv (i : nat) (u : bool) (k : nat -> child) (r : nat -> option nat) : Prop :=
  (i <= n)%nat /\ u = false /\ (forall j, (j < i)%nat -> waiting k r j) /\
  (forall j, (i <= j)%nat -> k j = NotForked).

Definition killing_inv (i : nat) (k : nat -> child) (r : nat -> option nat) : Prop :=
  (i <= n)%nat /\ (forall j, (i <= j < n)%nat -> waiting k r j) /\
  (forall j, (j < i)%nat -> released k j) /\ (forall j, (n <= j)%nat -> k j = NotForked).

Definition hs_inv (s : handshake) : Prop :=
  let '(Handshake p u k r) := s in
  match p with
  | Forking i => forking_inv i u k r
  | Awaiting i =>
      (i < n)%nat /\ (forall j, (j < i)%nat -> waiting k r j) /\
      (forall j, (i < j)%nat -> k j = NotForked) /\
      ((k i = Setup /\ u = false) \/ (k i = Up false /\ u = true /\ setup_ok i = true) \/
       (k i = Failed /\ u = false /\ setup_ok i = false))
  | Killing i => killing_inv i k r
  | Finished b =>
      (b = false /\ exists i, forking_inv i u k r) \/ exists i, killing_inv i k r /\ (b = true -> i = n)
  end.

Lemma hs_inv_init : hs_inv hs_init.
Proof. cbn. split; [lia|]. split; [done|]. split; [lia|done]. Qed.

Lemma waiting_upd k r j i c : j <> i -> waiting k r j -> waiting (upd k i c) r j.
Proof. intros Hj. unfold waiting. by rewrite upd_ne. Qed.

(** A child that is allowed to run on stays released. *)
Lemma killing_inv_go i j k r c :
  killing_inv i k r -> k j = Up true -> c = Exec \/ c = Failed ->
  killing_inv i (upd k j c) r.
Proof.
  intros (Hi & Hw & Hr & Hn) Hk Hc. split; [done|]. split; [|split].
  - intros l Hl. apply waiting_upd; [|auto]. intros ->. by destruct (Hw j Hl); congruence.
  - intros l Hl. destruct (decide (l = j)) as [->|].
    + destruct (Hr j Hl) as [_ Hs]. split; [|done]. rewrite upd_eq. naive_solver.
    + destruct (Hr l Hl). split; [|done]. by rewrite upd_ne.
  - intros l Hl. rewrite upd_ne; [auto|]. intros ->. rewrite Hn in Hk; done.
Qed.

Lemma hs_inv_no_setup p u k r i :
  hs_inv (Handshake p u k r) -> k i = Setup -> p = Awaiting i /\ u = false.
Proof.
  intros Hinv Hk.
  assert (Hf : forall j u, forking_inv j u k r -> False).
  { intros j u' (_ & _ & Hw & Hn). destruct (decide (i < j)%nat) as [Hl|Hl].
    - destruct (Hw i Hl); congruence.
    - rewrite Hn in Hk by lia. done. }
  assert (Hg : forall j, killing_inv j k r -> False).
  { intros j (_ & Hw & Hr & Hn). destruct (decide (i < j)%nat) as [Hl|Hl].
    - destruct (Hr i Hl) as [[?|[?|?]] _]; congruence.
    - destruct (decide (i < n)%nat); [destruct (Hw i); [lia|congruence]|].
      rewrite Hn in Hk by lia. done. }
  destruct p as [j|j|j|b]; cbn in Hinv; [by eapply Hf in Hinv| |by eapply Hg in Hinv|].
  - destruct Hinv as (Hj & Hw & Hn & Hc).
    destruct (Nat.lt_trichotomy i j) as [Hl|[->|Hl]].
    + destruct (Hw i Hl); congruence.
    + naive_solver congruence.
    + rewrite Hn in Hk by lia. done.
  - destruct Hinv as [(_ & j & Hj)|(j & Hj & _)]; [by eapply Hf in Hj|by eapply Hg in Hj].
Qed.

Lemma hs_inv_up_true p u k r i :
  hs_inv (Handshake p u k r) -> k i = Up true ->
  (exists j, p = Killing j) \/ (exists b j, p = Finished b /\ killing_inv j k r /\ (b = true -> j = n)).
Proof.
  intros Hinv Hk.
  assert (Hf : forall j u, forking_inv j u k r -> False).
  { intros j u' (_ & _ & Hw & Hn). destruct (decide (i < j)%nat) as [Hl|Hl].
    - destruct (Hw i Hl); congruence.
    - rewrite Hn in Hk by lia. done. }
  destruct p as [j|j|j|b]; cbn in Hinv; [by eapply Hf in Hinv| |eauto|].
  - destruct Hinv as (Hj & Hw & Hn & Hc).
    destruct (Nat.lt_trichotomy i j) as [Hl|[->|Hl]].
    + destruct (Hw i Hl); congruence.
    + naive_solver congruence.
    + rewrite Hn in Hk by lia. done.
  - destruct Hinv as [(_ & j & Hj)|(j & Hj & Hb)]; [by eapply Hf in Hj|eauto 6].
Qed.

Lemma hs_inv_go p u k r i c :
  hs_inv (Handshake p u k r) -> k i = Up true -> c = Exec \/ c = Failed ->
  hs_inv (Handshake p u (upd k i c) r).
Proof.
  intros Hinv Hk Hc.
  destruct (hs_inv_up_true _ _ _ _ _ Hinv Hk) as [[j ->]|(b & j & -> & Hj & Hb)].
  - by apply killing_inv_go.
  - right. exists j. split; [by apply killing_inv_go|done].
Qed.

Lemma hs_inv_step s s' : hs_inv s -> hs_step n setup_ok s s' -> hs_inv s'.
Proof.
  intros Hinv Hstep. destruct Hstep.
  - (* fork *) destruct Hinv as (Hi & -> & Hw & Hn). cbn. split; [done|]. split; [|split].
    + intros j Hj. apply waiting_upd; [lia|auto].
    + intros j Hj. rewrite upd_ne by lia. apply Hn. lia.
    + left. by rewrite upd_eq.
  - (* fork error *) left. split; [done|]. by exists i.
  - (* child up *) destruct (hs_inv_no_setup _ _ _ _ _ Hinv H) as [-> ->].
    destruct Hinv as (Hi & Hw & Hn & _). cbn. split; [done|]. split; [|split].
    + intros j Hj. apply waiting_upd; [lia|auto].
    + intros j Hj. rewrite upd_ne by lia. auto.
    + right. left. by rewrite upd_eq.
  - (* child fails *) destruct (hs_inv_no_setup _ _ _ _ _ Hinv H) as [-> ->].
    destruct Hinv as (Hi & Hw & Hn & _). cbn. split; [done|]. split; [|split].
    + intros j Hj. apply waiting_upd; [lia|auto].
    + intros j Hj. rewrite upd_ne by lia. auto.
    + right. right. by rewrite upd_eq.
  - (* wake *) destruct Hinv as (Hi & Hw & Hn & Hc).
    destruct Hc as [[_ ?]|[(Hk & _ & Hs)|(_ & ? & _)]]; [done| |done].
    split; [lia|]. split; [done|]. split; [|intros j Hj; apply Hn; lia].
    intros j Hj. unfold waiting. destruct (decide (j = i)) as [->|].
    + by rewrite upd_eq.
    + rewrite upd_ne by done. apply Hw. lia.
  - (* all up *) destruct Hinv as (_ & _ & Hw & Hn).
    split; [lia|]. split; [|split; [lia|auto]]. intros j Hj. apply Hw. lia.
  - (* kill *) destruct Hinv as (_ & Hw & Hr & Hn).
    destruct (Hw i ltac:(lia)) as (Hk & Hri & Hs). replace c with i in * by congruence.
    split; [lia|]. split; [|split].
    + intros j Hj. apply waiting_upd; [lia|]. apply Hw. lia.
    + intros j Hj. destruct (decide (j = i)) as [->|].
      * split; [|done]. rewrite upd_eq. auto.
      * destruct (Hr j ltac:(lia)). split; [|done]. by rewrite upd_ne.
    + intros j Hj. rewrite upd_ne by lia. auto.
  - (* kill error *) right. exists i. split; [done|by intros [=]].
  - (* all killed *) right. by exists n.
  - apply hs_inv_go; auto.
  - apply hs_inv_go; auto.
Qed.

Lemma hs_inv_reachable s : rtc (hs_step n setup_ok) hs_init s -> hs_inv s.
Proof.
  intros Hr. assert (Hg : forall s0, hs_inv s0 -> rtc (hs_step n setup_ok) s0 s -> hs_inv s).
  { intros s0 H0 Hs. induction Hs; [done|]. eauto using hs_inv_step. }
  eapply Hg; [apply hs_inv_init|done].
Qed.

(** *** Termination: every step lowers a measure. *)

Definition kid_weight (c : child) : nat :=
  match c with
  | NotForked => 4 | Setup => 3 | Up false => 2 | Up true => 1 | Exec | Failed => 0
  end.

Definition parent_weight (p : parent) : nat :=
  match p with
  | Forking i => 2 * (n - i) + n + 3
  | Awaiting i => 2 * (n - i) + n + 2
  | Killing i => n - i + 1
  | Finished _ => 0
  end.

Definition kids_weight (k : nat -> child) : nat := sum_list ((kid_weight ∘ k) <$> seq 0 n).

Definition hs_measure (s : handshake) : nat := parent_weight (pc s) + kids_weight (kids s).

Lemma sum_upd_ge k i c m l :
  (i < m)%nat -> sum_list ((kid_weight ∘ upd k i c) <$> seq m l) = sum_list ((kid_weight ∘ k) <$> seq m l).
Proof.
  revert m. induction l as [|l IH]; intros m Hm; cbn; [done|].
  rewrite IH by lia. by rewrite upd_ne by lia.
Qed.

Lemma sum_upd k i c m l :
  (m <= i < m + l)%nat ->
  (sum_list ((kid_weight ∘ upd k i c) <$> seq m l) + kid_weight (k i) =
   sum_list ((kid_weight ∘ k) <$> seq m l) + kid_weight c)%nat.
Proof.
  revert m. induction l as [|l IH]; intros m Hm; [lia|]. cbn.
  destruct (decide (i = m)) as [->|].
  - rewrite sum_upd_ge, upd_eq by lia. lia.
  - rewrite upd_ne by done. specialize (IH (S m) ltac:(lia)). lia.
Qed.

Lemma kids_weight_upd k i c :
  (i < n)%nat -> (kids_weight (upd k i c) + kid_weight (k i) = kids_weight k + kid_weight c)%nat.
Proof. intros. apply sum_upd. lia. Qed.

Lemma up_true_lt p u k r i : hs_inv (Handshake p u k r) -> k i = Up true -> (i < n)%nat.
Proof.
  intros Hinv Hk. destruct (decide (i < n)%nat) as [|Hl]; [done|].
  destruct (hs_inv_up_true _ _ _ _ _ Hinv Hk) as [[j ->]|(b & j & -> & Hj & Hb)].
  - destruct Hinv as (_ & _ & _ & Hn). rewrite Hn in Hk by lia. done.
  - destruct Hj as (_ & _ & _ & Hn). rewrite Hn in Hk by lia. done.
Qed.

Lemma hs_step_decreases s s' :
  hs_inv s -> hs_step n setup_ok s s' -> (hs_measure s' < hs_measure s)%nat.
Proof.
  intros Hinv Hstep. unfold hs_measure. destruct Hstep; cbn [pc kids parent_weight].
  - destruct Hinv as (_ & _ & _ & Hn). specialize (Hn i ltac:(lia)).
    pose proof (kids_weight_upd k i Setup H) as Hw. rewrite Hn in Hw. cbn in Hw. lia.
  - lia.
  - destruct (hs_inv_no_setup _ _ _ _ _ Hinv H) as [-> ->]. destruct Hinv as (Hi & _).
    pose proof (kids_weight_upd k i (Up false) Hi) as Hw. rewrite H in Hw. cbn in Hw. lia.
  - destruct (hs_inv_no_setup _ _ _ _ _ Hinv H) as [-> ->]. destruct Hinv as (Hi & _).
    pose proof (kids_weight_upd k i Failed Hi) as Hw. rewrite H in Hw. cbn in Hw. lia.
  - destruct Hinv as (Hi & _). lia.
  - lia.
  - destruct Hinv as (_ & Hw & _ & _). destruct (Hw i ltac:(lia)) as (Hk & Hr & _).
    replace c with i in * by congruence.
    pose proof (kids_weight_upd k i (Up true) ltac:(lia)) as Hk'. rewrite Hk in Hk'. cbn in Hk'. lia.
  - lia.
  - lia.
  - pose proof (up_true_lt _ _ _ _ _ Hinv H) as Hi.
    pose proof (kids_weight_upd k i Exec Hi) as Hw. rewrite H in Hw. cbn in Hw. lia.
  - pose proof (up_true_lt _ _ _ _ _ Hinv H) as Hi.
    pose proof (kids_weight_upd k i Failed Hi) as Hw. rewrite H in Hw. cbn in Hw. lia.
Qed.

Lemma hs_steps_bound k s s' :
  hs_inv s -> nsteps (hs_step n setup_ok) k s s' -> (k + hs_measure s' <= hs_measure s)%nat.
Proof.
  intros Hinv Hs. revert Hinv. induction Hs as [|k x y z Hxy Hyz IH]; intros Hinv; [lia|].
  pose proof (hs_step_decreases _ _ Hinv Hxy). specialize (IH (hs_inv_step _ _ Hinv Hxy)). lia.
Qed.

Lemma hs_measure_init : hs_measure hs_init = (7 * n + 3)%nat.
Proof.
  unfold hs_measure, hs_init, kids_weight. cbn [pc kids parent_weight].
  assert (forall m l, sum_list ((kid_weight ∘ (fun _ => NotForked)) <$> seq m l) = (4 * l)%nat) as ->.
  { intros m l. revert m. induction l as [|l IH]; intros m; [done|]. cbn in *. rewrite IH. lia. }
  lia.
Qed.

(** Until the parent has finished, some step is possible. *)
Lemma hs_progress s :
  hs_inv s -> (forall i, (i < n)%nat -> setup_ok i = true) ->
  (exists s', hs_step n setup_ok s s') \/
  exists b, pc s = Finished b /\
    (b = true -> forall j, (j < n)%nat -> kids s j = Exec \/ kids s j = Failed \/ kids s j = Up true).
Proof.
  intros Hinv Hok. destruct s as [p u k r]. destruct p as [i|i|i|b]; cbn in Hinv.
  - left. destruct Hinv as (Hi & _). destruct (decide (i = n)) as [->|].
    + eexists. apply hs_all_up.
    + eexists. apply hs_fork. lia.
  - left. destruct Hinv as (Hi & _ & _ & [[Hk ->]|[(Hk & -> & _)|(_ & _ & Hf)]]).
    + eexists. apply hs_child_up; [done|auto].
    + eexists. apply hs_wake.
    + rewrite Hok in Hf; done.
  - left. destruct Hinv as (Hi & Hw & _). destruct (decide (i = n)) as [->|].
    + eexists. apply hs_all_killed.
    + destruct (Hw i ltac:(lia)) as (Hk & Hr & _). eexists. eapply hs_kill; [lia|done|done].
  - right. exists b. split; [done|]. intros -> j Hj.
    destruct Hinv as [[? _]|(i & Hi & Hb)]; [done|].
    rewrite Hb in Hi by done. destruct Hi as (_ & _ & Hr & _).
    destruct (Hr j Hj) as [[Hk|[Hk|Hk]] _]; auto.
Qed.

(** The parent gets as far as the first child whose preparation fails. *)
Lemma hs_reaches i0 m :
  (m <= i0)%nat -> (i0 < n)%nat -> (forall j, (j < i0)%nat -> setup_ok j = true) ->
  exists k r, rtc (hs_step n setup_ok) hs_init (Handshake (Forking m) false k r).
Proof.
  intros Hm Hi Hok. induction m as [|m IH].
  - eexists _, _. apply rtc_refl.
  - destruct IH as (k & r & Hr); [lia|]. eexists _, _.
    etrans; [exact Hr|].
    eapply rtc_l; [apply hs_fork; lia|].
    eapply rtc_l; [apply (hs_child_up _ _ _ _ _ _ m); [by rewrite upd_eq|apply Hok; lia]|].
    eapply rtc_l; [apply hs_wake|]. apply rtc_refl.
Qed.
End Handshake.

(** *** The parent's loops *)

Lemma fork_loop_ok prog forks pids :
  Forall (fun p => p <> -1) forks -> length pids = (prog + length forks)%nat ->
  fork_loop prog forks pids = (true, take prog pids ++ (Some <$> forks)).
Proof.
  revert prog pids. induction forks as [|p forks IH]; intros prog pids Hf Hl; cbn in *.
  - rewrite take_ge by lia. by rewrite app_nil_r.
  - apply Forall_cons in Hf as [Hp Hf]. destruct (Z.eqb_spec p (-1)); [done|].
    rewrite IH; [|done|rewrite length_insert; lia]. f_equal.
    rewrite (take_S_r _ _ (Some p)) by (apply list_lookup_insert_eq; lia).
    rewrite take_insert_ge by lia. by rewrite <- app_assoc.
Qed.

Lemma kill_loop_ok forks :
  kill_loop (Some <$> forks) (replicate (length forks) true) = Done true.
Proof. induction forks as [|p forks IH]; [done|apply IH]. Qed.

Lemma wait_loop_ok waitpid forks ret :
  wait_loop waitpid (Some <$> forks) ret =
  Done (if forallb (fun p => 0 <=? waitpid p) forks then ret else -1).
Proof.
  revert ret. induction forks as [|p forks IH]; intros ret; cbn; [done|]. rewrite IH.
  destruct (Z.leb_spec 0 (waitpid p)), (Z.ltb_spec (waitpid p) 0); cbn; try lia; [done|].
  by destruct (forallb _ forks).
Qed.

(** *** The options *)

Lemma parse_opts_spec opts args has_p :
  Forall (fun o => ascii_code (fst o) <> 104) opts ->
  exists args' has_p', parse_opts opts args has_p = (args', has_p', false) /\
    unpin_procs args' = (if existsb (fun o => ascii_code (fst o) =? 117) opts then 1 else unpin_procs args) /\
    quit args' = (if existsb (fun o => ascii_code (fst o) =? 113) opts then 1 else quit args).
Proof.
  revert args has_p. induction opts as [|[c a] opts IH]; intros args has_p Hf; cbn; [eauto|].
  apply Forall_cons in Hf as [Hc Hf]. cbn in Hc.
  destruct (Z.eqb_spec (ascii_code c) 117) as [E|]; cbn.
  { destruct (IH (Args 1 (procs_go_where args) (quit args)) has_p Hf) as (a' & h' & -> & Hu & Hq).
    exists a', h'. rewrite E. cbn in *. split; [done|].
    split; [|done]. rewrite Hu. apply if_same. }
  destruct (Z.eqb_spec (ascii_code c) 112) as [E|]; cbn.
  { rewrite E. cbn.
    destruct (IH (Args (unpin_procs args) (atoi (default EmptyString a)) (quit args)) 1 Hf)
      as (a' & h' & -> & Hu & Hq). eauto. }
  destruct (Z.eqb_spec (ascii_code c) 113) as [E|]; cbn.
  { destruct (IH (Args (unpin_procs args) (procs_go_where args) 1) has_p Hf) as (a' & h' & -> & Hu & Hq).
    exists a', h'. cbn in *. split; [done|].
    split; [done|]. rewrite Hq. apply if_same. }
  destruct (Z.eqb_spec (ascii_code c) 104); [done|]. apply IH, Hf.
Qed.

(** ** Properties *)

(** C3: no test program is executed before all of them have been forked, have
    pinned themselves to their CPU and wait for the start signal. *)
Theorem handshake_safe n setup_ok s i
    (Hr : rtc (hs_step n setup_ok) hs_init s) (Hx : kids s i = Exec) :
  forall j, (j < n)%nat -> setup_ok j = true /\
    ((exists b, kids s j = Up b) \/ kids s j = Exec \/ kids s j = Failed).
Proof.
  apply hs_inv_reachable in Hr. destruct s as [p u k r]. cbn in *.
  assert (Hg : forall l, killing_inv n setup_ok l k r -> forall j, (j < n)%nat ->
    setup_ok j = true /\ ((exists b, k j = Up b) \/ k j = Exec \/ k j = Failed)).
  { intros l (_ & Hw & Hl & _) j Hj. destruct (decide (j < l)%nat) as [Hjl|].
    - destruct (Hl j Hjl) as [[?|[?|?]] ?]; eauto.
    - destruct (Hw j) as (? & _ & ?); [lia|eauto]. }
  assert (Hf : forall l u, forking_inv n setup_ok l u k r -> False).
  { intros l u' (_ & _ & Hw & Hn). destruct (decide (i < l)%nat) as [Hl|].
    - destruct (Hw i Hl); congruence.
    - rewrite Hn in Hx by lia. done. }
  destruct p as [l|l|l|b]; [by eapply Hf in Hr| |by eapply Hg|].
  - exfalso. destruct Hr as (_ & Hw & Hn & Hc). destruct (Nat.lt_trichotomy i l) as [Hl|[->|Hl]].
    + destruct (Hw i Hl); congruence.
    + naive_solver congruence.
    + rewrite Hn in Hx by lia. done.
  - destruct Hr as [(_ & l & Hl)|(l & Hl & _)]; [by eapply Hf in Hl|by eapply Hg].
Qed.

(** C4: the start of [n] programs whose preparations succeed takes at most
    [7n + 3] steps, whatever the interleaving, and it can only stop with the
    parent having left [run_benchmarks]; if it returns true there, every
    child has been let go. *)
Theorem handshake_live n setup_ok s m
    (Hok : forall i, (i < n)%nat -> setup_ok i = true)
    (Hs : nsteps (hs_step n setup_ok) m hs_init s) :
  (m <= 7 * n + 3)%nat /\
  ((exists s', hs_step n setup_ok s s') \/
   exists b, pc s = Finished b /\
     (b = true -> forall j, (j < n)%nat -> kids s j = Exec \/ kids s j = Failed \/ kids s j = Up true)).
Proof.
  assert (Hinv : hs_inv n setup_ok s).
  { apply hs_inv_reachable, rtc_nsteps. eauto. }
  split; [|by apply hs_progress].
  apply hs_steps_bound in Hs; [|apply hs_inv_init]. rewrite hs_measure_init in Hs. lia.
Qed.

(** When the preparation of a child fails, the parent waits forever for
    its signal: the state that is reached admits no step. *)
Theorem handshake_deadlock n setup_ok i
    (Hi : (i < n)%nat) (Hok : forall j, (j < i)%nat -> setup_ok j = true)
    (Hf : setup_ok i = false) :
  exists s, rtc (hs_step n setup_ok) hs_init s /\ pc s = Awaiting i /\
    forall s', ~ hs_step n setup_ok s s'.
Proof.
  destruct (hs_reaches n setup_ok i i ltac:(lia) Hi Hok) as (k & r & Hr).
  exists (Handshake (Awaiting i) false (upd (upd k i Setup) i Failed) r).
  assert (Hr' : rtc (hs_step n setup_ok) hs_init
    (Handshake (Awaiting i) false (upd (upd k i Setup) i Failed) r)).
  { etrans; [exact Hr|]. eapply rtc_l; [by apply hs_fork|].
    eapply rtc_l; [apply (hs_child_fails _ _ _ _ _ _ i); [by rewrite upd_eq|done]|]. apply rtc_refl. }
  split; [done|]. split; [done|]. intros s' Hst.
  apply hs_inv_reachable in Hr'. inversion Hst; subst.
  - destruct (hs_inv_no_setup _ _ _ _ _ _ _ Hr' ltac:(eassumption)) as [[= <-] _].
    rewrite upd_eq in *. done.
  - destruct (hs_inv_no_setup _ _ _ _ _ _ _ Hr' ltac:(eassumption)) as [[= <-] _].
    rewrite upd_eq in *. done.
  - destruct (hs_inv_up_true _ _ _ _ _ _ _ Hr' ltac:(eassumption)) as [[j [=]]|(b & j & [=] & _)].
  - destruct (hs_inv_up_true _ _ _ _ _ _ _ Hr' ltac:(eassumption)) as [[j [=]]|(b & j & [=] & _)].
Qed.

(** Without errors of [fork] and [kill], [run_benchmarks] returns true,
    and the [wait_benchmarks] after it waits for every child it started: the
    result is 0 exactly if every [waitpid] succeeds.  A second wait is a
    no-op. *)
Theorem run_wait_benchmarks waitpid forks g
    (Hn : forks <> []) (Hf : Forall (fun p => p <> -1) forks) :
  exists g' g'',
    run_benchmarks true forks (replicate (length forks) true) g = Done (true, g') /\
    wait_benchmarks waitpid g' =
      Done (if forallb (fun p => 0 <=? waitpid p) forks then 0 else -1, g'') /\
    wait_benchmarks waitpid g'' = Done (0, g'').
Proof.
  unfold run_benchmarks. destruct (Nat.eqb_spec (length forks) 0) as [Hz|Hz].
  { by apply nil_length_inv in Hz. }
  cbn -[replicate]. rewrite fork_loop_ok; [|done|cbn; rewrite length_replicate; lia].
  cbn -[replicate]. rewrite kill_loop_ok. cbn.
  eexists _, _. split; [done|]. unfold wait_benchmarks. cbn [childpids num_childpids].
  rewrite take_ge by (rewrite length_fmap; lia). rewrite wait_loop_ok. cbn. done.
Qed.

(** [parse_common_args] sets [unpin_procs] and [quit] exactly when [-u]
    and [-q] are given, leaves them as the caller had them otherwise, and
    returns 0 on every command line, also on [-p] together with [-u]. *)
Theorem parse_common_args_spec argv args :
  (parse_common_args argv args).1.1 = 0 /\
  (Forall (fun o => ascii_code (fst o) <> 104) (getopt_all "hqup:" argv) ->
   let args' := (parse_common_args argv args).1.2 in
   let given c := existsb (fun o => ascii_code (fst o) =? c) (getopt_all "hqup:" argv) in
   unpin_procs args' = (if given 117 then 1 else unpin_procs args) /\
   quit args' = (if given 113 then 1 else quit args)).
Proof.
  unfold parse_common_args. split.
  - destruct (parse_opts _ _ _) as [[a h] []]; done.
  - intros Hf. destruct (parse_opts_spec _ args 0 Hf) as (a & h & -> & Hu & Hq). done.
Qed.

(** ** Witnesses *)

Definition two_ok (i : nat) : bool := (i <? 2)%nat.

Lemma handshake_safe_witness :
  exists s, kids s 0%nat = Exec /\ forall j, (j < 2)%nat -> two_ok j = true /\
    ((exists b, kids s j = Up b) \/ kids s j = Exec \/ kids s j = Failed).
Proof.
  assert (H : exists s, rtc (hs_step 2 two_ok) hs_init s /\ kids s 0%nat = Exec).
  { eexists. split.
    - eapply rtc_l; [apply hs_fork; lia|].
      eapply rtc_l; [by apply (hs_child_up _ _ _ _ _ _ 0)|].
      eapply rtc_l; [apply hs_wake|].
      eapply rtc_l; [apply hs_fork; lia|].
      eapply rtc_l; [by apply (hs_child_up _ _ _ _ _ _ 1)|].
      eapply rtc_l; [apply hs_wake|].
      eapply rtc_l; [apply hs_all_up|].
      eapply rtc_l; [by eapply (hs_kill _ _ 0); [lia|..]|].
      eapply rtc_l; [by apply (hs_exec _ _ _ _ _ _ 0)|]. apply rtc_refl.
    - done. }
  destruct H as (s & Hr & Hx). exists s. split; [done|]. exact (handshake_safe 2 two_ok s 0 Hr Hx).
Defined.

Lemma handshake_live_witness :
  (0 <= 7 * 2 + 3)%nat /\
  ((exists s', hs_step 2 two_ok hs_init s') \/
   exists b, pc hs_init = Finished b /\
     (b = true -> forall j, (j < 2)%nat ->
      kids hs_init j = Exec \/ kids hs_init j = Failed \/ kids hs_init j = Up true)).
Proof.
  apply (handshake_live 2 two_ok hs_init 0).
  - intros i Hi. unfold two_ok. apply Nat.ltb_lt. lia.
  - apply nsteps_O.
Defined.

Lemma handshake_deadlock_witness :
  exists s, rtc (hs_step 3 two_ok) hs_init s /\ pc s = Awaiting 2 /\
    forall s', ~ hs_step 3 two_ok s s'.
Proof.
  apply (handshake_deadlock 3 two_ok 2); [lia| |reflexivity].
  intros j Hj. unfold two_ok. apply Nat.ltb_lt. lia.
Defined.

Lemma run_wait_benchmarks_witness :
  exists g' g'',
    run_benchmarks true [7; 8] [true; true] (Globals None 0) = Done (true, g') /\
    wait_benchmarks (fun p => if p =? 8 then -1 else p) g' = Done (-1, g'') /\
    wait_benchmarks (fun p => if p =? 8 then -1 else p) g'' = Done (0, g'').
Proof.
  apply (run_wait_benchmarks (fun p => if p =? 8 then -1 else p) [7; 8] (Globals None 0)).
  - discriminate.
  - repeat constructor; discriminate.
Defined.

Lemma parse_common_args_spec_witness :
  (parse_common_args ["catbench"; "-up3"; "-q"]%string (Args 5 6 7)).1.1 = 0 /\
  unpin_procs (parse_common_args ["catbench"; "-up3"; "-q"]%string (Args 5 6 7)).1.2 = 1.
Proof.
  split; [apply (parse_common_args_spec ["catbench"; "-up3"; "-q"]%string (Args 5 6 7))|].
  apply (parse_common_args_spec ["catbench"; "-up3"; "-q"]%string (Args 5 6 7)).
  repeat constructor; vm_compute; discriminate.
Defined.
