(* ===== verification/CosTools.v ===== *)
(** * catbench.c, slowbro.c, locksmith.c and dist_a.c: the measurement drivers

    Each driver prepares the machine, programs libpqos and runs its test
    programs.  libpqos, the kernel and the results of the system calls behind
    [run_benchmarks] and [wait_benchmarks] are parameters; printing, sleeping
    and the log are not part of the model. *)

From S2P Require Import Prelude Cstr ProcManip PrepSystem BenchCommands.

(** A test program: its words and [target_cpu]. *)
Record test_prog_t : Type := TestProg { cmdline : list string; target_cpu : Z }.

(** What a driver learns from outside when it starts its programs: the
    results of [malloc], [fork], [kill] and [waitpid]. *)
Record bench_env : Type := BenchEnv {
  env_malloc : bool;
  env_forks : list Z;
  env_kills : list bool;
  env_waitpid : Z -> Z;
}.

(** The outcome of starting some programs; [fork] is called once for each. *)
Definition spawner : Type := list test_prog_t -> bench_env.

Definition run_progs (env : spawner) (progs : list test_prog_t)
    : outcome (bool * bench_globals) :=
  let e := env progs in
  run_benchmarks (env_malloc e) (take (length progs) (env_forks e)) (env_kills e) (Globals None 0).

Definition wait_progs (env : spawner) (progs : list test_prog_t) (g : bench_globals)
    : outcome (Z * bench_globals) :=
  wait_benchmarks (env_waitpid (env progs)) g.

(** What libpqos documents: [pqos_class_mask q socket class] is the way mask
    of a class, which [pqos_l3ca_set] replaces for the classes it is given,
    and associations are read back as they were set.  Each call leaves the
    other state alone. *)
Definition new_mask (l : list pqos_l3ca) (class old : Z) : Z :=
  foldl (fun m c => if class_id c =? class then ways_mask c else m) old l.

Class PqosLaws `{Pqos} := {
  pqos_class_mask : pqos -> Z -> Z;
  l3ca_set_mask : forall q l q' c, pqos_l3ca_set q 0 l = (PQOS_RETVAL_OK, q') ->
    pqos_class_mask q' c = new_mask l c (pqos_class_mask q c);
  l3ca_set_assoc : forall q l q' core, pqos_l3ca_set q 0 l = (PQOS_RETVAL_OK, q') ->
    pqos_l3ca_assoc_get q' core = pqos_l3ca_assoc_get q core;
  assoc_set_mask : forall q core cos q' c, pqos_l3ca_assoc_set q core cos = (PQOS_RETVAL_OK, q') ->
    pqos_class_mask q' c = pqos_class_mask q c;
  assoc_set_get : forall q core cos q' core', pqos_l3ca_assoc_set q core cos = (PQOS_RETVAL_OK, q') ->
    pqos_l3ca_assoc_get q' core' =
      if core' =? core then (PQOS_RETVAL_OK, cos) else pqos_l3ca_assoc_get q core';
}.

(** ** Definitions *)

Section Drivers.
Context `{Sched} `{Pqos}.
Variable junk : Z -> nat -> Z.

(** *** catbench.c *)

Definition test_progs : list test_prog_t :=
  [TestProg ["clients/square_evictions"; "-n1"; "-c0"; "-e25"; "-r"]%string 0].

(** [main] of catbench.c; [args0] is the uninitialised [args]. *)
Definition catbench_main (argv : list string) (args0 : args_t) (env : spawner)
    (q : pqos) (k : sched) : outcome (Z * pqos * sched) :=
  let '(_, args, _) := parse_common_args argv args0 in
  '(ret, q, k) ←
    prep_system junk (negb (unpin_procs args =? 0)) (procs_go_where args) q k;
  if ret <? 0 then Done (ret, q, k)
  else if negb (quit args =? 0) then Done (ret, q, k)
  else
    _ ← run_progs env test_progs;
    cleanup_system junk (negb (unpin_procs args =? 0)) q k.

(** *** slowbro.c *)

Definition COS_MASK_REPLACEMENT : pqos_l3ca := L3ca 3 2.
Definition slowbro_COS_MAPPINGS : list Z := [3; 1; 2].
Definition slowbro_COS_MASKS : list pqos_l3ca :=
  [L3ca 3 1; L3ca 1 1; L3ca 2 2; L3ca 0 (4092)].
Definition COS_MAPPING_SWITCH_WHICH_CORE : Z := 0.
Definition COS_MAPPING_SWITCH_TO_COS : Z := 2.

(** The loop that associates the cores, from [core] on; whether all went well. *)
Fixpoint assoc_loop (core : Z) (cos : list Z) (q : pqos) : bool * pqos :=
  match cos with
  | [] => (true, q)
  | c :: rest =>
      let '(r, q) := pqos_l3ca_assoc_set q core c in
      if negb (r =? PQOS_RETVAL_OK) then (false, q) else assoc_loop (core + 1) rest q
  end.

(** The tool's setup of libpqos: masks, then associations. *)
Definition slowbro_setup (q : pqos) : bool * pqos :=
  let '(r, q) := pqos_l3ca_set q 0 slowbro_COS_MASKS in
  if negb (r =? PQOS_RETVAL_OK) then (false, q) else assoc_loop 0 slowbro_COS_MAPPINGS q.

(** The change while the programs run. *)
Definition slowbro_switch (slowpoke : bool) (q : pqos) : bool * pqos :=
  if negb slowpoke then
    let '(r, q) := pqos_l3ca_assoc_set q COS_MAPPING_SWITCH_WHICH_CORE COS_MAPPING_SWITCH_TO_COS in
    (r =? PQOS_RETVAL_OK, q)
  else
    let '(r, q) := pqos_l3ca_set q 0 [COS_MASK_REPLACEMENT] in (r =? PQOS_RETVAL_OK, q).

(** [slowpoke] starts as true and is only ever set to true. *)
Definition slowpoke_of (argc : Z) : bool := if 4 <=? argc then true else true.

(** [progs], with the log switches of the two arguments as word 7. *)
Definition slowbro_progs (argv1 argv2 : string) : list test_prog_t :=
  let noisy log := ["clients/square_evictions"; "-e100"; "-c0"; "-n1"; "-p4"; "-hr"; "-j480"; "-l" +:+ log]%string in
  [TestProg ["clients/square_evictions"; "-e100"; "-c0"; "-n1"; "-p10"; "-hr"]%string 0;
   TestProg (noisy argv1) 1; TestProg (noisy argv2) 2].

Definition slowbro_main (argc : Z) (argv1 argv2 : string) (env : spawner) (q : pqos) (k : sched)
    : outcome (Z * pqos * sched) :=
  if argc <? 3 then Done (1, q, k)
  else
    '(ret, q, k) ← prep_system junk false (-1) q k;
    if ret <? 0 then Done (1, q, k)
    else
      let '(ok, q) := slowbro_setup q in
      if negb ok then Done (1, q, k)
      else
        '(_, g) ← run_progs env (slowbro_progs argv1 argv2);
        let '(ok, q) := slowbro_switch (slowpoke_of argc) q in
        if negb ok then Done (1, q, k)
        else
          _ ← wait_progs env (slowbro_progs argv1 argv2) g;
          '(_, q, k) ← cleanup_system junk true q k;
          Done (0, q, k).

(** *** locksmith.c *)

Definition COMMON_COS : Z := 1.
Definition OTHER_COS : Z := 2.
Definition locksmith_COS_MAPPINGS : list Z := [COMMON_COS; COMMON_COS].
Definition locksmith_COS_MASKS : list pqos_l3ca := [L3ca COMMON_COS 15; L3ca OTHER_COS 240].
Definition COS_MASKS2 : list pqos_l3ca := [L3ca OTHER_COS 15].
Definition COS_MASKS3 : list pqos_l3ca := [L3ca OTHER_COS 240].
Definition NUM_SWITCHES : Z := 2 ^ 24.

Definition locksmith_progs : list test_prog_t :=
  [TestProg ["clients/square_evictions"; "-e25"; "-c25"; "-n2"; "-m"; "-h"]%string 0].

(** The association loop with the read-back that two asserts check. *)
Fixpoint checked_assoc_loop (core : Z) (cos : list Z) (q : pqos) : outcome (bool * pqos) :=
  match cos with
  | [] => Done (true, q)
  | c :: rest =>
      let '(r, q) := pqos_l3ca_assoc_set q core c in
      if negb (r =? PQOS_RETVAL_OK) then Done (false, q)
      else
        let '(r, thenum) := pqos_l3ca_assoc_get q core in
        _ ← c_assert (r =? PQOS_RETVAL_OK);
        _ ← c_assert (thenum =? c);
        checked_assoc_loop (core + 1) rest q
  end.

(** The MASK_SWAP loop: the results of the calls are ignored. *)
Definition mask_swap (q : pqos) : pqos :=
  let '(_, q) := pqos_l3ca_set q 0 COS_MASKS2 in
  let '(_, q) := pqos_l3ca_set q 0 COS_MASKS3 in q.

(** [main] of locksmith.c; [swappy] says whether the first argument starts
    with "-s".  The end of [main] returns 0. *)
Definition locksmith_main (swappy : bool) (env : spawner) (q : pqos) (k : sched)
    : outcome (Z * pqos * sched) :=
  '(ret, q, k) ← prep_system junk false (-1) q k;
  if ret <? 0 then Done (1, q, k)
  else
    let '(r, q) := pqos_l3ca_set q 0 locksmith_COS_MASKS in
    if negb (r =? PQOS_RETVAL_OK) then Done (1, q, k)
    else
      '(ok, q) ← checked_assoc_loop 0 locksmith_COS_MAPPINGS q;
      if negb ok then Done (1, q, k)
      else
        '(_, g) ← run_progs env locksmith_progs;
        let q := if (swappy : bool) then Z.iter NUM_SWITCHES mask_swap q else q in
        _ ← wait_progs env locksmith_progs g;
        '(_, q, k) ← cleanup_system junk true q k;
        Done (0, q, k).

(** *** dist_a.c *)

Definition NUM_WAYS : Z := 12.
Definition NUM_CORES : Z := 8.
Definition TRASH_CORE : Z := -1.
Definition TARGET_CPU : Z := 3.

(** [parse_arg_arg]: [None] for false. *)
Definition dist_a_parse_arg_arg (optarg : string) : option Z :=
  match sscanf_d optarg with
  | Some v => if v <? 0 then None else Some v
  | None => None
  end.

(** [rotate_cores(loc)] from core [i] on, [n] cores to go. *)
Fixpoint rotate_from (i : Z) (n : nat) (loc : Z) (q : pqos) : outcome pqos :=
  match n with
  | O => Done q
  | S n =>
      let '(ret, q) := pqos_l3ca_assoc_set q i (Z.rem (i + loc) NUM_WAYS) in
      _ ← c_assert (ret =? PQOS_RETVAL_OK);
      rotate_from (i + 1) n loc q
  end.
Definition rotate_cores (loc : Z) (q : pqos) : outcome pqos :=
  rotate_from 0 (Z.to_nat NUM_CORES) loc q.

(** The masks: class [i] owns way [i] alone. *)
Definition dist_a_cos : list pqos_l3ca :=
  (fun i => L3ca (Z.of_nat i) (Z.shiftl 1 (Z.of_nat i))) <$> seq 0 (Z.to_nat NUM_WAYS).

(** The array [cmdline] of a round, whose second element carries the
    [target_cpu]; [run_benchmarks] is given the first alone. *)
Definition dist_a_cmdline : list test_prog_t :=
  [TestProg ["clients/square_evictions"; "-n1"; "-c50"; "-e50"; "-p1000000"; "-hr"]%string 0;
   TestProg [] TARGET_CPU].

(** [config_offset_clocks], [_begin] and [_end]. *)
Record dist_a_stats : Type := DistA {
  config_offset_clocks : list Z;
  config_offset_begin : list Z;
  config_offset_end : list Z;
}.

Definition dist_a_init : dist_a_stats :=
  let z := replicate (Z.to_nat NUM_WAYS) 0 in DistA z z z.

(** One round, for [offset]; [tsc] are the two results of [rdtscp]. *)
Definition dist_a_round (start_cycle offset : Z) (env : spawner) (tsc : Z * Z)
    (q : pqos) (d : dist_a_stats) : outcome (pqos * dist_a_stats) :=
  _ ← c_defined (in_s32 (start_cycle + offset));
  let cycle := Z.rem (start_cycle + offset) NUM_WAYS in
  q ← rotate_cores cycle q;
  '(_, g) ← run_progs env (take 1 dist_a_cmdline);
  _ ← wait_progs env (take 1 dist_a_cmdline) g;
  let '(begin_, end_) := tsc in
  _ ← c_assert (begin_ <? end_);
  clocks ← of_opt (zset (config_offset_clocks d) cycle (end_ - begin_));
  begins ← of_opt (zset (config_offset_begin d) cycle begin_);
  ends ← of_opt (zset (config_offset_end d) cycle end_);
  Done (q, DistA clocks begins ends).

(** The rounds from [offset] on: the environment of each is in [rounds]. *)
Fixpoint dist_a_rounds (start_cycle offset : Z) (rounds : list (spawner * (Z * Z)))
    (q : pqos) (d : dist_a_stats) : outcome (pqos * dist_a_stats) :=
  match rounds with
  | [] => Done (q, d)
  | (env, tsc) :: rest =>
      '(q, d) ← dist_a_round start_cycle offset env tsc q d;
      dist_a_rounds start_cycle (offset + 1) rest q d
  end.

(** [dist_a(num_passes, start_cycle)]; [rounds] are NUM_WAYS environments. *)
Definition dist_a (start_cycle : Z) (rounds : list (spawner * (Z * Z))) (q : pqos)
    : outcome (Z * pqos * dist_a_stats) :=
  let '(_, q) := pqos_l3ca_set q 0 dist_a_cos in
  '(q, d) ← dist_a_rounds start_cycle 0 rounds q dist_a_init;
  Done (0, q, d).

(** The option loop of [main]: [None] for the exits with 1, otherwise
    [num_passes], [percent] and [start_cycle]. *)
Fixpoint dist_a_opts (opts : list opt_result) (a : Z * Z * Z) : option (Z * Z * Z) :=
  match opts with
  | [] => Some a
  | (c, optarg) :: rest =>
      let '(num_passes, percent, start_cycle) := a in
      let arg := dist_a_parse_arg_arg (default EmptyString optarg) in
      if ascii_code c =? 110 (* n *) then
        v ← arg; dist_a_opts rest (v, percent, start_cycle)
      else if ascii_code c =? 112 (* p *) then
        v ← arg; dist_a_opts rest (num_passes, v, start_cycle)
      else if ascii_code c =? 115 (* s *) then
        v ← arg; dist_a_opts rest (num_passes, percent, v)
      else None
  end.

Definition dist_a_main (argv : list string) (rounds : list (spawner * (Z * Z)))
    (q : pqos) (k : sched) : outcome (Z * pqos * sched) :=
  match dist_a_opts (getopt_all "n:p:s:" argv) (100000, 80, 0) with
  | None => Done (1, q, k)
  | Some (_, _, start_cycle) =>
      '(_, q, k) ← prep_system junk false TRASH_CORE q k;
      q ← rotate_cores 0 q;
      '(ret, q, _) ← dist_a start_cycle rounds q;
      '(_, q, k) ← cleanup_system junk true q k;
      Done (ret, q, k)
  end.
End Drivers.

(** ** Lemmas *)

Lemma rotate_from_assoc `{PqosLaws} i n loc q q' core :
  rotate_from i n loc q = Done q' ->
  pqos_l3ca_assoc_get q' core =
    if (i <=? core) && (core <? i + Z.of_nat n) then (PQOS_RETVAL_OK, Z.rem (core + loc) NUM_WAYS)
    else pqos_l3ca_assoc_get q core.
Proof.
  revert i q. induction n as [|n IH]; intros i q E; cbn [rotate_from] in E.
  - simplify_eq. destruct (Z.leb_spec i core), (Z.ltb_spec core (i + Z.of_nat 0)); cbn; lia || done.
  - destruct (pqos_l3ca_assoc_set q i _) as [r q1] eqn:Es.
    destruct (Z.eqb_spec r PQOS_RETVAL_OK) as [->|]; [|done]. cbn in E.
    rewrite (IH _ _ E), (assoc_set_get _ _ _ _ core Es).
    destruct (Z.leb_spec (i + 1) core), (Z.leb_spec i core), (Z.ltb_spec core (i + 1 + Z.of_nat n)),
      (Z.ltb_spec core (i + Z.of_nat (S n))), (Z.eqb_spec core i); cbn; subst; lia || done.
Qed.

(** What a round leaves: the association of the cores, and the entry of its
    cycle in the statistics. *)
Lemma dist_a_round_spec `{PqosLaws} start offset env tsc q d q' d' :
  0 <= start -> 0 <= offset ->
  dist_a_round start offset env tsc q d = Done (q', d') ->
  let cycle := (start + offset) mod NUM_WAYS in
  (forall core, 0 <= core < NUM_CORES ->
     pqos_l3ca_assoc_get q' core = (PQOS_RETVAL_OK, (core + cycle) mod NUM_WAYS)) /\
  tsc.1 < tsc.2 /\
  zset (config_offset_clocks d) cycle (tsc.2 - tsc.1) = Some (config_offset_clocks d').
Proof.
  intros Hs Ho. unfold dist_a_round. intros E.
  destruct (in_s32 (start + offset)); cbn in E; [|done].
  rewrite Z.rem_mod_nonneg in E by (unfold NUM_WAYS; lia).
  set (cycle := (start + offset) mod NUM_WAYS) in *.
  assert (0 <= cycle < 12) by (by apply Z.mod_pos_bound).
  destruct (rotate_cores cycle q) as [q1| |] eqn:Er; cbn in E; try done.
  destruct (run_progs _ _) as [[b g]| |]; cbn in E; try done.
  destruct (wait_progs _ _ _) as [w| |]; cbn in E; try done.
  destruct tsc as [b0 e0]. destruct (Z.ltb_spec b0 e0); cbn in E; [|done].
  destruct (zset (config_offset_clocks d) cycle (e0 - b0)) as [c1|] eqn:Ez; cbn in E; [|done].
  destruct (zset (config_offset_begin d) cycle b0) as [c2|]; cbn in E; [|done].
  destruct (zset (config_offset_end d) cycle e0) as [c3|]; cbn in E; [|done].
  simplify_eq. cbn. split; [|by split].
  intros core Hc. unfold rotate_cores in Er. rewrite (rotate_from_assoc _ _ _ _ _ core Er).
  change (Z.of_nat (Z.to_nat NUM_CORES)) with 8. change NUM_CORES with 8 in Hc.
  destruct (Z.leb_spec 0 core), (Z.ltb_spec core (0 + 8)); cbn [andb]; [|lia..].
  by rewrite Z.rem_mod_nonneg by (unfold NUM_WAYS; lia).
Qed.

(** Rounds leave the entries of other cycles alone. *)
Lemma dist_a_rounds_other `{PqosLaws} start offset rounds q d q' d' c :
  0 <= start -> 0 <= offset -> 0 <= c ->
  dist_a_rounds start offset rounds q d = Done (q', d') ->
  (forall j, (j < length rounds)%nat -> (start + offset + Z.of_nat j) mod NUM_WAYS <> c) ->
  config_offset_clocks d' !! Z.to_nat c = config_offset_clocks d !! Z.to_nat c.
Proof.
  intros Hs Ho Hc. revert offset q d Ho.
  induction rounds as [|[env tsc] rounds IH]; intros offset q d Ho E Hj; cbn [dist_a_rounds] in E.
  - by simplify_eq.
  - destruct (dist_a_round _ _ _ _ _ _) as [[q1 d1]| |] eqn:Er; cbn in E; try done.
    apply dist_a_round_spec in Er as (_ & _ & Hz); [|done..].
    rewrite (IH (offset + 1) _ _ ltac:(lia) E).
    + apply zset_Some in Hz as [Hl ->]. apply list_lookup_insert_ne.
      specialize (Hj 0%nat ltac:(cbn; lia)). replace (start + offset + Z.of_nat 0) with (start + offset) in Hj by lia.
      change NUM_WAYS with 12 in *. pose proof (Z.mod_pos_bound (start + offset) 12 ltac:(lia)). lia.
    + intros j Hjl. specialize (Hj (S j) ltac:(cbn; lia)). intros Hx. apply Hj. rewrite <- Hx. f_equal. lia.
Qed.

Lemma dist_a_rounds_spec `{PqosLaws} start offset rounds q d q' d' j env tsc :
  0 <= start -> 0 <= offset -> (length rounds <= 12)%nat ->
  dist_a_rounds start offset rounds q d = Done (q', d') ->
  rounds !! j = Some (env, tsc) ->
  config_offset_clocks d' !! Z.to_nat ((start + offset + Z.of_nat j) mod NUM_WAYS) =
    Some (tsc.2 - tsc.1).
Proof.
  intros Hs Ho Hl. revert offset q d j Ho Hl.
  induction rounds as [|[env0 tsc0] rounds IH]; intros offset q d j Ho Hl E Hj; [done|].
  cbn [dist_a_rounds] in E. cbn [length] in Hl.
  destruct (dist_a_round _ _ _ _ _ _) as [[q1 d1]| |] eqn:Er; cbn in E; try done.
  destruct j as [|j]; cbn in Hj.
  - simplify_eq. apply dist_a_round_spec in Er as (_ & _ & Hz); [|done..].
    replace (start + offset + Z.of_nat 0) with (start + offset) by lia.
    pose proof (Z.mod_pos_bound (start + offset) 12 ltac:(lia)) as Hb.
    rewrite (dist_a_rounds_other start (offset + 1) rounds q1 d1 q' d'); [|lia|lia|apply Hb|done|].
    + apply zset_Some in Hz as [Hlt ->]. apply list_lookup_insert_eq. lia.
    + intros j Hjl Hx. change NUM_WAYS with 12 in Hx.
      pose proof (Z.div_mod (start + offset) 12 ltac:(lia)).
      pose proof (Z.div_mod (start + (offset + 1) + Z.of_nat j) 12 ltac:(lia)). lia.
  - replace (start + offset + Z.of_nat (S j)) with (start + (offset + 1) + Z.of_nat j) by lia.
    eapply IH; [lia|lia|done|done].
Qed.

(** ** Properties *)

(** A completed [dist_a] has measured all twelve rotations, whatever the
    first one: the time of round [j] is the entry of its rotation, and in a
    round core [i] is bound to the class, and so to the one way,
    [(i + rotation) mod 12]. *)
Theorem dist_a_measures `{PqosLaws} start rounds q ret q' d
    (Hs : 0 <= start) (Hl : length rounds = 12%nat)
    (E : dist_a start rounds q = Done (ret, q', d)) :
  (forall j env tsc, rounds !! j = Some (env, tsc) ->
     config_offset_clocks d !! Z.to_nat ((start + Z.of_nat j) mod NUM_WAYS) = Some (tsc.2 - tsc.1)) /\
  (forall c, 0 <= c < NUM_WAYS -> exists j, (j < 12)%nat /\ (start + Z.of_nat j) mod NUM_WAYS = c) /\
  (forall offset env tsc q0 d0 q1 d1, 0 <= offset ->
     dist_a_round start offset env tsc q0 d0 = Done (q1, d1) ->
     forall core, 0 <= core < NUM_CORES ->
     pqos_l3ca_assoc_get q1 core = (0, (core + (start + offset) mod NUM_WAYS) mod NUM_WAYS)).
Proof.
  unfold dist_a in E. destruct (pqos_l3ca_set q 0 dist_a_cos) as [r q0].
  destruct (dist_a_rounds _ _ _ _ _) as [[q1 d1]| |] eqn:Er; cbn in E; [|done..]. simplify_eq.
  split_and!.
  - intros j env tsc Hj. replace (start + Z.of_nat j) with (start + 0 + Z.of_nat j) by lia.
    eapply (dist_a_rounds_spec start 0 rounds); [done|done|lia|done|done].
  - intros c Hc. change NUM_WAYS with 12 in *.
    pose proof (Z.mod_pos_bound (c - start) 12 ltac:(lia)).
    exists (Z.to_nat ((c - start) mod 12)). split; [lia|].
    rewrite Z2Nat.id by lia. rewrite Zplus_mod_idemp_r.
    replace (start + (c - start)) with c by lia. apply Z.mod_small. lia.
  - intros offset env tsc q2 d2 q3 d3 Ho Hr. by eapply dist_a_round_spec in Hr as [Hr _].
Qed.

(** Slowbro's cache partition: after the setup core 0 has the way of
    core 1 and core 2 another; the switch in mid-run, which always replaces
    the mask ([slowpoke] is never false), gives core 0 the way of core 2. *)
Theorem slowbro_switches `{PqosLaws} argc q q1 q2
    (Hsetup : slowbro_setup q = (true, q1))
    (Hswitch : slowbro_switch (slowpoke_of argc) q1 = (true, q2)) :
  let mask q core := pqos_class_mask q (pqos_l3ca_assoc_get q core).2 in
  (mask q1 0, mask q1 1, mask q1 2) = (1, 1, 2) /\
  (mask q2 0, mask q2 1, mask q2 2) = (2, 1, 2).
Proof.
  unfold slowbro_setup, slowbro_COS_MAPPINGS in Hsetup.
  destruct (pqos_l3ca_set q 0 slowbro_COS_MASKS) as [r qa] eqn:Ea.
  destruct (Z.eqb_spec r PQOS_RETVAL_OK) as [->|]; cbn in Hsetup; [|done].
  destruct (pqos_l3ca_assoc_set qa 0 3) as [r0 qb] eqn:Eb.
  destruct (Z.eqb_spec r0 PQOS_RETVAL_OK) as [->|]; cbn in Hsetup; [|done].
  change (0 + 1) with 1 in Hsetup.
  destruct (pqos_l3ca_assoc_set qb 1 1) as [r1 qc] eqn:Ec.
  destruct (Z.eqb_spec r1 PQOS_RETVAL_OK) as [->|]; cbn in Hsetup; [|done].
  change (1 + 1) with 2 in Hsetup.
  destruct (pqos_l3ca_assoc_set qc 2 2) as [r2 qd] eqn:Ed.
  destruct (Z.eqb_spec r2 PQOS_RETVAL_OK) as [->|]; cbn in Hsetup; [|done].
  simplify_eq. unfold slowbro_switch in Hswitch.
  assert (slowpoke_of argc = true) as Hp by apply if_same.
  rewrite Hp in Hswitch. cbn [negb] in Hswitch.
  destruct (pqos_l3ca_set q1 0 [COS_MASK_REPLACEMENT]) as [r3 qe] eqn:Ee.
  injection Hswitch as Hr ->. apply Z.eqb_eq in Hr as ->.
  cbv zeta beta. rewrite !(l3ca_set_assoc _ _ _ _ Ee), !(l3ca_set_mask _ _ _ _ Ee).
  rewrite !(assoc_set_get _ _ _ _ _ Ed), !(assoc_set_get _ _ _ _ _ Ec),
    !(assoc_set_get _ _ _ _ _ Eb). cbn.
  rewrite !(assoc_set_mask _ _ _ _ _ Ed), !(assoc_set_mask _ _ _ _ _ Ec),
    !(assoc_set_mask _ _ _ _ _ Eb), !(l3ca_set_mask _ _ _ _ Ea). done.
Qed.

(** ** Witnesses *)

(** A libpqos that keeps the masks and the associations. *)
Definition table_pqos : Pqos := {|
  pqos := (Z -> Z) * (Z -> Z);
  pqos_init q := (0, q);
  pqos_num_cores q := Some 8;
  pqos_fini q := q;
  pqos_l3ca_set q _ l := (0, (fun c => new_mask l c (q.1 c), q.2));
  pqos_l3ca_assoc_set q core cos := (0, (q.1, fun c => if c =? core then cos else q.2 c));
  pqos_l3ca_assoc_get q core := (0, q.2 core);
|}.

Lemma table_pqos_laws : @PqosLaws table_pqos.
Proof.
  refine (@Build_PqosLaws table_pqos (fun q c => q.1 c) _ _ _ _); cbn; intros; simplify_eq; try done.
  cbn. by destruct (_ =? _).
Defined.

Definition sample_rounds : list (spawner * (Z * Z)) :=
  (fun j => (fun _ => BenchEnv true [100] [true] (fun p => p), (1000, 1001 + Z.of_nat j))) <$> seq 0 12.

Lemma dist_a_measures_witness :
  match @dist_a table_pqos 5 sample_rounds (fun _ => 0, fun _ => 0) with
  | Done (_, _, d) =>
      config_offset_clocks d !! Z.to_nat ((5 + Z.of_nat 9) mod NUM_WAYS) = Some (1001 + Z.of_nat 9 - 1000)
  | _ => False
  end.
Proof.
  destruct (@dist_a table_pqos 5 sample_rounds (fun _ => 0, fun _ => 0)) as [[[r q] d]| |] eqn:E;
    [|vm_compute in E; discriminate E..].
  refine (proj1 (@dist_a_measures table_pqos table_pqos_laws 5 sample_rounds _ r q d _ _ E)
    9%nat _ (1000, 1001 + Z.of_nat 9) _).
  - lia.
  - reflexivity.
  - reflexivity.
Defined.

Lemma slowbro_switches_witness :
  match @slowbro_setup table_pqos (fun _ => 0, fun _ => 0) with
  | (true, q1) => q1.1 (q1.2 0) = 1
  | _ => False
  end.
Proof.
  destruct (@slowbro_setup table_pqos (fun _ => 0, fun _ => 0)) as [[] q1] eqn:E1;
    [|vm_compute in E1; discriminate E1].
  destruct (@slowbro_switch table_pqos (slowpoke_of 3) q1) as [[] q2] eqn:E2;
    [|vm_compute in E2; discriminate E2].
  pose proof (@slowbro_switches table_pqos table_pqos_laws 3 _ q1 q2 E1 E2) as [H _].
  injection H as H _ _. exact H.
Defined.
