(* ===== verification/Perfexpl.v ===== *)
(** * perfexpl.c: sampling the cache misses of test programs

    The program starts test programs that wait for a signal, maps a perf
    buffer for each, releases them, and prints the samples of each buffer
    when its program has ended.  The kernel's answers are a record; a run is
    the list of the system calls it makes and how it ends.  A mapped buffer
    is a function from byte offsets to the sample that starts there. *)

From S2P Require Import Prelude.

(** ** Definitions *)

(** [perf_record_sample_t], 32 bytes: [hsize] is [header.size]. *)
Record sample : Type := Sample { hsize : Z; time : Z; cpu : Z; value : Z }.
Definition SAMPLE_SIZE : Z := 32.

(** [struct perf_event_mmap_page], as far as it is used. *)
Record perf_page : Type := Page { data_offset : Z; data_size : Z; contents : Z -> sample }.

(** [first_sample] and [next_sample] as offsets: the latter adds the size to a
    pointer to samples. *)
Definition first_sample (p : perf_page) : Z := data_offset p.
Definition next_sample (p : perf_page) (each : Z) : Z :=
  each + hsize (contents p each) * SAMPLE_SIZE.

(** A line of the report: time, misses since the last line (in [uint64_t])
    and CPU. *)
Definition row : Type := Z * Z * Z.

(** The loop over the samples, at most [fuel] of them. *)
Fixpoint report (fuel : nat) (p : perf_page) (each last_misses : Z) : option (list row) :=
  if each <? data_size p then
    match fuel with
    | O => None
    | S fuel =>
        let s := contents p each in
        rows ← report fuel p (next_sample p each) (value s);
        Some ((time s, u64 (value s - last_misses), cpu s) :: rows)
    end
  else Some [].

(** The report of one child, with the assertion on the first sample. *)
Definition report_child (fuel : nat) (p : perf_page) : option (outcome (list row)) :=
  if negb (hsize (contents p (first_sample p)) =? SAMPLE_SIZE) then Some Aborted
  else rows ← report fuel p (first_sample p) 0; Some (Done rows).

(** ** The run

    [test_proc_t], and what [memset(&children, 1, ...)] makes of it. *)
Record test_proc : Type := TestProc { pid : Z; fd : Z; buf : Z }.
Definition CHILD_UNSET : test_proc := TestProc 0x01010101 0x01010101 0x0101010101010101.

Definition MAP_FAILED : Z := 2 ^ 64 - 1.

(** The kernel's answers to the calls for the program of a number; [exec_v]
    returns only when it fails.  [page] is what a buffer holds in the end. *)
Record perf_env : Type := PerfEnv {
  fork : nat -> Z;
  exec_ok : nat -> bool;
  perf_event_open : nat -> Z;
  mmap : nat -> Z;
  kill : nat -> Z;
  page : Z -> perf_page;
}.

(** The calls other processes and the kernel can see. *)
Inductive perf_call : Type :=
| KillParent
| AwaitExec
| Exec (prog : nat)
| AwaitUp (pid : Z)
| EventOpen (pid : Z)
| Mmap (fd : Z)
| KillChild (pid : Z)
| Waitpid (pid : Z)
| Munmap (addr : Z).

(** How a part of [main] ends: control goes on, or to [cleanup] with [ret], or
    the process image is replaced. *)
Inductive perf_flow : Type := GoOn | Cleanup (ret : Z) | Replaced.

(** The body of the first loop for program [prog]. *)
Definition start_prog (e : perf_env) (prog : nat) (children : list test_proc) : list perf_call * list test_proc * perf_flow :=
  let p := fork e prog in
  if p =? -1 then ([], children, Cleanup 1)
  else if p =? 0 then
    ([KillParent; AwaitExec; Exec prog], children, if exec_ok e prog then Replaced else Cleanup 1)
  else
    let children := alter (fun c => TestProc p (fd c) (buf c)) prog children in
    let f := perf_event_open e prog in
    if f <? 0 then ([AwaitUp p; EventOpen p], children, Cleanup 1)
    else
      let children := alter (fun c => TestProc (pid c) f (buf c)) prog children in
      let b := mmap e prog in
      if (b =? 0) || (b =? MAP_FAILED) then ([AwaitUp p; EventOpen p; Mmap f], children, Cleanup 1)
      else ([AwaitUp p; EventOpen p; Mmap f], alter (fun c => TestProc (pid c) (fd c) b) prog children, GoOn).

Fixpoint start_progs (e : perf_env) (progs : list nat) (children : list test_proc)
    : list perf_call * list test_proc * perf_flow :=
  match progs with
  | [] => ([], children, GoOn)
  | prog :: progs =>
      match start_prog e prog children with
      | (calls, children, GoOn) =>
          let '(calls', children, f) := start_progs e progs children in (calls ++ calls', children, f)
      | stop => stop
      end
  end.

(** The second loop, over the children from number [prog] on. *)
Fixpoint release (e : perf_env) (prog : nat) (children : list test_proc) : list perf_call * perf_flow :=
  match children with
  | [] => ([], GoOn)
  | c :: children =>
      if negb (kill e prog =? 0) then ([KillChild (pid c)], Cleanup 1)
      else let '(calls, f) := release e (S prog) children in (KillChild (pid c) :: calls, f)
  end.

(** The third loop: the rows printed for each child. *)
Fixpoint collect (fuel : nat) (e : perf_env) (children : list test_proc) : option (outcome (list (list row))) :=
  match children with
  | [] => Some (Done [])
  | c :: children =>
      o ← report_child fuel (page e (buf c));
      match o with
      | Done rows => o' ← collect fuel e children; Some (l ← o'; Done (rows :: l))
      | Aborted => Some Aborted
      | Undefined => Some Undefined
      end
  end.

(** The calls at [cleanup]. *)
Definition cleanup (children : list test_proc) : list perf_call :=
  c ← children; if buf c =? 0 then [] else [Munmap (buf c)].

(** [main] with [n] test programs: the calls it makes, what it prints, and
    its exit code unless the image is replaced. *)
Definition perfexpl_main (fuel : nat) (n : nat) (e : perf_env)
    : option (outcome (list perf_call * list (list row) * option Z)) :=
  let '(calls, children, f) := start_progs e (seq 0 n) (replicate n CHILD_UNSET) in
  match f with
  | Replaced => Some (Done (calls, [], None))
  | Cleanup ret => Some (Done (calls ++ cleanup children, [], Some ret))
  | GoOn =>
      let '(calls', f) := release e 0 children in
      match f with
      | GoOn =>
          o ← collect fuel e children;
          Some (rows ← o;
                Done (calls ++ calls' ++ ((fun c => Waitpid (pid c)) <$> children) ++ cleanup children, rows, Some 0))
      | Cleanup ret => Some (Done (calls ++ calls' ++ cleanup children, [], Some ret))
      | Replaced => Some (Done (calls ++ calls', [], None))
      end
  end.

(** ** Starting the programs *)

(** The kernel lets program [i] start. *)
Definition starts (e : perf_env) (i : nat) : Prop :=
  fork e i <> -1 /\ fork e i <> 0 /\ 0 <= perf_event_open e i /\ mmap e i <> 0 /\ mmap e i <> MAP_FAILED.

Definition started (e : perf_env) (i : nat) : test_proc := TestProc (fork e i) (perf_event_open e i) (mmap e i).
Definition up_calls (e : perf_env) (i : nat) : list perf_call :=
  [AwaitUp (fork e i); EventOpen (fork e i); Mmap (perf_event_open e i)].

(** The children when [k] programs of [k + r] have been started. *)
Definition children_at (e : perf_env) (k r : nat) : list test_proc := (started e <$> seq 0 k) ++ replicate r CHILD_UNSET.

Lemma alter_children e k r f :
  alter f k (children_at e k (S r)) = (started e <$> seq 0 k) ++ f CHILD_UNSET :: replicate r CHILD_UNSET.
Proof.
  unfold children_at. set (l := started e <$> seq 0 k).
  replace k with (length l + 0)%nat at 1 by (unfold l; rewrite length_fmap, length_seq; lia).
  by rewrite alter_app_r.
Qed.

Lemma alter_middle e k r f c :
  alter f k ((started e <$> seq 0 k) ++ c :: replicate r CHILD_UNSET) = (started e <$> seq 0 k) ++ f c :: replicate r CHILD_UNSET.
Proof.
  set (l := started e <$> seq 0 k).
  replace k with (length l + 0)%nat at 1 by (unfold l; rewrite length_fmap, length_seq; lia).
  by rewrite alter_app_r.
Qed.

Lemma children_at_S e k r : (started e <$> seq 0 k) ++ started e k :: replicate r CHILD_UNSET = children_at e (S k) r.
Proof. unfold children_at. rewrite seq_S, fmap_app, <- app_assoc. done. Qed.

Lemma start_prog_ok e k r :
  starts e k -> start_prog e k (children_at e k (S r)) = (up_calls e k, children_at e (S k) r, GoOn).
Proof.
  intros (Hf & Hf0 & Ho & Hm & Hm'). unfold start_prog.
  destruct (Z.eqb_spec (fork e k) (-1)); [done|]. destruct (Z.eqb_spec (fork e k) 0); [done|].
  destruct (Z.ltb_spec (perf_event_open e k) 0); [lia|].
  destruct (Z.eqb_spec (mmap e k) 0); [done|]. destruct (Z.eqb_spec (mmap e k) MAP_FAILED); [done|].
  cbn [orb]. by rewrite alter_children, !alter_middle, <- children_at_S.
Qed.

(** The first programs that start, and what comes after them. *)
Lemma start_progs_ok e m k r l :
  (forall i, (k <= i < k + m)%nat -> starts e i) ->
  start_progs e (seq k m ++ l) (children_at e k (m + r)) =
    (let '(calls, ch, f) := start_progs e l (children_at e (k + m) r) in
     (((i ← seq k m; up_calls e i) ++ calls), ch, f)).
Proof.
  revert k. induction m as [|m IH]; intros k Hs; cbn [seq app Nat.add].
  - rewrite Nat.add_0_r. by destruct (start_progs e l _) as [[??]?].
  - cbn [start_progs]. rewrite start_prog_ok by (apply Hs; lia). rewrite IH by (intros; apply Hs; lia).
    replace (S k + m)%nat with (k + S m)%nat by lia.
    destruct (start_progs e l _) as [[??]?]. cbn [mbind list_bind]. by rewrite <- app_assoc.
Qed.

Lemma release_ok e cs k :
  (forall i, kill e i = 0) -> release e k cs = ((fun c => KillChild (pid c)) <$> cs, GoOn).
Proof.
  intros Hk. revert k. induction cs as [|c cs IH]; intros k; cbn [release]; [done|].
  rewrite Hk, IH. done.
Qed.

Lemma cleanup_app l l' : cleanup (l ++ l') = cleanup l ++ cleanup l'.
Proof. apply bind_app. Qed.

Lemma cleanup_started e l :
  (forall i, i ∈ l -> starts e i) -> cleanup (started e <$> l) = (fun i => Munmap (mmap e i)) <$> l.
Proof.
  unfold cleanup. induction l as [|i l IH]; intros Hs; [done|]. cbn [fmap list_fmap mbind list_bind started buf].
  destruct (Hs i ltac:(left)) as (_ & _ & _ & Hm & _). destruct (Z.eqb_spec (mmap e i) 0); [done|].
  cbn [app]. f_equal. apply IH. intros. apply Hs. by right.
Qed.

Lemma cleanup_unset r : cleanup (replicate r CHILD_UNSET) = replicate r (Munmap (buf CHILD_UNSET)).
Proof. induction r as [|r IH]; [done|]. cbn [replicate]. by rewrite <- IH. Qed.

Lemma collect_ok fuel e rows cs :
  (forall c, c ∈ cs -> report_child fuel (page e (buf c)) = Some (Done (rows (buf c)))) ->
  collect fuel e cs = Some (Done ((fun c => rows (buf c)) <$> cs)).
Proof.
  induction cs as [|c cs IH]; intros Hr; [done|]. cbn [collect]. rewrite Hr by left.
  cbn [mbind option_bind]. by rewrite IH by (intros; apply Hr; by right).
Qed.

(** ** Properties *)

Lemma report_stride p each last fuel n :
  (forall o, hsize (contents p o) = SAMPLE_SIZE) ->
  each + 1024 * Z.of_nat n >= data_size p -> each + 1024 * (Z.of_nat n - 1) < data_size p ->
  (n <= fuel)%nat ->
  exists rows, report fuel p each last = Some rows /\
    rows.*1.*1 = (fun i => time (contents p (each + 1024 * Z.of_nat i))) <$> seq 0 n.
Proof.
  intros Hs. revert each last fuel. induction n as [|n IH]; intros each last fuel H1 H2 Hf.
  - exists []. destruct fuel; cbn [report]; (destruct (Z.ltb_spec each (data_size p)); [lia|done]).
  - destruct fuel as [|fuel]; [lia|]. cbn [report].
    destruct (Z.ltb_spec each (data_size p)); [|lia].
    assert (next_sample p each = each + 1024) as ->.
    { unfold next_sample. rewrite Hs. reflexivity. }
    destruct (IH (each + 1024) (value (contents p each)) fuel) as (rows & E & Hr); [lia..|].
    rewrite E. cbn [mbind option_bind]. eexists. split; [done|].
    cbn [fmap list_fmap fst]. rewrite Hr. cbn [seq]. rewrite fmap_cons. f_equal.
    + by replace (each + 1024 * Z.of_nat 0) with each by lia.
    + rewrite <- fmap_S_seq, <- list_fmap_compose. apply list_fmap_ext.
      intros i j _. cbn. do 2 f_equal. lia.
Qed.

(** On a buffer of 32-byte samples the report shows every 32nd sample
    only, because [next_sample] scales the size in bytes by the size of a
    sample, and it ends [data_offset] bytes before the end of the data. *)
Theorem report_skips_samples p fuel n
    (Hs : forall o, hsize (contents p o) = SAMPLE_SIZE)
    (H1 : data_offset p + 1024 * Z.of_nat n >= data_size p)
    (H2 : data_offset p + 1024 * (Z.of_nat n - 1) < data_size p) (Hf : (n <= fuel)%nat) :
  exists rows, report_child fuel p = Some (Done rows) /\
    rows.*1.*1 = (fun i => time (contents p (data_offset p + 32 * SAMPLE_SIZE * Z.of_nat i))) <$> seq 0 n.
Proof.
  destruct (report_stride p (data_offset p) 0 fuel n Hs H1 H2 Hf) as (rows & E & Hr).
  exists rows. split; [|done]. unfold report_child, first_sample. rewrite Hs.
  change (SAMPLE_SIZE =? SAMPLE_SIZE) with true. cbn [negb]. by rewrite E.
Qed.

(** When the kernel lets every program start, each is released exactly once,
    after all of them are up; then they are waited for in order, their samples
    are printed, and every mapped buffer is unmapped. *)
Theorem perfexpl_runs fuel n e rows
    (Hs : forall i, (i < n)%nat -> starts e i) (Hk : forall i, kill e i = 0)
    (Hr : forall b, report_child fuel (page e b) = Some (Done (rows b))) :
  perfexpl_main fuel n e = Some (Done (
    (i ← seq 0 n; up_calls e i) ++ ((fun i => KillChild (fork e i)) <$> seq 0 n) ++
      ((fun i => Waitpid (fork e i)) <$> seq 0 n) ++ ((fun i => Munmap (mmap e i)) <$> seq 0 n),
    (fun i => rows (mmap e i)) <$> seq 0 n, Some 0)).
Proof.
  unfold perfexpl_main. pose proof (start_progs_ok e n 0 0 []) as Hst.
  rewrite app_nil_r, !Nat.add_0_r in Hst. change (children_at e 0 n) with (replicate n CHILD_UNSET) in Hst.
  rewrite Hst by (intros; apply Hs; lia). cbn [start_progs]. unfold children_at. cbn [Nat.add replicate].
  rewrite !app_nil_r, release_ok, (collect_ok _ _ rows) by done. cbn [mbind option_bind outcome_bind].
  rewrite cleanup_started by (intros i Hi%elem_of_seq; apply Hs; lia).
  by rewrite <- !list_fmap_compose.
Qed.

(** When no counter can be opened for a program, the run ends with 1, but the
    programs started before it are never released, they wait for the signal
    for ever; and the cleanup unmaps addresses that were never mapped, because
    the buffers of the other programs are not null. *)
Theorem perfexpl_abandons fuel k r e
    (Hs : forall i, (i < k)%nat -> starts e i)
    (Hf : fork e k <> -1 /\ fork e k <> 0) (Ho : perf_event_open e k < 0) :
  perfexpl_main fuel (k + S r) e = Some (Done (
    (i ← seq 0 k; up_calls e i) ++ [AwaitUp (fork e k); EventOpen (fork e k)] ++
      ((fun i => Munmap (mmap e i)) <$> seq 0 k) ++ replicate (S r) (Munmap 0x0101010101010101), [], Some 1)).
Proof.
  unfold perfexpl_main. rewrite seq_app. cbn [Nat.add seq].
  change (replicate (k + S r) CHILD_UNSET) with (children_at e 0 (k + S r)).
  rewrite start_progs_ok by (intros; apply Hs; lia). cbn [Nat.add start_progs]. unfold start_prog.
  destruct Hf as [Hf Hf0]. destruct (Z.eqb_spec (fork e k) (-1)); [done|]. destruct (Z.eqb_spec (fork e k) 0); [done|].
  destruct (Z.ltb_spec (perf_event_open e k) 0); [|lia]. rewrite alter_children.
  rewrite cleanup_app, cleanup_started by (intros i Hi%elem_of_seq; apply Hs; lia).
  rewrite <- !app_assoc. do 4 f_equal. rewrite <- cleanup_unset. done.
Qed.

(** ** Witnesses *)

Definition sample_page : perf_page := Page 4096 8192 (fun o => Sample 32 (o / 32) 1 (3 * o)).

Lemma report_skips_samples_witness :
  exists rows, report_child 4 sample_page = Some (Done rows) /\
    rows.*1.*1 = (fun i => (4096 + 1024 * Z.of_nat i) / 32) <$> seq 0 4.
Proof.
  apply (report_skips_samples sample_page 4 4).
  - reflexivity.
  - cbn. lia.
  - cbn. lia.
  - lia.
Defined.

Definition sample_env : perf_env :=
  PerfEnv (fun i => 100 + Z.of_nat i) (fun _ => true) (fun i => if (i =? 2)%nat then -1 else 5 + Z.of_nat i)
    (fun i => 4096 * (1 + Z.of_nat i)) (fun _ => 0) (fun _ => sample_page).

Lemma sample_starts i : (i < 2)%nat -> starts sample_env i.
Proof. intros Hi. destruct i as [|[|i]]; [..|lia]; (vm_compute; repeat split; discriminate). Qed.

Lemma perfexpl_runs_witness : exists rows, perfexpl_main 4 2 sample_env =
  Some (Done (
    [AwaitUp 100; EventOpen 100; Mmap 5; AwaitUp 101; EventOpen 101; Mmap 6; KillChild 100; KillChild 101;
     Waitpid 100; Waitpid 101; Munmap 4096; Munmap 8192], [rows; rows], Some 0)).
Proof.
  destruct (report_child 4 sample_page) as [[rows| |]|] eqn:E; try discriminate E.
  exists rows. apply (perfexpl_runs 4 2 sample_env (fun _ => rows)).
  - exact sample_starts.
  - reflexivity.
  - intros b. exact E.
Defined.

Lemma perfexpl_abandons_witness : perfexpl_main 0 4 sample_env =
  Some (Done (
    [AwaitUp 100; EventOpen 100; Mmap 5; AwaitUp 101; EventOpen 101; Mmap 6; AwaitUp 102; EventOpen 102;
     Munmap 4096; Munmap 8192; Munmap 0x0101010101010101; Munmap 0x0101010101010101], [], Some 1)).
Proof.
  apply (perfexpl_abandons 0 2 1 sample_env).
  - exact sample_starts.
  - cbn. lia.
  - cbn. lia.
Defined.
