(* ===== verification/Llc.v ===== *)
(** * clients/llc.c: the geometry of the last-level cache from sysfs

    The directory and the files of sysfs are parameters; so is whether an
    allocation of a given size succeeds. *)

From S2P Require Import Prelude Cstr.

(** ** Definitions *)

Definition SYS_CACHE_PREFIX : string := "/sys/devices/system/cpu/cpu0/cache/".
Definition SYS_CACHE_SUFFIX_line_size : string := "/coherency_line_size".
Definition SYS_CACHE_SUFFIX_num_sets : string := "/number_of_sets".
Definition SYS_CACHE_SUFFIX_assoc_ways : string := "/ways_of_associativity".
Definition LLC_ERROR : Z := -1.

Definition strlen (s : string) : Z := Z.of_nat (String.length s).

(** The statics [basepath] (NULL is [None]) and [basepath_len]. *)
Record llc_state : Type := Llc { basepath : option string; basepath_len : Z }.

Definition llc_clean : llc_state := Llc None 0.

(** [filter_prefix_index]: the name starts with "index". *)
Definition filter_prefix_index (name : string) : bool := String.prefix "index" name.

Section Sysfs.
(** [dir] is the content of the cache directory in the order of [alphasort],
    or [None] when it cannot be scanned; [file] the text of a file. *)
Variables (alloc_ok : Z -> bool) (dir : option (list string)) (file : string -> option string).

Definition strdup (s : string) : option string :=
  if alloc_ok (strlen s + 1) then Some s else None.

(** [strncat_expand(&dest, src, &n)]: the buffer is reallocated to [n + 1]
    bytes, and appending beyond it is an overflow.  The result is [dest]
    (NULL is [None]) and [n]. *)
Definition strncat_expand (dest src : string) (n : Z) : outcome (option string * Z) :=
  let n := n + strlen src in
  if negb (alloc_ok (n + 1)) then Done (None, n)
  else
    _ ← c_defined (strlen dest + strlen src + 1 <=? n + 1);
    Done (Some (dest +:+ src), n).

Definition llc_init (st : llc_state) : outcome (bool * llc_state) :=
  match dir with
  | None => Done (false, st)
  | Some entries =>
      match last (List.filter filter_prefix_index entries) with
      | None => Done (true, st)
      | Some llc_index =>
          match strdup SYS_CACHE_PREFIX with
          | None => Done (false, Llc None (basepath_len st))
          | Some path =>
              '(p, n) ← strncat_expand path llc_index (strlen SYS_CACHE_PREFIX);
              Done (match p with Some _ => true | None => false end, Llc p n)
          end
      end
  end.

Definition llc_cleanup (st : llc_state) : llc_state :=
  match basepath st with Some _ => llc_clean | None => st end.

(** The body of [llc_accessor_helper] behind the initialisation; a NULL
    [basepath] is dereferenced by [strdup]. *)
Definition llc_read (suffix : string) (st : llc_state) : outcome (Z * llc_state) :=
  base ← of_opt (basepath st);
  match strdup base with
  | None => Done (LLC_ERROR, st)
  | Some path =>
      '(p, n) ← strncat_expand path suffix (basepath_len st);
      let st := Llc (basepath st) n in
      match p with
      | None => Done (LLC_ERROR, st)
      | Some path =>
          match file path with
          | None => Done (LLC_ERROR, st)
          | Some text =>
              Done (match sscanf_d text with Some v => v | None => LLC_ERROR end, st)
          end
      end
  end.

Definition llc_accessor_helper (suffix : string) (st : llc_state) : outcome (Z * llc_state) :=
  match basepath st with
  | Some _ => llc_read suffix st
  | None =>
      '(ok, st) ← llc_init st;
      if negb ok then Done (LLC_ERROR, llc_cleanup st)
      else '(ret, st) ← llc_read suffix st; Done (ret, llc_cleanup st)
  end.

Definition llc_line_size : llc_state -> outcome (Z * llc_state) :=
  llc_accessor_helper SYS_CACHE_SUFFIX_line_size.
Definition llc_num_sets : llc_state -> outcome (Z * llc_state) :=
  llc_accessor_helper SYS_CACHE_SUFFIX_num_sets.
Definition llc_assoc_ways : llc_state -> outcome (Z * llc_state) :=
  llc_accessor_helper SYS_CACHE_SUFFIX_assoc_ways.
End Sysfs.

(** ** Lemmas *)

(** [basepath_len] covers the path. *)
Definition llc_ok (st : llc_state) : Prop :=
  match basepath st with Some p => strlen p <= basepath_len st | None => True end.

Lemma strlen_append s t : strlen (s +:+ t) = strlen s + strlen t.
Proof. unfold strlen. rewrite string_length_app. lia. Qed.

Lemma strlen_nonneg s : 0 <= strlen s.
Proof. unfold strlen. lia. Qed.

Lemma strncat_expand_ok alloc_ok dest src n :
  strlen dest <= n ->
  strncat_expand alloc_ok dest src n =
  Done (if alloc_ok (n + strlen src + 1) then Some (dest +:+ src) else None, n + strlen src).
Proof.
  intros Hn. unfold strncat_expand. destruct (alloc_ok _); cbn; [|done].
  destruct (Z.leb_spec (strlen dest + strlen src + 1) (n + strlen src + 1)); [done|lia].
Qed.

Lemma llc_init_ok alloc_ok dir st b st' :
  llc_ok st -> llc_init alloc_ok dir st = Done (b, st') -> llc_ok st'.
Proof.
  unfold llc_init. intros Hok E. destruct dir as [entries|]; [|by simplify_eq].
  destruct (last _) as [idx|]; [|by simplify_eq].
  unfold strdup in E. destruct (alloc_ok (strlen SYS_CACHE_PREFIX + 1)); [|simplify_eq; done].
  rewrite strncat_expand_ok in E by lia. cbn [mbind outcome_bind] in E. simplify_eq.
  unfold llc_ok. cbn [basepath basepath_len]. destruct (alloc_ok _); [|done].
  by rewrite strlen_append.
Qed.

(** ** Properties *)

(** With memory available, an initialised [llc] reads its property from
    the file of the last cache level, and never writes behind the buffer of
    the path; but every call grows [basepath_len], the size of the next
    buffer, by the length of its suffix. *)
Theorem llc_accessor_spec alloc_ok dir file suffix st base
    (Hb : basepath st = Some base) (Hok : llc_ok st) (Ha : forall n, alloc_ok n = true) :
  exists st', llc_accessor_helper alloc_ok dir file suffix st =
      Done (default LLC_ERROR (file (base +:+ suffix) ≫= sscanf_d), st') /\
    basepath st' = Some base /\ llc_ok st' /\
    basepath_len st' = basepath_len st + strlen suffix.
Proof.
  unfold llc_accessor_helper. rewrite Hb. unfold llc_read. rewrite Hb. cbn [of_opt mbind outcome_bind].
  unfold strdup. rewrite Ha. unfold llc_ok in Hok. rewrite Hb in Hok.
  rewrite strncat_expand_ok, Ha by done. cbn [mbind outcome_bind].
  exists (Llc (Some base) (basepath_len st + strlen suffix)).
  split; [|split; [done|split; [|done]]].
  - by destruct (file (base +:+ suffix)).
  - unfold llc_ok. cbn. pose proof (strlen_nonneg suffix). lia.
Qed.

(** [llc_init] on a machine with cache directories makes the path of the
    last one the base path; where there is none it reports success without a
    base path, and the accessor that follows dereferences NULL. *)
Theorem llc_init_spec alloc_ok dir file suffix entries
    (Hd : dir = Some entries) (Ha : forall n, alloc_ok n = true) :
  match last (List.filter filter_prefix_index entries) with
  | Some idx =>
      exists st, llc_init alloc_ok dir llc_clean = Done (true, st) /\ llc_ok st /\
        basepath st = Some (SYS_CACHE_PREFIX +:+ idx)
  | None =>
      llc_init alloc_ok dir llc_clean = Done (true, llc_clean) /\
      llc_accessor_helper alloc_ok dir file suffix llc_clean = Undefined
  end.
Proof.
  subst dir. unfold llc_init. destruct (last _) as [idx|] eqn:El.
  - unfold strdup. rewrite Ha, strncat_expand_ok, Ha by lia. cbn [mbind outcome_bind].
    eexists. split; [done|]. split; [|done].
    unfold llc_ok. cbn [basepath basepath_len]. by rewrite strlen_append.
  - split; [done|]. unfold llc_accessor_helper, llc_init. cbn [basepath llc_clean]. by rewrite El.
Qed.

(** ** Witnesses *)

Definition sample_dir : option (list string) := Some ["index0"; "index3"; "uevent"]%string.
Definition sample_file (path : string) : option string :=
  if String.eqb path "/sys/devices/system/cpu/cpu0/cache/index3/number_of_sets" then Some "8192"%string
  else None.

Lemma llc_accessor_spec_witness :
  exists st', llc_accessor_helper (fun _ => true) sample_dir sample_file SYS_CACHE_SUFFIX_num_sets
      (Llc (Some (SYS_CACHE_PREFIX +:+ "index3")) 41) = Done (8192, st') /\
    basepath_len st' = 41 + strlen SYS_CACHE_SUFFIX_num_sets.
Proof.
  destruct (llc_accessor_spec (fun _ => true) sample_dir sample_file SYS_CACHE_SUFFIX_num_sets
    (Llc (Some (SYS_CACHE_PREFIX +:+ "index3")) 41) (SYS_CACHE_PREFIX +:+ "index3") eq_refl)
    as (st' & H1 & _ & _ & H2).
  - vm_compute. discriminate.
  - reflexivity.
  - exists st'. split; [exact H1|exact H2].
Defined.

Lemma llc_init_spec_witness :
  exists st, llc_init (fun _ => true) sample_dir llc_clean = Done (true, st) /\ llc_ok st /\
    basepath st = Some (SYS_CACHE_PREFIX +:+ "index3").
Proof.
  exact (llc_init_spec (fun _ => true) sample_dir sample_file EmptyString _ eq_refl (fun _ => eq_refl)).
Defined.
