(* ===== verification/PtrChase.v ===== *)
(** * clients/lockserver-ng.c: the pointer chase

    The array's cells are indices: [Some i] for the address of cell [i],
    [None] for the zero of fresh memory.  The random numbers come from the
    [Libc] interface. *)

From S2P Require Import Prelude Libc.

Local Open Scope nat_scope.

(** ** Definitions *)

Abbreviation cell := (option nat).

Section Setup.
Context `{Libc}.

(** [while((tgt = rand() % len) == idx || arr[tgt]);] with at most [fuel]
    draws; [None] when they did not suffice. *)
Fixpoint pick_tgt (fuel : nat) (arr : list cell) (idx : nat) (rs : rand_state)
    : option (nat * rand_state) :=
  match fuel with
  | O => None
  | S fuel =>
      let '(r, rs) := rand rs in
      let tgt := Z.to_nat (r mod Z.of_nat (length arr)) in
      if (tgt =? idx) || match arr !! tgt with Some (Some _) => true | _ => false end
      then pick_tgt fuel arr idx rs
      else Some (tgt, rs)
  end.

(** The loop over [count], [todo] passes to go, from the cell [curr]. *)
Fixpoint link_loop (fuel todo : nat) (arr : list cell) (curr : nat) (rs : rand_state)
    : option (list cell * nat * rand_state) :=
  match todo with
  | O => Some (arr, curr, rs)
  | S todo =>
      '(tgt, rs) ← pick_tgt fuel arr curr rs;
      link_loop fuel todo (<[curr := Some tgt]> arr) tgt rs
  end.

(** The assertions before the loop. *)
Definition all_zero (arr : list cell) : bool :=
  forallb (fun c => match c with None => true | Some _ => false end) arr.

(** The assertions behind it: every cell points into the array and not to
    itself (the parity of an address holds by construction). *)
Definition cells_ok (arr : list cell) : bool :=
  forallb (fun idx => match arr !! idx with
                      | Some (Some t) => (t <? length arr) && negb (t =? idx)
                      | _ => false
                      end) (seq 0 (length arr)).

(** The walk of [count] links that must not meet the first cell. *)
Fixpoint walk_ok (count : nat) (arr : list cell) (cur : nat) : option nat :=
  match count with
  | O => Some cur
  | S count =>
      match arr !! cur with
      | Some (Some t) => if t =? 0 then None else walk_ok count arr t
      | _ => None
      end
  end.

Definition closed_ok (arr : list cell) : bool :=
  match walk_ok (length arr - 1) arr 0 with
  | Some cur => match arr !! cur with Some (Some t) => t =? 0 | _ => false end
  | None => false
  end.

(** [ptrchase_setup(arr, len)]; [now] is the result of [time(NULL)]. *)
Definition ptrchase_setup (fuel : nat) (now : Z) (arr : list cell) (rs : rand_state)
    : option (outcome (list cell * rand_state)) :=
  if length arr =? 1 then Some (Done ([Some 0], rs))
  else if negb (all_zero arr) then Some Aborted
  else
    '(arr, curr, rs) ← link_loop fuel (length arr - 1) arr 0 (srand (u32 now));
    if negb (curr <? length arr) then Some Undefined
    else
      let arr := <[curr := Some 0]> arr in
      Some (_ ← c_assert (cells_ok arr); _ ← c_assert (closed_ok arr); Done (arr, rs)).
End Setup.

(** [while((cur = ( *cur )) != arr);] from the cell [cur]: the cells read,
    with at most [fuel] of them; an unlinked cell would be dereferenced. *)
Fixpoint chase (fuel : nat) (arr : list cell) (cur : nat) : option (outcome (list nat)) :=
  match fuel with
  | O => None
  | S fuel =>
      match arr !! cur with
      | Some (Some t) =>
          if t =? 0 then Some (Done [cur])
          else
            o ← chase fuel arr t; Some (cells ← o; Done (cur :: cells))
      | _ => Some Undefined
      end
  end.

(** ** Lemmas *)

(** [linked arr a p z]: from [a] the links lead through [p], ending in [z]. *)
Fixpoint linked (arr : list cell) (a : nat) (p : list nat) (z : nat) : Prop :=
  match p with
  | [] => a = z
  | b :: p => arr !! a = Some (Some b) /\ linked arr b p z
  end.

Lemma linked_last arr a p z : linked arr a p z -> z ∈ a :: p.
Proof.
  revert a. induction p as [|b p IH]; intros a; cbn [linked].
  - intros ->. left.
  - intros [_ Hl]. right. by apply IH.
Qed.

Lemma linked_insert arr a p z x :
  NoDup (a :: p) -> linked arr a p z -> linked (<[z := x]> arr) a p z.
Proof.
  revert a. induction p as [|b p IH]; intros a Hn; cbn [linked]; [done|].
  apply NoDup_cons in Hn as [Ha Hn]. intros [Hab Hl]. split; [|by apply IH].
  rewrite list_lookup_insert_ne; [done|]. intros ->.
  apply linked_last in Hl. done.
Qed.

Lemma linked_snoc arr a p z t :
  linked arr a p z -> arr !! z = Some (Some t) -> linked arr a (p ++ [t]) t.
Proof.
  revert a. induction p as [|b p IH]; intros a; cbn [linked app].
  - by intros ->.
  - intros [Hab Hl] Hz. split; [done|]. by apply IH.
Qed.

Lemma linked_succ arr a p z i :
  linked arr a p z -> i ∈ a :: p -> i = z \/ exists t, arr !! i = Some (Some t) /\ t ∈ p.
Proof.
  revert a. induction p as [|b p IH]; intros a; cbn [linked].
  - intros ->. intros ->%list_elem_of_singleton. auto.
  - intros [Hab Hl] [->|Hi]%elem_of_cons.
    + right. exists b. split; [done|left].
    + destruct (IH _ Hl Hi) as [|(t & ? & ?)]; [auto|]. right. exists t. split; [done|by right].
Qed.

(** What the loop maintains about the cells linked so far, [0 :: p], the last
    of which is [curr]. *)
Record chain (n : nat) (arr : list cell) (p : list nat) (curr : nat) : Prop := {
  chain_len : length arr = n;
  chain_nodup : NoDup (0 :: p);
  chain_bound : forall i, i ∈ 0 :: p -> i < n;
  chain_linked : linked arr 0 p curr;
  chain_free : forall i, i < n -> arr !! i = Some None <-> i = curr \/ i ∉ 0 :: p;
  chain_irrefl : forall i, arr !! i <> Some (Some i);
}.

Lemma chain_step n arr p curr tgt :
  chain n arr p curr -> tgt < n -> tgt <> curr -> arr !! tgt = Some None ->
  chain n (<[curr := Some tgt]> arr) (p ++ [tgt]) tgt.
Proof.
  intros [Hlen Hnd Hb Hl Hfree Hirr] Ht Hne Hz.
  assert (Hc : curr < n) by (apply Hb, (linked_last arr); done).
  assert (Hnew : tgt ∉ 0 :: p).
  { apply Hfree in Hz as [->|?]; done. }
  split.
  - by rewrite length_insert.
  - change (NoDup ((0 :: p) ++ [tgt])). apply NoDup_app. split; [done|].
    split; [|apply NoDup_singleton]. intros i Hi ->%list_elem_of_singleton. done.
  - intros i. change (i ∈ (0 :: p) ++ [tgt] -> i < n).
    intros [Hi| ->%list_elem_of_singleton]%elem_of_app; auto.
  - eapply linked_snoc; [by apply linked_insert|]. apply list_lookup_insert_eq. lia.
  - intros i Hi. change (0 :: p ++ [tgt]) with ((0 :: p) ++ [tgt]).
    rewrite not_elem_of_app, list_elem_of_singleton.
    destruct (decide (i = curr)) as [->|Hic].
    + rewrite list_lookup_insert_eq by lia. split; [done|].
      intros [->|[Hx _]]; [done|]. by destruct Hx; apply (linked_last arr).
    + rewrite list_lookup_insert_ne by done. rewrite Hfree by done.
      destruct (decide (i = tgt)) as [->|]; naive_solver.
  - intros i. destruct (decide (i = curr)) as [->|].
    + rewrite list_lookup_insert_eq by lia. naive_solver.
    + rewrite list_lookup_insert_ne by done. apply Hirr.
Qed.

Lemma pick_tgt_spec `{Libc} fuel arr idx rs tgt rs' :
  0 < length arr -> pick_tgt fuel arr idx rs = Some (tgt, rs') ->
  tgt < length arr /\ tgt <> idx /\ arr !! tgt = Some None.
Proof.
  intros Hlen. revert rs. induction fuel as [|fuel IH]; intros rs E; cbn in E; [done|].
  destruct (rand rs) as [r rs1]. set (t := Z.to_nat _) in E.
  assert (Ht : t < length arr).
  { pose proof (Z.mod_pos_bound r (Z.of_nat (length arr)) ltac:(lia)). unfold t. lia. }
  destruct (Nat.eqb_spec t idx); cbn in E; [by eapply IH|].
  destruct (lookup_lt_is_Some_2 arr t Ht) as [[c|] Hc]; rewrite Hc in E; [by eapply IH|].
  simplify_eq. auto.
Qed.

Lemma link_loop_spec `{Libc} fuel todo n arr p curr rs arr' curr' rs' :
  chain n arr p curr -> link_loop fuel todo arr curr rs = Some (arr', curr', rs') ->
  exists p', chain n arr' p' curr' /\ length p' = length p + todo.
Proof.
  revert arr p curr rs. induction todo as [|todo IH]; intros arr p curr rs Hch E; cbn in E.
  - simplify_eq. exists p. split; [done|lia].
  - destruct (pick_tgt fuel arr curr rs) as [[tgt rs1]|] eqn:Ep; cbn in E; [|done].
    assert (Hpos : 0 < length arr).
    { rewrite (chain_len _ _ _ _ Hch). apply (chain_bound _ _ _ _ Hch). left. }
    destruct (pick_tgt_spec _ _ _ _ _ _ Hpos Ep) as (Ht & Hne & Hz).
    rewrite (chain_len _ _ _ _ Hch) in Ht.
    destruct (IH _ _ _ _ (chain_step _ _ _ _ _ Hch Ht Hne Hz) E) as (p' & Hp' & Hl).
    exists p'. split; [done|]. rewrite length_app in Hl. cbn in Hl. lia.
Qed.

Lemma all_zero_lookup arr i : all_zero arr = true -> i < length arr -> arr !! i = Some None.
Proof.
  intros Hz Hi. destruct (lookup_lt_is_Some_2 arr i Hi) as [c Hc]. rewrite Hc. f_equal.
  unfold all_zero in Hz. rewrite forallb_forall in Hz.
  specialize (Hz c). apply list_elem_of_lookup_2, list_elem_of_In in Hc.
  apply Hz in Hc. by destruct c.
Qed.

Lemma chain_init arr : 0 < length arr -> all_zero arr = true -> chain (length arr) arr [] 0.
Proof.
  intros Hl Hz. split; [done|apply NoDup_singleton| |done| |].
  - by intros i ->%list_elem_of_singleton.
  - intros i Hi. rewrite all_zero_lookup by done. rewrite list_elem_of_singleton.
    split; [|done]. destruct (decide (i = 0)); auto.
  - intros i Hi. assert (i < length arr) by (by eapply lookup_lt_Some).
    rewrite all_zero_lookup in Hi; done.
Qed.

(** Distinct indices below [n], [n] of them, are all the indices. *)
Lemma nodup_all l n : NoDup l -> (forall i, i ∈ l -> i < n) -> length l = n -> l ≡ₚ seq 0 n.
Proof.
  intros Hn Hb Hl. apply NoDup_Permutation_bis.
  - by apply NoDup_ListNoDup.
  - rewrite length_seq. lia.
  - intros i Hi. apply in_seq. specialize (Hb i). rewrite list_elem_of_In in Hb. specialize (Hb Hi). lia.
Qed.

(** The finished array: one cycle through all cells. *)
Record cycle (n : nat) (arr : list cell) (p : list nat) (z : nat) : Prop := {
  cycle_perm : 0 :: p ≡ₚ seq 0 n;
  cycle_linked : linked arr 0 p z;
  cycle_closed : arr !! z = Some (Some 0);
  cycle_len : length arr = n;
  cycle_irrefl : forall i, 1 < n -> arr !! i <> Some (Some i);
}.

Lemma chain_close n arr p curr :
  chain n arr p curr -> S (length p) = n -> 1 < n -> cycle n (<[curr := Some 0]> arr) p curr.
Proof.
  intros Hch Hp H1. destruct Hch as [Hlen Hnd Hb Hl Hfree Hirr].
  assert (Hc : curr < n) by (apply Hb, (linked_last arr); done).
  assert (Hc0 : curr <> 0).
  { intros ->. destruct p as [|b p]; cbn in Hp; [lia|].
    cbn [linked] in Hl. destruct Hl as [_ Hl]. apply linked_last in Hl.
    by apply NoDup_cons in Hnd as [? _]. }
  split.
  - by apply nodup_all.
  - by apply linked_insert.
  - apply list_lookup_insert_eq. lia.
  - by rewrite length_insert.
  - intros i _. destruct (decide (i = curr)) as [->|].
    + rewrite list_lookup_insert_eq by lia. naive_solver.
    + rewrite list_lookup_insert_ne by done. apply Hirr.
Qed.

Lemma cycle_nodup n arr p z : cycle n arr p z -> NoDup (0 :: p).
Proof. intros Hc. rewrite (cycle_perm _ _ _ _ Hc). apply NoDup_seq. Qed.

Lemma cycle_cells_ok n arr p z : cycle n arr p z -> 1 < n -> cells_ok arr = true.
Proof.
  intros Hc H1. pose proof (cycle_len _ _ _ _ Hc) as Hl.
  unfold cells_ok. rewrite forallb_forall. intros i Hi. rewrite Hl in *.
  assert (Hin : i ∈ 0 :: p).
  { rewrite (cycle_perm _ _ _ _ Hc). by apply list_elem_of_In. }
  assert (Ht : exists t, arr !! i = Some (Some t) /\ t < n).
  { assert (Hb : forall t, t ∈ 0 :: p -> t < n).
    { intros t. rewrite (cycle_perm _ _ _ _ Hc). rewrite elem_of_seq. lia. }
    destruct (linked_succ _ _ _ _ _ (cycle_linked _ _ _ _ Hc) Hin) as [->|(t & Ht & Htp)].
    - exists 0. split; [apply (cycle_closed _ _ _ _ Hc)|lia].
    - exists t. split; [done|]. apply Hb. by right. }
  destruct Ht as (t & Ht & Htn). rewrite Ht.
  pose proof (cycle_irrefl _ _ _ _ Hc i H1) as Hir.
  destruct (Nat.ltb_spec t n); [|lia]. destruct (Nat.eqb_spec t i); [subst; congruence|done].
Qed.

Lemma walk_ok_linked arr a p z :
  linked arr a p z -> 0 ∉ p -> walk_ok (length p) arr a = Some z.
Proof.
  revert a. induction p as [|b p IH]; intros a; cbn [linked walk_ok length].
  - by intros ->.
  - intros [Hab Hl] H0. rewrite Hab. apply not_elem_of_cons in H0 as [H0 H0'].
    destruct (Nat.eqb_spec b 0); [congruence|]. by apply IH.
Qed.

Lemma cycle_closed_ok n arr p z : cycle n arr p z -> closed_ok arr = true.
Proof.
  intros Hc. pose proof (cycle_nodup _ _ _ _ Hc) as Hnd. apply NoDup_cons in Hnd as [H0 _].
  unfold closed_ok.
  assert (length arr - 1 = length p) as ->.
  { pose proof (Permutation_length (cycle_perm _ _ _ _ Hc)) as Hp. rewrite length_seq in Hp.
    rewrite (cycle_len _ _ _ _ Hc). cbn in Hp. lia. }
  rewrite (walk_ok_linked _ _ _ _ (cycle_linked _ _ _ _ Hc) H0).
  by rewrite (cycle_closed _ _ _ _ Hc).
Qed.

Lemma chase_linked arr a p z :
  linked arr a p z -> 0 ∉ p -> arr !! z = Some (Some 0) ->
  chase (S (length p)) arr a = Some (Done (a :: p)).
Proof.
  revert a. induction p as [|b p IH]; intros a.
  - cbn. intros -> _ ->. done.
  - intros [Hab Hl] H0 Hz. apply not_elem_of_cons in H0 as [H0 H0'].
    remember (length (b :: p)) as k eqn:Ek. cbn [chase]. rewrite Hab.
    destruct (Nat.eqb_spec b 0); [congruence|]. subst k. cbn [length].
    rewrite (IH b Hl H0' Hz). done.
Qed.

Lemma cycle_chase n arr p z :
  cycle n arr p z -> exists cells, chase n arr 0 = Some (Done cells) /\ cells ≡ₚ seq 0 n.
Proof.
  intros Hc. exists (0 :: p). pose proof (cycle_perm _ _ _ _ Hc) as Hp. split; [|done].
  assert (n = S (length p)) as ->.
  { apply Permutation_length in Hp. rewrite length_seq in Hp. done. }
  pose proof (cycle_nodup _ _ _ _ Hc) as Hnd. apply NoDup_cons in Hnd as [H0 _].
  eapply chase_linked; [apply Hc|done|apply Hc].
Qed.

(** Every state of the generator yields each residue within [k] draws. *)
Definition rand_fair `{Libc} (k n : nat) : Prop :=
  forall s t, t < n -> exists i, i < k /\ Z.to_nat (rand_nth s i mod Z.of_nat n) = t.

Lemma pick_tgt_fair `{Libc} k arr idx rs t :
  t < length arr -> t <> idx -> arr !! t = Some None ->
  (exists i, i < k /\ Z.to_nat (rand_nth rs i mod Z.of_nat (length arr)) = t) ->
  is_Some (pick_tgt k arr idx rs).
Proof.
  intros Ht Hne Hz. revert rs. induction k as [|k IH]; intros rs (i & Hi & Hr); [lia|].
  cbn. destruct (rand rs) as [r rs1] eqn:Er.
  match goal with |- context [if ?b then _ else _] => destruct b eqn:Eb end; [|eauto].
  destruct i as [|i].
  - cbn in Hr. rewrite Er in Hr. cbn in Hr. rewrite Hr, Hz in Eb.
    destruct (Nat.eqb_spec t idx); done.
  - apply IH. exists i. split; [lia|]. cbn in Hr. by rewrite Er in Hr.
Qed.

(** A cell other than the current one is still free while cells are missing
    from the chain. *)
Lemma chain_room n arr p curr :
  chain n arr p curr -> S (length p) < n -> exists t, t < n /\ t <> curr /\ arr !! t = Some None.
Proof.
  intros Hch Hl. destruct (decide (Forall (fun t => t ∈ 0 :: p) (seq 0 n))) as [Ha|Hn].
  - exfalso. rewrite Forall_forall in Ha.
    assert (length (seq 0 n) <= length (0 :: p)).
    { apply NoDup_incl_length; [apply NoDup_ListNoDup, NoDup_seq|].
      intros i Hi. apply list_elem_of_In, Ha. by apply list_elem_of_In. }
    rewrite length_seq in *. cbn in *. lia.
  - apply not_Forall_Exists in Hn; [|intros ?; apply _].
    apply Exists_exists in Hn as (t & Ht & Hnt). apply elem_of_seq in Ht.
    exists t. split; [lia|].
    assert (t <> curr).
    { intros ->. apply Hnt, (linked_last arr), (chain_linked _ _ _ _ Hch). }
    split; [done|]. apply (chain_free _ _ _ _ Hch); [lia|auto].
Qed.

Lemma link_loop_total `{Libc} k todo n arr p curr rs :
  rand_fair k n -> chain n arr p curr -> length p + todo < n ->
  is_Some (link_loop k todo arr curr rs).
Proof.
  intros Hfair. revert arr p curr rs.
  induction todo as [|todo IH]; intros arr p curr rs Hch Hl; cbn; [eauto|].
  destruct (chain_room _ _ _ _ Hch) as (t & Ht & Hne & Hz); [lia|].
  pose proof (chain_len _ _ _ _ Hch) as Hlen.
  destruct (pick_tgt_fair k arr curr rs t) as [[tgt rs1] Ep]; [lia|done|done| |].
  { rewrite Hlen. by apply Hfair. }
  rewrite Ep. cbn. apply pick_tgt_spec in Ep as (Ht' & Hne' & Hz'); [|lia].
  rewrite Hlen in Ht'. eapply IH; [by apply chain_step|]. rewrite length_app. cbn. lia.
Qed.

(** ** Properties *)

(** C6: The pointer chase of the lock server.  On fresh memory of two cells
    or more, when every residue turns up within [k] draws of [rand()],
    [ptrchase_setup] terminates, none of its assertions fails, and the chase
    of the finished array terminates after exactly [n] loads that read every
    cell once. *)
Theorem ptrchase_setup_hamiltonian `{Libc} k now arr rs
    (H2 : 1 < length arr) (Hz : all_zero arr = true) (Hf : rand_fair k (length arr)) :
  exists arr' rs', ptrchase_setup k now arr rs = Some (Done (arr', rs')) /\
    exists cells, chase (length arr) arr' 0 = Some (Done cells) /\ cells ≡ₚ seq 0 (length arr).
Proof.
  unfold ptrchase_setup. destruct (Nat.eqb_spec (length arr) 1); [lia|]. rewrite Hz. cbn [negb].
  pose proof (chain_init arr ltac:(lia) Hz) as Hch.
  destruct (link_loop_total k (length arr - 1) _ _ _ _ (srand (u32 now)) Hf Hch) as [[[arr1 curr] rs1] El].
  { cbn. lia. }
  rewrite El. cbn [mbind option_bind].
  destruct (link_loop_spec _ _ _ _ _ _ _ _ _ _ Hch El) as (p & Hp & Hl). cbn in Hl.
  pose proof (chain_close _ _ _ _ Hp ltac:(lia) H2) as Hc.
  assert (curr < length arr1).
  { rewrite (chain_len _ _ _ _ Hp). apply (chain_bound _ _ _ _ Hp), (linked_last arr1), Hp. }
  destruct (Nat.ltb_spec curr (length arr1)); [|lia]. cbn [negb].
  rewrite (cycle_cells_ok _ _ _ _ Hc H2), (cycle_closed_ok _ _ _ _ Hc).
  eexists _, _. split; [done|]. by apply (cycle_chase _ _ _ _ Hc).
Qed.

(** ** Witness *)

(** A generator that counts. *)
Lemma counter_range s : (0 <= fst (s mod 2 ^ 31, s + 1) < 2 ^ 31)%Z.
Proof. apply Z.mod_pos_bound. lia. Qed.
Definition counter_libc : Libc := {|
  rand_state := Z; srand := id; rand s := (s mod 2 ^ 31, s + 1)%Z; rand_range := counter_range |}.

Lemma counter_nth s i : @rand_nth counter_libc s i = ((s + Z.of_nat i) mod 2 ^ 31)%Z.
Proof.
  revert s. induction i as [|i IH]; intros s; cbn [rand_nth].
  - cbn. f_equal. lia.
  - cbn [rand snd counter_libc]. rewrite IH. f_equal. lia.
Qed.

Lemma counter_fair : @rand_fair counter_libc 4 4.
Proof.
  intros s t Ht. pose proof (Z.mod_pos_bound (Z.of_nat t - s) 4 ltac:(lia)).
  exists (Z.to_nat ((Z.of_nat t - s) mod 4)). split; [lia|].
  rewrite counter_nth. change (Z.of_nat 4) with 4%Z.
  rewrite <- (Zmod_div_mod 4 (2 ^ 31)); [|lia|lia|by exists (2 ^ 29)%Z].
  rewrite Z2Nat.id by lia. rewrite Zplus_mod_idemp_r.
  replace (s + (Z.of_nat t - s))%Z with (Z.of_nat t) by lia. rewrite Z.mod_small by lia. lia.
Qed.

Lemma ptrchase_setup_hamiltonian_witness :
  exists arr' rs', @ptrchase_setup counter_libc 4 7 [None; None; None; None] 0%Z = Some (Done (arr', rs')) /\
    exists cells, chase 4 arr' 0 = Some (Done cells) /\ cells ≡ₚ seq 0 4.
Proof.
  apply (@ptrchase_setup_hamiltonian counter_libc 4 7 [None; None; None; None] 0%Z).
  - cbn. lia.
  - reflexivity.
  - exact counter_fair.
Defined.
