(* ===== verification/LockNet.v ===== *)
(** * clients/dpdk_wrapper.c, lockserver-ng.c and lockclient.c: the lock
    service over Ethernet

    DPDK's calls are inputs: the results of the initialisation, the frames a
    receive burst of one packet yields and the success of a transmission.
    Times are the values of [realtime()]; the running sum [ave], a double in
    the code, is an integer (it stays far below 2^53). *)

From S2P Require Import Prelude Cstr Libc PtrChase.

(** ** dpdk_wrapper.c *)


Definition DEFAULT_EAL_ARGS : list string := ["--socket-mem=64"; "--huge-unlink"]%string.

(** The argument vector handed to [rte_eal_init]: [argv[0]], the words from
    [optind] on and the defaults. *)
Definition leftoverv (argv : list string) (optind : nat) : list string :=
  take 1 argv ++ drop optind argv ++ DEFAULT_EAL_ARGS.

Definition leftoverc (argv : list string) (optind : nat) : nat :=
  (1 + length argv - optind + length DEFAULT_EAL_ARGS)%nat.

(** The results of the calls [dpdk_start] makes; [link_up] are those of
    [rte_eth_link_get], one per pass of the waiting loop, and [speed_ok]
    whether the speed is the configured one. *)
Record dpdk_env : Type := DpdkEnv {
  eal_init : list string -> Z;
  eth_dev_count : Z;
  eth_dev_configure : Z;
  pool_create : option Z;
  rx_queue_setup : Z;
  tx_queue_setup : Z;
  eth_dev_start : Z;
  link_up : nat -> bool;
  speed_ok : bool;
}.

(** [while(status.link_status != ETH_LINK_UP)]: the pass that found the link
    up, among [fuel]. *)
Fixpoint await_link (fuel : nat) (pass : nat) (up : nat -> bool) : option nat :=
  match fuel with
  | O => None
  | S fuel => if up pass then Some pass else await_link fuel (S pass) up
  end.

(** [dpdk_start]: [Some None] is the NULL result, [None] a link still down
    after [fuel] looks. *)
Definition dpdk_start (fuel : nat) (argv : list string) (optind : nat) (e : dpdk_env)
    : option (option Z) :=
  if eal_init e (leftoverv argv optind) <? 0 then Some None
  else if eth_dev_count e =? 0 then Some None
  else if negb (eth_dev_configure e =? 0) then Some None
  else
    match pool_create e with
    | None => Some None
    | Some pool =>
        if negb (rx_queue_setup e =? 0) then Some None
        else if negb (tx_queue_setup e =? 0) then Some None
        else if negb (eth_dev_start e =? 0) then Some None
        else
          _ ← await_link fuel 0 (link_up e);
          if speed_ok e then Some (Some pool) else Some None
    end.

(** ** Frames *)

(** An Ethernet frame's header: addresses are six bytes. *)
Record frame : Type := Frame { d_addr : list Z; s_addr : list Z; ether_type : Z }.

#[export] Instance frame_eq_dec : EqDecision frame.
Proof. solve_decision. Defined.

(** ** lockserver-ng.c *)

Definition TIMING_BUFFER_LEN : Z := 5000.
Definition WARMUP : Z := 600.

(** The statics [iter] and [ave] (before its division), and what the port has
    seen: the frames sent and the number received but neither sent nor freed. *)
Record server : Type := Server {
  iter : Z;
  ave : Z;
  sent : list frame;
  leaked : Z;
}.

Definition server_init : server := Server 0 0 [] 0.

(** What happens while the server waits: an empty receive burst, a frame
    (with the success of a transmission afterwards and the time the request
    took), or SIGINT. *)
Inductive srv_event : Type :=
| RxNone
| Rx (f : frame) (tx_ok : bool) (delta : Z)
| SigInt.

(** The loop still waits, or [experiment] has returned. *)
Inductive srv_result : Type :=
| Waiting (s : server)
| Returned (ret : Z) (s : server).

(** The reply to a request: back to its sender, from the port's address. *)
Definition reply (laddr : list Z) (f : frame) : frame := Frame (s_addr f) laddr (ether_type f).

(** The accounting of a request that has been computed. *)
Definition count_request (delta : Z) (s : server) : server :=
  Server (iter s + 1) (if WARMUP <=? iter s then ave s + delta else ave s) (sent s) (leaked s).

(** [experiment]'s loops, from the inner one, over the events to come. *)
Fixpoint serve (laddr : list Z) (s : server) (evs : list srv_event) : outcome srv_result :=
  match evs with
  | [] => Done (Waiting s)
  | SigInt :: _ => Done (Returned 0 s)
  | RxNone :: evs => serve laddr s evs
  | Rx f tx_ok delta :: evs =>
      if decide (d_addr f = laddr) then
        let s := count_request delta s in
        if (tx_ok : bool) then
          let s := Server (iter s) (ave s) (sent s ++ [reply laddr f]) (leaked s) in
          _ ← c_assert (iter s <=? TIMING_BUFFER_LEN + 1);
          serve laddr s evs
        else Done (Returned 2 s)
      else serve laddr (Server (iter s) (ave s) (sent s) (leaked s + 1)) evs
  end.

(** [sigterm_handler]: the exit code, and the sum and count whose quotient is
    printed when the count is not zero. *)
Definition sigterm_handler (s : server) : Z * option (Z * Z) :=
  let n := iter s - WARMUP in
  (if n =? 0 then 1 else 0, if n =? 0 then None else Some (ave s, n)).

(** [parse_arg_arg(&args.len, 'l', min)]: [None] for false. *)
Definition lockserver_parse_arg_arg (optarg : string) (min : Z) : option Z :=
  match sscanf_d optarg with
  | Some v => if v <? min then None else Some v
  | None => None
  end.

(** The options of [main]: [None] for the exit with 127, else [args.len]. *)
Fixpoint lockserver_opts (opts : list opt_result) (len : Z) : option Z :=
  match opts with
  | [] => Some len
  | (c, optarg) :: rest =>
      if ascii_code c =? 108 (* l *) then
        v ← lockserver_parse_arg_arg (default EmptyString optarg) 1; lockserver_opts rest v
      else None
  end.

(** ** lockclient.c *)

Definition ITERATIONS : nat := 2000.
Definition NUM_SAVED : Z := 1400.

(** One transmission: the results of [rte_eth_tx_buffer] and
    [rte_eth_tx_buffer_flush], and the time until the answer, if one came
    before the alarm. *)
Record attempt : Type := Attempt { tx_buffer : Z; tx_flush : Z; answer : option Z }.

(** One pass of the loop over [times]. *)
Record trial : Type := Trial { pkt_alloc : bool; buffer_init : Z; attempts : list attempt }.

(** The inner loop of trial number [times]: an exit code, or the duration
    measured; [None] when the attempts given did not end it. *)
Fixpoint try_request (times : Z) (l : list attempt) : option (Z + Z) :=
  match l with
  | [] => None
  | a :: l =>
      if (tx_buffer a =? 0) && (tx_flush a =? 0) then Some (inl 4)
      else
        match answer a with
        | Some d => Some (inr d)
        | None => if negb (times =? 0) then Some (inl 5) else try_request times l
        end
  end.

(** The trials from [times] on; the exit code and the sum [ave]. *)
Fixpoint client_trials (times : Z) (l : list trial) (ave : Z) : option (Z * Z) :=
  match l with
  | [] => Some (0, ave)
  | t :: l =>
      if negb (pkt_alloc t) then Some (2, ave)
      else if negb (buffer_init t =? 0) then Some (3, ave)
      else
        r ← try_request times (attempts t);
        match r with
        | inl code => Some (code, ave)
        | inr d => client_trials (times + 1) l (if WARMUP <=? times then ave + d else ave)
        end
  end.

(** [experiment] of lockclient.c. *)
Definition client_experiment (sigaction_ok : bool) (trials : list trial) : option (Z * Z) :=
  if negb sigaction_ok then Some (1, 0) else client_trials 0 (take ITERATIONS trials) 0.

(** ** Lemmas *)

(** The argument vector has the announced length. *)
Lemma leftoverv_length argv optind :
  (1 <= optind <= length argv)%nat -> length (leftoverv argv optind) = leftoverc argv optind.
Proof.
  intros Ho. unfold leftoverv, leftoverc. rewrite !length_app, length_take, length_drop. lia.
Qed.

Definition for_me (laddr : list Z) (e : srv_event) : option (frame * Z) :=
  match e with
  | Rx f _ d => if decide (d_addr f = laddr) then Some (f, d) else None
  | _ => None
  end.

(** The events of an undisturbed run. *)
Definition undisturbed (e : srv_event) : bool :=
  match e with SigInt => false | Rx _ tx _ => tx | RxNone => true end.

(** The time counted of request number [i]. *)
Definition timed (i : Z) (ds : list Z) : Z :=
  foldr Z.add 0 (drop (Z.to_nat (WARMUP - i)) ds).

Lemma timed_cons i d ds :
  timed i (d :: ds) = (if WARMUP <=? i then d else 0) + timed (i + 1) ds.
Proof.
  unfold timed. change WARMUP with 600. destruct (Z.leb_spec 600 i).
  - replace (Z.to_nat (600 - i)) with 0%nat by lia. by replace (Z.to_nat (600 - (i + 1))) with 0%nat by lia.
  - replace (Z.to_nat (600 - i)) with (S (Z.to_nat (600 - (i + 1)))) by lia. done.
Qed.

(** ** Properties *)

(** An undisturbed lock server answers exactly the requests addressed to
    it, in order, each to its sender and from its own address, and sums the
    times of all but the first 600; once it has answered more than 5001
    requests an assertion ends it. *)
Theorem serve_answers laddr s evs
    (Hu : forallb undisturbed evs = true) (Hi : 0 <= iter s <= TIMING_BUFFER_LEN + 1) :
  let reqs := omap (for_me laddr) evs in
  if iter s + Z.of_nat (length reqs) <=? TIMING_BUFFER_LEN + 1 then
    exists l, serve laddr s evs =
      Done (Waiting (Server (iter s + Z.of_nat (length reqs)) (ave s + timed (iter s) reqs.*2)
                       (sent s ++ (reply laddr <$> reqs.*1)) l))
  else serve laddr s evs = Aborted.
Proof.
  revert s Hi. induction evs as [|e evs IH]; intros s Hi reqs.
  - change reqs with (@nil (frame * Z)). cbn [length fmap list_fmap].
    destruct (Z.leb_spec (iter s + Z.of_nat 0) (TIMING_BUFFER_LEN + 1)); [|lia].
    exists (leaked s). destruct s as [i a l k]. cbn [serve iter ave sent leaked].
    unfold timed. rewrite drop_nil, app_nil_r. cbn [foldr Z.of_nat]. by rewrite !Z.add_0_r.
  - apply andb_prop in Hu as [He Hu]. specialize (IH Hu). subst reqs.
    destruct e as [|f tx d|]; [by apply IH| |done]. cbn in He. subst tx.
    cbn [serve omap list_omap for_me]. destruct (decide (d_addr f = laddr)) as [Hd|Hd].
    + cbn [iter ave sent leaked count_request]. cbn [length fmap list_fmap fst snd].
      rewrite timed_cons. set (reqs := omap _ evs) in *.
      destruct (Z.leb_spec (iter s + 1) (TIMING_BUFFER_LEN + 1)); cbn [c_assert mbind outcome_bind].
      * match goal with |- context [serve laddr ?s' evs] => specialize (IH s') end.
        cbn [iter ave sent leaked] in IH. specialize (IH ltac:(lia)).
        replace (iter s + Z.of_nat (S (length reqs))) with (iter s + 1 + Z.of_nat (length reqs)) by lia.
        destruct (_ <=? _); [|done]. destruct IH as [l ->]. exists l. f_equal. f_equal.
        rewrite <- app_assoc. f_equal. destruct (WARMUP <=? iter s); lia.
      * destruct (Z.leb_spec (iter s + Z.of_nat (S (length reqs))) (TIMING_BUFFER_LEN + 1)); [lia|done].
    + match goal with |- context [serve laddr ?s' evs] => apply (IH s') end. done.
Qed.

(** ** Witness *)

Definition me : list Z := [2; 0; 0; 0; 0; 1].
Definition you : list Z := [2; 0; 0; 0; 0; 9].

Lemma serve_answers_witness :
  exists l, serve me (Server 600 0 [] 0) [RxNone; Rx (Frame me you 0) true 7; Rx (Frame you me 0) true 8] =
    Done (Waiting (Server 601 7 [Frame you me 0] l)).
Proof.
  apply (serve_answers me (Server 600 0 [] 0)
    [RxNone; Rx (Frame me you 0) true 7; Rx (Frame you me 0) true 8]).
  - reflexivity.
  - vm_compute. split; discriminate.
Defined.
