(* ===== verification/LockClient.v ===== *)
(** * clients/lockclient.c: the options, the requests, and the service

    The scan of the MAC address and the sleep, the frame of a request, and
    [main], over the trials of LockNet.v; composed with the server there: the
    trials of a client that is given the server's address are those that the
    server's frames make. *)

From Stdlib Require Import Ascii String.
From stdpp Require Import sets strings.
From S2P Require Import Prelude Cstr LockNet.

#[local] Open Scope Z_scope.
#[local] Open Scope list_scope.

(** ** Scanning a MAC address *)

(** "0x" without a digit after it, behind white space and a sign: an input
    item of [sscanf] that is no number. *)
Definition bare_prefix (s : string) : bool :=
  let s := skip_spaces s in
  let s := match s with
           | String c r => if (ascii_code c =? 45) || (ascii_code c =? 43) then r else s
           | EmptyString => s
           end in
  match s with
  | String z (String x r) =>
      (ascii_code z =? 48) && ((ascii_code x =? 120) || (ascii_code x =? 88)) &&
      match r with String h _ => negb (is_hex h) | EmptyString => true end
  | _ => false
  end.

(** "%hhx": a byte and the rest of the text. *)
Definition scan_hhx (s : string) : option (Z * string) :=
  if bare_prefix s then None
  else let '(v, seen, _, rest) := strtoul 16 s in if (seen : bool) then Some (u8 v, rest) else None.

(** [n] bytes with colons between them. *)
Fixpoint scan_mac (n : nat) (s : string) : option (list Z) :=
  match n with
  | O => Some []
  | S n =>
      '(v, rest) ← scan_hhx s;
      match n with
      | O => Some [v]
      | _ => match rest with
             | String c rest => if ascii_code c =? 58 then l ← scan_mac n rest; Some (v :: l) else None
             | EmptyString => None
             end
      end
  end.

(** ** The program *)

(** [args_t] *)
Record args_t : Type := ClientArgs { mac : list Z; sleep : Z }.
Definition default_args : args_t := ClientArgs [255; 255; 255; 255; 255; 255] 0.

(** The options of [main]: [None] for the exit with 127. *)
Fixpoint lockclient_opts (opts : list opt_result) (args : args_t) : option args_t :=
  match opts with
  | [] => Some args
  | (c, optarg) :: rest =>
      let optarg := default EmptyString optarg in
      if ascii_code c =? 109 (* m *) then m ← scan_mac 6 optarg; lockclient_opts rest (ClientArgs m (sleep args))
      else if ascii_code c =? 115 (* s *) then v ← sscanf_u optarg; lockclient_opts rest (ClientArgs (mac args) v)
      else None
  end.

(** The frame of a request, from the port with address [laddr]. *)
Definition request (laddr : list Z) (args : args_t) : frame := Frame (mac args) laddr 0.

(** [main]: its exit code; [None] when the link or the trials given did not
    suffice. *)
Definition lockclient_main (fuel : nat) (argv : list string) (optind : nat) (e : dpdk_env) (sigaction_ok : bool)
    (trials : list trial) : option Z :=
  match lockclient_opts (getopt_all "m:s:" argv) default_args with
  | None => Some 127
  | Some _ =>
      pool ← dpdk_start fuel argv optind e;
      match pool with
      | None => Some 127
      | Some _ => r ← client_experiment sigaction_ok trials; Some r.1
      end
  end.

(** ** The client and the server together *)

(** A trial of the client: what reaches the server before its request, the
    time the server takes for it, and the time the client measures. *)
Record round : Type := Round { others : list srv_event; delta : Z; duration : Z }.

(** What the server receives until it has the request of a round. *)
Definition round_events (laddr : list Z) (args : args_t) (r : round) : list srv_event :=
  others r ++ [Rx (request laddr args) true (delta r)].

(** The trial of a round: the request is handed over, and it is answered if
    the server has sent a frame to the client. *)
Definition round_trial (answered : bool) (r : round) : trial :=
  Trial true 0 [Attempt 1 0 (if answered then Some (duration r) else None)].

(** The rounds one after another: the server, with the address [mac] of its
    port, and the trials of the client; none when the server has ended. *)
Fixpoint exchange (mac laddr : list Z) (args : args_t) (s : server) (rounds : list round)
    : outcome (option (server * list trial)) :=
  match rounds with
  | [] => Done (Some (s, []))
  | r :: rounds =>
      res ← serve mac s (round_events laddr args r);
      match res with
      | Returned _ _ => Done None
      | Waiting s' =>
          let answered := existsb (fun f => bool_decide (d_addr f = laddr)) (drop (length (sent s)) (sent s')) in
          rest ← exchange mac laddr args s' rounds;
          Done ('(s', ts) ← rest; Some (s', round_trial answered r :: ts))
      end
  end.

(** What may reach the server: nothing ends it, and nobody else asks it in
    the client's name. *)
Definition fair_event (mac laddr : list Z) (e : srv_event) : Prop :=
  undisturbed e = true /\ match for_me mac e with Some (f, _) => s_addr f <> laddr | None => True end.

(** The requests that reach the server. *)
Definition requests (mac : list Z) (rounds : list round) : nat :=
  length rounds + length (omap (for_me mac) (rounds ≫= others)).

(** ** Texts of addresses *)

Definition hex_digit (d : Z) : ascii := ascii_of_nat (Z.to_nat (if d <? 10 then 48 + d else 87 + d)).
Definition hex2 (b : Z) : string := String (hex_digit (b / 16)) (String (hex_digit (b mod 16)) EmptyString).

(** An address as it is usually written. *)
Fixpoint mac_text (l : list Z) : string :=
  match l with
  | [] => EmptyString
  | b :: l => match l with [] => hex2 b | _ => hex2 b +:+ String ":" (mac_text l) end
  end.

Definition ends_byte (s : string) : bool :=
  match s with EmptyString => true | String c _ => ascii_code c =? 58 end.

(** A digit is scanned as itself. *)
Lemma hex_digit_facts d : 0 <= d < 16 ->
  digit_value 16 (hex_digit d) = Some d /\ is_space (hex_digit d) = false /\
  (ascii_code (hex_digit d) =? 45) = false /\ (ascii_code (hex_digit d) =? 43) = false /\
  (ascii_code (hex_digit d) =? 120) = false /\ (ascii_code (hex_digit d) =? 88) = false.
Proof.
  intros Hd. assert (Ha : forallb (fun d =>
      bool_decide (digit_value 16 (hex_digit d) = Some d) && negb (is_space (hex_digit d)) &&
      negb (ascii_code (hex_digit d) =? 45) && negb (ascii_code (hex_digit d) =? 43) &&
      negb (ascii_code (hex_digit d) =? 120) && negb (ascii_code (hex_digit d) =? 88)) (seqZ 0 16) = true) by reflexivity.
  rewrite forallb_forall in Ha. specialize (Ha d). rewrite <- list_elem_of_In, elem_of_seqZ in Ha. specialize (Ha ltac:(lia)).
  repeat (apply andb_true_iff in Ha as [Ha ?]). apply bool_decide_eq_true in Ha. rewrite !negb_true_iff in *. done.
Qed.

Lemma ends_byte_scan v rest : ends_byte rest = true -> scan_base 16 v true rest = (v, true, rest).
Proof.
  destruct rest as [|c rest]; [done|]. cbn [ends_byte scan_base]. intros Hc%Z.eqb_eq. unfold digit_value, is_digit.
  rewrite Hc. done.
Qed.

Lemma scan_hhx_byte b rest : 0 <= b < 256 -> ends_byte rest = true -> scan_hhx (hex2 b +:+ rest) = Some (b, rest).
Proof.
  intros Hb Hr. assert (Hq : 0 <= b / 16 < 16) by (split; [apply Z.div_pos; lia|apply Z.div_lt_upper_bound; lia]).
  pose proof (Z.mod_pos_bound b 16 ltac:(lia)) as Hm.
  destruct (hex_digit_facts (b / 16) Hq) as (Hv1 & Hs1 & Hn1 & Hp1 & _).
  destruct (hex_digit_facts (b mod 16) Hm) as (Hv2 & _ & _ & _ & Hx2 & HX2).
  unfold scan_hhx, strtoul, bare_prefix, hex2. set (d1 := hex_digit (b / 16)) in *. set (d2 := hex_digit (b mod 16)) in *.
  change ((String d1 (String d2 EmptyString)) +:+ rest) with (String d1 (String d2 rest)). cbn [skip_spaces]. rewrite Hs1, Hn1, Hp1.
  cbn [orb]. rewrite Hx2, HX2, andb_false_r. cbn [orb andb].
  assert (Hsp : strip_prefix 16 (String d1 (String d2 rest)) = (16, String d1 (String d2 rest))).
  { cbn [strip_prefix]. destruct rest as [|h r]; [done|]. rewrite Hx2, HX2, andb_false_r. done. }
  rewrite Hsp. cbn [scan_base]. rewrite Hv1, Hv2, ends_byte_scan by done. cbn [negb].
  assert (Hv : 16 * (16 * 0 + b / 16) + b mod 16 = b) by (pose proof (Z.div_mod b 16 ltac:(lia)); lia).
  rewrite Hv. destruct (Z.ltb_spec ULONG_MAX b) as [Hc|]; [unfold ULONG_MAX in Hc; lia|]. by rewrite u8_small by lia.
Qed.

Lemma scan_mac_text l : Forall (fun b => 0 <= b < 256) l -> scan_mac (length l) (mac_text l) = Some l.
Proof.
  induction 1 as [|b l Hb Hl IH]; [done|]. cbn [length scan_mac mac_text]. destruct l as [|b' l].
  - pose proof (scan_hhx_byte b EmptyString Hb eq_refl) as He. change (hex2 b +:+ EmptyString) with (hex2 b) in He. by rewrite He.
  - rewrite scan_hhx_byte by done. cbn [mbind option_bind length]. change (ascii_code ":" =? 58) with true. cbv iota.
    change (S (length l)) with (length (b' :: l)). by rewrite IH.
Qed.

(** ** Lemmas: rounds *)

Lemma fair_undisturbed mac laddr evs : Forall (fair_event mac laddr) evs -> forallb undisturbed evs = true.
Proof. induction 1 as [|e evs [He _] _ IH]; [done|]. cbn. by rewrite He, IH. Qed.

(** No answer to the others is for the client. *)
Lemma fair_replies mac laddr evs :
  Forall (fair_event mac laddr) evs -> filter (fun f => d_addr f = laddr) (reply mac <$> (omap (for_me mac) evs).*1) = [].
Proof.
  induction 1 as [|e evs [_ He] _ IH]; [done|]. cbn [omap list_omap]. destruct (for_me mac e) as [[f d]|]; [|done].
  cbn [fmap list_fmap fst]. by rewrite filter_cons_False.
Qed.

Lemma round_served mac laddr sl s r :
  Forall (fair_event mac laddr) (others r) -> 0 <= iter s ->
  iter s + Z.of_nat (length (omap (for_me mac) (others r))) + 1 <= TIMING_BUFFER_LEN + 1 ->
  exists s' l, serve mac s (round_events laddr (ClientArgs mac sl) r) = Done (Waiting s') /\
    iter s' = iter s + Z.of_nat (length (omap (for_me mac) (others r))) + 1 /\ sent s' = sent s ++ l /\
    filter (fun f => d_addr f = laddr) l = [Frame laddr mac 0].
Proof.
  intros Ho H0 Hi.
  assert (Hr : omap (for_me mac) (round_events laddr (ClientArgs mac sl) r) =
    omap (for_me mac) (others r) ++ [(request laddr (ClientArgs mac sl), delta r)]).
  { unfold round_events. rewrite omap_app. cbn. by rewrite decide_True. }
  pose proof (serve_answers mac s (round_events laddr (ClientArgs mac sl) r)) as Hs. cbv zeta in Hs.
  rewrite Hr, length_app in Hs. cbn [length] in Hs. rewrite (proj2 (Z.leb_le _ _)) in Hs by lia.
  destruct Hs as [k Hs]; [|lia|].
  { unfold round_events. rewrite forallb_app, (fair_undisturbed mac laddr) by done. done. }
  eexists _, _. split; [exact Hs|]. cbn [iter sent]. split; [lia|]. split; [done|].
  rewrite !fmap_app, filter_app, fair_replies by done. cbn. by rewrite decide_True.
Qed.

Lemma existsb_filter (P : frame -> Prop) `{!forall f, Decision (P f)} l f k :
  filter P l = f :: k -> existsb (fun f => bool_decide (P f)) l = true.
Proof.
  induction l as [|g l IH]; [done|]. rewrite filter_cons. cbn [existsb]. destruct (decide (P g)).
  - by rewrite bool_decide_true.
  - intros Hf. rewrite (IH Hf). apply orb_true_r.
Qed.

Lemma exchange_answers mac laddr sl rounds s times ave :
  Forall (fun r => Forall (fair_event mac laddr) (others r)) rounds -> 0 <= iter s -> 0 <= times ->
  iter s + Z.of_nat (requests mac rounds) <= TIMING_BUFFER_LEN + 1 ->
  exists s' trials, exchange mac laddr (ClientArgs mac sl) s rounds = Done (Some (s', trials)) /\
    length trials = length rounds /\ iter s' = iter s + Z.of_nat (requests mac rounds) /\
    filter (fun f => d_addr f = laddr) (sent s') =
      filter (fun f => d_addr f = laddr) (sent s) ++ replicate (length rounds) (Frame laddr mac 0) /\
    client_trials times trials ave = Some (0, ave + timed times (duration <$> rounds)).
Proof.
  intros Hr. revert s times ave. induction Hr as [|r rounds Ho _ IH]; intros s times ave Hi Ht Hn.
  { exists s, []. split; [done|]. split; [done|]. split; [cbn; lia|]. split; [by rewrite app_nil_r|]. cbn.
    unfold timed. rewrite drop_nil. cbn. by rewrite Z.add_0_r. }
  unfold requests in Hn. cbn [length mbind list_bind] in Hn. rewrite omap_app, length_app in Hn.
  destruct (round_served mac laddr sl s r) as (s1 & l & E1 & I1 & S1 & F1); [done..|lia|].
  destruct (IH s1 (times + 1) (if WARMUP <=? times then ave + duration r else ave)) as (s' & ts & E & L & I & F & C);
    [lia|lia|unfold requests; lia|].
  cbn [exchange]. rewrite E1. cbn [mbind outcome_bind]. rewrite E. cbn [mbind outcome_bind option_bind].
  eexists _, _. split; [done|]. split; [cbn; by rewrite L|].
  split; [unfold requests in *; cbn [length mbind list_bind]; rewrite omap_app, length_app; lia|].
  split; [rewrite F, S1, filter_app, F1, <- app_assoc; done|].
  rewrite S1, drop_app_length, (existsb_filter _ _ _ _ F1).
  cbn [client_trials round_trial pkt_alloc buffer_init attempts try_request tx_buffer tx_flush answer negb Z.eqb andb mbind option_bind].
  rewrite C. cbn [fmap list_fmap]. rewrite timed_cons. do 2 f_equal. destruct (WARMUP <=? times); lia.
Qed.

(** ** Properties *)


(** The exit code tells what failed. *)
Theorem lockclient_main_codes fuel argv optind e ok trials code
    (Hc : lockclient_main fuel argv optind e ok trials = Some code) : code ∈ [0; 1; 2; 3; 4; 5; 127].
Proof.
  unfold lockclient_main in Hc. destruct (lockclient_opts _ _); [|injection Hc as <-; set_solver].
  destruct (dpdk_start fuel argv optind e) as [[pool|]|]; cbn [mbind option_bind] in Hc; [|injection Hc as <-; set_solver|done].
  unfold client_experiment in Hc. destruct ok; cbn [negb] in Hc; [|cbn in Hc; injection Hc as <-; set_solver].
  enough (Hg : forall l times ave r, client_trials times l ave = Some r -> r.1 ∈ [0; 2; 3; 4; 5]).
  { destruct (client_trials 0 _ 0) as [r|] eqn:E; cbn in Hc; [|done]. injection Hc as <-. apply Hg in E. set_solver. }
  assert (Ht : forall times l c, try_request times l = Some (inl c) -> c = 4 \/ c = 5).
  { intros times. induction l as [|at_ l IH]; intros c; cbn [try_request]; [done|].
    destruct ((tx_buffer at_ =? 0) && (tx_flush at_ =? 0)); [intros [= <-]; lia|]. destruct (answer at_); [done|].
    destruct (negb (times =? 0)); [intros [= <-]; lia|apply IH]. }
  induction l as [|t l IH]; intros times ave r; cbn [client_trials]; [intros [= <-]; set_solver|].
  destruct (negb (pkt_alloc t)); [intros [= <-]; set_solver|].
  destruct (negb (buffer_init t =? 0)); [intros [= <-]; set_solver|].
  destruct (try_request times (attempts t)) as [[c|d]|] eqn:E; cbn [mbind option_bind]; [|apply IH|done].
  intros [= <-]. apply Ht in E as [->| ->]; cbn [fst]; set_solver.
Qed.

(** ** Witnesses *)

(** Another client asks before every request. *)
Definition other_client : list Z := [2; 0; 0; 0; 0; 7].
Definition sample_round : round := Round [RxNone; Rx (Frame me other_client 0) true 7; Rx (Frame you me 0) true 8] 9 20.


Lemma lockclient_main_codes_witness : 127 ∈ [0; 1; 2; 3; 4; 5; 127].
Proof.
  apply (lockclient_main_codes 0 ["lockclient"; "-mzz"]%string 2
    (DpdkEnv (fun _ => 0) 1 0 None 0 0 0 (fun _ => true) true) true [] 127).
  vm_compute. reflexivity.
Defined.
