(* ===== verification/Realtime.v ===== *)
(** * clients/realtime.c: the clock of the lock service

    [clock_t] is a [long]; [clock_gettime] is the input, seconds and
    nanoseconds with fewer than 10^9 of the latter. *)

From S2P Require Import Prelude.

(** ** Definitions *)

Record timespec : Type := Timespec { tv_sec : Z; tv_nsec : Z }.

(** [realtime()], from what [clock_gettime] stored; a sum above [long] has no
    meaning. *)
Definition realtime (ns : timespec) : outcome Z :=
  let t := tv_sec ns * 1000000 + Z.quot (tv_nsec ns) 1000 in
  _ ← c_defined ((- 2 ^ 63 <=? t) && (t <? 2 ^ 63));
  Done t.

(** [comparetimes(first, second)]: the difference as an [int]. *)
Definition comparetimes (first second : Z) : Z := s32 (first - second).

(** ** Properties *)

(** What the kernel promises of the nanoseconds, and seconds that fit the
    microseconds of a [long] (the year 292277). *)
Definition time_ok (t : timespec) : Prop := 0 <= tv_sec t < 2 ^ 43 - 1 /\ 0 <= tv_nsec t < 10 ^ 9.

(** Nanoseconds since the epoch. *)
Definition nanos (t : timespec) : Z := tv_sec t * 10 ^ 9 + tv_nsec t.

(** The time is the whole microseconds since the epoch: it never runs
    backwards when the clock does not, and a difference of two times is off by
    less than a microsecond. *)
Theorem realtime_micros t t' (Ht : time_ok t) (Ht' : time_ok t') :
  exists x x', realtime t = Done x /\ realtime t' = Done x' /\ x = nanos t / 1000 /\
    (nanos t <= nanos t' -> x <= x') /\ Z.abs ((nanos t' - nanos t) - 1000 * (x' - x)) < 1000.
Proof.
  assert (Hr : forall t, time_ok t -> realtime t = Done (nanos t / 1000)).
  { intros [s n] [Hs Hn]. unfold realtime, nanos. cbn [tv_sec tv_nsec] in *.
    rewrite Z.quot_div_nonneg by lia.
    assert (Hd : 0 <= n / 1000 < 1000000) by (split; [apply Z.div_pos; lia|apply Z.div_lt_upper_bound; lia]).
    assert (He : (s * 10 ^ 9 + n) / 1000 = s * 1000000 + n / 1000).
    { replace (s * 10 ^ 9 + n) with (s * 1000000 * 1000 + n) by lia. by rewrite Z.div_add_l by lia. }
    rewrite He. destruct (Z.leb_spec (- 2 ^ 63) (s * 1000000 + n / 1000)); [|lia].
    destruct (Z.ltb_spec (s * 1000000 + n / 1000) (2 ^ 63)); [done|lia]. }
  exists (nanos t / 1000), (nanos t' / 1000). split; [by apply Hr|]. split; [by apply Hr|]. split; [done|]. split.
  - intros Hle. by apply Z.div_le_mono.
  - pose proof (Z.div_mod (nanos t) 1000) as H1. pose proof (Z.div_mod (nanos t') 1000) as H2.
    pose proof (Z.mod_pos_bound (nanos t) 1000) as H3. pose proof (Z.mod_pos_bound (nanos t') 1000) as H4. lia.
Qed.

(** The comparison has the sign of the difference up to half an hour, beyond
    it the truncation to [int] turns it around or makes different times
    equal. *)
Theorem comparetimes_order a b (Hd : - 2 ^ 31 <= a - b < 2 ^ 31) :
  (comparetimes a b < 0 <-> a < b) /\ (comparetimes a b = 0 <-> a = b).
Proof. unfold comparetimes. rewrite s32_small by done. lia. Qed.

Theorem comparetimes_truncates a : comparetimes (a + 2 ^ 32) a = 0 /\ comparetimes (a + 2 ^ 31) a < 0.
Proof.
  unfold comparetimes. replace (a + 2 ^ 32 - a) with (2 ^ 32) by lia. replace (a + 2 ^ 31 - a) with (2 ^ 31) by lia.
  by vm_compute.
Qed.

(** ** Witnesses *)

Lemma realtime_micros_witness :
  exists x x', realtime (Timespec 1500000000 999999999) = Done x /\ realtime (Timespec 1500000001 500) = Done x' /\
    x = 1500000000999999 /\ x <= x'.
Proof.
  destruct (realtime_micros (Timespec 1500000000 999999999) (Timespec 1500000001 500)) as (x & x' & H1 & H2 & H3 & H4 & _).
  - unfold time_ok. cbn [tv_sec tv_nsec]. lia.
  - unfold time_ok. cbn [tv_sec tv_nsec]. lia.
  - exists x, x'. split; [exact H1|]. split; [exact H2|]. split; [exact H3|]. apply H4. vm_compute. discriminate.
Defined.

Lemma comparetimes_order_witness : comparetimes 5 7 < 0.
Proof. apply (comparetimes_order 5 7). - lia. - lia. Defined.
