(* ===== verification/SqTraverse.v ===== *)
(** * clients/square_evictions.c: the traversal

    [square_evictions] walks an array of cache lines in passes, in order or
    in the order of a generator of rng.c, and swaps a byte into each line it
    touches.  The clock, the performance counters and the time an access
    takes are parameters. *)

From S2P Require Import Prelude HullDobell Libc Rng.

(** ** The log buffer *)

(** [perf_log_buffer_entry_t] *)
Record perf_entry : Type := Entry { realtime : Z; cputime : Z; instrs : Z; bandwidth : Z }.

Definition ENTRY_SIZE : Z := 32.
Definition HEADER_SIZE : Z := 16.
Definition PERF_LOG_BUFFER_INIT_SIZE : Z := 5 * 1024 * 1024.
Definition PERF_LOG_BUFFER_GROW_FACT : Z := 2.
Definition PERF_LOG_NUM_COUNTERS : Z := 2.

(** [perf_log_buffer_t]: the bytes mapped ([siz]), those in use ([occ]) and
    the entries. *)
Record perf_buffer : Type := PerfBuffer { siz : Z; occ : Z; log : list perf_entry }.

Definition perf_buffer_init : perf_buffer :=
  PerfBuffer PERF_LOG_BUFFER_INIT_SIZE HEADER_SIZE [].

(** One reading of the counters: the bytes [read] returns and [counters.nr];
    the entry; whether a [mremap] succeeds. *)
Record perf_reading : Type := Reading {
  amt : Z;
  nr : Z;
  entry : perf_entry;
  mremap_ok : bool;
}.

(** [bufappend]: [None] is the false result; storing an entry behind the
    mapping is undefined. *)
Definition bufappend (b : perf_buffer) (r : perf_reading) : outcome (option perf_buffer) :=
  let grow := siz b <? occ b + ENTRY_SIZE in
  if grow && negb (mremap_ok r) then Done None
  else
    let size := if grow then PERF_LOG_BUFFER_GROW_FACT * siz b else siz b in
    _ ← c_assert (amt r =? 24);
    _ ← c_assert (nr r =? PERF_LOG_NUM_COUNTERS);
    _ ← c_defined (occ b + ENTRY_SIZE <=? size);
    Done (Some (PerfBuffer size (occ b + ENTRY_SIZE) (log b ++ [entry r]))).

(** ** The traversal's state *)

Record sq_config : Type := SqConfig {
  cache_line_size : Z;
  num_periods : Z;
  passes_per_cycle : Z;
  capacity_contracted : Z;
  capacity_expanded : Z;
  no_randspin : bool;
  perflog : bool;        (* *perflog is not NULL *)
  perfstride : Z;
  measure_all : bool;
  max_accesses : Z;
  infinite_duration : bool;
}.

Definition MAX_MEMREF_CYCLES_POW : nat := 17.

(** The array and [val], the generators ([None] for NULL), the counter of the
    cycle's accesses, the statistics of the accesses' times, the log buffer,
    and the addresses touched so far, which are what the program is about. *)
Record sq_state : Type := SqState {
  arr : list Z;
  val : Z;
  randomize : option rng_state;
  cont_rand : option rng_state;
  accesses : Z;
  max_time : Z;
  histogram : list Z;
  perf : perf_buffer;
  touched : list Z;
}.

(** Outside influences, indexed by the number of accesses made so far:
    the time of an access and the counters read after it. *)
Record sq_env : Type := SqEnv {
  access_time : nat -> Z;
  reading : nat -> perf_reading;
  cycle_val : Z -> Z;      (* val = rand() at the head of a cycle *)
}.

(** How a stretch of the traversal ends: it goes on, [return] ends the
    function, or [goto breakoutermost] the loops. *)
Inductive flow : Type :=
| Go (s : sq_state)
| Return (ret : Z) (s : sq_state)
| BreakOut (s : sq_state).

(** [logtwo]: the position of the highest bit; [bsr] leaves it undefined for 0. *)
Definition logtwo (x : Z) : option Z := if x =? 0 then None else Some (Z.log2 x).

Section Traverse.
Variables (cfg : sq_config) (env : sq_env).

(** [do ix = ...; while(ix >= (unsigned) siz)] with a generator, in at most
    [fuel] draws: [ix], [tries] and the generator. *)
Fixpoint spin (fuel : nat) (siz : Z) (tries : Z) (g : rng_state) : option (Z * Z * rng_state) :=
  match fuel with
  | O => None
  | S fuel =>
      let '(x, g) := rng_lcfc g in
      let ix := u32 (x * u32 (cache_line_size cfg)) in
      if u32 siz <=? ix then spin fuel siz (tries + 1) g else Some (ix, tries + 1, g)
  end.

(** The generator that [randomizer] points to, and its update: [use_cont] says
    that it is [cont_rand]. *)
Definition randomizer (use_cont : bool) (s : sq_state) : option rng_state :=
  match randomize s with
  | None => None
  | Some g => if use_cont then cont_rand s else Some g
  end.
Definition put_randomizer (use_cont : bool) (g : rng_state) (s : sq_state) : sq_state :=
  SqState (arr s) (val s) (if use_cont then randomize s else Some g)
    (if use_cont then Some g else cont_rand s) (accesses s) (max_time s) (histogram s) (perf s)
    (touched s).

(** The choice of [ix], with the number of [tries]; without a generator the
    loop could only repeat [offset]. *)
Definition choose_ix (fuel : nat) (use_cont : bool) (siz offset : Z) (s : sq_state)
    : option (Z * Z * sq_state) :=
  match randomizer use_cont s with
  | None => if u32 siz <=? u32 offset then None else Some (u32 offset, 1, s)
  | Some g => '(ix, tries, g) ← spin fuel siz 0 g; Some (ix, tries, put_randomizer use_cont g s)
  end.

(** The three exclusive-ors. *)
Definition xor_swap (a : list Z) (v ix : Z) : outcome (list Z * Z) :=
  x ← of_opt (zget a ix);
  let x := Z.lxor x v in
  let v := Z.lxor v x in
  let x := Z.lxor x v in
  a ← of_opt (zset a ix x);
  Done (a, v).

(** The statistics under [measure_all]. *)
Definition measure (cycle time : Z) (s : sq_state) : outcome sq_state :=
  let mt := if max_time s <? time then time else max_time s in
  h ← (if cycle <? 2 then
         bin ← of_opt (logtwo time);
         n ← of_opt (zget (histogram s) bin);
         of_opt (zset (histogram s) bin (u64 (n + 1)))
       else Done (histogram s));
  Done (SqState (arr s) (val s) (randomize s) (cont_rand s) (accesses s) mt h (perf s) (touched s)).

(** The body of the loop over [offset], behind the choice of [ix]. *)
Definition access_line (cycle offset ix tries : Z) (s : sq_state) : outcome flow :=
  if no_randspin cfg && (1 <? tries) then Done (Return 1 s)
  else
    '(a, v) ← xor_swap (arr s) (val s) ix;
    let n := length (touched s) in
    let s := SqState a v (randomize s) (cont_rand s) (accesses s) (max_time s) (histogram s)
               (perf s) (touched s ++ [ix]) in
    s ← (if measure_all cfg then measure cycle (access_time env n) s else Done s);
    _ ← c_defined (negb (perflog cfg && (perfstride cfg =? 0)));
    logged ←
      (if perflog cfg && (Z.rem (Z.quot offset (cache_line_size cfg)) (perfstride cfg) =? 0)
       then bufappend (perf s) (reading env n) else Done (Some (perf s)));
    match logged with
    | None => Done (Return 1 s)
    | Some p =>
        let acc := u64 (accesses s + 1) in
        let s := SqState (arr s) (val s) (randomize s) (cont_rand s) acc (max_time s)
                   (histogram s) p (touched s) in
        if negb (infinite_duration cfg) && (acc =? max_accesses cfg) then Done (BreakOut s)
        else Done (Go s)
    end.

(** The loop over [offset] of one pass, with at most [fuel] lines and [fuel]
    draws for each; also [seen_initial]. *)
Fixpoint offset_loop (fuel draws : nat) (cycle : Z) (use_cont : bool) (siz offset : Z)
    (seen : bool) (s : sq_state) : option (outcome (flow * bool)) :=
  if siz <=? offset then Some (Done (Go s, seen))
  else
    match fuel with
    | O => None
    | S fuel =>
        '(ix, tries, s) ← choose_ix draws use_cont siz offset s;
        let seen := seen || (ix =? 0) in
        match access_line cycle offset ix tries s with
        | Done (Go s) =>
            if in_s32 (offset + cache_line_size cfg)
            then offset_loop fuel draws cycle use_cont siz (offset + cache_line_size cfg) seen s
            else Some Undefined
        | Done f => Some (Done (f, seen))
        | Aborted => Some Aborted
        | Undefined => Some Undefined
        end
    end.

(** One pass, with the assertion at its end. *)
Definition one_pass (fuel draws : nat) (cycle : Z) (use_cont : bool) (siz : Z) (s : sq_state)
    : option (outcome flow) :=
  o ← offset_loop fuel draws cycle use_cont siz 0 false s;
  Some ('(f, seen) ← o;
        match f with
        | Go _ => _ ← c_assert ((siz =? 0) || seen); Done f
        | _ => Done f
        end).

(** The loop over [pass], [todo] passes to go. *)
Fixpoint pass_loop (todo fuel draws : nat) (cycle : Z) (use_cont : bool) (siz : Z) (s : sq_state)
    : option (outcome flow) :=
  match todo with
  | O => Some (Done (Go s))
  | S todo =>
      o ← one_pass fuel draws cycle use_cont siz s;
      match o with
      | Done (Go s) => pass_loop todo fuel draws cycle use_cont siz s
      | _ => Some o
      end
  end.

(** The head of a cycle: its capacity, its generator, [val] and the counters. *)
Definition cycle_siz (cycle : Z) : Z :=
  if Z.odd cycle then capacity_expanded cfg else capacity_contracted cfg.
Definition cycle_use_cont (cycle : Z) (s : sq_state) : bool :=
  negb (Z.odd cycle) &&
  match randomize s, cont_rand s with Some _, Some _ => true | _, _ => false end.
Definition cycle_start (cycle : Z) (s : sq_state) : sq_state :=
  SqState (arr s) (u8 (cycle_val env cycle)) (randomize s) (cont_rand s) 0 0 (histogram s)
    (perf s) (touched s).

(** The loop over [cycle], in at most [fuel] cycles. *)
Fixpoint cycle_loop (fuel lines draws : nat) (cycle : Z) (s : sq_state)
    : option (outcome flow) :=
  if 2 * num_periods cfg <=? cycle then Some (Done (Go s))
  else
    match fuel with
    | O => None
    | S fuel =>
        let s := cycle_start cycle s in
        o ← pass_loop (Z.to_nat (passes_per_cycle cfg)) lines draws cycle
              (cycle_use_cont cycle s) (cycle_siz cycle) s;
        match o with
        | Done (Go s) =>
            cycle_loop fuel lines draws (if infinite_duration cfg then cycle else cycle + 1) s
        | _ => Some o
        end
    end.
End Traverse.

(** The default of [perfstride], once per pass. *)
Definition with_stride (cfg : sq_config) : sq_config :=
  let stride :=
    if perflog cfg && (perfstride cfg =? -1)
    then Z.quot (capacity_expanded cfg) (cache_line_size cfg) else perfstride cfg in
  SqConfig (cache_line_size cfg) (num_periods cfg) (passes_per_cycle cfg)
    (capacity_contracted cfg) (capacity_expanded cfg) (no_randspin cfg) (perflog cfg) stride
    (measure_all cfg) (max_accesses cfg) (infinite_duration cfg).

(** [square_evictions]: [perf_fd] is the result of [perf_poll_init],
    [perf_started] that of [perf_poll_start].  The fuels bound the cycles, the
    lines of a pass and the draws of a line. *)
Definition square_evictions (fuel lines draws : nat) (cfg : sq_config) (env : sq_env)
    (perf_fd : Z) (perf_started : bool) (s : sq_state) : option (outcome (Z * sq_state)) :=
  match randomize s, cont_rand s with
  | None, Some _ => Some Aborted
  | _, _ =>
      if negb (in_s32 (2 * num_periods cfg)) then Some Undefined
      else if perflog cfg && (perf_fd =? -1) then Some (Done (1, s))
      else if perflog cfg && negb perf_started then Some (Done (1, s))
      else
        o ← cycle_loop (with_stride cfg) env fuel lines draws 0 s;
        Some (f ← o;
              match f with
              | Go s | BreakOut s => Done (0, s)
              | Return ret s => Done (ret, s)
              end)
  end.

(** ** Lemmas: one access *)

(** The buffer's bookkeeping is right and the bytes in use fit. *)
Record buffer_ok (b : perf_buffer) : Prop := {
  bo_occ : occ b = HEADER_SIZE + ENTRY_SIZE * Z.of_nat (length (log b));
  bo_fits : occ b <= siz b;
  bo_siz : ENTRY_SIZE <= siz b;
}.

Definition reading_ok (r : perf_reading) : Prop :=
  amt r = 24 /\ nr r = PERF_LOG_NUM_COUNTERS /\ mremap_ok r = true.

Lemma buffer_init_ok : buffer_ok perf_buffer_init.
Proof. split; vm_compute; done || discriminate. Qed.

Lemma bufappend_ok b r :
  buffer_ok b -> reading_ok r ->
  exists b', bufappend b r = Done (Some b') /\ buffer_ok b' /\ log b' = log b ++ [entry r] /\
    (siz b' = siz b \/ siz b' = 2 * siz b).
Proof.
  intros [Ho Hf Hs] (Ha & Hn & Hm). unfold bufappend. rewrite Ha, Hn, Hm, andb_false_r. cbn [negb].
  change (24 =? 24) with true. change (PERF_LOG_NUM_COUNTERS =? PERF_LOG_NUM_COUNTERS) with true.
  cbn [c_assert mbind outcome_bind]. change PERF_LOG_BUFFER_GROW_FACT with 2.
  change ENTRY_SIZE with 32 in *. change HEADER_SIZE with 16 in *.
  set (size := if siz b <? occ b + 32 then 2 * siz b else siz b).
  assert (Hz : occ b + 32 <= size /\ siz b <= size /\ (size = siz b \/ size = 2 * siz b)).
  { subst size. destruct (Z.ltb_spec (siz b) (occ b + 32)); lia. }
  destruct (Z.leb_spec (occ b + 32) size); [|lia]. cbn [c_defined mbind outcome_bind].
  eexists. split; [done|]. split; [|split; [done|apply Hz]].
  split; cbn [occ siz log]; [|lia|change ENTRY_SIZE with 32; lia].
  rewrite length_app. cbn [length]. change ENTRY_SIZE with 32. change HEADER_SIZE with 16. lia.
Qed.

(** The exclusive-ors swap the byte at [ix] with [val]. *)
Lemma xor_swap_spec a v ix x :
  zget a ix = Some x -> xor_swap a v ix = Done (<[Z.to_nat ix := v]> a, x).
Proof.
  intros Hx. unfold xor_swap. rewrite Hx. cbn [of_opt mbind outcome_bind].
  assert (Hv : Z.lxor (Z.lxor x v) (Z.lxor v (Z.lxor x v)) = v).
  { rewrite (Z.lxor_comm v), !Z.lxor_assoc, Z.lxor_nilpotent, Z.lxor_0_r.
    rewrite <- Z.lxor_assoc, (Z.lxor_comm x), Z.lxor_assoc, Z.lxor_nilpotent. apply Z.lxor_0_r. }
  assert (Hx' : Z.lxor v (Z.lxor x v) = x).
  { by rewrite (Z.lxor_comm x), <- Z.lxor_assoc, Z.lxor_nilpotent, Z.lxor_0_l. }
  rewrite Hv, Hx'. apply zget_Some in Hx as [H0 Hl].
  destruct (zset a ix v) as [a'|] eqn:Es.
  - apply zset_Some in Es as [_ ->]. done.
  - unfold zset in Es. apply lookup_lt_Some in Hl.
    destruct (Z.leb_spec 0 ix), (Z.ltb_spec ix (Z.of_nat (length a))); cbn in Es; try done; lia.
Qed.

(** Swapping only moves bytes around. *)
Lemma insert_permutation {A} (a : list A) i x v :
  a !! i = Some x -> x :: <[i := v]> a ≡ₚ v :: a.
Proof.
  revert i. induction a as [|y a IH]; intros i Hx; [done|].
  destruct i as [|i]; cbn in *.
  - simplify_eq. apply perm_swap.
  - rewrite perm_swap, (IH i Hx). apply perm_swap.
Qed.

(** *** One line *)

(** The state between accesses. *)
Record sq_ok (cfg : sq_config) (s : sq_state) : Prop := {
  so_arr : Z.of_nat (length (arr s)) = capacity_expanded cfg;
  so_hist : length (histogram s) = MAX_MEMREF_CYCLES_POW;
  so_perf : buffer_ok (perf s);
}.

(** What the traversal needs of the outside: usable readings of the counters
    and, if accesses are timed, times that fit the histogram. *)
Record sq_env_ok (cfg : sq_config) (env : sq_env) : Prop := {
  eo_reading : perflog cfg = true -> forall n, reading_ok (reading env n);
  eo_stride : perflog cfg = true -> perfstride cfg <> 0;
  eo_time : measure_all cfg = true -> forall n, 1 <= access_time env n < 2 ^ 17;
}.

Lemma measure_ok cycle time s :
  length (histogram s) = MAX_MEMREF_CYCLES_POW -> 1 <= time < 2 ^ 17 ->
  exists mt h, length h = MAX_MEMREF_CYCLES_POW /\
    measure cycle time s = Done (SqState (arr s) (val s) (randomize s) (cont_rand s) (accesses s)
                                   mt h (perf s) (touched s)).
Proof.
  intros Hl Ht. unfold measure. set (mt := if max_time s <? time then time else max_time s).
  exists mt. destruct (cycle <? 2); [|by exists (histogram s)].
  unfold logtwo. destruct (Z.eqb_spec time 0); [lia|]. cbn [of_opt mbind outcome_bind].
  assert (Hb : 0 <= Z.log2 time < 17).
  { split; [apply Z.log2_nonneg|]. apply Z.log2_lt_pow2; lia. }
  assert (Hr : 0 <= Z.log2 time < Z.of_nat (length (histogram s))).
  { rewrite Hl. change (Z.of_nat MAX_MEMREF_CYCLES_POW) with 17. done. }
  destruct (zget_is_Some _ _ Hr) as [cnt ->]. cbn [of_opt mbind outcome_bind].
  assert (Hz : zset (histogram s) (Z.log2 time) (u64 (cnt + 1)) =
    Some (<[Z.to_nat (Z.log2 time) := u64 (cnt + 1)]> (histogram s))) by (by apply zset_Some).
  rewrite Hz. cbn [of_opt mbind outcome_bind]. eexists. split; [|done].
  by rewrite length_insert.
Qed.

(** An access that neither returns nor breaks out. *)
Lemma access_line_go cfg env cycle offset ix tries s :
  sq_ok cfg s -> sq_env_ok cfg env -> 0 <= ix < Z.of_nat (length (arr s)) ->
  no_randspin cfg = false \/ tries <= 1 ->
  infinite_duration cfg = true \/ u64 (accesses s + 1) <> max_accesses cfg ->
  exists s', access_line cfg env cycle offset ix tries s = Done (Go s') /\ sq_ok cfg s' /\
    touched s' = touched s ++ [ix] /\ randomize s' = randomize s /\
    cont_rand s' = cont_rand s /\ accesses s' = u64 (accesses s + 1) /\
    val s' :: arr s' ≡ₚ val s :: arr s.
Proof.
  intros [Ha Hh Hp] [Er Es Et] Hix Htr Hacc. unfold access_line.
  assert (no_randspin cfg && (1 <? tries) = false) as ->.
  { destruct Htr as [-> | Htr]; [done|]. destruct (Z.ltb_spec 1 tries); [lia|]. apply andb_false_r. }
  destruct (zget_is_Some (arr s) ix Hix) as [x Hx]. rewrite (xor_swap_spec _ _ _ _ Hx).
  cbn [mbind outcome_bind]. set (n := length (touched s)).
  pose proof (insert_permutation _ _ _ (val s) (proj2 (proj1 (zget_Some _ _ _) Hx))) as Hperm.
  set (a := <[Z.to_nat ix := val s]> (arr s)) in *.
  assert (Hla : Z.of_nat (length a) = capacity_expanded cfg) by (subst a; by rewrite length_insert).
  clearbody a. match goal with |- context [SqState a x ?r ?c ?k ?m ?h ?p ?t] =>
    set (s1 := SqState a x r c k m h p t) end.
  assert (Hm : exists mt h, length h = MAX_MEMREF_CYCLES_POW /\
    (if measure_all cfg then measure cycle (access_time env n) s1 else Done s1) =
    Done (SqState a x (randomize s) (cont_rand s) (accesses s) mt h (perf s) (touched s ++ [ix]))).
  { destruct (measure_all cfg); [by apply (measure_ok cycle (access_time env n) s1); auto|].
    exists (max_time s), (histogram s). done. }
  destruct Hm as (mt & h & Hlh & ->). cbn [mbind outcome_bind].
  assert (perflog cfg && (perfstride cfg =? 0) = false) as ->.
  { destruct (perflog cfg); [|done]. destruct (Z.eqb_spec (perfstride cfg) 0); [|done].
    by destruct (Es eq_refl). }
  cbn [negb c_defined mbind outcome_bind perf].
  assert (Hb : exists p, (if perflog cfg && (Z.rem (Z.quot offset (cache_line_size cfg)) (perfstride cfg) =? 0)
    then bufappend (perf s) (reading env n) else Done (Some (perf s))) = Done (Some p) /\ buffer_ok p).
  { destruct (perflog cfg); cbn [andb]; [|by exists (perf s)].
    destruct (_ =? 0); [|by exists (perf s)].
    destruct (bufappend_ok _ (reading env n) Hp) as (p & ? & ? & _); [by apply Er|]. eauto. }
  destruct Hb as (p & -> & Hpo). cbn [mbind outcome_bind arr val randomize cont_rand accesses max_time histogram touched].
  assert (negb (infinite_duration cfg) && (u64 (accesses s + 1) =? max_accesses cfg) = false) as ->.
  { destruct Hacc as [-> |]; [done|]. destruct (Z.eqb_spec (u64 (accesses s + 1)) (max_accesses cfg)); [done|].
    apply andb_false_r. }
  eexists. split; [done|]. by split_and!.
Qed.

(** *** Drawing lines *)

(** Generators that differ in their position only. *)
Definition same_rng (g g' : rng_state) : Prop :=
  coeff g' = coeff g /\ incr g' = incr g /\ mod_ g' = mod_ g.

#[export] Instance same_rng_equiv : Equivalence same_rng.
Proof.
  split.
  - by intros [].
  - intros g g' (? & ? & ?). by split_and!.
  - intros g g' g'' (? & ? & ?) (? & ? & ?). unfold same_rng. intuition congruence.
Qed.

Lemma same_rng_step g : same_rng g (rng_lcfc g).2.
Proof. by split_and!. Qed.

Lemma same_rng_full g g' : same_rng g g' -> full_cycle g -> full_cycle g'.
Proof. intros (E1 & E2 & E3) [? ? ? ?]. split; rewrite ?E1, ?E2, ?E3; done. Qed.

(** The outputs of the next [n] draws that are numbers of lines. *)
Definition lines_drawn (lines : Z) (g : rng_state) (n : nat) : list Z :=
  List.filter (fun x => x <? lines) (rng_lcfc_n g n).1.

Lemma lines_drawn_S lines g n :
  lines_drawn lines g (S n) =
    let '(x, g') := rng_lcfc g in
    if x <? lines then x :: lines_drawn lines g' n else lines_drawn lines g' n.
Proof.
  unfold lines_drawn. cbn [rng_lcfc_n]. destruct (rng_lcfc g) as [x g'].
  destruct (rng_lcfc_n g' n) as [xs g'']. done.
Qed.

Lemma spin_fuel cfg n n' siz tries g r :
  spin cfg n siz tries g = Some r -> (n <= n')%nat -> spin cfg n' siz tries g = Some r.
Proof.
  revert n' tries g. induction n as [|n IH]; intros n' tries g E Hn; [done|].
  destruct n' as [|n']; [lia|]. cbn in *. destruct (_ <=? _); [|done].
  apply IH; [done|lia].
Qed.

(** The loop stops at the first line drawn. *)
Lemma spin_hit cfg n lines tries g x rest :
  0 < cache_line_size cfg < 2 ^ 32 -> 0 <= lines -> 0 < mod_ g ->
  mod_ g * cache_line_size cfg <= 2 ^ 32 -> lines * cache_line_size cfg < 2 ^ 32 ->
  lines_drawn lines g n = x :: rest ->
  exists g' n' tries',
    spin cfg n (lines * cache_line_size cfg) tries g = Some (x * cache_line_size cfg, tries', g') /\
    (n' < n)%nat /\ same_rng g g' /\ lines_drawn lines g' n' = rest /\ 0 <= x < lines.
Proof.
  intros Hcls Hlines. revert tries g. induction n as [|n IH]; intros tries g Hm Hmc Hlc E; [done|].
  rewrite lines_drawn_S in E. cbn [spin].
  pose proof (rng_lcfc_range g Hm) as Hr. pose proof (same_rng_step g) as Hs.
  destruct (rng_lcfc g) as [y g1]. cbn in Hr, Hs.
  assert (0 <= y * cache_line_size cfg < 2 ^ 32) by nia.
  rewrite (u32_small (cache_line_size cfg)), !u32_small by nia.
  destruct (Z.ltb_spec y lines) as [Hy|Hy].
  - simplify_eq. destruct (Z.leb_spec (lines * cache_line_size cfg) (x * cache_line_size cfg)); [nia|].
    exists g1, n, (tries + 1). split_and!; auto; try lia; apply Hs.
  - destruct (Z.leb_spec (lines * cache_line_size cfg) (y * cache_line_size cfg)); [|nia].
    destruct Hs as (Hs1 & Hs2 & Hs3).
    destruct (IH (tries + 1) g1) as (g' & n' & t' & H1 & H2 & H3 & H4 & H5); [lia|congruence|done|done|].
    exists g', n', t'. split; [done|]. split; [lia|]. split; [|done].
    transitivity g1; [by split_and!|done].
Qed.

(** One period of a full cycle draws every line once. *)
Lemma lines_drawn_period lines g :
  full_cycle g -> 0 <= lines <= mod_ g ->
  lines_drawn lines g (Z.to_nat (mod_ g)) ≡ₚ zrange lines.
Proof.
  intros Hf Hl. pose proof (full_cycle_permutation g Hf) as Hp.
  apply NoDup_Permutation.
  - unfold lines_drawn. apply NoDup_ListNoDup, List.NoDup_filter, NoDup_ListNoDup.
    rewrite Hp. apply NoDup_zrange.
  - apply NoDup_zrange.
  - intros x. unfold lines_drawn. rewrite list_elem_of_In, List.filter_In, <- list_elem_of_In, Hp.
    rewrite !elem_of_zrange, Z.ltb_lt. lia.
Qed.

(** *** One pass *)

(** A stretch of the traversal that touched the lines [block] in this order:
    the generators have only moved on, and the bytes of the array and [val]
    have only been permuted. *)
Record went (cfg : sq_config) (block : list Z) (s s' : sq_state) : Prop := {
  went_ok : sq_ok cfg s';
  went_touched : touched s' = touched s ++ ((fun l => l * cache_line_size cfg) <$> block);
  went_rng : option_Forall2 same_rng (randomize s) (randomize s');
  went_cont : option_Forall2 same_rng (cont_rand s) (cont_rand s');
  went_acc : accesses s' = accesses s + Z.of_nat (length block);
  went_perm : val s' :: arr s' ≡ₚ val s :: arr s;
}.

Lemma went_nil cfg s : sq_ok cfg s -> went cfg [] s s.
Proof.
  intros Hs. split; [done|by rewrite app_nil_r| | |cbn; lia|done];
    destruct (randomize s), (cont_rand s); by constructor.
Qed.

Lemma same_opt_trans (o1 o2 o3 : option rng_state) :
  option_Forall2 same_rng o1 o2 -> option_Forall2 same_rng o2 o3 -> option_Forall2 same_rng o1 o3.
Proof. intros [g1 g2 H|] H2; inversion H2; subst; constructor. by etrans. Qed.

Lemma went_app cfg b1 b2 s1 s2 s3 :
  went cfg b1 s1 s2 -> went cfg b2 s2 s3 -> went cfg (b1 ++ b2) s1 s3.
Proof.
  intros [? T1 R1 C1 A1 P1] [? T2 R2 C2 A2 P2]. split; [done| | | | |].
  - rewrite T2, T1, fmap_app. by rewrite app_assoc.
  - by eapply same_opt_trans.
  - by eapply same_opt_trans.
  - rewrite A2, A1, length_app. lia.
  - by rewrite P2.
Qed.

Lemma randomizer_put use_cont g g' s :
  randomizer use_cont s = Some g -> same_rng g g' ->
  randomizer use_cont (put_randomizer use_cont g' s) = Some g' /\
  option_Forall2 same_rng (randomize s) (randomize (put_randomizer use_cont g' s)) /\
  option_Forall2 same_rng (cont_rand s) (cont_rand (put_randomizer use_cont g' s)).
Proof.
  unfold randomizer, put_randomizer. intros Hr Hs. destruct (randomize s) as [r|]; [|done].
  destruct use_cont; cbn; split; [done| |done|].
  - rewrite Hr. by split; constructor.
  - simplify_eq. split; [by constructor|]. destruct (cont_rand s); by constructor.
Qed.

Section Pass.
Variables (cfg : sq_config) (env : sq_env) (lines : Z).
Hypothesis Hcls : 0 < cache_line_size cfg < 2 ^ 31.
Hypothesis Hlines : 0 <= lines.
Hypothesis Hfit : lines * cache_line_size cfg <= capacity_expanded cfg < 2 ^ 31.
Hypothesis Henv : sq_env_ok cfg env.
Hypothesis Hspin : no_randspin cfg = false.
Hypothesis Hmax : infinite_duration cfg = true \/ max_accesses cfg = 0.

Let cls := cache_line_size cfg.

(** A generator over at least the lines of the pass, none of whose draws
    wraps around when scaled to an address. *)
Definition rng_fits (g : rng_state) : Prop :=
  full_cycle g /\ lines <= mod_ g /\ mod_ g * cache_line_size cfg <= 2 ^ 32.

Lemma rng_fits_same g g' : same_rng g g' -> rng_fits g -> rng_fits g'.
Proof.
  intros Hs (Hf & H1 & H2). split; [by eapply same_rng_full|].
  destruct Hs as (_ & _ & ->). done.
Qed.

(** The access that follows the choice of the line [x]. *)
Lemma access_goes cycle offset x tries s :
  sq_ok cfg s -> 0 <= x < lines -> 0 <= accesses s -> accesses s + 1 < 2 ^ 64 ->
  exists s', access_line cfg env cycle offset (x * cls) tries s = Done (Go s') /\ went cfg [x] s s' /\
    randomize s' = randomize s /\ cont_rand s' = cont_rand s.
Proof.
  intros Hs Hx Ha0 Ha.
  destruct (access_line_go cfg env cycle offset (x * cls) tries s) as (s' & E & Hok & Ht & Hr & Hc & Hacc & Hp).
  - done.
  - done.
  - rewrite (so_arr _ _ Hs). unfold cls. nia.
  - auto.
  - rewrite u64_small by lia. destruct Hmax as [|Hm]; [auto|right; lia].
  - exists s'. split; [done|]. split; [|done]. split; [done| | | | |done].
    + by rewrite Ht.
    + rewrite Hr. by destruct (randomize s); constructor.
    + rewrite Hc. by destruct (cont_rand s); constructor.
    + rewrite Hacc, u64_small by lia. cbn. lia.
Qed.

Lemma offset_loop_rng cycle use_cont draws fuel rest n g s seen :
  randomizer use_cont s = Some g -> rng_fits g -> lines_drawn lines g n = rest ->
  (n <= draws)%nat -> (length rest <= fuel)%nat -> Z.of_nat (length rest) <= lines ->
  sq_ok cfg s -> 0 <= accesses s -> accesses s + Z.of_nat (length rest) < 2 ^ 64 ->
  exists s', offset_loop cfg env fuel draws cycle use_cont (lines * cls)
      ((lines - Z.of_nat (length rest)) * cls) seen s =
    Some (Done (Go s', seen || existsb (fun x => x =? 0) rest)) /\ went cfg rest s s'.
Proof.
  revert fuel n g s seen. induction rest as [|x rest IH];
    intros fuel n g s seen Hr Hg Hd Hn Hf Hl Hs Ha0 Ha.
  - exists s. split; [|by apply went_nil].
    replace ((lines - Z.of_nat (length [])) * cls) with (lines * cls) by (cbn; lia).
    destruct fuel; cbn [offset_loop]; rewrite (proj2 (Z.leb_le _ _)) by lia; by rewrite orb_false_r.
  - destruct fuel as [|fuel]; [cbn in Hf; lia|]. cbn [offset_loop].
    cbn [length] in *. set (off := (lines - Z.of_nat (S (length rest))) * cls).
    assert (Hoff : 0 <= off < lines * cls) by (subst off; unfold cls in *; nia).
    destruct (Z.leb_spec (lines * cls) off); [lia|].
    destruct Hg as (Hfull & Hml & Hmc).
    pose proof (hd_mod _ _ _ (fc_hd g Hfull)) as Hm.
    destruct (spin_hit cfg n lines 0 g x rest) as (g' & n' & tries & Hsp & Hn' & Hsame & Hd' & Hx);
      [lia|done|done|done|lia|done|].
    unfold choose_ix. rewrite Hr. fold cls in Hsp. rewrite (spin_fuel _ _ _ _ _ _ _ Hsp Hn).
    cbn [mbind option_bind].
    destruct (randomizer_put use_cont g g' s Hr Hsame) as (Hr' & Hp1 & Hp2).
    set (s1 := put_randomizer use_cont g' s) in *.
    assert (Hs1 : sq_ok cfg s1) by (destruct Hs; by split).
    destruct (access_goes cycle off x tries s1 Hs1 Hx) as (s2 & E2 & Hw2 & Hr2 & Hc2); [done|cbn; lia|].
    rewrite E2. unfold cls in Hoff.
    assert (in_s32 (off + cache_line_size cfg) = true) as ->.
    { unfold in_s32. apply andb_true_iff. rewrite Z.leb_le, Z.ltb_lt. subst off. unfold cls in *. nia. }
    replace (off + cache_line_size cfg) with ((lines - Z.of_nat (length rest)) * cls)
      by (subst off; unfold cls; lia).
    assert (Hr2' : randomizer use_cont s2 = Some g').
    { unfold randomizer in *. by rewrite Hr2, Hc2. }
    assert (Ha2 : accesses s2 = accesses s + 1) by (rewrite (went_acc _ _ _ _ Hw2); cbn; lia).
    destruct (IH fuel n' g' s2 (seen || (x * cls =? 0)) Hr2') as (s3 & E3 & Hw3);
      [by eapply rng_fits_same|done|lia|lia|lia|apply Hw2|lia|lia|].
    exists s3. split.
    + rewrite E3. do 3 f_equal. cbn [existsb]. rewrite <- orb_assoc. f_equal. f_equal.
      destruct (Z.eqb_spec (x * cls) 0), (Z.eqb_spec x 0); unfold cls in *; lia.
    + apply (went_app cfg [x] rest s s2 s3); [|done].
      destruct Hw2 as [? T R C A P]. split; [done|done| | |done|done].
      * by eapply same_opt_trans.
      * by eapply same_opt_trans.
Qed.

(** Without a generator the lines come in order. *)
Lemma offset_loop_seq cycle use_cont draws fuel i k s seen :
  randomize s = None -> Z.of_nat i + Z.of_nat k = lines -> (0 < draws)%nat -> (k <= fuel)%nat ->
  sq_ok cfg s -> 0 <= accesses s -> accesses s + Z.of_nat k < 2 ^ 64 ->
  exists s', offset_loop cfg env fuel draws cycle use_cont (lines * cls) (Z.of_nat i * cls) seen s =
    Some (Done (Go s', seen || existsb (fun x => x =? 0) (Z.of_nat <$> seq i k))) /\
    went cfg (Z.of_nat <$> seq i k) s s'.
Proof.
  revert i fuel s seen. induction k as [|k IH]; intros i fuel s seen Hr Hik Hdr Hf Hs Ha0 Ha.
  - exists s. split; [|by apply went_nil]. rewrite orb_false_r.
    destruct fuel; cbn [offset_loop]; rewrite (proj2 (Z.leb_le _ _)); done || unfold cls; nia.
  - destruct fuel as [|fuel]; [lia|]. cbn [offset_loop].
    assert (Hoff : 0 <= Z.of_nat i * cls < lines * cls) by (unfold cls in *; nia).
    destruct (Z.leb_spec (lines * cls) (Z.of_nat i * cls)); [lia|].
    unfold choose_ix. assert (randomizer use_cont s = None) as -> by (unfold randomizer; by rewrite Hr).
    assert (lines * cls < 2 ^ 32) by (unfold cls; lia).
    rewrite (u32_small (Z.of_nat i * cls)), u32_small by lia.
    destruct (Z.leb_spec (lines * cls) (Z.of_nat i * cls)); [lia|]. cbn [mbind option_bind].
    destruct (access_goes cycle (Z.of_nat i * cls) (Z.of_nat i) 1 s Hs) as (s2 & -> & Hw2 & Hr2 & Hc2);
      [lia|done|lia|].
    assert (in_s32 (Z.of_nat i * cls + cache_line_size cfg) = true) as ->.
    { unfold in_s32. apply andb_true_iff. rewrite Z.leb_le, Z.ltb_lt. unfold cls in *. nia. }
    replace (Z.of_nat i * cls + cache_line_size cfg) with (Z.of_nat (S i) * cls) by (unfold cls; lia).
    assert (Ha2 : accesses s2 = accesses s + 1) by (rewrite (went_acc _ _ _ _ Hw2); cbn; lia).
    destruct (IH (S i) fuel s2 (seen || (Z.of_nat i * cls =? 0))) as (s3 & -> & Hw3);
      [congruence|lia|done|lia|apply Hw2|lia|lia|].
    exists s3. split.
    + do 3 f_equal. cbn [seq fmap list_fmap existsb]. rewrite <- orb_assoc. f_equal. f_equal.
      destruct (Z.eqb_spec (Z.of_nat i * cls) 0), (Z.eqb_spec (Z.of_nat i) 0); unfold cls in *; lia.
    + change (Z.of_nat <$> seq i (S k)) with ([Z.of_nat i] ++ (Z.of_nat <$> seq (S i) k)).
      by eapply went_app.
Qed.

(** The generators a pass may use: none, or one that fits. *)
Definition pass_rng (use_cont : bool) (draws : nat) (s : sq_state) : Prop :=
  (randomize s = None /\ (0 < draws)%nat) \/
  exists g, randomizer use_cont s = Some g /\ rng_fits g /\ (Z.to_nat (mod_ g) <= draws)%nat.

Lemma existsb_zero (l : list Z) : existsb (fun x => x =? 0) l = true <-> 0 ∈ l.
Proof.
  rewrite existsb_exists. split.
  - intros (x & Hx & ->%Z.eqb_eq). by apply list_elem_of_In.
  - intros H0. exists 0. split; [by apply list_elem_of_In|done].
Qed.

(** A pass touches every line exactly once and its assertion holds. *)
Lemma one_pass_visits cycle use_cont draws fuel s :
  pass_rng use_cont draws s -> (Z.to_nat lines <= fuel)%nat ->
  sq_ok cfg s -> 0 <= accesses s -> accesses s + lines < 2 ^ 64 ->
  exists block s', one_pass cfg env fuel draws cycle use_cont (lines * cls) s = Some (Done (Go s')) /\
    block ≡ₚ zrange lines /\ went cfg block s s'.
Proof.
  intros Hrng Hf Hs Ha0 Ha. unfold one_pass.
  assert (Hfin : exists block s', offset_loop cfg env fuel draws cycle use_cont (lines * cls) 0 false s =
    Some (Done (Go s', existsb (fun x => x =? 0) block)) /\ block ≡ₚ zrange lines /\ went cfg block s s').
  { destruct Hrng as [[Hn Hd]|(g & Hr & Hg & Hd)].
    - destruct (offset_loop_seq cycle use_cont draws fuel 0 (Z.to_nat lines) s false) as (s' & E & Hw);
        [done|lia|done|lia|done|done|lia|].
      exists (zrange lines), s'. change (Z.of_nat 0 * cls) with 0 in E. rewrite E. by split_and!.
    - destruct Hg as (Hfull & Hml & Hmc).
      pose proof (lines_drawn_period lines g Hfull ltac:(lia)) as Hp.
      remember (lines_drawn lines g (Z.to_nat (mod_ g))) as rest eqn:Er.
      assert (Hlen : Z.of_nat (length rest) = lines).
      { rewrite Hp, zrange_length. lia. }
      destruct (offset_loop_rng cycle use_cont draws fuel rest (Z.to_nat (mod_ g)) g s false)
        as (s' & E & Hw); [done|by split_and!|done|done|lia|lia|done|done|lia|].
      exists rest, s'. rewrite Hlen, Z.sub_diag in E. change (0 * cls) with 0 in E. by rewrite E. }
  destruct Hfin as (block & s' & -> & Hp & Hw). exists block, s'. cbn [mbind option_bind outcome_bind].
  split; [|done].
  assert ((lines * cls =? 0) || existsb (fun x => x =? 0) block = true) as ->; [|done].
  destruct (decide (lines = 0)) as [->|Hne]; [done|]. apply orb_true_iff. right.
  apply existsb_zero. rewrite Hp, elem_of_zrange. lia.
Qed.

(** Later passes find their generator as fit. *)
Lemma pass_rng_went block use_cont draws s s' :
  went cfg block s s' -> pass_rng use_cont draws s -> pass_rng use_cont draws s'.
Proof.
  intros [_ _ Hr Hc _ _] [[Hn Hd]|(g & Hg & Hfit' & Hd)].
  - left. rewrite Hn in Hr. inversion Hr. done.
  - right. unfold randomizer in *. destruct (randomize s) as [r|]; [|done].
    inversion Hr as [r0 r' Hrr E1 E2|]; subst.
    destruct use_cont.
    + rewrite Hg in Hc. inversion Hc as [c0 c' Hcc E1 E3|]; subst.
      exists c'. split; [done|]. split; [by eapply rng_fits_same|].
      destruct Hcc as (_ & _ & ->). done.
    + simplify_eq. exists r'. split; [done|]. split; [by eapply rng_fits_same|].
      destruct Hrr as (_ & _ & ->). done.
Qed.

Lemma pass_loop_visits todo cycle use_cont draws fuel s :
  pass_rng use_cont draws s -> (Z.to_nat lines <= fuel)%nat ->
  sq_ok cfg s -> 0 <= accesses s -> accesses s + Z.of_nat todo * lines < 2 ^ 64 ->
  exists blocks s', pass_loop cfg env todo fuel draws cycle use_cont (lines * cls) s = Some (Done (Go s')) /\
    length blocks = todo /\ Forall (fun b => b ≡ₚ zrange lines) blocks /\ went cfg (concat blocks) s s'.
Proof.
  revert s. induction todo as [|todo IH]; intros s Hrng Hf Hs Ha0 Ha; cbn [pass_loop].
  - exists [], s. split_and!; try done. by apply went_nil.
  - destruct (one_pass_visits cycle use_cont draws fuel s Hrng Hf Hs Ha0) as (b & s1 & -> & Hb & Hw); [nia|].
    cbn [mbind option_bind].
    assert (Hacc : accesses s1 = accesses s + lines).
    { rewrite (went_acc _ _ _ _ Hw), Hb, zrange_length. lia. }
    destruct (IH s1) as (bs & s2 & -> & Hl & Hbs & Hw2);
      [by eapply pass_rng_went|done|apply Hw|lia|nia|].
    exists (b :: bs), s2. split_and!; [done|by cbn; f_equal|by constructor|].
    by eapply went_app.
Qed.
End Pass.

(** ** The whole traversal *)

(** The generators as [main] sets them up, for [lc] contracted and [le]
    expanded lines. *)
Definition gens_ok (cfg : sq_config) (lc le : Z) (draws : nat) (s : sq_state) : Prop :=
  match randomize s, cont_rand s with
  | None, None => (0 < draws)%nat
  | Some g, None => rng_fits cfg le g /\ (Z.to_nat (mod_ g) <= draws)%nat
  | Some g, Some c =>
      (rng_fits cfg le g /\ (Z.to_nat (mod_ g) <= draws)%nat) /\
      (rng_fits cfg lc c /\ (Z.to_nat (mod_ c) <= draws)%nat)
  | None, Some _ => False
  end.

Lemma rng_fits_le cfg l l' g : l <= l' -> rng_fits cfg l' g -> rng_fits cfg l g.
Proof. intros Hl (? & ? & ?). split_and!; [done|lia|done]. Qed.

Lemma gens_ok_went cfg b lc le draws s s' :
  went cfg b s s' -> gens_ok cfg lc le draws s -> gens_ok cfg lc le draws s'.
Proof.
  intros [_ _ Hr Hc _ _]. unfold gens_ok.
  assert (Hm : forall g g' l, same_rng g g' ->
    rng_fits cfg l g /\ (Z.to_nat (mod_ g) <= draws)%nat ->
    rng_fits cfg l g' /\ (Z.to_nat (mod_ g') <= draws)%nat).
  { intros g g' l Hs [Hg Hd]. split; [by eapply rng_fits_same|]. destruct Hs as (_ & _ & ->). done. }
  destruct (randomize s), (randomize s'); try (by inversion Hr);
    destruct (cont_rand s), (cont_rand s'); try (by inversion Hc); try done.
  - inversion Hr; inversion Hc; subst. intros [Hg Hk]. split; eauto.
  - inversion Hr; subst. eauto.
Qed.

Section Whole.
Variables (cfg : sq_config) (env : sq_env) (lc le : Z).
Hypothesis Hcls : 0 < cache_line_size cfg < 2 ^ 31.
Hypothesis Hle : 0 <= lc <= le.
Hypothesis Hce : capacity_expanded cfg = le * cache_line_size cfg.
Hypothesis Hcc : capacity_contracted cfg = lc * cache_line_size cfg.
Hypothesis Hfit : capacity_expanded cfg < 2 ^ 31.
Hypothesis Henv : sq_env_ok cfg env.
Hypothesis Hspin : no_randspin cfg = false.
Hypothesis Hinf : infinite_duration cfg = false.
Hypothesis Hmax : max_accesses cfg = 0.
Hypothesis Hpass : 0 <= passes_per_cycle cfg < 2 ^ 31.

(** The lines of a cycle. *)
Definition cycle_lines (c : Z) : Z := if Z.odd c then le else lc.

(** The passes of the cycles from [c] on: each has [passes_per_cycle] of
    them, each of which touches every line of the cycle once. *)
Fixpoint cycles_visit (c : Z) (cycles : list (list (list Z))) : Prop :=
  match cycles with
  | [] => True
  | blocks :: rest =>
      (Z.of_nat (length blocks) = passes_per_cycle cfg /\
       Forall (fun b => b ≡ₚ zrange (cycle_lines c)) blocks) /\
      cycles_visit (c + 1) rest
  end.

Lemma gens_ok_pass_rng c draws s :
  gens_ok cfg lc le draws s -> pass_rng cfg (cycle_lines c) (cycle_use_cont c s) draws s.
Proof.
  unfold gens_ok, pass_rng, cycle_use_cont, randomizer, cycle_lines.
  destruct (randomize s) as [g|], (cont_rand s) as [k|], (Z.odd c); cbn; try done; intros Hg.
  - right. exists g. naive_solver.
  - right. exists k. naive_solver.
  - right. exists g. naive_solver.
  - right. exists g. destruct Hg as [Hg Hd]. split_and!; try done.
    eapply rng_fits_le; [|done]. lia.
  - by left.
  - by left.
Qed.

Lemma cycle_loop_visits n c lines_fuel draws s :
  c + Z.of_nat n = 2 * num_periods cfg -> (Z.to_nat le <= lines_fuel)%nat ->
  sq_ok cfg s -> gens_ok cfg lc le draws s ->
  exists cycles s', cycle_loop cfg env n lines_fuel draws c s = Some (Done (Go s')) /\
    length cycles = n /\ cycles_visit c cycles /\ sq_ok cfg s' /\
    touched s' = touched s ++ ((fun l => l * cache_line_size cfg) <$> concat (concat cycles)).
Proof.
  revert c s. induction n as [|n IH]; intros c s Hn Hf Hs Hg; cbn [cycle_loop].
  - exists [], s. destruct (Z.leb_spec (2 * num_periods cfg) c); [|lia].
    split_and!; try done. by rewrite app_nil_r.
  - destruct (Z.leb_spec (2 * num_periods cfg) c); [lia|].
    set (s0 := cycle_start env c s).
    assert (Hs0 : sq_ok cfg s0) by (destruct Hs; by split).
    assert (Hg0 : gens_ok cfg lc le draws s0) by done.
    assert (Hsiz : cycle_siz cfg c = cycle_lines c * cache_line_size cfg).
    { unfold cycle_siz, cycle_lines. by destruct (Z.odd c). }
    assert (Hcl : 0 <= cycle_lines c <= le) by (unfold cycle_lines; destruct (Z.odd c); lia).
    destruct (pass_loop_visits cfg env (cycle_lines c) Hcls ltac:(lia) ltac:(nia) Henv Hspin
      (or_intror Hmax) (Z.to_nat (passes_per_cycle cfg)) c (cycle_use_cont c s0) draws lines_fuel s0)
      as (blocks & s1 & E & Hl & Hb & Hw).
    + by apply gens_ok_pass_rng.
    + lia.
    + done.
    + done.
    + cbn [accesses s0 cycle_start]. rewrite Z2Nat.id by lia. nia.
    + rewrite Hsiz, E. cbn [mbind option_bind]. rewrite Hinf.
      destruct (IH (c + 1) s1) as (cycles & s2 & E2 & Hl2 & Hv2 & Hs2 & Ht2);
        [lia|done|apply Hw|by eapply gens_ok_went|].
      exists (blocks :: cycles), s2. split_and!; [done|by cbn; f_equal| |done|].
      * split; [|done]. split; [lia|done].
      * rewrite Ht2, (went_touched _ _ _ _ Hw). cbn [touched s0 cycle_start concat].
        by rewrite concat_app, fmap_app, app_assoc.
Qed.
End Whole.

(** ** Properties *)

(** C2: A finite traversal terminates with 0, and every pass of it touches
    every line of its cycle's working set exactly once (the lines of the
    contracted set in the even cycles, of the expanded set in the odd ones),
    in order or in the order of a full-cycle generator whose period is at
    least the number of lines; neither an assertion nor an access fails. *)
Theorem square_evictions_visits cfg env lc le lines_fuel draws fd s
    (Hcls : 0 < cache_line_size cfg < 2 ^ 31) (Hle : 0 <= lc <= le)
    (Hce : capacity_expanded cfg = le * cache_line_size cfg) (Hcap : capacity_expanded cfg < 2 ^ 31)
    (Hcc : capacity_contracted cfg = lc * cache_line_size cfg)
    (Henv : sq_env_ok (with_stride cfg) env) (Hspin : no_randspin cfg = false)
    (Hinf : infinite_duration cfg = false) (Hmax : max_accesses cfg = 0)
    (Hpass : 0 <= passes_per_cycle cfg < 2 ^ 31) (Hper : 0 <= num_periods cfg < 2 ^ 30)
    (Hf : (Z.to_nat le <= lines_fuel)%nat) (Hfd : fd <> -1)
    (Hs : sq_ok cfg s) (Hg : gens_ok cfg lc le draws s) :
  exists cycles s',
    square_evictions (Z.to_nat (2 * num_periods cfg)) lines_fuel draws cfg env fd true s =
      Some (Done (0, s')) /\
    Z.of_nat (length cycles) = 2 * num_periods cfg /\ cycles_visit cfg lc le 0 cycles /\
    touched s' = touched s ++ ((fun l => l * cache_line_size cfg) <$> concat (concat cycles)).
Proof.
  assert (Hs' : sq_ok (with_stride cfg) s) by (destruct Hs; by split).
  destruct (cycle_loop_visits (with_stride cfg) env lc le Hcls Hle Hce Hcc Hcap Henv Hspin Hinf Hmax
    Hpass (Z.to_nat (2 * num_periods cfg)) 0 lines_fuel draws s) as (cycles & s' & E & Hl & Hv & _ & Ht);
    [cbn [num_periods with_stride]; lia|done|done|done|].
  exists cycles, s'. split; [|split; [lia|done]].
  unfold square_evictions.
  assert (in_s32 (2 * num_periods cfg) = true) as ->.
  { unfold in_s32. apply andb_true_iff. rewrite Z.leb_le, Z.ltb_lt. lia. }
  destruct (Z.eqb_spec fd (-1)); [done|]. rewrite !andb_false_r. cbn [negb]. rewrite E.
  unfold gens_ok in Hg. by destruct (randomize s), (cont_rand s).
Qed.

(** The exclusive-ors of an access exchange the byte at [ix] with [val]
    and change nothing else; the bytes of the array and [val] together stay
    the same multiset. *)
Theorem xor_swap_exchanges a v ix x (Hx : zget a ix = Some x) :
  exists a', xor_swap a v ix = Done (a', x) /\ zget a' ix = Some v /\
    (forall j, j <> ix -> zget a' j = zget a j) /\ x :: a' ≡ₚ v :: a.
Proof.
  exists (<[Z.to_nat ix := v]> a). pose proof Hx as [H0 Hl]%zget_Some.
  pose proof (lookup_lt_Some _ _ _ Hl) as Hlt. split; [by apply xor_swap_spec|]. split; [|split].
  - apply zget_Some. split; [done|]. by apply list_lookup_insert_eq.
  - intros j Hj. unfold zget. destruct (Z.leb_spec 0 j); [|done].
    apply list_lookup_insert_ne. lia.
  - by apply insert_permutation.
Qed.

(** The log after a sequence of readings. *)
Fixpoint bufappend_all (b : perf_buffer) (rs : list perf_reading) : outcome (option perf_buffer) :=
  match rs with
  | [] => Done (Some b)
  | r :: rs =>
      o ← bufappend b r;
      match o with
      | Some b => bufappend_all b rs
      | None => Done None
      end
  end.

(** C34: The log buffer.  Starting from the initial mapping, any number of
    usable readings is logged, in order and without a write behind the
    mapping, which only grows by doubling and stays below twice the bytes in
    use or at its initial size. *)
Theorem bufappend_logs_all rs (Hr : Forall reading_ok rs) :
  exists b, bufappend_all perf_buffer_init rs = Done (Some b) /\
    log b = entry <$> rs /\ buffer_ok b /\
    (siz b = PERF_LOG_BUFFER_INIT_SIZE \/ siz b < 2 * occ b).
Proof.
  assert (Hg : forall b, buffer_ok b ->
    siz b = PERF_LOG_BUFFER_INIT_SIZE \/ siz b < 2 * occ b ->
    exists b', bufappend_all b rs = Done (Some b') /\ log b' = log b ++ (entry <$> rs) /\
      buffer_ok b' /\ (siz b' = PERF_LOG_BUFFER_INIT_SIZE \/ siz b' < 2 * occ b')).
  { induction Hr as [|r rs Hr Hrs IH]; intros b Hb Hz.
    - exists b. split_and!; [done|by rewrite app_nil_r|done|done].
    - destruct (bufappend_ok b r Hb Hr) as (b1 & E & Hb1 & Hl1 & Hs1).
      cbn [bufappend_all]. rewrite E. cbn [mbind outcome_bind].
      assert (Ho1 : occ b1 = occ b + 32).
      { rewrite (bo_occ _ Hb1), (bo_occ _ Hb), Hl1, length_app. cbn [length].
        change ENTRY_SIZE with 32. lia. }
      destruct (IH b1 Hb1) as (b' & ? & Hl' & ? & ?).
      { unfold bufappend in E. destruct Hr as (Ha & Hn & Hm). rewrite Ha, Hn, Hm, andb_false_r in E.
        change (24 =? 24) with true in E.
        change (PERF_LOG_NUM_COUNTERS =? PERF_LOG_NUM_COUNTERS) with true in E.
        cbn [c_assert mbind outcome_bind] in E.
        change PERF_LOG_BUFFER_GROW_FACT with 2 in E. change ENTRY_SIZE with 32 in E.
        destruct (Z.ltb_spec (siz b) (occ b + 32)).
        - destruct (_ <=? _); cbn in E; [|done]. injection E as E. subst b1. cbn [siz occ] in *.
          right. lia.
        - destruct (_ <=? _); cbn in E; [|done]. injection E as E. subst b1. cbn [siz occ] in *. lia. }
      exists b'. split_and!; [done| |done|done]. rewrite Hl', Hl1. by rewrite <- app_assoc. }
  destruct (Hg perf_buffer_init buffer_init_ok) as (b & ? & ? & ? & ?); [by left|]. eauto 6.
Qed.

(** ** Witnesses *)

Definition sample_rng : rng_state := RngState 1234 9 3 8.

Lemma sample_rng_full : full_cycle sample_rng.
Proof.
  split; cbn [coeff incr mod_ sample_rng]; [|lia|lia|right; by exists (2 ^ 29)].
  split; [lia| |].
  - intros p Hp Hd.
    assert (p = 2) as ->.
    { change 8 with (2 * (2 * 2)) in Hd. pose proof (prime_mult p Hp) as Hm.
      apply prime_div_prime; [done|apply prime_2|].
      apply Hm in Hd as [Hd|[Hd|Hd]%Hm]; exact Hd. }
    split; [by exists 4|]. intros _. by exists 2.
  - intros p Hp Hd [k Hk].
    assert (p = 2) as ->.
    { change 8 with (2 * (2 * 2)) in Hd. pose proof (prime_mult p Hp) as Hm.
      apply prime_div_prime; [done|apply prime_2|].
      apply Hm in Hd as [Hd|[Hd|Hd]%Hm]; exact Hd. }
    lia.
Qed.

(** Two periods of three passes over five and eight lines of four bytes. *)
Definition sample_cfg : sq_config :=
  SqConfig 4 2 3 20 32 false true (-1) true 0 false.
Definition sample_env : sq_env :=
  SqEnv (fun n => 100) (fun n => Reading 24 2 (Entry 0 0 0 0) true) (fun c => 17 + c).
Definition sample_state : sq_state :=
  SqState (replicate 32 0) 0 (Some sample_rng) None 0 0 (replicate 17 0) perf_buffer_init [].

Lemma square_evictions_visits_witness :
  exists cycles s',
    square_evictions 4 8 8 sample_cfg sample_env 3 true sample_state = Some (Done (0, s')) /\
    Z.of_nat (length cycles) = 4 /\ cycles_visit sample_cfg 5 8 0 cycles /\
    touched s' = touched sample_state ++ ((fun l => l * 4) <$> concat (concat cycles)).
Proof.
  apply (square_evictions_visits sample_cfg sample_env 5 8 8 8 3 sample_state).
  - cbn. lia.
  - lia.
  - reflexivity.
  - cbn. lia.
  - reflexivity.
  - split; cbn; [by intros; split_and!|discriminate|intros; lia].
  - reflexivity.
  - reflexivity.
  - reflexivity.
  - cbn. lia.
  - cbn. lia.
  - lia.
  - discriminate.
  - split; [reflexivity|reflexivity|apply buffer_init_ok].
  - cbn. split; [|lia]. split; [apply sample_rng_full|split; cbn; lia].
Defined.

Lemma xor_swap_exchanges_witness :
  exists a', xor_swap [5; 6; 7] 9 1 = Done (a', 6) /\ zget a' 1 = Some 9 /\
    (forall j, j <> 1 -> zget a' j = zget [5; 6; 7] j) /\ 6 :: a' ≡ₚ 9 :: [5; 6; 7].
Proof. apply (xor_swap_exchanges [5; 6; 7] 9 1 6). reflexivity. Defined.

Lemma bufappend_logs_all_witness :
  exists b, bufappend_all perf_buffer_init [Reading 24 2 (Entry 1 2 3 4) true] = Done (Some b) /\
    log b = [Entry 1 2 3 4] /\ buffer_ok b /\
    (siz b = PERF_LOG_BUFFER_INIT_SIZE \/ siz b < 2 * occ b).
Proof.
  apply (bufappend_logs_all [Reading 24 2 (Entry 1 2 3 4) true]).
  repeat constructor.
Defined.
