(* ===== verification/PerfPoll.v ===== *)
(** * clients/perf_poll.c: a group of performance counters

    [perf_poll_init] opens the counters as one group, led by the first.  What
    the kernel has open is a list of descriptors; [open] is what
    [perf_event_open] answers for a counter and a group leader.  On the way
    the text of the error message must fit its buffer. *)

From S2P Require Import Prelude SqTraverse.

(** ** Definitions *)

(** What [sprintf] writes for "%u", in characters. *)
Fixpoint digits (fuel : nat) (n : Z) : Z :=
  match fuel with
  | O => 0
  | S fuel => if n <? 10 then 1 else 1 + digits fuel (n / 10)
  end.

(** [desc]: the characters before the number, and the size of the array. *)
Definition DESC_LEN : Z := 26.
Definition DESC_SIZE : Z := 29.

(** The loop over [idx], for the counters from [idx] on; [tfd] opened so far
    are in [opened].  A counter needs [10] digits at most. *)
Fixpoint open_counters (open : Z -> Z -> Z) (n : nat) (idx fd : Z) (opened : list Z) : outcome (Z * list Z) :=
  match n with
  | O => Done (fd, opened)
  | S n =>
      let tfd := open idx fd in
      if tfd =? -1 then _ ← c_defined (DESC_LEN + digits 10 idx + 1 <=? DESC_SIZE); Done (tfd, opened)
      else open_counters open n (idx + 1) (if fd =? -1 then tfd else fd) (opened ++ [tfd])
  end.

(** [perf_poll_init(count, counters)]: the result and the descriptors it
    leaves open. *)
Definition perf_poll_init (open : Z -> Z -> Z) (count : nat) (counters_ok : bool) : outcome (Z * list Z) :=
  _ ← c_assert counters_ok; open_counters open count 0 (-1) [].

(** [perf_poll_start] and [perf_poll_stop]: an [ioctl] on the leader, which
    must not be a standard stream. *)
Definition perf_poll_start (ioctl : Z -> Z) (fd : Z) : outcome bool := _ ← c_assert (2 <? fd); Done (0 <=? ioctl fd).
Definition perf_poll_stop (ioctl : Z -> Z) (fd : Z) : outcome bool := _ ← c_assert (2 <? fd); Done (0 <=? ioctl fd).

(** The counters of [square_evictions] when it is asked for a log: the
    arguments [perf_fd] and [perf_started] of its model, and what is open. *)
Definition square_counters (open : Z -> Z -> Z) (ioctl : Z -> Z) : outcome (Z * bool * list Z) :=
  r ← perf_poll_init open (Z.to_nat PERF_LOG_NUM_COUNTERS) true;
  if r.1 =? -1 then Done (r.1, false, r.2)
  else started ← perf_poll_start ioctl r.1; Done (r.1, started, r.2).

(** ** Lemmas *)

(** Once there is a leader, it leads every counter that follows. *)
Lemma open_counters_group open n idx leader opened :
  leader <> -1 -> (forall i, idx <= i < idx + Z.of_nat n -> open i leader <> -1) ->
  open_counters open n idx leader opened =
    Done (leader, opened ++ ((fun i => open (idx + Z.of_nat i) leader) <$> seq 0 n)).
Proof.
  revert idx opened. induction n as [|n IH]; intros idx opened Hl Ho; cbn [open_counters].
  - by rewrite app_nil_r.
  - destruct (Z.eqb_spec (open idx leader) (-1)) as [He|_]; [by apply Ho in He; [|lia]|].
    destruct (Z.eqb_spec leader (-1)); [done|]. rewrite IH by (done || (intros; apply Ho; lia)).
    rewrite <- app_assoc. do 3 f_equal. cbn [seq fmap list_fmap]. rewrite Z.add_0_r. cbn [app]. f_equal.
    rewrite <- fmap_S_seq, <- list_fmap_compose. apply list_fmap_ext. intros i j _. cbn. f_equal. lia.
Qed.

(** A counter the kernel refuses ends the loop, the others stay open. *)
Lemma open_counters_refused open n k idx leader opened :
  leader <> -1 -> (forall i, idx <= i < idx + Z.of_nat k -> open i leader <> -1) -> (k < n)%nat ->
  open (idx + Z.of_nat k) leader = -1 ->
  open_counters open n idx leader opened =
    (_ ← c_defined (DESC_LEN + digits 10 (idx + Z.of_nat k) + 1 <=? DESC_SIZE);
     Done (-1, opened ++ ((fun i => open (idx + Z.of_nat i) leader) <$> seq 0 k))).
Proof.
  revert n idx opened. induction k as [|k IH]; intros n idx opened Hl Ho Hk Hr; (destruct n as [|n]; [lia|]); cbn [open_counters].
  - rewrite Z.add_0_r in *. rewrite Hr. cbn [Z.eqb Pos.eqb]. by rewrite app_nil_r.
  - destruct (Z.eqb_spec (open idx leader) (-1)) as [He|_]; [by apply Ho in He; [|lia]|].
    destruct (Z.eqb_spec leader (-1)); [done|].
    assert (He : idx + Z.of_nat (S k) = idx + 1 + Z.of_nat k) by lia. rewrite He in *.
    rewrite IH by (done || lia || (intros; apply Ho; lia)).
    destruct (c_defined _); [|done|done]. cbn [mbind outcome_bind]. rewrite <- app_assoc. do 3 f_equal.
    cbn [seq fmap list_fmap]. rewrite Z.add_0_r. cbn [app]. f_equal.
    rewrite <- fmap_S_seq, <- list_fmap_compose. apply list_fmap_ext. intros i j _. cbn. f_equal. lia.
Qed.

(** ** Properties *)

(** With a kernel that opens every counter the result is the first
    descriptor, and every other counter is in its group. *)
Theorem perf_poll_groups open n
    (H0 : open 0 (-1) <> -1) (Ho : forall i, 0 < i <= Z.of_nat n -> open i (open 0 (-1)) <> -1) :
  perf_poll_init open (S n) true =
    Done (open 0 (-1), open 0 (-1) :: ((fun i => open (Z.of_nat i) (open 0 (-1))) <$> seq 1 n)).
Proof.
  unfold perf_poll_init. cbn [c_assert mbind outcome_bind open_counters].
  destruct (Z.eqb_spec (open 0 (-1)) (-1)); [done|]. cbn [Z.eqb Pos.eqb].
  rewrite open_counters_group by (done || (intros; apply Ho; lia)). cbn [app]. do 3 f_equal.
  rewrite <- fmap_S_seq, <- list_fmap_compose. apply list_fmap_ext. intros i j _. cbn. f_equal. lia.
Qed.

(** A counter the kernel refuses makes the result -1, and the descriptors of
    the counters before it stay open: nothing else refers to them.  From the
    counter 100 on the message overruns its array. *)
Theorem perf_poll_leaks open n k
    (H0 : open 0 (-1) <> -1) (Ho : forall i, 0 < i <= Z.of_nat k -> open i (open 0 (-1)) <> -1) (Hk : (k < n)%nat)
    (Hr : open (Z.of_nat (S k)) (open 0 (-1)) = -1) :
  perf_poll_init open (S n) true =
    if digits 10 (Z.of_nat (S k)) <=? 2
    then Done (-1, open 0 (-1) :: ((fun i => open (Z.of_nat i) (open 0 (-1))) <$> seq 1 k))
    else Undefined.
Proof.
  unfold perf_poll_init. cbn [c_assert mbind outcome_bind open_counters].
  destruct (Z.eqb_spec (open 0 (-1)) (-1)); [done|]. cbn [Z.eqb Pos.eqb].
  assert (He : 0 + 1 + Z.of_nat k = Z.of_nat (S k)) by lia.
  rewrite (open_counters_refused _ _ k) by (done || (intros; apply Ho; lia) || by rewrite He).
  rewrite He. unfold DESC_LEN, DESC_SIZE.
  destruct (Z.leb_spec (digits 10 (Z.of_nat (S k))) 2), (Z.leb_spec (26 + digits 10 (Z.of_nat (S k)) + 1) 29); try lia; [|done].
  cbn [c_defined mbind outcome_bind app]. do 3 f_equal.
  rewrite <- fmap_S_seq, <- list_fmap_compose. apply list_fmap_ext. intros i j _. cbn. f_equal. lia.
Qed.

(** When the kernel refuses a counter, [square_evictions] returns 1 before it
    touches the working set, and whether its first counter leaks depends on
    which one was refused. *)
Theorem square_counters_refused open ioctl fuel lines draws cfg env s
    (Hp : perflog cfg = true) (Hc : is_Some (randomize s) \/ cont_rand s = None) (Hn : in_s32 (2 * num_periods cfg) = true)
    (Hr : open 0 (-1) = -1 \/ open 1 (open 0 (-1)) = -1) :
  exists fd started opened, square_counters open ioctl = Done (fd, started, opened) /\
    opened = (if open 0 (-1) =? -1 then [] else [open 0 (-1)]) /\
    square_evictions fuel lines draws cfg env fd started s = Some (Done (1, s)).
Proof.
  exists (-1), false, (if open 0 (-1) =? -1 then [] else [open 0 (-1)]).
  split; [|split; [done|]].
  - unfold square_counters, perf_poll_init. cbn [c_assert mbind outcome_bind].
    change (Z.to_nat PERF_LOG_NUM_COUNTERS) with 2%nat. cbn [open_counters].
    destruct (Z.eqb_spec (open 0 (-1)) (-1)) as [He|He]; cbn [c_defined mbind outcome_bind fst snd]; [by rewrite He|].
    destruct Hr as [Hr|Hr]; [done|]. change (-1 =? -1) with true. change (0 + 1) with 1. cbv beta iota. by rewrite Hr.
  - unfold square_evictions. rewrite Hp, Hn. cbn [negb andb Z.eqb Pos.eqb].
    destruct (randomize s), (cont_rand s) eqn:Ec; try done. destruct Hc as [[? ?]|?]; done.
Qed.

(** ** Witnesses *)

Definition sample_open (i fd : Z) : Z := if i <? 3 then 7 + i else -1.

Lemma perf_poll_groups_witness : perf_poll_init sample_open 3 true = Done (7, [7; 8; 9]).
Proof.
  apply (perf_poll_groups sample_open 2).
  - discriminate.
  - intros i Hi. unfold sample_open. destruct (Z.ltb_spec i 3); cbn in Hi; lia.
Defined.

Lemma perf_poll_leaks_witness : perf_poll_init sample_open 4 true = Done (-1, [7; 8; 9]).
Proof.
  apply (perf_poll_leaks sample_open 3 2).
  - discriminate.
  - intros i Hi. unfold sample_open. destruct (Z.ltb_spec i 3); cbn in Hi; lia.
  - lia.
  - reflexivity.
Defined.

Lemma square_counters_refused_witness :
  exists fd started opened, square_counters (fun i _ => if i =? 0 then 7 else -1) (fun _ => 0) = Done (fd, started, opened) /\
    opened = [7] /\
    square_evictions 1 1 1 (SqConfig 64 1 1 64 64 false true 1 false (-1) false) sample_env fd started sample_state
      = Some (Done (1, sample_state)).
Proof.
  apply square_counters_refused.
  - reflexivity.
  - left. eexists. reflexivity.
  - reflexivity.
  - right. reflexivity.
Defined.
