(* ===== verification/SqMain.v ===== *)
(** * clients/square_evictions.c: options, working-set sizes and generators

    The part of [main] that leads to the traversal.  Its local variables are
    a store indexed by their names; booleans are 0 and 1. *)

From S2P Require Import Prelude Cstr HullDobell Libc Rng SqTraverse.

(** ** Definitions *)

(** The locals of [main] that options set. *)
Inductive local : Type :=
| V_num_periods | V_passes_per_cycle | V_percent_contracted | V_percent_expanded
| V_custom_increment | V_perfstride | V_accesses | V_baserandom
| V_hugepages | V_randomize | V_secondrng | V_norngspin
| V_sanitycheck_memory | V_sanitycheck_clockspeed | V_measure_all
| V_infinite_duration | V_await_signal | V_perflog.

#[export] Instance local_eq_dec : EqDecision local.
Proof. solve_decision. Defined.

Definition store : Type := local -> Z.
Definition put (x : local) (v : Z) (st : store) : store :=
  fun y => if decide (y = x) then v else st y.

Definition sq_defaults : store := fun x =>
  match x with
  | V_num_periods => 2
  | V_passes_per_cycle => 100000
  | V_percent_contracted => 80
  | V_percent_expanded => 220
  | V_perfstride => -1
  | V_secondrng => 1
  | _ => 0
  end.

(** [parse_arg_arg]: [None] for false. *)
Definition sq_parse_arg_arg (optarg : string) : option Z :=
  match sscanf_d optarg with
  | Some v => if v <? 0 then None else Some v
  | None => None
  end.

(** The text between commas. *)
Fixpoint split_commas (s : string) : list string :=
  match s with
  | EmptyString => [EmptyString]
  | String c r =>
      if ascii_code c =? 44 then EmptyString :: split_commas r
      else
        match split_commas r with
        | [] => [String c EmptyString]
        | p :: ps => String c p :: ps
        end
  end.

(** The loop of [-f] over these pieces: a piece without a number ends it, but
    at the end of the text [sscanf] gives EOF, which the loop takes for a
    success that wrote nothing. *)
Fixpoint scan_factors (pieces : list string) : list (option Z) :=
  match pieces with
  | [] => []
  | p :: ps =>
      match sscanf_d p with
      | Some v => Some v :: scan_factors ps
      | None =>
          match ps, skip_spaces p with
          | [], EmptyString => [None]
          | _, _ => []
          end
      end
  end.

(** The factors of [-f]: an array of one more than the commas; what was not
    scanned is uninitialised. *)
Definition parse_factors (optarg : string) : list (option Z) :=
  let pieces := split_commas optarg in
  let l := scan_factors pieces in
  l ++ replicate (length pieces - length l) None.

(** One option: [None] for the exits with 1.  [fopen_ok] is the success of
    opening the log file. *)
Definition sq_opt (fopen_ok : bool) (st : store) (factors : option (list (option Z)))
    (c : Z) (optarg : option string) : option (store * option (list (option Z))) :=
  let arg := default EmptyString optarg in
  let num x := v ← sq_parse_arg_arg arg; Some (put x v st, factors) in
  let flag x := Some (put x 1 st, factors) in
  if c =? 110 (* n *) then num V_num_periods
  else if c =? 112 (* p *) then num V_passes_per_cycle
  else if c =? 99 (* c *) then num V_percent_contracted
  else if c =? 101 (* e *) then num V_percent_expanded
  else if c =? 104 (* h *) then flag V_hugepages
  else if c =? 114 (* r *) then
    match optarg with
    | None => flag V_randomize
    | Some a => v ← sq_parse_arg_arg a; Some (put V_custom_increment v (put V_randomize 1 st), factors)
    end
  else if c =? 113 (* q *) then flag V_norngspin
  else if c =? 102 (* f *) then Some (st, Some (parse_factors arg))
  else if c =? 115 (* s *) then Some (put V_secondrng 0 st, factors)
  else if c =? 119 (* w *) then flag V_sanitycheck_memory
  else if c =? 118 (* v *) then flag V_sanitycheck_clockspeed
  else if c =? 108 (* l *) then if fopen_ok then flag V_perflog else None
  else if c =? 106 (* j *) then
    v ← sq_parse_arg_arg arg; if v <=? 0 then None else Some (put V_perfstride v st, factors)
  else if c =? 109 (* m *) then flag V_measure_all
  else if c =? 97 (* a *) then num V_accesses
  else if c =? 98 (* b *) then num V_baserandom
  else if c =? 117 (* u *) then flag V_infinite_duration
  else if c =? 105 (* i *) then flag V_await_signal
  else None.

Fixpoint sq_opts (fopen_ok : bool) (opts : list opt_result) (st : store)
    (factors : option (list (option Z))) : option (store * option (list (option Z))) :=
  match opts with
  | [] => Some (st, factors)
  | (c, optarg) :: rest =>
      '(st, factors) ← sq_opt fopen_ok st factors (ascii_code c) optarg;
      sq_opts fopen_ok rest st factors
  end.

(** The checks behind the options: [None] for the exits with 1; [mmap_ok] is
    the success of mapping the log buffer. *)
Definition sq_check (mmap_ok : bool) (factors : option (list (option Z))) (st : store)
    : option store :=
  let has_factors := match factors with Some _ => true | None => false end in
  if ((st V_secondrng =? 0) || has_factors) && (st V_randomize =? 0) then None
  else if st V_percent_expanded <? st V_percent_contracted then None
  else
    let st := if st V_percent_contracted =? st V_percent_expanded then put V_secondrng 0 st else st in
    let logging := negb (st V_perflog =? 0) || negb (st V_sanitycheck_clockspeed =? 0) in
    if logging && negb mmap_ok then None
    else if negb logging && negb (st V_perfstride =? -1) then None
    else if (negb (st V_accesses =? 0) || negb (st V_baserandom =? 0)) && (st V_randomize =? 0) then None
    else if negb (st V_infinite_duration =? 0) && negb (st V_accesses =? 0) then None
    else Some st.

Definition pow_of_two (num : Z) : bool := negb (num =? 0) && (Z.land num (num - 1) =? 0).

Definition MINIMUM_GENERATOR_PERIOD : Z := 8.

(** [cache_num_sets * percent / 100.0], truncated: the quotient in double
    precision never reaches the next integer. *)
Definition lines_of (cache_num_sets percent : Z) : outcome Z :=
  _ ← c_defined (in_s32 (cache_num_sets * percent));
  Done (Z.quot (cache_num_sets * percent) 100).

(** The loop that halves [siz_reduced]. *)
Fixpoint reduce_siz (fuel : nat) (siz_reduced lines_contracted : Z) : option Z :=
  let half := Z.shiftr siz_reduced 1 in
  if (u32 lines_contracted <=? half) && (MINIMUM_GENERATOR_PERIOD <=? half) then
    match fuel with
    | O => None
    | S fuel => reduce_siz fuel half lines_contracted
    end
  else Some siz_reduced.

(** The loop that doubles [siz]. *)
Fixpoint grow_siz (fuel : nat) (siz lines_expanded : Z) : option Z :=
  if siz <? u32 lines_expanded then
    match fuel with
    | O => None
    | S fuel => grow_siz fuel (u32 (Z.shiftl siz 1)) lines_expanded
    end
  else Some siz.

(** The product of the given factors, in [int]. *)
Fixpoint factors_product (check : Z) (factors : list (option Z)) : outcome (Z * list Z) :=
  match factors with
  | [] => Done (check, [])
  | f :: rest =>
      v ← of_opt f;
      _ ← c_defined (in_s32 (check * v));
      '(p, l) ← factors_product (check * v) rest;
      Done (p, v :: l)
  end.

(** The factors and the period of the first generator: [None] for the exit
    with 1. *)
Definition choose_period (factors : option (list (option Z))) (lines_expanded siz_reduced : Z)
    : option (outcome (option (list Z * Z))) :=
  match factors with
  | Some fs =>
      Some ('(check, l) ← factors_product 1 fs;
            _ ← c_defined (negb (check =? 0));
            Done (if negb (Z.rem lines_expanded check =? 0) then None else Some (l, u32 lines_expanded)))
  | None =>
      siz ← grow_siz 32 siz_reduced lines_expanded;
      Some (Done (Some ([2], siz)))
  end.

Section Setup.
Context `{Libc}.

(** [rng_lcfc_init_incr] with a custom increment, [rng_lcfc_init] without. *)
Definition make_rng (fuel : nat) (now : Z) (malloc_ok : bool) (siz : Z) (factors : list Z)
    (custom_increment : Z) (rs : rand_state)
    : option (outcome (option rng_state * rand_state)) :=
  if negb (custom_increment =? 0)
  then Some (rng_lcfc_init_incr now malloc_ok siz factors (u32 custom_increment) rs)
  else rng_lcfc_init fuel now malloc_ok siz factors rs.

(** The draws that [-b] wastes. *)
Definition waste (baserandom : Z) (g : rng_state) : rng_state :=
  (rng_lcfc_n g (Z.to_nat baserandom)).2.

(** The generators of [main]: [Done (None, _)] for the exits with 1, a result
    [(random, randtv)] otherwise.  [now1] and [now2] are the times at which
    the two are seeded. *)
Definition setup_rngs (fuel : nat) (now1 now2 : Z) (malloc_ok : bool) (st : store)
    (factors : option (list (option Z))) (cache_num_sets lines_contracted lines_expanded : Z)
    (rs : rand_state) : option (outcome (option (rng_state * option rng_state) * rand_state)) :=
  if negb (pow_of_two cache_num_sets) then Some (Done (None, rs))
  else
    siz_reduced ← reduce_siz 32 (u32 cache_num_sets) lines_contracted;
    o ← choose_period factors lines_expanded siz_reduced;
    match o with
    | Done None => Some (Done (None, rs))
    | Done (Some (fs, siz)) =>
        o1 ← make_rng fuel now1 malloc_ok siz fs (st V_custom_increment) rs;
        match o1 with
        | Done (None, rs) => Some (Done (None, rs))
        | Done (Some random, rs) =>
            if st V_secondrng =? 0 then
              Some (Done (Some (waste (st V_baserandom) random, None), rs))
            else
              o2 ← make_rng fuel now2 malloc_ok siz_reduced [2] (st V_custom_increment) rs;
              Some ('(randtv, rs) ← o2;
                    match randtv with
                    | None => Aborted
                    | Some randtv =>
                        Done (Some (waste (st V_baserandom) random,
                                    Some (waste (st V_baserandom) randtv)), rs)
                    end)
        | Aborted => Some Aborted
        | Undefined => Some Undefined
        end
    | Aborted => Some Aborted
    | Undefined => Some Undefined
    end.

(** The call's arguments. *)
Definition sq_call_config (st : store) (cache_line_size cap_contracted cap_expanded : Z) : sq_config :=
  SqConfig cache_line_size (st V_num_periods) (st V_passes_per_cycle) cap_contracted cap_expanded
    (negb (st V_norngspin =? 0))
    (negb (st V_perflog =? 0) || negb (st V_sanitycheck_clockspeed =? 0))
    (st V_perfstride) (negb (st V_measure_all =? 0)) (u32 (st V_accesses))
    (negb (st V_infinite_duration =? 0)).

(** What [main] learns from outside: the cache geometry of llc.c, the
    allocations, the seeding times, the fresh array, and whether
    [perf_poll_init] and [sigaction] succeed. *)
Record main_env : Type := MainEnv {
  llc_line : Z;
  llc_sets : Z;
  fopen_ok : bool;
  mmap_ok : bool;
  malloc_ok : bool;
  seed1 : Z;
  seed2 : Z;
  large : option (list Z);
  perf_fd : Z;
  perf_started : bool;
  sigaction_ok : bool;
  signals : nat;
}.

(** [square_evictions_async]: the handler runs the saved call once for every
    SIGUSR1, whatever it returned before, until SIGTERM. *)
Fixpoint async_runs (n : nat) (fuel lines draws : nat) (cfg : sq_config) (env : sq_env)
    (fd : Z) (started : bool) (s : sq_state) : option (outcome sq_state) :=
  match n with
  | O => Some (Done s)
  | S n =>
      o ← square_evictions fuel lines draws cfg env fd started s;
      match o with
      | Done (_, s) => async_runs n fuel lines draws cfg env fd started s
      | Aborted => Some Aborted
      | Undefined => Some Undefined
      end
  end.

Definition square_evictions_async (m : main_env) (fuel lines draws : nat) (cfg : sq_config)
    (env : sq_env) (s : sq_state) : option (outcome (Z * sq_state)) :=
  if negb (sigaction_ok m) then Some (Done (1, s))
  else
    o ← async_runs (signals m) fuel lines draws cfg env (perf_fd m) (perf_started m) s;
    Some (s ← o; Done (0, s)).

(** [main]: the exit code and, when the traversal ran, its final state. *)
Definition sq_main (fuel lines draws : nat) (m : main_env) (env : sq_env) (argv : list string)
    (rs : rand_state) : option (outcome (Z * option sq_state)) :=
  let exit1 := Some (Done (1, None)) in
  match sq_opts (fopen_ok m) (getopt_all "n:p:c:e:hr::qf:swvl:j:ma:b:ui" argv) sq_defaults None with
  | None => exit1
  | Some (st, factors) =>
      match sq_check (mmap_ok m) factors st with
      | None => exit1
      | Some st =>
          if (llc_line m <=? 0) || (llc_sets m <=? 0) then exit1
          else
            match lines_of (llc_sets m) (st V_percent_contracted),
                  lines_of (llc_sets m) (st V_percent_expanded) with
            | Done lc, Done le =>
                gens ← (if negb (st V_randomize =? 0) then
                          o ← setup_rngs draws (seed1 m) (seed2 m) (malloc_ok m) st factors
                                (llc_sets m) lc le rs;
                          Some ('(g, _) ← o; Done (from_option (fun g => Some (Some g.1, g.2)) None g))
                        else Some (Done (Some (None, None))));
                match gens with
                | Done None => exit1
                | Done (Some (random, randtv)) =>
                    if negb (in_s32 (llc_line m * lc) && in_s32 (llc_line m * le)) then Some Undefined
                    else
                      match large m with
                      | None => exit1
                      | Some a =>
                          let cfg := sq_call_config st (llc_line m) (llc_line m * lc) (llc_line m * le) in
                          let s := SqState a 0 random randtv 0 0
                            (replicate MAX_MEMREF_CYCLES_POW 0) perf_buffer_init [] in
                          o ← (if negb (st V_await_signal =? 0)
                               then square_evictions_async m fuel lines draws cfg env s
                               else square_evictions fuel lines draws cfg env (perf_fd m)
                                      (perf_started m) s);
                          Some ('(ret, s) ← o; Done (ret, Some s))
                      end
                | Aborted => Some Aborted
                | Undefined => Some Undefined
                end
            | _, _ => Some Undefined
            end
      end
  end.
End Setup.

(** The sums behind the clock-speed check, over the entries of the log. *)
Definition clockspeed_sums (l : list perf_entry) : Z * Z :=
  foldl (fun '(i, c) e => (u64 (i + instrs e), u64 (c + cputime e))) (0, 0) l.

(** ** Lemmas *)

(** A positive number that passes [pow_of_two] is a power of two. *)
Lemma pow_of_two_spec num : 0 < num -> pow_of_two num = true -> num = 2 ^ Z.log2 num.
Proof.
  intros Hn Hp. unfold pow_of_two in Hp. apply andb_true_iff in Hp as [_ Hp%Z.eqb_eq].
  pose proof (Z.log2_spec num Hn) as [Hl Hu]. pose proof (Z.log2_nonneg num) as Hk.
  destruct (Z.eq_dec num (2 ^ Z.log2 num)) as [|Hne]; [done|exfalso].
  assert (Hb : Z.testbit (Z.land num (num - 1)) (Z.log2 num) = true).
  { rewrite Z.land_spec, Z.bit_log2 by done. cbn [andb].
    assert (Z.log2 (num - 1) = Z.log2 num) as <-.
    { apply Z.log2_unique; lia. }
    apply Z.bit_log2. lia. }
  rewrite Hp, Z.bits_0 in Hb. done.
Qed.

Lemma pow2_half k : 0 < k -> Z.shiftr (2 ^ k) 1 = 2 ^ (k - 1).
Proof.
  intros Hk. rewrite Z.shiftr_div_pow2 by lia. change (2 ^ 1) with 2.
  replace (2 ^ k) with (2 ^ (k - 1) * 2); [by rewrite Z.div_mul|].
  rewrite Z.mul_comm, <- Z.pow_succ_r by lia. f_equal. lia.
Qed.

Lemma pow2_le_inv a b : 0 <= a -> 2 ^ a <= 2 ^ b -> a <= b.
Proof.
  intros Ha Hle. destruct (Z.le_gt_cases a b) as [|Hlt]; [done|].
  pose proof (Z.pow_lt_mono_r 2 b a ltac:(lia) ltac:(lia) ltac:(lia)). lia.
Qed.

(** The reduction ends within its fuel on a power of two that covers the
    contracted lines and the minimum. *)
Lemma reduce_siz_pow2 fuel k lc :
  3 <= k <= 3 + Z.of_nat fuel -> 0 <= lc <= 2 ^ k -> lc < 2 ^ 32 ->
  exists j, reduce_siz fuel (2 ^ k) lc = Some (2 ^ j) /\ 3 <= j <= k /\ lc <= 2 ^ j.
Proof.
  revert k. induction fuel as [|fuel IH]; intros k Hk Hlc Hlc32; cbn [reduce_siz];
    rewrite pow2_half, u32_small by lia.
  - assert (k = 3) as -> by lia. change (MINIMUM_GENERATOR_PERIOD <=? 2 ^ (3 - 1)) with false.
    rewrite andb_false_r. exists 3. split_and!; done || lia.
  - destruct (Z.leb_spec lc (2 ^ (k - 1))) as [Hh|]; cbn [andb]; [|exists k; split_and!; done || lia].
    change MINIMUM_GENERATOR_PERIOD with (2 ^ 3).
    destruct (Z.leb_spec (2 ^ 3) (2 ^ (k - 1))) as [H8|]; [|exists k; split_and!; done || lia].
    apply pow2_le_inv in H8; [|lia].
    destruct (IH (k - 1)) as (j & ? & ? & ?); [lia|lia|done|]. exists j. split_and!; done || lia.
Qed.

(** The doubling ends within its fuel on the next power of two that covers
    the expanded lines. *)
Lemma grow_siz_pow2 fuel j le :
  0 <= j -> 31 <= j + Z.of_nat fuel -> 2 ^ j <= 2 ^ 31 -> 0 <= le <= 2 ^ 31 ->
  exists i, grow_siz fuel (2 ^ j) le = Some (2 ^ i) /\ j <= i <= 31 /\ le <= 2 ^ i /\
    (i = j \/ 2 ^ i < 2 * le).
Proof.
  revert j. induction fuel as [|fuel IH]; intros j Hj Hf Hj31 Hle; cbn [grow_siz];
    rewrite u32_small by lia; apply pow2_le_inv in Hj31 as Hj'; try lia.
  - assert (j = 31) as -> by lia. destruct (Z.ltb_spec (2 ^ 31) le); [lia|].
    exists 31. split_and!; [done|lia|lia|lia|by left].
  - destruct (Z.ltb_spec (2 ^ j) le).
    + rewrite Z.shiftl_mul_pow2 by lia.
      replace (2 ^ j * 2 ^ 1) with (2 ^ (j + 1)) by (rewrite Z.pow_add_r; lia).
      assert (j < 31).
      { destruct (Z.eq_dec j 31) as [->|]; lia. }
      assert (2 ^ (j + 1) <= 2 ^ 31) by (apply Z.pow_le_mono_r; lia).
      pose proof (Z.pow_pos_nonneg 2 (j + 1) ltac:(lia) ltac:(lia)).
      rewrite u32_small by lia.
      destruct (IH (j + 1)) as (i & ? & ? & ? & Hi); [lia|lia|done|done|].
      exists i. split_and!; [done|lia|lia|done|]. right. destruct Hi as [->|]; [|done].
      rewrite Z.pow_add_r by lia. lia.
    + exists j. split_and!; [done|lia|lia|done|by left].
Qed.


Lemma prime_div_pow2 k p : prime p -> (p | 2 ^ Z.of_nat k) -> p = 2.
Proof.
  intros Hp. induction k as [|k IH]; intros Hd.
  - cbn in Hd. pose proof (prime_gt_1 p Hp). apply Z.divide_1_r in Hd. lia.
  - rewrite Nat2Z.inj_succ, Z.pow_succ_r in Hd by lia.
    apply prime_mult in Hd as [Hd|Hd]; [ |auto|done].
    apply prime_div_prime; [done|apply prime_2|done].
Qed.

Lemma factor_list_pow2 k : 0 <= k -> factor_list (2 ^ k) [2].
Proof.
  intros Hk. split.
  - intros p ->%list_elem_of_singleton. split; [apply prime_2|lia].
  - intros p Hp Hd. apply list_elem_of_singleton.
    apply (prime_div_pow2 (Z.to_nat k)); [done|]. by rewrite Z2Nat.id.
Qed.

Lemma wrap_free_pow2 k inc : 0 <= k <= 32 -> wrap_free (2 ^ k) [2] inc.
Proof.
  intros Hk. split; [cbn; lia|right].
  exists (2 ^ (32 - k)). rewrite <- Z.pow_add_r by lia. f_equal. lia.
Qed.

Section SetupLemmas.
Context `{Libc}.

Lemma draw_incr_range fuel period pf rs inc rs' :
  0 < period -> draw_incr fuel period pf rs = Some (Done (inc, rs')) -> 0 <= inc < period.
Proof.
  intros Hp. revert rs. induction fuel as [|fuel IH]; intros rs E; cbn in E; [done|].
  destruct (Z.eqb_spec period 0); [lia|]. destruct (rand rs) as [r rs1].
  destruct (bad_incr _ _); [by eapply IH|].
  destruct (coprime _ _) as [[]| |]; try done; [|by eapply IH].
  simplify_eq. by apply Z.mod_pos_bound.
Qed.

(** Whatever generator [make_rng] makes over a power of two has a full cycle. *)
Lemma make_rng_full fuel now ok k custom rs g rs' :
  0 <= k <= 31 -> make_rng fuel now ok (2 ^ k) [2] custom rs = Some (Done (Some g, rs')) ->
  full_cycle g /\ mod_ g = 2 ^ k.
Proof.
  intros Hk E. assert (0 < 2 ^ k) by (apply Z.pow_pos_nonneg; lia).
  assert (Hg : exists inc rs1, 0 <= inc /\
    rng_lcfc_init_incr now ok (2 ^ k) [2] inc rs1 = Done (Some g, rs')).
  { unfold make_rng in E. destruct (negb (custom =? 0)).
    - simplify_eq. exists (u32 custom), rs. split; [apply u32_range|congruence].
    - unfold rng_lcfc_init in E. destruct (draw_incr _ _ _ _) as [[[inc rs1]| |]|] eqn:Ed; try done.
      apply draw_incr_range in Ed; [|done]. exists inc, rs1. split; [lia|]. cbn in E. congruence. }
  destruct Hg as (inc & rs1 & Hinc & Hi). split.
  - eapply (init_full_cycle now ok (2 ^ k) [2] inc);
      [apply factor_list_pow2; lia|apply wrap_free_pow2; lia|done|done].
  - by apply init_incr_inv in Hi as (_ & _ & _ & _ & ? & _).
Qed.

Lemma same_rng_n g n : same_rng g (rng_lcfc_n g n).2.
Proof.
  revert g. induction n as [|n IH]; intros g; [reflexivity|]. cbn [rng_lcfc_n].
  pose proof (same_rng_step g) as Hs. destruct (rng_lcfc g) as [x g1]. specialize (IH g1).
  destruct (rng_lcfc_n g1 n) as [xs g2]. cbn in *. by transitivity g1.
Qed.

Lemma waste_full b g k : full_cycle g /\ mod_ g = 2 ^ k -> full_cycle (waste b g) /\ mod_ (waste b g) = 2 ^ k.
Proof.
  intros [Hf Hm]. pose proof (same_rng_n g (Z.to_nat b)) as Hs.
  split; [by eapply same_rng_full|]. destruct Hs as (_ & _ & Hs). by rewrite <- Hm, <- Hs.
Qed.
End SetupLemmas.

(** ** Properties *)

(** C12: The working sets.  On a cache whose number of sets is a power of two
    from 8 on, contracted to at most all of it and without [-f], every pair of
    generators that the setup returns has full cycles over powers of two that
    cover the lines of the phase they serve: what the traversal needs.
    Contracted beyond the cache it need not ([contracted_beyond_cache_repeats]). *)
Theorem setup_rngs_fit `{Libc} fuel now1 now2 ok st sets lc le rs g tv rs' cfg s draws
    (Hs8 : 8 <= sets < 2 ^ 31) (Hlc : 0 <= lc <= sets) (Hle : lc <= le < 2 ^ 30)
    (Hcls : 0 < cache_line_size cfg) (Hfit : Z.max sets (2 * le) * cache_line_size cfg <= 2 ^ 32)
    (Hdraws : Z.max sets (2 * le) <= Z.of_nat draws)
    (E : setup_rngs fuel now1 now2 ok st None sets lc le rs = Some (Done (Some (g, tv), rs')))
    (Hg : randomize s = Some g) (Htv : cont_rand s = tv) :
  gens_ok cfg lc le draws s.
Proof.
  unfold setup_rngs in E. destruct (pow_of_two sets) eqn:Hp; [|done]. cbn [negb] in E.
  apply pow_of_two_spec in Hp; [|lia]. set (k := Z.log2 sets) in *.
  rewrite u32_small in E by lia.
  assert (Hk : 3 <= k <= 30).
  { split; [apply (pow2_le_inv 3); [lia|]; change (2 ^ 3) with 8; lia|].
    assert (k < 31); [|lia]. apply Z.log2_lt_pow2; lia. }
  destruct (reduce_siz_pow2 32 k lc) as (j & Er & Hj & Hlj); [lia|lia|lia|].
  rewrite Hp, Er in E. cbn [mbind option_bind choose_period] in E.
  assert (Hjk : 2 ^ j <= 2 ^ k) by (apply Z.pow_le_mono_r; lia).
  destruct (grow_siz_pow2 32 j le) as (i & Eg & Hi & Hli & Hi2); [lia|lia| |lia|].
  { transitivity (2 ^ k); [done|]. apply Z.pow_le_mono_r; lia. }
  rewrite Eg in E. cbn [mbind option_bind] in E.
  assert (Hmi : 2 ^ i <= Z.max sets (2 * le)) by (destruct Hi2 as [->|]; lia).
  assert (Hmj : 2 ^ j <= Z.max sets (2 * le)) by lia.
  destruct (make_rng fuel now1 ok (2 ^ i) [2] _ rs) as [[[[r|] rs1]| |]|] eqn:E1; try done.
  apply make_rng_full in E1; [|lia]. apply (waste_full (st V_baserandom)) in E1 as [Hf1 Hm1].
  assert (Hfits : forall g l e, full_cycle g -> mod_ g = 2 ^ e -> l <= 2 ^ e ->
    2 ^ e <= Z.max sets (2 * le) -> rng_fits cfg l g /\ (Z.to_nat (mod_ g) <= draws)%nat).
  { intros g0 l e Hf0 Hm0 Hl0 Hb0. rewrite <- Hm0 in *. split; [split_and!; [done|done|nia]|lia]. }
  unfold gens_ok. rewrite Hg, Htv. clear Hg Htv.
  cbn [mbind option_bind] in E. destruct (st V_secondrng =? 0).
  - simplify_eq. by eapply Hfits.
  - destruct (make_rng fuel now2 ok (2 ^ j) [2] _ rs1) as [[[[r2|] rs2]| |]|] eqn:E2;
      cbn in E; try done.
    apply make_rng_full in E2; [|lia]. apply (waste_full (st V_baserandom)) in E2 as [Hf2 Hm2].
    simplify_eq. split; by eapply Hfits.
Qed.

Definition small_machine : main_env :=
  MainEnv 4 8 true true true 7 8 (Some (replicate 64 0)) 3 true true 0.

Definition twice_a_line (argv : list string) : bool :=
  match @sq_main sample_libc 4 16 16 small_machine sample_env argv 0 with
  | Some (Done (0, Some s)) =>
      negb (bool_decide (NoDup (take 12 (touched s))))
  | _ => false
  end.

(** A contracted set larger than the number of cache sets is not covered
    by its own generator, whose period is at most that number: with eight
    sets and "-c150", the single contracted pass over twelve lines succeeds
    but touches some line twice. *)
Theorem contracted_beyond_cache_repeats :
  twice_a_line ["square_evictions"; "-n1"; "-p1"; "-c150"; "-e200"; "-r3"]%string = true /\
  twice_a_line ["square_evictions"; "-n1"; "-p1"; "-c150"; "-e200"; "-r3"; "-s"]%string = false.
Proof. split; vm_compute; reflexivity. Qed.

(** ** Witness *)

Definition sample_store : store := put V_custom_increment 3 (put V_randomize 1 sq_defaults).

Lemma setup_rngs_fit_witness :
  match @setup_rngs sample_libc 1 7 8 true sample_store None 8 5 8 0 with
  | Some (Done (Some (g, tv), _)) =>
      gens_ok sample_cfg 5 8 16
        (SqState (replicate 32 0) 0 (Some g) tv 0 0 (replicate 17 0) perf_buffer_init [])
  | _ => False
  end.
Proof.
  destruct (@setup_rngs sample_libc 1 7 8 true sample_store None 8 5 8 0)
    as [[[[[g tv]|] rs]| |]|] eqn:E; [|vm_compute in E; discriminate E..].
  apply (@setup_rngs_fit sample_libc 1 7 8 true sample_store 8 5 8 0 g tv rs sample_cfg
    (SqState (replicate 32 0) 0 (Some g) tv 0 0 (replicate 17 0) perf_buffer_init []) 16).
  - lia.
  - lia.
  - lia.
  - vm_compute. reflexivity.
  - vm_compute. discriminate.
  - vm_compute. discriminate.
  - exact E.
  - reflexivity.
  - reflexivity.
Defined.
