(* ===== verification/Packet.v ===== *)
(** * Packet memory: bytes, segments, mbufs, ports and streams

    A segment's buffer is the list of its bytes from the start of the data to
    the end of the data room; an access outside it is undefined behaviour.
    The host is little-endian, as all targets of the program. *)

From S2P Require Import Prelude.

(** ** Bytes *)

(** The [n] bytes at offset [off]. *)
Definition rd (buf : list Z) (off n : Z) : option (list Z) :=
  if (0 <=? off) && (0 <=? n) && (off + n <=? Z.of_nat (length buf))
  then Some (take (Z.to_nat n) (drop (Z.to_nat off) buf)) else None.

(** The buffer with [bs] written at offset [off]. *)
Definition wr (buf : list Z) (off : Z) (bs : list Z) : option (list Z) :=
  if (0 <=? off) && (off + Z.of_nat (length bs) <=? Z.of_nat (length buf))
  then Some (take (Z.to_nat off) buf ++ bs ++ drop (Z.to_nat off + length bs) buf) else None.

(** Numbers as bytes in host order ([le]) and in network order ([be]). *)
Definition le16 (v : Z) : list Z := [v mod 256; v / 256 mod 256].
Definition be16 (v : Z) : list Z := [v / 256 mod 256; v mod 256].
Definition be32 (v : Z) : list Z := [v / 2 ^ 24 mod 256; v / 2 ^ 16 mod 256; v / 256 mod 256; v mod 256].

Definition of_le16 (bs : list Z) : Z :=
  match bs with [a; b] => a + 256 * b | _ => 0 end.
Definition of_be16 (bs : list Z) : Z :=
  match bs with [a; b] => 256 * a + b | _ => 0 end.
Definition of_be32 (bs : list Z) : Z :=
  match bs with [a; b; c; d] => 2 ^ 24 * a + 2 ^ 16 * b + 256 * c + d | _ => 0 end.

Definition byte_ok (b : Z) : Prop := 0 <= b < 256.

Lemma rd_Some buf off n bs :
  rd buf off n = Some bs <->
  0 <= off /\ 0 <= n /\ off + n <= Z.of_nat (length buf) /\
  bs = take (Z.to_nat n) (drop (Z.to_nat off) buf).
Proof.
  unfold rd. destruct (Z.leb_spec 0 off), (Z.leb_spec 0 n), (Z.leb_spec (off + n) (Z.of_nat (length buf)));
    cbn; naive_solver lia.
Qed.

Lemma rd_length buf off n bs : rd buf off n = Some bs -> Z.of_nat (length bs) = n.
Proof. intros (? & ? & ? & ->)%rd_Some. rewrite length_take, length_drop. lia. Qed.

Lemma rd_is_Some buf off n :
  0 <= off -> 0 <= n -> off + n <= Z.of_nat (length buf) -> exists bs, rd buf off n = Some bs.
Proof. intros. eexists. by apply rd_Some. Qed.

Lemma wr_Some buf off bs buf' :
  wr buf off bs = Some buf' <->
  0 <= off /\ off + Z.of_nat (length bs) <= Z.of_nat (length buf) /\
  buf' = take (Z.to_nat off) buf ++ bs ++ drop (Z.to_nat off + length bs) buf.
Proof.
  unfold wr. destruct (Z.leb_spec 0 off), (Z.leb_spec (off + Z.of_nat (length bs)) (Z.of_nat (length buf)));
    cbn; naive_solver lia.
Qed.

Lemma wr_is_Some buf off bs :
  0 <= off -> off + Z.of_nat (length bs) <= Z.of_nat (length buf) -> exists buf', wr buf off bs = Some buf'.
Proof. intros. eexists. by apply wr_Some. Qed.

Lemma wr_length buf off bs buf' : wr buf off bs = Some buf' -> length buf' = length buf.
Proof. intros (? & ? & ->)%wr_Some. rewrite !length_app, length_take, length_drop. lia. Qed.

Lemma take_drop_app {A} (p q r : list A) n :
  n = length p -> take (length q) (drop n (p ++ q ++ r)) = q.
Proof. intros ->. rewrite drop_app_length. apply take_app_length. Qed.

(** What was written is read back. *)
Lemma rd_wr_same buf off bs buf' :
  wr buf off bs = Some buf' -> rd buf' off (Z.of_nat (length bs)) = Some bs.
Proof.
  intros Hw. pose proof (wr_length _ _ _ _ Hw) as Hl. apply wr_Some in Hw as (H0 & Hb & ->).
  apply rd_Some. split_and!; [lia|lia|lia|]. rewrite Nat2Z.id. symmetry.
  apply take_drop_app. rewrite length_take. lia.
Qed.

(** The byte at an index after a write. *)
Lemma wr_lookup buf off bs buf' i :
  wr buf off bs = Some buf' ->
  buf' !! i = if (Z.to_nat off <=? i)%nat && (i <? Z.to_nat off + length bs)%nat
              then bs !! (i - Z.to_nat off)%nat else buf !! i.
Proof.
  intros (H0 & Hb & ->)%wr_Some.
  assert (Hl : length (take (Z.to_nat off) buf) = Z.to_nat off) by (rewrite length_take; lia).
  destruct (Nat.leb_spec (Z.to_nat off) i) as [H1|H1]; cbn [andb].
  - rewrite lookup_app_r by lia. rewrite Hl.
    destruct (Nat.ltb_spec i (Z.to_nat off + length bs)).
    + by rewrite lookup_app_l by lia.
    + rewrite lookup_app_r by lia. rewrite lookup_drop. f_equal. lia.
  - rewrite lookup_app_l by lia. apply lookup_take_lt. lia.
Qed.

(** A read that a write does not overlap. *)
Lemma rd_wr_other buf off bs buf' o n :
  wr buf off bs = Some buf' -> o + n <= off \/ off + Z.of_nat (length bs) <= o ->
  rd buf' o n = rd buf o n.
Proof.
  intros Hw Ho. pose proof (wr_length _ _ _ _ Hw) as Hl. pose proof Hw as (H0 & Hb & _)%wr_Some.
  unfold rd. rewrite Hl.
  destruct (Z.leb_spec 0 o), (Z.leb_spec 0 n), (Z.leb_spec (o + n) (Z.of_nat (length buf))); cbn; try done.
  f_equal. apply list_eq. intros i.
  destruct (decide (i < Z.to_nat n)%nat).
  - rewrite !lookup_take_lt, !lookup_drop, (wr_lookup _ _ _ _ _ Hw) by lia.
    destruct (Nat.leb_spec (Z.to_nat off) (Z.to_nat o + i)),
      (Nat.ltb_spec (Z.to_nat o + i) (Z.to_nat off + length bs)); cbn; try done. lia.
  - by rewrite !lookup_take_ge by lia.
Qed.

Lemma of_be16_be16 v : 0 <= v < 2 ^ 16 -> of_be16 (be16 v) = v.
Proof.
  intros Hv. unfold of_be16, be16.
  pose proof (Z.div_mod v 256 ltac:(lia)). rewrite (Z.mod_small (v / 256)); [lia|].
  split; [apply Z.div_pos|apply Z.div_lt_upper_bound]; lia.
Qed.

Lemma of_le16_le16 v : 0 <= v < 2 ^ 16 -> of_le16 (le16 v) = v.
Proof.
  intros Hv. unfold of_le16, le16.
  pose proof (Z.div_mod v 256 ltac:(lia)). rewrite (Z.mod_small (v / 256)); [lia|].
  split; [apply Z.div_pos|apply Z.div_lt_upper_bound]; lia.
Qed.

Lemma mod256_ok x : byte_ok (x mod 256).
Proof. apply Z.mod_pos_bound. lia. Qed.

Lemma of_be32_be32 v : 0 <= v < 2 ^ 32 -> of_be32 (be32 v) = v.
Proof.
  intros Hv. unfold of_be32, be32.
  pose proof (Z.div_mod v 256 ltac:(lia)) as D1.
  pose proof (Z.div_mod (v / 256) 256 ltac:(lia)) as D2. rewrite Z.div_div in D2 by lia.
  pose proof (Z.div_mod (v / (256 * 256)) 256 ltac:(lia)) as D3. rewrite Z.div_div in D3 by lia.
  change (2 ^ 24) with (256 * 256 * 256). change (2 ^ 16) with (256 * 256).
  rewrite (Z.mod_small (v / (256 * 256 * 256))); [lia|].
  split; [apply Z.div_pos|apply Z.div_lt_upper_bound]; lia.
Qed.

Lemma rd_sub b off n bs o k :
  rd b off n = Some bs -> 0 <= o -> 0 <= k -> o + k <= n -> rd b (off + o) k = rd bs o k.
Proof.
  intros Hr Ho Hk Hn. pose proof (rd_length _ _ _ _ Hr) as Hl. apply rd_Some in Hr as (? & ? & ? & ->).
  rewrite length_take, length_drop in Hl.
  destruct (rd_is_Some b (off + o) k) as [x Hx]; [lia..|]. rewrite Hx. symmetry.
  apply rd_Some in Hx as (_ & _ & _ & ->). apply rd_Some.
  rewrite length_take, length_drop. split_and!; [lia|lia|lia|].
  rewrite skipn_firstn_comm, drop_drop, take_take. f_equal; [lia|]. f_equal. lia.
Qed.

(** A write inside a region that is read. *)
Lemma rd_wr_inside b o n bs off v b' :
  rd b o n = Some bs -> wr b off v = Some b' -> o <= off -> off + Z.of_nat (length v) <= o + n ->
  exists bs', wr bs (off - o) v = Some bs' /\ rd b' o n = Some bs'.
Proof.
  intros Hr Hw Ho Hn. pose proof (rd_length _ _ _ _ Hr) as Hl. pose proof (wr_length _ _ _ _ Hw) as Hlw.
  apply rd_Some in Hr as (Ho0 & Hn0 & Hb & Hbs).
  destruct (wr_is_Some bs (off - o) v) as [bs' Hw']; [lia|lia|]. exists bs'. split; [done|].
  pose proof (wr_length _ _ _ _ Hw') as Hl'.
  apply rd_Some. rewrite Hlw. split_and!; [done..|]. apply list_eq. intros i.
  rewrite (wr_lookup _ _ _ _ _ Hw'). destruct (decide (i < Z.to_nat n)%nat) as [Hi|Hi].
  - rewrite lookup_take_lt, lookup_drop, (wr_lookup _ _ _ _ _ Hw) by lia.
    rewrite Hbs, lookup_take_lt, lookup_drop by lia.
    destruct (Nat.leb_spec (Z.to_nat (off - o)) i), (Nat.leb_spec (Z.to_nat off) (Z.to_nat o + i)),
      (Nat.ltb_spec i (Z.to_nat (off - o) + length v)),
      (Nat.ltb_spec (Z.to_nat o + i) (Z.to_nat off + length v)); cbn; try lia; try done.
    f_equal. lia.
  - rewrite (lookup_take_ge (drop _ b')) by lia.
    destruct (Nat.leb_spec (Z.to_nat (off - o)) i), (Nat.ltb_spec i (Z.to_nat (off - o) + length v));
      cbn; try lia; apply lookup_ge_None_2; lia.
Qed.

Lemma zget_rd b o n bs i :
  rd b o n = Some bs -> 0 <= i < n -> zget b (o + i) = zget bs i.
Proof.
  intros (Ho & Hn & Hl & ->)%rd_Some Hi. unfold zget.
  destruct (Z.leb_spec 0 (o + i)), (Z.leb_spec 0 i); try lia.
  rewrite lookup_take_lt, lookup_drop by lia. f_equal. lia.
Qed.

Lemma rd_Forall (P : Z -> Prop) b o n bs : Forall P b -> rd b o n = Some bs -> Forall P bs.
Proof. intros Hb (_ & _ & _ & ->)%rd_Some. by apply Forall_take, Forall_drop. Qed.

Lemma wr_Forall (P : Z -> Prop) b o v b' :
  Forall P b -> Forall P v -> wr b o v = Some b' -> Forall P b'.
Proof.
  intros Hb Hv (_ & _ & ->)%wr_Some. apply Forall_app; split; [by apply Forall_take|].
  apply Forall_app; split; [done|by apply Forall_drop].
Qed.

Lemma be32_bytes v : Forall byte_ok (be32 v).
Proof. repeat (apply Forall_cons; split; [apply mod256_ok|]). constructor. Qed.
Lemma le16_bytes v : Forall byte_ok (le16 v).
Proof. repeat (apply Forall_cons; split; [apply mod256_ok|]). constructor. Qed.

Lemma rd_wr_at buf off bs buf' o n :
  wr buf off bs = Some buf' -> o = off -> n = Z.of_nat (length bs) -> rd buf' o n = Some bs.
Proof. intros Hw -> ->. by eapply rd_wr_same. Qed.

(** One write or read at the head of a computation: it is in bounds. *)
Ltac wr_step c W :=
  match goal with
  | |- context [of_opt (wr ?b ?off ?v)] =>
      destruct (wr_is_Some b off v) as [c W]; [lia|cbn [length be32 le16 be16] in *; lia|];
      rewrite W; cbn [of_opt mbind outcome_bind];
      let L := fresh "L" in pose proof (wr_length _ _ _ _ W) as L
  end.

(** Reads after writes: what was written at the very place, and otherwise
    what was there before. *)
Ltac rd_wr :=
  repeat match goal with
  | Hw : wr ?b0 ?off ?v = Some ?b |- context [rd ?b ?o ?n] =>
      first
        [ rewrite (rd_wr_other b0 off v b o n Hw) by (cbn [length be32 le16 be16] in *; lia)
        | rewrite (rd_wr_at b0 off v b o n Hw) by (cbn [length be32 le16 be16] in *; lia) ]
  end.

(** ** Fields of headers *)

Definition rd8 (b : list Z) (off : Z) : outcome Z := of_opt (zget b off).
Definition rd_be16 (b : list Z) (off : Z) : outcome Z := bs ← of_opt (rd b off 2); Done (of_be16 bs).

(** ** Segments and mbufs *)

Record seg : Type := Seg { buf : list Z; data_len : Z }.

(** The lengths of headers for offloading besides [l2_len] and [l3_len]. *)
Record tx_offload : Type := TxOffload {
  l4_len : Z;
  mb_tso_segsz : Z;
  outer_l2_len : Z;
  outer_l3_len : Z;
}.

Definition no_offload : tx_offload := TxOffload 0 0 0 0.

(** [struct rte_mbuf], as far as the engines use it: its segments from the
    head on and its metadata. *)
Record mbuf : Type := Mbuf {
  segs : list seg;
  nb_segs : Z;
  pkt_len : Z;
  ol_flags : Z;
  l2_len : Z;
  l3_len : Z;
  vlan_tci : Z;
  vlan_tci_outer : Z;
  packet_type : Z;
  offload : tx_offload;
}.

(** [rte_pktmbuf_mtod(mb)]: the buffer of the head segment. *)
Definition mtod (mb : mbuf) : outcome (list Z) :=
  match segs mb with s :: _ => Done (buf s) | [] => Undefined end.

(** The mbuf with the head segment's bytes replaced. *)
Definition set_mtod (mb : mbuf) (b : list Z) : mbuf :=
  match segs mb with
  | s :: rest =>
      Mbuf (Seg b (data_len s) :: rest) (nb_segs mb) (pkt_len mb) (ol_flags mb) (l2_len mb)
        (l3_len mb) (vlan_tci mb) (vlan_tci_outer mb) (packet_type mb) (offload mb)
  | [] => mb
  end.

(** ** Ethernet headers *)

Definition ETHER_HDR_LEN : Z := 14.
Definition IPV4_HDR_LEN : Z := 20.

Definition ETHER_TYPE_IPv4 : Z := 2048.
Definition ETHER_TYPE_ARP : Z := 2054.
Definition ETHER_TYPE_VLAN : Z := 33024.
Definition ETHER_TYPE_IPv6 : Z := 34525.

(** ** Streams, ports and devices *)

(** [struct fwd_stream] *)
Record fwd_stream : Type := FwdStream {
  rx_port : Z;
  rx_queue : Z;
  tx_port : Z;
  tx_queue : Z;
  peer_addr : Z;
  rx_packets : Z;
  tx_packets : Z;
  fwd_dropped : Z;
  rx_bad_ip_csum : Z;
  rx_bad_l4_csum : Z;
}.

(** The counters are [unsigned int]. *)
Definition count_rx (n : Z) (fs : fwd_stream) : fwd_stream :=
  FwdStream (rx_port fs) (rx_queue fs) (tx_port fs) (tx_queue fs) (peer_addr fs)
    (u32 (rx_packets fs + n)) (tx_packets fs) (fwd_dropped fs) (rx_bad_ip_csum fs) (rx_bad_l4_csum fs).
Definition count_tx (n : Z) (fs : fwd_stream) : fwd_stream :=
  FwdStream (rx_port fs) (rx_queue fs) (tx_port fs) (tx_queue fs) (peer_addr fs)
    (rx_packets fs) (u32 (tx_packets fs + n)) (fwd_dropped fs) (rx_bad_ip_csum fs) (rx_bad_l4_csum fs).
Definition count_dropped (n : Z) (fs : fwd_stream) : fwd_stream :=
  FwdStream (rx_port fs) (rx_queue fs) (tx_port fs) (tx_queue fs) (peer_addr fs)
    (rx_packets fs) (tx_packets fs) (u32 (fwd_dropped fs + n)) (rx_bad_ip_csum fs) (rx_bad_l4_csum fs).

(** The fields of [struct rte_port] that the engines read. *)
Record tx_port_conf : Type := TxPort {
  eth_addr : list Z;
  tx_ol_flags : Z;
  tx_vlan_id : Z;
  tx_vlan_id_outer : Z;
  tso_segsz : Z;
}.

Definition MAX_PKT_BURST : Z := 512.

Definition TESTPMD_TX_OFFLOAD_IP_CKSUM : Z := 1.
Definition TESTPMD_TX_OFFLOAD_UDP_CKSUM : Z := 2.
Definition TESTPMD_TX_OFFLOAD_TCP_CKSUM : Z := 4.
Definition TESTPMD_TX_OFFLOAD_SCTP_CKSUM : Z := 8.
Definition TESTPMD_TX_OFFLOAD_OUTER_IP_CKSUM : Z := 16.
Definition TESTPMD_TX_OFFLOAD_PARSE_TUNNEL : Z := 32.
Definition TESTPMD_TX_OFFLOAD_INSERT_VLAN : Z := 64.
Definition TESTPMD_TX_OFFLOAD_INSERT_QINQ : Z := 128.

(** Whether flags are set in a mask. *)
Definition has_flag (mask flag : Z) : bool := negb (Z.land mask flag =? 0).

(** DPDK's devices: [rx_burst dev port queue n] gives at most [n] packets, and
    [tx_burst] takes a prefix of the packets it is given, of the length it
    returns.  The packet flags are DPDK's.  An mbuf that is taken raw from its
    pool still has a type and lengths of headers, [raw_type] and
    [raw_offload] for a given data room. *)
Class Ethdev := {
  dev : Type;
  rx_burst : dev -> Z -> Z -> Z -> list mbuf * dev;
  tx_burst : dev -> Z -> Z -> list mbuf -> nat * dev;
  rx_burst_max : forall d p q n, 0 <= n -> Z.of_nat (length (rx_burst d p q n).1) <= n;
  tx_burst_max : forall d p q l, ((tx_burst d p q l).1 <= length l)%nat;
  PKT_TX_VLAN_PKT : Z;
  PKT_TX_QINQ_PKT : Z;
  raw_type : list Z -> Z;
  raw_offload : list Z -> tx_offload;
}.
