(* ===== verification/FwdEngines.v ===== *)
(** * test-pmd/iofwd.c, macfwd.c, macfwd-retry.c, macswap.c and rxonly.c: the
    simple forwarding engines

    Each engine receives a burst, rewrites its packets, sends them and frees
    what was not sent.  The results carry the packets handed to the device
    and those freed, so that no mbuf can be lost from sight.  The statistics
    that are compiled in on request only (burst spread, core cycles) and the
    output of rxonly are not part of the model. *)

From S2P Require Import Prelude Packet.

Record burst_result `{Ethdev} : Type := BurstResult {
  br_fs : fwd_stream;
  br_dev : dev;
  br_sent : list mbuf;
  br_freed : list mbuf;
}.
Arguments BurstResult {_} _ _ _ _.
Arguments br_fs {_} _.
Arguments br_dev {_} _.
Arguments br_sent {_} _.
Arguments br_freed {_} _.

Section Engines.
Context `{Ethdev}.
(** The globals [nb_pkt_per_burst], [ports], [peer_eth_addrs] and
    [burst_tx_retry_num]. *)
Variables (nb_pkt_per_burst : Z) (ports : list tx_port_conf) (peer_eth_addrs : list (list Z))
  (burst_tx_retry_num : nat).

(** ** Definitions *)

(** The flags of [tx_ol_flags] that become flags of the packets. *)
Definition vlan_ol_flags (txp : tx_port_conf) : Z :=
  let ol := if has_flag (tx_ol_flags txp) TESTPMD_TX_OFFLOAD_INSERT_VLAN then PKT_TX_VLAN_PKT else 0 in
  if has_flag (tx_ol_flags txp) TESTPMD_TX_OFFLOAD_INSERT_QINQ then Z.lor ol PKT_TX_QINQ_PKT else ol.

(** The metadata that macfwd and macswap set. *)
Definition set_tx_meta (txp : tx_port_conf) (mb : mbuf) : mbuf :=
  Mbuf (segs mb) (nb_segs mb) (pkt_len mb) (vlan_ol_flags txp) ETHER_HDR_LEN IPV4_HDR_LEN
    (tx_vlan_id txp) (tx_vlan_id_outer txp) (packet_type mb) (offload mb).

(** Both addresses replaced: [peer_eth_addrs[fs->peer_addr]] and the port's. *)
Definition mac_rewrite (fs : fwd_stream) (mb : mbuf) : outcome mbuf :=
  b ← mtod mb;
  peer ← of_opt (zget peer_eth_addrs (peer_addr fs));
  b ← of_opt (wr b 0 peer);
  txp ← of_opt (zget ports (tx_port fs));
  b ← of_opt (wr b 6 (eth_addr txp));
  Done (set_mtod mb b).

Definition mac_packet (fs : fwd_stream) (mb : mbuf) : outcome mbuf :=
  txp ← of_opt (zget ports (tx_port fs));
  mb ← mac_rewrite fs mb;
  Done (set_tx_meta txp mb).

(** The addresses exchanged through [addr]. *)
Definition swap_addrs (b : list Z) : outcome (list Z) :=
  addr ← of_opt (rd b 0 6);
  s_addr ← of_opt (rd b 6 6);
  b ← of_opt (wr b 0 s_addr);
  of_opt (wr b 6 addr).

Definition macswap_packet (fs : fwd_stream) (mb : mbuf) : outcome mbuf :=
  txp ← of_opt (zget ports (tx_port fs));
  b ← mtod mb;
  b ← swap_addrs b;
  Done (set_tx_meta txp (set_mtod mb b)).

(** The end of the engines: count what was sent, and count and free the rest;
    [nb_tx] packets of [pkts] went to the device. *)
Definition finish_burst (fs : fwd_stream) (d : dev) (pkts : list mbuf) (nb_tx : nat) : burst_result :=
  let fs := count_tx (Z.of_nat nb_tx) fs in
  let fs := if (nb_tx <? length pkts)%nat
            then count_dropped (Z.of_nat (length pkts - nb_tx)) fs else fs in
  BurstResult fs d (take nb_tx pkts) (drop nb_tx pkts).

Definition pkt_burst_io_forward (fs : fwd_stream) (d : dev) : outcome burst_result :=
  let '(pkts, d) := rx_burst d (rx_port fs) (rx_queue fs) nb_pkt_per_burst in
  if (length pkts =? 0)%nat then Done (BurstResult fs d [] [])
  else
    let fs := count_rx (Z.of_nat (length pkts)) fs in
    let '(nb_tx, d) := tx_burst d (tx_port fs) (tx_queue fs) pkts in
    Done (finish_burst fs d pkts nb_tx).

(** macfwd and macswap differ in the rewriting of a packet. *)
Definition pkt_burst_rewrite (rewrite : fwd_stream -> mbuf -> outcome mbuf) (fs : fwd_stream) (d : dev)
    : outcome burst_result :=
  let '(pkts, d) := rx_burst d (rx_port fs) (rx_queue fs) nb_pkt_per_burst in
  if (length pkts =? 0)%nat then Done (BurstResult fs d [] [])
  else
    let fs := count_rx (Z.of_nat (length pkts)) fs in
    pkts ← mapM (rewrite fs) pkts;
    let '(nb_tx, d) := tx_burst d (tx_port fs) (tx_queue fs) pkts in
    Done (finish_burst fs d pkts nb_tx).

Definition pkt_burst_mac_forward : fwd_stream -> dev -> outcome burst_result :=
  pkt_burst_rewrite mac_packet.
Definition pkt_burst_mac_swap : fwd_stream -> dev -> outcome burst_result :=
  pkt_burst_rewrite macswap_packet.

(** The retries of mac_retry, [retry] of them left; [nb_tx] packets are sent. *)
Fixpoint tx_retry (retry : nat) (fs : fwd_stream) (d : dev) (pkts : list mbuf) (nb_tx : nat)
    : nat * dev :=
  match retry with
  | O => (nb_tx, d)
  | S retry =>
      let '(n, d) := tx_burst d (tx_port fs) (tx_queue fs) (drop nb_tx pkts) in
      let nb_tx := (nb_tx + n)%nat in
      if (nb_tx =? length pkts)%nat then (nb_tx, d) else tx_retry retry fs d pkts nb_tx
  end.

Definition pkt_burst_mac_retry_forward (fs : fwd_stream) (d : dev) : outcome burst_result :=
  let '(pkts, d) := rx_burst d (rx_port fs) (rx_queue fs) nb_pkt_per_burst in
  if (length pkts =? 0)%nat then Done (BurstResult fs d [] [])
  else
    let fs := count_rx (Z.of_nat (length pkts)) fs in
    pkts ← mapM (mac_rewrite fs) pkts;
    let '(nb_tx, d) := tx_burst d (tx_port fs) (tx_queue fs) pkts in
    let '(nb_tx, d) :=
      if (nb_tx <? length pkts)%nat then tx_retry burst_tx_retry_num fs d pkts nb_tx else (nb_tx, d) in
    Done (finish_burst fs d pkts nb_tx).

(** rxonly: every packet is freed. *)
Definition pkt_burst_receive (fs : fwd_stream) (d : dev) : outcome burst_result :=
  let '(pkts, d) := rx_burst d (rx_port fs) (rx_queue fs) nb_pkt_per_burst in
  if (length pkts =? 0)%nat then Done (BurstResult fs d [] [])
  else Done (BurstResult (count_rx (Z.of_nat (length pkts)) fs) d [] pkts).

(** The engines by their [fwd_mode_name], with what they do to a packet. *)
Inductive fwd_mode : Type := Io | Mac | MacRetry | MacSwap | RxOnly.

Definition packet_fwd (m : fwd_mode) : fwd_stream -> dev -> outcome burst_result :=
  match m with
  | Io => pkt_burst_io_forward
  | Mac => pkt_burst_mac_forward
  | MacRetry => pkt_burst_mac_retry_forward
  | MacSwap => pkt_burst_mac_swap
  | RxOnly => pkt_burst_receive
  end.

Definition packet_rewrite (m : fwd_mode) (fs : fwd_stream) (mb : mbuf) : outcome mbuf :=
  match m with
  | Io | RxOnly => Done mb
  | Mac => mac_packet fs mb
  | MacRetry => mac_rewrite fs mb
  | MacSwap => macswap_packet fs mb
  end.

(** ** Lemmas *)

Lemma mapM_Done {A B} (f : A -> outcome B) l k :
  mapM f l = Done k <-> Forall2 (fun x y => f x = Done y) l k.
Proof.
  revert k. induction l as [|x l IH]; intros k; cbn.
  - split; [intros [= <-]; constructor|]. by inversion 1.
  - rewrite outcome_bind_Done. split.
    + intros (y & Hy & Hk). apply outcome_bind_Done in Hk as (k' & Hk' & [= <-]).
      constructor; [done|by apply IH].
    + inversion 1; subst. exists y. split; [done|]. apply outcome_bind_Done. exists l'.
      split; [by apply IH|done].
Qed.

Lemma Forall2_Done_refl {A} (l : list A) : Forall2 (fun i o => @Done A i = Done o) l l.
Proof. induction l; by constructor. Qed.

Lemma mapM_Done_length {A B} (f : A -> outcome B) l k : mapM f l = Done k -> length k = length l.
Proof. intros Hm%mapM_Done. by apply Forall2_length in Hm. Qed.

(** The calls of [tx_burst] that hand [l] to the queue of a port, [k] of them
    from [d] to [d']: each gets the packets that are left, in order, and takes
    the first of them; [sent] are those taken, [rest] those left. *)
Inductive handed (port queue : Z) : nat -> dev -> list mbuf -> list mbuf -> list mbuf -> dev -> Prop :=
| handed_none d l : handed port queue 0 d l [] l d
| handed_call k d l n d1 sent rest d' :
    tx_burst d port queue l = (n, d1) -> handed port queue k d1 (drop n l) sent rest d' ->
    handed port queue (S k) d l (take n l ++ sent) rest d'.

Lemma handed_app port queue k d l sent rest d' : handed port queue k d l sent rest d' -> sent ++ rest = l.
Proof. induction 1 as [|k d l n d1 sent rest d' _ _ IH]; [done|]. by rewrite <- app_assoc, IH, take_drop. Qed.

Lemma handed_once port queue d l n d' :
  tx_burst d port queue l = (n, d') -> handed port queue 1 d l (take n l) (drop n l) d'.
Proof. intros E. rewrite <- (app_nil_r (take n l)). econstructor; [exact E|constructor]. Qed.

(** The retries hand over what is left. *)
Lemma tx_retry_handed retry fs d pkts nb_tx :
  (nb_tx < length pkts)%nat ->
  let r := tx_retry retry fs d pkts nb_tx in
  (nb_tx <= r.1 <= length pkts)%nat /\ exists k, (k <= retry)%nat /\ ((r.1 < length pkts)%nat -> k = retry) /\
    handed (tx_port fs) (tx_queue fs) k d (drop nb_tx pkts) (drop nb_tx (take r.1 pkts)) (drop r.1 pkts) r.2.
Proof.
  revert d nb_tx. induction retry as [|retry IH]; intros d nb_tx Hn; cbn [tx_retry].
  { cbn [fst snd]. split; [lia|]. exists 0%nat. split; [done|]. split; [done|].
    rewrite (drop_ge (take nb_tx pkts)) by (rewrite length_take; lia). constructor. }
  pose proof (tx_burst_max d (tx_port fs) (tx_queue fs) (drop nb_tx pkts)) as Hm. rewrite length_drop in Hm.
  destruct (tx_burst _ _ _ _) as [n d1] eqn:E. cbn [fst] in Hm.
  assert (Htake : forall m, (nb_tx + n <= m)%nat ->
    drop nb_tx (take m pkts) = take n (drop nb_tx pkts) ++ drop (nb_tx + n) (take m pkts)).
  { intros m Hle. rewrite <- (take_drop n (drop nb_tx (take m pkts))), drop_drop. f_equal.
    rewrite !take_drop_commute, take_take. f_equal. f_equal. lia. }
  destruct (Nat.eqb_spec (nb_tx + n) (length pkts)) as [He|He]; cbn [fst snd].
  - split; [lia|]. exists 1%nat. split; [lia|]. split; [lia|]. rewrite Htake by lia. econstructor; [exact E|].
    rewrite drop_drop, !drop_ge by (rewrite ?length_take; lia). constructor.
  - destruct (IH d1 (nb_tx + n)%nat ltac:(lia)) as (H1 & k & Hk & Hk' & H2). split; [lia|]. exists (S k).
    split; [lia|]. split; [intros; f_equal; auto|]. rewrite Htake by lia. econstructor; [exact E|]. by rewrite drop_drop.
Qed.

Definition retries (m : fwd_mode) : nat := match m with MacRetry => burst_tx_retry_num | _ => 0%nat end.

(** What the property below says of a burst: [rcvd] received by the device,
    which is then [d]; [out] after the rewriting. *)
Definition burst_accounted (m : fwd_mode) (fs fs' : fwd_stream) (rcvd sent freed : list mbuf) (d d' : dev) : Prop :=
  exists out k,
    Forall2 (fun i o => packet_rewrite m (count_rx (Z.of_nat (length rcvd)) fs) i = Done o) rcvd out /\
    handed (tx_port fs) (tx_queue fs) k d out sent freed d' /\
    sent ++ freed = out /\
    rx_packets fs' = u32 (rx_packets fs + Z.of_nat (length rcvd)) /\
    (m <> RxOnly ->
     (k <= 1 + retries m)%nat /\ (freed <> [] -> k = 1 + retries m)%nat /\
     tx_packets fs' = u32 (tx_packets fs + Z.of_nat (length sent)) /\
     fwd_dropped fs' = u32 (fwd_dropped fs + Z.of_nat (length freed))) /\
    (m = RxOnly -> k = 0%nat /\ sent = [] /\ tx_packets fs' = tx_packets fs /\ fwd_dropped fs' = fwd_dropped fs).

Definition counters_ok (fs : fwd_stream) : Prop :=
  0 <= rx_packets fs < 2 ^ 32 /\ 0 <= tx_packets fs < 2 ^ 32 /\ 0 <= fwd_dropped fs < 2 ^ 32.

Lemma finish_burst_accounted m fs d d' rcvd out nb_tx k :
  m <> RxOnly -> counters_ok fs -> (nb_tx <= length out)%nat ->
  Forall2 (fun i o => packet_rewrite m (count_rx (Z.of_nat (length rcvd)) fs) i = Done o) rcvd out ->
  handed (tx_port fs) (tx_queue fs) k d out (take nb_tx out) (drop nb_tx out) d' ->
  (k <= 1 + retries m)%nat -> ((nb_tx < length out)%nat -> k = 1 + retries m)%nat ->
  let r := finish_burst (count_rx (Z.of_nat (length rcvd)) fs) d' out nb_tx in
  burst_accounted m fs (br_fs r) rcvd (br_sent r) (br_freed r) d (br_dev r).
Proof.
  intros Hm (_ & _ & Hd) Hn Hf Hh Hk Hk'. cbn zeta. unfold finish_burst, burst_accounted.
  cbn [br_fs br_sent br_freed br_dev]. exists out, k. split; [done|]. split; [done|]. split; [apply take_drop|].
  rewrite length_take, length_drop. replace (nb_tx `min` length out)%nat with nb_tx by lia.
  split; [by destruct (nb_tx <? length out)%nat|]. split; [|done]. intros _. split; [done|]. split.
  { intros Hne. apply Hk'. apply not_le. intros Hle. apply Hne. by rewrite drop_ge. }
  destruct (Nat.ltb_spec nb_tx (length out)); [done|]. cbn. split; [done|].
  replace (length out - nb_tx)%nat with 0%nat by lia. rewrite Z.add_0_r. by rewrite u32_small.
Qed.

(** One call, as all modes but mac_retry make. *)
Lemma one_call_accounted m fs d rcvd out :
  m <> RxOnly -> counters_ok fs ->
  Forall2 (fun i o => packet_rewrite m (count_rx (Z.of_nat (length rcvd)) fs) i = Done o) rcvd out ->
  retries m = 0%nat ->
  let r := (let '(nb_tx, d') := tx_burst d (tx_port fs) (tx_queue fs) out in
            finish_burst (count_rx (Z.of_nat (length rcvd)) fs) d' out nb_tx) in
  burst_accounted m fs (br_fs r) rcvd (br_sent r) (br_freed r) d (br_dev r).
Proof.
  intros Hm Hc Hf Hr. pose proof (tx_burst_max d (tx_port fs) (tx_queue fs) out) as Htx.
  destruct (tx_burst _ _ _ _) as [n d'] eqn:E. cbn [fst] in Htx. cbn zeta.
  apply (finish_burst_accounted m fs d d' rcvd out n 1); [done|done|done|done|by apply handed_once|lia|lia].
Qed.

(** The call and the retries of mac_retry. *)
Lemma retries_accounted fs d rcvd out :
  counters_ok fs ->
  Forall2 (fun i o => packet_rewrite MacRetry (count_rx (Z.of_nat (length rcvd)) fs) i = Done o) rcvd out ->
  let fs1 := count_rx (Z.of_nat (length rcvd)) fs in
  let r := (let '(nb_tx, d') := tx_burst d (tx_port fs) (tx_queue fs) out in
            let '(nb_tx, d') := if (nb_tx <? length out)%nat then tx_retry burst_tx_retry_num fs1 d' out nb_tx
                                else (nb_tx, d') in
            finish_burst fs1 d' out nb_tx) in
  burst_accounted MacRetry fs (br_fs r) rcvd (br_sent r) (br_freed r) d (br_dev r).
Proof.
  intros Hc Hf. pose proof (tx_burst_max d (tx_port fs) (tx_queue fs) out) as Htx. cbn zeta.
  destruct (tx_burst _ _ _ _) as [n d1] eqn:E. cbn [fst] in Htx. set (fs1 := count_rx _ fs).
  destruct (Nat.ltb_spec n (length out)) as [Hn|Hn].
  - destruct (tx_retry_handed burst_tx_retry_num fs1 d1 out n Hn) as (Hle & k & Hk & Hk' & Hh).
    destruct (tx_retry _ _ _ _ _) as [n' d']. cbn [fst snd] in *.
    apply (finish_burst_accounted MacRetry fs d d' rcvd out n' (S k)); [done|done|lia|done| |cbn; lia|cbn; lia].
    replace (take n' out) with (take n out ++ drop n (take n' out)).
    + econstructor; [exact E|exact Hh].
    + rewrite <- (take_drop n (take n' out)) at 2. rewrite take_take. by replace (n `min` n')%nat with n by lia.
  - apply (finish_burst_accounted MacRetry fs d d1 rcvd out n 1); [done|done|done|done|by apply handed_once|cbn; lia|lia].
Qed.

Lemma accounted_nil m fs d : counters_ok fs -> burst_accounted m fs fs [] [] [] d d.
Proof.
  intros (? & ? & ?). exists [], 0%nat. cbn. rewrite !Z.add_0_r, !u32_small by done.
  split; [constructor|]. split; [constructor|]. split; [done|]. split; [done|].
  split; [|done]. intros _. split; [lia|done].
Qed.
End Engines.

(** ** Properties *)


(** A buffer as its two addresses and the rest. *)
Lemma split_addrs (b : list Z) :
  (12 <= length b)%nat -> exists d s r, b = d ++ s ++ r /\ length d = 6%nat /\ length s = 6%nat.
Proof.
  intros Hl. exists (take 6 b), (take 6 (drop 6 b)), (drop 12 b).
  rewrite !length_take, length_drop. split; [|lia].
  rewrite <- (take_drop 6 b) at 1. f_equal. rewrite <- (take_drop 6 (drop 6 b)) at 1.
  by rewrite drop_drop.
Qed.

(** Writing and reading six bytes at the two addresses. *)
Lemma wr_first d s x r : length d = 6%nat -> length x = 6%nat -> wr (d ++ s ++ r) 0 x = Some (x ++ s ++ r).
Proof.
  intros Hd Hx. apply wr_Some. rewrite length_app. split_and!; [lia|lia|].
  replace (Z.to_nat 0 + length x)%nat with (length d) by (rewrite Hd, Hx; done).
  by rewrite drop_app_length.
Qed.

Lemma wr_second d s x r :
  length d = 6%nat -> length s = 6%nat -> length x = 6%nat -> wr (d ++ s ++ r) 6 x = Some (d ++ x ++ r).
Proof.
  intros Hd Hs Hx. apply wr_Some. rewrite !length_app. split_and!; [lia|lia|].
  change (Z.to_nat 6) with 6%nat. rewrite <- Hd, take_app_length. rewrite Hd, Hx. do 2 f_equal.
  change (6 + 6)%nat with 12%nat. rewrite app_assoc. replace 12%nat with (length (d ++ s)).
  - by rewrite drop_app_length.
  - rewrite length_app. lia.
Qed.

Lemma rd_first d s r : length d = 6%nat -> rd (d ++ s ++ r) 0 6 = Some d.
Proof.
  intros Hd. apply rd_Some. rewrite length_app. split_and!; [lia|lia|lia|].
  change (Z.to_nat 6) with 6%nat. change (Z.to_nat 0) with 0%nat. rewrite drop_0.
  by rewrite <- Hd, take_app_length.
Qed.

Lemma rd_second d s r : length d = 6%nat -> length s = 6%nat -> rd (d ++ s ++ r) 6 6 = Some s.
Proof.
  intros Hd Hs. apply rd_Some. rewrite !length_app. split_and!; [lia|lia|lia|].
  change (Z.to_nat 6) with 6%nat. rewrite <- Hs at 1. rewrite <- Hd.
  rewrite drop_app_length. by rewrite take_app_length.
Qed.

Lemma swap_addrs_eq d s r :
  length d = 6%nat -> length s = 6%nat -> swap_addrs (d ++ s ++ r) = Done (s ++ d ++ r).
Proof.
  intros Hd Hs. unfold swap_addrs. rewrite rd_first, rd_second by done. cbn [of_opt mbind outcome_bind].
  rewrite wr_first by done. cbn [of_opt mbind outcome_bind]. by rewrite wr_second.
Qed.

(** Macswap exchanges destination and source of every frame of at least
    twelve bytes and leaves the rest of the buffer alone; a second pass
    restores the frame. *)
Theorem macswap_exchanges b (Hl : (12 <= length b)%nat) :
  exists b', swap_addrs b = Done b' /\ rd b' 0 6 = rd b 6 6 /\ rd b' 6 6 = rd b 0 6 /\
    drop 12 b' = drop 12 b /\ length b' = length b /\ swap_addrs b' = Done b.
Proof.
  destruct (split_addrs b Hl) as (d & s & r & -> & Hd & Hs). exists (s ++ d ++ r).
  rewrite !rd_first, !rd_second, !swap_addrs_eq by done. split_and!; try done.
  - assert (Hdrop : forall x y : list Z, length x = 6%nat -> length y = 6%nat -> drop 12 (x ++ y ++ r) = r).
    { intros x y Hx Hy. rewrite app_assoc. replace 12%nat with (length (x ++ y)).
      - apply drop_app_length.
      - rewrite length_app. lia. }
    by rewrite !Hdrop.
  - rewrite !length_app. lia.
Qed.

(** ** Witnesses *)

(** A device that delivers the packets of its state and takes two a burst. *)
Lemma sample_rx_max (d : list mbuf) (n : Z) :
  0 <= n -> Z.of_nat (length (take (Z.to_nat n) d, drop (Z.to_nat n) d).1) <= n.
Proof. cbn. rewrite length_take. lia. Qed.

Lemma sample_tx_max (l : list mbuf) (d : list mbuf) : ((Nat.min 2 (length l), d).1 <= length l)%nat.
Proof. cbn [fst]. lia. Qed.

Definition sample_ethdev : Ethdev := {|
  dev := list mbuf;
  rx_burst d _ _ n := (take (Z.to_nat n) d, drop (Z.to_nat n) d);
  tx_burst d _ _ l := (Nat.min 2 (length l), d);
  rx_burst_max d _ _ n := sample_rx_max d n;
  tx_burst_max d _ _ l := sample_tx_max l d;
  PKT_TX_VLAN_PKT := 2 ^ 57;
  PKT_TX_QINQ_PKT := 2 ^ 49;
  raw_type _ := 0;
  raw_offload _ := no_offload;
|}.

Definition sample_mbuf (x : Z) : mbuf :=
  Mbuf [Seg ([1; 1; 1; 1; 1; x] ++ [2; 2; 2; 2; 2; x] ++ [8; 0; 9; 9]) 16] 1 16 0 0 0 0 0 0 no_offload.
Definition sample_fs : fwd_stream := FwdStream 0 0 0 0 0 (2 ^ 32 - 1) 5 6 0 0.
Definition sample_ports : list tx_port_conf := [TxPort [7; 7; 7; 7; 7; 7] 64 3 0 0].


Lemma macswap_exchanges_witness :
  exists b', swap_addrs [1; 2; 3; 4; 5; 6; 7; 8; 9; 10; 11; 12; 13] = Done b' /\
    swap_addrs b' = Done [1; 2; 3; 4; 5; 6; 7; 8; 9; 10; 11; 12; 13].
Proof.
  destruct (macswap_exchanges [1; 2; 3; 4; 5; 6; 7; 8; 9; 10; 11; 12; 13]) as (b' & H1 & _ & _ & _ & _ & H2).
  - cbn. lia.
  - exists b'. split; [exact H1|exact H2].
Defined.
