(* ===== verification/Checksum.v ===== *)
(** * The Internet checksum: ones' complement sums of 16-bit words

    Shared by flowgen.c and icmpecho.c, which fold their sums differently.
    Two sums are equal as ones' complement numbers when they are congruent
    modulo 65535. *)

From S2P Require Import Prelude Packet.

(** ** Definitions *)

(** One folding step, [(sum & 0xFFFF) + (sum >> 16)]. *)
Definition fold1 (sum : Z) : Z := Z.land sum 65535 + Z.shiftr sum 16.

(** [while (sum >> 16) sum = (sum & 0xFFFF) + (sum >> 16);] in at most [fuel]
    passes. *)
Fixpoint fold_loop (fuel : nat) (sum : Z) : option Z :=
  if Z.shiftr sum 16 =? 0 then Some sum
  else
    match fuel with
    | O => None
    | S fuel => fold_loop fuel (u32 (fold1 sum))
    end.

(** The 16-bit words of a buffer in host order. *)
Fixpoint words (bs : list Z) : list Z :=
  match bs with
  | a :: b :: rest => (a + 256 * b) :: words rest
  | _ => []
  end.

Definition zsum (l : list Z) : Z := foldr Z.add 0 l.

(** A buffer whose words sum up to zero as ones' complement numbers, negative
    zero, as a receiver requires. *)
Definition checksum_ok (bs : list Z) : Prop := 0 < zsum (words bs) /\ (65535 | zsum (words bs)).

(** ** Lemmas *)

Lemma fold1_eq s : fold1 s = s mod 65536 + s / 65536.
Proof.
  unfold fold1. change 65535 with (Z.ones 16).
  rewrite Z.land_ones, Z.shiftr_div_pow2 by lia. done.
Qed.

Lemma fold1_sub s : exists k, fold1 s = s - 65535 * k /\ k = s / 65536.
Proof. exists (s / 65536). rewrite fold1_eq. pose proof (Z.div_mod s 65536 ltac:(lia)). lia. Qed.

Lemma fold1_spec s :
  0 <= s -> 0 <= fold1 s /\ (65535 | s - fold1 s) /\ (0 < s -> 0 < fold1 s) /\
  (s < 2 ^ 32 -> fold1 s < 131071) /\ (s < 131072 -> fold1 s < 65537).
Proof.
  intros Hs. pose proof (Z.div_mod s 65536 ltac:(lia)) as Hd.
  pose proof (Z.mod_pos_bound s 65536 ltac:(lia)) as Hm.
  assert (0 <= s / 65536) by (apply Z.div_pos; lia).
  rewrite fold1_eq. split_and!; try lia.
  exists (s / 65536). lia.
Qed.

(** The words of bytes. *)
Lemma words_range bs : Forall byte_ok bs -> Forall (fun w => 0 <= w < 2 ^ 16) (words bs).
Proof.
  assert (Hg : forall n bs, (length bs < n)%nat -> Forall byte_ok bs ->
    Forall (fun w => 0 <= w < 2 ^ 16) (words bs)).
  { induction n as [|n IH]; intros l Hn Hb; [lia|].
    destruct l as [|a [|b l]]; cbn; [constructor|constructor|].
    apply Forall_cons in Hb as [Ha Hb]. apply Forall_cons in Hb as [Hb Hl].
    constructor; [unfold byte_ok in *; lia|]. apply IH; [cbn in Hn; lia|done]. }
  intros. by apply (Hg (S (length bs))); [lia|].
Qed.

Lemma words_app l1 l2 : (Nat.Even (length l1)) -> words (l1 ++ l2) = words l1 ++ words l2.
Proof.
  intros [k Hk]. revert l1 Hk. induction k as [|k IH]; intros l1 Hk.
  - destruct l1; [done|cbn in Hk; lia].
  - destruct l1 as [|a [|b l1]]; cbn in Hk; [lia|lia|]. cbn. f_equal. apply IH. lia.
Qed.

Lemma zsum_cons x l : zsum (x :: l) = x + zsum l.
Proof. done. Qed.

Lemma zsum_app l1 l2 : zsum (l1 ++ l2) = zsum l1 + zsum l2.
Proof. induction l1 as [|x l1 IH]; cbn; [done|]. unfold zsum in *. rewrite IH. lia. Qed.

Lemma zsum_nonneg l : Forall (fun w => 0 <= w) l -> 0 <= zsum l.
Proof. induction 1; cbn; [lia|]. unfold zsum in *. lia. Qed.

(** The folding of a 32-bit sum ends within two passes on a 16-bit number
    that is congruent to it and zero only if it is. *)
Lemma fold_loop_spec s :
  0 <= s < 2 ^ 32 ->
  exists r, fold_loop 2 s = Some r /\ 0 <= r < 2 ^ 16 /\ (65535 | s - r) /\ (0 < s -> 0 < r) /\ (s = 0 -> r = 0).
Proof.
  intros Hs.
  assert (Hz : forall x, 0 <= x -> Z.shiftr x 16 = x / 65536).
  { intros. by rewrite Z.shiftr_div_pow2 by lia. }
  assert (Hsmall : forall x, 0 <= x -> (Z.shiftr x 16 =? 0) = (x <? 65536)).
  { intros x Hx. rewrite Hz by done. pose proof (Z.div_mod x 65536 ltac:(lia)).
    pose proof (Z.mod_pos_bound x 65536 ltac:(lia)).
    destruct (Z.ltb_spec x 65536), (Z.eqb_spec (x / 65536) 0); lia. }
  pose proof (fold1_spec s ltac:(lia)) as (H1 & H2 & H3 & H4 & _). specialize (H4 ltac:(lia)).
  set (s1 := fold1 s) in *.
  pose proof (fold1_spec s1 H1) as (G1 & G2 & G3 & _ & G4). specialize (G4 ltac:(lia)).
  set (s2 := fold1 s1) in *.
  cbn [fold_loop]. rewrite Hsmall by lia. destruct (Z.ltb_spec s 65536).
  { exists s. rewrite Z.sub_diag. split_and!; try lia; [done|apply Z.divide_0_r]. }
  fold s1. rewrite u32_small by lia. rewrite Hsmall by lia. destruct (Z.ltb_spec s1 65536).
  { exists s1. split_and!; try lia; done. }
  fold s2. rewrite u32_small by lia. rewrite Hsmall by lia.
  assert (s2 < 65536).
  { pose proof (fold1_sub s1) as (k & Ek & Hk). fold s2 in Ek.
    assert (k = 1); [|lia]. rewrite Hk. symmetry. apply (Z.div_unique s1 65536 1 (s1 - 65536)); lia. }
  destruct (Z.ltb_spec s2 65536); [|lia].
  exists s2. split_and!; try lia; [done|].
  destruct H2 as [a Ha], G2 as [b Hb]. exists (a + b). lia.
Qed.

(** Two folding steps do what the loop does. *)
Lemma fold2_spec s :
  0 <= s < 2 ^ 32 ->
  let r := u32 (fold1 (u32 (fold1 s))) in
  0 <= r < 2 ^ 16 /\ (65535 | s - r) /\ (0 < s -> 0 < r) /\ (s = 0 -> r = 0).
Proof.
  intros Hs. pose proof (fold1_spec s ltac:(lia)) as (H1 & [a Ha] & H3 & H4 & _). specialize (H4 ltac:(lia)).
  pose proof (fold1_spec (fold1 s) H1) as (G1 & [b Hb] & G3 & _ & G4). specialize (G4 ltac:(lia)).
  rewrite (u32_small (fold1 s)), u32_small by lia.
  assert (fold1 (fold1 s) < 65536).
  { destruct (decide (fold1 s < 65536)) as [Hlt|Hge].
    - rewrite (fold1_eq (fold1 s)), Z.mod_small, Z.div_small by lia. lia.
    - pose proof (fold1_sub (fold1 s)) as (k & Ek & Hk).
      assert (k = 1); [|lia]. rewrite Hk. symmetry.
      apply (Z.div_unique (fold1 s) 65536 1 (fold1 s - 65536)); lia. }
  split_and!; [lia|lia|exists (a + b); lia|lia|].
  intros ->. change (fold1 (fold1 0)) with 0. lia.
Qed.

(** The complement of a folded sum makes the sum negative zero. *)
Lemma complement_zero s r :
  0 <= s -> 0 <= r < 2 ^ 16 -> (65535 | s - r) -> (0 < s -> 0 < r) -> (s = 0 -> r = 0) ->
  0 < s + (65535 - r) /\ (65535 | s + (65535 - r)).
Proof.
  intros Hs Hr [k Hk] Hp Hz. split; [|exists (k + 1); lia].
  destruct (decide (s = 0)) as [->|]; [rewrite Hz by done; lia|lia].
Qed.

(** The 16-bit complement of a 16-bit number. *)
Lemma complement16 r : 0 <= r < 2 ^ 16 -> u16 (Z.lnot r) = 65535 - r.
Proof.
  intros Hr. unfold u16, Z.lnot. replace (Z.pred (- r)) with (65535 - r + (-1) * 2 ^ 16) by lia.
  rewrite Z_mod_plus_full. apply Z.mod_small. lia.
Qed.

(** A write changes the sum of the words by the difference of what it writes
    and what it overwrites. *)
Lemma zsum_wr bs k v old bs' :
  wr bs k v = Some bs' -> rd bs k (Z.of_nat (length v)) = Some old ->
  Nat.Even (Z.to_nat k) -> Nat.Even (length v) ->
  zsum (words bs') = zsum (words bs) - zsum (words old) + zsum (words v).
Proof.
  intros (Hk & Hl & ->)%wr_Some Hr Ek Ev. pose proof (rd_length _ _ _ _ Hr) as Ho.
  apply rd_Some in Hr as (_ & _ & _ & Hold). rewrite Nat2Z.id in Hold.
  assert (Hb : words bs = words (take (Z.to_nat k) bs ++ old ++ drop (Z.to_nat k + length v) bs)).
  { f_equal. rewrite Hold, <- drop_drop, !take_drop. done. }
  rewrite Hb, !words_app, !zsum_app; [lia|..]; try done.
  - by replace (length old) with (length v) by lia.
  - by rewrite length_take, Nat.min_l by lia.
  - by rewrite length_take, Nat.min_l by lia.
Qed.

Lemma zsum_le16 v : 0 <= v < 2 ^ 16 -> zsum (words (le16 v)) = v.
Proof.
  intros Hv. unfold le16. cbn [words]. unfold zsum. cbn [foldr].
  pose proof (of_le16_le16 v Hv) as H. unfold of_le16, le16 in H. lia.
Qed.

Lemma of_le16_range bs : Forall byte_ok bs -> 0 <= of_le16 bs < 2 ^ 16.
Proof.
  destruct bs as [|a [|b [|c l]]]; intros H; cbn; try lia.
  apply Forall_cons in H as [Ha H]. apply Forall_cons in H as [Hb _]. unfold byte_ok in *. lia.
Qed.
