(* ===== verification/FlowGen.v ===== *)
(** * test-pmd/flowgen.c: the multi-flow generator

    A burst of UDP packets to consecutive destination addresses; what is
    received is discarded.  Fresh mbufs come from a list of allocation
    results, each the bytes of a data room. *)

From S2P Require Import Prelude Packet FwdEngines Checksum.

(** ** Definitions *)

Definition cfg_n_flows : Z := 1024.
Definition cfg_pkt_size : Z := 300.
Definition cfg_ip_src : Z := 184418304.  (* IPv4(10, 254, 0, 0) *)
Definition cfg_ip_dst : Z := 184352768.  (* IPv4(10, 253, 0, 0) *)
Definition cfg_udp_src : Z := 1000.
Definition cfg_udp_dst : Z := 1001.
Definition cfg_ether_src : list Z := [0; 1; 2; 3; 4; 0].
Definition cfg_ether_dst : list Z := [0; 1; 2; 3; 4; 1].

Definition IP_VHL_DEF : Z := 69.
Definition IP_DEFTTL : Z := 64.
Definition IPPROTO_UDP : Z := 17.

(** One word of the first loop of [ip_sum]. *)
Definition ip_sum_step (sum w : Z) : Z :=
  let sum := u32 (sum + w) in
  if negb (Z.land sum (2 ^ 31) =? 0) then u32 (fold1 sum) else sum.

(** [ip_sum] of the 16-bit words of a header. *)
Definition ip_sum (ws : list Z) : option Z :=
  r ← fold_loop 2 (foldl ip_sum_step 0 ws);
  Some (u16 (Z.lnot r)).

(** [pkt_size], without the FCS. *)
Definition pkt_size : Z := cfg_pkt_size - 4.

(** The IP header with the checksum field [cksum], as its bytes. *)
Definition flow_ip_hdr (next_flow : Z) (cksum : list Z) : list Z :=
  [IP_VHL_DEF; 0] ++ be16 (pkt_size - ETHER_HDR_LEN) ++ [0; 0] ++ [0; 0] ++
  [IP_DEFTTL; IPPROTO_UDP] ++ cksum ++ be32 cfg_ip_src ++ be32 (u32 (cfg_ip_dst + next_flow)).

Definition flow_udp_hdr : list Z :=
  be16 cfg_udp_src ++ be16 cfg_udp_dst ++ be16 (pkt_size - ETHER_HDR_LEN - IPV4_HDR_LEN) ++ [0; 0].

(** A packet of the flow [next_flow] in the fresh data room [room]. *)
Definition flow_packet `{Ethdev} (txp : tx_port_conf) (next_flow : Z) (room : list Z) : outcome mbuf :=
  b ← of_opt (wr room 0 (cfg_ether_dst ++ cfg_ether_src ++ be16 ETHER_TYPE_IPv4));
  cksum ← of_opt (ip_sum (words (flow_ip_hdr next_flow [0; 0])));
  b ← of_opt (wr b 14 (flow_ip_hdr next_flow (le16 cksum)));
  b ← of_opt (wr b 34 flow_udp_hdr);
  Done (Mbuf [Seg b pkt_size] 1 pkt_size (tx_ol_flags txp) ETHER_HDR_LEN IPV4_HDR_LEN
          (tx_vlan_id txp) (tx_vlan_id_outer txp) (raw_type room) (raw_offload room)).

(** The loop over [nb_pkt], [n] passes to go: the packets and [next_flow]. *)
Fixpoint flow_loop `{Ethdev} (n : nat) (txp : tx_port_conf) (allocs : list (option (list Z))) (next_flow : Z)
    : outcome (list mbuf * Z) :=
  match n, allocs with
  | S n, Some room :: allocs =>
      pkt ← flow_packet txp next_flow room;
      '(pkts, next_flow) ← flow_loop n txp allocs (u32 (next_flow + 1) mod cfg_n_flows);
      Done (pkt :: pkts, next_flow)
  | _, _ => Done ([], next_flow)
  end.

(** [while (next_flow < 0) next_flow += cfg_n_flows;] *)
Fixpoint back_out (fuel : nat) (next_flow : Z) : option Z :=
  if next_flow <? 0 then
    match fuel with
    | O => None
    | S fuel => back_out fuel (next_flow + cfg_n_flows)
    end
  else Some next_flow.

(** [pkt_burst_flow_gen]: also the static [next_flow]. *)
Definition pkt_burst_flow_gen `{Ethdev} (nb_pkt_per_burst : nat) (ports : list tx_port_conf)
    (allocs : list (option (list Z))) (fs : fwd_stream) (next_flow : Z) (d : dev)
    : outcome (burst_result * Z) :=
  let '(rcvd, d) := rx_burst d (rx_port fs) (rx_queue fs) (Z.of_nat nb_pkt_per_burst) in
  let fs := count_rx (Z.of_nat (length rcvd)) fs in
  txp ← of_opt (zget ports (tx_port fs));
  '(pkts, next_flow) ← flow_loop nb_pkt_per_burst txp allocs next_flow;
  let '(nb_tx, d) := tx_burst d (tx_port fs) (tx_queue fs) pkts in
  let fs := count_tx (Z.of_nat nb_tx) fs in
  next_flow ← of_opt (if (nb_tx <? length pkts)%nat
                      then back_out 1 (next_flow - Z.of_nat (length pkts - nb_tx))
                      else Some next_flow);
  Done (BurstResult fs d (take nb_tx pkts) (rcvd ++ drop nb_tx pkts), next_flow).

(** ** Lemmas *)

Lemma has_bit31 x : 0 <= x < 2 ^ 32 -> negb (Z.land x (2 ^ 31) =? 0) = (2 ^ 31 <=? x).
Proof.
  intros Hx. destruct (Z.leb_spec (2 ^ 31) x) as [Hl|Hl].
  - destruct (Z.eqb_spec (Z.land x (2 ^ 31)) 0) as [He|]; [exfalso|done].
    assert (Hb : Z.testbit (Z.land x (2 ^ 31)) 31 = true).
    { rewrite Z.land_spec, Z.pow2_bits_true by lia. rewrite andb_true_r.
      assert (Z.log2 x = 31) as <- by (apply Z.log2_unique; lia). apply Z.bit_log2. lia. }
    rewrite He, Z.bits_0 in Hb. done.
  - destruct (Z.eqb_spec (Z.land x (2 ^ 31)) 0) as [|Hne]; [done|exfalso]. apply Hne.
    apply Z.bits_inj'. intros n Hn. rewrite Z.land_spec, Z.bits_0, Z.pow2_bits_eqb by lia.
    destruct (Z.eqb_spec 31 n) as [<-|]; [|apply andb_false_r].
    destruct (decide (x = 0)) as [->|]; [by rewrite Z.bits_0|].
    rewrite Z.bits_above_log2; [done|lia|]. apply Z.log2_lt_pow2; lia.
Qed.

(** The running sum stays congruent to the sum of the words. *)
Lemma ip_sum_fold ws acc s :
  Forall (fun w => 0 <= w < 2 ^ 16) ws -> 0 <= acc < 2 ^ 31 ->
  (65535 | s - acc) -> (0 < s -> 0 < acc) -> (s = 0 -> acc = 0) -> 0 <= s ->
  let r := foldl ip_sum_step acc ws in
  0 <= r < 2 ^ 31 /\ (65535 | s + zsum ws - r) /\ (0 < s + zsum ws -> 0 < r) /\
  (s + zsum ws = 0 -> r = 0).
Proof.
  intros Hws. revert acc s. induction Hws as [|w ws Hw Hws IH]; intros acc s Ha Hd Hp Hz Hs; cbn zeta.
  - cbn. rewrite Z.add_0_r. done.
  - cbn [foldl zsum foldr]. fold (zsum ws).
    assert (Hst : 0 <= ip_sum_step acc w < 2 ^ 31 /\ (65535 | acc + w - ip_sum_step acc w) /\
      (0 < acc + w -> 0 < ip_sum_step acc w) /\ (acc + w = 0 -> ip_sum_step acc w = 0)).
    { unfold ip_sum_step. rewrite (u32_small (acc + w)) by lia. rewrite has_bit31 by lia.
      pose proof (fold1_spec (acc + w) ltac:(lia)) as (H1 & H2 & H3 & H4 & _). specialize (H4 ltac:(lia)).
      destruct (Z.leb_spec (2 ^ 31) (acc + w)).
      - rewrite u32_small by lia. split_and!; try lia. done.
      - rewrite Z.sub_diag. split_and!; try lia. apply Z.divide_0_r. }
    destruct Hst as (S1 & S2 & S3 & S4).
    pose proof (zsum_nonneg ws) as Hn. rewrite Forall_forall in Hn, Hws.
    replace (s + (w + zsum ws)) with ((s + w) + zsum ws) by lia.
    apply IH; try lia. destruct Hd as [k Hk], S2 as [k' Hk']. exists (k + k'). lia.
Qed.

Lemma ip_sum_spec ws :
  Forall (fun w => 0 <= w < 2 ^ 16) ws ->
  exists c, ip_sum ws = Some c /\ 0 <= c < 2 ^ 16 /\ 0 < zsum ws + c /\ (65535 | zsum ws + c).
Proof.
  intros Hws. destruct (ip_sum_fold ws 0 0 Hws) as (H1 & H2 & H3 & H4);
    [lia|apply Z.divide_0_r|lia|lia|lia|].
  rewrite Z.add_0_l in *. set (s := foldl ip_sum_step 0 ws) in *.
  destruct (fold_loop_spec s ltac:(lia)) as (r & Hr & R1 & R2 & R3 & R4).
  unfold ip_sum. fold s. rewrite Hr. cbn [mbind option_bind]. exists (u16 (Z.lnot r)).
  rewrite complement16 by done. split; [done|]. split; [lia|].
  apply complement_zero; [|done| |lia|].
  - apply zsum_nonneg. eapply Forall_impl; [exact Hws|]. cbn. lia.
  - destruct H2 as [a Ha], R2 as [b Hb]. exists (a + b). lia.
  - pose proof (zsum_nonneg ws). lia.
Qed.

Lemma flow_ip_hdr_words next_flow x y :
  zsum (words (flow_ip_hdr next_flow [x; y])) = zsum (words (flow_ip_hdr next_flow [0; 0])) + (x + 256 * y).
Proof. unfold flow_ip_hdr. cbn. lia. Qed.

Lemma flow_ip_hdr_bytes next_flow x y :
  byte_ok x -> byte_ok y -> Forall byte_ok (flow_ip_hdr next_flow [x; y]).
Proof.
  intros Hx Hy. unfold flow_ip_hdr, be16, be32. cbn [app].
  repeat (apply Forall_cons; split; [first [done|apply mod256_ok|vm_compute; split; congruence]|]).
  constructor.
Qed.

(** Every header that is written sums up to negative zero. *)
Lemma flow_hdr_checksum next_flow :
  exists c, ip_sum (words (flow_ip_hdr next_flow [0; 0])) = Some c /\
    checksum_ok (flow_ip_hdr next_flow (le16 c)).
Proof.
  destruct (ip_sum_spec (words (flow_ip_hdr next_flow [0; 0]))) as (c & Hc & Hr & Hp & Hd).
  { apply words_range, flow_ip_hdr_bytes; vm_compute; split; congruence. }
  exists c. split; [done|]. unfold checksum_ok, le16. rewrite flow_ip_hdr_words.
  assert (c mod 256 + 256 * (c / 256 mod 256) = c) as ->; [|by split].
  pose proof (Z.div_mod c 256 ltac:(lia)). rewrite (Z.mod_small (c / 256)); [lia|].
  split; [apply Z.div_pos|apply Z.div_lt_upper_bound]; lia.
Qed.

(** The destination address a packet carries. *)
Definition dst_addr_of (mb : mbuf) : outcome Z := b ← mtod mb; of_opt (of_be32 <$> rd b 30 4).

(** The packets built: their header is checksummed and their destination is
    that of the flow. *)
Definition flow_packet_ok (next_flow : Z) (mb : mbuf) : Prop :=
  dst_addr_of mb = Done (u32 (cfg_ip_dst + next_flow)) /\
  exists b hdr, mtod mb = Done b /\ rd b 14 20 = Some hdr /\ checksum_ok hdr.

Lemma flow_packet_spec `{Ethdev} txp next_flow room :
  42 <= Z.of_nat (length room) ->
  exists mb, flow_packet txp next_flow room = Done mb /\ flow_packet_ok next_flow mb.
Proof.
  intros Hl. unfold flow_packet.
  destruct (wr_is_Some room 0 (cfg_ether_dst ++ cfg_ether_src ++ be16 ETHER_TYPE_IPv4)) as [b1 H1];
    [lia|cbn; lia|].
  rewrite H1. cbn [of_opt mbind outcome_bind].
  destruct (flow_hdr_checksum next_flow) as (c & -> & Hok). cbn [of_opt mbind outcome_bind].
  apply wr_length in H1.
  destruct (wr_is_Some b1 14 (flow_ip_hdr next_flow (le16 c))) as [b2 H2]; [lia|cbn; lia|].
  rewrite H2. cbn [of_opt mbind outcome_bind]. pose proof (wr_length _ _ _ _ H2).
  destruct (wr_is_Some b2 34 flow_udp_hdr) as [b3 H3]; [lia|cbn; lia|].
  rewrite H3. cbn [of_opt mbind outcome_bind]. eexists. split; [done|].
  assert (Hr : rd b3 14 20 = Some (flow_ip_hdr next_flow (le16 c))).
  { rewrite (rd_wr_other _ _ _ _ 14 20 H3) by lia. exact (rd_wr_same _ _ _ _ H2). }
  split; [|by eexists _, _].
  unfold dst_addr_of. cbn [mtod segs mbind outcome_bind buf].
  change 30 with (14 + 16). rewrite (rd_sub _ _ _ _ 16 4 Hr) by lia.
  change (rd (flow_ip_hdr next_flow (le16 c)) 16 4) with (Some (be32 (u32 (cfg_ip_dst + next_flow)))).
  cbn [fmap option_fmap option_map of_opt]. f_equal. apply of_be32_be32, u32_range.
Qed.

(** The flows of a burst. *)
Definition flow_at (next_flow : Z) (i : nat) : Z := (next_flow + Z.of_nat i) mod cfg_n_flows.

Lemma flow_at_0 f : 0 <= f < cfg_n_flows -> flow_at f 0 = f.
Proof. intros Hf. unfold flow_at. rewrite Z.add_0_r. by apply Z.mod_small. Qed.

Lemma flow_at_S f i : flow_at (flow_at f 1) i = flow_at f (S i).
Proof. unfold flow_at. rewrite Zplus_mod_idemp_l. f_equal. lia. Qed.

Lemma flow_loop_spec `{Ethdev} n txp allocs f :
  0 <= f < cfg_n_flows -> Forall (fun a => forall room, a = Some room -> 42 <= Z.of_nat (length room)) allocs ->
  exists pkts, flow_loop n txp allocs f = Done (pkts, flow_at f (length pkts)) /\
    (length pkts <= n)%nat /\
    forall i mb, pkts !! i = Some mb -> flow_packet_ok (flow_at f i) mb.
Proof.
  intros Hf Ha. revert n f Hf. induction Ha as [|a allocs Ha Hall IH]; intros n f Hf.
  - exists []. cbn [length]. rewrite flow_at_0 by done. destruct n; (split; [done|]); by split; [lia|].
  - destruct n as [|n]; [exists []; cbn [length]; rewrite flow_at_0 by done; by split_and!; [|lia|]|].
    destruct a as [room|]; [|exists []; cbn [length]; rewrite flow_at_0 by done; by split_and!; [|lia|]].
    cbn [flow_loop]. destruct (flow_packet_spec txp f room (Ha _ eq_refl)) as (mb & -> & Hok).
    cbn [mbind outcome_bind].
    assert (u32 (f + 1) mod cfg_n_flows = flow_at f 1) as ->.
    { unfold flow_at. change cfg_n_flows with 1024 in *. rewrite u32_small by lia. done. }
    destruct (IH n (flow_at f 1)) as (pkts & -> & Hl & Hp).
    { apply Z.mod_pos_bound. done. }
    cbn [mbind outcome_bind]. rewrite flow_at_S. exists (mb :: pkts). split; [done|].
    split; [cbn; lia|]. intros [|i] mb' Hi; cbn in Hi.
    + simplify_eq. by rewrite flow_at_0.
    + rewrite <- flow_at_S. by apply Hp.
Qed.

Lemma back_out_spec f j k :
  0 <= f < cfg_n_flows -> (j <= k)%nat -> Z.of_nat k <= 512 ->
  (if (j <? k)%nat then back_out 1 (flow_at f k - Z.of_nat (k - j)) else Some (flow_at f k)) =
  Some (flow_at f j).
Proof.
  intros Hf Hjk Hk. change cfg_n_flows with 1024 in Hf.
  destruct (Nat.ltb_spec j k); [|by replace j with k by lia].
  unfold flow_at. change cfg_n_flows with 1024.
  pose proof (Z.mod_pos_bound (f + Z.of_nat k) 1024 ltac:(lia)).
  pose proof (Z.div_mod (f + Z.of_nat k) 1024 ltac:(lia)).
  pose proof (Z.mod_pos_bound (f + Z.of_nat j) 1024 ltac:(lia)).
  pose proof (Z.div_mod (f + Z.of_nat j) 1024 ltac:(lia)).
  cbn [back_out]. change cfg_n_flows with 1024.
  destruct (Z.ltb_spec ((f + Z.of_nat k) mod 1024 - Z.of_nat (k - j)) 0).
  - destruct (Z.ltb_spec ((f + Z.of_nat k) mod 1024 - Z.of_nat (k - j) + 1024) 0); [lia|]. f_equal. lia.
  - f_equal. lia.
Qed.

(** ** Properties *)

(** C32: a burst of flowgen always completes; the packets it sends carry, in
    order, the flows that follow the last flow sent, each in an IP header
    whose checksum verifies; [next_flow] moves on by the number of packets
    sent; what was received or not sent is freed. *)
Theorem flow_gen_burst `{Ethdev} nb ports allocs fs next_flow d txp
    (Hnb : Z.of_nat nb <= MAX_PKT_BURST) (Hf : 0 <= next_flow < cfg_n_flows)
    (Ha : Forall (fun a => forall room, a = Some room -> 42 <= Z.of_nat (length room)) allocs)
    (Hp : zget ports (tx_port fs) = Some txp) :
  exists r next_flow', pkt_burst_flow_gen nb ports allocs fs next_flow d = Done (r, next_flow') /\
    next_flow' = (next_flow + Z.of_nat (length (br_sent r))) mod cfg_n_flows /\
    (forall i mb, br_sent r !! i = Some mb ->
       flow_packet_ok ((next_flow + Z.of_nat i) mod cfg_n_flows) mb) /\
    tx_packets (br_fs r) = u32 (tx_packets fs + Z.of_nat (length (br_sent r))) /\
    exists unsent, br_freed r = (rx_burst d (rx_port fs) (rx_queue fs) (Z.of_nat nb)).1 ++ unsent.
Proof.
  unfold pkt_burst_flow_gen.
  destruct (rx_burst d (rx_port fs) (rx_queue fs) (Z.of_nat nb)) as [rcvd d1]. cbn [fst].
  cbn [tx_port count_rx]. rewrite Hp. cbn [of_opt mbind outcome_bind].
  destruct (flow_loop_spec nb txp allocs next_flow Hf Ha) as (pkts & -> & Hl & Hok).
  cbn [mbind outcome_bind].
  pose proof (tx_burst_max d1 (tx_port fs) (tx_queue fs) pkts) as Htx.
  destruct (tx_burst _ _ _ _) as [n d2]. cbn [fst] in Htx.
  rewrite back_out_spec; [|done|done|unfold MAX_PKT_BURST in Hnb; lia].
  cbn [of_opt mbind outcome_bind]. eexists _, _. split; [done|]. cbn [br_sent br_fs br_freed].
  rewrite length_take. replace (n `min` length pkts)%nat with n by lia.
  split_and!; [done| |done|by eexists].
  intros i mb [Hi _]%lookup_take_Some. by apply Hok.
Qed.

(** ** Witness *)

Lemma flow_gen_burst_witness :
  exists r next_flow',
    @pkt_burst_flow_gen sample_ethdev 3 sample_ports [Some (replicate 64 5); Some (replicate 64 5); Some (replicate 64 5)]
      sample_fs 1023 [] = Done (r, next_flow') /\
    next_flow' = (1023 + Z.of_nat (length (br_sent r))) mod cfg_n_flows.
Proof.
  destruct (@flow_gen_burst sample_ethdev 3 sample_ports
    [Some (replicate 64 5); Some (replicate 64 5); Some (replicate 64 5)] sample_fs 1023 []
    (TxPort [7; 7; 7; 7; 7; 7] 64 3 0 0)) as (r & f & E & Hf & _).
  - vm_compute. discriminate.
  - vm_compute. split; congruence.
  - repeat constructor; intros room [= <-]; vm_compute; discriminate.
  - reflexivity.
  - exists r, f. split; [exact E|exact Hf].
Defined.
