(* ===== verification/TxOnly.v ===== *)
(** * test-pmd/txonly.c: transmitting bursts of multi-segment packets

    Fresh mbufs come from a list of allocation results, each the bytes of a
    data room, in the order of the calls. *)

From S2P Require Import Prelude Packet FwdEngines.

(** ** Definitions *)

(** The loop [while (offset >= seg->data_len)]: the segments before the one
    that holds [offset], that one with its successors, and the offset in it;
    running out of segments dereferences NULL. *)
Fixpoint seek_seg (l : list seg) (offset : Z) : outcome (list seg * list seg * Z) :=
  match l with
  | [] => Undefined
  | s :: rest =>
      if data_len s <=? offset then
        '(before, after, o) ← seek_seg rest (offset - data_len s); Done (s :: before, after, o)
      else Done ([], l, offset)
  end.

(** The copying loop of [copy_buf_to_pkt_segs]: [copy_len] bytes into each
    segment, the first one at [off], until at most [copy_len] are left. *)
Fixpoint copy_segs (copy_len off : Z) (l : list seg) (bs : list Z) : outcome (list seg) :=
  match l with
  | [] => Undefined
  | s :: rest =>
      if copy_len <? Z.of_nat (length bs) then
        b ← of_opt (wr (buf s) off (take (Z.to_nat copy_len) bs));
        rest ← copy_segs copy_len 0 rest (drop (Z.to_nat copy_len) bs);
        Done (Seg b (data_len s) :: rest)
      else
        b ← of_opt (wr (buf s) off bs);
        Done (Seg b (data_len s) :: rest)
  end.

Definition copy_buf_to_pkt_segs (bs : list Z) (l : list seg) (offset : Z) : outcome (list seg) :=
  '(before, after, off) ← seek_seg l offset;
  match after with
  | [] => Undefined
  | s :: _ => after ← copy_segs (data_len s - off) off after bs; Done (before ++ after)
  end.

Definition copy_buf_to_pkt (bs : list Z) (l : list seg) (offset : Z) : outcome (list seg) :=
  match l with
  | [] => Undefined
  | s :: rest =>
      if u32 (offset + Z.of_nat (length bs)) <=? data_len s then
        b ← of_opt (wr (buf s) offset bs); Done (Seg b (data_len s) :: rest)
      else copy_buf_to_pkt_segs bs l offset
  end.

(** The allocation of the segments of lengths [lens]: those made, whether all
    were, and the allocations left. *)
Fixpoint alloc_segs (lens : list Z) (allocs : list (option (list Z)))
    : list seg * bool * list (option (list Z)) :=
  match lens with
  | [] => ([], true, allocs)
  | len :: lens =>
      match allocs with
      | Some room :: allocs =>
          let '(l, ok, allocs) := alloc_segs lens allocs in (Seg room len :: l, ok, allocs)
      | _ :: allocs => ([], false, allocs)
      | [] => ([], false, [])
      end
  end.

Section Transmit.
Context `{Ethdev}.
(** [ports], [peer_eth_addrs], [tx_pkt_seg_lengths], [tx_pkt_nb_segs], whether
    [tx_pkt_split] is random, and the values of [random()] by packet. *)
Variables (ports : list tx_port_conf) (peer_eth_addrs : list (list Z)) (tx_pkt_seg_lengths : list Z)
  (tx_pkt_nb_segs : Z) (split_rnd : bool) (random : nat -> Z).

Definition pkt_nb_segs (nb_pkt : nat) : Z :=
  if split_rnd then Z.rem (random nb_pkt) tx_pkt_nb_segs + 1 else tx_pkt_nb_segs.

(** The Ethernet header with the type 0. *)
Definition tx_eth_hdr (fs : fwd_stream) (txp : tx_port_conf) : outcome (list Z) :=
  peer ← of_opt (zget peer_eth_addrs (peer_addr fs));
  Done (peer ++ eth_addr txp ++ [0; 0]).

(** The data room of the head segment. *)
Definition head_room (l : list seg) : list Z := match l with s :: _ => buf s | [] => [] end.

(** The packet over the segments [l]. *)
Definition tx_packet (fs : fwd_stream) (txp : tx_port_conf) (l : list seg) : outcome mbuf :=
  let room := head_room l in
  hdr ← tx_eth_hdr fs txp;
  l ← copy_buf_to_pkt hdr l 0;
  Done (Mbuf l (Z.of_nat (length l)) (foldr (fun s n => data_len s + n) 0 l) (vlan_ol_flags txp)
          ETHER_HDR_LEN IPV4_HDR_LEN (tx_vlan_id txp) (tx_vlan_id_outer txp)
          (raw_type room) (raw_offload room)).

(** The loop over [nb_pkt], [n] passes to go: the packets, and the segments
    freed when an allocation failed in the middle of a packet. *)
Fixpoint tx_loop (n nb_pkt : nat) (fs : fwd_stream) (txp : tx_port_conf)
    (allocs : list (option (list Z))) : outcome (list mbuf * list seg) :=
  match n with
  | O => Done ([], [])
  | S n =>
      let '(l, ok, allocs) := alloc_segs (take (Z.to_nat (pkt_nb_segs nb_pkt)) tx_pkt_seg_lengths) allocs in
      if (ok : bool) then
        pkt ← tx_packet fs txp l;
        '(pkts, partial) ← tx_loop n (S nb_pkt) fs txp allocs;
        Done (pkt :: pkts, partial)
      else Done ([], l)
  end.

(** [pkt_burst_transmit]: also the segments of an incomplete packet. *)
Definition pkt_burst_transmit (nb_pkt_per_burst : nat) (allocs : list (option (list Z)))
    (fs : fwd_stream) (d : dev) : outcome (burst_result * list seg) :=
  txp ← of_opt (zget ports (tx_port fs));
  '(pkts, partial) ← tx_loop nb_pkt_per_burst 0 fs txp allocs;
  if ((length pkts =? 0) && negb (nb_pkt_per_burst =? 0))%nat then Done (BurstResult fs d [] [], partial)
  else
    let '(nb_tx, d) := tx_burst d (tx_port fs) (tx_queue fs) pkts in
    Done (finish_burst fs d pkts nb_tx, partial).

(** ** Lemmas *)

(** A packet as txonly means to build it. *)
Record tx_packet_ok (fs : fwd_stream) (mb : mbuf) : Prop := {
  tpo_hdr : exists b peer txp, mtod mb = Done b /\ zget peer_eth_addrs (peer_addr fs) = Some peer /\
    zget ports (tx_port fs) = Some txp /\ rd b 0 14 = Some (peer ++ eth_addr txp ++ [0; 0]);
  tpo_len : pkt_len mb = foldr (fun s n => data_len s + n) 0 (segs mb);
  tpo_segs : nb_segs mb = Z.of_nat (length (segs mb));
  tpo_lens : data_len <$> segs mb = take (length (segs mb)) tx_pkt_seg_lengths;
}.

Lemma alloc_segs_ok lens allocs l allocs' :
  alloc_segs lens allocs = (l, true, allocs') ->
  data_len <$> l = lens /\ forall s, s ∈ l -> Some (buf s) ∈ allocs.
Proof.
  revert allocs l. induction lens as [|len lens IH]; intros allocs l E; cbn in E.
  - simplify_eq. split; [done|]. by intros s ?%elem_of_nil.
  - destruct allocs as [|[room|] allocs]; try done.
    destruct (alloc_segs lens allocs) as [[l0 ok] a] eqn:Ea. simplify_eq.
    destruct (IH _ _ Ea) as [Hd Hs]. split; [by cbn; f_equal|].
    intros s [-> |Hin]%elem_of_cons; [left|right; auto].
Qed.

Lemma alloc_segs_rest lens allocs a l ok allocs' :
  alloc_segs lens allocs = (l, ok, allocs') -> a ∈ allocs' -> a ∈ allocs.
Proof.
  revert allocs l. induction lens as [|len lens IH]; intros allocs l E Ha; cbn in E.
  - by simplify_eq.
  - destruct allocs as [|[room|] allocs].
    + simplify_eq. by apply elem_of_nil in Ha.
    + destruct (alloc_segs lens allocs) as [[l0 ok0] a0] eqn:Ea. simplify_eq.
      right. by eapply IH.
    + simplify_eq. by right.
Qed.

Lemma pkt_nb_segs_range nb_pkt :
  1 <= tx_pkt_nb_segs -> (forall i, 0 <= random i) -> 1 <= pkt_nb_segs nb_pkt <= tx_pkt_nb_segs.
Proof.
  intros Hn Hr. unfold pkt_nb_segs. destruct split_rnd; [|lia].
  pose proof (Z.rem_bound_pos (random nb_pkt) tx_pkt_nb_segs (Hr _) ltac:(lia)). lia.
Qed.

Lemma tx_packet_spec fs txp peer l :
  zget ports (tx_port fs) = Some txp -> zget peer_eth_addrs (peer_addr fs) = Some peer ->
  length peer = 6%nat -> length (eth_addr txp) = 6%nat -> l <> [] ->
  data_len <$> l = take (length l) tx_pkt_seg_lengths ->
  (forall len, head tx_pkt_seg_lengths = Some len -> 14 <= len) ->
  (forall s, s ∈ l -> 14 <= Z.of_nat (length (buf s))) ->
  exists mb, tx_packet fs txp l = Done mb /\ tx_packet_ok fs mb.
Proof.
  intros Hp Hq Hl6 He6 Hne Hlens Hh Hrooms. destruct l as [|s l]; [done|].
  unfold tx_packet, tx_eth_hdr. rewrite Hq. cbn [of_opt mbind outcome_bind].
  set (hdr := peer ++ eth_addr txp ++ [0; 0]).
  assert (Hhl : length hdr = 14%nat) by (unfold hdr; rewrite !length_app, Hl6, He6; done).
  assert (Hs : 14 <= data_len s).
  { destruct tx_pkt_seg_lengths as [|len lens]; cbn in Hlens; [done|]. injection Hlens as E _.
    rewrite E. by apply Hh. }
  unfold copy_buf_to_pkt. rewrite Hhl. change (u32 (0 + Z.of_nat 14)) with 14.
  destruct (Z.leb_spec 14 (data_len s)); [|lia].
  destruct (wr_is_Some (buf s) 0 hdr) as [b Hb]; [lia|rewrite Hhl; apply Hrooms; left|].
  rewrite Hb. cbn [of_opt mbind outcome_bind]. eexists. split; [done|]. split; cbn [pkt_len nb_segs segs]; [|done..].
  eexists b, peer, txp. split; [done|]. split; [done|]. split; [done|].
  apply rd_wr_same in Hb. by rewrite Hhl in Hb.
Qed.

Lemma tx_loop_spec n nb_pkt fs txp peer allocs :
  zget ports (tx_port fs) = Some txp -> zget peer_eth_addrs (peer_addr fs) = Some peer ->
  length peer = 6%nat -> length (eth_addr txp) = 6%nat ->
  1 <= tx_pkt_nb_segs <= Z.of_nat (length tx_pkt_seg_lengths) -> (forall i, 0 <= random i) ->
  (forall len, head tx_pkt_seg_lengths = Some len -> 14 <= len) ->
  (forall room, Some room ∈ allocs -> 14 <= Z.of_nat (length room)) ->
  exists pkts partial, tx_loop n nb_pkt fs txp allocs = Done (pkts, partial) /\
    (length pkts <= n)%nat /\ Forall (tx_packet_ok fs) pkts.
Proof.
  intros Hp Hq Hl6 He6 Hnb Hrnd Hh. revert nb_pkt allocs.
  induction n as [|n IH]; intros nb_pkt allocs Hrooms; cbn [tx_loop].
  - eexists _, _. split_and!; [done|done|constructor].
  - pose proof (pkt_nb_segs_range nb_pkt ltac:(lia) Hrnd) as Hr.
    destruct (alloc_segs _ allocs) as [[l ok] allocs'] eqn:Ea.
    destruct ok; [|eexists _, _; split_and!; [done|cbn; lia|constructor]].
    pose proof (alloc_segs_ok _ _ _ _ Ea) as [Hd Hin].
    assert (Hlen : length l = Z.to_nat (pkt_nb_segs nb_pkt)).
    { rewrite <- (length_fmap data_len l), Hd, length_take. lia. }
    destruct (tx_packet_spec fs txp peer l Hp Hq Hl6 He6) as (mb & -> & Hok).
    + intros ->. cbn in Hlen. lia.
    + by rewrite Hd, Hlen.
    + done.
    + intros s Hs. by apply Hrooms, Hin.
    + cbn [mbind outcome_bind].
      destruct (IH (S nb_pkt) allocs') as (pkts & partial & -> & Hl & Hf).
      { intros room Hr'. apply Hrooms. by eapply alloc_segs_rest. }
      cbn [mbind outcome_bind]. eexists _, _. split_and!; [done|cbn; lia|by constructor].
Qed.
End Transmit.

(** ** Properties *)

(** When the first segment can hold the Ethernet header, a burst of
    txonly always completes; every packet built has the header of the
    stream's ports, the configured segment lengths, their number and their
    sum, and is either sent or freed and counted as such. *)
Theorem txonly_burst `{Ethdev} ports peers lens nb_segs rnd random nb allocs fs d txp peer
    (Hp : zget ports (tx_port fs) = Some txp) (Hq : zget peers (peer_addr fs) = Some peer)
    (Hl6 : length peer = 6%nat) (He6 : length (eth_addr txp) = 6%nat)
    (Hnb : 1 <= nb_segs <= Z.of_nat (length lens)) (Hr : forall i, 0 <= random i)
    (Hh : forall len, head lens = Some len -> 14 <= len)
    (Ha : forall room, Some room ∈ allocs -> 14 <= Z.of_nat (length room))
    (Hc : counters_ok fs) :
  exists r partial,
    pkt_burst_transmit ports peers lens nb_segs rnd random nb allocs fs d = Done (r, partial) /\
    Forall (tx_packet_ok ports peers lens fs) (br_sent r ++ br_freed r) /\
    (length (br_sent r ++ br_freed r) <= nb)%nat /\
    rx_packets (br_fs r) = rx_packets fs /\
    tx_packets (br_fs r) = u32 (tx_packets fs + Z.of_nat (length (br_sent r))) /\
    fwd_dropped (br_fs r) = u32 (fwd_dropped fs + Z.of_nat (length (br_freed r))).
Proof.
  unfold pkt_burst_transmit. rewrite Hp. cbn [of_opt mbind outcome_bind].
  destruct (tx_loop_spec ports peers lens nb_segs rnd random nb 0 fs txp peer allocs)
    as (pkts & partial & -> & Hl & Hf); try done.
  cbn [mbind outcome_bind]. destruct Hc as (_ & Ht & Hd).
  destruct ((length pkts =? 0)%nat && negb (nb =? 0)%nat).
  { eexists _, _. split; [done|]. cbn. rewrite !Z.add_0_r, !u32_small by done.
    split_and!; [constructor|lia|done..]. }
  pose proof (tx_burst_max d (tx_port fs) (tx_queue fs) pkts) as Hm.
  destruct (tx_burst _ _ _ _) as [n d2]. cbn [fst] in Hm. eexists _, _. split; [done|].
  unfold finish_burst. cbn [br_sent br_freed br_fs]. rewrite take_drop, length_take, length_drop.
  replace (n `min` length pkts)%nat with n by lia. split_and!; [done|done| | |].
  - by destruct (n <? length pkts)%nat.
  - by destruct (n <? length pkts)%nat.
  - destruct (Nat.ltb_spec n (length pkts)); [done|]. cbn.
    replace (length pkts - n)%nat with 0%nat by lia. by rewrite Z.add_0_r, u32_small.
Qed.

(** Copying over segments goes wrong when the first one is shorter than
    the header: the part copied into every further segment keeps the length
    of the first.  With segments of 4 and 60 bytes the header does not even
    fit and the segment after the last is dereferenced; with segments of 4,
    8, 4 and 60 bytes the second is filled only to its half, so the packet
    has four stray bytes in its header. *)
Theorem copy_buf_to_pkt_short_first hdr (Hl : length hdr = 14%nat) :
  let chain lens := (fun len => Seg (replicate 64 0) len) <$> lens in
  copy_buf_to_pkt hdr (chain [4; 60]) 0 = Undefined /\
  exists l, copy_buf_to_pkt hdr (chain [4; 8; 4; 60]) 0 = Done l /\
    (s ← l; take (Z.to_nat (data_len s)) (buf s)) =
    take 8 hdr ++ replicate 4 0 ++ drop 8 hdr ++ replicate 58 0.
Proof.
  do 15 (destruct hdr as [|? hdr]; [try done|]); [|done].
  split; [vm_compute; reflexivity|]. eexists. split; vm_compute; reflexivity.
Qed.

(** ** Witnesses *)

Lemma txonly_burst_witness :
  exists r partial,
    @pkt_burst_transmit sample_ethdev sample_ports [[2; 2; 2; 2; 2; 2]] [60; 4] 2 true Z.of_nat 3
      (Some <$> (replicate 64 <$> [0; 1; 2; 3])) sample_fs [] = Done (r, partial) /\
    (length (br_sent r ++ br_freed r) <= 3)%nat.
Proof.
  destruct (@txonly_burst sample_ethdev sample_ports [[2; 2; 2; 2; 2; 2]] [60; 4] 2 true Z.of_nat 3
    (Some <$> (replicate 64 <$> [0; 1; 2; 3])) sample_fs []
    (TxPort [7; 7; 7; 7; 7; 7] 64 3 0 0) [2; 2; 2; 2; 2; 2]) as (r & partial & E & _ & Hl & _).
  - reflexivity.
  - reflexivity.
  - reflexivity.
  - reflexivity.
  - cbn. lia.
  - intros i. lia.
  - intros len Hh. cbn in Hh. injection Hh as <-. lia.
  - intros room Hr. apply list_elem_of_fmap in Hr as (x & Hx & Hr). injection Hx as ->.
    apply list_elem_of_fmap in Hr as (y & -> & _). rewrite length_replicate. lia.
  - unfold counters_ok. cbn. lia.
  - exists r, partial. split; [exact E|exact Hl].
Defined.

Lemma copy_buf_to_pkt_short_first_witness :
  copy_buf_to_pkt (replicate 14 7) ((fun len => Seg (replicate 64 0) len) <$> [4; 60]) 0 = Undefined.
Proof. exact (proj1 (copy_buf_to_pkt_short_first (replicate 14 7) eq_refl)). Defined.
