(* ===== verification/IcmpEcho.v ===== *)
(** * test-pmd/icmpecho.c: answering ARP requests and ICMP echo requests

    The engine reuses the array of received packets for its replies and frees
    the other packets at once, so the array holds handles into a store in
    which a freed mbuf is [None]. *)

From S2P Require Import Prelude Packet FwdEngines Checksum Cstr.
From stdpp Require Import pretty.

#[local] Open Scope string_scope.
#[local] Open Scope list_scope.
#[local] Open Scope Z_scope.

(** ** Names for the verbose output *)

Definition ARP_OP_REQUEST : Z := 1.
Definition ARP_OP_REPLY : Z := 2.

Definition arp_op_name (arp_op : Z) : string :=
  match arp_op with
  | 1 => "ARP Request"
  | 2 => "ARP Reply"
  | 3 => "Reverse ARP Request"
  | 4 => "Reverse ARP Reply"
  | 8 => "Peer Identify Request"
  | 9 => "Peer Identify Reply"
  | _ => "Unkwown ARP op"
  end.

Definition ip_proto_names : list string :=
  ([
    "IP6HOPOPTS"; "ICMP"; "IGMP"; "GGP"; "IPv4"; "UNASSIGNED"; "TCP"; "ST"; "EGP"; "PIGP";
    "RCC_MON"; "NVPII"; "PUP"; "ARGUS"; "EMCON"; "XNET"; "CHAOS"; "UDP"; "MUX"; "DCN_MEAS";
    "HMP"; "PRM"; "XNS_IDP"; "TRUNK1"; "TRUNK2"; "LEAF1"; "LEAF2"; "RDP"; "IRTP"; "TP4"; "BLT";
    "NSP"; "INP"; "SEP"; "3PC"; "IDPR"; "XTP"; "DDP"; "CMTP"; "TPXX"; "ILTP"; "IPv6_HDR"; "SDRP";
    "IPv6_RTG"; "IPv6_FRAG"; "IDRP"; "RSVP"; "GRE"; "MHRP"; "BHA"; "ESP"; "AH"; "INLSP"; "SWIPE";
    "NHRP"; "UNASSIGNED"; "UNASSIGNED"; "UNASSIGNED"; "ICMPv6"; "IPv6NONEXT"; "Ipv6DSTOPTS";
    "AHIP"; "CFTP"; "HELLO"; "SATEXPAK"; "KRYPTOLAN"; "RVD"; "IPPC"; "ADFS"; "SATMON"; "VISA";
    "IPCV"; "CPNX"; "CPHB"; "WSN"; "PVP"; "BRSATMON"; "ND"; "WBMON"; "WBEXPAK"; "EON"; "VMTP";
    "SVMTP"; "VINES"; "TTP"; "IGP"; "DGP"; "TCF"; "IGRP"; "OSPFIGP"; "SRPC"; "LARP"; "MTP";
    "AX25"; "4IN4"; "MICP"; "SCCSP"; "ETHERIP"; "ENCAP"; "AES"; "GMTP"; "IPCOMP"; "UNASSIGNED";
    "UNASSIGNED"; "PIM"
  ])%string.

(** On Linux [IPPROTO_PGM] and [IPPROTO_DIVERT] are not defined. *)
Definition ip_proto_name (ip_proto : Z) : string :=
  match zget ip_proto_names ip_proto with
  | Some name => name
  | None =>
      match ip_proto with 132 => "SCTP" | 255 => "RAW" | _ => "UNASSIGNED" end
  end.

(** [sprintf(buf, "%d.%d.%d.%d", ...)] *)
Definition ipv4_addr_to_dot (be_ipv4_addr : list Z) : string :=
  let a := of_be32 be_ipv4_addr in
  (pretty (Z.land (Z.shiftr a 24) 255) ++ "." ++ pretty (Z.land (Z.shiftr a 16) 255) ++ "." ++
   pretty (Z.land (Z.shiftr a 8) 255) ++ "." ++ pretty (Z.land a 255))%string.

(** ** Replies *)

Definition ARP_HRD_ETHER : Z := 1.
Definition IPPROTO_ICMP : Z := 1.
Definition IP_ICMP_ECHO_REPLY : Z := 0.
Definition IP_ICMP_ECHO_REQUEST : Z := 8.

(** The ARP packet at offset [o]: the frame answered, or [None]. *)
Definition arp_reply (port_mac : option (list Z)) (o : Z) (b : list Z) : outcome (option (list Z)) :=
  arp_op ← rd_be16 b (o + 6);
  arp_pro ← rd_be16 b (o + 2);
  arp_hrd ← rd_be16 b o;
  arp_hln ← rd8 b (o + 4);
  arp_pln ← rd8 b (o + 5);
  if negb (arp_hrd =? ARP_HRD_ETHER) || negb (arp_pro =? ETHER_TYPE_IPv4) ||
     negb (arp_hln =? 6) || negb (arp_pln =? 4) then Done None
  else if negb (arp_op =? ARP_OP_REQUEST) then Done None
  else
    s_addr ← of_opt (rd b 6 6);
    b ← of_opt (wr b 0 s_addr);
    port_mac ← of_opt port_mac;
    b ← of_opt (wr b 6 port_mac);
    b ← of_opt (wr b (o + 6) (be16 ARP_OP_REPLY));
    arp_sha ← of_opt (rd b (o + 8) 6);
    b ← of_opt (wr b (o + 18) arp_sha);
    s_addr ← of_opt (rd b 6 6);
    b ← of_opt (wr b (o + 8) s_addr);
    ip_addr ← of_opt (rd b (o + 14) 4);
    arp_tip ← of_opt (rd b (o + 24) 4);
    b ← of_opt (wr b (o + 14) arp_tip);
    b ← of_opt (wr b (o + 24) ip_addr);
    Done (Some b).

(** [ipv4_hdr_cksum] of the words of the header. *)
Definition ipv4_hdr_cksum (hdr : list Z) : Z :=
  let v16_h := words hdr in
  let ip_cksum := u32 (zsum (take 5 v16_h) + zsum (take 4 (drop 6 v16_h))) in
  let ip_cksum := u32 (fold1 ip_cksum) in
  let ip_cksum := u32 (fold1 ip_cksum) in
  let ip_cksum := Z.land (Z.lnot ip_cksum) 65535 in
  if ip_cksum =? 0 then 65535 else u16 ip_cksum.

Definition is_multicast_ipv4_addr (addr : list Z) : bool :=
  Z.land (Z.shiftr (of_be32 addr) 24) 255 =? 224.

(** The source address of the reply to a multicast request. *)
Definition echo_ip_src (ip_addr : list Z) : Z :=
  let ip_src := of_be32 ip_addr in
  if Z.land ip_src 3 =? 1 then Z.lor (Z.land ip_src 4294967292) 2 else Z.lor (Z.land ip_src 4294967292) 1.

(** The addresses of the IP header at [o] for the reply. *)
Definition echo_ip (o : Z) (b : list Z) : outcome (list Z) :=
  ip_addr ← of_opt (rd b (o + 12) 4);
  dst_addr ← of_opt (rd b (o + 16) 4);
  if is_multicast_ipv4_addr dst_addr then
    b ← of_opt (wr b (o + 12) (be32 (echo_ip_src ip_addr)));
    b ← of_opt (wr b (o + 16) ip_addr);
    hdr ← of_opt (rd b o 20);
    of_opt (wr b (o + 10) (le16 (ipv4_hdr_cksum hdr)))
  else
    b ← of_opt (wr b (o + 12) dst_addr);
    of_opt (wr b (o + 16) ip_addr).

Definition htons (x : Z) : Z := of_le16 (be16 x).

(** The ICMP checksum of the reply from that of the request. *)
Definition echo_cksum (icmp_cksum : Z) : Z :=
  let cksum := Z.land (Z.lnot icmp_cksum) 65535 in
  let cksum := u32 (cksum + Z.land (Z.lnot (htons (IP_ICMP_ECHO_REQUEST * 256))) 65535) in
  let cksum := u32 (cksum + htons (IP_ICMP_ECHO_REPLY * 256)) in
  let cksum := u32 (fold1 cksum) in
  let cksum := u32 (fold1 cksum) in
  u16 (Z.lnot cksum).

(** The type and the checksum of the ICMP header at [o]. *)
Definition echo_icmp (o : Z) (b : list Z) : outcome (list Z) :=
  b ← of_opt (wr b o [IP_ICMP_ECHO_REPLY]);
  icmp_cksum ← of_opt (rd b (o + 2) 2);
  of_opt (wr b (o + 2) (le16 (echo_cksum (of_le16 icmp_cksum)))).

(** Whether the IP packet at [o] is an ICMP echo request. *)
Definition is_echo_request (o : Z) (b : list Z) : outcome bool :=
  proto ← rd8 b (o + 9);
  if negb (proto =? IPPROTO_ICMP) then Done false
  else
    icmp_type ← rd8 b (o + 20);
    if negb (icmp_type =? IP_ICMP_ECHO_REQUEST) then Done false
    else icmp_code ← rd8 b (o + 21); Done (icmp_code =? 0).

Definition icmp_reply (o : Z) (b : list Z) : outcome (option (list Z)) :=
  is_rq ← is_echo_request o b;
  if (is_rq : bool) then
    eth_addr ← of_opt (rd b 6 6);
    d_addr ← of_opt (rd b 0 6);
    b ← of_opt (wr b 6 d_addr);
    b ← of_opt (wr b 0 eth_addr);
    b ← echo_ip o b;
    b ← echo_icmp (o + 20) b;
    Done (Some b)
  else Done None.

(** The type and the length of the Ethernet header, with one VLAN tag. *)
Definition eth_type_len (b : list Z) : outcome (Z * Z) :=
  eth_type ← rd_be16 b 12;
  if eth_type =? ETHER_TYPE_VLAN then eth_type ← rd_be16 b 16; Done (eth_type, 18)
  else Done (eth_type, 14).

(** What becomes of one packet: a reply, or [None] when it is freed. *)
Definition echo_packet (ports : list tx_port_conf) (fs : fwd_stream) (mb : mbuf) : outcome (option mbuf) :=
  b ← mtod mb;
  '(eth_type, l2_len) ← eth_type_len b;
  r ← (if eth_type =? ETHER_TYPE_ARP then
         arp_reply (eth_addr <$> zget ports (tx_port fs)) l2_len b
       else if negb (eth_type =? ETHER_TYPE_IPv4) then Done None
       else icmp_reply l2_len b);
  Done (option_map (set_mtod mb) r).

(** ** Bursts

    [store] holds the received mbufs, [None] once freed; [pkts_burst] the
    handles of the array, [None] where it is not initialised; [freed] the
    packets given back. *)

Record echo_state : Type := EchoState {
  store : list (option mbuf);
  pkts_burst : list (option nat);
  freed : list mbuf;
}.

Definition echo_init (rcvd : list mbuf) : echo_state :=
  EchoState (Some <$> rcvd)
    ((Some <$> seq 0 (length rcvd)) ++ replicate (Z.to_nat MAX_PKT_BURST - length rcvd) None) [].

Definition free_mbuf (pkt : nat) (mb : mbuf) (st : echo_state) : echo_state :=
  EchoState (<[pkt := None]> (store st)) (pkts_burst st) (freed st ++ [mb]).

(** One pass of the loop. *)
Definition echo_step (ports : list tx_port_conf) (fs : fwd_stream) (i nb_replies : Z) (st : echo_state)
    : outcome (Z * echo_state) :=
  pkt ← of_opt (mjoin (zget (pkts_burst st) i));
  mb ← of_opt (mjoin (store st !! pkt));
  r ← echo_packet ports fs mb;
  match r with
  | None => Done (nb_replies, free_mbuf pkt mb st)
  | Some mb =>
      burst ← of_opt (zset (pkts_burst st) nb_replies (Some pkt));
      Done (u16 (nb_replies + 1), EchoState (<[pkt := Some mb]> (store st)) burst (freed st))
  end.

(** The loop over [i], a [uint8_t], in at most [fuel] passes. *)
Fixpoint echo_loop (fuel : nat) (ports : list tx_port_conf) (fs : fwd_stream) (i nb_rx nb_replies : Z)
    (st : echo_state) : option (outcome (Z * echo_state)) :=
  if i <? nb_rx then
    match fuel with
    | O => None
    | S fuel =>
        match echo_step ports fs i nb_replies st with
        | Done (nb_replies, st) => echo_loop fuel ports fs (u8 (i + 1)) nb_rx nb_replies st
        | Aborted => Some Aborted
        | Undefined => Some Undefined
        end
    end
  else Some (Done (nb_replies, st)).

(** The mbufs of the first [n] slots of the array. *)
Definition burst_pkts (n : nat) (st : echo_state) : outcome (list mbuf) :=
  mapM (fun h => pkt ← of_opt h; of_opt (mjoin (store st !! pkt))) (take n (pkts_burst st)).

(** The end of the burst: the replies sent, and what was not sent freed. *)
Definition echo_finish `{Ethdev} (fs : fwd_stream) (d : dev) (nb_replies : Z) (st : echo_state)
    : outcome burst_result :=
  if 0 <? nb_replies then
    pkts ← burst_pkts (Z.to_nat nb_replies) st;
    let '(nb_tx, d) := tx_burst d (tx_port fs) (tx_queue fs) pkts in
    let r := finish_burst fs d pkts nb_tx in
    Done (BurstResult (br_fs r) (br_dev r) (br_sent r) (freed st ++ br_freed r))
  else Done (BurstResult fs d [] (freed st)).

Definition reply_to_icmp_echo_rqsts `{Ethdev} (fuel : nat) (nb_pkt_per_burst : Z)
    (ports : list tx_port_conf) (fs : fwd_stream) (d : dev) : option (outcome burst_result) :=
  let '(rcvd, d) := rx_burst d (rx_port fs) (rx_queue fs) nb_pkt_per_burst in
  if (length rcvd =? 0)%nat then Some (Done (BurstResult fs d [] []))
  else
    let fs := count_rx (Z.of_nat (length rcvd)) fs in
    match echo_loop fuel ports fs 0 (Z.of_nat (length rcvd)) 0 (echo_init rcvd) with
    | None => None
    | Some r => Some ('(nb_replies, st) ← r; echo_finish fs d nb_replies st)
    end.

(** ** Lemmas *)

(** The replies and the freed packets of the packets [rcvd] with results [rs]. *)
Definition replies (rs : list (option mbuf)) : list mbuf := omap id rs.

Definition rejected (rcvd : list mbuf) (rs : list (option mbuf)) : list mbuf :=
  omap (fun '(mb, r) => match r with None => Some mb | Some _ => None end) (zip rcvd rs).

(** What the handles [hs] stand for in the store [rs]. *)
Definition handles_ok (rs : list (option mbuf)) (hs : list nat) : Prop :=
  Forall2 (fun h mb => rs !! h = Some (Some mb)) hs (replies rs).

Lemma zget_app_cons {A} (l1 : list A) x l2 i :
  i = Z.of_nat (length l1) -> zget (l1 ++ x :: l2) i = Some x.
Proof. intros ->. apply zget_Some. split; [lia|]. rewrite Nat2Z.id. by apply list_lookup_middle. Qed.

Lemma handles_ok_app rs r hs : handles_ok rs hs -> (r = None \/ exists mb, r = Some mb) ->
  handles_ok (rs ++ [r]) (match r with None => hs | Some _ => hs ++ [length rs] end).
Proof.
  intros Hh Hr. unfold handles_ok, replies in *. rewrite omap_app. cbn.
  assert (Hh' : Forall2 (fun h mb => (rs ++ [r]) !! h = Some (Some mb)) hs (omap id rs)).
  { eapply Forall2_impl; [exact Hh|]. cbn. intros h mb Hl. by apply lookup_app_l_Some. }
  destruct Hr as [-> |[mb ->]]; cbn; [by rewrite app_nil_r|].
  apply Forall2_app; [done|]. constructor; [|constructor]. by apply list_lookup_middle.
Qed.

(** The array after the first packets: the handles of the replies, then what
    was there, and from the next packet on its initial contents. *)
Definition burst_ok (i todo : nat) (hs : list nat) (burst : list (option nat)) : Prop :=
  (length hs <= i)%nat /\ take (length hs) burst = Some <$> hs /\
  exists mid pad, burst = mid ++ (Some <$> seq i todo) ++ pad /\ length mid = i.

Lemma burst_ok_skip i todo hs burst : burst_ok i (S todo) hs burst -> burst_ok (S i) todo hs burst.
Proof.
  intros (Hl & Ht & mid & pad & -> & Hm). split_and!; [lia|done|].
  exists (mid ++ [Some i]), pad. rewrite length_app, <- app_assoc. cbn. split; [done|lia].
Qed.

Lemma burst_ok_add i todo hs burst :
  burst_ok i (S todo) hs burst ->
  exists burst', zset burst (Z.of_nat (length hs)) (Some i) = Some burst' /\
    burst_ok (S i) todo (hs ++ [i]) burst'.
Proof.
  intros (Hl & Ht & mid & pad & Hb & Hm). exists (<[length hs := Some i]> burst). split.
  { apply zset_Some. rewrite Nat2Z.id. split; [|done]. rewrite Hb, !length_app, length_fmap, length_seq. lia. }
  assert (Hlen : (length hs < length burst)%nat).
  { rewrite Hb, !length_app, length_fmap, length_seq. lia. }
  split_and!.
  - rewrite length_app. cbn. lia.
  - rewrite length_app, fmap_app. cbn [length]. rewrite Nat.add_1_r.
    erewrite take_S_r; [|by apply list_lookup_insert_eq].
    rewrite take_insert_ge by lia. by rewrite Ht.
  - subst burst. cbn [seq fmap list_fmap app].
    change (Some i :: (Some <$> seq (S i) todo) ++ pad)
      with ([Some i] ++ (Some <$> seq (S i) todo) ++ pad).
    rewrite (app_assoc mid).
    exists (<[length hs := Some i]> (mid ++ [Some i])), pad. split.
    + rewrite (insert_app_l (mid ++ [Some i])); [done|]. rewrite length_app. cbn. lia.
    + rewrite length_insert, length_app. cbn. lia.
Qed.

Lemma echo_loop_spec ports fs todo rs_todo rs_done hs burst frd k :
  Forall2 (fun mb r => echo_packet ports fs mb = Done r) todo rs_todo ->
  (length rs_done + length todo <= 255)%nat ->
  burst_ok (length rs_done) (length todo) hs burst -> handles_ok rs_done hs ->
  exists hs' burst',
    echo_loop (length todo + k) ports fs (Z.of_nat (length rs_done))
      (Z.of_nat (length rs_done + length todo)) (Z.of_nat (length hs))
      (EchoState (rs_done ++ (Some <$> todo)) burst frd) =
    Some (Done (Z.of_nat (length hs'),
      EchoState (rs_done ++ rs_todo) burst' (frd ++ rejected todo rs_todo))) /\
    take (length hs') burst' = Some <$> hs' /\ handles_ok (rs_done ++ rs_todo) hs'.
Proof.
  intros Hf. revert rs_done hs burst frd.
  induction Hf as [|mb r todo rs_todo Hp Hf IH]; intros rs_done hs burst frd Hlen Hb Hh; cbn [length].
  { exists hs, burst. rewrite Nat.add_0_r. destruct k; cbn [Nat.add echo_loop]; rewrite Z.ltb_irrefl; cbn; rewrite !app_nil_r;
    destruct Hb as (_ & Ht & _); done. }
  cbn [length] in Hlen. cbn [Nat.add echo_loop].
  destruct (Z.ltb_spec (Z.of_nat (length rs_done)) (Z.of_nat (length rs_done + S (length todo)))); [|lia].
  assert (Hget : zget burst (Z.of_nat (length rs_done)) = Some (Some (length rs_done))).
  { destruct Hb as (_ & _ & mid & pad & -> & Hm). cbn. apply zget_app_cons. lia. }
  unfold echo_step. cbn [pkts_burst store]. rewrite Hget. cbn [mjoin option_join of_opt mbind outcome_bind].
  cbn [fmap list_fmap]. rewrite list_lookup_middle by done. cbn [mjoin option_join of_opt mbind outcome_bind].
  rewrite Hp. cbn [mbind outcome_bind].
  assert (Hu : u8 (Z.of_nat (length rs_done) + 1) = Z.of_nat (length (rs_done ++ [r]))).
  { rewrite length_app. cbn. rewrite u8_small by lia. lia. }
  assert (HN : (length rs_done + S (length todo))%nat = (length (rs_done ++ [r]) + length todo)%nat).
  { rewrite length_app. cbn. lia. }
  assert (Hst : forall x, <[length rs_done := x]> (rs_done ++ Some mb :: (Some <$> todo)) =
    (rs_done ++ [x]) ++ (Some <$> todo)).
  { intros x. rewrite insert_app_r_alt by lia. rewrite Nat.sub_diag. cbn. by rewrite <- app_assoc. }
  assert (Hlen' : (length (rs_done ++ [r]) + length todo <= 255)%nat) by (rewrite <- HN; lia).
  destruct r as [mb'|].
  - destruct (burst_ok_add _ _ _ _ Hb) as (burst' & -> & Hb'). cbn [of_opt mbind outcome_bind freed].
    destruct Hb as (Hl & _). rewrite Hst, Hu, HN. rewrite u16_small by lia.
    replace (Z.of_nat (length hs) + 1) with (Z.of_nat (length (hs ++ [length rs_done])))
      by (rewrite length_app; cbn; lia).
    edestruct (IH (rs_done ++ [Some mb'])) as (hs' & b' & -> & Ht & Hh').
    + done.
    + rewrite length_app. cbn [length]. rewrite Nat.add_1_r. exact Hb'.
    + apply (handles_ok_app _ (Some mb')); [done|eauto].
    + exists hs', b'. rewrite <- app_assoc. rewrite <- app_assoc in Hh'. done.
  - unfold free_mbuf. cbn [store pkts_burst freed]. rewrite Hst, Hu, HN.
    edestruct (IH (rs_done ++ [None]) hs burst (frd ++ [mb])) as (hs' & b' & -> & Ht & Hh').
    + done.
    + rewrite length_app. cbn [length]. rewrite Nat.add_1_r. by apply burst_ok_skip.
    + apply (handles_ok_app _ None); [done|eauto].
    + exists hs', b'. rewrite <- !app_assoc. rewrite <- app_assoc in Hh'. done.
Qed.

Lemma burst_pkts_spec rs hs burst frd :
  take (length hs) burst = Some <$> hs -> handles_ok rs hs ->
  burst_pkts (length hs) (EchoState rs burst frd) = Done (replies rs).
Proof.
  intros Ht Hh. unfold burst_pkts. cbn [pkts_burst store]. rewrite Ht. apply mapM_Done.
  apply Forall2_fmap_l. eapply Forall2_impl; [exact Hh|]. cbn. intros h mb ->. done.
Qed.

Lemma echo_init_ok rcvd : burst_ok 0 (length rcvd) [] (pkts_burst (echo_init rcvd)).
Proof.
  split_and!; [done|done|]. eexists [], _. split; done.
Qed.

(** A loop that ends has passed the bound [nb_rx] with [i]. *)
Lemma echo_loop_hangs fuel ports fs i nb_rx nb_replies st r :
  0 <= i < 256 -> 256 <= nb_rx -> echo_loop fuel ports fs i nb_rx nb_replies st <> Some (Done r).
Proof.
  revert i nb_replies st. induction fuel as [|fuel IH]; intros i nb_replies st Hi Hn; cbn [echo_loop].
  - destruct (Z.ltb_spec i nb_rx); [done|lia].
  - destruct (Z.ltb_spec i nb_rx); [|lia].
    destruct (echo_step _ _ _ _ _) as [[n st']| |]; [|done..]. apply IH; [apply u8_range|done].
Qed.

(** *** The contents of the replies *)

Lemma land_lnot16 x : Z.land (Z.lnot x) 65535 = u16 (Z.lnot x).
Proof. change 65535 with (Z.ones 16). apply Z.land_ones. lia. Qed.

Lemma echo_cksum_spec c :
  0 <= c < 2 ^ 16 ->
  0 <= echo_cksum c < 2 ^ 16 /\ (65535 | echo_cksum c - (c + 8)) /\ (echo_cksum c = 0 <-> c = 65527).
Proof.
  intros Hc. unfold echo_cksum. change (htons (IP_ICMP_ECHO_REQUEST * 256)) with 8.
  change (htons (IP_ICMP_ECHO_REPLY * 256)) with 0. change (Z.land (Z.lnot 8) 65535) with 65527.
  rewrite land_lnot16, (complement16 c), Z.add_0_r by done.
  rewrite (u32_small (65535 - c + 65527)), (u32_small (65535 - c + 65527)) by lia.
  destruct (fold2_spec (65535 - c + 65527)) as (Hr & [k Hk] & Hp & _); [lia|].
  specialize (Hp ltac:(lia)). set (r := u32 (fold1 _)) in *. rewrite complement16 by done.
  split_and!; [lia|lia|exists (k - 1); lia|lia].
Qed.

Lemma ipv4_hdr_cksum_spec hdr :
  let ws := words hdr in
  length ws = 10%nat -> Forall (fun w => 0 <= w < 2 ^ 16) ws ->
  let s := zsum (take 5 ws) + zsum (take 4 (drop 6 ws)) in
  0 <= ipv4_hdr_cksum hdr < 2 ^ 16 /\ 0 < s + ipv4_hdr_cksum hdr /\ (65535 | s + ipv4_hdr_cksum hdr).
Proof.
  intros ws Hl Hw s. unfold ipv4_hdr_cksum. fold ws. fold s.
  assert (Hs : 0 <= s < 2 ^ 20).
  { do 11 (destruct ws as [|? ws]; try done). repeat (apply Forall_cons in Hw as [? Hw]).
    unfold s, zsum. cbn. lia. }
  clearbody s. rewrite (u32_small s) by lia.
  destruct (fold2_spec s) as (Hr & [k Hk] & Hp & Hz); [lia|]. set (r := u32 (fold1 _)) in *.
  rewrite land_lnot16, complement16 by done.
  destruct (Z.eqb_spec (65535 - r) 0) as [He|He].
  - split_and!; [lia..|exists (k + 2); lia].
  - rewrite u16_small by lia. split_and!; [lia..|exists (k + 1); lia].
Qed.

Lemma echo_ip_src_differs ip_addr : echo_ip_src ip_addr <> of_be32 ip_addr.
Proof.
  unfold echo_ip_src. set (x := of_be32 ip_addr).
  assert (H : forall y, Z.land (Z.lor (Z.land x 4294967292) y) 3 = Z.land y 3).
  { intros y. rewrite Z.land_lor_distr_l, <- Z.land_assoc. change (Z.land 4294967292 3) with 0.
    by rewrite Z.land_0_r, Z.lor_0_l. }
  destruct (Z.eqb_spec (Z.land x 3) 1); intros E; apply (f_equal (fun z => Z.land z 3)) in E;
    rewrite H in E; [change (Z.land 2 3) with 2 in E|change (Z.land 1 3) with 1 in E]; lia.
Qed.

Lemma echo_ip_src_range ip_addr : Forall byte_ok ip_addr -> 0 <= echo_ip_src ip_addr < 2 ^ 32.
Proof.
  intros Hb. unfold echo_ip_src. set (x := of_be32 ip_addr).
  assert (H : forall y, 0 <= y < 4 -> 0 <= Z.lor (Z.land x 4294967292) y < 2 ^ 32).
  { intros y Hy. assert (0 <= Z.land x 4294967292) by (apply Z.land_nonneg; right; lia).
    assert (Hl : 0 <= Z.lor (Z.land x 4294967292) y) by (apply Z.lor_nonneg; lia).
    split; [done|]. apply Z.log2_lt_cancel. rewrite Z.log2_pow2 by lia. rewrite Z.log2_lor by lia.
    apply Z.max_lub_lt.
    - pose proof (Z.log2_land x 4294967292) as Hx. destruct (decide (0 <= x)) as [Hp|Hp].
      + specialize (Hx Hp ltac:(lia)). change (Z.log2 4294967292) with 31 in Hx. lia.
      + destruct (Z.land x 4294967292) eqn:E; [done| |lia]. rewrite <- E.
        assert (Hle : Z.land x 4294967292 <= 4294967292).
        { apply Z.ldiff_le; [lia|]. apply Z.bits_inj'. intros i Hi.
          rewrite Z.ldiff_spec, Z.land_spec, Z.bits_0. destruct (Z.testbit x i), (Z.testbit 4294967292 i); done. }
        pose proof (Z.log2_le_mono _ _ Hle) as Hm. change (Z.log2 4294967292) with 31 in Hm. lia.
    - assert (Hm : Z.log2 y <= Z.log2 3) by (apply Z.log2_le_mono; lia). change (Z.log2 3) with 1 in Hm. lia. }
  destruct (_ =? 1); apply H; lia.
Qed.

(** The IP header of the reply: its checksum holds, its destination is the
    source of the request and its source is the destination of the request,
    unless that is multicast. *)
Definition echo_ip_ok (h h' : list Z) : Prop :=
  checksum_ok h' /\ rd h' 16 4 = rd h 12 4 /\
  (forall src dst, rd h 12 4 = Some src -> rd h 16 4 = Some dst ->
     if is_multicast_ipv4_addr dst
     then exists src', rd h' 12 4 = Some src' /\ of_be32 src' <> of_be32 src
     else rd h' 12 4 = Some dst) /\
  rd h' 0 10 = rd h 0 10.

Lemma words_ipv4 h : length h = 20%nat -> length (words h) = 10%nat.
Proof. intros H. do 21 (destruct h as [|? h]; try done). Qed.

Lemma zsum_split ws : length ws = 10%nat ->
  zsum ws = zsum (take 5 ws) + zsum (take 4 (drop 6 ws)) + zsum (take 1 (drop 5 ws)).
Proof. intros H. do 11 (destruct ws as [|? ws]; try done). unfold zsum. cbn. lia. Qed.

Lemma words_at10 h : length h = 20%nat -> exists old, rd h 10 2 = Some old /\ zsum (words old) = zsum (take 1 (drop 5 (words h))).
Proof. intros H. do 21 (destruct h as [|? h]; try done). eexists. split; [reflexivity|reflexivity]. Qed.

(** The checksum recomputed in place. *)
Lemma set_cksum_ok h h' :
  length h = 20%nat -> Forall byte_ok h -> wr h 10 (le16 (ipv4_hdr_cksum h)) = Some h' -> checksum_ok h'.
Proof.
  intros Hl Hb Hw. pose proof (words_ipv4 h Hl) as Hwl.
  destruct (ipv4_hdr_cksum_spec h Hwl (words_range h Hb)) as (Hr & Hp & Hd).
  destruct (words_at10 h Hl) as (old & Ho & He).
  pose proof (zsum_wr _ _ _ _ _ Hw Ho ltac:(by exists 5%nat) ltac:(by exists 1%nat)) as Hz.
  rewrite (zsum_split _ Hwl), He, zsum_le16 in Hz by done.
  unfold checksum_ok. rewrite Hz.
  match goal with |- 0 < ?x /\ _ =>
    replace x with (zsum (take 5 (words h)) + zsum (take 4 (drop 6 (words h))) + ipv4_hdr_cksum h) by lia end.
  done.
Qed.

Lemma echo_ip_swap h h1 h2 src dst :
  checksum_ok h -> rd h 12 4 = Some src -> rd h 16 4 = Some dst ->
  wr h 12 dst = Some h1 -> wr h1 16 src = Some h2 -> checksum_ok h2.
Proof.
  intros Hc Hs Hd W1 W2. pose proof (rd_length _ _ _ _ Hs) as Ls. pose proof (rd_length _ _ _ _ Hd) as Ld.
  assert (Es : length src = 4%nat) by lia. assert (Ed : length dst = 4%nat) by lia.
  pose proof (zsum_wr _ _ _ src _ W1 ltac:(by rewrite Ed) ltac:(by exists 6%nat)
    ltac:(rewrite Ed; by exists 2%nat)) as Z1.
  assert (Hd1 : rd h1 16 4 = Some dst) by (rewrite (rd_wr_other _ _ _ _ 16 4 W1) by lia; done).
  pose proof (zsum_wr _ _ _ dst _ W2 ltac:(by rewrite Es) ltac:(by exists 8%nat)
    ltac:(rewrite Es; by exists 2%nat)) as Z2.
  unfold checksum_ok in *. replace (zsum (words h2)) with (zsum (words h)) by lia. done.
Qed.

(** [echo_ip] on the buffer is [echo_ip] on the header. *)
Lemma echo_ip_header o b h :
  rd b o 20 = Some h -> Forall byte_ok h -> checksum_ok h ->
  exists b' h', echo_ip o b = Done b' /\ rd b' o 20 = Some h' /\ echo_ip_ok h h' /\
    length b' = length b /\
    forall off n, off + n <= o \/ o + 20 <= off -> rd b' off n = rd b off n.
Proof.
  intros Hr Hb Hc. pose proof (rd_length _ _ _ _ Hr) as Hl. pose proof Hr as (Ho & _ & Hlen & _)%rd_Some.
  destruct (rd_is_Some h 12 4) as [src Hs]; [lia..|]. destruct (rd_is_Some h 16 4) as [dst Hd]; [lia..|].
  pose proof (rd_length _ _ _ _ Hs) as Ls. pose proof (rd_length _ _ _ _ Hd) as Ld.
  pose proof (rd_sub _ _ _ _ 12 4 Hr ltac:(lia) ltac:(lia) ltac:(lia)) as Hs'.
  pose proof (rd_sub _ _ _ _ 16 4 Hr ltac:(lia) ltac:(lia) ltac:(lia)) as Hd'.
  unfold echo_ip. rewrite Hs', Hd', Hs, Hd. cbn [of_opt mbind outcome_bind].
  destruct (is_multicast_ipv4_addr dst) eqn:Em.
  - destruct (wr_is_Some b (o + 12) (be32 (echo_ip_src src))) as [b1 W1]; [lia|cbn [length be32]; lia|].
    rewrite W1. cbn [of_opt mbind outcome_bind]. pose proof (wr_length _ _ _ _ W1) as L1.
    destruct (wr_is_Some b1 (o + 16) src) as [b2 W2]; [lia|lia|].
    rewrite W2. cbn [of_opt mbind outcome_bind]. pose proof (wr_length _ _ _ _ W2) as L2.
    destruct (rd_wr_inside _ _ _ _ _ _ _ Hr W1) as (h1 & V1 & R1); [lia|cbn [length be32]; lia|].
    destruct (rd_wr_inside _ _ _ _ _ _ _ R1 W2) as (h2 & V2 & R2); [lia|lia|].
    rewrite R2. cbn [of_opt mbind outcome_bind].
    destruct (wr_is_Some b2 (o + 10) (le16 (ipv4_hdr_cksum h2))) as [b3 W3]; [lia|cbn [length le16]; lia|].
    destruct (rd_wr_inside _ _ _ _ _ _ _ R2 W3) as (h3 & V3 & R3); [lia|cbn [length le16]; lia|].
    pose proof (wr_length _ _ _ _ W3) as L3.
    replace (o + 12 - o) with 12 in V1 by lia. replace (o + 16 - o) with 16 in V2 by lia.
    replace (o + 10 - o) with 10 in V3 by lia.
    exists b3, h3. rewrite W3. split_and!; [done|done| |lia|].
    + pose proof (rd_length _ _ _ _ R2) as Lh2. split_and!.
      * apply (set_cksum_ok h2 h3); [lia| |done].
        apply (wr_Forall _ _ _ _ _ (wr_Forall _ _ _ _ _ Hb (be32_bytes _) V1) (rd_Forall _ _ _ _ _ Hb Hs) V2).
      * rd_wr. done.
      * intros src0 dst0 E1 E2. rewrite Hs in E1. rewrite Hd in E2. simplify_eq. rewrite Em.
        exists (be32 (echo_ip_src src0)). split; [by rd_wr|].
        rewrite of_be32_be32 by (eapply echo_ip_src_range, rd_Forall; done). apply echo_ip_src_differs.
      * by rd_wr.
    + intros off n Hoff. by rd_wr.
  - destruct (wr_is_Some b (o + 12) dst) as [b1 W1]; [lia|lia|].
    rewrite W1. cbn [of_opt mbind outcome_bind]. pose proof (wr_length _ _ _ _ W1) as L1.
    destruct (wr_is_Some b1 (o + 16) src) as [b2 W2]; [lia|lia|].
    rewrite W2. pose proof (wr_length _ _ _ _ W2) as L2.
    destruct (rd_wr_inside _ _ _ _ _ _ _ Hr W1) as (h1 & V1 & R1); [lia|lia|].
    destruct (rd_wr_inside _ _ _ _ _ _ _ R1 W2) as (h2 & V2 & R2); [lia|lia|].
    replace (o + 12 - o) with 12 in V1 by lia. replace (o + 16 - o) with 16 in V2 by lia.
    exists b2, h2. split_and!; [done|done| |lia|].
    + split_and!.
      * by apply (echo_ip_swap h h1 h2 src dst).
      * rd_wr. done.
      * intros src0 dst0 E1 E2. rewrite Hs in E1. rewrite Hd in E2. simplify_eq. rewrite Em. by rd_wr.
      * by rd_wr.
    + intros off n Hoff. by rd_wr.
Qed.

(** The ICMP message of the reply: [m] without its type and checksum, with
    the checksum right unless nothing but zeros is left to sum up. *)
Definition echo_icmp_ok (m m' : list Z) : Prop :=
  head m' = Some IP_ICMP_ECHO_REPLY /\ rd m' 1 1 = rd m 1 1 /\ drop 4 m' = drop 4 m /\
  (checksum_ok m' <-> 0 < zsum (words (drop 4 m))).

Lemma echo_icmp_words c0 c1 rest :
  byte_ok c0 -> byte_ok c1 -> Forall byte_ok rest ->
  checksum_ok (8 :: 0 :: c0 :: c1 :: rest) ->
  checksum_ok (0 :: 0 :: le16 (echo_cksum (of_le16 [c0; c1])) ++ rest) <-> 0 < zsum (words rest).
Proof.
  intros H0 H1 Hr [_ [k Hk]]. unfold byte_ok in *.
  assert (Hc : 0 <= of_le16 [c0; c1] < 2 ^ 16) by (cbn; lia).
  pose proof (echo_cksum_spec _ Hc) as (Hrange & [j Hj] & Hz).
  assert (HR : 0 <= zsum (words rest)).
  { apply zsum_nonneg. eapply Forall_impl; [by apply words_range|]. cbn. lia. }
  unfold checksum_ok. change (0 :: 0 :: le16 ?v ++ rest) with ((0 :: 0 :: le16 v) ++ rest).
  rewrite (words_app (0 :: 0 :: le16 _) rest) by (by exists 2%nat).
  rewrite zsum_app. change (words (0 :: 0 :: le16 ?v)) with (0 :: words (le16 v)).
  rewrite zsum_cons, zsum_le16 by done.
  change (words (8 :: 0 :: c0 :: c1 :: rest)) with ((8 + 256 * 0) :: (c0 + 256 * c1) :: words rest) in Hk.
  rewrite !zsum_cons in Hk.
  unfold of_le16 in *. set (e := echo_cksum _) in *.
  split.
  - intros [Hpos _]. destruct (decide (0 < zsum (words rest))); [done|].
    assert (e = 0) by (apply Hz; lia). lia.
  - intros Hpos. split; [lia|]. exists (j + k). lia.
Qed.

Lemma echo_icmp_message o b n m :
  rd b o n = Some m -> 4 <= n -> Forall byte_ok m -> checksum_ok m ->
  zget b o = Some 8 -> zget b (o + 1) = Some 0 ->
  exists b' m', echo_icmp o b = Done b' /\ rd b' o n = Some m' /\ echo_icmp_ok m m' /\
    forall off k, off + k <= o -> rd b' off k = rd b off k.
Proof.
  intros Hr Hn Hb Hc H8 H0. pose proof (rd_length _ _ _ _ Hr) as Hl. pose proof Hr as (Ho & _ & Hlen & Hm)%rd_Some.
  destruct m as [|t [|c [|c0 [|c1 rest]]]]; cbn [length] in Hl; try lia.
  assert (Hat : forall i x, (i < Z.to_nat n)%nat -> zget b (o + Z.of_nat i) = Some x ->
    take (Z.to_nat n) (drop (Z.to_nat o) b) !! i = Some x).
  { intros i x Hi (_ & Hx)%zget_Some. rewrite lookup_take_lt, lookup_drop by done. rewrite <- Hx. f_equal. lia. }
  pose proof (Hat 0%nat 8 ltac:(lia) ltac:(by rewrite Z.add_0_r)) as A0.
  pose proof (Hat 1%nat 0 ltac:(lia) H0) as A1. rewrite <- Hm in A0, A1. cbn in A0, A1. simplify_eq.
  repeat (apply Forall_cons in Hb as [? Hb]).
  unfold echo_icmp. destruct (wr_is_Some b o [IP_ICMP_ECHO_REPLY]) as [b1 W1]; [lia|cbn [length]; lia|].
  rewrite W1. cbn [of_opt mbind outcome_bind]. pose proof (wr_length _ _ _ _ W1) as L1.
  destruct (rd_wr_inside _ _ _ _ _ _ _ Hr W1) as (m1 & V1 & R1); [lia|cbn [length]; lia|].
  rewrite Z.sub_diag in V1. apply wr_Some in V1 as (_ & _ & V1).
  change (Z.to_nat 0) with 0%nat in V1. cbn [take drop app length Nat.add] in V1. subst m1.
  pose proof (rd_sub _ _ _ _ 2 2 R1 ltac:(lia) ltac:(lia) ltac:(lia)) as Rc.
  assert (Rc' : rd (IP_ICMP_ECHO_REPLY :: 0 :: c0 :: c1 :: rest) 2 2 = Some [c0; c1]).
  { apply rd_Some. cbn [length]. split_and!; [lia..|reflexivity]. }
  rewrite Rc, Rc'. cbn [of_opt mbind outcome_bind].
  destruct (wr_is_Some b1 (o + 2) (le16 (echo_cksum (of_le16 [c0; c1])))) as [b2 W2]; [lia|cbn [length le16]; lia|].
  rewrite W2. destruct (rd_wr_inside _ _ _ _ _ _ _ R1 W2) as (m2 & V2 & R2); [lia|cbn [length le16]; lia|].
  replace (o + 2 - o) with 2 in V2 by lia. apply wr_Some in V2 as (_ & _ & V2).
  change (Z.to_nat 2) with 2%nat in V2. cbn [take drop app length Nat.add] in V2. subst m2.
  eexists b2, _. split_and!; [done|exact R2| |intros off k Hoff; by rd_wr].
  split_and!; [done|reflexivity|reflexivity|].
  by apply (echo_icmp_words c0 c1 rest).
Qed.

Lemma is_echo_request_true o b :
  is_echo_request o b = Done true -> zget b (o + 20) = Some 8 /\ zget b (o + 20 + 1) = Some 0.
Proof.
  unfold is_echo_request, rd8. rewrite <- Z.add_assoc. change (20 + 1) with 21. intros E.
  destruct (zget b (o + 9)) as [p|]; cbn [of_opt mbind outcome_bind] in E; [|done].
  destruct (negb (p =? IPPROTO_ICMP)); [done|].
  destruct (zget b (o + 20)) as [x|]; cbn [of_opt mbind outcome_bind] in E; [|done].
  destruct (x =? IP_ICMP_ECHO_REQUEST) eqn:Ex; [|done]. apply Z.eqb_eq in Ex as ->.
  destruct (zget b (o + 21)) as [c|]; cbn [negb of_opt mbind outcome_bind] in E; [|done].
  injection E as Ec. apply Z.eqb_eq in Ec as ->. done.
Qed.

Lemma arp_header o b hd :
  rd b o 8 = Some hd -> Forall byte_ok b ->
  exists op pro hrd hln pln,
    rd_be16 b (o + 6) = Done op /\ rd_be16 b (o + 2) = Done pro /\ rd_be16 b o = Done hrd /\
    rd8 b (o + 4) = Done hln /\ rd8 b (o + 5) = Done pln /\
    (hd = [0; 1; 8; 0; 6; 4; 0; 1] <->
     op = 1 /\ pro = ETHER_TYPE_IPv4 /\ hrd = ARP_HRD_ETHER /\ hln = 6 /\ pln = 4).
Proof.
  intros Hr Hb. pose proof (rd_length _ _ _ _ Hr) as Hl. pose proof (rd_Forall _ _ _ _ _ Hb Hr) as Hh.
  destruct hd as [|h0 [|h1 [|h2 [|h3 [|h4 [|h5 [|h6 [|h7 [|? ?]]]]]]]]]; try (cbn [length] in Hl; lia).
  repeat (apply Forall_cons in Hh as [? Hh]). unfold byte_ok in *.
  pose proof (rd_sub _ _ _ _ 0 2 Hr ltac:(lia) ltac:(lia) ltac:(lia)) as R0. rewrite Z.add_0_r in R0.
  pose proof (rd_sub _ _ _ _ 2 2 Hr ltac:(lia) ltac:(lia) ltac:(lia)) as R2.
  pose proof (rd_sub _ _ _ _ 6 2 Hr ltac:(lia) ltac:(lia) ltac:(lia)) as R6.
  unfold rd_be16, rd8. rewrite R0, R2, R6.
  rewrite (zget_rd _ _ _ _ 4 Hr), (zget_rd _ _ _ _ 5 Hr) by lia.
  exists (256 * h6 + h7), (256 * h2 + h3), (256 * h0 + h1), h4, h5. do 5 (split; [reflexivity|]).
  unfold of_be16, ETHER_TYPE_IPv4, ARP_HRD_ETHER. split.
  - intros [= -> -> -> -> -> -> -> ->]. done.
  - intros (? & ? & ? & -> & ->). repeat (apply (f_equal2 cons); [lia|]). done.
Qed.

(** ** Properties *)

(** C23: an ICMP echo request in an IP packet without options is answered
    with the Ethernet addresses exchanged, an IP header whose checksum holds
    and that goes back to the source, and an ICMP message with the same
    identifier, sequence number and data; its checksum, updated and not
    recomputed, holds unless all of these are zero. *)
Theorem icmp_reply_ok b o n h m
    (Ho : 14 <= o) (Hn : 4 <= n) (Hb : Forall byte_ok b)
    (Hrq : is_echo_request o b = Done true)
    (Hh : rd b o 20 = Some h) (Hm : rd b (o + 20) n = Some m)
    (Hch : checksum_ok h) (Hcm : checksum_ok m) :
  exists b' h' m', icmp_reply o b = Done (Some b') /\
    rd b' 0 6 = rd b 6 6 /\ rd b' 6 6 = rd b 0 6 /\
    rd b' o 20 = Some h' /\ echo_ip_ok h h' /\
    rd b' (o + 20) n = Some m' /\ echo_icmp_ok m m'.
Proof.
  pose proof Hh as (_ & _ & Hlen & _)%rd_Some. pose proof Hm as (_ & _ & Hlen' & _)%rd_Some.
  unfold icmp_reply. rewrite Hrq. cbn [mbind outcome_bind].
  destruct (rd_is_Some b 6 6) as [sa Hsa]; [lia..|]. destruct (rd_is_Some b 0 6) as [da Hda]; [lia..|].
  pose proof (rd_length _ _ _ _ Hsa) as Lsa. pose proof (rd_length _ _ _ _ Hda) as Lda.
  rewrite Hsa, Hda. cbn [of_opt mbind outcome_bind].
  destruct (wr_is_Some b 6 da) as [b1 W1]; [lia|lia|]. rewrite W1. cbn [of_opt mbind outcome_bind].
  pose proof (wr_length _ _ _ _ W1) as L1.
  destruct (wr_is_Some b1 0 sa) as [b2 W2]; [lia|lia|]. rewrite W2. cbn [of_opt mbind outcome_bind].
  pose proof (wr_length _ _ _ _ W2) as L2.
  assert (Hh2 : rd b2 o 20 = Some h) by (by rd_wr).
  destruct (echo_ip_header o b2 h Hh2) as (b3 & h3 & -> & Hh3 & Hok & L3 & Hother); [by eapply rd_Forall|done|].
  cbn [mbind outcome_bind].
  assert (Hm3 : rd b3 (o + 20) n = Some m) by (rewrite Hother by lia; by rd_wr).
  destruct (is_echo_request_true _ _ Hrq) as [H8 H0].
  assert (Hz : forall i x, 14 <= i -> i < o \/ o + 20 <= i -> zget b i = Some x -> zget b3 i = Some x).
  { intros i x Hi Hi' (_ & Hx)%zget_Some. apply zget_Some. split; [lia|].
    assert (Hr : rd b i 1 = Some [x]).
    { apply lookup_lt_Some in Hx as Hlt. apply rd_Some. split_and!; [lia..|].
      rewrite (drop_S _ _ _ Hx). done. }
    assert (Hr3 : rd b3 i 1 = Some [x]) by (rewrite Hother by lia; by rd_wr).
    apply rd_Some in Hr3 as (_ & _ & _ & Hr3).
    destruct (drop (Z.to_nat i) b3) as [|y l] eqn:E; [done|]. injection Hr3 as ->.
    rewrite <- (Nat.add_0_r (Z.to_nat i)), <- lookup_drop, E. done. }
  destruct (echo_icmp_message (o + 20) b3 n m Hm3) as (b4 & m4 & -> & Hm4 & Hok4 & Hother4);
    [lia|by eapply rd_Forall|done|by apply Hz; [lia|lia|]|by apply Hz; [lia|lia|]|].
  cbn [mbind outcome_bind]. exists b4, h3, m4.
  split_and!; [done| | |by rewrite Hother4 by lia|done|done|done].
  - rewrite Hother4, Hother by lia. by rd_wr.
  - rewrite Hother4, Hother by lia. by rd_wr.
Qed.

(** An Ethernet/IPv4 ARP request is answered from the port's address
    with the addresses of the request exchanged; any other ARP packet is
    dropped. *)
Theorem arp_reply_ok b o mac hd
    (Ho : 14 <= o) (Hlen : o + 28 <= Z.of_nat (length b)) (Hmac : length mac = 6%nat)
    (Hb : Forall byte_ok b) (Hhd : rd b o 8 = Some hd) :
  if decide (hd = [0; 1; 8; 0; 6; 4; 0; 1]) then
    exists b', arp_reply (Some mac) o b = Done (Some b') /\
      rd b' 0 6 = rd b 6 6 /\ rd b' 6 6 = Some mac /\
      rd b' o 8 = Some [0; 1; 8; 0; 6; 4; 0; 2] /\
      rd b' (o + 8) 6 = Some mac /\ rd b' (o + 18) 6 = rd b (o + 8) 6 /\
      rd b' (o + 14) 4 = rd b (o + 24) 4 /\ rd b' (o + 24) 4 = rd b (o + 14) 4
  else arp_reply (Some mac) o b = Done None.
Proof.
  pose proof (rd_length _ _ _ _ Hhd) as Lhd. pose proof (arp_header o b hd Hhd Hb) as Hfields.
  unfold arp_reply. destruct Hfields as (op & pro & hrd & hln & pln & -> & -> & -> & -> & -> & Hiff).
  cbn [mbind outcome_bind]. case_decide as Hd.
  - rewrite Hd in Hhd. apply Hiff in Hd as (-> & -> & -> & -> & ->).
    change (negb _ || _ || _ || _) with false. change (negb _) with false. cbn iota.
    destruct (rd_is_Some b 6 6) as [sa Hsa]; [lia..|]. rewrite Hsa. cbn [of_opt mbind outcome_bind].
    pose proof (rd_length _ _ _ _ Hsa) as Lsa.
    destruct (rd_is_Some b (o + 8) 6) as [sha Hsha]; [lia..|]. pose proof (rd_length _ _ _ _ Hsha) as Lsha.
    destruct (rd_is_Some b (o + 14) 4) as [sip Hsip]; [lia..|]. pose proof (rd_length _ _ _ _ Hsip) as Lsip.
    destruct (rd_is_Some b (o + 24) 4) as [tip Htip]; [lia..|]. pose proof (rd_length _ _ _ _ Htip) as Ltip.
    rewrite Hsha, Hsip, Htip.
    wr_step c0 W0. wr_step c1 W1. wr_step c2 W2.
    assert (Hhd1 : rd c1 o 8 = Some [0; 1; 8; 0; 6; 4; 0; 1]) by (by rd_wr).
    destruct (rd_wr_inside _ _ _ _ _ _ _ Hhd1 W2) as (hd' & V & Hhd2); [lia|cbn; lia|].
    replace (o + 6 - o) with 6 in V by lia. vm_compute in V. injection V as <-.
    rd_wr. rewrite Hsha. cbn [of_opt mbind outcome_bind].
    wr_step c3 W3. rd_wr. cbn [of_opt mbind outcome_bind]. wr_step c4 W4. rd_wr.
    rewrite Hsip, Htip. cbn [of_opt mbind outcome_bind]. wr_step c5 W5. wr_step c6 W6.
    eexists. split; [done|]. by rd_wr.
  - destruct (decide (hrd = ARP_HRD_ETHER)) as [->|]; [|by rewrite (proj2 (Z.eqb_neq _ _))].
    destruct (decide (pro = ETHER_TYPE_IPv4)) as [->|]; [|by rewrite (proj2 (Z.eqb_neq pro _)), ?orb_true_r].
    destruct (decide (hln = 6)) as [->|]; [|by rewrite (proj2 (Z.eqb_neq hln _)), ?orb_true_r].
    destruct (decide (pln = 4)) as [->|]; [|by rewrite (proj2 (Z.eqb_neq pln _)), ?orb_true_r].
    destruct (decide (op = 1)) as [->|]; [exfalso; apply Hd, Hiff; done|].
    by rewrite (proj2 (Z.eqb_neq op ARP_OP_REQUEST)).
Qed.

(** With at most 255 packets in a burst the engine completes: it sends
    back or frees as dropped the reply to every request, in the order of the
    requests, and frees every other packet. *)
Theorem icmpecho_burst `{Ethdev} nb ports fs d rcvd d1 rs fuel
    (Hnb : 0 <= nb <= 255) (Hrx : rx_burst d (rx_port fs) (rx_queue fs) nb = (rcvd, d1))
    (Hrs : Forall2 (fun mb r => echo_packet ports (count_rx (Z.of_nat (length rcvd)) fs) mb = Done r) rcvd rs)
    (Hfuel : (length rcvd <= fuel)%nat) (Hc : counters_ok fs) :
  exists r unsent, reply_to_icmp_echo_rqsts fuel nb ports fs d = Some (Done r) /\
    br_freed r = rejected rcvd rs ++ unsent /\ br_sent r ++ unsent = replies rs /\
    rx_packets (br_fs r) = u32 (rx_packets fs + Z.of_nat (length rcvd)) /\
    tx_packets (br_fs r) = u32 (tx_packets fs + Z.of_nat (length (br_sent r))) /\
    fwd_dropped (br_fs r) = u32 (fwd_dropped fs + Z.of_nat (length unsent)).
Proof.
  destruct Hc as (Hc1 & Hc2 & Hc3).
  pose proof (rx_burst_max d (rx_port fs) (rx_queue fs) nb ltac:(lia)) as Hmax. rewrite Hrx in Hmax.
  cbn [fst] in Hmax. unfold reply_to_icmp_echo_rqsts. rewrite Hrx.
  destruct (Nat.eqb_spec (length rcvd) 0) as [H0|H0].
  { apply nil_length_inv in H0 as ->. inversion Hrs; subst. eexists _, []. split; [done|].
    cbn.
    by rewrite !Z.add_0_r, (u32_small (rx_packets fs)), (u32_small (tx_packets fs)), (u32_small (fwd_dropped fs)). }
  set (fs1 := count_rx _ fs) in *.
  destruct (echo_loop_spec ports fs1 rcvd rs [] [] (pkts_burst (echo_init rcvd)) [] (fuel - length rcvd))
    as (hs & burst & E & Ht & Hh); [done|cbn; lia|apply echo_init_ok|constructor|].
  replace (length rcvd + (fuel - length rcvd))%nat with fuel in E by lia. cbn [length Nat.add app] in E, Hh.
  change (EchoState (Some <$> rcvd) (pkts_burst (echo_init rcvd)) []) with (echo_init rcvd) in E.
  change (Z.of_nat 0) with 0 in E. rewrite E. cbn [mbind outcome_bind]. unfold echo_finish.
  pose proof (Forall2_length _ _ _ Hh) as Hlr. cbn [freed].
  destruct (Z.ltb_spec 0 (Z.of_nat (length hs))).
  - rewrite Nat2Z.id, (burst_pkts_spec _ _ _ _ Ht Hh). cbn [mbind outcome_bind].
    pose proof (tx_burst_max d1 (tx_port fs1) (tx_queue fs1) (replies rs)) as Hm.
    destruct (tx_burst _ _ _ _) as [n d2]. cbn [fst] in Hm.
    eexists _, (drop n (replies rs)). split; [done|]. unfold finish_burst.
    cbn [br_freed br_sent br_fs]. split; [done|]. split; [apply take_drop|].
    rewrite length_take, length_drop, Nat.min_l by done.
    destruct (Nat.ltb_spec n (length (replies rs))); [done|]. cbn.
    replace (length (replies rs) - n)%nat with 0%nat by lia.
    by rewrite Z.add_0_r, (u32_small (fwd_dropped fs)).
  - assert (Hr0 : replies rs = []) by (apply nil_length_inv; lia). rewrite Hr0.
    eexists _, []. split; [done|].
    cbn [br_freed br_sent br_fs length]. rewrite app_nil_r, !Z.add_0_r. cbn.
    by rewrite (u32_small (tx_packets fs)), (u32_small (fwd_dropped fs)).
Qed.

(** With 256 packets or more the engine never returns from the burst,
    because the index of its loop is an 8-bit number. *)
Theorem icmpecho_hangs `{Ethdev} nb ports fs d fuel r
    (Hrx : 256 <= Z.of_nat (length (rx_burst d (rx_port fs) (rx_queue fs) nb).1)) :
  reply_to_icmp_echo_rqsts fuel nb ports fs d <> Some (Done r).
Proof.
  unfold reply_to_icmp_echo_rqsts. destruct (rx_burst _ _ _ _) as [rcvd d1]. cbn [fst] in Hrx.
  destruct (Nat.eqb_spec (length rcvd) 0); [lia|]. set (fs1 := count_rx _ fs).
  destruct (echo_loop _ _ _ _ _ _ _) as [[[k st]| |]|] eqn:E; try done.
  exfalso. revert E. apply echo_loop_hangs; lia.
Qed.

Lemma pretty_byte_length x : 0 <= x < 256 -> (String.length (pretty x) <= 3)%nat.
Proof.
  intros Hx. assert (H : forallb (fun i => (String.length (pretty (Z.of_nat i)) <=? 3)%nat) (seq 0 256) = true)
    by (vm_compute; reflexivity).
  rewrite forallb_forall in H. specialize (H (Z.to_nat x)). rewrite Z2Nat.id in H by lia.
  apply Nat.leb_le, H, in_seq. lia.
Qed.

(** The text of an IPv4 address fits with its terminating zero the 16
    bytes of the buffer of [ipv4_addr_dump]. *)
Theorem ipv4_addr_to_dot_fits addr : (String.length (ipv4_addr_to_dot addr) + 1 <= 16)%nat.
Proof.
  assert (H : forall x, (String.length (pretty (Z.land x 255)) <= 3)%nat).
  { intros x. apply pretty_byte_length. change 255 with (Z.ones 8). rewrite Z.land_ones by lia.
    apply Z.mod_pos_bound. lia. }
  unfold ipv4_addr_to_dot. rewrite !string_length_app. cbn [String.length].
  pose proof (H (Z.shiftr (of_be32 addr) 24)). pose proof (H (Z.shiftr (of_be32 addr) 16)).
  pose proof (H (Z.shiftr (of_be32 addr) 8)). pose proof (H (of_be32 addr)). lia.
Qed.

(** The table of names gives PIM the number 104 and not its own, 103. *)
Lemma ip_proto_name_pim : ip_proto_name 103 = "UNASSIGNED"%string /\ ip_proto_name 104 = "PIM"%string.
Proof. done. Qed.

(** ** Witnesses *)

(** An ICMP echo request from 10.0.0.1 to 10.0.0.2, and an ARP request. *)
Definition sample_echo : list Z :=
  [2; 0; 0; 0; 0; 2; 2; 0; 0; 0; 0; 1; 8; 0] ++
  [69; 0; 0; 28; 0; 0; 0; 0; 64; 1; 102; 223; 10; 0; 0; 1; 10; 0; 0; 2] ++ [8; 0; 247; 248; 0; 7; 0; 0].
Definition sample_arp : list Z :=
  [255; 255; 255; 255; 255; 255; 2; 0; 0; 0; 0; 1; 8; 6] ++ [0; 1; 8; 0; 6; 4; 0; 1] ++
  [2; 0; 0; 0; 0; 1; 10; 0; 0; 1; 0; 0; 0; 0; 0; 0; 10; 0; 0; 2].
Definition echo_mbuf (b : list Z) : mbuf := Mbuf [Seg b (Z.of_nat (length b))] 1 (Z.of_nat (length b)) 0 0 0 0 0 0 no_offload.

Lemma bytes_decide (b : list Z) : forallb (fun x => (0 <=? x) && (x <? 256)) b = true -> Forall byte_ok b.
Proof.
  intros H. apply Forall_forall. intros x Hx. apply list_elem_of_In in Hx.
  rewrite forallb_forall in H. specialize (H x Hx). unfold byte_ok. lia.
Qed.

Lemma icmp_reply_ok_witness :
  exists b', icmp_reply 14 sample_echo = Done (Some b') /\ rd b' 0 6 = rd sample_echo 6 6.
Proof.
  destruct (icmp_reply_ok sample_echo 14 8 (take 20 (drop 14 sample_echo)) (drop 34 sample_echo))
    as (b' & h' & m' & E & H & _).
  - lia.
  - lia.
  - apply bytes_decide. reflexivity.
  - reflexivity.
  - reflexivity.
  - reflexivity.
  - split; [reflexivity|]. exists 1. reflexivity.
  - split; [reflexivity|]. exists 1. reflexivity.
  - exists b'. split; [exact E|exact H].
Defined.

Lemma arp_reply_ok_witness :
  exists b', arp_reply (Some [9; 9; 9; 9; 9; 9]) 14 sample_arp = Done (Some b') /\
    rd b' 0 6 = rd sample_arp 6 6.
Proof.
  pose proof (arp_reply_ok sample_arp 14 [9; 9; 9; 9; 9; 9] [0; 1; 8; 0; 6; 4; 0; 1]
    ltac:(lia) ltac:(vm_compute; congruence) eq_refl (bytes_decide sample_arp eq_refl) eq_refl) as H.
  rewrite decide_True in H by reflexivity. destruct H as (b' & E & H & _).
  exists b'. split; [exact E|exact H].
Defined.

Lemma icmpecho_burst_witness :
  exists r unsent,
    @reply_to_icmp_echo_rqsts sample_ethdev 3 4 sample_ports sample_fs
      (echo_mbuf <$> [sample_echo; replicate 60 0; sample_arp]) = Some (Done r) /\
    length (br_sent r ++ unsent) = 2%nat.
Proof.
  destruct (@icmpecho_burst sample_ethdev 4 sample_ports sample_fs
    (echo_mbuf <$> [sample_echo; replicate 60 0; sample_arp])
    (echo_mbuf <$> [sample_echo; replicate 60 0; sample_arp]) []
    (let f b := match echo_packet sample_ports sample_fs (echo_mbuf b) with Done r => r | _ => None end in
     [f sample_echo; None; f sample_arp]) 3) as (r & unsent & E & _ & Hs & _).
  - lia.
  - reflexivity.
  - repeat (constructor; [vm_compute; reflexivity|]). constructor.
  - cbn. lia.
  - unfold counters_ok. cbn. lia.
  - exists r, unsent. split; [exact E|]. rewrite Hs. reflexivity.
Defined.

Lemma icmpecho_hangs_witness :
  ~ exists r, @reply_to_icmp_echo_rqsts sample_ethdev 1000 512 sample_ports sample_fs
    (replicate 256 (echo_mbuf sample_echo)) = Some (Done r).
Proof. intros [r E]. revert E. apply (@icmpecho_hangs sample_ethdev). vm_compute. congruence. Defined.
