(* ===== verification/PortConf.v ===== *)
(** * test-pmd/testpmd.c: the device configuration of the ports

    [rxtx_port_config], [init_port_config], [get_eth_dcb_conf] and
    [init_port_dcb_config].  The device information and the capabilities
    come from DPDK. *)

From S2P Require Import Prelude.

(** ** Data *)

Inductive rx_mq_mode : Type :=
| ETH_MQ_RX_NONE | ETH_MQ_RX_RSS | ETH_MQ_RX_VMDQ_RSS | ETH_MQ_RX_VMDQ_DCB | ETH_MQ_RX_DCB_RSS.
Inductive tx_mq_mode : Type := ETH_MQ_TX_NONE | ETH_MQ_TX_VMDQ_DCB | ETH_MQ_TX_DCB.

#[export] Instance rx_mq_mode_eq : EqDecision rx_mq_mode.
Proof. solve_decision. Defined.
#[export] Instance tx_mq_mode_eq : EqDecision tx_mq_mode.
Proof. solve_decision. Defined.

(** [rte_eth_rxconf] and [rte_eth_txconf] *)
Record rxconf : Type := RxConf {
  rx_pth : Z; rx_hth : Z; rx_wth : Z; rx_free : Z; rx_drop : Z;
}.
Record txconf : Type := TxConf {
  tx_pth : Z; tx_hth : Z; tx_wth : Z; tx_rs : Z; tx_free : Z; tx_q_flags : Z;
}.

(** [rte_eth_conf], as far as it is set here: [rx_mode] stands for the
    fields of the receive mode other than its multi-queue mode. *)
Record eth_conf : Type := EthConf {
  rx_mode : Z;
  hw_vlan_filter : Z;
  rx_mq : rx_mq_mode;
  tx_mq : tx_mq_mode;
  conf_rss_hf : Z;
  vmdq_nb_queue_pools : Z;
  vmdq_pool_map : list (Z * Z);
  vmdq_dcb_tc : list Z;
  dcb_nb_tcs : Z;
  dcb_tc : list Z;
  dcb_capability_en : Z;
}.

(** The structure cleared by [memset]. *)
Definition zero_conf : eth_conf :=
  EthConf 0 0 ETH_MQ_RX_NONE ETH_MQ_TX_NONE 0 0 [] (replicate 8 0) 0 (replicate 8 0) 0.

(** The fields of [rte_eth_dev_info] that are used. *)
Record dev_info : Type := DevInfo {
  max_rx_queues : Z;
  max_tx_queues : Z;
  max_vfs : Z;
  vmdq_pool_base : Z;
  default_rxconf : rxconf;
  default_txconf : txconf;
}.

(** The threshold parameters of the command line. *)
Definition RTE_PMD_PARAM_UNSET : Z := -1.

Record thresholds : Type := Thresholds {
  p_rx_pthresh : Z; p_rx_hthresh : Z; p_rx_wthresh : Z; p_rx_free_thresh : Z; p_rx_drop_en : Z;
  p_tx_pthresh : Z; p_tx_hthresh : Z; p_tx_wthresh : Z; p_tx_rs_thresh : Z; p_tx_free_thresh : Z;
  p_txq_flags : Z;
}.

Definition no_thresholds : thresholds := Thresholds (-1) (-1) (-1) (-1) (-1) (-1) (-1) (-1) (-1) (-1) (-1).

(** The configuration of a port. *)
Record port_conf : Type := PortConf {
  conf : eth_conf; rx_conf : rxconf; tx_conf : txconf; dcb_flag : bool;
}.

(** ** Operations *)

(** A parameter of [w] bits when it is set, the default otherwise. *)
Definition param (to_field : Z -> Z) (p default : Z) : Z :=
  if p =? RTE_PMD_PARAM_UNSET then default else to_field p.

Definition rxtx_port_config (t : thresholds) (info : dev_info) (c : port_conf) : port_conf :=
  let rx := default_rxconf info in
  let tx := default_txconf info in
  PortConf (conf c)
    (RxConf (param u8 (p_rx_pthresh t) (rx_pth rx)) (param u8 (p_rx_hthresh t) (rx_hth rx))
       (param u8 (p_rx_wthresh t) (rx_wth rx)) (param u16 (p_rx_free_thresh t) (rx_free rx))
       (param u8 (p_rx_drop_en t) (rx_drop rx)))
    (TxConf (param u8 (p_tx_pthresh t) (tx_pth tx)) (param u8 (p_tx_hthresh t) (tx_hth tx))
       (param u8 (p_tx_wthresh t) (tx_wth tx)) (param u16 (p_tx_rs_thresh t) (tx_rs tx))
       (param u16 (p_tx_free_thresh t) (tx_free tx)) (param u32 (p_txq_flags t) (tx_q_flags tx)))
    (dcb_flag c).

(** The body of the loop of [init_port_config] for one port, up to the calls
    that read the address and map the statistics registers; [mode] and
    [filter] are the global [rx_mode]. *)
Definition init_one_config (nb_rxq rss_hf mode filter : Z) (t : thresholds) (info : dev_info)
    (c : port_conf) : port_conf :=
  let old := conf c in
  let hf := if 1 <? nb_rxq then rss_hf else 0 in
  let rx := if negb (dcb_flag c) && (max_vfs info =? 0)
            then (if negb (hf =? 0) then ETH_MQ_RX_RSS else ETH_MQ_RX_NONE) else ETH_MQ_RX_NONE in
  let '(rx, tx) :=
    if negb (max_vfs info =? 0)
    then ((if negb (hf =? 0) then ETH_MQ_RX_VMDQ_RSS else ETH_MQ_RX_NONE), ETH_MQ_TX_NONE)
    else (rx, tx_mq old) in
  rxtx_port_config t info
    (PortConf (EthConf mode filter rx tx hf (vmdq_nb_queue_pools old) (vmdq_pool_map old)
                 (vmdq_dcb_tc old) (dcb_nb_tcs old) (dcb_tc old) (dcb_capability_en old))
       (rx_conf c) (tx_conf c) (dcb_flag c)).

Inductive dcb_mode_enable : Type := DCB_VT_ENABLED | DCB_ENABLED.

Definition vlan_tags : list Z := Z.of_nat <$> seq 0 32.

Definition ETH_4_TCS : Z := 4.
Definition ETH_DCB_PG_SUPPORT : Z := 1.
Definition ETH_DCB_PFC_SUPPORT : Z := 2.

(** [1 << k], an [int] that becomes a 64-bit mask. *)
Definition pool_mask (k : Z) : Z := u64 (s32 (Z.shiftl 1 k)).

(** The array [dcb_tc] with the first [n] classes set. *)
Definition identity_tc (n : Z) : list Z :=
  (Z.of_nat <$> seq 0 (Z.to_nat n)) ++ replicate (8 - Z.to_nat n) 0.

Definition get_eth_dcb_conf (rss_hf : Z) (c : eth_conf) (mode : dcb_mode_enable) (num_tcs : Z)
    (pfc_en : bool) : eth_conf :=
  let cap := if pfc_en then Z.lor ETH_DCB_PG_SUPPORT ETH_DCB_PFC_SUPPORT else ETH_DCB_PG_SUPPORT in
  match mode with
  | DCB_VT_ENABLED =>
      let n := if num_tcs =? ETH_4_TCS then 32 else 16 in
      EthConf (rx_mode c) (hw_vlan_filter c) ETH_MQ_RX_VMDQ_DCB ETH_MQ_TX_VMDQ_DCB (conf_rss_hf c) n
        (imap (fun i tag => (tag, pool_mask (Z.of_nat i mod n))) (take (Z.to_nat n) vlan_tags))
        (identity_tc 8) (dcb_nb_tcs c) (dcb_tc c) cap
  | DCB_ENABLED =>
      EthConf (rx_mode c) (hw_vlan_filter c) ETH_MQ_RX_DCB_RSS ETH_MQ_TX_DCB rss_hf
        (vmdq_nb_queue_pools c) (vmdq_pool_map c) (vmdq_dcb_tc c) num_tcs (identity_tc num_tcs) cap
  end.

Definition set_rx_free_thresh (x : Z) (t : thresholds) : thresholds :=
  Thresholds (p_rx_pthresh t) (p_rx_hthresh t) (p_rx_wthresh t) x (p_rx_drop_en t)
    (p_tx_pthresh t) (p_tx_hthresh t) (p_tx_wthresh t) (p_tx_rs_thresh t) (p_tx_free_thresh t) (p_txq_flags t).

Definition set_vlan_filter (x : Z) (e : eth_conf) : eth_conf :=
  EthConf (rx_mode e) x (rx_mq e) (tx_mq e) (conf_rss_hf e) (vmdq_nb_queue_pools e) (vmdq_pool_map e)
    (vmdq_dcb_tc e) (dcb_nb_tcs e) (dcb_tc e) (dcb_capability_en e).

(** The numbers of queues for DCB. *)
Definition dcb_queues (mode : dcb_mode_enable) (num_tcs : Z) (info : dev_info) : Z * Z :=
  match mode with
  | DCB_VT_ENABLED => (max_rx_queues info, max_tx_queues info)
  | DCB_ENABLED =>
      if vmdq_pool_base info =? 0 then (max_rx_queues info, max_tx_queues info)
      else (u16 num_tcs, u16 num_tcs)
  end.

(** [init_port_dcb_config] without the calls that set the VLAN filter and the
    statistics registers: [nb_rxq] and [nb_txq], the thresholds with the new
    [rx_free_thresh], and the port; [None] for -1. *)
Definition init_port_dcb_config (rss_hf : Z) (t : thresholds) (info : dev_info) (mode : dcb_mode_enable)
    (num_tcs : Z) (pfc_en : bool) (c : port_conf) : option (Z * Z * thresholds * port_conf) :=
  if match mode with DCB_VT_ENABLED => 0 <? vmdq_pool_base info | DCB_ENABLED => false end then None
  else
    let '(rxq, txq) := dcb_queues mode num_tcs info in
    let t := set_rx_free_thresh 64 t in
    let e := get_eth_dcb_conf rss_hf zero_conf mode num_tcs pfc_en in
    let c := rxtx_port_config t info (PortConf e (rx_conf c) (tx_conf c) (dcb_flag c)) in
    Some (rxq, txq, t, PortConf (set_vlan_filter 1 (conf c)) (rx_conf c) (tx_conf c) true).

(** ** Properties *)

(** The pools of the tag [i]. *)
Lemma pool_mask_small k : 0 <= k < 31 -> pool_mask k = 2 ^ k.
Proof.
  intros Hk. unfold pool_mask. rewrite Z.shiftl_1_l.
  assert (0 < 2 ^ k < 2 ^ 31) by (split; [lia|apply Z.pow_lt_mono_r; lia]).
  rewrite s32_small, u64_small by lia. done.
Qed.

(** In DCB mode with virtualisation every tag of the table is mapped to
    a pool of its own, except that with 32 pools the last tag is mapped to
    its pool and to all pools from 32 to 63 as well, because its mask is
    computed as an [int]. *)
Theorem dcb_vt_pools rss_hf c num_tcs pfc_en i tag pools :
  vmdq_pool_map (get_eth_dcb_conf rss_hf c DCB_VT_ENABLED num_tcs pfc_en) !! i = Some (tag, pools) ->
  tag = Z.of_nat i /\
  pools = if (num_tcs =? ETH_4_TCS) && (i =? 31)%nat then 2 ^ 64 - 2 ^ 31 else 2 ^ Z.of_nat i.
Proof.
  unfold get_eth_dcb_conf. cbn [vmdq_pool_map]. rewrite list_lookup_imap.
  set (n := if num_tcs =? ETH_4_TCS then 32 else 16).
  assert (Hn : (n = 32 /\ (num_tcs =? ETH_4_TCS) = true) \/ (n = 16 /\ (num_tcs =? ETH_4_TCS) = false))
    by (unfold n; destruct (num_tcs =? ETH_4_TCS); auto). clearbody n.
  destruct (decide (i < Z.to_nat n)%nat) as [Hi|Hi];
    [rewrite lookup_take_lt by done|rewrite lookup_take_ge by lia; done].
  unfold vlan_tags. rewrite list_lookup_fmap, lookup_seq_lt by lia. cbn. intros E. injection E as <- <-.
  split; [done|]. rewrite Z.mod_small by lia.
  destruct Hn as [[-> ->]|[-> ->]]; cbn [andb].
  - destruct (Nat.eqb_spec i 31) as [->|]; [reflexivity|]. apply pool_mask_small. lia.
  - apply pool_mask_small. lia.
Qed.

(** Initialising the configuration of a port in DCB mode drops its mode. *)
Lemma init_one_config_drops_dcb nb_rxq rss_hf mode filter t info c :
  max_vfs info = 0 -> dcb_flag c = true ->
  rx_mq (conf (init_one_config nb_rxq rss_hf mode filter t info c)) = ETH_MQ_RX_NONE /\
  dcb_flag (init_one_config nb_rxq rss_hf mode filter t info c) = true.
Proof. intros Hv Hd. unfold init_one_config. rewrite Hv, Hd. done. Qed.

(** ** Witnesses *)

Lemma dcb_vt_pools_witness :
  vmdq_pool_map (get_eth_dcb_conf 0 zero_conf DCB_VT_ENABLED 4 false) !! 31%nat = Some (31, 2 ^ 64 - 2 ^ 31) /\
  2 ^ 64 - 2 ^ 31 = 2 ^ 64 - 2 ^ 31.
Proof.
  assert (E : vmdq_pool_map (get_eth_dcb_conf 0 zero_conf DCB_VT_ENABLED 4 false) !! 31%nat =
    Some (31, 2 ^ 64 - 2 ^ 31)) by (vm_compute; reflexivity).
  split; [exact E|]. exact (proj2 (dcb_vt_pools 0 zero_conf 4 false 31 31 (2 ^ 64 - 2 ^ 31) E)).
Defined.
