(* ===== verification/PortState.v ===== *)
(** * test-pmd/testpmd.c: the life cycle of the ports

    [init_fwd_streams], [start_port], [stop_port], [close_port],
    [attach_port], [detach_port] and [reconfig] as functions on the state of
    the program.  A call into DPDK is recorded in the list [calls], latest
    first, and answered by an arbitrary function of that list, so that the
    theorems hold for every behaviour of the devices.  The links that are
    printed after starting and stopping are not part of the state. *)

From S2P Require Import Prelude Packet PortConf.

(** ** Data *)

Inductive status : Type := STOPPED | STARTED | CLOSED | HANDLING.

#[export] Instance status_eq : EqDecision status.
Proof. solve_decision. Defined.

(** [struct rte_port] *)
Record rte_port : Type := RtePort {
  enabled : bool;
  port_status : status;
  need_reconfig : bool;
  need_reconfig_queues : bool;
  socket_id : Z;
  slave_flag : bool;
  info : dev_info;
  pconf : port_conf;
}.

(** The calls that change a device; the others are only asked for values. *)
Inductive dpdk_call : Type :=
| DevConfigure (pi nb_rxq nb_txq : Z) (c : eth_conf)
| TxQueueSetup (pi qi nb_txd socket : Z) (c : txconf)
| RxQueueSetup (pi qi nb_rxd socket : Z) (c : rxconf) (pool : bool)
| DevStart (pi : Z)
| DevStop (pi : Z)
| DevClose (pi : Z)
| DevAttach (identifier : Z)
| DevDetach (pi : Z)
| PromiscuousEnable (pi : Z).

(** The program's variables, and the calls made. *)
Record pstate : Type := PState {
  ports : list rte_port;
  nb_ports : Z;
  nb_cfg_ports : Z;
  nb_fwd_ports : Z;
  fwd_ports_ids : list Z;
  fwd_streams : list fwd_stream;
  test_done : bool;
  dcb_config : bool;
  dcb_test : bool;
  calls : list dpdk_call;
}.

(** The configuration that commands set: the numbers of queues and of
    descriptors, the NUMA set-up, and the defaults of [init_port_config]. *)
Record config : Type := Config {
  nb_rxq : Z;
  nb_txq : Z;
  nb_rxd : Z;
  nb_txd : Z;
  numa_support : bool;
  port_numa : Z -> Z;
  rxring_numa : Z -> Z;
  txring_numa : Z -> Z;
  socket_num : Z;
  max_socket : Z;
  g_rx_mode : Z;
  g_vlan_filter : Z;
  g_rss_hf : Z;
  g_thresholds : thresholds;
}.

Definition NUMA_NO_CONFIG : Z := 255.
Definition UMA_NO_CONFIG : Z := 255.

(** What DPDK answers: the result of a call after the calls before it, the
    port of an attached device, the number of devices, the socket and the
    information of a device, and whether a socket has a memory pool. *)
Record dpdk : Type := Dpdk {
  diag : list dpdk_call -> Z;
  attached_port : list dpdk_call -> Z;
  dev_count : list dpdk_call -> Z;
  dev_socket_id : Z -> Z;
  dev_info_get : Z -> dev_info;
  mbuf_pool_find : Z -> bool;
}.

(** ** State access *)

Definition set_ports (l : list rte_port) (st : pstate) : pstate :=
  PState l (nb_ports st) (nb_cfg_ports st) (nb_fwd_ports st) (fwd_ports_ids st) (fwd_streams st)
    (test_done st) (dcb_config st) (dcb_test st) (calls st).
Definition set_calls (l : list dpdk_call) (st : pstate) : pstate :=
  PState (ports st) (nb_ports st) (nb_cfg_ports st) (nb_fwd_ports st) (fwd_ports_ids st)
    (fwd_streams st) (test_done st) (dcb_config st) (dcb_test st) l.
Definition set_dcb (c t : bool) (st : pstate) : pstate :=
  PState (ports st) (nb_ports st) (nb_cfg_ports st) (nb_fwd_ports st) (fwd_ports_ids st)
    (fwd_streams st) (test_done st) c t (calls st).
Definition set_fwd_streams (l : list fwd_stream) (st : pstate) : pstate :=
  PState (ports st) (nb_ports st) (nb_cfg_ports st) (nb_fwd_ports st) (fwd_ports_ids st) l
    (test_done st) (dcb_config st) (dcb_test st) (calls st).
Definition set_fwd_ports (nb cfg fwd : Z) (ids : list Z) (st : pstate) : pstate :=
  PState (ports st) nb cfg fwd ids (fwd_streams st) (test_done st) (dcb_config st) (dcb_test st) (calls st).
Definition set_test_done (b : bool) (st : pstate) : pstate :=
  PState (ports st) (nb_ports st) (nb_cfg_ports st) (nb_fwd_ports st) (fwd_ports_ids st)
    (fwd_streams st) b (dcb_config st) (dcb_test st) (calls st).

Definition upd_port (pi : Z) (f : rte_port -> rte_port) (st : pstate) : pstate :=
  set_ports (alter f (Z.to_nat pi) (ports st)) st.

Definition with_status (s : status) (p : rte_port) : rte_port :=
  RtePort (enabled p) s (need_reconfig p) (need_reconfig_queues p) (socket_id p) (slave_flag p) (info p) (pconf p).
Definition with_reconfig (b : bool) (p : rte_port) : rte_port :=
  RtePort (enabled p) (port_status p) b (need_reconfig_queues p) (socket_id p) (slave_flag p) (info p) (pconf p).
Definition with_reconfig_queues (b : bool) (p : rte_port) : rte_port :=
  RtePort (enabled p) (port_status p) (need_reconfig p) b (socket_id p) (slave_flag p) (info p) (pconf p).
Definition with_socket (s : Z) (p : rte_port) : rte_port :=
  RtePort (enabled p) (port_status p) (need_reconfig p) (need_reconfig_queues p) s (slave_flag p) (info p) (pconf p).
Definition with_enabled (b : bool) (p : rte_port) : rte_port :=
  RtePort b (port_status p) (need_reconfig p) (need_reconfig_queues p) (socket_id p) (slave_flag p) (info p) (pconf p).
Definition with_slave (b : bool) (p : rte_port) : rte_port :=
  RtePort (enabled p) (port_status p) (need_reconfig p) (need_reconfig_queues p) (socket_id p) b (info p) (pconf p).
Definition with_info (i : dev_info) (p : rte_port) : rte_port :=
  RtePort (enabled p) (port_status p) (need_reconfig p) (need_reconfig_queues p) (socket_id p) (slave_flag p) i (pconf p).
Definition with_conf (c : port_conf) (p : rte_port) : rte_port :=
  RtePort (enabled p) (port_status p) (need_reconfig p) (need_reconfig_queues p) (socket_id p) (slave_flag p) (info p) c.

(** [rte_atomic16_cmpset(&ports[pi].port_status, exp, new)] *)
Definition cmpset (pi : Z) (exp new : status) (st : pstate) : bool * pstate :=
  match zget (ports st) pi with
  | Some p => if decide (port_status p = exp) then (true, upd_port pi (with_status new) st) else (false, st)
  | None => (false, st)
  end.

Definition dpdk_do (d : dpdk) (c : dpdk_call) (st : pstate) : Z * pstate :=
  (diag d (c :: calls st), set_calls (c :: calls st) st).

(** ** Iterating over the ports *)

(** [find_next_port]: the next enabled port from [p] on, or the number of
    ports, in at most [fuel] steps. *)
Fixpoint find_next_port (fuel : nat) (p : Z) (l : list rte_port) : Z :=
  match fuel with
  | O => p
  | S fuel =>
      if p <? Z.of_nat (length l) then
        match zget l p with
        | Some q => if enabled q then p else find_next_port fuel (p + 1) l
        | None => p
        end
      else p
  end.

(** The ports that [FOREACH_PORT] visits from [p] on. *)
Fixpoint foreach_port (fuel : nat) (p : Z) (l : list rte_port) : list Z :=
  match fuel with
  | O => []
  | S fuel =>
      let p := find_next_port (length l) p l in
      if p <? Z.of_nat (length l) then p :: foreach_port fuel (p + 1) l else []
  end.

(** All enabled ports; the loops below do not enable or disable ports. *)
Definition port_ids (l : list rte_port) : list Z := foreach_port (length l) 0 l.

Definition RTE_PORT_ALL : Z := 255.

(** [port_id_is_invalid]; the number of all ports passes. *)
Definition port_id_is_invalid (pid : Z) (st : pstate) : bool :=
  if pid =? RTE_PORT_ALL then false
  else match zget (ports st) pid with Some p => negb (enabled p) | None => true end.

Definition all_ports_started (st : pstate) : bool :=
  forallb (fun pi => match zget (ports st) pi with
                     | Some p => negb (negb (bool_decide (port_status p = STARTED)) && negb (slave_flag p))
                     | None => true
                     end) (port_ids (ports st)).

Definition all_ports_stopped (st : pstate) : bool :=
  forallb (fun pi => match zget (ports st) pi with
                     | Some p => negb (negb (bool_decide (port_status p = STOPPED)) && negb (slave_flag p))
                     | None => true
                     end) (port_ids (ports st)).

(** [port_is_started] and [port_is_closed]; for [RTE_PORT_ALL] they read the
    array out of bounds. *)
Definition port_is (s : status) (pid : Z) (st : pstate) : outcome bool :=
  if port_id_is_invalid pid st then Done false
  else p ← of_opt (zget (ports st) pid); Done (bool_decide (port_status p = s)).

(** ** Forwarding streams *)

Definition zero_stream : fwd_stream := FwdStream 0 0 0 0 0 0 0 0 0 0.

(** The socket of a port for its rings. *)
Definition port_socket (d : dpdk) (c : config) (pid : Z) : Z :=
  if numa_support c then
    if negb (port_numa c pid =? NUMA_NO_CONFIG) then port_numa c pid
    else
      let socket_id := u32 (dev_socket_id d pid) in
      if max_socket c <=? socket_id then 0 else socket_id
  else if socket_num c =? UMA_NO_CONFIG then 0 else socket_num c.

(** The loop of [init_fwd_streams] over the ports. *)
Fixpoint set_sockets (d : dpdk) (c : config) (pids : list Z) (st : pstate) : bool * pstate :=
  match pids with
  | [] => (true, st)
  | pid :: pids =>
      match zget (ports st) pid with
      | Some p =>
          if max_rx_queues (info p) <? nb_rxq c then (false, st)
          else if max_tx_queues (info p) <? nb_txq c then (false, st)
          else set_sockets d c pids (upd_port pid (with_socket (port_socket d c pid)) st)
      | None => (false, st)
      end
  end.

(** [init_fwd_streams]; memory for the streams is taken to be available. *)
Definition init_fwd_streams (d : dpdk) (c : config) (st : pstate) : bool * pstate :=
  let '(ok, st) := set_sockets d c (port_ids (ports st)) st in
  if ok then
    let n := u16 (nb_ports st * nb_rxq c) in
    if n =? Z.of_nat (length (fwd_streams st)) then (true, st)
    else (true, set_fwd_streams (replicate (Z.to_nat n) zero_stream) st)
  else (false, st).

(** ** Starting, stopping and closing *)

Section Ops.
Variables (d : dpdk) (c : config).

(** The set-up of the transmit queues [qs] of a port. *)
Fixpoint setup_tx_queues (pi : Z) (p : rte_port) (qs : list Z) (st : pstate) : bool * pstate :=
  match qs with
  | [] => (true, st)
  | qi :: qs =>
      let socket := if numa_support c && negb (txring_numa c pi =? NUMA_NO_CONFIG)
                    then txring_numa c pi else socket_id p in
      let '(r, st) := dpdk_do d (TxQueueSetup pi qi (nb_txd c) socket (tx_conf (pconf p))) st in
      if r =? 0 then setup_tx_queues pi p qs st else (false, st)
  end.

(** The same for the receive queues: [None] when the socket of the ring has
    no memory pool. *)
Fixpoint setup_rx_queues (pi : Z) (p : rte_port) (qs : list Z) (st : pstate) : option bool * pstate :=
  match qs with
  | [] => (Some true, st)
  | qi :: qs =>
      let ring := numa_support c && negb (rxring_numa c pi =? NUMA_NO_CONFIG) in
      let socket := if ring then rxring_numa c pi else socket_id p in
      if ring && negb (mbuf_pool_find d socket) then (None, st)
      else
        let '(r, st) := dpdk_do d (RxQueueSetup pi qi (nb_rxd c) socket (rx_conf (pconf p))
                                     (mbuf_pool_find d socket)) st in
        if r =? 0 then setup_rx_queues pi p qs st else (Some false, st)
  end.

Definition queues (n : Z) : list Z := Z.of_nat <$> seq 0 (Z.to_nat n).

(** Configuring a port that is being handled: whether to go on. *)
Definition configure_port (pi : Z) (p : rte_port) (st : pstate) : bool * pstate :=
  if need_reconfig p then
    let st := upd_port pi (with_reconfig false) st in
    let '(r, st) := dpdk_do d (DevConfigure pi (nb_rxq c) (nb_txq c) (conf (pconf p))) st in
    if r =? 0 then (true, st)
    else
      let '(_, st) := cmpset pi HANDLING STOPPED st in
      (false, upd_port pi (with_reconfig true) st)
  else (true, st).

Definition fail_queues (pi : Z) (st : pstate) : pstate :=
  let '(_, st) := cmpset pi HANDLING STOPPED st in upd_port pi (with_reconfig_queues true) st.

Definition configure_queues (pi : Z) (p : rte_port) (st : pstate) : bool * pstate :=
  if need_reconfig_queues p then
    let st := upd_port pi (with_reconfig_queues false) st in
    let '(ok, st) := setup_tx_queues pi p (queues (nb_txq c)) st in
    if ok then
      let '(r, st) := setup_rx_queues pi p (queues (nb_rxq c)) st in
      match r with
      | Some true => (true, st)
      | Some false => (false, fail_queues pi st)
      | None => (false, st)
      end
    else (false, fail_queues pi st)
  else (true, st).

(** One pass of the loop of [start_port]: [false] when it returns -1. *)
Definition start_one (pi : Z) (st : pstate) : bool * pstate :=
  let '(ok, st) := cmpset pi STOPPED HANDLING st in
  if negb ok then (true, st)
  else
    match zget (ports st) pi with
    | None => (true, st)
    | Some p =>
        let '(ok, st) := configure_port pi p st in
        if negb ok then (false, st)
        else
          let '(ok, st) := configure_queues pi p st in
          if negb ok then (false, st)
          else
            let '(r, st) := dpdk_do d (DevStart pi) st in
            if r <? 0 then (true, (cmpset pi HANDLING STOPPED st).2)
            else (true, (cmpset pi HANDLING STARTED st).2)
    end.

(** The ports of the loop that [pid] selects. *)
Definition selected (pid : Z) (l : list Z) : list Z :=
  filter (fun pi => pid = pi \/ pid = RTE_PORT_ALL) l.

Fixpoint start_loop (pids : list Z) (st : pstate) : bool * pstate :=
  match pids with
  | [] => (true, st)
  | pi :: pids =>
      let '(ok, st) := start_one pi st in if ok then start_loop pids st else (false, st)
  end.

Definition start_port (pid : Z) (st : pstate) : Z * pstate :=
  if negb (test_done st) then (-1, st)
  else if port_id_is_invalid pid st then (0, st)
  else
    let '(ok, st) := init_fwd_streams d c st in
    if negb ok then (-1, st)
    else
      let st := if dcb_config st then set_dcb (dcb_config st) true st else st in
      let '(ok, st) := start_loop (selected pid (port_ids (ports st))) st in
      (if ok then 0 else -1, st).

Definition stop_one (st : pstate) (pi : Z) : pstate :=
  let '(ok, st) := cmpset pi STARTED HANDLING st in
  if negb ok then st
  else
    let '(_, st) := dpdk_do d (DevStop pi) st in
    (cmpset pi HANDLING STOPPED st).2.

Definition stop_port (pid : Z) (st : pstate) : pstate :=
  if negb (test_done st) then st
  else
    let st := if dcb_test st then set_dcb false false st else st in
    if port_id_is_invalid pid st then st
    else foldl stop_one st (selected pid (port_ids (ports st))).

Definition close_one (st : pstate) (pi : Z) : pstate :=
  let '(closed, st) := cmpset pi CLOSED CLOSED st in
  if (closed : bool) then st
  else
    let '(ok, st) := cmpset pi STOPPED HANDLING st in
    if negb ok then st
    else
      let '(_, st) := dpdk_do d (DevClose pi) st in
      (cmpset pi HANDLING CLOSED st).2.

Definition close_port (pid : Z) (st : pstate) : pstate :=
  if negb (test_done st) then st
  else if port_id_is_invalid pid st then st
  else foldl close_one st (selected pid (port_ids (ports st))).

(** ** Attaching and detaching *)

(** [init_port_config] over the ports; the registers of the statistics are
    the business of QueueMap.v. *)
Definition init_port_config (st : pstate) : pstate :=
  foldl (fun st pid =>
    upd_port pid (fun p => with_conf (init_one_config (nb_rxq c) (g_rss_hf c) (g_rx_mode c)
      (g_vlan_filter c) (g_thresholds c) (info p) (pconf p)) p) st) st (port_ids (ports st)).

Definition reconfig (pi socket : Z) (st : pstate) : pstate :=
  init_port_config
    (upd_port pi (fun p => with_socket socket (with_reconfig_queues true (with_reconfig true
      (with_info (dev_info_get d pi) p)))) st).

(** The array of forwarding ports after attaching or detaching: all ports. *)
Definition all_fwd_ports (st : pstate) : list Z :=
  let l := port_ids (ports st) in l ++ replicate (length (ports st) - length l) 0.

(** [attach_port]; the port number is a [portid_t] of DPDK, which the array
    must cover. *)
Definition attach_port (identifier : option Z) (st : pstate) : outcome pstate :=
  match identifier with
  | None => Done st
  | Some name =>
      if negb (test_done st) then Done st
      else
        let '(r, st) := dpdk_do d (DevAttach name) st in
        if negb (r =? 0) then Done st
        else
          let pi := attached_port d (calls st) in
          _ ← of_opt (zget (ports st) pi);
          let st := upd_port pi (with_enabled true) st in
          let st := reconfig pi (u32 (dev_socket_id d pi)) st in
          let '(_, st) := dpdk_do d (PromiscuousEnable pi) st in
          let n := dev_count d (calls st) in
          let st := set_fwd_ports n n (u8 (nb_fwd_ports st + 1)) (all_fwd_ports st) st in
          Done (upd_port pi (with_status STOPPED) st)
  end.

Definition detach_port (port_id : Z) (st : pstate) : outcome pstate :=
  closed ← port_is CLOSED port_id st;
  if negb closed then Done st
  else
    let '(r, st) := dpdk_do d (DevDetach port_id) st in
    if negb (r =? 0) then Done st
    else
      let st := upd_port port_id (with_enabled false) st in
      let n := dev_count d (calls st) in
      Done (set_fwd_ports n n (u8 (nb_fwd_ports st - 1)) (all_fwd_ports st) st).

Definition set_port_slave_flag (pid : Z) (b : bool) (st : pstate) : pstate :=
  upd_port pid (with_slave b) st.

(** [pmd_test_exit] after the forwarding has ended. *)
Definition close_all (st : pstate) : pstate :=
  foldl (fun st pi => (dpdk_do d (DevClose pi) st).2) st (port_ids (ports st)).
End Ops.

(** ** The protocol of the devices

    What DPDK asks of its callers: a device is configured, given queues,
    started and closed only while it is not running, and stopped only while
    it is.  Its queues are set up once it has been configured, and it is
    started once it is configured and every queue of its configuration is
    set up.  A closed device may only be detached, and an attached one is
    new.  A device is [None] when a call broke this for the port. *)

Inductive dev_state : Type := Idle | Running | Gone.

(** A device: what it does, the numbers of queues of its configuration, and
    the queues that are set up. *)
Record ethdev : Type := EthDev {
  ed_mode : dev_state;
  ed_configured : option (Z * Z);
  ed_rx : list Z;
  ed_tx : list Z;
}.

Definition new_ethdev : ethdev := EthDev Idle None [] [].
Definition with_mode (m : dev_state) (s : ethdev) : ethdev := EthDev m (ed_configured s) (ed_rx s) (ed_tx s).

Definition is_configured (s : ethdev) : bool := match ed_configured s with Some _ => true | None => false end.

(** Whether a device may be started; without [full] its queues are not
    looked at. *)
Definition ready (full : bool) (s : ethdev) : bool :=
  match ed_configured s with
  | Some (nrx, ntx) => negb full || (bool_decide (queues nrx ⊆ ed_rx s) && bool_decide (queues ntx ⊆ ed_tx s))
  | None => false
  end.

(** The queues set up after an attempt to set up [q]. *)
Definition queue_set (ok : bool) (q : Z) (l : list Z) : list Z :=
  if ok then q :: l else filter (fun q' => q' <> q) l.

(** A call for the device with the result [r].  A configuration keeps the
    queues within its numbers; one that fails leaves the device without. *)
Definition dev_call (full : bool) (r : Z) (c : dpdk_call) (s : ethdev) : option ethdev :=
  match c, ed_mode s with
  | DevConfigure _ nrx ntx _, Idle =>
      Some (EthDev Idle (if r =? 0 then Some (nrx, ntx) else None)
              (filter (fun q => q < nrx) (ed_rx s)) (filter (fun q => q < ntx) (ed_tx s)))
  | TxQueueSetup _ q _ _ _, Idle =>
      if is_configured s then Some (EthDev Idle (ed_configured s) (ed_rx s) (queue_set (r =? 0) q (ed_tx s))) else None
  | RxQueueSetup _ q _ _ _ _, Idle =>
      if is_configured s then Some (EthDev Idle (ed_configured s) (queue_set (r =? 0) q (ed_rx s)) (ed_tx s)) else None
  | DevStart _, Idle => if ready full s then Some (if r <? 0 then s else with_mode Running s) else None
  | DevStop _, Running => Some (with_mode Idle s)
  | DevClose _, Idle => Some (with_mode Gone s)
  | DevDetach _, Gone => Some s
  | _, _ => None
  end.

Definition call_on (pi : Z) (c : dpdk_call) : bool :=
  match c with
  | DevConfigure p _ _ _ | TxQueueSetup p _ _ _ _ | RxQueueSetup p _ _ _ _ _
  | DevStart p | DevStop p | DevClose p | DevDetach p => p =? pi
  | DevAttach _ | PromiscuousEnable _ => false
  end.

Fixpoint device (d : dpdk) (full : bool) (calls : list dpdk_call) (pi : Z) : option ethdev :=
  match calls with
  | [] => Some new_ethdev
  | c :: calls' =>
      s ← device d full calls' pi;
      match c with
      | DevAttach _ => Some (if (diag d calls =? 0) && (attached_port d calls =? pi) then new_ethdev else s)
      | _ => if call_on pi c then dev_call full (diag d calls) c s else Some s
      end
  end.

(** What a device does that a status stands for. *)
Definition dev_of (s : status) : dev_state :=
  match s with STOPPED | HANDLING => Idle | STARTED => Running | CLOSED => Gone end.

(** What the marks of a port say of its device when all configurations have
    the numbers of queues [n]; without them only that it is configured. *)
Definition cfg_ok (n : option (Z * Z)) (s : ethdev) : Prop :=
  match n with Some k => ed_configured s = Some k | None => is_Some (ed_configured s) end.
Definition queues_ok (n : option (Z * Z)) (s : ethdev) : Prop :=
  match n with Some (nrx, ntx) => queues nrx ⊆ ed_rx s /\ queues ntx ⊆ ed_tx s | None => True end.
Definition marks_ok (n : option (Z * Z)) (p : rte_port) (s : ethdev) : Prop :=
  (need_reconfig p = false -> cfg_ok n s) /\ (need_reconfig_queues p = false -> queues_ok n s).

Definition dev_fits (n : option (Z * Z)) (p : rte_port) (s : ethdev) : Prop :=
  ed_mode s = dev_of (port_status p) /\
  (enabled p = true -> port_status p = STOPPED \/ port_status p = STARTED -> marks_ok n p s).

(** The invariant: no call broke the protocol, and the status and the marks
    of every port agree with its device. *)
Definition ports_ok (d : dpdk) (n : option (Z * Z)) (st : pstate) : Prop :=
  forall pi p, zget (ports st) pi = Some p ->
    exists s, device d (bool_decide (is_Some n)) (calls st) pi = Some s /\ dev_fits n p s.

(** Configurations with the numbers of queues [n]. *)
Definition numbers_ok (n : option (Z * Z)) (c : config) : Prop :=
  match n with Some k => (nb_rxq c, nb_txq c) = k | None => True end.

(** ** Lemmas *)

Lemma zget_upd_same pi f st p :
  zget (ports st) pi = Some p -> zget (ports (upd_port pi f st)) pi = Some (f p).
Proof.
  intros [H0 Hp]%zget_Some. apply zget_Some. split; [done|]. cbn.
  by rewrite list_lookup_alter_eq, Hp.
Qed.

Lemma zget_upd_other pi pi' f st :
  pi <> pi' -> 0 <= pi -> zget (ports (upd_port pi f st)) pi' = zget (ports st) pi'.
Proof.
  intros Hne H0. unfold zget. destruct (Z.leb_spec 0 pi'); [|done]. cbn.
  apply list_lookup_alter_ne. lia.
Qed.

Lemma zget_nonneg {A} (l : list A) i x : zget l i = Some x -> 0 <= i.
Proof. by intros [? _]%zget_Some. Qed.

(** A successful [cmpset]. *)
Lemma cmpset_true pi e n st st' :
  cmpset pi e n st = (true, st') ->
  (exists p, zget (ports st) pi = Some p /\ port_status p = e) /\ st' = upd_port pi (with_status n) st.
Proof.
  unfold cmpset. destruct (zget (ports st) pi) as [p|]; [|done].
  destruct (decide (port_status p = e)); [|done]. intros [= <-]. eauto.
Qed.

Lemma cmpset_false pi e n st st' : cmpset pi e n st = (false, st') -> st' = st.
Proof.
  unfold cmpset. destruct (zget (ports st) pi) as [p|]; [|by intros [= <-]].
  destruct (decide _); by intros [= <-].
Qed.

Lemma elem_of_queues k q : q ∈ queues k <-> 0 <= q < k.
Proof.
  unfold queues. rewrite list_elem_of_fmap. split.
  - intros (i & -> & Hi). apply elem_of_seq in Hi. lia.
  - intros Hq. exists (Z.to_nat q). split; [lia|]. apply elem_of_seq. lia.
Qed.

Lemma find_next_port_le fuel p l : p <= find_next_port fuel p l.
Proof.
  revert p. induction fuel as [|fuel IH]; intros p; cbn; [lia|].
  destruct (_ <? _); [|lia]. destruct (zget l p) as [q|]; [|lia]. destruct (enabled q); [lia|].
  specialize (IH (p + 1)). lia.
Qed.

Lemma foreach_port_nonneg fuel p l : 0 <= p -> Forall (fun x => 0 <= x) (foreach_port fuel p l).
Proof.
  revert p. induction fuel as [|fuel IH]; intros p Hp; cbn; [constructor|].
  pose proof (find_next_port_le (length l) p l). destruct (_ <? _); [|constructor].
  constructor; [lia|]. apply IH. lia.
Qed.

(** What [FOREACH_PORT] visits: the enabled ports in order. *)
Definition enabled_at (l : list rte_port) (i : Z) : bool :=
  match zget l i with Some p => enabled p | None => false end.

Lemma find_next_port_spec fuel p l :
  0 <= p -> (length l - Z.to_nat p <= fuel)%nat ->
  let q := find_next_port fuel p l in
  p <= q /\ (forall i, p <= i < q -> enabled_at l i = false) /\
  (q < Z.of_nat (length l) -> enabled_at l q = true) /\ q <= Z.max p (Z.of_nat (length l)).
Proof.
  revert p. induction fuel as [|fuel IH]; intros p Hp Hf; cbn [find_next_port].
  - split_and!; [lia|intros; lia|intros; lia|lia].
  - destruct (Z.ltb_spec p (Z.of_nat (length l))) as [Hlt|Hge]; [|split_and!; [lia|intros; lia|intros; lia|lia]].
    destruct (zget_is_Some l p) as [q Hq]; [lia|]. rewrite Hq. destruct (enabled q) eqn:Hen.
    + split_and!; [lia|intros; lia|intros _; unfold enabled_at; by rewrite Hq|lia].
    + destruct (IH (p + 1)) as (H1 & H2 & H3 & H4); [lia|lia|]. split_and!; [lia| |done|lia].
      intros i Hi. destruct (decide (i = p)) as [->|]; [unfold enabled_at; by rewrite Hq|]. apply H2. lia.
Qed.

Lemma filter_none {A} (P : A -> Prop) `{forall x, Decision (P x)} (l : list A) :
  Forall (fun x => ~ P x) l -> filter P l = [].
Proof. induction 1 as [|x l Hx Hl IH]; [done|]. by rewrite filter_cons_False. Qed.

Lemma foreach_port_spec fuel p l :
  0 <= p -> (length l - Z.to_nat p <= fuel)%nat ->
  foreach_port fuel p l = filter (fun i => enabled_at l i = true) (seqZ p (Z.of_nat (length l) - p)).
Proof.
  revert p. induction fuel as [|fuel IH]; intros p Hp Hf; cbn [foreach_port].
  - rewrite seqZ_nil by lia. done.
  - pose proof (find_next_port_spec (length l) p l Hp ltac:(lia)) as (H1 & H2 & H3 & H4).
    set (q := find_next_port _ _ _) in *.
    destruct (Z.leb_spec (Z.of_nat (length l)) p).
    { rewrite (seqZ_nil p) by lia. destruct (Z.ltb_spec q (Z.of_nat (length l))); [lia|done]. }
    replace (Z.of_nat (length l) - p) with ((q - p) + (Z.of_nat (length l) - q)) by lia.
    rewrite seqZ_app, filter_app by lia.
    rewrite (filter_none _ (seqZ p (q - p))).
    2: { apply Forall_seqZ. intros i Hi. rewrite H2 by lia. done. }
    replace (p + (q - p)) with q by lia. cbn [app].
    destruct (Z.ltb_spec q (Z.of_nat (length l))).
    + rewrite (seqZ_cons q), filter_cons_True by (auto; lia). f_equal.
      rewrite IH by lia. f_equal. f_equal; lia.
    + rewrite seqZ_nil by lia. done.
Qed.

Lemma port_ids_spec l :
  port_ids l = filter (fun i => enabled_at l i = true) (seqZ 0 (Z.of_nat (length l))).
Proof. unfold port_ids. rewrite foreach_port_spec by lia. by rewrite Z.sub_0_r. Qed.

Lemma elem_of_port_ids l i :
  i ∈ port_ids l <-> exists p, zget l i = Some p /\ enabled p = true.
Proof.
  rewrite port_ids_spec, list_elem_of_filter, elem_of_seqZ. unfold enabled_at. split.
  - intros [He _]. destruct (zget l i) as [p|]; [eauto|done].
  - intros (p & Hp & He). rewrite Hp. split; [done|].
    apply zget_Some in Hp as [H0 Hp]. apply lookup_lt_Some in Hp. lia.
Qed.

(** ** What starting, stopping and closing keep

    They change the status of ports, their marks and sockets, the calls, the
    streams and the flags of DCB: a property that none of these changes
    affects is kept. *)
Section Kept.
Context (d : dpdk) (c : config) (Q : pstate -> Prop).

Definition mild (f : rte_port -> rte_port) : Prop :=
  forall p, slave_flag (f p) = slave_flag p /\ enabled (f p) = enabled p /\ info (f p) = info p /\ pconf (f p) = pconf p.

Context (Qupd : forall pi f st, mild f -> Q st -> Q (upd_port pi f st)).
Context (Qcalls : forall k st, Q st -> Q (set_calls k st)).
Context (Qdcb : forall a b st, Q st -> Q (set_dcb a b st)).
Context (Qstreams : forall l st, Q st -> Q (set_fwd_streams l st)).

Lemma keep_cmpset pi e n st : Q st -> Q (cmpset pi e n st).2.
Proof. intros H. unfold cmpset. repeat case_match; try done. by apply Qupd. Qed.

Lemma keep_setup_tx pi p qs st : Q st -> Q (setup_tx_queues d c pi p qs st).2.
Proof.
  revert st. induction qs as [|q qs IH]; intros st H; [done|]. cbn [setup_tx_queues dpdk_do].
  destruct (_ =? 0); [apply IH|]; by apply Qcalls.
Qed.

Lemma keep_setup_rx pi p qs st : Q st -> Q (setup_rx_queues d c pi p qs st).2.
Proof.
  revert st. induction qs as [|q qs IH]; intros st H; [done|]. cbn [setup_rx_queues dpdk_do].
  destruct (_ && _ && _); [done|]. destruct (_ =? 0); [apply IH|]; by apply Qcalls.
Qed.

(** After giving up on a port. *)
Lemma keep_fail pi f st : mild f -> Q st -> Q (let '(_, st) := cmpset pi HANDLING STOPPED st in upd_port pi f st).
Proof.
  intros Hf H. pose proof (keep_cmpset pi HANDLING STOPPED st H) as H1. destruct (cmpset _ _ _ _) as [b st1]. by apply Qupd.
Qed.

Lemma keep_configure_port pi p st : Q st -> Q (configure_port d c pi p st).2.
Proof.
  intros H. unfold configure_port, dpdk_do. destruct (need_reconfig p); [|done].
  destruct (_ =? 0); [by apply Qcalls, Qupd|].
  pose proof (keep_fail pi (with_reconfig true)
    (set_calls (DevConfigure pi (nb_rxq c) (nb_txq c) (conf (pconf p)) :: calls st) (upd_port pi (with_reconfig false) st))) as Hf.
  cbn [upd_port set_ports calls] in *. destruct (cmpset _ _ _ _) as [b st1]. apply Hf; [done|]. apply Qcalls. by apply Qupd.
Qed.

Lemma keep_configure_queues pi p st : Q st -> Q (configure_queues d c pi p st).2.
Proof.
  intros H. unfold configure_queues. destruct (need_reconfig_queues p); [|done].
  set (st0 := upd_port _ _ _). assert (H0 : Q st0) by by apply Qupd. clearbody st0.
  pose proof (keep_setup_tx pi p (queues (nb_txq c)) st0 H0) as H1.
  destruct (setup_tx_queues _ _ _ _ _ _) as [[] st1]; [|by apply keep_fail].
  pose proof (keep_setup_rx pi p (queues (nb_rxq c)) st1 H1) as H2.
  destruct (setup_rx_queues _ _ _ _ _ _) as [[[]|] st2]; [done|by apply keep_fail|done].
Qed.

Lemma keep_start_one pi st : Q st -> Q (start_one d c pi st).2.
Proof.
  intros H. unfold start_one. pose proof (keep_cmpset pi STOPPED HANDLING st H) as H0.
  destruct (cmpset _ _ _ _) as [[] st0]; cbn [negb snd] in *; [|done]. destruct (zget _ _) as [p|]; [|done].
  pose proof (keep_configure_port pi p st0 H0) as H1. destruct (configure_port _ _ _ _ _) as [[] st1]; [|done].
  pose proof (keep_configure_queues pi p st1 H1) as H2. destruct (configure_queues _ _ _ _ _) as [[] st2]; [|done].
  cbn [negb dpdk_do snd]. destruct (_ <? 0); by apply keep_cmpset, Qcalls.
Qed.

Lemma keep_start_loop l st : Q st -> Q (start_loop d c l st).2.
Proof.
  revert st. induction l as [|pi l IH]; intros st H; [done|]. cbn [start_loop]. pose proof (keep_start_one pi st H) as H1.
  destruct (start_one _ _ _ _) as [[] st1]; [by apply IH|done].
Qed.

Lemma keep_init_fwd_streams st : Q st -> Q (init_fwd_streams d c st).2.
Proof.
  intros H. unfold init_fwd_streams. generalize (port_ids (ports st)) as l. intros l.
  assert (H1 : Q (set_sockets d c l st).2).
  { revert st H. induction l as [|pi l IH]; intros st H; cbn [set_sockets]; [done|]. destruct (zget _ _); [|done].
    destruct (_ <? _); [done|]. destruct (_ <? _); [done|]. apply IH. by apply Qupd. }
  destruct (set_sockets _ _ _ _) as [[] st1]; [|done]. destruct (_ =? _); [done|]. by apply Qstreams.
Qed.

Lemma keep_start_port pid st : Q st -> Q (start_port d c pid st).2.
Proof.
  intros H. unfold start_port. destruct (negb _); [done|]. destruct (port_id_is_invalid _ _); [done|].
  pose proof (keep_init_fwd_streams st H) as H1. destruct (init_fwd_streams _ _ _) as [[] st1]; [|done]. cbn [negb snd] in *.
  set (st2 := if dcb_config st1 then _ else _). assert (H2 : Q st2) by (unfold st2; destruct (dcb_config st1); auto).
  pose proof (keep_start_loop (selected pid (port_ids (ports st2))) st2 H2) as H3. by destruct (start_loop _ _ _ _).
Qed.

Lemma keep_foldl {A} (f : pstate -> A -> pstate) l st : (forall s x, Q s -> Q (f s x)) -> Q st -> Q (foldl f st l).
Proof. intros Hf. revert st. induction l as [|x l IH]; intros st H; [done|]. apply IH. by apply Hf. Qed.

Lemma keep_stop_port pid st : Q st -> Q (stop_port d pid st).
Proof.
  intros H. unfold stop_port. destruct (negb _); [done|]. set (st1 := if dcb_test st then _ else _).
  assert (H1 : Q st1) by (unfold st1; destruct (dcb_test st); auto). destruct (port_id_is_invalid _ _); [done|].
  apply keep_foldl; [|done]. intros s x Hs. unfold stop_one. pose proof (keep_cmpset x STARTED HANDLING s Hs) as H2.
  destruct (cmpset _ _ _ _) as [[] s1]; [|done]. cbn [negb dpdk_do snd]. by apply keep_cmpset, Qcalls.
Qed.

Lemma keep_close_port pid st : Q st -> Q (close_port d pid st).
Proof.
  intros H. unfold close_port. destruct (negb _); [done|]. destruct (port_id_is_invalid _ _); [done|].
  apply keep_foldl; [|done]. intros s x Hs. unfold close_one. pose proof (keep_cmpset x CLOSED CLOSED s Hs) as H1.
  destruct (cmpset x CLOSED CLOSED s) as [[] s1]; [done|]. cbn [snd] in H1. pose proof (keep_cmpset x STOPPED HANDLING s1 H1) as H2.
  destruct (cmpset x STOPPED HANDLING s1) as [[] s2]; [|done]. cbn [negb dpdk_do snd]. by apply keep_cmpset, Qcalls.
Qed.
End Kept.

(** ** Lemmas: the protocol *)

Section Protocol.
Context (d : dpdk) (n : option (Z * Z)).
Abbreviation dev_at st pi := (device d (bool_decide (is_Some n)) (calls st) pi).

(** The invariant with a view on the port [pi], which is [p] and may differ
    from its device [s]. *)
Definition focus (pi : Z) (p : rte_port) (s : ethdev) (st : pstate) : Prop :=
  zget (ports st) pi = Some p /\ dev_at st pi = Some s /\
  forall pi' p', pi' <> pi -> zget (ports st) pi' = Some p' -> exists s', dev_at st pi' = Some s' /\ dev_fits n p' s'.

Lemma focus_open st pi p :
  ports_ok d n st -> zget (ports st) pi = Some p -> exists s, dev_fits n p s /\ focus pi p s st.
Proof. intros Hok Hp. destruct (Hok _ _ Hp) as (s & Hs & Hf). exists s. split; [done|]. split_and!; eauto. Qed.

Lemma focus_close pi p s st : focus pi p s st -> dev_fits n p s -> ports_ok d n st.
Proof.
  intros (Hp & Hs & Ho) Hf pi' p' Hp'. destruct (decide (pi' = pi)) as [->|]; [|by apply Ho].
  rewrite Hp in Hp'. injection Hp' as <-. eauto.
Qed.

Lemma focus_upd pi p s f st : focus pi p s st -> focus pi (f p) s (upd_port pi f st).
Proof.
  intros (Hp & Hs & Ho). pose proof (zget_nonneg _ _ _ Hp). split_and!; [by apply zget_upd_same|done|].
  intros pi' p' Hne Hp'. rewrite zget_upd_other in Hp' by done. by apply Ho.
Qed.

Lemma focus_cmpset pi p s e e' st :
  focus pi p s st -> port_status p = e -> cmpset pi e e' st = (true, upd_port pi (with_status e') st).
Proof. intros (Hp & _) Hs. unfold cmpset. rewrite Hp. by rewrite decide_True. Qed.

(** A call for the port in view. *)
Lemma focus_call pi p s s' c st :
  focus pi p s st -> (forall pj, call_on pj c = (pi =? pj)) -> (forall i, c <> DevAttach i) ->
  dev_call (bool_decide (is_Some n)) (diag d (c :: calls st)) c s = Some s' -> focus pi p s' (dpdk_do d c st).2.
Proof.
  intros (Hp & Hs & Ho) Hc Ha Hd.
  assert (H : forall pj, dev_at (set_calls (c :: calls st) st) pj =
    t ← dev_at st pj; if pi =? pj then dev_call (bool_decide (is_Some n)) (diag d (c :: calls st)) c t else Some t).
  { intros pj. cbn -[diag attached_port dev_call call_on]. destruct (device _ _ _ _); [|done]. cbn [mbind option_bind].
    rewrite <- Hc. by destruct c. }
  split_and!; [done| |]; cbn [dpdk_do snd].
  - rewrite H, Hs. cbn [mbind option_bind]. by rewrite Z.eqb_refl.
  - intros pj p' Hne Hp'. rewrite H. destruct (Ho _ _ Hne Hp') as (t & -> & Ht). cbn [mbind option_bind].
    rewrite (proj2 (Z.eqb_neq pi pj)) by congruence. eauto.
Qed.

(** Updates that keep the status, and change the rest only in ways that ask
    less of the device. *)
Definition quiet (f : rte_port -> rte_port) : Prop :=
  forall p, port_status (f p) = port_status p /\ (enabled (f p) = true -> enabled p = true) /\
    (need_reconfig (f p) = false -> need_reconfig p = false) /\
    (need_reconfig_queues (f p) = false -> need_reconfig_queues p = false).

Lemma quiet_fits f p s : quiet f -> dev_fits n p s -> dev_fits n (f p) s.
Proof.
  intros Hf [Hm Hk]. destruct (Hf p) as (Hs & He & Hr & Hq). unfold dev_fits. rewrite Hs. split; [done|].
  intros He' Hs'. destruct (Hk (He He') Hs') as [H1 H2]. split; eauto.
Qed.

Lemma zget_upd_inv pj f st pi p :
  zget (ports (upd_port pj f st)) pi = Some p ->
  exists q, zget (ports st) pi = Some q /\ (p = q \/ p = f q).
Proof.
  intros [H0 Hp]%zget_Some. cbn in Hp. destruct (decide (Z.to_nat pj = Z.to_nat pi)) as [He|].
  - rewrite He, list_lookup_alter_eq in Hp. destruct (ports st !! Z.to_nat pi) as [q|] eqn:Hq; [|done].
    injection Hp as <-. exists q. split; [by apply zget_Some|by right].
  - rewrite list_lookup_alter_ne in Hp by done. exists p. split; [by apply zget_Some|by left].
Qed.

Lemma ports_ok_upd pj f st : ports_ok d n st -> quiet f -> ports_ok d n (upd_port pj f st).
Proof.
  intros Hok Hf pi p Hp. apply zget_upd_inv in Hp as (q & Hq & Hor). destruct (Hok _ _ Hq) as (s & Hs & Hfit).
  exists s. split; [done|]. destruct Hor as [-> | ->]; [done|by apply quiet_fits].
Qed.

(** A port whose marks are set. *)
Definition marked (p : rte_port) : Prop := need_reconfig p = true /\ need_reconfig_queues p = true.

Lemma marked_fits p s : marked p -> ed_mode s = dev_of (port_status p) -> dev_fits n p s.
Proof. intros [H1 H2] Hm. split; [done|]. intros _ _. unfold marks_ok. rewrite H1, H2. by split. Qed.

Lemma focus_upd_quiet pi p s pj f st :
  focus pi p s st -> marked p -> quiet f -> exists p', marked p' /\ focus pi p' s (upd_port pj f st).
Proof.
  intros (Hp & Hs & Ho) [M1 M2] Hf.
  assert (Hp' : exists p', zget (ports (upd_port pj f st)) pi = Some p').
  { apply zget_Some in Hp as [H0 Hp]. apply lookup_lt_Some in Hp. apply zget_is_Some. cbn. rewrite length_alter. lia. }
  destruct Hp' as [p' Hp']. exists p'. split.
  - apply zget_upd_inv in Hp' as (q & Hq & Hor). rewrite Hp in Hq. injection Hq as <-.
    destruct Hor as [-> | ->]; [done|]. destruct (Hf p) as (_ & _ & H1 & H2). rewrite M1 in H1. rewrite M2 in H2.
    split; [destruct (need_reconfig (f p))|destruct (need_reconfig_queues (f p))]; auto; symmetry; auto.
  - split_and!; [done|done|]. intros pi' q' Hne Hq'. apply zget_upd_inv in Hq' as (q & Hq & Hor).
    destruct (Ho _ _ Hne Hq) as (t & Ht & Hfit). exists t. split; [done|]. destruct Hor as [-> | ->]; [done|by apply quiet_fits].
Qed.

Lemma focus_foldl pi p s (f : Z -> rte_port -> rte_port) l st :
  focus pi p s st -> marked p -> (forall x, quiet (f x)) ->
  exists p', marked p' /\ focus pi p' s (foldl (fun st x => upd_port x (f x) st) st l).
Proof.
  intros Hfo Hm Hf. revert p st Hfo Hm. induction l as [|x l IH]; intros p st Hfo Hm; [by exists p|]. cbn [foldl].
  destruct (focus_upd_quiet pi p s x (f x) st Hfo Hm (Hf x)) as (p' & Hm' & Hfo'). by eapply IH.
Qed.

Lemma foldl_ok {A} (f : pstate -> A -> pstate) l st :
  (forall s x, ports_ok d n s -> ports_ok d n (f s x)) -> ports_ok d n st -> ports_ok d n (foldl f st l).
Proof. intros Hf. revert st. induction l as [|x l IH]; intros st Hok; [done|]. apply IH. by apply Hf. Qed.

(** ** Lemmas: starting, stopping and closing keep the protocol *)

(** What setting up queues changes of a device. *)
Definition grown (s s' : ethdev) : Prop :=
  ed_mode s' = Idle /\ ed_configured s' = ed_configured s.

Lemma cfg_ok_configured s : cfg_ok n s -> is_configured s = true.
Proof. unfold cfg_ok, is_configured. destruct n; [by intros ->|by intros [? ->]]. Qed.

Lemma cfg_ok_same s s' : ed_configured s' = ed_configured s -> cfg_ok n s -> cfg_ok n s'.
Proof. unfold cfg_ok. destruct n; by intros ->. Qed.

Lemma ready_ok s : cfg_ok n s -> queues_ok n s -> ready (bool_decide (is_Some n)) s = true.
Proof.
  unfold cfg_ok, queues_ok, ready. destruct n as [[nrx ntx]|].
  - intros -> [H1 H2]. rewrite !(bool_decide_true (queues _ ⊆ _)) by done. apply orb_true_r.
  - intros [[nrx ntx] ->] _. done.
Qed.

Lemma setup_tx_queues_focus c pi p p0 s qs st :
  focus pi p s st -> ed_mode s = Idle -> is_configured s = true ->
  exists s', focus pi p s' (setup_tx_queues d c pi p0 qs st).2 /\ grown s s' /\
    ((setup_tx_queues d c pi p0 qs st).1 = true -> ed_rx s' = ed_rx s /\ ed_tx s ⊆ ed_tx s' /\ qs ⊆ ed_tx s').
Proof.
  revert s st. induction qs as [|q qs IH]; intros s st Hf Hm Hc.
  { exists s. split; [done|]. split; [done|]. intros _. split; [done|]. split; [done|]. apply list_subseteq_nil. }
  cbn [setup_tx_queues]. match goal with |- context [dpdk_do d ?k st] => set (c0 := k) end.
  pose proof (focus_call pi p s _ c0 st Hf ltac:(done) ltac:(done) ltac:(unfold dev_call, c0; by rewrite Hm, Hc)) as H1.
  fold c0 in H1. unfold dpdk_do in *. cbn [snd] in H1. destruct (diag d (c0 :: calls st) =? 0).
  - destruct (IH _ _ H1 eq_refl Hc) as (s' & F' & [G1 G2] & H'). exists s'. split; [done|]. split; [by split|].
    intros Hok. destruct (H' Hok) as (R & T & Q). cbn in R, T. apply list_subseteq_cons_iff in T as [Hq T].
    split; [done|]. split; [done|]. by apply list_subseteq_cons_iff.
  - eexists. split; [exact H1|]. split; [done|]. done.
Qed.

Lemma setup_rx_queues_focus c pi p p0 s qs st :
  focus pi p s st -> ed_mode s = Idle -> is_configured s = true ->
  exists s', focus pi p s' (setup_rx_queues d c pi p0 qs st).2 /\ grown s s' /\
    ((setup_rx_queues d c pi p0 qs st).1 = Some true -> ed_tx s' = ed_tx s /\ ed_rx s ⊆ ed_rx s' /\ qs ⊆ ed_rx s').
Proof.
  revert s st. induction qs as [|q qs IH]; intros s st Hf Hm Hc.
  { exists s. split; [done|]. split; [done|]. intros _. split; [done|]. split; [done|]. apply list_subseteq_nil. }
  cbn [setup_rx_queues]. destruct (_ && _ && _); [by exists s|].
  match goal with |- context [dpdk_do d ?k st] => set (c0 := k) end.
  pose proof (focus_call pi p s _ c0 st Hf ltac:(done) ltac:(done) ltac:(unfold dev_call, c0; by rewrite Hm, Hc)) as H1.
  fold c0 in H1. unfold dpdk_do in *. cbn [snd] in H1. destruct (diag d (c0 :: calls st) =? 0).
  - destruct (IH _ _ H1 eq_refl Hc) as (s' & F' & [G1 G2] & H'). exists s'. split; [done|]. split; [by split|].
    intros Hok. destruct (H' Hok) as (R & T & Q). cbn in R, T. apply list_subseteq_cons_iff in T as [Hq T].
    split; [done|]. split; [done|]. by apply list_subseteq_cons_iff.
  - eexists. split; [exact H1|]. split; [done|]. done.
Qed.

(** What a part of [start_one] leaves: the port with a device for the next
    part, and else the invariant. *)
Definition part_ok (pi : Z) (r : bool * pstate) (Q : ethdev -> Prop) : Prop :=
  if r.1 then exists p s, focus pi p s r.2 /\ port_status p = HANDLING /\ ed_mode s = Idle /\ Q s else ports_ok d n r.2.

Lemma configure_port_ok c pi p s st :
  numbers_ok n c -> focus pi p s st -> port_status p = HANDLING -> ed_mode s = Idle -> marks_ok n p s ->
  part_ok pi (configure_port d c pi p st)
    (fun s' => cfg_ok n s' /\ (need_reconfig_queues p = false -> queues_ok n s')).
Proof.
  intros Hn Hf Hh Hm [M1 M2]. unfold configure_port. destruct (need_reconfig p) eqn:Hr.
  2: { exists p, s. split_and!; auto. }
  pose proof (focus_upd _ _ _ (with_reconfig false) _ Hf) as H1. set (st1 := upd_port _ _ _) in *. clearbody st1.
  set (c0 := DevConfigure _ _ _ _).
  pose proof (focus_call pi _ s _ c0 st1 H1 ltac:(done) ltac:(done) ltac:(unfold dev_call, c0; by rewrite Hm)) as H2.
  fold c0 in H2. unfold dpdk_do in *. cbn [snd] in H2. set (s' := EthDev _ _ _ _) in H2.
  assert (Hq : need_reconfig_queues p = false -> queues_ok n s').
  { intros Hq. specialize (M2 Hq). unfold queues_ok, numbers_ok in *. destruct n as [[nrx ntx]|]; [|done].
    injection Hn as E1 E2. destruct M2 as [Q1 Q2]. unfold s'. cbn [ed_rx ed_tx]. rewrite E1, E2.
    split; intros q Hin; apply list_elem_of_filter; (split; [|auto]); apply elem_of_queues in Hin; lia. }
  destruct (diag d (c0 :: calls st1) =? 0) eqn:Hd.
  - exists (with_reconfig false p), s'. split_and!; try done. unfold cfg_ok, s'. cbn [ed_configured].
    unfold numbers_ok in Hn. destruct n; [by rewrite Hn|by eexists].
  - rewrite (focus_cmpset _ _ _ HANDLING STOPPED _ H2 Hh). unfold part_ok. cbn [fst snd].
    eapply focus_close; [apply focus_upd, focus_upd, H2|]. split; [done|]. intros _ _. by split.
Qed.

Lemma fail_queues_ok pi p s st :
  focus pi p s st -> port_status p = HANDLING -> ed_mode s = Idle -> cfg_ok n s -> ports_ok d n (fail_queues pi st).
Proof.
  intros Hf Hh Hm Hc. unfold fail_queues. rewrite (focus_cmpset _ _ _ HANDLING STOPPED _ Hf Hh).
  eapply focus_close; [apply focus_upd, focus_upd, Hf|]. split; [done|]. intros _ _. by split.
Qed.

Lemma handling_ok pi p s st : focus pi p s st -> port_status p = HANDLING -> ed_mode s = Idle -> ports_ok d n st.
Proof. intros Hf Hh Hm. eapply focus_close; [exact Hf|]. split; [by rewrite Hh|]. intros _ [H|H]; congruence. Qed.

Lemma configure_queues_ok c pi p p0 s st :
  numbers_ok n c -> focus pi p s st -> port_status p = HANDLING -> ed_mode s = Idle -> cfg_ok n s ->
  (need_reconfig_queues p0 = false -> queues_ok n s) ->
  part_ok pi (configure_queues d c pi p0 st) (fun s' => cfg_ok n s' /\ queues_ok n s').
Proof.
  intros Hn Hf Hh Hm Hc Hq. unfold configure_queues. destruct (need_reconfig_queues p0).
  2: { exists p, s. split_and!; auto. }
  pose proof (focus_upd _ _ _ (with_reconfig_queues false) _ Hf) as H1. set (st1 := upd_port _ _ _) in *. clearbody st1.
  destruct (setup_tx_queues_focus c pi _ p0 s (queues (nb_txq c)) st1 H1 Hm (cfg_ok_configured _ Hc))
    as (s2 & H2 & [Hm2 Hc2] & T2).
  apply (cfg_ok_same _ _ Hc2) in Hc.
  destruct (setup_tx_queues _ _ _ _ _ _) as [[] st2]; cbn [fst snd] in *; [|by eapply fail_queues_ok].
  destruct (setup_rx_queues_focus c pi _ p0 s2 (queues (nb_rxq c)) st2 H2 Hm2 (cfg_ok_configured _ Hc))
    as (s3 & H3 & [Hm3 Hc3] & T3).
  apply (cfg_ok_same _ _ Hc3) in Hc.
  destruct (setup_rx_queues _ _ _ _ _ _) as [[[]|] st3]; cbn [fst snd] in *.
  - eexists _, s3. split; [exact H3|]. split_and!; [done..|]. unfold queues_ok, numbers_ok in *. destruct n as [[nrx ntx]|]; [|done].
    injection Hn as E1 E2. destruct (T2 eq_refl) as (_ & _ & ?). destruct (T3 eq_refl) as (-> & _ & ?). by rewrite <- E1, <- E2.
  - by eapply fail_queues_ok.
  - by eapply handling_ok.
Qed.

Lemma start_one_ok c pi st :
  numbers_ok n c -> enabled_at (ports st) pi = true -> ports_ok d n st -> ports_ok d n (start_one d c pi st).2.
Proof.
  intros Hn He Hok. unfold start_one. destruct (cmpset pi STOPPED HANDLING st) as [ok st1] eqn:E.
  destruct ok; cbn [negb]; [|by rewrite (cmpset_false _ _ _ _ _ E)].
  apply cmpset_true in E as [(q & Hq & Hs) ->]. unfold enabled_at in He. rewrite Hq in He.
  destruct (focus_open st pi q Hok Hq) as (s & [Hm Hk] & Hf). rewrite Hs in Hm. specialize (Hk He (or_introl Hs)).
  pose proof (focus_upd _ _ _ (with_status HANDLING) _ Hf) as H0. rewrite (zget_upd_same _ _ _ _ Hq).
  set (p := with_status HANDLING q) in *. set (st1 := upd_port _ _ st) in *. clearbody st1.
  pose proof (configure_port_ok c pi p s st1 Hn H0 eq_refl Hm Hk) as H1.
  destruct (configure_port _ _ _ _ _) as [ok st2]. unfold part_ok in H1. cbn [fst snd] in H1.
  destruct ok; cbn [negb]; [|done]. destruct H1 as (p1 & s1 & F1 & Hh1 & Hm1 & Hc1 & Hq1).
  pose proof (configure_queues_ok c pi p1 p s1 st2 Hn F1 Hh1 Hm1 Hc1 Hq1) as H2.
  destruct (configure_queues _ _ _ _ _) as [ok st3]. unfold part_ok in H2. cbn [fst snd] in H2.
  destruct ok; cbn [negb]; [|done]. destruct H2 as (p2 & s2 & F2 & Hh2 & Hm2 & Hc2 & Hq2).
  pose proof (focus_call pi p2 s2 _ (DevStart pi) st3 F2 ltac:(done) ltac:(done)
    ltac:(unfold dev_call; by rewrite Hm2, (ready_ok _ Hc2 Hq2))) as H3.
  unfold dpdk_do in *. cbn [snd] in H3. set (r := diag d _) in *. clearbody r. destruct (r <? 0);
    rewrite (focus_cmpset _ _ _ HANDLING _ _ H3 Hh2); cbn [snd]; (eapply focus_close; [by apply focus_upd|]);
    (split; [done|by split]).
Qed.

Lemma enabled_at_start_one c pi pj st :
  enabled_at (ports (start_one d c pi st).2) pj = enabled_at (ports st) pj.
Proof.
  apply (keep_start_one d c (fun s => enabled_at (ports s) pj = enabled_at (ports st) pj)); try done.
  intros pk f s Hf <-. unfold enabled_at. destruct (zget (ports s) pj) as [q|] eqn:Hq.
  - destruct (zget (ports (upd_port pk f s)) pj) as [q'|] eqn:Hq'.
    + apply zget_upd_inv in Hq' as (q0 & Hq0 & Hor). rewrite Hq in Hq0. injection Hq0 as <-.
      destruct Hor as [-> | ->]; [done|apply Hf].
    + apply zget_Some in Hq as [H0 Hq]. apply lookup_lt_Some in Hq.
      destruct (zget_is_Some (ports (upd_port pk f s)) pj) as [? ?]; [cbn; rewrite length_alter; lia|congruence].
  - destruct (zget (ports (upd_port pk f s)) pj) as [q'|] eqn:Hq'; [|done].
    apply zget_upd_inv in Hq' as (q0 & Hq0 & _). congruence.
Qed.

Lemma start_loop_ok c pids st :
  numbers_ok n c -> Forall (fun pi => enabled_at (ports st) pi = true) pids ->
  ports_ok d n st -> ports_ok d n (start_loop d c pids st).2.
Proof.
  intros Hn. revert st. induction pids as [|pi pids IH]; intros st He Hok; [done|]. cbn [start_loop].
  apply Forall_cons in He as [He Hes].
  pose proof (start_one_ok c pi st Hn He Hok) as H1. pose proof (enabled_at_start_one c pi) as H2.
  specialize (H2) with (st := st). destruct (start_one _ _ _ _) as [[] st1]; [|done]. apply IH; [|done].
  eapply Forall_impl; [exact Hes|]. intros pj Hj. cbn [snd] in H2. by rewrite H2.
Qed.

Lemma set_sockets_ok c pids st : ports_ok d n st -> ports_ok d n (set_sockets d c pids st).2.
Proof.
  revert st. induction pids as [|pi pids IH]; intros st Hok; [done|]. cbn [set_sockets].
  destruct (zget (ports st) pi); [|done]. destruct (_ <? _); [done|]. destruct (_ <? _); [done|].
  apply IH. by apply ports_ok_upd.
Qed.

Lemma start_port_ok c pid st : numbers_ok n c -> ports_ok d n st -> ports_ok d n (start_port d c pid st).2.
Proof.
  intros Hn Hok. unfold start_port. destruct (negb _); [done|]. destruct (port_id_is_invalid _ _); [done|].
  assert (H1 : ports_ok d n (init_fwd_streams d c st).2).
  { unfold init_fwd_streams. pose proof (set_sockets_ok c (port_ids (ports st)) st Hok) as H.
    destruct (set_sockets _ _ _ _) as [[] st1]; [|done]. by destruct (_ =? _). }
  destruct (init_fwd_streams d c st) as [ok st1]. destruct ok; cbn [negb]; [|done].
  set (st2 := if dcb_config st1 then _ else _).
  assert (H2 : ports_ok d n st2) by (unfold st2; by destruct (dcb_config st1)).
  assert (He : Forall (fun pi => enabled_at (ports st2) pi = true) (selected pid (port_ids (ports st2)))).
  { apply Forall_forall. intros pi Hin. apply list_elem_of_filter in Hin as [_ Hin].
    apply elem_of_port_ids in Hin as (p & Hp & He). unfold enabled_at. by rewrite Hp. }
  pose proof (start_loop_ok c _ st2 Hn He H2) as H3. by destruct (start_loop _ _ _ _) as [ok st3].
Qed.

Lemma stop_one_ok pi st : ports_ok d n st -> ports_ok d n (stop_one d st pi).
Proof.
  intros Hok. unfold stop_one. destruct (cmpset pi STARTED HANDLING st) as [ok st1] eqn:E.
  destruct ok; cbn [negb]; [|by rewrite (cmpset_false _ _ _ _ _ E)].
  apply cmpset_true in E as [(q & Hq & Hs) ->].
  destruct (focus_open st pi q Hok Hq) as (s & [Hm Hk] & Hf). rewrite Hs in Hm.
  pose proof (focus_call pi _ s _ (DevStop pi) _ (focus_upd _ _ _ (with_status HANDLING) _ Hf) ltac:(done) ltac:(done)
    ltac:(unfold dev_call; by rewrite Hm)) as H3.
  unfold dpdk_do in *. cbn [snd] in H3. rewrite (focus_cmpset _ _ _ HANDLING _ _ H3 eq_refl).
  eapply focus_close; [by apply focus_upd|]. split; [done|]. intros He _. exact (Hk He (or_intror Hs)).
Qed.

Lemma stop_port_ok pid st : ports_ok d n st -> ports_ok d n (stop_port d pid st).
Proof.
  intros Hok. unfold stop_port. destruct (negb _); [done|].
  set (st2 := if dcb_test st then _ else _).
  assert (H2 : ports_ok d n st2) by (unfold st2; by destruct (dcb_test st)).
  destruct (port_id_is_invalid _ _); [done|]. apply foldl_ok; [|done]. intros; by apply stop_one_ok.
Qed.

Lemma close_one_ok pi st : ports_ok d n st -> ports_ok d n (close_one d st pi).
Proof.
  intros Hok. unfold close_one. destruct (cmpset pi CLOSED CLOSED st) as [cl st0] eqn:Ec.
  destruct cl.
  { apply cmpset_true in Ec as [(q & Hq & Hs) ->]. destruct (focus_open st pi q Hok Hq) as (s & [Hm Hk] & Hf).
    eapply focus_close; [by apply focus_upd|]. split; [by rewrite Hm, Hs|]. intros _ [H|H]; done. }
  rewrite (cmpset_false _ _ _ _ _ Ec).
  destruct (cmpset pi STOPPED HANDLING st) as [ok st1] eqn:E.
  destruct ok; cbn [negb]; [|by rewrite (cmpset_false _ _ _ _ _ E)].
  apply cmpset_true in E as [(q & Hq & Hs) ->].
  destruct (focus_open st pi q Hok Hq) as (s & [Hm Hk] & Hf). rewrite Hs in Hm.
  pose proof (focus_call pi _ s _ (DevClose pi) _ (focus_upd _ _ _ (with_status HANDLING) _ Hf) ltac:(done) ltac:(done)
    ltac:(unfold dev_call; by rewrite Hm)) as H3.
  unfold dpdk_do in *. cbn [snd] in H3. rewrite (focus_cmpset _ _ _ HANDLING _ _ H3 eq_refl).
  eapply focus_close; [by apply focus_upd|]. split; [done|]. intros _ [H|H]; done.
Qed.

Lemma close_port_ok pid st : ports_ok d n st -> ports_ok d n (close_port d pid st).
Proof.
  intros Hok. unfold close_port. destruct (negb _); [done|]. destruct (port_id_is_invalid _ _); [done|].
  apply foldl_ok; [|done]. intros; by apply close_one_ok.
Qed.

(** ** Lemmas: attaching and detaching keep the protocol *)

Lemma ports_ok_promisc pi st : ports_ok d n st -> ports_ok d n (set_calls (PromiscuousEnable pi :: calls st) st).
Proof. intros H pj q Hq. destruct (H pj q Hq) as (s & Hs & Hf). exists s. cbn [set_calls calls device]. by rewrite Hs. Qed.

Lemma attached_ok c pi socket q st :
  focus pi q new_ethdev st ->
  ports_ok d n (upd_port pi (with_status STOPPED) (set_calls
    (PromiscuousEnable pi :: calls (reconfig d c pi socket (upd_port pi (with_enabled true) st)))
    (reconfig d c pi socket (upd_port pi (with_enabled true) st)))).
Proof.
  intros Hf. set (st1 := reconfig _ _ _ _ _).
  assert (H1 : exists p', marked p' /\ focus pi p' new_ethdev st1).
  { unfold st1, reconfig, init_port_config. eapply focus_foldl; [apply focus_upd, focus_upd, Hf|done|done]. }
  destruct H1 as (p' & Hm & Hp & Hs & Ho). clearbody st1. clear Hf.
  apply (focus_close pi (with_status STOPPED p') new_ethdev); [|by apply marked_fits].
  apply focus_upd. split_and!; [done| |].
  - cbn [calls set_calls device]. by rewrite Hs.
  - intros pj p2 Hne Hp2. destruct (Ho _ _ Hne Hp2) as (s & Hs2 & Hf2). exists s. cbn [calls set_calls device]. by rewrite Hs2.
Qed.

(** A port that was marked may be enabled. *)
Lemma reconfig_marked c pi socket st p : zget (ports (reconfig d c pi socket st)) pi = Some p -> marked p.
Proof.
  unfold reconfig, init_port_config. generalize (port_ids (ports (upd_port pi (fun p =>
    with_socket socket (with_reconfig_queues true (with_reconfig true (with_info (dev_info_get d pi) p)))) st))) as l.
  set (st1 := upd_port pi _ st). intros l.
  assert (H : forall q, zget (ports st1) pi = Some q -> marked q).
  { intros q Hq. unfold zget in Hq. destruct (0 <=? pi); [|done]. cbn in Hq.
    rewrite list_lookup_alter_eq in Hq. destruct (ports st !! Z.to_nat pi); [|done]. by injection Hq as <-. }
  clearbody st1. revert st1 H. induction l as [|x l IH]; intros st1 H Hp; [by apply H|]. cbn [foldl] in Hp.
  eapply IH; [|exact Hp]. intros q Hq. apply zget_upd_inv in Hq as (q0 & Hq0 & Hor). specialize (H _ Hq0).
  by destruct Hor as [-> | ->].
Qed.

Lemma ports_ok_enable pi p st :
  ports_ok d n st -> zget (ports st) pi = Some p -> marked p -> ports_ok d n (upd_port pi (with_enabled true) st).
Proof.
  intros Hok Hp Hm. destruct (focus_open _ _ _ Hok Hp) as (s & [Hs _] & Hf). eapply focus_close; [apply focus_upd, Hf|].
  by apply marked_fits.
Qed.

Lemma attach_port_ok c name st st' : ports_ok d n st -> attach_port d c name st = Done st' -> ports_ok d n st'.
Proof.
  intros Hok. unfold attach_port. destruct name as [name|]; [|by intros [= <-]].
  destruct (negb _); [by intros [= <-]|]. unfold dpdk_do at 1. cbv zeta. set (k := DevAttach name :: calls st).
  assert (H : forall pi, device d (bool_decide (is_Some n)) k pi =
    s ← device d (bool_decide (is_Some n)) (calls st) pi;
    Some (if (diag d k =? 0) && (attached_port d k =? pi) then new_ethdev else s)) by done.
  destruct (Z.eqb_spec (diag d k) 0) as [Hr|Hr]; cbn [negb].
  2: { intros [= <-] pi p Hp. destruct (Hok _ _ Hp) as (s & Hs & Hf). exists s. split; [|done].
    cbn [calls set_calls]. rewrite H, Hs. done. }
  cbn [set_calls calls ports]. set (pi := attached_port d k) in *.
  destruct (zget (ports st) pi) as [q|] eqn:Hq; [|done]. cbn [of_opt mbind outcome_bind dpdk_do].
  destruct (Hok _ _ Hq) as (s & Hs & _). intros [= <-].
  apply (attached_ok c pi (u32 (dev_socket_id d pi)) q (set_calls k st)). split_and!; [done| |]; cbn [calls set_calls].
  - rewrite H, Hs. cbn [mbind option_bind]. by rewrite Z.eqb_refl.
  - intros pj p Hne Hp. destruct (Hok _ _ Hp) as (s' & Hs' & Hf). exists s'. rewrite H, Hs'. cbn [mbind option_bind].
    by rewrite (proj2 (Z.eqb_neq pi pj)) by congruence.
Qed.

Lemma detach_port_ok pid st st' : ports_ok d n st -> detach_port d pid st = Done st' -> ports_ok d n st'.
Proof.
  intros Hok E. unfold detach_port, port_is in E. apply outcome_bind_Done in E as (cl & Hcl & E).
  destruct (port_id_is_invalid pid st).
  { injection Hcl as <-. by injection E as <-. }
  apply outcome_bind_Done in Hcl as (q & Hq & Hcl). destruct (zget (ports st) pid) as [q'|] eqn:Hz; [|done].
  injection Hq as ->. injection Hcl as <-. destruct (bool_decide_reflect (port_status q = CLOSED)) as [Hs|];
    cbn [negb] in E; [|by injection E as <-].
  destruct (focus_open st pid q Hok Hz) as (s & [Hm Hk] & Hf). rewrite Hs in Hm.
  pose proof (focus_call pid _ s s (DevDetach pid) _ Hf ltac:(done) ltac:(done)
    ltac:(unfold dev_call; by rewrite Hm)) as H1. unfold dpdk_do in *. cbn [snd] in H1.
  destruct (diag d _ =? 0); cbn [negb] in E; injection E as <-.
  - eapply (focus_close pid (with_enabled false q) s); [exact (focus_upd _ _ _ (with_enabled false) _ H1)|].
    split; [by rewrite Hm, <- Hs|]. done.
  - eapply focus_close; [exact H1|]. split; [by rewrite Hm, Hs|done].
Qed.
End Protocol.

(** ** Sequences of operations *)

Inductive port_op : Type :=
| OpStart (pid : Z) | OpStop (pid : Z) | OpClose (pid : Z)
| OpAttach (identifier : option Z) | OpDetach (pid : Z) | OpSlave (pid : Z) (b : bool).

(** An operation under the configuration of its time. *)
Definition run_op (d : dpdk) (st : pstate) (o : config * port_op) : outcome pstate :=
  let '(c, o) := o in
  match o with
  | OpStart pid => Done (start_port d c pid st).2
  | OpStop pid => Done (stop_port d pid st)
  | OpClose pid => Done (close_port d pid st)
  | OpAttach name => attach_port d c name st
  | OpDetach pid => detach_port d pid st
  | OpSlave pid b => Done (set_port_slave_flag pid b st)
  end.

Fixpoint run_ops (d : dpdk) (os : list (config * port_op)) (st : pstate) : outcome pstate :=
  match os with
  | [] => Done st
  | o :: os => st ← run_op d st o; run_ops d os st
  end.

Lemma run_op_ok d n o st st' :
  numbers_ok n o.1 -> ports_ok d n st -> run_op d st o = Done st' -> ports_ok d n st'.
Proof.
  intros Hn Hok. destruct o as [c []]; cbn [run_op fst] in *.
  - intros [= <-]. by apply start_port_ok.
  - intros [= <-]. by apply stop_port_ok.
  - intros [= <-]. by apply close_port_ok.
  - by apply attach_port_ok.
  - by apply detach_port_ok.
  - intros [= <-]. by apply ports_ok_upd.
Qed.

Lemma all_ports_started_spec st :
  all_ports_started st = true <->
  forall pi p, zget (ports st) pi = Some p -> enabled p = true -> port_status p = STARTED \/ slave_flag p = true.
Proof.
  unfold all_ports_started. rewrite forallb_forall. split.
  - intros H pi p Hp He. specialize (H pi). rewrite Hp in H.
    assert (Hin : In pi (port_ids (ports st))) by (apply list_elem_of_In, elem_of_port_ids; eauto).
    specialize (H Hin). destruct (bool_decide_reflect (port_status p = STARTED)); [by left|].
    destruct (slave_flag p); [by right|done].
  - intros H pi Hin. apply list_elem_of_In, elem_of_port_ids in Hin as (p & Hp & He). rewrite Hp.
    destruct (H pi p Hp He) as [-> | ->]; [done|]. by destruct (bool_decide _).
Qed.

Definition is_attach (o : port_op) : bool := match o with OpAttach _ => true | _ => false end.

(** A port that is being handled or closed: no operation but attaching takes
    it up. *)
Section Stuck.
Context (fin : status).

Definition stuck (pi : Z) (st : pstate) : Prop :=
  exists p, zget (ports st) pi = Some p /\ port_status p = fin.

Lemma stuck_upd pi pj f st :
  stuck pi st -> 0 <= pj -> (pj <> pi \/ forall p, port_status (f p) = port_status p) ->
  stuck pi (upd_port pj f st).
Proof.
  intros (p & Hp & Hs) Hj Hf. destruct (decide (pj = pi)) as [->|].
  - exists (f p). split; [by apply zget_upd_same|]. destruct Hf as [|Hf]; [done|]. by rewrite Hf.
  - exists p. by rewrite zget_upd_other by done.
Qed.

(** What is done to a port leaves the others alone. *)
Definition frame (pj : Z) (st st' : pstate) : Prop :=
  forall pi, pi <> pj -> zget (ports st') pi = zget (ports st) pi.

Lemma frame_trans pj st1 st2 st3 : frame pj st1 st2 -> frame pj st2 st3 -> frame pj st1 st3.
Proof. intros H1 H2 pi Hne. by rewrite H2, H1. Qed.

Lemma frame_upd pj f st : 0 <= pj -> frame pj st (upd_port pj f st).
Proof. intros Hj pi Hne. by apply zget_upd_other. Qed.

Lemma frame_cmpset pj e n st : frame pj st (cmpset pj e n st).2.
Proof.
  unfold cmpset. destruct (zget (ports st) pj) as [p|] eqn:Hp; [|done].
  destruct (decide _); [|done]. apply frame_upd. by eapply zget_nonneg.
Qed.

Lemma frame_setup_tx d c pj p qs st : frame pj st (setup_tx_queues d c pj p qs st).2.
Proof.
  revert st. induction qs as [|q qs IH]; intros st; [done|]. cbn [setup_tx_queues].
  destruct (dpdk_do _ _ _) as [r st1] eqn:E. injection E as _ <-. destruct (r =? 0); [|done].
  eapply frame_trans; [|apply IH]. done.
Qed.

Lemma frame_setup_rx d c pj p qs st : frame pj st (setup_rx_queues d c pj p qs st).2.
Proof.
  revert st. induction qs as [|q qs IH]; intros st; [done|]. cbn [setup_rx_queues].
  destruct (_ && _ && _); [done|].
  destruct (dpdk_do _ _ _) as [r st1] eqn:E. injection E as _ <-. destruct (r =? 0); [|done].
  eapply frame_trans; [|apply IH]. done.
Qed.

Lemma frame_configure_port d c pj p st : 0 <= pj -> frame pj st (configure_port d c pj p st).2.
Proof.
  intros Hj. unfold configure_port. destruct (need_reconfig p); [|done].
  destruct (dpdk_do _ _ _) as [r st1] eqn:E. injection E as _ <-.
  destruct (r =? 0); [by apply (frame_upd pj (with_reconfig false) st)|].
  pose proof (frame_cmpset pj HANDLING STOPPED
    (set_calls (DevConfigure pj (nb_rxq c) (nb_txq c) (conf (pconf p)) :: calls st)
       (upd_port pj (with_reconfig false) st))) as Hc.
  cbn [upd_port set_ports calls] in *. destruct (cmpset _ _ _ _) as [b st2]. cbn [snd] in *.
  eapply frame_trans; [|by apply frame_upd]. eapply frame_trans; [|exact Hc].
  by apply (frame_upd pj (with_reconfig false) st).
Qed.

Lemma frame_configure_queues d c pj p st : 0 <= pj -> frame pj st (configure_queues d c pj p st).2.
Proof.
  intros Hj. unfold configure_queues. destruct (need_reconfig_queues p); [|done].
  set (st0 := upd_port _ _ _).
  assert (H0 : frame pj st st0) by (by apply frame_upd).
  assert (Hfail : forall s, frame pj st s -> frame pj st (fail_queues pj s)).
  { intros s Hs. unfold fail_queues. pose proof (frame_cmpset pj HANDLING STOPPED s) as Hc.
    destruct (cmpset _ _ _ _) as [b s2]. cbn [snd] in Hc.
    eapply frame_trans; [|by apply frame_upd]. by eapply frame_trans. }
  pose proof (frame_setup_tx d c pj p (queues (nb_txq c)) st0) as H1.
  destruct (setup_tx_queues _ _ _ _ _ _) as [[] st1]; cbn [snd] in H1; [|apply Hfail; by eapply frame_trans].
  pose proof (frame_setup_rx d c pj p (queues (nb_rxq c)) st1) as H2.
  assert (H3 : frame pj st st1) by (by eapply frame_trans).
  destruct (setup_rx_queues _ _ _ _ _ _) as [[[]|] st2]; cbn [snd] in *;
    [|apply Hfail|]; by eapply frame_trans.
Qed.

Lemma frame_start_one d c pj st : frame pj st (start_one d c pj st).2.
Proof.
  unfold start_one. pose proof (frame_cmpset pj STOPPED HANDLING st) as H0.
  destruct (cmpset _ _ _ _) as [[] st1] eqn:E; cbn [negb snd] in *; [|done].
  apply cmpset_true in E as [(q & Hq & _) _]. pose proof (zget_nonneg _ _ _ Hq) as Hj.
  destruct (zget (ports st1) pj) as [p|]; [|done].
  pose proof (frame_configure_port d c pj p st1 Hj) as H1.
  destruct (configure_port _ _ _ _ _) as [[] st2]; cbn [negb snd] in *; [|by eapply frame_trans].
  pose proof (frame_configure_queues d c pj p st2 Hj) as H2.
  assert (H3 : frame pj st st2) by (by eapply frame_trans).
  destruct (configure_queues _ _ _ _ _) as [[] st3]; cbn [negb snd] in *; [|by eapply frame_trans].
  assert (H4 : frame pj st (set_calls (DevStart pj :: calls st3) st3)) by (by eapply frame_trans).
  unfold dpdk_do. destruct (_ <? _); cbn [snd]; (eapply frame_trans; [exact H4|apply frame_cmpset]).
Qed.

Lemma stuck_frame pi pj st st' : stuck pi st -> frame pj st st' -> pi <> pj -> stuck pi st'.
Proof. intros (p & Hp & Hs) Hf Hne. exists p. by rewrite Hf. Qed.

Context (Hlast : fin = HANDLING \/ fin = CLOSED).

Lemma cmpset_stuck pi e n st :
  stuck pi st -> e = STOPPED \/ e = STARTED -> cmpset pi e n st = (false, st).
Proof.
  intros (p & Hp & Hs) He. unfold cmpset. rewrite Hp, Hs. rewrite decide_False; [done|].
  destruct Hlast, He; congruence.
Qed.

Lemma stuck_reclose pi pj st : stuck pi st -> stuck pi (cmpset pj CLOSED CLOSED st).2.
Proof.
  intros (p & Hp & Hs). unfold cmpset. destruct (zget (ports st) pj) as [q|] eqn:Hq; [|by exists p].
  destruct (decide (port_status q = CLOSED)) as [Hc|]; [|by exists p]. cbn [snd].
  pose proof (zget_nonneg _ _ _ Hq). destruct (decide (pj = pi)) as [->|].
  - exists (with_status CLOSED p). split; [by apply zget_upd_same|]. cbn. congruence.
  - exists p. by rewrite zget_upd_other.
Qed.

Lemma stuck_start_one d c pi pj st : stuck pi st -> stuck pi (start_one d c pj st).2.
Proof.
  intros Hh. destruct (decide (pi = pj)) as [<-|].
  - unfold start_one. rewrite cmpset_stuck by auto. done.
  - eapply stuck_frame; [done|apply frame_start_one|done].
Qed.

Lemma stuck_stop_one d pi pj st : stuck pi st -> stuck pi (stop_one d st pj).
Proof.
  intros Hh. unfold stop_one. destruct (decide (pi = pj)) as [<-|].
  - by rewrite cmpset_stuck by auto.
  - eapply stuck_frame; [done| |done]. pose proof (frame_cmpset pj STARTED HANDLING st) as H0.
    destruct (cmpset pj STARTED HANDLING st) as [[] st1]; cbn [negb snd] in *; [|done].
    unfold dpdk_do. eapply frame_trans; [|apply frame_cmpset]. done.
Qed.

Lemma stuck_close_one d pi pj st : stuck pi st -> stuck pi (close_one d st pj).
Proof.
  intros Hh. unfold close_one. destruct (decide (pi = pj)) as [<-|].
  - pose proof (stuck_reclose pi pi st Hh) as Hc. destruct (cmpset pi CLOSED CLOSED st) as [[] st0]; [done|].
    cbn [snd] in *. by rewrite cmpset_stuck by auto.
  - eapply stuck_frame; [done| |done]. pose proof (frame_cmpset pj CLOSED CLOSED st) as Hc.
    destruct (cmpset pj CLOSED CLOSED st) as [[] st0]; cbn [negb snd] in *; [done|].
    pose proof (frame_cmpset pj STOPPED HANDLING st0) as H0.
    assert (H1 : frame pj st (cmpset pj STOPPED HANDLING st0).2) by (by eapply frame_trans).
    destruct (cmpset pj STOPPED HANDLING st0) as [[] st1]; cbn [negb snd] in *; [|done].
    unfold dpdk_do. eapply frame_trans; [|apply frame_cmpset]. done.
Qed.

Lemma stuck_foldl {A} (f : pstate -> A -> pstate) pi l st :
  (forall s x, stuck pi s -> stuck pi (f s x)) -> stuck pi st -> stuck pi (foldl f st l).
Proof. intros Hf. revert st. induction l as [|x l IH]; intros st Hh; [done|]. apply IH. by apply Hf. Qed.

Lemma stuck_start_loop d c pi l st : stuck pi st -> stuck pi (start_loop d c l st).2.
Proof.
  revert st. induction l as [|pj l IH]; intros st Hh; [done|]. cbn [start_loop].
  pose proof (stuck_start_one d c pi pj st Hh) as H1. destruct (start_one _ _ _ _) as [[] st1]; [by apply IH|done].
Qed.

Lemma set_sockets_status d c l st pi p :
  zget (ports st) pi = Some p ->
  exists s, zget (ports (set_sockets d c l st).2) pi = Some (with_socket s p).
Proof.
  revert st p. induction l as [|pj l IH]; intros st p Hp; cbn [set_sockets].
  - exists (socket_id p). cbn. rewrite Hp. by destruct p.
  - destruct (zget (ports st) pj) as [q|] eqn:Hq; cbn [snd];
      [|exists (socket_id p); rewrite Hp; by destruct p].
    destruct (_ <? _); [exists (socket_id p); cbn; rewrite Hp; by destruct p|].
    destruct (_ <? _); [exists (socket_id p); cbn; rewrite Hp; by destruct p|].
    pose proof (zget_nonneg _ _ _ Hq).
    destruct (decide (pj = pi)) as [->|].
    + destruct (IH _ _ (zget_upd_same pi (with_socket (port_socket d c pi)) st p Hp)) as [s Hs].
      exists s. by rewrite Hs.
    + apply IH. by rewrite zget_upd_other by done.
Qed.

Lemma stuck_init d c pi st : stuck pi st -> stuck pi (init_fwd_streams d c st).2.
Proof.
  intros (p & Hp & Hs). destruct (set_sockets_status d c (port_ids (ports st)) st pi p Hp) as [s Hps].
  assert (H1 : stuck pi (set_sockets d c (port_ids (ports st)) st).2) by (eexists; split; [exact Hps|done]).
  unfold init_fwd_streams. destruct (set_sockets _ _ _ _) as [[] st1]; cbn [snd] in *; [|done].
  by destruct (_ =? _).
Qed.

Lemma stuck_start_port d c pi pid st : stuck pi st -> stuck pi (start_port d c pid st).2.
Proof.
  intros Hh. unfold start_port. destruct (negb _); [done|]. destruct (port_id_is_invalid _ _); [done|].
  pose proof (stuck_init d c pi st Hh) as H1. destruct (init_fwd_streams d c st) as [[] st1]; cbn [negb snd] in *; [|done].
  set (st2 := if dcb_config st1 then _ else _).
  assert (H2 : stuck pi st2) by (unfold st2; by destruct (dcb_config st1)).
  pose proof (stuck_start_loop d c pi (selected pid (port_ids (ports st2))) st2 H2) as H3.
  by destruct (start_loop _ _ _ _) as [ok st3].
Qed.

Lemma stuck_run_op d pi o st st' :
  stuck pi st -> is_attach o.2 = false -> run_op d st o = Done st' -> stuck pi st'.
Proof.
  intros Hh Ha. destruct o as [c []]; cbn [run_op]; cbn in Ha; try done.
  - intros [= <-]. by apply stuck_start_port.
  - intros [= <-]. unfold stop_port. destruct (negb _); [done|].
    set (st2 := if dcb_test st then _ else _).
    assert (H2 : stuck pi st2) by (unfold st2; by destruct (dcb_test st)).
    destruct (port_id_is_invalid _ _); [done|]. apply stuck_foldl; [|done].
    intros; by apply stuck_stop_one.
  - intros [= <-]. unfold close_port. destruct (negb _); [done|]. destruct (port_id_is_invalid _ _); [done|].
    apply stuck_foldl; [|done]. intros; by apply stuck_close_one.
  - unfold detach_port, port_is. intros E. apply outcome_bind_Done in E as (cl & Hcl & E).
    destruct (port_id_is_invalid pid st); [injection Hcl as <-; by injection E as <-|].
    apply outcome_bind_Done in Hcl as (q & Hq & Hcl). destruct (zget (ports st) pid) as [q'|] eqn:Hz; [|done].
    injection Hq as ->. injection Hcl as <-. destruct (bool_decide_reflect (port_status q = CLOSED)) as [Hs|];
      cbn [negb] in E; [|by injection E as <-].
    unfold dpdk_do in E. destruct (diag _ _ =? 0); cbn [negb] in E; injection E as <-; [|done].
    apply (stuck_upd pi pid (with_enabled false) st Hh); [by eapply zget_nonneg|by right].
  - intros [= <-]. unfold set_port_slave_flag. destruct Hh as (p & Hp & Hs).
    pose proof (zget_nonneg _ _ _ Hp). destruct (decide (Z.to_nat pid = Z.to_nat pi)) as [He|He].
    + exists (with_slave b p). split; [|done]. apply zget_Some. split; [done|]. cbn.
      rewrite He, list_lookup_alter_eq. apply zget_Some in Hp as [_ ->]. done.
    + exists p. split; [|done]. apply zget_Some. split; [done|]. cbn.
      rewrite list_lookup_alter_ne by done. by apply zget_Some in Hp as [_ ->].
Qed.

Lemma stuck_run_ops d pi os st st' :
  stuck pi st -> forallb (fun o => negb (is_attach o.2)) os = true ->
  run_ops d os st = Done st' -> stuck pi st'.
Proof.
  revert st. induction os as [|o os IH]; intros st Hh Ha E; cbn in E; [by injection E as <-|].
  cbn in Ha. apply andb_true_iff in Ha as [Ha Has]. apply negb_true_iff in Ha.
  apply outcome_bind_Done in E as (st1 & E1 & E). apply (IH st1); [|done|done]. by eapply stuck_run_op.
Qed.
End Stuck.

Lemma setup_tx_queues_all d c pi p qs st : (forall l, diag d l = 0) -> (setup_tx_queues d c pi p qs st).1 = true.
Proof.
  intros Hd. revert st. induction qs as [|q qs IH]; intros st; [done|]. cbn [setup_tx_queues dpdk_do].
  rewrite Hd. apply IH.
Qed.

Lemma selected_one l pi :
  NoDup l -> pi ∈ l -> pi <> RTE_PORT_ALL -> selected pi l = [pi].
Proof.
  intros Hnd Hin Hne. apply list_elem_of_split in Hin as (l1 & l2 & ->).
  apply NoDup_app in Hnd as (_ & H1 & H2). apply NoDup_cons in H2 as [H2 _].
  unfold selected. rewrite filter_app, filter_cons_True by auto.
  rewrite !filter_none; [done| |].
  - apply Forall_forall. intros x Hx [<- |]; done.
  - apply Forall_forall. intros x Hx [<- |]; [|done]. apply (H1 pi Hx). left.
Qed.

Lemma port_ids_NoDup l : NoDup (port_ids l).
Proof. rewrite port_ids_spec. apply NoDup_filter, NoDup_seqZ. Qed.

(** The ports before and after [init_fwd_streams]. *)
Lemma init_fwd_streams_port d c st st1 pi p :
  init_fwd_streams d c st = (true, st1) -> zget (ports st) pi = Some p ->
  exists s, zget (ports st1) pi = Some (with_socket s p).
Proof.
  intros E Hp. destruct (set_sockets_status d c (port_ids (ports st)) st pi p Hp) as [s Hs].
  exists s. unfold init_fwd_streams in E. destruct (set_sockets _ _ _ _) as [[] st2]; cbn [snd] in Hs; [|done].
  destruct (_ =? _); injection E as <-; done.
Qed.

Lemma start_one_without_pool d c pi p st :
  (forall l, diag d l = 0) -> zget (ports st) pi = Some p -> port_status p = STOPPED ->
  need_reconfig_queues p = true -> 0 < nb_rxq c -> numa_support c = true ->
  rxring_numa c pi <> NUMA_NO_CONFIG -> mbuf_pool_find d (rxring_numa c pi) = false ->
  (start_one d c pi st).1 = false /\ stuck HANDLING pi (start_one d c pi st).2.
Proof.
  intros Hd Hp Hs Hq Hn Hnuma Hring Hpool. pose proof (zget_nonneg _ _ _ Hp) as H0.
  unfold start_one, cmpset. rewrite Hp, decide_True by done. cbn [negb].
  rewrite (zget_upd_same _ _ _ _ Hp).
  set (st1 := upd_port _ _ st). set (q := with_status HANDLING p).
  assert (H1 : stuck HANDLING pi st1) by (exists q; split; [by apply zget_upd_same|done]).
  assert (Hc : exists st2, configure_port d c pi q st1 = (true, st2) /\ stuck HANDLING pi st2).
  { unfold configure_port, dpdk_do. rewrite Hd. cbn [Z.eqb]. destruct (need_reconfig q).
    - eexists. split; [done|]. by apply (stuck_upd HANDLING pi pi (with_reconfig false) st1 H1 H0); right.
    - by exists st1. }
  destruct Hc as (st2 & -> & H2). cbn [negb].
  unfold configure_queues. cbn [q with_status need_reconfig_queues]. rewrite Hq.
  set (st3 := upd_port _ _ st2).
  assert (H3 : stuck HANDLING pi st3) by (by apply stuck_upd; [..|right]).
  pose proof (setup_tx_queues_all d c pi q (queues (nb_txq c)) st3 Hd) as Ht.
  assert (H4 : stuck HANDLING pi (setup_tx_queues d c pi q (queues (nb_txq c)) st3).2).
  { assert (Hports : forall qs s, ports (setup_tx_queues d c pi q qs s).2 = ports s).
    { induction qs as [|x qs IH]; intros s; [done|]. cbn [setup_tx_queues dpdk_do]. rewrite Hd. cbn [Z.eqb].
      by rewrite IH. }
    unfold stuck. by rewrite Hports. }
  destruct (setup_tx_queues _ _ _ _ _ _) as [ok st4]. cbn [fst snd] in *. subst ok.
  unfold queues. destruct (Z.to_nat (nb_rxq c)) as [|n] eqn:En; [lia|]. cbn [seq fmap list_fmap setup_rx_queues].
  rewrite Hnuma, (proj2 (Z.eqb_neq _ _) Hring). cbn [andb negb]. rewrite Hpool. cbn [negb fst snd]. done.
Qed.

(** ** Properties *)

(** C7: whatever the devices answer, after any sequence of commands that
    start, stop, close, attach and detach ports under configurations with the
    same numbers of queues the status of every port agrees with its device,
    and no call was made that DPDK forbids: a device is configured before its
    queues are set up, it is started only when it is configured and all of
    its queues are set up, and it is configured, given queues and closed only
    while it is not running, stopped only while it is. *)
Theorem ports_follow_protocol d nrx ntx os st st'
    (Hst : ports_ok d (Some (nrx, ntx)) st) (Hos : Forall (fun o => (nb_rxq o.1, nb_txq o.1) = (nrx, ntx)) os)
    (Hrun : run_ops d os st = Done st') : ports_ok d (Some (nrx, ntx)) st'.
Proof.
  revert st Hst Hrun. induction Hos as [|o os Ho _ IH]; intros st Hst Hrun; cbn in Hrun.
  - by injection Hrun as <-.
  - apply outcome_bind_Done in Hrun as (st1 & H1 & Hrun). eapply IH; [|done]. by eapply run_op_ok.
Qed.

(** C29: starting a port whose receive rings are put on a socket without a
    memory pool fails half-way: the port stays in the state of being handled,
    and no later command to start, stop, close or detach it changes that. *)
Theorem start_without_pool_sticks d c pi p st st1 os st'
    (Hd : forall l, diag d l = 0) (Hdone : test_done st = true) (Hpi : pi <> RTE_PORT_ALL)
    (Hp : zget (ports st) pi = Some p) (Hen : enabled p = true) (Hs : port_status p = STOPPED)
    (Hq : need_reconfig_queues p = true) (Hn : 0 < nb_rxq c) (Hnuma : numa_support c = true)
    (Hring : rxring_numa c pi <> NUMA_NO_CONFIG) (Hpool : mbuf_pool_find d (rxring_numa c pi) = false)
    (Hinit : init_fwd_streams d c st = (true, st1))
    (Hos : forallb (fun o => negb (is_attach o.2)) os = true)
    (Hrun : run_ops d os (start_port d c pi st).2 = Done st') :
  (start_port d c pi st).1 = -1 /\ exists p', zget (ports st') pi = Some p' /\ port_status p' = HANDLING.
Proof.
  assert (H : (start_port d c pi st).1 = -1 /\ stuck HANDLING pi (start_port d c pi st).2).
  { unfold start_port. rewrite Hdone. cbn [negb]. unfold port_id_is_invalid.
    rewrite (proj2 (Z.eqb_neq _ _) Hpi), Hp, Hen. cbn [negb]. rewrite Hinit. cbn [negb].
    destruct (init_fwd_streams_port d c st st1 pi p Hinit Hp) as [s Hp1].
    set (st2 := if dcb_config st1 then _ else _).
    assert (Hp2 : zget (ports st2) pi = Some (with_socket s p)) by (unfold st2; by destruct (dcb_config st1)).
    rewrite selected_one; [|apply port_ids_NoDup|apply elem_of_port_ids; by eexists|done].
    cbn [start_loop].
    destruct (start_one_without_pool d c pi (with_socket s p) st2) as [Hf Hh]; try done.
    destruct (start_one d c pi st2) as [ok st3]. cbn [fst snd] in *. subst ok. done. }
  destruct H as [H1 H2]. split; [done|]. by eapply (stuck_run_ops HANDLING (or_introl eq_refl)).
Qed.

(** ** Witnesses *)

Definition sample_info : dev_info :=
  DevInfo 4 4 0 0 (RxConf 8 8 4 32 0) (TxConf 32 0 0 0 0 0).
Definition sample_port (s : status) : rte_port :=
  RtePort true s true true 0 false sample_info
    (PortConf zero_conf (RxConf 8 8 4 32 0) (TxConf 32 0 0 0 0 0) false).
Definition sample_config (ring : Z) : config :=
  Config 1 1 128 512 true (fun _ => 255) (fun _ => ring) (fun _ => 255) 255 2 0 1 0 no_thresholds.
(** Devices that accept every call; only socket 0 has a pool. *)
Definition sample_dpdk : dpdk :=
  Dpdk (fun _ => 0) (fun _ => 1) (fun _ => 2) (fun _ => 0) (fun _ => sample_info) (fun s => s =? 0).
Definition sample_state : pstate :=
  PState [sample_port STOPPED; sample_port STOPPED] 2 2 2 [0; 1] [] true false false [].

(** Without calls, ports that are stopped and marked agree with new devices. *)
Lemma new_ports_ok d n st :
  calls st = [] -> Forall (fun p => port_status p = STOPPED /\ marked p) (ports st) -> ports_ok d n st.
Proof.
  intros Hc Hp pi p Hz. apply zget_Some in Hz as [_ Hz]. rewrite Forall_lookup in Hp. destruct (Hp _ _ Hz) as [Hs Hm].
  exists new_ethdev. rewrite Hc. split; [done|]. apply marked_fits; [done|]. by rewrite Hs.
Qed.

Lemma ports_follow_protocol_witness :
  match run_ops sample_dpdk
      [(sample_config 255, OpStart RTE_PORT_ALL); (sample_config 255, OpStop 0);
       (sample_config 255, OpClose 0); (sample_config 255, OpDetach 0)] sample_state with
  | Done st' => ports_ok sample_dpdk (Some (1, 1)) st'
  | _ => False
  end.
Proof.
  destruct (run_ops sample_dpdk
      [(sample_config 255, OpStart RTE_PORT_ALL); (sample_config 255, OpStop 0);
       (sample_config 255, OpClose 0); (sample_config 255, OpDetach 0)] sample_state) as [st'| |] eqn:E;
    [|vm_compute in E; discriminate E..].
  refine (ports_follow_protocol sample_dpdk 1 1 _ sample_state st' _ _ E).
  - apply new_ports_ok; [reflexivity|]. repeat (constructor; [split; [reflexivity|split; reflexivity]|]). constructor.
  - repeat constructor.
Defined.

Lemma start_without_pool_sticks_witness :
  match run_ops sample_dpdk [(sample_config 1, OpStop 0); (sample_config 255, OpStart 0)]
          (start_port sample_dpdk (sample_config 1) 0 sample_state).2 with
  | Done st' => exists p', zget (ports st') 0 = Some p' /\ port_status p' = HANDLING
  | _ => False
  end.
Proof.
  destruct (run_ops sample_dpdk [(sample_config 1, OpStop 0); (sample_config 255, OpStart 0)]
          (start_port sample_dpdk (sample_config 1) 0 sample_state).2) as [st'| |] eqn:E;
    [|vm_compute in E; discriminate E..].
  refine (proj2 (start_without_pool_sticks sample_dpdk (sample_config 1) 0 (sample_port STOPPED) sample_state
    (init_fwd_streams sample_dpdk (sample_config 1) sample_state).2
    [(sample_config 1, OpStop 0); (sample_config 255, OpStart 0)] st' _ _ _ _ _ _ _ _ _ _ _ _ _ E)).
  - intros l. reflexivity.
  - reflexivity.
  - discriminate.
  - reflexivity.
  - reflexivity.
  - reflexivity.
  - reflexivity.
  - reflexivity.
  - reflexivity.
  - discriminate.
  - reflexivity.
  - vm_compute. reflexivity.
  - reflexivity.
Defined.

(** The numbers of queues must not change behind a configured port: after a
    start with two queues that failed at the second one, a start with one
    queue starts the device with a queue that was never set up. *)
Definition queues_config (k : Z) : config :=
  Config k k 128 512 true (fun _ => 255) (fun _ => 255) (fun _ => 255) 255 2 0 1 0 no_thresholds.
Definition picky_dpdk : dpdk :=
  Dpdk (fun l => match l with TxQueueSetup _ 1 _ _ _ :: _ => -1 | _ => 0 end)
    (fun _ => 1) (fun _ => 2) (fun _ => 0) (fun _ => sample_info) (fun s => s =? 0).

Lemma fewer_queues_break_protocol :
  match run_ops picky_dpdk [(queues_config 2, OpStart 0); (queues_config 1, OpStart 0)] sample_state with
  | Done st' => device picky_dpdk true (calls st') 0 = None /\ is_Some (device picky_dpdk false (calls st') 0)
  | _ => False
  end.
Proof. vm_compute. by split; [|eexists]. Qed.
