(* ===== verification/FwdConfig.v ===== *)
(** * test-pmd/config.c: the forwarding configuration

    [fwd_config_setup] and the functions it calls distribute the streams over
    the logical cores and give every stream its ports and queues.  The arrays
    are lists, and an access out of their bounds is undefined behaviour. *)

From S2P Require Import Prelude Packet PortConf PortState.

(** ** Data *)

(** [struct fwd_lcore] *)
Record fwd_lcore : Type := FwdLcore { stream_idx : Z; stream_nb : Z; stopped : bool }.

(** [struct fwd_config]; the engine is in [fwd_state]. *)
Record fwd_config : Type := FwdCfg { nb_fwd_streams : Z; cfg_lcores : Z; cfg_ports : Z }.

Inductive topology : Type := PAIRED | CHAINED | LOOP.

#[export] Instance topology_eq : EqDecision topology.
Proof. solve_decision. Defined.

Record fwd_state : Type := FwdState {
  pst : pstate;
  fwd_lcores : list fwd_lcore;
  cur_fwd_config : fwd_config;
}.

(** ** Distributing the streams over the cores *)

Definition set_streams_of (lc : fwd_lcore) (idx nb : Z) : fwd_lcore := FwdLcore idx nb (stopped lc).

(** A loop that gives [n] cores from [lc] on [nb] streams each, from stream
    [sm_id] on. *)
Fixpoint assign_lcores (n : nat) (lc sm_id nb : Z) (l : list fwd_lcore) : outcome (list fwd_lcore * Z) :=
  match n with
  | O => Done (l, sm_id)
  | S n =>
      x ← of_opt (zget l lc);
      l ← of_opt (zset l lc (set_streams_of x sm_id nb));
      assign_lcores n (lc + 1) (u16 (sm_id + nb)) nb l
  end.

Definition setup_fwd_config_of_each_lcore (cfg : fwd_config) (l : list fwd_lcore) : outcome (list fwd_lcore) :=
  let nb_fs := nb_fwd_streams cfg in
  let nb_fc := cfg_lcores cfg in
  '(nb_fs_per_lcore, nb_extra) ←
    (if nb_fs <=? nb_fc then Done (1, 0)
     else _ ← c_defined (negb (nb_fc =? 0)); Done (u16 (nb_fs / nb_fc), u8 (nb_fs mod nb_fc)));
  let nb_lc := u8 (nb_fc - nb_extra) in
  '(l, sm_id) ← assign_lcores (Z.to_nat nb_lc) 0 0 nb_fs_per_lcore l;
  '(l, _) ← assign_lcores (Z.to_nat nb_extra) nb_lc sm_id (u16 (nb_fs_per_lcore + 1)) l;
  Done l.

(** ** Streams *)

(** The ports and queues of a stream; its counters stay. *)
Definition route (rxp rxq txp txq peer : Z) (fs : fwd_stream) : fwd_stream :=
  FwdStream rxp rxq txp txq peer (rx_packets fs) (tx_packets fs) (fwd_dropped fs)
    (rx_bad_ip_csum fs) (rx_bad_l4_csum fs).

Definition set_stream (i rxp rxq txp txq peer : Z) (l : list fwd_stream) : outcome (list fwd_stream) :=
  fs ← of_opt (zget l i); of_opt (zset l i (route rxp rxq txp txq peer fs)).

Section Setup.
Variables (d : dpdk) (c : config) (nb_fwd_lcores : Z) (topo : topology).

(** The loop of [simple_fwd_config_setup] over the ports. *)
Fixpoint simple_loop (fuel : nat) (i inc nb : Z) (ids : list Z) (l : list fwd_stream)
    : outcome (list fwd_stream) :=
  if i <? nb then
    match fuel with
    | O => Undefined
    | S fuel =>
        let j := if decide (topo = LOOP) then i else u8 ((i + 1) mod nb) in
        pi ← of_opt (zget ids i);
        pj ← of_opt (zget ids j);
        l ← set_stream i pi 0 pj 0 j l;
        l ← (if decide (topo = PAIRED) then set_stream j pj 0 pi 0 i l else Done l);
        simple_loop fuel (u8 (i + inc)) inc nb ids l
    end
  else Done l.

Definition simple_fwd_config_setup (st : fwd_state) : outcome fwd_state :=
  let inc := if decide (topo = PAIRED) then 2 else 1 in
  let nb := nb_fwd_ports (pst st) in
  let ps := (init_fwd_streams d c (pst st)).2 in
  let nb_lc := if nb <? nb_fwd_lcores then nb else nb_fwd_lcores in
  let cfg := FwdCfg nb nb_lc nb in
  lc ← setup_fwd_config_of_each_lcore cfg (fwd_lcores st);
  l ← simple_loop (Z.to_nat nb) 0 inc nb (fwd_ports_ids ps) (fwd_streams ps);
  Done (FwdState (set_fwd_streams l ps) lc cfg).

(** The next receive port of the RSS and DCB configurations. *)
Definition next_rxp (ps : pstate) (rxp : Z) : outcome Z :=
  if numa_support c && (nb_fwd_ports ps <=? Z.shiftr (nb_ports ps) 1) then
    _ ← c_defined (negb (nb_fwd_ports ps =? 0));
    Done (u8 (rxp + Z.shiftr (nb_ports ps) 1 / nb_fwd_ports ps))
  else Done (u8 (rxp + 1)).

(** The partner of a port: even and odd numbers are paired. *)
Definition paired (rxp : Z) : Z := if Z.land rxp 1 =? 0 then u8 (rxp + 1) else u8 (rxp - 1).

Fixpoint rss_loop (n : nat) (lc_id rxp rxq nb_q : Z) (ps : pstate) (l : list fwd_stream)
    : outcome (list fwd_stream) :=
  match n with
  | O => Done l
  | S n =>
      let txp := if decide (topo = LOOP) then rxp else paired rxp in
      rx ← of_opt (zget (fwd_ports_ids ps) rxp);
      tx ← of_opt (zget (fwd_ports_ids ps) txp);
      l ← set_stream lc_id rx rxq tx rxq tx l;
      let rxq := u16 (rxq + 1) in
      if rxq <? nb_q then rss_loop n (lc_id + 1) rxp rxq nb_q ps l
      else rxp ← next_rxp ps rxp; rss_loop n (lc_id + 1) rxp 0 nb_q ps l
  end.

Definition rss_fwd_config_setup (st : fwd_state) : outcome fwd_state :=
  let nb_q := if nb_txq c <? nb_rxq c then nb_txq c else nb_rxq c in
  let nb := nb_fwd_ports (pst st) in
  let streams := u16 (nb_q * nb) in
  let '(streams, nb_lc) :=
    if nb_fwd_lcores <? streams then (nb_fwd_lcores, nb_fwd_lcores) else (streams, u8 streams) in
  let cfg := FwdCfg streams nb_lc nb in
  let ps := (init_fwd_streams d c (pst st)).2 in
  lc ← setup_fwd_config_of_each_lcore cfg (fwd_lcores st);
  l ← rss_loop (Z.to_nat nb_lc) 0 0 0 nb_q ps (fwd_streams ps);
  Done (FwdState (set_fwd_streams l ps) lc cfg).

(** What DPDK tells of the traffic classes of a port: their number, and base
    and number of the receive and transmit queues by pool and class. *)
Record dcb_info : Type := DcbInfo {
  nb_tcs : Z;
  tc_rxq : Z -> Z -> Z * Z;
  tc_txq : Z -> Z -> Z * Z;
}.
Variable get_dcb_info : Z -> dcb_info.

Definition ETH_MAX_VMDQ_POOL : nat := 64.

(** The streams of one pool and class, [j] of them done. *)
Fixpoint dcb_streams (n : nat) (j k rx rxq tx txq nb_tx : Z) (l : list fwd_stream)
    : outcome (list fwd_stream) :=
  match n with
  | O => Done l
  | S n =>
      _ ← c_defined (negb (nb_tx =? 0));
      l ← set_stream (k + j) rx (u16 (rxq + j)) tx (u16 (txq + j mod nb_tx)) tx l;
      dcb_streams n (j + 1) k rx rxq tx txq nb_tx l
  end.

(** The loop over the pools for one core, whose first stream is [idx] and
    which has [nb] streams so far. *)
Fixpoint dcb_pools (n : nat) (i tc idx nb rx tx : Z) (rxi txi : dcb_info) (l : list fwd_stream)
    : outcome (Z * list fwd_stream) :=
  match n with
  | O => Done (nb, l)
  | S n =>
      let '(rxq, nb_queue) := tc_rxq rxi i tc in
      if nb_queue =? 0 then Done (nb, l)
      else
        let '(_, nb_rx_queue) := tc_rxq txi i tc in
        let '(txq, nb_tx_queue) := tc_txq txi i tc in
        l ← dcb_streams (Z.to_nat nb_rx_queue) 0 (u16 (nb + idx)) rx rxq tx txq nb_tx_queue l;
        dcb_pools n (i + 1) tc idx (u16 (nb + nb_queue)) rx tx rxi txi l
  end.

(** The loop over the cores; the cores from where it returns on keep their
    streams. *)
Fixpoint dcb_loop (n : nat) (lc_id sm_id tc rxp txp : Z) (ps : pstate) (lcs : list fwd_lcore)
    (l : list fwd_stream) : outcome (list fwd_lcore * list fwd_stream) :=
  match n with
  | O => Done (lcs, l)
  | S n =>
      lc ← of_opt (zget lcs lc_id);
      rx ← of_opt (zget (fwd_ports_ids ps) rxp);
      tx ← of_opt (zget (fwd_ports_ids ps) txp);
      '(nb, l) ← dcb_pools ETH_MAX_VMDQ_POOL 0 tc sm_id 0 rx tx (get_dcb_info rx) (get_dcb_info tx) l;
      lcs ← of_opt (zset lcs lc_id (set_streams_of lc sm_id nb));
      let sm_id := u16 (sm_id + nb) in
      let tc := u8 (tc + 1) in
      if tc <? nb_tcs (get_dcb_info rx) then dcb_loop n (lc_id + 1) sm_id tc rxp txp ps lcs l
      else
        rxp ← next_rxp ps rxp;
        if nb_fwd_ports ps <=? rxp then Done (lcs, l)
        else dcb_loop n (lc_id + 1) sm_id 0 rxp (paired rxp) ps lcs l
  end.

Definition dcb_fwd_config_setup (st : fwd_state) : outcome fwd_state :=
  let nb := nb_fwd_ports (pst st) in
  let cfg := FwdCfg (u16 (nb_rxq c * nb)) nb_fwd_lcores nb in
  let ps := (init_fwd_streams d c (pst st)).2 in
  '(lc, l) ← dcb_loop (Z.to_nat nb_fwd_lcores) 0 0 0 0 1 ps (fwd_lcores st) (fwd_streams ps);
  Done (FwdState (set_fwd_streams l ps) lc cfg).

(** The streams of one core of the ICMP echo configuration. *)
Fixpoint icmp_streams (n : nat) (sm rxp rxq : Z) (ids : list Z) (l : list fwd_stream)
    : outcome (list fwd_stream * Z * Z) :=
  match n with
  | O => Done (l, rxp, rxq)
  | S n =>
      pi ← of_opt (zget ids rxp);
      l ← set_stream sm pi rxq pi rxq pi l;
      let rxq := u16 (rxq + 1) in
      if rxq =? nb_rxq c then icmp_streams n (sm + 1) (u8 (rxp + 1)) 0 ids l
      else icmp_streams n (sm + 1) rxp rxq ids l
  end.

Fixpoint icmp_lcores (n : nat) (lc_id rxp rxq : Z) (ids : list Z) (lcs : list fwd_lcore)
    (l : list fwd_stream) : outcome (list fwd_stream) :=
  match n with
  | O => Done l
  | S n =>
      lc ← of_opt (zget lcs lc_id);
      '(l, rxp, rxq) ← icmp_streams (Z.to_nat (stream_nb lc)) (stream_idx lc) rxp rxq ids l;
      icmp_lcores n (lc_id + 1) rxp rxq ids lcs l
  end.

Definition icmp_echo_config_setup (st : fwd_state) : outcome fwd_state :=
  let nb := nb_fwd_ports (pst st) in
  let nb_lc := if nb_txq c * nb <? nb_fwd_lcores then u8 (nb_txq c * nb) else nb_fwd_lcores in
  let streams := u16 (nb_rxq c * nb) in
  let nb_lc := if streams <? nb_lc then u8 streams else nb_lc in
  let cfg := FwdCfg streams nb_lc nb in
  let ps := (init_fwd_streams d c (pst st)).2 in
  lc ← setup_fwd_config_of_each_lcore cfg (fwd_lcores st);
  l ← icmp_lcores (Z.to_nat nb_lc) 0 0 0 (fwd_ports_ids ps) lc (fwd_streams ps);
  Done (FwdState (set_fwd_streams l ps) lc cfg).

(** [fwd_config_setup]; [icmpecho] says whether that is the engine. *)
Definition fwd_config_setup (icmpecho : bool) (st : fwd_state) : outcome fwd_state :=
  if icmpecho then icmp_echo_config_setup st
  else if (1 <? nb_rxq c) && (1 <? nb_txq c) then
    if dcb_config (pst st) then dcb_fwd_config_setup st else rss_fwd_config_setup st
  else simple_fwd_config_setup st.
End Setup.

(** ** Lemmas *)

(** The streams of cores. *)
Definition streams_of (l : list fwd_lcore) : list Z := l ≫= fun lc => seqZ (stream_idx lc) (stream_nb lc).

Lemma assign_lcores_spec n lc sm nb l :
  0 <= lc -> lc + Z.of_nat n <= Z.of_nat (length l) -> 0 <= sm -> 0 <= nb -> sm + Z.of_nat n * nb < 2 ^ 16 ->
  exists mid, assign_lcores n lc sm nb l =
      Done (take (Z.to_nat lc) l ++ mid ++ drop (Z.to_nat lc + n) l, sm + Z.of_nat n * nb) /\
    length mid = n /\ streams_of mid = seqZ sm (Z.of_nat n * nb) /\ Forall (fun x => stream_nb x = nb) mid.
Proof.
  revert lc sm l. induction n as [|n IH]; intros lc sm l H0 Hl Hsm Hnb Hs; cbn [assign_lcores].
  - exists []. cbn [app]. rewrite Nat.add_0_r, take_drop, Z.mul_0_l, Z.add_0_r. done.
  - destruct (zget_is_Some l lc) as [x Hx]; [lia|]. rewrite Hx. cbn [of_opt mbind outcome_bind].
    set (y := set_streams_of x sm nb).
    assert (Hset : zset l lc y = Some (<[Z.to_nat lc := y]> l)) by (apply zset_Some; split; [lia|done]).
    rewrite Hset. cbn [of_opt mbind outcome_bind]. rewrite u16_small by nia.
    destruct (IH (lc + 1) (sm + nb) (<[Z.to_nat lc := y]> l)) as (mid & -> & Hlm & Hsm' & Hf);
      [lia|rewrite length_insert; lia|lia|done|nia|].
    exists (y :: mid). split_and!.
    + apply zget_Some in Hx as [_ Hx]. pose proof (lookup_lt_Some _ _ _ Hx) as Hlt.
      rewrite insert_take_drop by done. rewrite Z2Nat.inj_add, Nat.add_1_r by lia.
      set (k := Z.to_nat lc) in *.
      assert (Ht : length (take k l ++ [y]) = S k) by (rewrite length_app, length_take; cbn; lia).
      rewrite (cons_middle y), (app_assoc (take k l) [y] (drop (S k) l)), <- drop_drop.
      rewrite take_app_length', drop_app_length' by lia.
      rewrite <- !app_assoc, drop_drop. cbn [app]. replace (S k + n)%nat with (k + S n)%nat by lia.
      f_equal. f_equal. nia.
    + cbn. by rewrite Hlm.
    + cbn. unfold streams_of in Hsm'. rewrite Hsm'. cbn [y set_streams_of stream_idx stream_nb].
      replace (Z.of_nat (S n) * nb) with (nb + Z.of_nat n * nb) by lia.
      by rewrite seqZ_app by nia.
    + by constructor.
Qed.

Lemma setup_each_lcore_spec nb_fs nb_lc p l :
  1 <= nb_lc -> nb_lc <= nb_fs -> nb_fs + 1 < 2 ^ 16 -> nb_lc < 2 ^ 8 -> nb_lc <= Z.of_nat (length l) ->
  exists l', setup_fwd_config_of_each_lcore (FwdCfg nb_fs nb_lc p) l = Done l' /\
    length l' = length l /\ drop (Z.to_nat nb_lc) l' = drop (Z.to_nat nb_lc) l /\
    streams_of (take (Z.to_nat nb_lc) l') = seqZ 0 nb_fs /\
    Forall (fun x => stream_nb x = nb_fs / nb_lc \/ stream_nb x = nb_fs / nb_lc + 1) (take (Z.to_nat nb_lc) l').
Proof.
  intros H1 H2 Hfs H8 Hl. unfold setup_fwd_config_of_each_lcore. cbn [nb_fwd_streams cfg_lcores].
  assert (Hd : 0 <= nb_fs mod nb_lc < nb_lc /\ nb_fs = nb_lc * (nb_fs / nb_lc) + nb_fs mod nb_lc).
  { split; [apply Z.mod_pos_bound; lia|apply Z.div_mod; lia]. }
  set (per := nb_fs / nb_lc) in *. set (ext := nb_fs mod nb_lc) in *. destruct Hd as [Hext Hdm].
  assert (Hper : 1 <= per <= nb_fs).
  { unfold per. split; [apply Z.div_le_lower_bound|apply Z.div_le_upper_bound]; nia. }
  assert (Hpre : (if nb_fs <=? nb_lc then Done (1, 0)
     else (c_defined (negb (nb_lc =? 0)) ≫= (λ _, Done (u16 per, u8 ext)))) = Done (per, ext)).
  { destruct (Z.leb_spec nb_fs nb_lc).
    - assert (nb_fs = nb_lc) as E by lia. unfold per, ext. by rewrite E, Z.div_same, Z.mod_same by lia.
    - rewrite (proj2 (Z.eqb_neq nb_lc 0)) by lia. cbn. by rewrite u16_small, u8_small by lia. }
  clearbody per ext.
  rewrite Hpre. cbn [mbind outcome_bind]. rewrite (u8_small (nb_lc - ext)) by lia.
  destruct (assign_lcores_spec (Z.to_nat (nb_lc - ext)) 0 0 per l) as (m1 & -> & Lm1 & Sm1 & Fm1); [lia|lia|lia|lia|nia|].
  cbn [mbind outcome_bind]. change (Z.to_nat 0) with 0%nat. rewrite take_0. cbn [app Nat.add].
  rewrite (u16_small (per + 1)) by nia.
  set (l1 := m1 ++ drop (Z.to_nat (nb_lc - ext)) l).
  assert (Ll1 : length l1 = length l) by (unfold l1; rewrite length_app, length_drop; lia).
  rewrite !Z2Nat.id in * by lia.
  destruct (assign_lcores_spec (Z.to_nat ext) (nb_lc - ext) (0 + (nb_lc - ext) * per) (per + 1) l1)
    as (m2 & -> & Lm2 & Sm2 & Fm2); [lia|lia|lia|lia|nia|].
  cbn [mbind outcome_bind]. eexists. split; [done|].
  assert (Ht : take (Z.to_nat (nb_lc - ext)) l1 = m1) by (unfold l1; apply take_app_length'; lia).
  replace (Z.to_nat (nb_lc - ext) + Z.to_nat ext)%nat with (Z.to_nat nb_lc) by lia.
  rewrite Ht, app_assoc.
  assert (Lm : length (m1 ++ m2) = Z.to_nat nb_lc) by (rewrite length_app; lia).
  rewrite take_app_length', drop_app_length' by lia. split_and!.
  - rewrite length_app, Lm, length_drop. lia.
  - unfold l1. rewrite drop_app_ge by lia. rewrite drop_drop. f_equal. lia.
  - unfold streams_of in *. rewrite bind_app, Sm1, Sm2, !Z2Nat.id by lia.
    rewrite <- seqZ_app by nia. f_equal. nia.
  - apply Forall_app. split; (eapply Forall_impl; [eassumption|]); cbn; lia.
Qed.

Lemma set_stream_spec i a b x y z (l : list fwd_stream) :
  0 <= i < Z.of_nat (length l) ->
  exists fs, zget l i = Some fs /\ set_stream i a b x y z l = Done (<[Z.to_nat i := route a b x y z fs]> l).
Proof.
  intros Hi. unfold set_stream. destruct (zget_is_Some l i Hi) as [fs Hfs]. exists fs. split; [done|].
  rewrite Hfs. cbn [of_opt mbind outcome_bind].
  by rewrite (proj2 (zset_Some l (<[Z.to_nat i := route a b x y z fs]> l) i _)).
Qed.

(** What a stream polls and where it sends. *)
Definition routed (l : list fwd_stream) (i rxp rxq txp txq peer : Z) : Prop :=
  exists fs, zget l i = Some fs /\ rx_port fs = rxp /\ rx_queue fs = rxq /\ tx_port fs = txp /\
    tx_queue fs = txq /\ peer_addr fs = peer.

Lemma routed_set l i a b x y z fs :
  0 <= i < Z.of_nat (length l) -> routed (<[Z.to_nat i := route a b x y z fs]> l) i a b x y z.
Proof.
  intros Hi. exists (route a b x y z fs). split; [|done]. apply zget_Some. split; [lia|].
  apply list_lookup_insert_eq. lia.
Qed.

Lemma routed_insert l i j a b x y z fs :
  0 <= i -> 0 <= j -> i <> j -> routed l j a b x y z -> routed (<[Z.to_nat i := fs]> l) j a b x y z.
Proof.
  intros Hi Hj Hne (g & Hg & H). exists g. split; [|done]. apply zget_Some in Hg as [_ Hg].
  apply zget_Some. split; [done|]. rewrite list_lookup_insert_ne by lia. done.
Qed.

(** The partner of the port of index [i] among [nb]. *)
Definition partner (topo : topology) (nb i : Z) : Z :=
  match topo with
  | LOOP => i
  | CHAINED => (i + 1) mod nb
  | PAIRED => if Z.even i then i + 1 else i - 1
  end.

Lemma simple_loop_spec topo fuel i nb ids l :
  0 <= i <= nb -> nb <= Z.of_nat (length ids) -> nb <= Z.of_nat (length l) -> nb < 250 ->
  (topo = PAIRED -> Z.even i = true /\ Z.even nb = true) -> nb - i <= Z.of_nat fuel ->
  (forall k, 0 <= k < i -> exists p q, zget ids k = Some p /\ zget ids (partner topo nb k) = Some q /\
     routed l k p 0 q 0 (partner topo nb k)) ->
  exists l', simple_loop topo fuel i (if decide (topo = PAIRED) then 2 else 1) nb ids l = Done l' /\
    length l' = length l /\
    forall k, 0 <= k < nb -> exists p q, zget ids k = Some p /\ zget ids (partner topo nb k) = Some q /\
     routed l' k p 0 q 0 (partner topo nb k).
Proof.
  revert i l. induction fuel as [|fuel IH]; intros i l Hi Hids Hl Hnb Hpair Hfuel Hdone; cbn [simple_loop].
  { destruct (Z.ltb_spec i nb); [lia|]. exists l. split; [done|]. split; [done|]. intros k Hk. apply Hdone. lia. }
  destruct (Z.ltb_spec i nb) as [Hlt|]; [|exists l; split; [done|]; split; [done|]; intros k Hk; apply Hdone; lia].
  destruct (zget_is_Some ids i) as [p Hp]; [lia|].
  assert (Hj : partner topo nb i = (if decide (topo = LOOP) then i else u8 ((i + 1) mod nb)) /\
    0 <= partner topo nb i < nb).
  { unfold partner. destruct topo.
    - destruct (Hpair eq_refl) as [He Hn]. rewrite He. rewrite decide_False by done.
      assert (i + 1 < nb). { destruct (decide (i + 1 = nb)) as [E|]; [|lia].
        rewrite <- E, Z.even_add, He in Hn. done. }
      rewrite Z.mod_small, u8_small by lia. lia.
    - rewrite decide_False by done. pose proof (Z.mod_pos_bound (i + 1) nb). rewrite u8_small by lia. lia.
    - rewrite decide_True by done. lia. }
  destruct Hj as [<- Hj]. set (j := partner topo nb i) in *.
  destruct (zget_is_Some ids j) as [q Hq]; [lia|]. rewrite Hp, Hq. cbn [of_opt mbind outcome_bind].
  destruct (set_stream_spec i p 0 q 0 j l) as (fs & Hfs & ->); [lia|]. cbn [mbind outcome_bind].
  set (l1 := <[Z.to_nat i := _]> l). assert (Ll1 : length l1 = length l) by apply length_insert.
  assert (Hr1 : routed l1 i p 0 q 0 j) by (apply routed_set; lia).
  assert (Hk1 : forall k a b x y z, 0 <= k -> k <> i -> routed l k a b x y z -> routed l1 k a b x y z).
  { intros. apply routed_insert; [lia|lia|lia|done]. }
  destruct (decide (topo = PAIRED)) as [Ht|Ht].
  - destruct (set_stream_spec j q 0 p 0 i l1) as (gs & Hgs & ->); [lia|]. cbn [mbind outcome_bind].
    set (l2 := <[Z.to_nat j := _]> l1). assert (Ll2 : length l2 = length l) by (unfold l2; by rewrite length_insert).
    destruct (Hpair Ht) as [He Hn].
    assert (Hji : j = i + 1) by (unfold j, partner; by rewrite Ht, He).
    assert (Hpj : partner topo nb j = i).
    { unfold partner. rewrite Ht, Hji, Z.even_add, He. cbn. lia. }
    rewrite (u8_small (i + 2)) by lia.
    specialize (IH (i + 2) l2). rewrite Ll2 in IH.
    apply IH; [lia|lia|lia|done| |lia|].
    + intros _. rewrite Z.even_add, He. done.
    + intros k Hk. destruct (decide (k = j)) as [->|].
      { rewrite Hpj. exists q, p. split; [done|]. split; [done|]. apply routed_set. lia. }
      destruct (decide (k = i)) as [->|].
      { exists p, q. split; [done|]. split; [done|]. apply routed_insert; [lia|lia|lia|done]. }
      destruct (Hdone k ltac:(lia)) as (p' & q' & H1 & H2 & H3). exists p', q'.
      split; [done|]. split; [done|]. apply routed_insert; [lia|lia|lia|]. apply Hk1; [lia|lia|done].
  - cbn [mbind outcome_bind]. rewrite (u8_small (i + 1)) by lia.
    specialize (IH (i + 1) l1). rewrite Ll1 in IH. apply IH; [lia|lia|lia|done|done|lia|].
    intros k Hk. destruct (decide (k = i)) as [->|]; [by exists p, q|].
    destruct (Hdone k ltac:(lia)) as (p' & q' & H1 & H2 & H3). exists p', q'.
    split; [done|]. split; [done|]. apply Hk1; [lia|lia|done].
Qed.

(** The receive port and queue of the stream [s] when every port has [q]
    queues. *)
Lemma next_queue s q rxp rxq :
  0 < q -> rxp = s / q -> rxq = s mod q ->
  (rxq + 1 < q -> (s + 1) / q = rxp /\ (s + 1) mod q = rxq + 1) /\
  (rxq + 1 = q -> (s + 1) / q = rxp + 1 /\ (s + 1) mod q = 0).
Proof.
  intros Hq -> ->. pose proof (Z.div_mod s q ltac:(lia)). pose proof (Z.mod_pos_bound s q Hq).
  split; intros H1.
  - split; symmetry; [apply (Z.div_unique _ _ _ (s mod q + 1))|apply (Z.mod_unique _ _ (s / q))]; lia.
  - split; symmetry; [apply (Z.div_unique _ _ _ 0)|apply (Z.mod_unique _ _ (s / q + 1))]; lia.
Qed.

Lemma paired_bound p : 0 <= p < 250 -> 0 <= paired p <= p + 1.
Proof.
  intros Hp. unfold paired. destruct (Z.eqb_spec (Z.land p 1) 0) as [|Ho]; [rewrite u8_small; lia|].
  assert (p <> 0) by (intros ->; by apply Ho). rewrite u8_small; lia.
Qed.

Definition rss_routed (topo : topology) (q : Z) (ids : list Z) (l : list fwd_stream) (s : Z) : Prop :=
  exists rx tx, zget ids (s / q) = Some rx /\
    zget ids (if decide (topo = LOOP) then s / q else paired (s / q)) = Some tx /\
    routed l s rx (s mod q) tx (s mod q) tx.

Lemma rss_loop_spec c topo n s rxp rxq nb_q ps l :
  0 <= s -> 0 < nb_q < 2 ^ 15 -> rxp = s / nb_q -> rxq = s mod nb_q ->
  numa_support c = false -> (forall p, 0 <= p -> p * nb_q < s + Z.of_nat n ->
     p + 1 < 250 /\ is_Some (zget (fwd_ports_ids ps) p) /\ is_Some (zget (fwd_ports_ids ps) (paired p))) ->
  s + Z.of_nat n <= Z.of_nat (length l) ->
  (forall k, 0 <= k < s -> rss_routed topo nb_q (fwd_ports_ids ps) l k) ->
  exists l', rss_loop c topo n s rxp rxq nb_q ps l = Done l' /\ length l' = length l /\
    forall k, 0 <= k < s + Z.of_nat n -> rss_routed topo nb_q (fwd_ports_ids ps) l' k.
Proof.
  intros Hs Hq. revert s rxp rxq l Hs. induction n as [|n IH]; intros s rxp rxq l Hs Hp Hr Hnuma Hids Hl Hdone;
    cbn [rss_loop].
  { exists l. split; [done|]. split; [done|]. intros k Hk. apply Hdone. lia. }
  pose proof (next_queue s nb_q rxp rxq ltac:(lia) Hp Hr) as [N1 N2].
  pose proof (Z.div_mod s nb_q ltac:(lia)) as Hdm. pose proof (Z.mod_pos_bound s nb_q ltac:(lia)) as Hm.
  assert (Hp0 : 0 <= rxp) by (rewrite Hp; apply Z.div_pos; lia).
  destruct (Hids rxp Hp0) as (Hb & [rx Hrx] & [tx0 Htx0]); [rewrite Hp; nia|]. rewrite Hrx.
  cbn [of_opt mbind outcome_bind].
  assert (Htx : exists tx, zget (fwd_ports_ids ps) (if decide (topo = LOOP) then rxp else paired rxp) = Some tx).
  { destruct (decide (topo = LOOP)); eauto. }
  destruct Htx as [tx Htx]. rewrite Htx. cbn [of_opt mbind outcome_bind].
  destruct (set_stream_spec s rx rxq tx rxq tx l) as (fs & _ & ->); [lia|]. cbn [mbind outcome_bind].
  set (l1 := <[Z.to_nat s := _]> l). assert (Ll1 : length l1 = length l) by apply length_insert.
  assert (Hdone1 : forall k, 0 <= k < s + 1 -> rss_routed topo nb_q (fwd_ports_ids ps) l1 k).
  { intros k Hk. destruct (decide (k = s)) as [->|].
    - exists rx, tx. rewrite <- Hp, <- Hr. split; [done|]. split; [done|]. apply routed_set. lia.
    - destruct (Hdone k ltac:(lia)) as (a & b & H1 & H2 & H3). exists a, b. split; [done|]. split; [done|].
      apply routed_insert; [lia|lia|lia|done]. }
  rewrite (u16_small (rxq + 1)) by lia.
  replace (s + Z.of_nat (S n)) with ((s + 1) + Z.of_nat n) in * by lia.
  destruct (Z.ltb_spec (rxq + 1) nb_q) as [Hlt|Hge].
  - destruct (N1 Hlt) as [E1 E2]. rewrite <- Ll1 in *.
    apply IH; [lia|done|done|done|done|done|done].
  - destruct (N2 ltac:(lia)) as [E1 E2]. unfold next_rxp. rewrite Hnuma. cbn [andb mbind outcome_bind].
    rewrite u8_small by lia. rewrite <- Ll1 in *. apply IH; [lia|done|done|done|done|done|done].
Qed.

(** ** Properties *)

(** C10: outside of DCB mode, configuring the forwarding shares out the
    streams among the cores: the streams of the cores, one core after the
    other, are all streams in order, so that every stream is polled by
    exactly one core. *)
Theorem cores_share_streams d c nb_lcores topo dcb icmpecho st st'
    (Hmode : dcb_config (pst st) = false)
    (Hlc : 1 <= nb_lcores) (Hlen : nb_lcores <= Z.of_nat (length (fwd_lcores st))) (H8 : nb_lcores < 2 ^ 8)
    (Hports : 1 <= nb_fwd_ports (pst st)) (Hrxq : 1 <= nb_rxq c) (Htxq : 1 <= nb_txq c)
    (Hr16 : nb_rxq c * nb_fwd_ports (pst st) + 1 < 2 ^ 16) (Ht16 : nb_txq c * nb_fwd_ports (pst st) + 1 < 2 ^ 16)
    (Hrun : fwd_config_setup d c nb_lcores topo dcb icmpecho st = Done st') :
  streams_of (take (Z.to_nat (cfg_lcores (cur_fwd_config st'))) (fwd_lcores st')) =
    seqZ 0 (nb_fwd_streams (cur_fwd_config st')) /\ 1 <= cfg_lcores (cur_fwd_config st').
Proof.
  set (nb := nb_fwd_ports (pst st)) in *.
  assert (Hmain : forall cfg lc, 1 <= cfg_lcores cfg -> cfg_lcores cfg <= nb_fwd_streams cfg ->
    nb_fwd_streams cfg + 1 < 2 ^ 16 -> cfg_lcores cfg <= nb_lcores ->
    setup_fwd_config_of_each_lcore cfg (fwd_lcores st) = Done lc ->
    streams_of (take (Z.to_nat (cfg_lcores cfg)) lc) = seqZ 0 (nb_fwd_streams cfg) /\ 1 <= cfg_lcores cfg).
  { intros [s l p] lc. cbn. intros G1 G2 G3 G4 E.
    destruct (setup_each_lcore_spec s l p (fwd_lcores st)) as (l' & E' & _ & _ & Hs & _); [lia..|].
    rewrite E in E'. injection E' as <-. done. }
  unfold fwd_config_setup in Hrun. destruct icmpecho.
  - unfold icmp_echo_config_setup in Hrun. fold nb in Hrun. inv_outcome. subst st'. cbn [cur_fwd_config fwd_lcores].
    assert (Hx : 1 <= nb_rxq c * nb) by nia. assert (Hy : 1 <= nb_txq c * nb) by nia.
    set (tx := nb_rxq c * nb) in *. set (ty := nb_txq c * nb) in *. clearbody tx ty.
    apply Hmain; [..|eassumption]; cbn [cfg_lcores nb_fwd_streams];
      rewrite ?(u16_small tx) by lia; destruct (Z.ltb_spec ty nb_lcores);
      rewrite ?(u8_small ty) by lia;
      repeat match goal with |- context [?a <? ?b] => destruct (Z.ltb_spec a b) end;
      rewrite ?u8_small by lia; lia.
  - rewrite Hmode in Hrun. destruct ((1 <? nb_rxq c) && (1 <? nb_txq c)).
    + unfold rss_fwd_config_setup in Hrun. fold nb in Hrun.
      set (q := if nb_txq c <? nb_rxq c then nb_txq c else nb_rxq c) in *.
      assert (Hq : 1 <= q /\ q * nb + 1 < 2 ^ 16) by (unfold q; destruct (Z.ltb_spec (nb_txq c) (nb_rxq c)); nia).
      rewrite (u16_small (q * nb)) in Hrun by nia.
      destruct (Z.ltb_spec nb_lcores (q * nb)); inv_outcome; subst st'; cbn [cur_fwd_config fwd_lcores];
        (apply Hmain; [..|done]); cbn [cfg_lcores nb_fwd_streams]; rewrite ?u8_small by nia; nia.
    + unfold simple_fwd_config_setup in Hrun. fold nb in Hrun. inv_outcome. subst st'. cbn [cur_fwd_config fwd_lcores].
      assert (nb + 1 < 2 ^ 16) by nia.
      apply Hmain; [..|done]; cbn [cfg_lcores nb_fwd_streams]; destruct (Z.ltb_spec nb nb_lcores); lia.
Qed.

(** C35: with one receive or transmit queue and, in the paired topology, an
    even number of ports, the configuration succeeds and every port of the
    list is polled by a stream that sends to its partner: its neighbour in
    the paired topology, the next port in the chained one, itself in the
    loop. *)
Theorem simple_config_routes d c nb_lcores topo st (ps := (init_fwd_streams d c (pst st)).2)
    (nb := nb_fwd_ports (pst st))
    (Hlc : 1 <= nb_lcores) (Hlen : nb_lcores <= Z.of_nat (length (fwd_lcores st))) (H8 : nb_lcores < 2 ^ 8)
    (Hnb : 1 <= nb < 250) (Hids : nb <= Z.of_nat (length (fwd_ports_ids ps)))
    (Hst : nb <= Z.of_nat (length (fwd_streams ps))) (Heven : topo = PAIRED -> Z.even nb = true) :
  exists st', simple_fwd_config_setup d c nb_lcores topo st = Done st' /\
    forall i, 0 <= i < nb -> exists p q,
      zget (fwd_ports_ids ps) i = Some p /\ zget (fwd_ports_ids ps) (partner topo nb i) = Some q /\
      routed (fwd_streams (pst st')) i p 0 q 0 (partner topo nb i).
Proof.
  unfold simple_fwd_config_setup. fold ps nb.
  destruct (setup_each_lcore_spec nb (if nb <? nb_lcores then nb else nb_lcores) nb (fwd_lcores st))
    as (lc & -> & _); [destruct (Z.ltb_spec nb nb_lcores); lia..|]. cbn [mbind outcome_bind].
  destruct (simple_loop_spec topo (Z.to_nat nb) 0 nb (fwd_ports_ids ps) (fwd_streams ps))
    as (l' & -> & _ & Hr); [lia|lia|lia|lia|by intros Ht; auto|lia|intros; lia|].
  cbn [mbind outcome_bind]. eexists. split; [done|]. exact Hr.
Qed.

(** With several queues outside of NUMA mode the configuration gives
    every core one stream; the streams run through the queues of a port and
    then on to the next port, and send on the queue of the same number of
    the other port of the pair. *)
Theorem rss_config_routes d c nb_lcores topo st (ps := (init_fwd_streams d c (pst st)).2)
    (nb := nb_fwd_ports (pst st)) (q := if nb_txq c <? nb_rxq c then nb_txq c else nb_rxq c)
    (Hlc : 1 <= nb_lcores) (Hlen : nb_lcores <= Z.of_nat (length (fwd_lcores st))) (H8 : nb_lcores < 2 ^ 8)
    (Hnb : 1 <= nb < 249) (Hq : 1 <= q < 2 ^ 15) (H16 : q * nb + 1 < 2 ^ 16) (Hnuma : numa_support c = false)
    (Hids : nb + 1 <= Z.of_nat (length (fwd_ports_ids ps)))
    (Hst : q * nb <= Z.of_nat (length (fwd_streams ps))) :
  exists st', rss_fwd_config_setup d c nb_lcores topo st = Done st' /\
    nb_fwd_streams (cur_fwd_config st') = Z.min nb_lcores (q * nb) /\
    cfg_lcores (cur_fwd_config st') = Z.min nb_lcores (q * nb) /\
    forall s, 0 <= s < Z.min nb_lcores (q * nb) ->
      rss_routed topo q (fwd_ports_ids ps) (fwd_streams (pst st')) s.
Proof.
  unfold rss_fwd_config_setup. fold q nb ps. rewrite (u16_small (q * nb)) by nia.
  set (n := Z.min nb_lcores (q * nb)).
  assert (E : (if nb_lcores <? q * nb then (nb_lcores, nb_lcores) else (q * nb, u8 (q * nb))) = (n, n)).
  { unfold n. destruct (Z.ltb_spec nb_lcores (q * nb)); [by rewrite Z.min_l by lia|].
    rewrite Z.min_r by lia. by rewrite u8_small by nia. }
  rewrite E. assert (Hn : 1 <= n <= nb_lcores /\ n <= q * nb) by (unfold n; nia).
  destruct (setup_each_lcore_spec n n nb (fwd_lcores st)) as (lc & -> & _); [lia..|]. cbn [mbind outcome_bind].
  destruct (rss_loop_spec c topo (Z.to_nat n) 0 0 0 q ps (fwd_streams ps)) as (l' & -> & _ & Hr);
    [lia|lia|by rewrite Z.div_0_l by lia|by rewrite Z.mod_0_l by lia|done| |lia|intros; lia|].
  - intros p Hp Hpn. assert (p < nb) by nia. split; [lia|].
    split; apply zget_is_Some; [lia|]. pose proof (paired_bound p). lia.
  - cbn [mbind outcome_bind]. eexists. split; [done|]. cbn [cur_fwd_config nb_fwd_streams cfg_lcores pst fwd_streams].
    split; [done|]. split; [done|]. intros s Hs. apply Hr. lia.
Qed.

(** ** Examples *)

Definition sample_fwd : fwd_state :=
  FwdState sample_state [FwdLcore 0 0 true; FwdLcore 0 0 true] (FwdCfg 0 0 0).

Lemma cores_share_streams_witness :
  match fwd_config_setup sample_dpdk (sample_config 255) 2 PAIRED (fun _ => DcbInfo 0 (fun _ _ => (0, 0)) (fun _ _ => (0, 0)))
      false sample_fwd with
  | Done st' => streams_of (take (Z.to_nat (cfg_lcores (cur_fwd_config st'))) (fwd_lcores st')) =
      seqZ 0 (nb_fwd_streams (cur_fwd_config st'))
  | _ => False
  end.
Proof.
  destruct (fwd_config_setup sample_dpdk (sample_config 255) 2 PAIRED
    (fun _ => DcbInfo 0 (fun _ _ => (0, 0)) (fun _ _ => (0, 0))) false sample_fwd) as [st'| |] eqn:E;
    [|vm_compute in E; discriminate E..].
  refine (proj1 (cores_share_streams _ _ 2 _ _ false sample_fwd st' _ _ _ _ _ _ _ _ _ E));
    solve [reflexivity | cbn; lia].
Defined.

Lemma simple_config_routes_witness :
  exists st', simple_fwd_config_setup sample_dpdk (sample_config 255) 2 PAIRED sample_fwd = Done st' /\
    exists p q, routed (fwd_streams (pst st')) 1 p 0 q 0 0.
Proof.
  destruct (simple_config_routes sample_dpdk (sample_config 255) 2 PAIRED sample_fwd) as (st' & E & H);
    [by vm_compute..|].
  exists st'. split; [exact E|].
  destruct (H 1) as (p & q & _ & _ & Hr); [cbn; lia|]. exists p, q. exact Hr.
Defined.

(** Two queues for every port, of which there are three on the device. *)
Definition sample_rss_config : config :=
  Config 2 2 128 512 false (fun _ => 255) (fun _ => 255) (fun _ => 255) 0 2 0 1 0 no_thresholds.
Definition sample_rss : fwd_state :=
  let p := sample_port STOPPED in
  FwdState (PState [p; p; p] 3 3 2 [0; 1; 2] [] true false false [])
    [FwdLcore 0 0 true; FwdLcore 0 0 true; FwdLcore 0 0 true] (FwdCfg 0 0 0).

Lemma rss_config_routes_witness :
  exists st', rss_fwd_config_setup sample_dpdk sample_rss_config 3 PAIRED sample_rss = Done st' /\
    exists rx tx, routed (fwd_streams (pst st')) 2 rx 0 tx 0 tx.
Proof.
  destruct (rss_config_routes sample_dpdk sample_rss_config 3 PAIRED sample_rss) as (st' & E & _ & _ & H);
    [by vm_compute..|].
  exists st'. split; [exact E|].
  destruct (H 2) as (rx & tx & _ & _ & Hr); [vm_compute; split; [discriminate|reflexivity]|].
  exists rx, tx. exact Hr.
Defined.
