(* ===== verification/RegOps.v ===== *)
(** * test-pmd/config.c: the registers of a port

    The commands that read and write the memory-mapped registers of a port,
    whole, by bit and by field.  The memory of a port is a list of bytes, as
    long as its PCI resource; a port of a virtual device has none, and using
    it is undefined behaviour, as are accesses out of bounds. *)

From S2P Require Import Prelude Packet PortConf PortState.

(** ** Definitions *)

Definition le32 (v : Z) : list Z := [v mod 256; v / 256 mod 256; v / 2 ^ 16 mod 256; v / 2 ^ 24 mod 256].
Definition of_le32 (bs : list Z) : Z :=
  match bs with [a; b; c; d] => a + 256 * b + 2 ^ 16 * c + 2 ^ 24 * d | _ => 0 end.

(** The first memory resource of every port. *)
Definition bars : Type := list (option (list Z)).

Definition bar_of (mem : bars) (port_id : Z) : outcome (list Z) :=
  o ← of_opt (zget mem port_id); of_opt o.

Definition port_pci_reg_read (mem : bars) (port_id reg_off : Z) : outcome Z :=
  b ← bar_of mem port_id; bs ← of_opt (rd b reg_off 4); Done (of_le32 bs).

Definition port_pci_reg_write (mem : bars) (port_id reg_off reg_v : Z) : outcome bars :=
  b ← bar_of mem port_id; b ← of_opt (wr b reg_off (le32 reg_v)); of_opt (zset mem port_id (Some b)).

Definition port_reg_off_is_invalid (mem : bars) (port_id reg_off : Z) : outcome bool :=
  if negb (Z.land reg_off 3 =? 0) then Done true
  else b ← bar_of mem port_id; Done (Z.of_nat (length b) <=? reg_off).

Definition reg_bit_pos_is_invalid (bit_pos : Z) : bool := negb (bit_pos <=? 31).

(** [1 << k] as an [int]. *)
Definition int_bit (k : Z) : Z := s32 (Z.shiftl 1 k).

(** [(1 << n) - 1] as an [int], which must not overflow. *)
Definition int_mask (n : Z) : outcome Z :=
  _ ← c_defined (in_s32 (int_bit n - 1)); Done (int_bit n - 1).

Section Commands.
Variable st : pstate.

(** The checks all commands start with: whether to go on. *)
Definition reg_access_ok (mem : bars) (port_id reg_off : Z) : outcome bool :=
  if port_id_is_invalid port_id st then Done false
  else bad ← port_reg_off_is_invalid mem port_id reg_off; Done (negb bad).

(** The display commands give the number they print, if they print one. *)
Definition port_reg_bit_display (mem : bars) (port_id reg_off bit_x : Z) : outcome (option Z) :=
  ok ← reg_access_ok mem port_id reg_off;
  if negb ok || reg_bit_pos_is_invalid bit_x then Done None
  else
    reg_v ← port_pci_reg_read mem port_id reg_off;
    Done (Some (s32 (Z.shiftr (Z.land reg_v (u32 (int_bit bit_x))) bit_x))).

Definition port_reg_bit_field_display (mem : bars) (port_id reg_off bit1_pos bit2_pos : Z)
    : outcome (option Z) :=
  ok ← reg_access_ok mem port_id reg_off;
  if negb ok || reg_bit_pos_is_invalid bit1_pos || reg_bit_pos_is_invalid bit2_pos then Done None
  else
    let '(l_bit, h_bit) := if bit2_pos <? bit1_pos then (bit2_pos, bit1_pos) else (bit1_pos, bit2_pos) in
    reg_v ← port_pci_reg_read mem port_id reg_off;
    let reg_v := Z.shiftr reg_v l_bit in
    if h_bit <? 31 then
      m ← int_mask (h_bit - l_bit + 1);
      Done (Some (Z.land reg_v (u32 m)))
    else Done (Some reg_v).

Definition port_reg_display (mem : bars) (port_id reg_off : Z) : outcome (option Z) :=
  ok ← reg_access_ok mem port_id reg_off;
  if negb ok then Done None
  else reg_v ← port_pci_reg_read mem port_id reg_off; Done (Some reg_v).

Definition port_reg_bit_set (mem : bars) (port_id reg_off bit_pos bit_v : Z) : outcome bars :=
  ok ← reg_access_ok mem port_id reg_off;
  if negb ok || reg_bit_pos_is_invalid bit_pos || (1 <? bit_v) then Done mem
  else
    reg_v ← port_pci_reg_read mem port_id reg_off;
    let reg_v := if bit_v =? 0 then Z.land reg_v (u32 (Z.lnot (int_bit bit_pos)))
                 else Z.lor reg_v (u32 (int_bit bit_pos)) in
    port_pci_reg_write mem port_id reg_off reg_v.

(** The greatest value of a field. *)
Definition field_max (l_bit h_bit : Z) : outcome Z :=
  if h_bit - l_bit <? 31 then m ← int_mask (h_bit - l_bit + 1); Done (u32 m) else Done 4294967295.

Definition port_reg_bit_field_set (mem : bars) (port_id reg_off bit1_pos bit2_pos value : Z) : outcome bars :=
  ok ← reg_access_ok mem port_id reg_off;
  if negb ok || reg_bit_pos_is_invalid bit1_pos || reg_bit_pos_is_invalid bit2_pos then Done mem
  else
    let '(l_bit, h_bit) := if bit2_pos <? bit1_pos then (bit2_pos, bit1_pos) else (bit1_pos, bit2_pos) in
    max_v ← field_max l_bit h_bit;
    if max_v <? value then Done mem
    else
      reg_v ← port_pci_reg_read mem port_id reg_off;
      let reg_v := Z.land reg_v (u32 (Z.lnot (u32 (Z.shiftl max_v l_bit)))) in
      let reg_v := Z.lor reg_v (u32 (Z.shiftl value l_bit)) in
      port_pci_reg_write mem port_id reg_off reg_v.

Definition port_reg_set (mem : bars) (port_id reg_off reg_v : Z) : outcome bars :=
  ok ← reg_access_ok mem port_id reg_off;
  if negb ok then Done mem else port_pci_reg_write mem port_id reg_off reg_v.
End Commands.

(** ** Lemmas *)

Lemma le32_of_le32 v : 0 <= v < 2 ^ 32 -> of_le32 (le32 v) = v.
Proof.
  intros Hv. unfold le32, of_le32.
  pose proof (Z.div_mod v 256 ltac:(lia)). pose proof (Z.div_mod (v / 256) 256 ltac:(lia)).
  pose proof (Z.div_mod (v / 256 / 256) 256 ltac:(lia)).
  rewrite !Z.div_div in * by lia. change (256 * 256) with (2 ^ 16) in *. change (2 ^ 16 * 256) with (2 ^ 24) in *.
  assert (v / 2 ^ 24 mod 256 = v / 2 ^ 24).
  { apply Z.mod_small. split; [apply Z.div_pos; lia|apply Z.div_lt_upper_bound; lia]. }
  lia.
Qed.

Lemma of_le32_range bs : length bs = 4%nat -> Forall byte_ok bs -> 0 <= of_le32 bs < 2 ^ 32.
Proof.
  intros Hl Hb. destruct bs as [|a [|b [|c [|e [|]]]]]; try done.
  rewrite !Forall_cons in Hb. unfold byte_ok in Hb. unfold of_le32. lia.
Qed.

(** Bits of a 32-bit word. *)
Lemma u32_testbit x i : 0 <= i -> Z.testbit (u32 x) i = (i <? 32) && Z.testbit x i.
Proof.
  intros Hi. unfold u32. destruct (Z.ltb_spec i 32); cbn.
  - by apply Z.mod_pow2_bits_low.
  - apply Z.mod_pow2_bits_high. lia.
Qed.

Lemma word_high_bit x i : 0 <= x < 2 ^ 32 -> 32 <= i -> Z.testbit x i = false.
Proof. intros Hx Hi. rewrite <- (Z.mod_small x (2 ^ 32)) by lia. apply Z.mod_pow2_bits_high. lia. Qed.

Lemma word_of_bits x : (forall i, 32 <= i -> Z.testbit x i = false) -> 0 <= x -> 0 <= x < 2 ^ 32.
Proof.
  intros Hb H0. split; [done|]. rewrite <- (Z.mod_small x (2 ^ 32)); [apply Z.mod_pos_bound; lia|].
  assert (E : x = x mod 2 ^ 32).
  { apply Z.bits_inj'. intros i Hi. destruct (Z.ltb_spec i 32).
    - by rewrite Z.mod_pow2_bits_low by lia.
    - rewrite Z.mod_pow2_bits_high by lia. by apply Hb. }
  rewrite E. apply Z.mod_pos_bound. lia.
Qed.

(** The mask of a field of [n] bits. *)
Lemma int_mask_ok n : 0 <= n <= 30 -> int_mask n = Done (Z.ones n).
Proof.
  intros Hn. unfold int_mask, int_bit. rewrite Z.shiftl_1_l.
  pose proof (Z.pow_lt_mono_r 2 n 31 ltac:(lia) ltac:(lia) ltac:(lia)). pose proof (Z.pow_pos_nonneg 2 n ltac:(lia) ltac:(lia)).
  rewrite s32_small by lia. unfold in_s32.
  rewrite (proj2 (Z.leb_le _ _)), (proj2 (Z.ltb_lt _ _)) by lia. cbn. by rewrite Z.ones_equiv.
Qed.

Lemma int_mask_31 : int_mask 31 = Undefined.
Proof. reflexivity. Qed.

Lemma field_max_ok l h : 0 <= l <= h -> h <= 31 -> h - l <> 30 -> field_max l h = Done (Z.ones (h - l + 1)).
Proof.
  intros Hl Hh Hne. unfold field_max. destruct (Z.ltb_spec (h - l) 31).
  - rewrite int_mask_ok by lia. cbn [mbind outcome_bind]. rewrite u32_small; [done|].
    rewrite Z.ones_equiv. pose proof (Z.pow_le_mono_r 2 (h - l + 1) 30 ltac:(lia) ltac:(lia)).
    pose proof (Z.pow_pos_nonneg 2 (h - l + 1) ltac:(lia) ltac:(lia)). lia.
  - replace (h - l + 1) with 32 by lia. done.
Qed.

Definition bars_ok (mem : bars) : Prop := Forall (fun o => forall b, o = Some b -> Forall byte_ok b) mem.

(** The register at [off] of port [p] exists and the commands accept it. *)
Definition reg_ok (st : pstate) (mem : bars) (p off : Z) : Prop :=
  port_id_is_invalid p st = false /\ bars_ok mem /\ 0 <= off /\ Z.land off 3 = 0 /\
  exists b, zget mem p = Some (Some b) /\ off + 4 <= Z.of_nat (length b).

Lemma bars_ok_get mem p b : bars_ok mem -> zget mem p = Some (Some b) -> Forall byte_ok b.
Proof.
  intros Hm [_ Hp]%zget_Some. unfold bars_ok in Hm. rewrite Forall_lookup in Hm. by eapply Hm.
Qed.

Lemma reg_access st mem p off : reg_ok st mem p off -> reg_access_ok st mem p off = Done true.
Proof.
  intros (Hv & _ & H0 & Ha & b & Hb & Hl). unfold reg_access_ok, port_reg_off_is_invalid, bar_of.
  rewrite Hv, Ha, Hb. cbn. destruct (Z.leb_spec (Z.of_nat (length b)) off); [lia|done].
Qed.

Lemma reg_read_range mem p off v :
  bars_ok mem -> port_pci_reg_read mem p off = Done v -> 0 <= v < 2 ^ 32.
Proof.
  intros Hm. unfold port_pci_reg_read, bar_of. intros E. inv_outcome. subst.
  apply of_le32_range.
  - apply Nat2Z.inj. by eapply rd_length.
  - eapply rd_Forall; [|done]. eapply bars_ok_get; [done|]. eassumption || (subst; done).
Qed.

Lemma reg_read st mem p off :
  reg_ok st mem p off -> exists v, port_pci_reg_read mem p off = Done v /\ 0 <= v < 2 ^ 32.
Proof.
  intros (_ & Hm & H0 & _ & b & Hb & Hl).
  destruct (rd_is_Some b off 4) as [bs Hbs]; [lia..|].
  assert (E : port_pci_reg_read mem p off = Done (of_le32 bs)).
  { unfold port_pci_reg_read, bar_of. rewrite Hb. cbn [of_opt mbind outcome_bind]. by rewrite Hbs. }
  exists (of_le32 bs). split; [done|]. by eapply reg_read_range.
Qed.

Lemma reg_write st mem p off v :
  reg_ok st mem p off -> 0 <= v < 2 ^ 32 ->
  exists mem', port_pci_reg_write mem p off v = Done mem' /\ reg_ok st mem' p off /\
    port_pci_reg_read mem' p off = Done v /\
    forall p' off', p' <> p \/ off' + 4 <= off \/ off + 4 <= off' ->
      port_pci_reg_read mem' p' off' = port_pci_reg_read mem p' off'.
Proof.
  intros (Hvd & Hm & H0 & Ha & b & Hb & Hl) Hv.
  destruct (wr_is_Some b off (le32 v)) as [b' Hw]; [done|done|].
  pose proof Hb as [Hp0 Hp]%zget_Some. pose proof (lookup_lt_Some _ _ _ Hp) as Hlt.
  exists (<[Z.to_nat p := Some b']> mem).
  assert (Hget : zget (<[Z.to_nat p := Some b']> mem) p = Some (Some b')).
  { apply zget_Some. split; [done|]. by apply list_lookup_insert_eq. }
  assert (Hbytes : Forall byte_ok (le32 v)).
  { repeat constructor; try apply Z.mod_pos_bound; try lia; apply Z.mod_pos_bound; lia. }
  split_and!.
  - unfold port_pci_reg_write, bar_of. rewrite Hb. cbn [of_opt mbind outcome_bind]. rewrite Hw.
    cbn [of_opt mbind outcome_bind].
    assert (Hs : zset mem p (Some b') = Some (<[Z.to_nat p := Some b']> mem)) by (apply zset_Some; split; [lia|done]).
    by rewrite Hs.
  - split_and!; [done| |done|done|].
    + apply Forall_insert; [done|]. intros x [= <-]. eapply wr_Forall; [|exact Hbytes|exact Hw].
      by eapply bars_ok_get.
    + exists b'. split; [done|]. by rewrite (wr_length _ _ _ _ Hw).
  - unfold port_pci_reg_read, bar_of. rewrite Hget. cbn [of_opt mbind outcome_bind].
    rewrite (rd_wr_at _ _ _ _ _ _ Hw) by done. cbn [of_opt mbind outcome_bind]. by rewrite le32_of_le32.
  - intros p' off' Hne. unfold port_pci_reg_read, bar_of.
    destruct (decide (p' = p)) as [->|Hpp].
    + rewrite Hget, Hb. cbn [of_opt mbind outcome_bind].
      by rewrite (rd_wr_other _ _ _ _ off' 4 Hw) by (cbn; lia).
    + replace (zget (<[Z.to_nat p := Some b']> mem) p') with (zget mem p'); [done|].
      unfold zget. destruct (Z.leb_spec 0 p'); [|done]. symmetry. apply list_lookup_insert_ne. lia.
Qed.

(** What setting a field does to the bits of a word. *)
Definition set_field (w l h v : Z) : Z :=
  Z.lor (Z.land w (u32 (Z.lnot (u32 (Z.shiftl (Z.ones (h - l + 1)) l))))) (u32 (Z.shiftl v l)).

Lemma set_field_bit w l h v i :
  0 <= w < 2 ^ 32 -> 0 <= l <= h -> h <= 31 -> 0 <= v <= Z.ones (h - l + 1) -> 0 <= i ->
  Z.testbit (set_field w l h v) i =
  if (l <=? i) && (i <=? h) then Z.testbit v (i - l) else Z.testbit w i.
Proof.
  intros Hw Hl Hh Hv Hi. unfold set_field.
  assert (Hvb : forall k, h - l < k -> Z.testbit v k = false).
  { intros k Hk. rewrite Z.ones_equiv in Hv. apply (Z.testbit_false v k ltac:(lia)).
    rewrite Z.div_small; [done|]. pose proof (Z.pow_le_mono_r 2 (h - l + 1) k ltac:(lia) ltac:(lia)). lia. }
  rewrite Z.lor_spec, Z.land_spec, !u32_testbit, Z.lnot_spec, u32_testbit by lia.
  destruct (Z.ltb_spec i 32) as [Hi32|Hi32].
  - rewrite !Z.shiftl_spec by lia. cbn [andb].
    destruct (Z.leb_spec l i), (Z.leb_spec i h); cbn [andb].
    + rewrite Z.ones_spec_low by lia. cbn. by rewrite andb_false_r.
    + rewrite Z.ones_spec_high by lia. cbn. rewrite (Hvb (i - l)) by lia. by rewrite andb_true_r, orb_false_r.
    + rewrite (Z.testbit_neg_r v), (Z.testbit_neg_r (Z.ones _)) by lia. cbn. by rewrite andb_true_r, orb_false_r.
    + lia.
  - cbn [andb]. rewrite andb_false_r. cbn [orb]. rewrite (word_high_bit w i Hw Hi32).
    destruct (Z.leb_spec l i), (Z.leb_spec i h); cbn [andb]; try done. lia.
Qed.

Lemma set_field_range w l h v :
  0 <= w < 2 ^ 32 -> 0 <= l <= h -> h <= 31 -> 0 <= v <= Z.ones (h - l + 1) -> 0 <= set_field w l h v < 2 ^ 32.
Proof.
  intros Hw Hl Hh Hv. apply word_of_bits.
  - intros i Hi. rewrite set_field_bit by (assumption || lia).
    destruct (Z.leb_spec l i), (Z.leb_spec i h); cbn [andb]; try lia; by apply word_high_bit.
  - apply Z.lor_nonneg. split; [apply Z.land_nonneg; lia|apply u32_range].
Qed.

(** Reading the field back. *)
Lemma get_set_field w l h v :
  0 <= w < 2 ^ 32 -> 0 <= l <= h -> h <= 31 -> 0 <= v <= Z.ones (h - l + 1) ->
  Z.land (Z.shiftr (set_field w l h v) l) (Z.ones (h - l + 1)) = v.
Proof.
  intros Hw Hl Hh Hv. apply Z.bits_inj'. intros i Hi.
  rewrite Z.land_spec, Z.shiftr_spec, set_field_bit by (assumption || lia).
  replace (i + l - l) with i by lia.
  destruct (Z.leb_spec l (i + l)); [|lia]. destruct (Z.leb_spec (i + l) h); cbn [andb].
  - rewrite Z.ones_spec_low by lia. by rewrite andb_true_r.
  - rewrite Z.ones_spec_high, andb_false_r by lia. symmetry. rewrite Z.ones_equiv in Hv.
    apply (Z.testbit_false v i Hi). rewrite Z.div_small; [done|].
    pose proof (Z.pow_le_mono_r 2 (h - l + 1) i ltac:(lia) ltac:(lia)). lia.
Qed.

Lemma field_display_spec st mem p off b1 b2 w :
  reg_ok st mem p off -> port_pci_reg_read mem p off = Done w ->
  0 <= b1 <= 31 -> 0 <= b2 <= 31 -> Z.abs (b1 - b2) <> 30 ->
  port_reg_bit_field_display st mem p off b1 b2 =
    Done (Some (Z.land (Z.shiftr w (Z.min b1 b2)) (Z.ones (Z.abs (b1 - b2) + 1)))).
Proof.
  intros Hok Hr H1 H2 Hne. unfold port_reg_bit_field_display. rewrite (reg_access _ _ _ _ Hok).
  pose proof Hok as (_ & Hm & _). pose proof (reg_read_range _ _ _ _ Hm Hr) as Hw.
  cbn [mbind outcome_bind]. unfold reg_bit_pos_is_invalid.
  destruct (Z.leb_spec b1 31), (Z.leb_spec b2 31); try lia. cbn [negb orb]. rewrite Hr. cbn [mbind outcome_bind].
  assert (Hgen : forall l h, 0 <= l <= h -> h <= 31 -> h - l <> 30 ->
    (if h <? 31 then m ← int_mask (h - l + 1); Done (Some (Z.land (Z.shiftr w l) (u32 m))) else Done (Some (Z.shiftr w l))) =
    Done (Some (Z.land (Z.shiftr w l) (Z.ones (h - l + 1))))).
  { intros l h Hl Hh Hlh. destruct (Z.ltb_spec h 31).
    - rewrite int_mask_ok by lia. cbn [mbind outcome_bind]. rewrite u32_small; [done|].
      rewrite Z.ones_equiv. pose proof (Z.pow_le_mono_r 2 (h - l + 1) 31 ltac:(lia) ltac:(lia)).
      pose proof (Z.pow_pos_nonneg 2 (h - l + 1) ltac:(lia) ltac:(lia)). lia.
    - do 2 f_equal. symmetry. rewrite Z.land_ones by lia. apply Z.mod_small.
      rewrite Z.shiftr_div_pow2 by lia. split; [apply Z.div_pos; lia|]. apply Z.div_lt_upper_bound; [lia|].
      rewrite <- Z.pow_add_r by lia. replace (l + (h - l + 1)) with 32 by lia. lia. }
  destruct (Z.ltb_spec b2 b1); cbn [mbind outcome_bind]; rewrite Hgen by lia; do 2 f_equal; f_equal; f_equal; lia.
Qed.

Lemma field_set_spec st mem p off b1 b2 v w :
  reg_ok st mem p off -> port_pci_reg_read mem p off = Done w ->
  0 <= b1 <= 31 -> 0 <= b2 <= 31 -> Z.abs (b1 - b2) <> 30 ->
  port_reg_bit_field_set st mem p off b1 b2 v =
    (if Z.ones (Z.abs (b1 - b2) + 1) <? v then Done mem
     else port_pci_reg_write mem p off (set_field w (Z.min b1 b2) (Z.max b1 b2) v)).
Proof.
  intros Hok Hr H1 H2 Hne. unfold port_reg_bit_field_set. rewrite (reg_access _ _ _ _ Hok).
  cbn [mbind outcome_bind]. unfold reg_bit_pos_is_invalid.
  destruct (Z.leb_spec b1 31), (Z.leb_spec b2 31); try lia. cbn [negb orb].
  destruct (Z.ltb_spec b2 b1); rewrite field_max_ok by lia; cbn [mbind outcome_bind]; rewrite Hr;
    cbn [mbind outcome_bind]; unfold set_field.
  - replace (Z.abs (b1 - b2)) with (b1 - b2) by lia. by rewrite Z.min_r, Z.max_l by lia.
  - replace (Z.abs (b1 - b2)) with (b2 - b1) by lia. by rewrite Z.min_l, Z.max_r by lia.
Qed.

Lemma lnot_bit b : 0 <= b <= 31 -> u32 (Z.lnot (2 ^ b)) = u32 (Z.lnot (int_bit b)).
Proof.
  intros Hb. unfold int_bit. rewrite Z.shiftl_1_l. destruct (decide (b = 31)) as [->|]; [done|].
  pose proof (Z.pow_le_mono_r 2 b 30 ltac:(lia) ltac:(lia)). pose proof (Z.pow_pos_nonneg 2 b ltac:(lia) ltac:(lia)).
  by rewrite s32_small by lia.
Qed.

(** The value of one bit. *)
Lemma bit_value w b :
  0 <= w -> 0 <= b -> s32 (Z.shiftr (Z.land w (2 ^ b)) b) = Z.land (Z.shiftr w b) (Z.ones 1).
Proof.
  intros Hw Hb. rewrite Z.shiftr_land, (Z.shiftr_div_pow2 (2 ^ b)), Z.div_same by lia.
  pose proof (Z.land_ones (Z.shiftr w b) 1 ltac:(lia)) as E. pose proof (Z.mod_pos_bound (Z.shiftr w b) (2 ^ 1)).
  change (Z.ones 1) with 1 in *. rewrite E. apply s32_small. lia.
Qed.

(** Setting a field of 31 bits. *)
Lemma field_set_31 st mem p off b1 b2 v :
  reg_ok st mem p off -> 0 <= b1 <= 31 -> 0 <= b2 <= 31 -> Z.abs (b1 - b2) = 30 ->
  port_reg_bit_field_set st mem p off b1 b2 v = Undefined.
Proof.
  intros Hok H1 H2 H30. unfold port_reg_bit_field_set, reg_bit_pos_is_invalid. rewrite (reg_access _ _ _ _ Hok).
  cbn [mbind outcome_bind negb orb]. rewrite !(proj2 (Z.leb_le _ 31)) by lia. cbn [negb orb].
  destruct (Z.ltb_spec b2 b1); unfold field_max; [replace (b1 - b2) with 30 by lia|replace (b2 - b1) with 30 by lia]; reflexivity.
Qed.

(** ** Properties *)

(** C38: Setting a field of a register, unless it has 31 bits, to a value that
    fits and displaying it gives the value back, whichever of the two
    positions comes first; the other bits of the register and all other
    registers keep their values.  Setting a field of 31 bits is undefined:
    its greatest value is computed as a signed [1 << 31] less one. *)
Theorem reg_field_roundtrip st mem p off b1 b2 v w
    (Hok : reg_ok st mem p off) (Hr : port_pci_reg_read mem p off = Done w)
    (H1 : 0 <= b1 <= 31) (H2 : 0 <= b2 <= 31) (Hv : 0 <= v < 2 ^ (Z.abs (b1 - b2) + 1)) :
  if decide (Z.abs (b1 - b2) = 30) then port_reg_bit_field_set st mem p off b1 b2 v = Undefined
  else exists mem' w', port_reg_bit_field_set st mem p off b1 b2 v = Done mem' /\
    port_reg_bit_field_display st mem' p off b1 b2 = Done (Some v) /\
    port_reg_display st mem' p off = Done (Some w') /\
    (forall i, 0 <= i < Z.min b1 b2 \/ Z.max b1 b2 < i -> Z.testbit w' i = Z.testbit w i) /\
    forall p' off', p' <> p \/ off' + 4 <= off \/ off + 4 <= off' ->
      port_pci_reg_read mem' p' off' = port_pci_reg_read mem p' off'.
Proof.
  destruct (decide _) as [H30|Hne]; [by eapply field_set_31|].
  pose proof Hok as (_ & Hm & _). pose proof (reg_read_range _ _ _ _ Hm Hr) as Hw.
  set (l := Z.min b1 b2). set (h := Z.max b1 b2).
  assert (Hlh : Z.abs (b1 - b2) = h - l) by lia.
  assert (Hv' : 0 <= v <= Z.ones (h - l + 1)) by (rewrite Z.ones_equiv, <- Hlh; lia).
  destruct (reg_write st mem p off (set_field w l h v) Hok) as (mem' & Hwr & Hok' & Hr' & Hoth);
    [apply set_field_range; lia|].
  exists mem', (set_field w l h v). split_and!.
  - rewrite (field_set_spec _ _ _ _ _ _ _ w) by done. fold l h. rewrite Hlh.
    destruct (Z.ltb_spec (Z.ones (h - l + 1)) v); [lia|done].
  - rewrite (field_display_spec _ _ _ _ _ _ _ Hok' Hr') by done. fold l. rewrite Hlh.
    rewrite get_set_field by lia. done.
  - unfold port_reg_display. rewrite (reg_access _ _ _ _ Hok'). cbn [mbind outcome_bind negb]. by rewrite Hr'.
  - intros i Hi. rewrite set_field_bit by lia.
    destruct (Z.leb_spec l i), (Z.leb_spec i h); cbn [andb]; (done || lia).
  - exact Hoth.
Qed.

(** The commands on one bit agree with the commands on the field of that
    bit alone, on every input: the checks, the values and the registers. *)
Theorem reg_bit_is_field st mem p off b v
    (Hm : bars_ok mem) (Hb : 0 <= b) (Hv : 0 <= v) :
  port_reg_bit_set st mem p off b v = port_reg_bit_field_set st mem p off b b v /\
  port_reg_bit_display st mem p off b = port_reg_bit_field_display st mem p off b b.
Proof.
  assert (Hbit : b <= 31 -> u32 (int_bit b) = 2 ^ b).
  { intros Hb31. unfold int_bit. rewrite Z.shiftl_1_l. destruct (decide (b = 31)) as [->|]; [done|].
    pose proof (Z.pow_le_mono_r 2 b 30 ltac:(lia) ltac:(lia)). pose proof (Z.pow_pos_nonneg 2 b ltac:(lia) Hb).
    rewrite s32_small, u32_small by lia. done. }
  split.
  - unfold port_reg_bit_set, port_reg_bit_field_set. rewrite Z.ltb_irrefl.
    destruct (reg_access_ok st mem p off) as [[]| |]; cbn [mbind outcome_bind negb orb]; try done.
    unfold reg_bit_pos_is_invalid. destruct (Z.leb_spec b 31); cbn [negb orb]; [|done].
    rewrite field_max_ok by lia. cbn [mbind outcome_bind]. replace (b - b + 1) with 1 by lia.
    change (Z.ones 1) with 1. destruct (Z.ltb_spec 1 v); [done|].
    destruct (port_pci_reg_read mem p off) as [w| |] eqn:Hr; cbn [mbind outcome_bind]; try done.
    pose proof (reg_read_range _ _ _ _ Hm Hr) as Hw. f_equal. rewrite Z.shiftl_1_l.
    rewrite (u32_small (2 ^ b)) by (rewrite <- Hbit by lia; apply u32_range).
    rewrite <- (lnot_bit b) by lia. destruct (Z.eqb_spec v 0) as [->|].
    + rewrite Z.shiftl_0_l. by rewrite Z.lor_0_r.
    + replace v with 1 by lia. rewrite Z.shiftl_1_l, Hbit by lia. rewrite (u32_small (2 ^ b)) by (rewrite <- Hbit by lia; apply u32_range).
      apply Z.bits_inj'. intros i Hi. rewrite !Z.lor_spec, Z.land_spec, u32_testbit, Z.lnot_spec by lia.
      destruct (Z.ltb_spec i 32); [|by rewrite (word_high_bit w i Hw)].
      cbn [andb]. destruct (Z.testbit w i), (Z.testbit (2 ^ b) i); done.
  - unfold port_reg_bit_display, port_reg_bit_field_display. rewrite Z.ltb_irrefl.
    destruct (reg_access_ok st mem p off) as [[]| |]; cbn [mbind outcome_bind negb orb]; try done.
    unfold reg_bit_pos_is_invalid. destruct (Z.leb_spec b 31) as [Hb31|]; cbn [negb orb]; [|done].
    destruct (port_pci_reg_read mem p off) as [w| |] eqn:Hr; cbn [mbind outcome_bind]; try done.
    pose proof (reg_read_range _ _ _ _ Hm Hr) as Hw. rewrite Hbit by lia. rewrite (bit_value w b) by lia.
    destruct (Z.ltb_spec b 31).
    + rewrite int_mask_ok by lia. cbn [mbind outcome_bind]. do 2 f_equal. by replace (b - b + 1) with 1 by lia.
    + replace b with 31 by lia. do 2 f_equal. rewrite (Z.land_ones _ 1) by lia. apply Z.mod_small.
      rewrite Z.shiftr_div_pow2 by lia. split; [apply Z.div_pos; lia|apply Z.div_lt_upper_bound; lia].
Qed.

(** A field of 31 bits, whose mask [(1 << 31) - 1] overflows. *)
Lemma field_of_31_bits st mem p off w v :
  reg_ok st mem p off -> port_pci_reg_read mem p off = Done w ->
  port_reg_bit_field_set st mem p off 0 30 v = Undefined /\
  port_reg_bit_field_display st mem p off 0 30 = Undefined.
Proof.
  intros Hok Hr. unfold port_reg_bit_field_set, port_reg_bit_field_display. rewrite (reg_access _ _ _ _ Hok).
  cbn [mbind outcome_bind]. by rewrite Hr.
Qed.

(** ** Examples *)

Definition sample_bars : bars := [Some (replicate 8 170); None].

Lemma sample_reg_ok : reg_ok sample_state sample_bars 0 4.
Proof.
  split; [done|]. split.
  - repeat constructor; intros b Hb; [injection Hb as <-|done]. repeat constructor; lia.
  - split; [lia|]. split; [done|]. by exists (replicate 8 170).
Qed.

Lemma reg_field_roundtrip_witness :
  exists mem' w', port_reg_bit_field_set sample_state sample_bars 0 4 11 4 200 = Done mem' /\
    port_reg_bit_field_display sample_state mem' 0 4 11 4 = Done (Some 200) /\
    port_reg_display sample_state mem' 0 4 = Done (Some w').
Proof.
  destruct (reg_field_roundtrip sample_state sample_bars 0 4 11 4 200 2863311530 sample_reg_ok) as (mem' & w' & H1 & H2 & H3 & _);
    [reflexivity|lia|lia|by vm_compute|]. exists mem', w'. split_and!; assumption.
Defined.

Lemma reg_bit_is_field_witness :
  port_reg_bit_set sample_state sample_bars 0 4 31 0 = port_reg_bit_field_set sample_state sample_bars 0 4 31 31 0.
Proof. refine (proj1 (reg_bit_is_field sample_state sample_bars 0 4 31 0 _ _ _)); [apply sample_reg_ok|lia|lia]. Defined.
