(* ===== verification/QueueMap.v ===== *)
(** * test-pmd: the statistics counters of the queues

    [set_qmap] of config.c keeps the mappings from queues to statistics
    counters; [map_port_queue_stats_mapping_registers] of testpmd.c gives
    those of a port to its device.  An array of mappings is the list of its
    entries in use.  The specification of both is a finite map from port and
    queue to counter. *)

From stdpp Require Import gmap.
From S2P Require Import Prelude Packet PortConf PortState.

(** ** Definitions *)

(** [struct queue_stats_mappings] *)
Record queue_stats_mappings : Type := Mapping { qm_port : Z; qm_queue : Z; stats_counter_id : Z }.

Definition RTE_ETHDEV_QUEUE_STAT_CNTRS : Z := 16.
Definition MAX_TX_QUEUE_STATS_MAPPINGS : nat := 1024.
Definition MAX_RX_QUEUE_STATS_MAPPINGS : nat := 4096.

Definition max_mappings (is_rx : bool) : nat :=
  if is_rx then MAX_RX_QUEUE_STATS_MAPPINGS else MAX_TX_QUEUE_STATS_MAPPINGS.

(** [rx_queue_id_is_invalid] and [tx_queue_id_is_invalid] *)
Definition queue_id_is_invalid (c : config) (is_rx : bool) (q : Z) : bool :=
  negb (q <? (if is_rx then nb_rxq c else nb_txq c)).

(** Changing the first mapping of a queue: [None] when it has none. *)
Fixpoint remap (port queue v : Z) (l : list queue_stats_mappings) : option (list queue_stats_mappings) :=
  match l with
  | [] => None
  | x :: l =>
      if (qm_port x =? port) && (qm_queue x =? queue) then Some (Mapping (qm_port x) (qm_queue x) v :: l)
      else l ← remap port queue v l; Some (x :: l)
  end.

(** The mappings of one direction after [set_qmap]. *)
Definition set_qmap (st : pstate) (c : config) (port : Z) (is_rx : bool) (queue v : Z)
    (l : list queue_stats_mappings) : outcome (list queue_stats_mappings) :=
  if port_id_is_invalid port st then Done l
  else if queue_id_is_invalid c is_rx queue then Done l
  else if RTE_ETHDEV_QUEUE_STAT_CNTRS <=? v then Done l
  else
    match remap port queue v l with
    | Some l => Done l
    | None =>
        _ ← c_defined (length l <? max_mappings is_rx)%nat;
        Done (l ++ [Mapping port queue v])
    end.

(** A call of [rte_eth_dev_set_tx_queue_stats_mapping] or its receive
    counterpart; [answer] is what DPDK returns after the calls before it,
    latest first. *)
Record map_call : Type := MapCall { mc_rx : bool; mc_port : Z; mc_queue : Z; mc_counter : Z }.

Definition ENOTSUP : Z := 95.

Section Registers.
Variables (answer : list map_call -> Z) (c : config).

(** The loop of [set_tx_queue_stats_mapping_registers] and
    [set_rx_queue_stats_mapping_registers]: the result, the calls, and
    whether a mapping was found. *)
Fixpoint map_registers (is_rx : bool) (port : Z) (l : list queue_stats_mappings) (found : bool)
    (calls : list map_call) : Z * bool * list map_call :=
  match l with
  | [] => (0, found, calls)
  | x :: l =>
      if (qm_port x =? port) && (qm_queue x <? (if is_rx then nb_rxq c else nb_txq c)) then
        let calls := MapCall is_rx port (qm_queue x) (stats_counter_id x) :: calls in
        if negb (answer calls =? 0) then (answer calls, false, calls)
        else map_registers is_rx port l true calls
      else map_registers is_rx port l found calls
  end.

(** One direction of [map_port_queue_stats_mapping_registers]: the new value
    of the port's flag [..._queue_stats_mapping_enabled]. *)
Definition map_port_direction (is_rx : bool) (port : Z) (l : list queue_stats_mappings) (flag : bool)
    (calls : list map_call) : outcome (bool * list map_call) :=
  let '(diag, found, calls) := map_registers is_rx port l false calls in
  if diag =? 0 then Done (flag || found, calls)
  else if diag =? - ENOTSUP then Done (false, calls)
  else Aborted.

(** The two flags are those of transmission and reception. *)
Definition map_port_queue_stats_mapping_registers (port : Z) (txl rxl : list queue_stats_mappings)
    (flags : bool * bool) (calls : list map_call) : outcome (bool * bool * list map_call) :=
  '(tx, calls) ← map_port_direction false port txl flags.1 calls;
  '(rx, calls) ← map_port_direction true port rxl flags.2 calls;
  Done (tx, rx, calls).
End Registers.

(** ** Specification *)

Definition key (x : queue_stats_mappings) : Z * Z := (qm_port x, qm_queue x).

(** The map a list of mappings stands for. *)
Definition to_map (l : list queue_stats_mappings) : gmap (Z * Z) Z :=
  list_to_map ((fun x => (key x, stats_counter_id x)) <$> l).

(** The counters of a device's queues after the calls, latest first. *)
Definition counters (is_rx : bool) (calls : list map_call) : gmap (Z * Z) Z :=
  foldr (fun k m => if eqb (mc_rx k) is_rx then <[(mc_port k, mc_queue k) := mc_counter k]> m else m) ∅ calls.

(** Every queue has at most one mapping. *)
Definition one_each (l : list queue_stats_mappings) : Prop := NoDup (key <$> l).

(** What a command does to the map. *)
Definition spec_set (st : pstate) (c : config) (is_rx : bool) (m : gmap (Z * Z) Z) (cmd : Z * Z * Z)
    : gmap (Z * Z) Z :=
  let '(port, queue, v) := cmd in
  if port_id_is_invalid port st || queue_id_is_invalid c is_rx queue || (RTE_ETHDEV_QUEUE_STAT_CNTRS <=? v)
  then m else <[(port, queue) := v]> m.

(** A sequence of commands for one direction. *)
Fixpoint set_qmaps (st : pstate) (c : config) (is_rx : bool) (cmds : list (Z * Z * Z))
    (l : list queue_stats_mappings) : outcome (list queue_stats_mappings) :=
  match cmds with
  | [] => Done l
  | (port, queue, v) :: cmds => l ← set_qmap st c port is_rx queue v l; set_qmaps st c is_rx cmds l
  end.

(** ** Lemmas *)

Lemma remap_spec port queue v l :
  match remap port queue v l with
  | Some l' => key <$> l' = key <$> l /\ to_map l' = <[(port, queue) := v]> (to_map l)
  | None => (port, queue) ∉ key <$> l
  end.
Proof.
  induction l as [|x l IH]; cbn [remap]; [by apply not_elem_of_nil|].
  destruct ((qm_port x =? port) && (qm_queue x =? queue)) eqn:E.
  - apply andb_true_iff in E as [<-%Z.eqb_eq <-%Z.eqb_eq]. split; [done|].
    unfold to_map. cbn. by rewrite insert_insert_eq.
  - assert (Hk : key x <> (port, queue)).
    { intros [= H1 H2]. by rewrite H1, H2, !Z.eqb_refl in E. }
    destruct (remap port queue v l) as [l'|]; cbn [mbind option_bind].
    + destruct IH as [Hk' Hm]. split; [cbn; by rewrite Hk'|].
      unfold to_map in *. cbn. rewrite Hm. by rewrite insert_insert_ne by done.
    + cbn. rewrite not_elem_of_cons. by split.
Qed.

Lemma to_map_snoc port queue v l :
  (port, queue) ∉ key <$> l -> to_map (l ++ [Mapping port queue v]) = <[(port, queue) := v]> (to_map l).
Proof.
  intros Hk. unfold to_map. rewrite fmap_app, list_to_map_app. cbn.
  rewrite insert_empty, insert_union_singleton_r; [done|].
  apply not_elem_of_list_to_map_1. rewrite <- list_fmap_compose. done.
Qed.

Lemma set_qmap_spec st c port is_rx queue v l l' :
  one_each l -> set_qmap st c port is_rx queue v l = Done l' ->
  one_each l' /\ to_map l' = spec_set st c is_rx (to_map l) (port, queue, v).
Proof.
  intros Hl. unfold set_qmap, spec_set.
  destruct (port_id_is_invalid port st); [by intros [= <-]|].
  destruct (queue_id_is_invalid c is_rx queue); [by intros [= <-]|].
  destruct (_ <=? v); [by intros [= <-]|]. cbn [orb].
  pose proof (remap_spec port queue v l) as H. destruct (remap port queue v l) as [l1|].
  - intros [= <-]. destruct H as [Hk Hm]. unfold one_each. by rewrite Hk.
  - intros E. inv_outcome. subst l'. split; [|by apply to_map_snoc].
    unfold one_each. rewrite fmap_app. apply NoDup_app. split_and!; [done| |apply NoDup_singleton].
    intros k Hk ->%list_elem_of_singleton. done.
Qed.

Lemma set_qmap_length st c port is_rx queue v l l' :
  set_qmap st c port is_rx queue v l = Done l' -> (length l <= length l' <= S (length l))%nat.
Proof.
  unfold set_qmap. destruct (port_id_is_invalid port st); [intros [= <-]; lia|].
  destruct (queue_id_is_invalid c is_rx queue); [intros [= <-]; lia|].
  destruct (_ <=? v); [intros [= <-]; lia|].
  pose proof (remap_spec port queue v l) as H. destruct (remap port queue v l) as [l1|].
  - intros [= <-]. destruct H as [Hk _]. apply (f_equal length) in Hk. rewrite !length_fmap in Hk. lia.
  - intros E. inv_outcome. subst l'. rewrite length_app. cbn. lia.
Qed.

Lemma set_qmaps_total st c is_rx cmds l :
  (length l + length cmds <= max_mappings is_rx)%nat -> exists l', set_qmaps st c is_rx cmds l = Done l'.
Proof.
  revert l. induction cmds as [|[[p q] v] cmds IH]; intros l Hl; cbn [set_qmaps]; [by exists l|].
  assert (H1 : exists l1, set_qmap st c p is_rx q v l = Done l1).
  { unfold set_qmap. destruct (port_id_is_invalid p st); [eauto|].
    destruct (queue_id_is_invalid c is_rx q); [eauto|]. destruct (_ <=? v); [eauto|].
    destruct (remap p q v l); [eauto|]. cbn in Hl. rewrite (proj2 (Nat.ltb_lt _ _)) by lia. cbn. eauto. }
  destruct H1 as [l1 H1]. rewrite H1. cbn [mbind outcome_bind].
  apply IH. pose proof (set_qmap_length _ _ _ _ _ _ _ _ H1). cbn in Hl. lia.
Qed.

Lemma set_qmaps_spec st c is_rx cmds l l' :
  one_each l -> set_qmaps st c is_rx cmds l = Done l' ->
  one_each l' /\ to_map l' = foldl (spec_set st c is_rx) (to_map l) cmds.
Proof.
  revert l. induction cmds as [|[[p q] v] cmds IH]; intros l Hl; cbn [set_qmaps]; [by intros [= <-]|].
  intros (l1 & H1 & H2)%outcome_bind_Done. destruct (set_qmap_spec _ _ _ _ _ _ _ _ Hl H1) as [Hl1 Hm].
  destruct (IH l1 Hl1 H2) as [Hl' Hm']. split; [done|]. cbn [foldl]. by rewrite <- Hm.
Qed.

(** The mappings of a port that its device gets. *)
Definition of_port (c : config) (is_rx : bool) (port : Z) (k : (Z * Z) * Z) : Prop :=
  k.1.1 = port /\ k.1.2 < (if is_rx then nb_rxq c else nb_txq c).

#[export] Instance of_port_dec c is_rx port k : Decision (of_port c is_rx port k).
Proof. apply _. Defined.

Lemma map_registers_spec answer c is_rx port l found calls :
  (forall k, answer k = 0) -> one_each l ->
  exists calls', map_registers answer c is_rx port l found calls =
      (0, found || bool_decide (filter (of_port c is_rx port) (to_map l) <> ∅), calls') /\
    counters is_rx calls' = filter (of_port c is_rx port) (to_map l) ∪ counters is_rx calls.
Proof.
  intros Ha. revert found calls. induction l as [|x l IH]; intros found calls Hl; cbn [map_registers].
  - exists calls. unfold to_map. cbn. rewrite map_filter_empty, bool_decide_false by naive_solver.
    rewrite orb_false_r, (left_id_L ∅ (∪)). done.
  - apply NoDup_cons in Hl as [Hx Hl]. cbn [to_map fmap list_fmap list_to_map foldr fst snd].
    assert (Hn : to_map l !! key x = None).
    { apply not_elem_of_list_to_map_1. rewrite <- list_fmap_compose. done. }
    change (to_map (x :: l)) with (<[key x := stats_counter_id x]> (to_map l)).
    destruct ((qm_port x =? port) && _) eqn:E.
    + apply andb_true_iff in E as [<-%Z.eqb_eq Hq%Z.ltb_lt]. rewrite Ha. cbn [Z.eqb negb].
      set (k := MapCall _ _ _ _). destruct (IH true (k :: calls) Hl) as (calls' & -> & Hc).
      exists calls'. rewrite map_filter_insert_True by done. split.
      * cbn [orb]. rewrite bool_decide_true by apply insert_non_empty. by rewrite orb_true_r.
      * rewrite Hc. cbn [counters foldr]. fold (counters is_rx calls).
        unfold k at 1. cbn [mc_rx mc_port mc_queue mc_counter]. rewrite eqb_reflx.
        rewrite <- insert_union_r; [by rewrite insert_union_l|].
        apply map_lookup_filter_None. by left.
    + destruct (IH found calls Hl) as (calls' & -> & Hc). exists calls'.
      rewrite map_filter_insert_False.
      2: { intros [H1 H2]. cbn in H1, H2. rewrite H1, Z.eqb_refl in E. cbn in E.
        destruct (Z.ltb_spec (qm_queue x) (if is_rx then nb_rxq c else nb_txq c)); [done|lia]. }
      by rewrite delete_id by done.
Qed.

(** ** Properties *)

(** C20: any sequence of at most as many commands as the array has entries
    succeeds and acts as insertions into a finite map from port and queue to
    counter; when the device accepts every call, the counters it then has
    for a port are exactly those of the map for the queues in use. *)
Theorem qmaps_refine_map st c is_rx cmds answer port
    (Hlen : (length cmds <= max_mappings is_rx)%nat) (Ha : forall k, answer k = 0) :
  exists l calls, set_qmaps st c is_rx cmds [] = Done l /\
    let m := filter (of_port c is_rx port) (foldl (spec_set st c is_rx) ∅ cmds) in
    map_registers answer c is_rx port l false [] = (0, bool_decide (m <> ∅), calls) /\
    counters is_rx calls = m.
Proof.
  destruct (set_qmaps_total st c is_rx cmds []) as [l Hl]; [cbn; lia|].
  destruct (set_qmaps_spec st c is_rx cmds [] l) as [H1 Hm]; [constructor|done|].
  destruct (map_registers_spec answer c is_rx port l false []) as (calls & Hr & Hc); [done|done|].
  exists l, calls. split; [done|]. cbv zeta. change (to_map []) with (∅ : gmap (Z * Z) Z) in Hm.
  rewrite <- Hm. split; [done|]. rewrite Hc. cbn. by rewrite (right_id_L ∅ (∪)).
Qed.

Lemma qmaps_refine_map_witness :
  exists l calls,
    set_qmaps sample_state (sample_config 255) true [(0, 0, 3); (1, 0, 4); (0, 0, 5); (0, 7, 1)] [] = Done l /\
    map_registers (fun _ => 0) (sample_config 255) true 0 l false [] = (0, true, calls).
Proof.
  destruct (qmaps_refine_map sample_state (sample_config 255) true [(0, 0, 3); (1, 0, 4); (0, 0, 5); (0, 7, 1)]
    (fun _ => 0) 0) as (l & calls & H1 & H2 & _); [by apply Nat.leb_le|done|].
  exists l, calls. split; [exact H1|]. rewrite H2. reflexivity.
Defined.

(** A duplicate, which only the command line can make: changing the counter
    of the queue changes the first of the two, the device gets the second. *)
Lemma duplicate_keeps_old_counter :
  exists l, set_qmap sample_state (sample_config 255) 0 true 0 5 [Mapping 0 0 3; Mapping 0 0 3] = Done l /\
    counters true (map_registers (fun _ => 0) (sample_config 255) true 0 l false []).2 !! (0, 0) = Some 3.
Proof. eexists. split; vm_compute; reflexivity. Qed.
