(* ===== verification/CoreConf.v ===== *)
(** * test-pmd: the forwarding cores

    The default configuration of testpmd.c and the commands of config.c that
    choose the cores that forward packets: by list, by mask and by number. *)

From S2P Require Import Prelude.

(** ** Lists that are checked before they are stored

    [set_fwd_lcores_list] and [set_fwd_ports_list] go through their list
    twice: to check every entry and, when [record_now] is set, to store
    them; [None] when an entry is refused. *)

Fixpoint list_pass (refused : Z -> bool) (record_now : bool) (i : Z) (l ids : list Z)
    : outcome (option (list Z)) :=
  match l with
  | [] => Done (Some ids)
  | x :: l =>
      if refused x then Done None
      else
        ids ← (if record_now then of_opt (zset ids i x) else Done ids);
        list_pass refused record_now (i + 1) l ids
  end.

(** The positions of the bits of a mask, of [n] from [i] on. *)
Fixpoint mask_list (n : nat) (i mask : Z) : list Z :=
  match n with
  | O => []
  | S n =>
      if Z.land (u64 (Z.shiftl 1 i)) mask =? 0 then mask_list n (i + 1) mask
      else i :: mask_list n (i + 1) mask
  end.

Definition accepted (refused : Z -> bool) (l : list Z) : Prop := Forall (fun x => refused x = false) l.

#[export] Instance accepted_dec refused l : Decision (accepted refused l).
Proof. unfold accepted. apply _. Defined.

Lemma list_pass_check refused i l ids :
  list_pass refused false i l ids = Done (if decide (accepted refused l) then Some ids else None).
Proof.
  unfold accepted. revert i. induction l as [|x l IH]; intros i; cbn [list_pass];
    [by rewrite decide_True by constructor|].
  destruct (refused x) eqn:Hx.
  - rewrite decide_False; [done|]. intros [H _]%Forall_cons. congruence.
  - cbn [mbind outcome_bind]. rewrite IH. f_equal. apply decide_ext. rewrite Forall_cons. naive_solver.
Qed.

Lemma list_pass_record refused i l ids :
  accepted refused l -> 0 <= i -> i + Z.of_nat (length l) <= Z.of_nat (length ids) ->
  list_pass refused true i l ids = Done (Some (take (Z.to_nat i) ids ++ l ++ drop (Z.to_nat i + length l) ids)).
Proof.
  intros Hl. revert i ids. induction Hl as [|x l Hx Hl IH]; intros i ids Hi Hlen; cbn [list_pass].
  - cbn [app length]. by rewrite Nat.add_0_r, take_drop.
  - rewrite Hx. assert (Hs : zset ids i x = Some (<[Z.to_nat i := x]> ids)).
    { apply zset_Some. cbn in Hlen. split; [lia|done]. }
    rewrite Hs. cbn [of_opt mbind outcome_bind]. cbn [length] in Hlen.
    rewrite IH by (rewrite ?length_insert; lia). do 2 f_equal.
    replace (Z.to_nat (i + 1)) with (S (Z.to_nat i)) by lia.
    rewrite insert_take_drop by lia. set (k := Z.to_nat i) in *.
    assert (Hk : length (take k ids ++ [x]) = S k) by (rewrite length_app, length_take; cbn; lia).
    rewrite (cons_middle x), (app_assoc (take k ids) [x] _), <- drop_drop.
    rewrite take_app_length', drop_app_length' by lia. rewrite drop_drop, <- !app_assoc. cbn [app].
    by replace (S k + length l)%nat with (k + S (length l))%nat by lia.
Qed.

Lemma mask_list_spec n i mask :
  0 <= i -> i + Z.of_nat n <= 64 ->
  mask_list n i mask = filter (fun k => Z.testbit mask k = true) (seqZ i (Z.of_nat n)).
Proof.
  revert i. induction n as [|n IH]; intros i Hi Hn; cbn [mask_list]; [done|].
  rewrite seqZ_cons by lia. replace (Z.pred (Z.of_nat (S n))) with (Z.of_nat n) by lia.
  assert (E : (Z.land (u64 (Z.shiftl 1 i)) mask =? 0) = negb (Z.testbit mask i)).
  { rewrite Z.shiftl_1_l, u64_small.
    2: { pose proof (Z.pow_lt_mono_r 2 i 64 ltac:(lia) ltac:(lia) ltac:(lia)). pose proof (Z.pow_pos_nonneg 2 i ltac:(lia) Hi). lia. }
    rewrite Z.land_comm. destruct (Z.testbit mask i) eqn:Hb; cbn.
    - apply Z.eqb_neq. intros H0. apply (f_equal (fun z => Z.testbit z i)) in H0.
      rewrite Z.land_spec, Hb, Z.pow2_bits_true, Z.bits_0 in H0 by lia. done.
    - apply Z.eqb_eq. apply Z.bits_inj'. intros k Hk. rewrite Z.land_spec, Z.bits_0.
      destruct (decide (k = i)) as [->|]; [by rewrite Hb|]. rewrite Z.pow2_bits_false by lia. apply andb_false_r. }
  rewrite E. destruct (Z.testbit mask i) eqn:Hb; cbn [negb].
  - rewrite filter_cons_True by done. by rewrite IH by lia.
  - rewrite filter_cons_False by (by rewrite Hb). by rewrite IH by lia.
Qed.

(** ** Definitions *)

Definition RTE_MAX_LCORE : nat := 128.
Definition RTE_MAX_NUMA_NODES : Z := 8.

Record lcore_conf : Type := LcoreConf {
  fwd_lcores_cpuids : list Z;
  nb_lcores : Z;
  nb_cfg_lcores : Z;
  nb_fwd_lcores : Z;
  lc_max_socket : Z;
}.

(** What the environment abstraction layer of DPDK tells of a core. *)
Section Cores.
Variables (rte_lcore_is_enabled : Z -> bool) (rte_get_master_lcore : Z).

(** The loop of [set_default_fwd_lcores_config] over [n] cores from [i] on. *)
Fixpoint default_lcores (rte_lcore_to_socket_id : Z -> Z) (n : nat) (i nb_lc max_socket : Z) (ids : list Z) : outcome (list Z * Z * Z) :=
  match n with
  | O => Done (ids, nb_lc, max_socket)
  | S n =>
      if negb (rte_lcore_is_enabled i) || (i =? rte_get_master_lcore)
      then default_lcores rte_lcore_to_socket_id n (i + 1) nb_lc max_socket ids
      else
        ids ← of_opt (zset ids nb_lc i);
        let sock_num := u32 (rte_lcore_to_socket_id i + 1) in
        max_socket ←
          (if max_socket <? sock_num then _ ← c_assert (sock_num <=? RTE_MAX_NUMA_NODES); Done sock_num
           else Done max_socket);
        default_lcores rte_lcore_to_socket_id n (i + 1) (nb_lc + 1) max_socket ids
  end.

Definition set_default_fwd_lcores_config (rte_lcore_to_socket_id : Z -> Z) (s : lcore_conf) : outcome lcore_conf :=
  '(ids, nb_lc, ms) ← default_lcores rte_lcore_to_socket_id RTE_MAX_LCORE 0 0 (lc_max_socket s) (fwd_lcores_cpuids s);
  Done (LcoreConf ids (u8 nb_lc) (u8 nb_lc) 1 ms).

(** Whether a core is refused for forwarding. *)
Definition lcore_refused (cpuid : Z) : bool :=
  negb (rte_lcore_is_enabled cpuid) || (cpuid =? rte_get_master_lcore).

(** The result is that of the function. *)
Definition set_fwd_lcores_list (lcorelist : list Z) (s : lcore_conf) : outcome (Z * lcore_conf) :=
  r ← list_pass lcore_refused false 0 lcorelist (fwd_lcores_cpuids s);
  match r with
  | None => Done (-1, s)
  | Some _ =>
      r ← list_pass lcore_refused true 0 lcorelist (fwd_lcores_cpuids s);
      match r with
      | None => Done (-1, s)
      | Some ids =>
          let nb_lc := Z.of_nat (length lcorelist) in
          Done (0, LcoreConf ids (nb_lcores s) (u8 nb_lc)
                     (if negb (nb_fwd_lcores s =? u8 nb_lc) then u8 nb_lc else nb_fwd_lcores s)
                     (lc_max_socket s))
      end
  end.

Definition set_fwd_lcores_mask (lcoremask : Z) (s : lcore_conf) : outcome (Z * lcore_conf) :=
  if lcoremask =? 0 then Done (-1, s) else set_fwd_lcores_list (mask_list 64 0 lcoremask) s.

Definition set_fwd_lcores_number (nb_lc : Z) (s : lcore_conf) : lcore_conf :=
  if nb_cfg_lcores s <? nb_lc then s
  else LcoreConf (fwd_lcores_cpuids s) (nb_lcores s) (nb_cfg_lcores s) (u8 nb_lc) (lc_max_socket s).

Inductive lcore_cmd : Type := SetList (l : list Z) | SetMask (m : Z) | SetNumber (n : Z).

Definition run_lcore_cmd (cmd : lcore_cmd) (s : lcore_conf) : outcome lcore_conf :=
  match cmd with
  | SetList l => '(_, s) ← set_fwd_lcores_list l s; Done s
  | SetMask m => '(_, s) ← set_fwd_lcores_mask m s; Done s
  | SetNumber n => Done (set_fwd_lcores_number n s)
  end.

Fixpoint run_lcore_cmds (cmds : list lcore_cmd) (s : lcore_conf) : outcome lcore_conf :=
  match cmds with
  | [] => Done s
  | cmd :: cmds => s ← run_lcore_cmd cmd s; run_lcore_cmds cmds s
  end.

(** ** Specification *)

(** A core that may forward packets. *)
Definition usable (i : Z) : Prop := rte_lcore_is_enabled i = true /\ i <> rte_get_master_lcore.

#[export] Instance usable_dec i : Decision (usable i).
Proof. unfold usable. apply _. Defined.

(** All usable cores. *)
Definition workers : list Z := filter usable (seqZ 0 (Z.of_nat RTE_MAX_LCORE)).

(** What testpmd.h promises of the numbers, and that the configured cores are
    usable and distinct. *)
Record lcores_ok (s : lcore_conf) : Prop := {
  lo_len : length (fwd_lcores_cpuids s) = RTE_MAX_LCORE;
  lo_nb : nb_lcores s = Z.of_nat (length workers);
  lo_cfg : 0 <= nb_cfg_lcores s <= nb_lcores s;
  lo_fwd : 0 <= nb_fwd_lcores s <= nb_cfg_lcores s;
  lo_ids : Forall (fun i => i ∈ workers) (take (Z.to_nat (nb_cfg_lcores s)) (fwd_lcores_cpuids s));
  lo_nodup : NoDup (take (Z.to_nat (nb_cfg_lcores s)) (fwd_lcores_cpuids s));
}.

(** ** Lemmas *)

Lemma elem_of_workers i : i ∈ workers <-> usable i /\ 0 <= i < Z.of_nat RTE_MAX_LCORE.
Proof. unfold workers. rewrite list_elem_of_filter, elem_of_seqZ. by rewrite Z.add_0_l. Qed.

Lemma workers_NoDup : NoDup workers.
Proof. apply NoDup_filter, NoDup_seqZ. Qed.

Lemma workers_length : (length workers <= RTE_MAX_LCORE)%nat.
Proof. unfold workers. etransitivity; [apply length_filter|]. by rewrite length_seqZ. Qed.

Lemma accepted_usable l : accepted lcore_refused l <-> Forall usable l.
Proof.
  unfold accepted. rewrite !Forall_forall. unfold lcore_refused, usable.
  split; intros H x Hx; specialize (H x Hx); destruct (rte_lcore_is_enabled x), (Z.eqb_spec x rte_get_master_lcore);
    cbn in *; naive_solver.
Qed.

(** What choosing cores by list does: all or nothing. *)
Lemma set_fwd_lcores_list_spec l s :
  (length l <= length (fwd_lcores_cpuids s))%nat ->
  set_fwd_lcores_list l s =
    Done (if decide (Forall usable l)
          then (0, LcoreConf (l ++ drop (length l) (fwd_lcores_cpuids s)) (nb_lcores s)
                     (u8 (Z.of_nat (length l))) (u8 (Z.of_nat (length l))) (lc_max_socket s))
          else (-1, s)).
Proof.
  intros Hlen. unfold set_fwd_lcores_list. rewrite list_pass_check.
  rewrite (decide_ext _ _ _ _ (accepted_usable l)). cbn [mbind outcome_bind].
  destruct (decide (Forall usable l)) as [Hl|]; [|done].
  rewrite list_pass_record by (by apply accepted_usable || lia). cbn [mbind outcome_bind]. change (Z.to_nat 0) with 0%nat.
  rewrite take_0. cbn [app Nat.add]. do 3 f_equal. by destruct (Z.eqb_spec (nb_fwd_lcores s) (u8 (Z.of_nat (length l)))).
Qed.

Section Invariant.
Context (Hen : forall i, rte_lcore_is_enabled i = true -> 0 <= i < Z.of_nat RTE_MAX_LCORE).

Lemma usable_workers l : Forall usable l -> Forall (fun i => i ∈ workers) l.
Proof.
  intros Hl. eapply Forall_impl; [exact Hl|]. intros i Hi. apply elem_of_workers. split; [done|].
  by apply Hen, Hi.
Qed.

Lemma list_in_workers l : Forall usable l -> NoDup l -> (length l <= length workers)%nat.
Proof.
  intros Hl Hnd. apply submseteq_length. apply NoDup_submseteq; [done|].
  intros i Hi. pose proof (usable_workers l Hl) as Hw. rewrite Forall_forall in Hw. by apply Hw.
Qed.

Lemma set_list_ok l s r s' :
  lcores_ok s -> NoDup l -> set_fwd_lcores_list l s = Done (r, s') -> lcores_ok s'.
Proof.
  intros Hok Hnd E. pose proof workers_length as Hw.
  destruct (decide (Forall usable l)) as [Hl|Hl].
  - pose proof (list_in_workers l Hl Hnd) as Hll. pose proof (lo_len s Hok) as Hlen.
    rewrite set_fwd_lcores_list_spec, decide_True in E by (done || lia). injection E as <- <-.
    assert (Hu : u8 (Z.of_nat (length l)) = Z.of_nat (length l)) by (apply u8_small; unfold RTE_MAX_LCORE in Hw; lia).
    constructor; cbn [fwd_lcores_cpuids nb_lcores nb_cfg_lcores nb_fwd_lcores]; rewrite ?Hu, ?Nat2Z.id.
    + rewrite length_app, length_drop. lia.
    + apply Hok.
    + rewrite (lo_nb s Hok). lia.
    + lia.
    + rewrite take_app_length. by apply usable_workers.
    + by rewrite take_app_length.
  - unfold set_fwd_lcores_list in E. rewrite list_pass_check, decide_False in E by (by rewrite accepted_usable).
    by injection E as <- <-.
Qed.

(** What is asked of a command: lists have no core twice, which the parser of
    the command checks; masks and numbers are unsigned. *)
Definition cmd_ok (cmd : lcore_cmd) : Prop :=
  match cmd with SetList l => NoDup l | SetMask m => 0 <= m < 2 ^ 64 | SetNumber n => 0 <= n < 2 ^ 16 end.

Lemma run_lcore_cmd_ok cmd s s' : lcores_ok s -> cmd_ok cmd -> run_lcore_cmd cmd s = Done s' -> lcores_ok s'.
Proof.
  intros Hok Hc E. destruct cmd as [l|m|n]; cbn in E.
  - apply outcome_bind_Done in E as ([r s1] & E1 & [= <-]). by eapply set_list_ok.
  - apply outcome_bind_Done in E as ([r s1] & E1 & [= <-]). unfold set_fwd_lcores_mask in E1.
    destruct (m =? 0); [by injection E1 as <- <-|]. eapply set_list_ok; [done| |done].
    rewrite mask_list_spec by lia. apply NoDup_filter, NoDup_seqZ.
  - injection E as <-. unfold set_fwd_lcores_number. destruct (Z.ltb_spec (nb_cfg_lcores s) n); [done|].
    pose proof (lo_nb s Hok). pose proof (lo_cfg s Hok). pose proof workers_length. unfold RTE_MAX_LCORE in *.
    cbn in Hc. destruct Hok. constructor; cbn; try done. rewrite u8_small; lia.
Qed.

Lemma filter_app_one {A} (P : A -> Prop) `{forall x, Decision (P x)} l x :
  filter P (l ++ [x]) = filter P l ++ (if decide (P x) then [x] else []).
Proof. rewrite filter_app. by destruct (decide (P x)); [rewrite filter_cons_True|rewrite filter_cons_False]. Qed.

Lemma default_lcores_spec sock n i nb ms ids :
  0 <= i -> Z.of_nat (length (filter usable (seqZ 0 i))) = nb ->
  take (Z.to_nat nb) ids = filter usable (seqZ 0 i) -> (Z.to_nat i + n <= length ids)%nat ->
  forall r, default_lcores sock n i nb ms ids = Done r ->
  forall w, w = filter usable (seqZ 0 (i + Z.of_nat n)) ->
  r.1.2 = Z.of_nat (length w) /\ take (length w) r.1.1 = w /\ length r.1.1 = length ids.
Proof.
  revert i nb ms ids. induction n as [|n IH]; intros i nb ms ids Hi Hnb Ht Hl r; cbn [default_lcores].
  - intros [= <-] w ->. cbn [fst snd Z.of_nat]. rewrite Z.add_0_r. split; [done|]. split; [|done].
    by replace (length _) with (Z.to_nat nb) by lia.
  - assert (Hs : seqZ 0 (i + 1) = seqZ 0 i ++ [i]) by (rewrite seqZ_app by lia; done).
    pose proof (filter_app_one usable (seqZ 0 i) i) as Hf. rewrite <- Hs in Hf.
    replace (i + Z.of_nat (S n)) with (i + 1 + Z.of_nat n) by lia.
    assert (Hdec : negb (rte_lcore_is_enabled i) || (i =? rte_get_master_lcore) = negb (bool_decide (usable i))).
    { destruct (bool_decide_reflect (usable i)) as [[He Hm]|Hu]; cbn [negb].
      - by rewrite He, (proj2 (Z.eqb_neq _ _) Hm).
      - unfold usable in Hu. destruct (rte_lcore_is_enabled i); [|done].
        destruct (Z.eqb_spec i rte_get_master_lcore); [done|]. exfalso. by apply Hu. }
    rewrite Hdec. destruct (bool_decide_reflect (usable i)) as [Hu|Hu]; cbn [negb].
    + rewrite decide_True in Hf by done. intros E w Ew. apply outcome_bind_Done in E as (ids1 & E1 & E).
      destruct (zset ids nb i) as [ids1'|] eqn:Hz; [|done]. injection E1 as <-.
      apply zset_Some in Hz as [Hnbl ->]. apply outcome_bind_Done in E as (ms1 & _ & E).
      assert (Hlf : length (filter usable (seqZ 0 (i + 1))) = S (Z.to_nat nb)) by (rewrite Hf, length_app; cbn; lia).
      rewrite <- (length_insert ids (Z.to_nat nb) i).
      eapply (IH (i + 1) (nb + 1)); [lia| |  | |exact E|exact Ew].
      * rewrite Hlf. lia.
      * rewrite Hf. replace (Z.to_nat (nb + 1)) with (S (Z.to_nat nb)) by lia.
        rewrite insert_take_drop by lia. rewrite cons_middle, app_assoc, take_app_length'.
        -- by rewrite Ht.
        -- rewrite length_app, length_take. cbn. lia.
      * rewrite length_insert. lia.
    + rewrite decide_False, app_nil_r in Hf by done. eapply IH; [lia| | |lia].
      * by rewrite Hf.
      * by rewrite Hf.
Qed.

Lemma workers_default : workers = filter usable (seqZ 0 (0 + Z.of_nat RTE_MAX_LCORE)).
Proof. unfold workers. by rewrite Z.add_0_l. Qed.

Lemma set_default_Done sock s s' :
  set_default_fwd_lcores_config sock s = Done s' ->
  exists ids nb ms, default_lcores sock RTE_MAX_LCORE 0 0 (lc_max_socket s) (fwd_lcores_cpuids s) = Done (ids, nb, ms) /\
    s' = LcoreConf ids (u8 nb) (u8 nb) 1 ms.
Proof.
  unfold set_default_fwd_lcores_config. generalize RTE_MAX_LCORE as n. intros n.
  destruct (default_lcores sock n 0 0 _ _) as [[[ids nb] ms]| |]; [|done..]. intros [= <-]. by exists ids, nb, ms.
Qed.

Lemma default_ok sock s s' :
  length (fwd_lcores_cpuids s) = RTE_MAX_LCORE -> workers <> [] ->
  set_default_fwd_lcores_config sock s = Done s' -> lcores_ok s'.
Proof.
  intros Hlen Hne (ids & nb & ms & E1 & ->)%set_default_Done.
  destruct (default_lcores_spec sock RTE_MAX_LCORE 0 0 (lc_max_socket s) (fwd_lcores_cpuids s)
    (Z.le_refl 0) eq_refl eq_refl ltac:(lia) _ E1 workers workers_default) as (Hnb & Ht & Hl).
  cbn [fst snd] in Hnb, Ht, Hl. subst nb. pose proof workers_length as Hw.
  assert (Hu : u8 (Z.of_nat (length workers)) = Z.of_nat (length workers)).
  { apply u8_small. change RTE_MAX_LCORE with 128%nat in Hw. lia. }
  assert (length workers <> 0%nat) by (by intros ?%length_zero_iff_nil).
  constructor; cbn [fwd_lcores_cpuids nb_lcores nb_cfg_lcores nb_fwd_lcores]; rewrite ?Hu, ?Nat2Z.id, ?Ht.
  - by rewrite Hl.
  - done.
  - lia.
  - lia.
  - by apply Forall_forall.
  - apply workers_NoDup.
Qed.
End Invariant.
End Cores.

(** ** Properties *)

(** C24: when a core besides the master is enabled, the default configuration
    and every sequence of commands keep the promise of the header file: at
    most the configured cores forward, at most all cores are configured, and
    the configured cores are distinct, enabled and not the master. *)
Theorem lcores_stay_usable en master socket s s0 s' cmds
    (Hen : forall i, en i = true -> 0 <= i < Z.of_nat RTE_MAX_LCORE)
    (Hlen : length (fwd_lcores_cpuids s) = RTE_MAX_LCORE) (Hne : workers en master <> [])
    (Hdef : set_default_fwd_lcores_config en master socket s = Done s0)
    (Hcmds : Forall cmd_ok cmds) (Hrun : run_lcore_cmds en master cmds s0 = Done s') :
  lcores_ok en master s'.
Proof.
  assert (Hok : lcores_ok en master s0) by (by eapply default_ok). clear Hdef.
  revert s0 Hok Hrun. induction Hcmds as [|cmd cmds Hc Hcmds IH]; intros s0 Hok Hrun; cbn in Hrun.
  - by injection Hrun as <-.
  - apply outcome_bind_Done in Hrun as (s1 & H1 & Hrun). eapply (IH s1); [|done]. by eapply run_lcore_cmd_ok.
Qed.

(** A mask chooses the cores of its bits in ascending order when all of
    them are usable, and otherwise, as the empty mask, is refused and changes
    nothing. *)
Theorem lcore_mask_selects en master s mask
    (Hen : forall i, en i = true -> 0 <= i < Z.of_nat RTE_MAX_LCORE)
    (Hm : 0 <= mask < 2 ^ 64) (Hok : lcores_ok en master s) :
  let l := filter (fun k => Z.testbit mask k = true) (seqZ 0 64) in
  exists r s', set_fwd_lcores_mask en master mask s = Done (r, s') /\
    if decide (mask <> 0 /\ Forall (usable en master) l)
    then r = 0 /\ take (length l) (fwd_lcores_cpuids s') = l /\
      nb_cfg_lcores s' = Z.of_nat (length l) /\ nb_fwd_lcores s' = Z.of_nat (length l)
    else r = -1 /\ s' = s.
Proof.
  cbv zeta. set (l := filter _ _). unfold set_fwd_lcores_mask. destruct (Z.eqb_spec mask 0) as [->|Hne].
  { exists (-1), s. split; [done|]. rewrite decide_False by naive_solver. done. }
  rewrite mask_list_spec by lia. change (Z.of_nat 64) with 64. fold l.
  assert (Hl : (length l <= 64)%nat) by (etransitivity; [apply length_filter|by rewrite length_seqZ]).
  assert (Hle : (length l <= length (fwd_lcores_cpuids s))%nat) by (rewrite (lo_len _ _ s Hok); unfold RTE_MAX_LCORE; lia).
  rewrite set_fwd_lcores_list_spec by done.
  destruct (decide (Forall (usable en master) l)) as [Hu|Hu].
  - eexists _, _. split; [done|]. rewrite decide_True by (by split). cbn [fwd_lcores_cpuids nb_cfg_lcores nb_fwd_lcores].
    rewrite take_app_length, u8_small by lia. done.
  - eexists _, _. split; [done|]. rewrite decide_False by naive_solver. done.
Qed.

(** ** Examples *)

Definition sample_enabled (i : Z) : bool := (0 <=? i) && (i <? 4).
Definition sample_lcores : lcore_conf := LcoreConf (replicate RTE_MAX_LCORE 0) 0 0 0 0.

Lemma lcores_stay_usable_witness :
  match s0 ← set_default_fwd_lcores_config sample_enabled 0 (fun _ => 0) sample_lcores;
        run_lcore_cmds sample_enabled 0 [SetMask 10; SetList [2; 1]; SetList [0]; SetNumber 1] s0 with
  | Done s' => lcores_ok sample_enabled 0 s'
  | _ => False
  end.
Proof.
  destruct (set_default_fwd_lcores_config sample_enabled 0 (fun _ => 0) sample_lcores) as [s0| |] eqn:E0;
    [|vm_compute in E0; discriminate E0..]. cbn [mbind outcome_bind].
  destruct (run_lcore_cmds sample_enabled 0 [SetMask 10; SetList [2; 1]; SetList [0]; SetNumber 1] s0) as [s'| |] eqn:E.
  - refine (lcores_stay_usable sample_enabled 0 (fun _ => 0) sample_lcores s0 s' _ _ eq_refl _ E0 _ E).
    + unfold sample_enabled, RTE_MAX_LCORE. intros i. lia.
    + vm_compute. discriminate.
    + repeat (apply Forall_cons; split); [cbn; lia|..|cbn; lia|by constructor];
        (apply (bool_decide_unpack _); vm_compute; exact I).
  - vm_compute in E0. injection E0 as <-. vm_compute in E. discriminate E.
  - vm_compute in E0. injection E0 as <-. vm_compute in E. discriminate E.
Defined.

Lemma lcore_mask_selects_witness :
  match s0 ← set_default_fwd_lcores_config sample_enabled 0 (fun _ => 0) sample_lcores;
        set_fwd_lcores_mask sample_enabled 0 10 s0 with
  | Done (r, s') => r = 0 /\ take 2 (fwd_lcores_cpuids s') = [1; 3]
  | _ => False
  end.
Proof.
  destruct (set_default_fwd_lcores_config sample_enabled 0 (fun _ => 0) sample_lcores) as [s0| |] eqn:E0;
    [|vm_compute in E0; discriminate E0..]. cbn [mbind outcome_bind].
  assert (Hen : forall i, sample_enabled i = true -> 0 <= i < Z.of_nat RTE_MAX_LCORE)
    by (unfold sample_enabled, RTE_MAX_LCORE; intros i; lia).
  destruct (lcore_mask_selects sample_enabled 0 s0 10 Hen) as (r & s' & E & H); [lia| |].
  - refine (default_ok sample_enabled 0 (fun _ => 0) sample_lcores s0 eq_refl _ E0). vm_compute. discriminate.
  - rewrite E. rewrite decide_True in H; [|vm_compute; split; [discriminate|repeat constructor; discriminate]].
    destruct H as (-> & Ht & _). split; [reflexivity|exact Ht].
Defined.
