(* ===== verification/FwdSettings.v ===== *)
(** * test-pmd/config.c: forwarding ports, packets and VLAN insertion

    The commands that choose the forwarding ports, the packets of a burst,
    the segments of the packets of the txonly engine, the engine, and the
    VLAN tags that ports insert. *)

From stdpp Require Import strings.
From S2P Require Import Prelude Packet PortConf PortState CoreConf.

#[local] Open Scope Z_scope.

(** ** Forwarding ports *)

Definition set_cfg_ports (cfg fwd : Z) (ids : list Z) (st : pstate) : pstate :=
  set_fwd_ports (nb_ports st) cfg fwd ids st.

(** The entries of the list are truncated to port numbers. *)
Definition set_fwd_ports_list (portlist : list Z) (st : pstate) : outcome pstate :=
  let l := u8 <$> portlist in
  r ← list_pass (fun p => port_id_is_invalid p st) false 0 l (fwd_ports_ids st);
  match r with
  | None => Done st
  | Some _ =>
      r ← list_pass (fun p => port_id_is_invalid p st) true 0 l (fwd_ports_ids st);
      match r with
      | None => Done st
      | Some ids =>
          let nb_pt := u8 (Z.of_nat (length portlist)) in
          Done (set_cfg_ports nb_pt (if negb (nb_fwd_ports st =? nb_pt) then nb_pt else nb_fwd_ports st) ids st)
      end
  end.

Definition set_fwd_ports_mask (portmask : Z) (st : pstate) : outcome pstate :=
  if portmask =? 0 then Done st
  else set_fwd_ports_list (mask_list (Nat.min 64 (length (ports st))) 0 portmask) st.

Definition set_fwd_ports_number (nb_pt : Z) (st : pstate) : pstate :=
  if nb_cfg_ports st <? nb_pt then st else set_cfg_ports (nb_cfg_ports st) (u8 nb_pt) (fwd_ports_ids st) st.

(** [set_default_fwd_ports_config] *)
Fixpoint default_ports (n : nat) (pt_id : Z) (ids : list Z) : outcome (list Z) :=
  match n with
  | O => Done ids
  | S n => ids ← of_opt (zset ids pt_id pt_id); default_ports n (pt_id + 1) ids
  end.

Definition set_default_fwd_ports_config (st : pstate) : outcome pstate :=
  ids ← default_ports (Z.to_nat (nb_ports st)) 0 (fwd_ports_ids st);
  Done (set_cfg_ports (nb_ports st) (nb_ports st) ids st).

Definition ETHER_LOCAL_ADMIN_ADDR : Z := 2.

(** [set_def_peer_eth_addrs] on addresses of six bytes. *)
Definition set_def_peer_eth_addrs (peers : list (list Z)) : list (list Z) :=
  imap (fun i a => <[5%nat := u8 (Z.of_nat i)]> (<[0%nat := ETHER_LOCAL_ADMIN_ADDR]> a)) peers.

(** ** Packets *)

Definition RTE_MAX_SEGS_PER_PKT : nat := 255.

Inductive tx_pkt_split : Type := TX_PKT_SPLIT_OFF | TX_PKT_SPLIT_ON | TX_PKT_SPLIT_RND.

#[export] Instance tx_pkt_split_eq : EqDecision tx_pkt_split.
Proof. solve_decision. Defined.

Record pkt_conf : Type := PktConf {
  nb_pkt_per_burst : Z;
  mbuf_data_size : Z;
  tx_pkt_length : Z;
  tx_pkt_seg_lengths : list Z;
  tx_pkt_nb_segs : Z;
  pc_split : tx_pkt_split;
}.

Definition set_nb_pkt_per_burst (nb : Z) (s : pkt_conf) : pkt_conf :=
  if MAX_PKT_BURST <? nb then s
  else PktConf nb (mbuf_data_size s) (tx_pkt_length s) (tx_pkt_seg_lengths s) (tx_pkt_nb_segs s) (pc_split s).

Definition tx_split_name : list (tx_pkt_split * string) :=
  [(TX_PKT_SPLIT_OFF, "off"%string); (TX_PKT_SPLIT_ON, "on"%string); (TX_PKT_SPLIT_RND, "rand"%string)].

Definition tx_split_get_name (split : tx_pkt_split) : option string :=
  snd <$> List.find (fun e => bool_decide (e.1 = split)) tx_split_name.

Definition set_tx_pkt_split (name : string) (s : pkt_conf) : pkt_conf :=
  match List.find (fun e => bool_decide (e.2 = name)) tx_split_name with
  | Some (split, _) =>
      PktConf (nb_pkt_per_burst s) (mbuf_data_size s) (tx_pkt_length s) (tx_pkt_seg_lengths s)
        (tx_pkt_nb_segs s) split
  | None => s
  end.

(** The total length of the segments in 16 bits: [None] when one is longer
    than the data room of a buffer. *)
Fixpoint segs_total (lens : list Z) (room tx_pkt_len : Z) : option Z :=
  match lens with
  | [] => Some tx_pkt_len
  | len :: lens => if room <? len then None else segs_total lens room (u16 (tx_pkt_len + len))
  end.

Fixpoint store_segs (lens : list Z) (i : Z) (arr : list Z) : outcome (list Z) :=
  match lens with
  | [] => Done arr
  | len :: lens => arr ← of_opt (zset arr i (u16 len)); store_segs lens (i + 1) arr
  end.

Definition set_tx_pkt_segments (nb_txd : Z) (seg_lengths : list Z) (s : pkt_conf) : outcome pkt_conf :=
  let nb_segs := Z.of_nat (length seg_lengths) in
  if nb_txd <=? nb_segs then Done s
  else
    match segs_total seg_lengths (mbuf_data_size s) 0 with
    | None => Done s
    | Some tx_pkt_len =>
        if tx_pkt_len <? 14 + 20 + 8 then Done s
        else
          arr ← store_segs seg_lengths 0 (tx_pkt_seg_lengths s);
          Done (PktConf (nb_pkt_per_burst s) (mbuf_data_size s) tx_pkt_len arr (u8 nb_segs) (pc_split s))
    end.

(** ** Forwarding engines *)

Definition fwd_engines : list string :=
  ["io"; "mac"; "mac_retry"; "macswap"; "flowgen"; "rxonly"; "txonly"; "csum"; "icmpecho"]%string.

(** The names with a separator behind each, the last separator cut off. *)
Definition list_pkt_forwarding_modes (engines : list string) : string :=
  let fwd_modes := foldl (fun s name => (s +:+ name +:+ "|")%string) ""%string engines in
  String.substring 0 (String.length fwd_modes - 1) fwd_modes.

(** The index of the chosen engine, if the name is known. *)
Definition set_pkt_forwarding_mode (fwd_mode_name : string) (cur_fwd_eng : nat) : nat :=
  match list_find (fun n => n = fwd_mode_name) fwd_engines with
  | Some (i, _) => i
  | None => cur_fwd_eng
  end.

(** ** VLAN *)

Definition ETH_VLAN_STRIP_OFFLOAD : Z := 1.
Definition ETH_VLAN_FILTER_OFFLOAD : Z := 2.
Definition ETH_VLAN_EXTEND_OFFLOAD : Z := 4.

Definition vlan_id_is_invalid (vlan_id : Z) : bool := negb (vlan_id <? 4096).

(** The calls that change the VLAN configuration of a device, latest first;
    [vlan_get] is the offload mask of a port after them, [vlan_diag] the
    result of the latest. *)
Inductive vlan_call : Type :=
| SetOffload (p mask : Z) | SetStripOnQueue (p q : Z) (on : bool) | VlanFilter (p vlan : Z) (on : bool)
| SetEtherType (p type tpid : Z) | SetPvid (p vlan : Z) (on : bool).

Record vlan_state : Type := VlanState { tx_conf_of : list tx_port_conf; vlan_calls : list vlan_call }.

Section Vlan.
Variables (vlan_get : list vlan_call -> Z -> Z) (vlan_diag : list vlan_call -> Z) (st : pstate).

Definition vlan_do (k : vlan_call) (v : vlan_state) : vlan_state :=
  VlanState (tx_conf_of v) (k :: vlan_calls v).

(** [vlan_extend_set], [rx_vlan_strip_set] and [rx_vlan_filter_set] differ in
    the flag. *)
Definition vlan_offload_set (flag port_id : Z) (on : bool) (v : vlan_state) : vlan_state :=
  if port_id_is_invalid port_id st then v
  else
    let vlan_offload := vlan_get (vlan_calls v) port_id in
    vlan_do (SetOffload port_id (if on then Z.lor vlan_offload flag else Z.land vlan_offload (Z.lnot flag))) v.

Definition vlan_extend_set := vlan_offload_set ETH_VLAN_EXTEND_OFFLOAD.
Definition rx_vlan_strip_set := vlan_offload_set ETH_VLAN_STRIP_OFFLOAD.
Definition rx_vlan_filter_set := vlan_offload_set ETH_VLAN_FILTER_OFFLOAD.

Definition rx_vlan_strip_set_on_queue (port_id queue_id : Z) (on : bool) (v : vlan_state) : vlan_state :=
  if port_id_is_invalid port_id st then v else vlan_do (SetStripOnQueue port_id queue_id on) v.

Definition rx_vft_set (port_id vlan_id : Z) (on : bool) (v : vlan_state) : Z * vlan_state :=
  if port_id_is_invalid port_id st then (1, v)
  else if vlan_id_is_invalid vlan_id then (1, v)
  else
    let v := vlan_do (VlanFilter port_id vlan_id on) v in
    (if vlan_diag (vlan_calls v) =? 0 then 0 else -1, v).

(** The loop of [rx_vlan_all_filter_set] from a tag on. *)
Fixpoint all_filter (n : nat) (port_id vlan_id : Z) (on : bool) (v : vlan_state) : vlan_state :=
  match n with
  | O => v
  | S n =>
      let '(r, v) := rx_vft_set port_id vlan_id on v in
      if negb (r =? 0) then v else all_filter n port_id (vlan_id + 1) on v
  end.

Definition rx_vlan_all_filter_set (port_id : Z) (on : bool) (v : vlan_state) : vlan_state :=
  if port_id_is_invalid port_id st then v else all_filter 4096 port_id 0 on v.

Definition vlan_tpid_set (port_id type tp_id : Z) (v : vlan_state) : vlan_state :=
  if port_id_is_invalid port_id st then v else vlan_do (SetEtherType port_id type tp_id) v.

Definition tx_vlan_pvid_set (port_id vlan_id : Z) (on : bool) (v : vlan_state) : vlan_state :=
  if port_id_is_invalid port_id st then v else vlan_do (SetPvid port_id vlan_id on) v.

(** An assignment to the fields of a port. *)
Definition upd_tx (port_id : Z) (f : tx_port_conf -> tx_port_conf) (v : vlan_state) : outcome vlan_state :=
  p ← of_opt (zget (tx_conf_of v) port_id);
  l ← of_opt (zset (tx_conf_of v) port_id (f p));
  Done (VlanState l (vlan_calls v)).

Definition tx_vlan_reset (port_id : Z) (v : vlan_state) : outcome vlan_state :=
  if port_id_is_invalid port_id st then Done v
  else
    upd_tx port_id (fun p =>
      TxPort (eth_addr p)
        (Z.land (tx_ol_flags p) (u16 (Z.lnot (Z.lor TESTPMD_TX_OFFLOAD_INSERT_VLAN TESTPMD_TX_OFFLOAD_INSERT_QINQ))))
        0 0 (tso_segsz p)) v.

Definition tx_vlan_set (port_id vlan_id : Z) (v : vlan_state) : outcome vlan_state :=
  if port_id_is_invalid port_id st then Done v
  else if vlan_id_is_invalid vlan_id then Done v
  else if has_flag (vlan_get (vlan_calls v) port_id) ETH_VLAN_EXTEND_OFFLOAD then Done v
  else
    v ← tx_vlan_reset port_id v;
    upd_tx port_id (fun p =>
      TxPort (eth_addr p) (Z.lor (tx_ol_flags p) TESTPMD_TX_OFFLOAD_INSERT_VLAN) vlan_id (tx_vlan_id_outer p)
        (tso_segsz p)) v.

Definition tx_qinq_set (port_id vlan_id vlan_id_outer : Z) (v : vlan_state) : outcome vlan_state :=
  if port_id_is_invalid port_id st then Done v
  else if vlan_id_is_invalid vlan_id then Done v
  else if vlan_id_is_invalid vlan_id_outer then Done v
  else if negb (has_flag (vlan_get (vlan_calls v) port_id) ETH_VLAN_EXTEND_OFFLOAD) then Done v
  else
    v ← tx_vlan_reset port_id v;
    upd_tx port_id (fun p =>
      TxPort (eth_addr p) (Z.lor (tx_ol_flags p) TESTPMD_TX_OFFLOAD_INSERT_QINQ) vlan_id vlan_id_outer
        (tso_segsz p)) v.
End Vlan.

(** ** Lemmas *)

(** What choosing ports by list does: all or nothing. *)
Lemma set_fwd_ports_list_spec portlist st :
  (length portlist <= length (fwd_ports_ids st))%nat ->
  let l := u8 <$> portlist in
  set_fwd_ports_list portlist st =
    Done (if decide (accepted (fun p => port_id_is_invalid p st) l)
          then set_cfg_ports (u8 (Z.of_nat (length l))) (u8 (Z.of_nat (length l)))
                 (l ++ drop (length l) (fwd_ports_ids st)) st
          else st).
Proof.
  intros Hlen l. unfold set_fwd_ports_list. fold l. rewrite list_pass_check. cbn [mbind outcome_bind].
  destruct (decide (accepted _ l)) as [Hl|]; [|done].
  assert (Hll : length l = length portlist) by (unfold l; apply length_fmap).
  rewrite list_pass_record by (done || lia). cbn [mbind outcome_bind]. change (Z.to_nat 0) with 0%nat.
  rewrite take_0. cbn [app Nat.add]. rewrite Hll. do 2 f_equal.
  by destruct (Z.eqb_spec (nb_fwd_ports st) (u8 (Z.of_nat (length portlist)))).
Qed.

(** The packet settings are consistent; the packets hold an Ethernet header,
    which is also their length by default. *)
Record segs_ok (s : pkt_conf) : Prop := {
  so_len : length (tx_pkt_seg_lengths s) = RTE_MAX_SEGS_PER_PKT;
  so_nb : 1 <= tx_pkt_nb_segs s <= Z.of_nat RTE_MAX_SEGS_PER_PKT;
  so_each : Forall (fun len => 0 <= len <= mbuf_data_size s)
              (take (Z.to_nat (tx_pkt_nb_segs s)) (tx_pkt_seg_lengths s));
  so_sum : u16 (foldr Z.add 0 (take (Z.to_nat (tx_pkt_nb_segs s)) (tx_pkt_seg_lengths s))) = tx_pkt_length s;
  so_min : 14 <= tx_pkt_length s;
  so_burst : 0 <= nb_pkt_per_burst s <= MAX_PKT_BURST;
}.

Lemma segs_total_spec lens room acc r :
  segs_total lens room acc = Some r -> u16 acc = acc ->
  Forall (fun len => len <= room) lens /\ r = u16 (acc + foldr Z.add 0 lens).
Proof.
  revert acc. induction lens as [|len lens IH]; intros acc; cbn.
  - intros [= ->] H. split; [constructor|]. by rewrite Z.add_0_r.
  - destruct (Z.ltb_spec room len); [done|]. intros E _. destruct (IH _ E) as [H1 ->].
    { unfold u16. by rewrite Z.mod_mod by lia. }
    split; [constructor; [lia|done]|]. unfold u16. rewrite Zplus_mod_idemp_l. f_equal. lia.
Qed.

Lemma store_segs_spec lens i arr :
  Forall (fun len => 0 <= len < 2 ^ 16) lens -> 0 <= i -> i + Z.of_nat (length lens) <= Z.of_nat (length arr) ->
  store_segs lens i arr = Done (take (Z.to_nat i) arr ++ lens ++ drop (Z.to_nat i + length lens) arr).
Proof.
  intros Hl. revert i arr. induction Hl as [|x l Hx Hl IH]; intros i arr Hi Hlen; cbn [store_segs].
  - cbn [app length]. by rewrite Nat.add_0_r, take_drop.
  - assert (Hs : zset arr i (u16 x) = Some (<[Z.to_nat i := x]> arr)).
    { apply zset_Some. cbn in Hlen. rewrite u16_small by done. split; [lia|done]. }
    rewrite Hs. cbn [of_opt mbind outcome_bind]. cbn [length] in Hlen.
    rewrite IH by (rewrite ?length_insert; lia). f_equal.
    replace (Z.to_nat (i + 1)) with (S (Z.to_nat i)) by lia.
    rewrite insert_take_drop by lia. set (k := Z.to_nat i) in *.
    assert (Hk : length (take k arr ++ [x]) = S k) by (rewrite length_app, length_take; cbn; lia).
    rewrite (cons_middle x), (app_assoc (take k arr) [x] _), <- drop_drop.
    rewrite take_app_length', drop_app_length' by lia. rewrite drop_drop, <- !app_assoc. cbn [app].
    by replace (S k + length l)%nat with (k + S (length l))%nat by lia.
Qed.

(** The VLAN settings of a port make sense: at most one kind of insertion,
    tags of 12 bits, and no tag without insertion. *)
Definition vlan_on (p : tx_port_conf) : bool := has_flag (tx_ol_flags p) TESTPMD_TX_OFFLOAD_INSERT_VLAN.
Definition qinq_on (p : tx_port_conf) : bool := has_flag (tx_ol_flags p) TESTPMD_TX_OFFLOAD_INSERT_QINQ.

Record vlan_ok (p : tx_port_conf) : Prop := {
  vo_one : vlan_on p && qinq_on p = false;
  vo_tag : 0 <= tx_vlan_id p < 4096;
  vo_outer : 0 <= tx_vlan_id_outer p < 4096;
  vo_none : vlan_on p = false -> qinq_on p = false -> tx_vlan_id p = 0;
  vo_none_outer : qinq_on p = false -> tx_vlan_id_outer p = 0;
}.

Inductive vlan_cmd : Type :=
| VExtend (p : Z) (on : bool) | VStrip (p : Z) (on : bool) | VFilter (p : Z) (on : bool)
| VAll (p : Z) (on : bool) | VSet (p vlan : Z) | VQinq (p vlan outer : Z) | VReset (p : Z).

Definition run_vlan_cmd (get : list vlan_call -> Z -> Z) (diag : list vlan_call -> Z) (st : pstate)
    (cmd : vlan_cmd) (v : vlan_state) : outcome vlan_state :=
  match cmd with
  | VExtend p on => Done (vlan_extend_set get st p on v)
  | VStrip p on => Done (rx_vlan_strip_set get st p on v)
  | VFilter p on => Done (rx_vlan_filter_set get st p on v)
  | VAll p on => Done (rx_vlan_all_filter_set diag st p on v)
  | VSet p vlan => tx_vlan_set get st p vlan v
  | VQinq p vlan outer => tx_qinq_set get st p vlan outer v
  | VReset p => tx_vlan_reset st p v
  end.

Definition vlan_cmd_ok (cmd : vlan_cmd) : Prop :=
  match cmd with VSet _ v => 0 <= v | VQinq _ v o => 0 <= v /\ 0 <= o | _ => True end.

Fixpoint run_vlan_cmds get diag st (cmds : list vlan_cmd) (v : vlan_state) : outcome vlan_state :=
  match cmds with
  | [] => Done v
  | cmd :: cmds => v ← run_vlan_cmd get diag st cmd v; run_vlan_cmds get diag st cmds v
  end.

(** The flags after clearing both and setting one; [b] is a bit number. *)
Lemma reset_flag x b :
  b = 6 \/ b = 7 -> Z.testbit (Z.land x (u16 (Z.lnot (Z.lor 64 128)))) b = false.
Proof.
  intros [-> | ->]; rewrite Z.land_spec; change (u16 (Z.lnot (Z.lor 64 128))) with 65343; apply andb_false_r.
Qed.

Lemma has_flag_bit x b : 0 <= b -> has_flag x (2 ^ b) = Z.testbit x b.
Proof.
  intros Hb. unfold has_flag. destruct (Z.testbit x b) eqn:E.
  - destruct (Z.eqb_spec (Z.land x (2 ^ b)) 0) as [H|]; [|done].
    apply (f_equal (fun z => Z.testbit z b)) in H. rewrite Z.land_spec, E, Z.pow2_bits_true, Z.bits_0 in H by done. done.
  - assert (Z.land x (2 ^ b) = 0) as ->; [|done]. apply Z.bits_inj'. intros i Hi. rewrite Z.land_spec, Z.bits_0.
    destruct (decide (i = b)) as [->|]; [by rewrite E|]. by rewrite Z.pow2_bits_false, andb_false_r by done.
Qed.

Lemma vlan_on_bit p : vlan_on p = Z.testbit (tx_ol_flags p) 6.
Proof. apply (has_flag_bit _ 6). lia. Qed.
Lemma qinq_on_bit p : qinq_on p = Z.testbit (tx_ol_flags p) 7.
Proof. apply (has_flag_bit _ 7). lia. Qed.

Lemma upd_tx_spec port_id f v v' :
  upd_tx port_id f v = Done v' ->
  exists p, zget (tx_conf_of v) port_id = Some p /\
    v' = VlanState (<[Z.to_nat port_id := f p]> (tx_conf_of v)) (vlan_calls v).
Proof.
  unfold upd_tx. intros E. apply outcome_bind_Done in E as (p & Hp & E).
  destruct (zget (tx_conf_of v) port_id) as [q|]; [|done]. injection Hp as ->.
  apply outcome_bind_Done in E as (l & Hl & [= <-]).
  destruct (zset (tx_conf_of v) port_id (f p)) as [l'|] eqn:Hz; [|done]. injection Hl as ->.
  apply zset_Some in Hz as [_ ->]. by exists p.
Qed.

(** What follows [tx_vlan_reset] in the commands that set tags. *)
Lemma reset_then_set st port_id f v v' :
  port_id_is_invalid port_id st = false ->
  (v1 ← tx_vlan_reset st port_id v; upd_tx port_id f v1) = Done v' ->
  exists p, zget (tx_conf_of v) port_id = Some p /\
    v' = VlanState (<[Z.to_nat port_id :=
           f (TxPort (eth_addr p) (Z.land (tx_ol_flags p) (u16 (Z.lnot (Z.lor 64 128)))) 0 0 (tso_segsz p))]>
           (tx_conf_of v)) (vlan_calls v).
Proof.
  intros Hv E. apply outcome_bind_Done in E as (v1 & E1 & E2). unfold tx_vlan_reset in E1. rewrite Hv in E1.
  apply upd_tx_spec in E1 as (p & Hp & ->). apply upd_tx_spec in E2 as (q & Hq & ->). cbn in Hq.
  exists p. split; [done|]. apply zget_Some in Hp as [H0 Hp]. apply zget_Some in Hq as [_ Hq].
  rewrite list_lookup_insert_eq in Hq by (by eapply lookup_lt_Some). injection Hq as <-.
  cbn. by rewrite list_insert_insert_eq.
Qed.

Lemma all_filter_conf diag st n port vlan on v : tx_conf_of (all_filter diag st n port vlan on v) = tx_conf_of v.
Proof.
  revert vlan v. induction n as [|n IH]; intros vlan v; [done|]. cbn [all_filter]. unfold rx_vft_set.
  destruct (port_id_is_invalid port st); [done|]. destruct (vlan_id_is_invalid vlan); [done|].
  destruct (diag _ =? 0); cbn; [|done]. by rewrite IH.
Qed.

Lemma run_vlan_cmd_ok get diag st cmd v v' :
  Forall vlan_ok (tx_conf_of v) -> vlan_cmd_ok cmd -> run_vlan_cmd get diag st cmd v = Done v' ->
  Forall vlan_ok (tx_conf_of v').
Proof.
  intros Hok Hc E.
  assert (Hset : forall pid f v1, port_id_is_invalid pid st = false ->
    (v2 ← tx_vlan_reset st pid v; upd_tx pid f v2) = Done v1 ->
    (forall p, vlan_ok (f (TxPort (eth_addr p) (Z.land (tx_ol_flags p) (u16 (Z.lnot (Z.lor 64 128)))) 0 0 (tso_segsz p)))) ->
    Forall vlan_ok (tx_conf_of v1)).
  { intros pid f v1 Hv E1 Hf. destruct (reset_then_set _ _ _ _ _ Hv E1) as (p & Hp & ->).
    apply Forall_insert; [done|]. apply Hf. }
  destruct cmd as [p on|p on|p on|p on|p vlan|p vlan outer|p]; cbn [run_vlan_cmd vlan_cmd_ok] in *.
  1-3: injection E as <-; unfold vlan_extend_set, rx_vlan_strip_set, rx_vlan_filter_set, vlan_offload_set;
    by destruct (port_id_is_invalid p st).
  - injection E as <-. unfold rx_vlan_all_filter_set. destruct (port_id_is_invalid p st); [done|].
    by rewrite all_filter_conf.
  - unfold tx_vlan_set in E. destruct (port_id_is_invalid p st) eqn:Hv; [by injection E as <-|].
    unfold vlan_id_is_invalid in E. destruct (Z.ltb_spec vlan 4096); cbn [negb] in E; [|by injection E as <-].
    destruct (has_flag _ _); [by injection E as <-|]. eapply Hset; [done|exact E|]. intros q.
    constructor; rewrite ?vlan_on_bit, ?qinq_on_bit; cbn [tx_ol_flags tx_vlan_id tx_vlan_id_outer]; try lia.
    + rewrite !Z.lor_spec, !reset_flag by lia. done.
    + rewrite Z.lor_spec. intros []%orb_false_iff. done.
  - unfold tx_qinq_set in E. destruct (port_id_is_invalid p st) eqn:Hv; [by injection E as <-|].
    unfold vlan_id_is_invalid in E. destruct (Z.ltb_spec vlan 4096); cbn [negb] in E; [|by injection E as <-].
    destruct (Z.ltb_spec outer 4096); cbn [negb] in E; [|by injection E as <-].
    destruct (has_flag _ _); cbn [negb] in E; [|by injection E as <-]. eapply Hset; [done|exact E|]. intros q.
    constructor; rewrite ?vlan_on_bit, ?qinq_on_bit; cbn [tx_ol_flags tx_vlan_id tx_vlan_id_outer]; try lia.
    + rewrite !Z.lor_spec, !reset_flag by lia. done.
    + intros _. rewrite Z.lor_spec. intros []%orb_false_iff. done.
    + rewrite Z.lor_spec. intros []%orb_false_iff. done.
  - unfold tx_vlan_reset in E. destruct (port_id_is_invalid p st) eqn:Hv; [by injection E as <-|].
    apply upd_tx_spec in E as (q & Hq & ->). apply Forall_insert; [done|].
    constructor; rewrite ?vlan_on_bit, ?qinq_on_bit; cbn [tx_ol_flags tx_vlan_id tx_vlan_id_outer]; try lia.
    by rewrite !reset_flag by lia.
Qed.

(** ** Properties *)

(** Every sequence of VLAN commands, whatever the devices answer, leaves
    every port with at most one kind of tag to insert, tags of 12 bits, and
    no tag when none is to be inserted. *)
Theorem vlan_cmds_ok get diag st cmds v v'
    (Hok : Forall vlan_ok (tx_conf_of v)) (Hc : Forall vlan_cmd_ok cmds)
    (Hrun : run_vlan_cmds get diag st cmds v = Done v') : Forall vlan_ok (tx_conf_of v').
Proof.
  revert v Hok Hrun. induction Hc as [|cmd cmds Hcmd Hc IH]; intros v Hok Hrun; cbn in Hrun.
  - by injection Hrun as <-.
  - apply outcome_bind_Done in Hrun as (v1 & H1 & Hrun). eapply IH; [|done]. by eapply run_vlan_cmd_ok.
Qed.

(** For up to 255 segments, which is what the callers pass, setting the
    segments of the packets of the txonly engine succeeds and keeps the
    settings consistent: every segment fits a buffer, and the packet length
    is the sum of the segments in 16 bits and holds the headers. *)
Theorem tx_segments_ok nb_txd lens s
    (Hok : segs_ok s) (Hroom : 0 <= mbuf_data_size s < 2 ^ 16)
    (Hlens : Forall (fun len => 0 <= len) lens) (Hn : (length lens <= RTE_MAX_SEGS_PER_PKT)%nat) :
  exists s', set_tx_pkt_segments nb_txd lens s = Done s' /\ segs_ok s' /\
    (s' <> s -> tx_pkt_nb_segs s' = Z.of_nat (length lens) /\
                take (length lens) (tx_pkt_seg_lengths s') = lens).
Proof.
  unfold set_tx_pkt_segments. destruct (nb_txd <=? _); [by exists s|].
  destruct (segs_total lens (mbuf_data_size s) 0) as [total|] eqn:Et; [|by exists s].
  destruct (segs_total_spec _ _ _ _ Et eq_refl) as [Hfit Htot].
  destruct (Z.ltb_spec total (14 + 20 + 8)) as [|Hmin]; [by exists s|].
  assert (Hb : Forall (fun len => 0 <= len <= mbuf_data_size s) lens).
  { apply Forall_forall. rewrite Forall_forall in Hlens, Hfit. intros x Hx. auto. }
  assert (Hne : lens <> []) by (intros ->; rewrite Htot in Hmin; vm_compute in Hmin; by apply Hmin).
  assert (Hpos : (0 < length lens)%nat) by (destruct lens; [done|cbn; lia]).
  rewrite store_segs_spec.
  - cbn [mbind outcome_bind]. eexists. split; [done|]. change (Z.to_nat 0) with 0%nat. rewrite take_0.
    cbn [app Nat.add]. rewrite u8_small by (unfold RTE_MAX_SEGS_PER_PKT in Hn; lia).
    pose proof (so_len s Hok) as Hl. split.
    + constructor; cbn [tx_pkt_seg_lengths tx_pkt_nb_segs mbuf_data_size tx_pkt_length nb_pkt_per_burst];
        rewrite ?Nat2Z.id, ?take_app_length; try done.
      * rewrite length_app, length_drop. lia.
      * lia.
      * lia.
      * apply Hok.
    + intros _. cbn. by rewrite take_app_length.
  - eapply Forall_impl; [exact Hb|]. cbn. lia.
  - lia.
  - rewrite (so_len s Hok). lia.
Qed.

(** A mask of ports chooses the ports of its bits in ascending order when
    all of them are enabled and otherwise changes nothing; bits at and above
    the size of the array of ports are ignored, so that a mask of such bits
    only chooses no port at all. *)
Theorem port_mask_selects st mask
    (Hm : 0 <= mask) (Hmax : (length (ports st) <= 64)%nat)
    (Hids : (length (ports st) <= length (fwd_ports_ids st))%nat) :
  let l := filter (fun k => Z.testbit mask k = true) (seqZ 0 (Z.of_nat (length (ports st)))) in
  exists st', set_fwd_ports_mask mask st = Done st' /\
    if decide (mask <> 0 /\ Forall (fun p => enabled_at (ports st) p = true) l)
    then take (length l) (fwd_ports_ids st') = l /\
      nb_cfg_ports st' = Z.of_nat (length l) /\ nb_fwd_ports st' = Z.of_nat (length l)
    else st' = st.
Proof.
  cbv zeta. set (l := filter _ _). unfold set_fwd_ports_mask. destruct (Z.eqb_spec mask 0) as [->|Hne].
  { exists st. split; [done|]. rewrite decide_False by naive_solver. done. }
  rewrite Nat.min_r by lia. rewrite mask_list_spec by lia. fold l.
  assert (Hl : (length l <= length (ports st))%nat) by (etransitivity; [apply length_filter|by rewrite length_seqZ, Nat2Z.id]).
  assert (Hr : Forall (fun x => 0 <= x < Z.of_nat (length (ports st))) l).
  { apply Forall_forall. intros x [_ Hx]%list_elem_of_filter. apply elem_of_seqZ in Hx. lia. }
  assert (Hu : u8 <$> l = l).
  { clearbody l. clear Hl. induction Hr as [|x l Hx Hr IH]; [done|]. cbn. by rewrite IH, u8_small by lia. }
  rewrite set_fwd_ports_list_spec by lia. rewrite Hu.
  assert (Hacc : accepted (fun p => port_id_is_invalid p st) l <-> Forall (fun p => enabled_at (ports st) p = true) l).
  { unfold accepted. rewrite !Forall_forall. rewrite Forall_forall in Hr.
    split; intros H x Hx; specialize (H x Hx); specialize (Hr x Hx); unfold port_id_is_invalid, enabled_at, RTE_PORT_ALL in *;
      destruct (Z.eqb_spec x 255); try lia; destruct (zget (ports st) x) as [q|]; try done; by destruct (enabled q). }
  rewrite (decide_ext _ _ _ _ Hacc).
  destruct (decide (Forall (fun p => enabled_at (ports st) p = true) l)) as [Hen|Hen].
  - eexists. split; [done|]. rewrite decide_True by (by split).
    cbn [set_cfg_ports set_fwd_ports fwd_ports_ids nb_cfg_ports nb_fwd_ports].
    rewrite take_app_length, u8_small by lia. done.
  - exists st. split; [done|]. rewrite decide_False by naive_solver. done.
Qed.

(** ** Examples *)

Definition sample_vlan : vlan_state := VlanState [TxPort [] 65 17 0 0; TxPort [] 2 0 0 0] [].

Lemma vlan_cmds_ok_witness :
  match run_vlan_cmds (fun l _ => match l with SetOffload _ m :: _ => m | _ => 0 end) (fun _ => 0) sample_state
      [VSet 0 5; VExtend 0 true; VQinq 0 6 7; VSet 0 9; VReset 1] sample_vlan with
  | Done v' => Forall vlan_ok (tx_conf_of v')
  | _ => False
  end.
Proof.
  destruct (run_vlan_cmds (fun l _ => match l with SetOffload _ m :: _ => m | _ => 0 end) (fun _ => 0) sample_state
      [VSet 0 5; VExtend 0 true; VQinq 0 6 7; VSet 0 9; VReset 1] sample_vlan) as [v'| |] eqn:E;
    [|vm_compute in E; discriminate E..].
  refine (vlan_cmds_ok _ _ _ _ _ v' _ _ E).
  - repeat constructor; cbn; try lia; discriminate.
  - repeat constructor; cbn; lia.
Defined.

Definition sample_pkt_conf : pkt_conf :=
  PktConf 32 2048 14 (14 :: replicate 254 0) 1 TX_PKT_SPLIT_OFF.

Lemma tx_segments_ok_witness :
  exists s', set_tx_pkt_segments 512 [40; 2; 100] sample_pkt_conf = Done s' /\ segs_ok s' /\ tx_pkt_length s' = 142.
Proof.
  destruct (tx_segments_ok 512 [40; 2; 100] sample_pkt_conf) as (s' & E & H & _).
  - constructor; [reflexivity|by vm_compute| |reflexivity|by vm_compute|by vm_compute].
    apply Forall_cons. split; [cbn; lia|apply Forall_nil; exact I].
  - cbn. lia.
  - repeat constructor; lia.
  - apply Nat.leb_le. reflexivity.
  - exists s'. split; [exact E|]. split; [exact H|]. vm_compute in E. injection E as <-. reflexivity.
Defined.

Lemma port_mask_selects_witness :
  exists st', set_fwd_ports_mask 2 sample_state = Done st' /\ take 1 (fwd_ports_ids st') = [1] /\ nb_fwd_ports st' = 1.
Proof.
  destruct (port_mask_selects sample_state 2) as (st' & E & H); [lia|cbn; lia|cbn; lia|].
  exists st'. split; [exact E|]. rewrite decide_True in H.
  - destruct H as (H1 & _ & H3). split; [exact H1|exact H3].
  - split; [lia|]. vm_compute. repeat constructor.
Defined.
