(* ===== verification/SetCmds.v ===== *)
(** * test-pmd/cmdline.c: the "set" commands of the forwarding configuration

    [parse_item_list] reads the lists of numbers that commands and options
    take; the callbacks of the commands "set corelist|portlist",
    "set coremask|portmask", "set nbport|nbcore|burst|verbose", "set txpkts"
    and "set txsplit" apply them.  A token of the command line is a string;
    [STR_TOKEN_SIZE] is the bound of DPDK's command line library. *)

From Stdlib Require Import Ascii.
From stdpp Require Import strings.
From S2P Require Import Prelude Cstr Packet PortConf PortState CoreConf FwdSettings.

#[local] Open Scope Z_scope.
#[local] Open Scope list_scope.

(** ** Lists of numbers *)

Definition comma : ascii := ascii_of_nat 44.

(** The loop over the characters: the items stored, their number and the
    value of the last one; [None] when the function returns 0. *)
Fixpoint parse_items (s : list ascii) (max_items : nat) (value : Z) (nb_item : nat) (value_ok : bool)
    (items : list Z) : option (list Z * nat * Z) :=
  match s with
  | [] => Some (items, nb_item, value)
  | c :: s =>
      if is_digit c then parse_items s max_items (u32 (value * 10 + (ascii_code c - 48))) nb_item true items
      else if negb (ascii_code c =? ascii_code comma) then None
      else if negb value_ok then None
      else if (nb_item <? max_items)%nat then parse_items s max_items 0 (S nb_item) false (items ++ [value])
      else parse_items s max_items value (S nb_item) value_ok items
  end.

(** Whether all items differ. *)
Fixpoint unique_values (l : list Z) : bool :=
  match l with
  | [] => true
  | x :: l => negb (existsb (Z.eqb x) l) && unique_values l
  end.

(** The items; none when the function returns 0. *)
Definition parse_item_list (STR_TOKEN_SIZE : nat) (str : string) (max_items : nat) (check_unique_values : bool)
    : list Z :=
  match parse_items (take STR_TOKEN_SIZE (String.list_ascii_of_string str)) max_items 0 0 false [] with
  | None => []
  | Some (items, nb_item, value) =>
      if (max_items <=? nb_item)%nat then []
      else
        let items := items ++ [value] in
        if check_unique_values && negb (unique_values items) then [] else items
  end.

(** ** Commands *)

Record settings : Type := Settings {
  cores : lcore_conf;
  portst : pstate;
  pkts : pkt_conf;
  verbose_level : Z;
}.

Section Commands.
Variables (STR_TOKEN_SIZE : nat) (rte_lcore_is_enabled : Z -> bool) (rte_get_master_lcore : Z) (nb_txd : Z).

Definition RTE_MAX_ETHPORTS : nat := 32.

Definition with_cores (l : lcore_conf) (s : settings) : settings := Settings l (portst s) (pkts s) (verbose_level s).
Definition with_portst (p : pstate) (s : settings) : settings := Settings (cores s) p (pkts s) (verbose_level s).
Definition with_pkts (p : pkt_conf) (s : settings) : settings := Settings (cores s) (portst s) p (verbose_level s).

Definition cmd_set_list_parsed (list_name list_of_items : string) (s : settings) : outcome settings :=
  if negb (test_done (portst s)) then Done s
  else if bool_decide (list_name = "corelist"%string) then
    let l := parse_item_list STR_TOKEN_SIZE list_of_items RTE_MAX_LCORE true in
    if (0 <? length l)%nat then
      '(_, c) ← set_fwd_lcores_list rte_lcore_is_enabled rte_get_master_lcore l (cores s); Done (with_cores c s)
    else Done s
  else if bool_decide (list_name = "portlist"%string) then
    let l := parse_item_list STR_TOKEN_SIZE list_of_items RTE_MAX_ETHPORTS true in
    if (0 <? length l)%nat then p ← set_fwd_ports_list l (portst s); Done (with_portst p s)
    else Done s
  else Done s.

Definition cmd_set_mask_parsed (mask : string) (hexavalue : Z) (s : settings) : outcome settings :=
  if negb (test_done (portst s)) then Done s
  else if bool_decide (mask = "coremask"%string) then
    '(_, c) ← set_fwd_lcores_mask rte_lcore_is_enabled rte_get_master_lcore hexavalue (cores s);
    Done (with_cores c s)
  else if bool_decide (mask = "portmask"%string) then
    p ← set_fwd_ports_mask hexavalue (portst s); Done (with_portst p s)
  else Done s.

Definition cmd_set_parsed (what : string) (value : Z) (s : settings) : settings :=
  if bool_decide (what = "nbport"%string) then with_portst (set_fwd_ports_number value (portst s)) s
  else if bool_decide (what = "nbcore"%string) then with_cores (set_fwd_lcores_number value (cores s)) s
  else if bool_decide (what = "burst"%string) then with_pkts (set_nb_pkt_per_burst value (pkts s)) s
  else if bool_decide (what = "verbose"%string) then Settings (cores s) (portst s) (pkts s) value
  else s.

Definition cmd_set_txpkts_parsed (seg_lengths : string) (s : settings) : outcome settings :=
  let l := parse_item_list STR_TOKEN_SIZE seg_lengths RTE_MAX_SEGS_PER_PKT false in
  if (0 <? length l)%nat then p ← set_tx_pkt_segments nb_txd l (pkts s); Done (with_pkts p s) else Done s.

Definition cmd_set_txsplit_parsed (mode : string) (s : settings) : settings :=
  with_pkts (set_tx_pkt_split mode (pkts s)) s.
End Commands.

(** ** Specification *)

(** The value of a text of digits, and lists joined by commas. *)
Definition digits_value (acc : Z) (w : list ascii) : Z := foldl (fun v c => 10 * v + (ascii_code c - 48)) acc w.

Definition is_number (w : list ascii) : Prop := w <> [] /\ Forall (fun c => is_digit c = true) w.

Fixpoint join (ws : list (list ascii)) : list ascii :=
  match ws with
  | [] => []
  | [w] => w
  | w :: ws => w ++ comma :: join ws
  end.

(** ** Lemmas *)

Lemma parse_digits w s max v n ok items :
  Forall (fun c => is_digit c = true) w -> 0 <= v < 2 ^ 32 ->
  parse_items (w ++ s) max v n ok items =
    parse_items s max (u32 (digits_value v w)) n (ok || bool_decide (w <> [])) items.
Proof.
  intros Hw. revert v ok. induction Hw as [|c w Hc Hw IH]; intros v ok Hv; cbn [app].
  - cbn [digits_value foldl]. rewrite u32_small by lia. rewrite bool_decide_false by naive_solver. by rewrite orb_false_r.
  - cbn [parse_items]. rewrite Hc. rewrite IH by apply u32_range.
    rewrite (bool_decide_true (c :: w <> [])) by done. rewrite orb_true_r. cbn [orb]. f_equal.
    unfold digits_value. cbn [foldl]. rewrite (Z.mul_comm 10 v). clear.
    generalize (v * 10 + (ascii_code c - 48)). induction w as [|c' w IH]; intros x; cbn [foldl].
    + unfold u32. by rewrite Z.mod_mod by lia.
    + rewrite <- (IH (10 * u32 x + (ascii_code c' - 48))), <- (IH (10 * x + (ascii_code c' - 48))). f_equal. f_equal.
      unfold u32. rewrite <- (Zplus_mod_idemp_l (10 * (x mod 2 ^ 32))), <- (Zplus_mod_idemp_l (10 * x)).
      by rewrite Zmult_mod_idemp_r.
Qed.

Lemma parse_join ws w max n items :
  Forall is_number (ws ++ [w]) -> (n + length ws < max)%nat ->
  parse_items (join (ws ++ [w])) max 0 n false items =
    Some (items ++ ((fun x => u32 (digits_value 0 x)) <$> ws), (n + length ws)%nat, u32 (digits_value 0 w)).
Proof.
  revert n items. induction ws as [|x ws IH]; intros n items Hw Hn; cbn [app] in *.
  - apply Forall_cons in Hw as [[Hne Hd] _]. cbn [join]. rewrite <- (app_nil_r w) at 1.
    rewrite parse_digits by (done || lia). cbn [parse_items fmap list_fmap length]. by rewrite app_nil_r, Nat.add_0_r.
  - apply Forall_cons in Hw as [[Hne Hd] Hws].
    assert (E : join (x :: ws ++ [w]) = x ++ comma :: join (ws ++ [w])) by (by destruct ws).
    rewrite E. rewrite parse_digits by (done || lia). rewrite bool_decide_true by done. cbn [orb parse_items].
    change (is_digit comma) with false. change (negb (ascii_code comma =? ascii_code comma)) with false. cbn [negb].
    cbn [length] in Hn. rewrite (proj2 (Nat.ltb_lt _ _)) by lia.
    rewrite IH by (done || lia). cbn [fmap list_fmap length]. rewrite <- app_assoc. cbn [app].
    do 3 f_equal. lia.
Qed.

Lemma unique_values_spec l : unique_values l = true <-> NoDup l.
Proof.
  induction l as [|x l IH]; cbn; [split; [constructor|done]|].
  rewrite andb_true_iff, IH, NoDup_cons. apply and_iff_compat_r. rewrite negb_true_iff, <- not_true_iff_false, existsb_exists.
  split; intros H Hx; apply H.
  - exists x. split; [by apply list_elem_of_In|apply Z.eqb_refl].
  - destruct Hx as (y & Hy & ->%Z.eqb_eq). by apply list_elem_of_In.
Qed.

(** The text of a list of numbers. *)
Definition list_text (ws : list (list ascii)) : string := String.string_of_list_ascii (join ws).
Definition number (w : list ascii) : Z := u32 (digits_value 0 w).

Lemma item_list_value size ws max check :
  Forall is_number ws -> ws <> [] -> (length ws <= max)%nat -> (length (join ws) <= size)%nat ->
  parse_item_list size (list_text ws) max check =
    (if check && negb (bool_decide (NoDup (number <$> ws))) then [] else number <$> ws).
Proof.
  intros Hws Hne Hmax Hsize.
  destruct (exists_last Hne) as (ws' & w & ->). unfold parse_item_list, list_text.
  rewrite String.list_ascii_of_string_of_list_ascii, firstn_all2 by lia.
  rewrite length_app in Hmax. cbn in Hmax. rewrite parse_join by (done || lia). cbn [app Nat.add].
  destruct (Nat.leb_spec max (length ws')); [lia|].
  replace ((λ x, u32 (digits_value 0 x)) <$> ws') with (number <$> ws') by done.
  assert (E : (number <$> ws') ++ [u32 (digits_value 0 w)] = number <$> (ws' ++ [w])) by by rewrite fmap_app.
  rewrite E. destruct check; [|done]. cbn [andb].
  destruct (unique_values _) eqn:Hu.
  - by rewrite bool_decide_true by (by apply unique_values_spec).
  - rewrite bool_decide_false; [done|]. rewrite <- unique_values_spec. congruence.
Qed.

Lemma item_list_parse size ws max check :
  Forall is_number ws -> ws <> [] -> (length ws <= max)%nat -> (length (join ws) <= size)%nat ->
  NoDup (number <$> ws) -> parse_item_list size (list_text ws) max check = number <$> ws.
Proof.
  intros. rewrite item_list_value by done. rewrite bool_decide_true by done. by rewrite andb_false_r.
Qed.

(** ** Properties *)

(** A list of at most [max] numbers separated by commas, within the size
    of a token, is read as these numbers in 32 bits; with the check for
    unique values, a list that has a number twice is refused. *)
Theorem item_list_roundtrip size ws max check
    (Hws : Forall is_number ws) (Hne : ws <> []) (Hmax : (length ws <= max)%nat)
    (Hsize : (length (join ws) <= size)%nat) :
  parse_item_list size (list_text ws) max check =
    (if check && negb (bool_decide (NoDup (number <$> ws))) then [] else number <$> ws).
Proof. by apply item_list_value. Qed.

(** "set corelist" with a list of distinct usable cores makes exactly
    these the forwarding cores, in the order typed, and changes nothing else;
    while packets are forwarded it changes nothing at all. *)
Theorem set_corelist_selects size en master ws s
    (Hok : lcores_ok en master (cores s))
    (Hws : Forall is_number ws) (Hne : ws <> []) (Hmax : (length ws <= RTE_MAX_LCORE)%nat)
    (Hsize : (length (join ws) <= size)%nat) (Hnd : NoDup (number <$> ws))
    (Husable : Forall (usable en master) (number <$> ws)) :
  exists s', cmd_set_list_parsed size en master "corelist" (list_text ws) s = Done s' /\
    portst s' = portst s /\ pkts s' = pkts s /\
    if test_done (portst s)
    then take (length ws) (fwd_lcores_cpuids (cores s')) = number <$> ws /\
      nb_fwd_lcores (cores s') = Z.of_nat (length ws) /\ nb_cfg_lcores (cores s') = Z.of_nat (length ws)
    else cores s' = cores s.
Proof.
  unfold cmd_set_list_parsed. destruct (test_done (portst s)) eqn:Ht; cbn [negb]; [|by exists s].
  rewrite bool_decide_true by done. rewrite item_list_parse by done.
  rewrite length_fmap. destruct (Nat.ltb_spec 0 (length ws)); [|destruct ws; [done|cbn in *; lia]].
  assert (Hl : length (number <$> ws) = length ws) by apply length_fmap.
  rewrite set_fwd_lcores_list_spec by (rewrite (lo_len _ _ _ Hok); lia).
  rewrite decide_True by done. cbn [mbind outcome_bind]. eexists. split; [done|]. split; [done|]. split; [done|].
  cbn [with_cores cores fwd_lcores_cpuids nb_fwd_lcores nb_cfg_lcores].
  rewrite <- Hl, take_app_length, Hl.
  change RTE_MAX_LCORE with 128%nat in Hmax. by rewrite u8_small by lia.
Qed.

(** ** Examples *)

Definition typed (s : string) : list ascii := String.list_ascii_of_string s.

Lemma item_list_roundtrip_witness :
  parse_item_list 128 "3,007,12" 4 true = [3; 7; 12] /\
  parse_item_list 128 "3,12,3" 4 true = [].
Proof.
  split.
  - refine (item_list_roundtrip 128 (typed <$> ["3"; "007"; "12"]%string) 4 true _ _ _ _);
      [|discriminate|cbn; lia|cbn; lia].
    repeat (apply Forall_cons; split); [..|by constructor]; (split; [discriminate|repeat constructor]).
  - refine (item_list_roundtrip 128 (typed <$> ["3"; "12"; "3"]%string) 4 true _ _ _ _);
      [|discriminate|cbn; lia|cbn; lia].
    repeat (apply Forall_cons; split); [..|by constructor]; (split; [discriminate|repeat constructor]).
Defined.

(** A trailing comma adds the item 0. *)
Lemma trailing_comma : parse_item_list 128 "5," 4 true = [5; 0].
Proof. reflexivity. Qed.

Definition sample_settings : settings :=
  Settings (LcoreConf ([1; 2; 3] ++ replicate 125 0) 3 3 1 1) sample_state sample_pkt_conf 0.

Lemma set_corelist_selects_witness :
  exists s', cmd_set_list_parsed 128 sample_enabled 0 "corelist" "3,1" sample_settings = Done s' /\
    take 2 (fwd_lcores_cpuids (cores s')) = [3; 1] /\ nb_fwd_lcores (cores s') = 2.
Proof.
  destruct (set_corelist_selects 128 sample_enabled 0 (typed <$> ["3"; "1"]%string) sample_settings)
    as (s' & E & _ & _ & H).
  - constructor; try reflexivity.
    + vm_compute. split; discriminate.
    + vm_compute. split; discriminate.
    + repeat (apply Forall_cons; split); [..|by constructor]; apply (bool_decide_unpack _); vm_compute; exact I.
    + apply (bool_decide_unpack _). vm_compute. exact I.
  - repeat (apply Forall_cons; split); [..|by constructor]; (split; [discriminate|repeat constructor]).
  - discriminate.
  - apply Nat.leb_le. reflexivity.
  - apply Nat.leb_le. reflexivity.
  - apply (bool_decide_unpack _). vm_compute. exact I.
  - apply (bool_decide_unpack _). vm_compute. exact I.
  - exists s'. split; [exact E|]. cbn in H. destruct H as (H1 & H2 & _). split; [exact H1|exact H2].
Defined.
