(* ===== verification/FwdRun.v ===== *)
(** * test-pmd/testpmd.c: forwarding packets

    [start_packet_forwarding], the workers it launches on the cores, and
    [stop_packet_forwarding] with the statistics it prints.  A worker is one
    of the loops [run_pkt_fwd_on_lcore]; its steps are taken one at a time,
    and a schedule says which core takes the next, so that the theorems hold
    for every interleaving. *)

From S2P Require Import Prelude Packet FwdEngines PortConf PortState CoreConf QueueMap FwdConfig.

(** ** Data *)

(** [struct fwd_engine] *)
Record engine `{Ethdev} : Type := Engine {
  port_fwd_begin : option (Z -> dev -> dev);
  port_fwd_end : option (Z -> dev -> dev);
  eng_packet_fwd : fwd_stream -> dev -> outcome (fwd_stream * dev);
}.

Arguments Engine {_} _ _ _.
Arguments port_fwd_begin {_} _.
Arguments port_fwd_end {_} _.
Arguments eng_packet_fwd {_} _ _ _.

(** The counters of [struct rte_eth_stats] that are used. *)
Record eth_stats : Type := EthStats {
  ipackets : Z; opackets : Z; ibytes : Z; obytes : Z; imissed : Z; ierrors : Z; oerrors : Z; rx_nombuf : Z;
}.

(** The statistics in [struct rte_port]: the last ones read, the packets
    dropped, the bad checksums, the streams of the port if unique, and the
    flags of the statistics mappings. *)
Record port_stats : Type := PortStats {
  stats : eth_stats;
  ps_tx_dropped : Z;
  ps_bad_ip_csum : Z;
  ps_bad_l4_csum : Z;
  rx_stream : option Z;
  tx_stream : option Z;
  mapping_enabled : bool * bool;
}.

(** A worker: whether it runs one burst of txonly, and its next stream. *)
Record job : Type := Job { j_once : bool; j_next : Z }.

Record run_state `{Ethdev} : Type := RunState {
  rs_fwd : fwd_state;
  rs_stats : list port_stats;
  rs_dev : dev;
  rs_jobs : list (option job);
  rs_map_calls : list map_call;
}.

Arguments RunState {_} _ _ _ _ _.
Arguments rs_fwd {_} _.
Arguments rs_stats {_} _.
Arguments rs_dev {_} _.
Arguments rs_jobs {_} _.
Arguments rs_map_calls {_} _.

Section Run.
Context `{Ethdev}.

Definition set_fwd (f : fwd_state) (st : run_state) : run_state :=
  RunState f (rs_stats st) (rs_dev st) (rs_jobs st) (rs_map_calls st).
Definition set_stats (l : list port_stats) (st : run_state) : run_state :=
  RunState (rs_fwd st) l (rs_dev st) (rs_jobs st) (rs_map_calls st).
Definition set_dev (d : dev) (st : run_state) : run_state :=
  RunState (rs_fwd st) (rs_stats st) d (rs_jobs st) (rs_map_calls st).
Definition set_jobs (l : list (option job)) (st : run_state) : run_state :=
  RunState (rs_fwd st) (rs_stats st) (rs_dev st) l (rs_map_calls st).

Definition with_pst (f : pstate -> pstate) (s : fwd_state) : fwd_state :=
  FwdState (f (pst s)) (fwd_lcores s) (cur_fwd_config s).
Definition with_lcores (l : list fwd_lcore) (s : fwd_state) : fwd_state :=
  FwdState (pst s) l (cur_fwd_config s).

Definition set_stopped (b : bool) (lc : fwd_lcore) : fwd_lcore := FwdLcore (stream_idx lc) (stream_nb lc) b.

(** ** The workers *)

Section Workers.
(** The chosen engine and that of txonly. *)
Variables (fwd_eng tx_only_engine : engine).

(** One step of the worker of the core of index [k]: its next stream, or the
    test at the end of its round.  An idle core does nothing. *)
Definition core_step (k : nat) (st : run_state) : outcome run_state :=
  match rs_jobs st !! k with
  | Some (Some j) =>
      lc ← of_opt (fwd_lcores (rs_fwd st) !! k);
      if j_next j <? stream_nb lc then
        let i := stream_idx lc + j_next j in
        fs ← of_opt (zget (fwd_streams (pst (rs_fwd st))) i);
        '(fs, d) ← eng_packet_fwd (if j_once j then tx_only_engine else fwd_eng) fs (rs_dev st);
        l ← of_opt (zset (fwd_streams (pst (rs_fwd st))) i fs);
        Done (RunState (with_pst (set_fwd_streams l) (rs_fwd st)) (rs_stats st) d
                (<[k := Some (Job (j_once j) (j_next j + 1))]> (rs_jobs st)) (rs_map_calls st))
      else if j_once j || stopped lc then Done (set_jobs (<[k := None]> (rs_jobs st)) st)
      else Done (set_jobs (<[k := Some (Job (j_once j) 0)]> (rs_jobs st)) st)
  | _ => Done st
  end.

Fixpoint run_cores (schedule : list nat) (st : run_state) : outcome run_state :=
  match schedule with
  | [] => Done st
  | k :: schedule => st ← core_step k st; run_cores schedule st
  end.

(** The loop of [launch_packet_forwarding] over [n] cores from [i] on;
    [on_core cpuid] says whether a worker can be launched there (not on the
    core that runs the command line), and [accepts cpuid] whether DPDK
    accepts it. *)
Fixpoint launch_loop (n : nat) (i : Z) (once : bool) (cpuids : list Z) (on_core accepts : Z -> bool)
    (st : run_state) : outcome run_state :=
  match n with
  | O => Done st
  | S n =>
      lc_id ← of_opt (zget cpuids i);
      st ←
        (if on_core lc_id then
           lc ← of_opt (zget (fwd_lcores (rs_fwd st)) i);
           l ← of_opt (zset (fwd_lcores (rs_fwd st)) i (set_stopped false lc));
           let st := set_fwd (with_lcores l (rs_fwd st)) st in
           if accepts lc_id then Done (set_jobs (<[Z.to_nat i := Some (Job once 0)]> (rs_jobs st)) st)
           else Done st
         else Done st);
      launch_loop n (i + 1) once cpuids on_core accepts st
  end.

(** Calling a function on the forwarding ports, if there is one. *)
Definition on_fwd_ports (f : option (Z -> dev -> dev)) (st : run_state) : run_state :=
  match f with
  | None => st
  | Some f =>
      set_dev (foldl (fun d i => f i d) (rs_dev st)
                 (take (Z.to_nat (cfg_ports (cur_fwd_config (rs_fwd st)))) (fwd_ports_ids (pst (rs_fwd st))))) st
  end.

Definition launch_packet_forwarding (once : bool) (cpuids : list Z) (on_core accepts : Z -> bool)
    (st : run_state) : outcome run_state :=
  launch_loop (Z.to_nat (cfg_lcores (cur_fwd_config (rs_fwd st)))) 0 once cpuids on_core accepts
    (on_fwd_ports (port_fwd_begin fwd_eng) st).

(** Whether all workers have finished. *)
Definition idleb (st : run_state) : bool := forallb (fun j => match j with None => true | Some _ => false end) (rs_jobs st).

(** The end of [start_packet_forwarding].  With [with_tx_first] every worker
    first serves its streams once with the txonly engine; [schedule] is the
    order of their steps, and [None] says that they have not finished. *)
Definition start_workers (with_tx_first : bool) (schedule : list nat) (cpuids : list Z)
    (on_core accepts : Z -> bool) (st : run_state) : outcome (option run_state) :=
  if with_tx_first then
    st ← launch_packet_forwarding true cpuids on_core accepts
           (on_fwd_ports (port_fwd_begin tx_only_engine) st);
    st ← run_cores schedule st;
    if negb (idleb st) then Done None
    else Some <$> launch_packet_forwarding false cpuids on_core accepts
                    (on_fwd_ports (port_fwd_end tx_only_engine) st)
  else Some <$> launch_packet_forwarding false cpuids on_core accepts st.
End Workers.

(** ** Starting *)

(** Emptying a receive queue: [None] when it still gives packets after
    [fuel] bursts. *)
Fixpoint flush_queue (fuel : nat) (port_id rxq : Z) (d : dev) : option dev :=
  match fuel with
  | O => None
  | S fuel =>
      let '(pkts, d) := rx_burst d port_id rxq MAX_PKT_BURST in
      if (0 <? length pkts)%nat then flush_queue fuel port_id rxq d else Some d
  end.

Fixpoint flush_queues (fuel : nat) (qs : list (Z * Z)) (d : dev) : option dev :=
  match qs with
  | [] => Some d
  | (p, q) :: qs => d ← flush_queue fuel p q d; flush_queues fuel qs d
  end.

(** [flush_fwd_rx_queues]: twice all queues of the ports of the current
    configuration. *)
Definition flush_fwd_rx_queues (fuel : nat) (c : config) (st : run_state) : option run_state :=
  let ids := take (Z.to_nat (cfg_ports (cur_fwd_config (rs_fwd st)))) (fwd_ports_ids (pst (rs_fwd st))) in
  let qs := ids ≫= fun p => (fun q => (p, q)) <$> queues (nb_rxq c) in
  d ← flush_queues fuel (qs ++ qs) (rs_dev st); Some (set_dev d st).

Definition reset_stream (fs : fwd_stream) : fwd_stream :=
  FwdStream (rx_port fs) (rx_queue fs) (tx_port fs) (tx_queue fs) (peer_addr fs) 0 0 0 0 0.

Section Start.
Variables (d : dpdk) (c : config) (nb_fwd_lcores : Z) (topo : topology) (dcb : Z -> dcb_info) (icmpecho : bool)
  (txl rxl : list queue_stats_mappings) (map_answer : list map_call -> Z) (no_flush_rx : bool) (flush_fuel : nat)
  (stats_get : nat -> eth_stats).

(** The checks: whether forwarding may start. *)
Definition may_start (st : fwd_state) : outcome bool :=
  let ps := pst st in
  if negb (all_ports_started ps) then Done false
  else if negb (test_done ps) then Done false
  else if dcb_test ps then
    flags ← mapM (fun i => p ← of_opt (zget (fwd_ports_ids ps) i); q ← of_opt (zget (ports ps) p);
                           Done (dcb_flag (pconf q)))
              (Z.of_nat <$> seq 0 (Z.to_nat (nb_fwd_ports ps)));
    Done (forallb id flags && negb (nb_fwd_lcores =? 1))
  else Done true.

(** The loop that resets the statistics of the forwarding ports, [n] of them
    from index [i] on; [stats_get i] is what DPDK gives for the i-th. *)
Fixpoint reset_ports (n : nat) (i : nat) (st : run_state) : outcome run_state :=
  match n with
  | O => Done st
  | S n =>
      pt_id ← of_opt (zget (fwd_ports_ids (pst (rs_fwd st))) (Z.of_nat i));
      p ← of_opt (zget (rs_stats st) pt_id);
      '(flags, calls) ←
        map_port_queue_stats_mapping_registers map_answer c pt_id txl rxl (mapping_enabled p) (rs_map_calls st);
      l ← of_opt (zset (rs_stats st) pt_id
                    (PortStats (stats_get i) 0 (ps_bad_ip_csum p) (ps_bad_l4_csum p) (rx_stream p) (tx_stream p) flags));
      reset_ports n (S i) (RunState (rs_fwd st) l (rs_dev st) (rs_jobs st) calls)
  end.

(** Resetting the first [n] streams. *)
Definition reset_streams (n : Z) (l : list fwd_stream) : outcome (list fwd_stream) :=
  _ ← c_defined (n <=? Z.of_nat (length l));
  Done ((reset_stream <$> take (Z.to_nat n) l) ++ drop (Z.to_nat n) l).

(** [start_packet_forwarding] up to the launch: [None] when it refuses. *)
Definition start_prepare (st : run_state) : outcome (option run_state) :=
  ok ← may_start (rs_fwd st);
  if negb ok then Done None
  else
    let st := set_fwd (with_pst (set_test_done false) (rs_fwd st)) st in
    st ← of_opt (if no_flush_rx then Some st else flush_fwd_rx_queues flush_fuel c st);
    f ← fwd_config_setup d c nb_fwd_lcores topo dcb icmpecho (rs_fwd st);
    st ← reset_ports (Z.to_nat (cfg_ports (cur_fwd_config f))) 0 (set_fwd f st);
    l ← reset_streams (nb_fwd_streams (cur_fwd_config f)) (fwd_streams (pst f));
    Done (Some (set_fwd (with_pst (set_fwd_streams l) f) st)).
End Start.

(** ** Stopping *)

(** [stop_packet_forwarding] up to the wait for the workers: [None] when it
    refuses. *)
Definition stop_signal (st : run_state) : outcome (option run_state) :=
  let ps := pst (rs_fwd st) in
  if negb (all_ports_started ps) then Done None
  else if test_done ps then Done None
  else
    let n := Z.to_nat (cfg_lcores (cur_fwd_config (rs_fwd st))) in
    let l := fwd_lcores (rs_fwd st) in
    _ ← c_defined (n <=? length l)%nat;
    Done (Some (set_fwd (with_lcores ((set_stopped true <$> take n l) ++ drop n l) (rs_fwd st)) st)).

(** What [rte_eal_mp_wait_lcore] waits for. *)
Definition all_idle (st : run_state) : Prop := Forall (fun j => j = None) (rs_jobs st).

Definition upd_stats (i : Z) (f : port_stats -> port_stats) (l : list port_stats) : outcome (list port_stats) :=
  p ← of_opt (zget l i); of_opt (zset l i (f p)).

(** What a stream adds to its ports; [unique] when every port has one. *)
Definition account_tx (unique : bool) (sm_id : Z) (fs : fwd_stream) (p : port_stats) : port_stats :=
  PortStats (stats p) (u64 (ps_tx_dropped p + fwd_dropped fs)) (ps_bad_ip_csum p) (ps_bad_l4_csum p)
    (rx_stream p) (if unique then Some sm_id else None) (mapping_enabled p).
Definition account_rx (unique : bool) (sm_id : Z) (fs : fwd_stream) (p : port_stats) : port_stats :=
  PortStats (stats p) (ps_tx_dropped p) (u64 (ps_bad_ip_csum p + rx_bad_ip_csum fs))
    (u64 (ps_bad_l4_csum p + rx_bad_l4_csum fs)) (if unique then Some sm_id else None) (tx_stream p)
    (mapping_enabled p).

(** The loop over the streams, [n] of them from [i] on. *)
Fixpoint account_streams (n : nat) (i : Z) (unique : bool) (streams : list fwd_stream) (l : list port_stats)
    : outcome (list port_stats) :=
  match n with
  | O => Done l
  | S n =>
      fs ← of_opt (zget streams i);
      l ← upd_stats (tx_port fs) (account_tx unique i fs) l;
      l ← upd_stats (rx_port fs) (account_rx unique i fs) l;
      account_streams n (i + 1) unique streams l
  end.

(** The counters since the start, and the ones the port keeps. *)
Definition since (s0 s : eth_stats) : eth_stats :=
  EthStats (u64 (ipackets s - ipackets s0)) (u64 (opackets s - opackets s0)) (u64 (ibytes s - ibytes s0))
    (u64 (obytes s - obytes s0)) (u64 (imissed s - imissed s0)) (ierrors s) (u64 (oerrors s - oerrors s0))
    (u64 (rx_nombuf s - rx_nombuf s0)).
Definition cleared (s : eth_stats) : eth_stats := EthStats 0 0 0 0 0 (ierrors s) 0 0.

(** The numbers that [fwd_port_stats_display] prints, some under a
    condition. *)
Record port_report : Type := PortReport {
  pr_port : Z;
  pr_stats : eth_stats;
  pr_rx_total : Z;
  pr_bad_csum : option (Z * Z);
  pr_errors : option (Z * Z);
  pr_tx_dropped : Z;
  pr_tx_total : Z;
}.

Definition fwd_port_stats_display (csum : bool) (port_id : Z) (s : eth_stats) (p : port_stats) : port_report :=
  PortReport port_id s (u64 (ipackets s + imissed s))
    (if csum then Some (ps_bad_ip_csum p, ps_bad_l4_csum p) else None)
    (if 0 <? u64 (u64 (ierrors s - imissed s) + rx_nombuf s) then Some (ierrors s, rx_nombuf s) else None)
    (ps_tx_dropped p) (u64 (opackets s + ps_tx_dropped p)).

Record totals : Type := Totals {
  total_recv : Z; total_xmit : Z; total_rx_dropped : Z; total_tx_dropped : Z; total_rx_nombuf : Z;
}.

Definition add_totals (s : eth_stats) (p : port_stats) (t : totals) : totals :=
  Totals (u64 (total_recv t + ipackets s)) (u64 (total_xmit t + opackets s))
    (u64 (total_rx_dropped t + imissed s)) (u64 (total_tx_dropped t + ps_tx_dropped p))
    (u64 (total_rx_nombuf t + rx_nombuf s)).

(** The loop over the forwarding ports, [n] of them from index [i] on;
    [stats_get i] is what DPDK gives for the i-th. *)
Fixpoint account_ports (n : nat) (i : nat) (csum : bool) (stats_get : nat -> eth_stats) (ids : list Z)
    (l : list port_stats) (t : totals) (reports : list port_report)
    : outcome (list port_stats * totals * list port_report) :=
  match n with
  | O => Done (l, t, reports)
  | S n =>
      pt_id ← of_opt (zget ids (Z.of_nat i));
      p ← of_opt (zget l pt_id);
      let s := since (stats p) (stats_get i) in
      l ← of_opt (zset l pt_id (PortStats (cleared (stats p)) (ps_tx_dropped p) (ps_bad_ip_csum p) (ps_bad_l4_csum p)
                                  (rx_stream p) (tx_stream p) (mapping_enabled p)));
      account_ports n (S i) csum stats_get ids l (add_totals s p t)
        (reports ++ [fwd_port_stats_display csum pt_id s p])
  end.

(** [stop_packet_forwarding] once the workers have finished. *)
Definition stop_account (fwd_eng : engine) (csum : bool) (stats_get : nat -> eth_stats) (st : run_state)
    : outcome (run_state * totals * list port_report) :=
  let st := on_fwd_ports (port_fwd_end fwd_eng) st in
  let cfg := cur_fwd_config (rs_fwd st) in
  let unique := negb (cfg_ports cfg <? nb_fwd_streams cfg) in
  l ← account_streams (Z.to_nat (nb_fwd_streams cfg)) 0 unique (fwd_streams (pst (rs_fwd st))) (rs_stats st);
  '(l, t, reports) ← account_ports (Z.to_nat (cfg_ports cfg)) 0 csum stats_get (fwd_ports_ids (pst (rs_fwd st))) l
                       (Totals 0 0 0 0 0) [];
  Done (set_stats l (set_fwd (with_pst (set_test_done true) (rs_fwd st)) st), t, reports).
End Run.

(** ** What the workers need of an engine

    An engine counts in the stream it is given, and leaves its ports and
    queues alone. *)

Definition same_route (fs fs' : fwd_stream) : Prop :=
  rx_port fs' = rx_port fs /\ rx_queue fs' = rx_queue fs /\ tx_port fs' = tx_port fs /\ tx_queue fs' = tx_queue fs.

Class EngineOk `{Ethdev} (e : engine) : Prop :=
  eng_route : forall fs d fs' d', eng_packet_fwd e fs d = Done (fs', d') -> same_route fs fs'.

(** The engines io, mac, mac_retry, macswap and rxonly. *)
Definition std_engine `{Ethdev} (nb_pkt_per_burst : Z) (ports : list tx_port_conf) (peers : list (list Z)) (retry : nat)
    (m : fwd_mode) : engine :=
  Engine None None (fun fs d => r ← packet_fwd nb_pkt_per_burst ports peers retry m fs d; Done (br_fs r, br_dev r)).

Lemma finish_burst_route `{Ethdev} fs d pkts nb_tx : same_route fs (br_fs (finish_burst fs d pkts nb_tx)).
Proof. unfold finish_burst. by destruct (_ <? _)%nat. Qed.

Lemma count_rx_route n fs fs' : same_route (count_rx n fs) fs' -> same_route fs fs'.
Proof. done. Qed.

#[export] Instance std_engine_ok `{Ethdev} nb ports peers retry m : EngineOk (std_engine nb ports peers retry m).
Proof.
  intros fs d fs' d'. cbn. intros E. apply outcome_bind_Done in E as (r & E & [= <- _]).
  destruct m; cbn in E.
  - unfold pkt_burst_io_forward in E. destruct (rx_burst _ _ _ _) as [pkts d1].
    destruct (_ =? _)%nat; [by injection E as <-|]. destruct (tx_burst _ _ _ _) as [nb_tx d2]. injection E as <-.
    eapply count_rx_route, finish_burst_route.
  - unfold pkt_burst_mac_forward, pkt_burst_rewrite in E. destruct (rx_burst _ _ _ _) as [pkts d1].
    destruct (_ =? _)%nat; [by injection E as <-|]. apply outcome_bind_Done in E as (out & _ & E).
    destruct (tx_burst _ _ _ _) as [nb_tx d2]. injection E as <-. eapply count_rx_route, finish_burst_route.
  - unfold pkt_burst_mac_retry_forward in E. destruct (rx_burst _ _ _ _) as [pkts d1].
    destruct (_ =? _)%nat; [by injection E as <-|]. apply outcome_bind_Done in E as (out & _ & E).
    destruct (tx_burst _ _ _ _) as [nb_tx d2]. 
    match type of E with context [if ?b then ?x else ?y] => destruct (if b then x else y) as [nb_tx' d3] end.
    injection E as <-. eapply count_rx_route, finish_burst_route.
  - unfold pkt_burst_mac_swap, pkt_burst_rewrite in E. destruct (rx_burst _ _ _ _) as [pkts d1].
    destruct (_ =? _)%nat; [by injection E as <-|]. apply outcome_bind_Done in E as (out & _ & E).
    destruct (tx_burst _ _ _ _) as [nb_tx d2]. injection E as <-. eapply count_rx_route, finish_burst_route.
  - unfold pkt_burst_receive in E. destruct (rx_burst _ _ _ _) as [pkts d1].
    destruct (_ =? _)%nat; by injection E as <-.
Qed.

(** ** Lemmas *)

Section Lemmas.
Context `{Ethdev} (fwd_eng tx_eng : engine) (Hfwd : EngineOk fwd_eng) (Htx : EngineOk tx_eng).

Definition route_of (fs : fwd_stream) : (Z * Z) * (Z * Z) := (rx_port fs, rx_queue fs, (tx_port fs, tx_queue fs)).

(** What the workers change: the counters of streams, the device, jobs. *)
Record workers_only (st st' : run_state) : Prop := {
  wo_lcores : fwd_lcores (rs_fwd st') = fwd_lcores (rs_fwd st);
  wo_cfg : cur_fwd_config (rs_fwd st') = cur_fwd_config (rs_fwd st);
  wo_pst : exists l, pst (rs_fwd st') = set_fwd_streams l (pst (rs_fwd st));
  wo_routes : route_of <$> fwd_streams (pst (rs_fwd st')) = route_of <$> fwd_streams (pst (rs_fwd st));
  wo_stats : rs_stats st' = rs_stats st;
  wo_jobs : length (rs_jobs st') = length (rs_jobs st);
}.

Lemma pst_set_same ps : exists l, ps = set_fwd_streams l ps.
Proof. exists (fwd_streams ps). by destruct ps. Qed.

Lemma workers_only_refl st : workers_only st st.
Proof. split; try done. apply pst_set_same. Qed.

Lemma workers_only_trans st1 st2 st3 : workers_only st1 st2 -> workers_only st2 st3 -> workers_only st1 st3.
Proof.
  intros [] []. split; try congruence. destruct wo_pst0 as [l1 E1], wo_pst1 as [l2 E2].
  exists l2. rewrite E2, E1. done.
Qed.

(** One step of a core: a stream is served, the worker ends, or its next
    round begins. *)
Inductive stepped (k : nat) (st st' : run_state) : Prop :=
| stepped_idle : (forall j, rs_jobs st !! k <> Some (Some j)) -> st' = st -> stepped k st st'
| stepped_serve j lc :
    rs_jobs st !! k = Some (Some j) -> fwd_lcores (rs_fwd st) !! k = Some lc -> j_next j < stream_nb lc ->
    rs_jobs st' = <[k := Some (Job (j_once j) (j_next j + 1))]> (rs_jobs st) -> stepped k st st'
| stepped_end j lc :
    rs_jobs st !! k = Some (Some j) -> fwd_lcores (rs_fwd st) !! k = Some lc -> stream_nb lc <= j_next j ->
    j_once j || stopped lc = true -> rs_jobs st' = <[k := None]> (rs_jobs st) -> stepped k st st'
| stepped_again j lc :
    rs_jobs st !! k = Some (Some j) -> fwd_lcores (rs_fwd st) !! k = Some lc -> stream_nb lc <= j_next j ->
    j_once j || stopped lc = false -> rs_jobs st' = <[k := Some (Job (j_once j) 0)]> (rs_jobs st) ->
    stepped k st st'.

Lemma core_step_spec k st st' :
  core_step fwd_eng tx_eng k st = Done st' -> workers_only st st' /\ stepped k st st'.
Proof.
  unfold core_step. destruct (rs_jobs st !! k) as [[j|]|] eqn:Hj.
  2-3: intros [= <-]; split; [apply workers_only_refl|apply stepped_idle; [congruence|done]].
  intros E. apply outcome_bind_Done in E as (lc & Hlc & E).
  destruct (fwd_lcores (rs_fwd st) !! k) as [lc'|] eqn:Hlc'; [|done]. injection Hlc as ->.
  destruct (Z.ltb_spec (j_next j) (stream_nb lc)) as [Hlt|Hge].
  - apply outcome_bind_Done in E as (fs & Hfs & E).
    destruct (zget _ (stream_idx lc + j_next j)) as [fs0|] eqn:Hget; [|done]. injection Hfs as ->.
    apply outcome_bind_Done in E as ([fs' d'] & Heng & E). apply outcome_bind_Done in E as (l & Hl & [= <-]).
    destruct (zset _ _ fs') as [l'|] eqn:Hset; [|done]. injection Hl as ->.
    apply zset_Some in Hset as [Hi ->]. apply zget_Some in Hget as [H0 Hget].
    assert (Hr : same_route fs fs').
    { revert Heng. destruct (j_once j); [apply Htx|apply Hfwd]. }
    split; [|by eapply stepped_serve]. split; try done; cbn.
    + eexists. done.
    + rewrite list_fmap_insert. apply list_insert_id. rewrite list_lookup_fmap, Hget. cbn.
      unfold route_of. by destruct Hr as (-> & -> & -> & ->).
    + by rewrite length_insert.
  - destruct (j_once j || stopped lc) eqn:Hs; injection E as <-.
    + split; [|by eapply stepped_end]. split; try done; cbn; [apply pst_set_same|by rewrite length_insert].
    + split; [|by eapply stepped_again]. split; try done; cbn; [apply pst_set_same|by rewrite length_insert].
Qed.

Lemma run_cores_only sched st st' : run_cores fwd_eng tx_eng sched st = Done st' -> workers_only st st'.
Proof.
  revert st. induction sched as [|k sched IH]; intros st E; cbn in E.
  - injection E as <-. apply workers_only_refl.
  - apply outcome_bind_Done in E as (st1 & E1 & E). destruct (core_step_spec _ _ _ E1) as [H1 _].
    eapply workers_only_trans; [done|]. by apply IH.
Qed.

(** Jobs are those of the cores of the configuration. *)
Definition jobs_ok (st : run_state) : Prop :=
  forall k j, rs_jobs st !! k = Some (Some j) ->
    (k < Z.to_nat (cfg_lcores (cur_fwd_config (rs_fwd st))))%nat /\ 0 <= j_next j.

Lemma core_step_jobs_ok k st st' : core_step fwd_eng tx_eng k st = Done st' -> jobs_ok st -> jobs_ok st'.
Proof.
  intros E Hok. destruct (core_step_spec _ _ _ E) as [Hw Hs]. intros k' j' Hj'. rewrite (wo_cfg _ _ Hw).
  destruct Hs as [_ ->|j lc Hj Hlc Hlt Hjobs|j lc Hj Hlc Hlt Hst Hjobs|j lc Hj Hlc Hlt Hst Hjobs];
    [by apply Hok|rewrite Hjobs in Hj'..];
    (destruct (decide (k = k')) as [<-|];
      [rewrite list_lookup_insert_eq in Hj' by (by eapply lookup_lt_Some)|
       rewrite list_lookup_insert_ne in Hj' by done; by apply Hok]).
  - injection Hj' as <-. destruct (Hok _ _ Hj). cbn. lia.
  - done.
  - injection Hj' as <-. destruct (Hok _ _ Hj). cbn. lia.
Qed.

Lemma run_cores_jobs_ok sched st st' : run_cores fwd_eng tx_eng sched st = Done st' -> jobs_ok st -> jobs_ok st'.
Proof.
  revert st. induction sched as [|k sched IH]; intros st E Hok; cbn in E.
  - by injection E as <-.
  - apply outcome_bind_Done in E as (st1 & E1 & E). eapply IH; [done|]. by eapply core_step_jobs_ok.
Qed.

(** ** Stopping the workers *)

(** The workers end after their round, and find their streams. *)
Definition ending (st : run_state) : Prop :=
  forall k j, rs_jobs st !! k = Some (Some j) -> exists lc, fwd_lcores (rs_fwd st) !! k = Some lc /\
    j_once j || stopped lc = true /\ 0 <= stream_idx lc /\ 0 <= j_next j /\
    stream_idx lc + stream_nb lc <= Z.of_nat (length (fwd_streams (pst (rs_fwd st)))).

(** The steps a worker still needs. *)
Definition need (st : run_state) (k : nat) : nat :=
  match rs_jobs st !! k, fwd_lcores (rs_fwd st) !! k with
  | Some (Some j), Some lc => S (Z.to_nat (stream_nb lc - j_next j))
  | _, _ => 0
  end.

Lemma streams_length st st' : workers_only st st' ->
  length (fwd_streams (pst (rs_fwd st'))) = length (fwd_streams (pst (rs_fwd st))).
Proof. intros Hw. pose proof (f_equal length (wo_routes _ _ Hw)) as E. by rewrite !length_fmap in E. Qed.

Context (Htotal : forall fs d, exists r, eng_packet_fwd fwd_eng fs d = Done r)
  (Htotal_tx : forall fs d, exists r, eng_packet_fwd tx_eng fs d = Done r).

Lemma core_step_ending k st :
  ending st -> exists st', core_step fwd_eng tx_eng k st = Done st' /\ ending st' /\
    need st' k = pred (need st k) /\ forall k', k' <> k -> need st' k' = need st k'.
Proof.
  intros Hend.
  assert (Hex : exists st', core_step fwd_eng tx_eng k st = Done st').
  { unfold core_step. destruct (rs_jobs st !! k) as [[j|]|] eqn:Hj; [|by eexists..].
    destruct (Hend _ _ Hj) as (lc & -> & Hst & H0 & Hn & Hl). cbn [of_opt mbind outcome_bind].
    destruct (Z.ltb_spec (j_next j) (stream_nb lc)).
    - destruct (zget_is_Some (fwd_streams (pst (rs_fwd st))) (stream_idx lc + j_next j)) as [fs Hfs]; [lia|].
      rewrite Hfs. cbn [of_opt mbind outcome_bind].
      assert (Hr : exists r, eng_packet_fwd (if j_once j then tx_eng else fwd_eng) fs (rs_dev st) = Done r)
        by (destruct (j_once j); auto).
      destruct Hr as [[fs' d'] ->]. cbn [mbind outcome_bind].
      assert (Hz : exists l, zset (fwd_streams (pst (rs_fwd st))) (stream_idx lc + j_next j) fs' = Some l).
      { eexists. apply zset_Some. split; [lia|done]. }
      destruct Hz as [l ->]. cbn. by eexists.
    - rewrite Hst. by eexists. }
  destruct Hex as [st' E]. exists st'. split; [done|]. destruct (core_step_spec _ _ _ E) as [Hw Hs].
  assert (Hk' : forall k', k' <> k -> rs_jobs st' !! k' = rs_jobs st !! k').
  { intros k' Hne. destruct Hs as [_ ->|? ? ? ? ? ->|? ? ? ? ? ? ->|? ? ? ? ? ? ->]; [done|..];
      by apply list_lookup_insert_ne. }
  assert (Hlc : fwd_lcores (rs_fwd st') = fwd_lcores (rs_fwd st)) by apply Hw.
  split; [|split].
  - intros k' j' Hj'. rewrite Hlc, (streams_length _ _ Hw).
    destruct (decide (k' = k)) as [->|Hne]; [|rewrite Hk' in Hj' by done; by apply Hend].
    destruct Hs as [_ ->|j lc Hj Hlc' Hlt Hjobs|j lc Hj Hlc' Hlt Hst Hjobs|j lc Hj Hlc' Hlt Hst Hjobs];
      [by apply Hend|..]; rewrite Hjobs, list_lookup_insert_eq in Hj' by (by eapply lookup_lt_Some); try done;
      injection Hj' as <-; destruct (Hend _ _ Hj) as (lc' & Hlc'' & Hrest); rewrite Hlc' in Hlc''; injection Hlc'' as <-;
      exists lc; (split; [done|]); cbn; [|destruct Hrest; congruence].
    destruct Hrest as (H1 & H2 & H3 & H4). split_and!; (done || lia).
  - unfold need. rewrite Hlc.
    destruct Hs as [Hno ->|j lc Hj Hlc' Hlt Hjobs|j lc Hj Hlc' Hlt Hst Hjobs|j lc Hj Hlc' Hlt Hst Hjobs].
    + destruct (rs_jobs st !! k) as [[j|]|]; [by destruct (Hno j)|done..].
    + rewrite Hjobs, list_lookup_insert_eq, Hj, Hlc' by (by eapply lookup_lt_Some). cbn [j_next]. lia.
    + rewrite Hjobs, list_lookup_insert_eq, Hj, Hlc' by (by eapply lookup_lt_Some). lia.
    + destruct (Hend _ _ Hj) as (lc' & Hlc'' & H1 & _). rewrite Hlc' in Hlc''. injection Hlc'' as <-. congruence.
  - intros k' Hne. unfold need. by rewrite Hlc, Hk' by done.
Qed.

Lemma run_cores_ending sched st :
  ending st -> exists st', run_cores fwd_eng tx_eng sched st = Done st' /\ ending st' /\
    forall k, need st' k = (need st k - count_occ Nat.eq_dec sched k)%nat.
Proof.
  revert st. induction sched as [|k sched IH]; intros st Hend; cbn [run_cores].
  - exists st. split; [done|]. split; [done|]. intros k. cbn. lia.
  - destruct (core_step_ending k st Hend) as (st1 & E1 & Hend1 & Hk & Hne). rewrite E1. cbn [mbind outcome_bind].
    destruct (IH st1 Hend1) as (st' & E' & Hend' & Hn). exists st'. split; [done|]. split; [done|].
    intros k'. rewrite Hn. cbn [count_occ]. destruct (Nat.eq_dec k k') as [<-|]; [rewrite Hk; lia|by rewrite Hne].
Qed.
End Lemmas.

(** ** The streams of the cores are disjoint *)

(** The core of index [k] is about to serve the stream [i]. *)
Definition polls `{Ethdev} (st : run_state) (k : nat) (i : Z) : Prop :=
  exists j lc, rs_jobs st !! k = Some (Some j) /\ fwd_lcores (rs_fwd st) !! k = Some lc /\
    j_next j < stream_nb lc /\ i = stream_idx lc + j_next j.

Lemma elem_of_streams_of l x : x ∈ streams_of l <-> exists lc, lc ∈ l /\ x ∈ seqZ (stream_idx lc) (stream_nb lc).
Proof. unfold streams_of. rewrite list_elem_of_bind. naive_solver. Qed.

Lemma streams_disjoint l k k' a b x :
  NoDup (streams_of l) -> l !! k = Some a -> l !! k' = Some b -> k <> k' ->
  x ∈ seqZ (stream_idx a) (stream_nb a) -> x ∈ seqZ (stream_idx b) (stream_nb b) -> False.
Proof.
  revert k k'. induction l as [|lc l IH]; intros k k' Hnd Ha Hb Hne Hxa Hxb; [done|].
  unfold streams_of in Hnd. cbn in Hnd. apply NoDup_app in Hnd as (_ & Hd & Hnd).
  destruct k as [|k], k' as [|k']; cbn in Ha, Hb; [done|injection Ha as <-|injection Hb as <-|].
  - apply (Hd x Hxa). apply elem_of_streams_of. exists b. split; [by eapply list_elem_of_lookup_2|done].
  - apply (Hd x Hxb). apply elem_of_streams_of. exists a. split; [by eapply list_elem_of_lookup_2|done].
  - eapply (IH k k'); try done. congruence.
Qed.

(** The streams of every core, which the flag to stop does not change. *)
Definition core_streams (l : list fwd_lcore) : list (Z * Z) := (fun lc => (stream_idx lc, stream_nb lc)) <$> l.

Lemma streams_of_core_streams l l' : core_streams l = core_streams l' -> streams_of l = streams_of l'.
Proof.
  revert l'. induction l as [|a l IH]; intros [|b l']; try done. cbn. intros [= E1 E2 E].
  unfold streams_of in *. cbn. rewrite E1, E2. f_equal. by apply IH.
Qed.

Lemma core_streams_take n l l' : core_streams l = core_streams l' -> core_streams (take n l) = core_streams (take n l').
Proof. unfold core_streams. rewrite !fmap_take. congruence. Qed.

Section Launch.
Context `{Ethdev} (fwd_eng tx_eng : engine).

(** Launching changes flags to stop and jobs only. *)
Record launched (st st' : run_state) : Prop := {
  la_streams : core_streams (fwd_lcores (rs_fwd st')) = core_streams (fwd_lcores (rs_fwd st));
  la_cfg : cur_fwd_config (rs_fwd st') = cur_fwd_config (rs_fwd st);
  la_pst : exists l, pst (rs_fwd st') = set_fwd_streams l (pst (rs_fwd st));
  la_routes : route_of <$> fwd_streams (pst (rs_fwd st')) = route_of <$> fwd_streams (pst (rs_fwd st));
  la_stats : rs_stats st' = rs_stats st;
}.

Lemma launched_refl st : launched st st.
Proof. split; try done. apply pst_set_same. Qed.

Lemma launched_trans st1 st2 st3 : launched st1 st2 -> launched st2 st3 -> launched st1 st3.
Proof.
  intros [] []. split; try congruence. destruct la_pst0 as [l1 E1], la_pst1 as [l2 E2].
  exists l2. rewrite E2, E1. done.
Qed.

Lemma workers_launched st st' : workers_only st st' -> launched st st'.
Proof. intros []. split; try done. by rewrite wo_lcores0. Qed.

Lemma on_fwd_ports_launched f st : launched st (on_fwd_ports f st) /\ (jobs_ok st -> jobs_ok (on_fwd_ports f st)).
Proof. destruct f; cbn; (split; [|done]); split; try done; apply pst_set_same. Qed.

Lemma launch_loop_launched n i once cpuids on_core accepts st st' :
  0 <= i -> i + Z.of_nat n <= cfg_lcores (cur_fwd_config (rs_fwd st)) ->
  launch_loop n i once cpuids on_core accepts st = Done st' ->
  launched st st' /\ (jobs_ok st -> jobs_ok st').
Proof.
  revert i st. induction n as [|n IH]; intros i st Hi Hn; cbn [launch_loop].
  { intros [= <-]. split; [apply launched_refl|done]. }
  intros E. apply outcome_bind_Done in E as (cpu & _ & E). apply outcome_bind_Done in E as (st1 & E1 & E).
  assert (H1 : launched st st1 /\ (jobs_ok st -> jobs_ok st1)).
  { destruct (on_core cpu); [|injection E1 as <-; split; [apply launched_refl|done]].
    apply outcome_bind_Done in E1 as (lc & Hlc & E1). apply outcome_bind_Done in E1 as (l & Hl & E1).
    destruct (zget _ i) as [lc'|] eqn:Hg; [|done]. injection Hlc as ->.
    destruct (zset _ i _) as [l'|] eqn:Hz; [|done]. injection Hl as ->. apply zset_Some in Hz as [_ ->].
    apply zget_Some in Hg as [_ Hg].
    assert (Hs : core_streams (<[Z.to_nat i := set_stopped false lc]> (fwd_lcores (rs_fwd st))) =
      core_streams (fwd_lcores (rs_fwd st))).
    { unfold core_streams. rewrite list_fmap_insert. apply list_insert_id. by rewrite list_lookup_fmap, Hg. }
    assert (Hp : exists l, pst (rs_fwd st) = set_fwd_streams l (pst (rs_fwd st))) by apply pst_set_same.
    destruct (accepts cpu); injection E1 as <-; (split; [split; try done|]); [|done].
    intros Hok k j. cbn. destruct (decide (k = Z.to_nat i)) as [->|].
    - destruct (decide (Z.to_nat i < length (rs_jobs st))%nat).
      + rewrite list_lookup_insert_eq by done. intros [= <-]. cbn. lia.
      + rewrite list_insert_ge by lia. apply Hok.
    - rewrite list_lookup_insert_ne by done. apply Hok. }
  destruct H1 as [H1 H1'].
  destruct (IH (i + 1) st1) as [H2 H2']; [lia|rewrite (la_cfg _ _ H1); lia|done|].
  split; [by eapply launched_trans|]. intros Hok. apply H2', H1', Hok.
Qed.

Lemma launch_launched once cpuids on_core accepts st st' :
  launch_packet_forwarding fwd_eng once cpuids on_core accepts st = Done st' ->
  launched st st' /\ (jobs_ok st -> jobs_ok st').
Proof.
  unfold launch_packet_forwarding. destruct (on_fwd_ports_launched (port_fwd_begin fwd_eng) st) as [H1 H1'].
  set (st1 := on_fwd_ports _ st) in *. intros E.
  destruct (Z.ltb_spec (cfg_lcores (cur_fwd_config (rs_fwd st))) 0).
  - rewrite Z2Nat.nonpos in E by lia. cbn in E. injection E as <-. done.
  - destruct (launch_loop_launched (Z.to_nat (cfg_lcores (cur_fwd_config (rs_fwd st)))) 0 once cpuids on_core accepts
      st1 st' ltac:(lia)) as [H2 H2']; [rewrite (la_cfg _ _ H1); lia|done|]. split; [by eapply launched_trans|auto].
Qed.

Lemma start_workers_launched first sched cpuids on_core accepts st st'
    (Hfwd : EngineOk fwd_eng) (Htx : EngineOk tx_eng) :
  start_workers fwd_eng tx_eng first sched cpuids on_core accepts st = Done (Some st') ->
  launched st st' /\ (jobs_ok st -> jobs_ok st').
Proof.
  unfold start_workers. destruct first.
  - intros E. apply outcome_bind_Done in E as (st1 & E1 & E). apply outcome_bind_Done in E as (st2 & E2 & E).
    destruct (on_fwd_ports_launched (port_fwd_begin tx_eng) st) as [H0 H0'].
    destruct (launch_launched _ _ _ _ _ _ E1) as [H1 H1'].
    pose proof (run_cores_only _ _ Hfwd Htx _ _ _ E2) as H2. pose proof (run_cores_jobs_ok _ _ Hfwd Htx _ _ _ E2) as H2'.
    destruct (idleb st2); [|done]. cbn [negb] in E.
    destruct (on_fwd_ports_launched (port_fwd_end tx_eng) st2) as [H3 H3'].
    revert E. destruct (launch_packet_forwarding fwd_eng false cpuids on_core accepts
      (on_fwd_ports (port_fwd_end tx_eng) st2)) as [st4| |] eqn:E4; [|done..].
    cbn. intros [= <-].
    destruct (launch_launched _ _ _ _ _ _ E4) as [H4 H4']. split; [|auto 10].
    eapply launched_trans; [exact H0|]. eapply launched_trans; [exact H1|].
    eapply launched_trans; [by apply workers_launched|]. by eapply launched_trans.
  - destruct (launch_packet_forwarding fwd_eng false cpuids on_core accepts st) as [st4| |] eqn:E4; [|done..]. cbn. intros [= <-].
    by eapply launch_launched.
Qed.
End Launch.

(** ** What [start_prepare] leaves *)

Section Prepare.
Context `{Ethdev} (d : dpdk) (c : config) (nb_fwd_lcores : Z) (topo : topology) (dcb : Z -> dcb_info)
  (icmpecho : bool) (txl rxl : list queue_stats_mappings) (map_answer : list map_call -> Z) (no_flush_rx : bool)
  (flush_fuel : nat) (stats_get : nat -> eth_stats).

(** Resetting the ports changes their statistics and makes calls. *)
Lemma reset_ports_only n i st st' :
  reset_ports c txl rxl map_answer stats_get n i st = Done st' ->
  rs_fwd st' = rs_fwd st /\ rs_jobs st' = rs_jobs st.
Proof.
  revert i st. induction n as [|n IH]; intros i st; cbn [reset_ports]; [by intros [= <-]|].
  intros E. apply outcome_bind_Done in E as (pt & _ & E). apply outcome_bind_Done in E as (p & _ & E).
  apply outcome_bind_Done in E as ([flags calls] & _ & E). apply outcome_bind_Done in E as (l & _ & E).
  by destruct (IH _ _ E) as [-> ->].
Qed.

(** Every forwarding port starts from the counters just read and without
    dropped packets. *)
Definition fresh_port (ids : list Z) (l : list port_stats) (i : nat) : Prop :=
  exists p q, zget ids (Z.of_nat i) = Some p /\ zget l p = Some q /\ stats q = stats_get i /\ ps_tx_dropped q = 0.

Lemma reset_ports_other n i st st' p :
  reset_ports c txl rxl map_answer stats_get n i st = Done st' ->
  (forall k, (i <= k < i + n)%nat -> zget (fwd_ports_ids (pst (rs_fwd st))) (Z.of_nat k) <> Some p) ->
  zget (rs_stats st') p = zget (rs_stats st) p.
Proof.
  revert i st. induction n as [|n IH]; intros i st; cbn [reset_ports]; [by intros [= <-]|].
  intros E Hk. apply outcome_bind_Done in E as (pt & Hpt & E). apply outcome_bind_Done in E as (q & _ & E).
  apply outcome_bind_Done in E as ([flags calls] & _ & E). apply outcome_bind_Done in E as (l & Hl & E).
  destruct (zget _ (Z.of_nat i)) as [pt'|] eqn:Hi; [|done]. injection Hpt as ->.
  rewrite (IH _ _ E). 2: { intros k Hkk. apply Hk. lia. }
  destruct (zset (rs_stats st) pt _) as [l'|] eqn:Hz; [|done]. injection Hl as ->.
  apply zset_Some in Hz as [Hb ->]. cbn. unfold zget. destruct (Z.leb_spec 0 p); [|done].
  apply list_lookup_insert_ne. intros Heq. apply (Hk i ltac:(lia)). rewrite Hi. f_equal. lia.
Qed.

Lemma reset_ports_fresh n i st st' :
  reset_ports c txl rxl map_answer stats_get n i st = Done st' ->
  (forall j k, (i <= j < k)%nat -> (k < i + n)%nat ->
     zget (fwd_ports_ids (pst (rs_fwd st))) (Z.of_nat j) <> zget (fwd_ports_ids (pst (rs_fwd st))) (Z.of_nat k)) ->
  forall k, (i <= k < i + n)%nat -> fresh_port (fwd_ports_ids (pst (rs_fwd st))) (rs_stats st') k.
Proof.
  revert i st. induction n as [|n IH]; intros i st; cbn [reset_ports]; [intros _ _ k; lia|].
  intros E Hd k Hk. apply outcome_bind_Done in E as (pt & Hpt & E). apply outcome_bind_Done in E as (q & _ & E).
  apply outcome_bind_Done in E as ([flags calls] & _ & E). apply outcome_bind_Done in E as (l & Hl & E).
  destruct (zget _ (Z.of_nat i)) as [pt'|] eqn:Hi; [|done]. injection Hpt as ->.
  destruct (zset (rs_stats st) pt _) as [l'|] eqn:Hz; [|done]. injection Hl as ->. apply zset_Some in Hz as [Hb ->].
  destruct (decide (k = i)) as [->|].
  - eexists pt, _. split; [done|]. split; [|split].
    + rewrite (reset_ports_other _ _ _ _ pt E).
      * apply zget_Some. split; [lia|]. cbn. apply list_lookup_insert_eq. lia.
      * intros j Hj Heq. apply (Hd i j); [lia|lia|]. cbn in Heq. by rewrite Hi, Heq.
    + done.
    + done.
  - apply (IH _ _ E); [|lia]. intros j j' Hj Hj'. apply Hd; lia.
Qed.

Lemma start_prepare_spec st st1 :
  start_prepare d c nb_fwd_lcores topo dcb icmpecho txl rxl map_answer no_flush_rx flush_fuel stats_get st =
    Done (Some st1) ->
  exists f st0,
    fwd_config_setup d c nb_fwd_lcores topo dcb icmpecho (with_pst (set_test_done false) (rs_fwd st)) = Done f /\
    rs_fwd st0 = f /\ rs_jobs st0 = rs_jobs st /\
    reset_ports c txl rxl map_answer stats_get (Z.to_nat (cfg_ports (cur_fwd_config f))) 0 st0 =
      Done (set_fwd f st1) /\
    fwd_lcores (rs_fwd st1) = fwd_lcores f /\ cur_fwd_config (rs_fwd st1) = cur_fwd_config f /\
    rs_jobs st1 = rs_jobs st /\
    exists l, reset_streams (nb_fwd_streams (cur_fwd_config f)) (fwd_streams (pst f)) = Done l /\
      pst (rs_fwd st1) = set_fwd_streams l (pst f).
Proof.
  unfold start_prepare. intros E. apply outcome_bind_Done in E as (ok & _ & E). destruct ok; cbn [negb] in E; [|done].
  set (st0 := set_fwd (with_pst (set_test_done false) (rs_fwd st)) st) in *.
  apply outcome_bind_Done in E as (st2 & Hflush & E).
  assert (H2 : rs_fwd st2 = rs_fwd st0 /\ rs_jobs st2 = rs_jobs st0).
  { destruct no_flush_rx; [by injection Hflush as <-|]. unfold flush_fwd_rx_queues in Hflush.
    destruct (flush_queues _ _ _); [|done]. by injection Hflush as <-. }
  destruct H2 as [H2 H2']. rewrite H2 in E. apply outcome_bind_Done in E as (f & Hf & E).
  apply outcome_bind_Done in E as (st3 & Hr & E). apply outcome_bind_Done in E as (l & Hl & [= <-]).
  destruct (reset_ports_only _ _ _ _ Hr) as [H3 H3']. cbn in H3, H3'.
  exists f, (set_fwd f st2). split; [exact Hf|]. split; [done|]. split; [exact H2'|]. split.
  { rewrite Hr. f_equal. destruct st3; cbn in *. by subst. }
  cbn. split; [done|]. split; [done|]. split; [exact (eq_trans H3' H2')|]. by exists l.
Qed.
End Prepare.

(** ** Accounting *)

Definition zsum_of {A} (f : A -> Z) (l : list A) : Z := foldr (fun x s => f x + s) 0 l.

(** The packets that streams dropped on their way to a port. *)
Definition dropped_on (streams : list fwd_stream) (p : Z) : Z :=
  zsum_of (fun fs => if tx_port fs =? p then fwd_dropped fs else 0) streams.

(** Equality modulo 2^64. *)
Definition eq64 (x y : Z) : Prop := u64 x = u64 y.

#[export] Instance eq64_equiv : Equivalence eq64.
Proof. split; unfold eq64; [by intros x|by intros x y ->|by intros x y z -> ->]. Qed.
#[export] Instance eq64_add : Proper (eq64 ==> eq64 ==> eq64) Z.add.
Proof.
  intros x x' Hx y y' Hy. unfold eq64, u64 in *. by rewrite (Zplus_mod x y), Hx, Hy, <- Zplus_mod.
Qed.
Lemma eq64_u64 x : eq64 (u64 x) x.
Proof. unfold eq64, u64. by rewrite Z.mod_mod by lia. Qed.

Lemma upd_stats_spec i f l l' :
  upd_stats i f l = Done l' ->
  exists p, zget l i = Some p /\ zget l' i = Some (f p) /\ forall k, k <> i -> zget l' k = zget l k.
Proof.
  unfold upd_stats. intros E. apply outcome_bind_Done in E as (p & Hp & E).
  destruct (zget l i) as [p'|] eqn:Hi; [|done]. injection Hp as ->.
  destruct (zset l i (f p)) as [l''|] eqn:Hz; [|done]. injection E as <-. apply zset_Some in Hz as [Hb ->].
  exists p. split; [done|]. split.
  - apply zget_Some. split; [lia|]. apply list_lookup_insert_eq. lia.
  - intros k Hk. unfold zget. destruct (Z.leb_spec 0 k); [|done]. apply list_lookup_insert_ne. lia.
Qed.

Lemma account_streams_spec n i unique streams l l' p q :
  0 <= i -> account_streams n i unique streams l = Done l' -> zget l p = Some q ->
  exists q', zget l' p = Some q' /\ stats q' = stats q /\
    eq64 (ps_tx_dropped q') (ps_tx_dropped q + dropped_on (take n (drop (Z.to_nat i) streams)) p).
Proof.
  revert i l q. induction n as [|n IH]; intros i l q Hi; cbn [account_streams].
  { intros [= <-] Hq. exists q. split; [done|]. split; [done|]. cbn. by rewrite Z.add_0_r. }
  intros E Hq. apply outcome_bind_Done in E as (fs & Hfs & E). apply outcome_bind_Done in E as (l1 & E1 & E).
  apply outcome_bind_Done in E as (l2 & E2 & E).
  destruct (zget streams i) as [fs'|] eqn:Hget; [|done]. injection Hfs as ->.
  apply zget_Some in Hget as [_ Hget]. rewrite (drop_S _ _ _ Hget). cbn [take].
  destruct (upd_stats_spec _ _ _ _ E1) as (a & Ha & Ha' & Hao). destruct (upd_stats_spec _ _ _ _ E2) as (b & Hb & Hb' & Hbo).
  (* the port after its updates as transmit and as receive port *)
  assert (H1 : exists q1, zget l1 p = Some q1 /\ stats q1 = stats q /\
    eq64 (ps_tx_dropped q1) (ps_tx_dropped q + if tx_port fs =? p then fwd_dropped fs else 0)).
  { destruct (Z.eqb_spec (tx_port fs) p) as [<-|Hne].
    - rewrite Hq in Ha. injection Ha as <-. eexists. split; [exact Ha'|]. split; [done|]. apply eq64_u64.
    - exists q. rewrite Hao by done. by rewrite Z.add_0_r. }
  destruct H1 as (q1 & Hq1 & Hs1 & Hd1).
  assert (H2 : exists q2, zget l2 p = Some q2 /\ stats q2 = stats q1 /\ ps_tx_dropped q2 = ps_tx_dropped q1).
  { destruct (Z.eq_dec p (rx_port fs)) as [->|Hne].
    - rewrite Hq1 in Hb. injection Hb as <-. eexists. by split; [exact Hb'|].
    - exists q1. by rewrite Hbo. }
  destruct H2 as (q2 & Hq2 & Hs2 & Hd2).
  destruct (IH (i + 1) l2 q2 ltac:(lia) E Hq2) as (q' & Hq' & Hs' & Hd').
  exists q'. split; [done|]. split; [congruence|]. rewrite Hd', Hd2, Hd1.
  replace (Z.to_nat (i + 1)) with (S (Z.to_nat i)) by lia. unfold dropped_on at 2. cbn [zsum_of foldr].
  fold (zsum_of (fun fs => if tx_port fs =? p then fwd_dropped fs else 0) (take n (drop (S (Z.to_nat i)) streams))).
  fold (dropped_on (take n (drop (S (Z.to_nat i)) streams)) p). by rewrite Z.add_assoc.
Qed.

(** The totals when the ports are all different: [get0 k] and [get k] are the
    counters of the k-th port at the start and now. *)
Lemma account_ports_spec n i csum get get0 ids l t reports l' t' reports' (drop_of : Z -> Z) :
  account_ports n i csum get ids l t reports = Done (l', t', reports') ->
  (forall j k, (i <= j < k)%nat -> (k < i + n)%nat -> zget ids (Z.of_nat j) <> zget ids (Z.of_nat k)) ->
  (forall k, (i <= k < i + n)%nat -> exists p q, zget ids (Z.of_nat k) = Some p /\ zget l p = Some q /\
     stats q = get0 k /\ eq64 (ps_tx_dropped q) (drop_of p)) ->
  let ks := seq i n in
  eq64 (total_recv t') (total_recv t + zsum_of (fun k => ipackets (get k) - ipackets (get0 k)) ks) /\
  eq64 (total_xmit t') (total_xmit t + zsum_of (fun k => opackets (get k) - opackets (get0 k)) ks) /\
  eq64 (total_rx_dropped t') (total_rx_dropped t + zsum_of (fun k => imissed (get k) - imissed (get0 k)) ks) /\
  eq64 (total_rx_nombuf t') (total_rx_nombuf t + zsum_of (fun k => rx_nombuf (get k) - rx_nombuf (get0 k)) ks) /\
  eq64 (total_tx_dropped t') (total_tx_dropped t + zsum_of drop_of (take n (drop i ids))).
Proof.
  revert i l t reports. induction n as [|n IH]; intros i l t reports E Hd Hp; cbn [account_ports] in E.
  { injection E as <- <- <-. cbn. by rewrite !Z.add_0_r. }
  destruct (Hp i ltac:(lia)) as (p & q & Hi & Hq & Hst & Hdr).
  rewrite Hi in E. cbn [of_opt mbind outcome_bind] in E. rewrite Hq in E. cbn [of_opt mbind outcome_bind] in E.
  apply outcome_bind_Done in E as (l1 & Hl1 & E). destruct (zset l p _) as [l2|] eqn:Hz; [|done].
  injection Hl1 as ->. apply zset_Some in Hz as [Hb ->].
  apply IH in E.
  - cbn [seq]. cbn [zsum_of foldr]. pose proof Hi as [_ Hi']%zget_Some. rewrite Nat2Z.id in Hi'.
    rewrite (drop_S _ _ _ Hi'). cbn [take foldr]. cbv zeta in E.
    destruct E as (E1 & E2 & E3 & E4 & E5).
    unfold add_totals in *. cbn [total_recv total_xmit total_rx_dropped total_rx_nombuf total_tx_dropped since ipackets opackets imissed rx_nombuf] in *.
    rewrite E1, E2, E3, E4, E5, !eq64_u64, Hst, Hdr. unfold zsum_of.
    rewrite <- !Z.add_assoc. done.
  - intros j k Hj Hk. apply Hd; lia.
  - intros k Hk. destruct (Hp k ltac:(lia)) as (p' & q' & Hk1 & Hk2 & Hk3 & Hk4). exists p', q'. split_and!; try done.
    unfold zget. destruct (Z.leb_spec 0 p'); [|apply zget_Some in Hk2 as [? _]; lia].
    rewrite list_lookup_insert_ne; [by apply zget_Some in Hk2 as [_ ?]|].
    intros Heq. apply (Hd i k ltac:(lia) ltac:(lia)). rewrite Hi, Hk1. f_equal. lia.
Qed.

Definition totals_ok (t : totals) : Prop :=
  u64 (total_recv t) = total_recv t /\ u64 (total_xmit t) = total_xmit t /\
  u64 (total_rx_dropped t) = total_rx_dropped t /\ u64 (total_tx_dropped t) = total_tx_dropped t /\
  u64 (total_rx_nombuf t) = total_rx_nombuf t.

Lemma account_ports_range n i csum get ids l t reports l' t' reports' :
  totals_ok t -> account_ports n i csum get ids l t reports = Done (l', t', reports') -> totals_ok t'.
Proof.
  revert i l t reports. induction n as [|n IH]; intros i l t reports Ht E; cbn [account_ports] in E.
  - by injection E as <- <- <-.
  - apply outcome_bind_Done in E as (p & _ & E). apply outcome_bind_Done in E as (q & _ & E).
    apply outcome_bind_Done in E as (l1 & _ & E). eapply IH; [|exact E].
    unfold totals_ok, add_totals. cbn. by rewrite !eq64_u64.
Qed.

Lemma NoDup_zget (l : list Z) n j k :
  NoDup (take n l) -> (n <= length l)%nat -> (j < k)%nat -> (k < n)%nat ->
  zget l (Z.of_nat j) <> zget l (Z.of_nat k).
Proof.
  intros Hnd Hn Hj Hk E.
  destruct (zget_is_Some l (Z.of_nat j)) as [x Hx]; [lia|]. rewrite Hx in E. symmetry in E.
  apply zget_Some in Hx as [_ Hx], E as [_ Hy]. rewrite Nat2Z.id in Hx, Hy.
  assert (j = k); [|lia]. eapply (NoDup_lookup (take n l)); [done| |]; rewrite lookup_take_lt by lia; done.
Qed.

(** The effect of the signal to stop on the state. *)
Lemma stop_signal_spec `{Ethdev} st st1 :
  stop_signal st = Done (Some st1) ->
  let n := Z.to_nat (cfg_lcores (cur_fwd_config (rs_fwd st))) in
  launched st st1 /\ rs_jobs st1 = rs_jobs st /\ (n <= length (fwd_lcores (rs_fwd st)))%nat /\
  fwd_lcores (rs_fwd st1) = (set_stopped true <$> take n (fwd_lcores (rs_fwd st))) ++ drop n (fwd_lcores (rs_fwd st)) /\
  fwd_streams (pst (rs_fwd st1)) = fwd_streams (pst (rs_fwd st)).
Proof.
  intros E n. unfold stop_signal in E. destruct (negb _); [done|]. destruct (test_done _); [done|]. fold n in E.
  destruct (Nat.leb_spec n (length (fwd_lcores (rs_fwd st)))) as [Hn|]; [|done]. injection E as <-.
  split; [|done]. split; try done; cbn; [|apply pst_set_same].
  transitivity (core_streams (take n (fwd_lcores (rs_fwd st)) ++ drop n (fwd_lcores (rs_fwd st)))).
  - unfold core_streams. by rewrite !fmap_app, <- list_fmap_compose.
  - by rewrite take_drop.
Qed.

(** ** Properties *)

(** C8: outside of DCB mode, while packets are forwarded no two cores ever
    serve the same stream, in whatever order the cores take their steps and
    also during the first burst of txonly; and when the streams of the
    configuration have different receive queues, or transmit queues, no two
    cores use the same queue at the same time, as DPDK requires. *)
Theorem cores_never_share `{Ethdev} e t (He : EngineOk e) (Ht : EngineOk t)
    d c nb_lcores topo dcb icmpecho txl rxl ans nf fuel get0 st st1 st2 st3 first sched0 sched cpuids on_core accepts k k' i i'
    (Hidle : all_idle st) (Hmode : dcb_config (pst (rs_fwd st)) = false)
    (Hlc : 1 <= nb_lcores) (Hlen : nb_lcores <= Z.of_nat (length (fwd_lcores (rs_fwd st)))) (H8 : nb_lcores < 2 ^ 8)
    (Hports : 1 <= nb_fwd_ports (pst (rs_fwd st))) (Hrxq : 1 <= nb_rxq c) (Htxq : 1 <= nb_txq c)
    (Hr16 : nb_rxq c * nb_fwd_ports (pst (rs_fwd st)) + 1 < 2 ^ 16)
    (Ht16 : nb_txq c * nb_fwd_ports (pst (rs_fwd st)) + 1 < 2 ^ 16)
    (Hstart : start_prepare d c nb_lcores topo dcb icmpecho txl rxl ans nf fuel get0 st = Done (Some st1))
    (Hlaunch : start_workers e t first sched0 cpuids on_core accepts st1 = Done (Some st2))
    (Hrun : run_cores e t sched st2 = Done st3)
    (Hk : polls st3 k i) (Hk' : polls st3 k' i') (Hne : k <> k') :
  let n := nb_fwd_streams (cur_fwd_config (rs_fwd st1)) in
  let routes := route_of <$> take (Z.to_nat n) (fwd_streams (pst (rs_fwd st1))) in
  i <> i' /\ (0 <= i < n /\ 0 <= i' < n) /\
  forall fs fs', zget (fwd_streams (pst (rs_fwd st3))) i = Some fs -> zget (fwd_streams (pst (rs_fwd st3))) i' = Some fs' ->
    (NoDup (fst <$> routes) -> (rx_port fs, rx_queue fs) <> (rx_port fs', rx_queue fs')) /\
    (NoDup (snd <$> routes) -> (tx_port fs, tx_queue fs) <> (tx_port fs', tx_queue fs')).
Proof.
  intros n routes. destruct (start_prepare_spec _ _ _ _ _ _ _ _ _ _ _ _ _ _ Hstart) as
    (f & st0 & Hf & _ & _ & _ & Hl1 & Hc1 & Hj1 & _).
  destruct (cores_share_streams d c nb_lcores topo dcb icmpecho (with_pst (set_test_done false) (rs_fwd st)) f) as [Hpart Hcl]; try done.
  rewrite <- Hc1, <- Hl1 in Hpart. fold n in Hpart.
  destruct (start_workers_launched _ _ _ _ _ _ _ _ _ He Ht Hlaunch) as [H2 H2'].
  pose proof (run_cores_only _ _ He Ht _ _ _ Hrun) as H3. pose proof (run_cores_jobs_ok _ _ He Ht _ _ _ Hrun) as H3'.
  pose proof (launched_trans _ _ _ H2 (workers_launched _ _ H3)) as H13.
  assert (Hok : jobs_ok st3).
  { apply H3', H2'. intros k0 j0. rewrite Hj1. intros Hj. unfold all_idle in Hidle.
    rewrite Forall_lookup in Hidle. by specialize (Hidle _ _ Hj). }
  set (m := Z.to_nat (cfg_lcores (cur_fwd_config (rs_fwd st1)))) in *.
  assert (Hpart3 : streams_of (take m (fwd_lcores (rs_fwd st3))) = seqZ 0 n).
  { rewrite <- Hpart. apply streams_of_core_streams, core_streams_take, H13. }
  assert (Hone : forall k0 i0, polls st3 k0 i0 -> exists lc, take m (fwd_lcores (rs_fwd st3)) !! k0 = Some lc /\
    i0 ∈ seqZ (stream_idx lc) (stream_nb lc)).
  { intros k0 i0 (j & lc & Hj & Hlc0 & Hlt & ->). destruct (Hok _ _ Hj) as [Hkm H0].
    rewrite (la_cfg _ _ H13) in Hkm. exists lc. split; [by rewrite lookup_take_lt|]. apply elem_of_seqZ. lia. }
  destruct (Hone _ _ Hk) as (a & Ha & Hia). destruct (Hone _ _ Hk') as (b & Hb & Hib).
  assert (Hin : forall lc x k0, take m (fwd_lcores (rs_fwd st3)) !! k0 = Some lc -> x ∈ seqZ (stream_idx lc) (stream_nb lc) -> 0 <= x < n).
  { intros lc x k0 Hlc0 Hx. assert (Hx' : x ∈ streams_of (take m (fwd_lcores (rs_fwd st3)))).
    { apply elem_of_streams_of. exists lc. split; [by eapply list_elem_of_lookup_2|done]. }
    rewrite Hpart3 in Hx'. apply elem_of_seqZ in Hx'. lia. }
  assert (Hii : i <> i').
  { intros <-. eapply (streams_disjoint (take m (fwd_lcores (rs_fwd st3)))); [|exact Ha|exact Hb|done..].
    rewrite Hpart3. apply NoDup_seqZ. }
  split; [done|]. split; [split; [exact (Hin _ _ _ Ha Hia)|exact (Hin _ _ _ Hb Hib)]|]. intros fs fs' Hfs Hfs'.
  assert (Hroute : forall x gs, 0 <= x < n -> zget (fwd_streams (pst (rs_fwd st3))) x = Some gs ->
    routes !! Z.to_nat x = Some (route_of gs)).
  { intros x gs Hx [_ Hgs]%zget_Some. unfold routes. rewrite fmap_take, <- (la_routes _ _ H13), lookup_take_lt by lia.
    by rewrite list_lookup_fmap, Hgs. }
  pose proof (Hroute i fs (Hin _ _ _ Ha Hia) Hfs) as R. pose proof (Hroute i' fs' (Hin _ _ _ Hb Hib) Hfs') as R'.
  pose proof (Hin _ _ _ Ha Hia). pose proof (Hin _ _ _ Hb Hib).
  split; intros Hnd Heq; apply Hii, Z2Nat.inj; try lia; (eapply NoDup_lookup; [exact Hnd| |]);
    rewrite list_lookup_fmap, ?R, ?R'; cbn; [done|by rewrite Heq|done|by rewrite Heq].
Qed.

(** C11: once the cores are told to stop, every schedule that lets each of
    them take one step more than it has streams ends all workers, when the
    engines return: [stop_packet_forwarding] does not wait forever. *)
Theorem stop_terminates `{Ethdev} e t (He : EngineOk e) (Ht : EngineOk t) st st1 sched
    (Htotal : forall fs d, exists r, eng_packet_fwd e fs d = Done r)
    (Htotal' : forall fs d, exists r, eng_packet_fwd t fs d = Done r)
    (Hok : jobs_ok st) (Hstop : stop_signal st = Done (Some st1))
    (Hstreams : Forall (fun lc => 0 <= stream_idx lc /\
       stream_idx lc + stream_nb lc <= Z.of_nat (length (fwd_streams (pst (rs_fwd st))))) (fwd_lcores (rs_fwd st)))
    (Hsched : forall k lc, fwd_lcores (rs_fwd st) !! k = Some lc ->
       (S (Z.to_nat (stream_nb lc)) <= count_occ Nat.eq_dec sched k)%nat) :
  exists st', run_cores e t sched st1 = Done st' /\ all_idle st' /\ workers_only st1 st'.
Proof.
  destruct (stop_signal_spec _ _ Hstop) as (_ & Hj & Hn & Hl & Hs).
  set (n := Z.to_nat (cfg_lcores (cur_fwd_config (rs_fwd st)))) in *.
  assert (Hlook : forall k lc, (k < n)%nat -> fwd_lcores (rs_fwd st) !! k = Some lc ->
    fwd_lcores (rs_fwd st1) !! k = Some (set_stopped true lc)).
  { intros k lc Hk Hlc. rewrite Hl, lookup_app_l by (rewrite length_fmap, length_take; lia).
    by rewrite list_lookup_fmap, lookup_take_lt, Hlc by lia. }
  assert (Hend : ending st1).
  { intros k j. rewrite Hj. intros Hkj. destruct (Hok _ _ Hkj) as [Hk H0]. fold n in Hk.
    destruct (lookup_lt_is_Some_2 (fwd_lcores (rs_fwd st)) k ltac:(lia)) as [lc Hlc].
    exists (set_stopped true lc). rewrite Forall_lookup in Hstreams. destruct (Hstreams _ _ Hlc).
    rewrite Hs. cbn. split; [by apply Hlook|]. split; [apply orb_true_r|]. done. }
  destruct (run_cores_ending e t He Ht Htotal Htotal' sched st1 Hend) as (st' & E & Hend' & Hneed).
  exists st'. split; [done|]. split; [|by apply (run_cores_only e t He Ht sched)].
  apply Forall_lookup. intros k [j|] Hkj; [exfalso|done].
  destruct (Hend' _ _ Hkj) as (lc' & Hlc' & _). specialize (Hneed k).
  assert (Hpos : (0 < need st' k)%nat) by (unfold need; rewrite Hkj, Hlc'; lia).
  unfold need at 2 in Hneed. rewrite Hj in Hneed.
  destruct (rs_jobs st !! k) as [[j0|]|] eqn:Hkj0; [|lia..]. destruct (Hok _ _ Hkj0) as [Hk H0]. fold n in Hk.
  destruct (lookup_lt_is_Some_2 (fwd_lcores (rs_fwd st)) k ltac:(lia)) as [lc Hlc].
  rewrite (Hlook k lc Hk Hlc) in Hneed. cbn [stream_nb set_stopped] in Hneed.
  specialize (Hsched k lc Hlc). lia.
Qed.

(** What an accounting of a state with fresh ports gives. *)
Lemma stop_account_totals `{Ethdev} e csum get get0 st st' t reports :
  let ids := fwd_ports_ids (pst (rs_fwd st)) in
  let n := Z.to_nat (cfg_ports (cur_fwd_config (rs_fwd st))) in
  let streams := take (Z.to_nat (nb_fwd_streams (cur_fwd_config (rs_fwd st)))) (fwd_streams (pst (rs_fwd st))) in
  (forall k, (k < n)%nat -> fresh_port get0 ids (rs_stats st) k) ->
  NoDup (take n ids) -> (n <= length ids)%nat ->
  stop_account e csum get st = Done (st', t, reports) ->
  test_done (pst (rs_fwd st')) = true /\
  total_recv t = u64 (zsum_of (fun k => ipackets (get k) - ipackets (get0 k)) (seq 0 n)) /\
  total_xmit t = u64 (zsum_of (fun k => opackets (get k) - opackets (get0 k)) (seq 0 n)) /\
  total_rx_dropped t = u64 (zsum_of (fun k => imissed (get k) - imissed (get0 k)) (seq 0 n)) /\
  total_rx_nombuf t = u64 (zsum_of (fun k => rx_nombuf (get k) - rx_nombuf (get0 k)) (seq 0 n)) /\
  total_tx_dropped t = u64 (zsum_of (dropped_on streams) (take n ids)).
Proof.
  intros ids n streams Hfresh Hnd Hlen E. unfold stop_account in E.
  assert (Hf : rs_fwd (on_fwd_ports (port_fwd_end e) st) = rs_fwd st /\ rs_stats (on_fwd_ports (port_fwd_end e) st) = rs_stats st)
    by by destruct (port_fwd_end e).
  destruct Hf as [Hf1 Hf2]. rewrite Hf1, Hf2 in E. fold ids n in E.
  apply outcome_bind_Done in E as (l & Hl & E). apply outcome_bind_Done in E as ([[l' t'] reports'] & Ha & [= <- <- <-]).
  assert (H0 : totals_ok (Totals 0 0 0 0 0)) by (by repeat split).
  pose proof (account_ports_range _ _ _ _ _ _ _ _ _ _ _ H0 Ha) as (R1 & R2 & R3 & R4 & R5).
  apply (account_ports_spec n 0 csum get get0 ids l (Totals 0 0 0 0 0) [] l' t' reports' (dropped_on streams)) in Ha.
  - cbn [total_recv total_xmit total_rx_dropped total_rx_nombuf total_tx_dropped drop] in Ha. rewrite !Z.add_0_l in Ha.
    destruct Ha as (A1 & A2 & A3 & A4 & A5). split; [done|].
    rewrite <- R1, <- R2, <- R3, <- R4, <- R5. split_and!; [exact A1|exact A2|exact A3|exact A4|exact A5].
  - intros j k Hj Hk. apply (NoDup_zget ids n); [done|done|lia|lia].
  - intros k Hk. destruct (Hfresh k ltac:(lia)) as (p & q & Hp & Hq & Hs & Hd). exists p.
    destruct (account_streams_spec _ 0 _ _ _ _ p q ltac:(lia) Hl Hq) as (q' & Hq' & Hs' & Hd').
    exists q'. split_and!; [done|done|congruence|]. rewrite Hd', Hd. cbn [Z.to_nat drop]. rewrite Z.add_0_l. done.
Qed.

(** C13: the accumulated statistics that stopping prints are those of the
    session: packets received, sent and missed are the differences of the
    devices' counters since the start, summed over the forwarding ports, and
    packets dropped in transmission are those the streams dropped on their
    way to these ports, whatever the cores did in between. *)
Theorem session_totals `{Ethdev} e t (He : EngineOk e) (Ht : EngineOk t)
    d c nb_lcores topo dcb icmpecho txl rxl ans nf fuel get0 get csum st st1 st2 st3 st4 st5 st6
    first sched0 sched sched' cpuids on_core accepts total reports
    (Hstart : start_prepare d c nb_lcores topo dcb icmpecho txl rxl ans nf fuel get0 st = Done (Some st1))
    (Hlaunch : start_workers e t first sched0 cpuids on_core accepts st1 = Done (Some st2))
    (Hrun : run_cores e t sched st2 = Done st3)
    (Hstop : stop_signal st3 = Done (Some st4))
    (Hrun' : run_cores e t sched' st4 = Done st5)
    (Hacc : stop_account e csum get st5 = Done (st6, total, reports))
    (n := Z.to_nat (cfg_ports (cur_fwd_config (rs_fwd st1)))) (ids := fwd_ports_ids (pst (rs_fwd st1)))
    (Hids : NoDup (take n ids)) (Hn : (n <= length ids)%nat) :
  let streams := take (Z.to_nat (nb_fwd_streams (cur_fwd_config (rs_fwd st1)))) (fwd_streams (pst (rs_fwd st5))) in
  test_done (pst (rs_fwd st6)) = true /\
  total_recv total = u64 (zsum_of (fun k => ipackets (get k) - ipackets (get0 k)) (seq 0 n)) /\
  total_xmit total = u64 (zsum_of (fun k => opackets (get k) - opackets (get0 k)) (seq 0 n)) /\
  total_rx_dropped total = u64 (zsum_of (fun k => imissed (get k) - imissed (get0 k)) (seq 0 n)) /\
  total_rx_nombuf total = u64 (zsum_of (fun k => rx_nombuf (get k) - rx_nombuf (get0 k)) (seq 0 n)) /\
  total_tx_dropped total = u64 (zsum_of (dropped_on streams) (take n ids)).
Proof.
  destruct (start_prepare_spec _ _ _ _ _ _ _ _ _ _ _ _ _ _ Hstart) as
    (f & st0 & _ & Hst0 & _ & Hreset & _ & Hc1 & _ & l & _ & Hp1).
  destruct (start_workers_launched _ _ _ _ _ _ _ _ _ He Ht Hlaunch) as [H2 _].
  pose proof (workers_launched _ _ (run_cores_only _ _ He Ht _ _ _ Hrun)) as H3.
  destruct (stop_signal_spec _ _ Hstop) as (H4 & _).
  pose proof (workers_launched _ _ (run_cores_only _ _ He Ht _ _ _ Hrun')) as H5.
  assert (H15 : launched st1 st5).
  { eapply launched_trans; [exact H2|]. eapply launched_trans; [exact H3|]. by eapply launched_trans. }
  assert (Hids5 : fwd_ports_ids (pst (rs_fwd st5)) = ids) by (destruct (la_pst _ _ H15) as [l5 ->]; done).
  assert (Hids0 : fwd_ports_ids (pst f) = ids) by (unfold ids; rewrite Hp1; done).
  pose proof (stop_account_totals e csum get get0 st5 st6 total reports) as Hres. cbv zeta in Hres.
  rewrite (la_cfg _ _ H15), Hids5 in Hres. fold n in Hres. apply Hres; try done.
  intros k Hk. rewrite (la_stats _ _ H15).
  pose proof (reset_ports_fresh _ _ _ _ _ _ _ _ _ Hreset) as Hfresh. rewrite Hst0, Hids0, <- Hc1 in Hfresh. fold n in Hfresh.
  change (rs_stats st1) with (rs_stats (set_fwd f st1)). apply Hfresh; [|lia].
  intros j k' Hj Hk'. apply (NoDup_zget ids n); [done|done|lia|lia].
Qed.

(** ** Examples

    Two started ports that forward to each other, on two cores, with a
    device that gives five packets and takes two at a time. *)

#[local] Existing Instance sample_ethdev.

Definition sample_io : engine := std_engine 4 [] [] 0 Io.
Definition sample_io_ok : EngineOk sample_io := std_engine_ok 4 [] [] 0 Io.
Definition no_stats : eth_stats := EthStats 0 0 0 0 0 0 0 0.
Definition sample_port_stats : port_stats := PortStats no_stats 7 0 0 None None (false, false).

Definition sample_run : run_state :=
  RunState
    (FwdState (PState [sample_port STARTED; sample_port STARTED] 2 2 2 [0; 1] [] true false false [])
       [FwdLcore 0 0 true; FwdLcore 0 0 true] (FwdCfg 0 0 0))
    [sample_port_stats; sample_port_stats] (sample_mbuf <$> [1; 2; 3; 4; 5]) [None; None] [].

Definition no_dcb : Z -> dcb_info := fun _ => DcbInfo 0 (fun _ _ => (0, 0)) (fun _ _ => (0, 0)).
Definition get_start (k : nat) : eth_stats := EthStats (10 + Z.of_nat k) 20 0 0 0 0 0 0.
Definition get_stop (k : nat) : eth_stats := EthStats (15 + Z.of_nat k) 22 0 0 1 0 0 0.

Definition state_of (o : outcome (option run_state)) : run_state :=
  match o with Done (Some s) => s | _ => sample_run end.
Definition run_of (o : outcome run_state) : run_state := match o with Done s => s | _ => sample_run end.

Definition ss1 : run_state :=
  state_of (start_prepare sample_dpdk (sample_config 255) 2 PAIRED no_dcb false [] [] (fun _ => 0) true 3 get_start sample_run).
Definition ss2 : run_state :=
  state_of (start_workers sample_io sample_io true [0; 1; 1; 0]%nat [5; 6] (fun _ => true) (fun _ => true) ss1).
Definition ss3 : run_state := run_of (run_cores sample_io sample_io [0; 0; 1; 0; 0]%nat ss2).
Definition ss4 : run_state := state_of (stop_signal ss3).
Definition ss5 : run_state := run_of (run_cores sample_io sample_io [0; 1; 1; 0]%nat ss4).

(** The first steps after the launch. *)
Definition sp : run_state := run_of (run_cores sample_io sample_io [0; 0]%nat ss2).

Lemma cores_never_share_witness : polls sp 0 0 /\ polls sp 1 1 /\ (0 : Z) <> 1.
Proof.
  assert (P0 : polls sp 0 0) by (exists (Job false 0), (FwdLcore 0 1 false); vm_compute; repeat split).
  assert (P1 : polls sp 1 1) by (exists (Job false 0), (FwdLcore 1 1 false); vm_compute; repeat split).
  split; [exact P0|]. split; [exact P1|].
  refine (proj1 (cores_never_share sample_io sample_io sample_io_ok sample_io_ok sample_dpdk (sample_config 255) 2 PAIRED no_dcb false [] []
    (fun _ => 0) true 3 get_start sample_run ss1 ss2 sp true [0; 1; 1; 0]%nat [0; 0]%nat [5; 6] (fun _ => true)
    (fun _ => true) 0 1 0 1 _ _ _ _ _ _ _ _ _ _ _ _ _ P0 P1 _)); try (vm_compute; reflexivity); try (cbn; lia).
  unfold all_idle. cbn. repeat constructor.
Defined.

Lemma sample_io_total fs d : exists r, eng_packet_fwd sample_io fs d = Done r.
Proof.
  unfold sample_io, std_engine. cbn [eng_packet_fwd packet_fwd]. unfold pkt_burst_io_forward.
  destruct (rx_burst d (rx_port fs) (rx_queue fs) 4) as [pkts d1].
  destruct (length pkts =? 0)%nat; [by eexists|].
  destruct (tx_burst d1 _ _ _). by eexists.
Qed.

Lemma stop_terminates_witness :
  exists st', run_cores sample_io sample_io [0; 1; 1; 0]%nat ss4 = Done st' /\ all_idle st'.
Proof.
  destruct (stop_terminates sample_io sample_io sample_io_ok sample_io_ok ss3 ss4 [0; 1; 1; 0]%nat) as (st' & E & Hi & _).
  - exact sample_io_total.
  - exact sample_io_total.
  - intros k j. destruct k as [|[|k]]; vm_compute; intros [= <-]; split; try discriminate; lia.
  - vm_compute. reflexivity.
  - vm_compute. repeat constructor; discriminate.
  - intros k lc. destruct k as [|[|k]]; vm_compute; intros [= <-]; cbn; lia.
  - exists st'. split; [exact E|exact Hi].
Defined.

Lemma session_totals_witness :
  match stop_account sample_io false get_stop ss5 with
  | Done (_, total, _) => total_recv total = 10 /\ total_tx_dropped total = 2
  | _ => False
  end.
Proof.
  destruct (stop_account sample_io false get_stop ss5) as [[[st6 total] reports]| |] eqn:E;
    [|vm_compute in E; discriminate E..].
  destruct (session_totals sample_io sample_io sample_io_ok sample_io_ok sample_dpdk (sample_config 255) 2 PAIRED no_dcb false [] []
    (fun _ => 0) true 3 get_start get_stop false sample_run ss1 ss2 ss3 ss4 ss5 st6 true [0; 1; 1; 0]%nat
    [0; 0; 1; 0; 0]%nat [0; 1; 1; 0]%nat [5; 6] (fun _ => true) (fun _ => true) total reports) as (_ & H1 & _ & _ & _ & H2).
  - vm_compute. reflexivity.
  - vm_compute. reflexivity.
  - vm_compute. reflexivity.
  - vm_compute. reflexivity.
  - vm_compute. reflexivity.
  - exact E.
  - apply (bool_decide_unpack _). vm_compute. exact I.
  - vm_compute. lia.
  - rewrite H1, H2. split; vm_compute; reflexivity.
Defined.
