(* ===== verification/FwdSession.v ===== *)
(** * test-pmd: the session as a state machine

    What the commands that start and stop ports and forwarding promise, as an
    abstract machine: the state is whether packets are forwarded, and of
    every port its status and whether it is enabled and a slave.  A step is
    labelled by what was asked of the program and by what the devices
    answered, and but for that the machine is deterministic.  The theorem is
    that PortState.v and FwdRun.v implement it, for every behaviour of the
    devices and every interleaving of the cores. *)

From Stdlib Require Import Sorted.
From stdpp Require Import relations sorting.
From S2P Require Import Prelude Packet FwdEngines PortConf PortState CoreConf QueueMap FwdConfig FwdRun.

(** ** The abstract machine *)

Record pview : Type := PView { v_status : status; v_enabled : bool; v_slave : bool }.

Record spec : Type := Spec { forwarding : bool; view_ports : list pview }.

(** What happens in a session.  [EvStart] carries the number given, whether
    the command succeeded, the ports whose devices were asked to start and
    which of them did, whether something was refused (the configuration of a
    device or of a queue, or more queues than a device has), and the ports
    whose rings are put where no memory pool is.  [EvStop] and [EvClose]
    carry the ports whose devices were asked, [EvAttach] the port that DPDK
    has for the device, and [EvDetach] whether DPDK lets it go. *)
Inductive event : Type :=
| EvStart (pid : Z) (ok : bool) (answers : list (Z * bool)) (refused : bool) (no_pool : Z -> bool)
| EvStop (pid : Z) (asked : list Z)
| EvClose (pid : Z) (asked : list Z)
| EvAttach (answer : option Z)
| EvDetach (pid : Z) (answer : bool)
| EvSlave (pid : Z) (b : bool)
| EvBegin
| EvEnd
| EvCore.

(** The ports a command is for. *)
Definition chosen (pid : Z) (i : nat) : Prop := pid = Z.of_nat i \/ pid = RTE_PORT_ALL.

#[export] Instance chosen_dec pid i : Decision (chosen pid i).
Proof. unfold chosen. apply _. Defined.

Definition v_set (s : status) (v : pview) : pview := PView s (v_enabled v) (v_slave v).

(** A port that a command takes up when it is in the status [from]. *)
Definition concerned (from : status) (pid : Z) (i : nat) (v : pview) : Prop :=
  chosen pid i /\ v_enabled v = true /\ v_status v = from.

#[export] Instance concerned_dec from pid i v : Decision (concerned from pid i v).
Proof. unfold concerned. apply _. Defined.

(** The effect of stopping and closing on the port of index [i]. *)
Definition move_status (from to : status) (pid : Z) (i : nat) (v : pview) : pview :=
  if decide (concerned from pid i v) then v_set to v else v.

(** The devices asked are those of the ports concerned, each once. *)
Definition all_asked (from : status) (pid : Z) (asked : list Z) (l : list pview) : Prop :=
  NoDup asked /\ forall z, z ∈ asked <-> exists i v, z = Z.of_nat i /\ l !! i = Some v /\ concerned from pid i v.

(** Starting: only devices of stopped ports are asked, each once, and the
    ports whose devices started are started. *)
Definition asked_stopped (pid : Z) (answers : list (Z * bool)) (l : list pview) : Prop :=
  NoDup answers.*1 /\
  forall z, z ∈ answers.*1 -> exists i v, z = Z.of_nat i /\ l !! i = Some v /\ concerned STOPPED pid i v.

Definition start_effect (answers : list (Z * bool)) (i : nat) (v : pview) : pview :=
  if decide ((Z.of_nat i, true) ∈ answers) then v_set STARTED v else v.

Definition answered_below (pid : Z) (answers : list (Z * bool)) (j : nat) (l : list pview) : Prop :=
  forall i v, (i < j)%nat -> l !! i = Some v -> concerned STOPPED pid i v -> Z.of_nat i ∈ answers.*1.

Definition all_started (l : list pview) : Prop :=
  forall i v, l !! i = Some v -> v_enabled v = true -> v_status v = STARTED \/ v_slave v = true.

Definition detachable (pid : Z) (l : list pview) : Prop :=
  exists v, zget l pid = Some v /\ (v_enabled v = true \/ pid = RTE_PORT_ALL) /\ v_status v = CLOSED.

(** A start that fails without a refusal leaves the first port that was not
    asked half-way. *)
Inductive spec_step : event -> spec -> spec -> Prop :=
| spec_start_busy pid r np l : spec_step (EvStart pid false [] r np) (Spec true l) (Spec true l)
| spec_start pid answers r np l :
    asked_stopped pid answers l -> answered_below pid answers (length l) l ->
    spec_step (EvStart pid true answers r np) (Spec false l) (Spec false (imap (start_effect answers) l))
| spec_start_refused pid answers np l :
    asked_stopped pid answers l ->
    spec_step (EvStart pid false answers true np) (Spec false l) (Spec false (imap (start_effect answers) l))
| spec_start_stuck pid answers np l j v :
    asked_stopped pid answers l -> answered_below pid answers j l ->
    l !! j = Some v -> concerned STOPPED pid j v -> Z.of_nat j ∉ answers.*1 -> np (Z.of_nat j) = true ->
    spec_step (EvStart pid false answers false np) (Spec false l)
      (Spec false (<[j := v_set HANDLING v]> (imap (start_effect answers) l)))
| spec_stop pid asked l :
    all_asked STARTED pid asked l ->
    spec_step (EvStop pid asked) (Spec false l) (Spec false (imap (move_status STARTED STOPPED pid) l))
| spec_close pid asked l :
    all_asked STOPPED pid asked l ->
    spec_step (EvClose pid asked) (Spec false l) (Spec false (imap (move_status STOPPED CLOSED pid) l))
| spec_stop_busy pid l : spec_step (EvStop pid []) (Spec true l) (Spec true l)
| spec_close_busy pid l : spec_step (EvClose pid []) (Spec true l) (Spec true l)
| spec_attach pi l v : zget l pi = Some v ->
    spec_step (EvAttach (Some pi)) (Spec false l) (Spec false (<[Z.to_nat pi := PView STOPPED true (v_slave v)]> l))
| spec_attach_not a s : a = None \/ forwarding s = true -> spec_step (EvAttach a) s s
| spec_detach pid b l v : zget l pid = Some v -> detachable pid l ->
    spec_step (EvDetach pid true) (Spec b l) (Spec b (<[Z.to_nat pid := PView CLOSED false (v_slave v)]> l))
| spec_detach_not pid a s : a = false \/ ~ detachable pid (view_ports s) -> spec_step (EvDetach pid a) s s
| spec_slave pid b f l :
    spec_step (EvSlave pid b) (Spec f l) (Spec f (alter (fun v => PView (v_status v) (v_enabled v) b) (Z.to_nat pid) l))
| spec_begin l : all_started l -> spec_step EvBegin (Spec false l) (Spec true l)
| spec_end l : all_started l -> spec_step EvEnd (Spec true l) (Spec false l)
| spec_core s : spec_step EvCore s s.

(** Executions with the events in their order. *)
Inductive trace {S : Type} (step : event -> S -> S -> Prop) : list event -> S -> S -> Prop :=
| trace_nil s : trace step [] s s
| trace_cons e es s1 s2 s3 : step e s1 s2 -> trace step es s2 s3 -> trace step (e :: es) s1 s3.

(** ** The concrete machine *)

(** The view of the concrete state. *)
Definition view (p : rte_port) : pview := PView (port_status p) (enabled p) (slave_flag p).
Definition views (st : pstate) : list pview := view <$> ports st.
Definition abs (st : pstate) : spec := Spec (negb (test_done st)) (views st).
Definition abs_state `{Ethdev} (st : run_state) : spec := abs (pst (rs_fwd st)).

(** The calls that a command added, latest first. *)
Definition new_calls (st st' : pstate) : list dpdk_call :=
  take (length (calls st') - length (calls st)) (calls st').

(** What the devices said to the calls [new] after [old]: to starting, and
    whether one refused a configuration. *)
Fixpoint start_answers (d : dpdk) (new old : list dpdk_call) : list (Z * bool) :=
  match new with
  | [] => []
  | DevStart pi :: new' => (pi, negb (diag d (DevStart pi :: new' ++ old) <? 0)) :: start_answers d new' old
  | _ :: new' => start_answers d new' old
  end.

Definition is_setup (c : dpdk_call) : bool :=
  match c with DevConfigure _ _ _ _ | TxQueueSetup _ _ _ _ _ | RxQueueSetup _ _ _ _ _ _ => true | _ => false end.

Fixpoint refused (d : dpdk) (new old : list dpdk_call) : bool :=
  match new with
  | [] => false
  | c :: new' => is_setup c && negb (diag d (c :: new' ++ old) =? 0) || refused d new' old
  end.

Definition asked_stop (new : list dpdk_call) : list Z :=
  omap (fun c => match c with DevStop pi => Some pi | _ => None end) new.
Definition asked_close (new : list dpdk_call) : list Z :=
  omap (fun c => match c with DevClose pi => Some pi | _ => None end) new.

(** Whether more queues are asked for than an enabled port has, and whether
    the socket of a port's receive rings has no memory pool. *)
Definition too_few_queues (c : config) (st : pstate) : bool :=
  existsb (fun pi => match zget (ports st) pi with
                     | Some p => (max_rx_queues (info p) <? nb_rxq c) || (max_tx_queues (info p) <? nb_txq c)
                     | None => false
                     end) (port_ids (ports st)).
Definition no_pool (d : dpdk) (c : config) (pi : Z) : bool :=
  numa_support c && negb (rxring_numa c pi =? NUMA_NO_CONFIG) && negb (mbuf_pool_find d (rxring_numa c pi)).

(** What happens when the command [o] leads from [st] to [st']. *)
Definition op_event (d : dpdk) (c : config) (o : port_op) (st st' : pstate) : event :=
  let new := new_calls st st' in
  match o with
  | OpStart pid =>
      EvStart pid ((start_port d c pid st).1 =? 0) (start_answers d new (calls st))
        (too_few_queues c st || refused d new (calls st)) (no_pool d c)
  | OpStop pid => EvStop pid (asked_stop new)
  | OpClose pid => EvClose pid (asked_close new)
  | OpAttach name =>
      EvAttach (name ← name; let l := DevAttach name :: calls st in
                if diag d l =? 0 then Some (attached_port d l) else None)
  | OpDetach pid => EvDetach pid (diag d (DevDetach pid :: calls st) =? 0)
  | OpSlave pid b => EvSlave pid b
  end.

Section Steps.
Context `{Ethdev} (d : dpdk) (fwd_eng tx_eng : engine).

(** A step of the session: a command, or a step of a core.  The commands to
    start and to stop forwarding return when the cores have done what they
    wait for. *)
Inductive session_step : event -> run_state -> run_state -> Prop :=
| step_port c o st ps' :
    run_op d (pst (rs_fwd st)) (c, o) = Done ps' ->
    session_step (op_event d c o (pst (rs_fwd st)) ps') st (set_fwd (with_pst (fun _ => ps') (rs_fwd st)) st)
| step_start c nb_lcores topo dcb icmpecho txl rxl ans nf fuel get0 first sched cpuids on_core accepts st st1 st2 :
    start_prepare d c nb_lcores topo dcb icmpecho txl rxl ans nf fuel get0 st = Done (Some st1) ->
    start_workers fwd_eng tx_eng first sched cpuids on_core accepts st1 = Done (Some st2) ->
    session_step EvBegin st st2
| step_core k st st' : core_step fwd_eng tx_eng k st = Done st' -> session_step EvCore st st'
| step_stop csum get sched st st1 st2 st3 total reports :
    stop_signal st = Done (Some st1) -> run_cores fwd_eng tx_eng sched st1 = Done st2 -> idleb st2 = true ->
    stop_account fwd_eng csum get st2 = Done (st3, total, reports) -> session_step EvEnd st st3.
End Steps.

(** ** Lemmas on views *)

Lemma views_upd i f st : (forall p, view (f p) = view p) -> views (upd_port i f st) = views st.
Proof.
  intros Hf. unfold views, upd_port. cbn. rewrite (list_fmap_alter _ _ id).
  - by rewrite list_alter_id.
  - apply Forall_forall. intros p _. apply Hf.
Qed.

Lemma views_status i s st : views (upd_port i (with_status s) st) = alter (v_set s) (Z.to_nat i) (views st).
Proof. unfold views, upd_port. cbn. apply (list_fmap_alter _ _ (v_set s)). by apply Forall_forall. Qed.

Lemma zget_views st i : zget (views st) i = view <$> zget (ports st) i.
Proof. unfold zget, views. destruct (0 <=? i); [apply list_lookup_fmap|done]. Qed.

(** Taking a port from one status to another. *)
Definition switched (from to : status) (i : Z) (l : list pview) : list pview :=
  match zget l i with
  | Some v => if decide (v_status v = from) then alter (v_set to) (Z.to_nat i) l else l
  | None => l
  end.

Lemma views_cmpset i e n st :
  views (cmpset i e n st).2 = switched e n i (views st) /\
  (cmpset i e n st).1 = (match zget (views st) i with Some v => bool_decide (v_status v = e) | None => false end).
Proof.
  unfold cmpset, switched. rewrite zget_views. destruct (zget (ports st) i) as [p|]; [|done].
  cbn [fmap option_fmap option_map view v_status].
  destruct (decide (port_status p = e)); cbn [fst snd]; [|by rewrite bool_decide_false].
  rewrite views_status. by rewrite bool_decide_true.
Qed.

Lemma switched_lookup from to i l k :
  switched from to i l !! k =
    (fun v => if decide (Z.of_nat k = i /\ v_status v = from) then v_set to v else v) <$> l !! k.
Proof.
  unfold switched, zget. destruct (Z.leb_spec 0 i).
  2: { destruct (l !! k); cbn; [|done]. rewrite decide_False by lia. done. }
  destruct (decide (Z.of_nat k = i)) as [<-|Hne].
  - rewrite Nat2Z.id. destruct (l !! k) as [v|] eqn:Hk; cbn; [|done].
    destruct (decide (v_status v = from)); [|by rewrite decide_False by naive_solver].
    rewrite decide_True by done. by rewrite list_lookup_alter_eq, Hk.
  - assert (E : l !! k = (fun v => if decide (Z.of_nat k = i /\ v_status v = from) then v_set to v else v) <$> l !! k).
    { destruct (l !! k); cbn; [|done]. by rewrite decide_False by naive_solver. }
    rewrite <- E. destruct (l !! Z.to_nat i) as [v|]; [|done]. destruct (decide _); [|done].
    apply list_lookup_alter_ne. lia.
Qed.

Lemma switched_length from to i l : length (switched from to i l) = length l.
Proof. unfold switched. destruct (zget l i); [|done]. destruct (decide _); [apply length_alter|done]. Qed.

(** Through the state of being handled. *)
Lemma switched_twice mid from to i l v :
  zget l i = Some v -> v_status v = from -> switched mid to i (switched from mid i l) = switched from to i l.
Proof.
  intros Hv Hs. apply list_eq. intros k. rewrite !switched_lookup.
  destruct (l !! k) as [w|] eqn:Hk; cbn; [|done]. f_equal.
  destruct (decide (Z.of_nat k = i)) as [<-|].
  - apply zget_Some in Hv as [_ Hv]. rewrite Nat2Z.id, Hk in Hv. injection Hv as ->.
    rewrite !(decide_True (P := _ /\ v_status v = from)) by done. by rewrite !decide_True by done.
  - by rewrite !decide_False by naive_solver.
Qed.

Lemma switched_no from to i l v : zget l i = Some v -> v_status v <> from -> switched from to i l = l.
Proof. intros Hv Hs. unfold switched. rewrite Hv. by rewrite decide_False. Qed.

Lemma switched_none from to i l : zget l i = None -> switched from to i l = l.
Proof. intros Hv. unfold switched. by rewrite Hv. Qed.

Lemma switched_same s i l : switched s s i l = l.
Proof.
  apply list_eq. intros k. rewrite switched_lookup. destruct (l !! k) as [v|]; cbn; [|done]. f_equal.
  destruct (decide _) as [[_ <-]|]; [by destruct v|done].
Qed.

(** What stopping and closing a port do. *)
Lemma views_stop_one d st i : views (stop_one d st i) = switched STARTED STOPPED i (views st).
Proof.
  unfold stop_one. destruct (views_cmpset i STARTED HANDLING st) as [H1 H2].
  destruct (cmpset i STARTED HANDLING st) as [ok st1]. cbn [fst snd] in *. subst ok.
  destruct (zget (views st) i) as [v|] eqn:Hv; cbn [negb].
  2: { by rewrite H1, !switched_none. }
  destruct (bool_decide_reflect (v_status v = STARTED)) as [Hs|Hs]; cbn [negb].
  - unfold dpdk_do. rewrite (proj1 (views_cmpset _ _ _ _)). change (views (set_calls _ st1)) with (views st1).
    rewrite H1. by eapply switched_twice.
  - rewrite H1. by rewrite !(switched_no _ _ _ _ _ Hv) by done.
Qed.

Lemma views_close_one d st i : views (close_one d st i) = switched STOPPED CLOSED i (views st).
Proof.
  unfold close_one. destruct (views_cmpset i CLOSED CLOSED st) as [H1 H2].
  destruct (cmpset i CLOSED CLOSED st) as [cl st0]. cbn [fst snd] in *. rewrite switched_same in H1.
  destruct (zget (views st) i) as [v|] eqn:Hv.
  - destruct cl.
    { symmetry in H2. apply bool_decide_eq_true in H2. rewrite H1. symmetry. eapply switched_no; [done|congruence]. }
    destruct (views_cmpset i STOPPED HANDLING st0) as [H3 H4]. rewrite H1 in H3, H4. rewrite Hv in H4.
    destruct (cmpset i STOPPED HANDLING st0) as [ok st1]. cbn [fst snd] in *. subst ok.
    destruct (bool_decide_reflect (v_status v = STOPPED)) as [Hs|Hs]; cbn [negb].
    + unfold dpdk_do. rewrite (proj1 (views_cmpset _ _ _ _)). change (views (set_calls _ st1)) with (views st1).
      rewrite H3. by eapply switched_twice.
    + rewrite H3. by rewrite !(switched_no _ _ _ _ _ Hv) by done.
  - subst cl. destruct (views_cmpset i STOPPED HANDLING st0) as [H3 H4]. rewrite H1, Hv in H4. rewrite H1 in H3.
    destruct (cmpset i STOPPED HANDLING st0) as [ok st1]. cbn [fst snd] in *. subst ok. cbn [negb].
    rewrite H3. by rewrite !switched_none.
Qed.

(** The loops over the selected ports are one step of the specification. *)
Lemma chosen_selected st pid k v :
  views st !! k = Some v ->
  (Z.of_nat k ∈ selected pid (port_ids (ports st)) <-> chosen pid k /\ v_enabled v = true).
Proof.
  intros Hk. unfold selected, chosen. rewrite list_elem_of_filter, elem_of_port_ids.
  assert (Hz : zget (views st) (Z.of_nat k) = Some v) by (apply zget_Some; rewrite Nat2Z.id; split; [lia|done]).
  rewrite zget_views in Hz. destruct (zget (ports st) (Z.of_nat k)) as [p|]; [|done]. injection Hz as <-. naive_solver.
Qed.

Lemma foldl_switched (f : pstate -> Z -> pstate) from to pids st :
  (forall s i, views (f s i) = switched from to i (views s)) -> from <> to ->
  forall k, views (foldl f st pids) !! k =
    (fun v => if decide (Z.of_nat k ∈ pids /\ v_status v = from) then v_set to v else v) <$> views st !! k.
Proof.
  intros Hf Hne. revert st. induction pids as [|i pids IH]; intros st k; cbn [foldl].
  - destruct (views st !! k); cbn; [|done]. rewrite decide_False; [done|]. intros [Hin _]. by apply not_elem_of_nil in Hin.
  - rewrite IH, Hf, switched_lookup. destruct (views st !! k) as [v|]; cbn; [|done]. f_equal.
    destruct (decide (Z.of_nat k = i /\ v_status v = from)) as [[-> Hs]|Hno].
    + rewrite decide_False by (cbn; intros [_ ?]; congruence). rewrite decide_True; [done|]. split; [left|done].
    + destruct (decide (Z.of_nat k ∈ pids /\ v_status v = from)) as [[Hin Hs]|Hno'].
      * rewrite decide_True; [done|]. split; [by right|done].
      * rewrite decide_False; [done|]. rewrite elem_of_cons. naive_solver.
Qed.

Lemma foldl_spec f from to pid st :
  (forall s i, views (f s i) = switched from to i (views s)) -> from <> to ->
  views (foldl f st (selected pid (port_ids (ports st)))) = imap (move_status from to pid) (views st).
Proof.
  intros Hf Hne. apply list_eq. intros k. rewrite (foldl_switched _ from to), list_lookup_imap by done.
  destruct (views st !! k) as [v|] eqn:Hk; cbn; [|done]. f_equal. unfold move_status.
  pose proof (chosen_selected st pid k v Hk). apply decide_ext. unfold concerned. naive_solver.
Qed.

(** ** Calls *)

Lemma new_calls_app st st' new : calls st' = new ++ calls st -> new_calls st st' = new.
Proof.
  intros E. unfold new_calls. rewrite E, length_app. replace (length new + length (calls st) - length (calls st))%nat
    with (length new) by lia. apply take_app_length.
Qed.

Lemma start_answers_app d n2 n1 old :
  start_answers d (n2 ++ n1) old = start_answers d n2 (n1 ++ old) ++ start_answers d n1 old.
Proof. induction n2 as [|c n2 IH]; [done|]. destruct c; cbn; rewrite ?IH, <- ?app_assoc; done. Qed.

Lemma refused_app d n2 n1 old : refused d (n2 ++ n1) old = refused d n2 (n1 ++ old) || refused d n1 old.
Proof. induction n2 as [|c n2 IH]; [done|]. cbn. by rewrite IH, <- app_assoc, orb_assoc. Qed.

(** The loops over the ports of a command ask the devices of those that are
    in the status [from]. *)
Section Asking.
Context (f : pstate -> Z -> pstate) (from to : status) (K : Z -> dpdk_call) (asks : list dpdk_call -> list Z).
Context (Hviews : forall s i, views (f s i) = switched from to i (views s)).
Context (Hcalls : forall s i, calls (f s i) =
  (match zget (views s) i with Some v => if decide (v_status v = from) then [K i] else [] | None => [] end) ++ calls s).
Context (Hcons : forall i l, asks (K i :: l) = i :: asks l) (Hnil : asks [] = [])
        (Happ : forall l1 l2, asks (l1 ++ l2) = asks l1 ++ asks l2).

Lemma foldl_asked pids st :
  NoDup pids -> exists new, calls (foldl f st pids) = new ++ calls st /\ NoDup (asks new) /\
    forall z, z ∈ asks new <-> z ∈ pids /\ exists v, zget (views st) z = Some v /\ v_status v = from.
Proof.
  revert st. induction pids as [|i pids IH]; intros st Hnd; cbn [foldl].
  { exists []. rewrite Hnil. split_and!; [done|constructor|]. intros z. split; [by intros ?%not_elem_of_nil|].
    by intros [?%not_elem_of_nil _]. }
  apply NoDup_cons in Hnd as [Hi Hnd]. destruct (IH (f st i) Hnd) as (new & E & Hn & Hz). rewrite Hcalls in E.
  set (n1 := match zget (views st) i with Some v => _ | None => _ end) in *.
  exists (new ++ n1). rewrite E, app_assoc, Happ. split; [done|].
  assert (Hsame : forall z, z ∈ pids -> zget (views (f st i)) z = zget (views st) z).
  { intros z Hin. rewrite Hviews. unfold zget. destruct (Z.leb_spec 0 z); [|done]. rewrite switched_lookup.
    destruct (views st !! Z.to_nat z); cbn; [|done]. rewrite decide_False; [done|]. intros [He _].
    rewrite Z2Nat.id in He by lia. by subst. }
  assert (H1 : forall z, z ∈ asks n1 <-> z = i /\ exists v, zget (views st) z = Some v /\ v_status v = from).
  { intros z. unfold n1. destruct (zget (views st) i) as [v|] eqn:Hv.
    - destruct (decide (v_status v = from)) as [Hs|Hs].
      + rewrite Hcons, Hnil, list_elem_of_singleton. split; [intros ->; eauto|by intros [-> _]].
      + rewrite Hnil. split; [by intros ?%not_elem_of_nil|]. intros (-> & w & Hw & Hs'). congruence.
    - rewrite Hnil. split; [by intros ?%not_elem_of_nil|]. intros (-> & w & Hw & _). congruence. }
  split.
  - apply NoDup_app. split_and!; [done| |].
    + intros z Hz1 [-> _]%H1. apply Hz in Hz1 as [Hz1 _]. done.
    + unfold n1. destruct (zget _ _) as [v|]; [destruct (decide _)|]; rewrite ?Hcons, Hnil; repeat constructor.
      by intros ?%not_elem_of_nil.
  - intros z. rewrite elem_of_app, Hz, H1, elem_of_cons. split.
    + intros [[Hin Hv]|[-> Hv]]; [rewrite Hsame in Hv by done|]; auto.
    + intros [[-> | Hin] Hv]; [by right|left]. rewrite Hsame by done. auto.
Qed.

Lemma foldl_all_asked pid st :
  exists new, calls (foldl f st (selected pid (port_ids (ports st)))) = new ++ calls st /\
    all_asked from pid (asks new) (views st).
Proof.
  destruct (foldl_asked (selected pid (port_ids (ports st))) st) as (new & E & Hn & Hz).
  { apply NoDup_filter, port_ids_NoDup. }
  exists new. split; [done|]. split; [done|]. intros z. rewrite Hz. split.
  - intros [Hin (v & Hv & Hs)]. apply zget_Some in Hv as [H0 Hv]. exists (Z.to_nat z), v. split; [lia|]. split; [done|].
    rewrite <- (Z2Nat.id z) in Hin by done. by destruct (proj1 (chosen_selected _ _ _ _ Hv) Hin).
  - intros (i & v & -> & Hv & Hc & He & Hs). split; [by apply (chosen_selected _ _ _ _ Hv)|].
    exists v. split; [|done]. apply zget_Some. rewrite Nat2Z.id. split; [lia|done].
Qed.
End Asking.

Lemma cmpset_calls i e n st : calls (cmpset i e n st).2 = calls st.
Proof. unfold cmpset. destruct (zget (ports st) i); [|done]. by destruct (decide _). Qed.

Lemma cmpset_views_ok i e n st :
  (cmpset i e n st).1 = match zget (views st) i with Some v => bool_decide (v_status v = e) | None => false end.
Proof. apply views_cmpset. Qed.

Lemma stop_one_calls d st i :
  calls (stop_one d st i) =
    (match zget (views st) i with Some v => if decide (v_status v = STARTED) then [DevStop i] else [] | None => [] end) ++ calls st.
Proof.
  unfold stop_one. pose proof (cmpset_views_ok i STARTED HANDLING st) as H1. pose proof (cmpset_calls i STARTED HANDLING st) as H2.
  destruct (cmpset _ _ _ _) as [ok st1]. cbn [fst snd] in *. subst ok. destruct (zget _ _) as [v|]; cbn [negb]; [|done].
  destruct (bool_decide_reflect (v_status v = STARTED)); cbn [negb]; [rewrite decide_True by done|by rewrite decide_False by done].
  unfold dpdk_do. rewrite cmpset_calls. cbn. by rewrite H2.
Qed.

Lemma close_one_calls d st i :
  calls (close_one d st i) =
    (match zget (views st) i with Some v => if decide (v_status v = STOPPED) then [DevClose i] else [] | None => [] end) ++ calls st.
Proof.
  unfold close_one. pose proof (cmpset_views_ok i CLOSED CLOSED st) as H1. pose proof (cmpset_calls i CLOSED CLOSED st) as H2.
  pose proof (proj1 (views_cmpset i CLOSED CLOSED st)) as H3. rewrite switched_same in H3.
  destruct (cmpset i CLOSED CLOSED st) as [cl st0]. cbn [fst snd] in *. subst cl.
  pose proof (cmpset_views_ok i STOPPED HANDLING st0) as H1'. pose proof (cmpset_calls i STOPPED HANDLING st0) as H2'.
  rewrite H3 in H1'. destruct (cmpset i STOPPED HANDLING st0) as [ok st1]. cbn [fst snd] in *. subst ok.
  destruct (zget (views st) i) as [v|]; cbn [negb]; [|cbn; congruence].
  destruct (bool_decide_reflect (v_status v = CLOSED)) as [Hs|Hs]; [rewrite decide_False by congruence; done|].
  destruct (bool_decide_reflect (v_status v = STOPPED)); cbn [negb];
    [rewrite decide_True by done|rewrite decide_False by done; cbn; congruence].
  unfold dpdk_do. rewrite cmpset_calls. cbn. congruence.
Qed.

(** ** Starting ports *)

(** Steps that keep the views. *)
Definition kept (st st' : pstate) : Prop := views st' = views st /\ test_done st' = test_done st.

Lemma kept_trans st1 st2 st3 : kept st1 st2 -> kept st2 st3 -> kept st1 st3.
Proof. intros [V1 T1] [V2 T2]. split; congruence. Qed.

Lemma upd_kept i f st : (forall p, view (f p) = view p) -> kept st (upd_port i f st).
Proof. intros Hf. split; [by apply views_upd|done]. Qed.

Lemma cmpset_test_done i e n st : test_done (cmpset i e n st).2 = test_done st.
Proof. unfold cmpset. destruct (zget (ports st) i); [|done]. by destruct (decide _). Qed.

(** A part of starting the port [i]: no device is started, it fails when
    something was refused, which stops the port again, or for want of a
    memory pool, and nothing else. *)
Definition part (d : dpdk) (c : config) (i : Z) (ok : bool) (st st' : pstate) : Prop :=
  exists new, calls st' = new ++ calls st /\ start_answers d new (calls st) = [] /\ test_done st' = test_done st /\
    views st' = (if refused d new (calls st) then switched HANDLING STOPPED i (views st) else views st) /\
    if ok then refused d new (calls st) = false else refused d new (calls st) = true \/ no_pool d c i = true.

Lemma part_kept d c i st st' : kept st st' -> calls st' = calls st -> part d c i true st st'.
Proof. intros [V T] C. exists []. done. Qed.

Lemma part_trans d c i ok st1 st2 st3 : part d c i true st1 st2 -> part d c i ok st2 st3 -> part d c i ok st1 st3.
Proof.
  intros (n1 & C1 & A1 & T1 & V1 & R1) (n2 & C2 & A2 & T2 & V2 & R2). rewrite C1 in A2, R2, V2. exists (n2 ++ n1).
  rewrite start_answers_app, refused_app, A1, A2, R1, orb_false_r. rewrite R1 in V1.
  split; [by rewrite C2, C1, app_assoc|]. split; [done|]. split; [congruence|]. split; [by rewrite V2, V1|done].
Qed.

(** A call of set-up that is accepted or refused; when it is refused the port
    is stopped again, at once or by its caller. *)
Lemma part_call d c i k st :
  is_setup k = true -> (diag d (k :: calls st) =? 0) = true -> part d c i true st (dpdk_do d k st).2.
Proof.
  intros Hk Hd. exists [k]. cbn. rewrite Hk, Hd. destruct k; try done.
Qed.

(** The same without stopping the port. *)
Definition refusal (d : dpdk) (st st' : pstate) : Prop :=
  exists new, calls st' = new ++ calls st /\ start_answers d new (calls st) = [] /\ kept st st' /\ refused d new (calls st) = true.

Lemma refusal_call d k st : is_setup k = true -> (diag d (k :: calls st) =? 0) = false -> refusal d st (dpdk_do d k st).2.
Proof.
  intros Hk Hd. exists [k]. cbn. rewrite Hk, Hd. destruct k; try done.
Qed.

Lemma refusal_after d c i st1 st2 st3 : part d c i true st1 st2 -> refusal d st2 st3 -> refusal d st1 st3.
Proof.
  intros (n1 & C1 & A1 & T1 & V1 & R1) (n2 & C2 & A2 & [V2 T2] & R2). rewrite C1 in A2, R2. exists (n2 ++ n1).
  rewrite start_answers_app, refused_app, A1, A2, R2. rewrite R1 in V1.
  split; [by rewrite C2, C1, app_assoc|]. split; [done|]. split; [split; congruence|done].
Qed.

Lemma refusal_part d c i f st st' :
  (forall p, view (f p) = view p) -> refusal d st st' ->
  part d c i false st (upd_port i f (cmpset i HANDLING STOPPED st').2).
Proof.
  intros Hf (new & C & A & [V T] & R). exists new. rewrite R.
  split; [cbn; by rewrite cmpset_calls|]. split; [done|]. split; [cbn; by rewrite cmpset_test_done|]. split; [|by left].
  rewrite views_upd by done. by rewrite (proj1 (views_cmpset _ _ _ _)), V.
Qed.

Lemma setup_tx_part d c i p qs st :
  let r := setup_tx_queues d c i p qs st in if r.1 then part d c i true st r.2 else refusal d st r.2.
Proof.
  revert st. induction qs as [|q qs IH]; intros st; [by apply part_kept|]. cbn [setup_tx_queues].
  match goal with |- context [dpdk_do d ?k0 st] => set (k := k0) end.
  pose proof (part_call d c i k st eq_refl) as H1. pose proof (refusal_call d k st eq_refl) as H2.
  unfold dpdk_do in *. cbn [snd] in *. destruct (diag d (k :: calls st) =? 0); [|by apply H2].
  specialize (IH (set_calls (k :: calls st) st)). cbn zeta in *. destruct (setup_tx_queues _ _ _ _ _ _) as [[] st']; cbn [fst snd] in *.
  - eapply part_trans; [by apply H1|done].
  - eapply refusal_after; [by apply (H1)|done].
Qed.

Lemma setup_rx_part d c i p qs st :
  let r := setup_rx_queues d c i p qs st in
  match r.1 with Some true => part d c i true st r.2 | Some false => refusal d st r.2 | None => part d c i false st r.2 end.
Proof.
  revert st. induction qs as [|q qs IH]; intros st; [by apply part_kept|]. cbn [setup_rx_queues].
  destruct (numa_support c && negb (rxring_numa c i =? NUMA_NO_CONFIG) && negb (mbuf_pool_find d _)) eqn:Hp.
  { cbn. exists []. split_and!; [done..|]. right. unfold no_pool.
    destruct (numa_support c && negb (rxring_numa c i =? NUMA_NO_CONFIG)); [exact Hp|done]. }
  match goal with |- context [dpdk_do d ?k0 st] => set (k := k0) end.
  pose proof (part_call d c i k st eq_refl) as H1. pose proof (refusal_call d k st eq_refl) as H2.
  unfold dpdk_do in *. cbn [snd] in *. destruct (diag d (k :: calls st) =? 0); [|by apply H2].
  specialize (IH (set_calls (k :: calls st) st)). cbn zeta in *.
  destruct (setup_rx_queues _ _ _ _ _ _) as [[[]|] st']; cbn [fst snd] in *.
  - eapply part_trans; [by apply H1|done].
  - eapply refusal_after; [by apply H1|done].
  - eapply part_trans; [by apply H1|done].
Qed.

Lemma configure_port_part d c i p st :
  let r := configure_port d c i p st in part d c i r.1 st r.2.
Proof.
  unfold configure_port. destruct (need_reconfig p); [|by apply part_kept].
  set (st0 := upd_port _ _ _). assert (H0 : part d c i true st st0) by (apply part_kept; [by apply upd_kept|done]).
  set (k := DevConfigure _ _ _ _).
  pose proof (part_call d c i k st0 eq_refl) as H1. pose proof (refusal_call d k st0 eq_refl) as H2.
  unfold dpdk_do in *. cbn [snd] in *. destruct (diag d (k :: calls st0) =? 0).
  - eapply part_trans; [done|by apply H1].
  - pose proof (refusal_part d c i (with_reconfig true) _ _ ltac:(done) (H2 eq_refl)) as H3. clearbody st0.
    cbn zeta. destruct (cmpset _ _ _ _) as [b st2]. cbn [fst snd] in *. by eapply part_trans.
Qed.

Lemma configure_queues_part d c i p st :
  let r := configure_queues d c i p st in part d c i r.1 st r.2.
Proof.
  unfold configure_queues. destruct (need_reconfig_queues p); [|by apply part_kept].
  set (st0 := upd_port _ _ _). assert (H0 : part d c i true st st0) by (apply part_kept; [by apply upd_kept|done]).
  clearbody st0. cbn zeta.
  assert (Hfail : forall st1, refusal d st st1 -> part d c i false st (fail_queues i st1)).
  { intros st1 Hr. pose proof (refusal_part d c i (with_reconfig_queues true) _ _ ltac:(done) Hr) as H3.
    unfold fail_queues. by destruct (cmpset _ _ _ _). }
  pose proof (setup_tx_part d c i p (queues (nb_txq c)) st0) as H1. cbn zeta in H1.
  destruct (setup_tx_queues _ _ _ _ _ _) as [[] st1]; cbn [fst snd] in *; [|apply Hfail; by eapply refusal_after].
  pose proof (setup_rx_part d c i p (queues (nb_rxq c)) st1) as H2. cbn zeta in H2.
  pose proof (part_trans _ _ _ _ _ _ _ H0 H1) as H3.
  destruct (setup_rx_queues _ _ _ _ _ _) as [[[]|] st2]; cbn [fst snd] in *.
  - by eapply part_trans.
  - apply Hfail. by eapply refusal_after.
  - by eapply part_trans.
Qed.

(** Starting one port: nothing happens unless it is stopped; then its device
    is asked, or something was refused or missing. *)
Definition started_one (d : dpdk) (c : config) (i : Z) (ok : bool) (st st' : pstate) : Prop :=
  exists new, calls st' = new ++ calls st /\ test_done st' = test_done st /\
    let ans := start_answers d new (calls st) in let r := refused d new (calls st) in
    (ok = true /\ ans = [] /\ views st' = views st /\ r = false /\
       forall v, zget (views st) i = Some v -> v_status v <> STOPPED) \/
    (exists v, zget (views st) i = Some v /\ v_status v = STOPPED /\
      ((ok = true /\ r = false /\ exists b, ans = [(i, b)] /\
          views st' = switched STOPPED (if b then STARTED else STOPPED) i (views st)) \/
       (ok = false /\ ans = [] /\ (r = true \/ no_pool d c i = true) /\
          views st' = switched STOPPED (if r then STOPPED else HANDLING) i (views st)))).

Lemma start_one_spec d c i st :
  started_one d c i (start_one d c i st).1 st (start_one d c i st).2.
Proof.
  unfold start_one. destruct (views_cmpset i STOPPED HANDLING st) as [Hv Hok].
  pose proof (cmpset_test_done i STOPPED HANDLING st) as Ht. pose proof (cmpset_calls i STOPPED HANDLING st) as Hc.
  destruct (cmpset i STOPPED HANDLING st) as [ok st1] eqn:E. cbn [fst snd] in *. destruct ok; cbn [negb].
  2: { rewrite (cmpset_false _ _ _ _ _ E). exists []. split; [done|]. split; [done|]. left. split_and!; [done..|].
    intros v Hz Hs. rewrite Hz in Hok. by rewrite bool_decide_true in Hok. }
  destruct (zget (views st) i) as [v|] eqn:Hz; [|done]. symmetry in Hok. apply bool_decide_eq_true in Hok.
  apply cmpset_true in E as [(p0 & Hp0 & _) ->]. rewrite (zget_upd_same _ _ _ _ Hp0). set (p := with_status HANDLING p0).
  set (st1 := upd_port _ _ st) in *. clearbody st1.
  assert (Hfail : forall st2, part d c i false st1 st2 -> started_one d c i false st st2).
  { intros st2 (new & C & A & T & V & R). rewrite Hc in *. exists new. split; [done|]. split; [congruence|]. right. exists v.
    split; [done|]. split; [done|]. right. split_and!; [done..|]. rewrite V, Hv. destruct (refused _ _ _); [|done].
    by eapply switched_twice. }
  pose proof (configure_port_part d c i p st1) as H1. cbn zeta in H1.
  destruct (configure_port _ _ _ _ _) as [[] st2]; cbn [negb fst snd] in *; [|by apply Hfail].
  pose proof (configure_queues_part d c i p st2) as H2. cbn zeta in H2. pose proof (part_trans _ _ _ _ _ _ _ H1 H2) as H3.
  clear H1 H2. destruct (configure_queues _ _ _ _ _) as [[] st3]; cbn [negb fst snd] in *; [|by apply Hfail].
  destruct H3 as (new & C & A & T & V & R). rewrite Hc in *. rewrite R in V. unfold dpdk_do.
  set (b := negb (diag d (DevStart i :: calls st3) <? 0)).
  assert (Hfin : forall s, s = (if b then STARTED else STOPPED) ->
    started_one d c i true st (cmpset i HANDLING s (set_calls (DevStart i :: calls st3) st3)).2).
  { intros s Hs. exists (DevStart i :: new). split; [rewrite cmpset_calls; cbn; by rewrite C|].
    split; [rewrite cmpset_test_done; cbn; congruence|]. right. exists v. split; [done|]. split; [done|]. left.
    split; [done|]. split; [done|]. exists b. unfold b. cbn [start_answers]. rewrite A, C. split; [done|].
    rewrite (proj1 (views_cmpset _ _ _ _)). change (views (set_calls _ st3)) with (views st3). rewrite V, Hv, Hs. unfold b.
    rewrite C. by eapply switched_twice. }
  destruct (diag d (DevStart i :: calls st3) <? 0); cbn [fst snd]; by apply Hfin.
Qed.

(** The loop over the ports. *)
Lemma start_effect_nil l : imap (start_effect []) l = l.
Proof.
  apply list_eq. intros k. rewrite list_lookup_imap. by destruct (l !! k).
Qed.

Lemma switched_other from to i l z : z <> i -> zget (switched from to i l) z = zget l z.
Proof.
  intros Hne. unfold zget. destruct (Z.leb_spec 0 z); [|done]. rewrite switched_lookup.
  destruct (l !! Z.to_nat z); cbn; [|done]. rewrite decide_False; [done|]. intros [He _]. rewrite Z2Nat.id in He by lia. done.
Qed.

Lemma start_effect_snoc ans i b l v :
  zget l i = Some v -> v_status v = STOPPED -> i ∉ ans.*1 ->
  imap (start_effect (ans ++ [(i, b)])) l =
  imap (start_effect ans) (switched STOPPED (if b then STARTED else STOPPED) i l).
Proof.
  intros Hv Hs Hi. apply list_eq. intros k. rewrite !list_lookup_imap, switched_lookup.
  destruct (l !! k) as [w|] eqn:Hk; cbn; [|done]. f_equal. unfold start_effect. destruct (decide (Z.of_nat k = i)) as [<-|Hne].
  - apply zget_Some in Hv as [_ Hv]. rewrite Nat2Z.id, Hk in Hv. injection Hv as ->.
    rewrite (decide_False (P := (_ ∈ ans))).
    2: { intros Hin. apply Hi. apply list_elem_of_fmap. by exists (Z.of_nat k, true). }
    rewrite (decide_True (P := _ /\ _)) by done. destruct b.
    + rewrite decide_True; [done|]. apply elem_of_app. right. by apply list_elem_of_singleton.
    + rewrite decide_False; [destruct v; cbn in *; by subst|]. rewrite elem_of_app, list_elem_of_singleton. intros [Hin|[=]].
      apply Hi. apply list_elem_of_fmap. by exists (Z.of_nat k, true).
  - rewrite (decide_False (P := _ /\ _)) by naive_solver. apply decide_ext. rewrite elem_of_app, list_elem_of_singleton.
    split; [intros [?|[= E]]; [done|congruence]|by left].
Qed.

Definition stopped_at (l : list pview) (z : Z) : Prop := exists v, zget l z = Some v /\ v_status v = STOPPED.

Lemma stopped_switched to i l z : z <> i -> stopped_at (switched STOPPED to i l) z <-> stopped_at l z.
Proof. intros Hne. unfold stopped_at. by rewrite switched_other by done. Qed.

(** What the loop over [pids] leaves of the views [l], with these answers. *)
Definition loop_end (d : dpdk) (c : config) (pids : list Z) (ok r : bool) (ans : list (Z * bool)) (l l' : list pview) : Prop :=
  NoDup ans.*1 /\ (forall z, z ∈ ans.*1 -> z ∈ pids /\ stopped_at l z) /\
  if ok then r = false /\ l' = imap (start_effect ans) l /\ (forall z, z ∈ pids -> stopped_at l z -> z ∈ ans.*1)
  else (r = true /\ l' = imap (start_effect ans) l) \/
       (r = false /\ exists pre j post v, pids = pre ++ j :: post /\ zget l j = Some v /\ v_status v = STOPPED /\
          (j ∉ ans.*1) /\ no_pool d c j = true /\ (forall z, z ∈ pre -> stopped_at l z -> z ∈ ans.*1) /\
          l' = <[Z.to_nat j := v_set HANDLING v]> (imap (start_effect ans) l)).

(** A port before the others that is not stopped, and one that is asked. *)
Lemma loop_end_skip d c i pids ok r ans l l' :
  ~ stopped_at l i -> loop_end d c pids ok r ans l l' -> loop_end d c (i :: pids) ok r ans l l'.
Proof.
  intros Hi (Hnd & Ha & H). split; [done|]. split.
  { intros z Hz. destruct (Ha z Hz). split; [by right|done]. }
  destruct ok.
  - destruct H as (-> & -> & Hall). split_and!; [done..|]. intros z [-> |Hz]%elem_of_cons Hs; [done|by apply Hall].
  - destruct H as [H|(-> & pre & j & post & v & -> & H1 & H2 & H3 & H4 & H5 & H6)]; [by left|right]. split; [done|].
    exists (i :: pre), j, post, v. split_and!; [done..| |done]. intros z [-> |Hz]%elem_of_cons Hs; [done|by apply H5].
Qed.

Lemma loop_end_asked d c i (b : bool) pids ok r ans l l' :
  i ∉ pids -> stopped_at l i ->
  loop_end d c pids ok r ans (switched STOPPED (if b then STARTED else STOPPED) i l) l' ->
  loop_end d c (i :: pids) ok r (ans ++ [(i, b)]) l l'.
Proof.
  intros Hi (vi & Hvi & Hsi) (Hnd & Ha & H). set (l1 := switched _ _ _ _) in *.
  assert (Hia : i ∉ ans.*1) by (intros Hin; by destruct (Ha i Hin)).
  assert (Hs : forall z, z ∈ pids -> stopped_at l1 z <-> stopped_at l z).
  { intros z Hz. apply stopped_switched. by intros ->. }
  unfold loop_end. rewrite fmap_app. cbn [fmap list_fmap fst]. split_and!.
  - apply NoDup_app. split_and!; [done| |apply NoDup_singleton]. by intros z Hz ->%list_elem_of_singleton.
  - intros z [Hz| ->%list_elem_of_singleton]%elem_of_app; [|split; [left|by exists vi]].
    destruct (Ha z Hz) as [Hin Hst]. split; [by right|by apply Hs].
  - destruct ok.
    + destruct H as (-> & -> & Hall). split_and!; [done|by rewrite (start_effect_snoc _ _ _ _ vi)|].
      intros z [-> |Hz]%elem_of_cons Hst; apply elem_of_app; [right; by apply list_elem_of_singleton|left].
      apply Hall; [done|by apply Hs].
    + destruct H as [[-> ->]|(-> & pre & j & post & v & -> & H1 & H2 & H3 & H4 & H5 & H6)].
      { left. split; [done|]. by rewrite (start_effect_snoc _ _ _ _ vi). }
      assert (Hne : j <> i) by (intros ->; apply Hi, elem_of_app; right; left).
      right. split; [done|]. exists (i :: pre), j, post, v. unfold l1 in H1. rewrite switched_other in H1 by done. split_and!.
      * done.
      * done.
      * done.
      * rewrite elem_of_app, list_elem_of_singleton. by intros [?|?].
      * done.
      * intros z [-> |Hz]%elem_of_cons Hst; apply elem_of_app; [right; by apply list_elem_of_singleton|left].
        apply H5; [done|]. apply Hs; [apply elem_of_app; by left|done].
      * by rewrite (start_effect_snoc _ _ _ _ vi).
Qed.

Lemma start_loop_spec d c pids st :
  NoDup pids -> exists new, calls (start_loop d c pids st).2 = new ++ calls st /\
    test_done (start_loop d c pids st).2 = test_done st /\
    loop_end d c pids (start_loop d c pids st).1 (refused d new (calls st)) (start_answers d new (calls st))
      (views st) (views (start_loop d c pids st).2).
Proof.
  revert st. induction pids as [|i pids IH]; intros st Hnd; cbn [start_loop].
  { exists []. split_and!; [done..|]. split; [constructor|]. cbn [start_answers fmap list_fmap fst]. split.
    - by intros z ?%not_elem_of_nil.
    - split_and!; [done|by rewrite start_effect_nil|]. by intros z ?%not_elem_of_nil. }
  apply NoDup_cons in Hnd as [Hi Hnd].
  destruct (start_one_spec d c i st) as (n1 & C1 & T1 & H1). destruct (start_one d c i st) as [ok st1]. cbn [fst snd] in *.
  destruct H1 as [(-> & A1 & V1 & R1 & Hno)|(v & Hv & Hs & [(-> & R1 & b & A1 & V1)|(-> & A1 & Hor & V1)])].
  - destruct (IH st1 Hnd) as (n2 & C2 & T2 & H2). rewrite C1, V1 in H2. exists (n2 ++ n1).
    rewrite start_answers_app, refused_app, A1, R1, app_nil_r, orb_false_r.
    split; [by rewrite C2, C1, app_assoc|]. split; [congruence|]. apply loop_end_skip; [|done].
    intros (w & Hw & Hsw). by apply (Hno w Hw).
  - destruct (IH st1 Hnd) as (n2 & C2 & T2 & H2). rewrite C1, V1 in H2. exists (n2 ++ n1).
    rewrite start_answers_app, refused_app, A1, R1, orb_false_r.
    split; [by rewrite C2, C1, app_assoc|]. split; [congruence|]. apply loop_end_asked; [done|by exists v|done].
  - exists n1. cbn [fst snd]. rewrite A1. split; [done|]. split; [done|]. split; [constructor|]. split.
    { by intros z ?%not_elem_of_nil. }
    rewrite start_effect_nil. destruct (refused d n1 (calls st)) eqn:R1.
    + left. split; [done|]. by rewrite V1, switched_same.
    + right. split; [done|]. exists [], i, pids, v. destruct Hor as [|Hp]; [done|].
      split_and!; [done|done|done|apply not_elem_of_nil|done| |].
      * by intros z ?%not_elem_of_nil.
      * rewrite V1. apply list_eq. intros k. rewrite switched_lookup. apply zget_Some in Hv as [H0 Hv].
        destruct (decide (k = Z.to_nat i)) as [->|Hne].
        -- rewrite list_lookup_insert_eq by (by eapply lookup_lt_Some). rewrite Hv. cbn. by rewrite decide_True by (split; [lia|done]).
        -- rewrite list_lookup_insert_ne by done. destruct (views st !! k); cbn; [|done]. rewrite decide_False; [done|].
           intros [He _]. lia.
Qed.

(** ** The port commands *)

Lemma set_sockets_kept d c pids st : kept st (set_sockets d c pids st).2 /\ calls (set_sockets d c pids st).2 = calls st.
Proof.
  revert st. induction pids as [|i pids IH]; intros st; [done|]. cbn [set_sockets].
  destruct (zget _ _); [|done]. destruct (_ <? _); [done|]. destruct (_ <? _); [done|].
  destruct (IH (upd_port i (with_socket (port_socket d c i)) st)) as [[Hv Ht] Hc]. split; [split; [|done]|done].
  rewrite Hv. by apply views_upd.
Qed.

Lemma init_fwd_streams_kept d c st : kept st (init_fwd_streams d c st).2.
Proof.
  unfold init_fwd_streams. pose proof (proj1 (set_sockets_kept d c (port_ids (ports st)) st)) as Hk.
  destruct (set_sockets _ _ _ _) as [[] st1]; cbn [snd] in Hk; [|done]. by destruct (_ =? _).
Qed.

Lemma init_fwd_streams_calls d c st : calls (init_fwd_streams d c st).2 = calls st.
Proof.
  unfold init_fwd_streams. pose proof (proj2 (set_sockets_kept d c (port_ids (ports st)) st)) as Hk.
  destruct (set_sockets _ _ _ _) as [[] st1]; cbn [snd] in Hk; [|done]. by destruct (_ =? _).
Qed.

Lemma set_sockets_enough d c st l st' :
  (forall i, info <$> zget (ports st') i = info <$> zget (ports st) i) -> (forall i, i ∈ l -> is_Some (zget (ports st) i)) ->
  (set_sockets d c l st').1 = negb (existsb (fun pi => match zget (ports st) pi with
     | Some p => (max_rx_queues (info p) <? nb_rxq c) || (max_tx_queues (info p) <? nb_txq c) | None => false end) l).
Proof.
  revert st'. induction l as [|i l IH]; intros st' Hst Hl; [done|]. cbn [set_sockets existsb].
  destruct (Hl i ltac:(left)) as [p Hp]. pose proof (Hst i) as Hsi. rewrite Hp in *.
  destruct (zget (ports st') i) as [p'|]; [|done]. cbn in Hsi. injection Hsi as ->.
  destruct (max_rx_queues (info p) <? nb_rxq c); [done|]. destruct (max_tx_queues (info p) <? nb_txq c); [done|].
  cbn [orb]. apply IH; [|intros; apply Hl; by right]. intros k. rewrite <- Hst.
  destruct (zget (ports (upd_port _ _ st')) k) as [q|] eqn:Hq; [by apply zget_upd_inv in Hq as (q0 & -> & [-> | ->])|].
  destruct (zget (ports st') k) as [q'|] eqn:Hk; [|done]. apply zget_Some in Hk as [H0 Hk]. apply lookup_lt_Some in Hk.
  destruct (zget_is_Some (ports (upd_port i (with_socket (port_socket d c i)) st')) k) as [? ?];
    [cbn; rewrite length_alter; lia|congruence].
Qed.

Lemma init_fwd_streams_enough d c st : (init_fwd_streams d c st).1 = negb (too_few_queues c st).
Proof.
  unfold too_few_queues. rewrite <- (set_sockets_enough d c st (port_ids (ports st)) st) by
    (done || (intros i (p & -> & _)%elem_of_port_ids; by eexists)).
  unfold init_fwd_streams. destruct (set_sockets _ _ _ _) as [[] st1]; [|done]. by destruct (_ =? _).
Qed.

Lemma abs_kept st st' : kept st st' -> abs st' = abs st.
Proof. intros [Hv Ht]. unfold abs. by rewrite Hv, Ht. Qed.

Lemma sorted_filter (P : Z -> Prop) `{!forall x, Decision (P x)} l :
  StronglySorted Z.lt l -> StronglySorted Z.lt (filter P l).
Proof.
  induction 1 as [|x l _ IH Hx]; [constructor|]. rewrite filter_cons. case_decide; [|done]. constructor; [done|].
  apply Forall_forall. intros y [_ Hy]%list_elem_of_filter. rewrite Forall_forall in Hx. by apply Hx.
Qed.

Lemma sorted_seqZ a b : StronglySorted Z.lt (seqZ a b).
Proof.
  remember (Z.to_nat b) as k eqn:Hk. revert a b Hk. induction k as [|k IH]; intros a b Hk.
  - rewrite seqZ_nil by lia. constructor.
  - rewrite seqZ_cons by lia. constructor; [apply IH; lia|]. apply Forall_forall. intros x Hx%elem_of_seqZ. lia.
Qed.

Lemma selected_before pid l pre j post i :
  selected pid (port_ids l) = pre ++ j :: post -> i ∈ selected pid (port_ids l) -> i < j -> i ∈ pre.
Proof.
  intros E Hi Hlt. assert (Hs : StronglySorted Z.lt (selected pid (port_ids l))).
  { unfold selected. rewrite port_ids_spec. apply sorted_filter, sorted_filter, sorted_seqZ. }
  rewrite E in *. apply elem_of_app in Hi as [|[-> |Hi]%elem_of_cons]; [done|lia|].
  apply StronglySorted_app_1_r in Hs. apply StronglySorted_cons in Hs as [Hs _]. rewrite Forall_forall in Hs.
  specialize (Hs _ Hi). lia.
Qed.

Lemma start_port_cases d c pid st :
  let r := start_port d c pid st in
  (test_done st = false /\ r = (-1, st)) \/
  (test_done st = true /\ port_id_is_invalid pid st = true /\ r = (0, st)) \/
  (test_done st = true /\ too_few_queues c st = true /\ r.1 = -1 /\ kept st r.2 /\ calls r.2 = calls st) \/
  (test_done st = true /\ too_few_queues c st = false /\ exists st2, kept st st2 /\ calls st2 = calls st /\
     r = (let l := start_loop d c (selected pid (port_ids (ports st2))) st2 in (if l.1 then 0 else -1, l.2))).
Proof.
  unfold start_port. destruct (test_done st) eqn:Ht; cbn [negb]; [|by left].
  destruct (port_id_is_invalid pid st); [right; by left|]. right. right.
  pose proof (init_fwd_streams_kept d c st) as Hk. pose proof (init_fwd_streams_calls d c st) as Hc.
  pose proof (init_fwd_streams_enough d c st) as He. destruct (init_fwd_streams d c st) as [ok st1]. cbn [fst snd] in *.
  destruct (too_few_queues c st); subst ok; cbn [negb]; [by left|]. right. split_and!; [done..|].
  exists (if dcb_config st1 then set_dcb (dcb_config st1) true st1 else st1).
  split; [by destruct (dcb_config st1)|]. split; [by destruct (dcb_config st1)|]. by destruct (start_loop _ _ _ _).
Qed.

Lemma concerned_selected st pid i v :
  views st !! i = Some v ->
  concerned STOPPED pid i v <-> Z.of_nat i ∈ selected pid (port_ids (ports st)) /\ stopped_at (views st) (Z.of_nat i).
Proof.
  intros Hv. rewrite (chosen_selected _ _ _ _ Hv). unfold concerned, stopped_at. split.
  - intros (? & ? & ?). split; [done|]. exists v. split; [|done]. apply zget_Some. rewrite Nat2Z.id. split; [lia|done].
  - intros [[? ?] (w & Hw & ?)]. apply zget_Some in Hw as [_ Hw]. rewrite Nat2Z.id in Hw. by simplify_eq.
Qed.

Lemma stopped_at_view l z : stopped_at l z -> exists v, l !! Z.to_nat z = Some v /\ z = Z.of_nat (Z.to_nat z).
Proof. intros (v & Hv & _). apply zget_Some in Hv as [H0 Hv]. exists v. split; [done|lia]. Qed.

(** The loop as a step of the machine. *)
Lemma loop_refines d c pid st ok r ans l' :
  loop_end d c (selected pid (port_ids (ports st))) ok r ans (views st) l' ->
  spec_step (EvStart pid ok ans r (no_pool d c)) (Spec false (views st)) (Spec false l').
Proof.
  intros (Hnd & Ha & H).
  assert (Hasked : asked_stopped pid ans (views st)).
  { split; [done|]. intros z Hz. destruct (Ha z Hz) as [Hin Hs]. destruct (stopped_at_view _ _ Hs) as (v & Hv & Ez).
    exists (Z.to_nat z), v. split; [done|]. split; [done|]. apply (concerned_selected _ _ _ _ Hv). by rewrite <- Ez. }
  destruct ok.
  - destruct H as (_ & -> & Hall). apply spec_start; [done|]. intros i v _ Hv Hc.
    apply (concerned_selected _ _ _ _ Hv) in Hc as [? ?]. by apply Hall.
  - destruct H as [[-> ->]|(-> & pre & j & post & v & E & H1 & H2 & H3 & H4 & H5 & ->)]; [by apply spec_start_refused|].
    destruct (stopped_at_view (views st) j) as (w & Hw & Ej); [by exists v|]. pose proof H1 as Hz.
    apply zget_Some in H1 as [_ H1]. rewrite H1 in Hw. injection Hw as <-.
    assert (Hin : j ∈ selected pid (port_ids (ports st))) by (rewrite E; apply elem_of_app; right; left).
    apply spec_start_stuck; rewrite <- ?Ej; try done.
    + intros i vi Hlt Hv Hc. apply (concerned_selected _ _ _ _ Hv) in Hc as [Hi Hs]. apply H5; [|done].
      eapply selected_before; [exact E|done|lia].
    + apply (concerned_selected _ _ _ _ H1). rewrite <- Ej. split; [done|]. by exists v.
Qed.

(** A number that is no port concerns none. *)
Lemma invalid_unconcerned from pid st :
  port_id_is_invalid pid st = true -> forall i v, views st !! i = Some v -> ~ concerned from pid i v.
Proof.
  intros Hi i v Hv (Hch & He & _). unfold port_id_is_invalid in Hi.
  destruct (Z.eqb_spec pid RTE_PORT_ALL); [done|]. destruct Hch as [-> |]; [|done].
  assert (Hz : zget (views st) (Z.of_nat i) = Some v) by (apply zget_Some; rewrite Nat2Z.id; split; [lia|done]).
  rewrite zget_views in Hz. destruct (zget (ports st) (Z.of_nat i)) as [p|]; [|done]. injection Hz as <-.
  cbn in He. by rewrite He in Hi.
Qed.

Lemma start_refines d c pid st :
  spec_step (op_event d c (OpStart pid) st (start_port d c pid st).2) (abs st) (abs (start_port d c pid st).2).
Proof.
  cbn [op_event]. destruct (start_port_cases d c pid st) as
    [(Ht & ->)|[(Ht & Hi & ->)|[(Ht & Hf & H1 & Hk & Hc)|(Ht & Hf & st2 & Hk & Hc & ->)]]]; cbn [fst snd].
  - rewrite (new_calls_app st st []) by done. unfold abs. rewrite Ht. apply spec_start_busy.
  - rewrite (new_calls_app st st []) by done. unfold abs. rewrite Ht. cbn [negb start_answers Z.eqb].
    rewrite <- (start_effect_nil (views st)) at 2. apply spec_start; [split; [constructor|by intros z ?%not_elem_of_nil]|].
    intros i v _ Hv Hcn. by destruct (invalid_unconcerned _ _ _ Hi _ _ Hv Hcn).
  - rewrite (abs_kept _ _ Hk), (new_calls_app _ _ []) by done. rewrite H1, Hf. unfold abs. rewrite Ht. cbn [negb start_answers Z.eqb orb].
    rewrite <- (start_effect_nil (views st)) at 2. apply spec_start_refused. split; [constructor|by intros z ?%not_elem_of_nil].
  - rewrite Hf. cbn [orb]. rewrite <- (abs_kept _ _ Hk). destruct Hk as [_ T2].
    destruct (start_loop_spec d c (selected pid (port_ids (ports st2))) st2) as (new & C & T & H).
    { apply NoDup_filter, port_ids_NoDup. }
    rewrite Hc in C, H. rewrite (new_calls_app _ _ new) by done. unfold abs. rewrite T, T2, Ht. cbn [negb].
    set (lp := start_loop _ _ _ _) in *. apply loop_refines in H. by destruct lp.1.
Qed.

Lemma stop_one_test_done d st i : test_done (stop_one d st i) = test_done st.
Proof.
  unfold stop_one. pose proof (cmpset_test_done i STARTED HANDLING st) as Ht.
  destruct (cmpset i STARTED HANDLING st) as [[] st1]; cbn [negb snd] in *; [|done].
  unfold dpdk_do. by rewrite cmpset_test_done.
Qed.

Lemma close_one_test_done d st i : test_done (close_one d st i) = test_done st.
Proof.
  unfold close_one. pose proof (cmpset_test_done i CLOSED CLOSED st) as Ht.
  destruct (cmpset i CLOSED CLOSED st) as [[] st0]; cbn [negb snd] in *; [done|].
  pose proof (cmpset_test_done i STOPPED HANDLING st0) as Ht'.
  destruct (cmpset i STOPPED HANDLING st0) as [[] st1]; cbn [negb snd] in *; [|congruence].
  unfold dpdk_do. rewrite cmpset_test_done. cbn. congruence.
Qed.

Lemma foldl_test_done (f : pstate -> Z -> pstate) l st :
  (forall s i, test_done (f s i) = test_done s) -> test_done (foldl f st l) = test_done st.
Proof. intros Hf. revert st. induction l as [|i l IH]; intros st; [done|]. cbn [foldl]. by rewrite IH, Hf. Qed.

Lemma none_asked from pid st : port_id_is_invalid pid st = true -> all_asked from pid [] (views st).
Proof.
  intros Hi. split; [constructor|]. intros z. split; [by intros ?%not_elem_of_nil|]. intros (i & v & _ & Hv & Hc).
  by destruct (invalid_unconcerned _ _ _ Hi _ _ Hv Hc).
Qed.

Lemma none_moved from to pid st : port_id_is_invalid pid st = true -> imap (move_status from to pid) (views st) = views st.
Proof.
  intros Hi. apply list_eq. intros k. rewrite list_lookup_imap. destruct (views st !! k) as [v|] eqn:Hv; cbn; [|done].
  f_equal. unfold move_status. rewrite decide_False; [done|]. by eapply invalid_unconcerned.
Qed.

Lemma asked_stop_app l1 l2 : asked_stop (l1 ++ l2) = asked_stop l1 ++ asked_stop l2.
Proof. apply omap_app. Qed.
Lemma asked_close_app l1 l2 : asked_close (l1 ++ l2) = asked_close l1 ++ asked_close l2.
Proof. apply omap_app. Qed.

Lemma stop_refines d c pid st :
  spec_step (op_event d c (OpStop pid) st (stop_port d pid st)) (abs st) (abs (stop_port d pid st)).
Proof.
  cbn [op_event]. unfold stop_port. destruct (test_done st) eqn:Ht; cbn [negb].
  2: { rewrite (new_calls_app st st []) by done. unfold abs. rewrite Ht. apply spec_stop_busy. }
  set (st2 := if dcb_test st then _ else _).
  assert (H2 : kept st st2 /\ calls st2 = calls st) by (unfold st2; by destruct (dcb_test st)).
  destruct H2 as [H2 Hc]. clearbody st2. rewrite <- (abs_kept _ _ H2). assert (Ht2 : test_done st2 = true) by (destruct H2; congruence).
  destruct (port_id_is_invalid pid st2) eqn:Hi.
  - rewrite (new_calls_app st st2 []) by done. unfold abs. rewrite Ht2. cbn [negb].
    rewrite <- (none_moved STARTED STOPPED _ _ Hi) at 2. apply spec_stop. by apply none_asked.
  - destruct (foldl_all_asked (stop_one d) STARTED STOPPED DevStop asked_stop (views_stop_one d)
      (stop_one_calls d) ltac:(done) eq_refl asked_stop_app pid st2) as (new & E & Ha).
    rewrite Hc in E. rewrite (new_calls_app st _ new E). unfold abs. rewrite foldl_test_done by apply stop_one_test_done.
    rewrite (foldl_spec _ STARTED STOPPED) by (apply views_stop_one || done). rewrite Ht2. by apply spec_stop.
Qed.

Lemma close_refines d c pid st :
  spec_step (op_event d c (OpClose pid) st (close_port d pid st)) (abs st) (abs (close_port d pid st)).
Proof.
  cbn [op_event]. unfold close_port. destruct (test_done st) eqn:Ht; cbn [negb].
  2: { rewrite (new_calls_app st st []) by done. unfold abs. rewrite Ht. apply spec_close_busy. }
  destruct (port_id_is_invalid pid st) eqn:Hi.
  - rewrite (new_calls_app st st []) by done. unfold abs. rewrite Ht. cbn [negb].
    rewrite <- (none_moved STOPPED CLOSED _ _ Hi) at 2. apply spec_close. by apply none_asked.
  - destruct (foldl_all_asked (close_one d) STOPPED CLOSED DevClose asked_close (views_close_one d)
      (close_one_calls d) ltac:(done) eq_refl asked_close_app pid st) as (new & E & Ha).
    rewrite (new_calls_app st _ new E). unfold abs. rewrite foldl_test_done by apply close_one_test_done.
    rewrite (foldl_spec _ STOPPED CLOSED) by (apply views_close_one || done). rewrite Ht. by apply spec_close.
Qed.

Lemma foldl_kept {A} (f : pstate -> A -> pstate) l st : (forall s x, kept s (f s x)) -> kept st (foldl f st l).
Proof. intros Hf. revert st. induction l as [|x l IH]; intros st; [done|]. eapply kept_trans; [apply Hf|apply IH]. Qed.

Lemma reconfig_kept d c pi s st : kept st (reconfig d c pi s st).
Proof.
  unfold reconfig, init_port_config. eapply kept_trans; [|apply foldl_kept; intros; by apply upd_kept].
  by apply upd_kept.
Qed.

(** Changing the view of one port. *)
Lemma views_alter pi f (g : pview -> pview) st :
  (forall p, view (f p) = g (view p)) -> views (upd_port pi f st) = alter g (Z.to_nat pi) (views st).
Proof. intros Hf. unfold views, upd_port. cbn. apply (list_fmap_alter _ _ g). by apply Forall_forall. Qed.

Lemma alter_insert_view g i (l : list pview) v : l !! i = Some v -> alter g i l = <[i := g v]> l.
Proof.
  intros Hv. apply list_eq. intros k. destruct (decide (k = i)) as [->|].
  - rewrite list_lookup_alter_eq, Hv. symmetry. apply list_lookup_insert_eq. by eapply lookup_lt_Some.
  - by rewrite list_lookup_alter_ne, list_lookup_insert_ne by done.
Qed.

Lemma attach_refines d c name st st' :
  attach_port d c name st = Done st' -> spec_step (op_event d c (OpAttach name) st st') (abs st) (abs st').
Proof.
  cbn [op_event]. unfold attach_port. destruct name as [name|]; cbn [mbind option_bind]; [|intros [= <-]; apply spec_attach_not; by left].
  destruct (test_done st) eqn:Ht; cbn [negb]; [|intros [= <-]; apply spec_attach_not; right; cbn; by rewrite Ht].
  unfold dpdk_do. destruct (diag d _ =? 0); cbn [negb]; [|intros [= <-]; apply spec_attach_not; by left].
  set (st1 := set_calls _ st). change (attached_port d (calls st1)) with (attached_port d (DevAttach name :: calls st)).
  set (pi := attached_port d _). intros E. apply outcome_bind_Done in E as (p & Hp & E).
  destruct (zget (ports st1) pi) as [p'|] eqn:Hz; [|done]. clear Hp.
  set (st2 := upd_port pi (with_enabled true) st1) in E.
  pose proof (reconfig_kept d c pi (u32 (dev_socket_id d pi)) st2) as [V3 T3].
  set (st3 := reconfig d c pi (u32 (dev_socket_id d pi)) st2) in *. clearbody st3. injection E as <-. unfold abs.
  rewrite (views_alter _ _ (v_set STOPPED)) by done. cbn [upd_port set_ports test_done set_fwd_ports set_calls].
  change (views (set_fwd_ports _ _ _ _ _)) with (views st3). rewrite T3, V3. unfold st2.
  rewrite (views_alter _ _ (fun v => PView (v_status v) true (v_slave v))) by done.
  change (views st1) with (views st). change (test_done (upd_port pi (with_enabled true) st1)) with (test_done st).
  rewrite Ht. cbn [negb]. assert (Hzv : zget (views st) pi = Some (view p')) by (rewrite zget_views; cbn in Hz; by rewrite Hz).
  pose proof Hzv as [_ Hv]%zget_Some.
  rewrite (alter_insert_view _ _ _ _ Hv), (alter_insert_view _ _ _ (PView (port_status p') true (slave_flag p'))).
  - rewrite list_insert_insert_eq. apply (spec_attach _ _ _ Hzv).
  - apply list_lookup_insert_eq. by eapply lookup_lt_Some.
Qed.

Lemma detach_refines d c pid st st' :
  detach_port d pid st = Done st' -> spec_step (op_event d c (OpDetach pid) st st') (abs st) (abs st').
Proof.
  cbn [op_event]. unfold detach_port. intros E. apply outcome_bind_Done in E as (cl & Hcl & E). unfold port_is in Hcl.
  destruct (port_id_is_invalid pid st) eqn:Hinv.
  { injection Hcl as <-. injection E as <-. apply spec_detach_not. right. intros (v & Hz & Hor & _). cbn in Hz.
    unfold port_id_is_invalid in Hinv. destruct (Z.eqb_spec pid RTE_PORT_ALL); [done|]. destruct Hor as [He|]; [|done].
    rewrite zget_views in Hz. destruct (zget (ports st) pid) as [p|]; [|done]. injection Hz as <-. cbn in He. by rewrite He in Hinv. }
  apply outcome_bind_Done in Hcl as (p & Hp & Hcl). destruct (zget (ports st) pid) as [p'|] eqn:Hz; [|done].
  injection Hp as ->. injection Hcl as <-. assert (Hzv : zget (views st) pid = Some (view p)) by (by rewrite zget_views, Hz).
  destruct (bool_decide_reflect (port_status p = CLOSED)) as [Hs|Hs]; cbn [negb] in E.
  2: { injection E as <-. apply spec_detach_not. right. intros (v & Hz' & _ & Hs'). cbn in Hz'. rewrite Hzv in Hz'.
    by injection Hz' as <-. }
  unfold dpdk_do in E. destruct (diag d _ =? 0); cbn [negb] in E; injection E as <-; [|apply spec_detach_not; by left].
  unfold abs. cbn [set_fwd_ports test_done upd_port set_ports set_calls].
  change (views (set_fwd_ports ?a ?b ?e ?f ?s)) with (views s).
  rewrite (views_alter _ _ (fun v => PView (v_status v) false (v_slave v))) by done.
  change (views (set_calls _ st)) with (views st). pose proof Hzv as [_ Hv]%zget_Some.
  rewrite (alter_insert_view _ _ _ _ Hv). cbn [view v_status]. rewrite Hs. apply (spec_detach _ _ _ _ Hzv).
  exists (view p). split; [done|]. split; [|done]. unfold port_id_is_invalid in Hinv.
  destruct (Z.eqb_spec pid RTE_PORT_ALL) as [->|]; [by right|left]. rewrite Hz in Hinv. by apply negb_false_iff.
Qed.

Lemma run_op_refines d c o st st' : run_op d st (c, o) = Done st' -> spec_step (op_event d c o st st') (abs st) (abs st').
Proof.
  destruct o; cbn [run_op].
  - intros [= <-]. apply start_refines.
  - intros [= <-]. apply stop_refines.
  - intros [= <-]. apply close_refines.
  - apply attach_refines.
  - apply detach_refines.
  - intros [= <-]. cbn [op_event]. unfold set_port_slave_flag, abs.
    rewrite (views_alter _ _ (fun v => PView (v_status v) (v_enabled v) b)) by done. apply spec_slave.
Qed.

(** ** Starting and stopping to forward *)

(** Distributing the streams keeps the views. *)
Lemma fwd_config_setup_kept d c nb topo dcb icmpecho st st' :
  fwd_config_setup d c nb topo dcb icmpecho st = Done st' -> kept (pst st) (pst st').
Proof.
  pose proof (init_fwd_streams_kept d c (pst st)) as Hk.
  assert (H : fwd_config_setup d c nb topo dcb icmpecho st = Done st' ->
    exists l, pst st' = set_fwd_streams l (init_fwd_streams d c (pst st)).2).
  { unfold fwd_config_setup. destruct icmpecho; [|destruct (_ && _); [destruct (dcb_config (pst st))|]].
    - unfold icmp_echo_config_setup. intros E. inv_outcome. subst st'. eauto.
    - unfold dcb_fwd_config_setup. intros E. inv_outcome. case_match. inv_outcome. subst st'. eauto.
    - unfold rss_fwd_config_setup. destruct (nb <? _); cbv beta iota zeta; intros E; inv_outcome; subst st'; eauto.
    - unfold simple_fwd_config_setup. intros E. inv_outcome. subst st'. eauto. }
  intros E. destruct (H E) as [l ->]. done.
Qed.

Lemma may_start_all nb st : may_start nb st = Done true -> all_ports_started (pst st) = true /\ test_done (pst st) = true.
Proof.
  unfold may_start. destruct (all_ports_started (pst st)); cbn [negb]; [|done].
  destruct (test_done (pst st)); cbn [negb]; [done|done].
Qed.

Lemma all_started_views st : all_ports_started st = true -> all_started (views st).
Proof.
  rewrite all_ports_started_spec. intros Hs i v Hv He.
  assert (Hz : zget (views st) (Z.of_nat i) = Some v) by (apply zget_Some; rewrite Nat2Z.id; split; [lia|done]).
  rewrite zget_views in Hz. destruct (zget (ports st) (Z.of_nat i)) as [p|] eqn:Hp; [|done]. injection Hz as <-.
  by apply (Hs _ _ Hp).
Qed.

Section Refines.
Context `{Ethdev} (d : dpdk) (fwd_eng tx_eng : engine) `{Hfwd : !EngineOk fwd_eng} `{Htx : !EngineOk tx_eng}.

Lemma launched_abs st st' : launched st st' -> abs_state st' = abs_state st.
Proof. intros Hl. destruct (la_pst _ _ Hl) as [l E]. unfold abs_state. by rewrite E. Qed.

Lemma begin_refines c nb topo dcb icmpecho txl rxl ans nf fuel get0 st st1 :
  start_prepare d c nb topo dcb icmpecho txl rxl ans nf fuel get0 st = Done (Some st1) ->
  spec_step EvBegin (abs_state st) (abs_state st1).
Proof.
  intros E. destruct (start_prepare_spec _ _ _ _ _ _ _ _ _ _ _ _ _ _ E) as (f & st0 & Hf & _ & _ & _ & _ & _ & _ & l & _ & Hp).
  apply fwd_config_setup_kept in Hf as [Hv Ht]. cbn [pst with_pst] in Hv, Ht.
  unfold start_prepare in E. apply outcome_bind_Done in E as (ok & Hok & E). destruct ok; [|done].
  apply may_start_all in Hok as [Hall Hdone]. apply all_started_views in Hall.
  unfold abs_state, abs. rewrite Hp, Hdone. change (test_done (set_fwd_streams l (pst f))) with (test_done (pst f)).
  change (views (set_fwd_streams l (pst f))) with (views (pst f)). rewrite Hv, Ht. by apply spec_begin.
Qed.

Lemma stop_account_abs e csum get st st' t reports :
  stop_account e csum get st = Done (st', t, reports) -> abs_state st' = Spec false (view_ports (abs_state st)).
Proof.
  unfold stop_account. intros E. apply outcome_bind_Done in E as (l & _ & E).
  apply outcome_bind_Done in E as ([[l' t'] r'] & _ & [= <- _ _]). by destruct (port_fwd_end e).
Qed.

Lemma session_step_spec e st st' :
  session_step d fwd_eng tx_eng e st st' -> spec_step e (abs_state st) (abs_state st').
Proof.
  destruct 1 as [c o st ps' E | c nb topo dcb icmpecho txl rxl ans nf fuel get0 first sched cpuids on acc st st1 st2 E1 E2
    | k st st' E | csum get sched st st1 st2 st3 total reports E1 E2 E3 E4].
  - apply run_op_refines in E. exact E.
  - destruct (start_workers_launched _ _ _ _ _ _ _ _ _ Hfwd Htx E2) as [Hl _]. rewrite (launched_abs _ _ Hl).
    by eapply begin_refines.
  - destruct (core_step_spec _ _ Hfwd Htx _ _ _ E) as [Hw _]. rewrite (launched_abs _ _ (workers_launched _ _ Hw)).
    apply spec_core.
  - rewrite (stop_account_abs _ _ _ _ _ _ _ E4), (launched_abs _ _ (workers_launched _ _ (run_cores_only _ _ Hfwd Htx _ _ _ E2))).
    unfold stop_signal in E1. destruct (all_ports_started (pst (rs_fwd st))) eqn:Hall; cbn [negb] in E1; [|done].
    destruct (test_done (pst (rs_fwd st))) eqn:Hd; [done|]. apply outcome_bind_Done in E1 as (? & _ & [= <-]).
    cbn [abs_state view_ports abs]. unfold abs_state at 1, abs. rewrite Hd. apply spec_end. by apply all_started_views.
Qed.
End Refines.

(** Steps of the abstract machine while packets are forwarded. *)
Lemma spec_step_frozen e s s' :
  spec_step e s s' -> forwarding s = true -> forwarding s' = true ->
  v_status <$> view_ports s' = v_status <$> view_ports s.
Proof.
  destruct 1 as [| | | | | | | | | |pid b l v Hz (w & Hw & _ & Hs)| | | | |]; cbn; try done; intros _ _.
  - rewrite Hz in Hw. injection Hw as <-. apply zget_Some in Hz as [_ Hz]. rewrite list_fmap_insert. apply list_insert_id.
    rewrite list_lookup_fmap, Hz. cbn. by rewrite Hs.
  - rewrite (list_fmap_alter _ _ id); [by rewrite list_alter_id|]. by apply Forall_forall.
Qed.

(** An event and a state determine the next state: two starts that fail
    without a refusal are stuck at the same port. *)
Lemma stuck_port_unique pid answers l i j v w :
  answered_below pid answers j l -> l !! i = Some v -> concerned STOPPED pid i v -> Z.of_nat i ∉ answers.*1 ->
  answered_below pid answers i l -> l !! j = Some w -> concerned STOPPED pid j w -> Z.of_nat j ∉ answers.*1 -> i = j.
Proof.
  intros Hj Hi Hci Hni Hi' Hjj Hcj Hnj. destruct (Nat.lt_trichotomy i j) as [H|[H|H]]; [|done|].
  - by destruct Hni; eapply Hj.
  - by destruct Hnj; eapply Hi'.
Qed.

Lemma spec_step_det e s s1 s2 : spec_step e s s1 -> spec_step e s s2 -> s1 = s2.
Proof.
  destruct 1 as [| | |pid answers np l j v Ha Hb Hj Hc Hn _| | | | | | | | | | | |]; inversion 1; subst; try done; cbn in *;
    simplify_eq; try naive_solver.
  match goal with Hb' : answered_below _ _ ?j' _, Hj' : _ !! ?j' = Some _, Hc' : concerned _ _ ?j' _, Hn' : Z.of_nat ?j' ∉ _ |- _ =>
    lazymatch j' with j => fail | _ => pose proof (stuck_port_unique pid answers l j j' _ _ Hb' Hj Hc Hn Hb Hj' Hc' Hn') end end.
  by simplify_eq.
Qed.

(** ** Properties *)

(** C5: the program implements the abstract machine: whatever the devices
    answer and however the steps of the cores are interleaved, every session
    of port commands, starts and stops is one of the machine with the same
    events, that is with the same commands, the same devices asked and the
    same answers.  The machine is deterministic, so these determine after
    every command which ports are started, stopped, closed, attached and left
    half-way: a port is started exactly if its device was asked and started,
    a start that succeeds has asked every stopped port it is for, one that
    fails had something refused or found no memory pool. *)
Theorem session_refines `{Ethdev} d fwd_eng tx_eng (Hfwd : EngineOk fwd_eng) (Htx : EngineOk tx_eng) events st st'
    (Hrun : trace (session_step d fwd_eng tx_eng) events st st') :
  trace spec_step events (abs_state st) (abs_state st') /\
  forall s, trace spec_step events (abs_state st) s -> s = abs_state st'.
Proof.
  induction Hrun as [|e es st1 st2 st3 H12 _ [IH1 IH2]].
  - split; [constructor|]. by inversion 1.
  - apply (session_step_spec d fwd_eng tx_eng) in H12. split; [by econstructor|]. inversion 1; subst. apply IH2.
    by erewrite (spec_step_det _ _ (abs_state st2)).
Qed.

(** A step of a session during which packets are forwarded. *)
Definition busy_step `{Ethdev} d fwd_eng tx_eng (st st' : run_state) : Prop :=
  (exists e, session_step d fwd_eng tx_eng e st st') /\ forwarding (abs_state st) = true /\ forwarding (abs_state st') = true.

(** C14: while packets are forwarded no command changes the status of a
    port: the cores never poll a port that was stopped or closed under them. *)
Theorem forwarding_freezes_ports `{Ethdev} d fwd_eng tx_eng (Hfwd : EngineOk fwd_eng) (Htx : EngineOk tx_eng) st st'
    (Hrun : rtc (busy_step d fwd_eng tx_eng) st st') :
  port_status <$> ports (pst (rs_fwd st')) = port_status <$> ports (pst (rs_fwd st)).
Proof.
  assert (E : forall s : run_state, port_status <$> ports (pst (rs_fwd s)) = v_status <$> view_ports (abs_state s)).
  { intros s. cbn. unfold views. rewrite <- list_fmap_compose. done. }
  induction Hrun as [|st1 st2 st3 ([e H12] & F1 & F2) _ IH]; [done|]. rewrite IH, !E.
  apply (spec_step_frozen e); [|done|done]. by eapply (session_step_spec d fwd_eng tx_eng).
Qed.

(** ** Examples *)

#[local] Existing Instance sample_ethdev.
#[local] Existing Instance sample_io_ok.

Definition ended : run_state :=
  match stop_account sample_io false get_stop ss5 with Done (s, _, _) => s | _ => sample_run end.
(** The state after trying to stop the ports while packets are forwarded. *)
Definition tried : run_state :=
  set_fwd (with_pst (fun _ => stop_port sample_dpdk RTE_PORT_ALL (pst (rs_fwd ss3))) (rs_fwd ss3)) ss3.

(** All ports are stopped after the forwarding, and port 0 started again. *)
Definition stopped_pst : pstate := stop_port sample_dpdk RTE_PORT_ALL (pst (rs_fwd ended)).
Definition stopped : run_state := set_fwd (with_pst (fun _ => stopped_pst) (rs_fwd ended)) ended.
Definition restarted_pst : pstate := (start_port sample_dpdk (sample_config 255) 0 (pst (rs_fwd stopped))).2.
Definition restarted : run_state := set_fwd (with_pst (fun _ => restarted_pst) (rs_fwd stopped)) stopped.

Lemma sample_start : session_step sample_dpdk sample_io sample_io EvBegin sample_run ss2.
Proof.
  eapply (step_start sample_dpdk sample_io sample_io (sample_config 255) 2 PAIRED no_dcb false [] [] (fun _ => 0) true 3
    get_start true [0; 1; 1; 0]%nat [5; 6] (fun _ => true) (fun _ => true) sample_run ss1 ss2); vm_compute; reflexivity.
Qed.

Lemma sample_end : session_step sample_dpdk sample_io sample_io EvEnd ss2 ended.
Proof.
  destruct (stop_account sample_io false get_stop (run_of (run_cores sample_io sample_io [0; 1; 1; 0]%nat (state_of (stop_signal ss2)))))
    as [[[st6 total] reports]| |] eqn:E; [|vm_compute in E; discriminate E..].
  assert (E6 : st6 = ended) by (vm_compute in E; injection E as <- _ _; vm_compute; reflexivity).
  rewrite <- E6.
  eapply (step_stop sample_dpdk sample_io sample_io false get_stop [0; 1; 1; 0]%nat ss2 (state_of (stop_signal ss2))
    (run_of (run_cores sample_io sample_io [0; 1; 1; 0]%nat (state_of (stop_signal ss2))))); [..|exact E];
    vm_compute; reflexivity.
Qed.

Lemma session_refines_witness :
  trace spec_step [EvBegin; EvEnd; EvStop RTE_PORT_ALL [1; 0]; EvStart 0 true [(0, true)] false (no_pool sample_dpdk (sample_config 255))]
    (abs_state sample_run) (abs_state restarted) /\
  v_status <$> view_ports (abs_state restarted) = [STARTED; STOPPED].
Proof.
  split; [|vm_compute; reflexivity].
  refine (proj1 (session_refines sample_dpdk sample_io sample_io sample_io_ok sample_io_ok _ sample_run restarted _)).
  econstructor; [exact sample_start|]. econstructor; [exact sample_end|].
  assert (E1 : op_event sample_dpdk (sample_config 255) (OpStop RTE_PORT_ALL) (pst (rs_fwd ended)) stopped_pst =
    EvStop RTE_PORT_ALL [1; 0]) by (vm_compute; reflexivity).
  assert (E2 : op_event sample_dpdk (sample_config 255) (OpStart 0) (pst (rs_fwd stopped)) restarted_pst =
    EvStart 0 true [(0, true)] false (no_pool sample_dpdk (sample_config 255))) by (vm_compute; reflexivity).
  rewrite <- E1, <- E2. econstructor.
  - exact (step_port sample_dpdk sample_io sample_io (sample_config 255) (OpStop RTE_PORT_ALL) ended stopped_pst eq_refl).
  - econstructor; [|constructor].
    exact (step_port sample_dpdk sample_io sample_io (sample_config 255) (OpStart 0) stopped restarted_pst eq_refl).
Defined.

Lemma forwarding_freezes_ports_witness :
  port_status <$> ports (pst (rs_fwd tried)) = [STARTED; STARTED].
Proof.
  rewrite (forwarding_freezes_ports sample_dpdk sample_io sample_io sample_io_ok sample_io_ok ss3 tried).
  - vm_compute. reflexivity.
  - apply rtc_once. split; [|split; vm_compute; reflexivity]. eexists.
    exact (step_port sample_dpdk sample_io sample_io (sample_config 255) (OpStop RTE_PORT_ALL) ss3
      (stop_port sample_dpdk RTE_PORT_ALL (pst (rs_fwd ss3))) eq_refl).
Defined.
