(* ===== verification/CsumOnly.v ===== *)
(** * test-pmd/csumonly.c: recomputing the checksums of packets

    The engine dissects each packet, also through one tunnel, changes its
    source addresses, recomputes the checksums of all layers or leaves them to
    the device, and may copy the packet into several segments.  A pointer into
    a packet is an offset into the buffer of its head segment; types of
    Ethernet frames are kept in host order.  DPDK's checksum functions and
    packet flags are parameters (class [Cksums]); the output with verbose
    level is not part of the model. *)

From S2P Require Import Prelude Packet FwdEngines Checksum FwdRun.

(** ** Data *)

Definition IPPROTO_IPIP : Z := 4.
Definition IPPROTO_TCP : Z := 6.
Definition IPPROTO_UDP : Z := 17.
Definition IPPROTO_GRE : Z := 47.
Definition IPPROTO_SCTP : Z := 132.
Definition ETHER_TYPE_TEB : Z := 25944.
Definition ETHER_VXLAN_HLEN : Z := 16.

Definition GRE_KEY_PRESENT : Z := 8192.
Definition GRE_KEY_LEN : Z := 4.
Definition GRE_SUPPORTED_FIELDS : Z := GRE_KEY_PRESENT.

(** [struct testpmd_offload_info]; [i_l4_len] is its [l4_len], and so on. *)
Record offload_info : Type := OffloadInfo {
  ethertype : Z;
  i_l2_len : Z;
  i_l3_len : Z;
  i_l4_len : Z;
  l4_proto : Z;
  is_tunnel : bool;
  outer_ethertype : Z;
  i_outer_l2_len : Z;
  i_outer_l3_len : Z;
  outer_l4_proto : Z;
  i_tso_segsz : Z;
}.

(** The functions of DPDK that compute checksums, given a buffer and the
    offsets of the headers in it, its test for tunnel packets, and its flags. *)
Class Cksums := {
  rte_ipv4_cksum : list Z -> Z -> Z;
  rte_ipv4_phdr_cksum : list Z -> Z -> Z -> Z;
  rte_ipv6_phdr_cksum : list Z -> Z -> Z -> Z;
  rte_ipv4_udptcp_cksum : list Z -> Z -> Z -> Z;
  rte_ipv6_udptcp_cksum : list Z -> Z -> Z -> Z;
  is_tunnel_pkt : Z -> bool;
  PKT_TX_IPV4 : Z;
  PKT_TX_IPV6 : Z;
  PKT_TX_IP_CKSUM : Z;
  PKT_TX_UDP_CKSUM : Z;
  PKT_TX_TCP_CKSUM : Z;
  PKT_TX_TCP_SEG : Z;
  PKT_TX_SCTP_CKSUM : Z;
  PKT_TX_OUTER_IPV4 : Z;
  PKT_TX_OUTER_IPV6 : Z;
  PKT_TX_OUTER_IP_CKSUM : Z;
  PKT_RX_IP_CKSUM_BAD : Z;
  PKT_RX_L4_CKSUM_BAD : Z;
}.

Definition with_l3 (l3 l4 proto : Z) (i : offload_info) : offload_info :=
  OffloadInfo (ethertype i) (i_l2_len i) l3 l4 proto (is_tunnel i) (outer_ethertype i) (i_outer_l2_len i)
    (i_outer_l3_len i) (outer_l4_proto i) (i_tso_segsz i).
Definition with_l2 (t l2 : Z) (i : offload_info) : offload_info :=
  OffloadInfo t l2 (i_l3_len i) (i_l4_len i) (l4_proto i) (is_tunnel i) (outer_ethertype i) (i_outer_l2_len i)
    (i_outer_l3_len i) (outer_l4_proto i) (i_tso_segsz i).
Definition with_tunnel (b : bool) (i : offload_info) : offload_info :=
  OffloadInfo (ethertype i) (i_l2_len i) (i_l3_len i) (i_l4_len i) (l4_proto i) b (outer_ethertype i)
    (i_outer_l2_len i) (i_outer_l3_len i) (outer_l4_proto i) (i_tso_segsz i).
(** The layers found so far become the outer ones; [p] is the new
    [outer_l4_proto]. *)
Definition enter_tunnel (p : Z) (i : offload_info) : offload_info :=
  OffloadInfo (ethertype i) (i_l2_len i) (i_l3_len i) (i_l4_len i) (l4_proto i) true (ethertype i)
    (i_l2_len i) (i_l3_len i) p (i_tso_segsz i).

(** ** Dissecting *)

(** The length of a TCP header. *)
Definition tcp_len (b : list Z) (o : Z) : outcome Z :=
  data_off ← rd8 b (o + 12); Done (Z.shiftr (Z.land data_off 240) 2).

Definition l4_len_at (b : list Z) (o proto : Z) : outcome Z :=
  if proto =? IPPROTO_TCP then tcp_len b o else Done 0.

Definition parse_ipv4 (b : list Z) (o : Z) (i : offload_info) : outcome offload_info :=
  version_ihl ← rd8 b o;
  let l3 := Z.land version_ihl 15 * 4 in
  proto ← rd8 b (o + 9);
  l4 ← l4_len_at b (o + l3) proto;
  Done (with_l3 l3 l4 proto i).

Definition parse_ipv6 (b : list Z) (o : Z) (i : offload_info) : outcome offload_info :=
  proto ← rd8 b (o + 6);
  l4 ← l4_len_at b (o + 40) proto;
  Done (with_l3 40 l4 proto i).

Definition parse_ethernet (b : list Z) (o : Z) (i : offload_info) : outcome offload_info :=
  t ← rd_be16 b (o + 12);
  '(t, l2) ← (if t =? ETHER_TYPE_VLAN then t ← rd_be16 b (o + 16); Done (t, 18) else Done (t, 14));
  let i := with_l2 t l2 i in
  if t =? ETHER_TYPE_IPv4 then parse_ipv4 b (o + l2) i
  else if t =? ETHER_TYPE_IPv6 then parse_ipv6 b (o + l2) i
  else Done (with_l3 0 0 0 i).

Section Dissect.
Context `{Cksums}.

(** The UDP header is at [o]. *)
Definition parse_vxlan (b : list Z) (o pkt_type : Z) (i : offload_info) : outcome offload_info :=
  dst_port ← rd_be16 b (o + 2);
  if negb (dst_port =? 4789) && negb (is_tunnel_pkt pkt_type) then Done i
  else
    i ← parse_ethernet b (o + 16) (enter_tunnel (l4_proto i) i);
    Done (with_l2 (ethertype i) (i_l2_len i + ETHER_VXLAN_HLEN) i).

Definition parse_gre (b : list Z) (o : Z) (i : offload_info) : outcome offload_info :=
  flags ← rd_be16 b o;
  if negb (Z.land flags (u16 (Z.lnot GRE_SUPPORTED_FIELDS)) =? 0) then Done i
  else
    let gre_len := if has_flag flags GRE_KEY_PRESENT then 4 + GRE_KEY_LEN else 4 in
    proto ← rd_be16 b (o + 2);
    let out := enter_tunnel (l4_proto i) i in
    r ← (if proto =? ETHER_TYPE_IPv4 then
           i ← parse_ipv4 b (o + gre_len) out; Done (Some (with_l2 ETHER_TYPE_IPv4 0 i))
         else if proto =? ETHER_TYPE_IPv6 then
           i ← parse_ipv6 b (o + gre_len) out; Done (Some (with_l2 ETHER_TYPE_IPv6 0 i))
         else if proto =? ETHER_TYPE_TEB then
           i ← parse_ethernet b (o + gre_len) out; Done (Some i)
         else Done None);
    match r with
    | Some i => Done (with_l2 (ethertype i) (i_l2_len i + gre_len) i)
    | None => Done i
    end.

(** [parse_encap_ip] leaves [outer_l4_proto] as it was. *)
Definition parse_encap_ip (b : list Z) (o : Z) (i : offload_info) : outcome offload_info :=
  version_ihl ← rd8 b o;
  let ip_version := Z.shiftr (Z.land version_ihl 240) 4 in
  if negb (ip_version =? 4) && negb (ip_version =? 6) then Done i
  else
    let out := enter_tunnel (outer_l4_proto i) i in
    if ip_version =? 4 then i ← parse_ipv4 b o out; Done (with_l2 ETHER_TYPE_IPv4 0 i)
    else i ← parse_ipv6 b o out; Done (with_l2 ETHER_TYPE_IPv6 0 i).

(** Step 1: the information, and the offsets of the IP header and of the outer
    one. *)
Definition dissect (b : list Z) (ol_flags pkt_type : Z) (i : offload_info) : outcome (offload_info * Z * Z) :=
  i ← parse_ethernet b 0 (with_tunnel false i);
  let l3 := i_l2_len i in
  i ← (if has_flag ol_flags TESTPMD_TX_OFFLOAD_PARSE_TUNNEL then
         if l4_proto i =? IPPROTO_UDP then parse_vxlan b (l3 + i_l3_len i) pkt_type i
         else if l4_proto i =? IPPROTO_GRE then parse_gre b (l3 + i_l3_len i) i
         else if l4_proto i =? IPPROTO_IPIP then parse_encap_ip b (l3 + i_l3_len i) i
         else Done i
       else Done i);
  Done (i, if is_tunnel i then l3 + i_outer_l3_len i + i_l2_len i else l3, l3).

(** ** Changing addresses and checksums *)

(** The source address of the IP header at [o], plus one. *)
Definition change_ip_addresses (o t : Z) (b : list Z) : outcome (list Z) :=
  if t =? ETHER_TYPE_IPv4 then
    src ← of_opt (rd b (o + 12) 4); of_opt (wr b (o + 12) (be32 (u32 (of_be32 src + 1))))
  else if t =? ETHER_TYPE_IPv6 then
    x ← rd8 b (o + 23); of_opt (wr b (o + 23) [u8 (x + 1)])
  else Done b.

Definition get_psd_sum (b : list Z) (l3 t ol_flags : Z) : Z :=
  if t =? ETHER_TYPE_IPv4 then rte_ipv4_phdr_cksum b l3 ol_flags else rte_ipv6_phdr_cksum b l3 ol_flags.

Definition get_udptcp_checksum (b : list Z) (l3 l4 t : Z) : Z :=
  if t =? ETHER_TYPE_IPv4 then rte_ipv4_udptcp_cksum b l3 l4 else rte_ipv6_udptcp_cksum b l3 l4.

(** The checksum field of the IPv4 header at [o]. *)
Definition inner_ip (b : list Z) (o : Z) (i : offload_info) (fl : Z) : outcome (list Z * Z) :=
  b ← of_opt (wr b (o + 10) [0; 0]);
  if (negb (i_tso_segsz i =? 0) && (l4_proto i =? IPPROTO_TCP)) || has_flag fl TESTPMD_TX_OFFLOAD_IP_CKSUM
  then Done (b, Z.lor PKT_TX_IPV4 PKT_TX_IP_CKSUM)
  else b ← of_opt (wr b (o + 10) (le16 (rte_ipv4_cksum b o))); Done (b, PKT_TX_IPV4).

(** The checksum of the UDP, TCP or SCTP header at [l4]; [ol] are the flags
    so far. *)
Definition inner_l4 (b : list Z) (l3 l4 : Z) (i : offload_info) (fl ol : Z) : outcome (list Z * Z) :=
  let t := ethertype i in
  if l4_proto i =? IPPROTO_UDP then
    old ← of_opt (rd b (l4 + 6) 2);
    if of_le16 old =? 0 then Done (b, ol)
    else
      b ← of_opt (wr b (l4 + 6) [0; 0]);
      if has_flag fl TESTPMD_TX_OFFLOAD_UDP_CKSUM then
        let ol := Z.lor ol PKT_TX_UDP_CKSUM in
        b ← of_opt (wr b (l4 + 6) (le16 (get_psd_sum b l3 t ol))); Done (b, ol)
      else b ← of_opt (wr b (l4 + 6) (le16 (get_udptcp_checksum b l3 l4 t))); Done (b, ol)
  else if l4_proto i =? IPPROTO_TCP then
    b ← of_opt (wr b (l4 + 16) [0; 0]);
    if negb (i_tso_segsz i =? 0) then
      let ol := Z.lor ol PKT_TX_TCP_SEG in
      b ← of_opt (wr b (l4 + 16) (le16 (get_psd_sum b l3 t ol))); Done (b, ol)
    else if has_flag fl TESTPMD_TX_OFFLOAD_TCP_CKSUM then
      let ol := Z.lor ol PKT_TX_TCP_CKSUM in
      b ← of_opt (wr b (l4 + 16) (le16 (get_psd_sum b l3 t ol))); Done (b, ol)
    else b ← of_opt (wr b (l4 + 16) (le16 (get_udptcp_checksum b l3 l4 t))); Done (b, ol)
  else if l4_proto i =? IPPROTO_SCTP then
    b ← of_opt (wr b (l4 + 8) [0; 0; 0; 0]);
    if has_flag fl TESTPMD_TX_OFFLOAD_SCTP_CKSUM then
      total_length ← of_opt (rd b (l3 + 2) 2);
      Done (b, if Z.land (of_le16 total_length) 3 =? 0 then Z.lor ol PKT_TX_SCTP_CKSUM else ol)
    else Done (b, ol)
  else Done (b, ol).

(** The buffer, and the flags for the device. *)
Definition process_inner_cksums (b : list Z) (o : Z) (i : offload_info) (fl : Z) : outcome (list Z * Z) :=
  if ethertype i =? ETHER_TYPE_IPv4 then
    '(b, ol) ← inner_ip b o i fl; inner_l4 b o (o + i_l3_len i) i fl ol
  else if ethertype i =? ETHER_TYPE_IPv6 then inner_l4 b o (o + i_l3_len i) i fl PKT_TX_IPV6
  else Done (b, 0).

Definition process_outer_cksums (b : list Z) (o : Z) (i : offload_info) (fl : Z) : outcome (list Z * Z) :=
  let hw := has_flag fl TESTPMD_TX_OFFLOAD_OUTER_IP_CKSUM in
  '(b, ol) ←
    (if outer_ethertype i =? ETHER_TYPE_IPv4 then
       b ← of_opt (wr b (o + 10) [0; 0]);
       if hw then Done (b, Z.lor PKT_TX_OUTER_IPV4 PKT_TX_OUTER_IP_CKSUM)
       else b ← of_opt (wr b (o + 10) (le16 (rte_ipv4_cksum b o))); Done (b, PKT_TX_OUTER_IPV4)
     else Done (b, if hw then PKT_TX_OUTER_IPV6 else 0));
  if negb (outer_l4_proto i =? IPPROTO_UDP) then Done (b, ol)
  else
    let l4 := o + i_outer_l3_len i in
    old ← of_opt (rd b (l4 + 6) 2);
    if of_le16 old =? 0 then Done (b, ol)
    else
      b ← of_opt (wr b (l4 + 6) [0; 0]);
      b ← of_opt (wr b (l4 + 6) (le16 (get_udptcp_checksum b o l4 (outer_ethertype i))));
      Done (b, ol).

(** Steps 1 to 3 for a packet with the new Ethernet addresses: the
    information, which the next packet starts from, the buffer and flags. *)
Definition csum_buffer (b : list Z) (fl pkt_type : Z) (i : offload_info) : outcome (offload_info * list Z * Z) :=
  '(i, l3, outer_l3) ← dissect b fl pkt_type i;
  b ← change_ip_addresses l3 (ethertype i) b;
  b ← (if is_tunnel i then change_ip_addresses outer_l3 (outer_ethertype i) b else Done b);
  '(b, ol) ← process_inner_cksums b l3 i fl;
  if is_tunnel i then
    '(b, ol') ← process_outer_cksums b outer_l3 i fl; Done (i, b, Z.lor ol ol')
  else Done (i, b, ol).

(** Step 4: the metadata.  The bit fields of the mbuf hold all lengths that
    step 1 can find. *)
Definition csum_meta (i : offload_info) (fl ol : Z) (mb : mbuf) : mbuf :=
  let off := offload mb in
  let '(l2, out2, out3) :=
    if is_tunnel i then
      if has_flag fl TESTPMD_TX_OFFLOAD_OUTER_IP_CKSUM then (i_l2_len i, i_outer_l2_len i, i_outer_l3_len i)
      else (u16 (i_outer_l2_len i + i_outer_l3_len i + i_l2_len i), outer_l2_len off, outer_l3_len off)
    else (i_l2_len i, outer_l2_len off, outer_l3_len off) in
  Mbuf (segs mb) (nb_segs mb) (pkt_len mb) ol l2 (i_l3_len i) (vlan_tci mb) (vlan_tci_outer mb) (packet_type mb)
    (TxOffload (i_l4_len i) (i_tso_segsz i) out2 out3).
End Dissect.

(** ** Copying a packet into segments *)

(** The state of the loop of [mbuf_copy_split]: the source segments left,
    [slen] bytes left of the first one from [sofs] on, the segments written,
    the index of the current one, [dlen] bytes left of it from [dofs] on, and
    the bytes copied. *)
Record copy_state : Type := CopyState {
  ms : list seg; slen : Z; sofs : Z; dsegs : list seg; di : nat; dlen : Z; dofs : Z; tlen : Z;
}.

(** One pass of the loop. *)
Definition copy_pass (seglen : list Z) (s : seg) (rest : list seg) (st : copy_state) : outcome copy_state :=
  let '(slen, sofs) := if slen st =? 0 then (data_len s, 0) else (slen st, sofs st) in
  d ← of_opt (dsegs st !! di st);
  '(d, dlen, dofs) ←
    (if dlen st =? 0 then
       l ← of_opt (seglen !! di st);
       let dlen := Z.min l slen in Done (Seg (buf d) dlen, dlen, 0)
     else Done (d, dlen st, dofs st));
  let len := Z.min slen dlen in
  bs ← of_opt (rd (buf s) sofs len);
  b ← of_opt (wr (buf d) dofs bs);
  Done (CopyState (if slen - len =? 0 then rest else ms st) (slen - len) (sofs + len)
          (<[di st := Seg b (data_len d)]> (dsegs st)) (if dlen - len =? 0 then S (di st) else di st)
          (dlen - len) (dofs + len) (tlen st + len)).

(** [None] when the fuel is used up. *)
Fixpoint copy_loop (fuel : nat) (seglen : list Z) (nb_seg : nat) (st : copy_state) : option (outcome copy_state) :=
  match ms st with
  | [] => Some (Done st)
  | s :: rest =>
      if (di st =? nb_seg)%nat then Some (Done st)
      else
        match fuel with
        | O => None
        | S fuel =>
            match copy_pass seglen s rest st with
            | Done st => copy_loop fuel seglen nb_seg st
            | Undefined => Some Undefined
            | Aborted => Some Aborted
            end
        end
  end.

(** [mbuf_copy_split] into the fresh segments [md]: the copy, or [None] for an
    error.  Every pass ends a source segment or a segment of the copy. *)
Definition mbuf_copy_split (mb : mbuf) (md : list seg) (seglen : list Z) : outcome (option mbuf) :=
  let nb_seg := length md in
  r ← of_opt (copy_loop (length (segs mb) + nb_seg) seglen nb_seg (CopyState (segs mb) 0 0 md 0 0 0 0));
  st ← r;
  match ms st with
  | _ :: _ => Done None
  | [] =>
      if negb (tlen st =? pkt_len mb) then Done None
      else
        Done (Some (Mbuf (take (S (di st)) (dsegs st)) (Z.of_nat nb_seg) (tlen st) (ol_flags mb)
                      (l2_len mb) (l3_len mb) (vlan_tci mb) (vlan_tci_outer mb) 0 (offload mb)))
  end.

(** The lengths of the segments used for [n] bytes, [len] of them placed so
    far, and the sum of all. *)
Fixpoint use_segs (lens : list Z) (len n : Z) : list Z * Z :=
  match lens with
  | [] => ([], len)
  | l :: lens =>
      if len <? n then let '(used, total) := use_segs lens (u32 (len + l)) n in (l :: used, total) else ([], len)
  end.

(** The last length enlarged to fit the rest; without segments in use, which
    is so for an empty packet, this is out of bounds. *)
Definition fit_last (lens : list Z) (total n : Z) : outcome (list Z) :=
  if 0 <=? s32 (n - total) then
    match rev lens with
    | [] => Undefined
    | l :: front => Done (rev front ++ [u16 (l + s32 (n - total))])
    end
  else Done lens.

(** Allocating the segments from the last one on, given the lengths in that
    order: the segments made, how many are missing (0 also when the first
    segment is too small), and the allocations left. *)
Fixpoint alloc_down (rlens : list Z) (allocs : list (option (list Z))) (made : list seg)
    : list seg * nat * list (option (list Z)) :=
  match rlens with
  | [] => (made, 0%nat, allocs)
  | l :: rlens =>
      match allocs with
      | Some room :: allocs =>
          if Z.of_nat (length room) <? l then (Seg room 0 :: made, length rlens, allocs)
          else alloc_down rlens allocs (Seg room 0 :: made)
      | None :: allocs => (made, S (length rlens), allocs)
      | [] => (made, S (length rlens), [])
      end
  end.

(** [pkt_copy_split]: the copy, or [None]; the segments freed; the allocations
    left.  [lens] are the lengths for the number of segments chosen. *)
Definition pkt_copy_split (lens : list Z) (allocs : list (option (list Z))) (mb : mbuf)
    : outcome (option mbuf * list seg * list (option (list Z))) :=
  let '(used, total) := use_segs lens 0 (pkt_len mb) in
  seglen ← fit_last used total (pkt_len mb);
  let '(md, missing, allocs) := alloc_down (rev seglen) allocs [] in
  if (missing =? 0)%nat then
    r ← mbuf_copy_split mb md seglen;
    Done (r, match r with Some _ => [] | None => md end, allocs)
  else Done (None, md, allocs).

(** ** The engine *)

Section Engine.
Context `{Ethdev} `{Cksums}.
(** [nb_pkt_per_burst], [ports], [peer_eth_addrs], [tx_pkt_seg_lengths],
    [tx_pkt_nb_segs]; whether packets are split, and into a random number of
    segments, with the values of [random()] by packet. *)
Variables (nb_pkt_per_burst : Z) (ports : list tx_port_conf) (peers : list (list Z)) (seg_lengths : list Z)
  (tx_pkt_nb_segs : Z) (split split_rnd : bool) (random : nat -> Z).

Definition split_nb_segs (i : nat) : Z :=
  if split_rnd then Z.rem (random i) tx_pkt_nb_segs + 1 else tx_pkt_nb_segs.

(** One received packet: the information, the packet to send, the packets and
    the segments freed, and the allocations left. *)
Definition csum_packet (fs : fwd_stream) (txp : tx_port_conf) (k : nat) (i : offload_info) (mb : mbuf)
    (allocs : list (option (list Z)))
    : outcome (offload_info * mbuf * list mbuf * list seg * list (option (list Z))) :=
  mb ← mac_rewrite ports peers fs mb;
  b ← mtod mb;
  '(i, b, ol) ← csum_buffer b (tx_ol_flags txp) (packet_type mb) i;
  let mb := csum_meta i (tx_ol_flags txp) ol (set_mtod mb b) in
  if split then
    '(p, frd, allocs) ← pkt_copy_split (take (Z.to_nat (split_nb_segs k)) seg_lengths) allocs mb;
    match p with
    | Some p => Done (i, p, [mb], frd, allocs)
    | None => Done (i, mb, [], frd, allocs)
    end
  else Done (i, mb, [], [], allocs).

Fixpoint csum_loop (fs : fwd_stream) (txp : tx_port_conf) (k : nat) (i : offload_info) (pkts : list mbuf)
    (allocs : list (option (list Z))) : outcome (list mbuf * list mbuf * list seg) :=
  match pkts with
  | [] => Done ([], [], [])
  | mb :: pkts =>
      '(i, mb, frd, sfrd, allocs) ← csum_packet fs txp k i mb allocs;
      '(out, frd', sfrd') ← csum_loop fs txp (S k) i pkts allocs;
      Done (mb :: out, frd ++ frd', sfrd ++ sfrd')
  end.

(** How many packets have a flag. *)
Definition count_flag (flag : Z) (pkts : list mbuf) : Z :=
  Z.of_nat (length (filter (fun mb => has_flag (ol_flags mb) flag = true) pkts)).

Definition count_bad (ip l4 : Z) (fs : fwd_stream) : fwd_stream :=
  FwdStream (rx_port fs) (rx_queue fs) (tx_port fs) (tx_queue fs) (peer_addr fs) (rx_packets fs) (tx_packets fs)
    (fwd_dropped fs) (u32 (rx_bad_ip_csum fs + ip)) (u32 (rx_bad_l4_csum fs + l4)).

Definition no_info (tso : Z) : offload_info := OffloadInfo 0 0 0 0 0 false 0 0 0 0 tso.

(** [pkt_burst_checksum_forward]: the result of the burst, the packets that
    were replaced by copies, and the segments freed. *)
Definition pkt_burst_checksum_forward (allocs : list (option (list Z))) (fs : fwd_stream) (d : dev)
    : outcome (burst_result * list mbuf * list seg) :=
  let '(pkts, d) := rx_burst d (rx_port fs) (rx_queue fs) nb_pkt_per_burst in
  if (length pkts =? 0)%nat then Done (BurstResult fs d [] [], [], [])
  else
    let fs := count_rx (Z.of_nat (length pkts)) fs in
    txp ← of_opt (zget ports (tx_port fs));
    '(out, replaced, sfrd) ← csum_loop fs txp 0 (no_info (tso_segsz txp)) pkts allocs;
    let '(nb_tx, d) := tx_burst d (tx_port fs) (tx_queue fs) out in
    let fs := count_bad (count_flag PKT_RX_IP_CKSUM_BAD pkts) (count_flag PKT_RX_L4_CKSUM_BAD pkts) fs in
    Done (finish_burst fs d out nb_tx, replaced, sfrd).
End Engine.

(** ** Lemmas on copying *)

(** The bytes of a packet. *)
Definition seg_data (s : seg) : list Z := take (Z.to_nat (data_len s)) (buf s).
Definition pkt_data (l : list seg) : list Z := l ≫= seg_data.

Definition seg_ok (s : seg) : Prop := 0 <= data_len s <= Z.of_nat (length (buf s)).

(** What the loop still has to copy. *)
Definition to_copy (st : copy_state) : list Z :=
  match ms st with
  | [] => []
  | s :: rest => drop (Z.to_nat (if slen st =? 0 then 0 else sofs st)) (seg_data s) ++ pkt_data rest
  end.

(** The invariant at the head of the loop: no segment of the copy is
    half-full, the ones to come are fresh, and the rest of the source's first
    segment is what the offset says. *)
Record copy_ok (nb : nat) (st : copy_state) : Prop := {
  co_dlen : dlen st = 0;
  co_len : length (dsegs st) = nb;
  co_di : (di st <= nb)%nat;
  co_ms : Forall seg_ok (ms st);
  co_src : slen st <> 0 -> exists s rest, ms st = s :: rest /\ 0 <= sofs st /\ 0 < slen st /\ sofs st + slen st = data_len s;
  co_fresh : Forall (fun d => data_len d = 0) (drop (di st) (dsegs st));
  co_tlen : tlen st = Z.of_nat (length (pkt_data (take (di st) (dsegs st))));
}.

Lemma seg_data_length s : seg_ok s -> Z.of_nat (length (seg_data s)) = data_len s.
Proof. intros [H0 H1]. unfold seg_data. rewrite length_take. lia. Qed.

Lemma pkt_data_app l l' : pkt_data (l ++ l') = pkt_data l ++ pkt_data l'.
Proof. apply bind_app. Qed.

Lemma pkt_data_fresh l : Forall (fun d => data_len d = 0) l -> pkt_data l = [].
Proof. induction 1 as [|d l Hd Hl IH]; [done|]. unfold pkt_data in *. cbn. rewrite IH. unfold seg_data. by rewrite Hd. Qed.

Lemma take_insert_S {A} (l : list A) i x : (i < length l)%nat -> take (S i) (<[i := x]> l) = take i l ++ [x].
Proof.
  intros Hi. rewrite (take_S_r _ _ x) by (by apply list_lookup_insert_eq). f_equal. apply take_insert_ge. lia.
Qed.

(** One pass moves a piece from the source to the copy. *)
Lemma copy_pass_ok seglen nb s rest st st' :
  copy_ok nb st -> ms st = s :: rest -> Forall (fun l => 0 <= l) seglen -> copy_pass seglen s rest st = Done st' ->
  copy_ok nb st' /\ di st' = S (di st) /\
  pkt_data (take (di st') (dsegs st')) ++ to_copy st' = pkt_data (take (di st) (dsegs st)) ++ to_copy st.
Proof.
  intros [Hd Hl Hdi0 Hms Hsrc Hfr Ht] Hm Hpos. unfold copy_pass.
  set (p := if slen st =? 0 then (data_len s, 0) else (slen st, sofs st)).
  assert (Hs : seg_ok s) by (rewrite Hm in Hms; by inversion Hms).
  assert (Hp : 0 <= p.2 /\ 0 <= p.1 /\ p.2 + p.1 = data_len s /\ p.2 = (if slen st =? 0 then 0 else sofs st)).
  { unfold p. destruct (Z.eqb_spec (slen st) 0) as [|Hne]; [destruct Hs; cbn; lia|].
    destruct (Hsrc Hne) as (s' & r' & E & ?). rewrite Hm in E. injection E as <- <-. cbn. lia. }
  unfold to_copy at 2. rewrite Hm. destruct Hp as (Hp2 & Hp1 & Hp & <-). destruct p as [n o]. cbn [fst snd] in *.
  destruct (dsegs st !! di st) as [d|] eqn:Hdi; [|done]. cbn [of_opt mbind outcome_bind]. rewrite Hd. cbn [Z.eqb].
  destruct (seglen !! di st) as [l|] eqn:Hsl; [|done]. cbn [of_opt mbind outcome_bind data_len buf].
  assert (Hl0 : 0 <= l) by (rewrite Forall_lookup in Hpos; by eapply Hpos).
  rewrite (Z.min_r n (Z.min l n)) by lia. set (k := Z.min l n). assert (Hk : 0 <= k <= n) by lia. clearbody k.
  destruct (rd (buf s) o k) as [bs|] eqn:Hr; [|done]. cbn [of_opt mbind outcome_bind].
  destruct (wr (buf d) 0 bs) as [b|] eqn:Hw; [|done]. cbn [of_opt mbind outcome_bind].
  rewrite Z.sub_diag. cbn [Z.eqb]. intros [= <-]. cbn [dlen dsegs ms slen sofs di tlen].
  pose proof (rd_length _ _ _ _ Hr) as Hbl. apply rd_Some in Hr as (_ & _ & Hob & Hbs).
  assert (Hlt : (di st < length (dsegs st))%nat) by (by eapply lookup_lt_Some).
  assert (Hnew : seg_data (Seg b k) = bs).
  { apply wr_Some in Hw as (_ & _ & ->). unfold seg_data. cbn [data_len buf].
    change (take (Z.to_nat 0) (buf d)) with (@nil Z). cbn [app].
    replace (Z.to_nat k) with (length bs) by lia. apply take_app_length. }
  assert (Hdata : pkt_data (take (S (di st)) (<[di st := Seg b k]> (dsegs st))) = pkt_data (take (di st) (dsegs st)) ++ bs).
  { rewrite take_insert_S, pkt_data_app by done. f_equal. unfold pkt_data. cbn. by rewrite app_nil_r. }
  assert (Hbs' : drop (Z.to_nat o) (seg_data s) = bs ++ drop (Z.to_nat (o + k)) (seg_data s)).
  { rewrite <- (take_drop (Z.to_nat k) (drop (Z.to_nat o) (seg_data s))), drop_drop. f_equal; [|f_equal; lia].
    rewrite Hbs. unfold seg_data. destruct Hs. rewrite skipn_firstn_comm, take_take. f_equal. lia. }
  split; [split; cbn [dlen dsegs ms slen sofs di tlen]|split; [done|]].
  - done.
  - by rewrite length_insert.
  - lia.
  - rewrite Hm in Hms. destruct (_ =? _); [by inversion Hms|done].
  - intros Hne. rewrite (proj2 (Z.eqb_neq _ _) Hne). exists s, rest. split; [done|]. lia.
  - rewrite drop_insert_lt by lia. replace (S (di st)) with (di st + 1)%nat by lia. rewrite <- drop_drop. by apply Forall_drop.
  - rewrite Hdata, length_app, Ht. lia.
  - rewrite Hdata, <- app_assoc. f_equal. unfold to_copy. cbn [ms slen sofs].
    rewrite Hbs', <- app_assoc. f_equal. destruct (Z.eqb_spec (n - k) 0) as [E|E].
    + rewrite drop_ge by (pose proof (seg_data_length _ Hs); lia). cbn [app]. destruct rest as [|s2 rest]; [done|].
      done.
    + done.
Qed.

Lemma copy_loop_ok seglen nb fuel st st' :
  copy_ok nb st -> Forall (fun l => 0 <= l) seglen -> copy_loop fuel seglen nb st = Some (Done st') ->
  copy_ok nb st' /\ pkt_data (take (di st') (dsegs st')) ++ to_copy st' = pkt_data (take (di st) (dsegs st)) ++ to_copy st.
Proof.
  revert st. induction fuel as [|fuel IH]; intros st Hok Hpos; cbn [copy_loop].
  - destruct (ms st); [by intros [= <-]|]. destruct (_ =? _)%nat; by intros [= <-].
  - destruct (ms st) as [|s rest] eqn:Hm; [by intros [= <-]|]. destruct (_ =? _)%nat; [by intros [= <-]|].
    destruct (copy_pass seglen s rest st) as [st1| |] eqn:E; [|done..]. intros Hrun.
    destruct (copy_pass_ok _ _ _ _ _ _ Hok Hm Hpos E) as (Hok1 & _ & Hd).
    destruct (IH st1 Hok1 Hpos Hrun) as [Hok' Hd']. split; [done|]. by rewrite Hd', Hd.
Qed.

(** The fuel is enough. *)
Lemma copy_loop_enough seglen nb fuel st :
  copy_ok nb st -> Forall (fun l => 0 <= l) seglen -> (nb - di st <= fuel)%nat -> copy_loop fuel seglen nb st <> None.
Proof.
  revert st. induction fuel as [|fuel IH]; intros st Hok Hpos Hf; cbn [copy_loop].
  - destruct (ms st) as [|s rest]; [done|]. pose proof (co_di _ _ Hok). destruct (Nat.eqb_spec (di st) nb); [done|lia].
  - destruct (ms st) as [|s rest] eqn:Hm; [done|]. destruct (_ =? _)%nat; [done|].
    destruct (copy_pass seglen s rest st) as [st1| |] eqn:E; [|done..].
    destruct (copy_pass_ok _ _ _ _ _ _ Hok Hm Hpos E) as (Hok1 & Hdi & _). apply IH; [done|done|lia].
Qed.

Lemma copy_init_ok (mb : mbuf) md :
  Forall seg_ok (segs mb) -> Forall (fun d => data_len d = 0) md ->
  copy_ok (length md) (CopyState (segs mb) 0 0 md 0 0 0 0).
Proof. intros Hs Hm. split; cbn; try done. lia. Qed.

(** A copy has the bytes of its packet, however the packet was segmented. *)
Lemma mbuf_copy_split_data mb md seglen p :
  Forall seg_ok (segs mb) -> Forall (fun d => data_len d = 0) md -> Forall (fun l => 0 <= l) seglen ->
  mbuf_copy_split mb md seglen = Done (Some p) -> pkt_data (segs p) = pkt_data (segs mb).
Proof.
  intros Hs Hm Hpos. unfold mbuf_copy_split. intros E. apply outcome_bind_Done in E as (r & Hr & E).
  apply outcome_bind_Done in E as (st & -> & E).
  destruct (copy_loop _ _ _ _) as [r'|] eqn:El; [|done]. injection Hr as ->.
  destruct (copy_loop_ok _ _ _ _ _ (copy_init_ok mb md Hs Hm) Hpos El) as [Hok Hd].
  unfold to_copy in Hd. cbn [ms di dsegs take slen sofs] in Hd. destruct (ms st); [|done].
  destruct (negb _); [done|]. injection E as <-. cbn [segs].
  rewrite app_nil_r in Hd. transitivity (pkt_data (take (di st) (dsegs st))).
  - destruct (dsegs st !! di st) as [d|] eqn:Hdi.
    + rewrite (take_S_r _ _ _ Hdi), pkt_data_app, (pkt_data_fresh [d]), app_nil_r; [done|].
      constructor; [|done]. pose proof (co_fresh _ _ Hok) as Hf. rewrite Forall_lookup in Hf.
      apply (Hf 0%nat). by rewrite lookup_drop, Nat.add_0_r.
    + apply lookup_ge_None in Hdi. by rewrite !take_ge by lia.
  - rewrite Hd. cbn [pkt_data]. destruct (segs mb) as [|s rest]; done.
Qed.

(** Lengths of segments that hold [n] bytes, all of them needed. *)
Fixpoint fits (lens : list Z) (n : Z) : Prop :=
  match lens with
  | [] => False
  | [l] => n <= l
  | l :: lens => l < n /\ fits lens (n - l)
  end.

(** The lengths of the copy's segments. *)
Fixpoint split_lens (lens : list Z) (n : Z) : list Z :=
  match lens with
  | [] => []
  | l :: lens => Z.min l n :: split_lens lens (n - l)
  end.

(** A pass over a single segment, [n] bytes of which are left. *)
Lemma copy_pass_single seglen nb s st d l :
  copy_ok nb st -> ms st = [s] -> dsegs st !! di st = Some d -> seglen !! di st = Some l ->
  0 <= l <= Z.of_nat (length (buf d)) ->
  let n := if slen st =? 0 then data_len s else slen st in
  0 < n ->
  exists st1 b, copy_pass seglen s [] st = Done st1 /\ length b = length (buf d) /\
    dsegs st1 = <[di st := Seg b (Z.min l n)]> (dsegs st) /\ slen st1 = n - Z.min l n /\
    ms st1 = if n - Z.min l n =? 0 then [] else [s].
Proof.
  intros Hok Hm Hd Hl Hrd n Hn. unfold copy_pass.
  assert (Hs : seg_ok s) by (pose proof (co_ms _ _ Hok) as H0; rewrite Hm in H0; by inversion H0).
  set (p := if slen st =? 0 then (data_len s, 0) else (slen st, sofs st)).
  assert (Hp : p.1 = n /\ 0 <= p.2 /\ p.2 + p.1 = data_len s).
  { unfold p, n in *. destruct (Z.eqb_spec (slen st) 0) as [|Hne]; [cbn; destruct Hs; lia|].
    destruct (co_src _ _ Hok Hne) as (s' & r' & E & ?). rewrite Hm in E. injection E as <- <-. cbn. lia. }
  clearbody n. destruct p as [n' o]. cbn [fst snd] in Hp. destruct Hp as (-> & Ho & Hon).
  rewrite Hd. cbn [of_opt mbind outcome_bind]. rewrite (co_dlen _ _ Hok). cbn [Z.eqb]. rewrite Hl.
  cbn [of_opt mbind outcome_bind buf data_len]. rewrite (Z.min_r n (Z.min l n)) by lia.
  set (k := Z.min l n). assert (Hk : 0 <= k <= l /\ k <= n) by lia. clearbody k.
  destruct (rd_is_Some (buf s) o k) as [bs Hbs]; [lia|lia|destruct Hs; lia|]. rewrite Hbs. cbn [of_opt mbind outcome_bind].
  pose proof (rd_length _ _ _ _ Hbs). destruct (wr_is_Some (buf d) 0 bs) as [b Hb]; [lia|lia|]. rewrite Hb.
  cbn [of_opt mbind outcome_bind]. eexists _, b. split; [done|]. cbn [dsegs slen ms].
  split; [by rewrite (wr_length _ _ _ _ Hb)|]. split; [done|]. split; [done|]. by rewrite Hm.
Qed.

(** Copying from a single segment: the rest of it fits the lengths left. *)
Lemma copy_loop_single seglen s fuel st :
  (length seglen - di st <= fuel)%nat -> copy_ok (length seglen) st -> ms st = [s] -> Forall (fun l => 0 <= l) seglen ->
  Forall2 (fun d l => l <= Z.of_nat (length (buf d))) (dsegs st) seglen ->
  let n := if slen st =? 0 then data_len s else slen st in
  0 < n -> fits (drop (di st) seglen) n ->
  exists st', copy_loop fuel seglen (length seglen) st = Some (Done st') /\ ms st' = [] /\
    di st' = length seglen /\
    data_len <$> dsegs st' = (data_len <$> take (di st) (dsegs st)) ++ split_lens (drop (di st) seglen) n.
Proof.
  revert st. induction fuel as [|fuel IH]; intros st Hf Hok Hm Hpos Hroom n Hn Hfit.
  { rewrite drop_ge in Hfit by lia. done. }
  cbn [copy_loop]. rewrite Hm. pose proof (co_len _ _ Hok) as Hlen. pose proof (co_di _ _ Hok) as Hdile.
  destruct (drop (di st) seglen) as [|l L] eqn:HL; [done|].
  assert (Hl : seglen !! di st = Some l).
  { rewrite <- (Nat.add_0_r (di st)), <- lookup_drop, HL. done. }
  pose proof (lookup_lt_Some _ _ _ Hl) as Hlt.
  rewrite (proj2 (Nat.eqb_neq (di st) (length seglen))) by lia.
  assert (HL' : drop (S (di st)) seglen = L).
  { replace (S (di st)) with (di st + 1)%nat by lia. by rewrite <- drop_drop, HL. }
  destruct (lookup_lt_is_Some_2 (dsegs st) (di st) ltac:(lia)) as [d Hd].
  assert (Hl0 : 0 <= l) by (rewrite Forall_lookup in Hpos; by eapply Hpos).
  assert (Hrd : l <= Z.of_nat (length (buf d))) by exact (Forall2_lookup_lr _ _ _ _ _ _ Hroom Hd Hl).
  destruct (copy_pass_single seglen _ s st d l Hok Hm Hd Hl ltac:(lia) Hn) as (st1 & b1 & E & Hbl & Hds & Hsl & Hms1).
  fold n in Hds, Hsl, Hms1. rewrite E. destruct (copy_pass_ok _ _ _ _ _ _ Hok Hm Hpos E) as (Hok1 & Hdi1 & _).
  assert (Hdl : data_len <$> take (S (di st)) (dsegs st1) = (data_len <$> take (di st) (dsegs st)) ++ [Z.min l n]).
  { rewrite Hds, take_insert_S, fmap_app by lia. done. }
  destruct L as [|l2 L].
  - (* the last segment *)
    cbn [fits] in Hfit. rewrite (Z.min_r l n) in * by lia. rewrite Z.sub_diag in Hms1. cbn [Z.eqb] in Hms1.
    assert (Hend : S (di st) = length seglen).
    { pose proof (f_equal length HL') as E'. rewrite length_drop in E'. cbn in E'. lia. }
    exists st1. split; [destruct fuel; cbn [copy_loop]; by rewrite Hms1|split; [done|split; [lia|]]].
    rewrite <- (take_ge (dsegs st1) (S (di st))) by (rewrite (co_len _ _ Hok1); lia).
    rewrite Hdl. cbn [split_lens]. by rewrite Z.min_r by lia.
  - cbn [fits] in Hfit. destruct Hfit as [Hln Hfit]. rewrite (Z.min_l l n) in * by lia.
    rewrite (proj2 (Z.eqb_neq (n - l) 0)) in Hms1 by lia.
    destruct (IH st1) as (st' & E' & Hm' & Hdi' & Hd'); try done.
    + lia.
    + rewrite Hds. rewrite <- (list_insert_id seglen (di st) l Hl). by apply Forall2_insert; [|cbn; rewrite Hbl].
    + rewrite Hsl. destruct (Z.eqb_spec (n - l) 0); lia.
    + rewrite Hdi1, HL', Hsl. by rewrite (proj2 (Z.eqb_neq (n - l) 0)) by lia.
    + exists st'. split; [done|]. split; [done|]. split; [done|]. rewrite Hd', Hdi1, Hdl, HL', Hsl.
      rewrite (proj2 (Z.eqb_neq (n - l) 0)) by lia. rewrite <- app_assoc. cbn [app].
      change (split_lens (l :: l2 :: L) n) with (Z.min l n :: split_lens (l2 :: L) (n - l)). by rewrite Z.min_l by lia.
Qed.

Definition sum_lens (lens : list Z) : Z := foldr Z.add 0 lens.

(** The segments chosen hold the packet once the last one is enlarged. *)
Lemma use_segs_spec lens len n :
  lens <> [] -> 0 <= len < n -> n < 2 ^ 16 -> Forall (fun l => 0 <= l < 2 ^ 16) lens ->
  exists front l, use_segs lens len n = (front ++ [l], len + sum_lens front + l) /\
    (front ++ [l]) `prefix_of` lens /\ 0 <= sum_lens front < n - len /\
    forall l', n - len - sum_lens front <= l' -> fits (front ++ [l']) (n - len).
Proof.
  revert len. induction lens as [|a lens IH]; intros len Hne Hlen Hn Hb; [done|].
  apply Forall_cons in Hb as [Ha Hb]. cbn [use_segs]. rewrite (proj2 (Z.ltb_lt len n)) by lia.
  rewrite (u32_small (len + a)) by lia.
  assert (Hlast : use_segs lens (len + a) n = ([], len + a) ->
    exists front l, (let '(used, total) := use_segs lens (len + a) n in (a :: used, total)) = (front ++ [l], len + sum_lens front + l) /\
    (front ++ [l]) `prefix_of` (a :: lens) /\ 0 <= sum_lens front < n - len /\
    forall l', n - len - sum_lens front <= l' -> fits (front ++ [l']) (n - len)).
  { intros ->. exists [], a. cbn. split; [f_equal; lia|]. split; [by exists lens|]. split; [lia|]. intros l' Hl'. lia. }
  destruct lens as [|a2 lens']; [by apply Hlast|].
  destruct (Z.ltb_spec (len + a) n) as [Hlt|Hge].
  - destruct (IH (len + a)) as (front & l & -> & [k Hk] & Hs & Hf); [done|lia|done|done|].
    exists (a :: front), l. cbn [sum_lens foldr app]. fold (sum_lens front). split; [f_equal; lia|].
    split; [exists k; by rewrite Hk|]. split; [lia|]. intros l' Hl'. specialize (Hf l' ltac:(lia)).
    replace (n - (len + a)) with (n - len - a) in Hf by lia.
    destruct (front ++ [l']) as [|x y] eqn:E; [by destruct front|]. cbn [fits]. split; [lia|exact Hf].
  - apply Hlast. cbn [use_segs]. by rewrite (proj2 (Z.ltb_ge (len + a) n)) by lia.
Qed.

Lemma seglen_spec lens n :
  lens <> [] -> 0 < n < 2 ^ 16 -> Forall (fun l => 0 <= l < 2 ^ 16) lens ->
  exists front l used total, use_segs lens 0 n = (used, total) /\ fit_last used total n = Done (front ++ [l]) /\
    fits (front ++ [l]) n /\ front `prefix_of` lens /\ (length (front ++ [l]) <= length lens)%nat /\
    Forall (fun x => 0 <= x /\ (x <= n \/ x ∈ lens)) (front ++ [l]).
Proof.
  intros Hne Hn Hb. destruct (use_segs_spec lens 0 n Hne ltac:(lia) ltac:(lia) Hb) as (front & l & E & Hpre & Hs & Hf).
  rewrite Z.add_0_l, Z.sub_0_r in *. pose proof Hpre as [k Hk].
  assert (Hl : l ∈ lens) by (rewrite Hk, !elem_of_app, list_elem_of_singleton; auto).
  assert (Hl0 : 0 <= l < 2 ^ 16) by (rewrite Forall_forall in Hb; by apply Hb).
  assert (Hfront : Forall (fun x => 0 <= x /\ (x <= n \/ x ∈ lens)) front).
  { apply Forall_forall. intros x Hx. assert (Hin : x ∈ lens) by (rewrite Hk, !elem_of_app; auto).
    rewrite Forall_forall in Hb. specialize (Hb x Hin). split; [lia|by right]. }
  assert (Hlen : (length front + 1 <= length lens)%nat) by (rewrite Hk, !length_app; cbn; lia).
  set (l' := if 0 <=? n - (sum_lens front + l) then n - sum_lens front else l).
  exists front, l', (front ++ [l]), (sum_lens front + l). split; [done|].
  assert (Hl' : 0 <= l' /\ (l' <= n \/ l' ∈ lens) /\ n - sum_lens front <= l').
  { unfold l'. destruct (Z.leb_spec 0 (n - (sum_lens front + l))); split_and!; first [lia | left; lia | by right]. }
  split; [|split; [apply Hf; lia|split; [by eapply prefix_app_l|split]]].
  - unfold fit_last. rewrite s32_small by lia. unfold l'.
    destruct (Z.leb_spec 0 (n - (sum_lens front + l))); [|done].
    rewrite rev_app_distr. cbn [rev app]. rewrite rev_involutive. do 3 f_equal.
    rewrite u16_small by lia. lia.
  - rewrite length_app. cbn. lia.
  - apply Forall_app. split; [done|]. constructor; [|done]. split; [lia|]. destruct Hl' as (_ & [?|?] & _); [by left|by right].
Qed.

Lemma alloc_down_all rlens allocs made :
  (length rlens <= length allocs)%nat ->
  Forall (fun a => exists room, a = Some room /\ Forall (fun l => l <= Z.of_nat (length room)) rlens) (take (length rlens) allocs) ->
  exists new, alloc_down rlens allocs made = (new ++ made, 0%nat, drop (length rlens) allocs) /\
    Forall (fun d => data_len d = 0) new /\
    Forall2 (fun d l => l <= Z.of_nat (length (buf d))) new (rev rlens).
Proof.
  revert allocs made. induction rlens as [|l rlens IH]; intros allocs made Hl Ha; cbn [alloc_down].
  { exists []. by split_and!; [|constructor|constructor]. }
  destruct allocs as [|a allocs]; [cbn in Hl; lia|]. cbn [length take] in Ha. apply Forall_cons in Ha as [(room & -> & Hr) Ha].
  apply Forall_cons in Hr as [Hr _]. rewrite (proj2 (Z.ltb_ge _ _)) by lia.
  destruct (IH allocs (Seg room 0 :: made)) as (new & E & Hz & H2).
  - cbn in Hl. lia.
  - eapply Forall_impl; [exact Ha|]. intros a (room' & -> & Hr'). exists room'. split; [done|]. by apply Forall_cons in Hr' as [_ ?].
  - exists (new ++ [Seg room 0]). rewrite E, <- app_assoc. split; [done|]. split; [apply Forall_app; split; [done|by constructor]|].
    cbn [rev]. apply Forall2_app; [done|]. by constructor.
Qed.

Lemma split_lens_fits front l n :
  fits (front ++ [l]) n -> exists r, split_lens (front ++ [l]) n = front ++ [r].
Proof.
  revert n. induction front as [|a front IH]; intros n Hf; cbn [app split_lens].
  - by eexists.
  - destruct (front ++ [l]) as [|x y] eqn:E; [by destruct front|]. cbn [app fits] in Hf. rewrite E in Hf.
    destruct Hf as [Ha Hf]. destruct (IH _ Hf) as [r Hr]. exists r. rewrite Hr. by rewrite Z.min_l by lia.
Qed.

(** A single segment is copied when there is room for it. *)
Lemma mbuf_copy_split_single mb s md seglen :
  segs mb = [s] -> seg_ok s -> pkt_len mb = data_len s -> 0 < pkt_len mb ->
  Forall (fun d => data_len d = 0) md -> Forall (fun l => 0 <= l) seglen ->
  Forall2 (fun d l => l <= Z.of_nat (length (buf d))) md seglen -> fits seglen (pkt_len mb) ->
  exists p, mbuf_copy_split mb md seglen = Done (Some p) /\ data_len <$> segs p = split_lens seglen (pkt_len mb) /\
    nb_segs p = Z.of_nat (length (segs p)) /\ pkt_len p = pkt_len mb /\ ol_flags p = ol_flags mb /\
    offload p = offload mb /\ (l2_len p, l3_len p) = (l2_len mb, l3_len mb) /\
    (vlan_tci p, vlan_tci_outer p) = (vlan_tci mb, vlan_tci_outer mb).
Proof.
  intros Hs Hok Hpl Hpos Hfr Hsl Hroom Hfit. pose proof (Forall2_length _ _ _ Hroom) as Hlen.
  assert (Hc : copy_ok (length seglen) (CopyState (segs mb) 0 0 md 0 0 0 0)).
  { rewrite <- Hlen. apply copy_init_ok; [rewrite Hs; by constructor|done]. }
  destruct (copy_loop_single seglen s (length (segs mb) + length md) (CopyState (segs mb) 0 0 md 0 0 0 0))
    as (st & E & Hms & Hdi & Hdl); try done.
  - rewrite Hlen. cbn [di]. lia.
  - cbn [slen Z.eqb]. lia.
  - cbn [slen di drop Z.eqb]. by rewrite <- Hpl.
  - destruct (copy_loop_ok _ _ _ _ _ Hc Hsl E) as [Hok' Hd]. cbn [slen di drop take Z.eqb app fmap list_fmap] in Hdl.
    unfold to_copy in Hd. rewrite Hms in Hd. cbn [ms di dsegs take] in Hd. rewrite Hs, app_nil_r in Hd.
    cbn [slen sofs Z.eqb Z.to_nat drop app] in Hd. pose proof (co_tlen _ _ Hok') as Ht.
    assert (Hlast : tlen st = pkt_len mb).
    { rewrite Ht, Hd, Hpl. change (pkt_data (take 0 md)) with (@nil Z). cbn [app]. rewrite app_nil_r. by apply seg_data_length. }
    rewrite <- Hlen in E. unfold mbuf_copy_split. rewrite E. cbn [of_opt mbind outcome_bind]. rewrite Hms, Hlast, Z.eqb_refl. cbn [negb].
    assert (Hall : take (S (di st)) (dsegs st) = dsegs st) by (apply take_ge; rewrite (co_len _ _ Hok'); lia).
    eexists. split; [done|]. cbn [segs nb_segs pkt_len ol_flags offload l2_len l3_len vlan_tci vlan_tci_outer].
    rewrite Hall, (co_len _ _ Hok'), Hlen. split; [by rewrite Hdl, Hpl|done].
Qed.

(** ** Splitting packets *)

(** C31: copying a packet into segments loses nothing: a packet in one
    segment is copied when the pool has segments that are large enough, into
    segments of the lengths set, the last one cut or enlarged, with the bytes
    and the metadata of the packet and nothing left behind. *)
Theorem copy_split_copies lens allocs mb s
    (Hs : segs mb = [s]) (Hok : seg_ok s) (Hpl : pkt_len mb = data_len s) (Hn : 0 < pkt_len mb < 2 ^ 16)
    (Hne : lens <> []) (Hlens : Forall (fun l => 0 <= l < 2 ^ 16) lens) (Hl : (length lens <= length allocs)%nat)
    (Hroom : Forall (fun a => exists room, a = Some room /\ Forall (fun l => l <= Z.of_nat (length room)) (pkt_len mb :: lens))
       (take (length lens) allocs)) :
  exists p front l, pkt_copy_split lens allocs mb = Done (Some p, [], drop (length (segs p)) allocs) /\
    pkt_data (segs p) = pkt_data (segs mb) /\ pkt_len p = pkt_len mb /\ nb_segs p = Z.of_nat (length (segs p)) /\
    data_len <$> segs p = front ++ [l] /\ front `prefix_of` lens /\
    ol_flags p = ol_flags mb /\ offload p = offload mb /\ (l2_len p, l3_len p) = (l2_len mb, l3_len mb) /\
    (vlan_tci p, vlan_tci_outer p) = (vlan_tci mb, vlan_tci_outer mb).
Proof.
  destruct (seglen_spec lens (pkt_len mb) Hne Hn Hlens) as (front & l & used & total & Eu & Ef & Hfit & Hpre & Hlen & Hb).
  set (seglen := front ++ [l]) in *. assert (Hnn : Forall (fun l => 0 <= l) seglen) by (eapply Forall_impl; [exact Hb|]; naive_solver).
  destruct (alloc_down_all (rev seglen) allocs []) as (md & E & Hz & H2).
  { rewrite length_rev. lia. }
  { rewrite length_rev. apply (Forall_take _ (length seglen)) in Hroom. rewrite take_take, Nat.min_l in Hroom by lia.
    eapply Forall_impl; [exact Hroom|]. intros a (room & -> & Hr). exists room. split; [done|].
    apply Forall_forall. intros x Hx. apply list_elem_of_In, in_rev, list_elem_of_In in Hx.
    rewrite Forall_forall in Hb. destruct (Hb _ Hx) as [_ Hor]. apply Forall_cons in Hr as [Hr1 Hr2].
    destruct Hor as [?|Hin]; [lia|]. rewrite Forall_forall in Hr2. by apply Hr2. }
  rewrite rev_involutive in H2. rewrite app_nil_r in E.
  destruct (mbuf_copy_split_single mb s md seglen Hs Hok Hpl ltac:(lia) Hz Hnn H2 Hfit) as (p & Ep & Hdl & Hnb & Hrest).
  destruct (split_lens_fits _ _ _ Hfit) as [r Hr]. exists p, front, r. unfold pkt_copy_split. rewrite Eu, Ef.
  cbn [mbind outcome_bind]. rewrite E. cbn [Nat.eqb]. rewrite Ep. cbn [mbind outcome_bind].
  assert (Hlp : length (segs p) = length seglen).
  { rewrite <- (length_fmap data_len), Hdl. fold seglen in Hr. rewrite Hr. unfold seglen. by rewrite !length_app. }
  split; [by rewrite length_rev, Hlp|]. split.
  { eapply mbuf_copy_split_data; [|exact Hz|exact Hnn|exact Ep]. rewrite Hs. by constructor. }
  destruct Hrest as (H3 & H4 & H5 & H6 & H7). split_and!; try done. rewrite Hdl. exact Hr.
Qed.

(** ** What DPDK's checksum functions promise

    The IPv4 function gives the checksum of a header without options, and the
    functions for UDP and TCP that of the pseudo header and the bytes of the
    layer, whatever the checksum fields hold. *)

(** A number that makes the sum of words zero. *)
Definition is_cksum (ws : list Z) (c : Z) : Prop := 0 <= c < 2 ^ 16 /\ (65535 | zsum ws + c).

Definition pad (m : list Z) : list Z := m ++ if Nat.odd (length m) then [0] else [].

(** The pseudo header of the IP header at [l3], and the bytes of the layer
    above at [l4], when all of it is in the buffer. *)
Definition layer4 (t : Z) (b : list Z) (l3 l4 : Z) : option (list Z * list Z) :=
  if t =? ETHER_TYPE_IPv4 then
    total ← rd b (l3 + 2) 2; addrs ← rd b (l3 + 12) 8; proto ← rd b (l3 + 9) 1;
    m ← rd b l4 (of_be16 total - 20);
    Some (addrs ++ [0] ++ proto ++ be16 (of_be16 total - 20), m)
  else
    len ← rd b (l3 + 4) 2; addrs ← rd b (l3 + 8) 32; proto ← rd b (l3 + 6) 1;
    m ← rd b l4 (of_be16 len);
    Some (addrs ++ [0; 0] ++ len ++ [0; 0; 0] ++ proto, m).

Class CksumsDoc `{Cksums} := {
  ipv4_cksum_doc b o h :
    Forall byte_ok b -> rd b o 20 = Some h -> zget h 0 = Some 69 -> is_cksum (words h) (rte_ipv4_cksum b o);
  udptcp_cksum_doc t b l3 l4 ps m :
    Forall byte_ok b -> layer4 t b l3 l4 = Some (ps, m) ->
    is_cksum (words (ps ++ pad m)) (get_udptcp_checksum b l3 l4 t);
}.

(** The checksum of a UDP or TCP layer with at least [n] bytes is right. *)
Definition l4_valid (t : Z) (b : list Z) (l3 l4 n : Z) : Prop :=
  forall ps m, layer4 t b l3 l4 = Some (ps, m) -> n <= Z.of_nat (length m) -> (65535 | zsum (words (ps ++ pad m))).

Definition ip_valid (b : list Z) (o : Z) : Prop := exists h, rd b o 20 = Some h /\ checksum_ok h.

(** ** Lemmas on checksums *)

Lemma rd_None_wr b off v b' o n : wr b off v = Some b' -> rd b o n = None -> rd b' o n = None.
Proof. intros Hw. unfold rd. rewrite (wr_length _ _ _ _ Hw). by destruct (_ && _). Qed.

Lemma zero16_bytes : Forall byte_ok [0; 0].
Proof. apply (le16_bytes 0). Qed.

(** The pseudo header and the layer do not change with a write elsewhere. *)
Definition l3_hdr_len (t : Z) : Z := if t =? ETHER_TYPE_IPv4 then 20 else 40.

Lemma layer4_frame t b b' l3 l4 off v ps m :
  wr b off v = Some b' -> off + Z.of_nat (length v) <= l3 \/
    (t = ETHER_TYPE_IPv4 /\ l3 + 10 <= off /\ off + Z.of_nat (length v) <= l3 + 12) ->
  l3 + l3_hdr_len t <= l4 -> layer4 t b' l3 l4 = Some (ps, m) -> layer4 t b l3 l4 = Some (ps, m).
Proof.
  intros Hw Ho Hl. unfold layer4, l3_hdr_len in *. destruct (Z.eqb_spec t ETHER_TYPE_IPv4) as [->|Ht].
  - rewrite (rd_wr_other _ _ _ _ (l3 + 2) 2 Hw), (rd_wr_other _ _ _ _ (l3 + 12) 8 Hw), (rd_wr_other _ _ _ _ (l3 + 9) 1 Hw) by lia.
    destruct (rd b (l3 + 2) 2) as [tot|]; [|done]. cbn [mbind option_bind].
    by rewrite (rd_wr_other _ _ _ _ l4 _ Hw) by lia.
  - destruct Ho as [Ho|[? _]]; [|done].
    rewrite (rd_wr_other _ _ _ _ (l3 + 4) 2 Hw), (rd_wr_other _ _ _ _ (l3 + 8) 32 Hw), (rd_wr_other _ _ _ _ (l3 + 6) 1 Hw) by lia.
    destruct (rd b (l3 + 4) 2) as [tot|]; [|done]. cbn [mbind option_bind].
    by rewrite (rd_wr_other _ _ _ _ l4 _ Hw) by lia.
Qed.

Lemma l4_valid_frame t b b' l3 l4 n off v :
  wr b off v = Some b' -> off + Z.of_nat (length v) <= l3 \/
    (t = ETHER_TYPE_IPv4 /\ l3 + 10 <= off /\ off + Z.of_nat (length v) <= l3 + 12) ->
  l3 + l3_hdr_len t <= l4 -> l4_valid t b l3 l4 n -> l4_valid t b' l3 l4 n.
Proof. intros Hw Ho Hl Hv ps m Hlay. eapply Hv. by eapply layer4_frame. Qed.

Lemma layer4_even t b l3 l4 ps m : layer4 t b l3 l4 = Some (ps, m) -> Nat.Even (length ps).
Proof.
  unfold layer4. destruct (t =? _).
  - destruct (rd b (l3 + 2) 2) as [tot|]; [|done]. cbn [mbind option_bind].
    destruct (rd b (l3 + 12) 8) as [a|] eqn:Ha; [|done]. cbn [mbind option_bind].
    destruct (rd b (l3 + 9) 1) as [p|] eqn:Hp; [|done]. cbn [mbind option_bind].
    destruct (rd b l4 _) as [m'|]; [|done]. intros [= <- _].
    apply rd_length in Ha, Hp. do 3 (rewrite ?length_app; cbn [length app be16]). exists 6%nat. lia.
  - destruct (rd b (l3 + 4) 2) as [len|] eqn:Hlen; [|done]. cbn [mbind option_bind].
    destruct (rd b (l3 + 8) 32) as [a|] eqn:Ha; [|done]. cbn [mbind option_bind].
    destruct (rd b (l3 + 6) 1) as [p|] eqn:Hp; [|done]. cbn [mbind option_bind].
    destruct (rd b l4 _) as [m'|]; [|done]. intros [= <- _].
    apply rd_length in Ha, Hp, Hlen. do 4 (rewrite ?length_app; cbn [length app]). exists 20%nat. lia.
Qed.

(** A write inside the layer changes its bytes there. *)
Lemma layer4_inside t b b' l3 l4 c v ps m :
  wr b (l4 + c) v = Some b' -> 0 <= c -> l3 + l3_hdr_len t <= l4 -> layer4 t b' l3 l4 = Some (ps, m) ->
  c + Z.of_nat (length v) <= Z.of_nat (length m) ->
  exists m0, layer4 t b l3 l4 = Some (ps, m0) /\ wr m0 c v = Some m.
Proof.
  intros Hw Hc Hl Hlay Hcm. pose proof (wr_length _ _ _ _ Hw) as Hlen.
  assert (Hin : forall n, rd b' l4 n = Some m -> exists m0, rd b l4 n = Some m0 /\ wr m0 c v = Some m).
  { intros n Hr. pose proof (rd_length _ _ _ _ Hr) as Hn. pose proof Hr as (H0 & H1 & H2 & _)%rd_Some.
    destruct (rd_is_Some b l4 n) as [m0 Hm0]; [lia..|]. exists m0. split; [done|].
    destruct (rd_wr_inside b l4 n m0 (l4 + c) v b' Hm0 Hw) as (m1 & Hw1 & Hr1); [lia|lia|].
    replace (l4 + c - l4) with c in Hw1 by lia. congruence. }
  unfold layer4, l3_hdr_len in *. destruct (t =? _).
  - revert Hlay. rewrite (rd_wr_other _ _ _ _ (l3 + 2) 2 Hw), (rd_wr_other _ _ _ _ (l3 + 12) 8 Hw), (rd_wr_other _ _ _ _ (l3 + 9) 1 Hw) by lia.
    destruct (rd b (l3 + 2) 2) as [tot|]; [|done]. cbn [mbind option_bind].
    destruct (rd b (l3 + 12) 8) as [a|]; [|done]. cbn [mbind option_bind].
    destruct (rd b (l3 + 9) 1) as [p|]; [|done]. cbn [mbind option_bind].
    destruct (rd b' l4 _) as [m'|] eqn:Hm'; [|done]. cbn [mbind option_bind]. intros [= <- ->].
    destruct (Hin _ Hm') as (m0 & -> & Hw0). exists m0. done.
  - revert Hlay. rewrite (rd_wr_other _ _ _ _ (l3 + 4) 2 Hw), (rd_wr_other _ _ _ _ (l3 + 8) 32 Hw), (rd_wr_other _ _ _ _ (l3 + 6) 1 Hw) by lia.
    destruct (rd b (l3 + 4) 2) as [tot|]; [|done]. cbn [mbind option_bind].
    destruct (rd b (l3 + 8) 32) as [a|]; [|done]. cbn [mbind option_bind].
    destruct (rd b (l3 + 6) 1) as [p|]; [|done]. cbn [mbind option_bind].
    destruct (rd b' l4 _) as [m'|] eqn:Hm'; [|done]. cbn [mbind option_bind]. intros [= <- ->].
    destruct (Hin _ Hm') as (m0 & -> & Hw0). exists m0. done.
Qed.

Lemma wr_app m c v m' x : wr m c v = Some m' -> wr (m ++ x) c v = Some (m' ++ x).
Proof.
  intros (H0 & H1 & ->)%wr_Some. apply wr_Some. rewrite length_app. split; [done|]. split; [lia|].
  rewrite take_app_le, drop_app_le by lia. by rewrite <- !app_assoc.
Qed.

Lemma zsum_pad_wr ps m c v m' :
  Nat.Even (length ps) -> wr m c (le16 v) = Some m' -> Nat.Even (Z.to_nat c) -> 0 <= v < 2 ^ 16 ->
  rd m c 2 = Some [0; 0] -> zsum (words (ps ++ pad m')) = zsum (words (ps ++ pad m)) + v.
Proof.
  intros Hps Hw Hc Hv Hr. pose proof (wr_length _ _ _ _ Hw) as Hlen. rewrite !words_app, !zsum_app by done.
  unfold pad. rewrite Hlen. set (x := if Nat.odd (length m) then [0] else []).
  assert (Hr' : rd (m ++ x) c (Z.of_nat (length (le16 v))) = Some [0; 0]).
  { apply rd_Some in Hr as (H0 & H1 & H2 & H3). apply rd_Some. cbn [length le16]. rewrite length_app.
    split; [done|]. split; [done|]. split; [lia|]. rewrite drop_app_le, take_app_le by (rewrite ?length_drop; lia). done. }
  rewrite (zsum_wr _ _ _ _ _ (wr_app _ _ _ _ x Hw) Hr' Hc); [|by exists 1%nat].
  rewrite zsum_le16 by done. change (zsum (words [0; 0])) with 0. lia.
Qed.

(** ** What a packet's fields are *)

(** The bytes of the source address that can change, and of the checksums. *)
Definition src_field (t o k : Z) : Prop :=
  (t = ETHER_TYPE_IPv4 /\ o + 12 <= k < o + 16) \/ (t = ETHER_TYPE_IPv6 /\ k = o + 23).
Definition ip_field (t o k : Z) : Prop := t = ETHER_TYPE_IPv4 /\ o + 10 <= k < o + 12.
Definition l4_field (proto l4 k : Z) : Prop :=
  (proto = IPPROTO_UDP /\ l4 + 6 <= k < l4 + 8) \/ (proto = IPPROTO_TCP /\ l4 + 16 <= k < l4 + 18) \/
  (proto = IPPROTO_SCTP /\ l4 + 8 <= k < l4 + 12).

Ltac by_fields :=
  unfold src_field, ip_field, l4_field in *; let k := fresh "k" in let Hk := fresh "Hk" in
  intros k Hk; cbn beta in *; lia.

Ltac step_opt E x Hx :=
  apply outcome_bind_Done in E as (x & Hx & E);
  match type of Hx with of_opt ?o = Done _ =>
    let H' := fresh in destruct o as [?|] eqn:H'; [cbn in Hx; injection Hx as ->; rename H' into Hx|discriminate Hx] end.

Section Valid.
Context `{Cksums} `{!CksumsDoc}.

(** Recomputing the checksum of a UDP or TCP header. *)
Lemma l4_written t b b0 b1 l3 l4 c :
  Forall byte_ok b -> l3 + l3_hdr_len t <= l4 -> 0 <= c -> Nat.Even (Z.to_nat c) ->
  wr b (l4 + c) [0; 0] = Some b0 -> wr b0 (l4 + c) (le16 (get_udptcp_checksum b0 l3 l4 t)) = Some b1 ->
  l4_valid t b1 l3 l4 (c + 2).
Proof.
  intros Hb Hl Hc Hev Hw0 Hw1 ps m Hlay Hn.
  assert (Hb0 : Forall byte_ok b0) by (eapply wr_Forall; [exact Hb|exact zero16_bytes|exact Hw0]).
  destruct (layer4_inside _ _ _ _ _ _ _ _ _ Hw1 Hc Hl Hlay) as (m0 & Hlay0 & Hm0); [cbn [length le16]; lia|].
  destruct (udptcp_cksum_doc t b0 l3 l4 ps m0 Hb0 Hlay0) as [Hv Hdiv].
  pose proof (wr_length _ _ _ _ Hm0) as Hlen.
  destruct (layer4_inside _ _ _ _ _ _ _ _ _ Hw0 Hc Hl Hlay0) as (mm & _ & Hmm); [cbn [length]; lia|].
  rewrite (zsum_pad_wr ps m0 c (get_udptcp_checksum b0 l3 l4 t) m); [done|by eapply layer4_even|done|done|done|].
  exact (rd_wr_same _ _ _ _ Hmm).
Qed.

(** Recomputing the checksum of an IPv4 header without options. *)
Lemma ip_written b b0 b1 o :
  Forall byte_ok b -> zget b o = Some 69 -> 0 <= o -> rd b o 20 <> None ->
  wr b (o + 10) [0; 0] = Some b0 -> wr b0 (o + 10) (le16 (rte_ipv4_cksum b0 o)) = Some b1 -> ip_valid b1 o.
Proof.
  intros Hb Hv Ho Hne Hw0 Hw1. destruct (rd b o 20) as [h|] eqn:Hh; [|done]. clear Hne.
  assert (Hb0 : Forall byte_ok b0) by (eapply wr_Forall; [exact Hb|exact zero16_bytes|exact Hw0]).
  destruct (rd_wr_inside _ _ _ _ _ _ _ Hh Hw0) as (h0 & Hwh0 & Hr0); [lia|cbn [length]; lia|].
  destruct (rd_wr_inside _ _ _ _ _ _ _ Hr0 Hw1) as (h1 & Hwh1 & Hr1); [lia|cbn [length le16]; lia|].
  replace (o + 10 - o) with 10 in * by lia.
  assert (Hz0 : zget h0 0 = Some 69).
  { rewrite <- (zget_rd _ _ _ _ 0 Hr0), Z.add_0_r by lia. rewrite <- Hv. unfold zget.
    destruct (0 <=? o); [|done]. rewrite (wr_lookup _ _ _ _ _ Hw0).
    destruct (Nat.leb_spec (Z.to_nat (o + 10)) (Z.to_nat o)); [lia|done]. }
  destruct (ipv4_cksum_doc b0 o h0 Hb0 Hr0 Hz0) as [Hc Hdiv].
  assert (Hz : rd h0 10 (Z.of_nat (length (le16 (rte_ipv4_cksum b0 o)))) = Some [0; 0]) by exact (rd_wr_same _ _ _ _ Hwh0).
  exists h1. split; [done|]. unfold checksum_ok.
  rewrite (zsum_wr _ _ _ _ _ Hwh1 Hz), zsum_le16; [|exact Hc|by exists 5%nat|by exists 1%nat].
  change (zsum (words [0; 0])) with 0. rewrite Z.sub_0_r. split; [|done].
  assert (Hh0 : Forall byte_ok h0) by (eapply rd_Forall; [exact Hb0|exact Hr0]).
  pose proof (rd_length _ _ _ _ Hr0) as Hlen. destruct h0 as [|x [|y rest]]; [done|done|].
  apply zget_Some in Hz0 as [_ Hz0]. cbn in Hz0. injection Hz0 as ->. cbn [words]. rewrite zsum_cons.
  apply Forall_cons in Hh0 as [_ Hh0]. apply Forall_cons in Hh0 as [Hy Hrest].
  pose proof (zsum_nonneg (words rest)) as Hnn. assert (0 <= zsum (words rest)).
  { apply Hnn. eapply Forall_impl; [by apply words_range|]. cbn. lia. }
  unfold byte_ok in Hy. lia.
Qed.

(** ** What each step changes *)

(** Buffers that agree on the positions of [P]. *)
Definition same_on (P : Z -> Prop) (b b' : list Z) : Prop :=
  length b' = length b /\ forall k, P (Z.of_nat k) -> b' !! k = b !! k.

Lemma same_on_refl P b : same_on P b b.
Proof. done. Qed.

Lemma same_on_trans (P Q R : Z -> Prop) b1 b2 b3 :
  same_on P b1 b2 -> same_on Q b2 b3 -> (forall k, R k -> P k /\ Q k) -> same_on R b1 b3.
Proof.
  intros [L1 S1] [L2 S2] HR. split; [congruence|]. intros k Hk. destruct (HR _ Hk). by rewrite S2, S1.
Qed.

Lemma same_on_mono (P Q : Z -> Prop) b b' : same_on P b b' -> (forall k, Q k -> P k) -> same_on Q b b'.
Proof. intros [L S] HQ. split; [done|]. intros k Hk. apply S. by apply HQ. Qed.

Lemma wr_same_on b off v b' : wr b off v = Some b' -> same_on (fun k => k < off \/ off + Z.of_nat (length v) <= k) b b'.
Proof.
  intros Hw. split; [by eapply wr_length|]. intros k Hk. rewrite (wr_lookup _ _ _ _ _ Hw).
  apply wr_Some in Hw as (H0' & _ & _).
  destruct (Nat.leb_spec (Z.to_nat off) k), (Nat.ltb_spec k (Z.to_nat off + length v)); cbn; try done. lia.
Qed.

Lemma rd_same_on P b b' o n : same_on P b b' -> (forall k, o <= k < o + n -> P k) -> rd b' o n = rd b o n.
Proof.
  intros [L S] HP. unfold rd. rewrite L. destruct (Z.leb_spec 0 o), (Z.leb_spec 0 n), (Z.leb_spec (o + n) (Z.of_nat (length b))); cbn; try done.
  f_equal. apply list_eq. intros i. destruct (decide (i < Z.to_nat n)%nat).
  - rewrite !lookup_take_lt, !lookup_drop by lia. apply S, HP. lia.
  - by rewrite !lookup_take_ge by lia.
Qed.

Lemma zget_same_on P b b' o : same_on P b b' -> P o -> zget b' o = zget b o.
Proof. intros [L S] HP. unfold zget. destruct (Z.leb_spec 0 o); [|done]. apply S. by rewrite Z2Nat.id. Qed.

Lemma layer4_same_on P t b b' l3 l4 :
  same_on P b b' -> (forall k, l3 + 2 <= k < l3 + 10 -> P k) -> (forall k, l3 + 12 <= k -> P k) ->
  (t <> ETHER_TYPE_IPv4 -> forall k, l3 <= k -> P k) -> l3 + 12 <= l4 ->
  layer4 t b' l3 l4 = layer4 t b l3 l4.
Proof.
  intros S H1 H2 H3 Hl. unfold layer4. destruct (Z.eqb_spec t ETHER_TYPE_IPv4) as [->|Ht].
  - rewrite (rd_same_on _ _ _ (l3 + 2) 2 S), (rd_same_on _ _ _ (l3 + 12) 8 S), (rd_same_on _ _ _ (l3 + 9) 1 S)
      by (intros; first [apply H1; lia|apply H2; lia]).
    destruct (rd b (l3 + 2) 2) as [tot|]; [|done]. cbn [mbind option_bind].
    by rewrite (rd_same_on _ _ _ l4 _ S) by (intros; apply H2; lia).
  - specialize (H3 Ht).
    rewrite (rd_same_on _ _ _ (l3 + 4) 2 S), (rd_same_on _ _ _ (l3 + 8) 32 S), (rd_same_on _ _ _ (l3 + 6) 1 S)
      by (intros; apply H3; lia).
    destruct (rd b (l3 + 4) 2) as [tot|]; [|done]. cbn [mbind option_bind].
    by rewrite (rd_same_on _ _ _ l4 _ S) by (intros; apply H2; lia).
Qed.

(** The source address of an IP header moves to the next one. *)
Definition src_next (t : Z) (b b' : list Z) (o : Z) : Prop :=
  (t = ETHER_TYPE_IPv4 -> exists s, rd b (o + 12) 4 = Some s /\ rd b' (o + 12) 4 = Some (be32 (u32 (of_be32 s + 1)))) /\
  (t = ETHER_TYPE_IPv6 -> exists x, rd b (o + 23) 1 = Some [x] /\ rd b' (o + 23) 1 = Some [u8 (x + 1)]).

Lemma rd_one b o x : zget b o = Some x -> rd b o 1 = Some [x].
Proof.
  intros [Ho Hx]%zget_Some. pose proof (lookup_lt_Some _ _ _ Hx). apply rd_Some. split_and!; [done|done|lia|].
  change (Z.to_nat 1) with 1%nat. rewrite (drop_S _ _ _ Hx). done.
Qed.

Lemma change_ip_spec o t b b' :
  Forall byte_ok b -> change_ip_addresses o t b = Done b' ->
  Forall byte_ok b' /\ src_next t b b' o /\ same_on (fun k => ~ src_field t o k) b b'.
Proof.
  intros Hb. unfold change_ip_addresses, src_next. destruct (Z.eqb_spec t ETHER_TYPE_IPv4) as [->|Ht4].
  - intros E. apply outcome_bind_Done in E as (s & Hs & E). destruct (rd b (o + 12) 4) as [s'|] eqn:Hr; [|done].
    injection Hs as ->. destruct (wr b (o + 12) _) as [b1|] eqn:Hw; [|done]. injection E as <-.
    split; [eapply wr_Forall; [exact Hb|apply be32_bytes|exact Hw]|]. split.
    + split; [|done]. intros _. exists s. split; [done|]. exact (rd_wr_same _ _ _ _ Hw).
    + eapply same_on_mono; [by eapply wr_same_on|]. cbn [length be32]. unfold src_field. intros k Hk. cbn beta in *. lia.
  - destruct (Z.eqb_spec t ETHER_TYPE_IPv6) as [->|Ht6].
    + intros E. apply outcome_bind_Done in E as (x & Hx & E). unfold rd8 in Hx.
      destruct (zget b (o + 23)) as [x'|] eqn:Hz; [|done]. injection Hx as ->.
      destruct (wr b (o + 23) _) as [b1|] eqn:Hw; [|done]. injection E as <-.
      split; [eapply wr_Forall; [exact Hb| |exact Hw]; constructor; [apply mod256_ok|done]|]. split.
      * split; [done|]. intros _. exists x. split; [by apply rd_one|]. exact (rd_wr_same _ _ _ _ Hw).
      * eapply same_on_mono; [by eapply wr_same_on|]. cbn [length]. unfold src_field. intros k Hk. cbn beta in *. lia.
    + intros [= <-]. split; [done|]. split; [split; done|]. apply same_on_refl.
Qed.

(** No checksum is left to the device. *)
Definition in_software (fl : Z) : Prop :=
  has_flag fl TESTPMD_TX_OFFLOAD_IP_CKSUM = false /\ has_flag fl TESTPMD_TX_OFFLOAD_UDP_CKSUM = false /\
  has_flag fl TESTPMD_TX_OFFLOAD_TCP_CKSUM = false /\ has_flag fl TESTPMD_TX_OFFLOAD_OUTER_IP_CKSUM = false.

(** An IP header at [o] that is in the buffer, without options. *)
Definition plain (t : Z) (b : list Z) (o : Z) : Prop :=
  t = ETHER_TYPE_IPv6 \/ (t = ETHER_TYPE_IPv4 /\ exists h, rd b o 20 = Some h /\ zget h 0 = Some 69).

(** What becomes of the checksum of a UDP, TCP or SCTP header at [l4]; a UDP
    checksum of zero means that there is none, and the SCTP checksum, a CRC,
    is never computed in software. *)
Definition l4_ok (t proto : Z) (b b' : list Z) (o l4 : Z) : Prop :=
  (proto = IPPROTO_UDP -> forall f, rd b (l4 + 6) 2 = Some f -> of_le16 f <> 0 -> l4_valid t b' o l4 8) /\
  (proto = IPPROTO_TCP -> l4_valid t b' o l4 18) /\
  (proto = IPPROTO_SCTP -> rd b' (l4 + 8) 4 = Some [0; 0; 0; 0]).

Lemma plain_byte b o h : rd b o 20 = Some h -> zget h 0 = Some 69 -> zget b o = Some 69.
Proof. intros Hr Hz. by rewrite <- (Z.add_0_r o), (zget_rd _ _ _ _ 0 Hr) by lia. Qed.

(** The IPv4 checksum written in software. *)
Lemma sw_ip_spec b o b0 b1 h :
  Forall byte_ok b -> rd b o 20 = Some h -> zget h 0 = Some 69 ->
  wr b (o + 10) [0; 0] = Some b0 -> wr b0 (o + 10) (le16 (rte_ipv4_cksum b0 o)) = Some b1 ->
  Forall byte_ok b1 /\ ip_valid b1 o /\ same_on (fun k => k < o + 10 \/ o + 12 <= k) b b1.
Proof.
  intros Hb Hh Hz Hw0 Hw1. split; [|split].
  - eapply wr_Forall; [|apply le16_bytes|exact Hw1]. eapply wr_Forall; [exact Hb|exact zero16_bytes|exact Hw0].
  - eapply ip_written; [exact Hb|by eapply plain_byte| |by rewrite Hh|exact Hw0|exact Hw1].
    apply rd_Some in Hh. lia.
  - eapply same_on_trans; [by eapply wr_same_on|by eapply wr_same_on|]. cbn [length le16]. intros k Hk. cbn beta. lia.
Qed.

(** A checksum of the layer above written in software. *)
Lemma sw_l4_spec t b b0 b1 l3 l4 c :
  Forall byte_ok b -> l3 + l3_hdr_len t <= l4 -> 0 <= c -> Nat.Even (Z.to_nat c) ->
  wr b (l4 + c) [0; 0] = Some b0 -> wr b0 (l4 + c) (le16 (get_udptcp_checksum b0 l3 l4 t)) = Some b1 ->
  Forall byte_ok b1 /\ l4_valid t b1 l3 l4 (c + 2) /\ same_on (fun k => k < l4 + c \/ l4 + c + 2 <= k) b b1.
Proof.
  intros Hb Hl Hc Hev Hw0 Hw1. split; [|split].
  - eapply wr_Forall; [|apply le16_bytes|exact Hw1]. eapply wr_Forall; [exact Hb|exact zero16_bytes|exact Hw0].
  - by eapply l4_written.
  - eapply same_on_trans; [by eapply wr_same_on|by eapply wr_same_on|]. cbn [length le16]. intros k Hk. cbn beta. lia.
Qed.

Lemma inner_ip_spec b o i fl b' ol h :
  Forall byte_ok b -> rd b o 20 = Some h -> zget h 0 = Some 69 -> in_software fl -> i_tso_segsz i = 0 ->
  inner_ip b o i fl = Done (b', ol) ->
  Forall byte_ok b' /\ ip_valid b' o /\ same_on (fun k => k < o + 10 \/ o + 12 <= k) b b'.
Proof.
  intros Hb Hh Hz (Hip & _) Htso. unfold inner_ip. intros E. step_opt E b0 Hw0.
  rewrite Htso, Hip in E. cbn [Z.eqb negb andb orb] in E. step_opt E b1 Hw1. injection E as <- _.
  by eapply sw_ip_spec.
Qed.

Lemma even_6 : Nat.Even (Z.to_nat 6). Proof. by exists 3%nat. Qed.
Lemma even_16 : Nat.Even (Z.to_nat 16). Proof. by exists 8%nat. Qed.

Lemma inner_l4_spec b o l4 i fl ol0 b' ol :
  Forall byte_ok b -> o + l3_hdr_len (ethertype i) <= l4 -> in_software fl -> i_tso_segsz i = 0 ->
  inner_l4 b o l4 i fl ol0 = Done (b', ol) ->
  Forall byte_ok b' /\ l4_ok (ethertype i) (l4_proto i) b b' o l4 /\ same_on (fun k => ~ l4_field (l4_proto i) l4 k) b b'.
Proof.
  intros Hb Hl (_ & Hudp & Htcp & _) Htso. unfold inner_l4, l4_ok.
  destruct (Z.eqb_spec (l4_proto i) IPPROTO_UDP) as [Hp|Hp]; [|destruct (Z.eqb_spec (l4_proto i) IPPROTO_TCP) as [Ht|Ht];
    [|destruct (Z.eqb_spec (l4_proto i) IPPROTO_SCTP) as [Hs|Hs]]].
  - rewrite Hp. intros E. step_opt E old Hold. destruct (Z.eqb_spec (of_le16 old) 0) as [Ho|Ho].
    { injection E as <- _. split; [done|]. split; [|apply same_on_refl]. split; [|done]. intros _ f Hf Hne. congruence. }
    step_opt E b0 Hw0. rewrite Hudp in E. step_opt E b1 Hw1. injection E as <- _.
    destruct (sw_l4_spec _ _ _ _ _ _ 6 Hb Hl ltac:(lia) even_6 Hw0 Hw1) as (H1 & H2 & H3).
    split; [done|]. split; [split; [by intros|done]|]. eapply same_on_mono; [exact H3|]. unfold l4_field. intros k Hk. cbn beta in *. lia.
  - rewrite Ht. intros E. step_opt E b0 Hw0. rewrite Htso, Htcp in E. cbn [Z.eqb negb] in E. step_opt E b1 Hw1. injection E as <- _.
    destruct (sw_l4_spec _ _ _ _ _ _ 16 Hb Hl ltac:(lia) even_16 Hw0 Hw1) as (H1 & H2 & H3).
    split; [done|]. split; [split; [done|split; [by intros|done]]|]. eapply same_on_mono; [exact H3|]. unfold l4_field. intros k Hk. cbn beta in *. lia.
  - intros E. step_opt E b0 Hw0.
    assert (Hb' : b0 = b'). { destruct (has_flag fl TESTPMD_TX_OFFLOAD_SCTP_CKSUM); [step_opt E tot Htot|]; by injection E. } subst b0.
    split; [eapply wr_Forall; [exact Hb| |exact Hw0]; repeat (apply Forall_cons; split; [apply (mod256_ok 0)|]); constructor|].
    split; [split; [done|split; [done|intros _; exact (rd_wr_same _ _ _ _ Hw0)]]|].
    eapply same_on_mono; [by eapply wr_same_on|]. cbn [length]. unfold l4_field. intros k Hk. cbn beta in *. lia.
  - intros [= <- _]. split; [done|]. split; [done|]. apply same_on_refl.
Qed.

(** The headers of a layer: the IP checksum, and that of the layer above. *)
Definition layer_ok (t proto : Z) (b b' : list Z) (o l4 : Z) : Prop :=
  (t = ETHER_TYPE_IPv4 -> ip_valid b' o) /\ l4_ok t proto b b' o l4.

Lemma plain_len t b o l : plain t b o -> (t = ETHER_TYPE_IPv4 -> forall v, zget b o = Some v -> l = Z.land v 15 * 4) ->
  (t = ETHER_TYPE_IPv6 -> l = 40) -> l = l3_hdr_len t.
Proof.
  intros [->|(-> & h & Hr & Hz)] H4 H6; [by rewrite H6|]. rewrite (H4 eq_refl 69); [done|]. by eapply plain_byte.
Qed.

Lemma process_inner_spec b o i fl b' ol :
  Forall byte_ok b -> plain (ethertype i) b o -> i_l3_len i = l3_hdr_len (ethertype i) -> in_software fl -> i_tso_segsz i = 0 ->
  process_inner_cksums b o i fl = Done (b', ol) ->
  Forall byte_ok b' /\ layer_ok (ethertype i) (l4_proto i) b b' o (o + i_l3_len i) /\
  same_on (fun k => ~ ip_field (ethertype i) o k /\ ~ l4_field (l4_proto i) (o + i_l3_len i) k) b b'.
Proof.
  intros Hb Hpl Hlen Hsw Htso.
  assert (Hl : o + l3_hdr_len (ethertype i) <= o + i_l3_len i) by (rewrite Hlen; lia).
  unfold process_inner_cksums. destruct Hpl as [Ht|(Ht & h & Hh & Hz)]; rewrite Ht.
  - intros E. cbn [Z.eqb] in E. change (ETHER_TYPE_IPv6 =? ETHER_TYPE_IPv4) with false in E. rewrite Z.eqb_refl in E. cbn iota in E.
    destruct (inner_l4_spec _ _ _ _ _ _ _ _ Hb Hl Hsw Htso E) as (H1 & H2 & H3).
    rewrite Ht in H2. split; [done|]. split; [by split|]. eapply same_on_mono; [exact H3|]. intros k [_ Hk]. exact Hk.
  - rewrite Z.eqb_refl. intros E. apply outcome_bind_Done in E as ([b1 ol1] & E1 & E).
    destruct (inner_ip_spec _ _ _ _ _ _ _ Hb Hh Hz Hsw Htso E1) as (Hb1 & Hip & Hs1).
    destruct (inner_l4_spec _ _ _ _ _ _ _ _ Hb1 Hl Hsw Htso E) as (Hb2 & Hl4 & Hs2).
    rewrite Hlen, Ht in *; clear Hl. change (l3_hdr_len ETHER_TYPE_IPv4) with 20 in *.
    split; [done|]. split; [split|].
    + intros _. destruct Hip as (h' & Hr' & Hok). exists h'. split; [|done].
      rewrite (rd_same_on _ _ _ o 20 Hs2); [done|]. by_fields.
    + destruct Hl4 as [Hu Htc]. split; [|exact Htc]. intros Hp f Hf Hne. apply (Hu Hp f); [|done].
      rewrite (rd_same_on _ _ _ (o + 20 + 6) 2 Hs1); [done|]. by_fields.
    + eapply same_on_trans; [exact Hs1|exact Hs2|]. by_fields.
Qed.

Lemma process_outer_spec b o i fl b' ol :
  Forall byte_ok b -> plain (outer_ethertype i) b o -> i_outer_l3_len i = l3_hdr_len (outer_ethertype i) -> in_software fl ->
  process_outer_cksums b o i fl = Done (b', ol) ->
  layer_ok (outer_ethertype i) (if outer_l4_proto i =? IPPROTO_UDP then IPPROTO_UDP else 0) b b' o (o + i_outer_l3_len i) /\
  same_on (fun k => ~ ip_field (outer_ethertype i) o k /\
    ~ l4_field (if outer_l4_proto i =? IPPROTO_UDP then IPPROTO_UDP else 0) (o + i_outer_l3_len i) k) b b'.
Proof.
  intros Hb Hpl Hlen (_ & _ & _ & Hhw).
  assert (Hl : o + l3_hdr_len (outer_ethertype i) <= o + i_outer_l3_len i) by (rewrite Hlen; lia).
  assert (H20 : 20 <= l3_hdr_len (outer_ethertype i)) by (unfold l3_hdr_len; destruct (_ =? _); lia).
  unfold process_outer_cksums. rewrite Hhw. intros E.
  apply outcome_bind_Done in E as ([b1 ol1] & E1 & E).
  set (t := outer_ethertype i) in *.
  assert (H1 : Forall byte_ok b1 /\ (t = ETHER_TYPE_IPv4 -> ip_valid b1 o) /\ same_on (fun k => ~ ip_field t o k) b b1).
  { destruct (Z.eqb_spec t ETHER_TYPE_IPv4) as [Ht|Ht]; [|injection E1 as <- _; split; [done|split; [done|apply same_on_refl]]].
    destruct Hpl as [Hpl|(_ & h & Hh & Hz)]; [by rewrite Ht in Hpl|]. step_opt E1 b0 Hw0. step_opt E1 b2 Hw1. injection E1 as <- _.
    destruct (sw_ip_spec _ _ _ _ _ Hb Hh Hz Hw0 Hw1) as (? & ? & Hs). split_and!; [done|done|].
    eapply same_on_mono; [exact Hs|]. by_fields. }
  destruct H1 as (Hb1 & Hip & Hs1). unfold layer_ok.
  assert (Hip' : forall b2, same_on (fun k => k < o + i_outer_l3_len i + 6 \/ o + i_outer_l3_len i + 8 <= k) b1 b2 ->
    t = ETHER_TYPE_IPv4 -> ip_valid b2 o).
  { intros b2 Hs Ht. destruct (Hip Ht) as (h' & Hr' & Hok). exists h'. split; [|done].
    rewrite (rd_same_on _ _ _ o 20 Hs); [done|]. intros k Hk. rewrite Hlen, Ht. change (l3_hdr_len ETHER_TYPE_IPv4) with 20. lia. }
  destruct (Z.eqb_spec (outer_l4_proto i) IPPROTO_UDP) as [Hp|Hp]; cbn [negb] in E.
  2: { injection E as <- _. split; [split; [done|by split]|]. eapply same_on_mono; [exact Hs1|]. by intros k [Hk _]. }
  step_opt E old Hold.
  assert (Hold' : rd b (o + i_outer_l3_len i + 6) 2 = Some old).
  { rewrite <- Hold. symmetry. eapply rd_same_on; [exact Hs1|]. by_fields. }
  destruct (Z.eqb_spec (of_le16 old) 0) as [Ho|Ho].
  { injection E as <- _. split; [split; [done|]|].
    - split; [|done]. intros _ f Hf Hne. congruence.
    - eapply same_on_mono; [exact Hs1|]. by intros k [Hk _]. }
  step_opt E b0 Hw0. step_opt E b2 Hw1. injection E as <- _.
  destruct (sw_l4_spec _ _ _ _ _ _ 6 Hb1 Hl ltac:(lia) even_6 Hw0 Hw1) as (_ & Hv & Hs2).
  split; [split|].
  - apply Hip'. eapply same_on_mono; [exact Hs2|]. intros k Hk. cbn beta in *. lia.
  - split; [by intros|done].
  - eapply same_on_trans; [exact Hs1|exact Hs2|]. by_fields.
Qed.

(** ** What dissecting finds *)

(** The outer layers and the segment size are as before. *)
Definition outer_same (i i' : offload_info) : Prop :=
  is_tunnel i' = is_tunnel i /\ outer_ethertype i' = outer_ethertype i /\ i_outer_l2_len i' = i_outer_l2_len i /\
  i_outer_l3_len i' = i_outer_l3_len i /\ outer_l4_proto i' = outer_l4_proto i /\ i_tso_segsz i' = i_tso_segsz i.

(** The length of the IP header at [o] of type [t]. *)
Definition hdr_len_at (t : Z) (b : list Z) (o l : Z) : Prop :=
  (t = ETHER_TYPE_IPv4 -> forall v, zget b o = Some v -> l = Z.land v 15 * 4) /\ (t = ETHER_TYPE_IPv6 -> l = 40).

Lemma parse_ipv4_spec b o i i' :
  parse_ipv4 b o i = Done i' -> exists v l4 proto, zget b o = Some v /\ i' = with_l3 (Z.land v 15 * 4) l4 proto i.
Proof.
  unfold parse_ipv4. intros E. apply outcome_bind_Done in E as (v & Hv & E). unfold rd8 in Hv.
  destruct (zget b o) as [v'|]; [|done]. injection Hv as ->.
  apply outcome_bind_Done in E as (proto & _ & E). apply outcome_bind_Done in E as (l4 & _ & [= <-]). eauto.
Qed.

Lemma parse_ipv6_spec b o i i' : parse_ipv6 b o i = Done i' -> exists l4 proto, i' = with_l3 40 l4 proto i.
Proof.
  unfold parse_ipv6. intros E. apply outcome_bind_Done in E as (proto & _ & E).
  apply outcome_bind_Done in E as (l4 & _ & [= <-]). eauto.
Qed.

Lemma parse_ipv4_len b o l2 i i' :
  parse_ipv4 b o i = Done i' -> hdr_len_at ETHER_TYPE_IPv4 b o (i_l3_len i') /\ outer_same i (with_l2 ETHER_TYPE_IPv4 l2 i').
Proof.
  intros (v & l4 & proto & Hv & ->)%parse_ipv4_spec. split; [|done]. split; [|done]. intros _ v' Hv'. cbn. congruence.
Qed.

Lemma parse_ipv6_len b o l2 i i' :
  parse_ipv6 b o i = Done i' -> hdr_len_at ETHER_TYPE_IPv6 b o (i_l3_len i') /\ outer_same i (with_l2 ETHER_TYPE_IPv6 l2 i').
Proof. intros (l4 & proto & ->)%parse_ipv6_spec. by split. Qed.

Lemma parse_ethernet_spec b o i i' :
  parse_ethernet b o i = Done i' ->
  14 <= i_l2_len i' /\ outer_same i i' /\ hdr_len_at (ethertype i') b (o + i_l2_len i') (i_l3_len i') /\
  (l4_proto i' <> 0 -> ethertype i' = ETHER_TYPE_IPv4 \/ ethertype i' = ETHER_TYPE_IPv6).
Proof.
  unfold parse_ethernet. intros E. apply outcome_bind_Done in E as (t0 & _ & E).
  apply outcome_bind_Done in E as ([t l2] & Hl2 & E).
  assert (H14 : 14 <= l2).
  { destruct (t0 =? ETHER_TYPE_VLAN); [|injection Hl2 as _ <-; lia].
    apply outcome_bind_Done in Hl2 as (t1 & _ & [= _ <-]). lia. }
  destruct (Z.eqb_spec t ETHER_TYPE_IPv4) as [->|H4]; [|destruct (Z.eqb_spec t ETHER_TYPE_IPv6) as [->|H6]].
  - apply parse_ipv4_spec in E as (v & l4 & proto & Hv & ->). cbn. split; [done|]. split; [done|].
    split; [|by left]. split; [|done]. intros _ v' Hv'. congruence.
  - apply parse_ipv6_spec in E as (l4 & proto & ->). cbn. split; [done|]. split; [done|]. split; [done|]. by right.
  - injection E as <-. cbn. split; [done|]. split; [done|]. split; [|done]. done.
Qed.

(** What a tunnel parser leaves: nothing, or a tunnel whose inner IP header is
    [i_l2_len] after the header that starts at [o]. *)
Definition tunnel_ok (b : list Z) (o : Z) (i i' : offload_info) : Prop :=
  i' = i \/
  (is_tunnel i' = true /\ outer_ethertype i' = ethertype i /\ i_outer_l3_len i' = i_l3_len i /\
   i_tso_segsz i' = i_tso_segsz i /\ 0 <= i_l2_len i' /\ hdr_len_at (ethertype i') b (o + i_l2_len i') (i_l3_len i') /\
   (outer_l4_proto i' = IPPROTO_UDP -> l4_proto i = IPPROTO_UDP /\ 30 <= i_l2_len i' \/ outer_l4_proto i = IPPROTO_UDP)).

Lemma parse_vxlan_spec b o pt i i' : l4_proto i = IPPROTO_UDP -> parse_vxlan b o pt i = Done i' -> tunnel_ok b o i i'.
Proof.
  intros Hp. unfold parse_vxlan. intros E. apply outcome_bind_Done in E as (dst & _ & E).
  destruct (_ && _); [injection E as <-; by left|]. apply outcome_bind_Done in E as (i1 & E1 & [= <-]). right.
  apply parse_ethernet_spec in E1 as (H14 & (T & E2 & _ & E3 & E4 & E5) & Hl & _). cbn in *.
  rewrite T, E2, E3, E4, E5, Hp. unfold ETHER_VXLAN_HLEN. split_and!; try done; [lia| |].
  - replace (o + (i_l2_len i1 + 16)) with (o + 16 + i_l2_len i1) by lia. done.
  - intros _. left. split; [done|]. lia.
Qed.

Lemma parse_gre_spec b o i i' : l4_proto i = IPPROTO_GRE -> parse_gre b o i = Done i' -> tunnel_ok b o i i'.
Proof.
  intros Hp. unfold parse_gre. intros E. apply outcome_bind_Done in E as (flags & _ & E).
  destruct (negb _); [injection E as <-; by left|].
  set (g := if has_flag flags GRE_KEY_PRESENT then 4 + GRE_KEY_LEN else 4) in E.
  assert (Hg : 4 <= g) by (unfold g, GRE_KEY_LEN; destruct (has_flag _ _); lia). clearbody g.
  apply outcome_bind_Done in E as (proto & _ & E). apply outcome_bind_Done in E as (r & Hr & E).
  assert (H1 : r = None \/ exists i1, r = Some i1 /\ outer_same (enter_tunnel (l4_proto i) i) i1 /\ 0 <= i_l2_len i1 /\
    hdr_len_at (ethertype i1) b (o + g + i_l2_len i1) (i_l3_len i1)).
  { destruct (proto =? ETHER_TYPE_IPv4); [|destruct (proto =? ETHER_TYPE_IPv6); [|destruct (proto =? ETHER_TYPE_TEB)]].
    - apply outcome_bind_Done in Hr as (i1 & E1 & [= <-]). right. eexists. split; [done|].
      destruct (parse_ipv4_len _ _ 0 _ _ E1). split; [done|]. cbn. rewrite Z.add_0_r. split; [done|]. done.
    - apply outcome_bind_Done in Hr as (i1 & E1 & [= <-]). right. eexists. split; [done|].
      destruct (parse_ipv6_len _ _ 0 _ _ E1). split; [done|]. cbn. rewrite Z.add_0_r. split; [done|]. done.
    - apply outcome_bind_Done in Hr as (i1 & E1 & [= <-]). right. eexists. split; [done|].
      apply parse_ethernet_spec in E1 as (H14 & Ho & Hl & _). split; [done|]. split; [lia|done].
    - injection Hr as <-. by left. }
  destruct H1 as [->|(i1 & -> & (T & E2 & _ & E3 & E4 & E5) & H0' & Hl)]; [injection E as <-; by left|].
  injection E as <-. right. cbn in *. rewrite T, E2, E3, E4, E5, Hp. split_and!; try done; [lia|].
  by replace (o + (i_l2_len i1 + g)) with (o + g + i_l2_len i1) by lia.
Qed.

Lemma parse_encap_ip_spec b o i i' : parse_encap_ip b o i = Done i' -> tunnel_ok b o i i'.
Proof.
  unfold parse_encap_ip. intros E. apply outcome_bind_Done in E as (v & _ & E).
  destruct (_ && _); [injection E as <-; by left|].
  destruct (_ =? 4); apply outcome_bind_Done in E as (i1 & E1 & [= <-]); right.
  - destruct (parse_ipv4_len _ _ 0 _ _ E1) as [Hl (T & E2 & _ & E3 & E4 & E5)]. cbn in *.
    rewrite Z.add_0_r, T, E2, E3, E4, E5. split_and!; try done. by right.
  - destruct (parse_ipv6_len _ _ 0 _ _ E1) as [Hl (T & E2 & _ & E3 & E4 & E5)]. cbn in *.
    rewrite Z.add_0_r, T, E2, E3, E4, E5. split_and!; try done. by right.
Qed.

(** The offsets and lengths of a dissected packet; [i0] is what the packet
    before left. *)
Lemma dissect_spec b fl pt i0 i l3 ol3 :
  dissect b fl pt i0 = Done (i, l3, ol3) ->
  i_tso_segsz i = i_tso_segsz i0 /\ hdr_len_at (ethertype i) b l3 (i_l3_len i) /\
  if is_tunnel i then
    hdr_len_at (outer_ethertype i) b ol3 (i_outer_l3_len i) /\ ol3 + i_outer_l3_len i <= l3 /\
    (outer_ethertype i = ETHER_TYPE_IPv4 \/ outer_ethertype i = ETHER_TYPE_IPv6) /\
    (outer_l4_proto i = IPPROTO_UDP -> ol3 + i_outer_l3_len i + 30 <= l3 \/ outer_l4_proto i0 = IPPROTO_UDP)
  else l3 = ol3.
Proof.
  unfold dissect. intros E. apply outcome_bind_Done in E as (i1 & E1 & E).
  apply outcome_bind_Done in E as (i2 & E2 & [= <- <- <-]).
  apply parse_ethernet_spec in E1 as (H14 & (T & _ & _ & _ & P & Tso) & Hl & Hp). cbn in T, P, Tso. rewrite Z.add_0_l in Hl.
  assert (Htun : tunnel_ok b (i_l2_len i1 + i_l3_len i1) i1 i2 /\ (i2 <> i1 -> l4_proto i1 <> 0)).
  { destruct (has_flag fl _); [|injection E2 as <-; split; [by left|done]].
    destruct (Z.eqb_spec (l4_proto i1) IPPROTO_UDP) as [Hu|]; [|destruct (Z.eqb_spec (l4_proto i1) IPPROTO_GRE) as [Hg|];
      [|destruct (Z.eqb_spec (l4_proto i1) IPPROTO_IPIP) as [Hi|]]].
    - split; [by eapply parse_vxlan_spec|by rewrite Hu].
    - split; [by eapply parse_gre_spec|by rewrite Hg].
    - split; [by eapply parse_encap_ip_spec|by rewrite Hi].
    - injection E2 as <-. split; [by left|done]. }
  destruct Htun as [[->|(T2 & Et & El & Ets & H0' & Hl2 & Hu)] Hne]; [by rewrite T, Tso|].
  rewrite T2, El, Et, Ets, Tso.
  split; [done|]. split; [done|]. split; [done|]. split; [lia|]. split.
  - apply Hp, Hne. intros ->. congruence.
  - intros Hu'. destruct (Hu Hu') as [[_ ?]|?]; [left; lia|right; congruence].
Qed.
End Valid.

Section Layers.
Context `{Cksums} `{!CksumsDoc}.

Lemma plain_same_on P t b b' o : plain t b o -> same_on P b b' -> P o -> plain t b' o.
Proof.
  intros [?|(Ht & h & Hh & Hz)] Hs HP; [by left|right]. split; [done|].
  pose proof (plain_byte _ _ _ Hh Hz) as Hb. rewrite <- (zget_same_on _ _ _ _ Hs HP) in Hb.
  apply rd_Some in Hh as (H0' & H1 & H2 & _). destruct (rd_is_Some b' o 20) as [h' Hh']; [lia|lia|destruct Hs; lia|].
  exists h'. split; [done|]. by rewrite <- (zget_rd _ _ _ _ 0 Hh'), Z.add_0_r by lia.
Qed.

(** A layer stays right when its bytes are left alone afterwards. *)
Lemma layer_ok_frame P t proto b b1 b2 b3 o l4 :
  layer_ok t proto b1 b2 o l4 -> same_on P b2 b3 -> (forall k, o <= k -> P k) -> o + 20 <= l4 ->
  (proto = IPPROTO_UDP -> rd b1 (l4 + 6) 2 = rd b (l4 + 6) 2) -> layer_ok t proto b b3 o l4.
Proof.
  intros [Hip (Hu & Ht & Hsc)] Hs HP Hl Hf.
  assert (Hv : forall n, l4_valid t b2 o l4 n -> l4_valid t b3 o l4 n).
  { intros n Hv ps m Hlay. apply Hv. rewrite <- Hlay. symmetry. eapply layer4_same_on; [exact Hs|..]; intros; try apply HP; lia. }
  split; [|split; [|split]].
  - intros E. destruct (Hip E) as (h & Hh & Hok). exists h. split; [|done]. rewrite (rd_same_on _ _ _ o 20 Hs); [done|].
    intros k Hk. apply HP. lia.
  - intros Hp f Hf' Hne. apply Hv. rewrite <- (Hf Hp) in Hf'. by apply (Hu Hp f).
  - intros Hp. by apply Hv, Ht.
  - intros Hp. rewrite (rd_same_on _ _ _ (l4 + 8) 4 Hs); [by apply Hsc|]. intros k Hk. apply HP. lia.
Qed.

Lemma src_next_frame P Q t b b1 b2 b3 o :
  src_next t b1 b2 o -> same_on P b b1 -> same_on Q b2 b3 ->
  (forall k, src_field t o k -> P k /\ Q k) -> src_next t b b3 o.
Proof.
  intros [H4 H6] Hs1 Hs2 HPQ.
  assert (E1 : forall j n, (forall k, j <= k < j + n -> src_field t o k) -> rd b1 j n = rd b j n)
    by (intros j n Hin; eapply rd_same_on; [exact Hs1|]; intros k Hk; by apply HPQ, Hin).
  assert (E2 : forall j n, (forall k, j <= k < j + n -> src_field t o k) -> rd b3 j n = rd b2 j n)
    by (intros j n Hin; eapply rd_same_on; [exact Hs2|]; intros k Hk; by apply HPQ, Hin).
  split; intros Ht.
  - destruct (H4 Ht) as (s & Hr & Hr'). exists s. rewrite E1 in Hr by by_fields. by rewrite E2 by by_fields.
  - destruct (H6 Ht) as (x & Hr & Hr'). exists x. rewrite E1 in Hr by by_fields. by rewrite E2 by by_fields.
Qed.

(** The fields of a layer that the engine may change. *)
Definition layer_field (t proto o l4 k : Z) : Prop := ip_field t o k \/ src_field t o k \/ l4_field proto l4 k.

(** A UDP header outside a tunnel is that of VXLAN. *)
Definition outer_udp (i : offload_info) : Z := if outer_l4_proto i =? IPPROTO_UDP then IPPROTO_UDP else 0.

(** Steps 2 and 3 for the inner layers of a buffer. *)
Lemma inner_layers (L : Z -> Prop) b b1 b2 b3 o i fl ol :
  Forall byte_ok b2 -> plain (ethertype i) b o -> i_l3_len i = l3_hdr_len (ethertype i) -> in_software fl -> i_tso_segsz i = 0 ->
  src_next (ethertype i) b b1 o -> same_on (fun k => ~ src_field (ethertype i) o k) b b1 ->
  same_on L b1 b2 -> (forall k, o <= k -> L k) ->
  process_inner_cksums b2 o i fl = Done (b3, ol) ->
  Forall byte_ok b3 /\ src_next (ethertype i) b b3 o /\ layer_ok (ethertype i) (l4_proto i) b b3 o (o + i_l3_len i) /\
  same_on (fun k => L k /\ ~ layer_field (ethertype i) (l4_proto i) o (o + i_l3_len i) k) b b3 /\
  same_on (fun k => ~ ip_field (ethertype i) o k /\ ~ l4_field (l4_proto i) (o + i_l3_len i) k) b2 b3.
Proof.
  intros Hb2 Hpl Hlen Hsw Htso Hsrc Hs1 Hs2 HL E. set (t := ethertype i) in *.
  assert (H20 : 20 <= l3_hdr_len t) by (unfold l3_hdr_len; destruct (t =? _); lia).
  assert (Hs12 : same_on (fun k => L k /\ ~ src_field t o k) b b2) by (eapply same_on_trans; [exact Hs1|exact Hs2|]; tauto).
  assert (Hpl2 : plain t b2 o) by (eapply plain_same_on; [exact Hpl|exact Hs12|]; split; [apply HL|unfold src_field]; lia).
  destruct (process_inner_spec b2 o i fl b3 ol Hb2 Hpl2 Hlen Hsw Htso E) as (Hb3 & Hok & Hs3). fold t in Hok, Hs3.
  split; [done|]. split; [|split; [|split; [|exact Hs3]]].
  - eapply (src_next_frame (fun _ => True) (fun k => L k /\ ~ ip_field t o k /\ ~ l4_field (l4_proto i) (o + i_l3_len i) k) t b b b1 b3 o);
      [exact Hsrc|apply same_on_refl|eapply same_on_trans; [exact Hs2|exact Hs3|]; tauto|].
    intros k Hk. split; [done|]. split; [apply HL; unfold src_field in Hk; lia|]. revert k Hk. rewrite Hlen. by_fields.
  - eapply (layer_ok_frame (fun _ => True)); [exact Hok|apply same_on_refl|done|lia|]. intros _.
    eapply rd_same_on; [exact Hs12|]. rewrite Hlen. intros k Hk. split; [apply HL; lia|].
    unfold l3_hdr_len in *. unfold src_field. destruct (Z.eqb_spec t ETHER_TYPE_IPv4); lia.
  - eapply same_on_trans; [exact Hs12|exact Hs3|]. unfold layer_field. intros k Hk. tauto.
Qed.

Lemma outer_udp_field i l4 k :
  l4_field (outer_udp i) l4 k -> outer_l4_proto i = IPPROTO_UDP /\ l4 + 6 <= k < l4 + 8.
Proof.
  unfold l4_field, outer_udp. destruct (Z.eqb_spec (outer_l4_proto i) IPPROTO_UDP) as [?|?].
  - intros [[_ ?]|[[? _]|[? _]]]; done.
  - intros [[? _]|[[? _]|[? _]]]; done.
Qed.

Lemma src_field_inside t o k : src_field t o k -> k < o + l3_hdr_len t.
Proof. unfold src_field, l3_hdr_len. intros [[-> ?]|[-> ->]]; cbn; lia. Qed.

(** Steps 2 and 3 for the outer layers, after the inner ones at [l3]. *)
Lemma outer_layers b b1 b2 b3 b4 l3 ol3 i fl ol :
  let t := outer_ethertype i in let ol4 := ol3 + i_outer_l3_len i in
  Forall byte_ok b3 -> plain t b ol3 -> i_outer_l3_len i = l3_hdr_len t -> in_software fl ->
  ol4 <= l3 -> (outer_l4_proto i = IPPROTO_UDP -> ol4 + 30 <= l3) ->
  same_on (fun k => k < l3) b b1 -> src_next t b1 b2 ol3 -> same_on (fun k => k < l3) b2 b3 ->
  same_on (fun k => k < l3 /\ ~ src_field t ol3 k) b b3 ->
  process_outer_cksums b3 ol3 i fl = Done (b4, ol) ->
  src_next t b b4 ol3 /\ layer_ok t (outer_udp i) b b4 ol3 ol4 /\
  same_on (fun k => ~ ip_field t ol3 k /\ ~ l4_field (outer_udp i) ol4 k) b3 b4 /\
  same_on (fun k => l3 <= k) b3 b4.
Proof.
  intros t ol4 Hb3 Hpl Hlen Hsw Hpos Hudp Hs01 Hsrc Hs23 Hs03 E.
  assert (Hin : forall k, src_field t ol3 k -> k < ol4).
  { unfold ol4. rewrite Hlen. apply src_field_inside. }
  assert (H20 : 20 <= l3_hdr_len t) by (unfold l3_hdr_len; destruct (t =? _); lia).
  assert (Hol : ol3 + 20 <= ol4) by (unfold ol4; rewrite Hlen; lia).
  assert (Hpl3 : plain t b3 ol3) by (eapply plain_same_on; [exact Hpl|exact Hs03|]; unfold src_field; cbn beta; lia).
  destruct (process_outer_spec b3 ol3 i fl b4 ol Hb3 Hpl3 Hlen Hsw E) as (Hok & Hs34).
  fold t in Hok, Hs34. fold ol4 in Hok, Hs34. fold (outer_udp i) in Hok, Hs34.
  assert (Hs34' : same_on (fun k => src_field t ol3 k) b3 b4).
  { eapply same_on_mono; [exact Hs34|]. intros k Hk. split; [unfold src_field, ip_field in *; lia|].
    intros [_ ?]%outer_udp_field. apply Hin in Hk. lia. }
  split; [|split; [|split; [exact Hs34|]]].
  - eapply (src_next_frame _ (fun k => k < l3 /\ src_field t ol3 k) t b b1 b2 b4 ol3); [exact Hsrc|exact Hs01| |].
    + eapply same_on_trans; [exact Hs23|exact Hs34'|]. tauto.
    + intros k Hk. pose proof (Hin k Hk). cbn beta. split; [lia|]. split; [lia|done].
  - eapply (layer_ok_frame (fun _ => True)); [exact Hok|apply same_on_refl|done|lia|]. intros Hu.
    assert (Hu' : outer_l4_proto i = IPPROTO_UDP).
    { unfold outer_udp in Hu. by destruct (Z.eqb_spec (outer_l4_proto i) IPPROTO_UDP). }
    specialize (Hudp Hu'). eapply rd_same_on; [exact Hs03|]. intros k Hk. split; [lia|]. intros Hf%Hin. lia.
  - eapply same_on_mono; [exact Hs34|]. intros k Hk. split; [unfold ip_field; lia|].
    intros [Hu ?]%outer_udp_field. specialize (Hudp Hu). lia.
Qed.
End Layers.

(** ** Checksums *)

(** C15: a packet all of whose checksums but that of SCTP are computed in
    software (no offload is set but perhaps that one), that is not segmented,
    whose IP headers are IPv4 without options or IPv6, and before which no
    packet of the burst was in a UDP tunnel, leaves with valid checksums: the
    source address of every IP header, inner and outer, is the next one, the
    IPv4 checksums and those of TCP and of UDP, where there is one, are right
    in the packet as it is sent, the SCTP checksum is left 0, and no other
    byte has changed.  [ipip_after_vxlan] is a packet after one in a tunnel
    whose checksum is wrong. *)
Theorem csum_checksums_valid `{Cksums} (Hdoc : CksumsDoc) b fl pt i0 i l3 ol3 i' b' ol
    (Hb : Forall byte_ok b) (Hsw : in_software fl) (Htso : i_tso_segsz i0 = 0) (Hprev : outer_l4_proto i0 <> IPPROTO_UDP)
    (Hd : dissect b fl pt i0 = Done (i, l3, ol3)) (Hin : plain (ethertype i) b l3)
    (Hout : is_tunnel i = true -> plain (outer_ethertype i) b ol3)
    (Hrun : csum_buffer b fl pt i0 = Done (i', b', ol)) :
  let l4 := l3 + i_l3_len i in let ol4 := ol3 + i_outer_l3_len i in
  i' = i /\ src_next (ethertype i) b b' l3 /\ layer_ok (ethertype i) (l4_proto i) b b' l3 l4 /\
  (is_tunnel i = true ->
     src_next (outer_ethertype i) b b' ol3 /\ layer_ok (outer_ethertype i) (outer_udp i) b b' ol3 ol4) /\
  same_on (fun k => ~ layer_field (ethertype i) (l4_proto i) l3 l4 k /\
     (is_tunnel i = true -> ~ layer_field (outer_ethertype i) (outer_udp i) ol3 ol4 k)) b b'.
Proof.
  intros l4 ol4. destruct (dissect_spec _ _ _ _ _ _ _ Hd) as (Hts & [Hl4 Hl6] & Htun).
  assert (Hlen : i_l3_len i = l3_hdr_len (ethertype i)) by (by eapply plain_len).
  rewrite Htso in Hts. unfold csum_buffer in Hrun. rewrite Hd in Hrun. cbn [mbind outcome_bind] in Hrun.
  apply outcome_bind_Done in Hrun as (b1 & E1 & Hrun). destruct (change_ip_spec _ _ _ _ Hb E1) as (Hb1 & Hsrc & Hs1).
  apply outcome_bind_Done in Hrun as (b2 & E2 & Hrun). apply outcome_bind_Done in Hrun as ([b3 ol1] & E3 & Hrun).
  destruct (is_tunnel i).
  2: { injection E2 as <-. injection Hrun as <- <- _.
    destruct (inner_layers (fun _ => True) b b1 b1 b3 l3 i fl ol1 Hb1 Hin Hlen Hsw Hts Hsrc Hs1) as (_ & Hn & Hok & Hs & _);
      [apply same_on_refl|done|done|].
    split_and!; try done. eapply same_on_mono; [exact Hs|]. tauto. }
  apply outcome_bind_Done in Hrun as ([b4 ol2] & E4 & [= <- <- _]). specialize (Hout eq_refl).
  destruct Htun as ([Ho4 Ho6] & Hpos & _ & Hudp).
  assert (Holen : i_outer_l3_len i = l3_hdr_len (outer_ethertype i)) by (by eapply plain_len).
  destruct (change_ip_spec _ _ _ _ Hb1 E2) as (Hb2 & Hosrc & Hs2).
  set (t := ethertype i) in *. set (ot := outer_ethertype i) in *.
  assert (Hosf : forall k, l3 <= k -> ~ src_field ot ol3 k).
  { intros k Hk Hf%src_field_inside. lia. }
  assert (H20 : 20 <= l3_hdr_len t) by (unfold l3_hdr_len; destruct (t =? _); lia).
  destruct (inner_layers _ b b1 b2 b3 l3 i fl ol1 Hb2 Hin Hlen Hsw Hts Hsrc Hs1 Hs2 Hosf E3) as (Hb3 & Hn & Hok & Hs3 & Hs23).
  fold t in Hn, Hok, Hs3, Hs23. fold l4 in Hok, Hs3, Hs23.
  destruct (outer_layers b b1 b2 b3 b4 l3 ol3 i fl ol2) as (Hon & Hook & Hs34 & Hs34'); try done.
  - intros Hu. destruct (Hudp Hu); [done|congruence].
  - eapply same_on_mono; [exact Hs1|]. by_fields.
  - eapply same_on_mono; [exact Hs23|]. unfold l4. rewrite Hlen. by_fields.
  - eapply same_on_mono; [exact Hs3|]. unfold layer_field, l4. rewrite Hlen. by_fields.
  - split; [done|]. split; [|split; [|split; [done|]]].
    + eapply (src_next_frame (fun _ => True) _ t b b b3 b4 l3); [exact Hn|apply same_on_refl|exact Hs34'|].
      by_fields.
    + eapply layer_ok_frame; [exact Hok|exact Hs34'|done|unfold l4; rewrite Hlen; lia|done].
    + eapply same_on_trans; [exact Hs3|exact Hs34|]. intros k [H1 H2]. specialize (H2 eq_refl). unfold layer_field in *. tauto.
Qed.

(** ** Bursts *)

Ltac wr_len :=
  repeat match goal with
  | H : (let '(_, _) := ?p in _) = Done _ |- _ => destruct p
  | H : (if ?c then _ else _) = Done _ |- _ => destruct c
  | H : Done (_, _) = Done (_, _) |- _ => injection H as ? ?; subst
  | _ => progress inv_outcome
  | _ => progress subst
  end;
  repeat match goal with
  | H : wr _ _ _ = Some _ |- _ => apply wr_length in H
  end; try congruence.

Section Length.
Context `{Cksums}.

Lemma change_ip_length o t b b' : change_ip_addresses o t b = Done b' -> length b' = length b.
Proof. unfold change_ip_addresses, rd8. intros E. wr_len. Qed.

Lemma inner_ip_length b o i fl b' ol : inner_ip b o i fl = Done (b', ol) -> length b' = length b.
Proof. unfold inner_ip. intros E. wr_len. Qed.

Lemma inner_l4_length b o l4 i fl ol0 b' ol : inner_l4 b o l4 i fl ol0 = Done (b', ol) -> length b' = length b.
Proof. unfold inner_l4. intros E. wr_len. Qed.

Lemma process_inner_length b o i fl b' ol : process_inner_cksums b o i fl = Done (b', ol) -> length b' = length b.
Proof.
  unfold process_inner_cksums. destruct (_ =? _); [|destruct (_ =? _)]; intros E.
  - apply outcome_bind_Done in E as ([b1 ol1] & E1%inner_ip_length & E%inner_l4_length). congruence.
  - by apply inner_l4_length in E.
  - by injection E as <- _.
Qed.

Lemma process_outer_length b o i fl b' ol : process_outer_cksums b o i fl = Done (b', ol) -> length b' = length b.
Proof.
  unfold process_outer_cksums. intros E. apply outcome_bind_Done in E as ([b1 ol1] & E1 & E).
  assert (H1 : length b1 = length b) by wr_len. clear E1. wr_len.
Qed.

Lemma csum_buffer_length b fl pt i0 i b' ol : csum_buffer b fl pt i0 = Done (i, b', ol) -> length b' = length b.
Proof.
  unfold csum_buffer. intros E. apply outcome_bind_Done in E as ([[i1 l3] ol3] & _ & E).
  apply outcome_bind_Done in E as (b1 & E1%change_ip_length & E). apply outcome_bind_Done in E as (b2 & E2 & E).
  assert (H2 : length b2 = length b1) by (destruct (is_tunnel i1); [by apply change_ip_length in E2|by injection E2 as <-]).
  apply outcome_bind_Done in E as ([b3 ol1] & E3%process_inner_length & E).
  destruct (is_tunnel i1); [|injection E as _ <- _; congruence].
  apply outcome_bind_Done in E as ([b4 ol2] & E4%process_outer_length & E). injection E as _ <- _. congruence.
Qed.
End Length.

Lemma set_mtod_ok mb b : mtod mb = Done (buf (default (Seg [] 0) (head (segs mb)))) ->
  length b = length (buf (default (Seg [] 0) (head (segs mb)))) -> Forall seg_ok (segs mb) -> Forall seg_ok (segs (set_mtod mb b)).
Proof.
  unfold mtod, set_mtod. destruct (segs mb) as [|s rest] eqn:Hs; [done|]. cbn. intros _ Hl Hf. apply Forall_cons in Hf as [[H0 H1] Hf].
  constructor; [|done]. split; cbn; [done|]. by rewrite Hl.
Qed.

Lemma mtod_head mb b : mtod mb = Done b -> b = buf (default (Seg [] 0) (head (segs mb))) /\ mtod mb = Done (buf (default (Seg [] 0) (head (segs mb)))).
Proof. unfold mtod. destruct (segs mb); [done|]. cbn. by intros [= <-]. Qed.

Section Burst.
Context `{Ethdev} `{Cksums}.
Variables (nb_pkt_per_burst : Z) (ports : list tx_port_conf) (peers : list (list Z)) (seg_lengths : list Z)
  (tx_pkt_nb_segs : Z) (split split_rnd : bool) (random : nat -> Z).

Lemma mac_rewrite_ok fs mb mb' :
  mac_rewrite ports peers fs mb = Done mb' -> Forall seg_ok (segs mb) -> Forall seg_ok (segs mb').
Proof.
  unfold mac_rewrite. intros E Hf. apply outcome_bind_Done in E as (b & Hb & E). apply mtod_head in Hb as [-> Hb].
  apply outcome_bind_Done in E as (peer & _ & E). step_opt E b1 Hw1. apply outcome_bind_Done in E as (txp & _ & E).
  step_opt E b2 Hw2. injection E as <-. apply set_mtod_ok; [done| |done].
  by rewrite (wr_length _ _ _ _ Hw2), (wr_length _ _ _ _ Hw1).
Qed.

(** What the engine makes of a packet: the packet to send, or a copy of it in
    its place. *)
Definition out_of (wc : mbuf * option mbuf) : mbuf := default wc.1 wc.2.
Definition replaced_of (wc : mbuf * option mbuf) : list mbuf := match wc.2 with Some _ => [wc.1] | None => [] end.
Definition copy_of (wc : mbuf * option mbuf) : Prop :=
  forall p, wc.2 = Some p -> pkt_data (segs p) = pkt_data (segs wc.1) /\ ol_flags p = ol_flags wc.1 /\ offload p = offload wc.1.

Lemma pkt_copy_split_same lens allocs mb p frd allocs' :
  Forall (fun l => 0 <= l) lens -> Forall seg_ok (segs mb) ->
  pkt_copy_split lens allocs mb = Done (Some p, frd, allocs') ->
  pkt_data (segs p) = pkt_data (segs mb) /\ ol_flags p = ol_flags mb /\ offload p = offload mb.
Proof.
  intros Hl Hs. unfold pkt_copy_split. destruct (use_segs lens 0 (pkt_len mb)) as [used total] eqn:Eu.
  intros E. apply outcome_bind_Done in E as (seglen & Ef & E).
  destruct (alloc_down (rev seglen) allocs []) as [[md missing] allocs1] eqn:Ea.
  destruct (missing =? 0)%nat; [|done]. apply outcome_bind_Done in E as (r & Er & E). injection E as -> <- <-.
  assert (Hused : Forall (fun l => 0 <= l) used).
  { assert (G : forall len used total, use_segs lens len (pkt_len mb) = (used, total) -> Forall (fun l => 0 <= l) used).
    { clear - Hl. induction Hl as [|l lens Hl0 Hl IH]; intros len used total; cbn [use_segs]; [by intros [= <- _]|].
      destruct (len <? pkt_len mb); [|by intros [= <- _]].
      destruct (use_segs lens _ _) as [u tt] eqn:Eu. intros [= <- <-]. constructor; [done|exact (IH _ _ _ Eu)]. }
    exact (G _ _ _ Eu). }
  assert (Hseg : Forall (fun l => 0 <= l) seglen).
  { unfold fit_last in Ef. destruct (0 <=? _); [|by injection Ef as <-].
    assert (Hr : Forall (fun l => 0 <= l) (rev used)) by (by apply Forall_rev).
    destruct (rev used) as [|x front]; [done|]. injection Ef as <-. apply Forall_cons in Hr as [_ Hr].
    apply Forall_app. split; [by apply Forall_rev|]. constructor; [|done]. unfold u16. apply Z.mod_pos_bound. lia. }
  assert (Hmd : Forall (fun d => data_len d = 0) md).
  { clear - Ea. assert (G : forall rl al made, Forall (fun d => data_len d = 0) made ->
      forall m n al', alloc_down rl al made = (m, n, al') -> Forall (fun d => data_len d = 0) m).
    { induction rl as [|l rl IH]; intros al made Hmade m n al'; cbn [alloc_down]; [by intros [= <- _ _]|].
      destruct al as [|[room|] al]; [by intros [= <- _ _]| |by intros [= <- _ _]].
      destruct (_ <? _); [intros [= <- _ _]; by constructor|]. apply IH. by constructor. }
    exact (G _ _ _ (Forall_nil_2 _) _ _ _ Ea). }
  split; [by eapply mbuf_copy_split_data|]. unfold mbuf_copy_split in Er.
  apply outcome_bind_Done in Er as (r & _ & Er). apply outcome_bind_Done in Er as (st & _ & Er).
  destruct (CsumOnly.ms st); [|done]. destruct (negb _); [done|]. by injection Er as <-.
Qed.

Lemma csum_packet_spec fs txp k i mb allocs i' out frd sfrd allocs' :
  Forall (fun l => 0 <= l) seg_lengths -> Forall seg_ok (segs mb) ->
  csum_packet ports peers seg_lengths tx_pkt_nb_segs split split_rnd random fs txp k i mb allocs =
    Done (i', out, frd, sfrd, allocs') ->
  exists wc, out = out_of wc /\ frd = replaced_of wc /\ copy_of wc /\ (split = false -> wc.2 = None).
Proof.
  intros Hlens Hok. unfold csum_packet. intros E. apply outcome_bind_Done in E as (mb1 & E1 & E).
  pose proof (mac_rewrite_ok _ _ _ E1 Hok) as Hok1. apply outcome_bind_Done in E as (b & Hb & E).
  apply mtod_head in Hb as [-> Hb]. apply outcome_bind_Done in E as ([[i1 b1] ol] & Ec & E).
  pose proof (csum_buffer_length _ _ _ _ _ _ _ Ec) as Hlen.
  set (w := csum_meta i1 (tx_ol_flags txp) ol (set_mtod mb1 b1)) in *.
  assert (Hw : Forall seg_ok (segs w)).
  { unfold w, csum_meta. destruct (is_tunnel i1); [destruct (has_flag _ _)|]; cbn [segs]; by apply set_mtod_ok. }
  destruct split.
  - apply outcome_bind_Done in E as ([[p f] al] & Ep & E). destruct p as [p|]; injection E as <- <- <- <- <-.
    + exists (w, Some p). split_and!; try done. intros p' [= <-]. eapply pkt_copy_split_same; [|exact Hw|exact Ep].
      by apply Forall_take.
    + by exists (w, None).
  - injection E as <- <- <- <- <-. by exists (w, None).
Qed.

Lemma csum_loop_spec fs txp k i pkts allocs out frd sfrd :
  Forall (fun l => 0 <= l) seg_lengths -> Forall (fun mb => Forall seg_ok (segs mb)) pkts ->
  csum_loop ports peers seg_lengths tx_pkt_nb_segs split split_rnd random fs txp k i pkts allocs = Done (out, frd, sfrd) ->
  exists rs, length rs = length pkts /\ out = out_of <$> rs /\ frd = rs ≫= replaced_of /\ Forall copy_of rs /\
    (split = false -> Forall (fun wc => wc.2 = None) rs).
Proof.
  intros Hlens Hok. revert k i allocs out frd sfrd. induction Hok as [|mb pkts Hmb Hok IH]; intros k i allocs out frd sfrd; cbn [csum_loop].
  - intros [= <- <- _]. by exists [].
  - intros E. apply outcome_bind_Done in E as ([[[[i1 o1] f1] s1] a1] & E1 & E).
    apply outcome_bind_Done in E as ([[o2 f2] s2] & E2 & [= <- <- _]).
    destruct (csum_packet_spec _ _ _ _ _ _ _ _ _ _ _ Hlens Hmb E1) as (wc & -> & -> & Hc & Hs).
    destruct (IH _ _ _ _ _ _ E2) as (rs & Hl & -> & -> & Hcs & Hss). exists (wc :: rs). cbn. rewrite Hl.
    split_and!; try done; [by constructor|]. intros Hsp. constructor; auto.
Qed.
End Burst.

(** The engine neither loses nor duplicates packets: it sends or frees
    one packet for every packet received, that packet rewritten or a copy of
    it with the same bytes and flags, and frees exactly the packets it has
    replaced by copies; the counters are those of the burst. *)
Theorem csum_burst_accounts `{Ethdev} `{Cksums} nb ports peers seg_lengths nb_segs split split_rnd random allocs fs d r replaced sfrd
    (Hlens : Forall (fun l => 0 <= l) seg_lengths)
    (pkts := (rx_burst d (rx_port fs) (rx_queue fs) nb).1) (Hok : Forall (fun mb => Forall seg_ok (segs mb)) pkts)
    (Hrun : pkt_burst_checksum_forward nb ports peers seg_lengths nb_segs split split_rnd random allocs fs d =
       Done (r, replaced, sfrd)) :
  exists rs, length rs = length pkts /\ br_sent r ++ br_freed r = out_of <$> rs /\ replaced = rs ≫= replaced_of /\
    Forall copy_of rs /\ (split = false -> Forall (fun wc => wc.2 = None) rs) /\
    same_route fs (br_fs r) /\ (0 < length pkts ->
    rx_packets (br_fs r) = u32 (rx_packets fs + Z.of_nat (length pkts)) /\
    tx_packets (br_fs r) = u32 (tx_packets fs + Z.of_nat (length (br_sent r))) /\
    rx_bad_ip_csum (br_fs r) = u32 (rx_bad_ip_csum fs + count_flag PKT_RX_IP_CKSUM_BAD pkts) /\
    rx_bad_l4_csum (br_fs r) = u32 (rx_bad_l4_csum fs + count_flag PKT_RX_L4_CKSUM_BAD pkts))%nat.
Proof.
  unfold pkt_burst_checksum_forward in Hrun. unfold pkts in *. clear pkts.
  destruct (rx_burst d (rx_port fs) (rx_queue fs) nb) as [pkts d1]. cbn [fst] in *.
  destruct (Nat.eqb_spec (length pkts) 0) as [H0'|Hne].
  { injection Hrun as <- <- <-. exists []. split; [done|]. split_and!; try done. intros; lia. }
  apply outcome_bind_Done in Hrun as (txp & Htxp & Hrun). apply outcome_bind_Done in Hrun as ([[out rep] sf] & El & Hrun).
  destruct (csum_loop_spec _ _ _ _ _ _ _ _ _ _ _ _ _ _ _ _ Hlens Hok El) as (rs & Hl & -> & -> & Hc & Hs).
  pose proof (tx_burst_max d1 (tx_port (count_rx (Z.of_nat (length pkts)) fs)) (tx_queue (count_rx (Z.of_nat (length pkts)) fs)) (out_of <$> rs)) as Hmax.
  destruct (tx_burst d1 _ _ _) as [nb_tx d2]. injection Hrun as <- <- _. exists rs.
  split; [done|]. unfold finish_burst. cbn [br_sent br_freed br_fs fst] in *. split; [apply take_drop|].
  split; [done|]. split; [done|]. split; [done|].
  rewrite length_take, Nat.min_l by done.
  destruct (_ <? _)%nat; cbn; (split; [done|]); done.
Qed.

(** ** Examples

    A device without offloading, and checksum functions that do what DPDK
    documents. *)

Definition sum_cksum (ws : list Z) : Z := 65535 - zsum ws mod 65535.

Lemma sum_cksum_ok ws : is_cksum ws (sum_cksum ws).
Proof.
  unfold sum_cksum. pose proof (Z.mod_pos_bound (zsum ws) 65535 ltac:(lia)). split; [lia|].
  exists (zsum ws / 65535 + 1). pose proof (Z.div_mod (zsum ws) 65535 ltac:(lia)). lia.
Qed.

Definition layer4_cksum (t : Z) (b : list Z) (l3 l4 : Z) : Z :=
  match layer4 t b l3 l4 with Some (ps, m) => sum_cksum (words (ps ++ pad m)) | None => 0 end.

#[local] Instance sample_cksums : Cksums := {|
  rte_ipv4_cksum b o := match rd b o 20 with Some h => sum_cksum (words h) | None => 0 end;
  rte_ipv4_phdr_cksum _ _ _ := 0;
  rte_ipv6_phdr_cksum _ _ _ := 0;
  rte_ipv4_udptcp_cksum := layer4_cksum ETHER_TYPE_IPv4;
  rte_ipv6_udptcp_cksum := layer4_cksum ETHER_TYPE_IPv6;
  is_tunnel_pkt _ := false;
  PKT_TX_IPV4 := 2 ^ 55; PKT_TX_IPV6 := 2 ^ 56; PKT_TX_IP_CKSUM := 2 ^ 54; PKT_TX_UDP_CKSUM := 3 * 2 ^ 52;
  PKT_TX_TCP_CKSUM := 2 ^ 52; PKT_TX_TCP_SEG := 2 ^ 50; PKT_TX_SCTP_CKSUM := 2 ^ 53; PKT_TX_OUTER_IPV4 := 2 ^ 59;
  PKT_TX_OUTER_IPV6 := 2 ^ 60; PKT_TX_OUTER_IP_CKSUM := 2 ^ 58; PKT_RX_IP_CKSUM_BAD := 2 ^ 4; PKT_RX_L4_CKSUM_BAD := 2 ^ 3;
|}.

#[local] Instance sample_cksums_doc : CksumsDoc.
Proof.
  split.
  - intros b o h _ Hh _. cbn. rewrite Hh. apply sum_cksum_ok.
  - intros t b l3 l4 ps m _ Hlay. unfold get_udptcp_checksum. destruct (Z.eqb_spec t ETHER_TYPE_IPv4) as [->|Ht]; cbn; unfold layer4_cksum.
    + rewrite Hlay. apply sum_cksum_ok.
    + assert (E : layer4 ETHER_TYPE_IPv6 b l3 l4 = layer4 t b l3 l4).
      { unfold layer4. by rewrite (proj2 (Z.eqb_neq _ _) Ht). }
      rewrite E, Hlay. apply sum_cksum_ok.
Defined.

(** Ethernet, IPv4, UDP; and the same in a VXLAN tunnel over IPv4 and UDP. *)
Definition eth_ip : list Z := replicate 12 1 ++ [8; 0].
Definition ip_hdr (len proto : Z) : list Z := [69; 0; 0; len; 0; 0; 64; 0; 64; proto; 1; 2; 10; 0; 0; 1; 10; 0; 0; 2].
Definition udp_hdr (port_hi port_lo len : Z) : list Z := [0; 9; port_hi; port_lo; 0; len; 7; 7].
Definition sample_udp : list Z := eth_ip ++ ip_hdr 31 17 ++ udp_hdr 0 9 11 ++ [97; 98; 99].
Definition sample_vxlan : list Z :=
  eth_ip ++ ip_hdr 81 17 ++ udp_hdr 18 181 61 ++ [8; 0; 0; 0; 0; 0; 1; 0] ++ sample_udp.
Definition sample_ipip : list Z := eth_ip ++ ip_hdr 51 4 ++ ip_hdr 31 17 ++ udp_hdr 0 9 11 ++ [97; 98; 99].

Definition tunnels : Z := TESTPMD_TX_OFFLOAD_PARSE_TUNNEL.

Lemma csum_checksums_valid_witness :
  exists i b' ol, csum_buffer sample_vxlan tunnels 0 (no_info 0) = Done (i, b', ol) /\ is_tunnel i = true /\
    layer_ok ETHER_TYPE_IPv4 IPPROTO_UDP sample_vxlan b' 64 84 /\ layer_ok ETHER_TYPE_IPv4 IPPROTO_UDP sample_vxlan b' 14 34.
Proof.
  destruct (dissect sample_vxlan tunnels 0 (no_info 0)) as [[[i l3] ol3]| |] eqn:Ed; [|vm_compute in Ed; discriminate Ed..].
  destruct (csum_buffer sample_vxlan tunnels 0 (no_info 0)) as [[[i' b'] ol]| |] eqn:Er; [|vm_compute in Er; discriminate Er..].
  pose proof (csum_checksums_valid sample_cksums_doc sample_vxlan tunnels 0 (no_info 0) i l3 ol3 i' b' ol) as Hv.
  vm_compute in Ed. injection Ed as <- <- <-.
  exists i', b', ol. split; [reflexivity|].
  destruct Hv as (-> & _ & Hok & Ht & _).
  - apply (bool_decide_unpack _). vm_compute. exact I.
  - vm_compute. repeat split.
  - reflexivity.
  - discriminate.
  - vm_compute. reflexivity.
  - right. split; [reflexivity|]. eexists. split; reflexivity.
  - intros _. right. split; [reflexivity|]. eexists. split; reflexivity.
  - exact Er.
  - split; [reflexivity|]. split; [exact Hok|]. destruct (Ht eq_refl) as [_ Hout]. exact Hout.
Defined.

(** After a packet in a VXLAN tunnel the engine takes a packet in an IPIP
    tunnel for one in a UDP tunnel: it overwrites the fragment field of the
    inner IP header, whose checksum is then wrong. *)
Lemma ipip_after_vxlan :
  exists i1 b1 ol1 i2 b2 ol2,
    csum_buffer sample_vxlan tunnels 0 (no_info 0) = Done (i1, b1, ol1) /\
    csum_buffer sample_ipip tunnels 0 i1 = Done (i2, b2, ol2) /\
    rd sample_ipip 40 2 = Some [64; 0] /\ rd b2 40 2 <> Some [64; 0] /\
    exists h, rd b2 34 20 = Some h /\ zsum (words h) mod 65535 <> 0.
Proof.
  do 6 eexists. split; [vm_compute; reflexivity|]. split; [vm_compute; reflexivity|]. split; [reflexivity|].
  split; [vm_compute; discriminate|]. eexists. split; [vm_compute; reflexivity|]. vm_compute. discriminate.
Qed.

Definition sample_pkt (b : list Z) : mbuf :=
  Mbuf [Seg (b ++ replicate 20 0) (Z.of_nat (length b))] 1 (Z.of_nat (length b)) 8 0 0 0 0 0 no_offload.

Lemma copy_split_copies_witness :
  exists p, pkt_copy_split [20; 20] [Some (replicate 64 0); Some (replicate 64 1); Some (replicate 64 2)] (sample_pkt sample_udp) =
    Done (Some p, [], [Some (replicate 64 2)]) /\ data_len <$> segs p = [20; 25] /\ pkt_data (segs p) = sample_udp.
Proof.
  destruct (copy_split_copies [20; 20] [Some (replicate 64 0); Some (replicate 64 1); Some (replicate 64 2)]
    (sample_pkt sample_udp) (Seg (sample_udp ++ replicate 20 0) 45)) as (p & front & l & E & Hd & _).
  - reflexivity.
  - split; vm_compute; discriminate.
  - reflexivity.
  - split; reflexivity.
  - discriminate.
  - repeat constructor; vm_compute; (discriminate || reflexivity).
  - vm_compute. lia.
  - repeat constructor; eexists; (split; [reflexivity|]); repeat constructor; vm_compute; discriminate.
  - exists p. split; [|split].
    + rewrite E. vm_compute in E. injection E as <-. reflexivity.
    + vm_compute in E. injection E as <-. reflexivity.
    + rewrite Hd. reflexivity.
Defined.

Lemma csum_burst_accounts_witness :
  match @pkt_burst_checksum_forward sample_ethdev sample_cksums 4 sample_ports [[5; 5; 5; 5; 5; 5]] [20; 20] 2 true false (fun _ => 0)
          [Some (replicate 64 0); Some (replicate 64 1)] sample_fs [sample_pkt sample_udp; sample_pkt sample_udp; sample_pkt sample_udp] with
  | Done (r, replaced, sfrd) =>
      exists rs, br_sent r ++ br_freed r = out_of <$> rs /\ replaced = rs ≫= replaced_of /\ length rs = 3%nat
  | _ => False
  end.
Proof.
  destruct (@pkt_burst_checksum_forward sample_ethdev sample_cksums 4 sample_ports [[5; 5; 5; 5; 5; 5]] [20; 20] 2 true false (fun _ => 0)
          [Some (replicate 64 0); Some (replicate 64 1)] sample_fs [sample_pkt sample_udp; sample_pkt sample_udp; sample_pkt sample_udp])
    as [[[r replaced] sfrd]| |] eqn:E; [|vm_compute in E; discriminate E..].
  destruct (@csum_burst_accounts sample_ethdev sample_cksums 4 sample_ports [[5; 5; 5; 5; 5; 5]] [20; 20] 2 true false (fun _ => 0)
    [Some (replicate 64 0); Some (replicate 64 1)] sample_fs [sample_pkt sample_udp; sample_pkt sample_udp; sample_pkt sample_udp]
    r replaced sfrd) as (rs & Hl & Ho & Hr & _).
  - repeat constructor; discriminate.
  - repeat constructor; vm_compute; discriminate.
  - exact E.
  - exists rs. split; [exact Ho|]. split; [exact Hr|exact Hl].
Defined.
