(* ===== verification/Engines.v ===== *)
(** * test-pmd: the engines as forwarding modes

    The engines of csumonly.c, flowgen.c and txonly.c as [struct fwd_engine];
    each promises what FwdRun.v needs of an engine ([EngineOk]), so that its
    theorems hold whichever of them is chosen.  The results of allocations,
    random numbers and the next flow of flowgen.c are arbitrary; the engines
    of FwdEngines.v are in FwdRun.v. *)

From S2P Require Import Prelude Packet FwdEngines FlowGen TxOnly FwdRun CsumOnly.

Section Engines.
Context `{Ethdev}.

Definition csum_fwd_engine `{Cksums} (nb : Z) (ports : list tx_port_conf) (peers : list (list Z)) (seg_lengths : list Z)
    (nb_segs : Z) (split split_rnd : bool) (random : nat -> Z) (allocs : list (option (list Z))) : engine :=
  Engine None None (fun fs d =>
    '(r, _, _) ← pkt_burst_checksum_forward nb ports peers seg_lengths nb_segs split split_rnd random allocs fs d;
    Done (br_fs r, br_dev r)).

Definition flow_gen_engine (nb : nat) (ports : list tx_port_conf) (allocs : list (option (list Z))) (next_flow : Z) : engine :=
  Engine None None (fun fs d =>
    '(r, _) ← pkt_burst_flow_gen nb ports allocs fs next_flow d; Done (br_fs r, br_dev r)).

Definition tx_only_engine (nb : nat) (ports : list tx_port_conf) (peers : list (list Z)) (seg_lengths : list Z)
    (nb_segs : Z) (split_rnd : bool) (random : nat -> Z) (allocs : list (option (list Z))) : engine :=
  Engine None None (fun fs d =>
    '(r, _) ← pkt_burst_transmit ports peers seg_lengths nb_segs split_rnd random nb allocs fs d;
    Done (br_fs r, br_dev r)).

#[export] Instance csum_engine_ok `{Cksums} nb ports peers seg_lengths nb_segs split split_rnd random allocs :
  EngineOk (csum_fwd_engine nb ports peers seg_lengths nb_segs split split_rnd random allocs).
Proof.
  intros fs d fs' d'. cbn. intros E. apply outcome_bind_Done in E as ([[r rep] sf] & E & [= <- _]).
  unfold pkt_burst_checksum_forward in E. destruct (rx_burst _ _ _ _) as [pkts d1].
  destruct (_ =? _)%nat; [by injection E as <- _ _|]. apply outcome_bind_Done in E as (txp & _ & E).
  apply outcome_bind_Done in E as ([[out rep'] sf'] & _ & E). destruct (tx_burst _ _ _ _) as [nb_tx d2].
  injection E as <- _ _. unfold finish_burst. by destruct (_ <? _)%nat.
Qed.

#[export] Instance flow_gen_engine_ok nb ports allocs next_flow : EngineOk (flow_gen_engine nb ports allocs next_flow).
Proof.
  intros fs d fs' d'. cbn. intros E. apply outcome_bind_Done in E as ([r nf] & E & [= <- _]).
  unfold pkt_burst_flow_gen in E. destruct (rx_burst _ _ _ _) as [pkts d1].
  apply outcome_bind_Done in E as (txp & _ & E). apply outcome_bind_Done in E as ([out nf'] & _ & E).
  destruct (tx_burst _ _ _ _) as [nb_tx d2]. apply outcome_bind_Done in E as (nf'' & _ & [= <- _]). done.
Qed.

#[export] Instance tx_only_engine_ok nb ports peers seg_lengths nb_segs split_rnd random allocs :
  EngineOk (tx_only_engine nb ports peers seg_lengths nb_segs split_rnd random allocs).
Proof.
  intros fs d fs' d'. cbn. intros E. apply outcome_bind_Done in E as ([r part] & E & [= <- _]).
  unfold pkt_burst_transmit in E. apply outcome_bind_Done in E as (txp & _ & E).
  apply outcome_bind_Done in E as ([out part'] & _ & E). destruct (_ && _); [by injection E as <- _|].
  destruct (tx_burst _ _ _ _) as [nb_tx d2]. injection E as <- _. unfold finish_burst. by destruct (_ <? _)%nat.
Qed.
End Engines.
