(* ===== verification/Params.v ===== *)
(** * test-pmd/parameters.c: the texts of the options

    The options of test-pmd that take a text of their own: lists of tuples in
    brackets (queue statistics mappings, NUMA sockets of ports and rings),
    hexadecimal masks of cores and ports, and a file of Ethernet addresses.
    Splitting a text at commas and reading an address are functions of DPDK. *)

From Stdlib Require Import Ascii DecimalString DecimalFacts DecimalN.
From stdpp Require Import strings.
From S2P Require Import Prelude Cstr Packet PortConf PortState QueueMap CoreConf FwdSettings.

#[local] Open Scope Z_scope.
#[local] Open Scope list_scope.

(** ** Definitions *)

(** What DPDK offers for texts: [rte_strsplit] cuts a string at a separator
    into so many tokens at most, and [cmdline_parse_etheraddr] reads the six
    bytes of an address, or fails. *)
Class DpdkText : Type := {
  rte_strsplit : string -> nat -> ascii -> list string;
  cmdline_parse_etheraddr : string -> option (list Z);
}.

Section Tuples.
Context `{DpdkText}.

(** A field is a number up to a limit in any base; what follows it is not
    looked at. *)
Definition parse_field (limit : Z) (s : string) : option Z :=
  let '(v, converted, erange, _) := strtoul 0 s in
  if erange || negb converted || (limit <? v) then None else Some v.

Fixpoint parse_fields (limit : Z) (l : list string) : option (list Z) :=
  match l with
  | [] => Some []
  | s :: l => v ← parse_field limit s; vs ← parse_fields limit l; Some (v :: vs)
  end.

(** The loop the functions for tuples share: [nf] is their number of fields
    and [limit] the largest number of a field, [body] stores the numbers of a
    tuple.  The result says whether
    the function returns 0. *)
Fixpoint tuple_loop {A} (nf : nat) (limit : Z) (body : list Z -> A -> outcome (bool * A)) (fuel : nat)
    (p0 : string) (x : A) : outcome (bool * A) :=
  match fuel with
  | O => Undefined
  | S fuel =>
      match strchr "(" p0 with
      | Some (_, String _ p) =>
          match strchr ")" p with
          | None => Done (false, x)
          | Some (field, p0) =>
              if (256 <=? String.length field)%nat then Done (false, x)
              else
                let str_fld := rte_strsplit field nf "," in
                if negb (length str_fld =? nf)%nat then Done (false, x)
                else
                  match parse_fields limit str_fld with
                  | None => Done (false, x)
                  | Some int_fld =>
                      '(ok, x) ← body int_fld x;
                      if (ok : bool) then tuple_loop nf limit body fuel p0 x else Done (false, x)
                  end
          end
      | _ => Done (true, x)
      end
  end.

Definition tuples {A} (nf : nat) (limit : Z) (body : list Z -> A -> outcome (bool * A)) (q_arg : string) (x : A)
    : outcome (bool * A) :=
  tuple_loop nf limit body (S (String.length q_arg)) q_arg x.

(** [parse_queue_stats_mapping_config]: the mappings of one direction. *)
Definition stats_mapping_entry (is_rx : bool) (int_fld : list Z) (l : list queue_stats_mappings)
    : outcome (bool * list queue_stats_mappings) :=
  match int_fld with
  | [port; queue; counter] =>
      if RTE_ETHDEV_QUEUE_STAT_CNTRS <=? counter then Done (false, l)
      else if (max_mappings is_rx <=? length l)%nat then Done (false, l)
      else Done (true, l ++ [Mapping (u8 port) (u8 queue) (u8 counter)])
  | _ => Undefined
  end.

Definition parse_queue_stats_mapping_config (q_arg : string) (is_rx : bool)
    : outcome (bool * list queue_stats_mappings) :=
  tuples 3 255 (stats_mapping_entry is_rx) q_arg [].

(** [parse_portnuma_config] *)
Definition portnuma_entry (st : pstate) (max_socket : Z) (int_fld : list Z) (port_numa : list Z)
    : outcome (bool * list Z) :=
  match int_fld with
  | [port; socket] =>
      let port_id := u8 port in
      if port_id_is_invalid port_id st then Done (false, port_numa)
      else
        let socket_id := u8 socket in
        if max_socket <=? socket_id then Done (false, port_numa)
        else port_numa ← of_opt (zset port_numa port_id socket_id); Done (true, port_numa)
  | _ => Undefined
  end.

Definition parse_portnuma_config (st : pstate) (max_socket : Z) (q_arg : string) (port_numa : list Z)
    : outcome (bool * list Z) :=
  tuples 2 255 (portnuma_entry st max_socket) q_arg port_numa.

Definition RX_RING_ONLY : Z := 1.
Definition TX_RING_ONLY : Z := 2.
Definition RXTX_RING : Z := 3.

(** [parse_ringnuma_config]: the arrays [rxring_numa] and [txring_numa]. *)
Definition ringnuma_entry (st : pstate) (max_socket : Z) (int_fld : list Z) (rings : list Z * list Z)
    : outcome (bool * (list Z * list Z)) :=
  match int_fld with
  | [port; flag; socket] =>
      let port_id := u8 port in
      if port_id_is_invalid port_id st then Done (false, rings)
      else
        let socket_id := u8 socket in
        if max_socket <=? socket_id then Done (false, rings)
        else
          let ring_flag := u8 flag in
          if (ring_flag <? RX_RING_ONLY) || (RXTX_RING <? ring_flag) then Done (false, rings)
          else
            let kind := Z.land ring_flag RXTX_RING in
            if kind =? RX_RING_ONLY then
              rx ← of_opt (zset rings.1 port_id socket_id); Done (true, (rx, rings.2))
            else if kind =? TX_RING_ONLY then
              tx ← of_opt (zset rings.2 port_id socket_id); Done (true, (rings.1, tx))
            else if kind =? RXTX_RING then
              rx ← of_opt (zset rings.1 port_id socket_id);
              tx ← of_opt (zset rings.2 port_id socket_id); Done (true, (rx, tx))
            else Done (true, rings)
  | _ => Undefined
  end.

Definition parse_ringnuma_config (st : pstate) (max_socket : Z) (q_arg : string) (rings : list Z * list Z)
    : outcome (bool * (list Z * list Z)) :=
  tuples 3 255 (ringnuma_entry st max_socket) q_arg rings.

(** ** Masks *)

(** A text of hexadecimal digits and nothing behind them; [rte_exit] is
    [Aborted]. *)
Definition parse_mask (s : string) : outcome Z :=
  let '(v, _, _, rest) := strtoul 16 s in
  if bool_decide (s = ""%string) || negb (bool_decide (rest = ""%string)) then Aborted else Done v.

Definition parse_fwd_coremask (en : Z -> bool) (master : Z) (coremask : string) (s : lcore_conf)
    : outcome lcore_conf :=
  cm ← parse_mask coremask;
  '(r, s) ← set_fwd_lcores_mask en master cm s;
  if r <? 0 then Aborted else Done s.

Definition parse_fwd_portmask (portmask : string) (st : pstate) : outcome pstate :=
  pm ← parse_mask portmask; set_fwd_ports_mask pm st.

(** ** Ethernet addresses of the peers *)

(** The lines of the file for the ports from [i] on: the number of lines
    read, or [None] for a line that is no address, and the addresses. *)
Fixpoint peer_lines (n : nat) (i : nat) (file : string) (peers : list (list Z)) : option nat * list (list Z) :=
  match n with
  | O => (Some i, peers)
  | S n =>
      match fgets 50 file with
      | None => (Some i, peers)
      | Some (buf, file) =>
          match cmdline_parse_etheraddr buf with
          | None => (None, peers)
          | Some a => peer_lines n (S i) file (<[i := a]> peers)
          end
      end
  end.

(** [init_peer_eth_addrs] with the contents of the file, if it opens: whether
    the function returns 0, the addresses and their number. *)
Definition init_peer_eth_addrs (config_file : option string) (peers : list (list Z)) (nb : Z)
    : bool * list (list Z) * Z :=
  match config_file with
  | None => (false, peers, nb)
  | Some file =>
      match peer_lines (length peers) 0 file peers with
      | (Some i, peers) => (true, peers, u8 (Z.of_nat i))
      | (None, peers) => (false, peers, nb)
      end
  end.
End Tuples.

(** ** Specification *)

(** What the documentation of DPDK says of [rte_strsplit]: words that do not
    contain the separator are found again, if they are not more than asked
    for. *)
Class DpdkTextDoc `{DpdkText} : Prop := {
  rte_strsplit_words (ws : list string) (n : nat) (c : ascii) :
    ws <> [] -> (length ws <= n)%nat -> Forall (fun w => w <> ""%string /\ strchr c w = None) ws ->
    rte_strsplit (String.concat (String c EmptyString) ws) n c = ws;
}.

(** A number in decimal, and tuples of numbers as a user writes them:
    (1,2,3),(4,5,6). *)
Definition dec (n : Z) : string := NilZero.string_of_uint (N.to_uint (Z.to_N n)).

Definition fields_text (t : list Z) : string := String.concat "," (dec <$> t).

Fixpoint tuples_text (ts : list (list Z)) : string :=
  match ts with
  | [] => ""
  | t :: ts =>
      "(" +:+ fields_text t +:+ ")" +:+
      match ts with [] => ""%string | _ => ("," +:+ tuples_text ts)%string end
  end.

(** Numbers up to a limit. *)
Definition upto (limit n : Z) : Prop := 0 <= n <= limit.
Definition byte (n : Z) : Prop := upto 255 n.

#[export] Instance upto_dec limit n : Decision (upto limit n).
Proof. unfold upto. apply _. Defined.
#[export] Instance byte_dec n : Decision (byte n).
Proof. unfold byte. apply _. Defined.

(** Storing the tuples one after the other, up to the first that is refused. *)
Fixpoint store_tuples {A} (body : list Z -> A -> outcome (bool * A)) (ts : list (list Z)) (x : A)
    : outcome (bool * A) :=
  match ts with
  | [] => Done (true, x)
  | t :: ts => '(ok, x) ← body t x; if (ok : bool) then store_tuples body ts x else Done (false, x)
  end.

(** ** Lemmas *)

(** Appending to a string, which stdpp does not simplify. *)
Lemma app_nil_s (t : string) : ("" +:+ t)%string = t.
Proof. reflexivity. Qed.

Lemma app_cons_s c (s t : string) : (String c s +:+ t)%string = String c (s +:+ t).
Proof. reflexivity. Qed.

Lemma concat_cons_s sep w w' ws :
  String.concat sep (w :: w' :: ws) = (w +:+ sep +:+ String.concat sep (w' :: ws))%string.
Proof. reflexivity. Qed.

Lemma strchr_app c s r : strchr c s = None -> strchr c (s +:+ String c r) = Some (s, String c r).
Proof.
  induction s as [|d s IH]; rewrite ?app_nil_s, ?app_cons_s; cbn [strchr]; intros E; [by rewrite Ascii.eqb_refl|].
  destruct (Ascii.eqb d c); [done|]. destruct (strchr c s) as [[]|]; [done|]. by rewrite IH.
Qed.

Lemma strchr_app_None c s r : strchr c s = None -> strchr c r = None -> strchr c (s +:+ r) = None.
Proof.
  intros E1 E2. induction s as [|d s IH]; rewrite ?app_nil_s, ?app_cons_s; cbn [strchr] in *; [done|].
  destruct (Ascii.eqb d c); [done|]. destruct (strchr c s) as [[]|]; [done|]. by rewrite IH.
Qed.

(** ** Lemmas: decimal texts *)

(** The value of digits behind a number. *)
Fixpoint uval (acc : Z) (u : Decimal.uint) : Z :=
  match u with
  | Decimal.Nil => acc
  | Decimal.D0 u => uval (10 * acc + 0) u
  | Decimal.D1 u => uval (10 * acc + 1) u
  | Decimal.D2 u => uval (10 * acc + 2) u
  | Decimal.D3 u => uval (10 * acc + 3) u
  | Decimal.D4 u => uval (10 * acc + 4) u
  | Decimal.D5 u => uval (10 * acc + 5) u
  | Decimal.D6 u => uval (10 * acc + 6) u
  | Decimal.D7 u => uval (10 * acc + 7) u
  | Decimal.D8 u => uval (10 * acc + 8) u
  | Decimal.D9 u => uval (10 * acc + 9) u
  end.

Lemma uval_pos u p : Z.pos (Pos.of_uint_acc u p) = uval (Z.pos p) u.
Proof. revert p. induction u; intros p; cbn [Pos.of_uint_acc uval]; [done|..]; rewrite IHu; f_equal; lia. Qed.

Lemma uval_0 u : uval 0 u = Z.of_N (N.of_uint u).
Proof.
  unfold N.of_uint. induction u; cbn [uval Pos.of_uint]; [done|exact IHu|..];
    change (10 * 0 + ?x) with x; by rewrite <- uval_pos.
Qed.

Lemma scan_uint u acc seen :
  scan_base 10 acc seen (NilEmpty.string_of_uint u) =
    (uval acc u, match u with Decimal.Nil => seen | _ => true end, ""%string).
Proof.
  revert acc seen. induction u; intros acc seen; cbn [NilEmpty.string_of_uint uval]; [done|..].
  all: match goal with |- scan_base 10 _ _ (String ?c _) = _ =>
         cbn [scan_base]; let v := eval vm_compute in (digit_value 10 c) in
         change (digit_value 10 c) with v; cbv iota beta end.
  all: rewrite IHu; by destruct u.
Qed.

Lemma uval_lower u acc :
  0 <= acc -> acc * 10 ^ Z.of_nat (String.length (NilEmpty.string_of_uint u)) <= uval acc u.
Proof.
  revert acc. induction u; intros acc Ha; cbn [NilEmpty.string_of_uint String.length uval]; [rewrite Z.pow_0_r; lia|..].
  all: match goal with |- _ <= uval ?x _ => specialize (IHu x ltac:(lia)) end.
  all: rewrite Nat2Z.inj_succ, Z.pow_succ_r by lia; nia.
Qed.

Definition is_digit_text (s : string) : Prop := forall c, is_digit c = false -> strchr c s = None.

Lemma uint_digits u : is_digit_text (NilEmpty.string_of_uint u).
Proof.
  intros c Hc. induction u; cbn [NilEmpty.string_of_uint strchr]; [done|..].
  all: rewrite IHu; match goal with |- context [Ascii.eqb ?x ?y] => destruct (Ascii.eqb_spec x y) as [<-|] end;
    [discriminate Hc|done].
Qed.

(** A number without leading zeros is read in base 10. *)
Lemma strtoul_uint u :
  (forall v, u <> Decimal.D0 v) -> u <> Decimal.Nil -> uval 0 u <= ULONG_MAX ->
  strtoul 0 (NilEmpty.string_of_uint u) = (uval 0 u, true, false, ""%string).
Proof.
  intros H0 Hn Hmax.
  assert (Hp : strip_prefix 0 (NilEmpty.string_of_uint u) = (10, NilEmpty.string_of_uint u)).
  { destruct u as [|u|u|u|u|u|u|u|u|u|u]; [done|by destruct (H0 u)|..]; cbn [NilEmpty.string_of_uint];
      by destruct (NilEmpty.string_of_uint u) as [|x [|h r]]. }
  assert (Hs : skip_spaces (NilEmpty.string_of_uint u) = NilEmpty.string_of_uint u).
  { by destruct u. }
  unfold strtoul. rewrite Hs.
  assert (Hm : match NilEmpty.string_of_uint u with
      | String c r => if ascii_code c =? 45 then (true, r) else if ascii_code c =? 43 then (false, r)
                      else (false, NilEmpty.string_of_uint u)
      | EmptyString => (false, NilEmpty.string_of_uint u) end = (false, NilEmpty.string_of_uint u)).
  { by destruct u. }
  rewrite Hm, Hp, scan_uint. destruct (Z.ltb_spec ULONG_MAX (uval 0 u)); [lia|]. by destruct u.
Qed.

(** A number in decimal is read back. *)
Lemma strtoul_dec n : 0 <= n <= ULONG_MAX -> strtoul 0 (dec n) = (n, true, false, ""%string).
Proof.
  intros Hn. unfold dec. set (u := N.to_uint (Z.to_N n)).
  assert (Hv : uval 0 u = n) by (rewrite uval_0; unfold u; rewrite DecimalN.Unsigned.of_to; lia).
  assert (Hu : u = Decimal.unorm u) by (unfold u; by rewrite <- DecimalN.Unsigned.to_of, DecimalN.Unsigned.of_to).
  unfold Decimal.unorm in Hu. pose proof (nzhead_nonzero u) as Hz.
  destruct (Decimal.nzhead u) as [|v|v|v|v|v|v|v|v|v|v] eqn:E; [|by destruct (Hz v)|..].
  { rewrite Hu. cbn. by rewrite <- Hv, Hu. }
  all: rewrite <- Hu in Hz; assert (Hd : NilZero.string_of_uint u = NilEmpty.string_of_uint u) by (by rewrite Hu).
  all: rewrite Hd, strtoul_uint, Hv; [done|intros w ->; by apply (Hz w)|by rewrite Hu|lia].
Qed.

(** The decimal text of a field of 16 bits. *)
Record field_ok (n : Z) : Prop := {
  fo_parse : parse_field 65535 (dec n) = Some n;
  fo_nonempty : dec n <> ""%string;
  fo_length : (String.length (dec n) <= 5)%nat;
  fo_digits : is_digit_text (dec n);
}.

Lemma dec_ok n : upto 65535 n -> field_ok n.
Proof.
  unfold upto. intros Hn. unfold dec. set (u := N.to_uint (Z.to_N n)).
  assert (Hv : uval 0 u = n) by (rewrite uval_0; unfold u; rewrite DecimalN.Unsigned.of_to; lia).
  assert (Hu : u = Decimal.unorm u) by (unfold u; by rewrite <- DecimalN.Unsigned.to_of, DecimalN.Unsigned.of_to).
  unfold Decimal.unorm in Hu. pose proof (nzhead_nonzero u) as Hz.
  destruct (Decimal.nzhead u) as [|v|v|v|v|v|v|v|v|v|v] eqn:E; [|by destruct (Hz v)|..].
  { assert (n = 0) as -> by (by rewrite <- Hv, Hu). unfold dec. fold u. 
    constructor; unfold dec; fold u; rewrite Hu; [reflexivity|done|cbn; lia|]. intros c Hc. cbn [NilZero.string_of_uint NilEmpty.string_of_uint strchr].
    destruct (Ascii.eqb_spec "0" c) as [<-|]; [discriminate Hc|done]. }
  all: rewrite <- Hu in Hz.
  all: assert (Hd : dec n = NilEmpty.string_of_uint u) by (unfold dec; fold u; by rewrite Hu).
  all: constructor; rewrite Hd.
  all: try apply uint_digits.
  all: try (rewrite Hu; done).
  all: try (unfold parse_field; rewrite strtoul_uint, Hv;
    [cbn [negb orb]; destruct (Z.ltb_spec 65535 n); [lia|done]|intros w ->; by apply (Hz w)|by rewrite Hu|rewrite Hv; unfold ULONG_MAX; lia]).
  all: rewrite Hu; cbn [NilEmpty.string_of_uint String.length]; apply le_n_S.
  all: rewrite Hu in Hv; cbn [uval] in Hv.
  all: match type of Hv with uval ?x ?w = _ => pose proof (uval_lower w x ltac:(lia)) as Hlow end.
  all: rewrite Hv in Hlow; match goal with |- (?k <= 4)%nat => destruct (Nat.le_gt_cases k 4) as [|Hk]; [done|];
         pose proof (Z.pow_le_mono_r 10 5 (Z.of_nat k) ltac:(lia) ltac:(lia)) end.
  all: nia.
Qed.

(** A smaller limit refuses more. *)
Lemma parse_field_limit limit s n : parse_field 65535 s = Some n -> n <= limit -> limit <= 65535 -> parse_field limit s = Some n.
Proof.
  unfold parse_field. destruct (strtoul 0 s) as [[[v b] e] r]. destruct (e || negb b); [done|]. cbn [orb].
  destruct (Z.ltb_spec 65535 v); [done|]. intros [= ->] Hn Hl. by destruct (Z.ltb_spec limit n); [lia|].
Qed.

Section Limit.
Context (limit : Z) (Hlimit : limit <= 65535).

Lemma upto_limit n : upto limit n -> upto 65535 n.
Proof. unfold upto. lia. Qed.

Lemma parse_fields_dec t : Forall (upto limit) t -> parse_fields limit (dec <$> t) = Some t.
Proof.
  induction 1 as [|n t Hn Ht IH]; cbn [fmap list_fmap parse_fields]; [done|].
  pose proof (fo_parse n (dec_ok n (upto_limit n Hn))) as E. rewrite (parse_field_limit limit _ n E) by (unfold upto in Hn; lia).
  cbn [mbind option_bind]. by rewrite IH.
Qed.

Lemma fields_text_ok t :
  Forall (upto limit) t -> (String.length (fields_text t) <= 6 * length t)%nat /\ strchr "(" (fields_text t) = None /\
  strchr ")" (fields_text t) = None.
Proof.
  unfold fields_text. induction 1 as [|n t Hn Ht IH]; [by split_and!|].
  destruct (dec_ok n (upto_limit n Hn)) as [_ _ Hl Hd]. pose proof (Hd "("%char eq_refl) as H1.
  pose proof (Hd ")"%char eq_refl) as H2. destruct IH as (IHl & IH1 & IH2).
  destruct t as [|m t]; cbn [fmap list_fmap] in *; [cbn [String.concat length]; split_and!; [lia|done..]|].
  rewrite concat_cons_s, !string_length_app. cbn [String.length length] in *.
  split_and!; [lia|by repeat apply strchr_app_None..].
Qed.
End Limit.

Lemma tuples_text_length ts : (length ts <= String.length (tuples_text ts))%nat.
Proof.
  induction ts as [|t ts IH]; cbn [tuples_text length]; [lia|].
  rewrite string_length_app. cbn [String.length]. rewrite !string_length_app. cbn [String.length].
  destruct ts; [cbn; lia|]. rewrite string_length_app. cbn [String.length]. lia.
Qed.

(** The fields of a tuple that is stored are within the limit. *)
Lemma parse_fields_upto limit l t : parse_fields limit l = Some t -> Forall (upto limit) t.
Proof.
  revert t. induction l as [|s l IH]; intros t; cbn [parse_fields]; [by intros [= <-]|].
  destruct (parse_field limit s) as [v|] eqn:Ev; [|done]. cbn [mbind option_bind].
  destruct (parse_fields limit l) as [vs|]; [|done]. intros [= <-]. apply Forall_cons. split; [|by apply IH].
  unfold parse_field in Ev. pose proof (strtoul_range 0 s ltac:(lia)).
  destruct (strtoul 0 s) as [[[x b] e] r]. cbn [fst] in *. destruct (Z.ltb_spec limit x).
  - by rewrite orb_true_r in Ev.
  - destruct (e || negb b); [done|]. injection Ev as <-. unfold upto. lia.
Qed.

(** What holds before a list of tuples and is kept by each holds after them. *)
Lemma tuples_keep `{DpdkText} {A} nf limit (body : list Z -> A -> outcome (bool * A)) (P : A -> Prop) q x r :
  (forall t y r, Forall (upto limit) t -> P y -> body t y = Done r -> P r.2) -> P x ->
  tuples nf limit body q x = Done r -> P r.2.
Proof.
  intros Hb. unfold tuples. generalize (S (String.length q)) as fuel. intros fuel. revert q x.
  induction fuel as [|fuel IH]; intros p0 x Hx; cbn [tuple_loop]; [done|].
  destruct (strchr "(" p0) as [[a [|c p]]|]; [by intros [= <-]| |by intros [= <-]].
  destruct (strchr ")" p) as [[field p1]|]; [|by intros [= <-]].
  destruct (_ <=? _)%nat; [by intros [= <-]|]. destruct (negb _); [by intros [= <-]|].
  destruct (parse_fields _ _) as [t|] eqn:Et; [|by intros [= <-]]. apply parse_fields_upto in Et.
  intros ([ok y] & E & E')%outcome_bind_Done. apply Hb in E; [|done..]. cbn [snd] in E.
  destruct ok; [by eapply IH|by injection E' as <-].
Qed.

Section TupleLemmas.
Context `{DpdkTextDoc} {A : Type} (nf : nat) (limit : Z) (body : list Z -> A -> outcome (bool * A))
  (Hnf : (0 < nf <= 40)%nat) (Hlimit : limit <= 65535).

Lemma tuple_loop_text fuel junk ts x :
  strchr "(" junk = None -> (length ts < fuel)%nat -> Forall (fun t => length t = nf /\ Forall (upto limit) t) ts ->
  tuple_loop nf limit body fuel (junk +:+ tuples_text ts) x = store_tuples body ts x.
Proof.
  intros Hj Hf Hts. revert fuel junk x Hj Hf.
  induction Hts as [|t ts [Hlen Ht] Hts IH]; intros [|fuel] junk x Hj Hf; cbn [length] in Hf; try lia; cbn [tuple_loop].
  - by rewrite (strchr_app_None _ _ "") by done.
  - destruct (fields_text_ok limit Hlimit t Ht) as (Hl & Ho & Hc). cbn [tuples_text store_tuples].
    change ("(" +:+ ?r)%string with (String "(" r). rewrite strchr_app by done.
    change (")" +:+ ?r)%string with (String ")" r). rewrite strchr_app by done.
    destruct (Nat.leb_spec 256 (String.length (fields_text t))); [lia|].
    assert (Hs : rte_strsplit (fields_text t) nf "," = dec <$> t).
    { apply rte_strsplit_words.
      - destruct t; [cbn in Hlen; lia|done].
      - rewrite length_fmap. lia.
      - apply Forall_fmap. eapply Forall_impl; [exact Ht|]. intros n Hn. destruct (dec_ok n (upto_limit limit Hlimit n Hn)) as [_ Hne _ Hd].
        split; [done|by apply Hd]. }
    rewrite Hs, length_fmap, Hlen, Nat.eqb_refl, parse_fields_dec by done. cbn [negb].
    destruct (body t x) as [[[] x']| |]; cbn [mbind outcome_bind]; [|done..].
    destruct ts as [|t' ts].
    + apply (IH fuel ")"%string); [done|cbn in *; lia].
    + apply (IH fuel "),"%string); [done|cbn in *; lia].
Qed.

Lemma tuples_read ts x :
  Forall (fun t => length t = nf /\ Forall (upto limit) t) ts -> tuples nf limit body (tuples_text ts) x = store_tuples body ts x.
Proof.
  intros Hts. unfold tuples. pose proof (tuples_text_length ts).
  apply (tuple_loop_text _ ""%string); [done|lia|done].
Qed.
End TupleLemmas.

(** The tuples of queue statistics mappings. *)
Definition mapping_fields (m : queue_stats_mappings) : list Z := [qm_port m; qm_queue m; stats_counter_id m].

Definition mapping_byte (m : queue_stats_mappings) : Prop :=
  byte (qm_port m) /\ byte (qm_queue m) /\ byte (stats_counter_id m).

#[export] Instance mapping_byte_dec m : Decision (mapping_byte m).
Proof. unfold mapping_byte. apply _. Defined.

Definition counter_ok (m : queue_stats_mappings) : Prop := stats_counter_id m < RTE_ETHDEV_QUEUE_STAT_CNTRS.

Lemma store_mappings is_rx ms l :
  Forall mapping_byte ms ->
  exists l', store_tuples (stats_mapping_entry is_rx) (mapping_fields <$> ms) l =
    Done (bool_decide (Forall counter_ok ms /\ (ms = [] \/ length l + length ms <= max_mappings is_rx)%nat), l') /\
    (Forall counter_ok ms -> (length l + length ms <= max_mappings is_rx)%nat -> l' = l ++ ms).
Proof.
  intros Hms. revert l. induction Hms as [|m ms (H1 & H2 & H3) Hms IH]; intros l.
  - cbn [fmap list_fmap store_tuples]. exists l. rewrite bool_decide_true by (split; [constructor|by left]). by rewrite app_nil_r.
  - cbn [fmap list_fmap store_tuples mapping_fields stats_mapping_entry].
    destruct (Z.leb_spec RTE_ETHDEV_QUEUE_STAT_CNTRS (stats_counter_id m)).
    { exists l. cbn [mbind outcome_bind]. rewrite bool_decide_false; [split; [done|]|];
        [intros [Hc _]%Forall_cons|intros [[Hc _]%Forall_cons _]]; unfold counter_ok in Hc; lia. }
    destruct (Nat.leb_spec (max_mappings is_rx) (length l)).
    { exists l. cbn [mbind outcome_bind]. rewrite bool_decide_false; [split; [done|]|];
        [intros _ Hc|intros [_ [?|Hc]]; [done|]]; cbn [length] in Hc; lia. }
    cbn [mbind outcome_bind]. unfold byte, upto in *. rewrite !u8_small by lia.
    replace (Mapping _ _ _) with m by (by destruct m).
    destruct (IH (l ++ [m])) as (l' & E & Hl'). exists l'. rewrite E. rewrite length_app in *. cbn [length] in *.
    split.
    + do 2 f_equal. apply bool_decide_ext. rewrite Forall_cons. unfold counter_ok at 2.
      split; [intros [Hf [->|Hc]]; (split; [done|right; cbn [length] in *; lia])|].
      intros [[_ Hf] [?|Hc]]; [done|]. split; [done|right; lia].
    + intros [_ Hc]%Forall_cons Hlen. rewrite Hl' by (done || lia). by rewrite <- app_assoc.
Qed.

(** The entries of a ring configuration: port, kind and socket. *)
Record ring_entry : Type := RingEntry { re_port : Z; re_flag : Z; re_socket : Z }.

Definition ring_fields (e : ring_entry) : list Z := [re_port e; re_flag e; re_socket e].

(** The entries the documentation allows. *)
Record ring_valid (st : pstate) (max_socket : Z) (n : nat) (e : ring_entry) : Prop := {
  rv_port : 0 <= re_port e < Z.of_nat n;
  rv_enabled : port_id_is_invalid (re_port e) st = false;
  rv_flag : 1 <= re_flag e <= 3;
  rv_socket : 0 <= re_socket e < max_socket;
}.

(** The socket of a port's rings of one kind, bit 0 of the flag for receive
    rings and bit 1 for transmit rings, after the entries. *)
Definition ring_socket (bit : Z) (es : list ring_entry) (port : Z) (old : Z) : Z :=
  foldl (fun s e => if (re_port e =? port) && Z.testbit (re_flag e) bit then re_socket e else s) old es.

(** One entry. *)
Lemma ringnuma_entry_spec st ms e rx tx :
  ms <= 255 -> (length rx <= 255)%nat -> length tx = length rx -> ring_valid st ms (length rx) e ->
  let put bit (l : list Z) := if Z.testbit (re_flag e) bit then <[Z.to_nat (re_port e) := re_socket e]> l else l in
  ringnuma_entry st ms (ring_fields e) (rx, tx) = Done (true, (put 0 rx, put 1 tx)).
Proof.
  intros Hms Hrx Htx [Hp He Hf Hs] put. unfold ringnuma_entry, ring_fields.
  rewrite !u8_small by lia. rewrite He. destruct (Z.leb_spec ms (re_socket e)); [lia|].
  destruct (Z.ltb_spec (re_flag e) RX_RING_ONLY); [unfold RX_RING_ONLY in *; lia|].
  destruct (Z.ltb_spec RXTX_RING (re_flag e)); [unfold RXTX_RING in *; lia|]. cbn [orb fst snd]. cbv zeta.
  rewrite !zset_insert by lia. cbn [of_opt mbind outcome_bind]. unfold put.
  assert (re_flag e = 1 \/ re_flag e = 2 \/ re_flag e = 3) as [-> | [-> | ->]] by lia; reflexivity.
Qed.

Lemma store_rings st ms es rx tx :
  ms <= 255 -> (length rx <= 255)%nat -> length tx = length rx -> Forall (ring_valid st ms (length rx)) es ->
  exists rx' tx', store_tuples (ringnuma_entry st ms) (ring_fields <$> es) (rx, tx) = Done (true, (rx', tx')) /\
    length rx' = length rx /\ length tx' = length rx /\
    (forall p : nat, rx' !! p = ring_socket 0 es (Z.of_nat p) <$> rx !! p) /\
    (forall p : nat, tx' !! p = ring_socket 1 es (Z.of_nat p) <$> tx !! p).
Proof.
  intros Hms. revert rx tx. induction es as [|e es IH]; intros rx tx Hrx Htx Hes.
  { exists rx, tx. cbn. split_and!; [done..| |]; intros p; by destruct (_ !! p). }
  apply Forall_cons in Hes as [He Hes]. cbn [fmap list_fmap store_tuples].
  rewrite ringnuma_entry_spec by done. cbn [mbind outcome_bind]. pose proof (rv_port _ _ _ _ He) as Hp.
  set (put := fun bit (l : list Z) => if Z.testbit (re_flag e) bit then <[Z.to_nat (re_port e):=re_socket e]> l else l).
  assert (Hput : forall bit l, length (put bit l) = length l).
  { intros. unfold put. destruct (Z.testbit _ _); [apply length_insert|done]. }
  destruct (IH (put 0 rx) (put 1 tx)) as (rx' & tx' & E & H1 & H2 & H3 & H4); rewrite ?Hput; [done..|].
  exists rx', tx'. rewrite Hput in *. split; [exact E|]. split_and!; [done..| |].
  all: assert (Hlk : forall bit l p, length l = length rx ->
      ring_socket bit es (Z.of_nat p) <$> put bit l !! p = ring_socket bit (e :: es) (Z.of_nat p) <$> l !! p).
  1, 3: intros bit l p Hl; unfold put, ring_socket at 2; cbn [foldl];
      destruct (Z.testbit (re_flag e) bit); [|by rewrite andb_false_r];
      destruct (Z.eqb_spec (re_port e) (Z.of_nat p)) as [Heq|Hne];
      [rewrite Heq, Nat2Z.id, list_lookup_insert_eq by lia; destruct (lookup_lt_is_Some_2 l p) as [x ->]; [lia|done]
      |rewrite list_lookup_insert_ne by lia; done].
  - intros p. rewrite H3. by apply Hlk.
  - intros p. rewrite H4. by apply Hlk.
Qed.

(** ** Properties *)

(** A list of queue statistics mappings, written as tuples of decimal
    numbers, is accepted exactly when every counter exists and the array has
    room, and is then what the program stores, in the order written and
    in place of what was stored before. *)
Theorem stats_mapping_read `{DpdkTextDoc} is_rx ms (Hms : Forall mapping_byte ms) :
  exists l, parse_queue_stats_mapping_config (tuples_text (mapping_fields <$> ms)) is_rx =
    Done (bool_decide (Forall counter_ok ms /\ (length ms <= max_mappings is_rx)%nat), l) /\
    (Forall counter_ok ms -> (length ms <= max_mappings is_rx)%nat -> l = ms).
Proof.
  destruct (store_mappings is_rx ms [] Hms) as (l & E & Hl). exists l. split; [|exact Hl].
  unfold parse_queue_stats_mapping_config. rewrite tuples_read.
  - rewrite E. do 2 f_equal. apply bool_decide_ext. cbn [length Nat.add].
    split; [intros [Hc [->|Hn]]|intros [Hc Hn]]; (split; [done|]); [cbn; lia|done|by right].
  - lia.
  - lia.
  - apply Forall_fmap. eapply Forall_impl; [exact Hms|]. intros m (H1 & H2 & H3). split; [done|].
    apply Forall_cons. split; [done|]. apply Forall_cons. split; [done|]. by apply Forall_singleton.
Qed.

(** A list of valid tuples of port, kind and socket gives each port's
    receive and transmit rings the socket of the last tuple for them, and
    leaves all others as they were. *)
Theorem ring_numa_configured `{DpdkTextDoc} st max_socket es rx tx
    (Hms : max_socket <= 255) (Hrx : (length rx <= 255)%nat) (Htx : length tx = length rx)
    (Hes : Forall (ring_valid st max_socket (length rx)) es) :
  exists rx' tx',
    parse_ringnuma_config st max_socket (tuples_text (ring_fields <$> es)) (rx, tx) = Done (true, (rx', tx')) /\
    length rx' = length rx /\ length tx' = length rx /\
    (forall p : nat, rx' !! p = ring_socket 0 es (Z.of_nat p) <$> rx !! p) /\
    (forall p : nat, tx' !! p = ring_socket 1 es (Z.of_nat p) <$> tx !! p).
Proof.
  unfold parse_ringnuma_config. rewrite tuples_read; [by apply store_rings|lia|lia|].
  apply Forall_fmap. eapply Forall_impl; [exact Hes|]. intros e [Hp _ Hf Hs]. split; [done|].
  unfold upto. apply Forall_cons. split; [lia|]. apply Forall_cons. split; [lia|]. apply Forall_singleton. lia.
Qed.

(** ** Examples *)

(** A splitter as documented, and one address. *)
Fixpoint split_words (n : nat) (c : ascii) (fuel : nat) (s : string) : list string :=
  match fuel, n with
  | O, _ | _, O => []
  | _, S O => [s]
  | S fuel, S n =>
      match strchr c s with
      | Some (w, String _ r) => w :: split_words n c fuel r
      | _ => [s]
      end
  end.

#[export] Instance sample_text : DpdkText := {
  rte_strsplit s n c := split_words n c (S (String.length s)) s;
  cmdline_parse_etheraddr s := if bool_decide (s = ""%string) then None else Some (replicate 6 1);
}.

Lemma split_words_ok ws n c fuel :
  ws <> [] -> (length ws <= n)%nat -> (length ws <= fuel)%nat ->
  Forall (fun w => w <> ""%string /\ strchr c w = None) ws ->
  split_words n c fuel (String.concat (String c EmptyString) ws) = ws.
Proof.
  intros Hne Hn Hf Hws. revert n fuel Hne Hn Hf.
  induction Hws as [|w ws [_ Hw] Hws IH]; intros [|n] [|fuel] Hne Hn Hf; cbn [length] in *; try done; try lia.
  destruct ws as [|w' ws].
  - cbn [String.concat]. destruct n as [|n]; cbn [split_words]; [done|]. by rewrite Hw.
  - destruct n as [|n]; [cbn in Hn; lia|]. rewrite concat_cons_s, app_cons_s, app_nil_s.
    cbn [split_words]. rewrite strchr_app by done. f_equal. apply (IH (S n) fuel); [done|cbn [length] in *; lia..].
Qed.

#[export] Instance sample_text_doc : DpdkTextDoc.
Proof.
  constructor. intros ws n c Hne Hn Hws. apply split_words_ok; [done|done| |done]. clear Hn.
  induction Hws as [|w ws [Hw _] Hws IH]; [done|]. destruct ws as [|w' ws]; [apply le_n_S, Nat.le_0_l|].
  rewrite concat_cons_s, !string_length_app. destruct w; [done|]. cbn [length String.length] in *. specialize (IH ltac:(done)). lia.
Qed.

Lemma stats_mapping_read_witness :
  parse_queue_stats_mapping_config "(0,0,2),(1,3,15)" true = Done (true, [Mapping 0 0 2; Mapping 1 3 15]).
Proof.
  destruct (stats_mapping_read true [Mapping 0 0 2; Mapping 1 3 15]) as (l & E & Hl).
  { apply (bool_decide_unpack _). vm_compute. exact I. }
  rewrite Hl in E.
  - etransitivity; [exact E|]. vm_compute. reflexivity.
  - apply (bool_decide_unpack _). vm_compute. exact I.
  - apply Nat.leb_le. vm_compute. reflexivity.
Defined.

Lemma ring_numa_configured_witness :
  exists rx tx,
    parse_ringnuma_config sample_state 2 "(0,3,1),(1,1,0),(0,2,0)" (replicate 32 255, replicate 32 255) =
      Done (true, (rx, tx)) /\
    rx !! 0%nat = Some 1 /\ tx !! 0%nat = Some 0 /\ rx !! 1%nat = Some 0 /\ tx !! 1%nat = Some 255.
Proof.
  destruct (ring_numa_configured sample_state 2 [RingEntry 0 3 1; RingEntry 1 1 0; RingEntry 0 2 0]
    (replicate 32 255) (replicate 32 255)) as (rx & tx & E & _ & _ & H1 & H2).
  - lia.
  - apply Nat.leb_le. reflexivity.
  - reflexivity.
  - repeat (apply Forall_cons; split); [..|by constructor]; constructor; cbn; (lia || reflexivity).
  - exists rx, tx. split; [exact E|]. by rewrite !H1, !H2.
Defined.

(** A fourth number is not noticed, and neither is text behind a number. *)
Lemma loose_tuples :
  parse_queue_stats_mapping_config "(0,1,2,77),(0,2,3x)" true = Done (true, [Mapping 0 1 2; Mapping 0 2 3]).
Proof. vm_compute. reflexivity. Qed.

(** Port 255 stands for all ports and passes the check, but the arrays end
    at the last port. *)
Lemma all_ports_out_of_bounds :
  parse_portnuma_config sample_state 2 "(255,0)" (replicate 32 255) = Undefined /\
  parse_ringnuma_config sample_state 2 "(255,3,0)" (replicate 32 255, replicate 32 255) = Undefined.
Proof. split; vm_compute; reflexivity. Qed.
