(* ===== verification/LaunchArgs.v ===== *)
(** * test-pmd/parameters.c: the options of the command line

    [launch_args_parse] goes through the results of [getopt_long] and sets
    the program's variables; [rte_exit], also the one that ends the help, is
    [Aborted].  The variables that are plain integers are a function from
    their names, the others are fields of a record with the states of
    the commands that set them while the program runs. *)

From Stdlib Require Import Ascii.
From stdpp Require Import strings functions.
From S2P Require Import Prelude Cstr Packet PortConf PortState FwdConfig QueueMap CoreConf FwdSettings SetCmds Params.

#[local] Open Scope Z_scope.
#[local] Open Scope list_scope.

(** ** Data *)

Module Var.
Inductive t : Type :=
| interactive | auto_start | nb_peer_eth_addrs | numa_support | mp_anon | socket_num
| param_total_num_mbufs | mb_mempool_cache
| max_rx_pkt_len | jumbo_frame | hw_strip_crc | hw_ip_checksum | hw_vlan_filter | hw_vlan_strip | hw_vlan_extend
| drop_queue | rx_drop_en | rss_hf
| nb_rxq | nb_txq | nb_rxd | nb_txd
| tx_pthresh | tx_hthresh | tx_wthresh | tx_free_thresh | tx_rs_thresh | txq_flags
| rx_pthresh | rx_hthresh | rx_wthresh | rx_free_thresh
| no_flush_rx | no_link_check.
End Var.

#[export] Instance var_eq : EqDecision Var.t.
Proof. solve_decision. Defined.

(** The fields of [struct rte_fdir_conf] that options set. *)
Inductive fdir_mode : Type :=
| RTE_FDIR_MODE_NONE | RTE_FDIR_MODE_SIGNATURE | RTE_FDIR_MODE_PERFECT | RTE_FDIR_MODE_PERFECT_MAC_VLAN
| RTE_FDIR_MODE_PERFECT_TUNNEL.
Inductive fdir_status : Type := RTE_FDIR_NO_REPORT_STATUS | RTE_FDIR_REPORT_STATUS | RTE_FDIR_REPORT_STATUS_ALWAYS.
Inductive fdir_pballoc : Type := RTE_FDIR_PBALLOC_64K | RTE_FDIR_PBALLOC_128K | RTE_FDIR_PBALLOC_256K.

Record fdir_conf : Type := FdirConf { fd_mode : fdir_mode; fd_status : fdir_status; fd_pballoc : fdir_pballoc }.

Record globals : Type := Globals {
  var : Var.t -> Z;
  peer_eth_addrs : list (list Z);
  sets : settings;
  port_topology : topology;
  cur_fwd_eng : nat;
  fdir : fdir_conf;
  numa_ports : list Z;
  numa_rings : list Z * list Z;
  tx_maps : list queue_stats_mappings;
  rx_maps : list queue_stats_mappings;
}.

Definition set_var (v : Var.t) (x : Z) (g : globals) : globals :=
  Globals (<[v := x]> (var g)) (peer_eth_addrs g) (sets g) (port_topology g) (cur_fwd_eng g) (fdir g)
    (numa_ports g) (numa_rings g) (tx_maps g) (rx_maps g).
Definition set_peers (l : list (list Z)) (g : globals) : globals :=
  Globals (var g) l (sets g) (port_topology g) (cur_fwd_eng g) (fdir g)
    (numa_ports g) (numa_rings g) (tx_maps g) (rx_maps g).
Definition set_sets (s : settings) (g : globals) : globals :=
  Globals (var g) (peer_eth_addrs g) s (port_topology g) (cur_fwd_eng g) (fdir g)
    (numa_ports g) (numa_rings g) (tx_maps g) (rx_maps g).
Definition set_topology (t : topology) (g : globals) : globals :=
  Globals (var g) (peer_eth_addrs g) (sets g) t (cur_fwd_eng g) (fdir g)
    (numa_ports g) (numa_rings g) (tx_maps g) (rx_maps g).
Definition set_engine (e : nat) (g : globals) : globals :=
  Globals (var g) (peer_eth_addrs g) (sets g) (port_topology g) e (fdir g)
    (numa_ports g) (numa_rings g) (tx_maps g) (rx_maps g).
Definition set_fdir (f : fdir_conf) (g : globals) : globals :=
  Globals (var g) (peer_eth_addrs g) (sets g) (port_topology g) (cur_fwd_eng g) f
    (numa_ports g) (numa_rings g) (tx_maps g) (rx_maps g).
Definition set_numa (p : list Z) (r : list Z * list Z) (g : globals) : globals :=
  Globals (var g) (peer_eth_addrs g) (sets g) (port_topology g) (cur_fwd_eng g) (fdir g)
    p r (tx_maps g) (rx_maps g).
Definition set_maps (tx rx : list queue_stats_mappings) (g : globals) : globals :=
  Globals (var g) (peer_eth_addrs g) (sets g) (port_topology g) (cur_fwd_eng g) (fdir g)
    (numa_ports g) (numa_rings g) tx rx.

(** ** Options *)

(** What an option does with its argument. *)
Definition handler : Type := string -> globals -> outcome globals.

Section Options.
Context `{DpdkText}.
(** The token size and the limit of pool caches DPDK is built with, the
    cores it enables, its flags for hash functions and lengths of Ethernet
    frames, and the files that can be opened. *)
Variables (STR_TOKEN_SIZE : nat) (RTE_MEMPOOL_CACHE_MAX_SIZE : Z) (en : Z -> bool) (master : Z)
  (ETH_RSS_IP ETH_RSS_UDP ETHER_MIN_LEN ETHER_MAX_LEN : Z) (fopen : string -> option string).

(** An option without argument that sets variables. *)
Definition flags (l : list (Var.t * Z)) : handler :=
  fun _ g => Done (foldl (fun g x => set_var x.1 x.2 g) g l).

(** An option with a number: the range that is accepted, the variable and
    its type. *)
Definition number_opt (ok : Z -> bool) (v : Var.t) (conv : Z -> Z) : handler :=
  fun optarg g => let n := atoi optarg in _ ← c_assert (ok n); Done (set_var v (conv n) g).

Definition eth_peers_configfile : handler := fun optarg g =>
  let '(ok, peers, nb) := init_peer_eth_addrs (fopen optarg) (peer_eth_addrs g) (var g Var.nb_peer_eth_addrs) in
  _ ← c_assert ok; Done (set_peers peers (set_var Var.nb_peer_eth_addrs nb g)).

Definition eth_peer : handler := fun optarg g =>
  let '(v, converted, erange, rest) := strtoul 10 optarg in
  let n := s32 v in
  if erange || negb converted then Aborted
  else
    match rest with
    | String c port_end =>
        if negb (Ascii.eqb c ",") then Aborted
        else if Z.of_nat RTE_MAX_ETHPORTS <=? n then Aborted
        else
          match cmdline_parse_etheraddr port_end with
          | None => Aborted
          | Some a =>
              peers ← of_opt (zset (peer_eth_addrs g) n a);
              Done (set_var Var.nb_peer_eth_addrs (u8 (var g Var.nb_peer_eth_addrs + 1)) (set_peers peers g))
          end
    | EmptyString => Aborted
    end.

Definition opts_start : list (string * handler) := [
  ("help", fun _ _ => Aborted);
  ("interactive", flags [(Var.interactive, 1)]);
  ("auto-start", flags [(Var.auto_start, 1)]);
  ("eth-peers-configfile", eth_peers_configfile);
  ("eth-peer", eth_peer)
]%string.

Definition nb_ports_opt : handler := fun optarg g =>
  let n := atoi optarg in
  let st := portst (sets g) in
  _ ← c_assert ((0 <? n) && (n <=? nb_ports st));
  Done (set_sets (with_portst (set_cfg_ports (nb_cfg_ports st) (u8 n) (fwd_ports_ids st) st) (sets g)) g).

Definition nb_cores_opt : handler := fun optarg g =>
  let n := atoi optarg in
  let c := cores (sets g) in
  _ ← c_assert ((0 <? n) && (n <=? nb_lcores c));
  Done (set_sets (with_cores (LcoreConf (fwd_lcores_cpuids c) (nb_lcores c) (nb_cfg_lcores c) (u8 n) (lc_max_socket c))
                    (sets g)) g).

Definition coremask_opt : handler := fun optarg g =>
  c ← parse_fwd_coremask en master optarg (cores (sets g)); Done (set_sets (with_cores c (sets g)) g).

Definition portmask_opt : handler := fun optarg g =>
  p ← parse_fwd_portmask optarg (portst (sets g)); Done (set_sets (with_portst p (sets g)) g).

Definition opts_cores : list (string * handler) := [
  ("nb-ports", nb_ports_opt); ("nb-cores", nb_cores_opt); ("coremask", coremask_opt); ("portmask", portmask_opt)
]%string.

Definition numa_opt : handler := fun _ g =>
  let unset := replicate RTE_MAX_ETHPORTS NUMA_NO_CONFIG in
  Done (set_numa unset (unset, unset) (set_var Var.numa_support 1 g)).

Definition port_numa_opt : handler := fun optarg g =>
  '(ok, p) ← parse_portnuma_config (portst (sets g)) (lc_max_socket (cores (sets g))) optarg (numa_ports g);
  _ ← c_assert ok; Done (set_numa p (numa_rings g) g).

Definition ring_numa_opt : handler := fun optarg g =>
  '(ok, r) ← parse_ringnuma_config (portst (sets g)) (lc_max_socket (cores (sets g))) optarg (numa_rings g);
  _ ← c_assert ok; Done (set_numa (numa_ports g) r g).

Definition socket_num_opt : handler := fun optarg g =>
  let n := atoi optarg in
  _ ← c_assert (u8 n <? lc_max_socket (cores (sets g))); Done (set_var Var.socket_num (u8 n) g).

Definition mbuf_size_opt : handler := fun optarg g =>
  let n := atoi optarg in
  let p := pkts (sets g) in
  _ ← c_assert ((0 <? n) && (n <=? 65535));
  Done (set_sets (with_pkts (PktConf (nb_pkt_per_burst p) (u16 n) (tx_pkt_length p) (tx_pkt_seg_lengths p)
                               (tx_pkt_nb_segs p) (pc_split p)) (sets g)) g).

Definition max_pkt_len_opt : handler := fun optarg g =>
  let n := atoi optarg in
  _ ← c_assert (ETHER_MIN_LEN <=? n);
  let g := set_var Var.max_rx_pkt_len (u32 n) g in
  Done (if ETHER_MAX_LEN <? n then set_var Var.jumbo_frame 1 g else g).

Definition opts_memory : list (string * handler) := [
  ("numa", numa_opt);
  ("mp-anon", flags [(Var.mp_anon, 1)]);
  ("port-numa-config", port_numa_opt);
  ("ring-numa-config", ring_numa_opt);
  ("socket-num", socket_num_opt);
  ("mbuf-size", mbuf_size_opt);
  ("total-num-mbufs", number_opt (fun n => 1024 <? n)%Z Var.param_total_num_mbufs u32);
  ("max-pkt-len", max_pkt_len_opt)
]%string.

(** An option whose argument is one of some words. *)
Definition word_opt {A} (words : list (string * A)) (f : A -> globals -> globals) : handler :=
  fun optarg g =>
    match List.find (fun w => bool_decide (w.1 = optarg)) words with
    | Some (_, x) => Done (f x g)
    | None => Aborted
    end.

Definition fdir_modes : list (string * fdir_mode) := [
  ("signature", RTE_FDIR_MODE_SIGNATURE); ("perfect", RTE_FDIR_MODE_PERFECT);
  ("perfect-mac-vlan", RTE_FDIR_MODE_PERFECT_MAC_VLAN); ("perfect-tunnel", RTE_FDIR_MODE_PERFECT_TUNNEL);
  ("none", RTE_FDIR_MODE_NONE)
]%string.

Definition fdir_statuses : list (string * fdir_status) := [
  ("none", RTE_FDIR_NO_REPORT_STATUS); ("match", RTE_FDIR_REPORT_STATUS);
  ("always", RTE_FDIR_REPORT_STATUS_ALWAYS)
]%string.

Definition fdir_sizes : list (string * fdir_pballoc) := [
  ("64K", RTE_FDIR_PBALLOC_64K); ("128K", RTE_FDIR_PBALLOC_128K); ("256K", RTE_FDIR_PBALLOC_256K)
]%string.

Definition opts_filter : list (string * handler) := [
  ("pkt-filter-mode", word_opt fdir_modes (fun x g => set_fdir (FdirConf x (fd_status (fdir g)) (fd_pballoc (fdir g))) g));
  ("pkt-filter-report-hash", word_opt fdir_statuses (fun x g => set_fdir (FdirConf (fd_mode (fdir g)) x (fd_pballoc (fdir g))) g));
  ("pkt-filter-size", word_opt fdir_sizes (fun x g => set_fdir (FdirConf (fd_mode (fdir g)) (fd_status (fdir g)) x) g));
  ("pkt-filter-drop-queue", number_opt (fun n => 0 <=? n)%Z Var.drop_queue u8)
]%string.

Definition opts_rx_mode : list (string * handler) := [
  ("crc-strip", flags [(Var.hw_strip_crc, 1)]);
  ("enable-rx-cksum", flags [(Var.hw_ip_checksum, 1)]);
  ("disable-hw-vlan", flags [(Var.hw_vlan_filter, 0); (Var.hw_vlan_strip, 0); (Var.hw_vlan_extend, 0)]);
  ("disable-hw-vlan-filter", flags [(Var.hw_vlan_filter, 0)]);
  ("disable-hw-vlan-strip", flags [(Var.hw_vlan_strip, 0)]);
  ("disable-hw-vlan-extend", flags [(Var.hw_vlan_extend, 0)]);
  ("enable-drop-en", flags [(Var.rx_drop_en, 1)]);
  ("disable-rss", flags [(Var.rss_hf, 0)])
]%string.

Definition topologies : list (string * topology) :=
  [("paired", PAIRED); ("chained", CHAINED); ("loop", LOOP)]%string.

Definition opts_mode : list (string * handler) := [
  ("port-topology", word_opt topologies set_topology);
  ("forward-mode", fun optarg g => Done (set_engine (set_pkt_forwarding_mode optarg (cur_fwd_eng g)) g));
  ("rss-ip", flags [(Var.rss_hf, ETH_RSS_IP)]);
  ("rss-udp", flags [(Var.rss_hf, ETH_RSS_UDP)])
]%string.

Definition MAX_QUEUE_ID : Z := 2 ^ 16 - 1.

Definition burst_opt : handler := fun optarg g =>
  let n := atoi optarg in
  let p := pkts (sets g) in
  _ ← c_assert ((1 <=? n) && (n <=? MAX_PKT_BURST));
  Done (set_sets (with_pkts (PktConf (u16 n) (mbuf_data_size p) (tx_pkt_length p) (tx_pkt_seg_lengths p)
                               (tx_pkt_nb_segs p) (pc_split p)) (sets g)) g).

Definition queue_number (n : Z) : bool := (1 <=? n) && (n <=? MAX_QUEUE_ID).

Definition opts_queues : list (string * handler) := [
  ("rxq", number_opt queue_number Var.nb_rxq u16);
  ("txq", number_opt queue_number Var.nb_txq u16);
  ("burst", burst_opt);
  ("mbcache", number_opt (fun n => (0 <=? n) && (n <=? RTE_MEMPOOL_CACHE_MAX_SIZE))%Z Var.mb_mempool_cache u16)
]%string.

Definition txqflags_opt : handler := fun optarg g =>
  let n := s32 (strtoul 16 optarg).1.1.1 in
  _ ← c_assert (0 <=? n); Done (set_var Var.txq_flags (s32 n) g).

Definition rxd_opt : handler := fun optarg g =>
  let n := atoi optarg in
  _ ← c_assert (0 <? n); _ ← c_assert (negb (n <=? var g Var.rx_free_thresh));
  Done (set_var Var.nb_rxd (u16 n) g).

Definition not_negative (n : Z) : bool := 0 <=? n.

Definition opts_rings : list (string * handler) := [
  ("txfreet", number_opt not_negative Var.tx_free_thresh s16);
  ("txrst", number_opt not_negative Var.tx_rs_thresh s16);
  ("txqflags", txqflags_opt);
  ("rxd", rxd_opt);
  ("txd", number_opt (fun n => 0 <? n)%Z Var.nb_txd u16);
  ("txpt", number_opt not_negative Var.tx_pthresh s8);
  ("txht", number_opt not_negative Var.tx_hthresh s8);
  ("txwt", number_opt not_negative Var.tx_wthresh s8);
  ("rxpt", number_opt not_negative Var.rx_pthresh s8);
  ("rxht", number_opt not_negative Var.rx_hthresh s8);
  ("rxwt", number_opt not_negative Var.rx_wthresh s8);
  ("rxfreet", number_opt not_negative Var.rx_free_thresh s16)
]%string.

Definition maps_opt (is_rx : bool) : handler := fun optarg g =>
  '(ok, l) ← parse_queue_stats_mapping_config optarg is_rx;
  _ ← c_assert ok; Done (if is_rx then set_maps (tx_maps g) l g else set_maps l (rx_maps g) g).

Definition txpkts_opt : handler := fun optarg g =>
  let l := parse_item_list STR_TOKEN_SIZE optarg RTE_MAX_SEGS_PER_PKT false in
  _ ← c_assert (0 <? length l)%nat;
  p ← set_tx_pkt_segments (var g Var.nb_txd) l (pkts (sets g)); Done (set_sets (with_pkts p (sets g)) g).

Definition opts_last : list (string * handler) := [
  ("tx-queue-stats-mapping", maps_opt false);
  ("rx-queue-stats-mapping", maps_opt true);
  ("txpkts", txpkts_opt);
  ("no-flush-rx", flags [(Var.no_flush_rx, 1)]);
  ("disable-link-check", flags [(Var.no_link_check, 1)])
]%string.

Definition options : list (string * handler) :=
  opts_start ++ opts_cores ++ opts_memory ++ opts_filter ++ opts_rx_mode ++ opts_mode ++ opts_queues ++
  opts_rings ++ opts_last.

(** The options that [getopt_long] knows, in the order of the table. *)
Definition lgopts : list long_opt := [
  ("help", false); ("interactive", false); ("auto-start", false); ("eth-peers-configfile", true);
  ("eth-peer", true); ("ports", true); ("nb-cores", true); ("nb-ports", true); ("coremask", true);
  ("portmask", true); ("numa", false); ("mp-anon", false); ("port-numa-config", true);
  ("ring-numa-config", true); ("socket-num", true); ("mbuf-size", true); ("total-num-mbufs", true);
  ("max-pkt-len", true); ("pkt-filter-mode", true); ("pkt-filter-report-hash", true);
  ("pkt-filter-size", true); ("pkt-filter-drop-queue", true); ("crc-strip", false);
  ("enable-rx-cksum", false); ("disable-hw-vlan", false); ("disable-hw-vlan-filter", false);
  ("disable-hw-vlan-strip", false); ("disable-hw-vlan-extend", false); ("enable-drop-en", false);
  ("disable-rss", false); ("port-topology", true); ("forward-mode", true); ("rss-ip", false);
  ("rss-udp", false); ("rxq", true); ("txq", true); ("rxd", true); ("txd", true); ("burst", true);
  ("mbcache", true); ("txpt", true); ("txht", true); ("txwt", true); ("txfreet", true); ("txrst", true);
  ("txqflags", true); ("rxpt", true); ("rxht", true); ("rxwt", true); ("rxfreet", true);
  ("tx-queue-stats-mapping", true); ("rx-queue-stats-mapping", true); ("no-flush-rx", false);
  ("txpkts", true); ("disable-link-check", false)
]%string.

(** A long option: a name without a handler does nothing. *)
Definition run_long (name : string) (optarg : option string) (g : globals) : outcome globals :=
  match List.find (fun o => bool_decide (o.1 = name)) options with
  | Some (_, h) => h (default ""%string optarg) g
  | None => Done g
  end.

(** The body of the loop. *)
Definition run_option (x : optl_result) (g : globals) : outcome globals :=
  match x with
  | LongOpt i optarg => o ← of_opt (lgopts !! i); run_long o.1 optarg g
  | ShortOpt c _ =>
      if Ascii.eqb c "i" then Done (set_var Var.interactive 1 g)
      else if Ascii.eqb c "a" then Done (set_var Var.auto_start 1 g)
      else Aborted
  end.

Fixpoint run_options (l : list optl_result) (g : globals) : outcome globals :=
  match l with
  | [] => Done g
  | x :: l => g ← run_option x g; run_options l g
  end.

Definition launch_args_parse (argv : list string) (g : globals) : outcome globals :=
  run_options (getopt_long_all "iah" lgopts argv) g.
End Options.

(** ** Specification *)

(** The ranges the variables must stay in: 0 and 1 for flags, the limits the
    rest of the program relies on, the type otherwise. *)
Definition flag_range : Z * Z := (0, 1).
Definition u8_range_of : Z * Z := (0, 2 ^ 8 - 1).
Definition u16_range_of : Z * Z := (0, 2 ^ 16 - 1).
Definition s8_range_of : Z * Z := (- 2 ^ 7, 2 ^ 7 - 1).
Definition s16_range_of : Z * Z := (- 2 ^ 15, 2 ^ 15 - 1).

Definition range (RTE_MEMPOOL_CACHE_MAX_SIZE ETHER_MIN_LEN : Z) (v : Var.t) : Z * Z :=
  match v with
  | Var.interactive | Var.auto_start | Var.numa_support | Var.mp_anon | Var.jumbo_frame | Var.hw_strip_crc
  | Var.hw_ip_checksum | Var.hw_vlan_filter | Var.hw_vlan_strip | Var.hw_vlan_extend | Var.no_flush_rx
  | Var.no_link_check => flag_range
  | Var.nb_peer_eth_addrs | Var.socket_num | Var.drop_queue => u8_range_of
  | Var.param_total_num_mbufs => (1025, 2 ^ 31 - 1)
  | Var.mb_mempool_cache => (0, RTE_MEMPOOL_CACHE_MAX_SIZE)
  | Var.max_rx_pkt_len => (ETHER_MIN_LEN, 2 ^ 31 - 1)
  | Var.rx_drop_en => (-1, 1)
  | Var.rss_hf => (0, 2 ^ 64 - 1)
  | Var.nb_rxq | Var.nb_txq => (1, MAX_QUEUE_ID)
  | Var.nb_rxd | Var.nb_txd => u16_range_of
  | Var.tx_pthresh | Var.tx_hthresh | Var.tx_wthresh | Var.rx_pthresh | Var.rx_hthresh | Var.rx_wthresh => s8_range_of
  | Var.tx_free_thresh | Var.tx_rs_thresh | Var.rx_free_thresh => s16_range_of
  | Var.txq_flags => (-1, 2 ^ 31 - 1)
  end.

Definition in_range (r : Z * Z) (x : Z) : Prop := r.1 <= x <= r.2.

#[export] Instance in_range_dec r x : Decision (in_range r x).
Proof. unfold in_range. apply _. Defined.

(** A variable is in its range; the number of packet buffers may be unset. *)
Definition var_ok (cache_max min_len : Z) (v : Var.t) (x : Z) : Prop :=
  in_range (range cache_max min_len v) x \/ v = Var.param_total_num_mbufs /\ x = 0.

#[export] Instance var_ok_dec cm ml v x : Decision (var_ok cm ml v x).
Proof. unfold var_ok. apply _. Defined.

(** A socket for rings or a pool: none, or one the machine has. *)
Definition socket_ok (max_socket s : Z) : Prop := s = NUMA_NO_CONFIG \/ 0 <= s < max_socket.

#[export] Instance socket_ok_dec m s : Decision (socket_ok m s).
Proof. unfold socket_ok. apply _. Defined.

Record sockets_ok (max_socket : Z) (l : list Z) : Prop := {
  so_len : length l = RTE_MAX_ETHPORTS;
  so_all : Forall (socket_ok max_socket) l;
}.

Record maps_ok (is_rx : bool) (l : list queue_stats_mappings) : Prop := {
  mo_len : (length l <= max_mappings is_rx)%nat;
  mo_all : Forall counter_ok l;
}.

Record globals_ok (en : Z -> bool) (master cache_max min_len : Z) (g : globals) : Prop := {
  go_vars : forall v, var_ok cache_max min_len v (var g v);
  go_peers : length (peer_eth_addrs g) = RTE_MAX_ETHPORTS;
  go_nb_lcores : nb_lcores (cores (sets g)) = Z.of_nat (length (workers en master));
  go_fwd_lcores : 1 <= nb_fwd_lcores (cores (sets g)) <= nb_lcores (cores (sets g));
  go_cpuids : length (fwd_lcores_cpuids (cores (sets g))) = RTE_MAX_LCORE;
  go_burst : 1 <= nb_pkt_per_burst (pkts (sets g)) <= MAX_PKT_BURST;
  go_mbuf : 1 <= mbuf_data_size (pkts (sets g)) <= 65535;
  go_eng : (cur_fwd_eng g < length fwd_engines)%nat;
  go_numa_ports : sockets_ok (lc_max_socket (cores (sets g))) (numa_ports g);
  go_rx_rings : sockets_ok (lc_max_socket (cores (sets g))) (numa_rings g).1;
  go_tx_rings : sockets_ok (lc_max_socket (cores (sets g))) (numa_rings g).2;
  go_tx_maps : maps_ok false (tx_maps g);
  go_rx_maps : maps_ok true (rx_maps g);
}.

(** ** Lemmas: the result of every option is well-formed *)

Lemma s8_range x : in_range s8_range_of (s8 x).
Proof. unfold s8. pose proof (sgn_range 8 x ltac:(lia)). unfold in_range. cbn in *. lia. Qed.
Lemma s16_range x : in_range s16_range_of (s16 x).
Proof. unfold s16. pose proof (sgn_range 16 x ltac:(lia)). unfold in_range. cbn in *. lia. Qed.

Lemma sockets_ok_insert ms l i s :
  sockets_ok ms l -> 0 <= s < ms -> sockets_ok ms (<[i := s]> l).
Proof.
  intros [Hl Ha] Hs. constructor; [by rewrite length_insert|]. apply Forall_insert; [done|]. by right.
Qed.

Lemma sockets_ok_zset ms l i s l' :
  sockets_ok ms l -> 0 <= s < ms -> of_opt (zset l i s) = Done l' -> sockets_ok ms l'.
Proof.
  intros Hl Hs E. destruct (zset l i s) eqn:Ez; [|done]. injection E as <-. apply zset_Some in Ez as [_ ->].
  by apply sockets_ok_insert.
Qed.

Lemma stats_entries_ok `{DpdkText} is_rx q l :
  parse_queue_stats_mapping_config q is_rx = Done (true, l) -> maps_ok is_rx l.
Proof.
  intros E. refine (tuples_keep _ _ _ (maps_ok is_rx) _ _ (true, l) _ _ E); [|by repeat constructor; apply Nat.le_0_l].
  clear. intros t y r Ht [Hlen Hall]. unfold stats_mapping_entry.
  destruct t as [|p [|q [|c [|]]]]; [done..| |done].
  destruct (Z.leb_spec RTE_ETHDEV_QUEUE_STAT_CNTRS c); [by intros [= <-]|].
  destruct (Nat.leb_spec (max_mappings is_rx) (length y)); [by intros [= <-]|]. intros [= <-]. constructor; cbn [snd].
  - rewrite length_app. cbn [length]. lia.
  - apply Forall_app. split; [done|]. apply Forall_singleton. unfold counter_ok. cbn [stats_counter_id].
    repeat match goal with H : Forall (upto _) (_ :: _) |- _ => apply Forall_cons in H as [? H] end.
    unfold upto in *. rewrite u8_small by lia. done.
Qed.

Lemma portnuma_ok `{DpdkText} st ms q l l' :
  sockets_ok ms l -> parse_portnuma_config st ms q l = Done (true, l') -> sockets_ok ms l'.
Proof.
  intros Hl E. refine (tuples_keep _ _ _ (sockets_ok ms) _ _ (true, l') _ Hl E).
  clear. intros t y r _ Hy. unfold portnuma_entry. destruct t as [|p [|s [|]]]; [done..| |done]. cbv zeta.
  destruct (port_id_is_invalid _ _); [by intros [= <-]|]. destruct (Z.leb_spec ms (u8 s)); [by intros [= <-]|].
  intros (y' & E & [= <-])%outcome_bind_Done. eapply sockets_ok_zset; [done| |done]. pose proof (u8_range s). lia.
Qed.

Lemma ringnuma_ok `{DpdkText} st ms q l l' :
  sockets_ok ms l.1 /\ sockets_ok ms l.2 -> parse_ringnuma_config st ms q l = Done (true, l') ->
  sockets_ok ms l'.1 /\ sockets_ok ms l'.2.
Proof.
  intros Hl E. refine (tuples_keep _ _ _ (fun l => sockets_ok ms l.1 /\ sockets_ok ms l.2) _ _ (true, l') _ Hl E).
  clear. intros t y r _ [Hy1 Hy2]. unfold ringnuma_entry. destruct t as [|p [|f [|s [|]]]]; [done..| |done]. cbv zeta.
  destruct (port_id_is_invalid _ _); [by intros [= <-]|]. destruct (Z.leb_spec ms (u8 s)); [by intros [= <-]|].
  destruct (_ || _); [by intros [= <-]|]. pose proof (u8_range s).
  destruct (_ =? RX_RING_ONLY); [|destruct (_ =? TX_RING_ONLY); [|destruct (_ =? RXTX_RING); [|by intros [= <-]]]].
  1, 2: intros (y' & E & [= <-])%outcome_bind_Done; cbn [fst snd]; split; try done.
  3: intros (y' & E & (y2 & E2 & [= <-])%outcome_bind_Done)%outcome_bind_Done; cbn [fst snd]; split.
  all: eapply sockets_ok_zset; [| |done]; [done|lia].
Qed.

Lemma coremask_ok en master mask c r c' :
  (forall i, en i = true -> 0 <= i < Z.of_nat RTE_MAX_LCORE) -> 0 <= mask < 2 ^ 64 ->
  nb_lcores c = Z.of_nat (length (workers en master)) -> length (fwd_lcores_cpuids c) = RTE_MAX_LCORE ->
  set_fwd_lcores_mask en master mask c = Done (r, c') -> 0 <= r ->
  1 <= nb_fwd_lcores c' <= nb_lcores c' /\ nb_lcores c' = nb_lcores c /\
  length (fwd_lcores_cpuids c') = RTE_MAX_LCORE /\ lc_max_socket c' = lc_max_socket c.
Proof.
  intros Hen Hm Hnb Hlen. unfold set_fwd_lcores_mask. destruct (Z.eqb_spec mask 0); [intros [= <- <-]; lia|].
  rewrite mask_list_spec by lia. change (Z.of_nat 64) with 64. set (l := filter _ _).
  assert (Hl : (length l <= 64)%nat) by (etransitivity; [apply length_filter|by rewrite length_seqZ]).
  assert (Hle : (length l <= length (fwd_lcores_cpuids c))%nat) by (rewrite Hlen; change RTE_MAX_LCORE with 128%nat; lia).
  rewrite set_fwd_lcores_list_spec by done. destruct (decide _) as [Hu|]; intros [= <- <-] Hr; [|lia].
  cbn [nb_fwd_lcores nb_lcores fwd_lcores_cpuids lc_max_socket]. rewrite u8_small by lia.
  assert (Hne : l <> []).
  { intros E. apply n, Z.bits_inj'. intros k Hk. rewrite Z.bits_0. destruct (Z.testbit mask k) eqn:Hb; [|done].
    destruct (decide (k < 64)) as [Hk64|Hk64].
    - assert (Hin : k ∈ l) by (apply list_elem_of_filter; split; [done|apply elem_of_seqZ; lia]).
      rewrite E in Hin. by apply not_elem_of_nil in Hin.
    - rewrite (Z.bits_above_log2 mask k) in Hb; [done|lia|].
      apply Z.log2_lt_pow2; [lia|]. pose proof (Z.pow_le_mono_r 2 64 k ltac:(lia) ltac:(lia)). lia. }
  pose proof (list_in_workers en master Hen l Hu ltac:(apply NoDup_filter, NoDup_seqZ)) as Hw.
  split_and!; [destruct l; [done|cbn; lia]|lia|done| |done].
  rewrite length_app, length_drop. lia.
Qed.

Lemma set_var_range cm ml v x g :
  in_range (range cm ml v) x -> (forall w, var_ok cm ml w (var g w)) ->
  forall w, var_ok cm ml w (var (set_var v x g) w).
Proof.
  intros Hx Hg w. cbn [var set_var]. destruct (decide (v = w)) as [<-|Hne].
  - rewrite fn_lookup_insert. by left.
  - by rewrite fn_lookup_insert_ne.
Qed.

Section Preserve.
Context `{DpdkText} (STR_TOKEN_SIZE : nat) (cache_max : Z) (en : Z -> bool) (master : Z)
  (rss_ip rss_udp min_len max_len : Z) (fopen : string -> option string).
Context (Hen : forall i, en i = true -> 0 <= i < Z.of_nat RTE_MAX_LCORE) (Hcache : 0 <= cache_max < 2 ^ 16)
  (Hip : 0 <= rss_ip < 2 ^ 64) (Hudp : 0 <= rss_udp < 2 ^ 64) (Hmin : 0 <= min_len).

#[local] Abbreviation ok := (globals_ok en master cache_max min_len).

(** An option that keeps the variables well-formed. *)
Definition keeps (h : handler) : Prop := forall arg g g', ok g -> h arg g = Done g' -> ok g'.

Lemma set_var_ok v x g : in_range (range cache_max min_len v) x -> ok g -> ok (set_var v x g).
Proof. intros Hx []. constructor; try done. by apply set_var_range. Qed.

Lemma keeps_flags l : Forall (fun x => in_range (range cache_max min_len x.1) x.2) l -> keeps (flags l).
Proof.
  intros Hl arg g g' Hg [= <-]. revert g Hg. induction Hl as [|[v x] l Hx Hl IH]; intros g Hg; [done|].
  cbn [foldl]. by apply IH, set_var_ok.
Qed.

Lemma keeps_number okn v conv :
  (forall n, - 2 ^ 31 <= n < 2 ^ 31 -> okn n = true -> in_range (range cache_max min_len v) (conv n)) ->
  keeps (number_opt okn v conv).
Proof.
  intros Hn arg g g' Hg E. unfold number_opt in E. inv_outcome. subst g'.
  apply set_var_ok; [|done]. by apply Hn; [apply atoi_range|].
Qed.

Lemma keeps_word {A} words (f : A -> globals -> globals) :
  (forall x g, ok g -> ok (f x g)) -> keeps (word_opt words f).
Proof.
  intros Hf arg g g' Hg. unfold word_opt. destruct (List.find _ words) as [[w x]|]; [|done]. intros [= <-]. by apply Hf.
Qed.

Ltac bool_hyps :=
  repeat match goal with
  | H : (_ && _) = true |- _ => apply andb_true_iff in H as [? H]
  | H : (_ <? _) = true |- _ => apply Z.ltb_lt in H
  | H : (_ <=? _) = true |- _ => apply Z.leb_le in H
  | H : negb _ = true |- _ => apply negb_true_iff in H
  end.

Ltac keep_flags :=
  apply keeps_flags; repeat (apply Forall_cons; split); try apply Forall_nil_2;
  unfold in_range; cbn [fst snd range]; unfold flag_range; cbn [fst snd]; lia.

(** Numbers within the range of the conversion. *)
Ltac keep_number :=
  apply keeps_number; intros n Hn Hok; cbv beta in Hok; unfold queue_number, not_negative, MAX_QUEUE_ID in Hok; bool_hyps;
  lazymatch goal with
  | |- in_range _ (s8 _) => exact (s8_range n)
  | |- in_range _ (s16 _) => exact (s16_range n)
  | |- _ =>
      unfold in_range; cbn [range fst snd]; unfold u8_range_of, u16_range_of, MAX_QUEUE_ID; cbn [fst snd];
      pose proof (u8_range n); pose proof (u16_range n); try rewrite u16_small by lia; try rewrite u32_small by lia; lia
  end.

Lemma keeps_peers_file : keeps (eth_peers_configfile fopen).
Proof.
  intros arg g g' Hg. unfold eth_peers_configfile, init_peer_eth_addrs.
  destruct (fopen arg) as [file|]; [|done].
  assert (Hlen : forall n i f l, length (peer_lines n i f l).2 = length l).
  { clear. induction n as [|n IH]; intros i f l; cbn [peer_lines]; [done|].
    destruct (fgets 50 f) as [[buf f']|]; [|done]. destruct (cmdline_parse_etheraddr buf); [|done].
    by rewrite IH, length_insert. }
  specialize (Hlen (length (peer_eth_addrs g)) 0%nat file (peer_eth_addrs g)).
  destruct (peer_lines _ _ _ _) as [[i|] peers]; [|done]. intros [= <-]. cbn [snd] in Hlen.
  assert (Hg' : ok (set_var Var.nb_peer_eth_addrs (u8 (Z.of_nat i)) g)).
  { apply set_var_ok; [|done]. pose proof (u8_range (Z.of_nat i)). unfold in_range. cbn. lia. }
  destruct Hg'. constructor; try done. cbn [peer_eth_addrs set_peers]. by rewrite Hlen, (go_peers _ _ _ _ _ Hg).
Qed.

Lemma keeps_peer : keeps eth_peer.
Proof.
  intros arg g g' Hg. unfold eth_peer. destruct (strtoul 10 arg) as [[[v b] e] [|c port_end]]; cbv zeta;
    (destruct (e || negb b); [done|]); [done|].
  destruct (negb _); [done|]. destruct (_ <=? s32 v); [done|]. destruct (cmdline_parse_etheraddr port_end) as [a|]; [|done].
  intros (peers & E & [= <-])%outcome_bind_Done. destruct (zset _ _ _) eqn:Ez; [|done]. injection E as ->.
  apply zset_Some in Ez as [_ ->]. apply set_var_ok.
  - unfold in_range. cbn. pose proof (u8_range (var g Var.nb_peer_eth_addrs + 1)). lia.
  - destruct Hg. constructor; try done. cbn. by rewrite length_insert.
Qed.

Lemma keeps_nb_ports : keeps nb_ports_opt.
Proof. intros arg g g' Hg. unfold nb_ports_opt. intros E. inv_outcome. subst g'. by destruct Hg. Qed.

Lemma keeps_nb_cores : keeps nb_cores_opt.
Proof.
  intros arg g g' Hg. unfold nb_cores_opt. intros E. inv_outcome. subst g'. bool_hyps.
  pose proof (workers_length en master) as Hw. unfold RTE_MAX_LCORE in Hw. pose proof (go_nb_lcores _ _ _ _ _ Hg).
  destruct Hg. constructor; try done. cbn. rewrite u8_small by lia. lia.
Qed.

Lemma parse_mask_range s v : parse_mask s = Done v -> 0 <= v < 2 ^ 64.
Proof.
  unfold parse_mask. pose proof (strtoul_range 16 s ltac:(lia)) as Hr. destruct (strtoul 16 s) as [[[x b] e] r].
  destruct (_ || _); [done|]. intros [= <-]. unfold ULONG_MAX in Hr. cbn in Hr. lia.
Qed.

Lemma keeps_coremask : keeps (coremask_opt en master).
Proof.
  intros arg g g' Hg. unfold coremask_opt, parse_fwd_coremask.
  intros (c & (m & Hm%parse_mask_range & ([r c'] & E & E')%outcome_bind_Done)%outcome_bind_Done & [= <-])%outcome_bind_Done.
  destruct (Z.ltb_spec r 0); [done|]. injection E' as <-.
  eapply coremask_ok in E as (H1 & H2 & H3 & H4); [|done..|apply Hg|apply Hg|done].
  destruct Hg. constructor; try done; cbn [sets set_sets cores with_cores numa_ports numa_rings]; rewrite ?H2, ?H4; done.
Qed.

Lemma keeps_portmask : keeps portmask_opt.
Proof. intros arg g g' Hg. unfold portmask_opt. intros E. inv_outcome. subst g'. by destruct Hg. Qed.

Lemma set_numa_ok p r g :
  sockets_ok (lc_max_socket (cores (sets g))) p -> sockets_ok (lc_max_socket (cores (sets g))) r.1 ->
  sockets_ok (lc_max_socket (cores (sets g))) r.2 -> ok g -> ok (set_numa p r g).
Proof. intros ??? []. by constructor. Qed.

Lemma keeps_numa : keeps numa_opt.
Proof.
  intros arg g g' Hg [= <-].
  assert (forall ms, sockets_ok ms (replicate RTE_MAX_ETHPORTS NUMA_NO_CONFIG)).
  { intros ms. constructor; [apply length_replicate|]. apply Forall_replicate. by left. }
  apply set_numa_ok; [done..|]. by apply set_var_ok.
Qed.

Lemma keeps_port_numa : keeps port_numa_opt.
Proof.
  intros arg g g' Hg. unfold port_numa_opt. intros ([r p] & E & E')%outcome_bind_Done. inv_outcome. subst.
  apply set_numa_ok; [|apply Hg..|done]. eapply portnuma_ok; [apply Hg|done].
Qed.

Lemma keeps_ring_numa : keeps ring_numa_opt.
Proof.
  intros arg g g' Hg. unfold ring_numa_opt. intros ([r l] & E & E')%outcome_bind_Done. inv_outcome. subst.
  eapply ringnuma_ok in E as [H1 H2]; [|split; apply Hg]. apply set_numa_ok; [apply Hg|done..].
Qed.

Lemma keeps_socket_num : keeps socket_num_opt.
Proof.
  intros arg g g' Hg. unfold socket_num_opt. intros E. inv_outcome. subst g'. apply set_var_ok; [|done].
  pose proof (u8_range (atoi arg)). unfold in_range. cbn. lia.
Qed.

Lemma keeps_mbuf_size : keeps mbuf_size_opt.
Proof.
  intros arg g g' Hg. unfold mbuf_size_opt. intros E. inv_outcome. subst g'. bool_hyps.
  destruct Hg. constructor; try done. cbn. rewrite u16_small by lia. lia.
Qed.

Lemma keeps_burst : keeps burst_opt.
Proof.
  intros arg g g' Hg. unfold burst_opt. intros E. inv_outcome. subst g'. bool_hyps. unfold MAX_PKT_BURST in *.
  destruct Hg. constructor; try done. cbn. rewrite u16_small by lia. unfold MAX_PKT_BURST. lia.
Qed.

Lemma keeps_max_pkt_len : keeps (max_pkt_len_opt min_len max_len).
Proof.
  intros arg g g' Hg. unfold max_pkt_len_opt. intros E. inv_outcome. subst g'. bool_hyps. pose proof (atoi_range arg).
  assert (Hok : ok (set_var Var.max_rx_pkt_len (u32 (atoi arg)) g)).
  { apply set_var_ok; [|done]. unfold in_range. cbn. rewrite u32_small by lia. lia. }
  destruct (max_len <? atoi arg); [|done]. by apply set_var_ok.
Qed.

Lemma keeps_txqflags : keeps txqflags_opt.
Proof.
  intros arg g g' Hg. unfold txqflags_opt. intros E. inv_outcome. subst g'. bool_hyps. apply set_var_ok; [|done].
  pose proof (s32_range (s32 (strtoul 16 arg).1.1.1)) as H1. pose proof (s32_range (strtoul 16 arg).1.1.1).
  rewrite s32_small in * by lia. unfold in_range. cbn. lia.
Qed.

Lemma keeps_rxd : keeps rxd_opt.
Proof.
  intros arg g g' Hg. unfold rxd_opt. intros E. inv_outcome. subst g'. apply set_var_ok; [|done].
  pose proof (u16_range (atoi arg)). unfold in_range. cbn. lia.
Qed.

Lemma keeps_maps is_rx : keeps (maps_opt is_rx).
Proof.
  intros arg g g' Hg. unfold maps_opt. intros ([r l] & E & E')%outcome_bind_Done. inv_outcome. subst.
  apply stats_entries_ok in E. destruct Hg. destruct is_rx; by constructor.
Qed.

Lemma keeps_txpkts : keeps (txpkts_opt STR_TOKEN_SIZE).
Proof.
  intros arg g g' Hg. unfold txpkts_opt. generalize (parse_item_list STR_TOKEN_SIZE arg RTE_MAX_SEGS_PER_PKT false).
  intros l E. inv_outcome. subst g'.
  match goal with H : set_tx_pkt_segments _ _ _ = Done ?p |- _ => rename H into E1;
    assert (nb_pkt_per_burst p = nb_pkt_per_burst (pkts (sets g)) /\ mbuf_data_size p = mbuf_data_size (pkts (sets g)))
      as [Hb Hm] end.
  { unfold set_tx_pkt_segments in E1. destruct (_ <=? _); [by injection E1 as <-|].
    destruct (segs_total _ _ _); [|by injection E1 as <-]. destruct (_ <? _); [by injection E1 as <-|].
    apply outcome_bind_Done in E1 as (arr & _ & [= <-]). done. }
  destruct Hg. constructor; try done; cbn; by rewrite ?Hb, ?Hm.
Qed.

Lemma keeps_engine : keeps (fun optarg g => Done (set_engine (set_pkt_forwarding_mode optarg (cur_fwd_eng g)) g)).
Proof.
  intros arg g g' Hg [= <-]. destruct Hg. constructor; try done. cbn [cur_fwd_eng set_engine].
  unfold set_pkt_forwarding_mode. destruct (list_find _ _) as [[i x]|] eqn:E; [|done].
  apply list_find_Some in E as [E _]. by eapply lookup_lt_Some.
Qed.

(** The record's fields do not matter for these. *)
Ltac keep_word := apply keeps_word; intros x g []; by constructor.

#[local] Create HintDb keeps discriminated.
#[local] Hint Resolve keeps_peers_file keeps_peer keeps_nb_ports keeps_nb_cores keeps_coremask keeps_portmask
  keeps_numa keeps_port_numa keeps_ring_numa keeps_socket_num keeps_mbuf_size keeps_burst keeps_max_pkt_len
  keeps_txqflags keeps_rxd keeps_maps keeps_txpkts keeps_engine : keeps.

Lemma options_keep :
  Forall (fun o => keeps o.2)
    (options STR_TOKEN_SIZE cache_max en master rss_ip rss_udp min_len max_len fopen).
Proof.
  unfold options. repeat (apply Forall_app; split);
    repeat (apply Forall_cons; split); try apply Forall_nil_2; cbn [snd].
  all: match goal with
       | |- keeps (flags _) => keep_flags
       | |- keeps (number_opt _ _ _) => keep_number
       | |- keeps (word_opt _ _) => keep_word
       | |- keeps (fun _ _ => Aborted) => intros ? ? ? _ E; discriminate E
       | |- _ => solve [auto with keeps nocore]
       end.
Qed.

(** ** Lemmas: options leave alone what DPDK found *)

(** Of the ports an option changes at most which ones forward, and it does
    not change the number of sockets. *)
Record same_found (g g' : globals) : Prop := {
  sp_ports : ports (portst (sets g')) = ports (portst (sets g));
  sp_nb : nb_ports (portst (sets g')) = nb_ports (portst (sets g));
  sp_calls : calls (portst (sets g')) = calls (portst (sets g));
  sp_test_done : test_done (portst (sets g')) = test_done (portst (sets g));
  sp_dcb : dcb_config (portst (sets g')) = dcb_config (portst (sets g));
  sp_max_socket : lc_max_socket (cores (sets g')) = lc_max_socket (cores (sets g));
}.

Definition found_free (h : handler) : Prop := forall arg g g', h arg g = Done g' -> same_found g g'.

Lemma same_found_eq g g' : sets g' = sets g -> same_found g g'.
Proof. intros E. by constructor; rewrite E. Qed.

Lemma free_flags l : found_free (flags l).
Proof.
  intros arg g g' [= <-]. apply same_found_eq. revert g. induction l as [|x l IH]; intros g; [done|]. cbn [foldl].
  by rewrite IH.
Qed.

Lemma free_number okn v conv : found_free (number_opt okn v conv).
Proof. intros arg g g' E. unfold number_opt in E. inv_outcome. subst g'. by apply same_found_eq. Qed.

Lemma free_word {A} words (f : A -> globals -> globals) : (forall x g, sets (f x g) = sets g) -> found_free (word_opt words f).
Proof.
  intros Hf arg g g'. unfold word_opt. destruct (List.find _ words) as [[w x]|]; [|done]. intros [= <-].
  apply same_found_eq. by rewrite Hf.
Qed.

(** The paths through an option. *)
Ltac option_paths :=
  cbv zeta in *;
  repeat match goal with
  | H : (if ?b then _ else _) = Done _ |- _ => destruct b
  | H : match ?o with _ => _ end = Done _ |- _ => destruct o
  | H : mbind _ _ = Done _ |- _ => apply outcome_bind_Done in H as (? & ? & H)
  | H : Done _ = Done _ |- _ => injection H as <-
  | |- context [if ?b then _ else _] => destruct b
  end; try done; by constructor.

Lemma free_portmask : found_free portmask_opt.
Proof.
  intros arg g g' E. unfold portmask_opt, parse_fwd_portmask in E. inv_outcome. subst g'.
  unfold set_fwd_ports_mask, set_fwd_ports_list in *. option_paths.
Qed.

Lemma free_coremask : found_free (coremask_opt en master).
Proof.
  intros arg g g' E. unfold coremask_opt in E. inv_outcome. subst g'. constructor; try reflexivity.
  cbn [sets set_sets cores with_cores lc_max_socket]. unfold parse_fwd_coremask in *.
  match goal with H : mbind _ _ = Done ?c |- _ => revert H; generalize c as c' end.
  intros c' (cm & _ & E)%outcome_bind_Done. apply outcome_bind_Done in E as ([r c1] & E1 & E).
  assert (c' = c1) as -> by (by destruct (r <? 0); [|injection E as <-]). clear E.
  unfold set_fwd_lcores_mask in E1. destruct (cm =? 0); [by injection E1 as _ <-|]. revert E1.
  generalize (mask_list 64 0 cm) as l. unfold set_fwd_lcores_list. intros l.
  intros (r1 & _ & E1)%outcome_bind_Done. destruct r1; [|by injection E1 as _ <-].
  apply outcome_bind_Done in E1 as (r2 & _ & E1). destruct r2; by injection E1 as _ <-.
Qed.

Lemma options_free :
  Forall (fun o => found_free o.2)
    (options STR_TOKEN_SIZE cache_max en master rss_ip rss_udp min_len max_len fopen).
Proof.
  unfold options. repeat (apply Forall_app; split);
    repeat (apply Forall_cons; split); try apply Forall_nil_2; cbn [snd].
  all: match goal with
       | |- found_free (flags _) => apply free_flags
       | |- found_free (number_opt _ _ _) => apply free_number
       | |- found_free (word_opt _ _) => apply free_word; intros; reflexivity
       | |- found_free (fun _ _ => Aborted) => intros ? ? ? E; discriminate E
       | |- found_free portmask_opt => apply free_portmask
       | |- found_free (coremask_opt _ _) => apply free_coremask
       | |- _ =>
           intros ? ? ? E;
           unfold eth_peers_configfile, eth_peer, nb_ports_opt, nb_cores_opt, numa_opt, port_numa_opt,
             ring_numa_opt, socket_num_opt, mbuf_size_opt, max_pkt_len_opt, burst_opt, txqflags_opt, rxd_opt, maps_opt,
             txpkts_opt in E; option_paths
       end.
Qed.

Lemma run_option_ok x g g' :
  ok g -> run_option STR_TOKEN_SIZE cache_max en master rss_ip rss_udp min_len max_len fopen x g = Done g' -> ok g'.
Proof.
  intros Hg. destruct x as [c a|i a]; cbn [run_option].
  - destruct (Ascii.eqb c "i"); [intros [= <-]; by apply set_var_ok|].
    destruct (Ascii.eqb c "a"); [intros [= <-]; by apply set_var_ok|done].
  - intros (o & _ & E)%outcome_bind_Done. unfold run_long in E. destruct (List.find _ _) as [[n h]|] eqn:Ef.
    + apply List.find_some in Ef as [Hin%list_elem_of_In _]. pose proof options_keep as Hk.
      rewrite Forall_forall in Hk. exact (Hk _ Hin _ _ _ Hg E).
    + by injection E as <-.
Qed.

Lemma run_option_found x g g' :
  run_option STR_TOKEN_SIZE cache_max en master rss_ip rss_udp min_len max_len fopen x g = Done g' -> same_found g g'.
Proof.
  destruct x as [c a|i a]; cbn [run_option].
  - destruct (Ascii.eqb c "i"); [by intros [= <-]|]. destruct (Ascii.eqb c "a"); [by intros [= <-]|done].
  - intros (o & _ & E)%outcome_bind_Done. unfold run_long in E. destruct (List.find _ _) as [[n h]|] eqn:Ef.
    + apply List.find_some in Ef as [Hin%list_elem_of_In _]. pose proof options_free as Hk.
      rewrite Forall_forall in Hk. exact (Hk _ Hin _ _ _ E).
    + by injection E as <-.
Qed.

Lemma same_found_trans g1 g2 g3 : same_found g1 g2 -> same_found g2 g3 -> same_found g1 g3.
Proof. intros [] []. constructor; congruence. Qed.

(** A command line keeps the variables in their ranges, and what was found. *)
Lemma parse_keeps argv g g' :
  launch_args_parse STR_TOKEN_SIZE cache_max en master rss_ip rss_udp min_len max_len fopen argv g = Done g' ->
  same_found g g' /\ (ok g -> ok g').
Proof.
  unfold launch_args_parse. generalize (getopt_long_all "iah" lgopts argv) as l. intros l. revert g.
  induction l as [|x l IH]; intros g; cbn [run_options]; [by intros [= <-]|].
  intros (g1 & E & Hrun)%outcome_bind_Done. destruct (IH g1 Hrun) as [Hf Hk]. split.
  - eapply same_found_trans; [by eapply run_option_found|done].
  - intros Hg. by apply Hk, (run_option_ok x g).
Qed.
End Preserve.

(** ** Lemmas: the command line is read in order *)

(** A long option on the command line: its name and, if it takes one, its
    argument; and the word that a user writes. *)
Definition use : Type := string * option string.

Definition use_ok (u : use) : Prop := (u.1, if u.2 is Some _ then true else false) ∈ lgopts.

#[export] Instance use_ok_dec u : Decision (use_ok u).
Proof. unfold use_ok. apply _. Defined.

Definition use_word (u : use) : string :=
  "--" +:+ u.1 +:+ match u.2 with Some a => ("=" +:+ a)%string | None => ""%string end.

(** What is checked of each entry of the table. *)
Definition entry_ok (io : nat * long_opt) : Prop :=
  find_long io.2.1 lgopts = Some (io.1, io.2.2) /\ strchr "=" io.2.1 = None /\ io.2.1 <> ""%string.

#[local] Instance entry_ok_dec io : Decision (entry_ok io).
Proof. unfold entry_ok. apply _. Defined.

Lemma lgopts_ok i o : lgopts !! i = Some o -> entry_ok (i, o).
Proof.
  intros Hi. assert (H : Forall entry_ok (imap pair lgopts)).
  { apply (bool_decide_unpack _). vm_compute. exact I. }
  rewrite Forall_lookup in H. apply (H i). by rewrite list_lookup_imap, Hi.
Qed.

Lemma getopt_use u ws :
  use_ok u -> exists i o, lgopts !! i = Some o /\ o.1 = u.1 /\
    getopt_long_words "iah" lgopts false (use_word u :: ws) =
      LongOpt i u.2 :: getopt_long_words "iah" lgopts false ws.
Proof.
  destruct u as [name arg]. intros [i Hi]%list_elem_of_lookup. cbn [fst snd] in Hi.
  destruct (lgopts_ok i _ Hi) as (Hf & Heq & Hne). cbn [fst snd] in Hf, Heq, Hne.
  exists i. eexists. split; [exact Hi|]. split; [done|]. unfold use_word. cbn [fst snd].
  change ("--" +:+ ?r)%string with (String "-" (String "-" r)). cbn [getopt_long_words].
  change (ascii_code "-" =? 45) with true. cbv iota.
  set (w := (name +:+ _)%string).
  assert (Hw : getopt_long_word lgopts w (head ws) = (LongOpt i arg, false)).
  { unfold getopt_long_word, w. destruct arg as [a|].
    - change ("=" +:+ a)%string with (String "=" a). rewrite strchr_app by done. by rewrite Hf.
    - rewrite strchr_app_None by done. replace (name +:+ "")%string with name; [by rewrite Hf|].
      clear. induction name as [|c s IH]; [done|]. by rewrite app_cons_s, <- IH. }
  assert (Hnw : w <> ""%string) by (unfold w; by destruct name).
  destruct w; [done|]. by rewrite Hw.
Qed.

(** ** Lemmas: thresholds *)

Lemma u8_s8 n : u8 (s8 n) = u8 n.
Proof.
  unfold u8, s8, sgn. destruct (_ <? _); [by rewrite Z.mod_mod by lia|].
  rewrite Zminus_mod, Z.mod_mod, Z_mod_same_full, Z.sub_0_r by lia. by rewrite Z.mod_mod by lia.
Qed.

Lemma u16_s16 n : u16 (s16 n) = u16 n.
Proof.
  unfold u16, s16, sgn. destruct (_ <? _); [by rewrite Z.mod_mod by lia|].
  rewrite Zminus_mod, Z.mod_mod, Z_mod_same_full, Z.sub_0_r by lia. by rewrite Z.mod_mod by lia.
Qed.

Lemma sgn_unset w n : 0 < w -> sgn w n = -1 <-> n mod 2 ^ w = 2 ^ w - 1.
Proof.
  intros Hw. unfold sgn. assert (Hp : 2 ^ w = 2 * 2 ^ (w - 1)) by (rewrite <- Z.pow_succ_r by lia; f_equal; lia).
  pose proof (Z.mod_pos_bound n (2 ^ w) ltac:(lia)). destruct (Z.ltb_spec (n mod 2 ^ w) (2 ^ (w - 1))); lia.
Qed.

(** A threshold of 8 and of 16 bits as the port gets it. *)
Lemma param_s8 n d : param u8 (s8 n) d = if u8 n =? 255 then d else u8 n.
Proof.
  unfold param, RTE_PMD_PARAM_UNSET. pose proof (sgn_unset 8 n ltac:(lia)) as H. fold (s8 n) in H. rewrite u8_s8.
  unfold u8 in *. destruct (Z.eqb_spec (s8 n) (-1)), (Z.eqb_spec (n mod 2 ^ 8) 255); (done || exfalso; lia).
Qed.

Lemma param_s16 n d : param u16 (s16 n) d = if u16 n =? 65535 then d else u16 n.
Proof.
  unfold param, RTE_PMD_PARAM_UNSET. pose proof (sgn_unset 16 n ltac:(lia)) as H. fold (s16 n) in H. rewrite u16_s16.
  unfold u16 in *. destruct (Z.eqb_spec (s16 n) (-1)), (Z.eqb_spec (n mod 2 ^ 16) 65535); (done || exfalso; lia).
Qed.

(** The thresholds that [rxtx_port_config] reads. *)
Definition thresholds_of (g : globals) : thresholds :=
  Thresholds (var g Var.rx_pthresh) (var g Var.rx_hthresh) (var g Var.rx_wthresh) (var g Var.rx_free_thresh)
    (var g Var.rx_drop_en) (var g Var.tx_pthresh) (var g Var.tx_hthresh) (var g Var.tx_wthresh)
    (var g Var.tx_rs_thresh) (var g Var.tx_free_thresh) (var g Var.txq_flags).

(** The thresholds: the option, the largest value of its field, and the field
    in the configuration of a port and in the default of a device. *)
Definition threshold_fields : list (string * Z * (port_conf -> Z) * (dev_info -> Z)) := [
  ("rxpt", 255, fun c => rx_pth (rx_conf c), fun i => rx_pth (default_rxconf i));
  ("rxht", 255, fun c => rx_hth (rx_conf c), fun i => rx_hth (default_rxconf i));
  ("rxwt", 255, fun c => rx_wth (rx_conf c), fun i => rx_wth (default_rxconf i));
  ("rxfreet", 65535, fun c => rx_free (rx_conf c), fun i => rx_free (default_rxconf i));
  ("txpt", 255, fun c => tx_pth (tx_conf c), fun i => tx_pth (default_txconf i));
  ("txht", 255, fun c => tx_hth (tx_conf c), fun i => tx_hth (default_txconf i));
  ("txwt", 255, fun c => tx_wth (tx_conf c), fun i => tx_wth (default_txconf i));
  ("txrst", 65535, fun c => tx_rs (tx_conf c), fun i => tx_rs (default_txconf i));
  ("txfreet", 65535, fun c => tx_free (tx_conf c), fun i => tx_free (default_txconf i))
]%string.

(** ** Properties *)

Section Claims.
Context `{DpdkText} (STR_TOKEN_SIZE : nat) (cache_max : Z) (en : Z -> bool) (master : Z)
  (rss_ip rss_udp min_len max_len : Z) (fopen : string -> option string).

#[local] Abbreviation parse := (launch_args_parse STR_TOKEN_SIZE cache_max en master rss_ip rss_udp min_len max_len fopen).
#[local] Abbreviation run_one := (run_long STR_TOKEN_SIZE cache_max en master rss_ip rss_udp min_len max_len fopen).

Fixpoint run_uses (us : list use) (g : globals) : outcome globals :=
  match us with
  | [] => Done g
  | u :: us => g ← run_one u.1 u.2 g; run_uses us g
  end.

Lemma run_long_find name arg g h :
  List.find (fun o => bool_decide (o.1 = name)) 
    (options STR_TOKEN_SIZE cache_max en master rss_ip rss_udp min_len max_len fopen) = Some (name, h) ->
  run_one name arg g = h (default ""%string arg) g.
Proof. unfold run_long. by intros ->. Qed.

(** C21: whatever the command line is, if the program gets past it, every
    variable is in the range the rest of the program relies on: queues,
    bursts and buffers are positive and within their limits, the rings and
    pools are on sockets the machine has, the statistics counters exist, the
    forwarding cores are at most the cores there are. *)
Theorem launch_args_typed argv g g'
    (Hen : forall i, en i = true -> 0 <= i < Z.of_nat RTE_MAX_LCORE) (Hcache : 0 <= cache_max < 2 ^ 16)
    (Hip : 0 <= rss_ip < 2 ^ 64) (Hudp : 0 <= rss_udp < 2 ^ 64) (Hmin : 0 <= min_len)
    (Hg : globals_ok en master cache_max min_len g) (Hrun : parse argv g = Done g') :
  globals_ok en master cache_max min_len g'.
Proof.
  refine (proj2 (parse_keeps _ _ _ _ _ _ _ _ _ _ _ _ _ _ argv g g' Hrun) Hg); assumption.
Qed.

(** C28: a command line of long options, each written with two dashes and its
    argument behind an equals sign, does what its options do one after the
    other, up to the first that ends the program. *)
Theorem launch_args_in_order prog us g (Hus : Forall use_ok us) :
  parse (prog :: (use_word <$> us)) g = run_uses us g.
Proof.
  unfold launch_args_parse, getopt_long_all. cbn [tail]. revert g.
  induction Hus as [|u us Hu Hus IH]; intros g; cbn [fmap list_fmap]; [done|].
  destruct (getopt_use u (use_word <$> us) Hu) as (i & o & Hi & Ho & ->).
  cbn [run_options run_option run_uses]. rewrite Hi. cbn [of_opt mbind outcome_bind]. rewrite Ho.
  destruct (run_one u.1 u.2 g) as [g1| |]; cbn [mbind outcome_bind]; [apply IH|done..].
Qed.

(** A threshold option with a number that is not negative gives the rings
    of every port that number in the width of the field; the largest value of
    the field means that the option is not set, and the device's default is
    used.  A negative number ends the program. *)
Theorem threshold_reaches_port name top field default arg info c g
    (Hname : (name, top, field, default) ∈ threshold_fields) :
  let n := atoi arg in
  match run_one name (Some arg) g with
  | Done g' => 0 <= n /\
      field (rxtx_port_config (thresholds_of g') info c) =
        let x := n mod (top + 1) in if x =? top then default info else x
  | Aborted => n < 0
  | Undefined => False
  end.
Proof.
  cbv zeta. unfold threshold_fields in Hname.
  apply list_elem_of_In in Hname. cbn [In] in Hname.
  repeat (destruct Hname as [Hname|Hname]); [..|contradiction Hname].
  all: injection Hname as <- <- <- <-.
  all: erewrite run_long_find by reflexivity.
  all: unfold number_opt, not_negative; unfold from_option, id; cbv beta zeta; destruct (Z.leb_spec 0 (atoi arg)); cbn [c_assert mbind outcome_bind]; [|done].
  all: split; [done|].
  all: cbn [rxtx_port_config rx_conf tx_conf rx_pth rx_hth rx_wth rx_free tx_pth tx_hth tx_wth tx_rs tx_free].
  all: unfold thresholds_of; cbn [p_rx_pthresh p_rx_hthresh p_rx_wthresh p_rx_free_thresh p_tx_pthresh p_tx_hthresh
    p_tx_wthresh p_tx_rs_thresh p_tx_free_thresh]; cbn [var set_var]; rewrite fn_lookup_insert.
  all: first [exact (param_s8 _ _) | exact (param_s16 _ _)].
Qed.
End Claims.

(** ** Examples *)

(** The variables of testpmd.c as they are initialised, with 3 for the hash
    functions on IP and 250 for the cache of a pool. *)
Definition initial_var (v : Var.t) : Z :=
  match v with
  | Var.interactive | Var.hw_vlan_filter | Var.hw_vlan_strip | Var.nb_rxq | Var.nb_txq => 1
  | Var.socket_num => UMA_NO_CONFIG
  | Var.mb_mempool_cache => 250
  | Var.max_rx_pkt_len => 1518
  | Var.drop_queue => 127
  | Var.nb_rxd => 128
  | Var.nb_txd => 512
  | Var.rss_hf => 3
  | Var.rx_drop_en | Var.tx_pthresh | Var.tx_hthresh | Var.tx_wthresh | Var.tx_free_thresh | Var.tx_rs_thresh
  | Var.txq_flags | Var.rx_pthresh | Var.rx_hthresh | Var.rx_wthresh | Var.rx_free_thresh => -1
  | _ => 0
  end.

Definition no_sockets : list Z := replicate RTE_MAX_ETHPORTS NUMA_NO_CONFIG.

Definition sample_globals : globals :=
  Globals initial_var (replicate RTE_MAX_ETHPORTS (replicate 6 0)) sample_settings PAIRED 0
    (FdirConf RTE_FDIR_MODE_NONE RTE_FDIR_REPORT_STATUS RTE_FDIR_PBALLOC_64K) no_sockets (no_sockets, no_sockets) [] [].

Definition sample_parse : list string -> globals -> outcome globals :=
  @launch_args_parse sample_text 128 512 sample_enabled 0 3 5 64 1518 (fun _ => None).

Lemma sample_globals_ok : globals_ok sample_enabled 0 512 64 sample_globals.
Proof.
  constructor.
  - intros []; apply (bool_decide_unpack _); vm_compute; exact I.
  - reflexivity.
  - vm_compute. reflexivity.
  - vm_compute. split; discriminate.
  - reflexivity.
  - vm_compute. split; discriminate.
  - vm_compute. split; discriminate.
  - apply Nat.ltb_lt. reflexivity.
  - constructor; [reflexivity|]. apply (bool_decide_unpack _). vm_compute. exact I.
  - constructor; [reflexivity|]. apply (bool_decide_unpack _). vm_compute. exact I.
  - constructor; [reflexivity|]. apply (bool_decide_unpack _). vm_compute. exact I.
  - constructor; [apply Nat.le_0_l|constructor].
  - constructor; [apply Nat.le_0_l|constructor].
Qed.

Lemma launch_args_typed_witness :
  match sample_parse ["testpmd"; "-i"; "--rxq=4"; "--burst"; "64"; "--ring-numa-config=(0,3,0)"; "--coremask=6"]%string
          sample_globals with
  | Done g' => globals_ok sample_enabled 0 512 64 g' /\ var g' Var.nb_rxq = 4
  | _ => False
  end.
Proof.
  destruct (sample_parse _ sample_globals) as [g'| |] eqn:E; [|vm_compute in E; discriminate E..].
  split.
  - refine (@launch_args_typed sample_text 128 512 sample_enabled 0 3 5 64 1518 (fun _ => None) _ _ _ _ _ _ _ _
      sample_globals_ok E); unfold sample_enabled, RTE_MAX_LCORE; intros; lia.
  - vm_compute in E. injection E as <-. reflexivity.
Defined.

Lemma launch_args_in_order_witness :
  sample_parse ["testpmd"; "--rxq=4"; "--numa"; "--port-topology=loop"]%string sample_globals =
    Done (set_topology LOOP (set_numa no_sockets (no_sockets, no_sockets)
      (set_var Var.numa_support 1 (set_var Var.nb_rxq 4 sample_globals)))).
Proof.
  etransitivity.
  - refine (@launch_args_in_order sample_text 128 512 sample_enabled 0 3 5 64 1518 (fun _ => None) "testpmd"%string
      [("rxq", Some "4"); ("numa", None); ("port-topology", Some "loop")]%string sample_globals _).
    apply (bool_decide_unpack _). vm_compute. exact I.
  - reflexivity.
Defined.

Lemma threshold_reaches_port_witness :
  match @run_long sample_text 128 512 sample_enabled 0 3 5 64 1518 (fun _ => None) "rxpt" (Some "200"%string) sample_globals with
  | Done g' => rx_pth (rx_conf (rxtx_port_config (thresholds_of g') sample_info
                 (PortConf zero_conf (RxConf 0 0 0 0 0) (TxConf 0 0 0 0 0 0) false))) = 200
  | _ => False
  end.
Proof.
  pose proof (@threshold_reaches_port sample_text 128 512 sample_enabled 0 3 5 64 1518 (fun _ => None)
    "rxpt" 255 (fun c => rx_pth (rx_conf c)) (fun i => rx_pth (default_rxconf i)) "200" sample_info
    (PortConf zero_conf (RxConf 0 0 0 0 0) (TxConf 0 0 0 0 0 0) false) sample_globals
    ltac:(unfold threshold_fields; apply list_elem_of_here)) as H.
  destruct (run_long _ _ _ _ _ _ _ _ _ _ _ _) as [g'| |].
  - destruct H as [_ H]. rewrite H. vm_compute. reflexivity.
  - vm_compute in H. discriminate H.
  - exact H.
Defined.

(** An option may be cut short, even where that fits several: the first in
    the table is taken; "ports" is in the table, but nothing looks for it. *)
Lemma shortened_options :
  sample_parse ["testpmd"; "--rss"]%string sample_globals = Done (set_var Var.rss_hf 3 sample_globals) /\
  sample_parse ["testpmd"; "--port=ff"]%string sample_globals = Done sample_globals.
Proof. split; vm_compute; reflexivity. Qed.

(** The number of cores is compared with all cores, not with those the mask
    chose: the array then still has the cores of the default behind them, and
    a core may be there twice. *)
Lemma core_used_twice :
  match sample_parse ["testpmd"; "--coremask=8"; "--nb-cores=3"]%string sample_globals with
  | Done g => take (Z.to_nat (nb_fwd_lcores (cores (sets g)))) (fwd_lcores_cpuids (cores (sets g))) = [3; 2; 3]
  | _ => False
  end.
Proof. vm_compute. reflexivity. Qed.

(** A port number above the largest integer is negative. *)
Lemma negative_peer :
  sample_parse ["testpmd"; "--eth-peer=4294967295,1:1:1:1:1:1"]%string sample_globals = Undefined.
Proof. vm_compute. reflexivity. Qed.

(** A number of descriptors that fills 16 bits becomes 0, and a text that is
    no number is taken for 0. *)
Lemma no_descriptors :
  match sample_parse ["testpmd"; "--rxd=65536"; "--rxpt=x"]%string sample_globals with
  | Done g => (var g Var.nb_rxd, var g Var.rx_pthresh) = (0, 0)
  | _ => False
  end.
Proof. vm_compute. reflexivity. Qed.
