(* ===== verification/PortCmds.v ===== *)
(** * test-pmd/cmdline.c: the "port" commands

    The callbacks of "port start|stop|close|attach|detach" and of "port
    config": they change the variables that options set, build the
    configuration of every port anew and mark the ports, so that their next
    start gives the configuration to the devices.  The state is that of
    LaunchArgs.v and the speeds of the links.  Tokens are strings and
    numbers, as the command line library delivers them. *)

From Stdlib Require Import Ascii.
From stdpp Require Import strings functions.
From S2P Require Import Prelude Cstr Packet PortConf PortState FwdConfig CoreConf FwdSettings SetCmds Params LaunchArgs.

#[local] Open Scope Z_scope.
#[local] Open Scope list_scope.

(** ** Data *)

(** The speeds of DPDK. *)
Inductive link_speed : Type :=
| ETH_LINK_SPEED_AUTONEG | ETH_LINK_SPEED_10M_HD | ETH_LINK_SPEED_10M | ETH_LINK_SPEED_100M_HD | ETH_LINK_SPEED_100M
| ETH_LINK_SPEED_1G | ETH_LINK_SPEED_10G | ETH_LINK_SPEED_40G | ETH_LINK_SPEED_100G.

#[export] Instance link_speed_eq : EqDecision link_speed.
Proof. solve_decision. Defined.

(** [link_speeds] has the field of that name of each port's configuration. *)
Record cmd_state : Type := CmdState { gl : globals; link_speeds : list link_speed }.

Definition port_state (g : globals) : pstate := portst (sets g).
Definition set_port_state (p : pstate) (g : globals) : globals := set_sets (with_portst p (sets g)) g.

(** The receive mode as one number, for comparing. *)
Definition rx_mode_of (g : globals) : Z :=
  var g Var.max_rx_pkt_len +
  2 ^ 32 * (var g Var.jumbo_frame + 2 * (var g Var.hw_strip_crc + 2 * (var g Var.hw_ip_checksum +
    2 * (var g Var.hw_vlan_strip + 2 * var g Var.hw_vlan_extend)))).

Definition socket_at (l : list Z) (p : Z) : Z := default NUMA_NO_CONFIG (zget l p).

(** The variables as the operations on ports see them. *)
Definition config_of (g : globals) : config :=
  Config (var g Var.nb_rxq) (var g Var.nb_txq) (var g Var.nb_rxd) (var g Var.nb_txd)
    (negb (var g Var.numa_support =? 0)) (socket_at (numa_ports g)) (socket_at (numa_rings g).1)
    (socket_at (numa_rings g).2) (var g Var.socket_num) (lc_max_socket (cores (sets g)))
    (rx_mode_of g) (var g Var.hw_vlan_filter) (var g Var.rss_hf) (thresholds_of g).

(** ** Marking the ports *)

Definition mark (dev queue : bool) (p : rte_port) : rte_port :=
  with_reconfig_queues (need_reconfig_queues p || queue) (with_reconfig (need_reconfig p || dev) p).

Definition cmd_reconfig_device_queue (id : Z) (dev queue : bool) (st : pstate) : pstate :=
  if id =? RTE_PORT_ALL then foldl (fun st pid => upd_port pid (mark dev queue) st) st (port_ids (ports st))
  else if negb (port_id_is_invalid id st) then upd_port id (mark dev queue) st
  else st.

(** What the commands do at their end. *)
Definition reinit (g : globals) : globals :=
  set_port_state (cmd_reconfig_device_queue RTE_PORT_ALL true true (init_port_config (config_of g) (port_state g))) g.

(** ** The configuration commands *)

Section Commands.
Variables (d : dpdk) (ETHER_MIN_LEN ETHER_MAX_LEN : Z).

Definition RTE_TEST_RX_DESC_MAX : Z := 2048.
Definition RTE_TEST_TX_DESC_MAX : Z := 2048.

Definition parse_and_check_speed_duplex (speedstr duplexstr : string) : option link_speed :=
  half ← (if bool_decide (duplexstr = "half"%string) then Some true
          else if bool_decide (duplexstr = "full"%string) then Some false
          else if bool_decide (duplexstr = "auto"%string) then Some false
          else None);
  if bool_decide (speedstr = "10"%string) then Some (if half : bool then ETH_LINK_SPEED_10M_HD else ETH_LINK_SPEED_10M)
  else if bool_decide (speedstr = "100"%string) then Some (if half then ETH_LINK_SPEED_100M_HD else ETH_LINK_SPEED_100M)
  else if half then None
  else if bool_decide (speedstr = "1000"%string) then Some ETH_LINK_SPEED_1G
  else if bool_decide (speedstr = "10000"%string) then Some ETH_LINK_SPEED_10G
  else if bool_decide (speedstr = "40000"%string) then Some ETH_LINK_SPEED_40G
  else if bool_decide (speedstr = "100000"%string) then Some ETH_LINK_SPEED_100G
  else if bool_decide (speedstr = "auto"%string) then Some ETH_LINK_SPEED_AUTONEG
  else None.

Definition remark (s : cmd_state) (speeds : list link_speed) : cmd_state :=
  let g := gl s in
  CmdState (set_port_state (cmd_reconfig_device_queue RTE_PORT_ALL true true (port_state g)) g) speeds.

Definition cmd_config_speed_all_parsed (value1 value2 : string) (s : cmd_state) : outcome cmd_state :=
  if negb (all_ports_stopped (port_state (gl s))) then Done s
  else
    match parse_and_check_speed_duplex value1 value2 with
    | None => Done s
    | Some speed =>
        Done (remark s (foldl (fun l pid => <[Z.to_nat pid := speed]> l) (link_speeds s)
                          (port_ids (ports (port_state (gl s))))))
    end.

Definition cmd_config_speed_specific_parsed (id : Z) (value1 value2 : string) (s : cmd_state) : outcome cmd_state :=
  if negb (all_ports_stopped (port_state (gl s))) then Done s
  else if port_id_is_invalid id (port_state (gl s)) then Done s
  else
    match parse_and_check_speed_duplex value1 value2 with
    | None => Done s
    | Some speed => l ← of_opt (zset (link_speeds s) id speed); Done (remark s l)
    end.

(** The commands for all ports change the variables, which [f] does unless it
    refuses, and build the configurations anew. *)
Definition config_all (f : globals -> option globals) (s : cmd_state) : cmd_state :=
  if negb (all_ports_stopped (port_state (gl s))) then s
  else match f (gl s) with Some g => CmdState (reinit g) (link_speeds s) | None => s end.

Definition rx_tx_value (name : string) (value : Z) (g : globals) : option globals :=
  if bool_decide (name = "rxq"%string) then
    if (value =? 0) && (var g Var.nb_txq =? 0) then None else Some (set_var Var.nb_rxq value g)
  else if bool_decide (name = "txq"%string) then
    if (value =? 0) && (var g Var.nb_rxq =? 0) then None else Some (set_var Var.nb_txq value g)
  else if bool_decide (name = "rxd"%string) then
    if (value <=? 0) || (RTE_TEST_RX_DESC_MAX <? value) then None else Some (set_var Var.nb_rxd value g)
  else if bool_decide (name = "txd"%string) then
    if (value <=? 0) || (RTE_TEST_TX_DESC_MAX <? value) then None else Some (set_var Var.nb_txd value g)
  else None.

Definition cmd_config_rx_tx_parsed (name : string) (value : Z) : cmd_state -> cmd_state :=
  config_all (rx_tx_value name value).

Definition max_pkt_len_value (name : string) (value : Z) (g : globals) : option globals :=
  if bool_decide (name = "max-pkt-len"%string) then
    if value <? ETHER_MIN_LEN then None
    else if value =? var g Var.max_rx_pkt_len then None
    else Some (set_var Var.jumbo_frame (if ETHER_MAX_LEN <? value then 1 else 0) (set_var Var.max_rx_pkt_len value g))
  else None.

Definition cmd_config_max_pkt_len_parsed (name : string) (value : Z) : cmd_state -> cmd_state :=
  config_all (max_pkt_len_value name value).

(** The variables of a flag of the receive mode. *)
Definition rx_mode_flags : list (string * list Var.t) := [
  ("crc-strip", [Var.hw_strip_crc]); ("rx-cksum", [Var.hw_ip_checksum]);
  ("hw-vlan", [Var.hw_vlan_filter; Var.hw_vlan_strip]); ("hw-vlan-filter", [Var.hw_vlan_filter]);
  ("hw-vlan-strip", [Var.hw_vlan_strip]); ("hw-vlan-extend", [Var.hw_vlan_extend]);
  ("drop-en", [Var.rx_drop_en])
]%string.

Definition on_off (value : string) : option Z :=
  if bool_decide (value = "on"%string) then Some 1
  else if bool_decide (value = "off"%string) then Some 0 else None.

Definition rx_mode_flag_value (name value : string) (g : globals) : option globals :=
  match List.find (fun x => bool_decide (x.1 = name)) rx_mode_flags with
  | None => None
  | Some (_, vs) => b ← on_off value; Some (foldl (fun g v => set_var v b g) g vs)
  end.

Definition cmd_config_rx_mode_flag_parsed (name value : string) : cmd_state -> cmd_state :=
  config_all (rx_mode_flag_value name value).

Definition burst_value (name : string) (value : Z) (g : globals) : option globals :=
  let p := pkts (sets g) in
  if bool_decide (name = "burst"%string) then
    if (value <? 1) || (MAX_PKT_BURST <? value) then None
    else Some (set_sets (with_pkts (PktConf value (mbuf_data_size p) (tx_pkt_length p) (tx_pkt_seg_lengths p)
                                      (tx_pkt_nb_segs p) (pc_split p)) (sets g)) g)
  else None.

Definition cmd_config_burst_parsed (name : string) (value : Z) : cmd_state -> cmd_state :=
  config_all (burst_value name value).

(** The thresholds of 8 bits, whose value is converted to a signed one. *)
Definition thresh_names : list (string * Var.t) := [
  ("txpt", Var.tx_pthresh); ("txht", Var.tx_hthresh); ("txwt", Var.tx_wthresh);
  ("rxpt", Var.rx_pthresh); ("rxht", Var.rx_hthresh); ("rxwt", Var.rx_wthresh)
]%string.

Definition named_value (names : list (string * Var.t)) (conv : Z -> Z) (name : string) (value : Z) (g : globals)
    : option globals :=
  match List.find (fun x => bool_decide (x.1 = name)) names with
  | Some (_, v) => Some (set_var v (conv value) g)
  | None => None
  end.

Definition cmd_config_thresh_parsed (name : string) (value : Z) : cmd_state -> cmd_state :=
  config_all (named_value thresh_names s8 name value).

Definition threshold_names : list (string * Var.t) := [
  ("txfreet", Var.tx_free_thresh); ("txrst", Var.tx_rs_thresh); ("rxfreet", Var.rx_free_thresh)
]%string.

Definition cmd_config_threshold_parsed (name : string) (value : Z) : cmd_state -> cmd_state :=
  config_all (named_value threshold_names s16 name value).

(** DCB for one port, whose number is not checked. *)
Definition cmd_config_dcb_parsed (port_id num_tcs : Z) (vt_en pfc_en : string) (s : cmd_state) : outcome cmd_state :=
  let g := gl s in
  let st := port_state g in
  port ← of_opt (zget (ports st) port_id);
  if negb (bool_decide (port_status port = STOPPED)) then Done s
  else if negb (num_tcs =? 4) && negb (num_tcs =? 8) then Done s
  else if nb_fwd_lcores (cores (sets g)) <? num_tcs then Done s
  else
    let mode := if String.prefix "on" vt_en then DCB_VT_ENABLED else DCB_ENABLED in
    match init_port_dcb_config (var g Var.rss_hf) (thresholds_of g) (dev_info_get d port_id) mode num_tcs
            (String.prefix "on" pfc_en) (pconf port) with
    | None => Done s
    | Some (rxq, txq, t, c) =>
        let g := set_var Var.rx_free_thresh (p_rx_free_thresh t) (set_var Var.nb_txq txq (set_var Var.nb_rxq rxq g)) in
        let st := set_dcb true (dcb_test st) (upd_port port_id (with_conf c) st) in
        let st := cmd_reconfig_device_queue port_id true true st in
        speeds ← of_opt (zset (link_speeds s) port_id ETH_LINK_SPEED_AUTONEG);
        Done (CmdState (set_port_state st g) speeds)
    end.

(** ** Commands on ports *)

Definition on_ports (f : pstate -> pstate) (s : cmd_state) : cmd_state :=
  CmdState (set_port_state (f (port_state (gl s))) (gl s)) (link_speeds s).

Definition cmd_operate_port_parsed (name : string) (s : cmd_state) : cmd_state :=
  let c := config_of (gl s) in
  if bool_decide (name = "start"%string) then on_ports (fun st => (start_port d c RTE_PORT_ALL st).2) s
  else if bool_decide (name = "stop"%string) then on_ports (stop_port d RTE_PORT_ALL) s
  else if bool_decide (name = "close"%string) then on_ports (close_port d RTE_PORT_ALL) s
  else s.

Definition cmd_operate_specific_port_parsed (name : string) (value : Z) (s : cmd_state) : cmd_state :=
  let c := config_of (gl s) in
  if bool_decide (name = "start"%string) then on_ports (fun st => (start_port d c value st).2) s
  else if bool_decide (name = "stop"%string) then on_ports (stop_port d value) s
  else if bool_decide (name = "close"%string) then on_ports (close_port d value) s
  else s.

Definition cmd_operate_attach_port_parsed (keyword : string) (identifier : option Z) (s : cmd_state) : outcome cmd_state :=
  if bool_decide (keyword = "attach"%string) then
    st ← attach_port d (config_of (gl s)) identifier (port_state (gl s));
    Done (CmdState (set_port_state st (gl s)) (link_speeds s))
  else Done s.

Definition cmd_operate_detach_port_parsed (keyword : string) (port_id : Z) (s : cmd_state) : outcome cmd_state :=
  if bool_decide (keyword = "detach"%string) then
    st ← detach_port d port_id (port_state (gl s));
    Done (CmdState (set_port_state st (gl s)) (link_speeds s))
  else Done s.

(** Starting and stopping a queue of a running port: the call made, if any. *)
Inductive queue_call : Type := QueueStart (is_rx : bool) (port queue : Z) | QueueStop (is_rx : bool) (port queue : Z).

Definition cmd_config_rxtx_queue_parsed (portid : Z) (rxtxq : string) (qid : Z) (opname : string) (s : cmd_state)
    : outcome (option queue_call) :=
  let g := gl s in
  let st := port_state g in
  if negb (test_done st) then Done None
  else if port_id_is_invalid portid st then Done None
  else
    started ← port_is STARTED portid st;
    if negb started then Done None
    else
      match (if bool_decide (rxtxq = "rxq"%string) then Some true
             else if bool_decide (rxtxq = "txq"%string) then Some false else None) with
      | None => Done None
      | Some isrx =>
          if negb (qid <? (if isrx : bool then var g Var.nb_rxq else var g Var.nb_txq)) then Done None
          else if bool_decide (opname = "start"%string) then Done (Some (QueueStart isrx portid qid))
          else if bool_decide (opname = "stop"%string) then Done (Some (QueueStop isrx portid qid))
          else Done None
      end.
End Commands.

(** ** Specification *)

(** The commands for all ports. *)
Inductive config_cmd : Type :=
| RxTx (name : string) (value : Z) | MaxPktLen (name : string) (value : Z) | RxModeFlag (name value : string)
| Burst (name : string) (value : Z) | Thresh (name : string) (value : Z) | Threshold (name : string) (value : Z).

(** What a command does to the variables, if it is accepted. *)
Definition values (min_len max_len : Z) (cmd : config_cmd) : globals -> option globals :=
  match cmd with
  | RxTx n v => rx_tx_value n v
  | MaxPktLen n v => max_pkt_len_value min_len max_len n v
  | RxModeFlag n v => rx_mode_flag_value n v
  | Burst n v => burst_value n v
  | Thresh n v => named_value thresh_names s8 n v
  | Threshold n v => named_value threshold_names s16 n v
  end.

Definition run_config_cmd (min_len max_len : Z) (cmd : config_cmd) : cmd_state -> cmd_state :=
  match cmd with
  | RxTx n v => cmd_config_rx_tx_parsed n v
  | MaxPktLen n v => cmd_config_max_pkt_len_parsed min_len max_len n v
  | RxModeFlag n v => cmd_config_rx_mode_flag_parsed n v
  | Burst n v => cmd_config_burst_parsed n v
  | Thresh n v => cmd_config_thresh_parsed n v
  | Threshold n v => cmd_config_threshold_parsed n v
  end.

Definition run_config_cmds (min_len max_len : Z) (cmds : list config_cmd) (s : cmd_state) : cmd_state :=
  foldl (fun s cmd => run_config_cmd min_len max_len cmd s) s cmds.

(** A port holds the configuration that the variables ask for, and is marked
    to give it to its device. *)
Definition port_current (g : globals) (p : rte_port) : Prop :=
  need_reconfig p = true /\ need_reconfig_queues p = true /\
  let c := config_of g in
  exists old, pconf p = init_one_config (nb_rxq c) (g_rss_hf c) (g_rx_mode c) (g_vlan_filter c) (g_thresholds c)
    (info p) old.

(** What the device of a port is told when the port is started: the numbers
    of queues, and every queue with the number of descriptors. *)
Record device_told (c : config) (pi : Z) (pc : port_conf) (l : list dpdk_call) : Prop := {
  dt_configure : DevConfigure pi (nb_rxq c) (nb_txq c) (conf pc) ∈ l;
  dt_tx : forall q, 0 <= q < nb_txq c -> exists socket, TxQueueSetup pi q (nb_txd c) socket (tx_conf pc) ∈ l;
  dt_rx : forall q, 0 <= q < nb_rxq c -> exists socket pool, RxQueueSetup pi q (nb_rxd c) socket (rx_conf pc) pool ∈ l;
}.

(** ** Lemmas *)

Lemma run_config_cmd_values min_len max_len cmd s :
  run_config_cmd min_len max_len cmd s = config_all (values min_len max_len cmd) s.
Proof. by destruct cmd. Qed.

(** The cases of a chain of comparisons of names. *)
Ltac name_cases :=
  repeat match goal with
  | |- context [if bool_decide (?n = ?m) then _ else _] => destruct (bool_decide (n = m))
  | |- context [if ?b then None else _] => destruct b
  end; try done.

Lemma port_state_flags (vs : list Var.t) b g :
  port_state (foldl (fun g v => set_var v b g) g vs) = port_state g.
Proof. revert g. induction vs as [|v vs IH]; intros g; [done|]. cbn [foldl]. by rewrite IH. Qed.

Lemma values_port_state min_len max_len cmd g g' :
  values min_len max_len cmd g = Some g' -> port_state g' = port_state g.
Proof.
  destruct cmd; cbn [values].
  - unfold rx_tx_value. name_cases; by intros [= <-].
  - unfold max_pkt_len_value. name_cases; by intros [= <-].
  - unfold rx_mode_flag_value. destruct (List.find _ _) as [[n vs]|]; [|done].
    destruct (on_off value); [|done]. intros [= <-]. apply port_state_flags.
  - unfold burst_value. name_cases; by intros [= <-].
  - unfold named_value. destruct (List.find _ _) as [[n v]|]; [|done]. by intros [= <-].
  - unfold named_value. destruct (List.find _ _) as [[n v]|]; [|done]. by intros [= <-].
Qed.

(** Changing all ports of a list without duplicates. *)
Lemma foldl_upd_port f l st pi :
  NoDup l -> Forall (fun i => 0 <= i) l -> 
  zget (ports (foldl (fun st pid => upd_port pid f st) st l)) pi =
    if decide (pi ∈ l) then f <$> zget (ports st) pi else zget (ports st) pi.
Proof.
  intros Hnd Hl. revert st. induction Hl as [|j l Hj Hl IH]; intros st; cbn [foldl].
  { rewrite decide_False by apply not_elem_of_nil. done. }
  apply NoDup_cons in Hnd as [Hjl Hnd]. rewrite IH by done. destruct (decide (pi ∈ l)) as [Hin|Hin].
  - rewrite decide_True by by right. rewrite zget_upd_other; [done|congruence|done].
  - destruct (decide (pi = j)) as [->|Hne].
    + rewrite decide_True by left. destruct (zget (ports st) j) as [p|] eqn:Hp.
      * by rewrite (zget_upd_same _ _ _ _ Hp).
      * unfold zget in *. destruct (0 <=? j); [|done]. cbn. by rewrite list_lookup_alter_eq, Hp.
    + rewrite decide_False by (rewrite not_elem_of_cons; done). by apply zget_upd_other.
Qed.

Lemma foldl_upd_calls f l st : calls (foldl (fun st pid => upd_port pid f st) st l) = calls st.
Proof. revert st. induction l as [|j l IH]; intros st; [done|]. cbn [foldl]. by rewrite IH. Qed.

Lemma foldl_upd_test_done f l st : test_done (foldl (fun st pid => upd_port pid f st) st l) = test_done st.
Proof. revert st. induction l as [|j l IH]; intros st; [done|]. cbn [foldl]. by rewrite IH. Qed.

Lemma port_ids_nodup l : NoDup (port_ids l).
Proof. rewrite port_ids_spec. apply NoDup_filter, NoDup_seqZ. Qed.

Lemma port_ids_nonneg l : Forall (fun i => 0 <= i) (port_ids l).
Proof.
  apply Forall_forall. intros i (p & Hp & _)%elem_of_port_ids. by eapply zget_nonneg.
Qed.

(** The state of an enabled port after a command that was accepted. *)
Lemma reinit_port g pi p :
  zget (ports (port_state g)) pi = Some p -> enabled p = true ->
  exists p', zget (ports (port_state (reinit g))) pi = Some p' /\
    let c := config_of g in
    pconf p' = init_one_config (nb_rxq c) (g_rss_hf c) (g_rx_mode c) (g_vlan_filter c) (g_thresholds c)
      (info p) (pconf p) /\
    need_reconfig p' = true /\ need_reconfig_queues p' = true /\ port_status p' = port_status p /\
    enabled p' = true /\ info p' = info p /\ slave_flag p' = slave_flag p.
Proof.
  intros Hp He. unfold reinit. cbn [port_state set_port_state sets set_sets portst with_portst].
  fold (port_state g). unfold cmd_reconfig_device_queue. change (RTE_PORT_ALL =? RTE_PORT_ALL) with true. cbv iota.
  set (st1 := init_port_config (config_of g) (port_state g)).
  assert (Hin : pi ∈ port_ids (ports (port_state g))) by (apply elem_of_port_ids; eauto).
  assert (H1 : zget (ports st1) pi = Some (with_conf (init_one_config (nb_rxq (config_of g)) (g_rss_hf (config_of g))
      (g_rx_mode (config_of g)) (g_vlan_filter (config_of g)) (g_thresholds (config_of g)) (info p) (pconf p)) p)).
  { unfold st1, init_port_config. rewrite foldl_upd_port by (apply port_ids_nodup || apply port_ids_nonneg).
    rewrite decide_True by done. by rewrite Hp. }
  rewrite foldl_upd_port by (apply port_ids_nodup || apply port_ids_nonneg).
  rewrite decide_True by (apply elem_of_port_ids; eexists; split; [exact H1|exact He]).
  rewrite H1. eexists. split; [done|]. cbn. by rewrite !orb_true_r.
Qed.

(** ** Lemmas: what a start tells the device *)

(** The calls only grow. *)
Lemma calls_cmpset pi e n st : calls (cmpset pi e n st).2 = calls st.
Proof. unfold cmpset. destruct (zget (ports st) pi); [|done]. by destruct (decide _). Qed.

Lemma calls_setup_tx d c pi p qs st ok st' :
  setup_tx_queues d c pi p qs st = (ok, st') -> calls st `suffix_of` calls st' /\
  (ok = true -> forall q, q ∈ qs -> exists socket l, calls st' = l ++ calls st /\
    TxQueueSetup pi q (nb_txd c) socket (tx_conf (pconf p)) ∈ l).
Proof.
  revert st. induction qs as [|q qs IH]; intros st; cbn [setup_tx_queues].
  { intros [= <- <-]. split; [done|]. intros _ q []%not_elem_of_nil. }
  destruct (dpdk_do _ _ _) as [r st1] eqn:E. injection E as _ <-. destruct (r =? 0).
  - intros E. apply IH in E as [[l Hl] Hq]. cbn [calls set_calls] in Hl. split.
    + rewrite Hl, cons_middle, app_assoc. by eexists.
    + intros Hok q' [->|Hin]%elem_of_cons.
      * rewrite Hl, cons_middle, app_assoc. eexists _, _. split; [done|]. apply elem_of_app. right. by apply list_elem_of_singleton.
      * destruct (Hq Hok q' Hin) as (socket & l' & Hl' & Hin'). exists socket.
        rewrite Hl'. cbn [calls set_calls]. rewrite cons_middle, app_assoc. eexists. split; [done|]. apply elem_of_app. by left.
  - intros [= <- <-]. split; [|done]. apply suffix_cons_r. done.
Qed.

Lemma calls_setup_rx d c pi p qs st r st' :
  setup_rx_queues d c pi p qs st = (r, st') -> calls st `suffix_of` calls st' /\
  (r = Some true -> forall q, q ∈ qs -> exists socket pool l, calls st' = l ++ calls st /\
    RxQueueSetup pi q (nb_rxd c) socket (rx_conf (pconf p)) pool ∈ l).
Proof.
  revert st. induction qs as [|q qs IH]; intros st; cbn [setup_rx_queues].
  { intros [= <- <-]. split; [done|]. intros _ q []%not_elem_of_nil. }
  destruct (_ && _ && _); [by intros [= <- <-]|].
  destruct (dpdk_do _ _ _) as [r1 st1] eqn:E. injection E as _ <-. destruct (r1 =? 0).
  - intros E. apply IH in E as [[l Hl] Hq]. cbn [calls set_calls] in Hl. split.
    + rewrite Hl, cons_middle, app_assoc. by eexists.
    + intros Hok q' [->|Hin]%elem_of_cons.
      * rewrite Hl, cons_middle, app_assoc. eexists _, _, _. split; [done|]. apply elem_of_app. right. by apply list_elem_of_singleton.
      * destruct (Hq Hok q' Hin) as (socket & pool & l' & Hl' & Hin'). exists socket, pool.
        rewrite Hl'. cbn [calls set_calls]. rewrite cons_middle, app_assoc. eexists. split; [done|]. apply elem_of_app. by left.
  - intros [= <- <-]. split; [|done]. apply suffix_cons_r. done.
Qed.

Lemma calls_configure_queues d c pi p st ok st' :
  configure_queues d c pi p st = (ok, st') -> calls st `suffix_of` calls st' /\
  (ok = true -> need_reconfig_queues p = true -> exists l, calls st' = l ++ calls st /\
    (forall q, 0 <= q < nb_txq c -> exists socket, TxQueueSetup pi q (nb_txd c) socket (tx_conf (pconf p)) ∈ l) /\
    (forall q, 0 <= q < nb_rxq c -> exists socket pool, RxQueueSetup pi q (nb_rxd c) socket (rx_conf (pconf p)) pool ∈ l)).
Proof.
  unfold configure_queues. destruct (need_reconfig_queues p); [|by intros [= <- <-]].
  assert (Hfail : forall s, calls (fail_queues pi s) = calls s).
  { intros s. unfold fail_queues. pose proof (calls_cmpset pi HANDLING STOPPED s) as Hc. by destruct (cmpset _ _ _ _). }
  destruct (setup_tx_queues _ _ _ _ _ _) as [[] st1] eqn:E1; apply calls_setup_tx in E1 as [[l1 Hl1] Htx];
    cbn [calls upd_port set_ports] in Hl1.
  2: { intros [= <- <-]. rewrite Hfail, Hl1. split; [by exists l1|done]. }
  destruct (setup_rx_queues _ _ _ _ _ _) as [r st2] eqn:E2. apply calls_setup_rx in E2 as [[l2 Hl2] Hrx].
  assert (Hs : calls st `suffix_of` calls st2) by (exists (l2 ++ l1); by rewrite Hl2, Hl1, app_assoc).
  destruct r as [[]|]; intros [= <- <-]; [|by rewrite Hfail|done]. split; [done|]. intros _ _.
  exists (l2 ++ l1). split; [by rewrite Hl2, Hl1, app_assoc|]. split; intros q Hq%elem_of_queues.
  - destruct (Htx eq_refl q Hq) as (socket & l & Hl & Hin). exists socket. apply elem_of_app. right.
    cbn [calls upd_port set_ports] in Hl. rewrite Hl1 in Hl. apply app_inv_tail in Hl. by rewrite Hl.
  - destruct (Hrx eq_refl q Hq) as (socket & pool & l & Hl & Hin). exists socket, pool. apply elem_of_app. left.
    rewrite Hl2 in Hl. apply app_inv_tail in Hl. by rewrite Hl.
Qed.

Lemma calls_configure_port d c pi p st ok st' :
  configure_port d c pi p st = (ok, st') -> calls st `suffix_of` calls st' /\
  (ok = true -> need_reconfig p = true -> calls st' = DevConfigure pi (nb_rxq c) (nb_txq c) (conf (pconf p)) :: calls st).
Proof.
  unfold configure_port. destruct (need_reconfig p); [|by intros [= <- <-]].
  destruct (dpdk_do _ _ _) as [r st1] eqn:E. injection E as _ <-. destruct (r =? 0).
  - intros [= <- <-]. split; [by apply suffix_cons_r|done].
  - set (s := set_calls _ _). pose proof (calls_cmpset pi HANDLING STOPPED s) as Hc.
    destruct (cmpset pi HANDLING STOPPED s) as [b s2]. intros [= <- <-]. split; [|done].
    cbn [calls upd_port set_ports snd] in *. rewrite Hc. by apply suffix_cons_r.
Qed.

Lemma calls_start_one d c pi st ok st' :
  start_one d c pi st = (ok, st') -> calls st `suffix_of` calls st' /\
  (ok = true -> forall p, zget (ports st) pi = Some p -> port_status p = STOPPED ->
    need_reconfig p = true -> need_reconfig_queues p = true ->
    exists l, calls st' = l ++ calls st /\ device_told c pi (pconf p) l).
Proof.
  unfold start_one. pose proof (calls_cmpset pi STOPPED HANDLING st) as H0.
  destruct (cmpset pi STOPPED HANDLING st) as [b st1] eqn:E0. cbn [snd] in H0. destruct b; cbn [negb].
  2: { intros [= <- <-]. rewrite H0. split; [done|]. intros _ p Hp Hs. exfalso. unfold cmpset in E0.
    rewrite Hp, decide_True in E0 by done. discriminate E0. }
  apply cmpset_true in E0 as [(q & Hq & Hqs) ->]. rewrite (zget_upd_same _ _ _ _ Hq).
  destruct (configure_port _ _ _ _ _) as [ok1 st2] eqn:E1. apply calls_configure_port in E1 as [[l1 Hl1] H1].
  rewrite H0 in Hl1, H1. destruct ok1; cbn [negb]; [|intros [= <- <-]; by split; [exists l1|]].
  destruct (configure_queues _ _ _ _ _) as [ok2 st3] eqn:E2. apply calls_configure_queues in E2 as [[l2 Hl2] H2].
  assert (H3 : calls st `suffix_of` calls st3) by (exists (l2 ++ l1); by rewrite Hl2, Hl1, app_assoc).
  destruct ok2; cbn [negb]; [|intros [= <- <-]; by split].
  unfold dpdk_do. set (k := DevStart pi). intros E.
  assert (E' : ok = true /\ calls st' = k :: calls st3).
  { destruct (_ <? 0); injection E as <- <-; by rewrite calls_cmpset. }
  destruct E' as [-> ->]. split; [destruct H3 as [l Hl]; exists (k :: l); by rewrite Hl|].
  intros _ p Hp Hs Hr Hrq. rewrite Hq in Hp. injection Hp as ->. cbn [with_status need_reconfig need_reconfig_queues pconf] in *.
  specialize (H1 eq_refl Hr). destruct (H2 eq_refl Hrq) as (l & Hl & Htx & Hrx). rewrite H1 in Hl.
  exists (k :: l ++ [DevConfigure pi (nb_rxq c) (nb_txq c) (conf (pconf p))]). split; [rewrite Hl; cbn [app]; by rewrite <- app_assoc|].
  constructor.
  - right. apply elem_of_app. right. by apply list_elem_of_singleton.
  - intros q' Hq'. destruct (Htx q' Hq') as (socket & Hin). exists socket. right. apply elem_of_app. by left.
  - intros q' Hq'. destruct (Hrx q' Hq') as (socket & pool & Hin). exists socket, pool. right. apply elem_of_app. by left.
Qed.

Lemma device_told_app c pi pc l1 l2 : device_told c pi pc l2 \/ device_told c pi pc l1 -> device_told c pi pc (l1 ++ l2).
Proof.
  intros [H|H]; destruct H as [H1 H2 H3]; (constructor; [apply elem_of_app; tauto|..]);
    intros q Hq; [destruct (H2 q Hq) as (so & ?); exists so|destruct (H3 q Hq) as (so & po & ?); exists so, po
                 |destruct (H2 q Hq) as (so & ?); exists so|destruct (H3 q Hq) as (so & po & ?); exists so, po];
    apply elem_of_app; tauto.
Qed.

Lemma calls_start_loop d c pids st ok st' :
  start_loop d c pids st = (ok, st') -> calls st `suffix_of` calls st' /\
  (ok = true -> NoDup pids -> forall pi p, pi ∈ pids -> zget (ports st) pi = Some p -> port_status p = STOPPED ->
    need_reconfig p = true -> need_reconfig_queues p = true ->
    exists l, calls st' = l ++ calls st /\ device_told c pi (pconf p) l).
Proof.
  revert st. induction pids as [|pj pids IH]; intros st; cbn [start_loop].
  { intros [= <- <-]. split; [done|]. intros _ _ pi p []%not_elem_of_nil. }
  pose proof (frame_start_one d c pj st) as Hfr.
  destruct (start_one d c pj st) as [ok1 st1] eqn:E1. apply calls_start_one in E1 as [[l1 Hl1] H1]. cbn [snd] in Hfr.
  destruct ok1; [|intros [= <- <-]; by split; [exists l1|]].
  intros E. apply IH in E as [[l2 Hl2] H2]. split; [exists (l2 ++ l1); by rewrite Hl2, Hl1, app_assoc|].
  intros Hok [Hpj Hnd]%NoDup_cons pi p [->|Hin]%elem_of_cons Hp Hs Hr Hrq.
  - destruct (H1 eq_refl p Hp Hs Hr Hrq) as (l & Hl & Ht). exists (l2 ++ l). split; [by rewrite Hl2, Hl, app_assoc|].
    apply device_told_app. by left.
  - assert (pi <> pj) by congruence. rewrite <- (Hfr pi) in Hp by done.
    destruct (H2 Hok Hnd pi p Hin Hp Hs Hr Hrq) as (l & Hl & Ht). exists (l ++ l1). split; [by rewrite Hl, Hl1, app_assoc|].
    apply device_told_app. by right.
Qed.

Lemma set_sockets_calls d c l st : calls (set_sockets d c l st).2 = calls st.
Proof.
  revert st. induction l as [|pi l IH]; intros st; cbn [set_sockets]; [done|].
  destruct (zget (ports st) pi) as [p|]; [|done]. destruct (_ <? _); [done|]. destruct (_ <? _); [done|].
  by rewrite IH.
Qed.

(** A start of ports that returns 0 tells the device of every stopped and
    marked port that it starts its configuration. *)
Lemma start_port_told d c pid st st' pi p :
  start_port d c pid st = (0, st') -> test_done st = true -> port_id_is_invalid pid st = false ->
  pid = pi \/ pid = RTE_PORT_ALL ->
  zget (ports st) pi = Some p -> enabled p = true -> port_status p = STOPPED ->
  need_reconfig p = true -> need_reconfig_queues p = true ->
  exists l, calls st' = l ++ calls st /\ device_told c pi (pconf p) l.
Proof.
  intros E Ht Hv Hpid Hp He Hs Hr Hrq. unfold start_port in E. rewrite Ht, Hv in E. cbn [negb] in E.
  pose proof (set_sockets_status d c (port_ids (ports st)) st pi p Hp) as [so Hso].
  pose proof (set_sockets_calls d c (port_ids (ports st)) st) as Hc.
  unfold init_fwd_streams in E. destruct (set_sockets d c _ st) as [[] st1]; cbn [snd] in *; [|done].
  set (st2 := if _ =? _ then _ else _) in E.
  destruct (st2) as [ok2 st2'] eqn:E2. assert (Hst2 : ok2 = true /\ ports st2' = ports st1 /\ calls st2' = calls st1).
  { unfold st2 in E2. destruct (_ =? _); injection E2 as <- <-; done. }
  destruct Hst2 as (-> & Hps & Hcs). cbn [negb] in E.
  set (st3 := if dcb_config st2' then _ else _) in E.
  assert (H3 : ports st3 = ports st1 /\ calls st3 = calls st1) by (unfold st3; destruct (dcb_config st2'); done).
  destruct H3 as [Hp3 Hc3]. destruct (start_loop _ _ _ _) as [ok st4] eqn:El. destruct ok; [|done].
  injection E as <-. apply calls_start_loop in El as [_ El]. rewrite Hc3, Hc in El.
  apply (El eq_refl) with (p := with_socket so p); rewrite ?Hp3; try done.
  - apply NoDup_filter, port_ids_nodup.
  - apply list_elem_of_filter. split; [done|]. apply elem_of_port_ids. by exists (with_socket so p).
Qed.

Lemma all_ports_stopped_spec st pi p :
  all_ports_stopped st = true -> zget (ports st) pi = Some p -> enabled p = true -> slave_flag p = false ->
  port_status p = STOPPED.
Proof.
  unfold all_ports_stopped. rewrite forallb_forall. intros H Hp He Hf. specialize (H pi). rewrite Hp, Hf in H.
  assert (Hin : In pi (port_ids (ports st))) by (apply list_elem_of_In, elem_of_port_ids; eauto).
  specialize (H Hin). by destruct (bool_decide_reflect (port_status p = STOPPED)).
Qed.

(** ** Properties *)

(** C17: a configuration command changes nothing while a port is not stopped,
    and nothing when it is refused.  After one that is accepted, a start of
    the ports that returns 0 gives the device of every enabled port that is
    no slave the configuration the variables then ask for: the numbers of
    queues, the receive mode and hash functions, and every queue with the
    number of descriptors and the thresholds. *)
Theorem config_reaches_devices d min_len max_len cmd s :
  let s' := run_config_cmd min_len max_len cmd s in
  match (if all_ports_stopped (port_state (gl s)) then values min_len max_len cmd (gl s) else None) with
  | None => s' = s
  | Some g =>
      let c := config_of g in
      forall pid st' pi p,
        zget (ports (port_state (gl s))) pi = Some p -> enabled p = true -> slave_flag p = false ->
        pid = pi \/ pid = RTE_PORT_ALL -> port_id_is_invalid pid (port_state (gl s')) = false ->
        test_done (port_state (gl s')) = true ->
        start_port d (config_of (gl s')) pid (port_state (gl s')) = (0, st') ->
        exists l, calls st' = l ++ calls (port_state (gl s')) /\
          device_told c pi (init_one_config (nb_rxq c) (g_rss_hf c) (g_rx_mode c) (g_vlan_filter c)
            (g_thresholds c) (info p) (pconf p)) l
  end.
Proof.
  cbv zeta. rewrite run_config_cmd_values. unfold config_all.
  destruct (all_ports_stopped (port_state (gl s))) eqn:Hst; cbn [negb]; [|done].
  destruct (values min_len max_len cmd (gl s)) as [g|] eqn:Hv; [|done]. cbn [gl].
  intros pid st' pi p Hp He Hf Hpid Hok Ht E.
  rewrite <- (values_port_state _ _ _ _ _ Hv) in Hp.
  destruct (reinit_port g pi p Hp He) as (p' & Hp' & Hc & Hr & Hrq & Hs & He' & Hi & _).
  rewrite (values_port_state _ _ _ _ _ Hv) in Hp. rewrite <- Hc.
  change (config_of (reinit g)) with (config_of g) in E.
  eapply start_port_told; [exact E|done..| |done|done]. rewrite Hs. by eapply all_ports_stopped_spec.
Qed.

(** The numbers of queues are never both 0. *)
Definition queues_ok (g : globals) : Prop := var g Var.nb_rxq <> 0 \/ var g Var.nb_txq <> 0.

Lemma set_var_queues v x g :
  queues_ok g -> v <> Var.nb_rxq -> v <> Var.nb_txq -> queues_ok (set_var v x g).
Proof. intros Hg H1 H2. unfold queues_ok. cbn [var set_var]. by rewrite !fn_lookup_insert_ne. Qed.

Lemma values_queues min_len max_len cmd g g' : queues_ok g -> values min_len max_len cmd g = Some g' -> queues_ok g'.
Proof.
  intros Hg. destruct cmd as [n v|n v|n v|n v|n v|n v]; cbn [values].
  - unfold rx_tx_value. destruct (bool_decide _); [|destruct (bool_decide _); [|name_cases; intros [= <-]; by apply set_var_queues]].
    1, 2: match goal with |- (if ?b && ?c then _ else _) = _ -> _ => destruct b eqn:E1, c eqn:E2 end; try done;
      intros [= <-]; unfold queues_ok; cbn [var set_var];
      rewrite fn_lookup_insert, fn_lookup_insert_ne by done; apply Z.eqb_neq in E1 || apply Z.eqb_neq in E2; tauto.
  - unfold max_pkt_len_value. name_cases. intros [= <-]. by repeat apply set_var_queues.
  - unfold rx_mode_flag_value. destruct (List.find _ _) as [[m vs]|] eqn:E; [|done]. destruct (on_off v) as [b|]; [|done].
    intros [= <-]. apply List.find_some in E as [E _].
    assert (Hvs : Forall (fun x => x <> Var.nb_rxq /\ x <> Var.nb_txq) vs).
    { assert (H : Forall (fun x => Forall (fun x => x <> Var.nb_rxq /\ x <> Var.nb_txq) x.2) rx_mode_flags).
      { apply (bool_decide_unpack _). vm_compute. exact I. }
      rewrite Forall_forall in H. apply (H _ (proj2 (list_elem_of_In _ _) E)). }
    clear E. revert g Hg. induction Hvs as [|x vs [H1 H2] Hvs IH]; intros g Hg; [done|]. cbn [foldl].
    by apply IH, set_var_queues.
  - unfold burst_value. name_cases. by intros [= <-].
  - unfold named_value. destruct (List.find _ _) as [[m x]|] eqn:E; [|done]. intros [= <-].
    apply List.find_some in E as [E _]. cbn [thresh_names In] in E. repeat destruct E as [E|E]; try done;
      injection E as <- <-; by apply set_var_queues.
  - unfold named_value. destruct (List.find _ _) as [[m x]|] eqn:E; [|done]. intros [= <-].
    apply List.find_some in E as [E _]. cbn [threshold_names In] in E. repeat destruct E as [E|E]; try done;
      injection E as <- <-; by apply set_var_queues.
Qed.

Lemma config_cmds_queues min_len max_len cmds s :
  queues_ok (gl s) -> queues_ok (gl (run_config_cmds min_len max_len cmds s)).
Proof.
  revert s. induction cmds as [|cmd cmds IH]; intros s Hs; [done|]. cbn. apply IH.
  rewrite run_config_cmd_values. unfold config_all. destruct (negb _); [done|].
  destruct (values _ _ _ _) as [g|] eqn:E; [|done]. by apply values_queues in E.
Qed.

(** ** Examples *)

Definition sample_cmds : cmd_state := CmdState sample_globals (replicate RTE_MAX_ETHPORTS ETH_LINK_SPEED_AUTONEG).

Lemma config_reaches_devices_witness :
  let s' := run_config_cmd 64 1518 (RxTx "rxq" 2) sample_cmds in
  exists l, calls (start_port sample_dpdk (config_of (gl s')) RTE_PORT_ALL (port_state (gl s'))).2 = l ++ [] /\
    exists e, DevConfigure 1 2 1 e ∈ l.
Proof.
  cbv zeta.
  pose proof (config_reaches_devices sample_dpdk 64 1518 (RxTx "rxq" 2) sample_cmds) as H. cbv zeta in H.
  destruct (start_port sample_dpdk _ RTE_PORT_ALL _) as [r st'] eqn:E.
  assert (Hr : r = 0) by (vm_compute in E; injection E as <- _; reflexivity). rewrite Hr in E.
  specialize (H RTE_PORT_ALL st' 1 (sample_port STOPPED) eq_refl eq_refl eq_refl (or_intror eq_refl) eq_refl eq_refl E).
  destruct H as (l & Hl & Ht). exists l. split; [exact Hl|]. eexists. exact (dt_configure _ _ _ _ Ht).
Defined.

(** A port command that is not checked: DCB for a port behind the array, and
    a speed for the number that stands for all ports. *)
Lemma unchecked_ports :
  cmd_config_dcb_parsed sample_dpdk 32 4 "on" "on" sample_cmds = Undefined /\
  cmd_config_speed_specific_parsed 255 "10" "full" sample_cmds = Undefined.
Proof. split; vm_compute; reflexivity. Qed.
