(* ===== verification/RssCmds.v ===== *)
(** * test-pmd: the commands for receive side scaling

    The hash functions, the hash key and the redirection table of a port
    (cmdline.c and config.c).  What the commands ask of DPDK is their result;
    what they print of a key and of a table is a text and a list. *)

From Stdlib Require Import Ascii.
From stdpp Require Import strings.
From S2P Require Import Prelude Cstr Packet PortConf PortState Params.

#[local] Open Scope Z_scope.
#[local] Open Scope list_scope.

(** ** Hash functions *)

(** The flags of DPDK for hash functions. *)
Inductive rss_type : Type :=
| ETH_RSS_IPV4 | ETH_RSS_FRAG_IPV4 | ETH_RSS_NONFRAG_IPV4_TCP | ETH_RSS_NONFRAG_IPV4_UDP
| ETH_RSS_NONFRAG_IPV4_SCTP | ETH_RSS_NONFRAG_IPV4_OTHER | ETH_RSS_IPV6 | ETH_RSS_FRAG_IPV6
| ETH_RSS_NONFRAG_IPV6_TCP | ETH_RSS_NONFRAG_IPV6_UDP | ETH_RSS_NONFRAG_IPV6_SCTP | ETH_RSS_NONFRAG_IPV6_OTHER
| ETH_RSS_L2_PAYLOAD | ETH_RSS_IPV6_EX | ETH_RSS_IPV6_TCP_EX | ETH_RSS_IPV6_UDP_EX
| ETH_RSS_IP | ETH_RSS_UDP | ETH_RSS_TCP | ETH_RSS_SCTP.

Definition rss_type_table : list (string * rss_type) := [
  ("ipv4", ETH_RSS_IPV4); ("ipv4-frag", ETH_RSS_FRAG_IPV4); ("ipv4-tcp", ETH_RSS_NONFRAG_IPV4_TCP);
  ("ipv4-udp", ETH_RSS_NONFRAG_IPV4_UDP); ("ipv4-sctp", ETH_RSS_NONFRAG_IPV4_SCTP);
  ("ipv4-other", ETH_RSS_NONFRAG_IPV4_OTHER); ("ipv6", ETH_RSS_IPV6); ("ipv6-frag", ETH_RSS_FRAG_IPV6);
  ("ipv6-tcp", ETH_RSS_NONFRAG_IPV6_TCP); ("ipv6-udp", ETH_RSS_NONFRAG_IPV6_UDP);
  ("ipv6-sctp", ETH_RSS_NONFRAG_IPV6_SCTP); ("ipv6-other", ETH_RSS_NONFRAG_IPV6_OTHER);
  ("l2-payload", ETH_RSS_L2_PAYLOAD); ("ipv6-ex", ETH_RSS_IPV6_EX); ("ipv6-tcp-ex", ETH_RSS_IPV6_TCP_EX);
  ("ipv6-udp-ex", ETH_RSS_IPV6_UDP_EX)
]%string.

(** [rte_eth_dev_rss_hash_update] for a port with hash functions and perhaps
    a key. *)
Record hash_update : Type := HashUpdate { hu_port : Z; hu_hf : Z; hu_key : option (list Z) }.

Section Hash.
Variable flag : rss_type -> Z.

Definition cmd_config_rss_parsed (rte_eth_dev_count : nat) (value : string) : list hash_update :=
  match
    (if bool_decide (value = "all"%string) then
       Some (Z.lor (flag ETH_RSS_IP) (Z.lor (flag ETH_RSS_TCP) (Z.lor (flag ETH_RSS_UDP)
         (Z.lor (flag ETH_RSS_SCTP) (flag ETH_RSS_L2_PAYLOAD)))))
     else if bool_decide (value = "ip"%string) then Some (flag ETH_RSS_IP)
     else if bool_decide (value = "udp"%string) then Some (flag ETH_RSS_UDP)
     else if bool_decide (value = "tcp"%string) then Some (flag ETH_RSS_TCP)
     else if bool_decide (value = "sctp"%string) then Some (flag ETH_RSS_SCTP)
     else if bool_decide (value = "ether"%string) then Some (flag ETH_RSS_L2_PAYLOAD)
     else if bool_decide (value = "none"%string) then Some 0
     else None)
  with
  | Some hf => (fun i => HashUpdate (Z.of_nat i) hf None) <$> seq 0 rte_eth_dev_count
  | None => []
  end.

(** The functions of a name: none when it is not in the table. *)
Definition rss_hf_of (name : string) : Z :=
  foldl (fun hf e => if bool_decide (e.1 = name) then flag e.2 else hf) 0 rss_type_table.

(** [conf_get] is what the device answers to the functions asked for: those
    in use, or an error. *)
Definition port_rss_hash_key_update (conf_get : Z -> Z -> option Z) (port_id : Z) (rss_type : string)
    (hash_key : list Z) : option hash_update :=
  hf ← conf_get port_id (rss_hf_of rss_type); Some (HashUpdate port_id hf (Some hash_key)).

(** The names [port_rss_hash_conf_show] prints for functions in use. *)
Definition rss_names (rss_hf : Z) : list string :=
  fst <$> filter (fun e => Z.land rss_hf (flag e.2) <> 0) rss_type_table.

(** What [port_rss_hash_conf_show] prints. *)
Inductive rss_display : Type :=
| RssNothing | RssFailed | RssDisabled | RssFunctions (names : list string) (rss_key : option (list Z)).

(** [conf_get] is the answer of the device to the functions asked for: the
    functions in use and what is then in the buffer for the key. *)
Definition port_rss_hash_conf_show (st : pstate) (conf_get : Z -> Z -> option (Z * list Z)) (port_id : Z)
    (rss_info : string) (show_rss_key : bool) : rss_display :=
  if port_id_is_invalid port_id st then RssNothing
  else
    match conf_get port_id (rss_hf_of rss_info) with
    | None => RssFailed
    | Some (rss_hf, rss_key) =>
        if rss_hf =? 0 then RssDisabled
        else RssFunctions (rss_names rss_hf) (if show_rss_key then Some rss_key else None)
    end.
End Hash.

(** ** The hash key *)

Definition RSS_HASH_KEY_LENGTH : nat := 40.

Definition hexa_digit_to_value (hexa_digit : ascii) : Z :=
  let c := ascii_code hexa_digit in
  if (48 <=? c) && (c <=? 57) then u8 (c - 48)
  else if (97 <=? c) && (c <=? 102) then u8 (c - 97 + 10)
  else if (65 <=? c) && (c <=? 70) then u8 (c - 65 + 10)
  else 255.

(** Reading [n] bytes from the position [i] on; the text is long enough. *)
Fixpoint key_bytes (n : nat) (key : list ascii) (i : nat) : outcome (option (list Z)) :=
  match n with
  | O => Done (Some [])
  | S n =>
      c0 ← of_opt (key !! (i * 2)%nat);
      let xdgt0 := hexa_digit_to_value c0 in
      if xdgt0 =? 255 then Done None
      else
        c1 ← of_opt (key !! (i * 2 + 1)%nat);
        let xdgt1 := hexa_digit_to_value c1 in
        if xdgt1 =? 255 then Done None
        else l ← key_bytes n key (S i); Done (option_map (cons (u8 (xdgt0 * 16 + xdgt1))) l)
  end.

Definition parse_hash_key (key : string) : outcome (option (list Z)) :=
  if negb (String.length key =? RSS_HASH_KEY_LENGTH * 2)%nat then Done None
  else key_bytes RSS_HASH_KEY_LENGTH (String.list_ascii_of_string key) 0.

Definition cmd_config_rss_hash_key_parsed (flag : rss_type -> Z) (conf_get : Z -> Z -> option Z) (port_id : Z)
    (rss_type key : string) : outcome (option hash_update) :=
  r ← parse_hash_key key;
  Done (hash_key ← r; port_rss_hash_key_update flag conf_get port_id rss_type hash_key).

(** A byte as [printf] writes it with "%02X", and the text of a key. *)
Definition upper_digit (x : Z) : ascii := ascii_of_nat (Z.to_nat (if x <? 10 then 48 + x else 55 + x)).
Definition show_byte (b : Z) : list ascii := [upper_digit (b / 16); upper_digit (b mod 16)].
Definition show_key (key : list Z) : string := String.string_of_list_ascii (key ≫= show_byte).

(** ** The redirection table *)

Definition RTE_RETA_GROUP_SIZE : Z := 64.
Definition ETH_RSS_RETA_SIZE_512 : Z := 512.

(** [struct rte_eth_rss_reta_entry64]: a group of the table. *)
Record reta_group : Type := RetaGroup { rg_mask : Z; rg_reta : list Z }.

Definition no_group : reta_group := RetaGroup 0 (replicate 64 0).

Definition reta_entry (nb_entries : Z) (int_fld : list Z) (reta_conf : list reta_group)
    : outcome (bool * list reta_group) :=
  match int_fld with
  | [f0; f1] =>
      let hash_index := u16 f0 in
      let nb_queue := u16 f1 in
      if nb_entries <=? hash_index then Done (false, reta_conf)
      else
        let idx := hash_index / RTE_RETA_GROUP_SIZE in
        let shift := hash_index mod RTE_RETA_GROUP_SIZE in
        g ← of_opt (zget reta_conf idx);
        reta ← of_opt (zset (rg_reta g) shift nb_queue);
        reta_conf ← of_opt (zset reta_conf idx (RetaGroup (Z.lor (rg_mask g) (u64 (Z.shiftl 1 shift))) reta));
        Done (true, reta_conf)
  | _ => Undefined
  end.

Section Reta.
Context `{DpdkText}.

Definition parse_reta_config (nb_entries : Z) (str : string) (reta_conf : list reta_group)
    : outcome (bool * list reta_group) :=
  tuples 2 65535 (reta_entry nb_entries) str reta_conf.

(** The groups given to [rte_eth_dev_rss_reta_update], if it is called. *)
Definition cmd_set_rss_reta_parsed (reta_size : Z) (list_name list_of_items : string)
    : outcome (option (list reta_group)) :=
  if reta_size =? 0 then Done None
  else if ETH_RSS_RETA_SIZE_512 <? reta_size then Done None
  else if bool_decide (list_name = "reta"%string) then
    '(ok, conf) ← parse_reta_config reta_size list_of_items (replicate 8 no_group);
    Done (if ok : bool then Some conf else None)
  else Done None.

(** The masks of the groups to show, and the groups; [num] of them. *)
Definition showport_parse_reta_config (nb_entries : Z) (str : string) (conf : list reta_group)
    : outcome (option (list reta_group)) :=
  let num := Z.to_nat (nb_entries / RTE_RETA_GROUP_SIZE) in
  match strchr "(" str with
  | Some (_, String _ p) =>
      match strchr ")" p with
      | None => Done None
      | Some (s, _) =>
          if (256 <=? String.length s)%nat then Done None
          else
            let str_fld := rte_strsplit s num "," in
            if (length str_fld =? 0)%nat || negb (length str_fld =? num)%nat then Done None
            else
              _ ← c_defined (num <=? length conf)%nat;
              Done (Some (zip_with (fun g f => RetaGroup (strtoul 0 f).1.1.1 (rg_reta g)) (take num conf) str_fld ++
                          drop num conf))
      end
  | _ => Done None
  end.

Definition cmd_showport_reta_parsed (reta_size size : Z) (list_of_items : string) : outcome (option (list reta_group)) :=
  if (reta_size =? 0) || negb (size =? reta_size) || (ETH_RSS_RETA_SIZE_512 <? size) then Done None
  else showport_parse_reta_config size list_of_items (replicate 8 no_group).

(** The lines [port_rss_reta_info] prints for the entries from [i] on: the
    index and the queue of every entry whose bit is in the mask. *)
Fixpoint reta_lines (n : nat) (i : Z) (reta_conf : list reta_group) : outcome (list (Z * Z)) :=
  match n with
  | O => Done []
  | S n =>
      g ← of_opt (zget reta_conf (i / RTE_RETA_GROUP_SIZE));
      let shift := i mod RTE_RETA_GROUP_SIZE in
      if Z.land (rg_mask g) (u64 (Z.shiftl 1 shift)) =? 0 then reta_lines n (i + 1) reta_conf
      else
        q ← of_opt (zget (rg_reta g) shift);
        l ← reta_lines n (i + 1) reta_conf; Done ((i, q) :: l)
  end.

(** [query] fills in the queues of the groups, or fails. *)
Definition port_rss_reta_info (st : pstate) (query : Z -> list reta_group -> option (list reta_group)) (port_id : Z)
    (reta_conf : list reta_group) (nb_entries : Z) : outcome (list (Z * Z)) :=
  if port_id_is_invalid port_id st then Done []
  else
    match query port_id reta_conf with
    | None => Done []
    | Some conf => reta_lines (Z.to_nat nb_entries) 0 conf
    end.
End Reta.

(** ** Specification *)

(** What a group says of an entry of the table: whether it is meant and its
    queue. *)
Definition entry_of (conf : list reta_group) (i : nat) : option (bool * Z) :=
  g ← conf !! (i / 64)%nat; q ← rg_reta g !! (i mod 64)%nat; Some (Z.testbit (rg_mask g) (Z.of_nat (i mod 64)), q).

(** The queue of an entry after the pairs of index and queue. *)
Definition entry_after (es : list (Z * Z)) (i : nat) (old : bool * Z) : bool * Z :=
  foldl (fun r e => if e.1 =? Z.of_nat i then (true, e.2) else r) old es.

Definition pair_fields (e : Z * Z) : list Z := [e.1; e.2].

Definition reta_ok (conf : list reta_group) : Prop :=
  length conf = 8%nat /\ Forall (fun g => length (rg_reta g) = 64%nat) conf.

(** ** Lemmas: keys *)

Lemma upper_digit_value x : 0 <= x < 16 -> hexa_digit_to_value (upper_digit x) = x.
Proof.
  intros Hx. assert (H : Forall (fun x => hexa_digit_to_value (upper_digit x) = x) (seqZ 0 16)).
  { apply (bool_decide_unpack _). vm_compute. exact I. }
  rewrite Forall_forall in H. apply H, elem_of_seqZ. lia.
Qed.

(** A hexadecimal digit in upper case. *)
Definition upper (c : ascii) : ascii :=
  if (97 <=? ascii_code c) && (ascii_code c <=? 102) then ascii_of_nat (Z.to_nat (ascii_code c - 32)) else c.

Definition hexa (c : ascii) : Prop := hexa_digit_to_value c <> 255.

#[export] Instance hexa_dec c : Decision (hexa c).
Proof. unfold hexa. apply _. Defined.

Lemma hexa_upper c : hexa c -> 0 <= hexa_digit_to_value c < 16 /\ upper_digit (hexa_digit_to_value c) = upper c.
Proof.
  unfold hexa. destruct c as [[] [] [] [] [] [] [] []]; vm_compute; intros H; try (by destruct H);
    (split; [split; [discriminate|reflexivity]|reflexivity]).
Qed.

(** What [key_bytes] reads: two digits for a byte. *)
Lemma key_bytes_spec n key i :
  length (drop (i * 2) key) = (2 * n)%nat ->
  exists r, key_bytes n key i = Done r /\
    (r = None <-> ~ Forall hexa (drop (i * 2) key)) /\
    forall l, r = Some l -> length l = n /\ Forall (fun b => 0 <= b < 256) l /\
      (l ≫= show_byte) = upper <$> drop (i * 2) key.
Proof.
  revert i. induction n as [|n IH]; intros i Hl; cbn [key_bytes].
  { apply nil_length_inv in Hl. rewrite Hl. exists (Some []). split; [done|]. split.
    - split; [done|]. intros H. destruct H. constructor.
    - intros l [= <-]. by split_and!. }
  destruct (drop (i * 2) key) as [|c0 [|c1 rest]] eqn:E; cbn [length] in Hl; [lia..|].
  assert (H0 : key !! (i * 2)%nat = Some c0) by (rewrite <- (Nat.add_0_r (i * 2)), <- lookup_drop, E; done).
  assert (H1 : key !! (i * 2 + 1)%nat = Some c1) by (rewrite <- lookup_drop, E; done).
  assert (Hr : drop (S i * 2) key = rest).
  { replace (S i * 2)%nat with (i * 2 + 2)%nat by lia. by rewrite <- drop_drop, E. }
  rewrite H0, H1. cbn [of_opt mbind outcome_bind].
  destruct (Z.eqb_spec (hexa_digit_to_value c0) 255) as [E0|E0].
  { exists None. split; [done|]. split; [|done]. split; [|done]. intros _ [? _]%Forall_cons. done. }
  destruct (Z.eqb_spec (hexa_digit_to_value c1) 255) as [E1|E1].
  { exists None. split; [done|]. split; [|done]. split; [|done]. intros _ (_ & [? _]%Forall_cons)%Forall_cons. done. }
  destruct (IH (S i)) as (r & Hk & Hn & Hs); [rewrite Hr; lia|]. rewrite Hr in Hn, Hs. rewrite Hk. cbn [mbind outcome_bind].
  eexists. split; [done|]. split.
  - rewrite !Forall_cons. destruct r as [l|]; cbn [option_map].
    + split; [done|]. intros H. exfalso. apply H. split; [done|]. split; [done|].
      destruct (decide (Forall hexa rest)) as [|Hf]; [done|]. apply Hn in Hf. done.
    + split; [|done]. intros _ (_ & _ & H). by apply Hn.
  - intros l El. destruct r as [l'|]; cbn [option_map] in El; [|done]. injection El as <-.
    destruct (Hs l' eq_refl) as (Hl' & Hb & Hsh). apply hexa_upper in E0 as [V0 U0], E1 as [V1 U1].
    rewrite u8_small by lia. split; [cbn; lia|]. split; [by constructor; [lia|]|].
    cbn [mbind list_bind fmap list_fmap]. fold (l' ≫= show_byte). rewrite Hsh. unfold show_byte.
    rewrite Z.div_add_l, Z.div_small, Z.add_0_r by lia.
    rewrite Z.add_comm, Z_mod_plus_full, Z.mod_small by lia. by rewrite U0, U1.
Qed.

Lemma show_byte_hexa b : 0 <= b < 256 -> Forall hexa (show_byte b) /\ (upper <$> show_byte b) = show_byte b.
Proof.
  intros Hb. pose proof (Z.mod_pos_bound b 16 ltac:(lia)). assert (0 <= b / 16 < 16).
  { split; [apply Z.div_pos; lia|apply Z.div_lt_upper_bound; lia]. }
  assert (Hd : forall x, 0 <= x < 16 -> hexa (upper_digit x) /\ upper (upper_digit x) = upper_digit x).
  { intros x Hx. assert (H' : Forall (fun x => hexa (upper_digit x) /\ upper (upper_digit x) = upper_digit x) (seqZ 0 16)).
    { apply (bool_decide_unpack _). vm_compute. exact I. }
    rewrite Forall_forall in H'. apply H', elem_of_seqZ. lia. }
  unfold show_byte. cbn [fmap list_fmap]. destruct (Hd _ H) as [H1 ->], (Hd _ H0) as [H2 ->].
  split; [|done]. by repeat constructor.
Qed.

Lemma show_byte_inj a b : 0 <= a < 256 -> 0 <= b < 256 -> show_byte a = show_byte b -> a = b.
Proof.
  intros Ha Hb [= H1 H2].
  pose proof (Z.mod_pos_bound a 16 ltac:(lia)). pose proof (Z.mod_pos_bound b 16 ltac:(lia)).
  assert (Hdiv : forall x, 0 <= x < 256 -> 0 <= x / 16 < 16).
  { intros x Hx. split; [apply Z.div_pos; lia|apply Z.div_lt_upper_bound; lia]. }
  apply (f_equal hexa_digit_to_value) in H1, H2. rewrite !upper_digit_value in H1, H2 by auto.
  rewrite (Z_div_mod_eq_full a 16), (Z_div_mod_eq_full b 16). congruence.
Qed.

Lemma show_bytes_length l : length (l ≫= show_byte) = (2 * length l)%nat.
Proof.
  induction l as [|b l IH]; [done|]. cbn [mbind list_bind]. fold (l ≫= show_byte). rewrite length_app, IH.
  cbn [show_byte length]. lia.
Qed.

Lemma show_bytes_hexa l :
  Forall (fun b => 0 <= b < 256) l -> Forall hexa (l ≫= show_byte) /\ (upper <$> (l ≫= show_byte)) = l ≫= show_byte.
Proof.
  induction 1 as [|b l Hb Hl [IH1 IH2]]; [by split|]. cbn [mbind list_bind]. fold (l ≫= show_byte).
  destruct (show_byte_hexa b Hb) as [H1 H2]. split; [by apply Forall_app|]. by rewrite fmap_app, H2, IH2.
Qed.

Lemma show_bytes_inj l1 l2 :
  length l1 = length l2 -> Forall (fun b => 0 <= b < 256) l1 -> Forall (fun b => 0 <= b < 256) l2 ->
  (l1 ≫= show_byte) = (l2 ≫= show_byte) -> l1 = l2.
Proof.
  revert l2. induction l1 as [|a l1 IH]; intros [|b l2] Hl H1 H2 E; try done.
  apply Forall_cons in H1 as [Ha H1], H2 as [Hb H2]. cbn [mbind list_bind] in E.
  apply app_inj_1 in E as [E1 E2]; [|done]. f_equal; [by apply show_byte_inj|]. apply IH; [|done..]. cbn in Hl. lia.
Qed.

(** ** Lemmas: the redirection table *)

Lemma entry_of_lookup conf i :
  reta_ok conf -> (i < 512)%nat -> exists g q, conf !! (i / 64)%nat = Some g /\ rg_reta g !! (i mod 64)%nat = Some q.
Proof.
  intros [Hl Hg] Hi. assert (Hd : (i / 64 < 8)%nat) by (apply Nat.Div0.div_lt_upper_bound; lia).
  destruct (lookup_lt_is_Some_2 conf (i / 64)) as [g Eg]; [lia|]. exists g.
  rewrite Forall_lookup in Hg. specialize (Hg _ _ Eg).
  destruct (lookup_lt_is_Some_2 (rg_reta g) (i mod 64)) as [q Eq]; [rewrite Hg; by apply Nat.mod_upper_bound|]. eauto.
Qed.

(** Storing one pair. *)
Lemma reta_entry_spec size e conf :
  reta_ok conf -> size <= 512 -> upto 65535 e.1 -> upto 65535 e.2 -> e.1 < size ->
  exists conf', reta_entry size (pair_fields e) conf = Done (true, conf') /\ reta_ok conf' /\
    forall i, (i < 512)%nat -> entry_of conf' i = entry_after [e] i <$> entry_of conf i.
Proof.
  destruct e as [h q]. cbn [fst snd]. unfold upto. intros Hok Hsize Hh Hq Hlt.
  unfold reta_entry, pair_fields. cbn [fst snd]. cbv zeta. rewrite !u16_small by lia.
  destruct (Z.leb_spec size h); [lia|]. set (k := Z.to_nat h).
  assert (Hk : h = Z.of_nat k) by (unfold k; lia). clearbody k. assert (Hk512 : (k < 512)%nat) by lia.
  destruct (entry_of_lookup conf k Hok Hk512) as (g & q0 & Eg & Eq). unfold RTE_RETA_GROUP_SIZE.
  rewrite Hk. change 64 with (Z.of_nat 64). rewrite <- Nat2Z.inj_div, <- Nat2Z.inj_mod.
  assert (Z1 : zget conf (Z.of_nat (k / 64)) = Some g) by (apply zget_Some; rewrite Nat2Z.id; split; [lia|done]).
  rewrite Z1. cbn [of_opt mbind outcome_bind]. destruct Hok as [Hl Hg].
  pose proof (proj1 (Forall_lookup _ _) Hg _ _ Eg) as Hgl. pose proof (Nat.mod_upper_bound k 64 ltac:(lia)) as Hm.
  pose proof (lookup_lt_Some _ _ _ Eg) as Hd.
  cbv beta in Hgl. rewrite !zset_insert by lia. cbn [of_opt mbind outcome_bind]. rewrite zset_insert by lia.
  cbn [of_opt mbind outcome_bind]. rewrite !Nat2Z.id. eexists. split; [done|]. split.
  { split; [by rewrite length_insert|]. apply Forall_insert; [done|]. cbn. by rewrite length_insert. }
  intros i Hi. unfold entry_of, entry_after. cbn [foldl fst snd].
  destruct (Z.eqb_spec (Z.of_nat k) (Z.of_nat i)) as [Hki|Hki].
  - apply Nat2Z.inj in Hki as <-. rewrite list_lookup_insert_eq by lia. rewrite Eg. cbn [mbind option_bind rg_reta rg_mask].
    rewrite list_lookup_insert_eq by lia. rewrite Eq. cbn [mbind option_bind]. cbn [fmap option_fmap option_map].
    do 2 f_equal. rewrite Z.lor_spec, Z.shiftl_1_l, u64_small.
    + by rewrite Z.pow2_bits_true, orb_true_r by lia.
    + pose proof (Z.pow_lt_mono_r 2 (Z.of_nat (k mod 64)) 64 ltac:(lia) ltac:(lia) ltac:(lia)). lia.
  - assert (Hki' : k <> i) by lia. destruct (decide (i / 64 = k / 64)%nat) as [Hdi|Hdi].
    + assert (Hmi : (i mod 64 <> k mod 64)%nat).
      { intros Hmm. apply Hki'. rewrite (Nat.div_mod_eq k 64), (Nat.div_mod_eq i 64), Hmm, Hdi. done. }
      rewrite Hdi, list_lookup_insert_eq, Eg by lia. cbn [mbind option_bind rg_reta rg_mask].
      rewrite list_lookup_insert_ne by done. destruct (rg_reta g !! (i mod 64)%nat) as [qi|]; [|done].
      cbn [mbind option_bind fmap option_fmap option_map]. do 2 f_equal.
      rewrite Z.lor_spec, Z.shiftl_1_l, u64_small, Z.pow2_bits_false.
      * by rewrite orb_false_r.
      * intros ?%Nat2Z.inj. congruence.
      * pose proof (Z.pow_lt_mono_r 2 (Z.of_nat (k mod 64)) 64 ltac:(lia) ltac:(lia) ltac:(lia)). lia.
    + rewrite list_lookup_insert_ne by done. destruct (conf !! (i / 64)%nat) as [gi|]; [|done]. cbn [mbind option_bind].
      by destruct (rg_reta gi !! (i mod 64)%nat).
Qed.

Lemma store_reta size es conf :
  reta_ok conf -> size <= 512 -> Forall (fun e => upto 65535 e.1 /\ upto 65535 e.2) es ->
  exists ok conf', store_tuples (reta_entry size) (pair_fields <$> es) conf = Done (ok, conf') /\
    (ok = true <-> Forall (fun e => e.1 < size) es) /\
    (ok = true -> forall i, (i < 512)%nat -> entry_of conf' i = entry_after es i <$> entry_of conf i).
Proof.
  intros Hok Hsize Hes. revert conf Hok. induction Hes as [|e es [H1 H2] Hes IH]; intros conf Hok; cbn [fmap list_fmap store_tuples].
  { exists true, conf. split; [done|]. split; [by split|]. intros _ i Hi. unfold entry_after. cbn. by destruct (entry_of conf i). }
  destruct (decide (e.1 < size)) as [Hlt|Hge].
  - destruct (reta_entry_spec size e conf) as (conf1 & E1 & Hok1 & Hen); [done..|]. rewrite E1. cbn [mbind outcome_bind].
    destruct (IH conf1 Hok1) as (ok & conf' & E & Hiff & Hen'). exists ok, conf'. split; [done|]. split.
    + rewrite Hiff, Forall_cons. tauto.
    + intros Ht i Hi. rewrite (Hen' Ht i Hi), (Hen i Hi). by destruct (entry_of conf i).
  - exists false, conf. split; [|split; [|done]].
    + unfold reta_entry, pair_fields. cbv zeta. unfold upto in H1. rewrite !u16_small by lia.
      destruct (Z.leb_spec size e.1); [done|lia].
    + rewrite Forall_cons. split; [done|]. intros [? _]. lia.
Qed.

Lemma no_groups_ok : reta_ok (replicate 8 no_group).
Proof. split; [done|]. by apply Forall_replicate. Qed.

(** ** Properties *)

(** A text is taken for a hash key exactly if it has 80 hexadecimal
    digits; the key shown again is the text in upper case, and the text
    shown for any key of 40 bytes is read as that key. *)
Theorem hash_key_roundtrip :
  (forall text, exists r, parse_hash_key text = Done r /\
    (r <> None <-> String.length text = 80%nat /\ Forall hexa (String.list_ascii_of_string text)) /\
    forall key, r = Some key ->
      String.list_ascii_of_string (show_key key) = upper <$> String.list_ascii_of_string text) /\
  forall key, length key = 40%nat -> Forall (fun b => 0 <= b < 256) key -> parse_hash_key (show_key key) = Done (Some key).
Proof.
  assert (Hlen : forall s, length (String.list_ascii_of_string s) = String.length s)
    by (intros s; induction s as [|c s IH]; cbn; congruence).
  assert (H : forall text, String.length text = 80%nat ->
    exists r, parse_hash_key text = Done r /\ (r = None <-> ~ Forall hexa (String.list_ascii_of_string text)) /\
      forall key, r = Some key -> length key = 40%nat /\ Forall (fun b => 0 <= b < 256) key /\
        (key ≫= show_byte) = upper <$> String.list_ascii_of_string text).
  { intros text Hl. unfold parse_hash_key. rewrite Hl. cbn [Nat.eqb RSS_HASH_KEY_LENGTH Nat.mul Nat.add negb].
    destruct (key_bytes_spec RSS_HASH_KEY_LENGTH (String.list_ascii_of_string text) 0) as (r & E & Hn & Hs).
    { cbn [Nat.mul]. rewrite drop_0, Hlen, Hl. done. }
    exists r. cbn [Nat.mul] in Hn, Hs. rewrite drop_0 in Hn, Hs. by split_and!. }
  split.
  - intros text. destruct (decide (String.length text = 80)%nat) as [Hl|Hl].
    + destruct (H text Hl) as (r & E & Hn & Hs). exists r. split; [done|]. split.
      * rewrite Hn. destruct (decide (Forall hexa (String.list_ascii_of_string text))); tauto.
      * intros key Hk. unfold show_key. rewrite String.list_ascii_of_string_of_list_ascii. by apply Hs.
    + exists None. split; [|by split; [split; [done|intros [? _]]|]].
      unfold parse_hash_key. apply Nat.eqb_neq in Hl. cbn [RSS_HASH_KEY_LENGTH Nat.mul Nat.add]. by rewrite Hl.
  - intros key Hk Hb. destruct (show_bytes_hexa key Hb) as [Hh Hu].
    assert (Ht : String.list_ascii_of_string (show_key key) = key ≫= show_byte)
      by apply String.list_ascii_of_string_of_list_ascii.
    destruct (H (show_key key)) as (r & E & Hn & Hs); [rewrite <- Hlen, Ht, show_bytes_length; lia|].
    rewrite Ht in Hn, Hs. rewrite E. destruct r as [key'|]; [|by destruct (proj1 Hn eq_refl)].
    destruct (Hs key' eq_refl) as (Hl' & Hb' & Hsh). rewrite Hu in Hsh. do 2 f_equal.
    apply show_bytes_inj; [congruence|done..].
Qed.

(** For a table of at most 512 entries a list of pairs of index and queue
    is accepted exactly if every index is in the table, and the update asks
    for each entry that is in the list the last queue written for it, and
    for no other entry. *)
Theorem reta_update_asks `{DpdkTextDoc} size es
    (Hsize : 0 < size <= 512) (Hes : Forall (fun e => upto 65535 e.1 /\ upto 65535 e.2) es) :
  exists r, cmd_set_rss_reta_parsed size "reta" (tuples_text (pair_fields <$> es)) = Done r /\
    (r <> None <-> Forall (fun e => e.1 < size) es) /\
    forall conf, r = Some conf -> forall i, (i < 512)%nat -> entry_of conf i = Some (entry_after es i (false, 0)).
Proof.
  unfold cmd_set_rss_reta_parsed. destruct (Z.eqb_spec size 0); [lia|].
  destruct (Z.ltb_spec ETH_RSS_RETA_SIZE_512 size); [unfold ETH_RSS_RETA_SIZE_512 in *; lia|].
  rewrite bool_decide_true by done. unfold parse_reta_config. rewrite tuples_read.
  - destruct (store_reta size es (replicate 8 no_group) no_groups_ok ltac:(lia) Hes) as (ok & conf & E & Hiff & Hen).
    rewrite E. cbn [mbind outcome_bind]. eexists. split; [done|]. destruct ok.
    + split; [rewrite <- Hiff; by split|]. intros conf' [= <-] i Hi. rewrite (Hen eq_refl i Hi).
      destruct (entry_of_lookup (replicate 8 no_group) i no_groups_ok Hi) as (g & q & Eg & Eq).
      unfold entry_of. rewrite Eg. cbn [mbind option_bind]. rewrite Eq. cbn [mbind option_bind].
      apply lookup_replicate_1 in Eg as [-> _]. apply lookup_replicate_1 in Eq as [-> _].
      cbn [no_group rg_mask]. by rewrite Z.bits_0.
    + split; [rewrite <- Hiff; by split|done].
  - lia.
  - lia.
  - apply Forall_fmap. eapply Forall_impl; [exact Hes|]. intros e [He1 He2]. split; [done|].
    apply Forall_cons. split; [done|]. by apply Forall_singleton.
Qed.

(** ** Examples *)

Lemma hash_key_roundtrip_witness :
  parse_hash_key (show_key (replicate 40 171)) = Done (Some (replicate 40 171)) /\
  show_key (replicate 2 171) = "ABAB"%string.
Proof.
  split; [|reflexivity]. apply (proj2 hash_key_roundtrip); [reflexivity|].
  apply (bool_decide_unpack _). vm_compute. exact I.
Defined.

Lemma reta_update_asks_witness :
  exists conf, cmd_set_rss_reta_parsed 128 "reta" "(0,3),(65,1),(0,2)" = Done (Some conf) /\
    entry_of conf 0 = Some (true, 2) /\ entry_of conf 65 = Some (true, 1) /\ entry_of conf 1 = Some (false, 0).
Proof.
  destruct (reta_update_asks 128 [(0, 3); (65, 1); (0, 2)]) as (r & E & Hiff & Hen); [lia| |].
  { apply (bool_decide_unpack _). vm_compute. exact I. }
  destruct r as [conf|].
  - exists conf. split; [exact E|]. rewrite !(Hen conf eq_refl) by (apply Nat.ltb_lt; reflexivity).
    split_and!; reflexivity.
  - exfalso. apply Hiff; [|done]. apply (bool_decide_unpack _). vm_compute. exact I.
Defined.

(** Showing a table of 128 entries needs two masks. *)
Lemma show_two_masks :
  exists conf, cmd_showport_reta_parsed 128 128 "(0x5,1)" = Done (Some conf) /\
    port_rss_reta_info sample_state (fun _ c => Some c) 0 conf 128 = Done [(0, 0); (2, 0); (64, 0)] /\
    cmd_showport_reta_parsed 128 128 "(0x5)" = Done None.
Proof. eexists. split; [vm_compute; reflexivity|]. split; vm_compute; reflexivity. Qed.
