(* ===== verification/StartUp.v ===== *)
(** * test-pmd/testpmd.c: start-up

    [main] up to the first command: the ports and cores DPDK found, the
    options, [init_config] with the pools of packet buffers, and the first
    start of the ports.  [rte_exit] and [rte_panic] are [Aborted]; memory
    other than the pools is taken to be available.  The check of the links
    that follows a start is a function of what the devices answer. *)

From Stdlib Require Import Ascii.
From stdpp Require Import strings functions.
From S2P Require Import Prelude Cstr Packet PortConf PortState FwdConfig CoreConf FwdSettings SetCmds Params LaunchArgs PortCmds.

#[local] Open Scope Z_scope.
#[local] Open Scope list_scope.

(** ** Data *)

(** A pool of packet buffers, as it is asked for: its socket, the number and
    size of its buffers, the cache, and whether its memory is anonymous. *)
Record pool : Type := Pool { pl_socket : Z; pl_nb : Z; pl_seg_size : Z; pl_cache : Z; pl_anon : bool }.

Definition mbuf_pool_find (pools : list pool) (socket : Z) : bool :=
  existsb (fun p => pl_socket p =? socket) pools.

(** DPDK once the pools have been created. *)
Definition with_pools (pools : list pool) (d : dpdk) : dpdk :=
  Dpdk (diag d) (attached_port d) (dev_count d) (dev_socket_id d) (dev_info_get d) (mbuf_pool_find pools).

(** The program when start-up has ended: its variables, the pools, for each
    forwarding core the socket of the pool it takes buffers from, whether it
    forwards already and whether it reads commands. *)
Record started : Type := Started {
  su_globals : globals;
  su_pools : list pool;
  su_lcore_pools : list (option Z);
  su_forwarding : bool;
  su_prompt : bool;
}.

Section StartUp.
Context `{DpdkText}.
Variables (STR_TOKEN_SIZE : nat) (RTE_MEMPOOL_CACHE_MAX_SIZE : Z) (en : Z -> bool) (master : Z)
  (ETH_RSS_IP ETH_RSS_UDP ETHER_MIN_LEN ETHER_MAX_LEN RTE_MBUF_DEFAULT_BUF_SIZE : Z) (fopen : string -> option string).
(** The socket of a core, the devices, and whether a pool can be created. *)
Variables (rte_lcore_to_socket_id : Z -> Z) (d : dpdk) (create : pool -> bool).

(** ** The variables before the options *)

Definition initial_pkts : pkt_conf :=
  PktConf 1 RTE_MBUF_DEFAULT_BUF_SIZE 14 (14 :: replicate 254 0) 1 TX_PKT_SPLIT_OFF.

(** A port cleared by [rte_zmalloc]. *)
Definition zero_port : rte_port :=
  RtePort false STOPPED false false 0 false
    (DevInfo 0 0 0 0 (RxConf 0 0 0 0 0) (TxConf 0 0 0 0 0 0))
    (PortConf zero_conf (RxConf 0 0 0 0 0) (TxConf 0 0 0 0 0 0) false).

(** [init_port]: the ports, of which the first [nb_ports] are enabled. *)
Definition init_port (nb_ports : Z) : outcome (list rte_port) :=
  _ ← c_defined (nb_ports <=? Z.of_nat RTE_MAX_ETHPORTS);
  Done (imap (fun i p => with_enabled (Z.of_nat i <? nb_ports) p) (replicate RTE_MAX_ETHPORTS zero_port)).

(** [set_def_fwd_config] on the variables as they are initialised. *)
Definition set_def_fwd_config (nb_ports : Z) (ports : list rte_port) : outcome globals :=
  c ← set_default_fwd_lcores_config en master rte_lcore_to_socket_id
        (LcoreConf (replicate RTE_MAX_LCORE 0) 0 0 0 0);
  let peers := set_def_peer_eth_addrs (replicate RTE_MAX_ETHPORTS (replicate 6 0)) in
  p ← set_default_fwd_ports_config
        (PState ports nb_ports 0 0 (replicate RTE_MAX_ETHPORTS 0) [] true false false []);
  let numa := replicate RTE_MAX_ETHPORTS 0 in
  Done (Globals (<[Var.rss_hf := ETH_RSS_IP]> (<[Var.max_rx_pkt_len := ETHER_MAX_LEN]> initial_var)) peers
          (Settings c p initial_pkts 0) PAIRED 0
          (FdirConf RTE_FDIR_MODE_NONE RTE_FDIR_REPORT_STATUS RTE_FDIR_PBALLOC_64K) numa (numa, numa) [] []).

(** ** Pools *)

Definition mbuf_pool_create (g : globals) (nb_mbuf socket_id : Z) (pools : list pool) : outcome (list pool) :=
  let p := Pool socket_id nb_mbuf (mbuf_data_size (pkts (sets g))) (var g Var.mb_mempool_cache)
             (negb (var g Var.mp_anon =? 0)) in
  if create p then Done (pools ++ [p]) else Aborted.

(** The number of buffers in a pool, for all ports without NUMA. *)
Definition nb_mbuf_per_pool (g : globals) : Z :=
  let total := var g Var.param_total_num_mbufs in
  if negb (total =? 0) then total
  else
    let n := u32 (RTE_TEST_RX_DESC_MAX + nb_lcores (cores (sets g)) * var g Var.mb_mempool_cache +
                  RTE_TEST_TX_DESC_MAX + MAX_PKT_BURST) in
    if var g Var.numa_support =? 0 then u32 (n * Z.of_nat RTE_MAX_ETHPORTS) else n.

Definition uma_pool (g : globals) : outcome (list pool) :=
  if var g Var.numa_support =? 0 then
    mbuf_pool_create g (nb_mbuf_per_pool g) (if var g Var.socket_num =? UMA_NO_CONFIG then 0 else var g Var.socket_num) []
  else Done [].

(** The loop over the sockets, from [i] on. *)
Fixpoint socket_pools (g : globals) (nb_mbuf : Z) (n : nat) (i : Z) (pools : list pool) : outcome (list pool) :=
  match n with
  | O => Done pools
  | S n =>
      pools ← (if nb_mbuf =? 0 then Done pools else mbuf_pool_create g nb_mbuf i pools);
      socket_pools g nb_mbuf n (i + 1) pools
  end.

(** The pools with NUMA.  The division is undefined without ports. *)
Definition numa_pools (g : globals) (pools : list pool) : outcome (list pool) :=
  if var g Var.numa_support =? 0 then Done pools
  else
    per_pool ←
      (if negb (var g Var.param_total_num_mbufs =? 0) then
         _ ← c_defined (negb (nb_ports (port_state g) =? 0)); Done (nb_mbuf_per_pool g / nb_ports (port_state g))
       else Done (nb_mbuf_per_pool g));
    socket_pools g (u32 (per_pool * Z.of_nat RTE_MAX_ETHPORTS)) (Z.to_nat (lc_max_socket (cores (sets g)))) 0 pools.

(** ** [init_config] *)

(** The loop over the ports; [port_per_socket] counts the ports of a socket. *)
Fixpoint config_ports (c : config) (pids : list Z) (port_per_socket : list Z) (st : pstate) : outcome pstate :=
  match pids with
  | [] => Done st
  | pid :: pids =>
      let st := upd_port pid (with_info (dev_info_get d pid)) st in
      per ←
        (if PortState.numa_support c then
           let socket_id := port_socket d c pid in
           n ← of_opt (zget port_per_socket socket_id); of_opt (zset port_per_socket socket_id (u8 (n + 1)))
         else Done port_per_socket);
      config_ports c pids per (upd_port pid (fun p => with_reconfig_queues true (with_reconfig true p)) st)
  end.

(** The pool of a forwarding core. *)
Definition lcore_pool (pools : list pool) (cpuid : Z) : option Z :=
  let socket := rte_lcore_to_socket_id cpuid in
  if mbuf_pool_find pools socket then Some socket else if mbuf_pool_find pools 0 then Some 0 else None.

Definition init_config (g : globals) : outcome (globals * list pool * list (option Z)) :=
  let c := config_of g in
  pools ← uma_pool g;
  st ← config_ports c (port_ids (ports (port_state g))) (replicate (Z.to_nat RTE_MAX_NUMA_NODES) 0) (port_state g);
  pools ← numa_pools g pools;
  let st := init_port_config c st in
  let '(ok, st) := init_fwd_streams (with_pools pools d) c st in
  _ ← c_assert ok;
  let ids := take (Z.to_nat (nb_lcores (cores (sets g)))) (fwd_lcores_cpuids (cores (sets g))) in
  Done (set_port_state st g, pools, lcore_pool pools <$> ids).

(** ** [main] *)

(** The variables when the options have been read; the name of the program is
    the first of [argv]. *)
Definition read_options (argv : list string) : outcome globals :=
  let nb := u8 (dev_count d []) in
  l ← init_port nb;
  g ← set_def_fwd_config nb l;
  _ ← c_assert (negb (nb_lcores (cores (sets g)) =? 0));
  if (1 <? length argv)%nat then
    launch_args_parse STR_TOKEN_SIZE RTE_MEMPOOL_CACHE_MAX_SIZE en master ETH_RSS_IP ETH_RSS_UDP
      ETHER_MIN_LEN ETHER_MAX_LEN fopen argv g
  else Done g.

(** [eal]: the arguments [rte_eal_init] leaves, if it succeeds. *)
Definition main (eal : option (list string)) : outcome started :=
  match eal with
  | None => Aborted
  | Some argv =>
      g ← read_options argv;
      '(g, pools, lcore_pools) ← init_config g;
      let '(r, st) := start_port (with_pools pools d) (config_of g) RTE_PORT_ALL (port_state g) in
      _ ← c_assert (r =? 0);
      let st := foldl (fun st pid => (dpdk_do d (PromiscuousEnable pid) st).2) st (port_ids (ports st)) in
      let interactive := var g Var.interactive =? 1 in
      Done (Started (set_port_state st g) pools lcore_pools
              (negb interactive || negb (var g Var.auto_start =? 0)) interactive)
  end.
End StartUp.

(** ** Checking the links *)

Definition MAX_CHECK_TIME : nat := 90.

(** What [check_all_ports_link_status] does: waiting, and printing the state
    of a link. *)
Inductive link_event : Type := Delay | Printed (port : Z) (up : bool).

Section Links.
(** [link k pid] is the state of a link in the pass [k]; [pids] are the ports
    that are looked at. *)
Variables (link : nat -> Z -> bool) (pids : list Z).

(** The loop from the pass [count] on, with at most [n] passes. *)
Fixpoint check_loop (n count : nat) (print_flag : bool) : list link_event :=
  match n with
  | O => []
  | S n =>
      if print_flag then (fun pid => Printed pid (link count pid)) <$> pids
      else
        let all_ports_up := forallb (link count) pids in
        (if all_ports_up then [] else [Delay]) ++
        check_loop n (S count) (all_ports_up || (count =? MAX_CHECK_TIME - 1)%nat)
  end.
End Links.

(** The enabled ports whose bit is in the mask; [1 << portid] is an [int]. *)
Definition masked_ports (port_mask : Z) (l : list rte_port) : list Z :=
  filter (fun pid => Z.land port_mask (u32 (s32 (Z.shiftl 1 pid))) <> 0) (port_ids l).

Definition check_all_ports_link_status (link : nat -> Z -> bool) (port_mask : Z) (l : list rte_port) : list link_event :=
  check_loop link (masked_ports port_mask l) (S MAX_CHECK_TIME) 0 false.

(** ** Specification *)

(** What is asked of DPDK: cores have numbers below the maximum and sockets
    that are no negative numbers, and its constants are in their ranges. *)
Record dpdk_ok (cache_max : Z) (en : Z -> bool) (rss_ip rss_udp min_len max_len mbuf_size : Z) (sock : Z -> Z) : Prop := {
  do_en : forall i, en i = true -> 0 <= i < Z.of_nat RTE_MAX_LCORE;
  do_sock : forall i, 0 <= sock i < 2 ^ 31;
  do_cache : 250 <= cache_max < 2 ^ 16;
  do_ip : 0 <= rss_ip < 2 ^ 64;
  do_udp : 0 <= rss_udp < 2 ^ 64;
  do_len : 0 <= min_len <= max_len /\ max_len < 2 ^ 31;
  do_mbuf : 1 <= mbuf_size <= 65535;
}.

(** ** Lemmas: the variables before the options *)

Lemma default_lcores_sockets en master sock n i nb ms ids ids' nb' ms' :
  (forall j, 0 <= sock j < 2 ^ 31) -> 0 <= ms <= RTE_MAX_NUMA_NODES ->
  default_lcores en master sock n i nb ms ids = Done (ids', nb', ms') ->
  ms <= ms' <= RTE_MAX_NUMA_NODES /\ (nb' = nb \/ 1 <= ms').
Proof.
  intros Hs. revert i nb ms ids. induction n as [|n IH]; intros i nb ms ids Hms; cbn [default_lcores].
  { intros [= <- <- <-]. split; [lia|by left]. }
  destruct (_ || _); [by apply IH|]. intros (ids1 & _ & (ms1 & E1 & E)%outcome_bind_Done)%outcome_bind_Done.
  specialize (Hs i). rewrite u32_small in E1 by lia.
  assert (Hms1 : ms <= ms1 <= RTE_MAX_NUMA_NODES /\ 1 <= ms1).
  { destruct (Z.ltb_spec ms (sock i + 1)); [|injection E1 as <-; lia].
    inv_outcome. subst ms1. apply Z.leb_le in Hassert. lia. }
  apply IH in E; lia.
Qed.


Lemma Done_inj {A} (x y : A) : Done x = Done y -> x = y.
Proof. by intros [=]. Qed.

Lemma init_port_spec nb l :
  init_port nb = Done l -> nb <= 32 /\ forall pi, 0 <= pi < 32 -> zget l pi = Some (with_enabled (pi <? nb) zero_port).
Proof.
  unfold init_port. destruct (Z.leb_spec nb (Z.of_nat RTE_MAX_ETHPORTS)) as [Hn|]; [|done]. intros E.
  apply Done_inj in E as <-. split; [exact Hn|].
  intros pi Hpi. apply zget_Some. split; [lia|]. rewrite list_lookup_imap.
  rewrite lookup_replicate_2 by (change RTE_MAX_ETHPORTS with 32%nat; lia). cbn. by rewrite Z2Nat.id by lia.
Qed.

Lemma initial_var_ok cache_max min_len v :
  250 <= cache_max -> v <> Var.rss_hf -> v <> Var.max_rx_pkt_len -> var_ok cache_max min_len v (initial_var v).
Proof.
  intros Hc H1 H2. destruct v; try done; try (by right); left; unfold in_range; cbn; unfold MAX_QUEUE_ID, UMA_NO_CONFIG; lia.
Qed.

Section Lemmas.
Context `{DpdkText} (tok : nat) (cache_max : Z) (en : Z -> bool) (master : Z)
  (rss_ip rss_udp min_len max_len mbuf_size : Z) (fopen : string -> option string) (sock : Z -> Z) (d : dpdk)
  (create : pool -> bool).
Context (Hok : dpdk_ok cache_max en rss_ip rss_udp min_len max_len mbuf_size sock).

#[local] Abbreviation ok := (globals_ok en master cache_max min_len).

Lemma default_ports_length n i ids ids' : default_ports n i ids = Done ids' -> length ids' = length ids.
Proof.
  revert i ids. induction n as [|n IH]; intros i ids; cbn [default_ports]; [by intros [= <-]|].
  intros (ids1 & E & E2)%outcome_bind_Done. destruct (zset ids i i) eqn:Ez; [|done]. injection E as <-.
  apply IH in E2. apply zset_Some in Ez as [_ ->]. by rewrite length_insert in E2.
Qed.

(** The state before the options. *)
Lemma set_def_ok nb l g :
  set_def_fwd_config en master rss_ip max_len mbuf_size sock nb l = Done g -> nb_lcores (cores (sets g)) <> 0 ->
  ok g /\ 1 <= lc_max_socket (cores (sets g)) <= RTE_MAX_NUMA_NODES /\
  ports (port_state g) = l /\ nb_ports (port_state g) = nb /\ calls (port_state g) = [] /\
  test_done (port_state g) = true /\ dcb_config (port_state g) = false.
Proof.
  unfold set_def_fwd_config. intros (c & Ec & E)%outcome_bind_Done Hnb. cbv zeta in E.
  apply outcome_bind_Done in E as (p & Ep & E). apply Done_inj in E as <-. cbn [cores sets] in Hnb.
  unfold set_default_fwd_ports_config in Ep. apply outcome_bind_Done in Ep as (ids & _ & Ep). apply Done_inj in Ep as <-.
  assert (Hw : workers en master <> []).
  { intros E0. pose proof (set_default_Done _ _ _ _ _ Ec) as (ids' & n & ms & E1 & ->).
    destruct (default_lcores_spec en master sock RTE_MAX_LCORE 0 0 0 (replicate RTE_MAX_LCORE 0)
      (Z.le_refl 0) eq_refl eq_refl ltac:(by rewrite length_replicate) _ E1 _ (workers_default _ _)) as (Hn & _).
    cbn [fst snd] in Hn. rewrite E0 in Hn. cbn in Hn. subst n. done. }
  assert (Hc : lcores_ok en master c) by (eapply default_ok; [|exact Hw|exact Ec]; apply length_replicate).
  assert (Hms : 1 <= lc_max_socket c <= RTE_MAX_NUMA_NODES /\ nb_fwd_lcores c = 1).
  { apply set_default_Done in Ec as (ids' & n & ms & E1 & ->). cbn [lc_max_socket nb_fwd_lcores].
    cbn [lc_max_socket fwd_lcores_cpuids] in E1.
    apply default_lcores_sockets in E1 as [H1 H2]; [|apply (do_sock _ _ _ _ _ _ _ _ Hok)|done].
    cbn [nb_lcores] in Hnb. split; [|done]. destruct H2 as [->|]; [done|lia]. }
  destruct Hms as [Hms Hf]. split; [|split; [exact Hms|by split_and!]]. destruct Hok.
  assert (Hz : sockets_ok (lc_max_socket c) (replicate RTE_MAX_ETHPORTS 0)).
  { constructor; [done|]. apply Forall_replicate. right. lia. }
  constructor; cbn [sets cores pkts var peer_eth_addrs cur_fwd_eng numa_ports numa_rings tx_maps rx_maps fst snd]; try done.
  - intros v. destruct (decide (v = Var.rss_hf)) as [->|H1].
    { rewrite fn_lookup_insert. left. unfold in_range. cbn [range fst snd]. lia. }
    rewrite fn_lookup_insert_ne by done. destruct (decide (v = Var.max_rx_pkt_len)) as [->|H2].
    { rewrite fn_lookup_insert. left. unfold in_range. cbn [range fst snd]. lia. }
    rewrite fn_lookup_insert_ne by done. apply initial_var_ok; [lia|done..].
  - apply (lo_nb _ _ _ Hc).
  - pose proof (lo_cfg _ _ _ Hc). pose proof (lo_fwd _ _ _ Hc). lia.
  - apply (lo_len _ _ _ Hc).
  - apply Nat.ltb_lt. reflexivity.
  - constructor; [apply Nat.le_0_l|constructor].
  - constructor; [apply Nat.le_0_l|constructor].
Qed.

(** ** Lemmas: pools *)

Lemma mbuf_pool_find_app l1 l2 s : mbuf_pool_find (l1 ++ l2) s = mbuf_pool_find l1 s || mbuf_pool_find l2 s.
Proof. apply existsb_app. Qed.

Lemma create_finds g nb s pools pools' :
  mbuf_pool_create create g nb s pools = Done pools' ->
  forall t, mbuf_pool_find pools' t = mbuf_pool_find pools t || (s =? t).
Proof.
  unfold mbuf_pool_create. destruct (create _); [|done]. intros [= <-] t. rewrite mbuf_pool_find_app. cbn.
  by rewrite orb_false_r.
Qed.

Lemma socket_pools_find g nb n i pools pools' :
  nb <> 0 -> socket_pools create g nb n i pools = Done pools' ->
  forall s, i <= s < i + Z.of_nat n \/ mbuf_pool_find pools s = true -> mbuf_pool_find pools' s = true.
Proof.
  intros Hnb. revert i pools. induction n as [|n IH]; intros i pools; cbn [socket_pools].
  { intros [= <-] s [?|?]; [lia|done]. }
  rewrite (proj2 (Z.eqb_neq _ _) Hnb). intros (l & E1 & E)%outcome_bind_Done s Hs.
  apply (IH _ _ E). rewrite (create_finds _ _ _ _ _ E1). destruct (Z.eqb_spec i s).
  - right. apply orb_true_r.
  - rewrite orb_false_r. destruct Hs; [left; lia|by right].
Qed.

(** The sockets that start-up must give a pool. *)
Definition pooled_socket (g : globals) (s : Z) : Prop :=
  if var g Var.numa_support =? 0
  then s = if var g Var.socket_num =? UMA_NO_CONFIG then 0 else var g Var.socket_num
  else 0 <= s < lc_max_socket (cores (sets g)).

Lemma pool_number g :
  ok g -> var g Var.param_total_num_mbufs < 2 ^ 27 ->
  (var g Var.param_total_num_mbufs <> 0 -> 1 <= nb_ports (port_state g) <= 32) ->
  let per := if negb (var g Var.param_total_num_mbufs =? 0) then nb_mbuf_per_pool g / nb_ports (port_state g)
             else nb_mbuf_per_pool g in
  var g Var.numa_support <> 0 -> u32 (per * Z.of_nat RTE_MAX_ETHPORTS) <> 0.
Proof.
  intros Hg Ht Hn per Hnuma. unfold per, nb_mbuf_per_pool. change (Z.of_nat RTE_MAX_ETHPORTS) with 32.
  pose proof (go_vars _ _ _ _ _ Hg Var.param_total_num_mbufs) as Htot.
  pose proof (go_vars _ _ _ _ _ Hg Var.mb_mempool_cache) as Hcache. pose proof (go_nb_lcores _ _ _ _ _ Hg) as Hl.
  pose proof (workers_length en master) as Hw. change RTE_MAX_LCORE with 128%nat in Hw.
  destruct (Z.eqb_spec (var g Var.param_total_num_mbufs) 0) as [E0|E0]; cbn [negb].
  - rewrite (proj2 (Z.eqb_neq _ _) Hnuma). destruct Hcache as [Hcache|[[=] _]]. unfold in_range in Hcache.
    cbn [range fst snd] in Hcache. pose proof (do_cache _ _ _ _ _ _ _ _ Hok).
    set (k := nb_lcores _ * _). assert (0 <= k <= 128 * 65536) by (unfold k; nia).
    unfold RTE_TEST_RX_DESC_MAX, RTE_TEST_TX_DESC_MAX, MAX_PKT_BURST. rewrite (u32_small (2048 + k + 2048 + 512)) by lia. rewrite u32_small; lia.
  - specialize (Hn E0). destruct Htot as [Htot|[_ ?]]; [|done]. unfold in_range in Htot. cbn [range fst snd] in Htot.
    set (t := var g _) in *. set (p := nb_ports _) in *.
    assert (32 <= t / p). { apply Z.div_le_lower_bound; [lia|]. nia. }
    assert (t / p <= t). { apply Z.div_le_upper_bound; [lia|]. nia. }
    rewrite u32_small; lia.
Qed.

Lemma pools_found g pools0 pools :
  ok g -> var g Var.param_total_num_mbufs < 2 ^ 27 -> nb_ports (port_state g) <= 32 -> 0 <= nb_ports (port_state g) ->
  uma_pool create g = Done pools0 -> numa_pools create g pools0 = Done pools ->
  forall s, pooled_socket g s -> mbuf_pool_find pools s = true.
Proof.
  intros Hg Ht H32 H0 E1 E2 s Hs. unfold pooled_socket in Hs. unfold uma_pool in E1. unfold numa_pools in E2.
  destruct (Z.eqb_spec (var g Var.numa_support) 0) as [Hn|Hn].
  - injection E2 as <-. rewrite (create_finds _ _ _ _ _ E1), Hs. apply orb_true_iff. right. apply Z.eqb_refl.
  - apply outcome_bind_Done in E2 as (per & Ep & E2).
    assert (Hnb : u32 (per * Z.of_nat RTE_MAX_ETHPORTS) <> 0).
    { pose proof (pool_number g Hg Ht) as Hp. cbv zeta in Hp.
      destruct (Z.eqb_spec (var g Var.param_total_num_mbufs) 0) as [E0|E0]; cbn [negb] in Ep, Hp.
      - injection Ep as <-. apply Hp; [done|done].
      - apply outcome_bind_Done in Ep as (u & Eu & [= <-]). apply Hp; [|done]. intros _.
        destruct (Z.eqb_spec (nb_ports (port_state g)) 0); [done|lia]. }
    eapply socket_pools_find; [exact Hnb|exact E2|]. left. lia.
Qed.

(** ** Lemmas: the ports after [init_config] *)

Lemma zget_upd pj f st pi :
  0 <= pj -> zget (ports (upd_port pj f st)) pi = if decide (pi = pj) then f <$> zget (ports st) pi else zget (ports st) pi.
Proof.
  intros Hj. destruct (decide (pi = pj)) as [->|Hne]; [|by apply zget_upd_other].
  destruct (zget (ports st) pj) as [p|] eqn:Hp; [by rewrite (zget_upd_same _ _ _ _ Hp)|].
  unfold zget in *. destruct (0 <=? pj); [|done]. cbn. by rewrite list_lookup_alter_eq, Hp.
Qed.

Definition prepared (pi : Z) (p : rte_port) : rte_port :=
  with_reconfig_queues true (with_reconfig true (with_info (dev_info_get d pi) p)).

(** What the operations before the start leave as it is. *)
Definition idle_as (st st' : pstate) : Prop :=
  calls st' = calls st /\ test_done st' = test_done st /\ dcb_config st' = dcb_config st.

Lemma idle_as_trans st1 st2 st3 : idle_as st1 st2 -> idle_as st2 st3 -> idle_as st1 st3.
Proof. unfold idle_as. intuition congruence. Qed.

Lemma config_ports_spec c pids per st st' :
  config_ports d c pids per st = Done st' -> NoDup pids -> Forall (fun i => 0 <= i) pids ->
  idle_as st st' /\
  forall pi, zget (ports st') pi = if decide (pi ∈ pids) then prepared pi <$> zget (ports st) pi else zget (ports st) pi.
Proof.
  intros E Hnd Hpos. revert per st E. induction Hpos as [|pj pids Hj Hpos IH]; intros per st; cbn [config_ports].
  { intros [= <-]. split; [done|]. intros pi. by rewrite decide_False by apply not_elem_of_nil. }
  apply NoDup_cons in Hnd as [Hjn Hnd]. intros (per' & _ & E)%outcome_bind_Done.
  destruct (IH Hnd _ _ E) as [Hi Hz]. split; [exact Hi|]. intros pi. rewrite Hz, !zget_upd by done.
  destruct (decide (pi = pj)) as [->|Hne].
  - rewrite decide_False, (decide_True _ _ (P := pj ∈ pj :: pids)) by (done || left).
    by destruct (zget (ports st) pj).
  - destruct (decide (pi ∈ pids)); [rewrite decide_True by by right|rewrite decide_False by (by rewrite not_elem_of_cons)];
      done.
Qed.

Lemma init_port_config_idle c st : idle_as st (init_port_config c st).
Proof.
  unfold init_port_config. generalize (port_ids (ports st)) as l. intros l. revert st.
  induction l as [|pj l IH]; intros st; [done|]. cbn [foldl]. eapply idle_as_trans; [|apply IH]. done.
Qed.

Lemma set_sockets_idle d' c l st ok st' : set_sockets d' c l st = (ok, st') -> idle_as st st'.
Proof.
  revert st. induction l as [|pj l IH]; intros st; cbn [set_sockets]; [by intros [= _ <-]|].
  destruct (zget _ _) as [p|]; [|by intros [= _ <-]]. destruct (_ <? _); [by intros [= _ <-]|].
  destruct (_ <? _); [by intros [= _ <-]|]. intros E. by apply IH in E.
Qed.

Lemma init_fwd_streams_idle d' c st ok st' : init_fwd_streams d' c st = (ok, st') -> idle_as st st'.
Proof.
  unfold init_fwd_streams. destruct (set_sockets _ _ _ _) as [b st1] eqn:E1. apply set_sockets_idle in E1.
  destruct b; [|by intros [= _ <-]]. destruct (_ =? _); by intros [= _ <-].
Qed.

(** An enabled port after [init_config]. *)
Lemma init_config_port g g' pools mbps pi p :
  init_config sock d create g = Done (g', pools, mbps) -> zget (ports (port_state g)) pi = Some p -> enabled p = true ->
  let c := config_of g in
  config_of g' = c /\ idle_as (port_state g) (port_state g') /\
  exists so, zget (ports (port_state g')) pi =
    Some (with_socket so (with_conf (init_one_config (nb_rxq c) (g_rss_hf c) (g_rx_mode c) (g_vlan_filter c)
                                      (g_thresholds c) (dev_info_get d pi) (pconf p)) (prepared pi p))).
Proof.
  intros E Hp He c. unfold init_config in E. fold c in E.
  apply outcome_bind_Done in E as (pools0 & _ & (st1 & E1 & (pools1 & _ & E)%outcome_bind_Done)%outcome_bind_Done).
  destruct (config_ports_spec _ _ _ _ _ E1 (port_ids_nodup _) (port_ids_nonneg _)) as [I1 Z1].
  cbv zeta in E. destruct (init_fwd_streams _ _ _) as [b st2] eqn:E2. destruct b; [|done]. injection E as <- <- <-.
  pose proof (init_fwd_streams_idle _ _ _ _ _ E2) as I2. split; [done|]. split.
  { eapply idle_as_trans; [exact I1|]. eapply idle_as_trans; [apply init_port_config_idle|exact I2]. }
  assert (Hin : pi ∈ port_ids (ports (port_state g))) by (apply elem_of_port_ids; eauto).
  specialize (Z1 pi). rewrite decide_True, Hp in Z1 by done. cbn in Z1.
  assert (Z2 : zget (ports (init_port_config c st1)) pi =
    Some (with_conf (init_one_config (nb_rxq c) (g_rss_hf c) (g_rx_mode c) (g_vlan_filter c) (g_thresholds c)
           (dev_info_get d pi) (pconf p)) (prepared pi p))).
  { unfold init_port_config. rewrite foldl_upd_port by (apply port_ids_nodup || apply port_ids_nonneg).
    rewrite decide_True by (apply elem_of_port_ids; eexists; split; [exact Z1|exact He]). rewrite Z1. done. }
  destruct (init_fwd_streams_port _ _ _ _ _ _ E2 Z2) as [so Hso]. exists so. exact Hso.
Qed.
End Lemmas.

(** ** Lemmas: receive queues get a pool *)

(** No receive queue is set up without a pool. *)
Definition call_pooled (k : dpdk_call) : Prop :=
  match k with RxQueueSetup _ _ _ _ _ has_pool => has_pool = true | _ => True end.

Section Pooled.
Context (d : dpdk) (c : config) (pids : list Z).

#[local] Abbreviation found := (PortState.mbuf_pool_find d).

Context (Hring : PortState.numa_support c = true -> forall pi, rxring_numa c pi <> NUMA_NO_CONFIG -> found (rxring_numa c pi) = true).

(** The calls so far, and the sockets of the ports. *)
Record pooled (st : pstate) : Prop := {
  po_calls : Forall call_pooled (calls st);
  po_sockets : forall pi p, pi ∈ pids -> zget (ports st) pi = Some p -> found (socket_id p) = true;
}.

Lemma pooled_upd pj f st :
  pooled st -> 0 <= pj -> (forall p, socket_id (f p) = socket_id p) -> pooled (upd_port pj f st).
Proof.
  intros [Hc Hs] Hj Hf. constructor; [done|]. intros pi p Hin. rewrite zget_upd by done.
  destruct (decide (pi = pj)) as [->|]; [|by apply Hs]. destruct (zget (ports st) pj) as [q|] eqn:E; [|done].
  intros [= <-]. rewrite Hf. by eapply Hs.
Qed.

Lemma pooled_cmpset pj e n st : pooled st -> 0 <= pj -> pooled (cmpset pj e n st).2.
Proof.
  intros Hp Hj. unfold cmpset. destruct (zget _ _); [|done]. destruct (decide _); [|done]. by apply pooled_upd.
Qed.

Lemma pooled_do k st : pooled st -> call_pooled k -> pooled (dpdk_do d k st).2.
Proof. intros [Hc Hs] Hk. constructor; [by constructor|done]. Qed.

Lemma pooled_tx pi p qs st : pooled st -> pooled (setup_tx_queues d c pi p qs st).2.
Proof.
  revert st. induction qs as [|q qs IH]; intros st Hst; cbn [setup_tx_queues]; [done|].
  pose proof (pooled_do (TxQueueSetup pi q (nb_txd c) (if PortState.numa_support c && negb (txring_numa c pi =? NUMA_NO_CONFIG)
                  then txring_numa c pi else socket_id p) (tx_conf (pconf p))) st Hst I) as H1.
  destruct (dpdk_do _ _ _) as [r st1]. cbn [snd] in H1. destruct (r =? 0); [by apply IH|done].
Qed.

Lemma pooled_rx pi p qs st : found (socket_id p) = true -> pooled st -> pooled (setup_rx_queues d c pi p qs st).2.
Proof.
  intros Hp. revert st. induction qs as [|q qs IH]; intros st Hst; cbn [setup_rx_queues]; [done|]. cbv zeta.
  set (ring := PortState.numa_support c && negb (rxring_numa c pi =? NUMA_NO_CONFIG)).
  set (socket := if ring then rxring_numa c pi else socket_id p).
  assert (Hs : found socket = true).
  { unfold socket. destruct ring eqn:Er; [|done]. unfold ring in Er. apply andb_true_iff in Er as [H1 H2].
    apply Hring; [done|]. by apply negb_true_iff, Z.eqb_neq in H2. }
  rewrite Hs. rewrite andb_false_r.
  pose proof (pooled_do (RxQueueSetup pi q (nb_rxd c) socket (rx_conf (pconf p)) true) st Hst eq_refl) as H1.
  destruct (dpdk_do _ _ _) as [r st1]. cbn [snd] in H1. destruct (r =? 0); [by apply IH|done].
Qed.

Lemma pooled_start_one pi st : pi ∈ pids -> 0 <= pi -> pooled st -> pooled (start_one d c pi st).2.
Proof.
  intros Hin H0 Hst. unfold start_one. pose proof (pooled_cmpset pi STOPPED HANDLING st Hst H0) as H1.
  destruct (cmpset _ _ _ _) as [[] st1]; cbn [negb snd] in *; [|done].
  destruct (zget (ports st1) pi) as [p|] eqn:Hp; [|done]. pose proof (po_sockets _ H1 _ _ Hin Hp) as Hs.
  assert (H2 : pooled (configure_port d c pi p st1).2).
  { unfold configure_port. destruct (need_reconfig p); [|done].
    pose proof (pooled_do (DevConfigure pi (nb_rxq c) (nb_txq c) (conf (pconf p))) _
      (pooled_upd pi (with_reconfig false) st1 H1 H0 (fun _ => eq_refl)) I) as H2.
    destruct (dpdk_do _ _ _) as [r st2]. cbn [snd] in H2. destruct (r =? 0); [done|].
    pose proof (pooled_cmpset pi HANDLING STOPPED st2 H2 H0) as H3. destruct (cmpset _ _ _ _). by apply pooled_upd. }
  destruct (configure_port _ _ _ _ _) as [[] st2]; cbn [negb snd] in *; [|done].
  assert (Hfail : forall s, pooled s -> pooled (fail_queues pi s)).
  { intros s Hs'. unfold fail_queues. pose proof (pooled_cmpset pi HANDLING STOPPED s Hs' H0) as H3.
    destruct (cmpset _ _ _ _). by apply pooled_upd. }
  assert (H3 : pooled (configure_queues d c pi p st2).2).
  { unfold configure_queues. destruct (need_reconfig_queues p); [|done].
    pose proof (pooled_tx pi p (queues (nb_txq c)) _
      (pooled_upd pi (with_reconfig_queues false) st2 H2 H0 (fun _ => eq_refl))) as H4.
    destruct (setup_tx_queues _ _ _ _ _ _) as [[] st3]; [|by apply Hfail].
    pose proof (pooled_rx pi p (queues (nb_rxq c)) st3 Hs H4) as H5.
    destruct (setup_rx_queues _ _ _ _ _ _) as [[[]|] st4]; [done| |done]. by apply Hfail. }
  destruct (configure_queues _ _ _ _ _) as [[] st3]; cbn [negb snd] in *; [|done].
  pose proof (pooled_do (DevStart pi) st3 H3 I) as H4. destruct (dpdk_do _ _ _) as [r st4].
  destruct (r <? 0); by apply pooled_cmpset.
Qed.

Lemma pooled_start_loop l st :
  Forall (fun i => i ∈ pids /\ 0 <= i) l -> pooled st -> pooled (start_loop d c l st).2.
Proof.
  intros Hl. revert st. induction Hl as [|pi l [Hin H0] Hl IH]; intros st Hst; cbn [start_loop]; [done|].
  pose proof (pooled_start_one pi st Hin H0 Hst) as H1. destruct (start_one _ _ _ _) as [[] st1]; [by apply IH|done].
Qed.
End Pooled.

(** The sockets that the ports get. *)
Lemma set_sockets_sockets d c l st st' pi p :
  set_sockets d c l st = (true, st') -> pi ∈ l -> zget (ports st') pi = Some p -> socket_id p = port_socket d c pi.
Proof.
  intros E Hin. assert (H : forall st, set_sockets d c l st = (true, st') ->
    pi ∈ l \/ (forall p, zget (ports st) pi = Some p -> socket_id p = port_socket d c pi) ->
    forall p, zget (ports st') pi = Some p -> socket_id p = port_socket d c pi); [|by apply (H st); [|left]].
  clear. induction l as [|pj l IH]; intros st; cbn [set_sockets].
  { intros [= <-] [[]%not_elem_of_nil|H]; done. }
  destruct (zget (ports st) pj) as [q|] eqn:Hq; [|done]. pose proof (zget_nonneg _ _ _ Hq).
  destruct (_ <? _); [done|]. destruct (_ <? _); [done|]. intros E Hin. apply (IH _ E).
  destruct (decide (pi ∈ l)); [by left|]. right. intros p. rewrite zget_upd by done.
  destruct (decide (pi = pj)) as [->|Hne].
  - rewrite Hq. by intros [= <-].
  - destruct Hin as [[?|?]%elem_of_cons|Hin]; [done..|]. apply Hin.
Qed.

Lemma set_sockets_length d c l st : length (ports (set_sockets d c l st).2) = length (ports st).
Proof.
  revert st. induction l as [|pj l IH]; intros st; cbn [set_sockets]; [done|].
  destruct (zget _ _); [|done]. destruct (_ <? _); [done|]. destruct (_ <? _); [done|]. rewrite IH.
  apply length_alter.
Qed.

(** A start gives every receive queue a pool when the sockets of the enabled
    ports and of their rings have one. *)
Lemma start_port_pooled d c pid st r st' :
  start_port d c pid st = (r, st') -> Forall call_pooled (calls st) ->
  (forall pi, pi ∈ port_ids (ports st) -> PortState.mbuf_pool_find d (port_socket d c pi) = true) ->
  (PortState.numa_support c = true -> forall pi, rxring_numa c pi <> NUMA_NO_CONFIG ->
    PortState.mbuf_pool_find d (rxring_numa c pi) = true) ->
  Forall call_pooled (calls st').
Proof.
  intros E Hc Hp Hr. unfold start_port in E. destruct (negb _); [by injection E as <- <-|].
  destruct (port_id_is_invalid _ _); [by injection E as <- <-|]. unfold init_fwd_streams in E.
  pose proof (set_sockets_calls d c (port_ids (ports st)) st) as Hcs.
  destruct (set_sockets _ _ _ _) as [ok st1] eqn:E1. cbn [snd] in Hcs. destruct ok; [|injection E as <- <-; by rewrite Hcs].
  set (st2 := if _ =? _ then _ else _) in E. assert (Hst2 : st2.1 = true /\ ports st2.2 = ports st1 /\ calls st2.2 = calls st1).
  { unfold st2. by destruct (_ =? _). }
  destruct st2 as [ok2 st2']. cbn [fst snd] in Hst2. destruct Hst2 as (-> & Hps & Hc2). cbn [negb] in E.
  set (st3 := if dcb_config st2' then _ else _) in E.
  assert (H3 : ports st3 = ports st1 /\ calls st3 = calls st1) by (unfold st3; by destruct (dcb_config st2')).
  destruct H3 as [Hp3 Hc3]. clearbody st3.
  assert (Hid : forall pi, pi ∈ port_ids (ports st3) -> pi ∈ port_ids (ports st) /\ 0 <= pi).
  { intros pi (p & Hz & He)%elem_of_port_ids. rewrite Hp3 in Hz. split; [|by eapply zget_nonneg].
    destruct (zget (ports st) pi) as [q|] eqn:Hq.
    - destruct (set_sockets_status d c (port_ids (ports st)) st pi q Hq) as [so Hso]. rewrite E1 in Hso. cbn [snd] in Hso.
      rewrite Hz in Hso. injection Hso as ->. apply elem_of_port_ids. by exists q.
    - exfalso. pose proof (set_sockets_length d c (port_ids (ports st)) st) as Hl. rewrite E1 in Hl. cbn [snd] in Hl.
      apply zget_Some in Hz as [H0 Hz]. apply lookup_lt_Some in Hz. rewrite Hl in Hz.
      destruct (lookup_lt_is_Some_2 (ports st) (Z.to_nat pi) Hz) as [q Hq']. unfold zget in Hq.
      destruct (Z.leb_spec 0 pi); [|lia]. congruence. }
  assert (H4 : pooled d (port_ids (ports st)) st3).
  { constructor; [by rewrite Hc3, Hcs|]. intros pi p Hin Hz. rewrite Hp3 in Hz.
    rewrite (set_sockets_sockets _ _ _ _ _ _ _ E1 Hin Hz). by apply Hp. }
  pose proof (pooled_start_loop d c (port_ids (ports st)) Hr (selected pid (port_ids (ports st3))) st3) as H5.
  destruct (start_loop _ _ _ _) as [ok st4]. cbn [snd] in H5. injection E as _ <-. apply H5; [|done].
  apply Forall_forall. intros pi [_ Hin]%list_elem_of_filter. by apply Hid.
Qed.

(** ** Lemmas: the phases of [main] *)

Section Main.
Context `{DpdkText} (tok : nat) (cache_max : Z) (en : Z -> bool) (master : Z)
  (rss_ip rss_udp min_len max_len mbuf_size : Z) (fopen : string -> option string) (sock : Z -> Z) (d : dpdk)
  (create : pool -> bool).

#[local] Abbreviation read := (read_options tok cache_max en master rss_ip rss_udp min_len max_len mbuf_size fopen sock d).
#[local] Abbreviation run := (main tok cache_max en master rss_ip rss_udp min_len max_len mbuf_size fopen sock d create).
#[local] Abbreviation built := (dpdk_ok cache_max en rss_ip rss_udp min_len max_len mbuf_size sock).

(** The number of devices that were found. *)
Definition nb_found : Z := u8 (dev_count d []).

(** The variables when the options have been read. *)
Record options_read (g : globals) : Prop := {
  or_ok : globals_ok en master cache_max min_len g;
  or_sockets : 1 <= lc_max_socket (cores (sets g)) <= RTE_MAX_NUMA_NODES;
  or_nb : 0 <= nb_found <= 32 /\ nb_ports (port_state g) = nb_found;
  or_ports : forall pi, 0 <= pi < 32 -> zget (ports (port_state g)) pi = Some (with_enabled (pi <? nb_found) zero_port);
  or_calls : calls (port_state g) = [];
  or_test_done : test_done (port_state g) = true;
}.

Lemma read_options_ok argv g (Hok : built) : read argv = Done g -> options_read g.
Proof.
  unfold read_options. intros (l & El & (g1 & E1 & E)%outcome_bind_Done)%outcome_bind_Done.
  apply init_port_spec in El as [Hnb Hl]. apply outcome_bind_Done in E as (u & Eu & E).
  destruct (Z.eqb_spec (nb_lcores (cores (sets g1))) 0) as [|Hlc]; [done|]. clear u Eu.
  destruct (set_def_ok cache_max en master rss_ip rss_udp min_len max_len mbuf_size sock Hok _ _ _ E1 Hlc)
    as (G1 & S1 & P1 & N1 & C1 & T1 & _). pose proof (u8_range (dev_count d [])).
  assert (Hg : same_found g1 g /\ globals_ok en master cache_max min_len g).
  { destruct (1 <? length argv)%nat; [|injection E as <-; by split].
    destruct Hok. destruct (parse_keeps tok cache_max en master rss_ip rss_udp min_len max_len fopen
      do_en0 ltac:(lia) do_ip0 do_udp0 ltac:(lia) _ _ _ E) as [Hf Hk]. split; [exact Hf|by apply Hk]. }
  destruct Hg as [F G]. unfold port_state in *. constructor; unfold port_state; [done|..].
  - by rewrite (sp_max_socket _ _ F).
  - rewrite (sp_nb _ _ F), N1. unfold nb_found. split; [lia|done].
  - intros pi Hpi. rewrite (sp_ports _ _ F), P1. by apply Hl.
  - by rewrite (sp_calls _ _ F).
  - by rewrite (sp_test_done _ _ F).
Qed.

Lemma options_read_enabled g pi p :
  options_read g -> zget (ports (port_state g)) pi = Some p -> length (ports (port_state g)) = 32%nat ->
  enabled p = true -> 0 <= pi < nb_found.
Proof.
  intros Hg Hp Hl He. pose proof (zget_nonneg _ _ _ Hp) as H0. assert (pi < 32).
  { apply zget_Some in Hp as [_ Hp]. apply lookup_lt_Some in Hp. lia. }
  rewrite (or_ports _ Hg) in Hp by lia. injection Hp as <-. cbn in He. by apply Z.ltb_lt in He.
Qed.

(** The results of the phases. *)
Lemma main_phases argv r :
  run (Some argv) = Done r ->
  exists g0 g1 st, read argv = Done g0 /\
    init_config sock d create g0 = Done (g1, su_pools r, su_lcore_pools r) /\
    start_port (with_pools (su_pools r) d) (config_of g1) RTE_PORT_ALL (port_state g1) = (0, st) /\
    config_of (su_globals r) = config_of g1 /\
    exists l, calls (port_state (su_globals r)) = l ++ calls st /\ Forall call_pooled l.
Proof.
  unfold main. intros (g0 & E0 & ([[g1 pools] mbps] & E1 & E)%outcome_bind_Done)%outcome_bind_Done.
  destruct (start_port _ _ _ _) as [k st] eqn:E2. apply outcome_bind_Done in E as (u & Eu & E).
  destruct (Z.eqb_spec k 0) as [->|]; [|done]. injection E as <-. exists g0, g1, st. cbn [su_pools su_lcore_pools su_globals].
  split_and!; try done. cbn [port_state set_port_state sets set_sets portst with_portst].
  generalize (port_ids (ports st)) as l. intros l. clear E2. revert st. induction l as [|pi l IH]; intros st; [by exists []|].
  cbn [foldl]. destruct (IH (dpdk_do d (PromiscuousEnable pi) st).2) as (l' & Hl' & Hf).
  exists (l' ++ [PromiscuousEnable pi]). split; [etransitivity; [exact Hl'|]; cbn; by rewrite <- app_assoc|].
  apply Forall_app. split; [done|]. by apply Forall_singleton.
Qed.

(** The sockets of the rings. *)
Lemma socket_at_ok ms l i : sockets_ok ms l -> socket_at l i <> NUMA_NO_CONFIG -> 0 <= socket_at l i < ms.
Proof.
  intros [_ Ha] Hn. unfold socket_at in *. destruct (zget l i) as [s|] eqn:E; [|done]. cbn [default] in *.
  apply zget_Some in E as [_ E]. rewrite Forall_lookup in Ha. destruct (Ha _ _ E) as [?|?]; [done|done].
Qed.

Lemma port_socket_pooled g d' pi : options_read g -> pooled_socket g (port_socket d' (config_of g) pi).
Proof.
  intros Hg. pose proof (or_sockets _ Hg) as Hs. pose proof (go_numa_ports _ _ _ _ _ (or_ok _ Hg)) as Hp.
  unfold pooled_socket, port_socket. cbn [config_of PortState.numa_support port_numa max_socket PortState.socket_num].
  destruct (Z.eqb_spec (var g Var.numa_support) 0); cbn [negb]; [done|].
  destruct (Z.eqb_spec (socket_at (numa_ports g) pi) NUMA_NO_CONFIG) as [|Hn]; cbn [negb].
  - pose proof (u32_range (dev_socket_id d' pi)). cbv zeta. destruct (Z.leb_spec (lc_max_socket (cores (sets g))) (u32 (dev_socket_id d' pi))); lia.
  - by apply socket_at_ok.
Qed.

Lemma ring_socket_pooled g pi :
  options_read g -> PortState.numa_support (config_of g) = true -> rxring_numa (config_of g) pi <> NUMA_NO_CONFIG ->
  pooled_socket g (rxring_numa (config_of g) pi).
Proof.
  intros Hg Hn Hr. unfold pooled_socket. cbn [config_of PortState.numa_support rxring_numa] in *.
  destruct (var g Var.numa_support =? 0); [done|]. apply socket_at_ok; [|done]. apply Hg.
Qed.

Lemma main_vars argv r :
  run (Some argv) = Done r -> exists g, read argv = Done g /\ forall v, var (su_globals r) v = var g v.
Proof.
  unfold main. intros (g0 & E0 & ([[g1 pools] mbps] & E1 & E)%outcome_bind_Done)%outcome_bind_Done.
  destruct (start_port _ _ _ _) as [k st] eqn:E2. apply outcome_bind_Done in E as (u & Eu & E). injection E as <-.
  exists g0. split; [done|]. intros v. cbn [su_globals]. unfold init_config in E1.
  apply outcome_bind_Done in E1 as (p0 & _ & (s1 & _ & (p1 & _ & E1)%outcome_bind_Done)%outcome_bind_Done).
  cbv zeta in E1. destruct (init_fwd_streams _ _ _) as [[] s2]; [|done]. by injection E1 as <- _ _.
Qed.

Lemma init_config_phases g g' r :
  init_config sock d create g = Done (g', su_pools r, su_lcore_pools r) ->
  exists pools0, uma_pool create g = Done pools0 /\ numa_pools create g pools0 = Done (su_pools r) /\
    config_of g' = config_of g /\ calls (port_state g') = calls (port_state g) /\
    su_lcore_pools r = lcore_pool sock (su_pools r) <$>
      take (Z.to_nat (nb_lcores (cores (sets g)))) (fwd_lcores_cpuids (cores (sets g))).
Proof.
  unfold init_config. intros (p0 & P0 & (s1 & E1 & (p1 & P1 & E)%outcome_bind_Done)%outcome_bind_Done)%outcome_bind_Done.
  destruct (config_ports_spec _ _ _ _ _ _ E1 (port_ids_nodup _) (port_ids_nonneg _)) as [I1 _].
  cbv zeta in E. destruct (init_fwd_streams _ _ _) as [b s2] eqn:E2. destruct b; [|done].
  pose proof (init_fwd_streams_idle _ _ _ _ _ E2) as I2. injection E as <- <- <-. exists p0. split_and!; try done.
  cbn. rewrite (proj1 I2), (proj1 (init_port_config_idle _ _)). apply (proj1 I1).
Qed.

(** ** Properties *)

(** C9: when the program has started, the device of every port that was found
    has been told what the options on the command line ask for: its numbers of
    queues, the receive mode and hash functions, and every queue with the
    number of descriptors and the thresholds, or the default of the device
    where an option is not given. *)
Theorem startup_tells_devices argv r (Hok : built) (Hrun : run (Some argv) = Done r) :
  exists g, read argv = Done g /\ config_of (su_globals r) = config_of g /\
    let c := config_of g in
    forall pi, 0 <= pi < nb_found ->
      device_told c pi (init_one_config (nb_rxq c) (g_rss_hf c) (g_rx_mode c) (g_vlan_filter c) (g_thresholds c)
                          (dev_info_get d pi) (pconf zero_port)) (calls (port_state (su_globals r))).
Proof.
  apply main_phases in Hrun as (g0 & g1 & st & E0 & E1 & E2 & Hcfg & l & Hl & _). exists g0. split; [done|].
  pose proof (read_options_ok _ _ Hok E0) as Hg. destruct (or_nb _ Hg) as [Hnb _].
  assert (Hcfg1 : config_of g1 = config_of g0).
  { unfold init_config in E1. apply outcome_bind_Done in E1 as (p0 & _ & (s1 & _ & (p1 & _ & E1)%outcome_bind_Done)%outcome_bind_Done).
    cbv zeta in E1. destruct (init_fwd_streams _ _ _) as [[] s2]; [|done]. by injection E1 as <- _ _. }
  split; [congruence|]. intros c pi Hpi.
  assert (Hp : zget (ports (port_state g0)) pi = Some (with_enabled (pi <? nb_found) zero_port)) by (apply Hg; lia).
  assert (He : enabled (with_enabled (pi <? nb_found) zero_port) = true) by (apply Z.ltb_lt; lia).
  destruct (init_config_port _ _ _ _ _ _ _ _ _ E1 Hp He) as (_ & (_ & Htd & _) & so & Hp1).
  assert (Ht : exists l', calls st = l' ++ calls (port_state g1) /\ device_told c pi (init_one_config (nb_rxq c)
      (g_rss_hf c) (g_rx_mode c) (g_vlan_filter c) (g_thresholds c) (dev_info_get d pi) (pconf zero_port)) l').
  { rewrite Hcfg1 in E2. refine (start_port_told _ _ _ _ _ pi _ E2 _ eq_refl (or_intror eq_refl) Hp1 He eq_refl eq_refl eq_refl).
    by rewrite Htd, (or_test_done _ Hg). }
  destruct Ht as (l' & Hl' & Ht). rewrite Hl, Hl'. apply device_told_app. left. apply device_told_app. by right.
Qed.

(** C25: when the program has started with fewer than 2^27 packet buffers, no
    receive queue has been set up without a pool of buffers: the pools cover
    the socket of every port and of every ring.  With NUMA, and without a
    socket chosen for the pool, every forwarding core has a pool as well. *)
Theorem startup_pools argv r (Hok : built) (Hrun : run (Some argv) = Done r)
    (Hbuf : var (su_globals r) Var.param_total_num_mbufs < 2 ^ 27) :
  Forall call_pooled (calls (port_state (su_globals r))) /\
  (var (su_globals r) Var.numa_support <> 0 \/ var (su_globals r) Var.socket_num = UMA_NO_CONFIG ->
    Forall (fun o => o <> None) (su_lcore_pools r)).
Proof.
  pose proof Hrun as Hvar. apply main_vars in Hvar as (g & E0 & Hvar). rewrite !Hvar in *.
  apply main_phases in Hrun as (g0 & g1 & st & E0' & E1 & E2 & _ & l & Hl & Hfl). rewrite E0 in E0'. injection E0' as <-.
  pose proof (read_options_ok _ _ Hok E0) as Hg. destruct (or_nb _ Hg) as [Hnb Hnb'].
  destruct (init_config_phases _ _ _ E1) as (pools0 & P0 & P1 & Hcfg & Hcalls & ->).
  assert (Hfind : forall s, pooled_socket g s -> mbuf_pool_find (su_pools r) s = true).
  { refine (pools_found cache_max en master rss_ip rss_udp min_len max_len mbuf_size sock create Hok g pools0 _ _ Hbuf _ _ P0 P1);
      [apply Hg|lia..]. }
  split.
  - rewrite Hl. apply Forall_app. split; [exact Hfl|].
    eapply start_port_pooled; [exact E2|by rewrite Hcalls, (or_calls _ Hg)|..]; rewrite Hcfg.
    + intros pi _. by apply Hfind, port_socket_pooled.
    + intros Hn pi Hr. by apply Hfind, ring_socket_pooled.
  - intros Hn. apply Forall_fmap, Forall_true. intros i. unfold lcore_pool. cbn [compose].
    rewrite (Hfind 0); [by destruct (mbuf_pool_find _ _)|]. unfold pooled_socket.
    pose proof (or_sockets _ Hg). destruct (Z.eqb_spec (var g Var.numa_support) 0); [|lia].
    destruct Hn as [?|Hn]; [done|]. by rewrite Hn.
Qed.
End Main.

Lemma check_loop_spec link pids n count :
  (0 < n)%nat -> (n + count = S MAX_CHECK_TIME)%nat -> (count < MAX_CHECK_TIME)%nat ->
  exists k m, check_loop link pids n count false = replicate k Delay ++ ((fun pid => Printed pid (link m pid)) <$> pids) /\
    (forall j, (count <= j < count + k)%nat -> forallb (link j) pids = false) /\
    ((m = S (count + k) /\ (count + k < MAX_CHECK_TIME)%nat /\ forallb (link (count + k)%nat) pids = true) \/
     (m = count + k /\ m = MAX_CHECK_TIME)%nat).
Proof.
  revert count. induction n as [|n IH]; intros count Hn Hc Hlt; [lia|]. cbn [check_loop]. cbv zeta.
  destruct (forallb (link count) pids) eqn:Hup; cbn [orb app].
  - destruct n as [|n]; [unfold MAX_CHECK_TIME in *; lia|]. cbn [check_loop]. exists 0%nat, (S count).
    rewrite Nat.add_0_r. split; [done|]. split; [intros j Hj; lia|]. by left.
  - destruct (Nat.eqb_spec count (MAX_CHECK_TIME - 1)) as [Hl|Hl].
    + destruct n as [|n]; [unfold MAX_CHECK_TIME in *; lia|]. cbn [check_loop]. exists 1%nat, (S count).
      split; [done|]. split; [intros j Hj; replace j with count by lia; done|]. right. unfold MAX_CHECK_TIME in *. lia.
    + destruct (IH (S count)) as (k & m & E & Hj & Hm); [unfold MAX_CHECK_TIME in *; lia..|].
      exists (S k), m. cbn [replicate app]. rewrite E. split; [done|]. split.
      * intros j Hjk. destruct (decide (j = count)) as [->|]; [done|]. apply Hj. lia.
      * by replace (count + S k)%nat with (S count + k)%nat by lia.
Qed.

(** The check of the links ends: it waits 100 ms after every pass in
    which a link is down, at most 90 times, and then prints the state of each
    selected port once, in the pass after the first in which all links are
    up. *)
Theorem link_check_prints link port_mask l :
  let pids := masked_ports port_mask l in
  exists k m, check_all_ports_link_status link port_mask l =
      replicate k Delay ++ ((fun pid => Printed pid (link m pid)) <$> pids) /\
    (k <= MAX_CHECK_TIME)%nat /\ (forall j, (j < k)%nat -> forallb (link j) pids = false) /\
    (m = S k /\ forallb (link k) pids = true \/ m = k /\ k = MAX_CHECK_TIME).
Proof.
  intros pids. destruct (check_loop_spec link pids (S MAX_CHECK_TIME) 0) as (k & m & E & Hj & Hm);
    [unfold MAX_CHECK_TIME; lia..|]. exists k, m. split; [exact E|]. cbn [Nat.add] in *.
  split; [lia|]. split; [intros j Hjk; apply Hj; lia|]. destruct Hm as [(-> & _ & ?)|[-> ?]]; [by left|by right].
Qed.

(** ** Examples *)

(** A machine with two sockets of two cores and one or more devices. *)
Definition sample_socket (i : Z) : Z := i mod 2.
Definition sample_devices (n : Z) : dpdk :=
  Dpdk (fun _ => 0) (fun _ => 0) (fun _ => n) (fun _ => 1) (fun _ => sample_info) (fun _ => false).
#[local] Abbreviation sample_main devices args :=
  (@main sample_text 128 512 sample_enabled 0 3 5 64 1518 2048 (fun _ => None) sample_socket (sample_devices devices)
    (fun _ => true) (Some ("testpmd"%string :: args))).

#[local] Abbreviation sample_read devices args :=
  (@read_options sample_text 128 512 sample_enabled 0 3 5 64 1518 2048 (fun _ => None) sample_socket (sample_devices devices)
    ("testpmd"%string :: args)).

Lemma sample_built : dpdk_ok 512 sample_enabled 3 5 64 1518 2048 sample_socket.
Proof.
  constructor; try lia.
  - intros i. unfold sample_enabled, RTE_MAX_LCORE. lia.
  - intros i. unfold sample_socket. pose proof (Z.mod_pos_bound i 2 ltac:(lia)). lia.
Qed.

(** What a start-up leaves of a result. *)
Definition of_done {A B} (f : A -> B) (o : outcome A) : option B :=
  match o with Done x => Some (f x) | _ => None end.

Lemma startup_tells_devices_witness :
  match sample_main 2 ["--rxq=2"; "--txd=256"]%string with
  | Done r => exists so, TxQueueSetup 1 0 256 so (TxConf 32 0 0 0 0 0) ∈ calls (port_state (su_globals r))
  | _ => False
  end.
Proof.
  assert (Hdone : of_done (fun _ => tt) (sample_main 2 ["--rxq=2"; "--txd=256"]%string) = Some tt) by (vm_compute; reflexivity).
  destruct (sample_main 2 _) as [r| |] eqn:E; [|discriminate Hdone..].
  destruct (@startup_tells_devices sample_text 128 512 sample_enabled 0 3 5 64 1518 2048 (fun _ => None) sample_socket
    (sample_devices 2) (fun _ => true) _ _ sample_built E) as (g & Eg & _ & Ht).
  assert (Hread : forall A (f : globals -> A) x, of_done f (sample_read 2 ["--rxq=2"; "--txd=256"]%string) = Some x -> f g = x).
  { intros A f x Hf. rewrite Eg in Hf. by injection Hf as <-. }
  assert (Hd : nb_txd (config_of g) = 256) by (apply (Hread _ (fun g => nb_txd (config_of g))); vm_compute; reflexivity).
  assert (Hq : nb_txq (config_of g) = 1) by (apply (Hread _ (fun g => nb_txq (config_of g))); vm_compute; reflexivity).
  assert (Hth : g_thresholds (config_of g) = no_thresholds)
    by (apply (Hread _ (fun g => g_thresholds (config_of g))); vm_compute; reflexivity).
  destruct (Ht 1) as [_ Htx _]; [vm_compute; split; [discriminate|reflexivity]|].
  destruct (Htx 0) as (so & Hso); [cbv zeta; rewrite Hq; split; [discriminate|reflexivity]|].
  exists so. cbv zeta in Hso. rewrite Hd, Hth in Hso. exact Hso.
Defined.

Lemma startup_pools_witness :
  match sample_main 2 ["--numa"; "--total-num-mbufs=8192"]%string with
  | Done r => Forall call_pooled (calls (port_state (su_globals r))) /\ Forall (fun o => o <> None) (su_lcore_pools r)
  | _ => False
  end.
Proof.
  assert (Hdone : of_done (fun r => (var (su_globals r) Var.param_total_num_mbufs, var (su_globals r) Var.numa_support))
    (sample_main 2 ["--numa"; "--total-num-mbufs=8192"]%string) = Some (8192, 1)) by (vm_compute; reflexivity).
  destruct (sample_main 2 _) as [r| |] eqn:E; [|discriminate Hdone..]. injection Hdone as Hb Hn.
  destruct (@startup_pools sample_text 128 512 sample_enabled 0 3 5 64 1518 2048 (fun _ => None) sample_socket
    (sample_devices 2) (fun _ => true) _ _ sample_built E) as [H1 H2].
  - rewrite Hb. reflexivity.
  - split; [exact H1|]. apply H2. left. rewrite Hn. discriminate.
Defined.

(** With 2^27 buffers for one device the number of a pool wraps to 0 and no
    pool is created: the receive queue is set up without one. *)
Lemma too_many_buffers :
  match sample_main 1 ["--numa"; "--total-num-mbufs=134217728"]%string with
  | Done r => su_pools r = [] /\ su_lcore_pools r = [None; None; None] /\
      exists c, RxQueueSetup 0 0 128 1 c false ∈ calls (port_state (su_globals r))
  | _ => False
  end.
Proof.
  vm_compute. split; [done|]. split; [done|]. eexists. do 2 right. left.
Qed.

(** A pool on socket 1 only: the cores of socket 0 have none. *)
Lemma cores_without_pool :
  match sample_main 1 ["--socket-num=1"]%string with
  | Done r => su_lcore_pools r = [Some 1; None; Some 1]
  | _ => False
  end.
Proof. vm_compute. reflexivity. Qed.

(** Without devices the number of buffers is divided by 0. *)
Lemma no_devices : sample_main 0 ["--numa"; "--total-num-mbufs=8192"]%string = Undefined.
Proof. vm_compute. reflexivity. Qed.
