(* ===== verification/McastPool.v ===== *)
(** * test-pmd/config.c: pools of multicast addresses

    Every port keeps the multicast addresses it filters at the front of an
    array, which grows by [realloc] in steps of 32 entries and is compacted
    with [memmove] when an address is removed.  The contents refine a list
    without duplicates, and the device has always been told the list. *)

From stdpp Require Import strings.
From S2P Require Import Prelude Packet PortConf PortState.

#[local] Open Scope Z_scope.
#[local] Open Scope list_scope.

(** ** Data *)

(** The six bytes of an address. *)
Abbreviation ether_addr := (list Z).

Definition MCAST_POOL_INC : Z := 32.

(** The fields [mc_addr_pool] and [mc_addr_nb] of a port. *)
Record mc_port : Type := McPort { mc_addr_pool : option (list ether_addr); mc_addr_nb : Z }.

(** [rte_eth_dev_set_mc_addr_list] *)
Record mc_call : Type := SetMcAddrList { ml_port : Z; ml_addrs : list ether_addr }.

Record mc_state : Type := McState { mc_ports : list mc_port; mc_calls : list mc_call }.

(** ** Definitions *)

Section Pool.
(** Whether memory for so many entries can be had, and what is in memory
    that was not written to. *)
Variables (grows : Z -> bool) (junk : ether_addr) (st : pstate).

(** [realloc] to [n] entries keeps the old ones. *)
Definition realloc (pool : option (list ether_addr)) (n : Z) : option (list ether_addr) :=
  let old := default [] pool in
  if grows n then Some (take (Z.to_nat n) old ++ replicate (Z.to_nat n - length old) junk) else None.

Definition mcast_addr_pool_extend (p : mc_port) : outcome (bool * mc_port) :=
  let nb := mc_addr_nb p in
  if negb (nb mod MCAST_POOL_INC =? 0) then Done (true, McPort (mc_addr_pool p) (u32 (nb + 1)))
  else
    let n := u32 (nb + MCAST_POOL_INC) in
    _ ← c_defined (negb (n =? 0));
    match realloc (mc_addr_pool p) n with
    | None => Done (false, p)
    | Some pool => Done (true, McPort (Some pool) (u32 (nb + 1)))
    end.

Definition mcast_addr_pool_remove (p : mc_port) (addr_idx : Z) : outcome mc_port :=
  let nb := u32 (mc_addr_nb p - 1) in
  if addr_idx =? nb then Done (McPort (if nb =? 0 then None else mc_addr_pool p) nb)
  else
    pool ← of_opt (mc_addr_pool p);
    let i := Z.to_nat addr_idx in
    let n := Z.to_nat (nb - addr_idx) in
    _ ← c_defined (S i + n <=? length pool)%nat;
    Done (McPort (Some (take i pool ++ take n (drop (S i) pool) ++ drop (i + n) pool)) nb).

(** The search of an address from the index [i] on: its index, or the number
    of addresses. *)
Fixpoint mc_find (n : nat) (i : Z) (mc_addr : ether_addr) (pool : list ether_addr) : outcome Z :=
  match n with
  | O => Done i
  | S n =>
      a ← of_opt (zget pool i);
      if bool_decide (a = mc_addr) then Done i else mc_find n (i + 1) mc_addr pool
  end.

Definition eth_port_multicast_addr_list_set (port_id : Z) (p : mc_port) (s : mc_state) : outcome mc_state :=
  ports ← of_opt (zset (mc_ports s) port_id p);
  Done (McState ports (SetMcAddrList port_id (take (Z.to_nat (mc_addr_nb p)) (default [] (mc_addr_pool p))) :: mc_calls s)).

Definition mcast_addr_add (port_id : Z) (mc_addr : ether_addr) (s : mc_state) : outcome mc_state :=
  if port_id_is_invalid port_id st then Done s
  else
    p ← of_opt (zget (mc_ports s) port_id);
    i ← mc_find (Z.to_nat (mc_addr_nb p)) 0 mc_addr (default [] (mc_addr_pool p));
    if i <? mc_addr_nb p then Done s
    else
      '(ok, p) ← mcast_addr_pool_extend p;
      if negb ok then Done s
      else
        pool ← of_opt (mc_addr_pool p);
        pool ← of_opt (zset pool i mc_addr);
        eth_port_multicast_addr_list_set port_id (McPort (Some pool) (mc_addr_nb p)) s.

Definition mcast_addr_remove (port_id : Z) (mc_addr : ether_addr) (s : mc_state) : outcome mc_state :=
  if port_id_is_invalid port_id st then Done s
  else
    p ← of_opt (zget (mc_ports s) port_id);
    i ← mc_find (Z.to_nat (mc_addr_nb p)) 0 mc_addr (default [] (mc_addr_pool p));
    if i =? mc_addr_nb p then Done s
    else p ← mcast_addr_pool_remove p i; eth_port_multicast_addr_list_set port_id p s.

(** The command "mcast_addr add|remove": only multicast addresses, which have
    the lowest bit of their first byte set. *)
Definition is_multicast_ether_addr (a : ether_addr) : bool :=
  match a with b :: _ => negb (Z.land b 1 =? 0) | [] => false end.

Record mcast_cmd : Type := McastCmd { mcmd_what : string; mcmd_port : Z; mcmd_addr : ether_addr }.

Definition cmd_mcast_addr_parsed (cmd : mcast_cmd) (s : mc_state) : outcome mc_state :=
  if negb (is_multicast_ether_addr (mcmd_addr cmd)) then Done s
  else if bool_decide (mcmd_what cmd = "add"%string) then mcast_addr_add (mcmd_port cmd) (mcmd_addr cmd) s
  else mcast_addr_remove (mcmd_port cmd) (mcmd_addr cmd) s.

Fixpoint run_mcast_cmds (cmds : list mcast_cmd) (s : mc_state) : outcome mc_state :=
  match cmds with
  | [] => Done s
  | cmd :: cmds => s ← cmd_mcast_addr_parsed cmd s; run_mcast_cmds cmds s
  end.

(** ** Specification *)

(** The addresses a port filters. *)
Definition contents (p : mc_port) : list ether_addr := take (Z.to_nat (mc_addr_nb p)) (default [] (mc_addr_pool p)).

(** What a command does to them.  An addition may fail for want of memory
    when the pool is full. *)
Inductive mcast_effect (cmd : mcast_cmd) (l : list ether_addr) : list ether_addr -> Prop :=
| EffectAdd : is_multicast_ether_addr (mcmd_addr cmd) = true -> mcmd_what cmd = "add"%string ->
    mcmd_addr cmd ∉ l -> mcast_effect cmd l (l ++ [mcmd_addr cmd])
| EffectFull : mcmd_what cmd = "add"%string -> mcmd_addr cmd ∉ l ->
    Z.of_nat (length l) mod MCAST_POOL_INC = 0 -> grows (Z.of_nat (length l) + MCAST_POOL_INC) = false ->
    mcast_effect cmd l l
| EffectKnown : mcmd_what cmd = "add"%string -> mcmd_addr cmd ∈ l -> mcast_effect cmd l l
| EffectRemove : is_multicast_ether_addr (mcmd_addr cmd) = true -> mcmd_what cmd <> "add"%string ->
    mcast_effect cmd l (filter (fun a => a <> mcmd_addr cmd) l)
| EffectRefused : is_multicast_ether_addr (mcmd_addr cmd) = false -> mcast_effect cmd l l.

(** A sequence of commands on one port; those for other ports do nothing. *)
Inductive mcast_effects (port : Z) : list mcast_cmd -> list ether_addr -> list ether_addr -> Prop :=
| EffectsNil l : mcast_effects port [] l l
| EffectsOther cmd cmds l l' : mcmd_port cmd <> port -> mcast_effects port cmds l l' ->
    mcast_effects port (cmd :: cmds) l l'
| EffectsCons cmd cmds l l1 l' : mcmd_port cmd = port -> mcast_effect cmd l l1 -> mcast_effects port cmds l1 l' ->
    mcast_effects port (cmd :: cmds) l l'.

(** A pool: it has room for its addresses up to the next multiple of 32, it
    is freed when empty, and its addresses are distinct. *)
Record mc_port_ok (p : mc_port) : Prop := {
  mp_nb : 0 <= mc_addr_nb p;
  mp_room : (mc_addr_nb p + MCAST_POOL_INC - 1) / MCAST_POOL_INC * MCAST_POOL_INC
              <= Z.of_nat (length (default [] (mc_addr_pool p)));
  mp_freed : mc_addr_nb p = 0 <-> mc_addr_pool p = None;
  mp_nodup : NoDup (contents p);
}.

(** What the device of a port was told last. *)
Definition told (l : list mc_call) (port : Z) : list ether_addr :=
  match List.find (fun k => ml_port k =? port) l with Some k => ml_addrs k | None => [] end.

Record mc_ok (s : mc_state) : Prop := {
  ms_ports : Forall mc_port_ok (mc_ports s);
  ms_told : forall i p, zget (mc_ports s) i = Some p -> told (mc_calls s) i = contents p;
}.
End Pool.

(** ** Lemmas *)

Lemma filter_all {A} (P : A -> Prop) `{forall x, Decision (P x)} l : Forall P l -> filter P l = l.
Proof. induction 1 as [|x l Hx Hl IH]; [done|]. rewrite filter_cons_True by done. by rewrite IH. Qed.

(** Removing the only occurrence of an entry. *)
Lemma filter_remove (l : list ether_addr) i a :
  NoDup l -> l !! i = Some a -> filter (fun x => x <> a) l = take i l ++ drop (S i) l.
Proof.
  intros Hnd Hi. rewrite <- (take_drop_middle l i a Hi) at 1. rewrite <- (take_drop_middle l i a Hi) in Hnd.
  apply NoDup_app in Hnd as (_ & Hn & [Ha _]%NoDup_cons).
  rewrite filter_app, filter_cons_False by (intros H; by apply H).
  f_equal; apply filter_all; apply Forall_forall; intros x Hx ->.
  - apply (Hn a Hx). left.
  - done.
Qed.

Lemma mc_find_spec n i a pool :
  0 <= i -> (Z.to_nat i + n <= length pool)%nat ->
  exists k, mc_find n i a pool = Done (i + Z.of_nat k) /\ (k <= n)%nat /\
    (forall j, (j < k)%nat -> pool !! (Z.to_nat i + j)%nat <> Some a) /\
    (k < n -> pool !! (Z.to_nat i + k) = Some a)%nat.
Proof.
  revert i. induction n as [|n IH]; intros i Hi Hl; cbn [mc_find].
  { exists 0%nat. split; [f_equal; lia|]. split; [lia|]. split; intros; lia. }
  destruct (lookup_lt_is_Some_2 pool (Z.to_nat i)) as [b Hb]; [lia|].
  assert (Hz : zget pool i = Some b) by (by apply zget_Some). rewrite Hz. cbn [of_opt mbind outcome_bind].
  destruct (bool_decide_reflect (b = a)) as [->|Hne].
  - exists 0%nat. split; [f_equal; lia|]. split; [lia|]. split; [intros; lia|]. intros _. by rewrite Nat.add_0_r.
  - destruct (IH (i + 1)) as (k & E & Hk & Hno & Hyes); [lia|lia|]. exists (S k). split; [rewrite E; f_equal; lia|].
    split; [lia|]. replace (Z.to_nat (i + 1)) with (S (Z.to_nat i)) in * by lia. split.
    + intros [|j] Hj; [rewrite Nat.add_0_r; congruence|]. rewrite Nat.add_succ_r. apply (Hno j). lia.
    + intros Hkn. rewrite Nat.add_succ_r. apply Hyes. lia.
Qed.

(** The number of entries allocated for [n] addresses. *)
Definition room (n : Z) : Z := (n + MCAST_POOL_INC - 1) / MCAST_POOL_INC * MCAST_POOL_INC.

Lemma room_bounds n : n <= room n /\ room n <= n + 31.
Proof.
  unfold room, MCAST_POOL_INC. pose proof (Z.div_mod (n + 32 - 1) 32 ltac:(lia)).
  pose proof (Z.mod_pos_bound (n + 32 - 1) 32 ltac:(lia)). lia.
Qed.

Lemma room_succ n : n mod MCAST_POOL_INC <> 0 -> room (n + 1) = room n.
Proof.
  unfold room, MCAST_POOL_INC. intros Hn. f_equal. pose proof (Z.div_mod n 32 ltac:(lia)).
  pose proof (Z.mod_pos_bound n 32 ltac:(lia)).
  rewrite <- (Z.div_unique (n + 1 + 32 - 1) 32 (n / 32 + 1) (n mod 32)) by lia.
  rewrite <- (Z.div_unique (n + 32 - 1) 32 (n / 32 + 1) (n mod 32 - 1)) by lia. done.
Qed.

Lemma room_full n : n mod MCAST_POOL_INC = 0 -> room (n + 1) = n + MCAST_POOL_INC.
Proof.
  unfold room, MCAST_POOL_INC. intros Hn. pose proof (Z.div_mod n 32 ltac:(lia)).
  rewrite <- (Z.div_unique (n + 1 + 32 - 1) 32 (n / 32 + 1) 0) by lia. lia.
Qed.

Section Ops.
Context (grows : Z -> bool) (junk : ether_addr).

Lemma contents_length p : mc_port_ok p -> Z.of_nat (length (contents p)) = mc_addr_nb p.
Proof.
  intros [H0 Hr _ _]. unfold contents. rewrite length_take. fold (room (mc_addr_nb p)) in Hr.
  pose proof (room_bounds (mc_addr_nb p)). lia.
Qed.

(** The search on a pool. *)
Lemma find_in_port p a :
  mc_port_ok p ->
  exists k, mc_find (Z.to_nat (mc_addr_nb p)) 0 a (default [] (mc_addr_pool p)) = Done (Z.of_nat k) /\
    (Z.of_nat k <= mc_addr_nb p) /\
    (Z.of_nat k < mc_addr_nb p -> contents p !! k = Some a) /\ (Z.of_nat k = mc_addr_nb p <-> a ∉ contents p).
Proof.
  intros Hp. pose proof (contents_length p Hp) as Hl. pose proof (mp_nb p Hp) as H0. unfold contents in *.
  rewrite length_take in Hl.
  destruct (mc_find_spec (Z.to_nat (mc_addr_nb p)) 0 a (default [] (mc_addr_pool p))) as (k & E & Hk & Hno & Hyes); [lia|lia|].
  exists k. change (Z.to_nat 0) with 0%nat in *. cbn [Nat.add] in *. split; [exact E|]. split; [lia|].
  assert (Hat : Z.of_nat k < mc_addr_nb p -> take (Z.to_nat (mc_addr_nb p)) (default [] (mc_addr_pool p)) !! k = Some a).
  { intros Hlt. rewrite lookup_take_lt by lia. apply Hyes. lia. }
  split; [exact Hat|]. split.
  - intros Hkn [j Hj]%list_elem_of_lookup. pose proof (lookup_lt_Some _ _ _ Hj) as Hlt. rewrite length_take in Hlt.
    rewrite lookup_take_lt in Hj by lia. apply (Hno j); [lia|done].
  - intros Hn. destruct (decide (Z.of_nat k < mc_addr_nb p)) as [Hlt|]; [|lia]. exfalso. apply Hn.
    apply list_elem_of_lookup. eauto.
Qed.

(** Adding an address that is not in the pool. *)
Lemma extend_spec p a :
  mc_port_ok p -> mc_addr_nb p + 32 < 2 ^ 32 -> a ∉ contents p ->
  (mc_addr_nb p mod MCAST_POOL_INC = 0 /\ grows (mc_addr_nb p + MCAST_POOL_INC) = false /\
   mcast_addr_pool_extend grows junk p = Done (false, p)) \/
  exists pool, mcast_addr_pool_extend grows junk p = Done (true, McPort (Some pool) (mc_addr_nb p + 1)) /\
    let pool' := <[Z.to_nat (mc_addr_nb p) := a]> pool in
    zset pool (mc_addr_nb p) a = Some pool' /\
    contents (McPort (Some pool') (mc_addr_nb p + 1)) = contents p ++ [a] /\
    mc_port_ok (McPort (Some pool') (mc_addr_nb p + 1)).
Proof.
  intros Hp Hb Ha. pose proof (mp_nb p Hp) as H0. pose proof (mp_room p Hp) as Hr. fold (room (mc_addr_nb p)) in Hr.
  unfold mcast_addr_pool_extend. set (nb := mc_addr_nb p) in *. rewrite (u32_small (nb + 1)) by lia.
  assert (Hfin : forall pool, take (Z.to_nat nb) pool = contents p -> room (nb + 1) <= Z.of_nat (length pool) ->
    let pool' := <[Z.to_nat nb := a]> pool in
    zset pool nb a = Some pool' /\ contents (McPort (Some pool') (nb + 1)) = contents p ++ [a] /\
    mc_port_ok (McPort (Some pool') (nb + 1))).
  { intros pool Ht Hroom pool'. pose proof (room_bounds (nb + 1)) as [Hrb _].
    assert (Hc : contents (McPort (Some pool') (nb + 1)) = contents p ++ [a]).
    { unfold contents at 1. cbn [mc_addr_nb mc_addr_pool default id]. unfold pool'. rewrite Z2Nat.inj_add by lia.
      change (Z.to_nat 1) with 1%nat. rewrite Nat.add_1_r. rewrite (take_S_r _ _ a) by (by apply list_lookup_insert_eq; lia).
      rewrite take_insert_ge by lia. by rewrite Ht. }
    split; [apply zset_insert; lia|]. split; [exact Hc|]. constructor; cbn [mc_addr_nb mc_addr_pool default id].
    - lia.
    - unfold pool'. rewrite length_insert. exact Hroom.
    - split; [lia|done].
    - rewrite Hc. apply NoDup_app. split; [apply Hp|]. split; [|apply NoDup_singleton].
      intros x Hx ->%list_elem_of_singleton. done. }
  destruct (Z.eqb_spec (nb mod MCAST_POOL_INC) 0) as [Hm|Hm]; cbn [negb].
  - change MCAST_POOL_INC with 32 in *. rewrite u32_small by lia.
    destruct (Z.eqb_spec (nb + 32) 0); [lia|]. cbn [negb c_defined mbind outcome_bind].
    unfold realloc. destruct (grows (nb + 32)) eqn:Hg; [|by left].
    right. eexists. split; [done|]. apply Hfin.
    + assert (Hl : (Z.to_nat nb <= length (default [] (mc_addr_pool p)))%nat) by (pose proof (room_bounds nb); lia).
      rewrite take_app_le, take_take by (rewrite length_take; lia). unfold contents. fold nb. f_equal. lia.
    + rewrite room_full by done. unfold MCAST_POOL_INC. rewrite length_app, length_take, length_replicate. lia.
  - right. assert (Hne : nb <> 0) by (intros E; rewrite E in Hm; done).
    destruct (mc_addr_pool p) as [pool|] eqn:Epool; [|by exfalso; apply Hne, (mp_freed p Hp)].
    exists pool. split; [done|]. apply Hfin; [unfold contents; fold nb; by rewrite Epool|]. by rewrite room_succ.
Qed.

(** Removing the address at an index. *)
Lemma remove_spec p i a :
  mc_port_ok p -> mc_addr_nb p < 2 ^ 32 -> contents p !! i = Some a ->
  exists p', mcast_addr_pool_remove p (Z.of_nat i) = Done p' /\
    contents p' = filter (fun x => x <> a) (contents p) /\ mc_port_ok p'.
Proof.
  intros Hp Hb Hi. pose proof (contents_length p Hp) as Hl. pose proof (lookup_lt_Some _ _ _ Hi) as Hlt.
  pose proof (mp_room p Hp) as Hr. fold (room (mc_addr_nb p)) in Hr. pose proof (room_bounds (mc_addr_nb p)) as [Hrb _].
  rewrite (filter_remove _ _ _ (mp_nodup p Hp) Hi). unfold mcast_addr_pool_remove. set (nb := mc_addr_nb p) in *.
  destruct (mc_addr_pool p) as [pool|] eqn:Epool; [|pose proof (proj2 (mp_freed p Hp) Epool); lia]. cbn [default id] in Hr.
  assert (Hc : contents p = take (Z.to_nat nb) pool) by (unfold contents; fold nb; by rewrite Epool).
  rewrite (u32_small (nb - 1)) by lia. assert (Hroom : room (nb - 1) <= room nb).
  { unfold room, MCAST_POOL_INC. pose proof (Z.div_le_mono (nb - 1 + 32 - 1) (nb + 32 - 1) 32 ltac:(lia) ltac:(lia)). lia. }
  assert (Hok : forall p', contents p' = take i (contents p) ++ drop (S i) (contents p) -> mc_addr_nb p' = nb - 1 ->
    (mc_addr_nb p' = 0 <-> mc_addr_pool p' = None) ->
    (mc_addr_nb p' <> 0 -> length (default [] (mc_addr_pool p')) = length pool) -> mc_port_ok p').
  { intros p' Hc' Hn' Hf Hlen. constructor; [lia| |done|].
    - rewrite Hn'. fold (room (nb - 1)). destruct (decide (nb = 1)) as [->|]; [change (room (1 - 1)) with 0; lia|].
      rewrite Hlen by lia. lia.
    - rewrite Hc', <- (filter_remove _ _ _ (mp_nodup p Hp) Hi). apply NoDup_filter, Hp. }
  destruct (Z.eqb_spec (Z.of_nat i) (nb - 1)) as [Hlast|Hlast].
  - eexists. split; [done|]. assert (Hc' : contents (McPort (if nb - 1 =? 0 then None else Some pool) (nb - 1)) =
      take i (contents p) ++ drop (S i) (contents p)).
    { rewrite (drop_ge (contents p)) by lia. rewrite app_nil_r, Hc, take_take. unfold contents. cbn [mc_addr_nb mc_addr_pool].
      destruct (Z.eqb_spec (nb - 1) 0) as [E1|E1]; cbn [default id].
      - assert (i = 0%nat) as -> by lia. by rewrite take_nil.
      - f_equal. lia. }
    split; [exact Hc'|]. apply Hok; [exact Hc'|done|..]; cbn [mc_addr_nb mc_addr_pool];
      destruct (Z.eqb_spec (nb - 1) 0); done.
  - cbn [of_opt mbind outcome_bind]. rewrite Nat2Z.id. assert (Hlp : (Z.to_nat nb <= length pool)%nat) by lia.
    destruct (Nat.leb_spec (S i + Z.to_nat (nb - 1 - Z.of_nat i)) (length pool)); [|lia].
    cbn [c_defined mbind outcome_bind]. eexists. split; [done|]. set (n := Z.to_nat (nb - 1 - Z.of_nat i)).
    set (pool' := take i pool ++ _). assert (Hc' : contents (McPort (Some pool') (nb - 1)) =
      take i (contents p) ++ drop (S i) (contents p)).
    { unfold contents at 1. cbn [mc_addr_nb mc_addr_pool default id]. unfold pool'. rewrite app_assoc, take_app_length'.
      - rewrite Hc, take_take. f_equal; [f_equal; lia|]. rewrite take_drop_commute. do 2 f_equal. lia.
      - rewrite length_app, !length_take, length_drop. lia. }
    split; [exact Hc'|]. apply Hok; [exact Hc'|done|cbn [mc_addr_nb mc_addr_pool]; split; [lia|done]|].
    intros _. cbn [mc_addr_pool default id]. unfold pool'. rewrite !length_app, !length_take, !length_drop. lia.
Qed.
End Ops.

(** ** Lemmas: commands *)

Section Commands.
Context (grows : Z -> bool) (junk : ether_addr) (st : pstate).

(** What is asked of a command: its number is not that of all ports. *)
Definition mcast_cmd_ok (s : mc_state) (cmd : mcast_cmd) : Prop :=
  exists p, zget (mc_ports s) (mcmd_port cmd) = Some p /\ port_id_is_invalid (mcmd_port cmd) st = false.

(** Storing a pool and telling the device keeps the invariant. *)
Lemma list_set_ok port p p' s :
  mc_ok s -> zget (mc_ports s) port = Some p -> mc_port_ok p' ->
  exists s', eth_port_multicast_addr_list_set port p' s = Done s' /\ mc_ok s' /\
    zget (mc_ports s') port = Some p' /\ length (mc_ports s') = length (mc_ports s) /\
    forall i, i <> port -> zget (mc_ports s') i = zget (mc_ports s) i.
Proof.
  intros [Hp Ht] Hz Hp'. pose proof Hz as [H0 Hl%lookup_lt_Some]%zget_Some.
  unfold eth_port_multicast_addr_list_set. rewrite zset_insert by lia. cbn [of_opt mbind outcome_bind].
  eexists. split; [done|]. cbn [mc_ports mc_calls].
  assert (Hsame : zget (<[Z.to_nat port := p']> (mc_ports s)) port = Some p').
  { apply zget_Some. split; [done|]. apply list_lookup_insert_eq. lia. }
  assert (Hother : forall i, i <> port -> zget (<[Z.to_nat port := p']> (mc_ports s)) i = zget (mc_ports s) i).
  { intros i Hi. unfold zget. destruct (Z.leb_spec 0 i); [|done]. apply list_lookup_insert_ne. lia. }
  split; [|split_and!; [done|by rewrite length_insert|done]]. constructor; cbn [mc_ports mc_calls].
  - by apply Forall_insert.
  - intros i q Hq. unfold told. cbn [List.find ml_port]. destruct (Z.eqb_spec port i) as [<-|Hne].
    + rewrite Hsame in Hq. injection Hq as <-. done.
    + rewrite Hother in Hq by done. by apply Ht.
Qed.

Lemma mcast_cmd_spec cmd s p :
  mc_ok s -> zget (mc_ports s) (mcmd_port cmd) = Some p -> port_id_is_invalid (mcmd_port cmd) st = false ->
  mc_addr_nb p + 32 < 2 ^ 32 ->
  exists s' p', cmd_mcast_addr_parsed grows junk st cmd s = Done s' /\ mc_ok s' /\
    zget (mc_ports s') (mcmd_port cmd) = Some p' /\ length (mc_ports s') = length (mc_ports s) /\
    (forall i, i <> mcmd_port cmd -> zget (mc_ports s') i = zget (mc_ports s) i) /\
    mcast_effect grows cmd (contents p) (contents p') /\ mc_addr_nb p' <= mc_addr_nb p + 1.
Proof.
  intros Hs Hz Hv Hb. assert (Hp : mc_port_ok p).
  { destruct Hs as [Hp _]. apply zget_Some in Hz as [_ Hz]. rewrite Forall_lookup in Hp. exact (Hp _ _ Hz). }
  pose proof (mp_nb p Hp) as H0. pose proof (contents_length p Hp) as Hlen.
  assert (Hsame : mcast_effect grows cmd (contents p) (contents p) -> exists s' p', Done s = Done s' /\ mc_ok s' /\
    zget (mc_ports s') (mcmd_port cmd) = Some p' /\ length (mc_ports s') = length (mc_ports s) /\
    (forall i, i <> mcmd_port cmd -> zget (mc_ports s') i = zget (mc_ports s) i) /\
    mcast_effect grows cmd (contents p) (contents p') /\ mc_addr_nb p' <= mc_addr_nb p + 1).
  { intros He. exists s, p. split_and!; try done. lia. }
  unfold cmd_mcast_addr_parsed. destruct (is_multicast_ether_addr (mcmd_addr cmd)) eqn:Hm; cbn [negb];
    [|by apply Hsame, EffectRefused].
  destruct (find_in_port p (mcmd_addr cmd) Hp) as (k & Ek & Hk & Hyes & Hno).
  destruct (bool_decide_reflect (mcmd_what cmd = "add"%string)) as [Hadd|Hrem].
  - unfold mcast_addr_add. rewrite Hv, Hz. cbn [of_opt mbind outcome_bind]. rewrite Ek. cbn [mbind outcome_bind].
    destruct (Z.ltb_spec (Z.of_nat k) (mc_addr_nb p)) as [Hlt|Hge].
    { apply Hsame, EffectKnown; [done|]. apply list_elem_of_lookup. eauto. }
    assert (Hkn : Z.of_nat k = mc_addr_nb p) by lia. pose proof (proj1 Hno Hkn) as Hn.
    destruct (extend_spec grows junk p (mcmd_addr cmd) Hp Hb Hn) as [(Hmod & Hg & ->)|(pool & -> & Hset & Hc & Hok')];
      cbn [mbind outcome_bind negb].
    + apply Hsame, EffectFull; [done|done|by rewrite Hlen|by rewrite Hlen].
    + cbn [mc_addr_pool of_opt mbind outcome_bind]. rewrite Hkn, Hset. cbn [of_opt mbind outcome_bind mc_addr_nb].
      destruct (list_set_ok _ _ _ _ Hs Hz Hok') as (s' & E & Hs' & Hz' & Hl' & Ho). eexists s', _.
      split_and!; [exact E|exact Hs'|exact Hz'|exact Hl'|exact Ho| |done].
      rewrite Hc. by apply EffectAdd.
  - unfold mcast_addr_remove. rewrite Hv, Hz. cbn [of_opt mbind outcome_bind]. rewrite Ek. cbn [mbind outcome_bind].
    destruct (Z.eqb_spec (Z.of_nat k) (mc_addr_nb p)) as [He|Hne].
    { apply Hsame. rewrite <- (filter_all (fun a => a <> mcmd_addr cmd) (contents p)) at 2; [by apply EffectRemove|].
      apply Forall_forall. intros x Hx ->. by apply (proj1 Hno He). }
    destruct (remove_spec p k (mcmd_addr cmd) Hp ltac:(lia) (Hyes ltac:(lia))) as (p' & -> & Hc & Hok').
    cbn [mbind outcome_bind]. destruct (list_set_ok _ _ _ _ Hs Hz Hok') as (s' & E & Hs' & Hz' & Hl' & Ho). exists s', p'.
    split_and!; [exact E|exact Hs'|exact Hz'|exact Hl'|exact Ho|rewrite Hc; by apply EffectRemove|].
    rewrite <- (contents_length p' Hok'), Hc, <- Hlen. pose proof (length_filter (fun x => x <> mcmd_addr cmd) (contents p)). lia.
Qed.
End Commands.

(** ** Properties *)

(** C30: for every sequence of commands on enabled ports the accesses to the
    pools are in bounds, and the addresses of every port are changed as a
    list without duplicates: an addition appends an address that is not
    there, unless the pool is full and memory for 32 more is refused, a
    removal takes the address out and keeps the order of the others, and
    addresses that are not multicast change nothing.  The device of every
    port has always been told the list last. *)
Theorem mcast_refines grows junk st cmds s
    (Hs : mc_ok s) (Hcmds : Forall (mcast_cmd_ok st s) cmds)
    (Hfew : forall i p, zget (mc_ports s) i = Some p -> mc_addr_nb p + Z.of_nat (length cmds) + 32 < 2 ^ 32) :
  exists s', run_mcast_cmds grows junk st cmds s = Done s' /\ mc_ok s' /\
    forall i p, zget (mc_ports s) i = Some p ->
      exists p', zget (mc_ports s') i = Some p' /\ told (mc_calls s') i = contents p' /\
        mcast_effects grows i cmds (contents p) (contents p').
Proof.
  revert s Hs Hcmds Hfew. induction cmds as [|cmd cmds IH]; intros s Hs Hcmds Hfew; cbn [run_mcast_cmds].
  { exists s. split; [done|]. split; [done|]. intros i p Hp. exists p. split; [done|]. split; [by apply Hs|constructor]. }
  apply Forall_cons in Hcmds as [(p & Hz & Hv) Hcmds]. pose proof (Hfew _ _ Hz) as Hb. cbn [length] in Hb, Hfew.
  destruct (mcast_cmd_spec grows junk st cmd s p Hs Hz Hv) as (s1 & p1 & E & Hs1 & Hz1 & Hl1 & Ho & He & Hn1); [lia|].
  rewrite E. cbn [mbind outcome_bind].
  assert (Hget : forall i q, zget (mc_ports s) i = Some q -> exists q', zget (mc_ports s1) i = Some q' /\
    mc_addr_nb q' <= mc_addr_nb q + 1 /\ (i <> mcmd_port cmd -> q' = q)).
  { intros i q Hq. destruct (decide (i = mcmd_port cmd)) as [->|Hne].
    - exists p1. rewrite Hz in Hq. injection Hq as <-. done.
    - exists q. rewrite Ho by done. split; [done|]. split; [lia|done]. }
  destruct (IH s1 Hs1) as (s' & E' & Hs' & Hall).
  - eapply Forall_impl; [exact Hcmds|]. intros c (q & Hq & Hqv). destruct (Hget _ _ Hq) as (q' & Hq' & _). by exists q'.
  - intros i q Hq. destruct (zget (mc_ports s) i) as [q0|] eqn:E0.
    + destruct (Hget _ _ E0) as (q' & Hq' & Hn & _). rewrite Hq in Hq'. injection Hq' as <-. specialize (Hfew _ _ E0). lia.
    + exfalso. apply zget_Some in Hq as [H0 Hq]. apply lookup_lt_Some in Hq. rewrite Hl1 in Hq.
      apply lookup_lt_is_Some in Hq as [y Hy]. unfold zget in E0. destruct (Z.leb_spec 0 i); [congruence|lia].
  - exists s'. split; [exact E'|]. split; [done|]. intros i q Hq. destruct (Hget _ _ Hq) as (q1 & Hq1 & _ & Hsame).
    destruct (Hall _ _ Hq1) as (q' & Hq' & Ht & Hef). exists q'. split; [done|]. split; [done|].
    destruct (decide (mcmd_port cmd = i)) as [<-|Hne].
    + rewrite Hz in Hq. injection Hq as <-. rewrite Hz1 in Hq1. injection Hq1 as <-. by eapply EffectsCons.
    + rewrite Hsame in Hef by done. by apply EffectsOther.
Qed.

(** ** Examples *)

Definition mc_addr_of (n : Z) : ether_addr := [1; 0; 94; 0; n / 256; n mod 256].
Definition mc_start : mc_state := McState (replicate 32 (McPort None 0)) [].

Lemma mc_start_ok : mc_ok mc_start.
Proof.
  constructor; cbn [mc_start mc_ports mc_calls].
  - apply Forall_replicate. constructor; [done|done|done|constructor].
  - intros i p [_ [-> _]%lookup_replicate_1]%zget_Some. done.
Qed.

(** Forty additions with two reallocations, and a removal in the middle. *)
Definition mc_cmds : list mcast_cmd :=
  ((fun n => McastCmd "add" 1 (mc_addr_of n)) <$> seqZ 0 40) ++ [McastCmd "remove" 1 (mc_addr_of 7)].

Lemma mcast_refines_witness :
  exists s', run_mcast_cmds (fun _ => true) [] sample_state mc_cmds mc_start = Done s' /\ mc_ok s' /\
    told (mc_calls s') 1 = mc_addr_of <$> (seqZ 0 7 ++ seqZ 8 32).
Proof.
  destruct (mcast_refines (fun _ => true) [] sample_state mc_cmds mc_start mc_start_ok) as (s' & E & Hs' & Hall).
  - apply Forall_forall. intros cmd Hin. exists (McPort None 0).
    assert (Hport : Forall (fun c => mcmd_port c = 1) mc_cmds) by (apply (bool_decide_unpack _); vm_compute; exact I).
    rewrite Forall_forall in Hport. rewrite (Hport _ Hin). split; reflexivity.
  - intros i p [_ [-> _]%lookup_replicate_1]%zget_Some. reflexivity.
  - exists s'. split; [exact E|]. split; [exact Hs'|].
    assert (H : match run_mcast_cmds (fun _ => true) [] sample_state mc_cmds mc_start with
                | Done s => told (mc_calls s) 1 | _ => [] end = mc_addr_of <$> (seqZ 0 7 ++ seqZ 8 32)) by (vm_compute; reflexivity).
    rewrite E in H. exact H.
Defined.

(** The number of all ports passes the check. *)
Lemma mcast_all_ports :
  mcast_addr_add (fun _ => true) [] sample_state RTE_PORT_ALL (mc_addr_of 1) mc_start = Undefined.
Proof. reflexivity. Qed.
