(* ===== verification/FdirFlex.v ===== *)
(** * test-pmd: flexible masks and payloads of the flow director

    The commands "flow_director_flex_mask" and "flow_director_flex_payload"
    of cmdline.c read a list of numbers and store it for a type of flow in a
    table of the port (config.c).  The two tables are arrays with a count;
    an entry that is not in use has type 0.  They refine finite maps from
    types to numbers. *)

From Stdlib Require Import Ascii.
From stdpp Require Import strings gmap.
From S2P Require Import Prelude Cstr Packet PortConf PortState Params LaunchArgs PortCmds.

#[local] Open Scope Z_scope.
#[local] Open Scope list_scope.

(** ** Data *)

(** [struct rte_eth_fdir_flex_mask] and [struct rte_eth_flex_payload_cfg]: a
    type, and an array of numbers. *)
Record flex_entry : Type := FlexEntry { fe_type : Z; fe_data : list Z }.

(** An array of entries and the number of those in use. *)
Record flex_table : Type := FlexTable { ft_nb : Z; ft_entries : list flex_entry }.

(** [struct rte_eth_fdir_flex_conf] *)
Record flex_conf : Type := FlexConf { flex_masks : flex_table; flex_set : flex_table }.

(** The ports and their tables. *)
Record fdir_state : Type := FdirState { fs_pst : pstate; fs_conf : list flex_conf }.

Definition RTE_ETH_FLOW_UNKNOWN : Z := 0.

(** The kinds of flow that the commands name. *)
Inductive flow_kind : Type :=
| FLOW_RAW | FLOW_IPV4 | FLOW_FRAG_IPV4 | FLOW_NONFRAG_IPV4_TCP | FLOW_NONFRAG_IPV4_UDP | FLOW_NONFRAG_IPV4_SCTP
| FLOW_NONFRAG_IPV4_OTHER | FLOW_IPV6 | FLOW_FRAG_IPV6 | FLOW_NONFRAG_IPV6_TCP | FLOW_NONFRAG_IPV6_UDP
| FLOW_NONFRAG_IPV6_SCTP | FLOW_NONFRAG_IPV6_OTHER | FLOW_L2_PAYLOAD.

Definition flowtype_str : list (string * flow_kind) := [
  ("raw", FLOW_RAW); ("ipv4", FLOW_IPV4); ("ipv4-frag", FLOW_FRAG_IPV4); ("ipv4-tcp", FLOW_NONFRAG_IPV4_TCP);
  ("ipv4-udp", FLOW_NONFRAG_IPV4_UDP); ("ipv4-sctp", FLOW_NONFRAG_IPV4_SCTP);
  ("ipv4-other", FLOW_NONFRAG_IPV4_OTHER); ("ipv6", FLOW_IPV6); ("ipv6-frag", FLOW_FRAG_IPV6);
  ("ipv6-tcp", FLOW_NONFRAG_IPV6_TCP); ("ipv6-udp", FLOW_NONFRAG_IPV6_UDP); ("ipv6-sctp", FLOW_NONFRAG_IPV6_SCTP);
  ("ipv6-other", FLOW_NONFRAG_IPV6_OTHER); ("l2_payload", FLOW_L2_PAYLOAD)
]%string.

Inductive payload_kind : Type := PAYLOAD_RAW | PAYLOAD_L2 | PAYLOAD_L3 | PAYLOAD_L4.

(** ** Reading lists of numbers *)

Section Read.
Context `{DpdkText}.

(** The loop over the fields from [i] on. *)
Fixpoint flex_fields (limit : Z) (l : list string) (i : Z) (arr : list Z) : outcome (option (list Z)) :=
  match l with
  | [] => Done (Some arr)
  | s :: l =>
      let '(int_fld, _, erange, rest) := strtoul 0 s in
      if erange || negb (bool_decide (rest = ""%string)) || (limit <? int_fld) then Done None
      else arr ← of_opt (zset arr i int_fld); flex_fields limit l (i + 1) arr
  end.

(** [parse_flexbytes] and [parse_offsets] differ in the largest number; the
    array has room for [max_num] of them. *)
Definition parse_flex (limit : Z) (q_arg : string) (max_num : nat) (arr : list Z) : outcome (option (list Z)) :=
  match strchr "(" q_arg with
  | Some (_, String _ p) =>
      match strchr ")" p with
      | Some (s, _) =>
          if (256 <=? String.length s)%nat then Done None
          else
            let str_fld := rte_strsplit s max_num "," in
            if (max_num <? length str_fld)%nat then Done None else flex_fields limit str_fld 0 arr
      | None => Done None
      end
  | _ => Done None
  end.

Definition parse_flexbytes : string -> nat -> list Z -> outcome (option (list Z)) := parse_flex 255.
Definition parse_offsets : string -> nat -> list Z -> outcome (option (list Z)) := parse_flex 65535.
End Read.

(** ** Tables *)

(** The loop over [n] entries from [i] on: the index of the first one with
    the type, if there is one. *)
Fixpoint flex_find (n : nat) (i : Z) (ty : Z) (l : list flex_entry) : outcome (option Z) :=
  match n with
  | O => Done None
  | S n =>
      e ← of_opt (zget l i);
      if ty =? fe_type e then Done (Some i) else flex_find n (i + 1) ty l
  end.

(** [fdir_set_flex_mask] and [fdir_set_flex_payload] on a table; [max] is the
    number of types. *)
Definition fdir_set_flex (max : nat) (cfg : flex_entry) (t : flex_table) : outcome flex_table :=
  r ← flex_find max 0 (fe_type cfg) (ft_entries t);
  match r with
  | Some idx => l ← of_opt (zset (ft_entries t) idx cfg); Done (FlexTable (ft_nb t) l)
  | None =>
      if ft_nb t <? Z.of_nat (length (ft_entries t)) then
        l ← of_opt (zset (ft_entries t) (ft_nb t) cfg); Done (FlexTable (u16 (ft_nb t + 1)) l)
      else Done t
  end.

(** ** Commands *)

Section Commands.
Context `{DpdkText}.
(** The length of an array of numbers, the numbers of types, and the values
    of the types (DPDK). *)
Variables (FLEXLEN FLOW_MAX PAYLOAD_MAX : nat) (flow : flow_kind -> Z) (payload : payload_kind -> Z).
(** The types of flow that a device supports, as a mask, or an error. *)
Variable filter_info : Z -> option Z.

Definition str2flowtype (string : string) : Z :=
  match List.find (fun e => bool_decide (e.1 = string)) flowtype_str with
  | Some (_, k) => flow k
  | None => RTE_ETH_FLOW_UNKNOWN
  end.

(** Whether a command on a port goes on; the number of ports passes. *)
Definition fdir_port_stopped (port_id : Z) (s : fdir_state) : outcome bool :=
  if nb_ports (fs_pst s) <? port_id then Done false
  else p ← of_opt (zget (ports (fs_pst s)) port_id); Done (bool_decide (port_status p = STOPPED)).

Definition upd_conf (port_id : Z) (f : flex_conf -> outcome flex_conf) (s : fdir_state) : outcome fdir_state :=
  c ← of_opt (zget (fs_conf s) port_id);
  c ← f c;
  l ← of_opt (zset (fs_conf s) port_id c);
  Done (FdirState (fs_pst s) l).

Definition fdir_set_flex_mask (port_id : Z) (cfg : flex_entry) : fdir_state -> outcome fdir_state :=
  upd_conf port_id (fun c => t ← fdir_set_flex FLOW_MAX cfg (flex_masks c); Done (FlexConf t (flex_set c))).

Definition fdir_set_flex_payload (port_id : Z) (cfg : flex_entry) : fdir_state -> outcome fdir_state :=
  upd_conf port_id (fun c => t ← fdir_set_flex PAYLOAD_MAX cfg (flex_set c); Done (FlexConf (flex_masks c) t)).

Definition zeros : list Z := replicate FLEXLEN 0.

(** The table after "none": one entry for flows of any type. *)
Definition clear_flex_masks (mask : list Z) (c : flex_conf) : flex_conf :=
  let l := replicate FLOW_MAX (FlexEntry 0 zeros) ++ drop FLOW_MAX (ft_entries (flex_masks c)) in
  FlexConf (FlexTable 1 (<[0%nat := FlexEntry RTE_ETH_FLOW_UNKNOWN mask]> l)) (flex_set c).

(** The loop of "all" over [n] types from [i] on. *)
Fixpoint set_all_masks (n : nat) (i : Z) (flow_type_mask : Z) (port_id : Z) (mask : list Z) (s : fdir_state)
    : outcome fdir_state :=
  match n with
  | O => Done s
  | S n =>
      s ← (if negb (Z.land flow_type_mask (u32 (Z.shiftl 1 i)) =? 0) then fdir_set_flex_mask port_id (FlexEntry i mask) s
           else Done s);
      set_all_masks n (i + 1) flow_type_mask port_id mask s
  end.

Definition reconfigured (port_id : Z) (s : fdir_state) : fdir_state :=
  FdirState (cmd_reconfig_device_queue port_id true true (fs_pst s)) (fs_conf s).

Definition cmd_flow_director_flex_mask_parsed (port_id : Z) (flow_type mask : string) (s : fdir_state) : outcome fdir_state :=
  stopped ← fdir_port_stopped port_id s;
  if negb stopped then Done s
  else
    r ← parse_flexbytes mask FLEXLEN zeros;
    match r, filter_info port_id with
    | Some bytes, Some flow_type_mask =>
        if bool_decide (flow_type = "none"%string) then
          s ← upd_conf port_id (fun c => Done (clear_flex_masks bytes c)) s; Done (reconfigured port_id s)
        else if bool_decide (flow_type = "all"%string) then
          if flow_type_mask =? 0 then Done s
          else s ← set_all_masks FLOW_MAX 0 flow_type_mask port_id bytes s; Done (reconfigured port_id s)
        else
          let ty := str2flowtype flow_type in
          if Z.land flow_type_mask (u32 (Z.shiftl 1 ty)) =? 0 then Done s
          else s ← fdir_set_flex_mask port_id (FlexEntry ty bytes) s; Done (reconfigured port_id s)
    | _, _ => Done s
    end.

Definition payload_layer_type (layer : string) : Z :=
  if bool_decide (layer = "raw"%string) then payload PAYLOAD_RAW
  else if bool_decide (layer = "l2"%string) then payload PAYLOAD_L2
  else if bool_decide (layer = "l3"%string) then payload PAYLOAD_L3
  else if bool_decide (layer = "l4"%string) then payload PAYLOAD_L4
  else 0.

Definition cmd_flow_director_flxpld_parsed (port_id : Z) (payload_layer payload_cfg : string) (s : fdir_state)
    : outcome fdir_state :=
  stopped ← fdir_port_stopped port_id s;
  if negb stopped then Done s
  else
    r ← parse_offsets payload_cfg FLEXLEN zeros;
    match r with
    | None => Done s
    | Some offsets =>
        s ← fdir_set_flex_payload port_id (FlexEntry (payload_layer_type payload_layer) offsets) s;
        Done (reconfigured port_id s)
    end.
End Commands.

(** ** Specification *)

Definition flex_pair (e : flex_entry) : Z * list Z := (fe_type e, fe_data e).

(** The entries in use, and the map they stand for. *)
Definition flex_used (t : flex_table) : list flex_entry := take (Z.to_nat (ft_nb t)) (ft_entries t).
Definition flex_map (t : flex_table) : gmap Z (list Z) := list_to_map (flex_pair <$> flex_used t).

Record flex_ok (max : nat) (t : flex_table) : Prop := {
  fx_len : length (ft_entries t) = max;
  fx_nb : 0 <= ft_nb t <= Z.of_nat max;
  fx_types : Forall (fun e => 0 <= fe_type e < Z.of_nat max) (flex_used t);
  fx_nodup : NoDup (fe_type <$> flex_used t);
  fx_rest : Forall (fun e => fe_type e = 0) (drop (Z.to_nat (ft_nb t)) (ft_entries t));
}.

(** A type that can be stored: only types in use are counted, so that 0 must
    be one already. *)
Definition type_ok (max : nat) (t : flex_table) (ty : Z) : Prop :=
  0 <= ty < Z.of_nat max /\ (ty = 0 -> 0 ∈ fe_type <$> flex_used t).

(** ** Lemmas: tables *)

Lemma flex_find_spec n i ty l :
  0 <= i -> (Z.to_nat i + n <= length l)%nat ->
  match flex_find n i ty l with
  | Done (Some k) => i <= k < i + Z.of_nat n /\ (exists e, l !! Z.to_nat k = Some e /\ fe_type e = ty) /\
      forall j e, (Z.to_nat i <= j < Z.to_nat k)%nat -> l !! j = Some e -> fe_type e <> ty
  | Done None => forall j e, (Z.to_nat i <= j < Z.to_nat i + n)%nat -> l !! j = Some e -> fe_type e <> ty
  | _ => False
  end.
Proof.
  revert i. induction n as [|n IH]; intros i Hi Hl; cbn [flex_find]; [intros j e Hj; lia|].
  destruct (lookup_lt_is_Some_2 l (Z.to_nat i)) as [e He]; [lia|].
  assert (Hz : zget l i = Some e) by (by apply zget_Some). rewrite Hz. cbn [of_opt mbind outcome_bind].
  destruct (Z.eqb_spec ty (fe_type e)) as [->|Hne].
  { split; [lia|]. split; [eauto|]. intros j e' Hj. lia. }
  specialize (IH (i + 1) ltac:(lia) ltac:(lia)). destruct (flex_find n (i + 1) ty l) as [[k|]| |]; [| |done..].
  - destruct IH as (Hk & Hex & Hno). split; [lia|]. split; [done|]. intros j e' Hj Hje.
    destruct (decide (j = Z.to_nat i)) as [->|]; [congruence|]. apply (Hno j e'); [lia|done].
  - intros j e' Hj Hje. destruct (decide (j = Z.to_nat i)) as [->|]; [congruence|]. apply (IH j e'); [lia|done].
Qed.

(** Overwriting an entry, and adding one. *)
Lemma flex_map_overwrite (l : list flex_entry) i e e' :
  NoDup (fe_type <$> l) -> l !! i = Some e -> fe_type e' = fe_type e ->
  (list_to_map (flex_pair <$> <[i := e']> l) : gmap Z (list Z)) = <[fe_type e' := fe_data e']> (list_to_map (flex_pair <$> l)).
Proof.
  revert i. induction l as [|x l IH]; intros [|i] Hnd Hi He; cbn [lookup list_lookup] in Hi; try done.
  - injection Hi as ->. change (<[0%nat := e']> (e :: l)) with (e' :: l). rewrite !fmap_cons. unfold flex_pair at 1 3.
    by rewrite !list_to_map_cons, He, insert_insert_eq.
  - cbn [fmap list_fmap] in Hnd. apply NoDup_cons in Hnd as [Hx Hnd].
    change (<[S i := e']> (x :: l)) with (x :: <[i := e']> l). rewrite !fmap_cons. unfold flex_pair at 1 3.
    rewrite !list_to_map_cons, (IH i Hnd Hi He). rewrite insert_insert_ne; [done|]. intros E. apply Hx. rewrite E, He.
    apply list_elem_of_fmap. exists e. split; [done|]. by eapply list_elem_of_lookup_2.
Qed.

Lemma flex_map_add (l : list flex_entry) e :
  fe_type e ∉ fe_type <$> l ->
  (list_to_map (flex_pair <$> l ++ [e]) : gmap Z (list Z)) = <[fe_type e := fe_data e]> (list_to_map (flex_pair <$> l)).
Proof.
  induction l as [|x l IH]; intros He; [done|]. cbn [fmap list_fmap] in He. apply not_elem_of_cons in He as [Hx He].
  cbn [app]. rewrite !fmap_cons. unfold flex_pair at 1 3. rewrite !list_to_map_cons, IH by done.
  by rewrite insert_insert_ne by done.
Qed.

(** The entry of a type in use is replaced. *)
Lemma flex_overwrite_ok max cfg t k e :
  flex_ok max t -> (k < Z.to_nat (ft_nb t))%nat -> ft_entries t !! k = Some e -> fe_type e = fe_type cfg ->
  0 <= fe_type cfg < Z.of_nat max ->
  let t' := FlexTable (ft_nb t) (<[k := cfg]> (ft_entries t)) in
  flex_ok max t' /\ flex_map t' = <[fe_type cfg := fe_data cfg]> (flex_map t).
Proof.
  intros Hok Hkn He Hte Hty. set (nb := Z.to_nat (ft_nb t)) in *. cbv zeta.
  assert (Hused : flex_used (FlexTable (ft_nb t) (<[k := cfg]> (ft_entries t))) = <[k := cfg]> (take nb (ft_entries t))).
  { unfold flex_used. cbn [ft_nb ft_entries]. fold nb. by rewrite take_insert_lt. }
  assert (Hek : take nb (ft_entries t) !! k = Some e) by (by rewrite lookup_take_lt).
  split.
  - constructor; rewrite ?Hused; cbn [ft_nb ft_entries].
    + rewrite length_insert. apply Hok.
    + apply Hok.
    + apply Forall_insert; [apply Hok|done].
    + rewrite list_fmap_insert, list_insert_id; [apply Hok|]. by rewrite list_lookup_fmap, Hek, <- Hte.
    + fold nb. rewrite drop_insert_lt by done. apply Hok.
  - unfold flex_map. rewrite Hused. unfold flex_used. fold nb. apply (flex_map_overwrite _ _ e); [apply Hok|done|done].
Qed.

(** A type not in use is not the last one that fits. *)
Lemma flex_room max cfg t :
  flex_ok max t -> fe_type cfg ∉ fe_type <$> take (Z.to_nat (ft_nb t)) (ft_entries t) -> 0 <= fe_type cfg < Z.of_nat max ->
  ft_nb t < Z.of_nat max.
Proof.
  intros Hok Hnin Hty. pose proof (fx_len _ _ Hok) as Hl. pose proof (fx_nb _ _ Hok) as Hn.
  destruct (decide (ft_nb t < Z.of_nat max)); [done|]. exfalso. set (nb := Z.to_nat (ft_nb t)) in *.
  assert (Hlen : (length (fe_type cfg :: (fe_type <$> take nb (ft_entries t))) <= length (seqZ 0 (Z.of_nat max)))%nat).
  { apply submseteq_length, NoDup_submseteq.
    - constructor; [done|apply Hok].
    - intros x [->|(y & -> & Hy)%list_elem_of_fmap]%elem_of_cons; apply elem_of_seqZ; [lia|].
      pose proof (fx_types _ _ Hok) as Ht. unfold flex_used in Ht. rewrite Forall_forall in Ht. specialize (Ht _ Hy).
      cbv beta in Ht. lia. }
  cbn [length] in Hlen. rewrite length_fmap, length_take, length_seqZ in Hlen. lia.
Qed.

(** A type not in use gets the next entry. *)
Lemma flex_append_ok max cfg t :
  flex_ok max t -> fe_type cfg ∉ fe_type <$> take (Z.to_nat (ft_nb t)) (ft_entries t) -> 0 <= fe_type cfg < Z.of_nat max ->
  let t' := FlexTable (ft_nb t + 1) (<[Z.to_nat (ft_nb t) := cfg]> (ft_entries t)) in
  flex_ok max t' /\ flex_map t' = <[fe_type cfg := fe_data cfg]> (flex_map t).
Proof.
  intros Hok Hnin Hty. pose proof (fx_len _ _ Hok) as Hl. pose proof (fx_nb _ _ Hok) as Hn.
  pose proof (flex_room _ _ _ Hok Hnin Hty) as Hroom. set (nb := Z.to_nat (ft_nb t)) in *. cbv zeta.
  assert (Hused : flex_used (FlexTable (ft_nb t + 1) (<[nb := cfg]> (ft_entries t))) = take nb (ft_entries t) ++ [cfg]).
  { unfold flex_used. cbn [ft_nb ft_entries]. replace (Z.to_nat (ft_nb t + 1)) with (S nb) by lia.
    rewrite (take_S_r _ _ cfg) by (apply list_lookup_insert_eq; lia). by rewrite take_insert_ge. }
  split.
  - constructor; rewrite ?Hused; cbn [ft_nb ft_entries].
    + by rewrite length_insert.
    + lia.
    + apply Forall_app. split; [apply Hok|by apply Forall_singleton].
    + rewrite fmap_app. apply NoDup_app. split; [apply Hok|]. split; [|apply NoDup_singleton].
      intros x Hx ->%list_elem_of_singleton. done.
    + replace (Z.to_nat (ft_nb t + 1)) with (S nb) by lia. rewrite drop_insert_lt by lia.
      pose proof (fx_rest _ _ Hok) as Hr. fold nb in Hr. rewrite Forall_lookup in Hr |- *. intros j x Hj.
      apply (Hr (S j)). rewrite lookup_drop in Hj |- *. by rewrite Nat.add_succ_r.
  - unfold flex_map. rewrite Hused. unfold flex_used. fold nb. by apply flex_map_add.
Qed.

Lemma fdir_set_flex_ok max cfg t :
  Z.of_nat max <= 65535 -> flex_ok max t -> type_ok max t (fe_type cfg) ->
  exists t', fdir_set_flex max cfg t = Done t' /\ flex_ok max t' /\
    flex_map t' = <[fe_type cfg := fe_data cfg]> (flex_map t).
Proof.
  intros Hmax Hok [Hty H0]. pose proof (fx_len _ _ Hok) as Hl. pose proof (fx_nb _ _ Hok) as Hn.
  unfold fdir_set_flex. pose proof (flex_find_spec max 0 (fe_type cfg) (ft_entries t) ltac:(lia) ltac:(lia)) as Hf.
  change (Z.to_nat 0) with 0%nat in Hf. unfold flex_used in *.
  destruct (flex_find _ _ _ _) as [[k|]| |]; [| |done..]; cbn [mbind outcome_bind].
  - destruct Hf as (Hk & (e & He & Hte) & Hno). rewrite zset_insert by lia. cbn [of_opt mbind outcome_bind].
    eexists. split; [done|]. apply (flex_overwrite_ok max cfg t _ e); try done.
    destruct (Nat.lt_ge_cases (Z.to_nat k) (Z.to_nat (ft_nb t))) as [|Hge]; [done|]. exfalso.
    pose proof (fx_rest _ _ Hok) as Hr. set (nb := Z.to_nat (ft_nb t)) in *. rewrite Forall_lookup in Hr.
    assert (E0 : fe_type e = 0).
    { apply (Hr (Z.to_nat k - nb)%nat). rewrite lookup_drop. by replace (nb + (Z.to_nat k - nb))%nat with (Z.to_nat k) by lia. }
    specialize (H0 ltac:(congruence)). apply list_elem_of_fmap in H0 as (x & Hx & [j Hj]%list_elem_of_lookup).
    pose proof (lookup_lt_Some _ _ _ Hj) as Hjl. rewrite length_take in Hjl. rewrite lookup_take_lt in Hj by lia.
    apply (Hno j x); [lia|done|congruence].
  - cbn [Nat.add] in Hf.
    assert (Hnin : fe_type cfg ∉ fe_type <$> take (Z.to_nat (ft_nb t)) (ft_entries t)).
    { intros (x & Hx & (j & Hj & _)%elem_of_take)%list_elem_of_fmap. pose proof (lookup_lt_Some _ _ _ Hj).
      apply (Hf j x); [lia|done|done]. }
    pose proof (flex_room _ _ _ Hok Hnin Hty). rewrite Hl. destruct (Z.ltb_spec (ft_nb t) (Z.of_nat max)); [|lia].
    rewrite zset_insert by lia. cbn [of_opt mbind outcome_bind]. rewrite u16_small by lia. eexists. split; [done|].
    by apply flex_append_ok.
Qed.

(** ** Lemmas: lists of numbers *)

(** A list as a user writes it: (1,2,3). *)
Definition list_text (l : list Z) : string := "(" +:+ fields_text l +:+ ")".

Lemma flex_fields_dec limit l i done_ rest :
  limit <= 65535 -> Forall (upto limit) l -> length done_ = i -> (length l <= length rest)%nat ->
  flex_fields limit (dec <$> l) (Z.of_nat i) (done_ ++ rest) = Done (Some (done_ ++ l ++ drop (length l) rest)).
Proof.
  intros Hlim Hl. revert i done_ rest. induction Hl as [|n l Hn Hl IH]; intros i done_ rest Hi Hr; [done|].
  cbn [fmap list_fmap flex_fields]. unfold upto in Hn. rewrite strtoul_dec by (unfold ULONG_MAX; lia).
  cbn [orb]. rewrite bool_decide_true by done. destruct (Z.ltb_spec limit n); [lia|]. cbn [negb orb].
  destruct rest as [|r rest]; cbn [length] in Hr; [lia|].
  rewrite zset_insert by (rewrite length_app; cbn [length]; lia). cbn [of_opt mbind outcome_bind].
  rewrite Nat2Z.id, insert_app_r_alt by lia. rewrite Hi, Nat.sub_diag. cbn [insert list_insert].
  replace (Z.of_nat i + 1) with (Z.of_nat (S i)) by lia. rewrite cons_middle, app_assoc.
  rewrite IH; [cbn [length drop]; by rewrite <- app_assoc|rewrite length_app; cbn; lia|lia].
Qed.

Lemma parse_flex_text `{DpdkTextDoc} limit l max :
  limit <= 65535 -> l <> [] -> (length l <= max <= 40)%nat -> Forall (upto limit) l ->
  parse_flex limit (list_text l) max (replicate max 0) = Done (Some (l ++ replicate (max - length l) 0)).
Proof.
  intros Hlim Hne Hlen Hl. unfold parse_flex, list_text. cbn [strchr]. change ("(" +:+ ?r)%string with (String "(" r).
  destruct (fields_text_ok limit Hlim l Hl) as (Hlt & Ho & Hc). cbn [strchr]. change (Ascii.eqb "(" "(") with true. cbv iota.
  change (fields_text l +:+ ")")%string with (fields_text l +:+ String ")" "")%string. rewrite strchr_app by done.
  destruct (Nat.leb_spec 256 (String.length (fields_text l))); [lia|].
  assert (Hs : rte_strsplit (fields_text l) max "," = dec <$> l).
  { apply rte_strsplit_words; [by destruct l|rewrite length_fmap; lia|].
    apply Forall_fmap. eapply Forall_impl; [exact Hl|]. intros n Hn.
    destruct (dec_ok n (upto_limit limit Hlim n Hn)) as [_ Hn' _ Hd]. split; [done|by apply Hd]. }
  rewrite Hs, length_fmap. destruct (Nat.ltb_spec max (length l)); [lia|].
  rewrite <- (app_nil_l (replicate max 0)). change 0 with (Z.of_nat 0) at 1.
  rewrite flex_fields_dec by (done || rewrite length_replicate; lia). cbn [app].
  by rewrite drop_replicate.
Qed.

(** ** Lemmas: commands *)

Lemma land_bit x i : 0 <= i < 32 -> (Z.land x (u32 (Z.shiftl 1 i)) =? 0) = negb (Z.testbit x i).
Proof.
  intros Hi. rewrite Z.shiftl_1_l, u32_small.
  2: { pose proof (Z.pow_lt_mono_r 2 i 32 ltac:(lia) ltac:(lia) ltac:(lia)). pose proof (Z.pow_pos_nonneg 2 i). lia. }
  destruct (Z.testbit x i) eqn:Hb; cbn [negb].
  - apply Z.eqb_neq. intros H0. apply (f_equal (fun z => Z.testbit z i)) in H0.
    rewrite Z.land_spec, Hb, Z.pow2_bits_true, Z.bits_0 in H0 by lia. done.
  - apply Z.eqb_eq, Z.bits_inj'. intros k Hk. rewrite Z.land_spec, Z.bits_0.
    destruct (decide (k = i)) as [->|]; [by rewrite Hb|]. rewrite Z.pow2_bits_false by lia. apply andb_false_r.
Qed.

(** The bits of a mask of types. *)
Lemma testbit_range x max :
  0 <= x < 2 ^ Z.of_nat max -> Z.testbit x 0 = false -> forall ty, Z.testbit x ty = true -> 0 < ty < Z.of_nat max.
Proof.
  intros Hx H0 ty Hty. destruct (Z.lt_trichotomy ty 0) as [Hlt|[->|]]; [by rewrite Z.testbit_neg_r in Hty|congruence|].
  split; [done|]. destruct (Z.lt_ge_cases ty (Z.of_nat max)) as [|Hge]; [done|]. exfalso.
  destruct (decide (x = 0)) as [->|]; [by rewrite Z.bits_0 in Hty|]. rewrite Z.bits_above_log2 in Hty; [done|lia|].
  apply Z.log2_lt_pow2; [lia|]. pose proof (Z.pow_le_mono_r 2 (Z.of_nat max) ty). lia.
Qed.

(** The masks of a port, as a map. *)
Definition masks_at (max : nat) (s : fdir_state) (port : Z) (m : gmap Z (list Z)) : Prop :=
  exists c, zget (fs_conf s) port = Some c /\ flex_ok max (flex_masks c) /\ flex_map (flex_masks c) = m.

(** Only the masks of a port differ. *)
Definition other_same (port : Z) (s s' : fdir_state) : Prop :=
  fs_pst s' = fs_pst s /\ (forall i, i <> port -> zget (fs_conf s') i = zget (fs_conf s) i) /\
  (flex_set <$> zget (fs_conf s') port) = flex_set <$> zget (fs_conf s) port.

Lemma other_same_trans port s1 s2 s3 : other_same port s1 s2 -> other_same port s2 s3 -> other_same port s1 s3.
Proof.
  intros (A1 & B1 & C1) (A2 & B2 & C2). split; [congruence|]. split; [|congruence].
  intros i Hi. rewrite B2, B1 by done. done.
Qed.

Lemma upd_conf_ok port f s c t :
  zget (fs_conf s) port = Some c -> f c = Done (FlexConf t (flex_set c)) ->
  exists s', upd_conf port f s = Done s' /\ zget (fs_conf s') port = Some (FlexConf t (flex_set c)) /\ other_same port s s'.
Proof.
  intros Hc Hf. pose proof Hc as [H0 Hl%lookup_lt_Some]%zget_Some. unfold upd_conf. rewrite Hc.
  cbn [of_opt mbind outcome_bind]. rewrite Hf. cbn [mbind outcome_bind]. rewrite zset_insert by lia.
  eexists. split; [done|]. cbn [fs_conf].
  assert (Hs : zget (<[Z.to_nat port := FlexConf t (flex_set c)]> (fs_conf s)) port = Some (FlexConf t (flex_set c))).
  { apply zget_Some. split; [done|]. apply list_lookup_insert_eq. lia. }
  split; [exact Hs|]. split; [done|]. cbn [fs_conf]. split; [|by rewrite Hs, Hc].
  intros i Hi. unfold zget. destruct (Z.leb_spec 0 i); [|done]. apply list_lookup_insert_ne. lia.
Qed.

Section CommandLemmas.
Context (max : nat) (Hmax : Z.of_nat max <= 32).

Lemma set_mask_at port cfg s m :
  masks_at max s port m -> 0 < fe_type cfg < Z.of_nat max ->
  exists s', fdir_set_flex_mask max port cfg s = Done s' /\ masks_at max s' port (<[fe_type cfg := fe_data cfg]> m) /\
    other_same port s s'.
Proof.
  intros (c & Hc & Hok & <-) Hty.
  destruct (fdir_set_flex_ok max cfg (flex_masks c)) as (t' & E & Hok' & Hm); [lia|done|split; [lia|intros; lia]|].
  destruct (upd_conf_ok port (fun c => t ← fdir_set_flex max cfg (flex_masks c); Done (FlexConf t (flex_set c))) s c t' Hc)
    as (s' & Es & Hs' & Ho); [by rewrite E|].
  exists s'. split; [exact Es|]. split; [|exact Ho]. by exists (FlexConf t' (flex_set c)).
Qed.

Lemma set_all_masks_at n i fm port mask s m :
  masks_at max s port m -> 0 <= i -> i + Z.of_nat n <= Z.of_nat max -> Z.testbit fm 0 = false ->
  exists s' m', set_all_masks max n i fm port mask s = Done s' /\ masks_at max s' port m' /\ other_same port s s' /\
    forall ty, m' !! ty = if decide (i <= ty < i + Z.of_nat n /\ Z.testbit fm ty = true) then Some mask else m !! ty.
Proof.
  intros Hs Hi Hn Hb. revert i s m Hs Hi Hn. induction n as [|n IH]; intros i s m Hs Hi Hn; cbn [set_all_masks].
  { exists s, m. split; [done|]. split; [done|]. split; [done|]. intros ty. rewrite decide_False; [done|intros [? ?]; lia]. }
  rewrite land_bit, negb_involutive by lia. destruct (Z.testbit fm i) eqn:Ei.
  - assert (i <> 0) by congruence. destruct (set_mask_at port (FlexEntry i mask) s m Hs) as (s1 & E1 & H1 & O1); [cbn; lia|].
    rewrite E1. cbn [mbind outcome_bind fe_type fe_data] in *.
    destruct (IH (i + 1) s1 _ H1) as (s' & m' & E & H' & O & Hm); [lia|lia|]. exists s', m'.
    split; [exact E|]. split; [done|]. split; [by eapply other_same_trans|]. intros ty. rewrite Hm.
    destruct (decide (ty = i)) as [->|Hne].
    + rewrite decide_False by (intros [? ?]; lia). rewrite decide_True by (split; [lia|done]). by rewrite lookup_insert_eq.
    + rewrite lookup_insert_ne by done. apply decide_ext.
      split; intros [? ?]; (split; [lia|done]).
  - cbn [mbind outcome_bind]. destruct (IH (i + 1) s m Hs) as (s' & m' & E & H' & O & Hm); [lia|lia|]. exists s', m'.
    split; [exact E|]. split; [done|]. split; [done|]. intros ty. rewrite Hm. apply decide_ext.
    destruct (decide (ty = i)) as [->|]; [rewrite Ei; split; intros [? ?]; [lia|done]|split; intros [? ?]; (split; [lia|done])].
Qed.
End CommandLemmas.

(** The table after "none". *)
Lemma cleared_ok flexlen max mask c :
  (0 < max)%nat -> flex_ok max (flex_masks c) ->
  flex_ok max (flex_masks (clear_flex_masks flexlen max mask c)) /\
  flex_map (flex_masks (clear_flex_masks flexlen max mask c)) = {[0 := mask]}.
Proof.
  intros Hmax Hok. unfold clear_flex_masks. cbn [flex_masks].
  rewrite drop_ge by (rewrite (fx_len _ _ Hok); lia). rewrite app_nil_r. destruct max as [|max]; [lia|].
  cbn [replicate]. change (<[0%nat := ?e]> (?x :: ?l)) with (e :: l).
  split; [|done]. constructor; cbn [ft_entries ft_nb flex_used].
  - cbn [length]. by rewrite length_replicate.
  - lia.
  - apply Forall_singleton. cbn [fe_type]. unfold RTE_ETH_FLOW_UNKNOWN. lia.
  - apply NoDup_singleton.
  - change (Z.to_nat 1) with 1%nat. cbn [drop]. by apply Forall_replicate.
Qed.

Lemma none_masks_at flexlen max port mask s m :
  (0 < max)%nat -> masks_at max s port m ->
  exists s', upd_conf port (fun c => Done (clear_flex_masks flexlen max mask c)) s = Done s' /\
    masks_at max s' port {[0 := mask]} /\ other_same port s s'.
Proof.
  intros Hmax (c & Hc & Hok & <-). destruct (cleared_ok flexlen max mask c Hmax Hok) as [Hok' Hmap].
  destruct (upd_conf_ok port (fun c => Done (clear_flex_masks flexlen max mask c)) s c _ Hc eq_refl) as (s' & Es & Hs' & Ho).
  exists s'. split; [exact Es|]. split; [|exact Ho]. by eexists.
Qed.

(** ** Properties *)

(** What a command asks for: the types it sets. *)
Definition asked (flow : flow_kind -> Z) (fm : Z) (flow_type : string) (ty : Z) : Prop :=
  if bool_decide (flow_type = "none"%string) then ty = RTE_ETH_FLOW_UNKNOWN
  else if bool_decide (flow_type = "all"%string) then Z.testbit fm ty = true
  else ty = str2flowtype flow flow_type /\ Z.testbit fm ty = true.

#[export] Instance asked_dec flow fm name ty : Decision (asked flow fm name ty).
Proof. unfold asked. repeat case_match; apply _. Defined.

Lemma asked_iff flow fm name ty :
  (name = "none"%string -> asked flow fm name ty <-> ty = RTE_ETH_FLOW_UNKNOWN) /\
  (name = "all"%string -> asked flow fm name ty <-> Z.testbit fm ty = true) /\
  (name <> "none"%string -> name <> "all"%string ->
   asked flow fm name ty <-> ty = str2flowtype flow name /\ Z.testbit fm ty = true).
Proof.
  unfold asked. destruct (bool_decide_reflect (name = "none"%string)), (bool_decide_reflect (name = "all"%string)); by subst.
Qed.

(** For a stopped port the command with a list of at most as many bytes
    as fit sets the mask, filled up with zeros, for the type of flow it names,
    for all types the device supports, or, with "none", for flows of any type
    after the others have been cleared.  It keeps every other mask and the
    other ports, never finds the table full, and marks the port when it
    accepts the command. *)
Theorem flex_mask_cmd_sets `{DpdkTextDoc} flexlen max flow info port p flow_type bytes fm s m
    (Hmax : 0 < Z.of_nat max <= 32) (Hlen : (flexlen <= 40)%nat)
    (Hflow : forall k, 0 < flow k < Z.of_nat max) (Hfm : 0 <= fm < 2 ^ Z.of_nat max /\ Z.testbit fm 0 = false)
    (Hport : 0 <= port <= nb_ports (fs_pst s)) (Hp : zget (ports (fs_pst s)) port = Some p)
    (Hst : port_status p = STOPPED) (Hm : masks_at max s port m) (Hinfo : info port = Some fm)
    (Hbytes : bytes <> [] /\ (length bytes <= flexlen)%nat /\ Forall byte bytes) :
  let padded := bytes ++ replicate (flexlen - length bytes) 0 in
  exists s' m', cmd_flow_director_flex_mask_parsed flexlen max flow info port flow_type (list_text bytes) s = Done s' /\
    masks_at max s' port m' /\
    (forall ty, m' !! ty =
      if decide (asked flow fm flow_type ty) then Some padded
      else if bool_decide (flow_type = "none"%string) then None else m !! ty) /\
    (forall i, i <> port -> zget (fs_conf s') i = zget (fs_conf s) i) /\
    ((exists ty, asked flow fm flow_type ty) -> fs_pst s' = cmd_reconfig_device_queue port true true (fs_pst s)) /\
    ((forall ty, ~ asked flow fm flow_type ty) -> s' = s).
Proof.
  intros padded. destruct Hbytes as (Hne & Hbl & Hbytes). destruct Hfm as [Hfm Hf0].
  pose proof (testbit_range fm max Hfm Hf0) as Htop.
  unfold cmd_flow_director_flex_mask_parsed, fdir_port_stopped. destruct (Z.ltb_spec (nb_ports (fs_pst s)) port); [lia|].
  rewrite Hp. cbn [of_opt mbind outcome_bind]. rewrite bool_decide_true by done. cbn [negb].
  unfold parse_flexbytes, zeros. rewrite parse_flex_text by (done || lia). cbn [mbind outcome_bind]. fold padded.
  rewrite Hinfo. pose proof (asked_iff flow fm flow_type) as Ha.
  destruct (bool_decide_reflect (flow_type = "none"%string)) as [Hnone|Hnone].
  { destruct (none_masks_at flexlen max port padded s m ltac:(lia) Hm) as (s' & E & Hm' & Hps & Hother & _).
    rewrite E. cbn [mbind outcome_bind]. exists (reconfigured port s'), {[0 := padded]}. split; [done|].
    split; [exact Hm'|]. split; [|split; [exact Hother|split; [intros _; cbn; by rewrite Hps|]]].
    - intros ty. destruct (decide _) as [Hn|Hn]; rewrite (proj1 (Ha ty) Hnone) in Hn.
      + rewrite Hn. exact (lookup_singleton_eq 0 padded).
      + apply lookup_singleton_ne. intros <-. by apply Hn.
    - intros Hno. destruct (Hno RTE_ETH_FLOW_UNKNOWN). by apply (proj1 (Ha _)). }
  destruct (bool_decide_reflect (flow_type = "all"%string)) as [Hall|Hall].
  - assert (Ha' : forall ty, asked flow fm flow_type ty <-> Z.testbit fm ty = true) by (intros ty; by apply (Ha ty)).
    destruct (Z.eqb_spec fm 0) as [->|Hnz].
    { exists s, m. split; [done|]. split; [done|]. split; [|split; [done|split; [|done]]].
      - intros ty. by rewrite decide_False by (by rewrite Ha', Z.bits_0).
      - intros [ty Hty%Ha']. by rewrite Z.bits_0 in Hty. }
    destruct (set_all_masks_at max ltac:(lia) max 0 fm port padded s m Hm) as (s' & m' & E & Hm' & (Hps & Hother & _) & Hty);
      [lia|lia|done|]. rewrite E. cbn [mbind outcome_bind]. exists (reconfigured port s'), m'. split; [done|].
    split; [exact Hm'|]. split; [|split; [exact Hother|split; [intros _; cbn; by rewrite Hps|]]].
    + intros ty. rewrite Hty. apply decide_ext. rewrite Ha'. split; [by intros [? ?]|].
      intros Hb. split; [|done]. specialize (Htop ty Hb). lia.
    + intros Hno. exfalso. apply Hnz, Z.bits_inj_0. intros ty. specialize (Hno ty). rewrite Ha' in Hno. by destruct (Z.testbit fm ty).
  - assert (Ha' : forall ty, asked flow fm flow_type ty <-> ty = str2flowtype flow flow_type /\ Z.testbit fm ty = true)
      by (intros ty; by apply (Ha ty)).
    clear Ha. set (ty := str2flowtype flow flow_type) in *.
    assert (Hty : 0 <= ty < Z.of_nat max).
    { unfold ty, str2flowtype. destruct (List.find _ _) as [[n k]|]; [specialize (Hflow k); lia|unfold RTE_ETH_FLOW_UNKNOWN; lia]. }
    rewrite land_bit by lia. destruct (Z.testbit fm ty) eqn:Hb; cbn [negb].
    + destruct (set_mask_at max ltac:(lia) port (FlexEntry ty padded) s m Hm) as (s' & E & Hm' & Hps & Hother & _);
        [cbn [fe_type]; by apply Htop|]. rewrite E. cbn [mbind outcome_bind].
      exists (reconfigured port s'), (<[ty := padded]> m). split; [done|]. split; [exact Hm'|].
      split; [|split; [exact Hother|split; [intros _; cbn; by rewrite Hps|]]].
      * intros t. destruct (decide _) as [Hn|Hn]; rewrite Ha' in Hn; [destruct Hn as [-> _]; by rewrite lookup_insert_eq|].
        rewrite lookup_insert_ne; [done|]. intros <-. by apply Hn.
      * intros Hno. destruct (Hno ty). by rewrite Ha'.
    + exists s, m. split; [done|]. split; [done|]. split; [|split; [done|split; [|done]]].
      * intros t. rewrite decide_False; [done|]. rewrite Ha'. intros [-> Hb']. congruence.
      * intros (t & Ht%Ha'). destruct Ht as [-> Hb']. congruence.
Qed.

(** ** Examples *)

Definition sample_flow (k : flow_kind) : Z := match k with FLOW_IPV4 => 2 | FLOW_IPV6 => 3 | _ => 1 end.
Definition sample_table : flex_table := FlexTable 0 (replicate 4 (FlexEntry 0 [0; 0; 0])).
Definition sample_fdir : fdir_state := FdirState sample_state (replicate 2 (FlexConf sample_table sample_table)).

Definition sample_fdir_cmd (port_id : Z) (name : string) : fdir_state -> outcome fdir_state :=
  @cmd_flow_director_flex_mask_parsed sample_text 3 4 sample_flow (fun _ => Some 12) port_id name "(7,255)".

Lemma flex_mask_cmd_sets_witness :
  exists s' m', sample_fdir_cmd 1 "ipv6" sample_fdir = Done s' /\ masks_at 4 s' 1 m' /\ m' !! 3 = Some [7; 255; 0].
Proof.
  destruct (@flex_mask_cmd_sets sample_text sample_text_doc 3 4 sample_flow (fun _ => Some 12) 1 (sample_port STOPPED)
    "ipv6"%string [7; 255] 12 sample_fdir ∅) as (s' & m' & E & Hm & Hty & _).
  - lia.
  - lia.
  - intros []; cbn; lia.
  - split; [lia|reflexivity].
  - cbn. lia.
  - reflexivity.
  - reflexivity.
  - eexists. split; [reflexivity|]. split; [|reflexivity]. constructor; cbn; [reflexivity|lia|constructor|constructor|].
    repeat constructor.
  - reflexivity.
  - split; [discriminate|]. split; [cbn; lia|]. repeat constructor; unfold byte; lia.
  - exists s', m'. split; [exact E|]. split; [exact Hm|]. rewrite (Hty 3). rewrite decide_True by (split; reflexivity). reflexivity.
Defined.

(** The masks after "all" are not cleared by a second command for one kind of
    flow, but by "none". *)
Lemma flex_mask_sequence :
  (s ← sample_fdir_cmd 0 "all" sample_fdir; s ← sample_fdir_cmd 0 "raw" s; Done (flex_map ∘ flex_masks <$> fs_conf s)) =
    Done [{[2 := [7; 255; 0]; 3 := [7; 255; 0]]}; ∅] /\
  (s ← sample_fdir_cmd 0 "all" sample_fdir; s ← sample_fdir_cmd 0 "none" s; Done (flex_map ∘ flex_masks <$> fs_conf s)) =
    Done [{[0 := [7; 255; 0]]}; ∅].
Proof. split; vm_compute; reflexivity. Qed.

(** The number of ports passes the check of the port. *)
Lemma flex_mask_behind_ports :
  sample_fdir_cmd 2 "ipv4" sample_fdir = Undefined /\ sample_fdir_cmd 3 "ipv4" sample_fdir = Done sample_fdir.
Proof. split; vm_compute; reflexivity. Qed.
