(* ===== verification/OffloadCmds.v ===== *)
(** * test-pmd/cmdline.c: the commands on VLANs, checksums and segmentation

    The commands that set what a port does with the packets it receives and
    sends: "vlan set", "rx_vlan", "tx_vlan", "csum" and "tso".  They work on
    the bits of one mask, three fields of the port and the offload mask of
    the device (FwdSettings.v); they refine a record of features per port. *)

From Stdlib Require Import Ascii.
From stdpp Require Import strings functions.
From S2P Require Import Prelude Cstr Packet PortConf PortState FwdEngines CsumOnly CoreConf FwdSettings SetCmds Params.

#[local] Open Scope Z_scope.
#[local] Open Scope list_scope.

(** ** Data *)

(** The checksums a device can compute, and their bits. *)
Inductive cksum : Type := IP_CKSUM | UDP_CKSUM | TCP_CKSUM | SCTP_CKSUM | OUTER_IP_CKSUM.

#[export] Instance cksum_eq : EqDecision cksum.
Proof. solve_decision. Defined.

Definition cksum_flag (k : cksum) : Z :=
  match k with
  | IP_CKSUM => TESTPMD_TX_OFFLOAD_IP_CKSUM
  | UDP_CKSUM => TESTPMD_TX_OFFLOAD_UDP_CKSUM
  | TCP_CKSUM => TESTPMD_TX_OFFLOAD_TCP_CKSUM
  | SCTP_CKSUM => TESTPMD_TX_OFFLOAD_SCTP_CKSUM
  | OUTER_IP_CKSUM => TESTPMD_TX_OFFLOAD_OUTER_IP_CKSUM
  end.

Definition cksums : list cksum := [IP_CKSUM; UDP_CKSUM; TCP_CKSUM; SCTP_CKSUM; OUTER_IP_CKSUM].

(** What a command prints. *)
Inductive report_line : Type :=
| ParseTunnel (on : bool) | CksumIn (k : cksum) (hw : bool) | CksumUnsupported (k : cksum)
| TsoDisabled | TsoSize (n : Z) | TsoUnsupported.

Definition ETH_VLAN_TYPE_INNER : Z := 1.
Definition ETH_VLAN_TYPE_OUTER : Z := 2.

(** ** Commands *)

Section Commands.
Variables (STR_TOKEN_SIZE : nat) (vlan_get : list vlan_call -> Z -> Z) (vlan_diag : list vlan_call -> Z).
(** Whether a device can compute a checksum, and segment packets. *)
Variables (can_cksum : Z -> cksum -> bool) (can_tso : Z -> bool).
Variable st : pstate.

Definition cmd_rx_vlan_filter_all_parsed (what : string) (port_id : Z) : vlan_state -> vlan_state :=
  rx_vlan_all_filter_set vlan_diag st port_id (bool_decide (what = "add"%string)).

(** The text names a port, and the queue for "stripq" behind a comma.  The
    numbers are truncated to 32 bits. *)
Definition cmd_vlan_offload_parsed (port_id what on : string) (v : vlan_state) : outcome vlan_state :=
  _ ← c_defined (String.length port_id <? STR_TOKEN_SIZE)%nat;
  let '(str, queue) :=
    match strchr "," port_id with Some (w, String _ r) => (w, r) | _ => (port_id, ""%string) end in
  let tmp := u32 (strtoul 0 str).1.1.1 in
  if Z.of_nat RTE_MAX_ETHPORTS <=? tmp then Done v
  else
    let port_id := u8 tmp in
    let on := bool_decide (on = "on"%string) in
    if bool_decide (what = "strip"%string) then Done (rx_vlan_strip_set vlan_get st port_id on v)
    else if bool_decide (what = "stripq"%string) then
      if bool_decide (queue = ""%string) then Done v
      else
        let tmp := u32 (strtoul 0 queue).1.1.1 in
        if 65535 <? tmp then Done v else Done (rx_vlan_strip_set_on_queue st port_id (u16 tmp) on v)
    else if bool_decide (what = "filter"%string) then Done (rx_vlan_filter_set vlan_get st port_id on v)
    else Done (vlan_extend_set vlan_get st port_id on v).

Definition cmd_vlan_tpid_parsed (vlan_type : string) (port_id tp_id : Z) (v : vlan_state) : vlan_state :=
  if bool_decide (vlan_type = "inner"%string) then vlan_tpid_set st port_id ETH_VLAN_TYPE_INNER tp_id v
  else if bool_decide (vlan_type = "outer"%string) then vlan_tpid_set st port_id ETH_VLAN_TYPE_OUTER tp_id v
  else v.

Definition cmd_rx_vlan_filter_parsed (what : string) (vlan_id port_id : Z) (v : vlan_state) : vlan_state :=
  (rx_vft_set vlan_diag st port_id vlan_id (bool_decide (what = "add"%string)) v).2.

Definition cmd_tx_vlan_set_parsed (port_id vlan_id : Z) : vlan_state -> outcome vlan_state :=
  tx_vlan_set vlan_get st port_id vlan_id.

Definition cmd_tx_vlan_set_qinq_parsed (port_id vlan_id vlan_id_outer : Z) : vlan_state -> outcome vlan_state :=
  tx_qinq_set vlan_get st port_id vlan_id vlan_id_outer.

Definition cmd_tx_vlan_set_pvid_parsed (port_id vlan_id : Z) (mode : string) : vlan_state -> vlan_state :=
  tx_vlan_pvid_set st port_id vlan_id (bool_decide (mode = "on"%string)).

Definition cmd_tx_vlan_reset_parsed (port_id : Z) : vlan_state -> outcome vlan_state := tx_vlan_reset st port_id.

Definition csum_show (port_id : Z) (v : vlan_state) : outcome (list report_line) :=
  p ← of_opt (zget (tx_conf_of v) port_id);
  let ol_flags := tx_ol_flags p in
  Done (ParseTunnel (has_flag ol_flags TESTPMD_TX_OFFLOAD_PARSE_TUNNEL) ::
    ((fun k => CksumIn k (has_flag ol_flags (cksum_flag k))) <$> cksums) ++
    (CksumUnsupported <$> List.filter (fun k => has_flag ol_flags (cksum_flag k) && negb (can_cksum port_id k)) cksums)).

(** Setting and clearing bits of the mask of a port, 16 bits wide. *)
Definition set_flags (mask : Z) (p : tx_port_conf) : tx_port_conf :=
  TxPort (eth_addr p) (Z.lor (tx_ol_flags p) mask) (tx_vlan_id p) (tx_vlan_id_outer p) (tso_segsz p).
Definition clear_flags (mask : Z) (p : tx_port_conf) : tx_port_conf :=
  TxPort (eth_addr p) (Z.land (tx_ol_flags p) (u16 (Z.lnot mask))) (tx_vlan_id p) (tx_vlan_id_outer p) (tso_segsz p).

Definition csum_mask (proto : string) : Z :=
  if bool_decide (proto = "ip"%string) then TESTPMD_TX_OFFLOAD_IP_CKSUM
  else if bool_decide (proto = "udp"%string) then TESTPMD_TX_OFFLOAD_UDP_CKSUM
  else if bool_decide (proto = "tcp"%string) then TESTPMD_TX_OFFLOAD_TCP_CKSUM
  else if bool_decide (proto = "sctp"%string) then TESTPMD_TX_OFFLOAD_SCTP_CKSUM
  else if bool_decide (proto = "outer-ip"%string) then TESTPMD_TX_OFFLOAD_OUTER_IP_CKSUM
  else 0.

Definition cmd_csum_parsed (mode proto hwsw : string) (port_id : Z) (v : vlan_state)
    : outcome (vlan_state * list report_line) :=
  if port_id_is_invalid port_id st then Done (v, [])
  else
    v ← (if bool_decide (mode = "set"%string) then
           let hw := bool_decide (hwsw = "hw"%string) in
           let mask := csum_mask proto in
           upd_tx port_id (if hw then set_flags mask else clear_flags mask) v
         else Done v);
    l ← csum_show port_id v; Done (v, l).

Definition cmd_csum_tunnel_parsed (onoff : string) (port_id : Z) (v : vlan_state)
    : outcome (vlan_state * list report_line) :=
  if port_id_is_invalid port_id st then Done (v, [])
  else
    v ← upd_tx port_id (if bool_decide (onoff = "on"%string) then set_flags TESTPMD_TX_OFFLOAD_PARSE_TUNNEL
                        else clear_flags TESTPMD_TX_OFFLOAD_PARSE_TUNNEL) v;
    l ← csum_show port_id v; Done (v, l).

Definition cmd_tso_set_parsed (mode : string) (segsz port_id : Z) (v : vlan_state)
    : outcome (vlan_state * list report_line) :=
  if port_id_is_invalid port_id st then Done (v, [])
  else
    v ← (if bool_decide (mode = "set"%string) then
           upd_tx port_id (fun p => TxPort (eth_addr p) (tx_ol_flags p) (tx_vlan_id p) (tx_vlan_id_outer p) segsz) v
         else Done v);
    p ← of_opt (zget (tx_conf_of v) port_id);
    Done (v, (if tso_segsz p =? 0 then TsoDisabled else TsoSize (tso_segsz p)) ::
             if negb (tso_segsz p =? 0) && negb (can_tso port_id) then [TsoUnsupported] else []).
End Commands.

(** ** Specification *)

(** The tags a port inserts. *)
Inductive tags : Type := NoTag | OneTag (vlan : Z) | TwoTags (inner outer : Z).

(** What a port does: the checksums its device computes, whether the engine
    looks into tunnels, the tags, the size of segments (0 for none), and what
    the device does with the tags of received packets. *)
Record features : Type := Features {
  ft_hw : cksum -> bool;
  ft_tunnel : bool;
  ft_tags : tags;
  ft_tso : Z;
  ft_strip : bool;
  ft_filter : bool;
  ft_extend : bool;
}.

Inductive vlan_what : Type := Strip | Filter | Extend.

(** A command as a user means it. *)
Inductive port_op : Type :=
| OpCksum (k : cksum) (hw : bool) | OpTunnel (on : bool) | OpShow | OpTso (segsz : Z) | OpShowTso
| OpTag (vlan : Z) | OpTags (inner outer : Z) | OpUntag
| OpVlan (w : vlan_what) (on : bool) | OpStripQueue (q : Z) (on : bool)
| OpTpid (inner : bool) (tpid : Z) | OpFilter (vlan : Z) (add : bool) | OpFilterAll (add : bool)
| OpPvid (vlan : Z) (on : bool).

Definition set_tags (t : tags) (f : features) : features :=
  Features (ft_hw f) (ft_tunnel f) t (ft_tso f) (ft_strip f) (ft_filter f) (ft_extend f).

(** One tag is refused when the device handles two, two tags when it does
    not. *)
Definition spec_op (op : port_op) (f : features) : features :=
  match op with
  | OpCksum k hw => Features (<[k := hw]> (ft_hw f)) (ft_tunnel f) (ft_tags f) (ft_tso f) (ft_strip f) (ft_filter f) (ft_extend f)
  | OpTunnel on => Features (ft_hw f) on (ft_tags f) (ft_tso f) (ft_strip f) (ft_filter f) (ft_extend f)
  | OpTso n => Features (ft_hw f) (ft_tunnel f) (ft_tags f) n (ft_strip f) (ft_filter f) (ft_extend f)
  | OpTag v => if (v <? 4096) && negb (ft_extend f) then set_tags (OneTag v) f else f
  | OpTags i o => if (i <? 4096) && (o <? 4096) && ft_extend f then set_tags (TwoTags i o) f else f
  | OpUntag => set_tags NoTag f
  | OpVlan Strip on => Features (ft_hw f) (ft_tunnel f) (ft_tags f) (ft_tso f) on (ft_filter f) (ft_extend f)
  | OpVlan Filter on => Features (ft_hw f) (ft_tunnel f) (ft_tags f) (ft_tso f) (ft_strip f) on (ft_extend f)
  | OpVlan Extend on => Features (ft_hw f) (ft_tunnel f) (ft_tags f) (ft_tso f) (ft_strip f) (ft_filter f) on
  | OpShow | OpShowTso | OpStripQueue _ _ | OpTpid _ _ | OpFilter _ _ | OpFilterAll _ | OpPvid _ _ => f
  end.

(** What the user is told, in a port with the features [f]. *)
Definition spec_report (can_cksum : Z -> cksum -> bool) (can_tso : Z -> bool) (port : Z) (op : port_op) (f : features)
    : list report_line :=
  match op with
  | OpCksum _ _ | OpTunnel _ | OpShow =>
      ParseTunnel (ft_tunnel f) :: ((fun k => CksumIn k (ft_hw f k)) <$> cksums) ++
      (CksumUnsupported <$> List.filter (fun k => ft_hw f k && negb (can_cksum port k)) cksums)
  | OpTso _ | OpShowTso =>
      (if ft_tso f =? 0 then TsoDisabled else TsoSize (ft_tso f)) ::
      if negb (ft_tso f =? 0) && negb (can_tso port) then [TsoUnsupported] else []
  | _ => []
  end.

Definition spec_step (valid : Z -> bool) (port : Z) (op : port_op) (m : Z -> features) : Z -> features :=
  if valid port then <[port := spec_op op (m port)]> m else m.

(** The command line for an operation. *)
Definition on_text (on : bool) : string := if on then "on" else "off".
Definition add_text (add : bool) : string := if add then "add" else "rm".
Definition hw_text (hw : bool) : string := if hw then "hw" else "sw".
Definition cksum_text (k : cksum) : string :=
  match k with
  | IP_CKSUM => "ip" | UDP_CKSUM => "udp" | TCP_CKSUM => "tcp" | SCTP_CKSUM => "sctp" | OUTER_IP_CKSUM => "outer-ip"
  end.
Definition what_text (w : vlan_what) : string :=
  match w with Strip => "strip" | Filter => "filter" | Extend => "qinq" end.

Section Run.
Variables (size : nat) (get : list vlan_call -> Z -> Z) (diag : list vlan_call -> Z)
  (can_cksum : Z -> cksum -> bool) (can_tso : Z -> bool) (st : pstate).

Definition silent (r : outcome vlan_state) : outcome (vlan_state * list report_line) := v ← r; Done (v, []).

Definition run_port_op (port : Z) (op : port_op) (v : vlan_state) : outcome (vlan_state * list report_line) :=
  match op with
  | OpCksum k hw => cmd_csum_parsed can_cksum st "set" (cksum_text k) (hw_text hw) port v
  | OpTunnel on => cmd_csum_tunnel_parsed can_cksum st (on_text on) port v
  | OpShow => cmd_csum_parsed can_cksum st "show" "" "" port v
  | OpTso n => cmd_tso_set_parsed can_tso st "set" n port v
  | OpShowTso => cmd_tso_set_parsed can_tso st "show" 0 port v
  | OpTag vlan => silent (cmd_tx_vlan_set_parsed get st port vlan v)
  | OpTags i o => silent (cmd_tx_vlan_set_qinq_parsed get st port i o v)
  | OpUntag => silent (cmd_tx_vlan_reset_parsed st port v)
  | OpVlan w on => silent (cmd_vlan_offload_parsed size get st (dec port) (what_text w) (on_text on) v)
  | OpStripQueue q on => silent (cmd_vlan_offload_parsed size get st (dec port +:+ "," +:+ dec q) "stripq" (on_text on) v)
  | OpTpid inner tpid => silent (Done (cmd_vlan_tpid_parsed st (if inner then "inner" else "outer") port tpid v))
  | OpFilter vlan add => silent (Done (cmd_rx_vlan_filter_parsed diag st (add_text add) vlan port v))
  | OpFilterAll add => silent (Done (cmd_rx_vlan_filter_all_parsed diag st (add_text add) port v))
  | OpPvid vlan on => silent (Done (cmd_tx_vlan_set_pvid_parsed st port vlan (on_text on) v))
  end.

(** A sequence of commands, and what they print. *)
Fixpoint run_port_ops (ops : list (Z * port_op)) (v : vlan_state) : outcome (vlan_state * list (list report_line)) :=
  match ops with
  | [] => Done (v, [])
  | (port, op) :: ops => '(v, l) ← run_port_op port op v; '(v, ls) ← run_port_ops ops v; Done (v, l :: ls)
  end.
End Run.

Fixpoint spec_run (can_cksum : Z -> cksum -> bool) (can_tso : Z -> bool) (valid : Z -> bool) (ops : list (Z * port_op))
    (m : Z -> features) : (Z -> features) * list (list report_line) :=
  match ops with
  | [] => (m, [])
  | (port, op) :: ops =>
      let m := spec_step valid port op m in
      let '(m', ls) := spec_run can_cksum can_tso valid ops m in
      (m', (if valid port then spec_report can_cksum can_tso port op (m port) else []) :: ls)
  end.

(** How features are kept: as bits, and as the tags and the size in fields. *)
Definition bit (b : bool) (flag : Z) : Z := if b then flag else 0.

Definition features_flags (f : features) : Z :=
  Z.lor (foldr (fun k acc => Z.lor (bit (ft_hw f k) (cksum_flag k)) acc) 0 cksums)
    (Z.lor (bit (ft_tunnel f) TESTPMD_TX_OFFLOAD_PARSE_TUNNEL)
       (match ft_tags f with
        | NoTag => 0 | OneTag _ => TESTPMD_TX_OFFLOAD_INSERT_VLAN | TwoTags _ _ => TESTPMD_TX_OFFLOAD_INSERT_QINQ
        end)).

Definition tag_of (f : features) : Z := match ft_tags f with NoTag => 0 | OneTag v => v | TwoTags i _ => i end.
Definition outer_of (f : features) : Z := match ft_tags f with TwoTags _ o => o | _ => 0 end.

Definition device_mask (f : features) : Z :=
  Z.lor (bit (ft_strip f) ETH_VLAN_STRIP_OFFLOAD)
    (Z.lor (bit (ft_filter f) ETH_VLAN_FILTER_OFFLOAD) (bit (ft_extend f) ETH_VLAN_EXTEND_OFFLOAD)).

Definition kept (addr : list Z) (f : features) : tx_port_conf :=
  TxPort addr (features_flags f) (tag_of f) (outer_of f) (ft_tso f).

(** The ports and their devices keep the features [m]. *)
Definition represents (get : list vlan_call -> Z -> Z) (st : pstate) (v : vlan_state) (m : Z -> features) : Prop :=
  forall port, port <> RTE_PORT_ALL -> port_id_is_invalid port st = false ->
    (exists addr, zget (tx_conf_of v) port = Some (kept addr (m port))) /\
    get (vlan_calls v) port = device_mask (m port).

(** DPDK: a device has the offload mask it was given last. *)
Class VlanDoc (get : list vlan_call -> Z -> Z) : Prop := {
  vd_set : forall l p mask q, get (SetOffload p mask :: l) q = if decide (q = p) then mask else get l q;
  vd_other : forall l c q, (forall p mask, c <> SetOffload p mask) -> get (c :: l) q = get l q;
}.

(** An operation on one port, with a queue of 16 bits and tags that are no
    negative numbers. *)
Definition op_ok (x : Z * port_op) : Prop :=
  0 <= x.1 < RTE_PORT_ALL /\
  match x.2 with
  | OpStripQueue q _ => 0 <= q <= 65535 | OpTag v => 0 <= v | OpTags i o => 0 <= i /\ 0 <= o | _ => True
  end.

(** ** Lemmas *)

(** The bits of a mask are computed for all values of the features. *)
Ltac all_tx f :=
  unfold features_flags; cbn [ft_hw ft_tunnel ft_tags foldr cksums spec_op set_tags];
  cbv beta delta [insert fn_insert]; generalize (ft_tags f) (ft_tunnel f) (ft_hw f); intros t tun hw;
  repeat match goal with |- context [hw ?k] => destruct (hw k) end; destruct tun, t; reflexivity.
Ltac all_rx f :=
  unfold device_mask; cbn [ft_strip ft_filter ft_extend spec_op];
  destruct (ft_strip f), (ft_filter f), (ft_extend f); reflexivity.

Lemma flags_cksum f k b :
  features_flags (spec_op (OpCksum k b) f) =
    if b then Z.lor (features_flags f) (cksum_flag k) else Z.land (features_flags f) (u16 (Z.lnot (cksum_flag k))).
Proof. destruct k, b; all_tx f. Qed.

Lemma flags_tunnel f b :
  features_flags (spec_op (OpTunnel b) f) =
    if b then Z.lor (features_flags f) TESTPMD_TX_OFFLOAD_PARSE_TUNNEL
    else Z.land (features_flags f) (u16 (Z.lnot TESTPMD_TX_OFFLOAD_PARSE_TUNNEL)).
Proof. destruct b; all_tx f. Qed.

Lemma flags_untag f :
  Z.land (features_flags f) (u16 (Z.lnot (Z.lor TESTPMD_TX_OFFLOAD_INSERT_VLAN TESTPMD_TX_OFFLOAD_INSERT_QINQ))) =
    features_flags (set_tags NoTag f).
Proof. all_tx f. Qed.

Lemma flags_one f v :
  Z.lor (features_flags (set_tags NoTag f)) TESTPMD_TX_OFFLOAD_INSERT_VLAN = features_flags (set_tags (OneTag v) f).
Proof. all_tx f. Qed.

Lemma flags_two f i o :
  Z.lor (features_flags (set_tags NoTag f)) TESTPMD_TX_OFFLOAD_INSERT_QINQ = features_flags (set_tags (TwoTags i o) f).
Proof. all_tx f. Qed.

Lemma has_cksum f k : has_flag (features_flags f) (cksum_flag k) = ft_hw f k.
Proof. destruct k; all_tx f. Qed.

Lemma has_tunnel f : has_flag (features_flags f) TESTPMD_TX_OFFLOAD_PARSE_TUNNEL = ft_tunnel f.
Proof. all_tx f. Qed.

Lemma has_extend f : has_flag (device_mask f) ETH_VLAN_EXTEND_OFFLOAD = ft_extend f.
Proof. all_rx f. Qed.

Definition what_flag (w : vlan_what) : Z :=
  match w with
  | Strip => ETH_VLAN_STRIP_OFFLOAD | Filter => ETH_VLAN_FILTER_OFFLOAD | Extend => ETH_VLAN_EXTEND_OFFLOAD
  end.

Lemma mask_what f w b :
  device_mask (spec_op (OpVlan w b) f) =
    if b then Z.lor (device_mask f) (what_flag w) else Z.land (device_mask f) (Z.lnot (what_flag w)).
Proof. destruct w, b; all_rx f. Qed.

(** ** Lemmas: one command *)

Lemma upd_tx_at port f v p :
  zget (tx_conf_of v) port = Some p ->
  upd_tx port f v = Done (VlanState (<[Z.to_nat port := f p]> (tx_conf_of v)) (vlan_calls v)).
Proof.
  intros Hp. pose proof Hp as [H0 Hl%lookup_lt_Some]%zget_Some. unfold upd_tx. rewrite Hp.
  cbn [of_opt mbind outcome_bind]. by rewrite zset_insert by lia.
Qed.

Section Step.
Context (size : nat) (get : list vlan_call -> Z -> Z) (diag : list vlan_call -> Z)
  (can_cksum : Z -> cksum -> bool) (can_tso : Z -> bool) (st : pstate) {Hdoc : VlanDoc get}.
Context (port : Z) (Hall : port <> RTE_PORT_ALL) (Hv : port_id_is_invalid port st = false).

Lemma valid_port_nonneg : 0 <= port.
Proof.
  unfold port_id_is_invalid in Hv. destruct (port =? RTE_PORT_ALL) eqn:E; [lia|].
  unfold zget in Hv. by destruct (Z.leb_spec 0 port).
Qed.

(** The features of the port become [f'], those of the other ports stay. *)
Lemma represents_conf v m addr f' :
  represents get st v m -> zget (tx_conf_of v) port = Some (kept addr (m port)) -> device_mask f' = device_mask (m port) ->
  represents get st (VlanState (<[Z.to_nat port := kept addr f']> (tx_conf_of v)) (vlan_calls v)) (<[port := f']> m).
Proof.
  intros Hm Hp Hd q Hq Hqv. cbn [tx_conf_of vlan_calls]. pose proof valid_port_nonneg as H0.
  pose proof Hp as [_ Hl%lookup_lt_Some]%zget_Some. destruct (Hm q Hq Hqv) as [(a & Ha) Hg].
  destruct (decide (q = port)) as [->|Hne].
  - rewrite fn_lookup_insert. split; [|congruence]. exists addr. apply zget_Some. split; [done|].
    apply list_lookup_insert_eq. lia.
  - rewrite fn_lookup_insert_ne by done. split; [|done]. exists a. apply zget_Some in Ha as [Hq0 Ha].
    apply zget_Some. split; [done|]. rewrite list_lookup_insert_ne by lia. done.
Qed.

Lemma insert_same_features v m f' :
  represents get st v m -> f' = m port -> represents get st v (<[port := f']> m).
Proof.
  intros Hm -> q Hq Hqv. destruct (decide (q = port)) as [->|]; [rewrite fn_lookup_insert|rewrite fn_lookup_insert_ne by done];
    by apply Hm.
Qed.

Lemma represents_call v m c :
  represents get st v m -> (forall p mask, c <> SetOffload p mask) -> represents get st (vlan_do c v) m.
Proof.
  intros Hm Hc q Hq Hqv. destruct (Hm q Hq Hqv) as [Ha Hg]. split; [exact Ha|]. cbn. by rewrite vd_other.
Qed.

(** A call on the offload mask of the port. *)
Lemma represents_mask v m w (on : bool) :
  represents get st v m ->
  represents get st (vlan_do (SetOffload port
      (if on then Z.lor (get (vlan_calls v) port) (what_flag w) else Z.land (get (vlan_calls v) port) (Z.lnot (what_flag w)))) v)
    (<[port := spec_op (OpVlan w on) (m port)]> m).
Proof.
  intros Hm. destruct (Hm port Hall Hv) as [_ ->]. rewrite <- mask_what. intros q Hq Hqv.
  destruct (Hm q Hq Hqv) as [(a & Ha) Hg]. cbn [vlan_do tx_conf_of vlan_calls]. rewrite vd_set.
  destruct (decide (q = port)) as [->|Hne].
  - rewrite fn_lookup_insert. split; [|done]. exists a. rewrite Ha. f_equal. by destruct w.
  - rewrite fn_lookup_insert_ne by done. by split; [exists a|].
Qed.

(** The reset, and what follows it when tags are set. *)
Lemma untag_at v m addr :
  zget (tx_conf_of v) port = Some (kept addr (m port)) ->
  tx_vlan_reset st port v =
    Done (VlanState (<[Z.to_nat port := kept addr (set_tags NoTag (m port))]> (tx_conf_of v)) (vlan_calls v)).
Proof.
  intros Hp. unfold tx_vlan_reset. rewrite Hv, (upd_tx_at _ _ _ _ Hp). unfold kept.
  cbn [eth_addr tx_ol_flags tx_vlan_id tx_vlan_id_outer tso_segsz]. by rewrite flags_untag.
Qed.

Lemma retag_at v m addr f t :
  zget (tx_conf_of v) port = Some (kept addr (m port)) ->
  f (kept addr (set_tags NoTag (m port))) = kept addr (set_tags t (m port)) ->
  (v ← tx_vlan_reset st port v; upd_tx port f v) =
    Done (VlanState (<[Z.to_nat port := kept addr (set_tags t (m port))]> (tx_conf_of v)) (vlan_calls v)).
Proof.
  intros Hp Hf. rewrite (untag_at v m addr Hp). cbn [mbind outcome_bind].
  pose proof Hp as [H0 Hl%lookup_lt_Some]%zget_Some. erewrite upd_tx_at.
  2: { cbn [tx_conf_of]. apply zget_Some. split; [done|]. apply list_lookup_insert_eq. lia. }
  cbn [tx_conf_of vlan_calls]. by rewrite list_insert_insert_eq, Hf.
Qed.

Lemma csum_show_at v addr f :
  zget (tx_conf_of v) port = Some (kept addr f) ->
  csum_show can_cksum port v = Done (spec_report can_cksum can_tso port OpShow f).
Proof.
  intros Hp. unfold csum_show. rewrite Hp. cbn [of_opt mbind outcome_bind tx_ol_flags kept spec_report].
  rewrite has_tunnel. f_equal. f_equal. f_equal; [|f_equal].
  - apply list_fmap_ext. intros ? k _. by rewrite has_cksum.
  - apply List.filter_ext. intros k. by rewrite has_cksum.
Qed.

(** A command that changes the fields of the port and then shows them. *)
Lemma set_and_show v m addr g f' :
  represents get st v m -> zget (tx_conf_of v) port = Some (kept addr (m port)) ->
  g (kept addr (m port)) = kept addr f' -> device_mask f' = device_mask (m port) ->
  exists v', (v ← upd_tx port g v; l ← csum_show can_cksum port v; Done (v, l)) =
      Done (v', spec_report can_cksum can_tso port OpShow f') /\ represents get st v' (<[port := f']> m).
Proof.
  intros Hm Hp Hg Hd. eexists. split; [|by apply (represents_conf v m addr f')].
  rewrite (upd_tx_at _ _ _ _ Hp), Hg. cbn [mbind outcome_bind]. pose proof Hp as [H0 Hl%lookup_lt_Some]%zget_Some.
  rewrite (csum_show_at _ addr f'); [done|]. apply zget_Some. split; [done|]. apply list_lookup_insert_eq. lia.
Qed.
End Step.

(** The text of a port, and of a port and a queue. *)
Lemma offload_text size get st port what on v :
  (12 < size)%nat -> 0 <= port < RTE_PORT_ALL -> what <> "stripq"%string ->
  cmd_vlan_offload_parsed size get st (dec port) what on v =
    Done (if Z.of_nat RTE_MAX_ETHPORTS <=? port then v
          else vlan_offload_set get st
                 (if bool_decide (what = "strip"%string) then ETH_VLAN_STRIP_OFFLOAD
                  else if bool_decide (what = "filter"%string) then ETH_VLAN_FILTER_OFFLOAD else ETH_VLAN_EXTEND_OFFLOAD)
                 port (bool_decide (on = "on"%string)) v).
Proof.
  intros Hs Hp Hw. unfold cmd_vlan_offload_parsed, RTE_PORT_ALL in *.
  destruct (dec_ok port ltac:(unfold upto; lia)) as [_ _ Hl Hd].
  destruct (Nat.ltb_spec (String.length (dec port)) size); [|lia]. cbn [c_defined mbind outcome_bind].
  rewrite (Hd ","%char eq_refl), strtoul_dec by (unfold ULONG_MAX; lia). cbn [fst]. rewrite u32_small by lia.
  destruct (Z.leb_spec (Z.of_nat RTE_MAX_ETHPORTS) port); [done|]. rewrite u8_small by lia.
  rewrite (bool_decide_false (what = "stripq"%string)) by done.
  by destruct (bool_decide (what = "strip"%string)), (bool_decide (what = "filter"%string)).
Qed.

Lemma stripq_text size get st port q on v :
  (12 < size)%nat -> 0 <= port < RTE_PORT_ALL -> 0 <= q <= 65535 ->
  cmd_vlan_offload_parsed size get st (dec port +:+ "," +:+ dec q) "stripq" on v =
    Done (if Z.of_nat RTE_MAX_ETHPORTS <=? port then v
          else rx_vlan_strip_set_on_queue st port q (bool_decide (on = "on"%string)) v).
Proof.
  intros Hs Hp Hq. unfold cmd_vlan_offload_parsed, RTE_PORT_ALL in *.
  destruct (dec_ok port ltac:(unfold upto; lia)) as [_ _ Hl Hd].
  destruct (dec_ok q ltac:(unfold upto; lia)) as [_ Hne Hlq _]. rewrite !string_length_app. cbn [String.length].
  destruct (Nat.ltb_spec (String.length (dec port) + (1 + String.length (dec q))) size); [|lia].
  cbn [c_defined mbind outcome_bind]. change ("," +:+ dec q)%string with (String "," (dec q)).
  rewrite strchr_app by (by apply Hd). rewrite !strtoul_dec by (unfold ULONG_MAX; lia). cbn [fst].
  rewrite !u32_small by lia. destruct (Z.leb_spec (Z.of_nat RTE_MAX_ETHPORTS) port); [done|].
  rewrite u8_small, u16_small by lia. rewrite bool_decide_false by done. rewrite bool_decide_true by done.
  rewrite (bool_decide_false (dec q = ""%string)) by done. by destruct (Z.ltb_spec 65535 q); [lia|].
Qed.

(** Ports behind the array are invalid. *)
Lemma valid_port_small st port :
  (length (ports st) <= RTE_MAX_ETHPORTS)%nat -> port <> RTE_PORT_ALL -> port_id_is_invalid port st = false ->
  port < Z.of_nat RTE_MAX_ETHPORTS.
Proof.
  intros Hl Hp. unfold port_id_is_invalid. destruct (Z.eqb_spec port RTE_PORT_ALL); [done|].
  unfold zget. destruct (Z.leb_spec 0 port); [|done]. destruct (ports st !! Z.to_nat port) eqn:E; [|done].
  apply lookup_lt_Some in E. lia.
Qed.

Lemma on_text_on b : bool_decide (on_text b = "on"%string) = b.
Proof. by destruct b. Qed.
Lemma add_text_add b : bool_decide (add_text b = "add"%string) = b.
Proof. by destruct b. Qed.
Lemma hw_text_hw b : bool_decide (hw_text b = "hw"%string) = b.
Proof. by destruct b. Qed.
Lemma cksum_text_mask k : csum_mask (cksum_text k) = cksum_flag k.
Proof. by destruct k. Qed.

(** Nothing happens to a port that is not valid. *)
Lemma invalid_port_op size get diag can_cksum can_tso st port op v :
  (12 < size)%nat -> op_ok (port, op) -> port_id_is_invalid port st = true ->
  run_port_op size get diag can_cksum can_tso st port op v = Done (v, []).
Proof.
  intros Hs [Hp Hop] Hv. cbn [fst snd] in *. destruct op; cbn [run_port_op];
    unfold cmd_csum_parsed, cmd_csum_tunnel_parsed, cmd_tso_set_parsed, cmd_tx_vlan_set_parsed, cmd_tx_vlan_set_qinq_parsed,
      cmd_tx_vlan_reset_parsed, cmd_vlan_tpid_parsed, cmd_rx_vlan_filter_parsed, cmd_rx_vlan_filter_all_parsed,
      cmd_tx_vlan_set_pvid_parsed, tx_vlan_set, tx_qinq_set, tx_vlan_reset, vlan_tpid_set, rx_vft_set,
      rx_vlan_all_filter_set, tx_vlan_pvid_set; rewrite ?Hv; try done.
  - rewrite offload_text by (done || by destruct w). unfold vlan_offload_set. rewrite Hv. by destruct (_ <=? _).
  - rewrite stripq_text by done. unfold rx_vlan_strip_set_on_queue. rewrite Hv. by destruct (_ <=? _).
  - by destruct inner.
Qed.

Lemma represents_filter get diag st v m n port vlan on :
  VlanDoc get -> represents get st v m -> represents get st (all_filter diag st n port vlan on v) m.
Proof.
  intros Hdoc. revert vlan v. induction n as [|n IH]; intros vlan v Hm; [done|]. cbn [all_filter]. unfold rx_vft_set.
  destruct (port_id_is_invalid port st); [done|]. destruct (vlan_id_is_invalid vlan); [done|].
  destruct (diag _ =? 0); cbn [Z.eqb negb]; [|by apply represents_call]. by apply IH, represents_call.
Qed.

Section ValidPort.
Context (size : nat) (get : list vlan_call -> Z -> Z) (diag : list vlan_call -> Z)
  (can_cksum : Z -> cksum -> bool) (can_tso : Z -> bool) (st : pstate) {Hdoc : VlanDoc get}.
Context (Hsize : (12 < size)%nat) (Hports : (length (ports st) <= RTE_MAX_ETHPORTS)%nat).

Lemma tso_op port op v m (Hall : port <> RTE_PORT_ALL) (Hv : port_id_is_invalid port st = false) :
  represents get st v m -> match op with OpTso _ | OpShowTso => True | _ => False end ->
  exists v', run_port_op size get diag can_cksum can_tso st port op v =
      Done (v', spec_report can_cksum can_tso port op (spec_op op (m port))) /\
    represents get st v' (<[port := spec_op op (m port)]> m).
Proof.
  intros Hm Hop. destruct (Hm port Hall Hv) as [(a & Ha) _].
  destruct op; try done; cbn [run_port_op]; unfold cmd_tso_set_parsed; rewrite Hv.
  - eexists. split; [|by apply (represents_conf _ _ port Hall Hv v m a)]. cbn [bool_decide decide].
    rewrite bool_decide_true by done. rewrite (upd_tx_at _ _ _ _ Ha). cbn [mbind outcome_bind tx_conf_of].
    pose proof Ha as [H0 Hl%lookup_lt_Some]%zget_Some.
    assert (Hz : forall x, zget (<[Z.to_nat port := x]> (tx_conf_of v)) port = Some x).
    { intros x. apply zget_Some. split; [done|]. apply list_lookup_insert_eq. lia. }
    by rewrite Hz.
  - exists v. rewrite bool_decide_false by done. cbn [mbind outcome_bind]. rewrite Ha. split; [done|].
    by apply insert_same_features.
Qed.

Lemma tag_op port op v m (Hall : port <> RTE_PORT_ALL) (Hv : port_id_is_invalid port st = false) :
  represents get st v m ->
  match op with OpTag _ | OpTags _ _ | OpUntag => True | _ => False end ->
  exists v', run_port_op size get diag can_cksum can_tso st port op v = Done (v', []) /\
    represents get st v' (<[port := spec_op op (m port)]> m).
Proof.
  intros Hm Hop. destruct (Hm port Hall Hv) as [(a & Ha) Hg].
  assert (Hset : forall f t, f (kept a (set_tags NoTag (m port))) = kept a (set_tags t (m port)) ->
    exists v', silent (v ← tx_vlan_reset st port v; upd_tx port f v) = Done (v', []) /\
      represents get st v' (<[port := set_tags t (m port)]> m)).
  { intros f t Hf. eexists. split; [|by apply (represents_conf _ _ port Hall Hv v m a)].
    by rewrite (retag_at st port Hv v m a f t Ha Hf). }
  assert (Hsame : forall f', f' = m port -> exists v', silent (Done v) = Done (v', []) /\
    represents get st v' (<[port := f']> m)) by (intros f' ->; exists v; split; [done|]; by apply insert_same_features).
  destruct op as [| | | | |vlan|inner outer| | | | | | |]; try done; cbn [run_port_op spec_op].
  - unfold cmd_tx_vlan_set_parsed, tx_vlan_set, vlan_id_is_invalid. rewrite Hv, Hg, has_extend.
    destruct (vlan <? 4096); cbn [negb andb]; [|by apply Hsame]. destruct (ft_extend (m port)); cbn [negb andb]; [by apply Hsame|].
    apply Hset. unfold kept. cbn [eth_addr tx_ol_flags tx_vlan_id_outer tso_segsz]. by rewrite flags_one with (v := vlan).
  - unfold cmd_tx_vlan_set_qinq_parsed, tx_qinq_set, vlan_id_is_invalid. rewrite Hv, Hg, has_extend.
    destruct (inner <? 4096); cbn [negb andb]; [|by apply Hsame]. destruct (outer <? 4096); cbn [negb andb]; [|by apply Hsame].
    destruct (ft_extend (m port)); cbn [negb andb]; [|by apply Hsame].
    apply Hset. unfold kept. cbn [eth_addr tx_ol_flags tso_segsz]. by rewrite flags_two with (i := inner) (o := outer).
  - unfold cmd_tx_vlan_reset_parsed. eexists. split; [by rewrite (untag_at st port Hv v m a Ha)|].
    by apply (represents_conf _ _ port Hall Hv v m a).
Qed.

Lemma device_op port op v m (Hall : port <> RTE_PORT_ALL) (Hv : port_id_is_invalid port st = false) :
  represents get st v m -> op_ok (port, op) ->
  match op with OpVlan _ _ | OpStripQueue _ _ | OpTpid _ _ | OpFilter _ _ | OpFilterAll _ | OpPvid _ _ => True | _ => False end ->
  exists v', run_port_op size get diag can_cksum can_tso st port op v = Done (v', []) /\
    represents get st v' (<[port := spec_op op (m port)]> m).
Proof.
  intros Hm [Hp Hq] Hop. cbn [fst snd] in Hp, Hq. pose proof (valid_port_small st port Hports Hall Hv) as Hlt.
  assert (Hsame : forall v', represents get st v' m -> exists v1, silent (Done v') = Done (v1, []) /\
    represents get st v1 (<[port := m port]> m)) by (intros v' Hv'; exists v'; split; [done|]; by apply insert_same_features).
  assert (Hbeyond : (Z.of_nat RTE_MAX_ETHPORTS <=? port) = false) by (by apply Z.leb_gt).
  destruct op as [| | | | | | | |w on|q on|inner tpid|vlan add|add|vlan on]; try done; cbn [run_port_op spec_op].
  - rewrite offload_text, Hbeyond, on_text_on by (done || by destruct w).
    eexists. split; [reflexivity|]. unfold vlan_offload_set. rewrite Hv.
    pose proof (represents_mask get st port Hall Hv v m w on Hm) as H. by destruct w.
  - rewrite stripq_text, Hbeyond by done. unfold rx_vlan_strip_set_on_queue. rewrite Hv. by apply Hsame, represents_call.
  - apply Hsame. unfold cmd_vlan_tpid_parsed, vlan_tpid_set. rewrite Hv. by destruct inner; apply represents_call.
  - apply Hsame. unfold cmd_rx_vlan_filter_parsed, rx_vft_set. rewrite Hv. by destruct (vlan_id_is_invalid vlan); [|apply represents_call].
  - apply Hsame. unfold cmd_rx_vlan_filter_all_parsed, rx_vlan_all_filter_set. rewrite Hv. by apply represents_filter.
  - apply Hsame. unfold cmd_tx_vlan_set_pvid_parsed, tx_vlan_pvid_set. rewrite Hv. by apply represents_call.
Qed.

Lemma valid_port_op port op v m (Hall : port <> RTE_PORT_ALL) (Hv : port_id_is_invalid port st = false) :
  represents get st v m -> op_ok (port, op) ->
  exists v', run_port_op size get diag can_cksum can_tso st port op v =
      Done (v', spec_report can_cksum can_tso port op (spec_op op (m port))) /\
    represents get st v' (<[port := spec_op op (m port)]> m).
Proof.
  intros Hm Hop. destruct (Hm port Hall Hv) as [(a & Ha) _].
  pose proof (set_and_show get can_cksum can_tso st port Hall Hv v m a) as Hshow.
  destruct op; try (by apply device_op); try (by apply tag_op); try (by apply tso_op);
    cbn [run_port_op]; unfold cmd_csum_parsed, cmd_csum_tunnel_parsed; rewrite Hv; cbn [spec_report].
  - rewrite bool_decide_true by done. rewrite hw_text_hw, cksum_text_mask. apply Hshow; [done|done| |done].
    unfold kept. rewrite flags_cksum. by destruct hw.
  - rewrite on_text_on. apply Hshow; [done|done| |done]. unfold kept. rewrite flags_tunnel. by destruct on.
  - rewrite bool_decide_false by done. cbn [mbind outcome_bind]. exists v.
    rewrite (csum_show_at can_cksum can_tso port v a (m port) Ha). split; [done|]. by apply insert_same_features.
Qed.
End ValidPort.

Lemma run_port_ops_spec size get diag can_cksum can_tso st ops v m :
  VlanDoc get -> (12 < size)%nat -> (length (ports st) <= RTE_MAX_ETHPORTS)%nat ->
  Forall op_ok ops -> represents get st v m ->
  exists v', run_port_ops size get diag can_cksum can_tso st ops v =
      Done (v', (spec_run can_cksum can_tso (fun p => negb (port_id_is_invalid p st)) ops m).2) /\
    represents get st v' (spec_run can_cksum can_tso (fun p => negb (port_id_is_invalid p st)) ops m).1.
Proof.
  intros Hdoc Hs Hp Hops. revert v m. induction Hops as [|[port op] ops Hop Hops IH]; intros v m Hm; cbn [run_port_ops spec_run].
  { by exists v. }
  unfold spec_step. destruct (port_id_is_invalid port st) eqn:Hv; cbn [negb].
  - rewrite (invalid_port_op size get diag can_cksum can_tso st port op v Hs Hop Hv). cbn [mbind outcome_bind].
    destruct (IH v m Hm) as (v' & E & Hm'). rewrite E. cbn [mbind outcome_bind]. exists v'.
    destruct (spec_run _ _ _ ops m) as [m' ls]. by split.
  - assert (Hall : port <> RTE_PORT_ALL) by (destruct Hop as [Hop _]; cbn [fst] in Hop; lia).
    destruct (valid_port_op size get diag can_cksum can_tso st Hs Hp port op v m Hall Hv Hm Hop) as (v1 & E1 & Hm1).
    rewrite E1. cbn [mbind outcome_bind]. destruct (IH v1 _ Hm1) as (v' & E & Hm'). rewrite E. cbn [mbind outcome_bind].
    exists v'. rewrite fn_lookup_insert. destruct (spec_run _ _ _ ops _) as [m' ls]. by split.
Qed.

(** Without checksums for the device the engine computes all of them. *)
Lemma no_hw_in_software f : (forall k, ft_hw f k = false) -> in_software (features_flags f).
Proof.
  intros Hf. pose proof (fun k => eq_trans (has_cksum f k) (Hf k)) as H.
  repeat split; [exact (H IP_CKSUM)|exact (H UDP_CKSUM)|exact (H TCP_CKSUM)|exact (H OUTER_IP_CKSUM)].
Qed.

(** ** Properties *)

(** C27: The commands on the ports' offloads refine the setting of features: from
    ports that keep features, every sequence of commands typed for ports
    other than 255, the valid ones and others, is carried out within the
    arrays and leaves the ports and their devices with exactly the features
    the sequence asks for, prints them as they are, with a warning for each
    one the device does not have, and lets the checksum engine compute every
    checksum itself when none is left to the device. *)
Theorem port_ops_refine size get diag can_cksum can_tso st ops v m
    (Hdoc : VlanDoc get) (Hsize : (12 < size)%nat) (Hports : (length (ports st) <= RTE_MAX_ETHPORTS)%nat)
    (Hops : Forall op_ok ops) (Hm : represents get st v m) :
  let '(m', ls) := spec_run can_cksum can_tso (fun p => negb (port_id_is_invalid p st)) ops m in
  exists v', run_port_ops size get diag can_cksum can_tso st ops v = Done (v', ls) /\ represents get st v' m' /\
    forall port p, port <> RTE_PORT_ALL -> port_id_is_invalid port st = false -> zget (tx_conf_of v') port = Some p ->
      (forall k, ft_hw (m' port) k = false) -> in_software (tx_ol_flags p).
Proof.
  destruct (run_port_ops_spec size get diag can_cksum can_tso st ops v m Hdoc Hsize Hports Hops Hm) as (v' & E & Hm').
  destruct (spec_run _ _ _ ops m) as [m' ls]. exists v'. split; [exact E|]. split; [exact Hm'|].
  intros port p Hall Hv Hp Hno. destruct (Hm' port Hall Hv) as [(a & Ha) _]. rewrite Ha in Hp. injection Hp as <-.
  by apply no_hw_in_software.
Qed.

(** ** Examples *)

(** The offload mask of a device after some calls. *)
Fixpoint last_mask (l : list vlan_call) (port : Z) : Z :=
  match l with
  | [] => 0
  | SetOffload p mask :: l => if decide (port = p) then mask else last_mask l port
  | _ :: l => last_mask l port
  end.

#[export] Instance last_mask_doc : VlanDoc last_mask.
Proof.
  constructor; [done|]. intros l c q H. destruct c as [p mask| | | |]; try done. by destruct (H p mask).
Qed.

Definition no_features : features := Features (fun _ => false) false NoTag 0 false false false.
Definition sample_tx : vlan_state := VlanState (replicate 2 (TxPort (replicate 6 0) 0 0 0 0)) [].
Definition sample_port_ops : list (Z * port_op) :=
  [(1, OpCksum UDP_CKSUM true); (1, OpVlan Extend true); (1, OpTags 100 200); (1, OpTag 5); (0, OpTag 5); (7, OpUntag);
   (1, OpStripQueue 3 true); (1, OpShow)].

Definition sample_run : list (Z * port_op) -> vlan_state -> outcome (vlan_state * list (list report_line)) :=
  run_port_ops 128 last_mask (fun _ => 0) (fun _ _ => false) (fun _ => true) sample_state.

Lemma port_ops_refine_witness :
  exists v', sample_run sample_port_ops sample_tx = Done (v', [
      [ParseTunnel false; CksumIn IP_CKSUM false; CksumIn UDP_CKSUM true; CksumIn TCP_CKSUM false; CksumIn SCTP_CKSUM false;
       CksumIn OUTER_IP_CKSUM false; CksumUnsupported UDP_CKSUM]; []; []; []; []; []; [];
      [ParseTunnel false; CksumIn IP_CKSUM false; CksumIn UDP_CKSUM true; CksumIn TCP_CKSUM false; CksumIn SCTP_CKSUM false;
       CksumIn OUTER_IP_CKSUM false; CksumUnsupported UDP_CKSUM]]) /\
    zget (tx_conf_of v') 1 = Some (TxPort (replicate 6 0) 130 100 200 0) /\
    zget (tx_conf_of v') 0 = Some (TxPort (replicate 6 0) 64 5 0 0).
Proof.
  pose proof (port_ops_refine 128 last_mask (fun _ => 0) (fun _ _ => false) (fun _ => true) sample_state sample_port_ops
    sample_tx (fun _ => no_features) last_mask_doc) as H.
  destruct H as (v' & E & Hm & _).
  - lia.
  - cbn. unfold RTE_MAX_ETHPORTS. lia.
  - repeat constructor; cbn; unfold RTE_PORT_ALL; lia.
  - intros port Hall Hv. split; [|reflexivity]. exists (replicate 6 0).
    unfold port_id_is_invalid in Hv. destruct (Z.eqb_spec port RTE_PORT_ALL); [done|].
    destruct (zget (ports sample_state) port) eqn:Hp; [|done]. apply zget_Some in Hp as [H0 Hp].
    apply lookup_lt_Some in Hp. change (Z.to_nat port < 2)%nat in Hp. assert (port = 0 \/ port = 1) as [-> | ->] by lia; reflexivity.
  - exists v'. split; [exact E|]. destruct (Hm 1 ltac:(done) eq_refl) as [(a1 & H1) _].
    destruct (Hm 0 ltac:(done) eq_refl) as [(a0 & H0) _]. clear Hm. vm_compute in E. injection E as <-. split; reflexivity.
Defined.

(** A number that does not fit 32 bits names another port; "tso" and "csum"
    for 255, the number of all ports, work on the entry behind the array. *)
Lemma offload_numbers :
  cmd_vlan_offload_parsed 128 last_mask sample_state "4294967297" "strip" "on" sample_tx =
    Done (VlanState (tx_conf_of sample_tx) [SetOffload 1 1]) /\
  cmd_csum_parsed (fun _ _ => true) sample_state "show" "" "" 255 sample_tx = Undefined /\
  cmd_tso_set_parsed (fun _ => true) sample_state "set" 1000 255 sample_tx = Undefined.
Proof. split_and!; vm_compute; reflexivity. Qed.
