(* ===== verification/CmdSession.v ===== *)
(** * test-pmd/cmdline.c: sessions of commands

    The commands that change the program's variables, the forwarding cores
    and ports, the packets and the ports' states, one after another as a user
    types them.  Whatever the devices answer, they stay within the arrays,
    keep the variables well-formed and follow the protocol of the devices. *)

From Stdlib Require Import Ascii.
From stdpp Require Import strings functions.
From S2P Require Import Prelude Cstr Packet PortConf PortState FwdConfig CoreConf FwdSettings SetCmds Params LaunchArgs PortCmds.

#[local] Open Scope Z_scope.
#[local] Open Scope list_scope.

(** ** Commands on the other variables *)

Definition cmd_set_fwd_mode_parsed (mode : string) (g : globals) : globals :=
  set_engine (set_pkt_forwarding_mode mode (cur_fwd_eng g)) g.

(** "on" stands for 0. *)
Definition cmd_set_flush_rx_parsed (mode : string) (g : globals) : globals :=
  set_var Var.no_flush_rx (if bool_decide (mode = "on"%string) then 0 else 1) g.
Definition cmd_set_link_check_parsed (mode : string) (g : globals) : globals :=
  set_var Var.no_link_check (if bool_decide (mode = "on"%string) then 0 else 1) g.

(** The list of engines for the parser of "set fwd": its separators are
    replaced one by one. *)
Fixpoint replace_char (from to : ascii) (s : string) : string :=
  match s with
  | EmptyString => EmptyString
  | String c s => String (if Ascii.eqb c from then to else c) (replace_char from to s)
  end.

(** The token and the help, which [snprintf] cuts to the size of its array. *)
Definition cmd_set_fwd_mode_init : outcome (string * string) :=
  let modes := list_pkt_forwarding_modes fwd_engines in
  let help := ("set fwd " +:+ modes +:+ " - set packet forwarding mode")%string in
  _ ← c_defined (String.length modes <=? 128)%nat;
  Done (replace_char "|" "#" modes, String.substring 0 255 help).

Section Session.
Variables (STR_TOKEN_SIZE : nat) (en : Z -> bool) (master : Z) (rte_lcore_to_socket_id : Z -> Z) (d : dpdk)
  (ETHER_MIN_LEN ETHER_MAX_LEN : Z).

(** [set_def_fwd_config] *)
Definition cmd_reset_parsed (g : globals) : outcome globals :=
  c ← set_default_fwd_lcores_config en master rte_lcore_to_socket_id (cores (sets g));
  let peers := set_def_peer_eth_addrs (peer_eth_addrs g) in
  p ← set_default_fwd_ports_config (portst (sets g));
  Done (set_peers peers (set_sets (with_portst p (with_cores c (sets g))) g)).

(** ** Sessions *)

Inductive command : Type :=
| SetLists (name text : string) | SetMasks (name : string) (hexavalue : Z) | SetNumbers (what : string) (value : Z)
| SetTxpkts (seg_lengths : string) | SetTxsplit (mode : string)
| SetFwdMode (mode : string) | SetFlushRx (mode : string) | SetLinkCheck (mode : string) | SetDefault
| Config (c : config_cmd)
| SpeedAll (value1 value2 : string) | SpeedOne (id : Z) (value1 value2 : string)
| Dcb (port_id num_tcs : Z) (vt_en pfc_en : string)
| AllPorts (name : string) | OnePort (name : string) (value : Z)
| Attach (identifier : option Z) | Detach (port_id : Z).

Definition on_globals (f : globals -> outcome globals) (s : cmd_state) : outcome cmd_state :=
  g ← f (gl s); Done (CmdState g (link_speeds s)).
Definition on_settings (f : settings -> outcome settings) : cmd_state -> outcome cmd_state :=
  on_globals (fun g => x ← f (sets g); Done (set_sets x g)).

Definition run_command (cmd : command) (s : cmd_state) : outcome cmd_state :=
  match cmd with
  | SetLists name text => on_settings (cmd_set_list_parsed STR_TOKEN_SIZE en master name text) s
  | SetMasks name hexavalue => on_settings (cmd_set_mask_parsed en master name hexavalue) s
  | SetNumbers what value => on_settings (fun x => Done (cmd_set_parsed what value x)) s
  | SetTxpkts seg_lengths =>
      on_settings (cmd_set_txpkts_parsed STR_TOKEN_SIZE (var (gl s) Var.nb_txd) seg_lengths) s
  | SetTxsplit mode => on_settings (fun x => Done (cmd_set_txsplit_parsed mode x)) s
  | SetFwdMode mode => on_globals (fun g => Done (cmd_set_fwd_mode_parsed mode g)) s
  | SetFlushRx mode => on_globals (fun g => Done (cmd_set_flush_rx_parsed mode g)) s
  | SetLinkCheck mode => on_globals (fun g => Done (cmd_set_link_check_parsed mode g)) s
  | SetDefault => on_globals cmd_reset_parsed s
  | Config c => Done (run_config_cmd ETHER_MIN_LEN ETHER_MAX_LEN c s)
  | SpeedAll v1 v2 => cmd_config_speed_all_parsed v1 v2 s
  | SpeedOne id v1 v2 => cmd_config_speed_specific_parsed id v1 v2 s
  | Dcb port_id num_tcs vt_en pfc_en => cmd_config_dcb_parsed d port_id num_tcs vt_en pfc_en s
  | AllPorts name => Done (cmd_operate_port_parsed d name s)
  | OnePort name value => Done (cmd_operate_specific_port_parsed d name value s)
  | Attach identifier => cmd_operate_attach_port_parsed d "attach" identifier s
  | Detach port_id => cmd_operate_detach_port_parsed d "detach" port_id s
  end.

Fixpoint run_commands (cmds : list command) (s : cmd_state) : outcome cmd_state :=
  match cmds with
  | [] => Done s
  | cmd :: cmds => s ← run_command cmd s; run_commands cmds s
  end.
End Session.

(** ** Specification *)

(** The arguments have the types of the tokens.  A port is not 255, which the
    check of ports lets pass, and for DCB, where there is no check, one of
    the array. *)
Definition config_cmd_ok (c : config_cmd) : Prop :=
  match c with
  | RxTx _ v | Burst _ v | Thresh _ v | Threshold _ v => 0 <= v < 2 ^ 16
  | MaxPktLen _ v => 0 <= v < 2 ^ 32
  | RxModeFlag _ _ => True
  end.

Definition command_ok (cmd : command) : Prop :=
  match cmd with
  | SetMasks _ m => 0 <= m < 2 ^ 64
  | SetNumbers _ v => 0 <= v < 2 ^ 16
  | Config c => config_cmd_ok c
  | SpeedOne id _ _ | Detach id => id <> RTE_PORT_ALL
  | Dcb port _ _ _ => 0 <= port < Z.of_nat RTE_MAX_ETHPORTS
  | _ => True
  end.

(** The ranges of the variables once commands may set them. *)
Definition range_now (cache_max min_len : Z) (v : Var.t) : Z * Z :=
  match v with
  | Var.nb_rxq | Var.nb_txq => u16_range_of
  | Var.max_rx_pkt_len => (min_len, 2 ^ 32 - 1)
  | _ => range cache_max min_len v
  end.

Definition var_now (cache_max min_len : Z) (v : Var.t) (x : Z) : Prop :=
  in_range (range_now cache_max min_len v) x \/ v = Var.param_total_num_mbufs /\ x = 0.

#[export] Instance var_now_dec cm ml v x : Decision (var_now cm ml v x).
Proof. unfold var_now. apply _. Defined.

(** The arrays have their lengths, and numbers of ports are within them. *)
Record shape_ok (st : pstate) : Prop := {
  sh_ports : length (ports st) = RTE_MAX_ETHPORTS;
  sh_ids : length (fwd_ports_ids st) = RTE_MAX_ETHPORTS;
  sh_nb : 0 <= nb_ports st <= Z.of_nat RTE_MAX_ETHPORTS;
}.

Record pkts_ok (p : pkt_conf) : Prop := {
  po_len : length (tx_pkt_seg_lengths p) = RTE_MAX_SEGS_PER_PKT;
  po_nb : 0 <= tx_pkt_nb_segs p <= Z.of_nat RTE_MAX_SEGS_PER_PKT;
  po_burst : 0 <= nb_pkt_per_burst p <= MAX_PKT_BURST;
}.

Record session_ok (en : Z -> bool) (master : Z) (d : dpdk) (cache_max min_len : Z) (s : cmd_state) : Prop := {
  se_shape : shape_ok (port_state (gl s));
  se_protocol : ports_ok d None (port_state (gl s));
  se_speeds : length (link_speeds s) = RTE_MAX_ETHPORTS;
  se_peers : length (peer_eth_addrs (gl s)) = RTE_MAX_ETHPORTS;
  se_cores : lcores_ok en master (cores (sets (gl s)));
  se_pkts : pkts_ok (pkts (sets (gl s)));
  se_vars : forall v, var_now cache_max min_len v (var (gl s) v);
  se_eng : (cur_fwd_eng (gl s) < length fwd_engines)%nat;
}.

(** What is asked of DPDK: it numbers devices within the array, counts no
    more than that, gives a device no more than 65535 queues, and the sockets
    of the cores are below the limit. *)
Record devices_ok (d : dpdk) (en : Z -> bool) (master : Z) (socket : Z -> Z) : Prop := {
  dv_attached : forall l, 0 <= attached_port d l < Z.of_nat RTE_MAX_ETHPORTS;
  dv_count : forall l, 0 <= dev_count d l <= Z.of_nat RTE_MAX_ETHPORTS;
  dv_queues : forall p, 0 <= max_rx_queues (dev_info_get d p) < 2 ^ 16 /\ 0 <= max_tx_queues (dev_info_get d p) < 2 ^ 16;
  dv_cores : forall i, en i = true -> 0 <= i < Z.of_nat RTE_MAX_LCORE /\ 0 <= socket i < RTE_MAX_NUMA_NODES;
  dv_worker : workers en master <> [];
}.

(** ** Lemmas: what operations on ports leave alone *)

Definition shape (st : pstate) : nat * list Z * Z := (length (ports st), fwd_ports_ids st, nb_ports st).

Lemma shape_ok_eq st st' : shape st' = shape st -> shape_ok st -> shape_ok st'.
Proof. intros [= H1 H2 H3] [A B C]. constructor; congruence. Qed.

Lemma shape_upd pi f st : shape (upd_port pi f st) = shape st.
Proof. unfold shape. cbn. by rewrite length_alter. Qed.

Lemma shape_do d c st r : dpdk_do d c st = r -> shape r.2 = shape st.
Proof. by intros <-. Qed.

Lemma shape_start_port d c pid st : shape (start_port d c pid st).2 = shape st.
Proof. apply (keep_start_port d c (fun s => shape s = shape st)); try done. intros. by rewrite shape_upd. Qed.

Lemma shape_stop_port d pid st : shape (stop_port d pid st) = shape st.
Proof. apply (keep_stop_port d (fun s => shape s = shape st)); try done. intros. by rewrite shape_upd. Qed.

Lemma shape_close_port d pid st : shape (close_port d pid st) = shape st.
Proof. apply (keep_close_port d (fun s => shape s = shape st)); try done. intros. by rewrite shape_upd. Qed.

Lemma shape_foldl (f : pstate -> Z -> pstate) l st : (forall s x, shape (f s x) = shape s) -> shape (foldl f st l) = shape st.
Proof. intros Hf. revert st. induction l as [|x l IH]; intros st; [done|]. cbn. by rewrite IH, Hf. Qed.

(** ** Lemmas: lists of numbers *)

Lemma parse_items_mono s max v n ok items items' n' v' :
  parse_items s max v n ok items = Some (items', n', v') -> (n <= n')%nat.
Proof.
  revert v n ok items. induction s as [|c s IH]; intros v n ok items; cbn [parse_items]; [by intros [= _ <- _]|].
  destruct (is_digit c); [apply IH|]. destruct (negb _); [done|]. destruct (negb ok); [done|].
  destruct (_ <? _)%nat; intros E%IH; lia.
Qed.

Lemma parse_items_length s max v n ok items items' n' v' :
  parse_items s max v n ok items = Some (items', n', v') -> length items = n -> (n' < max)%nat -> length items' = n'.
Proof.
  revert v n ok items. induction s as [|c s IH]; intros v n ok items; cbn [parse_items].
  { by intros [= <- <- <-]. }
  destruct (is_digit c); [by apply IH|]. destruct (negb _); [done|]. destruct (negb ok); [done|].
  destruct (Nat.ltb_spec n max) as [Hn|Hn]; intros E Hl Hlt.
  - apply (IH _ _ _ _ E); [rewrite length_app; cbn; lia|done].
  - apply parse_items_mono in E. lia.
Qed.

Lemma item_list_bounds size text max check :
  (length (parse_item_list size text max check) <= max)%nat /\ (check = true -> NoDup (parse_item_list size text max check)).
Proof.
  unfold parse_item_list. destruct (parse_items _ _ _ _ _ _) as [[[items n] v]|] eqn:E; [|split; [cbn; lia|constructor]].
  destruct (Nat.leb_spec max n) as [|Hn]; [split; [cbn; lia|constructor]|].
  pose proof (parse_items_length _ _ _ _ _ _ _ _ _ E eq_refl Hn) as Hl.
  destruct (unique_values (items ++ [v])) eqn:Hu; cbn [negb].
  - rewrite andb_false_r. split; [rewrite length_app; cbn; lia|]. intros _. by apply unique_values_spec.
  - rewrite andb_true_r. destruct check; [split; [cbn; lia|constructor]|]. split; [rewrite length_app; cbn; lia|done].
Qed.

Lemma mask_list_length n m : (n <= 64)%nat -> (length (mask_list n 0 m) <= n)%nat.
Proof.
  intros Hn. rewrite mask_list_spec by lia. etransitivity; [apply length_filter|]. rewrite length_seqZ. lia.
Qed.

(** ** Lemmas: the parts of the state *)

Section Parts.
Context (size : nat) (en : Z -> bool) (master : Z) (socket : Z -> Z) (d : dpdk) (min_len max_len cache_max : Z).
Context (Hd : devices_ok d en master socket).

Definition pst_ok (st : pstate) : Prop := shape_ok st /\ ports_ok d None st.

Record globals_now (g : globals) : Prop := {
  gn_peers : length (peer_eth_addrs g) = RTE_MAX_ETHPORTS;
  gn_cores : lcores_ok en master (cores (sets g));
  gn_pkts : pkts_ok (pkts (sets g));
  gn_vars : forall v, var_now cache_max min_len v (var g v);
  gn_eng : (cur_fwd_eng g < length fwd_engines)%nat;
}.

Lemma session_parts s :
  session_ok en master d cache_max min_len s <->
  globals_now (gl s) /\ pst_ok (port_state (gl s)) /\ length (link_speeds s) = RTE_MAX_ETHPORTS.
Proof.
  split.
  - intros [? ? ? ? ? ? ? ?]. split; [by constructor|]. split; [by split|done].
  - intros ([? ? ? ? ?] & [? ?] & ?). by constructor.
Qed.

Lemma pst_shape st st' : shape st' = shape st -> ports_ok d None st' -> pst_ok st -> pst_ok st'.
Proof. intros Hs Hok [H1 _]. split; [by eapply shape_ok_eq|done]. Qed.

(** Marking the ports, and building their configurations. *)
Lemma pst_foldl (f : Z -> rte_port -> rte_port) l st :
  (forall i, quiet (f i)) -> pst_ok st -> pst_ok (foldl (fun st pid => upd_port pid (f pid) st) st l).
Proof.
  intros Hf Hst. apply (pst_shape st); [|apply foldl_ok; [|apply Hst]|done].
  - apply shape_foldl. intros s x. apply shape_upd.
  - intros s x Hs. apply ports_ok_upd; [done|]. apply Hf.
Qed.

Lemma quiet_mark : quiet (mark true true).
Proof. intros p. split; [done|]. split; [done|]. unfold mark. cbn. rewrite !orb_true_r. by split. Qed.

Lemma pst_reconfig id st : pst_ok st -> pst_ok (cmd_reconfig_device_queue id true true st).
Proof.
  intros Hst. unfold cmd_reconfig_device_queue. destruct (id =? RTE_PORT_ALL); [apply pst_foldl; auto using quiet_mark|].
  destruct (negb _); [|done]. apply (pst_foldl (fun _ => mark true true) [id]); auto using quiet_mark.
Qed.

Lemma reinit_ok g : globals_now g -> pst_ok (port_state g) -> globals_now (reinit g) /\ pst_ok (port_state (reinit g)).
Proof.
  intros [? ? ? ? ?] Hst. split; [by constructor|]. unfold reinit. cbn [port_state set_port_state sets set_sets with_portst portst].
  apply pst_reconfig. unfold init_port_config. by apply (pst_foldl (fun _ => _)).
Qed.

(** ** Lemmas: settings *)

Lemma portlist_ok l st : (length l <= RTE_MAX_ETHPORTS)%nat -> pst_ok st -> exists st', set_fwd_ports_list l st = Done st' /\ pst_ok st'.
Proof.
  intros Hl [Hs Hok]. rewrite set_fwd_ports_list_spec by (rewrite (sh_ids _ Hs); lia). eexists. split; [done|].
  destruct (decide _); [|by split]. split; [|exact Hok]. destruct Hs as [H1 H2 H3]. constructor; cbn; [done| |done].
  rewrite length_app, length_drop, length_fmap. lia.
Qed.

Lemma lcorelist_ok l c :
  (length l <= RTE_MAX_LCORE)%nat -> NoDup l -> lcores_ok en master c ->
  exists r c', set_fwd_lcores_list en master l c = Done (r, c') /\ lcores_ok en master c'.
Proof.
  intros Hl Hnd Hc. destruct (set_fwd_lcores_list en master l c) as [[r c']| |] eqn:E.
  - exists r, c'. split; [done|]. eapply set_list_ok; [|done..]. intros i Hi. by apply (dv_cores _ _ _ _ Hd).
  - rewrite set_fwd_lcores_list_spec in E by (rewrite (lo_len _ _ _ Hc); lia). by destruct (decide _).
  - rewrite set_fwd_lcores_list_spec in E by (rewrite (lo_len _ _ _ Hc); lia). by destruct (decide _).
Qed.

(** The settings without the ports' part of the globals. *)
Definition sets_ok (x : settings) : Prop := lcores_ok en master (cores x) /\ pkts_ok (pkts x) /\ pst_ok (portst x).

Lemma set_list_cmd_ok name text x :
  sets_ok x -> exists x', cmd_set_list_parsed size en master name text x = Done x' /\ sets_ok x'.
Proof.
  intros Hx. pose proof Hx as (Hc & Hp & Hst). unfold cmd_set_list_parsed. destruct (negb _); [by exists x|].
  destruct (bool_decide _).
  - destruct (item_list_bounds size text RTE_MAX_LCORE true) as [Hl Hnd]. destruct (_ <? _)%nat; [|by exists x].
    destruct (lcorelist_ok _ _ Hl (Hnd eq_refl) Hc) as (r & c & E & Hc'). rewrite E. by eexists.
  - destruct (bool_decide _); [|by exists x].
    destruct (item_list_bounds size text RTE_MAX_ETHPORTS true) as [Hl _]. destruct (_ <? _)%nat; [|by exists x].
    destruct (portlist_ok _ _ Hl Hst) as (st' & E & Hst'). rewrite E. by eexists.
Qed.

Lemma set_mask_cmd_ok name m x :
  sets_ok x -> 0 <= m < 2 ^ 64 -> exists x', cmd_set_mask_parsed en master name m x = Done x' /\ sets_ok x'.
Proof.
  intros Hx Hm. pose proof Hx as (Hc & Hp & Hst). unfold cmd_set_mask_parsed. destruct (negb _); [by exists x|].
  destruct (bool_decide _).
  - unfold set_fwd_lcores_mask. destruct (m =? 0); [by eexists|].
    assert (Hnd : NoDup (mask_list 64 0 m)) by (rewrite mask_list_spec by lia; apply NoDup_filter, NoDup_seqZ).
    pose proof (mask_list_length 64 m ltac:(lia)) as Hl.
    destruct (lcorelist_ok (mask_list 64 0 m) _ ltac:(unfold RTE_MAX_LCORE; lia) Hnd Hc) as (r & c & E & Hc'). rewrite E. by eexists.
  - destruct (bool_decide _); [|by exists x]. unfold set_fwd_ports_mask. destruct (m =? 0); [by eexists|].
    pose proof (mask_list_length (Nat.min 64 (length (ports (portst x)))) m ltac:(lia)) as Hl.
    rewrite (sh_ports _ (proj1 Hst)) in *. destruct (portlist_ok _ _ Hl Hst) as (st' & E & Hst'). rewrite E. by eexists.
Qed.

Lemma set_number_cmd_ok what n x : sets_ok x -> 0 <= n < 2 ^ 16 -> sets_ok (cmd_set_parsed what n x).
Proof.
  intros Hx Hn. pose proof Hx as (Hc & Hp & Hst). unfold cmd_set_parsed. repeat destruct (bool_decide _); try done.
  - split; [done|]. split; [done|]. unfold set_fwd_ports_number. cbn [portst with_portst]. destruct (_ <? _); [done|].
    split; [|apply Hst]. destruct Hst as [[] _]. by constructor.
  - split; [|done]. eapply (run_lcore_cmd_ok en master) with (cmd := SetNumber n); [|exact Hc|exact Hn|done].
    intros i Hi. by apply (dv_cores _ _ _ _ Hd).
  - split; [done|]. split; [|done]. unfold set_nb_pkt_per_burst. cbn [pkts with_pkts]. destruct (Z.ltb_spec MAX_PKT_BURST n); [done|].
    destruct Hp. constructor; cbn; try done. lia.
Qed.

Lemma store_segs_length lens i arr :
  0 <= i -> i + Z.of_nat (length lens) <= Z.of_nat (length arr) ->
  exists arr', store_segs lens i arr = Done arr' /\ length arr' = length arr.
Proof.
  revert i arr. induction lens as [|x l IH]; intros i arr Hi Hl; cbn [store_segs length] in *; [by exists arr|].
  rewrite zset_insert by lia. cbn [of_opt mbind outcome_bind].
  destruct (IH (i + 1) (<[Z.to_nat i := u16 x]> arr)) as (arr' & E & Hl'); [lia|rewrite length_insert; lia|].
  exists arr'. split; [done|]. by rewrite Hl', length_insert.
Qed.

Lemma set_txpkts_ok nb_txd text x :
  sets_ok x -> exists x', cmd_set_txpkts_parsed size nb_txd text x = Done x' /\ sets_ok x'.
Proof.
  intros Hx. pose proof Hx as (Hc & Hp & Hst). unfold cmd_set_txpkts_parsed.
  destruct (item_list_bounds size text RTE_MAX_SEGS_PER_PKT false) as [Hl _]. set (l := parse_item_list _ _ _ _) in *.
  destruct (_ <? _)%nat; [|by exists x]. unfold set_tx_pkt_segments. destruct (nb_txd <=? _); [by eexists|].
  destruct (segs_total _ _ _) as [total|]; [|by eexists]. destruct (total <? _); [by eexists|].
  destruct (store_segs_length l 0 (tx_pkt_seg_lengths (pkts x))) as (arr & E & Ha); [lia|rewrite (po_len _ Hp); lia|].
  rewrite E. eexists. split; [done|]. split; [done|]. split; [|done]. destruct Hp as [H1 H2 H3].
  constructor; cbn; [congruence| |done]. unfold RTE_MAX_SEGS_PER_PKT in *. rewrite u8_small by lia. lia.
Qed.

Lemma set_txsplit_ok mode x : sets_ok x -> sets_ok (cmd_set_txsplit_parsed mode x).
Proof.
  intros (Hc & Hp & Hst). split; [done|]. split; [|done]. cbn. unfold set_tx_pkt_split.
  destruct (List.find _ _) as [[]|]; [|done]. by destruct Hp.
Qed.

(** ** Lemmas: variables *)

Lemma vars_set g v x :
  (forall w, var_now cache_max min_len w (var g w)) -> var_now cache_max min_len v x ->
  forall w, var_now cache_max min_len w (var (set_var v x g) w).
Proof.
  intros Hg Hx w. cbn [var set_var]. destruct (decide (v = w)) as [<-|]; [by rewrite fn_lookup_insert|].
  by rewrite fn_lookup_insert_ne.
Qed.

Lemma set_var_now v x g : globals_now g -> var_now cache_max min_len v x -> globals_now (set_var v x g).
Proof. intros [? ? ? Hv ?] Hx. constructor; try done. by apply vars_set. Qed.

Lemma in_range_now v x : in_range (range_now cache_max min_len v) x -> var_now cache_max min_len v x.
Proof. by left. Qed.

(** The variables with a name, and a bit for several of them. *)
Lemma named_value_now names conv r name value g g' :
  globals_now g -> Forall (fun e => range_now cache_max min_len e.2 = r) names -> in_range r (conv value) ->
  named_value names conv name value g = Some g' -> globals_now g'.
Proof.
  intros Hg Hn Hr. unfold named_value. destruct (List.find _ _) as [[m v]|] eqn:E; [|done]. intros [= <-].
  apply List.find_some in E as [E _]. rewrite Forall_forall in Hn. specialize (Hn (m, v) ltac:(by apply list_elem_of_In)).
  cbn [snd] in Hn.
  apply set_var_now; [done|]. apply in_range_now. by rewrite Hn.
Qed.

Lemma flags_now vs b g :
  globals_now g -> Forall (fun v => var_now cache_max min_len v b) vs -> globals_now (foldl (fun g v => set_var v b g) g vs).
Proof. intros Hg Hvs. revert g Hg. induction Hvs as [|v vs Hv Hvs IH]; intros g Hg; [done|]. cbn. by apply IH, set_var_now. Qed.

Lemma rx_mode_flags_now b :
  b = 0 \/ b = 1 -> Forall (fun e => Forall (fun v => var_now cache_max min_len v b) e.2) rx_mode_flags.
Proof.
  intros Hb. repeat constructor; cbn [snd]; unfold in_range; cbn; destruct Hb as [-> | ->]; lia.
Qed.

Lemma values_now c g g' :
  config_cmd_ok c -> globals_now g -> values min_len max_len c g = Some g' -> globals_now g'.
Proof.
  intros Hc Hg. destruct c as [name v|name v|name v|name v|name v|name v]; cbn [config_cmd_ok values] in *.
  - unfold rx_tx_value. repeat destruct (bool_decide _); try done.
    1,2: destruct (_ && _); [done|].
    3,4: destruct (_ || _); [done|].
    all: intros [= <-]; apply set_var_now; [done|]; apply in_range_now; unfold in_range; cbn; lia.
  - unfold max_pkt_len_value. destruct (bool_decide _); [|done]. destruct (Z.ltb_spec v min_len); [done|].
    destruct (_ =? _); [done|]. intros [= <-]. apply set_var_now; [apply set_var_now; [done|]|].
    + apply in_range_now. unfold in_range; cbn; lia.
    + apply in_range_now. unfold in_range; cbn. destruct (_ <? _); lia.
  - unfold rx_mode_flag_value. destruct (List.find _ _) as [[n vs]|] eqn:E; [|done]. apply List.find_some in E as [E _].
    unfold on_off. assert (Hall : forall b, b = 0 \/ b = 1 -> globals_now (foldl (fun g v => set_var v b g) g vs)).
    { intros b Hb. apply flags_now; [done|]. pose proof (rx_mode_flags_now b Hb) as H. rewrite Forall_forall in H.
      apply (H (n, vs)). by apply list_elem_of_In. }
    destruct (bool_decide _); cbn; [intros [= <-]; apply Hall; by right|]. destruct (bool_decide _); cbn; [|done].
    intros [= <-]. apply Hall. by left.
  - unfold burst_value. destruct (bool_decide _); [|done]. destruct (Z.ltb_spec v 1); [done|].
    destruct (Z.ltb_spec MAX_PKT_BURST v); [done|]. cbn [orb]. intros [= <-]. destruct Hg as [? ? [] ? ?].
    constructor; cbn; try done. constructor; cbn; try done. lia.
  - intros E. eapply (named_value_now _ _ s8_range_of); [exact Hg| |apply s8_range|exact E]. by repeat constructor.
  - intros E. eapply (named_value_now _ _ s16_range_of); [exact Hg| |apply s16_range|exact E]. by repeat constructor.
Qed.

(** ** Lemmas: attaching and detaching *)

Lemma port_ids_length l : (length (port_ids l) <= length l)%nat.
Proof. rewrite port_ids_spec. etransitivity; [apply length_filter|]. rewrite length_seqZ. lia. Qed.

(** The counts and the array after a port has come or gone. *)
Lemma recount_ok st n :
  length (ports st) = RTE_MAX_ETHPORTS -> shape_ok (set_fwd_ports (dev_count d (calls st)) (dev_count d (calls st)) n (all_fwd_ports st) st).
Proof.
  intros Hl. constructor; cbn; [done| |apply (dv_count _ _ _ _ Hd)].
  unfold all_fwd_ports. pose proof (port_ids_length (ports st)). rewrite length_app, length_replicate. lia.
Qed.

Lemma attach_ok c identifier st : pst_ok st -> exists st', attach_port d c identifier st = Done st' /\ pst_ok st'.
Proof.
  intros [Hs Hok]. pose proof (attach_port_ok d None c identifier st) as Hpr. unfold attach_port in *.
  destruct identifier as [name|]; [|by eexists]. destruct (negb _); [by eexists|].
  destruct (dpdk_do d (DevAttach name) st) as [r st1] eqn:E1. destruct (negb _); [eexists; split; [done|]; split; [|by apply Hpr]|].
  { by eapply shape_ok_eq; [apply (shape_do _ _ _ _ E1)|]. }
  pose proof (dv_attached _ _ _ _ Hd (calls st1)) as Ha. set (pi := attached_port d (calls st1)) in *.
  assert (Hl1 : length (ports st1) = RTE_MAX_ETHPORTS).
  { pose proof (shape_do _ _ _ _ E1) as H. injection H as H _ _. rewrite H. apply Hs. }
  destruct (lookup_lt_is_Some_2 (ports st1) (Z.to_nat pi)) as [p Hp]; [unfold RTE_MAX_ETHPORTS in *; lia|].
  assert (Hz : zget (ports st1) pi = Some p) by (apply zget_Some; split; [lia|done]).
  rewrite Hz in *. cbn [of_opt mbind outcome_bind] in *.
  match goal with |- context [dpdk_do d (PromiscuousEnable pi) ?s] => set (st2 := s) in * end.
  assert (Hl2 : length (ports st2) = RTE_MAX_ETHPORTS).
  { assert (H : shape st2 = shape st1); [|injection H as H _ _; congruence].
    unfold st2, reconfig, init_port_config. rewrite shape_foldl by (intros; apply shape_upd). by rewrite !shape_upd. }
  destruct (dpdk_do d (PromiscuousEnable pi) st2) as [r3 st3] eqn:E3.
  eexists. split; [done|]. split; [|by apply Hpr].
  eapply shape_ok_eq; [apply shape_upd|]. apply recount_ok.
  pose proof (shape_do _ _ _ _ E3) as H. injection H as H _ _. congruence.
Qed.

Lemma detach_ok id st : id <> RTE_PORT_ALL -> pst_ok st -> exists st', detach_port d id st = Done st' /\ pst_ok st'.
Proof.
  intros Hid [Hs Hok]. pose proof (detach_port_ok d None id st) as Hpr. unfold detach_port, port_is in *.
  unfold port_id_is_invalid in *. destruct (Z.eqb_spec id RTE_PORT_ALL); [done|].
  destruct (zget (ports st) id) as [p|]; [|by eexists]. destruct (negb (enabled p)); [by eexists|].
  cbn [of_opt mbind outcome_bind] in *. destruct (negb (bool_decide _)); [by eexists|].
  destruct (dpdk_do d (DevDetach id) st) as [r st1] eqn:E1. pose proof (shape_do _ _ _ _ E1) as H1. cbn [snd] in H1.
  destruct (negb _); (eexists; split; [done|]; split; [|by apply Hpr]).
  - by eapply shape_ok_eq.
  - apply recount_ok. cbn. rewrite length_alter. injection H1 as H1 _ _. rewrite H1. apply Hs.
Qed.

(** ** Lemmas: one command *)

Definition session_now (s : cmd_state) : Prop :=
  globals_now (gl s) /\ pst_ok (port_state (gl s)) /\ length (link_speeds s) = RTE_MAX_ETHPORTS.

Lemma on_ports_ok f s : (forall st, pst_ok st -> pst_ok (f st)) -> session_now s -> session_now (on_ports f s).
Proof. intros Hf (Hg & Hst & Hl). split; [by destruct Hg; constructor|]. split; [by apply Hf|done]. Qed.

Lemma start_pst c pid st : pst_ok st -> pst_ok (start_port d c pid st).2.
Proof. intros H. apply (pst_shape st); [apply shape_start_port|by apply start_port_ok; [|apply H]|done]. Qed.
Lemma stop_pst pid st : pst_ok st -> pst_ok (stop_port d pid st).
Proof. intros H. apply (pst_shape st); [apply shape_stop_port|apply stop_port_ok, H|done]. Qed.
Lemma close_pst pid st : pst_ok st -> pst_ok (close_port d pid st).
Proof. intros H. apply (pst_shape st); [apply shape_close_port|apply close_port_ok, H|done]. Qed.

Lemma on_settings_ok f s :
  session_now s -> (forall x, sets_ok x -> exists x', f x = Done x' /\ sets_ok x') ->
  exists s', on_settings f s = Done s' /\ session_now s'.
Proof.
  intros (Hg & Hst & Hl) Hf. destruct (Hf (sets (gl s))) as (x & E & Hc & Hp & Hst').
  { split; [apply Hg|]. split; [apply Hg|exact Hst]. }
  unfold on_settings, on_globals. rewrite E. eexists. split; [done|]. split; [|by split]. destruct Hg. by constructor.
Qed.

Lemma speeds_foldl (x : link_speed) l ids : length (foldl (fun l pid => <[Z.to_nat pid := x]> l) l ids) = length l.
Proof. revert l. induction ids as [|i ids IH]; intros l; [done|]. cbn. by rewrite IH, length_insert. Qed.

Lemma remark_ok s l : session_now s -> length l = RTE_MAX_ETHPORTS -> session_now (remark s l).
Proof. intros (Hg & Hst & _) Hl. split; [by destruct Hg; constructor|]. split; [by apply pst_reconfig|done]. Qed.

Lemma default_ports_ok n i ids :
  0 <= i -> i + Z.of_nat n <= Z.of_nat (length ids) -> exists ids', default_ports n i ids = Done ids' /\ length ids' = length ids.
Proof.
  revert i ids. induction n as [|n IH]; intros i ids Hi Hn; cbn [default_ports]; [by exists ids|].
  rewrite zset_insert by lia. cbn [of_opt mbind outcome_bind].
  destruct (IH (i + 1) (<[Z.to_nat i := i]> ids)) as (ids' & E & Hl); [lia|rewrite length_insert; lia|].
  exists ids'. split; [done|]. by rewrite Hl, length_insert.
Qed.

Lemma default_lcores_total n i nb ms ids :
  0 <= nb -> nb + Z.of_nat n <= Z.of_nat (length ids) -> exists r, default_lcores en master socket n i nb ms ids = Done r.
Proof.
  revert i nb ms ids. induction n as [|n IH]; intros i nb ms ids Hnb Hn; cbn [default_lcores]; [by eexists|].
  destruct (negb (en i) || (i =? master)) eqn:E; [apply IH; lia|].
  apply orb_false_iff in E as [E _]. apply negb_false_iff in E. destruct (dv_cores _ _ _ _ Hd i E) as [_ Hs].
  rewrite zset_insert by lia. cbn [of_opt mbind outcome_bind]. rewrite u32_small by (unfold RTE_MAX_NUMA_NODES in Hs; lia).
  destruct (ms <? socket i + 1); cbn [mbind outcome_bind].
  - destruct (Z.leb_spec (socket i + 1) RTE_MAX_NUMA_NODES); [|lia]. cbn. apply IH; rewrite ?length_insert; lia.
  - apply IH; rewrite ?length_insert; lia.
Qed.

Lemma default_config_total c :
  length (fwd_lcores_cpuids c) = RTE_MAX_LCORE -> exists c', set_default_fwd_lcores_config en master socket c = Done c'.
Proof.
  unfold set_default_fwd_lcores_config. generalize RTE_MAX_LCORE as n. intros n Hn.
  destruct (default_lcores_total n 0 0 (lc_max_socket c) (fwd_lcores_cpuids c)) as ([[ids nb] ms] & E); [lia|lia|].
  rewrite E. by eexists.
Qed.

Lemma reset_ok g :
  globals_now g -> pst_ok (port_state g) ->
  exists g', cmd_reset_parsed en master socket g = Done g' /\ globals_now g' /\ pst_ok (port_state g').
Proof.
  intros Hg [Hs Hok]. unfold cmd_reset_parsed. pose proof (lo_len _ _ _ (gn_cores _ Hg)) as Hlen.
  destruct (default_config_total (cores (sets g)) Hlen) as [c E]. rewrite E.
  assert (Hc : lcores_ok en master c).
  { exact (default_ok en master _ _ _ Hlen (dv_worker _ _ _ _ Hd) E). }
  cbn [mbind outcome_bind]. unfold set_default_fwd_ports_config. pose proof (sh_nb _ Hs). pose proof (sh_ids _ Hs) as Hi.
  change (portst (sets g)) with (port_state g).
  destruct (default_ports_ok (Z.to_nat (nb_ports (port_state g))) 0 (fwd_ports_ids (port_state g))) as (ids & Ei & Hil);
    [lia|lia|]. rewrite Ei. cbn [mbind outcome_bind]. eexists. split; [done|]. split.
  - destruct Hg. constructor; cbn; try done. unfold set_def_peer_eth_addrs. by rewrite length_imap.
  - split; [|exact Hok]. destruct Hs. constructor; cbn; [done|congruence|done].
Qed.

Lemma dcb_queues_range mode num_tcs i :
  0 <= max_rx_queues i < 2 ^ 16 -> 0 <= max_tx_queues i < 2 ^ 16 ->
  0 <= (dcb_queues mode num_tcs i).1 < 2 ^ 16 /\ 0 <= (dcb_queues mode num_tcs i).2 < 2 ^ 16.
Proof.
  intros H1 H2. destruct mode; cbn [dcb_queues]; [by split|]. destruct (_ =? _); [by split|]. split; apply u16_range.
Qed.

Lemma dcb_ok port num_tcs vt_en pfc_en s :
  session_now s -> 0 <= port < Z.of_nat RTE_MAX_ETHPORTS ->
  exists s', cmd_config_dcb_parsed d port num_tcs vt_en pfc_en s = Done s' /\ session_now s'.
Proof.
  intros Hse Hp. pose proof Hse as (Hg & Hst & Hl). unfold cmd_config_dcb_parsed.
  destruct (lookup_lt_is_Some_2 (ports (port_state (gl s))) (Z.to_nat port)) as [p Hz].
  { rewrite (sh_ports _ (proj1 Hst)). unfold RTE_MAX_ETHPORTS in *. lia. }
  assert (Hz' : zget (ports (port_state (gl s))) port = Some p) by (apply zget_Some; split; [lia|done]).
  rewrite Hz'. cbn [of_opt mbind outcome_bind]. destruct (negb _); [by eexists|]. destruct (_ && _) eqn:Et; [by eexists|].
  destruct (_ <? _); [by eexists|]. destruct (init_port_dcb_config _ _ _ _ _ _ _) as [[[[rxq txq] t] c]|] eqn:E; [|by eexists].
  rewrite zset_insert by lia. cbn [of_opt mbind outcome_bind]. eexists. split; [done|].
  assert (Hq : 0 <= rxq < 2 ^ 16 /\ 0 <= txq < 2 ^ 16 /\ p_rx_free_thresh t = 64).
  { unfold init_port_dcb_config in E. pose proof (dv_queues _ _ _ _ Hd port) as [H1 H2].
    destruct (match _ with DCB_VT_ENABLED => _ | _ => _ end); [done|].
    pose proof (dcb_queues_range (if String.prefix "on" vt_en then DCB_VT_ENABLED else DCB_ENABLED) num_tcs _ H1 H2) as Hq.
    destruct (dcb_queues _ _ _) as [a b]. injection E as <- <- <- _. by split_and!; try apply Hq. }
  destruct Hq as (Hr & Htx & Hf). split; [|split].
  - assert (H : globals_now (set_var Var.rx_free_thresh (p_rx_free_thresh t) (set_var Var.nb_txq txq (set_var Var.nb_rxq rxq (gl s))))).
    { repeat apply set_var_now; [done|..]; apply in_range_now; unfold in_range; cbn; lia. }
    destruct H. by constructor.
  - cbn [gl port_state set_port_state sets set_sets with_portst portst]. apply pst_reconfig.
    assert (H : pst_ok (upd_port port (with_conf c) (port_state (gl s)))) by (by apply (pst_foldl (fun _ => with_conf c) [port])).
    destruct H as [[H1 H2 H3] H4]. split; [by constructor|exact H4].
  - cbn. by rewrite length_insert.
Qed.

Lemma command_step cmd s :
  session_now s -> command_ok cmd ->
  exists s', run_command size en master socket d min_len max_len cmd s = Done s' /\ session_now s'.
Proof.
  intros Hse Hc. pose proof Hse as (Hg & Hst & Hl).
  assert (Hgl : forall f : globals -> globals, globals_now (f (gl s)) -> port_state (f (gl s)) = port_state (gl s) ->
    exists s', on_globals (fun g => Done (f g)) s = Done s' /\ session_now s').
  { intros f H1 H2. eexists. split; [done|]. split; [done|]. split; [cbn; by rewrite H2|done]. }
  destruct cmd as [name text|name m|what n|text|mode|mode|mode|mode| |c|v1 v2|id v1 v2|port tcs vt pfc|name|name n|ident|id];
    cbn [run_command command_ok] in *.
  - apply on_settings_ok; [done|]. intros x Hx. by apply set_list_cmd_ok.
  - apply on_settings_ok; [done|]. intros x Hx. by apply set_mask_cmd_ok.
  - apply on_settings_ok; [done|]. intros x Hx. eexists. split; [done|]. by apply set_number_cmd_ok.
  - apply on_settings_ok; [done|]. intros x Hx. by apply set_txpkts_ok.
  - apply on_settings_ok; [done|]. intros x Hx. eexists. split; [done|]. by apply set_txsplit_ok.
  - apply (Hgl (cmd_set_fwd_mode_parsed mode)); [|done]. destruct Hg. constructor; cbn; try done. unfold set_pkt_forwarding_mode.
    destruct (list_find _ _) as [[i e]|] eqn:E; [|done]. apply list_find_Some in E as (E & _). exact (lookup_lt_Some _ _ _ E).
  - apply (Hgl (cmd_set_flush_rx_parsed mode)); [|done]. apply set_var_now; [done|]. apply in_range_now.
    unfold in_range; cbn; destruct (bool_decide _); lia.
  - apply (Hgl (cmd_set_link_check_parsed mode)); [|done]. apply set_var_now; [done|]. apply in_range_now.
    unfold in_range; cbn; destruct (bool_decide _); lia.
  - unfold on_globals. destruct (reset_ok (gl s) Hg Hst) as (g & E & Hg' & Hst'). rewrite E. by eexists.
  - eexists. split; [done|]. rewrite run_config_cmd_values. unfold config_all. destruct (negb _); [done|].
    destruct (values _ _ _ _) as [g|] eqn:E; [|done]. pose proof (values_now _ _ _ Hc Hg E) as Hg'.
    pose proof (values_port_state _ _ _ _ _ E) as Hpe. destruct (reinit_ok g Hg') as [H1 H2]; [by rewrite Hpe|]. by split.
  - unfold cmd_config_speed_all_parsed. destruct (negb _); [by eexists|].
    destruct (parse_and_check_speed_duplex v1 v2); [|by eexists]. eexists. split; [done|]. apply remark_ok; [done|].
    by rewrite speeds_foldl.
  - unfold cmd_config_speed_specific_parsed. destruct (negb _); [by eexists|].
    destruct (port_id_is_invalid id (port_state (gl s))) eqn:Hi; [by eexists|].
    destruct (parse_and_check_speed_duplex v1 v2); [|by eexists].
    unfold port_id_is_invalid in Hi. destruct (Z.eqb_spec id RTE_PORT_ALL); [done|].
    destruct (zget (ports (port_state (gl s))) id) as [p|] eqn:Hz; [|done]. apply zget_Some in Hz as [H0 Hz%lookup_lt_Some].
    rewrite (sh_ports _ (proj1 Hst)) in Hz. rewrite zset_insert by lia. cbn [of_opt mbind outcome_bind]. eexists. split; [done|].
    apply remark_ok; [done|]. by rewrite length_insert.
  - by apply dcb_ok.
  - eexists. split; [done|]. unfold cmd_operate_port_parsed. repeat destruct (bool_decide _); try done; apply on_ports_ok; try done;
      intros; [by apply start_pst|by apply stop_pst|by apply close_pst].
  - eexists. split; [done|]. unfold cmd_operate_specific_port_parsed. repeat destruct (bool_decide _); try done;
      apply on_ports_ok; try done; intros; [by apply start_pst|by apply stop_pst|by apply close_pst].
  - unfold cmd_operate_attach_port_parsed. rewrite bool_decide_true by done.
    destruct (attach_ok (config_of (gl s)) ident (port_state (gl s)) Hst) as (st' & E & Hst'). rewrite E.
    eexists. split; [done|]. split; [by destruct Hg; constructor|by split].
  - unfold cmd_operate_detach_port_parsed. rewrite bool_decide_true by done.
    destruct (detach_ok id (port_state (gl s)) Hc Hst) as (st' & E & Hst'). rewrite E.
    eexists. split; [done|]. split; [by destruct Hg; constructor|by split].
Qed.
End Parts.

(** ** Properties *)


(** ** Examples *)

Definition sample_ports : list rte_port :=
  replicate 2 (sample_port STOPPED) ++ replicate 30 (with_enabled false (sample_port STOPPED)).
Definition sample_session : cmd_state :=
  CmdState
    (set_port_state (PState sample_ports 2 2 2 (replicate RTE_MAX_ETHPORTS 0) [] true false false []) sample_globals)
    (replicate RTE_MAX_ETHPORTS ETH_LINK_SPEED_AUTONEG).
Definition sample_cmds_run (cmds : list command) : outcome cmd_state :=
  run_commands 128 sample_enabled 0 (fun _ => 0) sample_dpdk 64 1518 cmds sample_session.


(** Without forwarding ports, detaching one wraps their number to 255, more
    than the array of the forwarding ports has. *)
Lemma forwarding_ports_wrap :
  match sample_cmds_run [SetNumbers "nbport" 0; OnePort "close" 0; Detach 0] with
  | Done s' => nb_fwd_ports (port_state (gl s')) = 255
  | _ => False
  end.
Proof. vm_compute. reflexivity. Qed.

(** The token of "set fwd" accepts the names of the engines. *)
Lemma fwd_mode_token :
  (fst <$> match cmd_set_fwd_mode_init with Done r => Some r | _ => None end) =
    Some "io#mac#mac_retry#macswap#flowgen#rxonly#txonly#csum#icmpecho"%string.
Proof. vm_compute. reflexivity. Qed.
