(* ===== verification/FilterCmds.v ===== *)
(** * test-pmd/cmdline.c: filter commands

    The commands that add and delete filters of a device and set the masks
    of its flow director.  Each reads its arguments, refuses what makes no
    sense, and asks one thing of DPDK: a value of [filter_call], or nothing.
    Numbers on the wire are stored in network order. *)

From Stdlib Require Import Ascii.
From stdpp Require Import strings functions.
From S2P Require Import Prelude Cstr Packet FwdEngines Checksum IcmpEcho CsumOnly PortConf PortState Params LaunchArgs PortCmds FdirFlex.

#[local] Open Scope Z_scope.
#[local] Open Scope list_scope.

(** ** Data *)

(** [cmdline_ipaddr_t]: an IPv4 address as it is on the wire, or the bytes of
    an IPv6 address. *)
Inductive ipaddr : Type := IPv4 (s_addr : Z) | IPv6 (bytes : list Z).

Inductive filter_op : Type := FILTER_ADD | FILTER_DELETE | FILTER_UPDATE.

(** [struct rte_eth_ntuple_filter]; the flags are the kind, and whether TCP
    flags are compared. *)
Inductive ntuple_kind : Type := RTE_2TUPLE_FLAGS | RTE_5TUPLE_FLAGS.
Record ntuple_filter : Type := NtupleFilter {
  nt_kind : ntuple_kind;
  nt_tcp : bool;
  nt_dst_ip : Z; nt_dst_ip_mask : Z;
  nt_src_ip : Z; nt_src_ip_mask : Z;
  nt_dst_port : Z; nt_dst_port_mask : Z;
  nt_src_port : Z; nt_src_port_mask : Z;
  nt_proto : Z; nt_proto_mask : Z;
  nt_tcp_flags : Z;
  nt_priority : Z;
  nt_queue : Z;
}.

(** [struct rte_eth_flex_filter] *)
Record flex_filter : Type := FlexFilter {
  fx_len_value : Z;
  fx_bytes : list Z;
  fx_mask : list Z;
  fx_priority : Z;
  fx_queue : Z;
}.

(** [struct rte_eth_ethertype_filter] *)
Record ethertype_filter : Type := EthertypeFilter {
  et_mac : option (list Z);
  et_drop : bool;
  et_type : Z;
  et_queue : Z;
}.

(** [struct rte_eth_tunnel_filter_conf]: the two types are the words of the
    command. *)
Inductive tunnel_filter_type : Type :=
| IMAC_IVLAN | IMAC_IVLAN_TENID | IMAC_TENID | IMAC | OMAC_TENID_IMAC | OIP | IIP.
Inductive tunnel_type : Type := TUNNEL_VXLAN | TUNNEL_NVGRE | TUNNEL_IP_IN_GRE.

Record tunnel_filter : Type := TunnelFilter {
  tf_outer_mac : list Z;
  tf_inner_mac : list Z;
  tf_ip : ipaddr;
  tf_inner_vlan : Z;
  tf_filter : tunnel_filter_type;
  tf_tunnel : tunnel_type;
  tf_tenant_id : Z;
  tf_queue : Z;
}.

(** The union of [struct rte_eth_fdir_input], one constructor for what the
    command writes. *)
Inductive fdir_flow : Type :=
| NoFlow
| Ip4Flow (proto tos ttl dst_ip src_ip dst_port src_port : Z)
| Sctp4Flow (tos ttl dst_ip src_ip dst_port src_port verify_tag : Z)
| Ip6Flow (proto tc hop_limits : Z) (dst_ip src_ip : list Z) (dst_port src_port : Z)
| Sctp6Flow (tc hop_limits : Z) (dst_ip src_ip : list Z) (dst_port src_port verify_tag : Z)
| L2Flow (ether_type : Z)
| MacVlanFlow (mac : list Z)
| TunnelFlow (mac : list Z) (nvgre_or_vxlan : option tunnel_type) (tunnel_id : Z).

(** [struct rte_eth_fdir_filter] *)
Record fdir_entry : Type := FdirEntry {
  fe_flow_type : Z;
  fe_flow : fdir_flow;
  fe_flexbytes : list Z;
  fe_vlan_tci : Z;
  fe_vf : option Z;
  fe_reject : bool;
  fe_rx_queue : Z;
  fe_soft_id : Z;
}.

Inductive filter_call : Type :=
| FilterSyn (port : Z) (op : filter_op) (hig_pri : bool) (queue : Z)
| FilterNtuple (port : Z) (op : filter_op) (f : ntuple_filter)
| FilterFlexible (port : Z) (op : filter_op) (f : flex_filter)
| FilterEthertype (port : Z) (op : filter_op) (f : ethertype_filter)
| FilterTunnel (port : Z) (op : filter_op) (f : tunnel_filter)
| FilterFdir (port : Z) (op : filter_op) (e : fdir_entry)
| FilterFdirFlush (port : Z)
| UdpTunnelPort (port : Z) (add : bool) (udp_port : Z).

(** The kinds of filter a device may support. *)
Inductive filter_kind : Type := KIND_SYN | KIND_NTUPLE | KIND_ETHERTYPE | KIND_FDIR.

Definition rte_cpu_to_be_16 : Z -> Z := htons.
Definition rte_cpu_to_be_32 (x : Z) : Z := of_be32 (rev (be32 x)).

(** ** Filters *)

Section Filters.
Context `{DpdkText}.
Variables (RTE_FLEX_FILTER_MAXLEN FLEXLEN : nat) (TCP_FLAG_ALL : Z) (flow : flow_kind -> Z).
Variable filter_supported : Z -> filter_kind -> bool.
Variable max_vfs : Z -> Z.

Definition op_of (ops : string) : filter_op := if bool_decide (ops = "add"%string) then FILTER_ADD else FILTER_DELETE.

(** A command that only deletes passes no fields of the filter. *)
Definition cmd_syn_filter_parsed (port_id : Z) (ops high : string) (queue_id : Z) : option filter_call :=
  if negb (filter_supported port_id KIND_SYN) then None
  else if bool_decide (ops = "add"%string) then
    Some (FilterSyn port_id FILTER_ADD (bool_decide (high = "high"%string)) queue_id)
  else Some (FilterSyn port_id FILTER_DELETE false 0).

Definition ones (bits mask_value bit : Z) : Z := if negb (Z.land mask_value bit =? 0) then 2 ^ bits - 1 else 0.

(** The TCP flags of a filter: refused, or whether they are compared. *)
Definition tcp_flags_ok (tcp_flags proto : Z) : option bool :=
  if negb (tcp_flags =? 0) && negb (proto =? IPPROTO_TCP) then None
  else if TCP_FLAG_ALL <? tcp_flags then None
  else Some (negb (tcp_flags =? 0)).

Definition cmd_2tuple_filter_parsed (port_id : Z) (ops : string)
    (dst_port_value protocol_value mask_value tcp_flags_value priority_value queue_id : Z) : option filter_call :=
  if negb (filter_supported port_id KIND_NTUPLE) then None
  else
    tcp ← tcp_flags_ok tcp_flags_value protocol_value;
    Some (FilterNtuple port_id (op_of ops)
      (NtupleFilter RTE_2TUPLE_FLAGS tcp 0 0 0 0
         (rte_cpu_to_be_16 dst_port_value) (ones 16 mask_value 2) 0 0
         protocol_value (ones 8 mask_value 1) (if tcp : bool then tcp_flags_value else 0) priority_value queue_id)).

(** The address of a filter; an IPv6 one is taken as 0, if the mask is set. *)
Definition ntuple_ip (a : ipaddr) (mask : Z) : option Z :=
  match a with IPv4 s_addr => Some s_addr | IPv6 _ => if mask =? 0 then None else Some 0 end.

Definition cmd_5tuple_filter_parsed (port_id : Z) (ops : string) (dst_ip_value src_ip_value : ipaddr)
    (dst_port_value src_port_value protocol_value mask_value tcp_flags_value priority_value queue_id : Z)
    : option filter_call :=
  if negb (filter_supported port_id KIND_NTUPLE) then None
  else
    tcp ← tcp_flags_ok tcp_flags_value protocol_value;
    dst_ip ← ntuple_ip dst_ip_value (ones 32 mask_value 16);
    src_ip ← ntuple_ip src_ip_value (ones 32 mask_value 8);
    Some (FilterNtuple port_id (op_of ops)
      (NtupleFilter RTE_5TUPLE_FLAGS tcp dst_ip (ones 32 mask_value 16) src_ip (ones 32 mask_value 8)
         (rte_cpu_to_be_16 dst_port_value) (ones 16 mask_value 4)
         (rte_cpu_to_be_16 src_port_value) (ones 16 mask_value 2)
         protocol_value (ones 8 mask_value 1) (if tcp : bool then tcp_flags_value else 0) priority_value queue_id)).

(** *** Flexible filters *)

Definition is_upper (c : ascii) : bool := (65 <=? ascii_code c) && (ascii_code c <=? 90).
Definition isxdigit (c : ascii) : bool :=
  is_digit c || ((65 <=? ascii_code c) && (ascii_code c <=? 70)) || ((97 <=? ascii_code c) && (ascii_code c <=? 102)).

Definition xdigit2val (c : ascii) : Z :=
  if is_digit c then ascii_code c - 48
  else if is_upper c then ascii_code c - 65 + 10
  else ascii_code c - 97 + 10.

(** The loop over the digits: every second one completes a byte. *)
Fixpoint hex_bytes (l : list ascii) (second : bool) (byte : Z) (arr : list Z) (j : Z) : outcome (option (list Z)) :=
  match l with
  | [] => Done (Some arr)
  | c :: l =>
      if negb (isxdigit c) then Done None
      else
        let val := xdigit2val c in
        if second then
          arr ← of_opt (zset arr j (u8 (Z.lor byte val))); hex_bytes l false 0 arr (j + 1)
        else hex_bytes l true (u8 (Z.lor byte (Z.shiftl val 4))) arr j
  end.

Definition skip_0x (l : list ascii) : list ascii :=
  match l with
  | z :: x :: r => if Ascii.eqb z "0" && (Ascii.eqb x "x" || Ascii.eqb x "X") then r else l
  | _ => l
  end.

Definition cmd_flex_filter_parsed (ops : string) (port_id len_value : Z) (bytes_value mask_value : string)
    (priority_value queue_id : Z) : outcome (option filter_call) :=
  if Z.of_nat RTE_FLEX_FILTER_MAXLEN <? len_value then Done None
  else
    let digits := take (Z.to_nat (len_value * 2)) (skip_0x (String.list_ascii_of_string bytes_value)) in
    let len := Z.of_nat (length digits) in
    if (len =? 0) || negb (len mod 8 =? 0) then Done None
    else
      bytes ← hex_bytes digits false 0 (replicate RTE_FLEX_FILTER_MAXLEN 0) 0;
      match bytes with
      | None => Done None
      | Some bytes =>
          let digits := take (Z.to_nat ((len_value + 3) / 4)) (skip_0x (String.list_ascii_of_string mask_value)) in
          if (length digits =? 0)%nat then Done None
          else
            mask ← hex_bytes digits false 0 (replicate RTE_FLEX_FILTER_MAXLEN 0) 0;
            match mask with
            | None => Done None
            | Some mask =>
                Done (Some (FilterFlexible port_id (op_of ops) (FlexFilter len_value bytes mask priority_value queue_id)))
            end
      end.

(** *** Ethernet types and tunnels *)

Definition cmd_ethertype_filter_parsed (port_id : Z) (ops mac : string) (mac_addr : list Z) (ethertype_value : Z)
    (drop : string) (queue_id : Z) : option filter_call :=
  if negb (filter_supported port_id KIND_ETHERTYPE) then None
  else
    Some (FilterEthertype port_id (op_of ops)
      (EthertypeFilter (if bool_decide (mac = "mac_addr"%string) then Some mac_addr else None)
         (bool_decide (drop = "drop"%string)) ethertype_value queue_id)).

Definition word_of {A} (l : list (string * A)) (w : string) : option A :=
  snd <$> List.find (fun e => bool_decide (e.1 = w)) l.

Definition tunnel_filter_types : list (string * tunnel_filter_type) := [
  ("imac-ivlan", IMAC_IVLAN); ("imac-ivlan-tenid", IMAC_IVLAN_TENID); ("imac-tenid", IMAC_TENID); ("imac", IMAC);
  ("omac-imac-tenid", OMAC_TENID_IMAC); ("oip", OIP); ("iip", IIP)
]%string.
Definition tunnel_types : list (string * tunnel_type) :=
  [("vxlan", TUNNEL_VXLAN); ("nvgre", TUNNEL_NVGRE); ("ipingre", TUNNEL_IP_IN_GRE)]%string.

Definition cmd_tunnel_filter_parsed (what : string) (port_id : Z) (outer_mac inner_mac : list Z) (ip_value : ipaddr)
    (inner_vlan : Z) (tunnel_type filter_type : string) (tenant_id queue_num : Z) : option filter_call :=
  f ← word_of tunnel_filter_types filter_type;
  t ← word_of tunnel_types tunnel_type;
  Some (FilterTunnel port_id (op_of what) (TunnelFilter outer_mac inner_mac ip_value inner_vlan f t tenant_id queue_num)).

(** The only token of the command is "rx_vxlan_port". *)
Definition cmd_tunnel_udp_config_parsed (what : string) (udp_port port_id : Z) : filter_call :=
  UdpTunnelPort port_id (bool_decide (what = "add"%string)) udp_port.

(** *** Flow director *)

Definition tunneltype_str : list (string * tunnel_type) := [("NVGRE", TUNNEL_NVGRE); ("VxLAN", TUNNEL_VXLAN)]%string.
Definition str2fdir_tunneltype : string -> option tunnel_type := word_of tunneltype_str.

(** The words of a mode; every other mode takes IP flows. *)
Definition mode_word (mode : fdir_mode) : string :=
  match mode with
  | RTE_FDIR_MODE_PERFECT_MAC_VLAN => "MAC-VLAN"
  | RTE_FDIR_MODE_PERFECT_TUNNEL => "Tunnel"
  | _ => "IP"
  end.

(** The fields of a flow as the command gives them. *)
Record flow_args : Type := FlowArgs {
  fa_proto : Z; fa_tos : Z; fa_ttl : Z;
  fa_ip_dst : ipaddr; fa_ip_src : ipaddr;
  fa_port_dst : Z; fa_port_src : Z;
  fa_verify_tag : Z;
  fa_ether_type : Z;
}.

(** [IPV4_ADDR_TO_UINT] and [IPV6_ADDR_TO_ARRAY] end the command when the
    address has another family. *)
Definition ipv4_of (a : ipaddr) : option Z := match a with IPv4 x => Some x | IPv6 _ => None end.
Definition ipv6_of (a : ipaddr) : option (list Z) := match a with IPv6 x => Some x | IPv4 _ => None end.

Definition is_flow (l : list flow_kind) (flow_type : Z) : bool := existsb (fun k => flow k =? flow_type) l.

(** The switch over the type of flow; the cases fall through, so that only
    some kinds store the protocol. *)
Definition fdir_flow_of (flow_type : Z) (a : flow_args) : option fdir_flow :=
  let dport := rte_cpu_to_be_16 (fa_port_dst a) in
  let sport := rte_cpu_to_be_16 (fa_port_src a) in
  if is_flow [FLOW_FRAG_IPV4; FLOW_NONFRAG_IPV4_OTHER; FLOW_NONFRAG_IPV4_UDP; FLOW_NONFRAG_IPV4_TCP] flow_type then
    let proto := if is_flow [FLOW_FRAG_IPV4; FLOW_NONFRAG_IPV4_OTHER] flow_type then fa_proto a else 0 in
    dst ← ipv4_of (fa_ip_dst a); src ← ipv4_of (fa_ip_src a);
    Some (Ip4Flow proto (fa_tos a) (fa_ttl a) dst src dport sport)
  else if is_flow [FLOW_NONFRAG_IPV4_SCTP] flow_type then
    dst ← ipv4_of (fa_ip_dst a); src ← ipv4_of (fa_ip_src a);
    Some (Sctp4Flow (fa_tos a) (fa_ttl a) dst src dport sport (rte_cpu_to_be_32 (fa_verify_tag a)))
  else if is_flow [FLOW_FRAG_IPV6; FLOW_NONFRAG_IPV6_OTHER; FLOW_NONFRAG_IPV6_UDP; FLOW_NONFRAG_IPV6_TCP] flow_type then
    let proto := if is_flow [FLOW_FRAG_IPV6; FLOW_NONFRAG_IPV6_OTHER] flow_type then fa_proto a else 0 in
    dst ← ipv6_of (fa_ip_dst a); src ← ipv6_of (fa_ip_src a);
    Some (Ip6Flow proto (fa_tos a) (fa_ttl a) dst src dport sport)
  else if is_flow [FLOW_NONFRAG_IPV6_SCTP] flow_type then
    dst ← ipv6_of (fa_ip_dst a); src ← ipv6_of (fa_ip_src a);
    Some (Sctp6Flow (fa_tos a) (fa_ttl a) dst src dport sport (rte_cpu_to_be_32 (fa_verify_tag a)))
  else if is_flow [FLOW_L2_PAYLOAD] flow_type then Some (L2Flow (rte_cpu_to_be_16 (fa_ether_type a)))
  else Some NoFlow.

(** The function a filter is for: the port itself, or one of its virtual
    functions. *)
Definition parse_pf_vf (port_id : Z) (pf_vf : string) : option (option Z) :=
  if bool_decide (pf_vf = "pf"%string) then Some None
  else
    match pf_vf with
    | String v (String f rest) =>
        if Ascii.eqb v "v" && Ascii.eqb f "f" then
          let '(vf_id, _, erange, tail) := strtoul 10 rest in
          if erange || negb (bool_decide (tail = ""%string)) || (max_vfs port_id <=? vf_id) then None
          else Some (Some (u16 vf_id))
        else None
    | _ => None
    end.

(** The mode is a global variable of the program. *)
Definition cmd_flow_director_filter_parsed (mode : fdir_mode) (port_id : Z) (mode_value ops flow_type : string)
    (a : flow_args) (mac_addr : list Z) (tunnel_type : string) (tunnel_id_value vlan_value : Z)
    (flexbytes_value drop pf_vf : string) (queue_id fd_id_value : Z) : outcome (option filter_call) :=
  if negb (filter_supported port_id KIND_FDIR) then Done None
  else if negb (bool_decide (mode_value = mode_word mode)) then Done None
  else
    let ty :=
      match mode with
      | RTE_FDIR_MODE_PERFECT_MAC_VLAN | RTE_FDIR_MODE_PERFECT_TUNNEL => RTE_ETH_FLOW_UNKNOWN
      | _ => str2flowtype flow flow_type
      end in
    flexbytes ← parse_flexbytes flexbytes_value FLEXLEN (replicate FLEXLEN 0);
    Done (
      flexbytes ← flexbytes;
      f ← fdir_flow_of ty a;
      let f :=
        match mode with
        | RTE_FDIR_MODE_PERFECT_MAC_VLAN => MacVlanFlow mac_addr
        | RTE_FDIR_MODE_PERFECT_TUNNEL =>
            TunnelFlow mac_addr (str2fdir_tunneltype tunnel_type) (rte_cpu_to_be_32 tunnel_id_value)
        | _ => f
        end in
      vf ← parse_pf_vf port_id pf_vf;
      Some (FilterFdir port_id
        (if bool_decide (ops = "add"%string) then FILTER_ADD
         else if bool_decide (ops = "del"%string) then FILTER_DELETE else FILTER_UPDATE)
        (FdirEntry ty f flexbytes (rte_cpu_to_be_16 vlan_value) vf (bool_decide (drop = "drop"%string)) queue_id fd_id_value))).

Definition cmd_flush_flow_director_parsed (port_id : Z) : option filter_call :=
  if negb (filter_supported port_id KIND_FDIR) then None else Some (FilterFdirFlush port_id).
End Filters.

(** ** Masks of the flow director *)

(** [struct rte_eth_fdir_masks] *)
Record fdir_masks : Type := FdirMasks {
  fm_vlan_tci : Z;
  fm_ipv4_src : Z; fm_ipv4_dst : Z;
  fm_ipv6_src : list Z; fm_ipv6_dst : list Z;
  fm_src_port : Z; fm_dst_port : Z;
  fm_mac_addr_byte : Z;
  fm_tunnel_id : Z;
  fm_tunnel_type : Z;
}.

(** The masks as the command gives them. *)
Record mask_args : Type := MaskArgs {
  ma_vlan : Z;
  ma_ipv4_src : ipaddr; ma_ipv4_dst : ipaddr;
  ma_ipv6_src : ipaddr; ma_ipv6_dst : ipaddr;
  ma_port_src : Z; ma_port_dst : Z;
  ma_mac_addr_byte : Z;
  ma_tunnel_id : Z;
  ma_tunnel_type : Z;
}.

(** The masks for IP flows are stored one after another, until an address
    has the wrong family: the masks, and whether all were stored. *)
Definition set_ip_masks (a : mask_args) (k : fdir_masks) : fdir_masks * bool :=
  let set vlan s4 d4 s6 d6 sp dp :=
    FdirMasks vlan s4 d4 s6 d6 sp dp (fm_mac_addr_byte k) (fm_tunnel_id k) (fm_tunnel_type k) in
  let vlan := rte_cpu_to_be_16 (ma_vlan a) in
  match ma_ipv4_src a with
  | IPv6 _ => (set vlan (fm_ipv4_src k) (fm_ipv4_dst k) (fm_ipv6_src k) (fm_ipv6_dst k) (fm_src_port k) (fm_dst_port k), false)
  | IPv4 s4 =>
      match ma_ipv4_dst a with
      | IPv6 _ => (set vlan s4 (fm_ipv4_dst k) (fm_ipv6_src k) (fm_ipv6_dst k) (fm_src_port k) (fm_dst_port k), false)
      | IPv4 d4 =>
          match ma_ipv6_src a with
          | IPv4 _ => (set vlan s4 d4 (fm_ipv6_src k) (fm_ipv6_dst k) (fm_src_port k) (fm_dst_port k), false)
          | IPv6 s6 =>
              match ma_ipv6_dst a with
              | IPv4 _ => (set vlan s4 d4 s6 (fm_ipv6_dst k) (fm_src_port k) (fm_dst_port k), false)
              | IPv6 d6 =>
                  (set vlan s4 d4 s6 d6 (rte_cpu_to_be_16 (ma_port_src a)) (rte_cpu_to_be_16 (ma_port_dst a)), true)
              end
          end
      end
  end.

Definition set_masks (mode : fdir_mode) (a : mask_args) (k : fdir_masks) : fdir_masks * bool :=
  match mode with
  | RTE_FDIR_MODE_PERFECT_MAC_VLAN =>
      (FdirMasks (ma_vlan a) (fm_ipv4_src k) (fm_ipv4_dst k) (fm_ipv6_src k) (fm_ipv6_dst k) (fm_src_port k) (fm_dst_port k)
         (ma_mac_addr_byte a) (fm_tunnel_id k) (fm_tunnel_type k), true)
  | RTE_FDIR_MODE_PERFECT_TUNNEL =>
      (FdirMasks (ma_vlan a) (fm_ipv4_src k) (fm_ipv4_dst k) (fm_ipv6_src k) (fm_ipv6_dst k) (fm_src_port k) (fm_dst_port k)
         (ma_mac_addr_byte a) (ma_tunnel_id a) (ma_tunnel_type a), true)
  | _ => set_ip_masks a k
  end.

Definition cmd_flow_director_mask_parsed (mode : fdir_mode) (port_id : Z) (mode_value : string) (a : mask_args)
    (st : pstate) (masks : list fdir_masks) : outcome (pstate * list fdir_masks) :=
  stopped ← fdir_port_stopped port_id (FdirState st []);
  if negb stopped then Done (st, masks)
  else if negb (bool_decide (mode_value = mode_word mode)) then Done (st, masks)
  else
    k ← of_opt (zget masks port_id);
    let '(k, all) := set_masks mode a k in
    masks ← of_opt (zset masks port_id k);
    Done (if all : bool then cmd_reconfig_device_queue port_id true true st else st, masks).

(** ** Specification *)

(** A digit is written as a lower-case or an upper-case one, and bytes as two
    digits each. *)
Definition hex_digit (n : Z) : ascii := ascii_of_nat (Z.to_nat (if n <? 10 then 48 + n else 87 + n)).
Definition upper_hex_digit (n : Z) : ascii := ascii_of_nat (Z.to_nat (if n <? 10 then 48 + n else 55 + n)).
Definition digit_of (n : Z) (c : ascii) : Prop := c = hex_digit n \/ c = upper_hex_digit n.

Inductive hex_text : list Z -> list ascii -> Prop :=
| hex_none : hex_text [] []
| hex_byte b bytes c1 c2 text :
    0 <= b < 256 -> digit_of (b / 16) c1 -> digit_of (b mod 16) c2 -> hex_text bytes text ->
    hex_text (b :: bytes) (c1 :: c2 :: text).

(** What may follow the bytes: nothing, or one more digit. *)
Definition last_digit (l : list ascii) : Prop := l = [] \/ exists n c, 0 <= n < 16 /\ digit_of n c /\ l = [c].

(** ** Lemmas *)

Lemma digit_of_val n c : 0 <= n < 16 -> digit_of n c ->
  isxdigit c = true /\ xdigit2val c = n /\ Ascii.eqb c "x" = false /\ Ascii.eqb c "X" = false.
Proof.
  intros Hn Hc. set (P n c := isxdigit c = true /\ xdigit2val c = n /\ Ascii.eqb c "x" = false /\ Ascii.eqb c "X" = false).
  assert (H : Forall (fun n => P n (hex_digit n) /\ P n (upper_hex_digit n)) (seqZ 0 16)).
  { repeat constructor. }
  rewrite Forall_forall in H. destruct (H n) as [H1 H2]; [apply elem_of_seqZ; lia|]. by destruct Hc as [-> | ->].
Qed.

Lemma byte_halves b : 0 <= b < 256 -> u8 (Z.lor (u8 (Z.lor 0 (Z.shiftl (b / 16) 4))) (b mod 16)) = b.
Proof.
  intros Hb. assert (H : Forall (fun b => u8 (Z.lor (u8 (Z.lor 0 (Z.shiftl (b / 16) 4))) (b mod 16)) = b) (seqZ 0 256)).
  { apply Forall_forall. assert (Hc : forallb (fun b => u8 (Z.lor (u8 (Z.lor 0 (Z.shiftl (b / 16) 4))) (b mod 16)) =? b) (seqZ 0 256) = true)
      by (vm_compute; reflexivity).
    intros x Hx. rewrite forallb_forall in Hc. apply Z.eqb_eq, Hc. by apply list_elem_of_In. }
  rewrite Forall_forall in H. apply H, elem_of_seqZ. lia.
Qed.

Lemma byte_digits_bounds b : 0 <= b < 256 -> 0 <= b / 16 < 16 /\ 0 <= b mod 16 < 16.
Proof. intros Hb. split; [split; [apply Z.div_pos; lia|apply Z.div_lt_upper_bound; lia]|apply Z.mod_pos_bound; lia]. Qed.

Lemma hex_text_length bytes text : hex_text bytes text -> length text = (2 * length bytes)%nat.
Proof. induction 1 as [|b bytes c1 c2 text _ _ _ _ IH]; [done|]. cbn [length]. lia. Qed.

(** Reading the digits of [bytes] behind [done_] in the array; a last digit
    alone is dropped. *)
Lemma hex_bytes_text bytes text last done_ rest j :
  hex_text bytes text -> last_digit last -> j = Z.of_nat (length done_) -> (length bytes <= length rest)%nat ->
  hex_bytes (text ++ last) false 0 (done_ ++ rest) j = Done (Some (done_ ++ bytes ++ drop (length bytes) rest)).
Proof.
  intros Ht Hlast. revert done_ rest j. induction Ht as [|b bytes c1 c2 text Hb H1 H2 _ IH]; intros done_ rest j Hj Hl.
  { destruct Hlast as [->|(n & c & Hn & Hc & ->)]; [done|]. cbn. by destruct (digit_of_val n c Hn Hc) as (-> & _). }
  cbn [length] in Hl. destruct rest as [|r rest]; [cbn in Hl; lia|]. cbn [length] in Hl.
  destruct (byte_digits_bounds b Hb) as [B1 B2].
  destruct (digit_of_val _ _ B1 H1) as (X1 & V1 & _). destruct (digit_of_val _ _ B2 H2) as (X2 & V2 & _).
  cbn [app hex_bytes]. rewrite X1, X2, V1, V2. cbn [negb]. rewrite byte_halves by done.
  rewrite zset_insert by (rewrite length_app; cbn [length]; lia). cbn [of_opt mbind outcome_bind].
  subst j. rewrite Nat2Z.id, insert_app_r_alt, Nat.sub_diag by lia. cbn [insert list_insert].
  rewrite cons_middle, app_assoc.
  rewrite IH; [cbn [length drop]; by rewrite <- app_assoc|rewrite length_app; cbn; lia|lia].
Qed.

(** The prefix of a text of digits. *)
Definition prefixes : list (list ascii) := [[]; ["0"; "x"]; ["0"; "X"]]%char.

Lemma skip_0x_text pre bytes text last :
  pre ∈ prefixes -> hex_text bytes text -> last_digit last -> skip_0x (pre ++ text ++ last) = text ++ last.
Proof.
  intros Hp Ht Hlast.
  assert (H0 : skip_0x (text ++ last) = text ++ last).
  { destruct Ht as [|b bytes c1 c2 text Hb H1 H2 _].
    - by destruct Hlast as [->|(n & c & _ & _ & ->)].
    - destruct (byte_digits_bounds b Hb) as [_ B2]. destruct (digit_of_val _ _ B2 H2) as (_ & _ & N1 & N2).
      cbn [app skip_0x]. by rewrite N1, N2, andb_false_r. }
  unfold prefixes in Hp. by repeat (apply elem_of_cons in Hp as [-> |Hp]); [exact H0|..|apply not_elem_of_nil in Hp].
Qed.

Lemma flex_digits pre bytes text last n :
  pre ∈ prefixes -> hex_text bytes text -> last_digit last -> (length (text ++ last) <= n)%nat ->
  take n (skip_0x (String.list_ascii_of_string (String.string_of_list_ascii (pre ++ text ++ last)))) = text ++ last.
Proof.
  intros Hp Hb Hl Hn. rewrite String.list_ascii_of_string_of_list_ascii, (skip_0x_text _ bytes) by done. by apply take_ge.
Qed.

(** ** Properties *)

(** C39: A flexible filter whose bytes and mask are typed in hexadecimal digits
    of either case, with or without 0x in front, asks the device for exactly
    these bytes and this mask, filled up with zeros, when there is a bit of
    the mask for each byte; but when the digits of the mask are odd in number
    (the length is 4 more than a multiple of 8) the last one is dropped.  A
    length above the limit is refused. *)
Theorem flex_filter_asks maxlen ops port pre1 pre2 bytes btext mask mtext last priority queue
    (Hpre1 : pre1 ∈ prefixes) (Hpre2 : pre2 ∈ prefixes)
    (Hbytes : hex_text bytes btext) (Hmask : hex_text mask mtext) (Hlast : last_digit last)
    (Hne : bytes <> []) (Hbits : length bytes = (4 * length (mtext ++ last))%nat) :
  let len := Z.of_nat (length bytes) in
  cmd_flex_filter_parsed maxlen ops port len (String.string_of_list_ascii (pre1 ++ btext))
    (String.string_of_list_ascii (pre2 ++ mtext ++ last)) priority queue =
  Done (if decide (length bytes <= maxlen)%nat then
          Some (FilterFlexible port (op_of ops)
            (FlexFilter len (bytes ++ replicate (maxlen - length bytes) 0) (mask ++ replicate (maxlen - length mask) 0)
               priority queue))
        else None).
Proof.
  intros len. unfold cmd_flex_filter_parsed, len. destruct (Z.ltb_spec (Z.of_nat maxlen) (Z.of_nat (length bytes))).
  { by rewrite decide_False by lia. }
  rewrite decide_True by lia. assert (Hm : (0 < length bytes)%nat) by (destruct bytes; [done|cbn; lia]).
  pose proof (hex_text_length _ _ Hbytes) as Lb. pose proof (hex_text_length _ _ Hmask) as Lm.
  pose proof (flex_digits pre1 bytes btext [] (Z.to_nat (Z.of_nat (length bytes) * 2)) Hpre1 Hbytes (or_introl eq_refl)) as D1.
  rewrite !app_nil_r in D1. rewrite D1, Lb by lia. clear D1.
  destruct (Z.eqb_spec (Z.of_nat (2 * length bytes)) 0); [lia|].
  assert (M8 : Z.of_nat (2 * length bytes) mod 8 = 0).
  { replace (Z.of_nat (2 * length bytes)) with (Z.of_nat (length (mtext ++ last)) * 8) by lia. by rewrite Z.mod_mul by lia. }
  rewrite M8. cbn [Z.eqb negb orb].
  pose proof (hex_bytes_text bytes btext [] [] (replicate maxlen 0) 0 Hbytes (or_introl eq_refl) eq_refl) as E1.
  rewrite app_nil_r in E1. cbn [app] in E1. rewrite E1 by (rewrite length_replicate; lia). cbn [mbind outcome_bind]. clear E1.
  assert (Hq : (Z.of_nat (length bytes) + 3) / 4 = Z.of_nat (length (mtext ++ last))).
  { rewrite Hbits. symmetry. apply (Z.div_unique _ _ _ 3); lia. }
  rewrite Hq, (flex_digits pre2 mask) by (done || lia). destruct (Nat.eqb_spec (length (mtext ++ last)) 0); [lia|].
  pose proof (hex_bytes_text mask mtext last [] (replicate maxlen 0) 0 Hmask Hlast eq_refl) as E2. cbn [app] in E2.
  rewrite length_app in Hbits. rewrite E2 by (rewrite length_replicate; lia). cbn [mbind outcome_bind].
  by rewrite !drop_replicate.
Qed.

(** ** Examples *)

(** Digits of both cases, and a last digit of the mask that is dropped. *)
Lemma flex_filter_asks_witness :
  cmd_flex_filter_parsed 16 "add" 1 12 "0x00112233445566fFAABBCCdd" "A57" 2 3 =
    Done (Some (FilterFlexible 1 FILTER_ADD
      (FlexFilter 12 ([0; 17; 34; 51; 68; 85; 102; 255; 170; 187; 204; 221] ++ replicate 4 0) (165 :: replicate 15 0) 2 3))).
Proof.
  refine (flex_filter_asks 16 "add" 1 ["0"; "x"]%char [] [0; 17; 34; 51; 68; 85; 102; 255; 170; 187; 204; 221]
    (String.list_ascii_of_string "00112233445566fFAABBCCdd") [165] ["A"; "5"]%char ["7"]%char 2 3 _ _ _ _ _ _ _).
  - right. left.
  - left.
  - repeat (apply hex_byte; [lia|first [by left|by right]|first [by left|by right]|]). constructor.
  - repeat (apply hex_byte; [lia|first [by left|by right]|first [by left|by right]|]). constructor.
  - right. exists 7, "7"%char. split; [lia|]. split; [by left|reflexivity].
  - discriminate.
  - reflexivity.
Defined.

(** With four bytes the mask is one digit, which is read and never stored. *)
Lemma flex_mask_digit_lost :
  cmd_flex_filter_parsed 16 "add" 1 4 "00112233" "f" 2 3 =
    Done (Some (FilterFlexible 1 FILTER_ADD (FlexFilter 4 ([0; 17; 34; 51] ++ replicate 12 0) (replicate 16 0) 2 3))).
Proof. vm_compute. reflexivity. Qed.

(** An IPv6 address is refused in a filter that does not compare it, and
    compared as 0.0.0.0 in one that does. *)
Lemma ntuple_ipv6 :
  cmd_5tuple_filter_parsed 63 (fun _ _ => true) 0 "add" (IPv6 (replicate 16 1)) (IPv4 5) 80 90 17 0 0 1 2 = None /\
  (exists f, cmd_5tuple_filter_parsed 63 (fun _ _ => true) 0 "add" (IPv6 (replicate 16 1)) (IPv4 5) 80 90 17 16 0 1 2 =
     Some (FilterNtuple 0 FILTER_ADD f) /\ nt_dst_ip f = 0 /\ nt_dst_ip_mask f = 2 ^ 32 - 1).
Proof. split; [reflexivity|]. eexists. split; [reflexivity|]. by split. Qed.

(** Distinct types of flows. *)
Definition flow_number (k : flow_kind) : Z :=
  match k with
  | FLOW_RAW => 1 | FLOW_IPV4 => 2 | FLOW_FRAG_IPV4 => 3 | FLOW_NONFRAG_IPV4_TCP => 4 | FLOW_NONFRAG_IPV4_UDP => 5
  | FLOW_NONFRAG_IPV4_SCTP => 6 | FLOW_NONFRAG_IPV4_OTHER => 7 | FLOW_IPV6 => 8 | FLOW_FRAG_IPV6 => 9
  | FLOW_NONFRAG_IPV6_TCP => 10 | FLOW_NONFRAG_IPV6_UDP => 11 | FLOW_NONFRAG_IPV6_SCTP => 12
  | FLOW_NONFRAG_IPV6_OTHER => 13 | FLOW_L2_PAYLOAD => 14
  end.

Definition sample_fdir_filter (flow_type pf_vf : string) : outcome (option filter_call) :=
  @cmd_flow_director_filter_parsed sample_text 4 flow_number (fun _ _ => true) (fun _ => 8) RTE_FDIR_MODE_PERFECT 0 "IP" "add"
    flow_type (FlowArgs 9 1 2 (IPv4 5) (IPv4 6) 80 90 0 0) [] "" 0 7 "(1,2)" "fwd" pf_vf 3 4.

(** Ports are in network order; only some kinds of flow have the protocol;
    "vf" without a number is the first virtual function. *)
Lemma fdir_filter_example :
  sample_fdir_filter "ipv4-udp" "vf" =
    Done (Some (FilterFdir 0 FILTER_ADD
      (FdirEntry 5 (Ip4Flow 0 1 2 5 6 20480 23040) [1; 2; 0; 0] 1792 (Some 0) false 3 4))) /\
  sample_fdir_filter "ipv4-other" "pf" =
    Done (Some (FilterFdir 0 FILTER_ADD
      (FdirEntry 7 (Ip4Flow 9 1 2 5 6 20480 23040) [1; 2; 0; 0] 1792 None false 3 4))) /\
  sample_fdir_filter "ipv6-udp" "pf" = Done None /\ sample_fdir_filter "ipv4-udp" "vf8" = Done None.
Proof. split_and!; vm_compute; reflexivity. Qed.
