(* ===== verification/FlowCtrl.v ===== *)
(** * test-pmd/cmdline.c: flow control

    The commands "set flow_ctrl ..." and "set pfc_ctrl ...".  The long form of
    the first sets all parameters of a port at once; the short forms read the
    present ones back from the device and change one.  The device is an
    interface, [FlowCtrlDev], with the documented behaviour [FlowCtrlDoc]:
    it keeps the parameters it accepts and no others. *)

From stdpp Require Import strings functions.
From S2P Require Import Prelude.

#[local] Open Scope Z_scope.

(** ** Data *)

(** [enum rte_eth_fc_mode] *)
Inductive fc_mode : Type := RTE_FC_NONE | RTE_FC_RX_PAUSE | RTE_FC_TX_PAUSE | RTE_FC_FULL.

#[export] Instance fc_mode_eq : EqDecision fc_mode.
Proof. solve_decision. Defined.

(** [struct rte_eth_fc_conf] *)
Record fc_conf : Type := FcConf {
  high_water : Z;
  low_water : Z;
  pause_time : Z;
  send_xon : Z;
  mode : fc_mode;
  mac_ctrl_frame_fwd : Z;
  autoneg : Z;
}.

(** [struct rte_eth_pfc_conf] *)
Record pfc_conf : Type := PfcConf { pfc_fc : fc_conf; pfc_priority : Z }.

(** A device: the present parameters, if they can be had, and asking for new
    ones, which it may refuse. *)
Class FlowCtrlDev (D : Type) := {
  flow_ctrl_get : D -> option fc_conf;
  flow_ctrl_set : fc_conf -> D -> bool * D;
}.

(** What DPDK documents of it. *)
Class FlowCtrlDoc (D : Type) `{FlowCtrlDev D} : Prop := {
  set_accepted c s s' : flow_ctrl_set c s = (true, s') -> flow_ctrl_get s' = Some c;
  set_refused c s s' : flow_ctrl_set c s = (false, s') -> flow_ctrl_get s' = flow_ctrl_get s;
}.

(** The forms of the command: [cmd] is NULL for the first, the form's own
    description for the others. *)
Inductive lfc_form : Type := LfcAll | LfcRx | LfcTx | LfcHw | LfcLw | LfcPt | LfcXon | LfcMacFwd | LfcAutoneg.

#[export] Instance lfc_form_eq : EqDecision lfc_form.
Proof. solve_decision. Defined.

(** [struct cmd_link_flow_ctrl_set_result]; the fields that a form does not
    read are whatever they were. *)
Record lfc_result : Type := LfcResult {
  rx_lfc_mode : string;
  tx_lfc_mode : string;
  res_mac_ctrl_frame_fwd_mode : string;
  res_autoneg : string;
  res_high_water : Z;
  res_low_water : Z;
  res_pause_time : Z;
  res_send_xon : Z;
}.

(** What the command prints: nothing, or one of its two complaints. *)
Inductive lfc_report : Type := Silent | CannotGet | BadParameter.

(** ** The commands *)

Definition is_on (s : string) : bool := bool_decide (s = "on"%string).

Definition rx_tx_onoff_2_lfc_mode (rx tx : bool) : fc_mode :=
  if rx then (if tx then RTE_FC_FULL else RTE_FC_RX_PAUSE) else (if tx then RTE_FC_TX_PAUSE else RTE_FC_NONE).

Definition rx_tx_onoff_2_pfc_mode (rx tx : bool) : fc_mode :=
  if rx then (if tx then RTE_FC_FULL else RTE_FC_TX_PAUSE) else (if tx then RTE_FC_RX_PAUSE else RTE_FC_NONE).

Definition pauses_rx (m : fc_mode) : bool := bool_decide (m = RTE_FC_RX_PAUSE) || bool_decide (m = RTE_FC_FULL).
Definition pauses_tx (m : fc_mode) : bool := bool_decide (m = RTE_FC_TX_PAUSE) || bool_decide (m = RTE_FC_FULL).

Section FlowCtrl.
Context {D : Type} `{FlowCtrlDev D}.
(** What is on the stack where [fc_conf] lies. *)
Variable stack : fc_conf.

(** The parameters to ask for: [c] is [fc_conf] before, [rx] and [tx] are
    [rx_fc_en] and [tx_fc_en]. *)
Definition lfc_wanted (cmd : lfc_form) (res : lfc_result) (c : fc_conf) (rx tx : bool) : fc_conf :=
  let sets f := bool_decide (cmd = LfcAll) || bool_decide (cmd = f) in
  let rx := if sets LfcRx then is_on (rx_lfc_mode res) else rx in
  let tx := if sets LfcTx then is_on (tx_lfc_mode res) else tx in
  {| mode := rx_tx_onoff_2_lfc_mode rx tx;
     high_water := if sets LfcHw then res_high_water res else high_water c;
     low_water := if sets LfcLw then res_low_water res else low_water c;
     pause_time := if sets LfcPt then res_pause_time res else pause_time c;
     send_xon := if sets LfcXon then res_send_xon res else send_xon c;
     mac_ctrl_frame_fwd :=
       if sets LfcMacFwd then Z.b2z (is_on (res_mac_ctrl_frame_fwd_mode res)) else mac_ctrl_frame_fwd c;
     autoneg := if sets LfcAutoneg then Z.b2z (is_on (res_autoneg res)) else autoneg c |}.

Definition lfc_set (c : fc_conf) (dev : D) : lfc_report * D :=
  let '(ok, dev) := flow_ctrl_set c dev in (if ok : bool then Silent else BadParameter, dev).

Definition cmd_link_flow_ctrl_set_parsed (cmd : lfc_form) (res : lfc_result) (dev : D) : lfc_report * D :=
  if bool_decide (cmd = LfcAll) then lfc_set (lfc_wanted cmd res stack false false) dev
  else
    match flow_ctrl_get dev with
    | None => (CannotGet, dev)
    | Some c => lfc_set (lfc_wanted cmd res c (pauses_rx (mode c)) (pauses_tx (mode c))) dev
    end.

(** What the priority command asks for; three of the fields are not set. *)
Definition starts_on (s : string) : bool := bool_decide (String.substring 0 2 s = "on"%string).

Definition cmd_priority_flow_ctrl_set_parsed (rx_pfc_mode tx_pfc_mode : string)
    (high low pause priority : Z) : pfc_conf :=
  {| pfc_fc := FcConf high low pause (send_xon stack)
       (rx_tx_onoff_2_pfc_mode (starts_on rx_pfc_mode) (starts_on tx_pfc_mode))
       (mac_ctrl_frame_fwd stack) (autoneg stack);
     pfc_priority := priority |}.

(** A session of commands on the ports: what is printed, and the devices. *)
Fixpoint run_lfc (cmds : list (Z * lfc_form * lfc_result)) (devs : Z -> D) : list lfc_report * (Z -> D) :=
  match cmds with
  | [] => ([], devs)
  | (port, cmd, res) :: cmds =>
      let '(r, dev) := cmd_link_flow_ctrl_set_parsed cmd res (devs port) in
      let '(rs, devs) := run_lfc cmds (<[port := dev]> devs) in
      (r :: rs, devs)
  end.
End FlowCtrl.

(** ** What a user is promised

    A port has eight parameters, or none that can be had; each form sets one
    of them, and the long form all. *)
Record params : Type := Params {
  p_rx : bool;
  p_tx : bool;
  p_high : Z;
  p_low : Z;
  p_pause : Z;
  p_xon : Z;
  p_fwd : Z;
  p_autoneg : Z;
}.

Definition view (c : fc_conf) : params :=
  Params (pauses_rx (mode c)) (pauses_tx (mode c)) (high_water c) (low_water c) (pause_time c) (send_xon c)
    (mac_ctrl_frame_fwd c) (autoneg c).

Definition set_params (cmd : lfc_form) (res : lfc_result) (p : params) : params :=
  let rx := is_on (rx_lfc_mode res) in
  let tx := is_on (tx_lfc_mode res) in
  let fwd := Z.b2z (is_on (res_mac_ctrl_frame_fwd_mode res)) in
  let auto := Z.b2z (is_on (res_autoneg res)) in
  match cmd, p with
  | LfcAll, _ =>
      Params rx tx (res_high_water res) (res_low_water res) (res_pause_time res) (res_send_xon res) fwd auto
  | LfcRx, Params _ t h l pt x f a => Params rx t h l pt x f a
  | LfcTx, Params r _ h l pt x f a => Params r tx h l pt x f a
  | LfcHw, Params r t _ l pt x f a => Params r t (res_high_water res) l pt x f a
  | LfcLw, Params r t h _ pt x f a => Params r t h (res_low_water res) pt x f a
  | LfcPt, Params r t h l _ x f a => Params r t h l (res_pause_time res) x f a
  | LfcXon, Params r t h l pt _ f a => Params r t h l pt (res_send_xon res) f a
  | LfcMacFwd, Params r t h l pt x _ a => Params r t h l pt x fwd a
  | LfcAutoneg, Params r t h l pt x f _ => Params r t h l pt x f auto
  end.

(** One command, with the report of the device: a short form needs the
    present parameters, and what is refused changes nothing. *)
Inductive spec_step (cmd : lfc_form) (res : lfc_result) : option params -> lfc_report -> option params -> Prop :=
| spec_all p : cmd = LfcAll -> spec_step cmd res p Silent (Some (set_params LfcAll res (Params false false 0 0 0 0 0 0)))
| spec_one p : cmd <> LfcAll -> spec_step cmd res (Some p) Silent (Some (set_params cmd res p))
| spec_unknown : cmd <> LfcAll -> spec_step cmd res None CannotGet None
| spec_refused p : cmd = LfcAll \/ p <> None -> spec_step cmd res p BadParameter p.

Inductive spec_run : list (Z * lfc_form * lfc_result) -> (Z -> option params) -> list lfc_report ->
    (Z -> option params) -> Prop :=
| spec_nil m m' : (forall p, m' p = m p) -> spec_run [] m [] m'
| spec_cons port cmd res cmds m r p rs m' :
    spec_step cmd res (m port) r p -> spec_run cmds (<[port := p]> m) rs m' ->
    spec_run ((port, cmd, res) :: cmds) m (r :: rs) m'.

(** ** Theorems *)

(** The mode of a device is the two flags, and the table gives it back. *)
Lemma pauses_mode rx tx :
  pauses_rx (rx_tx_onoff_2_lfc_mode rx tx) = rx /\ pauses_tx (rx_tx_onoff_2_lfc_mode rx tx) = tx.
Proof. by destruct rx, tx. Qed.

Lemma mode_pauses m : rx_tx_onoff_2_lfc_mode (pauses_rx m) (pauses_tx m) = m.
Proof. by destruct m. Qed.

(** The parameters asked for are those wanted. *)
Lemma wanted_all stack res : view (lfc_wanted LfcAll res stack false false) = set_params LfcAll res (Params false false 0 0 0 0 0 0).
Proof.
  unfold view, lfc_wanted. cbn -[bool_decide is_on]. rewrite !bool_decide_true by done. cbn [orb].
  by destruct (pauses_mode (is_on (rx_lfc_mode res)) (is_on (tx_lfc_mode res))) as [-> ->].
Qed.

Lemma wanted_one cmd res c :
  cmd <> LfcAll -> view (lfc_wanted cmd res c (pauses_rx (mode c)) (pauses_tx (mode c))) = set_params cmd res (view c).
Proof.
  intros Hne. unfold view, lfc_wanted. destruct c as [h l pt x m f a].
  destruct cmd; [done|..]; cbn -[is_on rx_tx_onoff_2_lfc_mode pauses_rx pauses_tx];
    by rewrite ?(proj1 (pauses_mode _ _)), ?(proj2 (pauses_mode _ _)).
Qed.

Section Refine.
Context {D : Type} `{FlowCtrlDoc D}.

Lemma lfc_set_spec c dev :
  let '(r, dev') := lfc_set c dev in
  (r = Silent /\ flow_ctrl_get dev' = Some c) \/ (r = BadParameter /\ flow_ctrl_get dev' = flow_ctrl_get dev).
Proof.
  unfold lfc_set. destruct (flow_ctrl_set c dev) as [[] dev'] eqn:E; [left|right]; split; try done.
  - by eapply set_accepted.
  - by eapply set_refused.
Qed.

(** One command implements one step. *)
Lemma cmd_refines stack cmd res dev :
  let '(r, dev') := cmd_link_flow_ctrl_set_parsed stack cmd res dev in
  spec_step cmd res (view <$> flow_ctrl_get dev) r (view <$> flow_ctrl_get dev').
Proof.
  unfold cmd_link_flow_ctrl_set_parsed. case_bool_decide as Hc.
  - pose proof (lfc_set_spec (lfc_wanted cmd res stack false false) dev) as Hs.
    destruct (lfc_set _ dev) as [r dev']. destruct Hs as [[-> ->]|[-> ->]].
    + cbn [fmap option_fmap option_map]. subst cmd. rewrite wanted_all. by constructor.
    + constructor. by left.
  - destruct (flow_ctrl_get dev) as [c|] eqn:Hg.
    + pose proof (lfc_set_spec (lfc_wanted cmd res c (pauses_rx (mode c)) (pauses_tx (mode c))) dev) as Hs.
      destruct (lfc_set _ dev) as [r dev']. destruct Hs as [[-> ->]|[-> ->]].
      * cbn [fmap option_fmap option_map]. rewrite wanted_one by done. by constructor.
      * rewrite Hg. constructor. by right.
    + rewrite Hg. by constructor.
Qed.

Lemma spec_run_ext cmds m m1 rs m' : (forall p, m1 p = m p) -> spec_run cmds m rs m' -> spec_run cmds m1 rs m'.
Proof.
  intros He Hr. revert m1 He. induction Hr as [m m' Hm|port cmd res cmds m r p rs m' Hs Hr IH]; intros m1 He.
  - constructor. intros q. by rewrite He.
  - econstructor; [rewrite He; exact Hs|]. apply IH. intros q.
    destruct (decide (port = q)) as [->|Hq]; [by rewrite !fn_lookup_insert|by rewrite !fn_lookup_insert_ne].
Qed.

(** Whatever the devices accept, a session of flow control commands does to
    the parameters of each port what a user is promised: the long form sets
    all of them, a short form exactly the one it names, a command that is
    refused or whose device does not tell its parameters changes nothing, and
    no command touches another port.  What lies on the stack never matters. *)
Theorem flow_ctrl_refines stack (cmds : list (Z * lfc_form * lfc_result)) (devs : Z -> D) :
  let '(rs, devs') := run_lfc stack cmds devs in
  spec_run cmds (fun p => view <$> flow_ctrl_get (devs p)) rs (fun p => view <$> flow_ctrl_get (devs' p)).
Proof.
  revert devs. induction cmds as [|[[port cmd] res] cmds IH]; intros devs; cbn [run_lfc]; [by constructor|].
  pose proof (cmd_refines stack cmd res (devs port)) as Hs.
  destruct (cmd_link_flow_ctrl_set_parsed stack cmd res (devs port)) as [r dev] eqn:E.
  specialize (IH (<[port := dev]> devs)). destruct (run_lfc stack cmds _) as [rs devs'].
  econstructor; [exact Hs|]. eapply spec_run_ext; [|exact IH]. intros q.
  destruct (decide (port = q)) as [->|Hq]; [by rewrite !fn_lookup_insert|by rewrite !fn_lookup_insert_ne].
Qed.
End Refine.

(** The two commands disagree on what "rx on" and "tx on" mean. *)
Theorem rx_on_means_two_things stack res high low pause priority :
  is_on (rx_lfc_mode res) = true -> is_on (tx_lfc_mode res) = false ->
  mode (lfc_wanted LfcAll res stack false false) = RTE_FC_RX_PAUSE /\
  mode (pfc_fc (cmd_priority_flow_ctrl_set_parsed stack "on" "off" high low pause priority)) = RTE_FC_TX_PAUSE.
Proof. intros Hr Ht. unfold lfc_wanted. cbn -[is_on]. by rewrite Hr, Ht. Qed.

(** Which parameters the priority command asks for depends on the stack. *)
Theorem pfc_fields_unset : exists stack1 stack2,
  cmd_priority_flow_ctrl_set_parsed stack1 "on" "on" 10 5 100 3 <>
  cmd_priority_flow_ctrl_set_parsed stack2 "on" "on" 10 5 100 3.
Proof.
  exists (FcConf 0 0 0 0 RTE_FC_NONE 0 0), (FcConf 0 0 0 1 RTE_FC_NONE 0 0). by vm_compute.
Qed.

(** ** A device with water marks *)

(** It tells its parameters once it has some, and refuses a low mark above the
    high one. *)
#[local] Instance sample_dev : FlowCtrlDev (option fc_conf) := {
  flow_ctrl_get s := s;
  flow_ctrl_set c s := if high_water c <? low_water c then (false, s) else (true, Some c);
}.

#[local] Instance sample_doc : FlowCtrlDoc (option fc_conf).
Proof.
  split; intros c s s'; cbn; destruct (high_water c <? low_water c); congruence.
Qed.

Definition sample_lfc : lfc_result := LfcResult "on" "off" "off" "on" 100 50 680 1.
Definition sample_lfc_cmds : list (Z * lfc_form * lfc_result) := [
  (1, LfcTx, sample_lfc);
  (0, LfcAll, sample_lfc);
  (0, LfcTx, LfcResult "" "on" "" "" 0 0 0 0);
  (0, LfcHw, LfcResult "" "" "" "" 40 0 0 0);
  (0, LfcLw, LfcResult "" "" "" "" 0 20 0 0)].

Lemma flow_ctrl_refines_witness :
  let r := run_lfc (FcConf 7 7 7 7 RTE_FC_FULL 7 7) sample_lfc_cmds (fun _ => None) in
  r.1 = [CannotGet; Silent; Silent; BadParameter; Silent] /\
  flow_ctrl_get (r.2 0) = Some (FcConf 100 20 680 1 RTE_FC_FULL 0 1) /\
  spec_run sample_lfc_cmds (fun _ => None) r.1 (fun p => view <$> flow_ctrl_get (r.2 p)).
Proof.
  split; [reflexivity|]. split; [reflexivity|].
  exact (flow_ctrl_refines (FcConf 7 7 7 7 RTE_FC_FULL 7 7) sample_lfc_cmds (fun _ : Z => None : option fc_conf)).
Defined.
