(* ===== verification/BondCmds.v ===== *)
(** * test-pmd/cmdline.c: bonded devices

    The commands that create bonded devices, add slaves to them and remove
    slaves.  DPDK's bonding library answers; a slave keeps a flag in its
    [rte_port], so that it need not be started by itself.  Sessions mix these
    commands with those of PortState.v. *)

From stdpp Require Import strings.
From S2P Require Import Prelude Packet PortConf PortState PortCmds.

#[local] Open Scope Z_scope.
#[local] Open Scope list_scope.

(** ** Data *)

Inductive xmit_policy : Type := LAYER2 | LAYER23 | LAYER34.

(** The calls of the bonding library; the name of a device is told by its
    number. *)
Inductive bond_call : Type :=
| BondCreate (number mode socket : Z)
| BondModeSet (port mode : Z)
| BondXmitPolicySet (port : Z) (policy : xmit_policy)
| BondPrimarySet (master slave : Z)
| BondSlaveAdd (master slave : Z)
| BondSlaveRemove (master slave : Z)
| BondMacAddressSet (port : Z) (address : list Z)
| BondLinkMonitoringSet (port period_ms : Z).

(** The ports, the number of the next bonded device, and the calls made,
    latest first. *)
Record bond_state : Type := BondState { bpst : pstate; bond_dev_num : Z; bond_calls : list bond_call }.

Definition with_bpst (st : pstate) (s : bond_state) : bond_state := BondState st (bond_dev_num s) (bond_calls s).

(** ** Commands *)

Section Bond.
(** [bond_diag] is the result of the first of the calls, after the others. *)
Variables (d : dpdk) (bond_diag : list bond_call -> Z).

Definition bond_do (k : bond_call) (s : bond_state) : Z * bond_state :=
  (bond_diag (k :: bond_calls s), BondState (bpst s) (bond_dev_num s) (k :: bond_calls s)).

Definition cmd_set_bonding_mode_parsed (port_id value : Z) (s : bond_state) : bond_state :=
  (bond_do (BondModeSet port_id value) s).2.

Definition cmd_set_bonding_balance_xmit_policy_parsed (port_id : Z) (policy : string) (s : bond_state) : bond_state :=
  let set p := (bond_do (BondXmitPolicySet port_id p) s).2 in
  if bool_decide (policy = "l2"%string) then set LAYER2
  else if bool_decide (policy = "l23"%string) then set LAYER23
  else if bool_decide (policy = "l34"%string) then set LAYER34
  else s.

(** The commands that configure the ports anew once the library agrees. *)
Definition cmd_set_bonding_primary_parsed (c : config) (master_port_id slave_port_id : Z) (s : bond_state) : bond_state :=
  let '(r, s) := bond_do (BondPrimarySet master_port_id slave_port_id) s in
  if negb (r =? 0) then s else with_bpst (init_port_config c (bpst s)) s.

Definition mark_slave (c : config) (slave_port_id : Z) (b : bool) (s : bond_state) : outcome bond_state :=
  let st := init_port_config c (bpst s) in
  _ ← of_opt (zget (ports st) slave_port_id);
  Done (with_bpst (set_port_slave_flag slave_port_id b st) s).

Definition cmd_add_bonding_slave_parsed (c : config) (master_port_id slave_port_id : Z) (s : bond_state) : outcome bond_state :=
  let '(r, s) := bond_do (BondSlaveAdd master_port_id slave_port_id) s in
  if negb (r =? 0) then Done s else mark_slave c slave_port_id true s.

Definition cmd_remove_bonding_slave_parsed (c : config) (master_port_id slave_port_id : Z) (s : bond_state) : outcome bond_state :=
  let '(r, s) := bond_do (BondSlaveRemove master_port_id slave_port_id) s in
  if negb (r =? 0) then Done s else mark_slave c slave_port_id false s.

(** The port is configured before it is enabled, and its status is left as it
    is. *)
Definition cmd_create_bonded_device_parsed (c : config) (mode socket : Z) (s : bond_state) : outcome bond_state :=
  if negb (test_done (bpst s)) then Done s
  else
    _ ← c_defined (in_s32 (bond_dev_num s + 1));
    let '(port_id, s) := bond_do (BondCreate (bond_dev_num s) mode socket)
                           (BondState (bpst s) (bond_dev_num s + 1) (bond_calls s)) in
    if port_id <? 0 then Done s
    else
      let st := bpst s in
      let st := set_fwd_ports (dev_count d (calls st)) (nb_cfg_ports st) (nb_fwd_ports st) (fwd_ports_ids st) st in
      _ ← of_opt (zget (ports st) port_id);
      let st := reconfig d c port_id socket st in
      let '(_, st) := dpdk_do d (PromiscuousEnable port_id) st in
      Done (with_bpst (upd_port port_id (with_enabled true) st) s).

Definition cmd_set_bond_mac_addr_parsed (port_num : Z) (address : list Z) (s : bond_state) : bond_state :=
  if port_id_is_invalid port_num (bpst s) then s else (bond_do (BondMacAddressSet port_num address) s).2.

Definition cmd_set_bond_mon_period_parsed (port_num period_ms : Z) (s : bond_state) : bond_state :=
  if nb_ports (bpst s) <=? port_num then s else (bond_do (BondLinkMonitoringSet port_num period_ms) s).2.

(** ** Sessions *)

Inductive bond_op : Type :=
| SetMode (port value : Z)
| SetPolicy (port : Z) (policy : string)
| SetPrimary (port slave : Z)
| AddSlave (port slave : Z)
| RemoveSlave (port slave : Z)
| CreateBonded (mode socket : Z)
| SetBondMac (port : Z) (address : list Z)
| SetMonPeriod (port period_ms : Z)
| OnPorts (o : port_op).

Definition run_bond_op (c : config) (o : bond_op) (s : bond_state) : outcome bond_state :=
  match o with
  | SetMode port value => Done (cmd_set_bonding_mode_parsed port value s)
  | SetPolicy port policy => Done (cmd_set_bonding_balance_xmit_policy_parsed port policy s)
  | SetPrimary port slave => Done (cmd_set_bonding_primary_parsed c port slave s)
  | AddSlave port slave => cmd_add_bonding_slave_parsed c port slave s
  | RemoveSlave port slave => cmd_remove_bonding_slave_parsed c port slave s
  | CreateBonded mode socket => cmd_create_bonded_device_parsed c mode socket s
  | SetBondMac port address => Done (cmd_set_bond_mac_addr_parsed port address s)
  | SetMonPeriod port period_ms => Done (cmd_set_bond_mon_period_parsed port period_ms s)
  | OnPorts o => st ← run_op d (bpst s) (c, o); Done (with_bpst st s)
  end.

Fixpoint run_bond_ops (ops : list (config * bond_op)) (s : bond_state) : outcome bond_state :=
  match ops with
  | [] => Done s
  | (c, o) :: ops => s ← run_bond_op c o s; run_bond_ops ops s
  end.

(** ** What the bonding library knows *)

(** Whether a port is a slave after the calls, if it was one ([b]) before. *)
Fixpoint enslaved (l : list bond_call) (port : Z) (b : bool) : bool :=
  match l with
  | [] => b
  | k :: l' =>
      if bond_diag l =? 0 then
        match k with
        | BondSlaveAdd _ slave => if slave =? port then true else enslaved l' port b
        | BondSlaveRemove _ slave => if slave =? port then false else enslaved l' port b
        | _ => enslaved l' port b
        end
      else enslaved l' port b
  end.
End Bond.

(** The library and DPDK only speak of ports that the program has room for. *)
Record bonding_doc (d : dpdk) (bond_diag : list bond_call -> Z) (n : nat) : Prop := {
  bd_created l number mode socket : bond_diag (BondCreate number mode socket :: l) < Z.of_nat n;
  bd_added l master slave : bond_diag (BondSlaveAdd master slave :: l) = 0 -> 0 <= slave < Z.of_nat n;
  bd_removed l master slave : bond_diag (BondSlaveRemove master slave :: l) = 0 -> 0 <= slave < Z.of_nat n;
  bd_attached l : 0 <= attached_port d l < Z.of_nat n;
}.

(** The number of all ports is no port to detach; slaves are only marked by
    the commands above. *)
Definition bond_op_ok (o : bond_op) : bool :=
  match o with
  | OnPorts (OpDetach pid) => negb (pid =? RTE_PORT_ALL)
  | OnPorts (OpSlave _ _) => false
  | _ => true
  end.

(** ** Lemmas *)

Definition flag_at (st : pstate) (pi : Z) : option bool := slave_flag <$> zget (ports st) pi.

Lemma zget_upd_nat pi f st pj :
  zget (ports (upd_port pi f st)) pj =
    (if decide (Z.to_nat pi = Z.to_nat pj) then f <$> zget (ports st) pj else zget (ports st) pj).
Proof.
  unfold zget. cbn. destruct (0 <=? pj); [|by case_decide]. case_decide as He.
  - by rewrite He, list_lookup_alter_eq.
  - by rewrite list_lookup_alter_ne.
Qed.

Lemma flag_upd pi f st pj :
  (forall p, slave_flag (f p) = slave_flag p) -> flag_at (upd_port pi f st) pj = flag_at st pj.
Proof.
  intros Hf. unfold flag_at. rewrite zget_upd_nat. case_decide; [|done]. destruct (zget _ _) as [p|]; [|done].
  cbn. by rewrite Hf.
Qed.

Section Sessions.
Context (d : dpdk) (bond_diag : list bond_call -> Z) (n : nat) (F : Z -> option bool).

(** What a session keeps: the protocol of the devices, the number of ports,
    and the flags of the slaves. *)
Record bonds_ok (s : bond_state) : Prop := {
  bo_ports : ports_ok d None (bpst s);
  bo_length : length (ports (bpst s)) = n;
  bo_flags : forall pi, flag_at (bpst s) pi = enslaved bond_diag (bond_calls s) pi <$> F pi;
}.

Definition same (st st' : pstate) : Prop :=
  length (ports st') = length (ports st) /\ forall pi, flag_at st' pi = flag_at st pi.

Lemma same_trans st1 st2 st3 : same st1 st2 -> same st2 st3 -> same st1 st3.
Proof. intros [L1 F1] [L2 F2]. split; [congruence|]. intros pi. by rewrite F2. Qed.

Lemma same_upd pi f st : (forall p, slave_flag (f p) = slave_flag p) -> same st (upd_port pi f st).
Proof. intros Hf. split; [cbn; by rewrite length_alter|]. intros pj. by apply flag_upd. Qed.

Lemma same_init_port_config c st : same st (init_port_config c st).
Proof.
  unfold init_port_config. generalize (port_ids (ports st)) as l. intros l. revert st.
  induction l as [|pi l IH]; intros st; [done|]. cbn [foldl]. eapply same_trans; [|apply IH]. by apply same_upd.
Qed.

Lemma ports_ok_init c st : ports_ok d None st -> ports_ok d None (init_port_config c st).
Proof. intros H. unfold init_port_config. apply foldl_ok; [|done]. intros. by apply ports_ok_upd. Qed.

Lemma same_reconfig c pi socket st : same st (reconfig d c pi socket st).
Proof. unfold reconfig. eapply same_trans; [|apply same_init_port_config]. by apply same_upd. Qed.

Lemma same_run_op c o st st' : (forall pid b, o <> OpSlave pid b) -> run_op d st (c, o) = Done st' -> same st st'.
Proof.
  intros Ho. assert (K : forall pi f s, mild f -> same st s -> same st (upd_port pi f s)).
  { intros pi f s Hf Hs. eapply same_trans; [exact Hs|]. apply same_upd. intros p. apply Hf. }
  destruct o as [pid|pid|pid|name|pid|pid b]; cbn [run_op].
  - intros [= <-]. by apply (keep_start_port d c (same st)).
  - intros [= <-]. by apply (keep_stop_port d (same st)).
  - intros [= <-]. by apply (keep_close_port d (same st)).
  - unfold attach_port, dpdk_do. destruct name as [name|]; [|by intros [= <-]]. destruct (negb _); [by intros [= <-]|].
    destruct (negb _); [by intros [= <-]|]. cbn [calls set_calls ports]. set (pi := attached_port _ _).
    destruct (zget _ _); [|done]. cbn [of_opt mbind outcome_bind]. intros [= <-].
    eapply same_trans; [|by apply (same_upd pi (with_status STOPPED))]. set (st1 := set_calls _ st).
    pose proof (same_reconfig c pi (u32 (dev_socket_id d pi)) (upd_port pi (with_enabled true) st1)) as H.
    eapply same_trans; [|exact H]. by apply (same_upd pi (with_enabled true) st1).
  - unfold detach_port, port_is. intros E. apply outcome_bind_Done in E as (closed & _ & E).
    destruct closed; cbn [negb] in E; [|by injection E as <-]. unfold dpdk_do in E.
    destruct (_ =? 0); cbn [negb] in E; injection E as <-; [|done]. by apply (same_upd pid (with_enabled false) st).
  - by destruct (Ho pid b).
Qed.

Lemma run_op_total c o st :
  bonding_doc d bond_diag n -> length (ports st) = n -> bond_op_ok (OnPorts o) = true ->
  exists st', run_op d st (c, o) = Done st'.
Proof.
  intros Hdoc Hl Hok. destruct o as [pid|pid|pid|name|pid|pid b]; cbn [run_op]; try by eexists.
  - unfold attach_port, dpdk_do. destruct name as [name|]; [|by eexists]. destruct (negb _); [by eexists|].
    destruct (negb _); [by eexists|]. cbn [calls set_calls ports].
    pose proof (bd_attached _ _ _ Hdoc (DevAttach name :: calls st)) as Ha.
    destruct (zget_is_Some (ports st) (attached_port d (DevAttach name :: calls st))) as [p ->]; [lia|]. by eexists.
  - unfold detach_port, port_is. destruct (port_id_is_invalid pid st) eqn:Hv; [by eexists|].
    unfold port_id_is_invalid in Hv. cbn in Hok. apply negb_true_iff in Hok. rewrite Hok in Hv.
    destruct (zget (ports st) pid) as [p|]; [|done]. cbn [of_opt mbind outcome_bind].
    unfold dpdk_do. destruct (bool_decide _); cbn [negb]; [|by eexists]. destruct (diag _ _ =? 0); by eexists.
Qed.

(** Calling the library without touching the ports. *)
Lemma bond_do_ok k s :
  (forall m v, k <> BondSlaveAdd m v) -> (forall m v, k <> BondSlaveRemove m v) ->
  bonds_ok s -> bonds_ok (bond_do bond_diag k s).2.
Proof.
  intros Ha Hr [H1 H2 H3]. split; [done|done|]. intros pi. cbn. rewrite H3. f_equal.
  destruct (_ =? 0); [|done]. destruct k; try done; [by edestruct Ha|by edestruct Hr].
Qed.

Lemma bonds_ok_same st s : bonds_ok s -> same (bpst s) st -> ports_ok d None st -> bonds_ok (with_bpst st s).
Proof. intros [H1 H2 H3] [L HF] Hp. split; [done|cbn; congruence|]. intros pi. cbn. by rewrite HF. Qed.

(** Marking or unmarking a slave once the library agrees. *)
Lemma mark_slave_ok c slave b k s :
  bonds_ok s -> 0 <= slave < Z.of_nat n ->
  (forall pi c0, enslaved bond_diag (k :: bond_calls s) pi c0 =
    if slave =? pi then b else enslaved bond_diag (bond_calls s) pi c0) ->
  exists s', mark_slave c slave b (bond_do bond_diag k s).2 = Done s' /\ bonds_ok s'.
Proof.
  intros [H1 H2 H3] Hs He. unfold mark_slave. cbn [bond_do bpst snd]. set (st := init_port_config c (bpst s)).
  destruct (same_init_port_config c (bpst s)) as [L HF]. fold st in L, HF.
  destruct (zget_is_Some (ports st) slave) as [p Hp]; [lia|]. rewrite Hp. cbn [of_opt mbind outcome_bind].
  eexists. split; [done|]. split; cbn [with_bpst bpst bond_calls].
  - apply ports_ok_upd; [by apply ports_ok_init|done].
  - cbn. rewrite length_alter. congruence.
  - intros pi. replace (enslaved _ _ pi <$> F pi) with
      (if slave =? pi then (fun _ => b) <$> F pi else enslaved bond_diag (bond_calls s) pi <$> F pi)
      by (specialize (He pi); destruct (F pi), (slave =? pi); cbn -[enslaved]; by rewrite ?He).
    unfold set_port_slave_flag, flag_at. rewrite zget_upd_nat. fold (flag_at st pi).
    destruct (Z.eqb_spec slave pi) as [->|Hne].
    + rewrite decide_True by done. specialize (H3 pi). rewrite <- HF in H3. unfold flag_at in H3. rewrite Hp in *.
      destruct (F pi); done.
    + rewrite <- H3, <- HF. unfold flag_at. case_decide as Hn; [|done].
      destruct (zget (ports st) pi) as [q|] eqn:Hq; [|done]. pose proof (zget_nonneg _ _ _ Hq). lia.
Qed.

Lemma create_ok c mode socket s :
  bonding_doc d bond_diag n -> bonds_ok s -> 0 <= bond_dev_num s < 2 ^ 31 - 1 ->
  exists s', cmd_create_bonded_device_parsed d bond_diag c mode socket s = Done s' /\ bonds_ok s' /\
    bond_dev_num s <= bond_dev_num s' <= bond_dev_num s + 1.
Proof.
  intros Hdoc Hok Hn. unfold cmd_create_bonded_device_parsed. destruct (negb _); [by exists s; split_and!; [..|lia|lia]|].
  unfold c_defined. replace (in_s32 _) with true by (unfold in_s32; destruct (Z.leb_spec (- 2 ^ 31) (bond_dev_num s + 1)),
    (Z.ltb_spec (bond_dev_num s + 1) (2 ^ 31)); lia). cbn [mbind outcome_bind].
  set (s0 := BondState (bpst s) (bond_dev_num s + 1) (bond_calls s)). set (k := BondCreate _ _ _).
  pose proof (bond_do_ok k s0) as H0. unfold bond_do at 1. cbn [bond_calls s0]. set (port := bond_diag _).
  set (s1 := BondState _ _ _). destruct H0 as [P1 L1 F1]; [done..|destruct Hok; by split|].
  change (bond_do bond_diag k s0).2 with s1 in *.
  destruct (Z.ltb_spec port 0); [exists s1; split_and!; [done|by split|cbn; lia|cbn; lia]|].
  cbn [ports set_fwd_ports]. pose proof (bd_created _ _ _ Hdoc (bond_calls s) (bond_dev_num s) mode socket) as Hc.
  change (port < Z.of_nat n) in Hc. destruct (zget_is_Some (ports (bpst s1)) port) as [p Hp]; [lia|]. rewrite Hp.
  cbn [of_opt mbind outcome_bind dpdk_do]. eexists. split; [done|]. split; [|cbn; lia].
  set (st1 := set_fwd_ports _ _ _ _ _). set (st2 := reconfig d c port socket st1).
  assert (O1 : ports_ok d None st1) by done.
  assert (O2 : ports_ok d None st2) by (apply ports_ok_init, ports_ok_upd; done).
  apply bonds_ok_same; [by split| |].
  - eapply same_trans; [|by apply same_upd]. eapply (same_trans _ st2); [|done].
    apply (same_trans _ st1); [done|]. apply same_reconfig.
  - assert (Hz : is_Some (zget (ports st2) port)).
    { apply zget_is_Some. destruct (same_reconfig c port socket st1) as [Hlen _]. fold st2 in Hlen. rewrite Hlen.
      change (ports st1) with (ports (bpst s1)). lia. }
    destruct Hz as [q Hq]. apply (ports_ok_enable d None port q); [by apply ports_ok_promisc|exact Hq|].
    by eapply reconfig_marked.
Qed.

(** One command, and a session. *)
Lemma run_bond_op_ok c o s :
  bonding_doc d bond_diag n -> bonds_ok s -> bond_op_ok o = true -> 0 <= bond_dev_num s < 2 ^ 31 - 1 ->
  exists s', run_bond_op d bond_diag c o s = Done s' /\ bonds_ok s' /\
    bond_dev_num s <= bond_dev_num s' <= bond_dev_num s + 1.
Proof.
  intros Hdoc Hok Ho Hn.
  assert (W : forall s', bonds_ok s' -> bond_dev_num s' = bond_dev_num s ->
    exists s0, Done s' = Done s0 /\ bonds_ok s0 /\ bond_dev_num s <= bond_dev_num s0 <= bond_dev_num s + 1).
  { intros s' H1 H2. exists s'. split_and!; [done..|lia|lia]. }
  destruct o as [port value|port policy|port slave|port slave|port slave|mode socket|port address|port period|o];
    cbn [run_bond_op].
  - apply W; [|done]. by apply bond_do_ok.
  - unfold cmd_set_bonding_balance_xmit_policy_parsed. repeat case_bool_decide; apply W; try done; by apply bond_do_ok.
  - unfold cmd_set_bonding_primary_parsed.
    pose proof (bond_do_ok (BondPrimarySet port slave) s ltac:(done) ltac:(done) Hok) as H1.
    unfold bond_do in *. cbn [snd] in *. destruct (_ =? 0); apply W; try done. cbn [negb].
    apply bonds_ok_same; [done|apply same_init_port_config|]. apply ports_ok_init. by apply H1.
  - unfold cmd_add_bonding_slave_parsed. set (k := BondSlaveAdd port slave). unfold bond_do.
    destruct (Z.eqb_spec (bond_diag (k :: bond_calls s)) 0) as [Hr|Hr]; cbn [negb].
    + destruct (mark_slave_ok c slave true k s Hok) as (s' & E & Hs'); [by eapply bd_added| |].
      { intros pi c0. cbn. by rewrite Hr. }
      unfold bond_do in E. cbn [snd] in E. rewrite E. apply W; [done|]. unfold mark_slave in E.
      apply outcome_bind_Done in E as (q & _ & E). by injection E as <-.
    + apply W; [|done]. destruct Hok as [H1 H2 H3]. split; [done|done|]. intros pi. cbn.
      by rewrite (proj2 (Z.eqb_neq _ _) Hr), H3.
  - unfold cmd_remove_bonding_slave_parsed. set (k := BondSlaveRemove port slave). unfold bond_do.
    destruct (Z.eqb_spec (bond_diag (k :: bond_calls s)) 0) as [Hr|Hr]; cbn [negb].
    + destruct (mark_slave_ok c slave false k s Hok) as (s' & E & Hs'); [by eapply bd_removed| |].
      { intros pi c0. cbn. by rewrite Hr. }
      unfold bond_do in E. cbn [snd] in E. rewrite E. apply W; [done|]. unfold mark_slave in E.
      apply outcome_bind_Done in E as (q & _ & E). by injection E as <-.
    + apply W; [|done]. destruct Hok as [H1 H2 H3]. split; [done|done|]. intros pi. cbn.
      by rewrite (proj2 (Z.eqb_neq _ _) Hr), H3.
  - by apply create_ok.
  - unfold cmd_set_bond_mac_addr_parsed. destruct (port_id_is_invalid _ _); apply W; try done. by apply bond_do_ok.
  - unfold cmd_set_bond_mon_period_parsed. destruct (_ <=? _); apply W; try done. by apply bond_do_ok.
  - destruct (run_op_total c o (bpst s) Hdoc (bo_length s Hok) Ho) as [st' E]. rewrite E. cbn [mbind outcome_bind].
    apply W; [|done]. apply bonds_ok_same; [done| |].
    + eapply same_run_op; [|exact E]. intros pid b ->. done.
    + eapply run_op_ok; [| |exact E]; [done|]. apply Hok.
Qed.

Lemma run_bond_ops_ok ops s :
  bonding_doc d bond_diag n -> bonds_ok s -> Forall (fun o => bond_op_ok o.2 = true) ops ->
  0 <= bond_dev_num s -> bond_dev_num s + Z.of_nat (length ops) < 2 ^ 31 ->
  exists s', run_bond_ops d bond_diag ops s = Done s' /\ bonds_ok s'.
Proof.
  intros Hdoc. revert s. induction ops as [|[c o] ops IH]; intros s Hok Ho H0 Hn; [by exists s|].
  apply Forall_cons in Ho as [Ho Hos]. cbn [length] in Hn.
  destruct (run_bond_op_ok c o s Hdoc Hok Ho ltac:(lia)) as (s1 & E & H1 & Hs). cbn [run_bond_ops].
  rewrite E. cbn [mbind outcome_bind]. apply IH; try done; lia.
Qed.
End Sessions.

(** A closed port stays closed whatever is done to it but attaching. *)
Lemma stuck_upd_any pi pj f st :
  (forall p, port_status (f p) = port_status p) -> stuck CLOSED pi st -> stuck CLOSED pi (upd_port pj f st).
Proof.
  intros Hf (p & Hp & Hs). unfold stuck. rewrite zget_upd_nat. case_decide; [|by exists p].
  exists (f p). rewrite Hp. by rewrite Hf.
Qed.

Lemma stuck_init_port_config c pi st : stuck CLOSED pi st -> stuck CLOSED pi (init_port_config c st).
Proof. intros H. unfold init_port_config. apply stuck_foldl; [|done]. intros. by apply stuck_upd_any. Qed.

Lemma stuck_bond_op d bond_diag c o pi s s' :
  stuck CLOSED pi (bpst s) -> (forall name, o <> OnPorts (OpAttach name)) ->
  run_bond_op d bond_diag c o s = Done s' -> stuck CLOSED pi (bpst s').
Proof.
  intros H Ho. assert (M : forall slave b s0 s1, stuck CLOSED pi (bpst s0) -> mark_slave c slave b s0 = Done s1 ->
    stuck CLOSED pi (bpst s1)).
  { intros slave b s0 s1 H0 E. unfold mark_slave in E. apply outcome_bind_Done in E as (q & _ & E). injection E as <-.
    by apply stuck_upd_any, stuck_init_port_config. }
  destruct o as [port value|port policy|port slave|port slave|port slave|mode socket|port address|port period|o];
    cbn [run_bond_op].
  - by intros [= <-].
  - unfold cmd_set_bonding_balance_xmit_policy_parsed. repeat case_bool_decide; by intros [= <-].
  - unfold cmd_set_bonding_primary_parsed, bond_do. destruct (negb _); intros [= <-]; [done|]. by apply stuck_init_port_config.
  - unfold cmd_add_bonding_slave_parsed, bond_do. destruct (negb _); [by intros [= <-]|]. by apply M.
  - unfold cmd_remove_bonding_slave_parsed, bond_do. destruct (negb _); [by intros [= <-]|]. by apply M.
  - unfold cmd_create_bonded_device_parsed, bond_do. destruct (negb _); [by intros [= <-]|].
    destruct (c_defined _); [|done..]. cbn [mbind outcome_bind]. destruct (_ <? 0); [by intros [= <-]|].
    destruct (zget _ _); [|done]. cbn [of_opt mbind outcome_bind dpdk_do]. intros [= <-].
    apply stuck_upd_any; [done|]. apply stuck_init_port_config. by apply stuck_upd_any.
  - unfold cmd_set_bond_mac_addr_parsed. destruct (port_id_is_invalid _ _); by intros [= <-].
  - unfold cmd_set_bond_mon_period_parsed. destruct (_ <=? _); by intros [= <-].
  - intros E. apply outcome_bind_Done in E as (st' & E & Es). injection Es as <-.
    eapply (stuck_run_op CLOSED); [by right|exact H| |exact E]. destruct o; try done. by destruct (Ho identifier).
Qed.

(** The configurations of the ports are built for the enabled ones only. *)
Lemma init_port_config_port c st pi p :
  zget (ports st) pi = Some p ->
  zget (ports (init_port_config c st)) pi = Some (if enabled p then
    with_conf (init_one_config (nb_rxq c) (g_rss_hf c) (g_rx_mode c) (g_vlan_filter c) (g_thresholds c) (info p) (pconf p)) p
    else p).
Proof.
  intros Hp. unfold init_port_config. rewrite foldl_upd_port by (apply port_ids_nodup || apply port_ids_nonneg).
  case_decide as Hin; rewrite elem_of_port_ids in Hin; rewrite Hp.
  - destruct Hin as (q & Hq & He). rewrite Hp in Hq. injection Hq as <-. by rewrite He.
  - destruct (enabled p) eqn:He; [|done]. destruct Hin. by exists p.
Qed.

(** ** Properties *)

(** Whatever DPDK and its bonding library answer, every session of bonding
    and port commands runs to its end within the table of ports, keeps the
    protocol of the devices, and leaves every port marked as a slave exactly
    if the library made it one. *)
Theorem bond_sessions_ok d bond_diag st k ops
    (Hdoc : bonding_doc d bond_diag (length (ports st))) (Hst : ports_ok d None st)
    (Hops : Forall (fun o => bond_op_ok o.2 = true) ops) (Hk : 0 <= k) (Hn : k + Z.of_nat (length ops) < 2 ^ 31) :
  exists s', run_bond_ops d bond_diag ops (BondState st k []) = Done s' /\ ports_ok d None (bpst s') /\
    forall pi, slave_flag <$> zget (ports (bpst s')) pi =
               enslaved bond_diag (bond_calls s') pi <$> (slave_flag <$> zget (ports st) pi).
Proof.
  destruct (run_bond_ops_ok d bond_diag (length (ports st)) (flag_at st) ops (BondState st k [])) as (s' & E & [H1 H2 H3]);
    [done| |done..|].
  { split; [done|done|]. intros pi. cbn. by destruct (flag_at st pi). }
  exists s'. split_and!; [done..|exact H3].
Qed.

(** C36: A bonded device whose port number was that of a closed port is enabled
    but stays CLOSED through every later session that attaches no port, so
    that none of them starts it; and when the slot was not in use its
    configuration is, just after the command, the one it had, not the one of
    the variables. *)
Theorem bonded_slot_sticks d bond_diag c mode socket s p ops s'
    (Hdone : test_done (bpst s) = true) (Hn : - 2 ^ 31 <= bond_dev_num s < 2 ^ 31 - 1)
    (pi := bond_diag (BondCreate (bond_dev_num s) mode socket :: bond_calls s))
    (Hp : zget (ports (bpst s)) pi = Some p) (Hc : port_status p = CLOSED)
    (Hops : Forall (fun o => forall name, o.2 <> OnPorts (OpAttach name)) ops)
    (Hrun : run_bond_ops d bond_diag ((c, CreateBonded mode socket) :: ops) s = Done s') :
  (exists s1 p1, cmd_create_bonded_device_parsed d bond_diag c mode socket s = Done s1 /\
     zget (ports (bpst s1)) pi = Some p1 /\ enabled p1 = true /\ need_reconfig p1 = true /\
     (enabled p = false -> pconf p1 = pconf p)) /\
  exists p', zget (ports (bpst s')) pi = Some p' /\ port_status p' = CLOSED.
Proof.
  split.
  - pose proof (zget_nonneg _ _ _ Hp) as H0. unfold cmd_create_bonded_device_parsed. rewrite Hdone. cbn [negb].
    unfold c_defined. replace (in_s32 _) with true by (unfold in_s32; destruct (Z.leb_spec (- 2 ^ 31) (bond_dev_num s + 1)),
      (Z.ltb_spec (bond_dev_num s + 1) (2 ^ 31)); lia). cbn [mbind outcome_bind bond_do bpst bond_calls]. fold pi.
    rewrite (proj2 (Z.ltb_ge pi 0)) by lia. cbn [ports set_fwd_ports bpst]. rewrite Hp. cbn [of_opt mbind outcome_bind dpdk_do].
    eexists _, _. split; [done|]. cbn [with_bpst bpst]. rewrite zget_upd_nat, decide_True by done. unfold reconfig.
    cbn [set_calls ports]. erewrite init_port_config_port by (rewrite zget_upd_nat, decide_True by done; cbn [ports set_fwd_ports]; by rewrite Hp).
    cbn [fmap option_fmap option_map]. split; [done|]. cbn [with_enabled with_info with_reconfig with_reconfig_queues with_socket enabled].
    destruct (enabled p); by split_and!.
  - assert (H : stuck CLOSED pi (bpst s)) by by exists p.
    clear -H Hops Hrun. cbn [run_bond_ops] in Hrun. apply outcome_bind_Done in Hrun as (s1 & E & Hrun).
    apply (stuck_bond_op d bond_diag c _ pi) in E; [|done|done]. clearbody pi. clear H. revert s1 E Hrun.
    induction Hops as [|[c' o] ops Ho Hops IH]; intros s1 H1 E; [by injection E as <-|].
    cbn [run_bond_ops] in E. apply outcome_bind_Done in E as (s2 & E1 & E). apply (IH s2); [|done].
    by eapply stuck_bond_op.
Qed.

(** ** Witnesses *)

(** A library that makes port 2 the bonded device and takes any slave below
    it. *)
Definition sample_bonding (l : list bond_call) : Z :=
  match l with
  | BondCreate _ _ _ :: _ => 2
  | BondSlaveAdd _ slave :: _ | BondSlaveRemove _ slave :: _ => if (0 <=? slave) && (slave <? 2) then 0 else -1
  | _ => 0
  end.

Definition sample_bond_ports (s : status) : pstate :=
  set_ports [sample_port STOPPED; sample_port STOPPED; with_enabled false (sample_port s)] sample_state.

Lemma sample_bonding_doc : bonding_doc sample_dpdk sample_bonding 3.
Proof.
  split; intros; cbn; try lia.
  - cbn in *. destruct (Z.leb_spec 0 slave), (Z.ltb_spec slave 2); cbn in *; lia.
  - cbn in *. destruct (Z.leb_spec 0 slave), (Z.ltb_spec slave 2); cbn in *; lia.
Qed.

Definition sample_bond_ops : list (config * bond_op) :=
  let c := sample_config 255 in
  [(c, CreateBonded 1 0); (c, AddSlave 2 0); (c, AddSlave 2 1); (c, SetPrimary 2 1); (c, RemoveSlave 2 0);
   (c, AddSlave 2 2); (c, OnPorts (OpStart 2)); (c, SetPolicy 2 "l23"); (c, OnPorts (OpStop 2))].

Lemma bond_sessions_ok_witness : exists s',
  run_bond_ops sample_dpdk sample_bonding sample_bond_ops (BondState (sample_bond_ports STOPPED) 0 []) = Done s' /\
  ports_ok sample_dpdk None (bpst s') /\
  (slave_flag <$> zget (ports (bpst s')) 0) = Some false /\ (slave_flag <$> zget (ports (bpst s')) 1) = Some true.
Proof.
  destruct (bond_sessions_ok sample_dpdk sample_bonding (sample_bond_ports STOPPED) 0 sample_bond_ops) as (s' & E & H1 & H2).
  - apply sample_bonding_doc.
  - apply new_ports_ok; [reflexivity|]. repeat (constructor; [split; [reflexivity|split; reflexivity]|]). constructor.
  - repeat (constructor; [reflexivity|]). constructor.
  - lia.
  - reflexivity.
  - exists s'. split; [exact E|]. split; [exact H1|]. vm_compute in E. injection E as <-. split; reflexivity.
Defined.

Lemma bonded_slot_sticks_witness :
  let c := sample_config 255 in
  let ops := [(c, AddSlave 2 0); (c, OnPorts (OpStart 2)); (c, OnPorts (OpStop 2)); (c, OnPorts (OpClose 2))] in
  match run_bond_ops sample_dpdk sample_bonding ((c, CreateBonded 1 0) :: ops) (BondState (sample_bond_ports CLOSED) 0 []) with
  | Done s' => exists p', zget (ports (bpst s')) 2 = Some p' /\ port_status p' = CLOSED
  | _ => False
  end.
Proof.
  intros c ops.
  destruct (run_bond_ops sample_dpdk sample_bonding ((c, CreateBonded 1 0) :: ops) (BondState (sample_bond_ports CLOSED) 0 []))
    as [s'| |] eqn:E; [|vm_compute in E; discriminate E..].
  refine (proj2 (bonded_slot_sticks sample_dpdk sample_bonding c 1 0 (BondState (sample_bond_ports CLOSED) 0 [])
    (with_enabled false (sample_port CLOSED)) ops s' eq_refl _ eq_refl eq_refl _ E)).
  - cbn. lia.
  - repeat (constructor; [intros name; discriminate|]). constructor.
Defined.
