(* ===== verification/VfCmds.v ===== *)
(** * test-pmd/cmdline.c: addresses, virtual functions, mirrors and rates

    The commands on the addresses and modes a port receives with, on its
    virtual functions and their rates, on mirror rules and on layer-2
    tunnels, with the functions of config.c below them.  Each checks its
    arguments and makes requests of DPDK, a list of [dev_call]. *)

From Stdlib Require Import Ascii.
From stdpp Require Import strings.
From S2P Require Import Prelude Cstr Packet PortConf PortState FwdSettings SetCmds FilterCmds.

#[local] Open Scope Z_scope.
#[local] Open Scope list_scope.

(** ** Data *)

Inductive mirror_type : Type := NO_RULE | VIRTUAL_POOL_UP | VIRTUAL_POOL_DOWN | MIRROR_VLAN | UPLINK_PORT | DOWNLINK_PORT.

(** [struct rte_eth_mirror_conf] *)
Record mirror_conf : Type := MirrorConf {
  mr_type : mirror_type;
  mr_dst_pool : Z;
  mr_pool_mask : Z;
  mr_vlan_mask : Z;
  mr_vlan_id : list Z;
}.

(** [struct rte_eth_mac_filter] of a VF *)
Inductive mac_filter_type : Type := MAC_NONE | MAC_PERFECT | MACVLAN_PERFECT | MAC_HASH | MACVLAN_HASH.

(** [struct rte_eth_l2_tunnel_conf]; the fields that a command does not set
    are what lay on the stack. *)
Inductive l2_type : Type := L2_NONE | L2_E_TAG.
Record l2_conf : Type := L2Conf { l2_tunnel : l2_type; l2_ether_type : Z; l2_tunnel_id : Z; l2_vf_id : Z; l2_pool : Z }.
Inductive l2_mask : Type := TUNNEL_ENABLE | TUNNEL_INSERTION | TUNNEL_STRIPPING | TUNNEL_FORWARDING.

Inductive dev_call : Type :=
| SetMtu (port mtu : Z)
| Promiscuous (port : Z) (on : bool)
| Allmulticast (port : Z) (on : bool)
| MacAddrAdd (port : Z) (address : list Z) (pool : Z)
| MacAddrRemove (port : Z) (address : list Z)
| UcHashTable (port : Z) (address : list Z) (on : bool)
| UcAllHashTable (port : Z) (on : bool)
| FilterMacvlan (port : Z) (op : filter_op) (type : mac_filter_type) (vf : Z) (address : list Z)
| SetVfRx (port vf : Z) (on : bool)
| SetVfTx (port vf : Z) (on : bool)
| SetVfRxmode (port vf rx_mode : Z) (on : bool)
| SetVfVlanFilter (port vlan vf_mask : Z) (on : bool)
| QueueRateLimit (port queue rate : Z)
| VfRateLimit (port vf rate q_msk : Z)
| MirrorRuleSet (port : Z) (conf : mirror_conf) (rule : Z) (on : bool)
| MirrorRuleReset (port rule : Z)
| GlobalGreKeyLen (port len : Z)
| L2EthType (port : Z) (conf : l2_conf)
| L2Offload (port : Z) (conf : l2_conf) (mask : l2_mask) (on : bool)
| L2Filter (port : Z) (op : filter_op) (conf : l2_conf).

Definition ETH_VMDQ_ACCEPT_UNTAG : Z := 1.
Definition ETH_VMDQ_ACCEPT_HASH_MC : Z := 2.
Definition ETH_VMDQ_ACCEPT_HASH_UC : Z := 4.
Definition ETH_VMDQ_ACCEPT_BROADCAST : Z := 8.
Definition ETH_VMDQ_ACCEPT_MULTICAST : Z := 16.
Definition ETHER_MAX_VLAN_ID : Z := 4095.

Definition said (s w : string) : bool := bool_decide (s = w).

(** ** Commands *)

Section Vf.
Variables (STR_TOKEN_SIZE ETH_MIRROR_MAX_VLANS : nat) (ETHER_MIN_LEN : Z).
(** The ports, the speed of a link, whether a device has filters for tunnels,
    and the stack. *)
Variables (st : pstate) (link_speed : Z -> Z) (l2_supported : Z -> bool) (stack : l2_conf).

Definition port_mtu_set (port_id mtu : Z) : list dev_call :=
  if port_id_is_invalid port_id st then [] else [SetMtu port_id mtu].

Definition cmd_config_mtu_parsed (port_id value : Z) : list dev_call :=
  if value <? ETHER_MIN_LEN then [] else port_mtu_set port_id value.

(** [port]: one port, or all of them. *)
Definition cmd_set_promisc_mode_parsed (port : option Z) (mode : string) : list dev_call :=
  match port with
  | None => (fun i => Promiscuous i (said mode "on")) <$> port_ids (ports st)
  | Some i => [Promiscuous i (said mode "on")]
  end.

Definition cmd_set_allmulti_mode_parsed (port : option Z) (mode : string) : list dev_call :=
  match port with
  | None => (fun i => Allmulticast i (said mode "on")) <$> port_ids (ports st)
  | Some i => [Allmulticast i (said mode "on")]
  end.

Definition cmd_mac_addr_parsed (what : string) (port_num : Z) (address : list Z) : list dev_call :=
  if said what "add" then [MacAddrAdd port_num address 0] else [MacAddrRemove port_num address].

Definition cmd_vf_mac_addr_parsed (what : string) (port_num vf_num : Z) (address : list Z) : list dev_call :=
  if said what "add" then [MacAddrAdd port_num address vf_num] else [].

Definition cmd_set_uc_hash_parsed (port_id : Z) (what : string) (address : list Z) (mode : string) : list dev_call :=
  if said what "uta" then [UcHashTable port_id address (said mode "on")] else [].

Definition cmd_set_uc_all_hash_parsed (port_id : Z) (what value mode : string) : list dev_call :=
  if said what "uta" && said value "all" then [UcAllHashTable port_id (said mode "on")] else [].

Definition cmd_set_vf_macvlan_parsed (port_id vf_id : Z) (address : list Z) (filter_type mode : string) : list dev_call :=
  let type := if said filter_type "exact-mac" then MAC_PERFECT
              else if said filter_type "exact-mac-vlan" then MACVLAN_PERFECT
              else if said filter_type "hashmac" then MAC_HASH
              else if said filter_type "hashmac-vlan" then MACVLAN_HASH
              else MAC_NONE in
  [FilterMacvlan port_id (if said mode "on" then FILTER_ADD else FILTER_DELETE) type vf_id address].

Definition set_vf_traffic (port_id : Z) (is_rx : bool) (vf : Z) (on : bool) : list dev_call :=
  if port_id_is_invalid port_id st then []
  else if is_rx then [SetVfRx port_id vf on] else [SetVfTx port_id vf on].

Definition cmd_set_vf_traffic_parsed (port_id vf_id : Z) (what mode : string) : list dev_call :=
  set_vf_traffic port_id (said what "rx") vf_id (said mode "on").

Definition cmd_set_vf_rxmode_parsed (port_id vf_id : Z) (what mode on : string) : list dev_call :=
  let rx_mode :=
    if said what "rxmode" then
      if said mode "AUPE" then ETH_VMDQ_ACCEPT_UNTAG
      else if said mode "ROPE" then ETH_VMDQ_ACCEPT_HASH_UC
      else if said mode "BAM" then ETH_VMDQ_ACCEPT_BROADCAST
      else if said (String.substring 0 3 mode) "MPE" then ETH_VMDQ_ACCEPT_MULTICAST
      else 0
    else 0 in
  [SetVfRxmode port_id vf_id rx_mode (said on "on")].

Definition set_vf_rx_vlan (port_id vlan_id vf_mask : Z) (on : bool) : list dev_call :=
  if port_id_is_invalid port_id st then []
  else if vlan_id_is_invalid vlan_id then []
  else [SetVfVlanFilter port_id vlan_id vf_mask on].

Definition cmd_vf_rx_vlan_filter_parsed (what : string) (vlan_id port_id vf_mask : Z) : list dev_call :=
  set_vf_rx_vlan port_id vlan_id vf_mask (said what "add").

Definition set_queue_rate_limit (port_id queue_idx rate : Z) : list dev_call :=
  if port_id_is_invalid port_id st then []
  else if link_speed port_id <? rate then []
  else [QueueRateLimit port_id queue_idx rate].

Definition set_vf_rate_limit (port_id vf rate q_msk : Z) : list dev_call :=
  if q_msk =? 0 then []
  else if port_id_is_invalid port_id st then []
  else if link_speed port_id <? rate then []
  else [VfRateLimit port_id vf rate q_msk].

(** The fixed words of these two commands are checked by the parser. *)
Definition cmd_queue_rate_limit_parsed (port_num queue_num rate_num : Z) : list dev_call :=
  set_queue_rate_limit port_num queue_num rate_num.
Definition cmd_vf_rate_limit_parsed (port_num vf_num rate_num q_msk_val : Z) : list dev_call :=
  set_vf_rate_limit port_num vf_num rate_num q_msk_val.

(** *** Mirror rules *)

(** The loop over the VLANs from [i] on. *)
Fixpoint mirror_vlans (vlan_list : list Z) (i : Z) (conf : mirror_conf) : outcome (option mirror_conf) :=
  match vlan_list with
  | [] => Done (Some conf)
  | v :: vlan_list =>
      if ETHER_MAX_VLAN_ID <? v then Done None
      else
        ids ← of_opt (zset (mr_vlan_id conf) i (u16 v));
        mirror_vlans vlan_list (i + 1)
          (MirrorConf (mr_type conf) (mr_dst_pool conf) (mr_pool_mask conf)
             (Z.lor (mr_vlan_mask conf) (u64 (Z.shiftl 1 i))) ids)
  end.

Definition cmd_set_mirror_mask_parsed (port_id rule_id : Z) (what value : string) (dstpool_id : Z) (on : string)
    : outcome (list dev_call) :=
  let no_vlans := replicate ETH_MIRROR_MAX_VLANS 0 in
  let set conf := Done [MirrorRuleSet port_id conf rule_id (said on "on")] in
  let pools := (strtoul 16 value).1.1.1 in
  if said what "pool-mirror-up" then set (MirrorConf VIRTUAL_POOL_UP dstpool_id pools 0 no_vlans)
  else if said what "pool-mirror-down" then set (MirrorConf VIRTUAL_POOL_DOWN dstpool_id pools 0 no_vlans)
  else if said what "vlan-mirror" then
    let l := parse_item_list STR_TOKEN_SIZE value ETH_MIRROR_MAX_VLANS true in
    if (length l <=? 0)%nat then Done []
    else
      conf ← mirror_vlans l 0 (MirrorConf MIRROR_VLAN dstpool_id 0 0 no_vlans);
      match conf with Some conf => set conf | None => Done [] end
  else set (MirrorConf NO_RULE dstpool_id 0 0 no_vlans).

Definition cmd_set_mirror_link_parsed (port_id rule_id : Z) (what : string) (dstpool_id : Z) (on : string) : list dev_call :=
  let type := if said what "uplink-mirror" then UPLINK_PORT else DOWNLINK_PORT in
  [MirrorRuleSet port_id (MirrorConf type dstpool_id 0 0 (replicate ETH_MIRROR_MAX_VLANS 0)) rule_id (said on "on")].

Definition cmd_reset_mirror_rule_parsed (port_id rule_id : Z) : list dev_call := [MirrorRuleReset port_id rule_id].

Definition cmd_global_config_parsed (port_id len : Z) : list dev_call := [GlobalGreKeyLen port_id len].

(** *** Layer-2 tunnels *)

Definition str2fdir_l2_tunnel_type (string : string) : l2_type := if said string "E-tag" then L2_E_TAG else L2_NONE.

Definition with_type (type : l2_type) (c : l2_conf) : l2_conf :=
  L2Conf type (l2_ether_type c) (l2_tunnel_id c) (l2_vf_id c) (l2_pool c).

Definition eth_type_conf (type : string) (eth_type_val : Z) : l2_conf :=
  L2Conf (str2fdir_l2_tunnel_type type) eth_type_val (l2_tunnel_id stack) (l2_vf_id stack) (l2_pool stack).

Definition cmd_config_l2_tunnel_eth_type_all_parsed (type : string) (eth_type_val : Z) : list dev_call :=
  (fun pid => L2EthType pid (eth_type_conf type eth_type_val)) <$> port_ids (ports st).

Definition cmd_config_l2_tunnel_eth_type_specific_parsed (id : Z) (type : string) (eth_type_val : Z) : list dev_call :=
  if port_id_is_invalid id st then [] else [L2EthType id (eth_type_conf type eth_type_val)].

Definition cmd_config_l2_tunnel_en_dis_all_parsed (type en_dis : string) : list dev_call :=
  (fun pid => L2Offload pid (with_type (str2fdir_l2_tunnel_type type) stack) TUNNEL_ENABLE (said en_dis "enable"))
    <$> port_ids (ports st).

Definition cmd_config_l2_tunnel_en_dis_specific_parsed (id : Z) (type en_dis : string) : list dev_call :=
  if port_id_is_invalid id st then []
  else [L2Offload id (with_type (str2fdir_l2_tunnel_type type) stack) TUNNEL_ENABLE (said en_dis "enable")].

Definition cmd_config_e_tag_insertion_en_parsed (port_tag_id_val port_id vf_id : Z) : list dev_call :=
  if port_id_is_invalid port_id st then []
  else [L2Offload port_id (L2Conf L2_E_TAG (l2_ether_type stack) port_tag_id_val vf_id (l2_pool stack)) TUNNEL_INSERTION true].

Definition cmd_config_e_tag_insertion_dis_parsed (port_id vf_id : Z) : list dev_call :=
  if port_id_is_invalid port_id st then []
  else [L2Offload port_id (L2Conf L2_E_TAG (l2_ether_type stack) (l2_tunnel_id stack) vf_id (l2_pool stack))
          TUNNEL_INSERTION false].

Definition cmd_config_e_tag_stripping_parsed (on_off : string) (port_id : Z) : list dev_call :=
  if port_id_is_invalid port_id st then []
  else [L2Offload port_id (with_type L2_E_TAG stack) TUNNEL_STRIPPING (said on_off "on")].

Definition cmd_config_e_tag_forwarding_parsed (on_off : string) (port_id : Z) : list dev_call :=
  if port_id_is_invalid port_id st then []
  else [L2Offload port_id (with_type L2_E_TAG stack) TUNNEL_FORWARDING (said on_off "on")].

Definition e_tag_filter (op : filter_op) (conf : l2_conf) (port_id : Z) : list dev_call :=
  if port_id_is_invalid port_id st then []
  else if 0x3fff <? l2_tunnel_id conf then []
  else if negb (l2_supported port_id) then []
  else [L2Filter port_id op conf].

Definition cmd_config_e_tag_filter_add_parsed (e_tag_id_val dst_pool_val port_id : Z) : list dev_call :=
  e_tag_filter FILTER_ADD (L2Conf L2_E_TAG (l2_ether_type stack) e_tag_id_val (l2_vf_id stack) dst_pool_val) port_id.

Definition cmd_config_e_tag_filter_del_parsed (e_tag_id_val port_id : Z) : list dev_call :=
  e_tag_filter FILTER_DELETE (L2Conf L2_E_TAG (l2_ether_type stack) e_tag_id_val (l2_vf_id stack) (l2_pool stack)) port_id.
End Vf.

(** ** Lemmas *)

Lemma ones_grow i : 0 <= i < 64 -> Z.lor (2 ^ i - 1) (u64 (Z.shiftl 1 i)) = 2 ^ (i + 1) - 1.
Proof.
  intros Hi. rewrite Z.shiftl_1_l, u64_small.
  2: { split; [apply Z.pow_nonneg; lia|apply Z.pow_lt_mono_r; lia]. }
  rewrite !Z.sub_1_r, <- !Z.ones_equiv. apply Z.bits_inj'. intros k Hk.
  rewrite Z.lor_spec, !Z.testbit_ones_nonneg, Z.pow2_bits_eqb by lia.
  destruct (Z.ltb_spec k i), (Z.ltb_spec k (i + 1)), (Z.eqb_spec i k); try done; lia.
Qed.

(** One pass of the loop. *)
Lemma mirror_vlans_step type dst pools mask v l done_ r rest :
  v <= 4095 ->
  mirror_vlans (v :: l) (Z.of_nat (length done_)) (MirrorConf type dst pools mask (done_ ++ r :: rest)) =
    mirror_vlans l (Z.of_nat (length (done_ ++ [u16 v])))
      (MirrorConf type dst pools (Z.lor mask (u64 (Z.shiftl 1 (Z.of_nat (length done_))))) ((done_ ++ [u16 v]) ++ rest)).
Proof.
  intros Hv. cbn [mirror_vlans]. rewrite (proj2 (Z.ltb_ge ETHER_MAX_VLAN_ID v)) by done.
  cbn [mr_vlan_id mr_vlan_mask mr_type mr_dst_pool mr_pool_mask]. unfold zset. rewrite !length_app, Nat2Z.id. cbn [length].
  replace ((0 <=? Z.of_nat (length done_)) && (Z.of_nat (length done_) <? Z.of_nat (length done_ + S (length rest))))
    with true by (symmetry; apply andb_true_intro; split; [apply Z.leb_le|apply Z.ltb_lt]; lia).
  cbn [of_opt mbind outcome_bind]. rewrite insert_app_r_alt by lia. rewrite Nat.sub_diag. cbn [insert list_insert].
  replace (Z.of_nat (length done_ + 1)) with (Z.of_nat (length done_) + 1) by lia. by rewrite <- app_assoc.
Qed.

(** The loop over valid VLANs fills the array and the mask. *)
Lemma mirror_vlans_all type dst pools l done_ rest :
  Forall (fun v => 0 <= v <= 4095) l -> (length l <= length rest)%nat -> (length done_ + length l <= 64)%nat ->
  mirror_vlans l (Z.of_nat (length done_)) (MirrorConf type dst pools (2 ^ Z.of_nat (length done_) - 1) (done_ ++ rest)) =
    Done (Some (MirrorConf type dst pools (2 ^ Z.of_nat (length done_ + length l) - 1) (done_ ++ l ++ drop (length l) rest))).
Proof.
  intros Hl. revert done_ rest. induction Hl as [|v l Hv Hl IH]; intros done_ rest Hr H64.
  { cbn [mirror_vlans]. by rewrite Nat.add_0_r. }
  destruct rest as [|r rest]; [cbn in Hr; lia|]. cbn [length] in *.
  rewrite mirror_vlans_step, ones_grow, u16_small by lia.
  specialize (IH (done_ ++ [v]) rest ltac:(lia)). rewrite length_app in *. cbn [length] in *.
  replace (Z.of_nat (length done_ + 1)) with (Z.of_nat (length done_) + 1) in * by lia. rewrite IH by lia.
  rewrite <- app_assoc. cbn [app drop]. do 5 f_equal. lia.
Qed.

(** An invalid one ends it. *)
Lemma mirror_vlans_bad type dst pools l done_ rest mask :
  ~ Forall (fun v => 0 <= v <= 4095) l -> Forall (fun v => 0 <= v) l -> (length l <= length rest)%nat ->
  mirror_vlans l (Z.of_nat (length done_)) (MirrorConf type dst pools mask (done_ ++ rest)) = Done None.
Proof.
  revert done_ rest mask. induction l as [|v l IH]; intros done_ rest mask Hbad Hpos Hr; [by destruct Hbad|].
  apply Forall_cons in Hpos as [Hv Hpos]. destruct (Z.ltb_spec 4095 v) as [Hlt|Hle].
  { cbn [mirror_vlans]. unfold ETHER_MAX_VLAN_ID at 1. by rewrite (proj2 (Z.ltb_lt 4095 v)). }
  destruct rest as [|r rest]; [cbn in Hr; lia|]. cbn [length] in Hr. rewrite mirror_vlans_step by done.
  apply IH; [|done|lia]. intros Hl. apply Hbad. constructor; [lia|done].
Qed.

(** ** Properties *)

(** "vlan-mirror" with a list of numbers that differ and are VLANs asks for
    exactly one rule, which mirrors these VLANs in the order typed, each
    marked valid in the mask and no other; a list with a number twice or with
    a number above 4095 asks for nothing. *)
Theorem vlan_mirror_asks size max port rule ws dst on
    (Hws : Forall is_number ws) (Hne : ws <> []) (Hmax : (length ws <= max)%nat) (H64 : (max <= 64)%nat)
    (Hsize : (length (join ws) <= size)%nat) (vlans := number <$> ws) :
  cmd_set_mirror_mask_parsed size max port rule "vlan-mirror" (list_text ws) dst on =
    Done (if decide (NoDup vlans /\ Forall (fun v => 0 <= v <= 4095) vlans)
          then [MirrorRuleSet port
                  (MirrorConf MIRROR_VLAN dst 0 (2 ^ Z.of_nat (length ws) - 1) (vlans ++ replicate (max - length ws) 0))
                  rule (bool_decide (on = "on"%string))]
          else []).
Proof.
  unfold cmd_set_mirror_mask_parsed, said. do 2 (rewrite bool_decide_false by done). rewrite bool_decide_true by done.
  rewrite item_list_value by done. cbn [andb]. fold vlans. destruct (bool_decide_reflect (NoDup vlans)) as [Hnd|Hnd]; cbn [negb].
  2: { cbn. rewrite decide_False; [done|]. by intros []. }
  assert (Hlen : length vlans = length ws) by apply length_fmap. rewrite Hlen.
  assert (0 < length ws)%nat by (destruct ws; [done|cbn; lia]). destruct (Nat.leb_spec (length ws) 0); [lia|].
  destruct (decide (Forall (fun v => 0 <= v <= 4095) vlans)) as [Hv|Hv].
  - rewrite decide_True by done. pose proof (mirror_vlans_all MIRROR_VLAN dst 0 vlans [] (replicate max 0) Hv) as E.
    cbn [length app Nat.add] in E. change (Z.of_nat 0) with 0 in E. change (2 ^ 0 - 1) with 0 in E.
    rewrite length_replicate, Hlen in E. rewrite E by lia. cbn [mbind outcome_bind]. by rewrite drop_replicate.
  - rewrite decide_False by tauto. pose proof (mirror_vlans_bad MIRROR_VLAN dst 0 vlans [] (replicate max 0) 0 Hv) as E.
    cbn [length app] in E. change (Z.of_nat 0) with 0 in E. rewrite length_replicate, Hlen in E. rewrite E; [done| |lia].
    apply Forall_fmap, Forall_forall. intros w _. cbn. unfold number. pose proof (u32_range (digits_value 0 w)). lia.
Qed.

(** ** Witnesses *)

Lemma vlan_mirror_asks_witness :
  cmd_set_mirror_mask_parsed 128 64 0 2 "vlan-mirror" "100,4095,7" 5 "on" =
    Done [MirrorRuleSet 0 (MirrorConf MIRROR_VLAN 5 0 7 ([100; 4095; 7] ++ replicate 61 0)) 2 true].
Proof.
  refine (vlan_mirror_asks 128 64 0 2 (typed <$> ["100"; "4095"; "7"]%string) 5 "on" _ _ _ _ _).
  - repeat constructor; discriminate.
  - discriminate.
  - cbn. lia.
  - lia.
  - cbn. lia.
Defined.
