(* ===== verification/HashCmds.v ===== *)
(** * test-pmd/cmdline.c: hash filters

    The commands on the symmetric hash of a port, on the hash function and the
    flow types hashed symmetrically by all ports, and on the fields that are
    hashed or matched.  The global configuration of a device is an interface,
    [HashDev]: sets of flow types are arrays of 32-bit masks, and a device
    changes the flow types that a request marks valid ([HashDoc]). *)

From Stdlib Require Import Ascii.
From stdpp Require Import strings functions.
From S2P Require Import Prelude Cstr Packet Params LaunchArgs FdirFlex.

#[local] Open Scope Z_scope.
#[local] Open Scope list_scope.

(** ** Data *)

Inductive hash_function : Type := HASH_DEFAULT | HASH_TOEPLITZ | HASH_SIMPLE_XOR.

(** [struct rte_eth_hash_global_conf] *)
Record global_conf : Type := GlobalConf {
  hash_func : hash_function;
  sym_hash_enable_mask : list Z;
  valid_bit_mask : list Z;
}.

(** The fields of packets; the words of the command name them, in the order
    of the table. *)
Inductive input_set_field : Type :=
| INSET_UNKNOWN | L2_ETHERTYPE | L2_OUTER_VLAN | L2_INNER_VLAN | L3_SRC_IP4 | L3_DST_IP4 | L3_IP4_TOS | L3_IP4_PROTO
| L3_IP4_TTL | L3_SRC_IP6 | L3_DST_IP6 | L3_IP6_TC | L3_IP6_NEXT_HEADER | L3_IP6_HOP_LIMITS | L4_UDP_SRC_PORT
| L4_UDP_DST_PORT | L4_TCP_SRC_PORT | L4_TCP_DST_PORT | L4_SCTP_SRC_PORT | L4_SCTP_DST_PORT | L4_SCTP_VERIFICATION_TAG
| TUNNEL_L4_UDP_KEY | TUNNEL_GRE_KEY | FLEX_1ST_WORD | FLEX_2ND_WORD | FLEX_3RD_WORD | FLEX_4TH_WORD | FLEX_5TH_WORD
| FLEX_6TH_WORD | FLEX_7TH_WORD | FLEX_8TH_WORD | INSET_NONE.

Inductive inset_op : Type := OP_UNKNOWN | OP_SELECT | OP_ADD.

(** [struct rte_eth_input_set_conf] with its one field *)
Record input_set_conf : Type := InputSet { is_flow_type : Z; is_field : input_set_field; is_op : inset_op }.

(** The requests other than those of the global configuration. *)
Inductive hash_call : Type :=
| SymHashPerPort (port : Z) (enable : bool)
| HashInputSet (port : Z) (conf : input_set_conf)
| FdirInputSet (port : Z) (conf : input_set_conf).

Definition inset_table : list (string * input_set_field) := [
  ("ethertype", L2_ETHERTYPE); ("ovlan", L2_OUTER_VLAN); ("ivlan", L2_INNER_VLAN); ("src-ipv4", L3_SRC_IP4);
  ("dst-ipv4", L3_DST_IP4); ("ipv4-tos", L3_IP4_TOS); ("ipv4-proto", L3_IP4_PROTO); ("ipv4-ttl", L3_IP4_TTL);
  ("src-ipv6", L3_SRC_IP6); ("dst-ipv6", L3_DST_IP6); ("ipv6-tc", L3_IP6_TC); ("ipv6-next-header", L3_IP6_NEXT_HEADER);
  ("ipv6-hop-limits", L3_IP6_HOP_LIMITS); ("udp-src-port", L4_UDP_SRC_PORT); ("udp-dst-port", L4_UDP_DST_PORT);
  ("tcp-src-port", L4_TCP_SRC_PORT); ("tcp-dst-port", L4_TCP_DST_PORT); ("sctp-src-port", L4_SCTP_SRC_PORT);
  ("sctp-dst-port", L4_SCTP_DST_PORT); ("sctp-veri-tag", L4_SCTP_VERIFICATION_TAG); ("udp-key", TUNNEL_L4_UDP_KEY);
  ("gre-key", TUNNEL_GRE_KEY); ("fld-1st", FLEX_1ST_WORD); ("fld-2nd", FLEX_2ND_WORD); ("fld-3rd", FLEX_3RD_WORD);
  ("fld-4th", FLEX_4TH_WORD); ("fld-5th", FLEX_5TH_WORD); ("fld-6th", FLEX_6TH_WORD); ("fld-7th", FLEX_7TH_WORD);
  ("fld-8th", FLEX_8TH_WORD); ("none", INSET_NONE)]%string.

Definition str2inset (string : string) : input_set_field :=
  match List.find (fun e => bool_decide (e.1 = string)) inset_table with Some e => e.2 | None => INSET_UNKNOWN end.

(** The table of [flowtype_to_str]: all but the raw flows. *)
Definition ftype_table : list (string * flow_kind) := tail flowtype_str.

(** A device: its global configuration, if it can be had, and a request, which
    may be refused. *)
Class HashDev (D : Type) := {
  hash_get : D -> option global_conf;
  hash_set : global_conf -> D -> bool * D;
}.

Definition UINT32_BIT : Z := 32.

(** Whether flow type [i] is in an array of masks. *)
Definition has_flow (mask : list Z) (i : Z) : bool :=
  match zget mask (i / UINT32_BIT) with Some w => Z.testbit w (i mod UINT32_BIT) | None => false end.

(** ** Commands *)

Section Hash.
Variables (flow : flow_kind -> Z) (RTE_ETH_FLOW_MAX : Z) (RTE_SYM_HASH_MASK_ARRAY_SIZE : nat).
(** Whether a port has hash filters. *)
Variable filter_supported : Z -> bool.

Definition flowtype_to_str (ftype : Z) : option string :=
  fst <$> List.find (fun e => flow e.2 =? ftype) ftype_table.

Definition cmd_set_sym_hash_per_port_parsed (port_id : Z) (enable : string) : list hash_call :=
  if negb (filter_supported port_id) then []
  else [SymHashPerPort port_id (bool_decide (enable = "enable"%string))].

Definition input_set (flow_type inset_field select : string) : input_set_conf :=
  InputSet (str2flowtype flow flow_type) (str2inset inset_field)
    (if bool_decide (select = "select"%string) then OP_SELECT
     else if bool_decide (select = "add"%string) then OP_ADD else OP_UNKNOWN).

Definition cmd_set_hash_input_set_parsed (port_id : Z) (flow_type inset_field select : string) : list hash_call :=
  [HashInputSet port_id (input_set flow_type inset_field select)].
Definition cmd_set_fdir_input_set_parsed (port_id : Z) (flow_type inset_field select : string) : list hash_call :=
  [FdirInputSet port_id (input_set flow_type inset_field select)].

(** [mask\[idx\] |= 1UL << offset] *)
Definition set_bit (mask : list Z) (idx offset : Z) : outcome (list Z) :=
  w ← of_opt (zget mask idx);
  of_opt (zset mask idx (u32 (Z.lor w (Z.shiftl 1 offset)))).

(** What "set_hash_global_config" asks for. *)
Definition hash_global_wanted (func flow_type enable : string) : outcome global_conf :=
  let func := if bool_decide (func = "toeplitz"%string) then HASH_TOEPLITZ
              else if bool_decide (func = "simple_xor"%string) then HASH_SIMPLE_XOR
              else HASH_DEFAULT in
  let none := replicate RTE_SYM_HASH_MASK_ARRAY_SIZE 0 in
  let ftype := str2flowtype flow flow_type in
  let idx := ftype / 32 in
  let offset := ftype mod 32 in
  valid ← set_bit none idx offset;
  enabled ← (if bool_decide (enable = "enable"%string) then set_bit none idx offset else Done none);
  Done (GlobalConf func enabled valid).

Section Devices.
Context {D : Type} `{HashDev D}.

(** Whether the device took the request is what the command prints. *)
Definition cmd_set_hash_global_config_parsed (port_id : Z) (func flow_type enable : string) (dev : D)
    : outcome (bool * D) :=
  if negb (filter_supported port_id) then Done (false, dev)
  else c ← hash_global_wanted func flow_type enable; Done (hash_set c dev).

(** The flow types that "get_hash_global_config" prints, and whether each is
    enabled; none when the device does not answer. *)
Definition cmd_get_hash_global_config_parsed (port_id : Z) (dev : D) : outcome (list (string * bool)) :=
  if negb (filter_supported port_id) then Done []
  else
    match hash_get dev with
    | None => Done []
    | Some c =>
        lines ← mapM (fun i =>
          v ← of_opt (zget (valid_bit_mask c) (i / UINT32_BIT));
          if negb (Z.testbit v (i mod UINT32_BIT)) then Done []
          else
            match flowtype_to_str i with
            | None => Done []
            | Some str =>
                e ← of_opt (zget (sym_hash_enable_mask c) (i / UINT32_BIT));
                Done [(str, Z.testbit e (i mod UINT32_BIT))]
            end) (seqZ 0 RTE_ETH_FLOW_MAX);
        Done (mjoin lines)
    end.

(** A session of settings on one port: which were taken, and the device. *)
Fixpoint run_hash (port_id : Z) (cmds : list (string * string * string)) (dev : D) : outcome (list bool * D) :=
  match cmds with
  | [] => Done ([], dev)
  | (func, flow_type, enable) :: cmds =>
      '(r, dev) ← cmd_set_hash_global_config_parsed port_id func flow_type enable dev;
      '(rs, dev) ← run_hash port_id cmds dev;
      Done (r :: rs, dev)
  end.
End Devices.

(** What is documented of a device: its masks have their size; a request that
    is taken sets the flow types it marks valid, and those only; one that is
    refused changes nothing. *)
Class HashDoc (D : Type) `{HashDev D} : Prop := {
  hash_sizes s c : hash_get s = Some c ->
    length (valid_bit_mask c) = RTE_SYM_HASH_MASK_ARRAY_SIZE /\ length (sym_hash_enable_mask c) = RTE_SYM_HASH_MASK_ARRAY_SIZE;
  hash_taken c s s' c0 : hash_set c s = (true, s') -> hash_get s = Some c0 ->
    exists c1, hash_get s' = Some c1 /\ valid_bit_mask c1 = valid_bit_mask c0 /\
      forall i, 0 <= i < RTE_ETH_FLOW_MAX ->
        has_flow (sym_hash_enable_mask c1) i =
          (if has_flow (valid_bit_mask c) i then has_flow (sym_hash_enable_mask c) i else has_flow (sym_hash_enable_mask c0) i);
  hash_refused c s s' : hash_set c s = (false, s') -> hash_get s' = hash_get s;
}.
End Hash.

(** ** What a user is promised

    A set of flow types that each setting taken adds to or removes from. *)

Definition spec_set (ftype : Z) (b : bool) (m : Z -> bool) : Z -> bool := fun i => if i =? ftype then b else m i.

Fixpoint spec_hash (flow : flow_kind -> Z) (cmds : list (string * string * string)) (taken : list bool) (m : Z -> bool)
    : Z -> bool :=
  match cmds, taken with
  | (_, flow_type, enable) :: cmds, t :: taken =>
      spec_hash flow cmds taken
        (if t : bool then spec_set (str2flowtype flow flow_type) (bool_decide (enable = "enable"%string)) m else m)
  | _, _ => m
  end.

(** The lines that show a set: the supported flow types that have a name. *)
Definition spec_show (flow : flow_kind -> Z) (flow_max : Z) (supported m : Z -> bool) : list (string * bool) :=
  seqZ 0 flow_max ≫= fun i =>
    if supported i then match flowtype_to_str flow i with Some str => [(str, m i)] | None => [] end else [].

(** ** Lemmas *)

Lemma split_flow i f : 0 <= i -> 0 <= f -> i / 32 = f / 32 -> i mod 32 = f mod 32 -> i = f.
Proof. intros. rewrite (Z.div_mod i 32), (Z.div_mod f 32) by lia. lia. Qed.

Lemma has_flow_none n i : has_flow (replicate n 0) i = false.
Proof.
  unfold has_flow. destruct (zget _ _) as [w|] eqn:E; [|done]. apply zget_Some in E as [_ E].
  apply lookup_replicate in E as [-> _]. apply Z.testbit_0_l.
Qed.

Lemma set_bit_spec n f :
  0 <= f < 32 * Z.of_nat n ->
  exists m, set_bit (replicate n 0) (f / 32) (f mod 32) = Done m /\ length m = n /\
    forall i, 0 <= i -> has_flow m i = (i =? f).
Proof.
  intros Hf. assert (Hd : 0 <= f / 32 < Z.of_nat n) by (split; [apply Z.div_pos; lia|apply Z.div_lt_upper_bound; lia]).
  pose proof (Z.mod_pos_bound f 32 ltac:(lia)) as Hm. unfold set_bit.
  destruct (zget_is_Some (replicate n 0) (f / 32)) as [w Hw]; [by rewrite length_replicate|]. rewrite Hw.
  cbn [of_opt mbind outcome_bind]. apply zget_Some in Hw as [_ Hw]. apply lookup_replicate in Hw as [-> _].
  unfold zset. rewrite length_replicate.
  replace ((0 <=? f / 32) && (f / 32 <? Z.of_nat n)) with true
    by (symmetry; apply andb_true_intro; split; [apply Z.leb_le|apply Z.ltb_lt]; lia).
  cbn [of_opt]. eexists. split; [done|]. split; [by rewrite length_insert, length_replicate|]. intros i Hi.
  unfold has_flow, UINT32_BIT, zget. rewrite (proj2 (Z.leb_le 0 (i / 32))) by (apply Z.div_pos; lia).
  pose proof (Z.mod_pos_bound i 32 ltac:(lia)) as Hmi.
  destruct (decide (Z.to_nat (i / 32) = Z.to_nat (f / 32))) as [He|He].
  - rewrite He, list_lookup_insert_eq by (rewrite length_replicate; lia).
    rewrite Z.lor_0_l, Z.shiftl_1_l, u32_small by (split; [apply Z.pow_nonneg; lia|apply Z.pow_lt_mono_r; lia]).
    rewrite Z.pow2_bits_eqb by lia. pose proof (Z.div_pos i 32 Hi ltac:(lia)).
    destruct (Z.eqb_spec i f) as [->|Hne]; [apply Z.eqb_refl|]. apply Z.eqb_neq. intros E. apply Hne, split_flow; lia.
  - rewrite list_lookup_insert_ne by done. rewrite (proj2 (Z.eqb_neq i f)) by congruence.
    destruct (replicate n 0 !! _) as [w|] eqn:E; [|done]. apply lookup_replicate in E as [-> _]. apply Z.testbit_0_l.
Qed.

Lemma mapM_pure {A B} (f : A -> outcome B) (g : A -> B) l :
  Forall (fun x => f x = Done (g x)) l -> mapM f l = Done (g <$> l).
Proof. induction 1 as [|x l Hx Hl IH]; [done|]. cbn [mapM]. rewrite Hx. cbn [mbind outcome_bind]. by rewrite IH. Qed.

Lemma mjoin_bind {A B} (g : A -> list B) l : mjoin (g <$> l) = l ≫= g.
Proof. induction l as [|x l IH]; [done|]. cbn. f_equal. exact IH. Qed.

Section Session.
Context (flow : flow_kind -> Z) (flow_max : Z) (n : nat) (sup : Z -> bool) (port : Z).
Context {D : Type} `{HashDev D} {HDoc : HashDoc flow_max n D}.
Context (Hflow : forall k, 0 <= flow k < flow_max) (Hmax : flow_max <= 32 * Z.of_nat n) (Hsup : sup port = true).

Lemma flowtype_range s : 0 <= str2flowtype flow s < flow_max.
Proof.
  unfold str2flowtype, RTE_ETH_FLOW_UNKNOWN. pose proof (Hflow FLOW_RAW). destruct (List.find _ _) as [[w k]|]; [apply Hflow|lia].
Qed.

(** A setting asks for one flow type, and says whether it is enabled. *)
Lemma wanted_spec func flow_type enable :
  exists c, hash_global_wanted flow n func flow_type enable = Done c /\
    forall i, 0 <= i -> has_flow (valid_bit_mask c) i = (i =? str2flowtype flow flow_type) /\
      has_flow (sym_hash_enable_mask c) i = (i =? str2flowtype flow flow_type) && bool_decide (enable = "enable"%string).
Proof.
  unfold hash_global_wanted. destruct (set_bit_spec n (str2flowtype flow flow_type)) as (m & -> & _ & Hm).
  { pose proof (flowtype_range flow_type). lia. }
  cbn [mbind outcome_bind]. destruct (bool_decide (enable = _)); cbn [mbind outcome_bind]; (eexists; split; [done|]);
    intros i Hi; cbn; rewrite ?Hm, ?has_flow_none by done; by rewrite ?andb_true_r, ?andb_false_r.
Qed.

(** One setting on a device whose set is [m]. *)
Lemma hash_cmd_spec func flow_type enable dev c0 m :
  hash_get dev = Some c0 -> (forall i, 0 <= i < flow_max -> has_flow (sym_hash_enable_mask c0) i = m i) ->
  exists t dev' c1,
    cmd_set_hash_global_config_parsed flow n sup port func flow_type enable dev = Done (t, dev') /\
    hash_get dev' = Some c1 /\ valid_bit_mask c1 = valid_bit_mask c0 /\
    forall i, 0 <= i < flow_max -> has_flow (sym_hash_enable_mask c1) i =
      (if t : bool then spec_set (str2flowtype flow flow_type) (bool_decide (enable = "enable"%string)) m else m) i.
Proof.
  intros Hg Hm. unfold cmd_set_hash_global_config_parsed. rewrite Hsup. cbn [negb].
  destruct (wanted_spec func flow_type enable) as (c & -> & Hc). cbn [mbind outcome_bind].
  destruct (hash_set c dev) as [[] dev'] eqn:E.
  - destruct (hash_taken flow_max n c dev dev' c0 E Hg) as (c1 & Hg1 & Hv & He). exists true, dev', c1.
    split_and!; [done..|]. intros i Hi. destruct (Hc i (proj1 Hi)) as [Hvi Hei]. rewrite He, Hvi, Hei, Hm by done.
    unfold spec_set. by destruct (i =? _).
  - exists false, dev', c0. split_and!; [done| |done|done]. rewrite <- Hg. exact (hash_refused flow_max n c dev dev' E).
Qed.

Lemma hash_session_spec cmds dev c0 m :
  hash_get dev = Some c0 -> (forall i, 0 <= i < flow_max -> has_flow (sym_hash_enable_mask c0) i = m i) ->
  exists taken dev' c1, run_hash flow n sup port cmds dev = Done (taken, dev') /\ length taken = length cmds /\
    hash_get dev' = Some c1 /\ valid_bit_mask c1 = valid_bit_mask c0 /\
    forall i, 0 <= i < flow_max -> has_flow (sym_hash_enable_mask c1) i = spec_hash flow cmds taken m i.
Proof.
  revert dev c0 m. induction cmds as [|[[func ft] en] cmds IH]; intros dev c0 m Hg Hm; [by exists [], dev, c0|].
  destruct (hash_cmd_spec func ft en dev c0 m Hg Hm) as (t & dev1 & c1 & E1 & Hg1 & Hv1 & Hm1).
  destruct (IH dev1 c1 _ Hg1 Hm1) as (taken & dev2 & c2 & E2 & Hl & Hg2 & Hv2 & Hm2).
  exists (t :: taken), dev2, c2. cbn [run_hash]. rewrite E1. cbn [mbind outcome_bind]. rewrite E2. cbn [mbind outcome_bind length].
  split_and!; [done|by rewrite Hl|done|by rewrite Hv2|exact Hm2].
Qed.

(** What the other command prints. *)
Lemma get_shows dev c (m : Z -> bool) :
  hash_get dev = Some c -> (forall i, 0 <= i < flow_max -> has_flow (sym_hash_enable_mask c) i = m i) ->
  cmd_get_hash_global_config_parsed flow flow_max sup port dev =
    Done (spec_show flow flow_max (has_flow (valid_bit_mask c)) m).
Proof.
  intros Hg Hm. unfold cmd_get_hash_global_config_parsed. rewrite Hsup, Hg. cbn [negb].
  destruct (hash_sizes flow_max n dev c Hg) as [Lv Le].
  rewrite (mapM_pure _ (fun i => if has_flow (valid_bit_mask c) i
    then match flowtype_to_str flow i with Some str => [(str, m i)] | None => [] end else [])).
  { cbn [mbind outcome_bind]. by rewrite mjoin_bind. }
  apply Forall_seqZ. intros i Hi. rewrite Z.add_0_l in Hi. rewrite <- Hm by done.
  assert (Hd : 0 <= i / 32 < Z.of_nat n) by (split; [apply Z.div_pos; lia|apply Z.div_lt_upper_bound; lia]).
  unfold has_flow, UINT32_BIT. destruct (zget_is_Some (valid_bit_mask c) (i / 32)) as [v ->]; [lia|].
  destruct (zget_is_Some (sym_hash_enable_mask c) (i / 32)) as [e ->]; [lia|]. cbn [of_opt mbind outcome_bind].
  destruct (Z.testbit v _); cbn [negb]; [|done]. by destruct (flowtype_to_str flow i).
Qed.
End Session.

#[export] Instance flow_kind_eq : EqDecision flow_kind.
Proof. solve_decision. Defined.

Lemma find_ext {A} (f g : A -> bool) l : (forall x, f x = g x) -> List.find f l = List.find g l.
Proof. intros He. induction l as [|x l IH]; [done|]. cbn. by rewrite He, IH. Qed.

(** A flow type is shown by the name it is typed with. *)
Lemma flowtype_names flow s k :
  (forall k1 k2, flow k1 = flow k2 -> k1 = k2) -> (s, k) ∈ ftype_table -> flowtype_to_str flow (str2flowtype flow s) = Some s.
Proof.
  intros Hinj Hin.
  assert (H : Forall (fun e => str2flowtype flow e.1 = flow e.2 /\
    fst <$> List.find (fun e' => bool_decide (e'.2 = e.2)) ftype_table = Some e.1) ftype_table).
  { repeat (constructor; [split; reflexivity|]). constructor. }
  rewrite Forall_forall in H. destruct (H _ Hin) as [H1 H2]. cbn [fst snd] in *. rewrite H1. unfold flowtype_to_str.
  rewrite <- H2. f_equal. apply find_ext. intros e. case_bool_decide as He; [rewrite He; apply Z.eqb_refl|].
  apply Z.eqb_neq. intros E. by apply He, Hinj.
Qed.

(** ** Properties *)

(** C40: After any session of "set_hash_global_config", whatever the device took,
    "get_hash_global_config" shows exactly the flow types that the device
    supports, each by the name it is typed with, and as enabled if the last
    setting of it that was taken enabled it, or as it was before if none was
    taken; nothing is read or written outside the masks. *)
Theorem hash_session_shown flow flow_max n sup port {D} `{HashDev D} {HDoc : HashDoc flow_max n D}
    (cmds : list (string * string * string)) (dev : D) c0
    (Hflow : forall k, 0 <= flow k < flow_max) (Hinj : forall k1 k2, flow k1 = flow k2 -> k1 = k2)
    (Hmax : flow_max <= 32 * Z.of_nat n) (Hsup : sup port = true) (Hget : hash_get dev = Some c0) :
  (exists taken dev', run_hash flow n sup port cmds dev = Done (taken, dev') /\ length taken = length cmds /\
    cmd_get_hash_global_config_parsed flow flow_max sup port dev' =
      Done (spec_show flow flow_max (has_flow (valid_bit_mask c0))
              (spec_hash flow cmds taken (has_flow (sym_hash_enable_mask c0))))) /\
  forall s k, (s, k) ∈ ftype_table -> flowtype_to_str flow (str2flowtype flow s) = Some s.
Proof.
  split; [|intros s k; by apply flowtype_names].
  destruct (hash_session_spec flow flow_max n sup port Hflow Hmax Hsup cmds dev c0 _ Hget (fun i _ => eq_refl))
    as (taken & dev' & c1 & E & Hl & Hg & Hv & Hm).
  exists taken, dev'. split_and!; [done..|]. rewrite <- Hv. by eapply get_shows.
Qed.

(** ** A device *)

(** It hashes TCP and UDP, and refuses the Toeplitz function. *)
Definition sample_flow (k : flow_kind) : Z :=
  match k with
  | FLOW_RAW => 1 | FLOW_IPV4 => 2 | FLOW_FRAG_IPV4 => 3 | FLOW_NONFRAG_IPV4_TCP => 4 | FLOW_NONFRAG_IPV4_UDP => 5
  | FLOW_NONFRAG_IPV4_SCTP => 6 | FLOW_NONFRAG_IPV4_OTHER => 7 | FLOW_IPV6 => 8 | FLOW_FRAG_IPV6 => 9
  | FLOW_NONFRAG_IPV6_TCP => 10 | FLOW_NONFRAG_IPV6_UDP => 11 | FLOW_NONFRAG_IPV6_SCTP => 12
  | FLOW_NONFRAG_IPV6_OTHER => 13 | FLOW_L2_PAYLOAD => 14
  end.

(** Its masks have one word; [s] is the word of the enabled flow types. *)
#[local] Instance sample_hash_dev : HashDev Z := {
  hash_get s := Some (GlobalConf HASH_SIMPLE_XOR [s] [Z.lor (2 ^ 4) (2 ^ 5)]);
  hash_set c s :=
    match hash_func c, valid_bit_mask c, sym_hash_enable_mask c with
    | HASH_TOEPLITZ, _, _ => (false, s)
    | _, [v], [e] => (true, Z.lor (Z.ldiff s v) (Z.land e v))
    | _, _, _ => (false, s)
    end;
}.

#[local] Instance sample_hash_doc : HashDoc 18 1 Z.
Proof.
  split.
  - intros s c [= <-]. done.
  - intros c s s' c0 E [= <-]. destruct c as [f e v]. cbn in E.
    assert (E' : exists v0 e0, v = [v0] /\ e = [e0] /\ s' = Z.lor (Z.ldiff s v0) (Z.land e0 v0)).
    { destruct f; [|done|]; destruct v as [|v0 [|]]; try done; destruct e as [|e0 [|]]; try done;
        injection E as <-; eauto. }
    destruct E' as (v0 & e0 & -> & -> & ->). eexists. split; [done|]. split; [done|]. intros i Hi.
    unfold has_flow, UINT32_BIT. rewrite Z.div_small, Z.mod_small by lia. cbn [sym_hash_enable_mask valid_bit_mask].
    assert (Z1 : forall x : Z, zget [x] 0 = Some x) by done. rewrite !Z1.
    rewrite Z.lor_spec, Z.ldiff_spec, Z.land_spec. destruct (Z.testbit v0 i), (Z.testbit e0 i), (Z.testbit s i); done.
  - intros c s s' E. destruct c as [f e v]. cbn in *. f_equal. f_equal.
    destruct f; [|by injection E as <-|]; destruct v as [|v0 [|]]; try (by injection E as <-);
      destruct e as [|e0 [|]]; try (by injection E as <-); done.
Qed.

Definition sample_hash_cmds : list (string * string * string) := [
  ("simple_xor", "ipv4-tcp", "enable"); ("default", "ipv4-udp", "enable"); ("toeplitz", "ipv4-tcp", "disable");
  ("default", "ipv4-udp", "disable"); ("default", "ipv6", "enable")]%string.

Lemma hash_session_shown_witness :
  run_hash sample_flow 1 (fun _ => true) 0 sample_hash_cmds 0 =
    Done ([true; true; false; true; true], Z.lor (2 ^ 4) (2 ^ 8)) /\
  cmd_get_hash_global_config_parsed sample_flow 18 (fun _ => true) 0 (Z.lor (2 ^ 4) (2 ^ 8)) =
    Done [("ipv4-tcp", true); ("ipv4-udp", false)]%string.
Proof.
  destruct (hash_session_shown sample_flow 18 1 (fun _ => true) 0 sample_hash_cmds 0
    (GlobalConf HASH_SIMPLE_XOR [0] [Z.lor (2 ^ 4) (2 ^ 5)])) as [(taken & dev' & E & _ & Hs) _].
  - intros []; cbn; lia.
  - intros [] [] Hk; done.
  - lia.
  - reflexivity.
  - reflexivity.
  - assert (E0 : run_hash sample_flow 1 (fun _ => true) 0 sample_hash_cmds 0 =
      Done ([true; true; false; true; true], Z.lor (2 ^ 4) (2 ^ 8))) by reflexivity.
    split; [exact E0|]. rewrite E0 in E. injection E as <- <-. rewrite Hs. reflexivity.
Defined.
