(* ===== verification/Ieee1588.v ===== *)
(** * test-pmd/ieee1588fwd.c: the engine for PTP packets

    The engine takes one packet at a time, checks that it is a PTP sync
    message that the hardware recognised and timestamped, sends it back with
    its addresses exchanged, and polls for the timestamp of the sending.
    What is printed is a list of [ptp_report].  The registers of the
    timestamps are parameters: the answer for a port and an index, and the
    answers for a port to the reads of a poll, one after the other. *)

From S2P Require Import Prelude Packet FwdEngines.

#[local] Open Scope Z_scope.
#[local] Open Scope list_scope.

(** ** Data *)

Definition ETHER_TYPE_1588 : Z := 0x88F7.
Definition PTP_SYNC_MESSAGE : Z := 0.
Definition MAX_TX_TMST_WAIT_MICROSECS : nat := 1000.

(** [struct timespec] *)
Definition timespec : Type := (Z * Z)%type.

Inductive ptp_report : Type :=
| NotFilteredByHardware
| NonPtpPacket (eth_type len : Z)
| WronglyDetected
| WrongVersion (version : Z)
| UnexpectedMessage (msg_id : Z)
| SyncFiltered
| NotTimestamped
| RxTimestampInvalid
| RxTimestamp (t : timespec)
| SentPacketDropped
| TxTimestampInvalid
| TxTimestamp (t : timespec) (wait_us : nat).

(** ** The engine *)

Section Ieee1588.
Context `{Ethdev}.
Variables (PKT_RX_IEEE1588_PTP PKT_RX_IEEE1588_TMST PKT_TX_IEEE1588_TMST : Z) (timesync : mbuf -> Z).
Variables (read_rx_timestamp : Z -> Z -> option timespec) (read_tx_timestamp : Z -> nat -> option timespec).

Definition port_ieee1588_rx_timestamp_check (pi index : Z) : ptp_report :=
  match read_rx_timestamp pi index with None => RxTimestampInvalid | Some t => RxTimestamp t end.

(** The loop of reads; [remaining] microseconds are left, [wait_us] are over. *)
Fixpoint poll_tx (pi : Z) (remaining wait_us : nat) : nat * timespec :=
  match read_tx_timestamp pi wait_us with
  | Some t => (wait_us, t)
  | None => match remaining with O => (wait_us, (0, 0)) | S remaining => poll_tx pi remaining (S wait_us) end
  end.

Definition port_ieee1588_tx_timestamp_check (pi : Z) : ptp_report :=
  let '(wait_us, t) := poll_tx pi MAX_TX_TMST_WAIT_MICROSECS 0 in
  if (MAX_TX_TMST_WAIT_MICROSECS <=? wait_us)%nat then TxTimestampInvalid else TxTimestamp t wait_us.

Definition add_flag (flag : Z) (mb : mbuf) : mbuf :=
  Mbuf (segs mb) (nb_segs mb) (pkt_len mb) (Z.lor (ol_flags mb) flag) (l2_len mb) (l3_len mb)
    (vlan_tci mb) (vlan_tci_outer mb) (packet_type mb) (offload mb).

Definition ieee1588_packet_fwd (fs : fwd_stream) (d : dev) : outcome (burst_result * list ptp_report) :=
  let '(pkts, d) := rx_burst d (rx_port fs) (rx_queue fs) 1 in
  match pkts with
  | [] => Done (BurstResult fs d [] [], [])
  | mb :: _ =>
      let fs := count_rx 1 fs in
      let drop reports := Done (BurstResult fs d [] [mb], reports) in
      b ← mtod mb;
      eth_type ← rd_be16 b 12;
      if negb (has_flag (ol_flags mb) PKT_RX_IEEE1588_PTP) then
        drop [if eth_type =? ETHER_TYPE_1588 then NotFilteredByHardware else NonPtpPacket eth_type (pkt_len mb)]
      else if negb (eth_type =? ETHER_TYPE_1588) then drop [WronglyDetected]
      else
        version ← rd8 b (ETHER_HDR_LEN + 1);
        if negb (version =? 2) then drop [WrongVersion version]
        else
          msg_id ← rd8 b ETHER_HDR_LEN;
          if negb (msg_id =? PTP_SYNC_MESSAGE) then drop [UnexpectedMessage msg_id]
          else if negb (has_flag (ol_flags mb) PKT_RX_IEEE1588_TMST) then drop [SyncFiltered; NotTimestamped]
          else
            let rx := port_ieee1588_rx_timestamp_check (rx_port fs) (Z.land (timesync mb) 3) in
            b ← swap_addrs b;
            let mb := add_flag PKT_TX_IEEE1588_TMST (set_mtod mb b) in
            let fs := count_tx 1 fs in
            let '(n, d) := tx_burst d (rx_port fs) (tx_queue fs) [mb] in
            if (n =? 0)%nat then
              Done (BurstResult (count_dropped 1 fs) d [] [mb], [SyncFiltered; rx; SentPacketDropped])
            else
              Done (BurstResult fs d [mb] [],
                    [SyncFiltered; rx; port_ieee1588_tx_timestamp_check (rx_port fs)])
  end.

(** ** Specification *)

(** A frame that is answered: its flags, and what its bytes say after the
    addresses. *)
Definition answered (mb : mbuf) (rest : list Z) : Prop :=
  has_flag (ol_flags mb) PKT_RX_IEEE1588_PTP = true /\ has_flag (ol_flags mb) PKT_RX_IEEE1588_TMST = true /\
  take 4 rest = [0x88; 0xF7; PTP_SYNC_MESSAGE; 2].

#[export] Instance answered_dec mb rest : Decision (answered mb rest).
Proof. unfold answered. apply _. Defined.

(** What a poll reports: the first timestamp within the time, or that there
    is none. *)
Definition tx_report (pi : Z) (r : ptp_report) : Prop :=
  (exists k t, (k < MAX_TX_TMST_WAIT_MICROSECS)%nat /\ read_tx_timestamp pi k = Some t /\
     (forall j, (j < k)%nat -> read_tx_timestamp pi j = None) /\ r = TxTimestamp t k) \/
  ((forall j, (j < MAX_TX_TMST_WAIT_MICROSECS)%nat -> read_tx_timestamp pi j = None) /\ r = TxTimestampInvalid).

(** The answer to a frame: its addresses exchanged, and a timestamp asked
    for. *)
Definition answer_of (mb : mbuf) (da sa rest : list Z) : mbuf :=
  add_flag PKT_TX_IEEE1588_TMST (set_mtod mb (sa ++ da ++ rest)).

(** What a burst does once the device, then [d], has delivered: nothing
    without a packet; a frame that is no sync message is freed and the reason
    told, and the device left alone; for any other the answer is given to the
    port it came from, and it is sent or, if the device does not take it,
    freed and counted. *)
Inductive ptp_burst (fs : fwd_stream) (d : dev) : list mbuf -> burst_result * list ptp_report -> Prop :=
| no_packet : ptp_burst fs d [] (BurstResult fs d [] [], [])
| refused mb da sa rest len tl why :
    segs mb = Seg (da ++ sa ++ rest) len :: tl -> length da = 6%nat -> length sa = 6%nat -> ~ answered mb rest -> why <> [] ->
    ptp_burst fs d [mb] (BurstResult (count_rx 1 fs) d [] [mb], why)
| sent_back mb da sa rest len tl n d' tx :
    segs mb = Seg (da ++ sa ++ rest) len :: tl -> length da = 6%nat -> length sa = 6%nat -> answered mb rest ->
    tx_burst d (rx_port fs) (tx_queue fs) [answer_of mb da sa rest] = (n, d') -> n <> 0%nat ->
    tx_report (rx_port fs) tx ->
    ptp_burst fs d [mb] (BurstResult (count_tx 1 (count_rx 1 fs)) d' [answer_of mb da sa rest] [],
       [SyncFiltered; port_ieee1588_rx_timestamp_check (rx_port fs) (Z.land (timesync mb) 3); tx])
| not_taken mb da sa rest len tl d' :
    segs mb = Seg (da ++ sa ++ rest) len :: tl -> length da = 6%nat -> length sa = 6%nat -> answered mb rest ->
    tx_burst d (rx_port fs) (tx_queue fs) [answer_of mb da sa rest] = (0%nat, d') ->
    ptp_burst fs d [mb] (BurstResult (count_dropped 1 (count_tx 1 (count_rx 1 fs))) d' [] [answer_of mb da sa rest],
       [SyncFiltered; port_ieee1588_rx_timestamp_check (rx_port fs) (Z.land (timesync mb) 3); SentPacketDropped]).

(** ** Lemmas *)

Lemma poll_tx_spec pi remaining wait_us :
  (forall j, (j < wait_us)%nat -> read_tx_timestamp pi j = None) ->
  let '(w, t) := poll_tx pi remaining wait_us in
  (wait_us <= w <= wait_us + remaining)%nat /\ (forall j, (j < w)%nat -> read_tx_timestamp pi j = None) /\
  ((w < wait_us + remaining)%nat -> read_tx_timestamp pi w = Some t).
Proof.
  revert wait_us. induction remaining as [|remaining IH]; intros wait_us Hj; cbn [poll_tx];
    destruct (read_tx_timestamp pi wait_us) as [t|] eqn:E; try (split_and!; [lia|lia|done|done || lia]).
  specialize (IH (S wait_us)). destruct (poll_tx pi remaining (S wait_us)) as [w t].
  destruct IH as (H1 & H2 & H3).
  { intros j Hlt. destruct (decide (j = wait_us)) as [->|]; [done|]. apply Hj. lia. }
  split_and!; [lia|lia|done|]. intros Hw. apply H3. lia.
Qed.

Lemma tx_timestamp_check_spec pi : tx_report pi (port_ieee1588_tx_timestamp_check pi).
Proof.
  unfold port_ieee1588_tx_timestamp_check. set (n := MAX_TX_TMST_WAIT_MICROSECS) at 1.
  pose proof (poll_tx_spec pi n 0 ltac:(lia)) as Hp. destruct (poll_tx pi n 0) as [w t]. destruct Hp as (H1 & H2 & H3).
  unfold tx_report. destruct (Nat.leb_spec MAX_TX_TMST_WAIT_MICROSECS w) as [Hw|Hw].
  - right. split; [|done]. intros j Hj. apply H2. lia.
  - left. exists w, t. split_and!; [done|apply H3; unfold n; lia|done|done].
Qed.

(** The bytes after the addresses. *)
Lemma mtod_seg mb b len tl : segs mb = Seg b len :: tl -> mtod mb = Done b.
Proof. intros E. unfold mtod. by rewrite E. Qed.

Lemma rd_rest da sa rest o n :
  length da = 6%nat -> length sa = 6%nat -> 0 <= o -> rd (da ++ sa ++ rest) (12 + o) n = rd rest o n.
Proof.
  intros Hd Hs Ho. unfold rd. rewrite !length_app, Hd, Hs.
  replace (0 <=? 12 + o) with true by (symmetry; apply Z.leb_le; lia).
  replace (0 <=? o) with true by (symmetry; by apply Z.leb_le).
  replace (12 + o + n <=? Z.of_nat (6 + (6 + length rest))) with (o + n <=? Z.of_nat (length rest))
    by (destruct (Z.leb_spec (o + n) (Z.of_nat (length rest))), (Z.leb_spec (12 + o + n) (Z.of_nat (6 + (6 + length rest)))); lia).
  destruct (_ && _); [|done]. f_equal. f_equal. replace (Z.to_nat (12 + o)) with (length (da ++ sa) + Z.to_nat o)%nat
    by (rewrite length_app; lia).
  by rewrite app_assoc, drop_app_add.
Qed.

Lemma zget_rest (da sa rest : list Z) o :
  length da = 6%nat -> length sa = 6%nat -> 0 <= o -> zget (da ++ sa ++ rest) (12 + o) = zget rest o.
Proof.
  intros Hd Hs Ho. unfold zget. destruct (Z.leb_spec 0 (12 + o)), (Z.leb_spec 0 o); try lia.
  rewrite app_assoc, lookup_app_r by (rewrite length_app; lia). f_equal. rewrite length_app. lia.
Qed.
End Ieee1588.

(** ** Properties *)

(** C33: Whatever the device delivers and takes, and whatever its registers
    answer, a burst of the PTP engine does what [ptp_burst] says: exactly for
    the sync messages that the hardware recognised and timestamped [tx_burst]
    is called, once, on the port and the queue of the stream that they came
    by, with the message whose addresses are exchanged and for which a
    timestamp is asked; it is sent exactly if the device takes it, and else
    freed and counted; every other packet is freed; and the poll ends with
    the first timestamp there is within a millisecond. *)
Theorem ieee1588_answers `{Ethdev} ptp rx_tmst tx_tmst timesync read_rx read_tx fs (d : dev)
    (Hb : forall mb, In mb (rx_burst d (rx_port fs) (rx_queue fs) 1).1 ->
      exists a0 a1 a2 a3 rest da sa len tl, segs mb = Seg (da ++ sa ++ a0 :: a1 :: a2 :: a3 :: rest) len :: tl /\
        length da = 6%nat /\ length sa = 6%nat /\ 0 <= a0 < 256 /\ 0 <= a1 < 256) :
  exists r, ieee1588_packet_fwd ptp rx_tmst tx_tmst timesync read_rx read_tx fs d = Done r /\
    let '(pkts, d1) := rx_burst d (rx_port fs) (rx_queue fs) 1 in
    ptp_burst ptp rx_tmst tx_tmst timesync read_rx read_tx fs d1 pkts r.
Proof.
  unfold ieee1588_packet_fwd. pose proof (rx_burst_max d (rx_port fs) (rx_queue fs) 1 ltac:(lia)) as Hmax.
  destruct (rx_burst d (rx_port fs) (rx_queue fs) 1) as [pkts d1]. cbn [fst] in *.
  destruct pkts as [|mb pkts]; [eexists; split; [done|constructor]|].
  destruct pkts; [|cbn in Hmax; lia]. clear Hmax.
  destruct (Hb mb ltac:(by left)) as (a0 & a1 & a2 & a3 & rest & da & sa & len & tl & Hs & Hda & Hsa & H0 & H1). clear Hb.
  rewrite (mtod_seg _ _ _ _ Hs). cbn [mbind outcome_bind]. unfold rd_be16, rd8, ETHER_HDR_LEN.
  change 12 with (12 + 0) at 1. change (14 + 1) with (12 + 3). change 14 with (12 + 2) at 1.
  rewrite rd_rest, !zget_rest by (done || lia). cbn [of_opt mbind outcome_bind].
  set (frest := a0 :: a1 :: a2 :: a3 :: rest) in *.
  assert (R : rd frest 0 2 = Some [a0; a1]).
  { apply rd_Some. cbn [length frest]. split_and!; [lia|lia|lia|done]. }
  rewrite R. change (zget frest 3) with (Some a3). change (zget frest 2) with (Some a2). cbn [of_opt mbind outcome_bind of_be16].
  assert (Hno : forall why, why <> [] -> ~ answered ptp rx_tmst mb frest ->
    exists r, Done (BurstResult (count_rx 1 fs) d1 [] [mb], why) = Done r /\
      ptp_burst ptp rx_tmst tx_tmst timesync read_rx read_tx fs d1 [mb] r).
  { intros why Hw Ha. eexists. split; [done|]. by eapply refused. }
  destruct (has_flag (ol_flags mb) ptp) eqn:Hptp; cbn [negb]; [|apply Hno; [done|intros (E & _); congruence]].
  destruct (Z.eqb_spec (256 * a0 + a1) ETHER_TYPE_1588) as [Ht|Ht]; cbn [negb].
  2: { apply Hno; [done|]. intros (_ & _ & E). injection E as -> -> _ _. by apply Ht. }
  assert (Ha : a0 = 0x88 /\ a1 = 0xF7) by (unfold ETHER_TYPE_1588 in Ht; lia). destruct Ha as [-> ->].
  destruct (Z.eqb_spec a3 2) as [->|Hv]; cbn [negb]; [|apply Hno; [done|intros (_ & _ & E); injection E; done]].
  destruct (Z.eqb_spec a2 PTP_SYNC_MESSAGE) as [->|Hm]; cbn [negb]; [|apply Hno; [done|intros (_ & _ & E); injection E; done]].
  destruct (has_flag (ol_flags mb) rx_tmst) eqn:Hts; cbn [negb]; [|apply Hno; [done|intros (_ & E & _); congruence]].
  rewrite swap_addrs_eq by done. cbn [mbind outcome_bind].
  assert (Hans : answered ptp rx_tmst mb frest) by done.
  change (rx_port (count_tx 1 (count_rx 1 fs))) with (rx_port fs). change (rx_port (count_rx 1 fs)) with (rx_port fs).
  change (tx_queue (count_tx 1 (count_rx 1 fs))) with (tx_queue fs).
  destruct (tx_burst _ _ _ _) as [n d2] eqn:E. destruct (Nat.eqb_spec n 0) as [->|Hn].
  - eexists. split; [done|]. by eapply not_taken.
  - eexists. split; [done|]. eapply sent_back; [done..|]. apply tx_timestamp_check_spec.
Qed.

(** A timestamp that is there at the last read is called invalid all the
    same. *)
Theorem last_timestamp_refused read_tx pi t :
  (forall j, (j < MAX_TX_TMST_WAIT_MICROSECS)%nat -> read_tx pi j = None) ->
  read_tx pi MAX_TX_TMST_WAIT_MICROSECS = Some t ->
  poll_tx read_tx pi MAX_TX_TMST_WAIT_MICROSECS 0 = (MAX_TX_TMST_WAIT_MICROSECS, t) /\
  port_ieee1588_tx_timestamp_check read_tx pi = TxTimestampInvalid.
Proof.
  intros Hj Ht. assert (E : forall k w, (w + k = MAX_TX_TMST_WAIT_MICROSECS)%nat ->
    poll_tx read_tx pi k w = (MAX_TX_TMST_WAIT_MICROSECS, t)).
  { induction k as [|k IH]; intros w Hw; cbn [poll_tx].
    - replace w with MAX_TX_TMST_WAIT_MICROSECS by lia. by rewrite Ht.
    - rewrite Hj by lia. apply IH. lia. }
  unfold port_ieee1588_tx_timestamp_check. rewrite E by lia. split; [done|]. by rewrite Nat.leb_refl.
Qed.

(** A packet that the device does not take counts as sent and as dropped. *)
Theorem dropped_counts_as_sent fs :
  counters_ok fs -> tx_packets fs + 1 < 2 ^ 32 -> fwd_dropped fs + 1 < 2 ^ 32 ->
  let fs' := count_dropped 1 (count_tx 1 (count_rx 1 fs)) in
  tx_packets fs' = tx_packets fs + 1 /\ fwd_dropped fs' = fwd_dropped fs + 1.
Proof. intros (_ & Ht & Hd) H1 H2. cbn. rewrite !u32_small by lia. done. Qed.

(** ** Witnesses *)

Definition ptp_mbuf (flags : Z) : mbuf :=
  Mbuf [Seg ([1; 1; 1; 1; 1; 1] ++ [2; 2; 2; 2; 2; 2] ++ [0x88; 0xF7; 0; 2; 0; 0]) 18] 1 18 flags 0 0 0 0 0 no_offload.

Lemma ieee1588_answers_witness :
  exists r, @ieee1588_packet_fwd sample_ethdev (2 ^ 9) (2 ^ 10) (2 ^ 51) (fun _ => 0) (fun _ _ => Some (5, 7))
      (fun _ k => if (k =? 3)%nat then Some (6, 8) else None) sample_fs [ptp_mbuf (2 ^ 9 + 2 ^ 10)] = Done r /\
    r.2 = [SyncFiltered; RxTimestamp (5, 7); TxTimestamp (6, 8) 3] /\
    @ptp_burst sample_ethdev (2 ^ 9) (2 ^ 10) (2 ^ 51) (fun _ => 0) (fun _ _ => Some (5, 7))
      (fun _ k => if (k =? 3)%nat then Some (6, 8) else None) sample_fs
      [] [ptp_mbuf (2 ^ 9 + 2 ^ 10)] r.
Proof.
  destruct (@ieee1588_answers sample_ethdev (2 ^ 9) (2 ^ 10) (2 ^ 51) (fun _ => 0) (fun _ _ => Some (5, 7))
    (fun _ k => if (k =? 3)%nat then Some (6, 8) else None) sample_fs [ptp_mbuf (2 ^ 9 + 2 ^ 10)]) as (r & E & Hr).
  - intros mb Hin. destruct Hin as [<-|[]]. exists 0x88, 0xF7, 0, 2, [0; 0], [1; 1; 1; 1; 1; 1], [2; 2; 2; 2; 2; 2], 18, [].
    split_and!; done.
  - exists r. split; [exact E|]. split; [|exact Hr]. vm_compute in E. injection E as <-. reflexivity.
Defined.
