(* ===== verification/AnonPool.v ===== *)
(** * test-pmd/mempool_anon.c: packet pools in anonymous memory

    A pool is put into memory that the program maps itself: the physical
    addresses of its pages are read from the kernel, the pages that are not
    needed are unmapped, and whatever fails, the rest is unmapped too.  The
    mapping calls are recorded in the order they are made. *)

From S2P Require Import Prelude.

#[local] Open Scope Z_scope.
#[local] Open Scope list_scope.

(** ** Data *)

Inductive map_event : Type :=
| Mmap (va size : Z)
| Munmap (va size : Z)
| PoolOver (va : Z) (pa : list Z) (pg_num : Z).

Definition ENOENT : Z := 2.
Definition ENOMEM : Z := 12.
Definition EINVAL : Z := 22.

(** The result: the size of the pool that was created, [rte_errno] if it was
    set, and the calls. *)
Record anon_result : Type := AnonResult { ar_pool : option Z; ar_errno : option Z; ar_events : list map_event }.

Definition PAGEMAP_PFN_BITS : Z := 54.
Definition PAGEMAP_PFN_MASK : Z := 2 ^ PAGEMAP_PFN_BITS - 1.

(** ** Operations *)

Section Anon.
(** The kernel: the size of a page, whether the page map can be opened, the
    result of reading it (bytes, offset) with the array afterwards, the
    address of a mapping, and whether there is memory for the array. *)
Variables (getpagesize : Z) (pagemap_opens : bool) (pread : Z -> Z -> Z * list Z) (mmap : Z -> option Z) (calloc_ok : bool).
(** DPDK: properties of page sizes and the sizes of pools; [xmem_create] gives
    the size of the pool. *)
Variables (rte_is_power_of_2 : Z -> bool) (rte_bsf32 : Z -> Z) (calc_obj_size : Z -> Z) (xmem_size : Z -> Z -> Z -> Z).
Variables (xmem_usage : Z -> Z -> Z -> list Z -> Z -> Z -> Z) (xmem_create : Z -> list Z -> Z -> option Z).

(** The result, and the array [pa]. *)
Definition get_phys_map (va : Z) (pa : list Z) (pg_num pg_sz : Z) : Z * list Z :=
  let ofs := va / pg_sz * 8 in
  let nb := u32 (pg_num * 8) in
  if negb pagemap_opens then (ENOENT, pa)
  else
    let '(rc, pa) := pread nb ofs in
    let rc := if (rc <? 0) || negb (u32 (rc - nb) =? 0) then ENOENT else 0 in
    (rc, (fun e => u64 (Z.land e PAGEMAP_PFN_MASK * pg_sz)) <$> pa).

(** What follows the mapping at [va] of [sz] bytes: the error, the pool, the
    size that is still mapped, and the calls made. *)
Definition fill_mapping (elt_num total_size va sz pg_num pg_sz pg_shift : Z) : Z * option Z * Z * list map_event :=
  if negb calloc_ok then (ENOMEM, None, sz, [])
  else
    let '(rc, pa) := get_phys_map va (replicate (Z.to_nat pg_num) 0) pg_num pg_sz in
    if negb (rc =? 0) then (rc, None, sz, [])
    else
      let usz := xmem_usage va elt_num total_size pa pg_num pg_shift in
      if usz <? 0 then (ENOENT, None, sz, [])
      else
        let '(sz, pg_num, evs) :=
          if usz <? sz then (usz, u32 (Z.shiftr usz pg_shift), [Munmap (va + usz) (sz - usz)]) else (sz, pg_num, []) in
        match xmem_create va pa pg_num with
        | Some size => (rc, Some size, sz, evs ++ [PoolOver va pa pg_num])
        | None => (rc, None, sz, evs)
        end.

Definition mempool_anon_create (elt_num elt_size : Z) : outcome anon_result :=
  let pg_sz := getpagesize in
  if negb (rte_is_power_of_2 pg_sz) then Done (AnonResult None (Some EINVAL) [])
  else
    let pg_shift := rte_bsf32 pg_sz in
    let total_size := calc_obj_size elt_size in
    let sz := xmem_size elt_num total_size pg_shift in
    let pg_num := u32 (Z.shiftr sz pg_shift) in
    match mmap sz with
    | None => Done (AnonResult None (Some ENOMEM) [])
    | Some va =>
        let '(rc, mp, sz', evs) := fill_mapping elt_num total_size va sz pg_num pg_sz pg_shift in
        match mp with
        | Some size =>
            _ ← c_assert (elt_num =? size);
            Done (AnonResult mp None (Mmap va sz :: evs))
        | None => Done (AnonResult None (Some rc) (Mmap va sz :: evs ++ [Munmap va sz']))
        end
    end.
End Anon.

(** ** Specification *)

(** Whether an address is mapped after the calls. *)
Definition inside (va size a : Z) : bool := (va <=? a) && (a <? va + size).

Definition map_step (m : bool) (a : Z) (e : map_event) : bool :=
  match e with
  | Mmap va size => m || inside va size a
  | Munmap va size => m && negb (inside va size a)
  | PoolOver _ _ _ => m
  end.

Definition mapped (evs : list map_event) (a : Z) : bool := foldl (fun m e => map_step m a e) false evs.

(** What DPDK documents: page sizes are powers of two with the exponent that
    [rte_bsf32] gives, and the memory a pool needs is a number of whole
    pages, less than 2^32. *)
Record anon_doc (pow2 : Z -> bool) (bsf32 : Z -> Z) (xmem_size : Z -> Z -> Z -> Z)
    (xmem_usage : Z -> Z -> Z -> list Z -> Z -> Z -> Z) (xmem_create : Z -> list Z -> Z -> option Z) : Prop := {
  ad_pow2 n : pow2 n = true -> 0 <= bsf32 n /\ n = 2 ^ bsf32 n;
  ad_size n t s : exists k, 0 <= k < 2 ^ 32 /\ xmem_size n t s = k * 2 ^ s;
  ad_usage va n t pa k s : 0 <= xmem_usage va n t pa k s -> exists u, 0 <= u < 2 ^ 32 /\ xmem_usage va n t pa k s = u * 2 ^ s;
}.

(** ** Lemmas *)

Lemma inside_spec va size a : inside va size a = true <-> va <= a < va + size.
Proof. unfold inside. destruct (Z.leb_spec va a), (Z.ltb_spec a (va + size)); cbn; split; intros; (done || lia). Qed.

Lemma map_keep va size a evs :
  (forall e, e ∈ evs -> exists v pa n, e = PoolOver v pa n) ->
  foldl (fun m e => map_step m a e) (inside va size a) evs = inside va size a.
Proof.
  generalize (inside va size a). induction evs as [|e evs IH]; intros m He; [done|]. cbn [foldl].
  destruct (He e) as (v & pa & n & ->); [by left|]. cbn [map_step]. apply IH. intros e' Hin. apply He. by right.
Qed.

(** Unmapping the end of a mapping. *)
Lemma inside_shrink va size usz a :
  0 <= usz -> usz < size -> inside va size a && negb (inside (va + usz) (size - usz) a) = inside va usz a.
Proof.
  intros H0 H. unfold inside.
  destruct (Z.leb_spec va a), (Z.ltb_spec a (va + size)), (Z.leb_spec (va + usz) a),
    (Z.ltb_spec a (va + usz + (size - usz))), (Z.ltb_spec a (va + usz)); cbn; (done || lia).
Qed.

Lemma shift_pages k s : 0 <= s -> 0 <= k < 2 ^ 32 -> u32 (Z.shiftr (k * 2 ^ s) s) = k.
Proof. intros Hs Hk. rewrite Z.shiftr_div_pow2, Z.div_mul by (try apply Z.pow_nonzero; lia). by apply u32_small. Qed.

Section Filled.
Context (opens calloc : bool) (pread : Z -> Z -> Z * list Z) (pow2 : Z -> bool) (bsf32 : Z -> Z) (xsize : Z -> Z -> Z -> Z).
Context (usage : Z -> Z -> Z -> list Z -> Z -> Z -> Z) (create : Z -> list Z -> Z -> option Z).
Context (Hdoc : anon_doc pow2 bsf32 xsize usage create).

(** After the mapping has been filled: what is mapped is [va, va + sz'), and
    it is what a pool was created over. *)
Lemma fill_mapping_spec elt total va k s :
  0 <= s -> 0 <= k < 2 ^ 32 ->
  let '(rc, mp, sz', evs) := fill_mapping opens pread calloc usage create elt total va (k * 2 ^ s) k (2 ^ s) s in
  (forall a, foldl (fun m e => map_step m a e) (inside va (k * 2 ^ s) a) evs = inside va sz' a) /\
  (mp = None -> forall e, e ∈ evs -> exists v z, e = Munmap v z) /\
  (mp <> None -> rc = 0 /\ exists pa n, sz' = n * 2 ^ s /\ PoolOver va pa n ∈ evs /\ create va pa n = mp).
Proof.
  intros Hs Hk. unfold fill_mapping. destruct calloc; cbn [negb].
  2: { split; [done|]. split; [intros _ e []%not_elem_of_nil|done]. }
  destruct (get_phys_map opens pread va _ k (2 ^ s)) as [rc pa]. destruct (Z.eqb_spec rc 0) as [->|]; cbn [negb].
  2: { split; [done|]. split; [intros _ e []%not_elem_of_nil|done]. }
  set (usz := usage va elt total pa k s). destruct (Z.ltb_spec usz 0) as [|Hu].
  { split; [done|]. split; [intros _ e []%not_elem_of_nil|done]. }
  destruct (ad_usage _ _ _ _ _ Hdoc va elt total pa k s Hu) as (u & Hu0 & Eu). fold usz in Eu.
  destruct (Z.ltb_spec usz (k * 2 ^ s)) as [Hlt|Hge].
  - replace (u32 (Z.shiftr usz s)) with u by (rewrite Eu; symmetry; by apply shift_pages).
    destruct (create va pa u) as [size|] eqn:Ec.
    + split; [|split; [done|]].
      * intros a. cbn [app foldl map_step]. by apply inside_shrink.
      * intros _. split; [done|]. exists pa, u. split_and!; [done| |done]. right. by left.
    + split; [|split; [|done]].
      * intros a. cbn [foldl map_step]. by apply inside_shrink.
      * intros _ e He. apply list_elem_of_singleton in He as ->. eauto.
  - destruct (create va pa k) as [size|] eqn:Ec.
    + split; [done|]. split; [done|]. intros _. split; [done|]. exists pa, k. split_and!; [done|by left|done].
    + split; [done|]. split; [intros _ e []%not_elem_of_nil|done].
Qed.
End Filled.

(** ** Properties *)

(** C37: Whatever the kernel and DPDK answer, a pool in anonymous memory leaves
    mapped exactly the pages it was created over; when no pool comes out of
    it nothing stays mapped, and the error number is written.  The function
    always returns, except that its assertion fails for a pool of another
    size than asked.  The physical addresses that the pool is given are not
    part of the statement. *)
Theorem anon_pool_maps pg opens pread mmap calloc pow2 bsf32 osize xsize usage create elt_num elt_size
    (Hdoc : anon_doc pow2 bsf32 xsize usage create) :
  match mempool_anon_create pg opens pread mmap calloc pow2 bsf32 osize xsize usage create elt_num elt_size with
  | Done r =>
      match ar_pool r with
      | Some size => size = elt_num /\ exists va pa n, PoolOver va pa n ∈ ar_events r /\ create va pa n = Some size /\
          forall a, mapped (ar_events r) a = true <-> va <= a < va + n * pg
      | None => ar_errno r <> None /\ forall a, mapped (ar_events r) a = false
      end
  | Aborted => exists va pa n size, create va pa n = Some size /\ size <> elt_num
  | Undefined => False
  end.
Proof.
  unfold mempool_anon_create. destruct (pow2 pg) eqn:Hp; cbn [negb]; [|done].
  destruct (ad_pow2 _ _ _ _ _ Hdoc pg Hp) as [Hs Epg]. set (s := bsf32 pg) in *.
  destruct (ad_size _ _ _ _ _ Hdoc elt_num (osize elt_size) s) as (k & Hk & Ek). rewrite Ek, shift_pages by done.
  destruct (mmap (k * 2 ^ s)) as [va|]; [|done].
  pose proof (fill_mapping_spec opens calloc pread pow2 bsf32 xsize usage create Hdoc elt_num (osize elt_size) va k s Hs Hk) as Hf.
  rewrite Epg. destruct (fill_mapping _ _ _ _ _ _ _ _ _ _ _ _) as [[[rc mp] sz'] evs]. destruct Hf as (Hm & Hn & Hy).
  destruct mp as [size|].
  - destruct (Hy ltac:(done)) as (_ & pa & n & -> & Hin & Hc).
    destruct (Z.eqb_spec elt_num size) as [->|Hne]; cbn [c_assert mbind outcome_bind ar_pool ar_events].
    + split; [done|]. exists va, pa, n.
      split_and!; [by right|done|]. intros a. unfold mapped. cbn [foldl map_step orb]. rewrite Hm. apply inside_spec.
    + exists va, pa, n, size. by split; [|intros ->].
  - cbn [ar_pool ar_errno ar_events]. split; [done|]. intros a. unfold mapped. cbn [foldl map_step orb].
    rewrite foldl_app, Hm. cbn [foldl map_step]. apply andb_negb_r.
Qed.

(** When DPDK does not create the pool, the error that is set is none. *)
Theorem create_failure_sets_no_error pg pread mmap pow2 bsf32 osize xsize usage create elt_num elt_size va
    (Hp : pow2 pg = true) (Hm : mmap (xsize elt_num (osize elt_size) (bsf32 pg)) = Some va)
    (Hread : forall nb ofs, (pread nb ofs).1 = nb)
    (Husage : forall pa k, 0 <= usage va elt_num (osize elt_size) pa k (bsf32 pg))
    (Hc : forall pa k, create va pa k = None) :
  exists evs, mempool_anon_create pg true pread mmap true pow2 bsf32 osize xsize usage create elt_num elt_size =
    Done (AnonResult None (Some 0) evs).
Proof.
  unfold mempool_anon_create. rewrite Hp, Hm. cbn [negb]. unfold fill_mapping, get_phys_map. cbn [negb].
  set (nb := u32 (_ * 8)). specialize (Hread nb (va / pg * 8)). destruct (pread nb _) as [rc pa]. cbn [fst] in Hread. subst rc.
  rewrite Z.sub_diag. pose proof (u32_range (u32 (Z.shiftr (xsize elt_num (osize elt_size) (bsf32 pg)) (bsf32 pg)) * 8)) as Hr.
  fold nb in Hr. destruct (Z.ltb_spec nb 0); [lia|]. change (u32 0 =? 0) with true. cbn [negb orb].
  change (0 =? 0) with true. cbn [negb].
  match goal with |- context [usage va elt_num ?t ?pa ?k ?s <? 0] =>
    pose proof (Husage pa k) as Hu; destruct (Z.ltb_spec (usage va elt_num t pa k s) 0); [lia|] end.
  destruct (_ <? xsize _ _ _); rewrite Hc; by eexists.
Qed.

(** ** Witnesses *)

(** Pages of 4096 bytes; a pool of 10 objects is thought to need three pages
    and needs two. *)
Definition sample_anon (creates : bool) : outcome anon_result :=
  mempool_anon_create 4096 true (fun nb _ => (nb, [7; 9; 11])) (fun _ => Some 65536) true (Z.eqb 4096) (fun _ => 12) (fun s => s)
    (fun _ _ s => 3 * 2 ^ s) (fun _ _ _ _ _ s => 2 * 2 ^ s) (fun _ _ _ => if creates then Some 10 else None) 10 500.

Lemma sample_anon_doc creates :
  anon_doc (Z.eqb 4096) (fun _ => 12) (fun _ _ s => 3 * 2 ^ s) (fun _ _ _ _ _ s => 2 * 2 ^ s)
    (fun _ _ _ => if creates : bool then Some 10 else None).
Proof.
  split.
  - intros n Hn. apply Z.eqb_eq in Hn. subst. done.
  - intros. exists 3. lia.
  - intros. exists 2. lia.
Qed.

Lemma anon_pool_maps_witness :
  match sample_anon true with
  | Done r => ar_pool r = Some 10 /\ exists va pa n, PoolOver va pa n ∈ ar_events r /\ n = 2 /\ va = 65536 /\
      mapped (ar_events r) (65536 + 8191) = true /\ mapped (ar_events r) (65536 + 8192) = false
  | _ => False
  end /\
  match sample_anon false with
  | Done r => ar_pool r = None /\ mapped (ar_events r) 65536 = false
  | _ => False
  end.
Proof.
  split.
  - assert (H := anon_pool_maps 4096 true (fun nb _ => (nb, [7; 9; 11])) (fun _ => Some 65536) true _ _ (fun s => s) _ _ _ 10 500
      (sample_anon_doc true)).
    change (mempool_anon_create _ _ _ _ _ _ _ _ _ _ _ _ _) with (sample_anon true) in H.
    destruct (sample_anon true) as [r| |] eqn:E; [|vm_compute in E; discriminate E..]. vm_compute in E. injection E as <-. destruct H as (_ & va & pa & n & Hin & _ & _).
    split; [reflexivity|]. exists va, pa, n. split; [exact Hin|].
    cbn [ar_events] in Hin. repeat (apply elem_of_cons in Hin as [Hin|Hin]; [|]);
      try discriminate Hin; try (by apply not_elem_of_nil in Hin). injection Hin as -> -> ->. split_and!; reflexivity.
  - assert (H := anon_pool_maps 4096 true (fun nb _ => (nb, [7; 9; 11])) (fun _ => Some 65536) true _ _ (fun s => s) _ _ _ 10 500
      (sample_anon_doc false)).
    change (mempool_anon_create _ _ _ _ _ _ _ _ _ _ _ _ _) with (sample_anon false) in H.
    destruct (sample_anon false) as [r| |] eqn:E; [|vm_compute in E; discriminate E..]. vm_compute in E. injection E as <-. cbn [ar_pool] in H. destruct H as [_ Hm]. split; [reflexivity|]. apply Hm.
Defined.
