(* ===== verification/RxOnly.v ===== *)
(** * test-pmd/rxonly.c: the dump of received packets

    With a verbose level the engine of FwdEngines.v describes every packet
    before it frees it.  What is printed is a list of [rx_item]; the numbers
    of packet types and flags, their names and the hash of a packet are
    DPDK's.  Headers are read from the data room without looking at the
    length of the packet. *)

From stdpp Require Import strings.
From S2P Require Import Prelude Packet FwdEngines CsumOnly.

#[local] Open Scope Z_scope.
#[local] Open Scope list_scope.

(** ** Data *)

Inductive layer : Type := OuterL2 | OuterL3 | OuterL4 | Tunnel | InnerL2 | InnerL3 | InnerL4.

(** The names of the cases of each [switch]. *)
Definition l3_names : list string := ["IPV4"; "IPV4_EXT"; "IPV6"; "IPV4_EXT_UNKNOWN"; "IPV6_EXT"; "IPV6_EXT_UNKNOWN"]%string.
Definition l4_names : list string := ["TCP"; "UDP"; "L4_FRAG"; "SCTP"; "ICMP"; "L4_NONFRAG"]%string.
Definition layers : list (layer * list string) := [
  (OuterL2, ["ETHER"; "ETHER_Timesync"; "ETHER_ARP"; "ETHER_LLDP"]); (OuterL3, l3_names); (OuterL4, l4_names);
  (Tunnel, ["IP"; "GRE"; "VXLAN"; "NVGRE"; "GENEVE"; "GRENAT"]); (InnerL2, ["ETHER"; "ETHER_VLAN"]);
  (InnerL3, l3_names); (InnerL4, l4_names)]%string.

(** [mb->hash] *)
Record rx_hash : Type := RxHash { hash_rss : Z; fdir_hi : Z; fdir_lo : Z; fdir_hash : Z; fdir_id : Z }.

Inductive rx_item : Type :=
| ReceivedPackets (port queue n : Z)
| Addresses (src dst : list Z)
| TypeLength (eth_type len nb_segs : Z)
| RssHash (hash queue : Z)
| FdirId (hi : Z)
| FdirFlex (hi lo : Z)
| FdirHash (hash id : Z)
| FdirMatched
| VlanTci (tci : Z)
| QinqTci (tci outer : Z)
| LayerType (l : layer) (name : string)
| UnknownPacketType
| VxlanPacket (packet_type dst_port vni : Z)
| ReceiveQueue (queue : Z)
| FlagName (name : string).

(** ** The dump *)

Section Dump.
Context `{Ethdev}.
Variables (RX_RSS_HASH RX_FDIR RX_FDIR_ID RX_FDIR_FLX RX_VLAN_PKT RX_QINQ_PKT : Z) (hash : mbuf -> rx_hash).
(** The mask of a layer and its types by name. *)
Variables (PTYPE_MASK : layer -> Z) (PTYPE : layer -> string -> Z).
Variables (IS_TUNNEL_PKT IS_IPV4_HDR : Z -> bool) (rte_get_rx_ol_flag_name : Z -> option string).

Definition layer_type (packet_type : Z) (l : layer * list string) : rx_item :=
  let ptype := Z.land packet_type (PTYPE_MASK l.1) in
  LayerType l.1 (default "Unknown"%string (List.find (fun n => PTYPE l.1 n =? ptype) l.2)).

Definition hash_items (fs : fwd_stream) (mb : mbuf) : list rx_item :=
  let flags := ol_flags mb in
  let h := hash mb in
  if has_flag flags RX_RSS_HASH then [RssHash (hash_rss h) (rx_queue fs)]
  else if has_flag flags RX_FDIR then
    FdirMatched :: (if has_flag flags RX_FDIR_ID then [FdirId (fdir_hi h)]
                    else if has_flag flags RX_FDIR_FLX then [FdirFlex (fdir_hi h) (fdir_lo h)]
                    else [FdirHash (fdir_hash h) (fdir_id h)])
  else [].

(** The description of a tunnelled packet: UDP is taken for VXLAN. *)
Definition encapsulation (b : list Z) (packet_type : Z) : outcome (list rx_item) :=
  let ipv4 := IS_IPV4_HDR packet_type in
  let l3_len := if ipv4 then 20 else 40 in
  l4_proto ← rd8 b (ETHER_HDR_LEN + (if ipv4 then 9 else 6));
  if l4_proto =? IPPROTO_UDP then
    dst_port ← rd_be16 b (ETHER_HDR_LEN + l3_len + 2);
    vni ← of_opt (rd b (ETHER_HDR_LEN + l3_len + 8 + 4) 4);
    Done [VxlanPacket packet_type dst_port (Z.shiftr (of_be32 vni) 8)]
  else Done [].

(** The names of the flags that are set and have one. *)
Definition flag_items (flags : Z) : list rx_item :=
  seqZ 0 64 ≫= fun rxf =>
    if negb (has_flag flags (2 ^ rxf)) then []
    else match rte_get_rx_ol_flag_name (2 ^ rxf) with Some name => [FlagName name] | None => [] end.

(** [packet_type] is a variable of 16 bits. *)
Definition dump_packet (fs : fwd_stream) (mb : mbuf) : outcome (list rx_item) :=
  b ← mtod mb;
  eth_type ← rd_be16 b 12;
  src ← of_opt (rd b 6 6);
  dst ← of_opt (rd b 0 6);
  let ptype16 := u16 (packet_type mb) in
  enc ← (if IS_TUNNEL_PKT ptype16 then encapsulation b ptype16 else Done []);
  Done ([Addresses src dst; TypeLength eth_type (pkt_len mb) (nb_segs mb)] ++
    hash_items fs mb ++
    (if has_flag (ol_flags mb) RX_VLAN_PKT then [VlanTci (vlan_tci mb)] else []) ++
    (if has_flag (ol_flags mb) RX_QINQ_PKT then [QinqTci (vlan_tci mb) (vlan_tci_outer mb)] else []) ++
    (if negb (packet_type mb =? 0) then layer_type (packet_type mb) <$> layers else [UnknownPacketType]) ++
    enc ++ [ReceiveQueue (rx_queue fs)] ++ (if negb (ol_flags mb =? 0) then flag_items (ol_flags mb) else [])).

(** The loop over the packets: what is printed and the packets freed. *)
Fixpoint dump_burst (verbose_level : Z) (fs : fwd_stream) (pkts : list mbuf) : outcome (list rx_item * list mbuf) :=
  match pkts with
  | [] => Done ([], [])
  | mb :: pkts =>
      items ← (if verbose_level =? 0 then Done [] else dump_packet fs mb);
      '(rest, freed) ← dump_burst verbose_level fs pkts;
      Done (items ++ rest, mb :: freed)
  end.

Definition pkt_burst_receive_verbose (nb_pkt_per_burst verbose_level : Z) (fs : fwd_stream) (d : dev)
    : outcome (burst_result * list rx_item) :=
  let '(pkts, d) := rx_burst d (rx_port fs) (rx_queue fs) nb_pkt_per_burst in
  if (length pkts =? 0)%nat then Done (BurstResult fs d [] [], [])
  else
    let n := Z.of_nat (length pkts) in
    let fs := count_rx n fs in
    '(items, freed) ← dump_burst verbose_level fs pkts;
    Done (BurstResult fs d [] freed,
          (if 0 <? verbose_level then [ReceivedPackets (rx_port fs) (rx_queue fs) n] else []) ++ items).

(** ** Lemmas *)

(** Enough room for all headers that may be read: Ethernet, IPv6, UDP and
    VXLAN. *)
Definition roomy (mb : mbuf) : Prop := exists b len tl, segs mb = Seg b len :: tl /\ 70 <= Z.of_nat (length b).

Lemma rd_be16_ok b o : 0 <= o -> o + 2 <= Z.of_nat (length b) -> exists v, rd_be16 b o = Done v.
Proof. intros H0 H1. unfold rd_be16. destruct (rd_is_Some b o 2) as [bs ->]; [lia..|]. by eexists. Qed.

Lemma rd8_ok b o : 0 <= o < Z.of_nat (length b) -> exists v, rd8 b o = Done v.
Proof. intros Ho. unfold rd8. destruct (zget_is_Some b o) as [x ->]; [lia|]. by eexists. Qed.

Lemma encapsulation_ok b t : 70 <= Z.of_nat (length b) -> exists l, encapsulation b t = Done l.
Proof.
  intros Hb. unfold encapsulation, ETHER_HDR_LEN.
  assert (H3 : (if IS_IPV4_HDR t then 20 else 40) <= 40 /\ 0 <= (if IS_IPV4_HDR t then 20 else 40)) by (destruct (IS_IPV4_HDR t); lia).
  destruct (rd8_ok b (14 + (if IS_IPV4_HDR t then 9 else 6))) as [v ->]; [destruct (IS_IPV4_HDR t); lia|].
  cbn [mbind outcome_bind]. destruct (_ =? _); [|by eexists].
  destruct (rd_be16_ok b (14 + (if IS_IPV4_HDR t then 20 else 40) + 2)) as [p ->]; [lia..|].
  destruct (rd_is_Some b (14 + (if IS_IPV4_HDR t then 20 else 40) + 8 + 4) 4) as [w ->]; [lia..|]. by eexists.
Qed.

Lemma dump_packet_ok fs mb : roomy mb -> exists l, dump_packet fs mb = Done l /\ l <> [].
Proof.
  intros (b & len & tl & Hs & Hb). unfold dump_packet, mtod. rewrite Hs. cbn [buf mbind outcome_bind].
  destruct (rd_be16_ok b 12) as [e ->]; [lia..|]. destruct (rd_is_Some b 6 6) as [s ->]; [lia..|].
  destruct (rd_is_Some b 0 6) as [t ->]; [lia..|]. cbn [of_opt buf mbind outcome_bind].
  destruct (IS_TUNNEL_PKT _).
  - destruct (encapsulation_ok b (u16 (packet_type mb)) Hb) as [l ->]. by eexists.
  - by eexists.
Qed.

Lemma dump_burst_ok v fs pkts :
  Forall roomy pkts -> exists items, dump_burst v fs pkts = Done (items, pkts) /\
    (v = 0 -> items = []) /\ (v <> 0 -> exists ds, Forall2 (fun mb d => dump_packet fs mb = Done d) pkts ds /\ items = mjoin ds).
Proof.
  induction 1 as [|mb pkts Hm Hp IH]; [exists []; split_and!; [done|done|by exists []]|].
  destruct IH as (items & E & H0 & H1). cbn [dump_burst]. destruct (Z.eqb_spec v 0) as [Hv|Hv].
  - exists items. cbn [mbind outcome_bind]. rewrite E. split_and!; [done|done|done].
  - destruct (dump_packet_ok fs mb Hm) as (l & El & _). destruct (H1 Hv) as (ds & Hds & ->).
    exists (l ++ mjoin ds). rewrite El. cbn [mbind outcome_bind]. rewrite E. split_and!; [done|done|].
    intros _. exists (l :: ds). split; [by constructor|done].
Qed.

(** A flag is named exactly if it is set and has a name. *)
Lemma elem_of_flag_items flags name :
  FlagName name ∈ flag_items flags <->
  exists i, 0 <= i < 64 /\ Z.testbit flags i = true /\ rte_get_rx_ol_flag_name (2 ^ i) = Some name.
Proof.
  assert (Hbit : forall i, 0 <= i -> has_flag flags (2 ^ i) = Z.testbit flags i).
  { intros i Hi. unfold has_flag. destruct (Z.testbit flags i) eqn:Ht.
    - apply negb_true_iff, Z.eqb_neq. intros E. apply (f_equal (fun x => Z.testbit x i)) in E.
      rewrite Z.land_spec, Ht, Z.pow2_bits_true, Z.testbit_0_l in E by lia. done.
    - apply negb_false_iff, Z.eqb_eq, Z.bits_inj'. intros k Hk. rewrite Z.land_spec, Z.testbit_0_l, Z.pow2_bits_eqb by lia.
      destruct (Z.eqb_spec i k) as [->|]; [by rewrite Ht|apply andb_false_r]. }
  unfold flag_items. rewrite list_elem_of_bind. split.
  - intros (i & Hin & Hi%elem_of_seqZ). rewrite Hbit in Hin by lia. exists i.
    destruct (Z.testbit flags i); cbn [negb] in Hin; [|by apply not_elem_of_nil in Hin].
    destruct (rte_get_rx_ol_flag_name (2 ^ i)); [|by apply not_elem_of_nil in Hin].
    apply list_elem_of_singleton in Hin. injection Hin as ->. split_and!; [lia|lia|done|done].
  - intros (i & Hi & Ht & Hn). exists i. rewrite Hbit, Ht, Hn by lia. split; [by left|]. apply elem_of_seqZ. lia.
Qed.
End Dump.

(** ** Properties *)

(** Describing packets changes nothing else: whatever the verbose level,
    the engine stays within the data room of packets of 70 bytes and has the
    outcome of the silent engine, all packets freed and counted; it prints
    nothing at level 0 and otherwise one description per packet, in order. *)
Theorem verbose_like_silent `{Ethdev} rss fdir fid flx vlan qinq hash mask ptype tun v4 names nb verbose fs (d : dev)
    (Hv : 0 <= verbose) (Hroom : Forall roomy (rx_burst d (rx_port fs) (rx_queue fs) nb).1) :
  exists r items,
    pkt_burst_receive_verbose rss fdir fid flx vlan qinq hash mask ptype tun v4 names nb verbose fs d = Done (r, items) /\
    pkt_burst_receive nb fs d = Done r /\
    if (verbose =? 0) || bool_decide (br_freed r = []) then items = []
    else exists ds, items = ReceivedPackets (rx_port fs) (rx_queue fs) (Z.of_nat (length (br_freed r))) :: mjoin ds /\
      Forall2 (fun mb l => dump_packet rss fdir fid flx vlan qinq hash mask ptype tun v4 names (br_fs r) mb = Done l) (br_freed r) ds.
Proof.
  unfold pkt_burst_receive_verbose, pkt_burst_receive.
  destruct (rx_burst d (rx_port fs) (rx_queue fs) nb) as [pkts d1]. cbn [fst] in Hroom.
  destruct (Nat.eqb_spec (length pkts) 0) as [Hl|Hl].
  { eexists _, _. split_and!; [done..|]. cbn [br_freed]. by rewrite bool_decide_true, orb_true_r. }
  set (fs1 := count_rx _ fs).
  destruct (dump_burst_ok rss fdir fid flx vlan qinq hash mask ptype tun v4 names verbose fs1 pkts Hroom) as (items & -> & H0 & H1).
  cbn [mbind outcome_bind]. eexists _, _. split_and!; [done..|]. cbn [br_freed br_fs].
  rewrite bool_decide_false by (intros ->; done). rewrite orb_false_r. destruct (Z.eqb_spec verbose 0) as [E|E].
  - rewrite H0 by done. by subst verbose.
  - destruct (H1 E) as (ds & Hds & ->). rewrite (proj2 (Z.ltb_lt 0 verbose)) by lia. by exists ds.
Qed.

(** ** Witnesses *)

(** An IPv4 packet with UDP, port 4789 and VNI 5, in a tunnel. *)
Definition vxlan_bytes : list Z :=
  [1; 1; 1; 1; 1; 1] ++ [2; 2; 2; 2; 2; 2] ++ [8; 0] ++ [69; 0; 0; 50; 0; 0; 0; 0; 64; 17] ++ replicate 10 0 ++
  [0; 9; 18; 181; 0; 0; 0; 0] ++ [8; 0; 0; 0; 0; 0; 5; 0] ++ replicate 30 0.
Definition vxlan_mbuf : mbuf := Mbuf [Seg vxlan_bytes 50] 1 50 3 0 0 7 0 (0x3000 + 0x200 + 0x10 + 1) no_offload.

(** Numbers for the types the packet has. *)
Definition sample_mask (l : layer) : Z := match l with OuterL2 => 15 | OuterL3 => 240 | OuterL4 => 3840 | Tunnel => 61440 | _ => 0 end.
Definition sample_ptype (l : layer) (s : string) : Z :=
  match l with
  | OuterL2 => if bool_decide (s = "ETHER"%string) then 1 else 99
  | OuterL3 => if bool_decide (s = "IPV4"%string) then 16 else 99
  | OuterL4 => if bool_decide (s = "UDP"%string) then 512 else 99
  | Tunnel => if bool_decide (s = "VXLAN"%string) then 12288 else 99
  | _ => 99
  end.
Definition sample_verbose (verbose : Z) : outcome (burst_result * list rx_item) :=
  @pkt_burst_receive_verbose sample_ethdev 2 4 8 16 1 32 (fun _ => RxHash 77 0 0 0 0) sample_mask sample_ptype
    (fun t => negb (Z.land t 61440 =? 0)) (fun t => negb (Z.land t 16 =? 0))
    (fun f => if f =? 1 then Some "PKT_RX_VLAN_PKT"%string else None) 4 verbose sample_fs [vxlan_mbuf].

Definition sample_room : Forall roomy (@rx_burst sample_ethdev [vxlan_mbuf] 0 0 4).1.
Proof. repeat constructor. exists vxlan_bytes, 50, []. split; [reflexivity|]. vm_compute. discriminate. Qed.

Lemma verbose_like_silent_witness :
  match sample_verbose 1 with
  | Done (r, items) => @pkt_burst_receive sample_ethdev 4 sample_fs [vxlan_mbuf] = Done r /\ br_freed r = [vxlan_mbuf] /\
      items = [ReceivedPackets 0 0 1; Addresses [2; 2; 2; 2; 2; 2] [1; 1; 1; 1; 1; 1]; TypeLength 2048 50 1; RssHash 77 0;
        VlanTci 7; LayerType OuterL2 "ETHER"; LayerType OuterL3 "IPV4"; LayerType OuterL4 "UDP"; LayerType Tunnel "VXLAN";
        LayerType InnerL2 "Unknown"; LayerType InnerL3 "Unknown"; LayerType InnerL4 "Unknown";
        VxlanPacket 12817 4789 5; ReceiveQueue 0; FlagName "PKT_RX_VLAN_PKT"]
  | _ => False
  end.
Proof.
  destruct (@verbose_like_silent sample_ethdev 2 4 8 16 1 32 (fun _ => RxHash 77 0 0 0 0) sample_mask sample_ptype
    (fun t => negb (Z.land t 61440 =? 0)) (fun t => negb (Z.land t 16 =? 0))
    (fun f => if f =? 1 then Some "PKT_RX_VLAN_PKT"%string else None) 4 1 sample_fs [vxlan_mbuf] ltac:(lia) sample_room)
    as (r & items & E & E2 & _).
  change (sample_verbose 1 = Done (r, items)) in E. rewrite E. split; [exact E2|].
  vm_compute in E2. injection E2 as <-. split; [reflexivity|]. vm_compute in E. injection E as <-. reflexivity.
Defined.
