(* ===== verification/Bypass.v ===== *)
(** * test-pmd/cmdline.c: cards with a bypass

    The commands on cards that can connect their two ports when the host
    fails: the mode, the events that change it, and a watchdog.  The numbers
    of modes, events and timeouts are DPDK's ([BypassNums]); the calls of the
    devices are an interface ([BypassDev]). *)

From stdpp Require Import strings.
From S2P Require Import Prelude Packet PortConf PortState VfCmds.

#[local] Open Scope Z_scope.

(** ** Data *)

Inductive bypass_mode : Type := MODE_NONE | MODE_NORMAL | MODE_BYPASS | MODE_ISOLATE.
Inductive bypass_event : Type := EVENT_NONE | EVENT_OS_ON | EVENT_POWER_ON | EVENT_OS_OFF | EVENT_POWER_OFF | EVENT_TIMEOUT.
Inductive bypass_tmt : Type := TMT_OFF | TMT_1_5 | TMT_2 | TMT_3 | TMT_4 | TMT_8 | TMT_16 | TMT_32.

#[export] Instance bypass_mode_eq : EqDecision bypass_mode.
Proof. solve_decision. Defined.
#[export] Instance bypass_event_eq : EqDecision bypass_event.
Proof. solve_decision. Defined.
#[export] Instance bypass_tmt_eq : EqDecision bypass_tmt.
Proof. solve_decision. Defined.

(** The constants of DPDK's header: the numbers of the three enumerations, and
    the macros on them. *)
Class BypassNums : Type := {
  mode_num : bypass_mode -> Z;
  event_num : bypass_event -> Z;
  tmt_num : bypass_tmt -> Z;
  RTE_BYPASS_EVENT_START : Z;
  RTE_BYPASS_MODE_VALID : Z -> bool;
  RTE_BYPASS_TMT_VALID : Z -> bool;
}.

(** The enumerations count from 0 in the order of the names above; valid modes
    are those but NONE, events start after NONE. *)
Class BypassNumsDoc `{BypassNums} : Prop := {
  mode_num_doc : mode_num <$> [MODE_NONE; MODE_NORMAL; MODE_BYPASS; MODE_ISOLATE] = [0; 1; 2; 3];
  event_num_doc :
    event_num <$> [EVENT_NONE; EVENT_OS_ON; EVENT_POWER_ON; EVENT_OS_OFF; EVENT_POWER_OFF; EVENT_TIMEOUT] = [0; 1; 2; 3; 4; 5];
  tmt_num_doc : tmt_num <$> [TMT_OFF; TMT_1_5; TMT_2; TMT_3; TMT_4; TMT_8; TMT_16; TMT_32] = [0; 1; 2; 3; 4; 5; 6; 7];
  event_start_doc : RTE_BYPASS_EVENT_START = 1;
  mode_valid_doc m : RTE_BYPASS_MODE_VALID m = (0 <? m) && (m <? 4);
  tmt_valid_doc t : RTE_BYPASS_TMT_VALID t = (0 <=? t) && (t <? 8);
}.

(** The devices, by port: a store says whether it succeeded. *)
Class BypassDev (D : Type) : Type := {
  bypass_state_set : Z -> Z -> D -> bool * D;
  bypass_state_show : Z -> D -> option Z;
  bypass_event_store : Z -> Z -> Z -> D -> bool * D;
  bypass_event_show : Z -> Z -> D -> option Z;
  wd_timeout_store : Z -> Z -> D -> bool * D;
}.

(** ** Commands *)

Section Bypass.
Context `{BypassNums} `{BypassDev D}.
(** The ports, and whether the card of a port has a bypass. *)
Variables (st : pstate) (bypass_card : Z -> bool).

Definition bypass_is_supported (port_id : Z) : outcome bool :=
  if port_id_is_invalid port_id st then Done false
  else _ ← of_opt (zget (ports st) port_id); Done (bypass_card port_id).

(** The words of a mode and of an event. *)
Definition mode_of (word : string) : bypass_mode :=
  if said word "bypass" then MODE_BYPASS else if said word "isolate" then MODE_ISOLATE else MODE_NORMAL.

Definition event_of (word : string) : bypass_event :=
  if said word "timeout" then EVENT_TIMEOUT
  else if said word "os_on" then EVENT_OS_ON
  else if said word "os_off" then EVENT_OS_OFF
  else if said word "power_on" then EVENT_POWER_ON
  else if said word "power_off" then EVENT_POWER_OFF
  else EVENT_NONE.

Definition tmt_of (word : string) : bypass_tmt :=
  if said word "1.5" then TMT_1_5
  else if said word "2" then TMT_2
  else if said word "3" then TMT_3
  else if said word "4" then TMT_4
  else if said word "8" then TMT_8
  else if said word "16" then TMT_16
  else if said word "32" then TMT_32
  else TMT_OFF.

(** The global [bypass_timeout] and the devices. *)
Record bypass_state : Type := BypassState { bypass_timeout : Z; devs : D }.

Definition cmd_set_bypass_mode_parsed (value : string) (port_id : Z) (s : bypass_state) : outcome bypass_state :=
  supported ← bypass_is_supported port_id;
  if negb supported then Done s
  else Done (BypassState (bypass_timeout s) (bypass_state_set port_id (mode_num (mode_of value)) (devs s)).2).

Definition cmd_set_bypass_event_parsed (event_value mode_value : string) (port_id : Z) (s : bypass_state) : outcome bypass_state :=
  supported ← bypass_is_supported port_id;
  if negb supported then Done s
  else
    let e := event_of event_value in
    let d :=
      if bool_decide (e = EVENT_TIMEOUT) && RTE_BYPASS_TMT_VALID (bypass_timeout s)
      then (wd_timeout_store port_id (bypass_timeout s) (devs s)).2 else devs s in
    Done (BypassState (bypass_timeout s) (bypass_event_store port_id (event_num e) (mode_num (mode_of mode_value)) d).2).

Definition cmd_set_bypass_timeout_parsed (value : string) (s : bypass_state) : bypass_state :=
  BypassState (tmt_num (tmt_of value)) (devs s).

(** What is shown. *)
Inductive bypass_line : Type :=
| ModeFailed
| ModeLine (word : string)
| TimeoutLine (word : string)
| EventFailed (event : string)
| EventLine (event word : string).

Definition timeouts : list string := ["off"; "1.5"; "2"; "3"; "4"; "8"; "16"; "32"]%string.
Definition modes : list string := ["UNKNOWN"; "normal"; "bypass"; "isolate"]%string.
Definition events : list string :=
  ["NONE"; "OS/board on"; "power supply on"; "OS/board off"; "power supply off"; "timeout"]%string.

(** The word of a mode a device reports. *)
Definition mode_shown (m : Z) : outcome string :=
  of_opt (zget modes (if RTE_BYPASS_MODE_VALID m then m else mode_num MODE_NONE)).

(** The loop over the events from [i] on, [n] of them. *)
Fixpoint show_events (n : nat) (i port_id : Z) (d : D) : outcome (list bypass_line) :=
  match n with
  | O => Done []
  | S n =>
      e ← of_opt (zget events i);
      l ← match bypass_event_show port_id i d with
          | None => Done (EventFailed e)
          | Some m => w ← mode_shown m; Done (EventLine e w)
          end;
      ls ← show_events n (i + 1) port_id d;
      Done (l :: ls)
  end.

Definition cmd_show_bypass_config_parsed (port_id : Z) (s : bypass_state) : outcome (list bypass_line) :=
  supported ← bypass_is_supported port_id;
  if negb supported then Done []
  else
    match bypass_state_show port_id (devs s) with
    | None => Done [ModeFailed]
    | Some m =>
        w ← mode_shown m;
        t ← of_opt (zget timeouts (if RTE_BYPASS_TMT_VALID (bypass_timeout s) then bypass_timeout s else tmt_num TMT_OFF));
        let num_events := Z.of_nat (length events) in
        ls ← show_events (Z.to_nat (num_events - RTE_BYPASS_EVENT_START)) RTE_BYPASS_EVENT_START port_id (devs s);
        Done (ModeLine w :: TimeoutLine t :: ls)
    end.
End Bypass.

(** The commands, as a session types them. *)
Inductive bypass_cmd : Type :=
| SetBypassMode (value : string) (port : Z)
| SetBypassEvent (event mode : string) (port : Z)
| SetBypassTimeout (value : string).

Section Session.
Context `{BypassNums} `{BypassDev D}.
Variables (st : pstate) (bypass_card : Z -> bool).

Definition bypass_exec (c : bypass_cmd) (s : bypass_state) : outcome bypass_state :=
  match c with
  | SetBypassMode w p => cmd_set_bypass_mode_parsed st bypass_card w p s
  | SetBypassEvent e w p => cmd_set_bypass_event_parsed st bypass_card e w p s
  | SetBypassTimeout w => Done (cmd_set_bypass_timeout_parsed w s)
  end.

Fixpoint bypass_session (cmds : list bypass_cmd) (s : bypass_state) : outcome bypass_state :=
  match cmds with
  | [] => Done s
  | c :: cmds => s ← bypass_exec c s; bypass_session cmds s
  end.
End Session.

(** ** A device that keeps what it is told

    What DPDK documents: a store that succeeds is what is shown from then on,
    and touches nothing else that is shown. *)
Class BypassDoc (D : Type) `{BypassDev D} : Prop := {
  state_set_doc p m d : (bypass_state_set p m d).1 = true ->
    (forall q, bypass_state_show q (bypass_state_set p m d).2 = if decide (q = p) then Some m else bypass_state_show q d) /\
    (forall q e, bypass_event_show q e (bypass_state_set p m d).2 = bypass_event_show q e d);
  event_store_doc p e m d : (bypass_event_store p e m d).1 = true ->
    (forall q, bypass_state_show q (bypass_event_store p e m d).2 = bypass_state_show q d) /\
    (forall q f, bypass_event_show q f (bypass_event_store p e m d).2 =
       if decide (q = p /\ f = e) then Some m else bypass_event_show q f d);
  timeout_store_doc p t d :
    (forall q, bypass_state_show q (wd_timeout_store p t d).2 = bypass_state_show q d) /\
    (forall q e, bypass_event_show q e (wd_timeout_store p t d).2 = bypass_event_show q e d);
  state_set_ok p m d : 0 < m < 4 -> (bypass_state_set p m d).1 = true;
  event_store_ok p e m d : 0 <= e < 6 -> 0 < m < 4 -> (bypass_event_store p e m d).1 = true;
}.

(** ** What the commands mean

    A mode for every port and every event of it, and the timeout. *)
Record bypass_spec : Type := BypassSpec {
  sp_mode : Z -> bypass_mode;
  sp_event : Z -> bypass_event -> bypass_mode;
  sp_timeout : bypass_tmt;
}.

Section Refinement.
Context `{BypassNums, !BypassNumsDoc} `{BypassDev D, !BypassDoc D}.
Variables (st : pstate) (bypass_card : Z -> bool).

(** A port the commands act on. *)
Definition has_bypass (p : Z) : bool := negb (port_id_is_invalid p st) && bypass_card p.

(** The number of a port that the array of ports covers, or one that is
    refused before. *)
Definition port_in_range (p : Z) : Prop := p <> RTE_PORT_ALL \/ is_Some (zget (ports st) p).
Definition cmd_in_range (c : bypass_cmd) : Prop :=
  match c with SetBypassMode _ p | SetBypassEvent _ _ p => port_in_range p | SetBypassTimeout _ => True end.

Lemma supported_eq p : port_in_range p -> bypass_is_supported st bypass_card p = Done (has_bypass p).
Proof.
  intros Hp. unfold bypass_is_supported, has_bypass. destruct (port_id_is_invalid p st) eqn:E; [done|].
  enough (is_Some (zget (ports st) p)) as [x ->] by done. destruct Hp as [Hp|Hp]; [|done].
  unfold port_id_is_invalid in E. destruct (Z.eqb_spec p RTE_PORT_ALL); [done|]. by destruct (zget (ports st) p).
Qed.

Definition spec_exec (c : bypass_cmd) (a : bypass_spec) : bypass_spec :=
  match c with
  | SetBypassMode w p =>
      if has_bypass p
      then BypassSpec (fun q => if decide (q = p) then mode_of w else sp_mode a q) (sp_event a) (sp_timeout a) else a
  | SetBypassEvent e w p =>
      if has_bypass p
      then BypassSpec (sp_mode a)
             (fun q f => if decide (q = p /\ f = event_of e) then mode_of w else sp_event a q f) (sp_timeout a) else a
  | SetBypassTimeout w => BypassSpec (sp_mode a) (sp_event a) (tmt_of w)
  end.

Definition mode_text (m : bypass_mode) : string :=
  match m with MODE_NONE => "UNKNOWN" | MODE_NORMAL => "normal" | MODE_BYPASS => "bypass" | MODE_ISOLATE => "isolate" end.
Definition tmt_text (t : bypass_tmt) : string :=
  match t with
  | TMT_OFF => "off" | TMT_1_5 => "1.5" | TMT_2 => "2" | TMT_3 => "3" | TMT_4 => "4" | TMT_8 => "8" | TMT_16 => "16"
  | TMT_32 => "32"
  end.

Definition spec_shown (a : bypass_spec) (p : Z) : list bypass_line :=
  [ModeLine (mode_text (sp_mode a p)); TimeoutLine (tmt_text (sp_timeout a));
   EventLine "OS/board on" (mode_text (sp_event a p EVENT_OS_ON));
   EventLine "power supply on" (mode_text (sp_event a p EVENT_POWER_ON));
   EventLine "OS/board off" (mode_text (sp_event a p EVENT_OS_OFF));
   EventLine "power supply off" (mode_text (sp_event a p EVENT_POWER_OFF));
   EventLine "timeout" (mode_text (sp_event a p EVENT_TIMEOUT))].

(** The program and its devices are in the state [a]. *)
Record bypass_rel (s : bypass_state (D := D)) (a : bypass_spec) : Prop := {
  rel_mode q : bypass_state_show q (devs s) = Some (mode_num (sp_mode a q));
  rel_event q e : bypass_event_show q (event_num e) (devs s) = Some (mode_num (sp_event a q e));
  rel_timeout : bypass_timeout s = tmt_num (sp_timeout a);
}.

Definition mode_index (m : bypass_mode) : Z :=
  match m with MODE_NONE => 0 | MODE_NORMAL => 1 | MODE_BYPASS => 2 | MODE_ISOLATE => 3 end.
Definition event_index (e : bypass_event) : Z :=
  match e with
  | EVENT_NONE => 0 | EVENT_OS_ON => 1 | EVENT_POWER_ON => 2 | EVENT_OS_OFF => 3 | EVENT_POWER_OFF => 4 | EVENT_TIMEOUT => 5
  end.
Definition tmt_index (t : bypass_tmt) : Z :=
  match t with
  | TMT_OFF => 0 | TMT_1_5 => 1 | TMT_2 => 2 | TMT_3 => 3 | TMT_4 => 4 | TMT_8 => 5 | TMT_16 => 6 | TMT_32 => 7
  end.

Lemma mode_num_index m : mode_num m = mode_index m.
Proof. pose proof mode_num_doc as Hd. cbn in Hd. injection Hd as ? ? ? ?. by destruct m. Qed.
Lemma event_num_index e : event_num e = event_index e.
Proof. pose proof event_num_doc as Hd. cbn in Hd. injection Hd as ? ? ? ? ? ?. by destruct e. Qed.
Lemma tmt_num_index t : tmt_num t = tmt_index t.
Proof. pose proof tmt_num_doc as Hd. cbn in Hd. injection Hd as ? ? ? ? ? ? ? ?. by destruct t. Qed.

Lemma event_num_inj e f : event_num e = event_num f <-> e = f.
Proof. rewrite !event_num_index. split; [|by intros ->]. by destruct e, f. Qed.

Lemma mode_of_valid w : 0 < mode_num (mode_of w) < 4.
Proof. rewrite mode_num_index. unfold mode_of. destruct (said w "bypass"), (said w "isolate"); cbn; lia. Qed.
Lemma event_num_range e : 0 <= event_num e < 6.
Proof. rewrite event_num_index. destruct e; cbn; lia. Qed.

Lemma bypass_rel_exec c s a :
  bypass_rel s a -> cmd_in_range c ->
  exists s', bypass_exec st bypass_card c s = Done s' /\ bypass_rel s' (spec_exec c a).
Proof.
  intros [Hm He Ht] Hc. destruct c as [w p|e w p|w]; cbn [bypass_exec spec_exec cmd_in_range] in *.
  - unfold cmd_set_bypass_mode_parsed. rewrite (supported_eq p Hc). cbn [mbind outcome_bind].
    destruct (has_bypass p); cbn [negb]; [|by exists s]. eexists. split; [done|].
    destruct (state_set_doc p _ (devs s) (state_set_ok p _ _ (mode_of_valid w))) as [Hs He'].
    split; intros; cbn [devs bypass_timeout sp_mode sp_event sp_timeout]; [|by rewrite He'|done].
    rewrite Hs. by case_decide.
  - unfold cmd_set_bypass_event_parsed. rewrite (supported_eq p Hc). cbn [mbind outcome_bind].
    destruct (has_bypass p); cbn [negb]; [|by exists s]. eexists. split; [done|].
    set (d := if _ && _ then _ else _).
    assert (Hd : (forall q, bypass_state_show q d = bypass_state_show q (devs s)) /\
                 (forall q f, bypass_event_show q f d = bypass_event_show q f (devs s))).
    { subst d. destruct (_ && _); [|done]. apply timeout_store_doc. }
    destruct (event_store_doc p _ _ d (event_store_ok p _ _ d (event_num_range (event_of e)) (mode_of_valid w))) as [Hs He'].
    split; cbn [devs bypass_timeout sp_mode sp_event sp_timeout]; [intros q; by rewrite Hs, (proj1 Hd)| |done].
    intros q g. rewrite He', (proj2 Hd), He. destruct (decide (q = p /\ g = event_of e)) as [[-> ->]|Hn].
    + by rewrite decide_True.
    + rewrite decide_False; [done|]. intros [Hq Hg]. apply Hn. split; [done|]. by apply event_num_inj.
  - by eexists.
Qed.

Lemma mode_shown_text m : mode_shown (mode_num m) = Done (mode_text m).
Proof. unfold mode_shown. rewrite mode_valid_doc, !mode_num_index. by destruct m. Qed.

Lemma bypass_rel_shown s a p :
  bypass_rel s a -> port_in_range p -> has_bypass p = true ->
  cmd_show_bypass_config_parsed st bypass_card p s = Done (spec_shown a p).
Proof.
  intros [Hm He Ht] Hr Hp. unfold cmd_show_bypass_config_parsed.
  rewrite (supported_eq p Hr), Hp. cbn [negb mbind outcome_bind]. rewrite Hm, mode_shown_text, Ht, tmt_valid_doc, event_start_doc.
  cbn [mbind outcome_bind].
  assert (Hts : of_opt (zget timeouts (if (0 <=? tmt_num (sp_timeout a)) && (tmt_num (sp_timeout a) <? 8)
      then tmt_num (sp_timeout a) else tmt_num TMT_OFF)) = Done (tmt_text (sp_timeout a))).
  { rewrite !tmt_num_index. by destruct (sp_timeout a). }
  rewrite Hts. cbn [mbind outcome_bind].
  change (Z.to_nat (Z.of_nat (length events) - 1)) with 5%nat. cbn [show_events].
  pose proof (He p EVENT_OS_ON) as Hb1. pose proof (He p EVENT_POWER_ON) as Hb2. pose proof (He p EVENT_OS_OFF) as Hb3.
  pose proof (He p EVENT_POWER_OFF) as Hb4. pose proof (He p EVENT_TIMEOUT) as Hb5.
  rewrite event_num_index in Hb1, Hb2, Hb3, Hb4, Hb5. cbn [event_index] in *.
  change (1 + 1) with 2. change (2 + 1) with 3. change (3 + 1) with 4. change (4 + 1) with 5.
  rewrite Hb1, Hb2, Hb3, Hb4, Hb5, !mode_shown_text. done.
Qed.

(** Whatever is typed, the card shows it: after any session of commands
    the display of a port with a bypass lists the mode last set for it, for
    each event the mode last set for that event, and the timeout last chosen,
    each in the words of the display.  (The timeout is the program's own, for
    all ports, whether or not a device was told.) *)
Theorem bypass_session_shown cmds s a p
    (Hr : bypass_rel s a) (Hc : Forall cmd_in_range cmds) (Hi : port_in_range p) (Hp : has_bypass p = true) :
  exists s', bypass_session st bypass_card cmds s = Done s' /\
    cmd_show_bypass_config_parsed st bypass_card p s' = Done (spec_shown (foldl (fun a c => spec_exec c a) a cmds) p).
Proof.
  enough (exists s', bypass_session st bypass_card cmds s = Done s' /\ bypass_rel s' (foldl (fun a c => spec_exec c a) a cmds))
    as (s' & Hs & Hr') by (exists s'; split; [done|by apply bypass_rel_shown]).
  clear Hi Hp. revert s a Hr. induction Hc as [|c cmds Hc Hcs IH]; intros s a Hr; cbn [bypass_session foldl]; [by exists s|].
  destruct (bypass_rel_exec c s a Hr Hc) as (s' & -> & Hr'). cbn [mbind outcome_bind]. by apply IH.
Qed.

(** The port number 255 stands for all ports and passes the check of port
    numbers, but the card is then looked up outside of the array of ports. *)
Theorem bypass_of_all_ports (Hl : Z.of_nat (length (ports st)) <= RTE_PORT_ALL) value (s : bypass_state (D := D)) :
  cmd_set_bypass_mode_parsed st bypass_card value RTE_PORT_ALL s = Undefined.
Proof.
  unfold cmd_set_bypass_mode_parsed, bypass_is_supported, port_id_is_invalid. rewrite Z.eqb_refl.
  destruct (zget (ports st) RTE_PORT_ALL) eqn:E; [|done].
  apply zget_Some in E as [_ E%lookup_lt_Some]. unfold RTE_PORT_ALL in *. lia.
Qed.
End Refinement.

(** ** Witness

    A device that keeps the modes in an association. *)
Record sample_card : Type := SampleCard { c_state : Z -> Z; c_event : Z -> Z -> Z }.

#[export] Instance sample_nums : BypassNums := {|
  mode_num m := match m with MODE_NONE => 0 | MODE_NORMAL => 1 | MODE_BYPASS => 2 | MODE_ISOLATE => 3 end;
  event_num e := match e with
    | EVENT_NONE => 0 | EVENT_OS_ON => 1 | EVENT_POWER_ON => 2 | EVENT_OS_OFF => 3 | EVENT_POWER_OFF => 4
    | EVENT_TIMEOUT => 5 end;
  tmt_num t := match t with
    | TMT_OFF => 0 | TMT_1_5 => 1 | TMT_2 => 2 | TMT_3 => 3 | TMT_4 => 4 | TMT_8 => 5 | TMT_16 => 6 | TMT_32 => 7 end;
  RTE_BYPASS_EVENT_START := 1;
  RTE_BYPASS_MODE_VALID m := (0 <? m) && (m <? 4);
  RTE_BYPASS_TMT_VALID t := (0 <=? t) && (t <? 8);
|}.

#[export] Instance sample_nums_doc : BypassNumsDoc.
Proof. by split. Qed.

#[export] Instance sample_card_dev : BypassDev sample_card := {|
  bypass_state_set p m d := (true, SampleCard (fun q => if decide (q = p) then m else c_state d q) (c_event d));
  bypass_state_show p d := Some (c_state d p);
  bypass_event_store p e m d :=
    (true, SampleCard (c_state d) (fun q f => if decide (q = p /\ f = e) then m else c_event d q f));
  bypass_event_show p e d := Some (c_event d p e);
  wd_timeout_store p t d := (true, d);
|}.

#[export] Instance sample_card_doc : BypassDoc sample_card.
Proof.
  split; cbn; try done; intros p; intros; (split; [|done]) || (split; [done|]); intros; by case_decide.
Qed.

Definition sample_ports : pstate := sample_state.

Lemma bypass_session_shown_witness : exists s',
  bypass_session sample_ports (fun _ => true)
    [SetBypassTimeout "1.5"; SetBypassMode "isolate" 0; SetBypassEvent "os_off" "bypass" 0; SetBypassEvent "timeout" "isolate" 0]
    (BypassState 0 (SampleCard (fun _ => 1) (fun _ _ => 1))) = Done s' /\
  cmd_show_bypass_config_parsed sample_ports (fun _ => true) 0 s' =
    Done [ModeLine "isolate"; TimeoutLine "1.5"; EventLine "OS/board on" "normal"; EventLine "power supply on" "normal";
          EventLine "OS/board off" "bypass"; EventLine "power supply off" "normal"; EventLine "timeout" "isolate"].
Proof.
  match goal with |- exists s', bypass_session _ _ ?cmds ?s = _ /\ _ =>
    destruct (bypass_session_shown sample_ports (fun _ => true) cmds s
      (BypassSpec (fun _ => MODE_NORMAL) (fun _ _ => MODE_NORMAL) TMT_OFF) 0) as (s' & Hs & Hl) end.
  - split; done.
  - repeat constructor; vm_compute; discriminate.
  - left. discriminate.
  - vm_compute. reflexivity.
  - exists s'. split; [exact Hs|]. rewrite Hl. vm_compute. reflexivity.
Defined.

Lemma bypass_of_all_ports_witness :
  cmd_set_bypass_mode_parsed sample_ports (fun _ => true) "bypass" RTE_PORT_ALL
    (BypassState 0 (SampleCard (fun _ => 1) (fun _ _ => 1))) = Undefined.
Proof. apply bypass_of_all_ports. vm_compute. discriminate. Defined.
