(* ===== verification/ShowStats.v ===== *)
(** * test-pmd: showing statistics and descriptors

    The commands that show and clear the statistics of ports, the counters of
    their queues, and descriptors of the rings (config.c and cmdline.c).  What
    they print is a list of lines; what they ask of devices is an argument.
    The other displays appear as the call [cmd_showport_parsed] makes. *)

From stdpp Require Import gmap strings.
From S2P Require Import Prelude Packet PortConf PortState QueueMap VfCmds.

#[local] Open Scope Z_scope.

(** ** Data *)

(** [struct rte_eth_stats] *)
Record eth_stats : Type := EthStats {
  ipackets : Z; opackets : Z; ibytes : Z; obytes : Z; imissed : Z; ierrors : Z; oerrors : Z; rx_nombuf : Z;
  q_ipackets : list Z; q_opackets : list Z; q_ibytes : list Z; q_obytes : list Z; q_errors : list Z;
}.

(** The lines: a message with the ports there are, the sums of a port without
    and with a mapping of its queues, one counter of a queue, ... *)
Inductive stat_line : Type :=
| ValidPorts (l : list Z)
| RxSums (packets missed bytes errors nombuf : Z)
| TxSums (packets errors bytes : Z)
| RxSumsMapped (packets errors bytes nombuf : Z)
| RxReg (i packets errors bytes : Z)
| TxReg (i packets bytes : Z)
| Cleared (port : Z)
| XstatsFailed
| Xstat (name : string) (value : Z)
| NoMapping (port : Z)
| RxMapped (queue counter : Z)
| TxMapped (queue counter : Z)
| OtherDisplay (what : string) (port : Z).

Section Show.
(** The ports; whether the statistics of a port's queues are mapped, when it
    receives and when it transmits; and the mappings. *)
Variables (st : pstate) (rx_mapping_enabled tx_mapping_enabled : Z -> bool).
Variables (rxl txl : list queue_stats_mappings).

(** What the devices answer: the statistics; the two calls of
    [rte_eth_xstats_get], the second with the entries it wrote; and whether
    the memory for these was there. *)
Variables (stats_get : Z -> eth_stats) (xstats_count : Z -> Z) (xstats_get : Z -> Z * list (string * Z)) (malloc_ok : bool).

(** The message of a refused port: the loop prints every port after a 0. *)
Definition valid_ports : list stat_line := [ValidPorts (0 :: port_ids (ports st))].

(** [&ports[port_id]] is read: there is such a port. *)
Definition port_read (port_id : Z) : outcome unit := _ ← of_opt (zget (ports st) port_id); Done tt.

Definition queue_regs (f : Z -> option stat_line) : outcome (list stat_line) :=
  of_opt (mapM f (seqZ 0 RTE_ETHDEV_QUEUE_STAT_CNTRS)).

Definition rx_reg (s : eth_stats) (i : Z) : option stat_line :=
  p ← zget (q_ipackets s) i; e ← zget (q_errors s) i; b ← zget (q_ibytes s) i; Some (RxReg i p e b).
Definition tx_reg (s : eth_stats) (i : Z) : option stat_line :=
  p ← zget (q_opackets s) i; b ← zget (q_obytes s) i; Some (TxReg i p b).

Definition nic_stats_display (port_id : Z) : outcome (list stat_line) :=
  if port_id_is_invalid port_id st then Done valid_ports
  else
    let s := stats_get port_id in
    _ ← port_read port_id;
    let rx := rx_mapping_enabled port_id in
    let tx := tx_mapping_enabled port_id in
    let sums :=
      if negb rx && negb tx
      then [RxSums (ipackets s) (imissed s) (ibytes s) (ierrors s) (rx_nombuf s); TxSums (opackets s) (oerrors s) (obytes s)]
      else [RxSumsMapped (ipackets s) (ierrors s) (ibytes s) (rx_nombuf s); TxSums (opackets s) (oerrors s) (obytes s)] in
    rxs ← (if rx then queue_regs (rx_reg s) else Done []);
    txs ← (if tx then queue_regs (tx_reg s) else Done []);
    Done (sums ++ rxs ++ txs).

(** The lines, and the ports whose device is asked to reset. *)
Definition nic_stats_clear (port_id : Z) : list stat_line * list Z :=
  if port_id_is_invalid port_id st then (valid_ports, []) else ([Cleared port_id], [port_id]).

(** The array [xstats] has [len] entries, of which the second call wrote some:
    the loop over all of them reads the others as they are. *)
Definition nic_xstats_display (port_id : Z) : outcome (list stat_line) :=
  let len := xstats_count port_id in
  if len <? 0 then Done [XstatsFailed]
  else if negb malloc_ok then Done [XstatsFailed]
  else
    let '(ret, entries) := xstats_get port_id in
    if (ret <? 0) || (len <? ret) then Done [XstatsFailed]
    else of_opt (mapM (fun i => '(name, value) ← zget entries i; Some (Xstat name value)) (seqZ 0 len)).

Definition mapped_lines (line : Z -> Z -> stat_line) (port_id : Z) (l : list queue_stats_mappings) : list stat_line :=
  x ← l; if qm_port x =? port_id then [line (qm_queue x) (stats_counter_id x)] else [].

Definition nic_stats_mapping_display (port_id : Z) : outcome (list stat_line) :=
  if port_id_is_invalid port_id st then Done valid_ports
  else
    _ ← port_read port_id;
    let rx := rx_mapping_enabled port_id in
    let tx := tx_mapping_enabled port_id in
    if negb rx && negb tx then Done [NoMapping port_id]
    else Done ((if rx then mapped_lines RxMapped port_id rxl else []) ++ (if tx then mapped_lines TxMapped port_id txl else [])).

(** ** Commands

    The lines, and the ports whose statistics and extended statistics were
    reset. *)
Definition shown : Type := list stat_line * list Z * list Z.

Definition cmd_showport_parsed (show what : string) (port : Z) : outcome shown :=
  if said show "clear" then
    Done (if said what "stats" then let '(l, r) := nic_stats_clear port in (l, r, [])
          else if said what "xstats" then ([], [], [port]) else ([], [], []))
  else
    l ← (if said what "info" then Done [OtherDisplay "info" port]
         else if said what "stats" then nic_stats_display port
         else if said what "xstats" then nic_xstats_display port
         else if said what "fdir" then Done [OtherDisplay "fdir" port]
         else if said what "stat_qmap" then nic_stats_mapping_display port
         else if said what "dcb_tc" then Done [OtherDisplay "dcb_tc" port]
         else Done []);
    Done (l, [], []).

(** [cmd_showportall_parsed]: the same for every port [FOREACH_PORT] visits. *)
Fixpoint show_ports (show what : string) (l : list Z) : outcome shown :=
  match l with
  | [] => Done ([], [], [])
  | i :: l =>
      '(ls, rs, xs) ← cmd_showport_parsed show what i;
      '(ls', rs', xs') ← show_ports show what l;
      Done (ls ++ ls', rs ++ rs', xs ++ xs')
  end.

Definition cmd_showportall_parsed (show what : string) : outcome shown := show_ports show what (port_ids (ports st)).
End Show.

(** ** Descriptors of a ring

    A ring is an array of 64-bit words; [le_to_cpu] is the conversion of a
    word from the little-endian order of the device. *)
Section Rings.
Variables (st : pstate) (nb_rxq nb_txq nb_rxd nb_txd : Z) (le_to_cpu : Z -> Z).

(** Whether the driver of a port has descriptors of 32 bytes when it receives
    ([strstr] of "i40e" in its name, when they are compiled in), and the zones
    of memory found by kind, port and queue. *)
Variables (long_rxd : Z -> bool) (zone : bool -> Z -> Z -> option (list Z)).

(** The two halves as they are printed: the members [lo] and [hi] of the
    union are the more and the less significant one. *)
Definition ring_rxd_display_dword (d : Z) : Z * Z := (Z.shiftr d 32, u32 d).

(** Converting [n] words from [i] on in place and printing them. *)
Fixpoint show_words (n : nat) (i : Z) (ring : list Z) : outcome (list (Z * Z) * list Z) :=
  match n with
  | O => Done ([], ring)
  | S n =>
      d ← of_opt (zget ring i);
      ring ← of_opt (zset ring i (le_to_cpu d));
      '(ls, ring) ← show_words n (i + 1) ring;
      Done (ring_rxd_display_dword (le_to_cpu d) :: ls, ring)
  end.

Definition ring_rx_descriptor_display (ring : list Z) (port_id desc_id : Z) : outcome (list (Z * Z) * list Z) :=
  if long_rxd port_id then show_words 4 (4 * desc_id) ring else show_words 2 (2 * desc_id) ring.

Definition ring_tx_descriptor_display (ring : list Z) (desc_id : Z) : outcome (list (Z * Z)) :=
  d0 ← of_opt (zget ring (2 * desc_id)); d1 ← of_opt (zget ring (2 * desc_id + 1));
  Done [ring_rxd_display_dword (le_to_cpu d0); ring_rxd_display_dword (le_to_cpu d1)].

(** What is printed, and the ring afterwards; [None] when a check fails or
    there is no such zone. *)
Definition rx_ring_desc_display (port_id q d : Z) : outcome (option (list (Z * Z) * list Z)) :=
  if port_id_is_invalid port_id st then Done None
  else if negb (q <? nb_rxq) then Done None
  else if negb (d <? nb_rxd) then Done None
  else
    _ ← of_opt (zget (ports st) port_id);
    match zone true port_id q with
    | None => Done None
    | Some ring => r ← ring_rx_descriptor_display ring port_id d; Done (Some r)
    end.

Definition tx_ring_desc_display (port_id q d : Z) : outcome (option (list (Z * Z) * list Z)) :=
  if port_id_is_invalid port_id st then Done None
  else if negb (q <? nb_txq) then Done None
  else if negb (d <? nb_txd) then Done None
  else
    _ ← of_opt (zget (ports st) port_id);
    match zone false port_id q with
    | None => Done None
    | Some ring => l ← ring_tx_descriptor_display ring d; Done (Some (l, ring))
    end.

Definition cmd_read_rxd_txd_parsed (rxd_txd : string) (port_id q d : Z) : outcome (option (list (Z * Z) * list Z)) :=
  if said rxd_txd "rxd" then rx_ring_desc_display port_id q d
  else if said rxd_txd "txd" then tx_ring_desc_display port_id q d
  else Done None.
End Rings.

(** ** Lemmas *)

Lemma port_read_valid st p : port_id_is_invalid p st = false -> p <> RTE_PORT_ALL -> port_read st p = Done tt.
Proof.
  intros Hp Hn. unfold port_id_is_invalid in Hp. destruct (Z.eqb_spec p RTE_PORT_ALL); [done|].
  unfold port_read. by destruct (zget (ports st) p).
Qed.

Lemma port_ids_valid st p : p ∈ port_ids (ports st) -> port_id_is_invalid p st = false.
Proof.
  intros (q & Hq & He)%elem_of_port_ids. unfold port_id_is_invalid. destruct (p =? RTE_PORT_ALL); [done|].
  by rewrite Hq, He.
Qed.

Lemma elem_of_mapped_lines line p l x :
  x ∈ mapped_lines line p l <-> exists m, m ∈ l /\ qm_port m = p /\ x = line (qm_queue m) (stats_counter_id m).
Proof.
  unfold mapped_lines. rewrite list_elem_of_bind. split.
  - intros (m & Hx & Hm). exists m. destruct (Z.eqb_spec (qm_port m) p); [|by apply elem_of_nil in Hx].
    by apply list_elem_of_singleton in Hx.
  - intros (m & Hm & <- & ->). exists m. rewrite Z.eqb_refl. split; [by left|done].
Qed.

(** The lines of a list of mappings are those of the map it stands for. *)
Lemma mapped_lines_map line p l q v
    (Hline : forall q v q' v', line q v = line q' v' -> q = q' /\ v = v') :
  one_each l -> line q v ∈ mapped_lines line p l <-> to_map l !! (p, q) = Some v.
Proof.
  intros Hl. rewrite elem_of_mapped_lines. unfold to_map. rewrite <- elem_of_list_to_map.
  2: { rewrite <- list_fmap_compose. exact Hl. }
  rewrite list_elem_of_fmap. split.
  - intros (m & Hm & <- & [-> ->]%Hline). by exists m.
  - intros (m & [= -> -> ->] & Hm). by exists m.
Qed.

Lemma mapM_entries (entries : list (string * Z)) n i :
  0 <= i -> (Z.to_nat i + n)%nat = length entries ->
  mapM (fun i => '(name, value) ← zget entries i; Some (Xstat name value)) (seqZ i (Z.of_nat n)) =
    Some ((fun e => Xstat e.1 e.2) <$> drop (Z.to_nat i) entries).
Proof.
  revert i. induction n as [|n IH]; intros i Hi Hl.
  - rewrite seqZ_nil by lia. by rewrite drop_ge by lia.
  - rewrite seqZ_cons by lia. cbn [mapM]. destruct (zget_is_Some entries i) as [[nm v] Hz]; [lia|]. rewrite Hz.
    cbn [mbind option_bind]. replace (Z.pred (Z.of_nat (S n))) with (Z.of_nat n) by lia.
    rewrite IH by lia. cbn [mbind option_bind]. apply zget_Some in Hz as [_ Hz].
    rewrite (drop_S _ _ _ Hz), Z2Nat.inj_succ by lia. done.
Qed.

Lemma mapM_none {A B} (f : A -> option B) l x : x ∈ l -> f x = None -> mapM f l = None.
Proof.
  intros Hx Hf. destruct (mapM f l) eqn:E; [|done]. apply mapM_Some in E.
  apply list_elem_of_lookup in Hx as [i Hi]. destruct (Forall2_lookup_l _ _ _ _ _ E Hi) as (y & _ & Hy). congruence.
Qed.

(** Two words of a ring. *)
Definition set_two (ring : list Z) (i v0 v1 : Z) : list Z := <[Z.to_nat (i + 1) := v1]> (<[Z.to_nat i := v0]> ring).

Lemma show_two f ring i w0 w1 :
  zget ring i = Some w0 -> zget ring (i + 1) = Some w1 ->
  show_words f 2 i ring = Done ([ring_rxd_display_dword (f w0); ring_rxd_display_dword (f w1)], set_two ring i (f w0) (f w1)).
Proof.
  intros H0 H1. pose proof H0 as [Hi Hl0]%zget_Some. pose proof H1 as [_ Hl1]%zget_Some.
  pose proof (lookup_lt_Some _ _ _ Hl1). cbn [show_words]. rewrite H0. cbn [of_opt mbind outcome_bind].
  rewrite zset_insert by lia. cbn [of_opt mbind outcome_bind].
  assert (E1 : zget (<[Z.to_nat i := f w0]> ring) (i + 1) = Some w1).
  { apply zget_Some. split; [lia|]. by rewrite list_lookup_insert_ne by lia. }
  rewrite E1. cbn [of_opt mbind outcome_bind]. by rewrite zset_insert by (rewrite length_insert; lia).
Qed.

Lemma set_two_get ring i w0 w1 v0 v1 :
  zget ring i = Some w0 -> zget ring (i + 1) = Some w1 ->
  zget (set_two ring i v0 v1) i = Some v0 /\ zget (set_two ring i v0 v1) (i + 1) = Some v1.
Proof.
  intros [Hi Hl0]%zget_Some [_ Hl1]%zget_Some. apply lookup_lt_Some in Hl1. unfold set_two. rewrite !zget_Some. split_and!; [lia| |lia|].
  - rewrite list_lookup_insert_ne by lia. apply list_lookup_insert_eq. lia.
  - apply list_lookup_insert_eq. rewrite length_insert. lia.
Qed.

Lemma set_two_undo ring i w0 w1 v0 v1 :
  zget ring i = Some w0 -> zget ring (i + 1) = Some w1 -> set_two (set_two ring i v0 v1) i w0 w1 = ring.
Proof.
  intros [Hi Hl0]%zget_Some [_ Hl1]%zget_Some. unfold set_two.
  rewrite (list_insert_insert_ne _ (Z.to_nat (i + 1)) (Z.to_nat i)), list_insert_insert_eq by lia.
  rewrite (list_insert_insert_ne _ (Z.to_nat i) (Z.to_nat (i + 1))), list_insert_insert_eq by lia.
  by rewrite (list_insert_id _ (Z.to_nat i)), list_insert_id.
Qed.

(** ** Properties *)

(** What the commands have mapped is what is shown: after any commands that
    map the queues of reception and of transmission, the display of a port
    lists exactly the counters its queues were last given. *)
Theorem stat_qmap_shows st c rcmds tcmds p
    (Hr : (length rcmds <= max_mappings true)%nat) (Ht : (length tcmds <= max_mappings false)%nat)
    (Hp : port_id_is_invalid p st = false) (Hn : p <> RTE_PORT_ALL) :
  exists rxl txl ls, set_qmaps st c true rcmds [] = Done rxl /\ set_qmaps st c false tcmds [] = Done txl /\
    nic_stats_mapping_display st (fun _ => true) (fun _ => true) rxl txl p = Done ls /\
    (forall q v, RxMapped q v ∈ ls <-> foldl (spec_set st c true) ∅ rcmds !! (p, q) = Some v) /\
    (forall q v, TxMapped q v ∈ ls <-> foldl (spec_set st c false) ∅ tcmds !! (p, q) = Some v).
Proof.
  destruct (set_qmaps_total st c true rcmds []) as [rxl Hrx]; [cbn [length]; lia|].
  destruct (set_qmaps_total st c false tcmds []) as [txl Htx]; [cbn [length]; lia|].
  destruct (set_qmaps_spec st c true rcmds [] rxl) as [Ho Hm]; [constructor|done|].
  destruct (set_qmaps_spec st c false tcmds [] txl) as [Ho' Hm']; [constructor|done|].
  change (to_map []) with (∅ : gmap (Z * Z) Z) in Hm, Hm'. rewrite <- Hm, <- Hm'.
  exists rxl, txl. unfold nic_stats_mapping_display. rewrite Hp, port_read_valid by done.
  cbn [mbind outcome_bind negb andb]. eexists. split; [done|]. split; [done|]. split; [done|]. split; intros q v.
  - rewrite <- (mapped_lines_map RxMapped) by (done || by intros ???? [= -> ->]).
    rewrite elem_of_app, (elem_of_mapped_lines TxMapped). split; [by intros [?|(? & _ & _ & ?)]|by left].
  - rewrite <- (mapped_lines_map TxMapped) by (done || by intros ???? [= -> ->]).
    rewrite elem_of_app, (elem_of_mapped_lines RxMapped). split; [by intros [(? & _ & _ & ?)|?]|by right].
Qed.

(** Clearing the statistics of all ports resets exactly the enabled ones, in
    order, and refuses none. *)
Theorem clear_all_resets st rxf txf rxl txl sget xc xg ok :
  cmd_showportall_parsed st rxf txf rxl txl sget xc xg ok "clear" "stats" =
    Done (Cleared <$> port_ids (ports st), port_ids (ports st), []).
Proof.
  unfold cmd_showportall_parsed. assert (Hv := port_ids_valid st).
  induction (port_ids (ports st)) as [|i l IH]; [done|]. cbn [show_ports].
  unfold cmd_showport_parsed at 1. change (said "clear" "clear") with true. change (said "stats" "stats") with true.
  cbv beta iota. unfold nic_stats_clear. rewrite Hv by left. cbn [mbind outcome_bind].
  rewrite IH by (intros; apply Hv; by right). done.
Qed.

(** The extended statistics are shown when the device has as many as it
    announced.  When it writes fewer, a success too, the loop still goes over
    all of the array and prints entries that were never written. *)
Theorem xstats_shown xc xg p
    (Hc : 0 <= xc p) (He : Z.of_nat (length (xg p).2) = (xg p).1) (Hl : 0 <= (xg p).1 <= xc p) :
  nic_xstats_display xc xg true p =
    if (xg p).1 =? xc p then Done ((fun e => Xstat e.1 e.2) <$> (xg p).2) else Undefined.
Proof.
  unfold nic_xstats_display. destruct (Z.ltb_spec (xc p) 0); [lia|]. destruct (xg p) as [ret es]. cbn [fst snd negb] in *.
  destruct (Z.ltb_spec ret 0); [lia|]. destruct (Z.ltb_spec (xc p) ret); [lia|]. cbn [orb].
  destruct (Z.eqb_spec ret (xc p)) as [<-|Hne].
  - rewrite <- He. by rewrite (mapM_entries es (length es) 0) by (cbn; lia).
  - rewrite (mapM_none _ _ ret); [done|apply elem_of_seqZ; lia|].
    destruct (zget es ret) eqn:Ez; [|done]. apply zget_Some in Ez as [_ Ez%lookup_lt_Some]. lia.
Qed.

(** The message of a refused port lists port 0 twice. *)
Theorem valid_ports_twice st (H0 : 0 ∈ port_ids (ports st)) : exists l, valid_ports st = [ValidPorts l] /\ ~ NoDup l.
Proof. eexists. split; [done|]. by intros [Hn _]%NoDup_cons. Qed.

(** Showing a receive descriptor converts it where the device reads it: on a
    machine whose order of bytes is not the device's, the second time shows
    the words unconverted, and only then the ring is as it was. *)
Theorem rx_descriptor_twice f long ring p d w0 w1
    (Hf : forall x, f (f x) = x) (Hl : long p = false) (H0 : zget ring (2 * d) = Some w0) (H1 : zget ring (2 * d + 1) = Some w1) :
  exists ring', ring_rx_descriptor_display f long ring p d =
      Done ([ring_rxd_display_dword (f w0); ring_rxd_display_dword (f w1)], ring') /\
    zget ring' (2 * d) = Some (f w0) /\
    ring_rx_descriptor_display f long ring' p d = Done ([ring_rxd_display_dword w0; ring_rxd_display_dword w1], ring).
Proof.
  unfold ring_rx_descriptor_display. rewrite Hl, (show_two f ring _ w0 w1) by done.
  exists (set_two ring (2 * d) (f w0) (f w1)). split; [done|].
  destruct (set_two_get ring (2 * d) w0 w1 (f w0) (f w1) H0 H1) as [E0 E1]. split; [done|].
  rewrite (show_two f _ _ (f w0) (f w1)), !Hf by done. by rewrite (set_two_undo _ _ w0 w1).
Qed.

(** ** Witnesses *)

Lemma stat_qmap_shows_witness : exists rxl txl ls,
  set_qmaps sample_state (sample_config 255) true [(0, 0, 3); (1, 0, 4); (0, 0, 5)] [] = Done rxl /\
  set_qmaps sample_state (sample_config 255) false [(0, 0, 7)] [] = Done txl /\
  nic_stats_mapping_display sample_state (fun _ => true) (fun _ => true) rxl txl 0 = Done ls /\
  RxMapped 0 5 ∈ ls /\ TxMapped 0 7 ∈ ls.
Proof.
  destruct (stat_qmap_shows sample_state (sample_config 255) [(0, 0, 3); (1, 0, 4); (0, 0, 5)] [(0, 0, 7)] 0)
    as (rxl & txl & ls & H1 & H2 & H3 & H4 & H5).
  - apply Nat.leb_le. reflexivity.
  - apply Nat.leb_le. reflexivity.
  - reflexivity.
  - discriminate.
  - exists rxl, txl, ls. repeat (split; [assumption|]). split; [apply H4|apply H5]; vm_compute; reflexivity.
Defined.

Lemma xstats_shown_witness : nic_xstats_display (fun _ => 2) (fun _ => (1, [("rx"%string, 7)])) true 0 = Undefined.
Proof.
  apply (xstats_shown (fun _ => 2) (fun _ => (1, [("rx"%string, 7)])) 0).
  - lia.
  - reflexivity.
  - cbn. lia.
Defined.

Lemma valid_ports_twice_witness : exists l, valid_ports sample_state = [ValidPorts l] /\ ~ NoDup l.
Proof. apply valid_ports_twice. vm_compute. left. Defined.

Lemma rx_descriptor_twice_witness : exists ring',
  ring_rx_descriptor_display (fun x => Z.lxor x 255) (fun _ => false) [0; 0; 1; 2] 0 1 = Done ([(0, 254); (0, 253)], ring') /\
  zget ring' 2 = Some 254 /\
  ring_rx_descriptor_display (fun x => Z.lxor x 255) (fun _ => false) ring' 0 1 = Done ([(0, 1); (0, 2)], [0; 0; 1; 2]).
Proof.
  apply (rx_descriptor_twice (fun x => Z.lxor x 255) (fun _ => false) [0; 0; 1; 2] 0 1 1 2).
  - intros x. rewrite Z.lxor_assoc. apply Z.lxor_0_r.
  - reflexivity.
  - reflexivity.
  - reflexivity.
Defined.
